(* ===== verification/_CoqProject ===== *)
-Q . S2P
Prelude.v
VmxDefs.v
Libcflat.v
Mem.v
Spinlock.v
AllocPage.v
PageTable.v
TableRange.v
PtDemo.v
AllocPhys.v
Ept.v
X86Vm.v
Vmalloc.v
Fwcfg.v
VmxState.v
Vmx.v
Boot.v
Bitfield.v
Vtd.v
Stack.v
Desc.v
Apic.v
Smp.v
SmpInit.v
Monitor.v
Bytes.v
CString.v
Alloc.v
Argv.v
Isr.v
Setup.v
Printf.v
Acpi.v
Report.v
Console.v
Pci.v
Iommu.v
Edu.v
Testdev.v
Virtio.v
Elf.v
ElfLoad.v
