(* ===== verification/Prelude.v ===== *)
(** * ASOR: a small x86 hypervisor and the library it runs on

    The program (see src/README.md) is loaded by a multiboot loader.  Assembly code
    (x86/cstart64.S) switches to 64-bit mode and calls the C code: lib/x86/setup.c takes
    over what the loader left, and [asor_entry] (x86/asor.c) greets, brings up memory and
    paging, turns virtualisation on through the interface of core/virt.c, runs a guest in
    VMX non-root operation and halts.  lib/ is the support library: allocators, page
    tables, strings and formatted output, consoles, exceptions, APICs, inter-processor
    calls, PCI, an IOMMU driver, virtqueues and an ELF loader.  The development models the
    x86_64 build and proves each component correct, on its own and composed.

    ** How the code is modelled

    A function of the source is a definition of the same name; a loop is a Fixpoint named
    after it.  [outcome] below tells how a piece of code ends: [Done] with a value,
    [Abort] (a failed [assert]), [Fault] (an access the model's objects do not contain),
    [NoFuel] or [Hang] (a lock that is never released).  Code with effects is in [stM S],
    state passing over the state [S] of its component; [zoom] runs the code of one
    component on a part of the state of another, which is how the files compose.
    Integers are in [Z] with the wrap-around of their C type written out ([u8] .. [u64],
    [s32], [s64]).  Memory is modelled at the granularity the code uses: 64-bit words for
    the page-table and allocator code (Mem.v), bytes with the extent of the live objects
    for code on [char] pointers (Bytes.v), lists for arrays that are only indexed.  What
    is printed is a log of the calls of [printf], newest first, except in Printf.v and
    Console.v, where printing itself is the subject.

    ** The files

    Foundations.
    - Prelude.v: outcomes, [stM], machine integers and bit-level automation ([zbits]),
      loops with fuel, lists used as C arrays.
    - Libcflat.v: lib/libcflat.h, lib/bitops.h, asm/page.h.  VmxDefs.v: the constants of
      x86/vmx.h, msr.h, processor.h.  Bitfield.v: members of packed structures.
    - Mem.v, Bytes.v: the two memories.  Spinlock.v: asm-generic/spinlock.h.

    Memory management.
    - AllocPhys.v, AllocPage.v, Alloc.v: lib/alloc_phys.c, alloc_page.c, alloc.c.
      AllocPage.v exports the interface [PageSource] with the laws [PageSourceLaws]: what
      page-table code needs of a supplier of zeroable frames.
    - PageTable.v: the specification of a radix walk ([translate], [tree]) for the three
      formats of the program; TableRange.v: mapping a range block by block, from the
      interface [TableInstall] of one install.  PtDemo.v: concrete memories.
    - Ept.v, X86Vm.v, Vtd.v: the three writers of page tables, x86/ept.c, lib/x86/vm.c and
      lib/x86/intel-iommu.c, each proved against that specification.
    - Vmalloc.v: lib/vmalloc.c, [setup_mmu], [ioremap]; it puts paging on top of both
      allocators.

    The hypervisor.
    - Fwcfg.v: lib/x86/fwcfg.c.  VmxState.v, Vmx.v: x86/vmx.c, the rest of x86/ept.c and
      x86/vm.c.  Boot.v: core/virt.c, x86/asor.c.  Setup.v, Argv.v: lib/x86/setup.c,
      lib/argv.c.

    Processor and devices.
    - Desc.v: lib/x86/desc.c (exceptions as programs that raise and are resumed), with
      fault_test.c and usermode.c.  Isr.v: lib/x86/isr.c, down to the machine code it
      writes.  Stack.v: lib/stack.c.
    - Apic.v: lib/x86/apic.c.  Smp.v: the protocol of lib/x86/smp.c under any
      interleaving; SmpInit.v: its initialisation.
    - Pci.v, Edu.v, Testdev.v, Iommu.v: lib/pci.c, pci-edu.c, pci-testdev.c and
      x86/intel-iommu.c.  Virtio.v: lib/virtio.c.  Acpi.v: lib/x86/acpi.c.

    Text and programs.
    - CString.v, Printf.v: lib/string.c, util.c, printf.c.  Monitor.v, Console.v:
      driver/monitor.c and lib/x86/io.c.  Report.v: lib/report.c.
    - Elf.v, ElfLoad.v: lib/elf.c.

    ** What the theorems show

    - The whole run: [asor_entry_correct] (Boot.v) from power-on to the final halt loop,
      with [x86_virt_enable_runs] (the bring-up succeeds and the guest ends with its
      hypercall), [init_vmcs_correct] and [setup_ept_correct] (Vmx.v) for its steps, and
      [setup_correct] (Setup.v) for what comes before it.
    - Page tables: an install changes the translation of its block and of nothing else, a
      range is mapped exactly, splitting a large page preserves every translation
      (Ept.v, X86Vm.v, TableRange.v); mapping for a device adds the range to that device
      only, and no device reaches memory before (Vtd.v, Iommu.v).
    - Allocators: blocks are disjoint, aligned and inside their bounds; what is freed is
      what was handed out (AllocPhys.v, AllocPage.v, Alloc.v, Vmalloc.v).
    - Refinements of abstract specifications: the text console is a terminal
      ([monitor_put_correct]), a virtqueue is a queue under any interleaving with the
      device ([virtqueue_correct]), the IPI protocol is a queue of calls per CPU with
      completion and progress (Smp.v).
    - Exceptions and interrupts: the IDT operations keep their invariant; an exception
      goes to its handler or fixup or aborts; the code written by [handle_irq] runs the
      function (Desc.v, Isr.v); the two APIC modes agree (Apic.v); remapped interrupts
      arrive as set up (Iommu.v).
    - Devices: reading and moving BARs of any kind, the walk over capabilities
      terminates whatever the device answers (Pci.v); finding and enabling a device, a
      DMA transfer from start to end (Edu.v), the tests of a device (Testdev.v).
    - Text: [vsnprintf] against a reference rendering of any format (Printf.v), both
      consoles show the same text (Console.v), the prefixes and verdicts of reports.
    - ELF: segments, zeros and protections of a loaded program, and the stack it starts
      with (ElfLoad.v).
    Errors are part of the statements: NULL results, assertions that fail, devices that
    are not there.

    ** Fuel

    A loop that is not structural takes fuel, one unit for a turn, and its theorem says
    how much suffices, so that it also states termination: the length of the free list
    for [alloc_pages], the length of the string or of the list of entries for text and
    tables, 255 capabilities plus one for [pci_cap_walk], the number of pages of a range.
    A loop that waits for a device is bounded by the delay of the device's hypothesis
    (for instance [dm_delay], [ed_delay]).  Where the hardware or a caller may keep a loop
    going for ever, the model keeps it too and the theorem names the condition (HLT loops,
    [pci_testdev_all], waiting CPUs in Smp.v).

    ** What is assumed of the surroundings

    Nothing is assumed globally.  Hardware and host are parameters: as records of
    functions ([hardware] of Vmx.v, the host calls [os] of Elf.v) or classes ([Platform],
    [LocalApic], [IoApic] of Apic.v; [Ports], [Conf1] of Pci.v; [Mmio64], [Dmar] of
    Iommu.v; [EduDev], [serves]; [FixedMmap] of ElfLoad.v), whose laws are the
    documented behaviour of one register or call each.  The theorems are applied to
    concrete instances of them next to their proofs.

    ** Not modelled

    - The other architectures (lib/arm, arm64, powerpc, ppc64, s390x) and what only they
      use: lib/devicetree.c, lib/pci-host-generic.c, lib/virtio-mmio.c,
      lib/chr-testdev.c; the vendored lib/libfdt.
    - Assembly: start code, interrupt entries, setjmp.  Their effect on the C code is a
      parameter or a step of a model (Desc.v, Isr.v, Smp.v, Setup.v).
    - [exit] and [abort] beyond the outcome [Abort], pauses and barriers, the 32-bit
      variants of shared files, and the 32-bit task gates of desc.c.
    - Instruction timing, caches and the TLB: translations are those of the tables in
      memory. *)
From Stdlib Require Import ZArith Lia Bool.
From stdpp Require Export strings numbers base option gmap list_numbers list.

#[export] Set Default Goal Selector "!".
#[local] Open Scope Z_scope.

(** ** Outcomes of C code

    [Done] is a normal return.  [Abort] is a failed [assert]/[abort()].  [Fault]
    is an access the modelled object does not contain (undefined behaviour in C).
    [NoFuel] is a loop that has used up the fuel of the model; [Hang] is a wait
    that can never be satisfied (a spin on a lock that nobody releases). *)
Inductive outcome (A : Type) : Type :=
| Done (a : A)
| Abort
| Fault
| NoFuel
| Hang.
Arguments Done {A} a.
Arguments Abort {A}.
Arguments Fault {A}.
Arguments NoFuel {A}.
Arguments Hang {A}.

#[export] Instance outcome_ret : MRet outcome := fun A => @Done A.
#[export] Instance outcome_bind : MBind outcome := fun A B f m =>
  match m with
  | Done a => f a
  | Abort => Abort
  | Fault => Fault
  | NoFuel => NoFuel
  | Hang => Hang
  end.
#[export] Instance outcome_fmap : FMap outcome := fun A B f m =>
  match m with
  | Done a => Done (f a)
  | Abort => Abort
  | Fault => Fault
  | NoFuel => NoFuel
  | Hang => Hang
  end.

#[export] Instance outcome_eq_dec `{EqDecision A} : EqDecision (outcome A).
Proof. solve_decision. Defined.

(** [assert(cond)] of libcflat.h: a false condition prints and calls [abort()]. *)
Definition c_assert (b : bool) : outcome unit := if b then Done tt else Abort.

Definition of_option {A} (o : option A) : outcome A :=
  match o with Some a => Done a | None => Fault end.

Section outcome_laws.
Context {A B C : Type}.

Lemma bind_Done (a : A) (f : A → outcome B) : (Done a ≫= f) = f a.
Proof. done. Qed.

Lemma bind_Done_inv (m : outcome A) (f : A → outcome B) b :
  (m ≫= f) = Done b → ∃ a, m = Done a ∧ f a = Done b.
Proof. destruct m; cbn; intros; simplify_eq; eauto. Qed.

Lemma bind_assoc (m : outcome A) (f : A → outcome B) (g : B → outcome C) :
  ((m ≫= f) ≫= g) = (m ≫= λ a, f a ≫= g).
Proof. by destruct m. Qed.

Lemma bind_ret_r (m : outcome A) : (m ≫= mret) = m.
Proof. by destruct m. Qed.
End outcome_laws.

Lemma c_assert_Done (b : bool) : c_assert b = Done tt ↔ b = true.
Proof. destruct b; cbn; naive_solver. Qed.

(** ** Stateful code

    [stM S A]: code that reads and changes a state of type [S], returns a value
    and may end in one of the outcomes above. *)
Definition stM (S A : Type) : Type := S → outcome (A * S).

#[export] Instance stM_ret {S} : MRet (stM S) := λ A a s, Done (a, s).
#[export] Instance stM_bind {S} : MBind (stM S) := λ A B f m s,
  match m s with
  | Done (a, s') => f a s'
  | Abort => Abort
  | Fault => Fault
  | NoFuel => NoFuel
  | Hang => Hang
  end.

Section stM.
Context {S : Type}.
Definition get : stM S S := λ s, Done (s, s).
Definition gets {A} (f : S → A) : stM S A := λ s, Done (f s, s).
Definition modify (f : S → S) : stM S unit := λ s, Done (tt, f s).
Definition lift {A} (m : outcome A) : stM S A := λ s, a ← m; Done (a, s).
Definition when (b : bool) (m : stM S unit) : stM S unit := if b then m else mret tt.
(** Code on a part of the state. *)
Definition zoom {T A} (getT : S → T) (setT : T → S → S) (m : stM T A) : stM S A :=
  λ s, '(a, t) ← m (getT s); Done (a, setT t s).

Lemma stM_bind_Done {A B} (m : stM S A) (f : A → stM S B) s a s' :
  m s = Done (a, s') → (m ≫= f) s = f a s'.
Proof. intros E. unfold mbind, stM_bind. by rewrite E. Qed.
Lemma stM_bind_inv {A B} (m : stM S A) (f : A → stM S B) s r :
  (m ≫= f) s = Done r → ∃ a s', m s = Done (a, s') ∧ f a s' = Done r.
Proof. unfold mbind, stM_bind. destruct (m s) as [[a s']| | | |]; intros; try done. eauto. Qed.
Lemma stM_bind_assoc {A B C} (m : stM S A) (f : A → stM S B) (g : B → stM S C) s :
  ((m ≫= f) ≫= g) s = (m ≫= λ a, f a ≫= g) s.
Proof. unfold mbind, stM_bind. by destruct (m s) as [[a s']| | | |]. Qed.
Lemma stM_bind_ext {A B} (m : stM S A) (f g : A → stM S B) s :
  (∀ a t, f a t = g a t) → (m ≫= f) s = (m ≫= g) s.
Proof. intros E. unfold mbind, stM_bind. destruct (m s) as [[a t]| | | |]; [apply E|done..]. Qed.
End stM.

(** Evaluation of straight-line code, one bind at a time. *)
Section stM_eval.
Context {S : Type}.
Lemma bind_gets {A B} (g : S → A) (f : A → stM S B) s : (gets g ≫= f) s = f (g s) s.
Proof. done. Qed.
Lemma bind_get {B} (f : S → stM S B) s : (get ≫= f) s = f s s.
Proof. done. Qed.
Lemma bind_modify {B} (g : S → S) (f : unit → stM S B) s : (modify g ≫= f) s = f tt (g s).
Proof. done. Qed.
Lemma bind_mret {A B} (a : A) (f : A → stM S B) s : (mret a ≫= f) s = f a s.
Proof. done. Qed.
Lemma bind_lift_Done {A B} (a : A) (f : A → stM S B) s : (lift (Done a) ≫= f) s = f a s.
Proof. done. Qed.
Lemma bind_zoom {T A B} (getT : S → T) setT (m : stM T A) (f : A → stM S B) s a t :
  m (getT s) = Done (a, t) → (zoom getT setT m ≫= f) s = f a (setT t s).
Proof. intros E. unfold zoom, mbind, stM_bind. by rewrite E. Qed.
End stM_eval.

(** [mrun] runs the state code of the goal as far as it is determined; the
    components extend [mrun_unfold] with their primitives. *)
Ltac mrun_unfold := idtac.
Ltac mstep :=
  match goal with
  | |- context [((?m ≫= ?f) ≫= ?g) ?s] => rewrite (stM_bind_assoc m f g s)
  | |- context [(gets ?g ≫= ?f) ?s] => rewrite (bind_gets g f s)
  | |- context [(get ≫= ?f) ?s] => rewrite (bind_get f s)
  | |- context [(modify ?g ≫= ?f) ?s] => rewrite (bind_modify g f s)
  | |- context [(mret ?a ≫= ?f) ?s] => rewrite (bind_mret a f s)
  | |- context [(lift (Done ?a) ≫= ?f) ?s] => rewrite (bind_lift_Done a f s)
  end; cbv beta.
Ltac mrun := mrun_unfold; cbv beta zeta; repeat (mstep; mrun_unfold; cbv beta zeta).

(** ** Loops with fuel *)
Fixpoint while_loop {S : Type} (fuel : nat) (cond : S → bool)
    (body : S → outcome S) (s : S) : outcome S :=
  if cond s then
    match fuel with
    | O => NoFuel
    | Datatypes.S f => s' ← body s; while_loop f cond body s'
    end
  else Done s.

(** Total-correctness rule: an invariant, a body that never fails under it and
    a measure bounded by the fuel. *)
Lemma while_rule {S : Type} (I : S → Prop) (μ : S → nat) cond body :
  (∀ s, I s → cond s = true →
        ∃ s', body s = Done s' ∧ I s' ∧ (μ s' < μ s)%nat) →
  ∀ fuel s, I s → (μ s ≤ fuel)%nat →
  ∃ s', while_loop fuel cond body s = Done s' ∧ I s' ∧ cond s' = false.
Proof.
  intros Hstep fuel. induction fuel as [|fuel IH]; intros s HI Hμ; cbn.
  - destruct (cond s) eqn:Hc; [|eauto].
    destruct (Hstep s HI Hc) as (? & _ & _ & ?). lia.
  - destruct (cond s) eqn:Hc; [|eauto].
    destruct (Hstep s HI Hc) as (s' & -> & HI' & ?). cbn. apply IH; [done|lia].
Qed.

(** More fuel does not change a finished loop. *)
Lemma while_fuel_mono {S : Type} (cond : S → bool) body f1 f2 (s r : S) :
  while_loop f1 cond body s = Done r → (f1 ≤ f2)%nat →
  while_loop f2 cond body s = Done r.
Proof.
  revert f2 s. induction f1 as [|f1 IH]; intros f2 s Hr Hle.
  - cbn in Hr. destruct f2; cbn; by destruct (cond s).
  - destruct f2 as [|f2]; [lia|]. cbn in *. destruct (cond s); [|done].
    apply bind_Done_inv in Hr as (s' & -> & Hr). cbn. apply IH; [done|lia].
Qed.

(** ** Machine integers *)
Definition u8 (x : Z) : Z := x mod 2 ^ 8.
Definition u16 (x : Z) : Z := x mod 2 ^ 16.
Definition u32 (x : Z) : Z := x mod 2 ^ 32.
Definition u64 (x : Z) : Z := x mod 2 ^ 64.
(** Two's complement reading of a [w]-bit pattern. *)
Definition signed (w x : Z) : Z :=
  let y := x mod 2 ^ w in if y <? 2 ^ (w - 1) then y else y - 2 ^ w.
Definition s8 (x : Z) : Z := signed 8 x.
Definition s32 (x : Z) : Z := signed 32 x.
Definition s64 (x : Z) : Z := signed 64 x.

Definition in_u64 (x : Z) : Prop := 0 ≤ x < 2 ^ 64.
Definition in_u32 (x : Z) : Prop := 0 ≤ x < 2 ^ 32.

(** Bitwise complement of a 64-bit (32-bit) pattern. *)
Definition not64 (x : Z) : Z := Z.ldiff (Z.ones 64) x.
Definition not32 (x : Z) : Z := Z.ldiff (Z.ones 32) x.

Lemma u64_small x : in_u64 x → u64 x = x.
Proof. apply Z.mod_small. Qed.
Lemma s32_small x : - 2 ^ 31 ≤ x < 2 ^ 31 → s32 x = x.
Proof.
  unfold s32, signed. intros Hx. change (2 ^ (32 - 1)) with (2 ^ 31). destruct (decide (0 ≤ x)).
  - rewrite Z.mod_small by lia. by rewrite (proj2 (Z.ltb_lt _ _)) by lia.
  - assert (x mod 2 ^ 32 = x + 2 ^ 32) as ->.
    { replace x with (x + 2 ^ 32 + (-1) * 2 ^ 32) at 1 by lia. rewrite Z.mod_add by lia. apply Z.mod_small. lia. }
    rewrite (proj2 (Z.ltb_ge _ _)) by lia. lia.
Qed.
Lemma u32_small x : in_u32 x → u32 x = x.
Proof. apply Z.mod_small. Qed.
Lemma u8_small x : 0 ≤ x < 2 ^ 8 → u8 x = x.
Proof. apply Z.mod_small. Qed.
Lemma u16_small x : 0 ≤ x < 2 ^ 16 → u16 x = x.
Proof. apply Z.mod_small. Qed.
Lemma u64_range x : in_u64 (u64 x).
Proof. apply Z.mod_pos_bound. lia. Qed.
Lemma u32_range x : in_u32 (u32 x).
Proof. apply Z.mod_pos_bound. lia. Qed.
Lemma u16_range x : 0 ≤ u16 x < 2 ^ 16.
Proof. apply Z.mod_pos_bound. lia. Qed.
Lemma u8_range x : 0 ≤ u8 x < 2 ^ 8.
Proof. apply Z.mod_pos_bound. lia. Qed.

Create HintDb asor discriminated.
#[export] Hint Resolve u64_range u32_range u16_range u8_range : asor.

(** ** Alignment *)
Lemma aligned_gap p x y :
  0 < p → x mod p = 0 → y mod p = 0 → x ≤ y < x + p → y = x.
Proof.
  intros Hp Hx Hy Hb. assert ((y - x) mod p = 0) as Hd.
  { by rewrite Zminus_mod, Hx, Hy, Z.sub_0_r, Z.mod_0_l by lia. }
  rewrite Z.mod_small in Hd by lia. lia.
Qed.

Lemma aligned_add p x y : 0 < p → x mod p = 0 → y mod p = 0 → (x + y) mod p = 0.
Proof. intros Hp Hx Hy. by rewrite Zplus_mod, Hx, Hy, Z.add_0_r, Z.mod_0_l by lia. Qed.

Lemma aligned_next p x y :
  0 < p → x mod p = 0 → y mod p = 0 → x < y → x + p ≤ y.
Proof.
  intros Hp Hx Hy Hlt. destruct (decide (x + p ≤ y)); [done|].
  assert (y = x) by (apply (aligned_gap p); lia). lia.
Qed.

(** ** Bit-level reasoning *)
Lemma testbit_above n x i : 0 ≤ x < 2 ^ n → n ≤ i → Z.testbit x i = false.
Proof.
  intros Hx Hi. destruct (decide (x = 0)) as [->|]; [apply Z.testbit_0_l|].
  apply Z.bits_above_log2; [lia|].
  apply Z.log2_lt_pow2; [lia|].
  apply Z.lt_le_trans with (2 ^ n); [lia|]. apply Z.pow_le_mono_r; lia.
Qed.

Lemma testbit_aligned n x i : x mod 2 ^ n = 0 → 0 ≤ i < n → Z.testbit x i = false.
Proof.
  intros Hx Hi. rewrite <- (Z.mod_pow2_bits_low x n i) by lia.
  rewrite Hx. apply Z.testbit_0_l.
Qed.

Lemma aligned_of_testbit n x :
  0 ≤ n → (∀ i, 0 ≤ i < n → Z.testbit x i = false) → x mod 2 ^ n = 0.
Proof.
  intros Hn Hb. apply Z.bits_inj'. intros i Hi. rewrite Z.testbit_0_l.
  destruct (decide (i < n)).
  - rewrite Z.mod_pow2_bits_low by lia. apply Hb. lia.
  - apply Z.mod_pow2_bits_high. lia.
Qed.

Lemma testbit_ones n i : 0 ≤ n → Z.testbit (Z.ones n) i = (0 <=? i) && (i <? n).
Proof.
  intros Hn. destruct (Z.ltb_spec i n), (Z.leb_spec 0 i); cbn.
  - apply Z.ones_spec_low. lia.
  - apply Z.testbit_neg_r. lia.
  - apply Z.ones_spec_high. lia.
  - apply Z.testbit_neg_r. lia.
Qed.

Lemma testbit_shiftl x n i : 0 ≤ i → Z.testbit (Z.shiftl x n) i = Z.testbit x (i - n).
Proof. intros. by rewrite Z.shiftl_spec. Qed.
Lemma testbit_shiftr x n i : 0 ≤ i → Z.testbit (Z.shiftr x n) i = Z.testbit x (i + n).
Proof. intros. by rewrite Z.shiftr_spec. Qed.
Lemma testbit_mod_pow2 x n i :
  0 ≤ n → Z.testbit (x mod 2 ^ n) i = (i <? n) && Z.testbit x i.
Proof.
  intros. destruct (Z.ltb_spec i n); cbn.
  - destruct (decide (0 ≤ i)); [by rewrite Z.mod_pow2_bits_low by lia|].
    by rewrite !Z.testbit_neg_r by lia.
  - by apply Z.mod_pow2_bits_high.
Qed.
Lemma testbit_pow2 n i : 0 ≤ n → Z.testbit (2 ^ n) i = (i =? n).
Proof.
  intros. destruct (Z.eqb_spec i n) as [->|]; [by apply Z.pow2_bits_true|].
  by apply Z.pow2_bits_false.
Qed.
Lemma land_pow2_zero x k : 0 ≤ k → (Z.land x (2 ^ k) =? 0) = negb (Z.testbit x k).
Proof.
  intros Hk. apply eq_true_iff_eq. rewrite Z.eqb_eq, negb_true_iff. split.
  - intros E. apply (f_equal (λ y, Z.testbit y k)) in E. rewrite Z.land_spec, testbit_pow2, Z.eqb_refl, andb_true_r in E by done.
    by rewrite E, Z.bits_0.
  - intros E. apply Z.bits_inj'. intros i Hi. rewrite Z.land_spec, testbit_pow2, Z.bits_0 by done.
    destruct (Z.eqb_spec i k) as [->|]; [by rewrite E|by rewrite andb_false_r].
Qed.
Lemma testbit_1 i : Z.testbit 1 i = (i =? 0).
Proof. apply (testbit_pow2 0). lia. Qed.
Lemma testbit_not64 x i :
  0 ≤ i → Z.testbit (not64 x) i = (i <? 64) && negb (Z.testbit x i).
Proof.
  intros. unfold not64. rewrite Z.ldiff_spec, testbit_ones by lia.
  destruct (Z.leb_spec 0 i); [done|lia].
Qed.
Lemma testbit_not32 x i :
  0 ≤ i → Z.testbit (not32 x) i = (i <? 32) && negb (Z.testbit x i).
Proof.
  intros. unfold not32. rewrite Z.ldiff_spec, testbit_ones by lia.
  destruct (Z.leb_spec 0 i); [done|lia].
Qed.

(** One rewriting step of [Z.testbit]; the arguments are given so that nothing is
    unfolded by unification.  Later files extend [zbits_ext] with the bit
    patterns they define. *)
Ltac zbits_ext := fail.
Ltac zbits_step :=
  match goal with
  | |- context [Z.testbit (Z.land ?a ?b) ?i] => rewrite (Z.land_spec a b i)
  | |- context [Z.testbit (Z.lor ?a ?b) ?i] => rewrite (Z.lor_spec a b i)
  | |- context [Z.testbit (Z.lxor ?a ?b) ?i] => rewrite (Z.lxor_spec a b i)
  | |- context [Z.testbit (not64 ?a) ?i] => rewrite (testbit_not64 a i) by lia
  | |- context [Z.testbit (not32 ?a) ?i] => rewrite (testbit_not32 a i) by lia
  | |- context [Z.testbit (Z.ldiff ?a ?b) ?i] => rewrite (Z.ldiff_spec a b i)
  | |- context [Z.testbit (Z.shiftl ?a ?n) ?i] => rewrite (testbit_shiftl a n i) by lia
  | |- context [Z.testbit (Z.shiftr ?a ?n) ?i] => rewrite (testbit_shiftr a n i) by lia
  | |- context [Z.testbit (Z.ones ?n) ?i] => rewrite (testbit_ones n i) by lia
  | |- context [Z.testbit (?x mod 2 ^ ?n) ?i] => rewrite (testbit_mod_pow2 x n i) by lia
  | |- context [Z.testbit (2 ^ ?n) ?i] => rewrite (testbit_pow2 n i) by lia
  | |- context [Z.testbit 0 ?i] => rewrite (Z.testbit_0_l i)
  | |- context [Z.testbit 1 ?i] => rewrite (testbit_1 i)
  | |- context [Z.testbit ?x ?i] => rewrite (Z.testbit_neg_r x i) by lia
  | |- _ => zbits_ext
  end.

(** [zbits] turns an equation of bit patterns into one of booleans, one bit at
    a time; [zbits_cmp] splits the comparisons of bit positions. *)
Ltac zbits_cmp :=
  repeat match goal with
  | |- context [?a <? ?b] => destruct (Z.ltb_spec a b); try lia
  | |- context [?a <=? ?b] => destruct (Z.leb_spec a b); try lia
  | |- context [?a =? ?b] => destruct (Z.eqb_spec a b); try lia
  end.
Ltac zbits :=
  apply Z.bits_inj'; let i := fresh "i" in let Hi := fresh "Hi" in intros i Hi;
  repeat zbits_step; zbits_cmp; cbn [andb orb negb];
  rewrite ?andb_false_r, ?orb_false_r, ?andb_true_r, ?orb_true_r; try done.

Lemma in_u64_bits x : 0 ≤ x → (∀ i, 64 ≤ i → Z.testbit x i = false) → in_u64 x.
Proof.
  intros H0 Hb. split; [done|]. rewrite <- (Z.mod_small x (2 ^ 64 * 2 ^ (Z.log2 x + 1))).
  2:{ split; [done|]. pose proof (Z.log2_spec x). pose proof (Z.pow_pos_nonneg 2 (Z.log2 x)).
      pose proof (Z.log2_nonneg x).
      destruct (decide (x = 0)) as [->|]; [nia|].
      rewrite Z.add_1_r. nia. }
  clear H0. pose proof (Z.log2_nonneg x).
  assert (x = x mod 2 ^ 64) as E.
  { apply Z.bits_inj'. intros i Hi. rewrite testbit_mod_pow2 by lia.
    destruct (Z.ltb_spec i 64); [done|]. by apply Hb. }
  pose proof (Z.mod_pos_bound x (2 ^ 64)). rewrite Z.mod_small; [lia|].
  split; [lia|]. assert (1 ≤ 2 ^ (Z.log2 x + 1)); [|nia].
  pose proof (Z.pow_pos_nonneg 2 (Z.log2 x + 1)). lia.
Qed.

Lemma lor_shift_add r b k : 0 ≤ r < 2 ^ k → 0 ≤ k → Z.lor r (Z.shiftl b k) = r + b * 2 ^ k.
Proof.
  intros Hr Hk. assert (Z.land r (Z.shiftl b k) = 0) as H0.
  { apply Z.bits_inj'. intros i Hi. repeat zbits_step.
    destruct (decide (i < k)).
    - rewrite (Z.testbit_neg_r b) by lia. by rewrite andb_false_r.
    - by rewrite (testbit_above k r i) by lia. }
  rewrite <- Z.lxor_lor, <- Z.add_nocarry_lxor by done. by rewrite Z.shiftl_mul_pow2.
Qed.

(** ** Counted loops

    [for (i = lo; i < lo + n; i++) body(i);] *)
Fixpoint for_up {S : Type} (n : nat) (i : Z) (body : Z → stM S unit) : stM S unit :=
  match n with
  | O => mret tt
  | Datatypes.S n => body i;; for_up n (i + 1) body
  end.

(** The loop ends in a state related by [I] to the iteration count. *)
Lemma for_up_rule {S : Type} (I : Z → S → Prop) (body : Z → stM S unit) n lo s :
  I lo s →
  (∀ i t, lo ≤ i < lo + Z.of_nat n → I i t → ∃ t', body i t = Done (tt, t') ∧ I (i + 1) t') →
  ∃ s', for_up n lo body s = Done (tt, s') ∧ I (lo + Z.of_nat n) s'.
Proof.
  revert lo s. induction n as [|n IH]; intros lo s H0 Hstep.
  - exists s. split; [done|]. by rewrite Z.add_0_r.
  - destruct (Hstep lo s ltac:(lia) H0) as (t & E & Ht).
    destruct (IH (lo + 1) t Ht) as (s' & E' & Hs').
    { intros i t0 Hi. apply Hstep. lia. }
    exists s'. cbn [for_up]. rewrite (stM_bind_Done _ _ _ _ _ E). split; [done|].
    by replace (lo + Z.of_nat (Datatypes.S n)) with (lo + 1 + Z.of_nat n) by lia.
Qed.

(** ** C strings and arrays

    A string in memory is the list of its characters up to and with the
    terminating 0; reading behind the end of the list is a fault. *)
Definition chars (s : string) : list Z := (λ c, Z.of_nat (Ascii.nat_of_ascii c)) <$> String.list_ascii_of_string s.
Definition cstr (s : string) : list Z := chars s ++ [0].

(** [a[i]] and [a[i] = v] on an array of the length of the list. *)
Definition arr_get {A} (a : list A) (i : Z) : outcome A :=
  if 0 <=? i then of_option (a !! Z.to_nat i) else Fault.
Definition arr_set {A} (a : list A) (i : Z) (v : A) : outcome (list A) :=
  if (0 <=? i) && (i <? Z.of_nat (length a)) then Done (<[Z.to_nat i := v]> a) else Fault.

Lemma arr_get_ok {A} (a : list A) i v :
  0 ≤ i → a !! Z.to_nat i = Some v → arr_get a i = Done v.
Proof. intros Hi E. unfold arr_get. rewrite (proj2 (Z.leb_le _ _)), E by done. done. Qed.
Lemma arr_get_in {A} (a : list A) i :
  0 ≤ i < Z.of_nat (length a) → ∃ v, a !! Z.to_nat i = Some v ∧ arr_get a i = Done v.
Proof.
  intros Hi. destruct (lookup_lt_is_Some_2 a (Z.to_nat i)) as [v E]; [lia|].
  exists v. split; [done|]. apply arr_get_ok; [lia|done].
Qed.
Lemma arr_set_ok {A} (a : list A) i v :
  0 ≤ i < Z.of_nat (length a) → arr_set a i v = Done (<[Z.to_nat i := v]> a).
Proof.
  intros Hi. unfold arr_set. by rewrite (proj2 (Z.leb_le _ _)), (proj2 (Z.ltb_lt _ _)) by lia.
Qed.

(** ** Numerals: the value of a list of digits, most significant first *)
Definition digits_value (b : Z) (l : list Z) : Z := foldl (λ a d, a * b + d) 0 l.
(** The numeral of a number: digits below the base and no leading zero, except for 0. *)
Definition numeral (b : Z) (n : Z) (l : list Z) : Prop :=
  digits_value b l = n ∧ Forall (λ d, 0 ≤ d < b) l ∧ (l = [0] ∨ ∃ d l', l = d :: l' ∧ d ≠ 0).

Lemma foldl_digits b l a : foldl (λ a d, a * b + d) a l = a * b ^ Z.of_nat (length l) + digits_value b l.
Proof.
  unfold digits_value. revert a. induction l as [|d l IH]; intros a; cbn [foldl length].
  - rewrite Z.pow_0_r. lia.
  - rewrite (IH (a * b + d)), (IH (0 * b + d)), Nat2Z.inj_succ, Z.pow_succ_r by lia. ring.
Qed.
Lemma digits_value_cons b d l : digits_value b (d :: l) = d * b ^ Z.of_nat (length l) + digits_value b l.
Proof. unfold digits_value at 1. cbn [foldl]. by rewrite foldl_digits. Qed.
Lemma digits_value_snoc b d l : digits_value b (l ++ [d]) = digits_value b l * b + d.
Proof. unfold digits_value. by rewrite foldl_app. Qed.
Lemma digits_value_range b l :
  0 < b → Forall (λ d, 0 ≤ d < b) l → 0 ≤ digits_value b l < b ^ Z.of_nat (length l).
Proof.
  intros Hb. induction 1 as [|d l Hd _ IH]; [cbn; lia|].
  rewrite digits_value_cons. cbn [length]. rewrite Nat2Z.inj_succ, Z.pow_succ_r by lia. nia.
Qed.

(** A number has one numeral. *)
Lemma digits_value_inj b l1 l2 :
  0 < b → Forall (λ d, 0 ≤ d < b) l1 → Forall (λ d, 0 ≤ d < b) l2 →
  length l1 = length l2 → digits_value b l1 = digits_value b l2 → l1 = l2.
Proof.
  intros Hb H1. revert l2. induction H1 as [|d l Hd Hl IH]; intros [|d2 l2] H2 Hlen E; try done.
  apply Forall_cons in H2 as [Hd2 H2]. cbn in Hlen. rewrite !digits_value_cons in E.
  replace (length l2) with (length l) in E by lia.
  pose proof (digits_value_range b l Hb Hl) as R1. pose proof (digits_value_range b l2 Hb H2) as R2.
  replace (length l2) with (length l) in R2 by lia.
  assert (d = d2) as -> by nia. f_equal. apply IH; [done|lia|lia].
Qed.

(** The character of a digit, as printed in bases up to 16. *)
Definition digit_char (d : Z) : Z := if d <? 10 then 48 + d else 87 + d.

Lemma digit_char_range d : 0 ≤ d < 16 → 48 ≤ digit_char d < 128.
Proof. intros Hd. unfold digit_char. destruct (Z.ltb_spec d 10); lia. Qed.
