(* ===== verification/VmxDefs.v ===== *)
(** The constants of x86/vmx.h that x86/vmx.c and x86/ept.c use: VMCS field encodings,
    exit reasons, control bits and the numbers the handlers return, and the MSR and
    control-register constants of lib/x86/msr.h, lib/x86/processor.h and lib/x86/desc.h. *)
From Stdlib Require Import ZArith Lia Bool.
From S2P Require Import Prelude.
#[local] Open Scope Z_scope.

(** [enum Encoding]: the VMCS fields. *)
Inductive Encoding : Set :=
| VPID | PINV | EPTP_IDX | GUEST_SEL_ES | GUEST_SEL_CS | GUEST_SEL_SS | GUEST_SEL_DS 
| GUEST_SEL_FS | GUEST_SEL_GS | GUEST_SEL_LDTR | GUEST_SEL_TR | GUEST_INT_STATUS 
| GUEST_PML_INDEX | HOST_SEL_ES | HOST_SEL_CS | HOST_SEL_SS | HOST_SEL_DS | HOST_SEL_FS 
| HOST_SEL_GS | HOST_SEL_TR | IO_BITMAP_A | IO_BITMAP_B | MSR_BITMAP | EXIT_MSR_ST_ADDR 
| EXIT_MSR_LD_ADDR | ENTER_MSR_LD_ADDR | VMCS_EXEC_PTR | TSC_OFFSET | TSC_OFFSET_HI 
| APIC_VIRT_ADDR | APIC_ACCS_ADDR | POSTED_INTR_DESC_ADDR | EPTP | EPTP_HI | VMREAD_BITMAP 
| VMREAD_BITMAP_HI | VMWRITE_BITMAP | VMWRITE_BITMAP_HI | EOI_EXIT_BITMAP0 
| EOI_EXIT_BITMAP1 | EOI_EXIT_BITMAP2 | EOI_EXIT_BITMAP3 | PMLADDR | PMLADDR_HI 
| INFO_PHYS_ADDR | VMCS_LINK_PTR | VMCS_LINK_PTR_HI | GUEST_DEBUGCTL | GUEST_DEBUGCTL_HI 
| GUEST_EFER | GUEST_PAT | GUEST_PERF_GLOBAL_CTRL | GUEST_PDPTE | HOST_PAT | HOST_EFER 
| HOST_PERF_GLOBAL_CTRL | PIN_CONTROLS | CPU_EXEC_CTRL0 | EXC_BITMAP | PF_ERROR_MASK 
| PF_ERROR_MATCH | CR3_TARGET_COUNT | EXI_CONTROLS | EXI_MSR_ST_CNT | EXI_MSR_LD_CNT 
| ENT_CONTROLS | ENT_MSR_LD_CNT | ENT_INTR_INFO | ENT_INTR_ERROR | ENT_INST_LEN 
| TPR_THRESHOLD | CPU_EXEC_CTRL1 | VMX_INST_ERROR | EXI_REASON | EXI_INTR_INFO 
| EXI_INTR_ERROR | IDT_VECT_INFO | IDT_VECT_ERROR | EXI_INST_LEN | EXI_INST_INFO 
| GUEST_LIMIT_ES | GUEST_LIMIT_CS | GUEST_LIMIT_SS | GUEST_LIMIT_DS | GUEST_LIMIT_FS 
| GUEST_LIMIT_GS | GUEST_LIMIT_LDTR | GUEST_LIMIT_TR | GUEST_LIMIT_GDTR | GUEST_LIMIT_IDTR 
| GUEST_AR_ES | GUEST_AR_CS | GUEST_AR_SS | GUEST_AR_DS | GUEST_AR_FS | GUEST_AR_GS 
| GUEST_AR_LDTR | GUEST_AR_TR | GUEST_INTR_STATE | GUEST_ACTV_STATE | GUEST_SMBASE 
| GUEST_SYSENTER_CS | PREEMPT_TIMER_VALUE | HOST_SYSENTER_CS | CR0_MASK | CR4_MASK 
| CR0_READ_SHADOW | CR4_READ_SHADOW | CR3_TARGET_0 | CR3_TARGET_1 | CR3_TARGET_2 
| CR3_TARGET_3 | EXI_QUALIFICATION | IO_RCX | IO_RSI | IO_RDI | IO_RIP 
| GUEST_LINEAR_ADDRESS | GUEST_CR0 | GUEST_CR3 | GUEST_CR4 | GUEST_BASE_ES | GUEST_BASE_CS 
| GUEST_BASE_SS | GUEST_BASE_DS | GUEST_BASE_FS | GUEST_BASE_GS | GUEST_BASE_LDTR 
| GUEST_BASE_TR | GUEST_BASE_GDTR | GUEST_BASE_IDTR | GUEST_DR7 | GUEST_RSP | GUEST_RIP 
| GUEST_RFLAGS | GUEST_PENDING_DEBUG | GUEST_SYSENTER_ESP | GUEST_SYSENTER_EIP | HOST_CR0 
| HOST_CR3 | HOST_CR4 | HOST_BASE_FS | HOST_BASE_GS | HOST_BASE_TR | HOST_BASE_GDTR 
| HOST_BASE_IDTR | HOST_SYSENTER_ESP | HOST_SYSENTER_EIP | HOST_RSP | HOST_RIP.
Definition encoding (e : Encoding) : Z :=
  match e with
  | VPID => 0x0000
  | PINV => 0x0002
  | EPTP_IDX => 0x0004
  | GUEST_SEL_ES => 0x0800
  | GUEST_SEL_CS => 0x0802
  | GUEST_SEL_SS => 0x0804
  | GUEST_SEL_DS => 0x0806
  | GUEST_SEL_FS => 0x0808
  | GUEST_SEL_GS => 0x080a
  | GUEST_SEL_LDTR => 0x080c
  | GUEST_SEL_TR => 0x080e
  | GUEST_INT_STATUS => 0x0810
  | GUEST_PML_INDEX => 0x0812
  | HOST_SEL_ES => 0x0c00
  | HOST_SEL_CS => 0x0c02
  | HOST_SEL_SS => 0x0c04
  | HOST_SEL_DS => 0x0c06
  | HOST_SEL_FS => 0x0c08
  | HOST_SEL_GS => 0x0c0a
  | HOST_SEL_TR => 0x0c0c
  | IO_BITMAP_A => 0x2000
  | IO_BITMAP_B => 0x2002
  | MSR_BITMAP => 0x2004
  | EXIT_MSR_ST_ADDR => 0x2006
  | EXIT_MSR_LD_ADDR => 0x2008
  | ENTER_MSR_LD_ADDR => 0x200a
  | VMCS_EXEC_PTR => 0x200c
  | TSC_OFFSET => 0x2010
  | TSC_OFFSET_HI => 0x2011
  | APIC_VIRT_ADDR => 0x2012
  | APIC_ACCS_ADDR => 0x2014
  | POSTED_INTR_DESC_ADDR => 0x2016
  | EPTP => 0x201a
  | EPTP_HI => 0x201b
  | VMREAD_BITMAP => 0x2026
  | VMREAD_BITMAP_HI => 0x2027
  | VMWRITE_BITMAP => 0x2028
  | VMWRITE_BITMAP_HI => 0x2029
  | EOI_EXIT_BITMAP0 => 0x201c
  | EOI_EXIT_BITMAP1 => 0x201e
  | EOI_EXIT_BITMAP2 => 0x2020
  | EOI_EXIT_BITMAP3 => 0x2022
  | PMLADDR => 0x200e
  | PMLADDR_HI => 0x200f
  | INFO_PHYS_ADDR => 0x2400
  | VMCS_LINK_PTR => 0x2800
  | VMCS_LINK_PTR_HI => 0x2801
  | GUEST_DEBUGCTL => 0x2802
  | GUEST_DEBUGCTL_HI => 0x2803
  | GUEST_EFER => 0x2806
  | GUEST_PAT => 0x2804
  | GUEST_PERF_GLOBAL_CTRL => 0x2808
  | GUEST_PDPTE => 0x280a
  | HOST_PAT => 0x2c00
  | HOST_EFER => 0x2c02
  | HOST_PERF_GLOBAL_CTRL => 0x2c04
  | PIN_CONTROLS => 0x4000
  | CPU_EXEC_CTRL0 => 0x4002
  | EXC_BITMAP => 0x4004
  | PF_ERROR_MASK => 0x4006
  | PF_ERROR_MATCH => 0x4008
  | CR3_TARGET_COUNT => 0x400a
  | EXI_CONTROLS => 0x400c
  | EXI_MSR_ST_CNT => 0x400e
  | EXI_MSR_LD_CNT => 0x4010
  | ENT_CONTROLS => 0x4012
  | ENT_MSR_LD_CNT => 0x4014
  | ENT_INTR_INFO => 0x4016
  | ENT_INTR_ERROR => 0x4018
  | ENT_INST_LEN => 0x401a
  | TPR_THRESHOLD => 0x401c
  | CPU_EXEC_CTRL1 => 0x401e
  | VMX_INST_ERROR => 0x4400
  | EXI_REASON => 0x4402
  | EXI_INTR_INFO => 0x4404
  | EXI_INTR_ERROR => 0x4406
  | IDT_VECT_INFO => 0x4408
  | IDT_VECT_ERROR => 0x440a
  | EXI_INST_LEN => 0x440c
  | EXI_INST_INFO => 0x440e
  | GUEST_LIMIT_ES => 0x4800
  | GUEST_LIMIT_CS => 0x4802
  | GUEST_LIMIT_SS => 0x4804
  | GUEST_LIMIT_DS => 0x4806
  | GUEST_LIMIT_FS => 0x4808
  | GUEST_LIMIT_GS => 0x480a
  | GUEST_LIMIT_LDTR => 0x480c
  | GUEST_LIMIT_TR => 0x480e
  | GUEST_LIMIT_GDTR => 0x4810
  | GUEST_LIMIT_IDTR => 0x4812
  | GUEST_AR_ES => 0x4814
  | GUEST_AR_CS => 0x4816
  | GUEST_AR_SS => 0x4818
  | GUEST_AR_DS => 0x481a
  | GUEST_AR_FS => 0x481c
  | GUEST_AR_GS => 0x481e
  | GUEST_AR_LDTR => 0x4820
  | GUEST_AR_TR => 0x4822
  | GUEST_INTR_STATE => 0x4824
  | GUEST_ACTV_STATE => 0x4826
  | GUEST_SMBASE => 0x4828
  | GUEST_SYSENTER_CS => 0x482a
  | PREEMPT_TIMER_VALUE => 0x482e
  | HOST_SYSENTER_CS => 0x4c00
  | CR0_MASK => 0x6000
  | CR4_MASK => 0x6002
  | CR0_READ_SHADOW => 0x6004
  | CR4_READ_SHADOW => 0x6006
  | CR3_TARGET_0 => 0x6008
  | CR3_TARGET_1 => 0x600a
  | CR3_TARGET_2 => 0x600c
  | CR3_TARGET_3 => 0x600e
  | EXI_QUALIFICATION => 0x6400
  | IO_RCX => 0x6402
  | IO_RSI => 0x6404
  | IO_RDI => 0x6406
  | IO_RIP => 0x6408
  | GUEST_LINEAR_ADDRESS => 0x640a
  | GUEST_CR0 => 0x6800
  | GUEST_CR3 => 0x6802
  | GUEST_CR4 => 0x6804
  | GUEST_BASE_ES => 0x6806
  | GUEST_BASE_CS => 0x6808
  | GUEST_BASE_SS => 0x680a
  | GUEST_BASE_DS => 0x680c
  | GUEST_BASE_FS => 0x680e
  | GUEST_BASE_GS => 0x6810
  | GUEST_BASE_LDTR => 0x6812
  | GUEST_BASE_TR => 0x6814
  | GUEST_BASE_GDTR => 0x6816
  | GUEST_BASE_IDTR => 0x6818
  | GUEST_DR7 => 0x681a
  | GUEST_RSP => 0x681c
  | GUEST_RIP => 0x681e
  | GUEST_RFLAGS => 0x6820
  | GUEST_PENDING_DEBUG => 0x6822
  | GUEST_SYSENTER_ESP => 0x6824
  | GUEST_SYSENTER_EIP => 0x6826
  | HOST_CR0 => 0x6c00
  | HOST_CR3 => 0x6c02
  | HOST_CR4 => 0x6c04
  | HOST_BASE_FS => 0x6c06
  | HOST_BASE_GS => 0x6c08
  | HOST_BASE_TR => 0x6c0a
  | HOST_BASE_GDTR => 0x6c0c
  | HOST_BASE_IDTR => 0x6c0e
  | HOST_SYSENTER_ESP => 0x6c10
  | HOST_SYSENTER_EIP => 0x6c12
  | HOST_RSP => 0x6c14
  | HOST_RIP => 0x6c16
  end.

Definition Encoding_all : list Encoding :=
  [VPID; PINV; EPTP_IDX; GUEST_SEL_ES; GUEST_SEL_CS; GUEST_SEL_SS; GUEST_SEL_DS; GUEST_SEL_FS;
   GUEST_SEL_GS; GUEST_SEL_LDTR; GUEST_SEL_TR; GUEST_INT_STATUS; GUEST_PML_INDEX; HOST_SEL_ES;
   HOST_SEL_CS; HOST_SEL_SS; HOST_SEL_DS; HOST_SEL_FS; HOST_SEL_GS; HOST_SEL_TR; IO_BITMAP_A;
   IO_BITMAP_B; MSR_BITMAP; EXIT_MSR_ST_ADDR; EXIT_MSR_LD_ADDR; ENTER_MSR_LD_ADDR;
   VMCS_EXEC_PTR; TSC_OFFSET; TSC_OFFSET_HI; APIC_VIRT_ADDR; APIC_ACCS_ADDR;
   POSTED_INTR_DESC_ADDR; EPTP; EPTP_HI; VMREAD_BITMAP; VMREAD_BITMAP_HI; VMWRITE_BITMAP;
   VMWRITE_BITMAP_HI; EOI_EXIT_BITMAP0; EOI_EXIT_BITMAP1; EOI_EXIT_BITMAP2; EOI_EXIT_BITMAP3;
   PMLADDR; PMLADDR_HI; INFO_PHYS_ADDR; VMCS_LINK_PTR; VMCS_LINK_PTR_HI; GUEST_DEBUGCTL;
   GUEST_DEBUGCTL_HI; GUEST_EFER; GUEST_PAT; GUEST_PERF_GLOBAL_CTRL; GUEST_PDPTE; HOST_PAT;
   HOST_EFER; HOST_PERF_GLOBAL_CTRL; PIN_CONTROLS; CPU_EXEC_CTRL0; EXC_BITMAP; PF_ERROR_MASK;
   PF_ERROR_MATCH; CR3_TARGET_COUNT; EXI_CONTROLS; EXI_MSR_ST_CNT; EXI_MSR_LD_CNT;
   ENT_CONTROLS; ENT_MSR_LD_CNT; ENT_INTR_INFO; ENT_INTR_ERROR; ENT_INST_LEN; TPR_THRESHOLD;
   CPU_EXEC_CTRL1; VMX_INST_ERROR; EXI_REASON; EXI_INTR_INFO; EXI_INTR_ERROR; IDT_VECT_INFO;
   IDT_VECT_ERROR; EXI_INST_LEN; EXI_INST_INFO; GUEST_LIMIT_ES; GUEST_LIMIT_CS;
   GUEST_LIMIT_SS; GUEST_LIMIT_DS; GUEST_LIMIT_FS; GUEST_LIMIT_GS; GUEST_LIMIT_LDTR;
   GUEST_LIMIT_TR; GUEST_LIMIT_GDTR; GUEST_LIMIT_IDTR; GUEST_AR_ES; GUEST_AR_CS; GUEST_AR_SS;
   GUEST_AR_DS; GUEST_AR_FS; GUEST_AR_GS; GUEST_AR_LDTR; GUEST_AR_TR; GUEST_INTR_STATE;
   GUEST_ACTV_STATE; GUEST_SMBASE; GUEST_SYSENTER_CS; PREEMPT_TIMER_VALUE; HOST_SYSENTER_CS;
   CR0_MASK; CR4_MASK; CR0_READ_SHADOW; CR4_READ_SHADOW; CR3_TARGET_0; CR3_TARGET_1;
   CR3_TARGET_2; CR3_TARGET_3; EXI_QUALIFICATION; IO_RCX; IO_RSI; IO_RDI; IO_RIP;
   GUEST_LINEAR_ADDRESS; GUEST_CR0; GUEST_CR3; GUEST_CR4; GUEST_BASE_ES; GUEST_BASE_CS;
   GUEST_BASE_SS; GUEST_BASE_DS; GUEST_BASE_FS; GUEST_BASE_GS; GUEST_BASE_LDTR; GUEST_BASE_TR;
   GUEST_BASE_GDTR; GUEST_BASE_IDTR; GUEST_DR7; GUEST_RSP; GUEST_RIP; GUEST_RFLAGS;
   GUEST_PENDING_DEBUG; GUEST_SYSENTER_ESP; GUEST_SYSENTER_EIP; HOST_CR0; HOST_CR3; HOST_CR4;
   HOST_BASE_FS; HOST_BASE_GS; HOST_BASE_TR; HOST_BASE_GDTR; HOST_BASE_IDTR;
   HOST_SYSENTER_ESP; HOST_SYSENTER_EIP; HOST_RSP; HOST_RIP].

(** [enum Reason]: the basic VM-exit reasons. *)
Inductive Reason : Set :=
| VMX_EXC_NMI | VMX_EXTINT | VMX_TRIPLE_FAULT | VMX_INIT | VMX_SIPI | VMX_SMI_IO 
| VMX_SMI_OTHER | VMX_INTR_WINDOW | VMX_NMI_WINDOW | VMX_TASK_SWITCH | VMX_CPUID 
| VMX_GETSEC | VMX_HLT | VMX_INVD | VMX_INVLPG | VMX_RDPMC | VMX_RDTSC | VMX_RSM 
| VMX_VMCALL | VMX_VMCLEAR | VMX_VMLAUNCH | VMX_VMPTRLD | VMX_VMPTRST | VMX_VMREAD 
| VMX_VMRESUME | VMX_VMWRITE | VMX_VMXOFF | VMX_VMXON | VMX_CR | VMX_DR | VMX_IO | VMX_RDMSR 
| VMX_WRMSR | VMX_FAIL_STATE | VMX_FAIL_MSR | VMX_MWAIT | VMX_MTF | VMX_MONITOR | VMX_PAUSE 
| VMX_FAIL_MCHECK | VMX_TPR_THRESHOLD | VMX_APIC_ACCESS | VMX_EOI_INDUCED | VMX_GDTR_IDTR 
| VMX_LDTR_TR | VMX_EPT_VIOLATION | VMX_EPT_MISCONFIG | VMX_INVEPT | VMX_PREEMPT 
| VMX_INVVPID | VMX_WBINVD | VMX_XSETBV | VMX_APIC_WRITE | VMX_RDRAND | VMX_INVPCID 
| VMX_VMFUNC | VMX_RDSEED | VMX_PML_FULL | VMX_XSAVES | VMX_XRSTORS.
Definition reason (e : Reason) : Z :=
  match e with
  | VMX_EXC_NMI => 0
  | VMX_EXTINT => 1
  | VMX_TRIPLE_FAULT => 2
  | VMX_INIT => 3
  | VMX_SIPI => 4
  | VMX_SMI_IO => 5
  | VMX_SMI_OTHER => 6
  | VMX_INTR_WINDOW => 7
  | VMX_NMI_WINDOW => 8
  | VMX_TASK_SWITCH => 9
  | VMX_CPUID => 10
  | VMX_GETSEC => 11
  | VMX_HLT => 12
  | VMX_INVD => 13
  | VMX_INVLPG => 14
  | VMX_RDPMC => 15
  | VMX_RDTSC => 16
  | VMX_RSM => 17
  | VMX_VMCALL => 18
  | VMX_VMCLEAR => 19
  | VMX_VMLAUNCH => 20
  | VMX_VMPTRLD => 21
  | VMX_VMPTRST => 22
  | VMX_VMREAD => 23
  | VMX_VMRESUME => 24
  | VMX_VMWRITE => 25
  | VMX_VMXOFF => 26
  | VMX_VMXON => 27
  | VMX_CR => 28
  | VMX_DR => 29
  | VMX_IO => 30
  | VMX_RDMSR => 31
  | VMX_WRMSR => 32
  | VMX_FAIL_STATE => 33
  | VMX_FAIL_MSR => 34
  | VMX_MWAIT => 36
  | VMX_MTF => 37
  | VMX_MONITOR => 39
  | VMX_PAUSE => 40
  | VMX_FAIL_MCHECK => 41
  | VMX_TPR_THRESHOLD => 43
  | VMX_APIC_ACCESS => 44
  | VMX_EOI_INDUCED => 45
  | VMX_GDTR_IDTR => 46
  | VMX_LDTR_TR => 47
  | VMX_EPT_VIOLATION => 48
  | VMX_EPT_MISCONFIG => 49
  | VMX_INVEPT => 50
  | VMX_PREEMPT => 52
  | VMX_INVVPID => 53
  | VMX_WBINVD => 54
  | VMX_XSETBV => 55
  | VMX_APIC_WRITE => 56
  | VMX_RDRAND => 57
  | VMX_INVPCID => 58
  | VMX_VMFUNC => 59
  | VMX_RDSEED => 61
  | VMX_PML_FULL => 62
  | VMX_XSAVES => 63
  | VMX_XRSTORS => 64
  end.

Definition Reason_all : list Reason :=
  [VMX_EXC_NMI; VMX_EXTINT; VMX_TRIPLE_FAULT; VMX_INIT; VMX_SIPI; VMX_SMI_IO; VMX_SMI_OTHER;
   VMX_INTR_WINDOW; VMX_NMI_WINDOW; VMX_TASK_SWITCH; VMX_CPUID; VMX_GETSEC; VMX_HLT; VMX_INVD;
   VMX_INVLPG; VMX_RDPMC; VMX_RDTSC; VMX_RSM; VMX_VMCALL; VMX_VMCLEAR; VMX_VMLAUNCH;
   VMX_VMPTRLD; VMX_VMPTRST; VMX_VMREAD; VMX_VMRESUME; VMX_VMWRITE; VMX_VMXOFF; VMX_VMXON;
   VMX_CR; VMX_DR; VMX_IO; VMX_RDMSR; VMX_WRMSR; VMX_FAIL_STATE; VMX_FAIL_MSR; VMX_MWAIT;
   VMX_MTF; VMX_MONITOR; VMX_PAUSE; VMX_FAIL_MCHECK; VMX_TPR_THRESHOLD; VMX_APIC_ACCESS;
   VMX_EOI_INDUCED; VMX_GDTR_IDTR; VMX_LDTR_TR; VMX_EPT_VIOLATION; VMX_EPT_MISCONFIG;
   VMX_INVEPT; VMX_PREEMPT; VMX_INVVPID; VMX_WBINVD; VMX_XSETBV; VMX_APIC_WRITE; VMX_RDRAND;
   VMX_INVPCID; VMX_VMFUNC; VMX_RDSEED; VMX_PML_FULL; VMX_XSAVES; VMX_XRSTORS].

(** [enum Ctrl_exi] *)
Definition EXI_SAVE_DBGCTLS : Z := Z.shiftl 1 2.
Definition EXI_HOST_64 : Z := Z.shiftl 1 9.
Definition EXI_LOAD_PERF : Z := Z.shiftl 1 12.
Definition EXI_INTA : Z := Z.shiftl 1 15.
Definition EXI_SAVE_PAT : Z := Z.shiftl 1 18.
Definition EXI_LOAD_PAT : Z := Z.shiftl 1 19.
Definition EXI_SAVE_EFER : Z := Z.shiftl 1 20.
Definition EXI_LOAD_EFER : Z := Z.shiftl 1 21.
Definition EXI_SAVE_PREEMPT : Z := Z.shiftl 1 22.

(** [enum Ctrl_ent] *)
Definition ENT_LOAD_DBGCTLS : Z := Z.shiftl 1 2.
Definition ENT_GUEST_64 : Z := Z.shiftl 1 9.
Definition ENT_LOAD_PAT : Z := Z.shiftl 1 14.
Definition ENT_LOAD_EFER : Z := Z.shiftl 1 15.

(** [enum Ctrl_pin] *)
Definition PIN_EXTINT : Z := Z.shiftl 1 0.
Definition PIN_NMI : Z := Z.shiftl 1 3.
Definition PIN_VIRT_NMI : Z := Z.shiftl 1 5.
Definition PIN_PREEMPT : Z := Z.shiftl 1 6.
Definition PIN_POST_INTR : Z := Z.shiftl 1 7.

(** [enum Ctrl0] *)
Definition CPU_INTR_WINDOW : Z := Z.shiftl 1 2.
Definition CPU_USE_TSC_OFFSET : Z := Z.shiftl 1 3.
Definition CPU_HLT : Z := Z.shiftl 1 7.
Definition CPU_INVLPG : Z := Z.shiftl 1 9.
Definition CPU_MWAIT : Z := Z.shiftl 1 10.
Definition CPU_RDPMC : Z := Z.shiftl 1 11.
Definition CPU_RDTSC : Z := Z.shiftl 1 12.
Definition CPU_CR3_LOAD : Z := Z.shiftl 1 15.
Definition CPU_CR3_STORE : Z := Z.shiftl 1 16.
Definition CPU_CR8_LOAD : Z := Z.shiftl 1 19.
Definition CPU_CR8_STORE : Z := Z.shiftl 1 20.
Definition CPU_TPR_SHADOW : Z := Z.shiftl 1 21.
Definition CPU_NMI_WINDOW : Z := Z.shiftl 1 22.
Definition CPU_IO : Z := Z.shiftl 1 24.
Definition CPU_IO_BITMAP : Z := Z.shiftl 1 25.
Definition CPU_MSR_BITMAP : Z := Z.shiftl 1 28.
Definition CPU_MONITOR : Z := Z.shiftl 1 29.
Definition CPU_PAUSE : Z := Z.shiftl 1 30.
Definition CPU_SECONDARY : Z := Z.shiftl 1 31.

(** [enum Ctrl1] *)
Definition CPU_VIRT_APIC_ACCESSES : Z := Z.shiftl 1 0.
Definition CPU_EPT : Z := Z.shiftl 1 1.
Definition CPU_DESC_TABLE : Z := Z.shiftl 1 2.
Definition CPU_RDTSCP : Z := Z.shiftl 1 3.
Definition CPU_VIRT_X2APIC : Z := Z.shiftl 1 4.
Definition CPU_VPID : Z := Z.shiftl 1 5.
Definition CPU_WBINVD : Z := Z.shiftl 1 6.
Definition CPU_URG : Z := Z.shiftl 1 7.
Definition CPU_APIC_REG_VIRT : Z := Z.shiftl 1 8.
Definition CPU_VINTD : Z := Z.shiftl 1 9.
Definition CPU_RDRAND : Z := Z.shiftl 1 11.
Definition CPU_SHADOW_VMCS : Z := Z.shiftl 1 14.
Definition CPU_RDSEED : Z := Z.shiftl 1 16.
Definition CPU_PML : Z := Z.shiftl 1 17.

(** vmx.h *)
Definition VMX_ENTRY_FAILURE : Z := Z.shiftl 1 31.

Definition VMX_START : Z := 0.
Definition VMX_VMEXIT : Z := 1.
Definition VMX_EXIT : Z := 2.
Definition VMX_RESUME : Z := 3.
Definition VMX_VMABORT : Z := 4.
Definition VMX_VMSKIP : Z := 5.

Definition HYPERCALL_BIT : Z := Z.shiftl 1 12.
Definition HYPERCALL_MASK : Z := 0xFFF.
Definition HYPERCALL_VMEXIT : Z := 0x1.
Definition HYPERCALL_VMABORT : Z := 0x2.
Definition HYPERCALL_VMSKIP : Z := 0x3.

Definition EPTP_PG_WALK_LEN_SHIFT : Z := 3.
Definition EPTP_AD_FLAG : Z := Z.shiftl 1 6.
Definition EPT_MEM_TYPE_WB : Z := 6.
Definition EPT_CAP_PWL4 : Z := Z.shiftl 1 6.
Definition EPT_CAP_WB : Z := Z.shiftl 1 14.
Definition EPT_CAP_2M_PAGE : Z := Z.shiftl 1 16.
Definition ACTV_ACTIVE : Z := 0.

(** lib/x86/msr.h *)
Definition MSR_EFER : Z := 0xc0000080.
Definition MSR_IA32_FEATURE_CONTROL : Z := 0x3a.
Definition MSR_IA32_VMX_BASIC : Z := 0x480.
Definition MSR_IA32_VMX_PINBASED_CTLS : Z := 0x481.
Definition MSR_IA32_VMX_PROCBASED_CTLS : Z := 0x482.
Definition MSR_IA32_VMX_EXIT_CTLS : Z := 0x483.
Definition MSR_IA32_VMX_ENTRY_CTLS : Z := 0x484.
Definition MSR_IA32_VMX_CR0_FIXED0 : Z := 0x486.
Definition MSR_IA32_VMX_CR0_FIXED1 : Z := 0x487.
Definition MSR_IA32_VMX_CR4_FIXED0 : Z := 0x488.
Definition MSR_IA32_VMX_CR4_FIXED1 : Z := 0x489.
Definition MSR_IA32_VMX_PROCBASED_CTLS2 : Z := 0x48b.
Definition MSR_IA32_VMX_EPT_VPID_CAP : Z := 0x48c.
Definition MSR_IA32_VMX_TRUE_PIN : Z := 0x48d.
Definition MSR_IA32_VMX_TRUE_PROC : Z := 0x48e.
Definition MSR_IA32_VMX_TRUE_EXIT : Z := 0x48f.
Definition MSR_IA32_VMX_TRUE_ENTRY : Z := 0x490.

(** lib/x86/processor.h *)
Definition X86_CR0_PE : Z := 0x1.
Definition X86_CR0_PG : Z := 0x80000000.
Definition X86_CR4_PAE : Z := 0x20.
Definition X86_CR4_VMXE : Z := 0x2000.
Definition X86_CR4_PCIDE : Z := 0x20000.
Definition X86_EFLAGS_CF : Z := 0x1.
Definition X86_EFLAGS_PF : Z := 0x4.
Definition X86_EFLAGS_AF : Z := 0x10.
Definition X86_EFLAGS_ZF : Z := 0x40.
Definition X86_EFLAGS_SF : Z := 0x80.
Definition X86_EFLAGS_OF : Z := 0x800.
Definition VMX_ENTRY_FLAGS : Z :=
  Z.lor (Z.lor (Z.lor (Z.lor (Z.lor X86_EFLAGS_CF X86_EFLAGS_PF) X86_EFLAGS_AF)
    X86_EFLAGS_ZF) X86_EFLAGS_SF) X86_EFLAGS_OF.

(** lib/x86/desc.h, 64-bit *)
Definition KERNEL_CS : Z := 0x08.
Definition KERNEL_DS : Z := 0x10.
Definition TSS_MAIN : Z := 0x80.

(** ** Decoding *)
Definition decode_Encoding (z : Z) : option Encoding :=
  list_find (λ e, encoding e = z) Encoding_all ≫= λ p, Some (snd p).
Definition decode_Reason (z : Z) : option Reason :=
  list_find (λ e, reason e = z) Reason_all ≫= λ p, Some (snd p).

Lemma decode_encoding e : decode_Encoding (encoding e) = Some e.
Proof. destruct e; vm_compute; reflexivity. Qed.
Lemma decode_reason e : decode_Reason (reason e) = Some e.
Proof. destruct e; vm_compute; reflexivity. Qed.

#[export] Instance encoding_inj : Inj (=) (=) encoding.
Proof. intros e e' E. apply (inj Some). by rewrite <- (decode_encoding e), E, decode_encoding. Qed.
#[export] Instance reason_inj : Inj (=) (=) reason.
Proof. intros e e' E. apply (inj Some). by rewrite <- (decode_reason e), E, decode_reason. Qed.

#[export] Instance Encoding_eq_dec : EqDecision Encoding.
Proof.
  intros e e'. destruct (decide (encoding e = encoding e')) as [E|E].
  - left. by apply encoding_inj.
  - right. by intros ->.
Defined.
