(* ===== verification/Libcflat.v ===== *)
(** The header-level arithmetic every component uses: [ALIGN], [GENMASK_ULL],
    [fls] and [is_power_of_2] of lib/libcflat.h and lib/bitops.h, and the page
    constants of lib/x86/asm/page.h, all for the 64-bit build
    ([BITS_PER_LONG = 64]). *)
From Stdlib Require Import ZArith Lia Bool.
From S2P Require Import Prelude.
#[local] Open Scope Z_scope.

Definition BITS_PER_LONG : Z := 64.

(** An argument of [printf], where a component records its output as the calls made. *)
Inductive parg := PInt (z : Z) | PStr (s : string).
#[export] Instance parg_eq_dec : EqDecision parg.
Proof. solve_decision. Defined.

(** [__ALIGN_MASK(x, mask)] and [ALIGN(x, a)] at the 64-bit types they are used at. *)
Definition ALIGN_MASK (x mask : Z) : Z := Z.land (u64 (x + mask)) (not64 mask).
Definition ALIGN (x a : Z) : Z := ALIGN_MASK x (u64 (a - 1)).
Definition IS_ALIGNED (x a : Z) : bool := Z.land x (u64 (a - 1)) =? 0.

Definition c_MIN (a b : Z) : Z := if a <? b then a else b.
Definition c_MAX (a b : Z) : Z := if b <? a then a else b.

Definition INVALID_PHYS_ADDR : Z := not64 0.

Definition is_power_of_2 (n : Z) : bool :=
  negb (n =? 0) && (Z.land n (u64 (n - 1)) =? 0).

Definition BIT (nr : Z) : Z := u64 (Z.shiftl 1 nr).

(** [((~0ULL) << l) & (~0ULL >> (64 - 1 - h))] *)
Definition GENMASK_ULL (h l : Z) : Z :=
  Z.land (u64 (Z.shiftl (Z.ones 64) l)) (Z.shiftr (Z.ones 64) (64 - 1 - h)).

(** [__builtin_clzl] on a non-zero word: the number of leading zero bits. *)
Definition builtin_clzl (word : Z) : Z := 63 - Z.log2 word.

(** The build's [fls] ([HAVE_BUILTIN_FLS] is set by lib/x86/asm/bitops.h). *)
Definition fls (word : Z) : Z := BITS_PER_LONG - builtin_clzl word - 1.

(** One step of the portable [fls]: [if (!(word & (~0ul << (64 - k)))) { num -= k; word <<= k; }]. *)
Definition fls_step (k : Z) (st : Z * Z) : Z * Z :=
  let '(num, word) := st in
  if Z.land word (u64 (Z.shiftl (Z.ones 64) (BITS_PER_LONG - k))) =? 0
  then (num - k, u64 (Z.shiftl word k)) else (num, word).

(** The portable [fls] of lib/bitops.h (the [#ifndef HAVE_BUILTIN_FLS] branch). *)
Definition fls_generic (word : Z) : Z :=
  let st := (BITS_PER_LONG - 1, word) in
  let st := fls_step 32 st in
  let st := fls_step 16 st in
  let st := fls_step 8 st in
  let st := fls_step 4 st in
  let '(num, word) := fls_step 2 st in
  if Z.land word (u64 (Z.shiftl (Z.ones 64) (BITS_PER_LONG - 1))) =? 0
  then num - 1 else num.

(** lib/x86/asm/page.h *)
Definition PAGE_SHIFT : Z := 12.
Definition PAGE_SIZE : Z := Z.shiftl 1 PAGE_SHIFT.
Definition PAGE_MASK : Z := not64 (PAGE_SIZE - 1).
Definition LARGE_PAGE_SIZE : Z := 512 * PAGE_SIZE.
Definition PT_PRESENT_MASK : Z := Z.shiftl 1 0.
Definition PT_WRITABLE_MASK : Z := Z.shiftl 1 1.
Definition PT_USER_MASK : Z := Z.shiftl 1 2.
Definition PT_ACCESSED_MASK : Z := Z.shiftl 1 5.
Definition PT_DIRTY_MASK : Z := Z.shiftl 1 6.
Definition PT_PAGE_SIZE_MASK : Z := Z.shiftl 1 7.
Definition PT64_NX_MASK : Z := Z.shiftl 1 63.
Definition PT_ADDR_MASK : Z := GENMASK_ULL 51 12.
Definition PAGE_LEVEL : nat := 4.
Definition PGDIR_WIDTH : Z := 9.
Definition PGDIR_MASK : Z := 511.
Definition PGDIR_BITS (lvl : nat) : Z := (Z.of_nat lvl - 1) * PGDIR_WIDTH + PAGE_SHIFT.
Definition PGDIR_OFFSET (va : Z) (lvl : nat) : Z :=
  Z.land (Z.shiftr va (PGDIR_BITS lvl)) PGDIR_MASK.

(** ** Lemmas *)

Lemma testbit_GENMASK_ULL h l i :
  0 ≤ l → 0 ≤ h ≤ 63 → 0 ≤ i →
  Z.testbit (GENMASK_ULL h l) i = (l <=? i) && (i <=? h).
Proof.
  intros Hl Hh Hi. unfold GENMASK_ULL, u64. repeat zbits_step.
  zbits_cmp; reflexivity.
Qed.
Ltac zbits_ext ::=
  match goal with
  | |- context [Z.testbit (GENMASK_ULL ?h ?l) ?i] => rewrite (testbit_GENMASK_ULL h l i) by lia
  end.

Lemma PAGE_SIZE_val : PAGE_SIZE = 4096.
Proof. reflexivity. Qed.
Lemma PAGE_SIZE_pow : PAGE_SIZE = 2 ^ 12.
Proof. reflexivity. Qed.

Section align.
Context (k : Z) (Hk : 0 ≤ k < 64).

Lemma pow2_k_range : 1 ≤ 2 ^ k < 2 ^ 64.
Proof.
  split; [pose proof (Z.pow_pos_nonneg 2 k); lia|apply Z.pow_lt_mono_r; lia].
Qed.

Lemma align_down_land x :
  in_u64 x → Z.land x (not64 (u64 (2 ^ k - 1))) = x - x mod 2 ^ k.
Proof.
  intros Hx. pose proof pow2_k_range.
  rewrite u64_small by (split; lia).
  replace (x - x mod 2 ^ k) with (Z.shiftl (Z.shiftr x k) k).
  2:{ rewrite Z.shiftl_mul_pow2, Z.shiftr_div_pow2 by lia.
      pose proof (Z.div_mod x (2 ^ k) ltac:(lia)). lia. }
  replace (2 ^ k - 1) with (Z.ones k) by (rewrite Z.ones_equiv; lia).
  apply Z.bits_inj'. intros i Hi. repeat zbits_step.
  destruct (Z.ltb_spec i k).
  - repeat zbits_step. zbits_cmp; by rewrite ?andb_false_r.
  - repeat zbits_step. replace (i - k + k) with i by lia.
    zbits_cmp; cbn; rewrite ?andb_true_r, ?andb_false_r; try done.
    by rewrite (testbit_above 64 x i).
Qed.

Lemma ALIGN_pow2 x :
  0 ≤ x → x + 2 ^ k ≤ 2 ^ 64 → ALIGN x (2 ^ k) = (x + 2 ^ k - 1) / 2 ^ k * 2 ^ k.
Proof.
  intros Hx Hlt. pose proof pow2_k_range. unfold ALIGN, ALIGN_MASK.
  rewrite align_down_land by apply u64_range.
  rewrite (u64_small (2 ^ k - 1)) by (split; lia).
  rewrite (u64_small (x + (2 ^ k - 1))) by (split; lia).
  pose proof (Z.div_mod (x + (2 ^ k - 1)) (2 ^ k) ltac:(lia)). replace (x + 2 ^ k - 1) with (x + (2 ^ k - 1)) by lia. lia.
Qed.

(** [ALIGN] returns the least multiple of the alignment that is not below. *)
Lemma ALIGN_spec x :
  0 ≤ x → x + 2 ^ k ≤ 2 ^ 64 →
  ALIGN x (2 ^ k) mod 2 ^ k = 0 ∧ x ≤ ALIGN x (2 ^ k) < x + 2 ^ k.
Proof.
  intros Hx Hlt. rewrite ALIGN_pow2 by done. pose proof pow2_k_range.
  split; [apply Z.mod_mul; lia|].
  pose proof (Z.div_mod (x + 2 ^ k - 1) (2 ^ k) ltac:(lia)).
  pose proof (Z.mod_pos_bound (x + 2 ^ k - 1) (2 ^ k) ltac:(lia)). lia.
Qed.

Lemma ALIGN_id x :
  0 ≤ x → x + 2 ^ k ≤ 2 ^ 64 → x mod 2 ^ k = 0 → ALIGN x (2 ^ k) = x.
Proof.
  intros Hx Hlt Ha. destruct (ALIGN_spec x) as [Hm Hb]; [done..|].
  pose proof pow2_k_range. by apply (aligned_gap (2 ^ k)); [lia|..].
Qed.

Lemma IS_ALIGNED_spec x : in_u64 x → IS_ALIGNED x (2 ^ k) = true ↔ x mod 2 ^ k = 0.
Proof.
  intros Hx. unfold IS_ALIGNED. pose proof pow2_k_range.
  rewrite u64_small by (split; lia).
  replace (2 ^ k - 1) with (Z.ones k) by (rewrite Z.ones_equiv; lia).
  rewrite Z.land_ones by lia. apply Z.eqb_eq.
Qed.
End align.

Lemma is_power_of_2_pow k : 0 ≤ k < 64 → is_power_of_2 (2 ^ k) = true.
Proof.
  intros Hk. pose proof (pow2_k_range k Hk). unfold is_power_of_2.
  rewrite u64_small by (split; lia).
  replace (2 ^ k - 1) with (Z.ones k) by (rewrite Z.ones_equiv; lia).
  rewrite Z.land_ones, Z.mod_same by lia.
  destruct (Z.eqb_spec (2 ^ k) 0); [lia|done].
Qed.

Lemma is_power_of_2_inv n :
  in_u64 n → is_power_of_2 n = true → ∃ k, 0 ≤ k < 64 ∧ n = 2 ^ k.
Proof.
  intros Hn H. unfold is_power_of_2 in H.
  apply andb_true_iff in H as [H0%negb_true_iff%Z.eqb_neq H1%Z.eqb_eq].
  red in Hn. rewrite u64_small in H1 by (split; lia).
  exists (Z.log2 n). pose proof (Z.log2_spec n ltac:(lia)) as Hlog.
  pose proof (Z.log2_nonneg n). assert (Z.log2 n < 64) by (apply Z.log2_lt_pow2; lia).
  split; [lia|]. destruct (decide (n = 2 ^ Z.log2 n)); [done|exfalso].
  assert (Z.testbit (Z.land n (n - 1)) (Z.log2 n) = true) as Hb; [|by rewrite H1, Z.testbit_0_l in Hb].
  rewrite Z.land_spec, Z.bit_log2 by lia. cbn.
  replace (Z.log2 n) with (Z.log2 (n - 1)) at 1; [apply Z.bit_log2; lia|].
  apply Z.log2_unique; lia.
Qed.

(** ** [fls] *)
Section fls.
Lemma top_bits_zero w k :
  0 < w < 2 ^ 64 → 0 < k < 64 →
  Z.land w (u64 (Z.shiftl (Z.ones 64) (64 - k))) = 0 ↔ Z.log2 w < 64 - k.
Proof.
  intros Hw Hk. unfold u64. split.
  - intros H0. destruct (decide (Z.log2 w < 64 - k)); [done|exfalso].
    assert (Z.log2 w < 64) by (apply Z.log2_lt_pow2; lia).
    assert (Z.testbit (Z.land w (Z.shiftl (Z.ones 64) (64 - k) mod 2 ^ 64)) (Z.log2 w) = true)
      as Hb; [|by rewrite H0, Z.testbit_0_l in Hb].
    pose proof (Z.log2_nonneg w).
    rewrite Z.land_spec, Z.bit_log2 by lia. repeat zbits_step. zbits_cmp; reflexivity.
  - intros Hlog. apply Z.bits_inj'. intros i Hi. repeat zbits_step.
    destruct (Z.leb_spec 0 (i - (64 - k))); [|by rewrite ?andb_false_r].
    by rewrite Z.bits_above_log2 by lia.
Qed.

Lemma log2_u64_shiftl w k :
  0 < w → 0 ≤ k → Z.log2 w + k < 64 →
  0 < u64 (Z.shiftl w k) < 2 ^ 64 ∧ Z.log2 (u64 (Z.shiftl w k)) = Z.log2 w + k.
Proof.
  intros Hw Hk Hlt. pose proof (Z.log2_spec w Hw) as Hlog.
  assert (0 < Z.shiftl w k < 2 ^ 64) as Hr.
  { rewrite Z.shiftl_mul_pow2 by lia. pose proof (Z.pow_pos_nonneg 2 k ltac:(lia) ltac:(lia)).
    split; [nia|]. apply Z.lt_le_trans with (2 ^ Z.succ (Z.log2 w) * 2 ^ k); [nia|].
    rewrite <- Z.pow_add_r by (pose proof (Z.log2_nonneg w); lia).
    apply Z.pow_le_mono_r; lia. }
  unfold u64. rewrite Z.mod_small by lia. split; [done|].
  rewrite Z.shiftl_mul_pow2, Z.log2_mul_pow2 by lia. lia.
Qed.

(** The value [fls_step] threads stays a shift of the input: [num + log2 word]
    is constant and the leading bit ends up in the top [k] bits. *)
Lemma fls_step_inv k num w :
  0 < k ≤ 32 → 0 < w < 2 ^ 64 → 64 - 2 * k ≤ Z.log2 w →
  ∃ num' w', fls_step k (num, w) = (num', w') ∧ 0 < w' < 2 ^ 64 ∧
    num' + Z.log2 w' = num + Z.log2 w ∧ 64 - k ≤ Z.log2 w'.
Proof.
  intros Hk Hw Hlog. unfold fls_step, BITS_PER_LONG.
  pose proof (top_bits_zero w k Hw ltac:(lia)) as Htop.
  destruct (Z.eqb_spec (Z.land w (u64 (Z.shiftl (Z.ones 64) (64 - k)))) 0) as [E|E].
  - apply Htop in E. destruct (log2_u64_shiftl w k) as [Hr Hl]; [lia..|].
    eexists _, _. split; [done|]. lia.
  - eexists _, _. split; [done|]. split; [done|]. split; [done|].
    destruct (decide (Z.log2 w < 64 - k)) as [Hc|]; [|lia]. by apply Htop in Hc.
Qed.

Lemma fls_log2 w : fls w = Z.log2 w.
Proof. unfold fls, builtin_clzl, BITS_PER_LONG. lia. Qed.

Lemma fls_generic_correct w : 0 < w < 2 ^ 64 → fls_generic w = fls w.
Proof.
  intros Hw. rewrite fls_log2. unfold fls_generic.
  pose proof (Z.log2_nonneg w).
  destruct (fls_step_inv 32 (BITS_PER_LONG - 1) w) as (n1 & w1 & -> & Hw1 & E1 & L1); [lia..|].
  destruct (fls_step_inv 16 n1 w1) as (n2 & w2 & -> & Hw2 & E2 & L2); [lia..|].
  destruct (fls_step_inv 8 n2 w2) as (n3 & w3 & -> & Hw3 & E3 & L3); [lia..|].
  destruct (fls_step_inv 4 n3 w3) as (n4 & w4 & -> & Hw4 & E4 & L4); [lia..|].
  destruct (fls_step_inv 2 n4 w4) as (n5 & w5 & -> & Hw5 & E5 & L5); [lia..|].
  assert (Z.log2 w5 < 64) by (apply Z.log2_lt_pow2; lia).
  pose proof (top_bits_zero w5 1 Hw5 ltac:(lia)) as Htop. unfold BITS_PER_LONG in *.
  destruct (Z.eqb_spec (Z.land w5 (u64 (Z.shiftl (Z.ones 64) (64 - 1)))) 0) as [E|E].
  - apply Htop in E. lia.
  - destruct (decide (Z.log2 w5 < 64 - 1)) as [Hc|]; [by apply Htop in Hc|lia].
Qed.
End fls.

Lemma fls_bounds n : 0 < n → 2 ^ fls n ≤ n < 2 ^ (fls n + 1).
Proof. intros. rewrite fls_log2. pose proof (Z.log2_spec n). rewrite Z.add_1_r. lia. Qed.
