(* ===== verification/Mem.v ===== *)
(** Physical memory as 64-bit words.

    The allocators and the page-table code only make aligned 8-byte accesses, so
    memory is a finite map from the byte address of a word to its 64-bit value;
    a word that was never written reads as 0.  [virt_to_phys] and [phys_to_virt]
    are the identity (lib/x86/asm/io.h), so a pointer is its physical address
    and NULL is 0. *)
From Stdlib Require Import ZArith Lia.
From S2P Require Import Prelude Libcflat.
#[local] Open Scope Z_scope.

Abbreviation mem := (gmap Z Z).

Definition rd (m : mem) (a : Z) : Z := default 0 (m !! a).
Definition wr (m : mem) (a v : Z) : mem := <[a := v]> m.

Definition virt_to_phys (virt : Z) : Z := virt.
Definition phys_to_virt (phys : Z) : Z := phys.

(** [memset(p, 0, 8 * n)] on words (lib/string.c). *)
Fixpoint zero_words (n : nat) (p : Z) (m : mem) : mem :=
  match n with
  | O => m
  | S n' => zero_words n' (p + 8) (wr m p 0)
  end.
(** [memset(p, 0, PAGE_SIZE)] *)
Definition zero_page (p : Z) (m : mem) : mem := zero_words 512 p m.

(** A page frame a table or the free list may live in: aligned, not NULL and
    below the architectural limit of 52 physical address bits. *)
Definition page_ok (p : Z) : Prop := 0 < p ∧ p mod 4096 = 0 ∧ p + 4096 ≤ 2 ^ 52.

(** The words of page [p] are the same in both memories. *)
Definition same_page (m m' : mem) (p : Z) : Prop :=
  ∀ i, 0 ≤ i < 512 → rd m' (p + 8 * i) = rd m (p + 8 * i).

Lemma rd_wr_eq m a v : rd (wr m a v) a = v.
Proof. unfold rd, wr. by rewrite lookup_insert_eq. Qed.
Lemma rd_wr_ne m a b v : a ≠ b → rd (wr m a v) b = rd m b.
Proof. intros. unfold rd, wr. by rewrite lookup_insert_ne. Qed.
Lemma rd_wr m a b v : rd (wr m a v) b = if decide (a = b) then v else rd m b.
Proof. case_decide; subst; [apply rd_wr_eq|by apply rd_wr_ne]. Qed.

Lemma rd_zero_words n p m a :
  rd (zero_words n p m) a =
  if decide (p ≤ a < p + 8 * Z.of_nat n ∧ (a - p) mod 8 = 0) then 0 else rd m a.
Proof.
  revert p m. induction n as [|n IH]; intros p m; cbn [zero_words].
  - case_decide; [lia|done].
  - rewrite IH, rd_wr.
    assert ((a - (p + 8)) mod 8 = (a - p) mod 8) as E.
    { replace (a - (p + 8)) with (a - p + (-1) * 8) by lia. by rewrite Z.mod_add. }
    rewrite E. destruct (decide (p = a)) as [->|].
    + rewrite Z.sub_diag. rewrite decide_False by lia. rewrite decide_True; [done|].
      split; [lia|done].
    + destruct (decide (p ≤ a < p + 8 * Z.of_nat (S n) ∧ (a - p) mod 8 = 0)) as [[Hr Hm]|Hn].
      * rewrite decide_True; [done|]. split; [|done]. split; [|lia].
        enough (p + 8 ≤ a) by lia.
        pose proof (Z.div_mod (a - p) 8 ltac:(lia)). lia.
      * rewrite decide_False; [done|]. intros [Hr ?]. apply Hn. split; [lia|done].
Qed.

Lemma rd_zero_page_in p m i : 0 ≤ i < 512 → rd (zero_page p m) (p + 8 * i) = 0.
Proof.
  intros Hi. unfold zero_page. rewrite rd_zero_words, decide_True; [done|].
  split; [lia|]. replace (p + 8 * i - p) with (i * 8) by lia. apply Z.mod_mul. lia.
Qed.

Lemma slot_ne p q i j :
  p mod 4096 = 0 → q mod 4096 = 0 → p ≠ q → 0 ≤ i < 512 → 0 ≤ j < 512 →
  p + 8 * i ≠ q + 8 * j.
Proof.
  intros Hp Hq Hne Hi Hj E.
  destruct (decide (p < q)).
  - pose proof (aligned_next 4096 p q). lia.
  - pose proof (aligned_next 4096 q p). lia.
Qed.

Section same_page.
Implicit Types m : mem.
Lemma same_page_refl m p : same_page m m p.
Proof. by intros i Hi. Qed.
Lemma same_page_trans m1 m2 m3 p :
  same_page m1 m2 p → same_page m2 m3 p → same_page m1 m3 p.
Proof. intros H1 H2 i Hi. by rewrite H2, H1. Qed.
Lemma same_page_sym m1 m2 p : same_page m1 m2 p → same_page m2 m1 p.
Proof. intros H i Hi. by rewrite H. Qed.

Lemma same_page_wr m p q i v :
  p mod 4096 = 0 → q mod 4096 = 0 → p ≠ q → 0 ≤ i < 512 →
  same_page m (wr m (q + 8 * i) v) p.
Proof. intros Hp Hq Hne Hi j Hj. rewrite rd_wr_ne; [done|]. by apply slot_ne. Qed.

Lemma same_page_zero m p q :
  p mod 4096 = 0 → q mod 4096 = 0 → p ≠ q → same_page m (zero_page q m) p.
Proof.
  intros Hp Hq Hne j Hj. unfold zero_page. rewrite rd_zero_words, decide_False; [done|].
  intros [Hr _]. destruct (decide (p < q)).
  - pose proof (aligned_next 4096 p q). lia.
  - pose proof (aligned_next 4096 q p). lia.
Qed.
End same_page.

Lemma page_ok_aligned p : page_ok p → p mod 4096 = 0.
Proof. by intros (_ & ? & _). Qed.
#[export] Hint Resolve same_page_refl page_ok_aligned : asor.
