(* ===== verification/Spinlock.v ===== *)
(** Spin locks: lib/asm-generic/spinlock.h.

    [spin_lock]/[spin_unlock] are the operations as one CPU running alone sees
    them: acquiring a lock that is already held never returns.  The second part
    is the same code under any interleaving of CPUs, one atomic
    [__sync_lock_test_and_set] or [__sync_lock_release] at a time. *)
From Stdlib Require Import ZArith Lia.
From S2P Require Import Prelude.
#[local] Open Scope Z_scope.

(** [struct spinlock]: the word [v], 0 when free. *)
Abbreviation spinlock := Z (only parsing).

Definition spin_lock (v : spinlock) : outcome spinlock :=
  (* while (__sync_lock_test_and_set(&lock->v, 1)); *)
  if v =? 0 then Done 1 else Hang.
Definition spin_unlock (v : spinlock) : spinlock := 0.

(** ** Interleavings *)
Inductive pc := Outside | Spinning | Critical.
#[export] Instance pc_eq_dec : EqDecision pc.
Proof. solve_decision. Defined.

Record lstate := LState { lword : Z; cpu_pc : nat → pc }.

Definition set_pc (c : nat) (p : pc) (f : nat → pc) : nat → pc :=
  λ d, if decide (c = d) then p else f d.

(** One step of CPU [c]. *)
Inductive lock_step : lstate → lstate → Prop :=
| step_enter c v f : f c = Outside →
    lock_step (LState v f) (LState v (set_pc c Spinning f))
| step_tas_fail c v f : f c = Spinning → v ≠ 0 →
    lock_step (LState v f) (LState 1 f)
| step_tas_ok c f : f c = Spinning →
    lock_step (LState 0 f) (LState 1 (set_pc c Critical f))
| step_unlock c v f : f c = Critical →
    lock_step (LState v f) (LState 0 (set_pc c Outside f)).

Definition lock_init : lstate := LState 0 (λ _, Outside).

Definition lock_inv (s : lstate) : Prop :=
  (lword s = 0 ∨ lword s = 1) ∧
  (∀ c, cpu_pc s c = Critical → lword s = 1) ∧
  (∀ c d, cpu_pc s c = Critical → cpu_pc s d = Critical → c = d).

Lemma lock_inv_init : lock_inv lock_init.
Proof. repeat split; cbn; [by left|done..]. Qed.

Lemma lock_inv_step s s' : lock_inv s → lock_step s s' → lock_inv s'.
Proof.
  intros (Hv & Hheld & Huniq) Hstep. destruct Hstep; cbn in *; unfold set_pc.
  - split; [done|]. split.
    + intros d. cbn. case_decide; [done|]. apply Hheld.
    + intros d e. cbn. repeat case_decide; try done. apply Huniq.
  - split; [by right|]. split; [done|]. apply Huniq.
  - split; [by right|]. split; [done|]. intros d e. cbn.
    repeat case_decide; subst; try done; intros.
    + by specialize (Hheld e ltac:(done)).
    + by specialize (Hheld d ltac:(done)).
    + by apply Huniq.
  - split; [by left|]. split.
    + intros d. cbn. case_decide; [done|]. intros. by rewrite (Huniq c d) in *.
    + intros d e. cbn. repeat case_decide; try done. apply Huniq.
Qed.

Lemma lock_inv_reachable s : rtc lock_step lock_init s → lock_inv s.
Proof.
  intros Hr. remember lock_init as s0 eqn:E.
  assert (lock_inv s0) as Hi by (subst; apply lock_inv_init). clear E.
  induction Hr; [done|]. eauto using lock_inv_step.
Qed.

(** Whatever the interleaving of the CPUs' atomic operations, at most one of them is
    between [spin_lock] and [spin_unlock], and the lock word is 1 while one is. *)
Theorem spinlock_mutual_exclusion s c d :
  rtc lock_step lock_init s → cpu_pc s c = Critical → cpu_pc s d = Critical →
  c = d ∧ lword s = 1.
Proof.
  intros (_ & Hheld & Huniq)%lock_inv_reachable Hc Hd. split; [by apply Huniq|by apply (Hheld c)].
Qed.

(** CPU 0 takes the lock while CPU 1 spins. *)
Definition demo_contended : lstate :=
  LState 1 (set_pc 0 Critical (set_pc 1 Spinning (set_pc 0 Spinning (λ _, Outside)))).

Lemma spinlock_mutual_exclusion_witness :
  rtc lock_step lock_init demo_contended ∧ (0%nat = 0%nat ∧ lword demo_contended = 1).
Proof.
  assert (rtc lock_step lock_init demo_contended) as Hr.
  { eapply rtc_l; [by apply (step_enter 0)|]. eapply rtc_l; [by apply (step_enter 1)|].
    eapply rtc_l; [by apply (step_tas_ok 0)|]. apply rtc_refl. }
  split; [exact Hr|]. apply (spinlock_mutual_exclusion demo_contended 0 0); [exact Hr|done|done].
Defined.
