(* ===== verification/AllocPage.v ===== *)
(** The page allocator: lib/alloc_page.c.

    [pstate] holds the file's statics ([freelist], [lock]) and physical memory,
    because the free list is threaded through the free pages themselves.  The
    second half relates that state to the list of free pages it represents and
    gives the interface [page_source], which the page-table code is proved
    against. *)
From Stdlib Require Import ZArith Lia Bool.
From S2P Require Import Prelude Libcflat Mem Spinlock.
#[local] Open Scope Z_scope.

Record pstate := PState {
  pmem : mem;
  freelist : Z;
  plock : spinlock
}.

Definition with_pmem (m : mem) (s : pstate) : pstate := PState m (freelist s) (plock s).
Definition with_freelist (p : Z) (s : pstate) : pstate := PState (pmem s) p (plock s).
Definition with_plock (l : spinlock) (s : pstate) : pstate := PState (pmem s) (freelist s) l.

Definition lock_pages (s : pstate) : outcome pstate :=
  l ← spin_lock (plock s); mret (with_plock l s).
Definition unlock_pages (s : pstate) : pstate := with_plock (spin_unlock (plock s)) s.

Definition page_alloc_initialized (s : pstate) : bool := negb (freelist s =? 0).

(** The loop of [free_pages]: link each page to the next until the last one. *)
Definition free_pages_loop (endp : Z) (fuel : nat) (st : Z * mem) : outcome (Z * mem) :=
  while_loop fuel
    (λ '(mem, m), negb (u64 (mem + PAGE_SIZE) =? endp))
    (λ '(mem, m), mret (u64 (mem + PAGE_SIZE), wr m mem (u64 (mem + PAGE_SIZE))))
    st.

Definition free_pages (mem size : Z) (s : pstate) : outcome pstate :=
  _ ← c_assert (mem mod PAGE_SIZE =? 0);
  _ ← c_assert (size mod PAGE_SIZE =? 0);
  _ ← c_assert ((size =? 0) || (mem =? u64 (- size)) || (mem <? u64 (mem + size)));
  if size =? 0 then mret (with_freelist 0 s)
  else
    s ← lock_pages s;
    let old_freelist := freelist s in
    let s := with_freelist mem s in
    let endp := u64 (mem + size) in
    '(mem, m) ← free_pages_loop endp (Z.to_nat (size / PAGE_SIZE)) (mem, pmem s);
    mret (unlock_pages (with_pmem (wr m mem old_freelist) s)).

Definition alloc_page (s : pstate) : outcome (Z * pstate) :=
  if freelist s =? 0 then mret (0, s)
  else
    s ← lock_pages s;
    let p := freelist s in
    let s := with_freelist (rd (pmem s) (freelist s)) s in
    mret (p, unlock_pages s).

(** The locals of [alloc_pages] that survive an iteration. *)
Record scan := Scan {
  sc_curr : Z; sc_next : Z;
  sc_run : Z; sc_run_start : Z; sc_run_prev : Z; sc_run_next_pa : Z
}.

(** The [if (run == 0) ... else if ... else] update for the page [curr]. *)
Definition scan_page (align_mask prev curr next : Z) (st : scan) : scan :=
  let pa := virt_to_phys curr in
  if sc_run st =? 0 then
    if Z.land pa align_mask =? 0
    then Scan curr next 1 curr prev (u64 (pa + PAGE_SIZE))
    else Scan curr next (sc_run st) (sc_run_start st) (sc_run_prev st) (sc_run_next_pa st)
  else if pa =? sc_run_next_pa st
  then Scan curr next (u64 (sc_run st + 1)) (sc_run_start st) (sc_run_prev st)
            (u64 (sc_run_next_pa st + PAGE_SIZE))
  else Scan curr next 0 (sc_run_start st) (sc_run_prev st) (sc_run_next_pa st).

Fixpoint alloc_pages_loop (fuel : nat) (n align_mask : Z) (st : scan) (s : pstate)
    : outcome (Z * pstate) :=
  match fuel with
  | O => NoFuel
  | S fuel =>
    let prev := sc_curr st in
    let curr := sc_next st in
    if curr =? 0 then mret (0, s)
    else
      let next := rd (pmem s) curr in
      let st := scan_page align_mask prev curr next st in
      if sc_run st =? n then
        mret (sc_run_start st,
              if negb (sc_run_prev st =? 0)
              then with_pmem (wr (pmem s) (sc_run_prev st) next) s
              else with_freelist next s)
      else alloc_pages_loop fuel n align_mask st s
  end.

Definition alloc_pages (fuel : nat) (order : Z) (s : pstate) : outcome (Z * pstate) :=
  let next := freelist s in
  let n := u64 (Z.shiftl 1 order) in
  let align_mask := u64 (u64 (Z.shiftl n PAGE_SHIFT) - 1) in
  _ ← c_assert (order <? 64);
  s ← lock_pages s;
  '(run_start, s) ← alloc_pages_loop fuel n align_mask (Scan 0 next 0 0 0 0) s;
  mret (run_start, unlock_pages s).

Definition free_page (page : Z) (s : pstate) : outcome pstate :=
  s ← lock_pages s;
  let s := with_pmem (wr (pmem s) page (freelist s)) s in
  let s := with_freelist page s in
  mret (unlock_pages s).

(** [page_memalign] ignores the alignment it is given. *)
Definition page_memalign_order (size : Z) : Z :=
  let n := Z.shiftr (ALIGN size PAGE_SIZE) PAGE_SHIFT in
  if is_power_of_2 n then fls n else fls n + 1.

Definition page_memalign (fuel : nat) (alignment size : Z) (s : pstate)
    : outcome (Z * pstate) :=
  if size =? 0 then mret (0, s)
  else alloc_pages fuel (page_memalign_order size) s.

Definition page_free (mem size : Z) (s : pstate) : outcome pstate :=
  free_pages mem size s.

(** ** The list of free pages *)

(** [fl_seg m from pages to]: following the links from [from] visits exactly
    [pages] and arrives at [to]. *)
Fixpoint fl_seg (m : mem) (from : Z) (pages : list Z) (to : Z) : Prop :=
  match pages with
  | [] => from = to
  | p :: ps => from = p ∧ fl_seg m (rd m p) ps to
  end.

(** [free_list s pages]: the allocator is idle and its free pages are [pages],
    in the order they will be handed out. *)
Definition free_list (s : pstate) (pages : list Z) : Prop :=
  plock s = 0 ∧ fl_seg (pmem s) (freelist s) pages 0 ∧
  NoDup pages ∧ Forall page_ok pages.

(** [n] consecutive page frames from [p]. *)
Fixpoint frames (n : nat) (p : Z) : list Z :=
  match n with O => [] | S n => p :: frames n (p + PAGE_SIZE) end.

(** ** Lemmas on segments *)
Lemma fl_seg_app m from l1 l2 to :
  fl_seg m from (l1 ++ l2) to ↔ ∃ mid, fl_seg m from l1 mid ∧ fl_seg m mid l2 to.
Proof.
  revert from. induction l1 as [|p l1 IH]; intros from; cbn.
  - split; [eauto|]. by intros (? & -> & ?).
  - setoid_rewrite IH. split; [intros (-> & mid & ? & ?)|intros (mid & [-> ?] & ?)]; eauto.
Qed.

Lemma fl_seg_wr_ne m from l to a v :
  a ∉ l → fl_seg m from l to → fl_seg (wr m a v) from l to.
Proof.
  revert from. induction l as [|p l IH]; intros from Ha; cbn; [done|].
  apply not_elem_of_cons in Ha as [Hne Ha]. rewrite rd_wr_ne by done.
  intros [-> ?]. eauto.
Qed.

Lemma fl_seg_mem m m' from l to :
  (∀ p, p ∈ l → rd m' p = rd m p) → fl_seg m from l to → fl_seg m' from l to.
Proof.
  revert from. induction l as [|p l IH]; intros from Hm; cbn; [done|].
  intros [-> ?]. split; [done|]. rewrite Hm by set_solver.
  apply IH; [|done]. intros q Hq. apply Hm. set_solver.
Qed.

(** Redirecting the link of the last page of a segment. *)
Lemma fl_seg_snoc_wr m from l x to v :
  NoDup (l ++ [x]) → fl_seg m from (l ++ [x]) to → fl_seg (wr m x v) from (l ++ [x]) v.
Proof.
  intros (_ & Hd & _)%NoDup_app (mid & H1 & (-> & _))%fl_seg_app.
  apply fl_seg_app. exists x. split; [|cbn; by rewrite rd_wr_eq].
  apply fl_seg_wr_ne; [|done]. intros Hx. by apply (Hd x); [|set_solver].
Qed.

Lemma frames_length n p : length (frames n p) = n.
Proof. revert p. induction n; intros; cbn; auto. Qed.

Lemma elem_of_frames n p q :
  q ∈ frames n p ↔ ∃ i, (i < n)%nat ∧ q = p + Z.of_nat i * 4096.
Proof.
  revert p. induction n as [|n IH]; intros p; cbn.
  - split; [by intros ?%not_elem_of_nil|intros (? & ? & _); lia].
  - rewrite elem_of_cons, IH, PAGE_SIZE_val. split.
    + intros [->|(i & ? & ->)]; [exists O; lia|exists (S i); lia].
    + intros (i & Hi & ->). destruct i as [|i]; [left; lia|right; exists i; lia].
Qed.

Lemma frames_snoc n p : frames (S n) p = frames n p ++ [p + Z.of_nat n * PAGE_SIZE].
Proof.
  revert p. induction n as [|n IH]; intros p.
  - cbn. f_equal. lia.
  - change (frames (S (S n)) p) with (p :: frames (S n) (p + PAGE_SIZE)).
    rewrite IH. cbn [frames app]. do 3 f_equal. lia.
Qed.

Lemma NoDup_frames n p : NoDup (frames n p).
Proof.
  revert p. induction n as [|n IH]; intros p; cbn; [constructor|].
  constructor; [|apply IH]. rewrite elem_of_frames, PAGE_SIZE_val.
  intros (i & _ & ?). lia.
Qed.

Lemma free_list_cons s p ps :
  free_list s (p :: ps) → freelist s = p ∧ p ≠ 0 ∧ page_ok p ∧ p ∉ ps.
Proof.
  intros (_ & [-> _] & Hnd & Hok). apply NoDup_cons in Hnd as [Hp _].
  apply Forall_cons in Hok as [Hok _]. destruct Hok as (? & ? & ?).
  repeat split; [lia..|done].
Qed.

(** ** The operations on the list of free pages *)
Lemma alloc_page_nil s : free_list s [] → alloc_page s = Done (0, s).
Proof. intros (_ & Hf & _). unfold alloc_page. cbn in Hf. by rewrite Hf. Qed.

Lemma alloc_page_cons s p ps :
  free_list s (p :: ps) →
  ∃ s', alloc_page s = Done (p, s') ∧ free_list s' ps ∧ pmem s' = pmem s.
Proof.
  intros Hs. destruct (free_list_cons _ _ _ Hs) as (Hp & Hnz & Hok & Hn).
  destruct Hs as (Hl & [_ Hseg] & Hnd & Hall).
  unfold alloc_page, lock_pages, spin_lock. rewrite Hp, Hl.
  destruct (Z.eqb_spec p 0); [done|]. cbn. eexists. split; [by rewrite Hp|].
  apply NoDup_cons in Hnd as [_ ?]. apply Forall_cons in Hall as [_ ?].
  split; [|done]. split; [done|]. by split.
Qed.

Lemma free_page_cons s p ps :
  free_list s ps → page_ok p → p ∉ ps →
  ∃ s', free_page p s = Done s' ∧ free_list s' (p :: ps) ∧
        ∀ q, q ≠ p → rd (pmem s') q = rd (pmem s) q.
Proof.
  intros (Hl & Hseg & Hnd & Hall) Hok Hp.
  unfold free_page, lock_pages, spin_lock. rewrite Hl. cbn.
  eexists. split; [done|]. split; [|intros; cbn; by rewrite rd_wr_ne].
  split; [done|]. cbn. split.
  - split; [done|]. rewrite rd_wr_eq. by apply fl_seg_wr_ne.
  - split; [by apply NoDup_cons|by apply Forall_cons].
Qed.

(** *** [free_pages] *)
Lemma free_pages_loop_ok endp :
  ∀ n m mem0, endp = mem0 + Z.of_nat (S n) * PAGE_SIZE → 0 < mem0 → endp < 2 ^ 64 →
  ∃ m', free_pages_loop endp n (mem0, m) = Done (mem0 + Z.of_nat n * PAGE_SIZE, m') ∧
    fl_seg m' mem0 (frames n mem0) (mem0 + Z.of_nat n * PAGE_SIZE) ∧
    ∀ q, q ∉ frames n mem0 → rd m' q = rd m q.
Proof.
  induction n as [|n IH]; intros m mem0 Hend Hpos Hlt;
    unfold free_pages_loop; cbn [while_loop]; rewrite PAGE_SIZE_val in *.
  - rewrite u64_small by (unfold in_u64; lia).
    destruct (Z.eqb_spec (mem0 + 4096) endp); [|lia]. cbn.
    eexists. split; [do 2 f_equal; lia|]. split; [lia|done].
  - rewrite u64_small by (unfold in_u64; lia).
    destruct (Z.eqb_spec (mem0 + 4096) endp); [lia|]. cbn [negb].
    destruct (IH (wr m mem0 (mem0 + 4096)) (mem0 + 4096)) as (m' & E & Hseg & Hout); [lia..|].
    unfold free_pages_loop in E. rewrite PAGE_SIZE_val in E. cbn [mret outcome_ret].
    rewrite bind_Done, E. eexists. split; [do 2 f_equal; lia|].
    assert (mem0 ∉ frames n (mem0 + 4096)) as Hn.
    { rewrite elem_of_frames. intros (i & _ & ?). lia. }
    split.
    + cbn [frames fl_seg]. split; [done|]. rewrite PAGE_SIZE_val, Hout, rd_wr_eq by done.
      by replace (mem0 + Z.of_nat (S n) * 4096) with (mem0 + 4096 + Z.of_nat n * 4096) by lia.
    + intros q Hq. cbn [frames] in Hq. rewrite PAGE_SIZE_val in Hq.
      apply not_elem_of_cons in Hq as [? ?]. by rewrite Hout, rd_wr_ne by done.
Qed.

Lemma free_pages_ok s pages mem0 n :
  free_list s pages → page_ok mem0 →
  mem0 + Z.of_nat (S n) * PAGE_SIZE ≤ 2 ^ 52 →
  (∀ p, p ∈ frames (S n) mem0 → p ∉ pages) →
  ∃ s', free_pages mem0 (Z.of_nat (S n) * PAGE_SIZE) s = Done s' ∧
    free_list s' (frames (S n) mem0 ++ pages) ∧
    ∀ q, q ∉ frames (S n) mem0 → rd (pmem s') q = rd (pmem s) q.
Proof.
  intros (Hl & Hseg & Hnd & Hall) (Hpos & Hal & _) Hle Hdisj.
  assert (PAGE_SIZE = 4096) as HPS by reflexivity.
  unfold free_pages, lock_pages, spin_lock. rewrite Hl.
  rewrite (u64_small (mem0 + Z.of_nat (S n) * PAGE_SIZE)) by (unfold in_u64; lia).
  rewrite HPS in *. rewrite Hal, Z.mod_mul by lia.
  destruct (Z.eqb_spec (Z.of_nat (S n) * 4096) 0); [lia|].
  destruct (Z.ltb_spec mem0 (mem0 + Z.of_nat (S n) * 4096)); [|lia].
  rewrite orb_true_r. cbn [Z.eqb c_assert mbind outcome_bind mret outcome_ret negb].
  rewrite Z.div_mul, Nat2Z.id by lia. cbn [pmem with_plock with_freelist freelist].
  destruct (free_pages_loop_ok (mem0 + Z.of_nat (S n) * 4096) n (pmem s) mem0)
    as (m' & E & Hf & Hout); [rewrite ?HPS; lia..|].
  unfold free_pages_loop in E |- *.
  apply (while_fuel_mono _ _ n (S n)) in E; [|lia]. rewrite E.
  cbn [mbind outcome_bind]. eexists. split; [done|].
  pose proof (frames_snoc n mem0) as Hsn. rewrite HPS in Hsn.
  assert (Hfr : NoDup (frames (S n) mem0)) by apply NoDup_frames.
  assert (Forall page_ok (frames (S n) mem0)) as Hok.
  { apply Forall_forall. intros q (i & ? & ->)%elem_of_frames. repeat split; [lia| |lia].
    by rewrite Z.mod_add by lia. }
  rewrite Hsn in *. rewrite <- app_assoc.
  assert (mem0 + Z.of_nat n * 4096 ∉ frames n mem0) as Hlast.
  { rewrite elem_of_frames. intros (i & ? & ?). lia. }
  assert (∀ q, q ∈ pages → rd m' q = rd (pmem s) q) as Hpg.
  { intros q Hq. apply Hout. intros Hin. apply (Hdisj q); set_solver. }
  split; [split; [done|split]|].
  - cbn. apply fl_seg_app. exists (mem0 + Z.of_nat n * 4096).
    split; [by apply fl_seg_wr_ne|]. cbn. split; [done|]. rewrite rd_wr_eq.
    apply fl_seg_wr_ne; [intros Hin; apply (Hdisj (mem0 + Z.of_nat n * 4096)); set_solver|].
    by apply (fl_seg_mem (pmem s)).
  - rewrite app_assoc. split; [by apply NoDup_app|by apply Forall_app].
  - intros q Hq. apply not_elem_of_app in Hq as [? Hq]. cbn.
    rewrite rd_wr_ne by set_solver. by apply Hout.
Qed.

(** *** [alloc_pages] *)
Definition last0 (l : list Z) : Z := default 0 (last l).

Lemma last0_snoc l x : last0 (l ++ [x]) = x.
Proof. unfold last0. by rewrite last_snoc. Qed.

(** Where the scan is: [l1] was passed over, [r] is the run being built, [rest]
    is still to come. *)
Record scan_inv (s : pstate) (pages : list Z) (mask : Z) (st : scan)
    (l1 r rest : list Z) : Prop := {
  si_split : pages = l1 ++ r ++ rest;
  si_curr : sc_curr st = last0 (l1 ++ r);
  si_next : fl_seg (pmem s) (sc_next st) rest 0;
  si_run : sc_run st = Z.of_nat (length r);
  si_start : r ≠ [] → r = frames (length r) (sc_run_start st) ∧
    sc_run_prev st = last0 l1 ∧ Z.land (sc_run_start st) mask = 0 ∧
    sc_run_next_pa st = sc_run_start st + Z.of_nat (length r) * 4096
}.

Lemma frames_grow r p : r = frames (length r) p →
  r ++ [p + Z.of_nat (length r) * 4096] = frames (length (r ++ [p + Z.of_nat (length r) * 4096])) p.
Proof.
  intros E. rewrite length_app. cbn [length]. rewrite Nat.add_1_r, frames_snoc.
  rewrite <- E at 1. done.
Qed.

Lemma scan_page_inv s pages mask st l1 r q rest :
  scan_inv s pages mask st l1 r (q :: rest) → page_ok q →
  Forall page_ok r → sc_run st < 2 ^ 63 →
  ∃ l1' r', scan_inv s pages mask
    (scan_page mask (sc_curr st) q (rd (pmem s) q) st) l1' r' rest ∧
    (length r' ≤ S (length r))%nat.
Proof.
  intros [Hsplit Hcurr Hnext Hrun Hstart] (Hq & _ & Hqlt) Hr Hlt.
  cbn in Hnext. destruct Hnext as [_ Hnext].
  unfold scan_page, virt_to_phys. rewrite PAGE_SIZE_val.
  destruct (Z.eqb_spec (sc_run st) 0) as [E0|E0].
  - destruct r as [|? ?]; [|cbn in Hrun; lia]. rewrite app_nil_r in Hcurr. cbn in Hsplit.
    destruct (Z.eqb_spec (Z.land q mask) 0) as [Ea|Ea].
    + exists l1, [q]. split; [|cbn; lia]. split; cbn; try done.
      * by rewrite last0_snoc.
      * intros _. rewrite u64_small by (unfold in_u64; lia). by repeat split; [..|lia].
    + exists (l1 ++ [q]), []. split; [|cbn; lia]. split; cbn; try done.
      * by rewrite <- app_assoc.
      * by rewrite app_nil_r, last0_snoc.
  - assert (r ≠ []) as Hne by (intros ->; cbn in Hrun; lia).
    destruct (Hstart Hne) as (Hfr & Hprev & Hal & Hpa).
    destruct (Z.eqb_spec q (sc_run_next_pa st)) as [Eq|Eq].
    + exists l1, (r ++ [q]). split; [|rewrite length_app; cbn; lia]. split; cbn; try done.
      * by rewrite <- app_assoc.
      * by rewrite app_assoc, last0_snoc.
      * rewrite u64_small, length_app by (unfold in_u64; lia). cbn. lia.
      * intros _. rewrite u64_small by (unfold in_u64; lia).
        rewrite Eq, Hpa. split; [by apply frames_grow|].
        rewrite length_app. cbn. repeat split; [done..|lia].
    + exists (l1 ++ r ++ [q]), []. split; [|cbn; lia]. split; cbn; try done.
      * by rewrite Hsplit, <- !app_assoc.
      * by rewrite app_nil_r, app_assoc, last0_snoc.
Qed.

(** Taking the run [r] out of the list. *)
Lemma unlink_run m head l1 r rest next :
  fl_seg m head (l1 ++ r ++ rest) 0 → NoDup (l1 ++ r ++ rest) →
  Forall page_ok (l1 ++ r ++ rest) → fl_seg m next rest 0 →
  fl_seg (if last0 l1 =? 0 then m else wr m (last0 l1) next)
         (if last0 l1 =? 0 then next else head) (l1 ++ rest) 0.
Proof.
  intros Hseg Hnd Hok Hnext. destruct l1 as [|x l1 _] using rev_ind; [done|].
  rewrite last0_snoc. rewrite <- app_assoc in Hok.
  apply Forall_app in Hok as [_ [Hx _]%Forall_cons]. destruct (Z.eqb_spec x 0) as [->|_].
  { destruct Hx. lia. }
  apply fl_seg_app in Hseg as (mid & Hseg & _).
  apply NoDup_app in Hnd as (Hnd1 & Hdisj & _).
  apply fl_seg_app. exists next. split; [by apply (fl_seg_snoc_wr _ _ _ _ mid)|].
  apply fl_seg_wr_ne; [|done]. intros Hin. apply (Hdisj x); set_solver.
Qed.

(** What a call returns: NULL and an unchanged list, or [n] consecutive frames
    taken out of it. *)
Definition alloc_pages_post (s : pstate) (pages : list Z) (n : nat) (mask p : Z)
    (s' : pstate) : Prop :=
  (p = 0 ∧ s' = s) ∨
  (∃ l1 l2, pages = l1 ++ frames n p ++ l2 ∧ Z.land p mask = 0 ∧
    fl_seg (pmem s') (freelist s') (l1 ++ l2) 0 ∧ plock s' = plock s ∧
    ∀ q, q ∉ l1 → rd (pmem s') q = rd (pmem s) q).

Lemma unlink_post s pages n mask st l1 r rest next :
  fl_seg (pmem s) (freelist s) pages 0 → NoDup pages → Forall page_ok pages →
  (0 < n)%nat → scan_inv s pages mask st l1 r rest →
  sc_run st = Z.of_nat n → sc_next st = next →
  let s' := if negb (sc_run_prev st =? 0)
            then with_pmem (wr (pmem s) (sc_run_prev st) next) s
            else with_freelist next s in
  pages = l1 ++ frames n (sc_run_start st) ++ rest ∧
  Z.land (sc_run_start st) mask = 0 ∧
  fl_seg (pmem s') (freelist s') (l1 ++ rest) 0 ∧ plock s' = plock s ∧
  ∀ q, q ∉ l1 → rd (pmem s') q = rd (pmem s) q.
Proof.
  intros Hseg Hnd Hok Hn [Hsplit _ Hnext Hrun Hstart] E <- s'.
  assert (length r = n) as Hlr by lia.
  destruct Hstart as (Hfr & Hprev & Hal & _); [by intros ->; cbn in *; lia|].
  rewrite Hlr in Hfr. rewrite <- Hfr. split; [done|]. split; [done|].
  subst s'. rewrite Hprev. rewrite Hsplit in Hseg, Hnd, Hok.
  pose proof (unlink_run _ _ _ _ _ _ Hseg Hnd Hok Hnext) as Hun.
  destruct (Z.eqb_spec (last0 l1) 0) as [|Hnz]; cbn; [done|].
  split; [done|]. split; [done|]. intros q Hq. rewrite rd_wr_ne; [done|].
  intros <-. destruct l1 as [|x l1 _] using rev_ind; [done|].
  rewrite last0_snoc in Hq. set_solver.
Qed.

Lemma alloc_pages_loop_ok s pages n mask :
  fl_seg (pmem s) (freelist s) pages 0 → NoDup pages → Forall page_ok pages →
  (0 < n)%nat → Z.of_nat n < 2 ^ 64 → (length pages < Z.to_nat (2 ^ 63))%nat →
  ∀ fuel st l1 r rest, scan_inv s pages mask st l1 r rest →
    (length r < n)%nat → (length rest < fuel)%nat →
  ∃ p s', alloc_pages_loop fuel (Z.of_nat n) mask st s = Done (p, s') ∧
    alloc_pages_post s pages n mask p s'.
Proof.
  intros Hseg Hnd Hok Hn Hn64 Hlen fuel. induction fuel as [|fuel IH]; [lia|].
  intros st l1 r rest Hinv Hr Hfuel. cbn [alloc_pages_loop].
  pose proof Hinv as [Hsplit _ Hnext Hrun _].
  pose proof Hok as Hok'. rewrite Hsplit in Hok'.
  destruct rest as [|q rest].
  { cbn in Hnext. rewrite Hnext. cbn. eexists _, _. split; [done|]. by left. }
  pose proof Hnext as [Hq _]. rewrite Hq.
  apply Forall_app in Hok' as [_ [Hokr [Hokq _]%Forall_cons]%Forall_app].
  destruct (Z.eqb_spec q 0) as [->|_]; [destruct Hokq; lia|].
  assert (sc_run st < 2 ^ 63) as Hrun63.
  { rewrite Hrun. rewrite Hsplit, !length_app in Hlen. lia. }
  destruct (scan_page_inv _ _ _ _ _ _ _ _ Hinv Hokq Hokr Hrun63) as (l1' & r' & Hinv' & Hgrow).
  set (st' := scan_page mask (sc_curr st) q (rd (pmem s) q) st) in *.
  destruct (Z.eqb_spec (sc_run st') (Z.of_nat n)) as [E|E].
  - eexists _, _. split; [done|]. right. exists l1', rest.
    apply (unlink_post _ _ _ _ st' _ r'); try done.
    subst st'. unfold scan_page. by repeat case_match.
  - apply (IH st' l1' r' rest); [done| |cbn in Hfuel; lia].
    pose proof (si_run _ _ _ _ _ _ _ Hinv'). lia.
Qed.

Lemma alloc_pages_ok s pages fuel order :
  free_list s pages → 0 ≤ order < 64 → (length pages < fuel)%nat →
  (length pages < Z.to_nat (2 ^ 63))%nat →
  ∃ p s', alloc_pages fuel order s = Done (p, s') ∧
    alloc_pages_post s pages (Z.to_nat (2 ^ order))
      (u64 (u64 (Z.shiftl (2 ^ order) 12) - 1)) p s' ∧ plock s' = 0.
Proof.
  intros (Hl & Hseg & Hnd & Hok) Ho Hfuel Hlen. destruct s as [m fl lk]. cbn in Hl. subst lk.
  pose proof (pow2_k_range order Ho) as Hp2.
  unfold alloc_pages, lock_pages, spin_lock. cbn [plock Z.eqb].
  destruct (Z.ltb_spec order 64); [|lia].
  cbn [c_assert mbind outcome_bind mret outcome_ret with_plock pmem freelist].
  rewrite Z.shiftl_1_l, u64_small by (unfold in_u64; lia).
  set (s1 := PState m fl 1). set (mask := u64 (u64 (Z.shiftl (2 ^ order) 12) - 1)).
  assert (scan_inv s1 pages mask (Scan 0 fl 0 0 0 0) [] [] pages) as Hinv by (by split).
  destruct (alloc_pages_loop_ok s1 pages (Z.to_nat (2 ^ order)) mask Hseg Hnd Hok)
    with (fuel := fuel) (1 := ltac:(lia) : (0 < Z.to_nat (2 ^ order))%nat) (4 := Hinv)
    as (p & s' & E & Hpost); [lia|done|cbn; lia|done|].
  rewrite Z2Nat.id in E by lia. unfold PAGE_SHIFT. fold mask.
  change (with_plock 1 _) with s1. rewrite E.
  exists p, (unlock_pages s'). split; [done|]. split; [|done].
  destruct Hpost as [[-> ->]|(l1 & l2 & ? & ? & ? & ? & ?)]; [by left|].
  right. by exists l1, l2.
Qed.

(** ** The interface page-table code is written against

    A state that holds physical memory and a source of zero or more free page
    frames.  [alloc_page] on an exhausted source returns NULL, which the
    clients do not always test. *)
Class PageSource (St : Type) := {
  ps_mem : St → mem;
  ps_with_mem : mem → St → St;
  ps_alloc_page : St → outcome (Z * St)
}.

Class PageSourceLaws (St : Type) `{PageSource St} := {
  (** [ps_free s F]: the next calls return the frames [F], in order. *)
  ps_free : St → list Z → Prop;
  ps_mem_with m s : ps_mem (ps_with_mem m s) = m;
  ps_free_frames s F : ps_free s F → NoDup F ∧ Forall page_ok F;
  ps_alloc_cons s p F : ps_free s (p :: F) →
    ∃ s', ps_alloc_page s = Done (p, s') ∧ ps_free s' F ∧ ps_mem s' = ps_mem s;
  ps_alloc_nil s : ps_free s [] → ps_alloc_page s = Done (0, s);
  ps_free_with_mem m s F : ps_free s F →
    (∀ p, p ∈ F → same_page (ps_mem s) m p) → ps_free (ps_with_mem m s) F
}.

#[export] Instance pstate_source : PageSource pstate := {
  ps_mem := pmem; ps_with_mem := with_pmem; ps_alloc_page := alloc_page
}.

#[export, refine] Instance pstate_source_laws : PageSourceLaws pstate := {
  ps_free := free_list
}.
Proof.
  - done.
  - by intros s F (_ & _ & ? & ?).
  - apply alloc_page_cons.
  - apply alloc_page_nil.
  - intros m s F (Hl & Hseg & Hnd & Hok) Hsame. split; [done|]. split; [|done].
    apply (fl_seg_mem (pmem s)); [|done]. intros p Hp.
    pose proof (Hsame p Hp 0 ltac:(lia)) as E. by rewrite Z.add_0_r in E.
Defined.

(** [*a = v] on the memory of a state. *)
Definition st_wr {St} `{PageSource St} (a v : Z) (s : St) : St :=
  ps_with_mem (wr (ps_mem s) a v) s.
Definition st_rd {St} `{PageSource St} (a : Z) (s : St) : Z := rd (ps_mem s) a.
Definition st_zero_page {St} `{PageSource St} (p : Z) (s : St) : St :=
  ps_with_mem (zero_page p (ps_mem s)) s.

(** ** Properties *)

Lemma alloc_pages_run s pages fuel order :
  free_list s pages → 0 ≤ order < 40 → (length pages < fuel)%nat →
  (length pages < Z.to_nat (2 ^ 63))%nat →
  ∃ p s', alloc_pages fuel order s = Done (p, s') ∧
    ((p = 0 ∧ free_list s' pages ∧ pmem s' = pmem s) ∨
     (∃ l1 l2, p ≠ 0 ∧ pages = l1 ++ frames (Z.to_nat (2 ^ order)) p ++ l2 ∧
        p mod (2 ^ order * PAGE_SIZE) = 0 ∧ free_list s' (l1 ++ l2) ∧
        ∀ q, q ∉ l1 → rd (pmem s') q = rd (pmem s) q)).
Proof.
  intros Hfl Ho Hfuel Hlen.
  destruct (alloc_pages_ok s pages fuel order) as (p & s' & E & Hpost & Hlk); [done|lia|done..|].
  destruct Hfl as (Hl & Hseg & Hnd & Hok). exists p, s'. split; [done|].
  destruct Hpost as [[-> ->]|(l1 & l2 & Hpg & Hal & Hf & Hl' & Hout)]; [left; repeat split; done|].
  assert (0 < 2 ^ order) as Hpow by (apply Z.pow_pos_nonneg; lia).
  assert (p ∈ pages) as Hin.
  { rewrite Hpg. apply elem_of_app. right. apply elem_of_app. left. apply elem_of_frames.
    exists 0%nat. split; [lia|]. lia. }
  rewrite Forall_forall in Hok. pose proof (Hok p Hin) as (Hp0 & Hp12 & Hp52).
  right. exists l1, l2. split; [lia|]. split; [done|]. split; [|split; [split; [done|]|done]].
  - assert (2 ^ order ≤ 2 ^ 39) by (apply Z.pow_le_mono_r; lia).
    assert (2 ^ order * PAGE_SIZE = 2 ^ (order + 12)) as Epow
      by (rewrite PAGE_SIZE_val, Z.pow_add_r by lia; lia).
    assert (0 < 2 ^ (order + 12) < 2 ^ 64) as Hr
      by (split; [apply Z.pow_pos_nonneg; lia|apply Z.pow_lt_mono_r; lia]).
    rewrite Z.shiftl_mul_pow2 in Hal by lia.
    replace (2 ^ order * 2 ^ 12) with (2 ^ (order + 12)) in Hal by (rewrite Z.pow_add_r by lia; lia).
    rewrite (u64_small (2 ^ (order + 12))), (u64_small (2 ^ (order + 12) - 1)) in Hal
      by (unfold in_u64; lia).
    replace (2 ^ (order + 12) - 1) with (Z.ones (order + 12)) in Hal by (rewrite Z.ones_equiv; lia).
    rewrite Z.land_ones in Hal by lia. by rewrite Epow.
  - split; [done|]. rewrite Hpg in Hnd. split.
    + rewrite Permutation_app_swap_app in Hnd. by apply NoDup_app in Hnd as (_ & _ & ?).
    + apply Forall_forall. intros q Hq. apply Hok. rewrite Hpg. set_solver.
Qed.

(** [free_pages] puts the frames of a range at the head of the free list, lowest
    address first, releases the lock, and writes nothing outside the range. *)
Theorem free_pages_correct s pages mem0 n :
  free_list s pages → page_ok mem0 →
  mem0 + Z.of_nat (S n) * PAGE_SIZE ≤ 2 ^ 52 →
  (∀ p, p ∈ frames (S n) mem0 → p ∉ pages) →
  ∃ s', free_pages mem0 (Z.of_nat (S n) * PAGE_SIZE) s = Done s' ∧
    free_list s' (frames (S n) mem0 ++ pages) ∧
    ∀ q, q ∉ frames (S n) mem0 → rd (pmem s') q = rd (pmem s) q.
Proof. apply free_pages_ok. Qed.

(** the argument checks of [free_pages] abort: an unaligned address, an unaligned
    size, and a range that wraps around the address space (a range that ends
    exactly at 2^64 is accepted by the check). *)
Theorem free_pages_rejects mem0 size s :
  in_u64 mem0 → in_u64 size →
  mem0 mod 4096 ≠ 0 ∨ size mod 4096 ≠ 0 ∨ 2 ^ 64 < mem0 + size →
  free_pages mem0 size s = Abort.
Proof.
  unfold in_u64. intros Hm Hs Hbad. unfold free_pages. rewrite PAGE_SIZE_val.
  destruct (Z.eqb_spec (mem0 mod 4096) 0); [|done].
  destruct (Z.eqb_spec (size mod 4096) 0); [|done]. cbn [c_assert mbind outcome_bind].
  destruct Hbad as [?|[?|Hw]]; [done..|].
  assert (u64 (mem0 + size) = mem0 + size - 2 ^ 64) as ->
    by (unfold u64; rewrite <- (Z.mod_add _ (-1)), Z.mod_small by lia; lia).
  assert (u64 (- size) = 2 ^ 64 - size) as ->
    by (unfold u64; rewrite <- (Z.mod_add _ 1), Z.mod_small by lia; lia).
  destruct (Z.eqb_spec size 0), (Z.eqb_spec mem0 (2 ^ 64 - size)),
    (Z.ltb_spec mem0 (mem0 + size - 2 ^ 64)); (done || lia).
Qed.

(** C10: [alloc_pages(order)] either returns NULL and changes nothing, or unlinks a
    run of 2^order consecutive frames that starts at a multiple of its own size;
    the other free pages stay, in order, and only their links are written. *)
Theorem alloc_pages_correct s pages fuel order :
  free_list s pages → 0 ≤ order < 40 → (length pages < fuel)%nat →
  (length pages < Z.to_nat (2 ^ 63))%nat →
  ∃ p s', alloc_pages fuel order s = Done (p, s') ∧
    ((p = 0 ∧ free_list s' pages ∧ pmem s' = pmem s) ∨
     (∃ l1 l2, p ≠ 0 ∧ pages = l1 ++ frames (Z.to_nat (2 ^ order)) p ++ l2 ∧
        p mod (2 ^ order * PAGE_SIZE) = 0 ∧ free_list s' (l1 ++ l2) ∧
        ∀ q, q ∉ l1 → rd (pmem s') q = rd (pmem s) q)).
Proof. apply alloc_pages_run. Qed.

(** what is freed is what the next allocation returns: after [free_page(p)],
    [alloc_page] returns [p] and the free list is what it was. *)
Theorem free_page_alloc_page s pages p :
  free_list s pages → page_ok p → p ∉ pages →
  ∃ s1 s2, free_page p s = Done s1 ∧ alloc_page s1 = Done (p, s2) ∧
    free_list s2 pages ∧ ∀ q, q ≠ p → rd (pmem s2) q = rd (pmem s) q.
Proof.
  intros Hf Hp Hn. destruct (free_page_cons s p pages) as (s1 & E1 & Hf1 & Hm1); [done..|].
  destruct (alloc_page_cons s1 p pages Hf1) as (s2 & E2 & Hf2 & Em).
  exists s1, s2. split; [done|]. split; [done|]. split; [done|]. intros q Hq. rewrite Em. auto.
Qed.

Lemma memalign_pages size :
  0 < size ≤ 2 ^ 50 → Z.shiftr (ALIGN size PAGE_SIZE) PAGE_SHIFT = (size + 4095) / 4096.
Proof.
  intros Hs. rewrite PAGE_SIZE_pow, ALIGN_pow2 by lia.
  rewrite Z.shiftr_div_pow2 by (unfold PAGE_SHIFT; lia). unfold PAGE_SHIFT.
  rewrite Z.div_mul by lia. f_equal. lia.
Qed.

(** The order is the least one whose block holds [size] bytes. *)
Lemma page_memalign_order_ok size :
  0 < size ≤ 2 ^ 50 →
  let o := page_memalign_order size in
  0 ≤ o < 40 ∧ size ≤ 2 ^ o * PAGE_SIZE ∧ (0 < o → 2 ^ (o - 1) * PAGE_SIZE < size).
Proof.
  intros Hs. unfold page_memalign_order. rewrite memalign_pages by done. rewrite PAGE_SIZE_val.
  set (n := (size + 4095) / 4096).
  assert (4096 * n < size + 4096 ∧ size ≤ 4096 * n) as [Hn1 Hn2].
  { pose proof (Z.div_mod (size + 4095) 4096 ltac:(lia)).
    pose proof (Z.mod_pos_bound (size + 4095) 4096 ltac:(lia)). lia. }
  assert (0 < n ≤ 2 ^ 38) as Hn by lia.
  assert (fls n = Z.log2 n) as Efl by (unfold fls, builtin_clzl, BITS_PER_LONG; lia).
  pose proof (fls_bounds n ltac:(lia)) as Hb. pose proof (Z.log2_nonneg n).
  assert (Z.log2 n ≤ 38) by (rewrite <- (Z.log2_pow2 38) by lia; apply Z.log2_le_mono; lia).
  rewrite Efl in *. destruct (is_power_of_2 n) eqn:Ep.
  - destruct (is_power_of_2_inv n) as (k & Hk & Ek); [unfold in_u64; lia|done|].
    rewrite Ek, Z.log2_pow2 in * by lia. split; [lia|]. split; [lia|]. intros Hk0.
    assert (2 ^ k = 2 * 2 ^ (k - 1)) by (rewrite <- Z.pow_succ_r by lia; f_equal; lia).
    assert (0 < 2 ^ (k - 1)) by (apply Z.pow_pos_nonneg; lia). lia.
  - split; [lia|]. split; [lia|]. intros _. rewrite Z.add_simpl_r.
    assert (n ≠ 2 ^ Z.log2 n); [|lia].
    intros E. rewrite E, is_power_of_2_pow in Ep by lia. done.
Qed.

(** C35: [memalign] of the page allocator: a block it returns is the smallest power of
    two of pages that holds [size] bytes and is aligned to its own size (so to the
    page size); the frames leave the free list, and a NULL leaves the list alone. *)
Theorem page_memalign_correct s pages fuel alignment size :
  free_list s pages → 0 < size ≤ 2 ^ 50 → (length pages < fuel)%nat →
  (length pages < Z.to_nat (2 ^ 63))%nat →
  ∃ p s' o, page_memalign fuel alignment size s = Done (p, s') ∧
    size ≤ 2 ^ o * PAGE_SIZE ∧ (0 < o → 2 ^ (o - 1) * PAGE_SIZE < size) ∧
    ((p = 0 ∧ free_list s' pages) ∨
     (p ≠ 0 ∧ p mod (2 ^ o * PAGE_SIZE) = 0 ∧
      ∃ l1 l2, pages = l1 ++ frames (Z.to_nat (2 ^ o)) p ++ l2 ∧ free_list s' (l1 ++ l2))).
Proof.
  intros Hf Hs Hfuel Hlen. destruct (page_memalign_order_ok size Hs) as (Ho & Hfit & Hleast).
  destruct (alloc_pages_run s pages fuel (page_memalign_order size))
    as (p & s' & E & Hr); try done.
  exists p, s', (page_memalign_order size). split.
  { unfold page_memalign. rewrite (proj2 (Z.eqb_neq size 0)) by lia. exact E. }
  split; [done|]. split; [done|].
  destruct Hr as [(-> & ? & _)|(l1 & l2 & ? & ? & ? & ? & _)]; [by left|].
  right. split; [done|]. split; [done|]. by exists l1, l2.
Qed.

(** A free list with the aligned pair 0x4000, 0x5000 in it. *)
Definition demo_pages : pstate :=
  PState (list_to_map [(0x2000, 0x4000); (0x4000, 0x5000); (0x5000, 0)]) 0x2000 0.

Lemma demo_pages_ok p : p ∈ [0x2000; 0x4000; 0x5000] → page_ok p.
Proof. rewrite !elem_of_cons, elem_of_nil. intros [->|[->|[->|[]]]]; by split. Qed.

Lemma demo_pages_list : free_list demo_pages [0x2000; 0x4000; 0x5000].
Proof.
  split; [done|]. split; [by vm_compute|]. split.
  - apply (bool_decide_unpack _). by vm_compute.
  - apply Forall_forall. intros p. apply demo_pages_ok.
Qed.

(** a run that is cut short is not retried from the page that cut it: with 0x2000,
    0x4000 and 0x5000 free, [alloc_pages(1)] returns NULL although the aligned pair
    0x4000, 0x5000 is free. *)
Theorem alloc_pages_misses_a_run :
  free_list demo_pages ([0x2000] ++ frames 2 0x4000) ∧ 0x4000 mod (2 ^ 1 * PAGE_SIZE) = 0 ∧
  ∃ s', alloc_pages 4 1 demo_pages = Done (0, s').
Proof.
  split; [apply demo_pages_list|]. split; [done|]. eexists. by vm_compute.
Qed.

(** *** The theorems at concrete inputs *)
Lemma free_pages_correct_witness :
  ∃ s', free_pages 0x8000 (2 * PAGE_SIZE) demo_pages = Done s' ∧
    free_list s' (0x8000 :: 0x9000 :: [0x2000; 0x4000; 0x5000]).
Proof.
  destruct (free_pages_correct demo_pages [0x2000; 0x4000; 0x5000] 0x8000 1) as (s' & E & Hf & _).
  - apply demo_pages_list.
  - by split.
  - by vm_compute.
  - intros p Hp Hq. cbn in Hp. change PAGE_SIZE with 4096 in Hp.
    apply list_elem_of_In in Hp, Hq. cbn in Hp, Hq. lia.
  - by exists s'.
Defined.

Lemma free_pages_rejects_witness : free_pages 0x1000 0xfffffffffffff001 demo_pages = Abort.
Proof. apply free_pages_rejects; [by unfold in_u64..|]. right. by left. Defined.

Lemma alloc_pages_correct_witness :
  ∃ p s', alloc_pages 4 0 demo_pages = Done (p, s') ∧ p ≠ 0 ∧ p mod 4096 = 0.
Proof.
  destruct (alloc_pages_correct demo_pages [0x2000; 0x4000; 0x5000] 4 0)
    as (p & s' & E & [(-> & _)|(l1 & l2 & Hp & _ & Hal & _)]).
  - apply demo_pages_list.
  - done.
  - cbn. lia.
  - apply Nat2Z.inj_lt. rewrite Z2Nat.id by lia. done.
  - discriminate E.
  - by exists p, s'.
Defined.

Lemma free_page_alloc_page_witness :
  ∃ s1 s2, free_page 0x7000 demo_pages = Done s1 ∧ alloc_page s1 = Done (0x7000, s2) ∧
    free_list s2 [0x2000; 0x4000; 0x5000].
Proof.
  destruct (free_page_alloc_page demo_pages [0x2000; 0x4000; 0x5000] 0x7000)
    as (s1 & s2 & E1 & E2 & Hf & _).
  - apply demo_pages_list.
  - by split.
  - intros Hq%list_elem_of_In. cbn in Hq. lia.
  - by exists s1, s2.
Defined.

Lemma page_memalign_correct_witness :
  ∃ p s' o, page_memalign 4 8 5000 demo_pages = Done (p, s') ∧ 5000 ≤ 2 ^ o * PAGE_SIZE.
Proof.
  destruct (page_memalign_correct demo_pages [0x2000; 0x4000; 0x5000] 4 8 5000)
    as (p & s' & o & E & Ho & _).
  - apply demo_pages_list.
  - lia.
  - cbn. lia.
  - apply Nat2Z.inj_lt. rewrite Z2Nat.id by lia. done.
  - exists p, s', o. split; [exact E|exact Ho].
Defined.
