(* ===== verification/PageTable.v ===== *)
(** What a page table means: the specification the three walkers of the program
    (x86/ept.c, lib/x86/vm.c, lib/x86/intel-iommu.c) are proved against.

    [translate] is the hardware's walk of a radix tree of 512-entry tables.
    [tree] says that the tables reachable from a root are proper page frames
    that do not overlap, each inside a set [own] of frames; it is what makes a
    store to one entry leave the rest of the address space alone
    ([node_update]). *)
From Stdlib Require Import ZArith Lia Bool.
From S2P Require Import Prelude Libcflat Mem.
#[local] Open Scope Z_scope.

(** The encoding of an entry: the mask whose bits make it present, the mask of
    the permission bits (they combine by conjunction along a walk) and the top
    bit of the address field, which starts at bit 12.  Bit 7 is the "large page"
    bit in all three formats. *)
Record pt_format := PtFormat { pf_pmask : Z; pf_full : Z; pf_top : Z }.

Class FormatOk (F : pt_format) : Prop := {
  fo_pmask : 0 ≤ pf_pmask F < 8;
  fo_full : 0 ≤ pf_full F < 8;
  fo_top : 51 ≤ pf_top F ≤ 63
}.

Definition pf_present (F : pt_format) (e : Z) : bool := negb (Z.land e (pf_pmask F) =? 0).
Definition pf_huge (e : Z) : bool := negb (Z.land e (2 ^ 7) =? 0).
Definition pf_amask (F : pt_format) : Z := GENMASK_ULL (pf_top F) 12.
Definition pf_addr (F : pt_format) (e : Z) : Z := Z.land e (pf_amask F).

Section format.
Context (F : pt_format).
Implicit Types (lv : nat) (m : mem) (pt va e : Z).

Definition pf_perm e : Z := Z.land e (pf_full F).

Definition is_huge lv e : bool := ((lv =? 2) || (lv =? 3))%nat && pf_huge e.
Definition is_leaf lv e : bool := (lv =? 1)%nat || is_huge lv e.

(** Translation by the entry [e] found at level [lv]; [sub] walks the next
    table.  The result is the physical address and the effective permissions. *)
Definition xlate_entry (sub : Z → Z → option (Z * Z)) lv e va : option (Z * Z) :=
  if negb (pf_present F e) then None
  else if is_leaf lv e then Some (pf_addr F e + va mod 2 ^ PGDIR_BITS lv, pf_perm e)
  else '(pa, p) ← sub (pf_addr F e) va; Some (pa, Z.land (pf_perm e) p).

Fixpoint translate lv m pt va : option (Z * Z) :=
  match lv with
  | O => None
  | S l => xlate_entry (translate l m) lv (rd m (pt + 8 * PGDIR_OFFSET va lv)) va
  end.

(** Permissions collected on the way to the entry of level [tl] for [va]. *)
Fixpoint path_perm tl lv m pt va : Z :=
  match lv with
  | O => pf_full F
  | S l =>
    if (lv <=? tl)%nat then pf_full F
    else
      let e := rd m (pt + 8 * PGDIR_OFFSET va lv) in
      if negb (pf_present F e) then pf_full F
      else if is_leaf lv e then pf_perm e
      else Z.land (pf_perm e) (path_perm tl l m (pf_addr F e) va)
  end.

(** Number of tables missing between [lv] and [tl] on the path of [va]. *)
Fixpoint missing tl lv m pt va : nat :=
  match lv with
  | O => O
  | S l =>
    if (lv <=? tl)%nat then O
    else
      let e := rd m (pt + 8 * PGDIR_OFFSET va lv) in
      if negb (pf_present F e) || is_leaf lv e then (lv - tl)%nat
      else missing tl l m (pf_addr F e) va
  end.

(** [va] and [va'] go through the same entry at level [tl]. *)
Fixpoint same_path tl lv va va' : bool :=
  match lv with
  | O => true
  | S l =>
    if (lv <? tl)%nat then true
    else (PGDIR_OFFSET va' lv =? PGDIR_OFFSET va lv) && same_path tl l va va'
  end.

Definition entry_ok lv e : Prop :=
  in_u64 e ∧
  (pf_present F e = true →
    (is_huge lv e = true → pf_addr F e mod 2 ^ PGDIR_BITS lv = 0) ∧
    ((3 < lv)%nat → pf_huge e = false)).

Fixpoint tree lv m pt (own : Z → Prop) : Prop :=
  match lv with
  | O => True
  | S l =>
    own pt ∧ (∀ p, own p → page_ok p) ∧
    (∀ i, 0 ≤ i < 512 → entry_ok lv (rd m (pt + 8 * i))) ∧
    ∃ f : Z → Z → Prop,
      (∀ i p, 0 ≤ i < 512 → f i p → own p ∧ p ≠ pt) ∧
      (∀ i j p, 0 ≤ i < 512 → 0 ≤ j < 512 → f i p → f j p → i = j) ∧
      (∀ i, 0 ≤ i < 512 →
        let e := rd m (pt + 8 * i) in
        pf_present F e = true → is_leaf lv e = false →
        tree l m (pf_addr F e) (f i))
  end.

(** Case analysis on the entry a walk has read; only the table case is left. *)
Ltac case_entry Hp Hl :=
  match goal with
  | |- context [pf_present F ?e] =>
    destruct (pf_present F e) eqn:Hp; cbn [negb orb]; [|done];
    destruct (is_leaf _ e) eqn:Hl; [done|]
  end.

Lemma PGDIR_OFFSET_range va lv : 0 ≤ PGDIR_OFFSET va lv < 512.
Proof.
  unfold PGDIR_OFFSET. change PGDIR_MASK with (Z.ones 9).
  rewrite Z.land_ones by lia. apply Z.mod_pos_bound. lia.
Qed.
#[local] Hint Resolve PGDIR_OFFSET_range : core.

Lemma PGDIR_OFFSET_div va lv :
  (0 < lv)%nat → PGDIR_OFFSET va lv = (va / 2 ^ PGDIR_BITS lv) mod 512.
Proof.
  intros. unfold PGDIR_OFFSET. change PGDIR_MASK with (Z.ones 9).
  rewrite Z.land_ones, Z.shiftr_div_pow2; [done| |lia].
  unfold PGDIR_BITS, PGDIR_WIDTH, PAGE_SHIFT. lia.
Qed.

#[local] Opaque pf_present pf_addr is_leaf.

Lemma tree_root_ok lv m pt own : tree (S lv) m pt own → own pt ∧ page_ok pt.
Proof. intros (? & Hok & _). auto. Qed.

Lemma tree_own_ok lv m pt own p : tree (S lv) m pt own → own p → page_ok p.
Proof. intros (_ & Hok & _). auto. Qed.

Lemma tree_entry_ok lv m pt own i :
  tree (S lv) m pt own → 0 ≤ i < 512 → entry_ok (S lv) (rd m (pt + 8 * i)).
Proof. intros (_ & _ & He & _). auto. Qed.

Lemma tree_own_iff lv m pt (own own' : Z → Prop) :
  (∀ p, own' p ↔ own p) → tree lv m pt own → tree lv m pt own'.
Proof.
  destruct lv; [done|]. intros Ho (? & ? & ? & f & Hf & ? & ?).
  split; [by apply Ho|]. split; [intros p ?%Ho; auto|]. split; [done|]. exists f.
  split; [|done]. intros i p Hi Hfp. rewrite Ho. eauto.
Qed.

(** A tree opened at its root: [f i] are the frames of the table under slot [i]. *)
Record node lv m pt (own : Z → Prop) (f : Z → Z → Prop) : Prop := {
  nd_root : own pt;
  nd_ok p : own p → page_ok p;
  nd_entry i : 0 ≤ i < 512 → entry_ok (S lv) (rd m (pt + 8 * i));
  nd_sub i p : 0 ≤ i < 512 → f i p → own p ∧ p ≠ pt;
  nd_disj i j p : 0 ≤ i < 512 → 0 ≤ j < 512 → f i p → f j p → i = j;
  nd_child i : 0 ≤ i < 512 → pf_present F (rd m (pt + 8 * i)) = true →
    is_leaf (S lv) (rd m (pt + 8 * i)) = false →
    tree lv m (pf_addr F (rd m (pt + 8 * i))) (f i)
}.

Lemma tree_node lv m pt own : tree (S lv) m pt own ↔ ∃ f, node lv m pt own f.
Proof.
  split.
  - intros (? & ? & ? & f & ? & ? & ?). exists f. by split.
  - intros [f []]. split; [done|]. split; [done|]. split; [done|]. by exists f.
Qed.

(** *** Frame properties *)
Lemma tree_frame lv m m' pt own :
  tree lv m pt own → (∀ p, own p → same_page m m' p) → tree lv m' pt own.
Proof.
  revert pt own. induction lv as [|lv IH]; intros pt own; [done|].
  intros (Hpt & Hok & He & f & Hf & Hd & Hc) Hs.
  assert (∀ i, 0 ≤ i < 512 → rd m' (pt + 8 * i) = rd m (pt + 8 * i)) as Hrd
    by (intros; by apply (Hs pt)).
  split; [done|]. split; [done|]. split; [intros; rewrite Hrd; auto|].
  exists f. split; [done|]. split; [done|]. cbn. intros i Hi. rewrite Hrd by done.
  intros Hp Hl. apply IH; [by apply Hc|]. intros p Hfp. by apply Hs, (Hf i p).
Qed.

Lemma walk_frame lv m m' pt own :
  tree lv m pt own → (∀ p, own p → same_page m m' p) →
  (∀ va, translate lv m' pt va = translate lv m pt va) ∧
  (∀ tl va, path_perm tl lv m' pt va = path_perm tl lv m pt va) ∧
  (∀ tl va, missing tl lv m' pt va = missing tl lv m pt va).
Proof.
  revert pt own. induction lv as [|lv IH]; intros pt own; [done|].
  intros (Hpt & Hok & He & f & Hf & Hd & Hc) Hs.
  assert (∀ i, 0 ≤ i < 512 → rd m' (pt + 8 * i) = rd m (pt + 8 * i)) as Hrd
    by (intros; by apply (Hs pt)).
  assert (∀ i, 0 ≤ i < 512 → pf_present F (rd m (pt + 8 * i)) = true →
            is_leaf (S lv) (rd m (pt + 8 * i)) = false →
    (∀ va, translate lv m' (pf_addr F (rd m (pt + 8 * i))) va =
           translate lv m (pf_addr F (rd m (pt + 8 * i))) va) ∧
    (∀ tl va, path_perm tl lv m' (pf_addr F (rd m (pt + 8 * i))) va =
              path_perm tl lv m (pf_addr F (rd m (pt + 8 * i))) va) ∧
    (∀ tl va, missing tl lv m' (pf_addr F (rd m (pt + 8 * i))) va =
              missing tl lv m (pf_addr F (rd m (pt + 8 * i))) va)) as Hsub.
  { intros i Hi Hp Hl. apply (IH _ (f i)); [by apply Hc|].
    intros p Hfp. by apply Hs, (Hf i p). }
  split; [|split].
  - intros va. cbn [translate]. rewrite Hrd by done. unfold xlate_entry.
    case_entry Hp Hl.
    cbn. destruct (Hsub _ (PGDIR_OFFSET_range va (S lv)) Hp Hl) as (E & _). by rewrite E.
  - intros tl va. cbn [path_perm]. rewrite Hrd by done.
    destruct (S lv <=? tl)%nat; [done|].
    case_entry Hp Hl.
    destruct (Hsub _ (PGDIR_OFFSET_range va (S lv)) Hp Hl) as (_ & E & _). by rewrite E.
  - intros tl va. cbn [missing]. rewrite Hrd by done.
    destruct (S lv <=? tl)%nat; [done|].
    case_entry Hp Hl.
    destruct (Hsub _ (PGDIR_OFFSET_range va (S lv)) Hp Hl) as (_ & _ & E). by rewrite E.
Qed.

(** *** Replacing one entry

    [m'] differs from [m], inside the tree, only in slot [i] of [pt] and in
    frames that no other child uses; [g] is what the new child may use. *)
Lemma node_update lv m m' pt own own' (f : Z → Z → Prop) (g : Z → Prop) i :
  node lv m pt own f → (∀ p, own p → own' p) → (∀ p, own' p → page_ok p) →
  0 ≤ i < 512 →
  (∀ p, g p → own' p ∧ p ≠ pt ∧ ∀ j, 0 ≤ j < 512 → j ≠ i → ¬ f j p) →
  (∀ j, 0 ≤ j < 512 → j ≠ i → rd m' (pt + 8 * j) = rd m (pt + 8 * j)) →
  (∀ j p, 0 ≤ j < 512 → j ≠ i → f j p → same_page m m' p) →
  entry_ok (S lv) (rd m' (pt + 8 * i)) →
  (pf_present F (rd m' (pt + 8 * i)) = true →
    is_leaf (S lv) (rd m' (pt + 8 * i)) = false →
    tree lv m' (pf_addr F (rd m' (pt + 8 * i))) g) →
  tree (S lv) m' pt own' ∧
  (∀ va, translate (S lv) m' pt va =
    if PGDIR_OFFSET va (S lv) =? i
    then xlate_entry (translate lv m') (S lv) (rd m' (pt + 8 * i)) va
    else translate (S lv) m pt va) ∧
  (∀ tl va, PGDIR_OFFSET va (S lv) ≠ i →
    path_perm tl (S lv) m' pt va = path_perm tl (S lv) m pt va) ∧
  (∀ tl va, PGDIR_OFFSET va (S lv) ≠ i →
    missing tl (S lv) m' pt va = missing tl (S lv) m pt va).
Proof.
  intros [Hpt _ He Hf Hd Hc] Hsub Hok Hi Hg Hrd Hsame He' Hc'.
  assert (∀ j, 0 ≤ j < 512 → j ≠ i →
    pf_present F (rd m (pt + 8 * j)) = true → is_leaf (S lv) (rd m (pt + 8 * j)) = false →
    tree lv m (pf_addr F (rd m (pt + 8 * j))) (f j) ∧
    ∀ p, f j p → same_page m m' p) as Hother by eauto.
  split; [|split; [|split]].
  - split; [auto|]. split; [done|]. split.
    { intros j Hj. destruct (decide (j = i)) as [->|]; [done|]. rewrite Hrd by done. auto. }
    exists (λ j, if decide (j = i) then g else f j). split; [|split].
    + intros j p Hj. case_decide.
      { intros Hgp. destruct (Hg p Hgp) as (? & ? & _). auto. }
      intros Hfp.
      destruct (Hf j p Hj Hfp). auto.
    + intros j k p Hj Hk. repeat case_decide; subst; try done; intros H1 H2.
      * destruct (Hg p H1) as (_ & _ & Hn). by destruct (Hn k).
      * destruct (Hg p H2) as (_ & _ & Hn). by destruct (Hn j).
      * by apply (Hd j k p).
    + cbn. intros j Hj. case_decide; [subst; exact Hc'|]. rewrite Hrd by done.
      intros Hp Hl. destruct (Hother j) as [Ht Hs]; [done..|]. by apply (tree_frame _ m).
  - intros va. cbn [translate]. destruct (Z.eqb_spec (PGDIR_OFFSET va (S lv)) i) as [->|Hne]; [done|].
    rewrite Hrd by done. unfold xlate_entry.
    case_entry Hp Hl.
    cbn. destruct (Hother _ (PGDIR_OFFSET_range va (S lv)) Hne Hp Hl) as [Ht Hs].
    destruct (walk_frame _ _ _ _ _ Ht Hs) as (E & _). by rewrite E.
  - intros tl va Hne. cbn [path_perm]. rewrite Hrd by done.
    destruct (S lv <=? tl)%nat; [done|].
    case_entry Hp Hl.
    destruct (Hother _ (PGDIR_OFFSET_range va (S lv)) Hne Hp Hl) as [Ht Hs].
    destruct (walk_frame _ _ _ _ _ Ht Hs) as (_ & E & _). by rewrite E.
  - intros tl va Hne. cbn [missing]. rewrite Hrd by done.
    destruct (S lv <=? tl)%nat; [done|].
    case_entry Hp Hl.
    destruct (Hother _ (PGDIR_OFFSET_range va (S lv)) Hne Hp Hl) as [Ht Hs].
    destruct (walk_frame _ _ _ _ _ Ht Hs) as (_ & _ & E). by rewrite E.
Qed.

(** A table without present entries maps nothing. *)
Lemma tree_empty lv m pt (own : Z → Prop) :
  own pt → (∀ p, own p → page_ok p) →
  (∀ i, 0 ≤ i < 512 → entry_ok (S lv) (rd m (pt + 8 * i)) ∧
                      pf_present F (rd m (pt + 8 * i)) = false) →
  tree (S lv) m pt own ∧
  (∀ va, translate (S lv) m pt va = None).
Proof.
  intros Hpt Hok He. split.
  - split; [done|]. split; [done|]. split; [intros i Hi; apply (He i Hi)|].
    exists (λ _ _, False). split; [done|]. split; [done|]. cbn. intros i Hi Hp.
    destruct (He i Hi) as [_ Hn]. by rewrite Hn in Hp.
  - intros va. cbn [translate]. unfold xlate_entry.
    by destruct (He _ (PGDIR_OFFSET_range va (S lv))) as [_ ->].
Qed.

(** A table all of whose present entries are leaves. *)
Lemma tree_leaves lv m pt (own : Z → Prop) :
  own pt → (∀ p, own p → page_ok p) →
  (∀ i, 0 ≤ i < 512 → entry_ok (S lv) (rd m (pt + 8 * i)) ∧
                      is_leaf (S lv) (rd m (pt + 8 * i)) = true) →
  tree (S lv) m pt own.
Proof.
  intros Hpt Hok He. split; [done|]. split; [done|]. split; [intros i Hi; apply (He i Hi)|].
  exists (λ _ _, False). split; [done|]. split; [done|]. cbn. intros i Hi _ Hl.
  destruct (He i Hi) as [_ Hn]. by rewrite Hn in Hl.
Qed.
End format.

#[export] Hint Resolve PGDIR_OFFSET_range : asor.

(** ** Entries as bit fields *)
Section entries.
Context (F : pt_format) `{!FormatOk F}.

Lemma testbit_amask i :
  0 ≤ i → Z.testbit (pf_amask F) i = (12 <=? i) && (i <=? pf_top F).
Proof.
  intros. destruct FormatOk0. apply testbit_GENMASK_ULL; lia.
Qed.

Lemma pf_addr_aligned e : pf_addr F e mod 4096 = 0.
Proof.
  change 4096 with (2 ^ 12). apply aligned_of_testbit; [lia|]. intros i Hi.
  unfold pf_addr. rewrite Z.land_spec, testbit_amask by lia.
  destruct (Z.leb_spec 12 i); [lia|]. by rewrite andb_false_r.
Qed.

(** [x | a] with [x] outside and [a] inside the address field. *)
Lemma pf_addr_lor x a :
  Z.land x (pf_amask F) = 0 → 0 ≤ a < 2 ^ 52 → a mod 4096 = 0 →
  pf_addr F (Z.lor x a) = a.
Proof.
  intros Hx Ha Hal. destruct FormatOk0. apply Z.bits_inj'. intros i Hi. unfold pf_addr.
  assert (Z.testbit (Z.land x (pf_amask F)) i = false) as Hxi by (by rewrite Hx, Z.testbit_0_l).
  rewrite Z.land_spec in Hxi. rewrite Z.land_spec, Z.lor_spec, andb_orb_distrib_l, Hxi.
  rewrite testbit_amask by done. cbn [orb].
  destruct (Z.leb_spec 12 i).
  - destruct (Z.leb_spec i (pf_top F)); cbn; [by rewrite andb_true_r|].
    rewrite andb_false_r. by rewrite (testbit_above 52 a i) by lia.
  - rewrite andb_false_r. change 4096 with (2 ^ 12) in Hal.
    by rewrite (testbit_aligned 12 a i) by (done || lia).
Qed.

(** Low flag bits are not affected by an aligned address. *)
Lemma land_lor_low x a k :
  0 ≤ k < 4096 → a mod 4096 = 0 → Z.land (Z.lor x a) k = Z.land x k.
Proof.
  intros Hk Hal. apply Z.bits_inj'. intros i Hi. rewrite !Z.land_spec, Z.lor_spec.
  destruct (decide (i < 12)).
  - change 4096 with (2 ^ 12) in Hal.
    rewrite (testbit_aligned 12 a i) by (done || lia). by rewrite orb_false_r.
  - rewrite (testbit_above 12 k i) by (change (2 ^ 12) with 4096; lia). by rewrite !andb_false_r.
Qed.

Lemma land_low_amask k : 0 ≤ k < 4096 → Z.land k (pf_amask F) = 0.
Proof.
  intros Hk. apply Z.bits_inj'. intros i Hi. rewrite Z.land_spec, testbit_amask, Z.testbit_0_l by lia.
  destruct (Z.leb_spec 12 i); [|by rewrite andb_false_r].
  by rewrite (testbit_above 12 k i) by (change (2 ^ 12) with 4096; lia).
Qed.

Lemma in_u64_lor x a : in_u64 x → in_u64 a → in_u64 (Z.lor x a).
Proof.
  intros Hx Ha. apply in_u64_bits; [apply Z.lor_nonneg; red in Hx, Ha; lia|].
  intros i Hi. by rewrite Z.lor_spec, (testbit_above 64 x i), (testbit_above 64 a i).
Qed.
Lemma in_u64_land x a : in_u64 x → 0 ≤ a → in_u64 (Z.land x a).
Proof.
  intros Hx Ha. apply in_u64_bits; [apply Z.land_nonneg; red in Hx; lia|].
  intros i Hi. by rewrite Z.land_spec, (testbit_above 64 x i).
Qed.

Lemma page_in_u64 p : page_ok p → in_u64 p.
Proof. intros (? & _ & ?). unfold in_u64. lia. Qed.

(** An entry made of low flags and a frame address. *)
Section flags.
Context (fl a : Z) (Hfl : 0 ≤ fl < 4096) (Ha : 0 ≤ a < 2 ^ 52) (Hal : a mod 4096 = 0).

Lemma flags_addr : pf_addr F (Z.lor fl a) = a.
Proof. apply pf_addr_lor; [|done..]. by apply land_low_amask. Qed.
Lemma flags_present : pf_present F (Z.lor fl a) = negb (Z.land fl (pf_pmask F) =? 0).
Proof. unfold pf_present. destruct FormatOk0. by rewrite land_lor_low by lia. Qed.
Lemma flags_huge : pf_huge (Z.lor fl a) = negb (Z.land fl (2 ^ 7) =? 0).
Proof. unfold pf_huge. by rewrite land_lor_low by (done || lia). Qed.
Lemma flags_perm : pf_perm F (Z.lor fl a) = Z.land fl (pf_full F).
Proof. unfold pf_perm. destruct FormatOk0. by rewrite land_lor_low by lia. Qed.
Lemma flags_u64 : in_u64 (Z.lor fl a).
Proof. apply in_u64_lor; unfold in_u64; lia. Qed.
End flags.

(** Clearing the bits [y]: nothing else changes. *)
Lemma land_not64_self x y : Z.land (Z.land x (not64 y)) y = 0.
Proof. zbits. by destruct (Z.testbit x i), (Z.testbit y i). Qed.
Lemma land_not64_keep x y k :
  0 ≤ k < 2 ^ 64 → Z.land k y = 0 → Z.land (Z.land x (not64 y)) k = Z.land x k.
Proof.
  intros Hk Hky. apply Z.bits_inj'. intros i Hi.
  assert (Z.testbit (Z.land k y) i = false) as Hb by (by rewrite Hky, Z.testbit_0_l).
  rewrite Z.land_spec in Hb. rewrite !Z.land_spec, testbit_not64 by lia.
  destruct (Z.ltb_spec i 64); [|by rewrite (testbit_above 64 k i), !andb_false_r by lia].
  destruct (Z.testbit x i), (Z.testbit y i), (Z.testbit k i); done.
Qed.
Lemma in_u64_not64 x y : in_u64 x → in_u64 (Z.land x (not64 y)).
Proof.
  intros Hx. apply in_u64_land; [done|]. apply Z.ldiff_nonneg. left. done.
Qed.

Lemma pf_addr_lt e : pf_top F = 51 → 0 ≤ e → 0 ≤ pf_addr F e < 2 ^ 52.
Proof.
  intros Ht He. unfold pf_addr, pf_amask. rewrite Ht.
  assert (0 ≤ Z.land e (GENMASK_ULL 51 12)) by (apply Z.land_nonneg; lia).
  split; [done|].
  assert (Z.land e (GENMASK_ULL 51 12) = Z.land e (GENMASK_ULL 51 12) mod 2 ^ 52) as ->;
    [|apply Z.mod_pos_bound; lia].
  zbits.
Qed.

Lemma PGDIR_BITS_succ lv :
  (0 < lv)%nat → PGDIR_BITS (S lv) = PGDIR_BITS lv + 9 ∧ 12 ≤ PGDIR_BITS lv.
Proof. intros. unfold PGDIR_BITS, PGDIR_WIDTH, PAGE_SHIFT. lia. Qed.

(** The offset below an entry, split at the next level. *)
Lemma offset_split va lv :
  (0 < lv)%nat →
  va mod 2 ^ PGDIR_BITS (S lv) =
  PGDIR_OFFSET va lv * 2 ^ PGDIR_BITS lv + va mod 2 ^ PGDIR_BITS lv.
Proof.
  intros Hlv. destruct (PGDIR_BITS_succ lv Hlv) as [-> ?].
  rewrite Z.pow_add_r, Z.rem_mul_r by (try apply Z.pow_nonzero; lia).
  rewrite PGDIR_OFFSET_div by done. change (2 ^ 9) with 512. lia.
Qed.

Lemma land_7_id k : 0 ≤ k < 8 → Z.land 7 k = k.
Proof.
  intros. rewrite Z.land_comm. change 7 with (Z.ones 3).
  rewrite Z.land_ones by lia. apply Z.mod_small. lia.
Qed.

Lemma split_addr lv base j :
  (0 < lv)%nat → PGDIR_BITS lv ≤ 21 → base mod 2 ^ PGDIR_BITS (S lv) = 0 →
  0 ≤ base < 2 ^ 52 → 0 ≤ j < 512 →
  0 ≤ base + j * 2 ^ PGDIR_BITS lv < 2 ^ 52 ∧
  (base + j * 2 ^ PGDIR_BITS lv) mod 4096 = 0 ∧
  (base + j * 2 ^ PGDIR_BITS lv) mod 2 ^ PGDIR_BITS lv = 0.
Proof.
  intros Hlv Hb2 Hal Hb Hj. destruct (PGDIR_BITS_succ lv Hlv) as [HS Hb1].
  rewrite HS in Hal. set (b := PGDIR_BITS lv) in *. clearbody b.
  assert (0 < 2 ^ b) by (apply Z.pow_pos_nonneg; lia).
  assert (2 ^ (b + 9) = 2 ^ b * 512) as E9 by (rewrite Z.pow_add_r; lia).
  assert (∀ c, 0 ≤ c ≤ b + 9 → base mod 2 ^ c = 0) as Hc.
  { intros c Hc. apply aligned_of_testbit; [lia|]. intros i Hi.
    apply (testbit_aligned (b + 9)); [done|lia]. }
  assert (base + 2 ^ (b + 9) ≤ 2 ^ 52).
  { apply aligned_next; [lia|done| |lia].
    replace 52 with ((52 - (b + 9)) + (b + 9)) by lia. rewrite Z.pow_add_r by lia.
    apply Z.mod_mul. lia. }
  split; [nia|]. rewrite (Z.mod_add base j (2 ^ b)) by lia.
  split; [|apply Hc; lia].
  replace (2 ^ b) with (2 ^ (b - 12) * 4096)
    by (change 4096 with (2 ^ 12); rewrite <- Z.pow_add_r by lia; f_equal; lia).
  rewrite Z.mul_assoc, Z.mod_add by lia. apply (Hc 12). lia.
Qed.

(** *** Splitting a large page

    [ct] holds 512 entries [prototype | base + j * step]; it translates
    exactly as the large leaf [e] of the level above did. *)
Lemma split_table lv m ct e proto :
  (lv = 1 ∨ lv = 2)%nat → page_ok ct → in_u64 e → in_u64 proto →
  pf_addr F e mod 2 ^ PGDIR_BITS (S lv) = 0 → pf_addr F e < 2 ^ 52 →
  Z.land proto (pf_amask F) = 0 →
  Z.land proto 7 = Z.land e 7 → ((lv = 2)%nat → pf_huge proto = true) →
  (∀ j, 0 ≤ j < 512 →
    rd m (ct + 8 * j) = Z.lor proto (pf_addr F e + j * 2 ^ PGDIR_BITS lv)) →
  tree F lv m ct (λ p, p = ct) ∧
  (∀ j, 0 ≤ j < 512 → let x := rd m (ct + 8 * j) in
    is_leaf lv x = true ∧ pf_present F x = pf_present F e ∧ pf_perm F x = pf_perm F e) ∧
  ∀ va, translate F lv m ct va =
    if pf_present F e
    then Some (pf_addr F e + va mod 2 ^ PGDIR_BITS (S lv), pf_perm F e) else None.
Proof.
  intros Hlv Hct He Hproto Hal Hlt Hpa H7 Hhuge Hrd.
  destruct (PGDIR_BITS_succ lv ltac:(lia)) as [HS Hb].
  assert (PGDIR_BITS lv ≤ 21) as Hb2 by (unfold PGDIR_BITS, PGDIR_WIDTH, PAGE_SHIFT; lia).
  assert (∀ j, 0 ≤ j < 512 → let a := pf_addr F e + j * 2 ^ PGDIR_BITS lv in
    0 ≤ a < 2 ^ 52 ∧ a mod 4096 = 0 ∧ a mod 2 ^ PGDIR_BITS lv = 0) as Ha.
  { intros j Hj. apply split_addr; [lia|done|done| |done]. split; [|done].
    destruct He. apply Z.land_nonneg. lia. }
  assert (∀ k, 0 ≤ k < 8 → Z.land proto k = Z.land e k) as Hlow.
  { intros k Hk. rewrite <- (land_7_id k Hk), !Z.land_assoc. by rewrite H7. }
  assert (∀ j, 0 ≤ j < 512 → let x := rd m (ct + 8 * j) in
    entry_ok F lv x ∧ is_leaf lv x = true ∧ pf_present F x = pf_present F e ∧
    pf_perm F x = pf_perm F e ∧ pf_addr F x = pf_addr F e + j * 2 ^ PGDIR_BITS lv) as Hx.
  { intros j Hj x. destruct (Ha j Hj) as (Ha1 & Ha2 & Ha3). subst x. rewrite (Hrd j Hj).
    pose proof FormatOk0 as [? ? ?].
    assert (pf_huge (Z.lor proto (pf_addr F e + j * 2 ^ PGDIR_BITS lv)) = pf_huge proto) as Hh.
    { unfold pf_huge. by rewrite land_lor_low by (done || lia). }
    split; [|split; [|split; [|split]]].
    - split; [apply in_u64_lor; [done|]; unfold in_u64; lia|]. intros _.
      split; [|lia]. intros _. by rewrite pf_addr_lor.
    - unfold is_leaf, is_huge. rewrite Hh. destruct Hlv as [->| ->]; [done|]. by rewrite Hhuge.
    - unfold pf_present. by rewrite land_lor_low, Hlow by (done || lia).
    - unfold pf_perm. by rewrite land_lor_low, Hlow by (done || lia).
    - by apply pf_addr_lor. }
  assert (tree F lv m ct (λ p, p = ct)) as Ht.
  { destruct lv as [|lv]; [lia|]. apply tree_leaves; [done|by intros p ->|].
    intros j Hj. destruct (Hx j Hj) as (? & ? & _). done. }
  split; [done|]. split; [intros j Hj; by destruct (Hx j Hj) as (_ & ? & ? & ? & _)|].
  intros va. destruct lv as [|lv]; [lia|]. cbn [translate].
  destruct (Hx (PGDIR_OFFSET va (S lv)) (PGDIR_OFFSET_range _ _)) as (_ & Hl & Hp & Hpm & Hpad).
  unfold xlate_entry. rewrite Hl, Hp, Hpm, Hpad, (offset_split va (S lv)) by lia.
  destruct (pf_present F e); cbn; [|done]. do 2 f_equal. lia.
Qed.
End entries.


(** Two addresses share the entry of level [tl] when they are in the same block
    of [2 ^ PGDIR_BITS tl] bytes. *)
Lemma same_path_mod tl lv va va' :
  (0 < tl ≤ lv)%nat →
  same_path tl lv va va' = true ↔
  va mod 2 ^ PGDIR_BITS (S lv) / 2 ^ PGDIR_BITS tl =
  va' mod 2 ^ PGDIR_BITS (S lv) / 2 ^ PGDIR_BITS tl.
Proof.
  assert (∀ l, 0 < 2 ^ PGDIR_BITS (S l)) as Hpos.
  { intros l. apply Z.pow_pos_nonneg; [done|]. unfold PGDIR_BITS, PGDIR_WIDTH, PAGE_SHIFT. lia. }
  destruct tl as [|tl]; [lia|]. pose proof (Hpos tl) as Hp.
  induction lv as [|lv IH]; intros Hl; [lia|]. cbn [same_path].
  rewrite (proj2 (Nat.ltb_ge _ _)) by lia. rewrite (offset_split va), (offset_split va') by lia.
  destruct (decide (lv = tl)) as [->|].
  - assert (same_path (S tl) tl va va' = true) as ->.
    { destruct tl; [done|]. cbn [same_path]. by rewrite (proj2 (Nat.ltb_lt _ _)) by lia. }
    rewrite andb_true_r, Z.eqb_eq, !Z.div_add_l by lia.
    assert (∀ x, x mod 2 ^ PGDIR_BITS (S tl) / 2 ^ PGDIR_BITS (S tl) = 0) as Hs.
    { intros x. by apply Z.div_small, Z.mod_pos_bound. }
    rewrite !Hs. lia.
  - destruct (PGDIR_BITS_succ (S lv) ltac:(lia)) as [_ Hb].
    set (d := 2 ^ (PGDIR_BITS (S lv) - PGDIR_BITS (S tl))).
    assert (0 ≤ PGDIR_BITS (S tl) ≤ PGDIR_BITS (S lv)) as Hbs
      by (unfold PGDIR_BITS, PGDIR_WIDTH, PAGE_SHIFT; lia).
    assert (2 ^ PGDIR_BITS (S lv) = d * 2 ^ PGDIR_BITS (S tl)) as Ed
      by (unfold d; rewrite <- Z.pow_add_r by lia; f_equal; lia).
    assert (∀ x, 0 ≤ x mod 2 ^ PGDIR_BITS (S lv) / 2 ^ PGDIR_BITS (S tl) < d) as Hq.
    { intros x. pose proof (Z.mod_pos_bound x _ (Hpos lv)).
      split; [apply Z.div_pos; lia|]. apply Z.div_lt_upper_bound; [lia|].
      rewrite Z.mul_comm, <- Ed. lia. }
    pose proof (Hq va). pose proof (Hq va').
    assert (∀ o x, (o * 2 ^ PGDIR_BITS (S lv) + x) / 2 ^ PGDIR_BITS (S tl) =
      o * d + x / 2 ^ PGDIR_BITS (S tl)) as Hdiv.
    { intros o x. rewrite Ed, Z.mul_assoc, Z.div_add_l by lia. done. }
    rewrite (Hdiv _ (va mod _)), (Hdiv _ (va' mod _)), andb_true_iff, Z.eqb_eq, IH by lia.
    split; [by intros [-> ->]|].
    intros E. assert (PGDIR_OFFSET va' (S lv) = PGDIR_OFFSET va (S lv)) as Eo by nia.
    rewrite Eo in E. lia.
Qed.

(** ** Filling a table with the pieces of a large page *)
Fixpoint fill_table (n : nat) (new_pt prototype step i pa : Z) (m : mem) : mem :=
  match n with
  | O => m
  | S n =>
    fill_table n new_pt prototype step (i + 1) (u64 (pa + step))
      (wr m (new_pt + 8 * i) (Z.lor prototype pa))
  end.

Lemma fill_table_out n new_pt proto step i pa m a :
  (a < new_pt + 8 * i ∨ new_pt + 8 * (i + Z.of_nat n) ≤ a) →
  rd (fill_table n new_pt proto step i pa m) a = rd m a.
Proof.
  revert i pa m. induction n as [|n IH]; intros i pa m Ha; cbn [fill_table]; [done|].
  rewrite IH by lia. apply rd_wr_ne. lia.
Qed.

Lemma fill_table_in n new_pt proto step i pa m k :
  0 ≤ pa → 0 < step → pa + Z.of_nat n * step ≤ 2 ^ 63 → 0 ≤ k < Z.of_nat n →
  rd (fill_table n new_pt proto step i pa m) (new_pt + 8 * (i + k)) =
  Z.lor proto (pa + k * step).
Proof.
  revert i pa m k. induction n as [|n IH]; intros i pa m k Hpa Hs Hle Hk; [lia|].
  cbn [fill_table]. rewrite u64_small by (unfold in_u64; lia).
  destruct (decide (k = 0)) as [->|].
  - rewrite fill_table_out by lia. rewrite Z.add_0_r, rd_wr_eq. f_equal. lia.
  - replace (i + k) with (i + 1 + (k - 1)) by lia. rewrite IH by lia. f_equal. lia.
Qed.

Lemma fill_table_page new_pt proto step pa m q :
  q mod 4096 = 0 → new_pt mod 4096 = 0 → q ≠ new_pt →
  same_page m (fill_table 512 new_pt proto step 0 pa m) q.
Proof.
  intros Hq Hn Hne j Hj. apply fill_table_out. destruct (decide (q < new_pt)).
  - pose proof (aligned_next 4096 q new_pt). lia.
  - pose proof (aligned_next 4096 new_pt q). lia.
Qed.

(** ** The entries written when a large page is split *)
Section split.
Context (F : pt_format) `{!FormatOk F}.

Definition split_proto (level pte : Z) : Z :=
  let prototype := Z.land pte (not64 (pf_amask F)) in
  if level =? 2 then Z.land prototype (not64 (2 ^ 7)) else prototype.
Definition split_entry (pte p : Z) : Z :=
  Z.lor (Z.land (Z.land pte (not64 (2 ^ 7))) (not64 (pf_amask F))) p.

Lemma is_huge_level lv e : is_huge lv e = true → (lv = 2 ∨ lv = 3)%nat ∧ pf_huge e = true.
Proof.
  unfold is_huge. intros [[H|H]%orb_true_iff Hh]%andb_true_iff; apply Nat.eqb_eq in H; auto.
Qed.

Lemma amask_low k : 0 ≤ k < 4096 → Z.land k (pf_amask F) = 0.
Proof. apply land_low_amask, FormatOk0. Qed.

Lemma split_entry_ok l e p :
  in_u64 e → pf_present F e = true → page_ok p → pf_top F = 51 →
  entry_ok F (S l) (split_entry e p) ∧ pf_present F (split_entry e p) = true ∧
  is_huge (S l) (split_entry e p) = false ∧ pf_addr F (split_entry e p) = p ∧
  pf_perm F (split_entry e p) = pf_perm F e.
Proof.
  intros He Hp (Hp0 & Hal & Hp1) Htop. destruct FormatOk0.
  set (x := Z.land (Z.land e (not64 (2 ^ 7))) (not64 (pf_amask F))).
  assert (∀ k, 0 ≤ k < 8 → Z.land (Z.lor x p) k = Z.land e k) as Hlow.
  { intros k Hk. rewrite land_lor_low by (done || lia). unfold x.
    rewrite land_not64_keep by (try apply amask_low; lia).
    rewrite land_not64_keep; [done|lia|]. apply Z.bits_inj'. intros i Hi.
    rewrite Z.land_spec, testbit_pow2, Z.testbit_0_l by lia.
    destruct (Z.eqb_spec i 7) as [->|]; [|by rewrite andb_false_r].
    by rewrite (testbit_above 3 k 7) by (change (2 ^ 3) with 8; lia). }
  assert (pf_huge (Z.lor x p) = false) as Hh.
  { unfold pf_huge. rewrite land_lor_low by (done || lia). unfold x.
    rewrite land_not64_keep by (try apply amask_low; lia). by rewrite land_not64_self. }
  unfold split_entry. fold x. split; [|split; [|split; [|split]]].
  - split.
    + apply in_u64_lor; [by repeat apply in_u64_not64|]. by apply page_in_u64.
    + intros _. unfold is_huge. rewrite Hh, andb_false_r. done.
  - unfold pf_present. rewrite Hlow by lia. exact Hp.
  - unfold is_huge. by rewrite Hh, andb_false_r.
  - apply pf_addr_lor; [done|apply land_not64_self|lia|done].
  - unfold pf_perm. by rewrite Hlow by lia.
Qed.

Lemma split_proto_ok l e :
  in_u64 e → pf_huge e = true → (S l = 2 ∨ S l = 3)%nat →
  let proto := split_proto (Z.of_nat (S l)) e in
  in_u64 proto ∧ Z.land proto (pf_amask F) = 0 ∧ Z.land proto 7 = Z.land e 7 ∧
  ((l = 2)%nat → pf_huge proto = true).
Proof.
  intros He Hh Hl proto. unfold proto, split_proto.
  assert (Z.land (Z.land e (not64 (pf_amask F))) 7 = Z.land e 7) as H7
    by (apply land_not64_keep; [lia|by apply amask_low]).
  destruct (Z.eqb_spec (Z.of_nat (S l)) 2) as [El|El].
  - split; [by repeat apply in_u64_not64|]. split; [|split; [|lia]].
    + rewrite <- Z.land_assoc, (Z.land_comm _ (pf_amask F)), Z.land_assoc.
      by rewrite land_not64_self.
    + rewrite land_not64_keep by done. done.
  - split; [by apply in_u64_not64|]. split; [apply land_not64_self|]. split; [done|].
    intros _. unfold pf_huge.
    rewrite land_not64_keep by (try apply amask_low; lia). exact Hh.
Qed.
End split.

(** ** Installing an entry

    [installed] is what every install routine promises: after the walk from
    level [lv] the entry of level [tl] for [va] is [pte], every other address
    translates as before, only frames of the tree and the newly [used] ones were
    written, and the missing tables, one frame each, were created. *)
Section install.
Context (F : pt_format) `{!FormatOk F}.
Implicit Types (lv tl : nat) (m : mem) (pt va e pte : Z) (used : list Z).

(** The translation through the final entry, under permissions [perm]. *)
Definition leaf_at tl perm pte va : option (Z * Z) :=
  if pf_present F pte
  then Some (pf_addr F pte + va mod 2 ^ PGDIR_BITS tl, Z.land perm (pf_perm F pte))
  else None.

Record installed tl lv m m' pt va pte (own : Z → Prop) used : Prop := {
  ins_tree : tree F lv m' pt (λ p, own p ∨ p ∈ used);
  ins_frame p : page_ok p → ¬ own p → p ∉ used → same_page m m' p;
  ins_translate va' : translate F lv m' pt va' =
    if same_path tl lv va va' then leaf_at tl (path_perm F tl lv m pt va) pte va'
    else translate F lv m pt va';
  ins_perm tl' va' : same_path tl lv va va' = false →
    path_perm F tl' lv m' pt va' = path_perm F tl' lv m pt va';
  ins_mono tl' va' : same_path tl lv va va' = false →
    (missing F tl' lv m' pt va' ≤ missing F tl' lv m pt va')%nat;
  ins_near k tl' va' : (tl < k ≤ lv)%nat → (tl' < k)%nat →
    same_path k lv va va' = true → (missing F tl' lv m' pt va' ≤ k - 1 - tl')%nat;
  ins_used : length used = missing F tl lv m pt va
}.

Lemma missing_le tl lv m pt va : (missing F tl lv m pt va ≤ lv - tl)%nat.
Proof.
  revert pt. induction lv as [|lv IH]; intros pt; cbn [missing]; [lia|].
  destruct (Nat.leb_spec (S lv) tl); [lia|].
  destruct (negb _ || _); [done|]. etransitivity; [apply IH|lia].
Qed.

Lemma perm_full_l x : Z.land (pf_full F) (Z.land x (pf_full F)) = Z.land x (pf_full F).
Proof. rewrite Z.land_comm, <- Z.land_assoc. by rewrite Z.land_diag. Qed.

(** The last store. *)
Lemma installed_base tl m pt va pte own :
  (0 < tl)%nat → tree F tl m pt own → entry_ok F tl pte →
  (pf_present F pte = true → is_leaf tl pte = true) →
  installed tl tl m (wr m (pt + 8 * PGDIR_OFFSET va tl) pte) pt va pte own [].
Proof.
  intros Htl Ht He Hleaf. destruct tl as [|l]; [lia|].
  pose proof (PGDIR_OFFSET_range va (S l)) as Hi.
  apply tree_node in Ht as [f Hnd]. pose proof Hnd as [Hpt Hok Hes Hf Hd Hc].
  pose proof (page_ok_aligned _ (Hok _ Hpt)) as Hal.
  set (m' := wr m (pt + 8 * PGDIR_OFFSET va (S l)) pte).
  assert (rd m' (pt + 8 * PGDIR_OFFSET va (S l)) = pte) as Hrd by apply rd_wr_eq.
  destruct (node_update F l m m' pt own (λ p, own p ∨ p ∈ []) f (λ _, False)
    (PGDIR_OFFSET va (S l))) as (Ht' & Htr & Hpm & Hmm); rewrite ?Hrd; try done.
  - by left.
  - intros p [?|Hp]; [auto|by apply elem_of_nil in Hp].
  - intros j Hj Hne. apply rd_wr_ne. lia.
  - intros j p Hj Hne Hfp. destruct (Hf j p Hj Hfp) as [? ?].
    apply same_page_wr; [by apply page_ok_aligned, Hok|done..].
  - intros Hp Hl. by rewrite (Hleaf Hp) in Hl.
  - split; [done| | | | | |].
    + intros p Hp Hno _. apply same_page_wr; [by apply page_ok_aligned|done| |done].
      by intros ->.
    + intros va'. rewrite Htr, Hrd. cbn [same_path path_perm].
      rewrite Nat.ltb_irrefl, Nat.leb_refl.
      destruct (Z.eqb_spec (PGDIR_OFFSET va' (S l)) (PGDIR_OFFSET va (S l))); cbn [andb]; [|done].
      assert (same_path (S l) l va va' = true) as ->.
      { destruct l; [done|]. cbn [same_path]. by rewrite (proj2 (Nat.ltb_lt _ _)) by lia. }
      unfold xlate_entry, leaf_at. destruct (pf_present F pte); cbn [negb]; [|done].
      rewrite Hleaf by done. unfold pf_perm. by rewrite perm_full_l.
    + intros tl' va' Hsp. apply Hpm. intros Ho. cbn [same_path] in Hsp.
      rewrite Nat.ltb_irrefl, Ho, Z.eqb_refl in Hsp. cbn in Hsp.
      destruct l; [done|]. cbn [same_path] in Hsp.
      by rewrite (proj2 (Nat.ltb_lt _ _)) in Hsp by lia.
    + intros tl' va' Hsp. rewrite Hmm; [done|]. intros Ho. cbn [same_path] in Hsp.
      rewrite Nat.ltb_irrefl, Ho, Z.eqb_refl in Hsp. cbn in Hsp.
      destruct l; [done|]. cbn [same_path] in Hsp.
      by rewrite (proj2 (Nat.ltb_lt _ _)) in Hsp by lia.
    + intros k tl' va' Hk. lia.
    + cbn [missing]. by rewrite Nat.leb_refl.
Qed.

(** One level of the walk.  [m1] is memory when the walk goes down to the table
    [ct]: unchanged if the table existed ([new = []]), else with the frame
    [new = [p]] filled and linked into slot [i]. *)
Lemma installed_step tl l m m1 m' pt va pte (own g : Z → Prop) f new used ct :
  (tl ≤ l)%nat → node F l m pt own f →
  let i := PGDIR_OFFSET va (S l) in
  let e1 := rd m1 (pt + 8 * i) in
  (∀ p, g p → f i p ∨ p ∈ new) →
  (∀ p, p ∈ new → page_ok p ∧ ¬ own p) →
  (∀ j, 0 ≤ j < 512 → j ≠ i → rd m1 (pt + 8 * j) = rd m (pt + 8 * j)) →
  (∀ p, page_ok p → p ≠ pt → p ∉ new → same_page m m1 p) →
  entry_ok F (S l) e1 → pf_present F e1 = true → is_leaf (S l) e1 = false →
  pf_addr F e1 = ct →
  (∀ va', PGDIR_OFFSET va' (S l) = i →
    xlate_entry F (translate F l m1) (S l) e1 va' = translate F (S l) m pt va') →
  (∀ tl' va', PGDIR_OFFSET va' (S l) = i → (tl' ≤ l)%nat →
    path_perm F tl' (S l) m pt va' = Z.land (pf_perm F e1) (path_perm F tl' l m1 ct va')) →
  (∀ tl' va', PGDIR_OFFSET va' (S l) = i → (tl' ≤ l)%nat →
    (missing F tl' l m1 ct va' ≤ missing F tl' (S l) m pt va')%nat) →
  missing F tl (S l) m pt va = (length new + missing F tl l m1 ct va)%nat →
  (∀ p, p ∈ used → page_ok p ∧ ¬ own p ∧ p ∉ new) →
  installed tl l m1 m' ct va pte g used →
  installed tl (S l) m m' pt va pte own (new ++ used).
Proof.
  intros Htl Hnd i e1 Hg Hnew Hrd Hsame He1 Hp1 Hl1 Hct Hx Hpp Hmono Hmiss Hused Hins.
  pose proof Hnd as [Hpt Hok _ Hf Hd _].
  pose proof (PGDIR_OFFSET_range va (S l) : 0 ≤ i < 512) as Hi.
  assert (∀ p, g p → (own p ∨ p ∈ new) ∧ p ≠ pt) as Hg'.
  { intros p Hgp. destruct (Hg p Hgp) as [Hfp|Hn].
    - destruct (Hf i p Hi Hfp). auto.
    - destruct (Hnew p Hn) as [_ Hno]. split; [auto|]. by intros ->. }
  assert (same_page m1 m' pt) as Hptsame.
  { apply (ins_frame _ _ _ _ _ _ _ _ _ Hins); [by apply Hok| |].
    - intros Hgp. by apply Hg' in Hgp as [_ ?].
    - intros Hu. by apply Hused in Hu as (_ & ? & _). }
  assert (rd m' (pt + 8 * i) = e1) as Hslot by (by apply Hptsame).
  assert (∀ j p, 0 ≤ j < 512 → j ≠ i → f j p → same_page m m' p) as Hsib.
  { intros j p Hj Hne Hfp. destruct (Hf j p Hj Hfp) as [Hop Hpne].
    apply same_page_trans with m1.
    - apply Hsame; [by apply Hok|done|]. intros Hn. by apply Hnew in Hn as [_ ?].
    - apply (ins_frame _ _ _ _ _ _ _ _ _ Hins); [by apply Hok| |].
      + intros Hgp. destruct (Hg p Hgp) as [Hfi|Hn]; [by apply Hne, (Hd j i p)|].
        by apply Hnew in Hn as [_ ?].
      + intros Hu. by apply Hused in Hu as (_ & ? & _). }
  destruct (node_update F l m m' pt own (λ p, own p ∨ p ∈ new ++ used) f
    (λ p, g p ∨ p ∈ used) i Hnd) as (Ht' & Htr & Hpm & Hmm); rewrite ?Hslot, ?Hct; try done.
  - by left.
  - intros p. rewrite elem_of_app. intros [?|[?%Hnew|?%Hused]]; [by apply Hok|by destruct_and?..].
  - intros p [Hgp|Hu].
    + destruct (Hg' p Hgp) as [[?|?] ?]; (split; [rewrite elem_of_app; tauto|]); (split; [done|]).
      * intros j Hj Hne Hfp. destruct (Hg p Hgp) as [Hfi|Hn]; [by apply Hne, (Hd j i p)|].
        apply Hnew in Hn as [_ ?]. by destruct (Hf j p Hj Hfp).
      * intros j Hj Hne Hfp. destruct (Hnew p) as [_ ?]; [done|]. by destruct (Hf j p Hj Hfp).
    + destruct (Hused p Hu) as (? & Hno & ?). split; [rewrite elem_of_app; tauto|].
      split; [by intros ->|]. intros j Hj _ Hfp. by destruct (Hf j p Hj Hfp).
  - intros j Hj Hne. by rewrite (Hptsame j), Hrd.
  - intros _ _. apply (ins_tree _ _ _ _ _ _ _ _ _ Hins).
  - split; [done| | | | | |].
    + intros p Hp Hno. rewrite elem_of_app. intros Hn. apply same_page_trans with m1.
      * apply Hsame; [done|by intros ->|tauto].
      * apply (ins_frame _ _ _ _ _ _ _ _ _ Hins); [done| |tauto].
        intros Hgp. apply Hg' in Hgp as [[?|?] _]; tauto.
    + intros va'. rewrite Htr, Hslot, (Hpp tl va) by done. cbn [same_path].
      rewrite (proj2 (Nat.ltb_ge _ _)) by lia. fold i.
      destruct (Z.eqb_spec (PGDIR_OFFSET va' (S l)) i) as [E|]; cbn [andb]; [|done].
      rewrite <- Hx by done. unfold xlate_entry. rewrite Hp1, Hl1, Hct. cbn [negb].
      rewrite (ins_translate _ _ _ _ _ _ _ _ _ Hins). destruct (same_path tl l va va'); [|done].
      unfold leaf_at. destruct (pf_present F pte); cbn; [|done]. by rewrite Z.land_assoc.
    + intros tl' va' Hsp. cbn [same_path] in Hsp.
      rewrite (proj2 (Nat.ltb_ge _ _)) in Hsp by lia.
      destruct (Z.eqb_spec (PGDIR_OFFSET va' (S l)) i) as [E|]; [|by apply Hpm].
      fold i in Hsp. rewrite E, Z.eqb_refl in Hsp. cbn [andb] in Hsp.
      destruct (Nat.leb_spec (S l) tl') as [Hle|Hle].
      * cbn [path_perm]. by rewrite (proj2 (Nat.leb_le _ _)).
      * rewrite (Hpp tl' va' E ltac:(lia)). cbn [path_perm]. rewrite E.
        rewrite (proj2 (Nat.leb_gt _ _)) by lia. rewrite Hslot, Hp1, Hl1, Hct. cbn [negb].
        by rewrite (ins_perm _ _ _ _ _ _ _ _ _ Hins).
    + intros tl' va' Hsp. cbn [same_path] in Hsp.
      rewrite (proj2 (Nat.ltb_ge _ _)) in Hsp by lia.
      destruct (Z.eqb_spec (PGDIR_OFFSET va' (S l)) i) as [E|]; [|by rewrite Hmm].
      fold i in Hsp. rewrite E, Z.eqb_refl in Hsp. cbn [andb] in Hsp.
      destruct (Nat.leb_spec (S l) tl') as [Hle|Hle].
      * cbn [missing]. by rewrite (proj2 (Nat.leb_le _ _)).
      * etransitivity; [|apply (Hmono tl' va' E); lia]. cbn [missing]. rewrite E.
        rewrite (proj2 (Nat.leb_gt _ _)) by lia. rewrite Hslot, Hp1, Hl1, Hct. cbn [negb orb].
        by apply (ins_mono _ _ _ _ _ _ _ _ _ Hins).
    + intros k tl' va' Hk Hk' Hpath. cbn [same_path] in Hpath.
      rewrite (proj2 (Nat.ltb_ge _ _)) in Hpath by lia.
      apply andb_true_iff in Hpath as [Hix%Z.eqb_eq Hpath].
      cbn [missing]. rewrite Hix. fold i. rewrite Hslot, Hp1, Hl1, Hct. cbn [negb orb].
      destruct (Nat.leb_spec (S l) tl'); [lia|].
      destruct (decide (k = S l)) as [->|].
      * etransitivity; [apply missing_le|lia].
      * apply (ins_near _ _ _ _ _ _ _ _ _ Hins); [lia|done|done].
    + rewrite length_app, Hmiss. f_equal. apply (ins_used _ _ _ _ _ _ _ _ _ Hins).
Qed.

(** A table of present leaves, all with the permissions [pm]. *)
Lemma leaf_table l m p pm :
  (0 < l)%nat →
  (∀ j, 0 ≤ j < 512 → let x := rd m (p + 8 * j) in
    is_leaf l x = true ∧ pf_present F x = true ∧ pf_perm F x = pm) →
  ∀ tl va, missing F tl l m p va = (l - tl)%nat ∧
    (path_perm F tl l m p va = pf_full F ∨ path_perm F tl l m p va = pm).
Proof.
  intros Hl Hx tl va. destruct l as [|l]; [lia|]. cbn [missing path_perm].
  destruct (Nat.leb_spec (S l) tl) as [|Hlt]; [split; [lia|by left]|].
  destruct (Hx _ (PGDIR_OFFSET_range va (S l))) as (-> & -> & ->). cbn. auto.
Qed.

(** A zeroed table. *)
Lemma zero_table l m p :
  page_ok p → (0 < l)%nat → (∀ j, 0 ≤ j < 512 → rd m (p + 8 * j) = 0) →
  tree F l m p (λ q, q = p) ∧ (∀ va, translate F l m p va = None) ∧
  (∀ tl va, missing F tl l m p va = (l - tl)%nat) ∧
  ∀ tl va, path_perm F tl l m p va = pf_full F.
Proof.
  intros Hp Hl Hz. destruct l as [|l]; [lia|].
  destruct (tree_empty F l m p (λ q, q = p)) as [Ht Htr]; [done|by intros q ->| |].
  { intros j Hj. rewrite Hz by done. split; [|done]. split; [unfold in_u64; lia|done]. }
  split; [done|]. split; [done|].
  split; intros tl va; cbn [missing path_perm]; destruct (Nat.leb_spec (S l) tl);
    rewrite ?Hz by apply PGDIR_OFFSET_range; done || lia.
Qed.

(** *** The three ways to go down one level *)
Context (tl l : nat) (m : mem) (pt va pte : Z) (own : Z → Prop) (f : Z → Z → Prop).
Context (Htl : (0 < tl ≤ l)%nat) (Hnd : node F l m pt own f).
Let i : Z := PGDIR_OFFSET va (S l).
Let e : Z := rd m (pt + 8 * i).

(** The slot holds a table. *)
Lemma installed_table m' used :
  pf_present F e = true → is_leaf (S l) e = false →
  (∀ p, p ∈ used → page_ok p ∧ ¬ own p) →
  installed tl l m m' (pf_addr F e) va pte (f i) used →
  installed tl (S l) m m' pt va pte own used.
Proof.
  intros Hp Hl Hused Hins.
  pose proof (PGDIR_OFFSET_range va (S l) : 0 ≤ i < 512) as Hi.
  apply (installed_step _ _ _ m _ _ _ _ _ (f i) f [] used (pf_addr F e));
    try done; try lia; cbv zeta.
  - by left.
  - intros p Hn. by apply elem_of_nil in Hn.
  - by apply (nd_entry _ _ _ _ _ _ Hnd).
  - intros va' E. cbn [translate]. rewrite E. done.
  - intros tl' va' E Hle. cbn [path_perm]. rewrite E. fold i. fold e. rewrite Hp, Hl.
    cbn [negb]. by rewrite (proj2 (Nat.leb_gt _ _)) by lia.
  - intros tl' va' E Hle. cbn [missing]. rewrite E. fold i. fold e. rewrite Hp, Hl.
    cbn [negb orb]. by rewrite (proj2 (Nat.leb_gt _ _)) by lia.
  - cbn [missing length]. fold i. fold e. rewrite Hp, Hl. cbn [negb orb].
    by rewrite (proj2 (Nat.leb_gt _ _)) by lia.
  - intros p Hu. destruct (Hused p Hu). split; [done|]. split; [done|]. apply not_elem_of_nil.
Qed.

(** Memory after a new table [p] was filled and linked into the slot. *)
Record linked (m1 : mem) (p e1 : Z) : Prop := {
  lk_page : page_ok p;
  lk_fresh : ¬ own p;
  lk_slot : rd m1 (pt + 8 * i) = e1;
  lk_rest j : 0 ≤ j < 512 → j ≠ i → rd m1 (pt + 8 * j) = rd m (pt + 8 * j);
  lk_frame q : page_ok q → q ≠ pt → q ≠ p → same_page m m1 q;
  lk_entry : entry_ok F (S l) e1;
  lk_present : pf_present F e1 = true;
  lk_table : is_leaf (S l) e1 = false;
  lk_addr : pf_addr F e1 = p
}.

(** Linking a table that translates as the slot did changes no translation. *)
Lemma linked_same m1 p e1 :
  linked m1 p e1 → tree F l m1 p (λ q, q = p) →
  (∀ va', PGDIR_OFFSET va' (S l) = i →
    xlate_entry F (translate F l m1) (S l) e1 va' = translate F (S l) m pt va') →
  tree F (S l) m1 pt (λ q, own q ∨ q = p) ∧
  ∀ va', translate F (S l) m1 pt va' = translate F (S l) m pt va'.
Proof.
  intros [Hok Hfr Hs Hrest Hframe He1 Hp1 Hl1 Ha1] Ht Hx.
  pose proof (PGDIR_OFFSET_range va (S l) : 0 ≤ i < 512) as Hi.
  pose proof Hnd as [Hpt Hpok _ Hf Hd _].
  destruct (node_update F l m m1 pt own (λ q, own q ∨ q = p) f (λ q, q = p) i Hnd)
    as (Ht' & Htr & _); rewrite ?Hs, ?Ha1; try done.
  - by left.
  - intros q [?| ->]; auto.
  - intros q ->. split; [by right|]. split; [by intros ->|].
    intros j Hj _ Hfp. by destruct (Hf j p Hj Hfp).
  - intros j q Hj _ Hfq. destruct (Hf j q Hj Hfq). apply Hframe; [auto|done|]. by intros ->.
  - split; [done|]. intros va'. rewrite Htr, Hs.
    destruct (Z.eqb_spec (PGDIR_OFFSET va' (S l)) i); [by apply Hx|done].
Qed.

Lemma installed_linked m1 m' p e1 used :
  linked m1 p e1 →
  (∀ va', PGDIR_OFFSET va' (S l) = i →
    xlate_entry F (translate F l m1) (S l) e1 va' = translate F (S l) m pt va') →
  (∀ tl' va', PGDIR_OFFSET va' (S l) = i → (tl' ≤ l)%nat →
    path_perm F tl' (S l) m pt va' = Z.land (pf_perm F e1) (path_perm F tl' l m1 p va')) →
  (∀ tl' va', PGDIR_OFFSET va' (S l) = i → (tl' ≤ l)%nat →
    (missing F tl' l m1 p va' ≤ missing F tl' (S l) m pt va')%nat) →
  missing F tl (S l) m pt va = S (missing F tl l m1 p va) →
  (∀ q, q ∈ used → page_ok q ∧ ¬ own q ∧ q ≠ p) →
  installed tl l m1 m' p va pte (λ q, q = p) used →
  installed tl (S l) m m' pt va pte own (p :: used).
Proof.
  intros [Hok Hfr Hs Hrest Hframe He1 Hp1 Hl1 Ha1] Hx Hpp Hmono Hm Hused Hins.
  change (p :: used) with ([p] ++ used).
  apply (installed_step _ _ _ m1 _ _ _ _ _ (λ q, q = p) f [p] used p);
    cbv zeta; fold i; rewrite ?Hs; try done; try lia.
  - intros q ->. right. by apply list_elem_of_singleton.
  - intros q ->%list_elem_of_singleton. done.
  - intros q Hq Hne Hn. apply Hframe; [done..|]. intros ->. apply Hn.
    by apply list_elem_of_singleton.
  - intros q Hu. destruct (Hused q Hu) as (? & ? & ?). split; [done|]. split; [done|].
    by rewrite list_elem_of_singleton.
Qed.

(** The slot was not present: [p] is zeroed and linked with the flags [fl]. *)
Lemma installed_new p fl :
  pf_present F e = false → page_ok p → ¬ own p →
  0 ≤ fl < 4096 → Z.land fl (pf_pmask F) ≠ 0 → Z.land fl (2 ^ 7) = 0 →
  Z.land fl (pf_full F) = pf_full F →
  let m1 := wr (zero_page p m) (pt + 8 * i) (Z.lor p fl) in
  tree F l m1 p (λ q, q = p) ∧ missing F tl l m1 p va = (l - tl)%nat ∧
  ∀ m' used, (∀ q, q ∈ used → page_ok q ∧ ¬ own q ∧ q ≠ p) →
    installed tl l m1 m' p va pte (λ q, q = p) used →
    installed tl (S l) m m' pt va pte own (p :: used).
Proof.
  intros He Hp Hfr Hfl Hfp Hfh Hff m1.
  pose proof (PGDIR_OFFSET_range va (S l) : 0 ≤ i < 512) as Hi.
  pose proof (nd_root _ _ _ _ _ _ Hnd) as Hroot.
  pose proof (page_ok_aligned _ (nd_ok _ _ _ _ _ _ Hnd _ Hroot)) as Hptal.
  pose proof (page_ok_aligned _ Hp) as Hpal.
  assert (p ≠ pt) as Hne by (by intros ->). destruct Hp as (Hp0 & _ & Hp1).
  assert (Z.lor p fl = Z.lor fl p) as Elor by apply Z.lor_comm.
  assert (0 ≤ p < 2 ^ 52) as Hpr by lia.
  assert (linked m1 p (Z.lor fl p)) as Hlk.
  { assert (pf_huge (Z.lor fl p) = false) as Hh
      by (rewrite flags_huge by done; by rewrite Hfh).
    split; [done|done| | | | | | |]; unfold m1.
    - by rewrite rd_wr_eq, Elor.
    - intros j Hj Hji. rewrite rd_wr_ne by lia. by apply same_page_zero.
    - intros q Hq Hqpt Hqp. pose proof (page_ok_aligned _ Hq).
      apply same_page_trans with (zero_page p m); [by apply same_page_zero|].
      by apply same_page_wr.
    - split; [by apply flags_u64|]. intros _. split; [|done].
      unfold is_huge. by rewrite Hh, andb_false_r.
    - rewrite flags_present by done. by apply negb_true_iff, Z.eqb_neq.
    - unfold is_leaf, is_huge. rewrite Hh, andb_false_r.
      rewrite (proj2 (Nat.eqb_neq _ _)) by lia. done.
    - by apply flags_addr. }
  assert (∀ j, 0 ≤ j < 512 → rd m1 (p + 8 * j) = 0) as Hz.
  { intros j Hj. unfold m1. rewrite rd_wr_ne; [by apply rd_zero_page_in|].
    by apply slot_ne; try done; apply not_eq_sym. }
  destruct (zero_table l m1 p (lk_page _ _ _ Hlk) ltac:(lia) Hz) as (Ht & Htr & Hm & Hpp).
  split; [done|]. split; [done|]. intros m' used Hused Hins.
  apply (installed_linked m1 _ _ _ _ Hlk); [| | | |done..].
  - intros va' E. unfold xlate_entry.
    rewrite (lk_present _ _ _ Hlk), (lk_table _ _ _ Hlk), (lk_addr _ _ _ Hlk), Htr.
    cbn [translate]. rewrite E. unfold xlate_entry. fold e. by rewrite He.
  - intros tl' va' E Hle. cbn [path_perm]. rewrite E. fold e. rewrite He.
    rewrite (proj2 (Nat.leb_gt _ _)) by lia. cbn [negb].
    rewrite flags_perm, Hff, (Hpp tl' va') by done. by rewrite Z.land_diag.
  - intros tl' va' E Hle. rewrite Hm. cbn [missing]. rewrite E. fold e. rewrite He. cbn [negb orb].
    rewrite (proj2 (Nat.leb_gt _ _)) by lia. lia.
  - rewrite Hm. cbn [missing]. fold i. fold e. rewrite He. cbn [negb orb].
    rewrite (proj2 (Nat.leb_gt _ _)) by lia. lia.
Qed.

(** The slot held a large page: [p] is filled with its 512 pieces, with the
    flags [proto], and linked with the entry's own flags, less the large bit. *)
Lemma installed_split m0 p :
  pf_top F = 51 → pf_present F e = true → is_huge (S l) e = true →
  page_ok p → ¬ own p → (∀ q, page_ok q → q ≠ p → same_page m m0 q) →
  let m1 := wr (fill_table 512 p (split_proto F (Z.of_nat (S l)) e) (2 ^ PGDIR_BITS l) 0
                  (pf_addr F e) m0)
              (pt + 8 * i) (split_entry F e p) in
  linked m1 p (split_entry F e p) ∧ tree F l m1 p (λ q, q = p) ∧
  missing F tl l m1 p va = (l - tl)%nat ∧
  (∀ va', PGDIR_OFFSET va' (S l) = i →
    xlate_entry F (translate F l m1) (S l) (split_entry F e p) va' =
    translate F (S l) m pt va') ∧
  ∀ m' used, (∀ q, q ∈ used → page_ok q ∧ ¬ own q ∧ q ≠ p) →
    installed tl l m1 m' p va pte (λ q, q = p) used →
    installed tl (S l) m m' pt va pte own (p :: used).
Proof.
  intros Htop He Hh Hp Hfr H0 m1.
  pose proof (PGDIR_OFFSET_range va (S l) : 0 ≤ i < 512) as Hi.
  pose proof (nd_root _ _ _ _ _ _ Hnd) as Hroot.
  pose proof (page_ok_aligned _ (nd_ok _ _ _ _ _ _ Hnd _ Hroot)) as Hptal.
  pose proof (page_ok_aligned _ Hp) as Hpal.
  assert (p ≠ pt) as Hne by (by intros ->).
  destruct (nd_entry _ _ _ _ _ _ Hnd i Hi) as [Heu Hal]. fold e in Heu, Hal.
  destruct (Hal He) as [Hal' _]. specialize (Hal' Hh).
  destruct (is_huge_level _ _ Hh) as [Hl Hhe].
  destruct (split_entry_ok F l e p Heu He Hp Htop) as (E1 & E2 & E3 & E4 & E5).
  destruct (split_proto_ok F l e Heu Hhe Hl) as (P1 & P2 & P3 & P4).
  pose proof (pf_addr_lt F e Htop ltac:(red in Heu; lia)) as Halt.
  assert (linked m1 p (split_entry F e p)) as Hlk.
  { split; try done; unfold m1.
    - by rewrite rd_wr_eq.
    - intros j Hj Hji. rewrite rd_wr_ne by lia.
      rewrite (fill_table_page _ _ _ _ _ pt) by (done || by apply not_eq_sym).
      apply H0; [by apply (nd_ok _ _ _ _ _ _ Hnd)|by apply not_eq_sym|done].
    - intros q Hq Hqpt Hqp. pose proof (page_ok_aligned _ Hq).
      apply same_page_trans with m0; [by apply H0|].
      eapply same_page_trans; [|by apply same_page_wr]. by apply fill_table_page.
    - unfold is_leaf. rewrite E3, orb_false_r. apply Nat.eqb_neq. lia. }
  assert (∀ j, 0 ≤ j < 512 → rd m1 (p + 8 * j) =
    Z.lor (split_proto F (Z.of_nat (S l)) e) (pf_addr F e + j * 2 ^ PGDIR_BITS l)) as Hz.
  { intros j Hj. unfold m1. rewrite rd_wr_ne by (apply slot_ne; try done; by apply not_eq_sym).
    assert (0 < 2 ^ PGDIR_BITS l ≤ 2 ^ 21).
    { unfold PGDIR_BITS, PGDIR_WIDTH, PAGE_SHIFT. split; [apply Z.pow_pos_nonneg; lia|].
      apply Z.pow_le_mono_r; lia. }
    by rewrite <- (fill_table_in 512 p _ _ 0 _ m0 j) by lia. }
  destruct (split_table F l m1 p e (split_proto F (Z.of_nat (S l)) e)) as (Ht & Hlf & Htr);
    try done; [lia|lia|].
  assert (∀ j, 0 ≤ j < 512 → let x := rd m1 (p + 8 * j) in
    is_leaf l x = true ∧ pf_present F x = true ∧ pf_perm F x = pf_perm F e) as Hlf'.
  { intros j Hj. destruct (Hlf j Hj) as (? & Hpr & ?). split; [done|]. split; [|done].
    etransitivity; [exact Hpr|done]. }
  pose proof (leaf_table l m1 p (pf_perm F e) ltac:(lia) Hlf') as Hpp.
  destruct (Hpp tl va) as [Hm _].
  assert (∀ va', PGDIR_OFFSET va' (S l) = i →
    xlate_entry F (translate F l m1) (S l) (split_entry F e p) va' =
    translate F (S l) m pt va') as Hx.
  { intros va' Ei. unfold xlate_entry.
    rewrite (lk_present _ _ _ Hlk), (lk_table _ _ _ Hlk), (lk_addr _ _ _ Hlk), Htr.
    cbn [translate]. rewrite Ei. unfold xlate_entry. fold e. rewrite He.
    unfold is_leaf. rewrite Hh, orb_true_r. cbn. rewrite E5.
    unfold pf_perm. by rewrite Z.land_diag. }
  split; [done|]. split; [done|]. split; [done|]. split; [done|]. intros m' used Hused Hins.
  apply (installed_linked m1 _ _ _ _ Hlk); [done| | | |done..].
  - intros tl' va' Ei Hle. cbn [path_perm]. rewrite Ei. fold e. rewrite He. unfold is_leaf.
    rewrite Hh, orb_true_r. rewrite (proj2 (Nat.leb_gt _ _)) by lia. cbn [negb]. rewrite E5.
    destruct (Hpp tl' va') as [_ [->| ->]]; [|by rewrite Z.land_diag].
    unfold pf_perm. rewrite <- Z.land_assoc. by rewrite Z.land_diag.
  - intros tl' va' Ei Hle. destruct (Hpp tl' va') as [-> _]. cbn [missing]. rewrite Ei. fold e.
    unfold is_leaf. rewrite Hh, !orb_true_r. rewrite (proj2 (Nat.leb_gt _ _)) by lia. lia.
  - rewrite Hm. cbn [missing]. fold i. fold e. unfold is_leaf. rewrite Hh, !orb_true_r.
    rewrite (proj2 (Nat.leb_gt _ _)) by lia. lia.
Qed.
End install.
