(* ===== verification/TableRange.v ===== *)
(** Mapping a range of blocks: what the loops of x86/ept.c and lib/x86/vm.c that
    call an install routine for block after block achieve.

    [TableInstall] is the promise of one install routine, for a page-table format
    and an address that is not mapped yet.  From it [map_blocks_ok] derives that
    a run of installs maps exactly the range, how many tables that takes, and
    that nothing else changes. *)
From Stdlib Require Import ZArith Lia Bool.
From S2P Require Import Prelude Libcflat Mem AllocPage PageTable.
#[local] Open Scope Z_scope.

Section frames.
Context {St : Type} `{PageSource St} `{!PageSourceLaws St}.

(** The free frames [FR] are not frames of the table. *)
Definition fresh_frames (own : Z → Prop) (FR : list Z) : Prop := ∀ p, p ∈ FR → ¬ own p.

Lemma free_split (s : St) p FR own :
  ps_free s (p :: FR) → fresh_frames own (p :: FR) →
  page_ok p ∧ ¬ own p ∧ p ∉ FR ∧ fresh_frames own FR ∧ fresh_frames (λ q, q = p) FR.
Proof.
  intros Hf Hfr. destruct (ps_free_frames _ _ Hf) as [[Hp _]%NoDup_cons [Hok _]%Forall_cons].
  split; [done|]. split; [apply Hfr; by left|]. split; [done|].
  split; [intros q Hq; apply Hfr; by right|]. by intros q Hq ->.
Qed.

(** Stores that leave the free pages alone leave them free. *)
Lemma free_zero p FR (s : St) : ps_free s FR → p mod 4096 = 0 → p ∉ FR → ps_free (st_zero_page p s) FR.
Proof.
  intros Hf Hp Hn. apply ps_free_with_mem; [done|]. intros q Hq.
  destruct (ps_free_frames _ _ Hf) as [_ Hok]. apply same_page_zero; [|done|by intros ->].
  apply page_ok_aligned. rewrite Forall_forall in Hok. auto.
Qed.
Lemma free_wr pt i v FR (s : St) :
  ps_free s FR → pt mod 4096 = 0 → 0 ≤ i < 512 → pt ∉ FR → ps_free (st_wr (pt + 8 * i) v s) FR.
Proof.
  intros Hf Hp Hi Hn. apply ps_free_with_mem; [done|]. intros q Hq.
  destruct (ps_free_frames _ _ Hf) as [_ Hok]. apply same_page_wr; [|done|by intros ->|done].
  apply page_ok_aligned. rewrite Forall_forall in Hok. auto.
Qed.

Lemma used_fresh (s : St) used FR own p :
  ps_free s (p :: used ++ FR) → fresh_frames own (p :: used ++ FR) →
  ∀ q, q ∈ used → page_ok q ∧ ¬ own q ∧ q ≠ p.
Proof.
  intros Hf Hfr q Hq. destruct (ps_free_frames _ _ Hf) as [[Hp _]%NoDup_cons Hok].
  rewrite Forall_forall in Hok.
  split; [apply Hok; set_solver|]. split; [apply Hfr; set_solver|].
  intros ->. apply Hp. set_solver.
Qed.

(** *** Going down one level with a new table

    [s1] is the state after the frame [p] was taken. *)
Section descend.
Context (F : pt_format) `{!FormatOk F}.

Lemma new_table_flags fl tl l (s s1 : St) pt va pte own f p FR :
  (0 < tl ≤ l)%nat → node F l (ps_mem s) pt own f →
  0 ≤ fl < 4096 → Z.land fl (pf_pmask F) ≠ 0 → Z.land fl (2 ^ 7) = 0 → Z.land fl (pf_full F) = pf_full F →
  let i := PGDIR_OFFSET va (S l) in
  pf_present F (rd (ps_mem s) (pt + 8 * i)) = false →
  ps_free s (p :: FR) → fresh_frames own (p :: FR) → ps_free s1 FR → ps_mem s1 = ps_mem s →
  let s2 := st_wr (pt + 8 * i) (Z.lor p fl) (st_zero_page p s1) in
  (tree F l (ps_mem s2) p (λ q, q = p) ∧ ps_free s2 FR ∧ fresh_frames (λ q, q = p) FR) ∧
  (missing F tl l (ps_mem s2) p va = (l - tl)%nat ∧ translate F l (ps_mem s2) p va = None) ∧
  pf_addr F (st_rd (pt + 8 * i) s2) = p ∧
  ∀ s' used FR', FR = used ++ FR' →
    installed F tl l (ps_mem s2) (ps_mem s') p va pte (λ q, q = p) used →
    installed F tl (S l) (ps_mem s) (ps_mem s') pt va pte own (p :: used).
Proof.
  intros Htl Hnd Hfl Hfp Hfh Hff i Hp Hf Hfr Hf1 Em s2.
  pose proof (PGDIR_OFFSET_range va (S l) : 0 ≤ i < 512) as Hi.
  pose proof (nd_root _ _ _ _ _ _ Hnd) as Hpt. pose proof (nd_ok _ _ _ _ _ _ Hnd _ Hpt) as Hptok.
  pose proof (page_ok_aligned _ Hptok) as Hptal.
  destruct (free_split _ _ _ _ Hf Hfr) as (Hpok & Hpn & HpF & HFo & HFp).
  pose proof (page_ok_aligned _ Hpok) as Hpal.
  destruct (installed_new F tl l (ps_mem s) pt va pte own f Htl Hnd p fl)
    as (Ht1 & Hm1 & Hfin); try assumption.
  assert (ps_mem s2 = wr (zero_page p (ps_mem s)) (pt + 8 * i) (Z.lor p fl)) as Es2.
  { unfold s2, st_wr, st_zero_page. by rewrite !ps_mem_with, Em. }
  fold i in Ht1, Hm1, Hfin. rewrite <- Es2 in Ht1, Hm1, Hfin.
  split; [split; [done|split; [|done]]|split; [split; [done|]|split]].
  - apply free_wr; [by apply free_zero|done|done|]. intros Hin. by apply (HFo pt).
  - apply (zero_table F l (ps_mem s2) p Hpok ltac:(lia)). intros j Hj.
    rewrite Es2, rd_wr_ne; [by apply rd_zero_page_in|].
    apply slot_ne; try assumption. intros E. rewrite E in Hpt. exact (Hpn Hpt).
  - unfold st_rd. rewrite Es2, rd_wr_eq, Z.lor_comm.
    destruct Hpok as (? & ? & ?). apply (flags_addr F fl p); (assumption || lia).
  - intros s' used FR' -> Hins. apply Hfin; [|done]. by apply (used_fresh s used FR' own).
Qed.

Lemma new_table_ok (Hf7 : Z.land 7 (pf_pmask F) ≠ 0) tl l (s s1 : St) pt va pte own f p FR :
  (0 < tl ≤ l)%nat → node F l (ps_mem s) pt own f →
  let i := PGDIR_OFFSET va (S l) in
  pf_present F (rd (ps_mem s) (pt + 8 * i)) = false →
  ps_free s (p :: FR) → fresh_frames own (p :: FR) → ps_free s1 FR → ps_mem s1 = ps_mem s →
  let s2 := st_wr (pt + 8 * i) (Z.lor (Z.lor (Z.lor p 1) 2) 4) (st_zero_page p s1) in
  (tree F l (ps_mem s2) p (λ q, q = p) ∧ ps_free s2 FR ∧ fresh_frames (λ q, q = p) FR) ∧
  (missing F tl l (ps_mem s2) p va = (l - tl)%nat ∧ translate F l (ps_mem s2) p va = None) ∧
  pf_addr F (st_rd (pt + 8 * i) s2) = p ∧
  ∀ s' used FR', FR = used ++ FR' →
    installed F tl l (ps_mem s2) (ps_mem s') p va pte (λ q, q = p) used →
    installed F tl (S l) (ps_mem s) (ps_mem s') pt va pte own (p :: used).
Proof.
  intros Htl Hnd i Hp Hf Hfr Hf1 Em. rewrite <- !Z.lor_assoc.
  apply (new_table_flags 7 tl l s s1 pt va pte own f); try done.
  destruct FormatOk0. apply land_7_id. lia.
Qed.
End descend.
End frames.

Section range.
Context (F : pt_format) `{!FormatOk F}.

(** [path_block]: below 2^48 the walk is determined by the block number. *)
Lemma path_block tl va va' :
  (1 ≤ tl ≤ 4)%nat → 0 ≤ va < 2 ^ 48 → 0 ≤ va' < 2 ^ 48 →
  same_path tl 4 va va' = bool_decide (va / 2 ^ PGDIR_BITS tl = va' / 2 ^ PGDIR_BITS tl).
Proof.
  intros Htl Hva Hva'. apply eq_true_iff_eq. rewrite same_path_mod by lia.
  change (PGDIR_BITS 5) with 48. rewrite !Z.mod_small by done.
  by rewrite bool_decide_eq_true.
Qed.

(** The entry an install routine stores for a frame [phys]. *)
Lemma leaf_pte_ok tl phys fl :
  (1 ≤ tl ≤ 3)%nat → 0 ≤ phys < 2 ^ 52 → phys mod 2 ^ PGDIR_BITS tl = 0 →
  0 ≤ fl < 4096 → Z.land fl (pf_pmask F) ≠ 0 → ((1 < tl)%nat → Z.land fl (2 ^ 7) ≠ 0) →
  let pte := Z.lor fl phys in
  entry_ok F tl pte ∧ pf_present F pte = true ∧ is_leaf tl pte = true ∧
  pf_addr F pte = phys ∧ pf_perm F pte = Z.land fl (pf_full F).
Proof.
  intros Htl Hphys Hal Hfl Hpr Hlg pte.
  assert (phys mod 4096 = 0) as Hal12.
  { change 4096 with (2 ^ 12). apply aligned_of_testbit; [lia|]. intros i Hi.
    apply (testbit_aligned (PGDIR_BITS tl)); [done|].
    unfold PGDIR_BITS, PGDIR_WIDTH, PAGE_SHIFT. lia. }
  assert (pf_addr F pte = phys) as Ha by (apply (flags_addr F fl phys); assumption).
  split; [split|split; [|split; [|split]]].
  - apply flags_u64; [lia|done].
  - intros _. split; [|lia]. intros _. by rewrite Ha.
  - unfold pte. rewrite (flags_present F fl phys) by assumption. by apply negb_true_iff, Z.eqb_neq.
  - unfold is_leaf, is_huge, pte. rewrite (flags_huge fl phys) by assumption.
    destruct (decide (tl = 1%nat)) as [->|]; [done|].
    rewrite (proj2 (Z.eqb_neq _ _)) by (apply Hlg; lia).
    rewrite andb_true_r. apply orb_true_iff. right. rewrite orb_true_iff, !Nat.eqb_eq. lia.
  - done.
  - unfold pte. by rewrite (flags_perm F fl phys) by assumption.
Qed.

(** *** How many tables a range needs *)
Fixpoint starts (tl lv : nat) (a : Z) : nat :=
  match lv with
  | O => O
  | S l => if (lv <=? tl)%nat then O
           else ((if (a mod 2 ^ PGDIR_BITS lv =? 0)%Z then 1 else 0) + starts tl l a)%nat
  end.

Definition cdiv (a b : Z) : Z := (a + b - 1) / b.

(** Blocks of each level above [tl] that begin in [lo, hi). *)
Fixpoint ntables (tl lv : nat) (lo hi : Z) : Z :=
  match lv with
  | O => 0
  | S l => if (lv <=? tl)%nat then 0
           else cdiv hi (2 ^ PGDIR_BITS lv) - cdiv lo (2 ^ PGDIR_BITS lv) + ntables tl l lo hi
  end.

Lemma ntables_add tl lv a b c : ntables tl lv a b + ntables tl lv b c = ntables tl lv a c.
Proof. induction lv; cbn [ntables]; [done|]. destruct (_ <=? _)%nat; lia. Qed.

Lemma ntables_nonneg tl lv a b : a ≤ b → 0 ≤ ntables tl lv a b.
Proof.
  intros Hab. induction lv as [|lv IH]; cbn [ntables]; [done|].
  destruct (S lv <=? tl)%nat; [done|]. unfold cdiv.
  assert (0 < 2 ^ PGDIR_BITS (S lv)) as Hb.
  { apply Z.pow_pos_nonneg; [done|]. unfold PGDIR_BITS, PGDIR_WIDTH, PAGE_SHIFT. lia. }
  pose proof (Z.div_le_mono (a + 2 ^ PGDIR_BITS (S lv) - 1) (b + 2 ^ PGDIR_BITS (S lv) - 1) _ Hb
    ltac:(lia)). lia.
Qed.

Lemma cdiv_step a sz b : 0 < b → 0 < sz →
  (if a mod b =? 0 then 1 else 0) ≤ cdiv (a + sz) b - cdiv a b.
Proof.
  intros Hb Hs. unfold cdiv.
  assert ((a + b - 1) / b ≤ (a + sz + b - 1) / b) by (apply Z.div_le_mono; lia).
  destruct (Z.eqb_spec (a mod b) 0) as [E|]; [|lia].
  pose proof (Z.div_mod a b ltac:(lia)) as Ea. rewrite E in Ea.
  replace (a + b - 1) with (a / b * b + (b - 1)) by lia.
  rewrite Z.div_add_l, (Z.div_small (b - 1)) by lia.
  assert (a / b + 1 ≤ (a + sz + b - 1) / b); [|lia].
  apply Z.div_le_lower_bound; lia.
Qed.

Lemma starts_le tl lv a sz : 0 < sz → Z.of_nat (starts tl lv a) ≤ ntables tl lv a (a + sz).
Proof.
  intros Hs. induction lv as [|lv IH]; cbn [starts ntables]; [done|].
  destruct (S lv <=? tl)%nat; [done|].
  assert (0 < 2 ^ PGDIR_BITS (S lv)) as Hb.
  { apply Z.pow_pos_nonneg; [done|]. unfold PGDIR_BITS, PGDIR_WIDTH, PAGE_SHIFT. lia. }
  pose proof (cdiv_step a sz _ Hb Hs) as Hc.
  destruct (a mod 2 ^ PGDIR_BITS (S lv) =? 0); lia.
Qed.

Lemma block_size tl : (1 ≤ tl ≤ 4)%nat → 4096 ≤ 2 ^ PGDIR_BITS tl ≤ 2 ^ 39.
Proof.
  intros. change 4096 with (2 ^ 12). unfold PGDIR_BITS, PGDIR_WIDTH, PAGE_SHIFT.
  split; apply Z.pow_le_mono_r; lia.
Qed.

Lemma same_block sz phys va :
  0 < sz → phys mod sz = 0 → phys / sz = va / sz ↔ phys ≤ va < phys + sz.
Proof.
  intros Hs Ha. pose proof (Z.div_mod phys sz ltac:(lia)) as E1. rewrite Ha in E1.
  pose proof (Z.div_mod va sz ltac:(lia)). pose proof (Z.mod_pos_bound va sz Hs).
  split; intros E; [rewrite <- E in *; lia|]. nia.
Qed.

Lemma block_offset sz phys va :
  0 < sz → phys mod sz = 0 → phys ≤ va < phys + sz → va = phys + va mod sz.
Proof.
  intros Hs Ha Hb. pose proof (proj2 (same_block sz phys va Hs Ha) Hb) as E.
  pose proof (Z.div_mod phys sz ltac:(lia)). pose proof (Z.div_mod va sz ltac:(lia)).
  rewrite E in *. lia.
Qed.

(** Coarser alignment implies finer alignment. *)
Lemma align_weaken k j a :
  (1 ≤ j ≤ k)%nat → a mod 2 ^ PGDIR_BITS k = 0 → a mod 2 ^ PGDIR_BITS j = 0.
Proof.
  intros Hj Ha. unfold PGDIR_BITS, PGDIR_WIDTH, PAGE_SHIFT in *.
  apply aligned_of_testbit; [lia|]. intros i Hi. by apply (testbit_aligned _ _ i Ha); lia.
Qed.

Lemma next_block_near tl k phys :
  (1 ≤ tl ≤ 3)%nat → (k ≤ 4)%nat → 0 ≤ phys → phys mod 2 ^ PGDIR_BITS tl = 0 →
  phys + 2 ^ PGDIR_BITS tl < 2 ^ 48 → (1 ≤ k)%nat →
  (phys + 2 ^ PGDIR_BITS tl) mod 2 ^ PGDIR_BITS k ≠ 0 →
  (tl < k)%nat ∧ same_path k 4 phys (phys + 2 ^ PGDIR_BITS tl) = true.
Proof.
  intros Htl Hk H0 Hal Hlt Hk1 Hn.
  pose proof (block_size tl ltac:(lia)) as Hs. set (sz := 2 ^ PGDIR_BITS tl) in *.
  assert ((phys + sz) mod sz = 0) as Hal' by (apply aligned_add; [lia|done|by apply Z.mod_same; lia]).
  destruct (decide (k ≤ tl)%nat) as [Hle|Hgt].
  { destruct Hn. by apply (align_weaken tl k). }
  split; [lia|]. rewrite path_block by lia. apply bool_decide_eq_true.
  pose proof (block_size k ltac:(lia)) as HK. set (K := 2 ^ PGDIR_BITS k) in *.
  assert (K mod sz = 0) as HKs.
  { apply (align_weaken k tl); [lia|]. by apply Z.mod_same; lia. }
  set (q := (phys + sz) / K * K).
  pose proof (Z.div_mod (phys + sz) K ltac:(lia)). pose proof (Z.mod_pos_bound (phys + sz) K ltac:(lia)).
  assert (q mod K = 0) as HqK by (apply Z.mod_mul; lia).
  assert (q mod sz = 0) as Hqs by (by apply (align_weaken k tl); [lia|]).
  assert (q + sz ≤ phys + sz) by (apply aligned_next; try done; unfold q; lia).
  symmetry. apply Z.div_unique with (phys - q); unfold q in *; lia.
Qed.

Lemma near_starts tl tl' phys m pml4 :
  (1 ≤ tl ≤ 3)%nat → (1 ≤ tl' ≤ 3)%nat → 0 ≤ phys → phys mod 2 ^ PGDIR_BITS tl = 0 →
  let phys' := phys + 2 ^ PGDIR_BITS tl in
  phys' < 2 ^ 48 →
  (∀ k, (tl < k ≤ 4)%nat → (tl' < k)%nat → same_path k 4 phys phys' = true →
    (missing F tl' 4 m pml4 phys' ≤ k - 1 - tl')%nat) →
  (missing F tl' 4 m pml4 phys' ≤ starts tl' 4 phys')%nat.
Proof.
  intros Htl Htl' H0 Hal phys' Hlt Hnear.
  pose proof (missing_le F tl' 4 m pml4 phys') as Hle.
  assert (∀ k, (1 ≤ k ≤ 4)%nat → (tl' < k)%nat → phys' mod 2 ^ PGDIR_BITS k ≠ 0 →
    (missing F tl' 4 m pml4 phys' ≤ k - 1 - tl')%nat) as Hk.
  { intros k Hk1 Hk2 Hn. destruct (next_block_near tl k phys) as [? ?]; [done|lia|done..|lia|done|].
    apply Hnear; (done || lia). }
  pose proof (align_weaken 4 3 phys' ltac:(lia)) as W43.
  pose proof (align_weaken 3 2 phys' ltac:(lia)) as W32.
  pose proof (Hk 4%nat ltac:(lia) ltac:(lia)) as K4.
  destruct tl' as [|[|[|[|]]]]; try lia; cbn [starts Nat.leb];
    repeat match goal with
    | |- context [phys' mod 2 ^ PGDIR_BITS ?k =? 0] =>
      destruct (Z.eqb_spec (phys' mod 2 ^ PGDIR_BITS k) 0)
    end; try lia;
    repeat match goal with
    | H : phys' mod 2 ^ PGDIR_BITS ?k ≠ 0 |- _ => apply (Hk k) in H; [|lia..]
    end; try lia; tauto.
Qed.

Lemma page_mask_id phys : 0 ≤ phys < 2 ^ 52 → phys mod 4096 = 0 → Z.land phys PAGE_MASK = phys.
Proof.
  intros Hr Ha. unfold PAGE_MASK. pose proof (align_down_land 12 ltac:(lia) phys) as E.
  change (u64 (2 ^ 12 - 1)) with (PAGE_SIZE - 1) in E. rewrite E by (unfold in_u64; lia).
  change (2 ^ 12) with 4096. rewrite Ha. lia.
Qed.
End range.

(** ** The promise of an install routine

    [inst root tl va pte s] installs [pte] at level [tl] for [va]. *)
Class TableInstall {St : Type} `{PageSource St} `{!PageSourceLaws St} (F : pt_format)
    (inst : Z → nat → Z → Z → St → outcome St) : Prop :=
  table_install : ∀ tl root va pte own FR s,
    (1 ≤ tl ≤ 3)%nat → 0 ≤ va < 2 ^ 48 →
    tree F 4 (ps_mem s) root own → ps_free s FR → fresh_frames own FR →
    translate F 4 (ps_mem s) root va = None →
    entry_ok F tl pte → pf_present F pte = true → is_leaf tl pte = true →
    (missing F tl 4 (ps_mem s) root va ≤ length FR)%nat →
    ∃ s' used FR', FR = used ++ FR' ∧ inst root tl va pte s = Done s' ∧
      ps_free s' FR' ∧ installed F tl 4 (ps_mem s) (ps_mem s') root va pte own used.

(** ** Runs of blocks *)
Section blocks.
Context {St : Type} `{PageSource St} `{!PageSourceLaws St}.
Context (F : pt_format) `{!FormatOk F} (inst : Z → nat → Z → Z → St → outcome St).
Context `{!TableInstall F inst}.

(** [n] blocks of level [tl] from the address [cur], each mapped [delta] further up
    in physical memory. *)
Fixpoint map_blocks (root : Z) (tl : nat) (fl delta : Z) (n : nat) (cur : Z) (s : St) : outcome St :=
  match n with
  | O => mret s
  | S n => s ← inst root tl cur (Z.lor fl (cur + delta)) s;
           map_blocks root tl fl delta n (cur + 2 ^ PGDIR_BITS tl) s
  end.

(** The range [start, lim) of an address space that is otherwise [tr0], the frames
    [own0] of its tables, memory and the free frames when the mapping began. *)
Context (root start lim delta perm : Z) (tr0 : Z → option (Z * Z)).
Context (m0 : mem) (own0 : Z → Prop) (FR0 : list Z).

(** The part of the range below [cur] is mapped.  At most [x] tables more than the
    blocks that begin at [cur] are missing there. *)
Record range_inv (x : nat) (cur : Z) (s : St) (FR : list Z) (own : Z → Prop) : Prop := {
  ri_tree : tree F 4 (ps_mem s) root own;
  ri_free : ps_free s FR;
  ri_fresh : fresh_frames own FR;
  ri_suffix : FR `suffix_of` FR0;
  ri_own p : own p → own0 p ∨ p ∈ FR0;
  ri_frame p : page_ok p → ¬ own0 p → p ∉ FR0 → same_page m0 (ps_mem s) p;
  ri_translate va : 0 ≤ va < 2 ^ 48 → translate F 4 (ps_mem s) root va =
    if (start <=? va) && (va <? cur) then Some (va + delta, Z.land perm (pf_full F)) else tr0 va;
  ri_full tl va : cur ≤ va < lim → path_perm F tl 4 (ps_mem s) root va = pf_full F;
  ri_near tl : (1 ≤ tl ≤ 3)%nat → cur < lim →
    (missing F tl 4 (ps_mem s) root cur ≤ starts tl 4 cur + x)%nat
}.

Context (Hrange : 0 ≤ start ∧ lim ≤ 2 ^ 48) (Hclear : ∀ va, start ≤ va < lim → tr0 va = None).

(** Mapping the next block. *)
Lemma range_inv_step tl fl x cur s FR own :
  (1 ≤ tl ≤ 3)%nat → 0 ≤ fl < 4096 → Z.land fl (pf_full F) = Z.land perm (pf_full F) →
  Z.land fl (pf_pmask F) ≠ 0 → ((1 < tl)%nat → Z.land fl (2 ^ 7) ≠ 0) →
  let sz := 2 ^ PGDIR_BITS tl in
  start ≤ cur → cur mod sz = 0 → cur + sz ≤ lim →
  0 ≤ cur + delta < 2 ^ 52 → (cur + delta) mod sz = 0 →
  range_inv x cur s FR own → (starts tl 4 cur + x ≤ length FR)%nat →
  ∃ s' used FR' own', FR = used ++ FR' ∧ (length used ≤ starts tl 4 cur + x)%nat ∧
    inst root tl cur (Z.lor fl (cur + delta)) s = Done s' ∧
    range_inv 0 (cur + sz) s' FR' own'.
Proof.
  intros Htl Hfl Hfp Hfpr Hlg sz Hst Hal Hend Hpa Hpal Hinv Hlen.
  pose proof (block_size tl ltac:(lia)) as Hsz. fold sz in Hsz.
  destruct (leaf_pte_ok F tl (cur + delta) fl) as (He & Hpr & Hlf & Ha & Hpm);
    [lia|lia|done|done|done|done|].
  set (pte := Z.lor fl (cur + delta)) in *. destruct Hinv as [It If Ifr Isuf Iown Ifrm Itr Ifull Inear].
  assert (translate F 4 (ps_mem s) root cur = None) as Hnone.
  { rewrite Itr by lia. rewrite (proj2 (Z.ltb_ge cur cur)), andb_false_r by lia. apply Hclear. lia. }
  destruct (table_install tl root cur pte own FR s) as (s' & used & FR' & EF & Es & Hf' & Hins);
    try assumption; [lia| |].
  { etransitivity; [apply Inear; lia|done]. }
  pose proof (ins_used _ _ _ _ _ _ _ _ _ _ Hins) as Hu.
  exists s', used, FR', (λ p, own p ∨ p ∈ used). split; [done|].
  split; [rewrite Hu; apply Inear; lia|]. split; [exact Es|].
  assert (∀ va, 0 ≤ va < 2 ^ 48 → same_path tl 4 cur va = (cur <=? va) && (va <? cur + sz)) as Hpath.
  { intros va Hva. rewrite path_block by lia. fold sz. apply eq_true_iff_eq.
    rewrite bool_decide_eq_true, andb_true_iff, Z.leb_le, Z.ltb_lt.
    apply same_block; [lia|done]. }
  subst FR. split.
  - apply (ins_tree _ _ _ _ _ _ _ _ _ _ Hins).
  - done.
  - intros p Hp [Ho|Hq]; [by apply (Ifr p); [apply elem_of_app; by right|]|].
    destruct (ps_free_frames _ _ If) as [(_ & Hd & _)%NoDup_app _]. by apply (Hd p).
  - destruct Isuf as [k ->]. exists (k ++ used). by rewrite app_assoc.
  - intros p [Ho|Hq]; [by apply Iown|]. right. destruct Isuf as [k ->]. rewrite !elem_of_app. auto.
  - intros p Hp Hn1 Hn2. apply same_page_trans with (ps_mem s); [by apply Ifrm|].
    apply (ins_frame _ _ _ _ _ _ _ _ _ _ Hins); [done| |].
    + intros [?|?]%Iown; done.
    + intros Hq. apply Hn2. destruct Isuf as [k ->]. rewrite !elem_of_app. auto.
  - intros va Hva. rewrite (ins_translate _ _ _ _ _ _ _ _ _ _ Hins), Hpath, Itr by done.
    unfold leaf_at. rewrite Hpr, Ha, Hpm, Ifull by lia. fold sz.
    destruct (Z.leb_spec cur va), (Z.ltb_spec va (cur + sz)), (Z.leb_spec start va),
      (Z.ltb_spec va cur); cbn [andb]; try (done || lia).
    rewrite Hfp, (Z.land_comm perm), Z.land_assoc, Z.land_diag.
    rewrite (block_offset sz cur va) at 2 by (done || lia). do 2 f_equal. lia.
  - intros tl' va Hva. rewrite (ins_perm _ _ _ _ _ _ _ _ _ _ Hins).
    + apply Ifull; lia.
    + rewrite Hpath by lia. destruct (Z.ltb_spec va (cur + sz)); [lia|]. by rewrite andb_false_r.
  - intros tl' Htl' Hlt. rewrite Nat.add_0_r. apply (near_starts F tl tl' cur); [done|done|lia|done|lia|].
    intros k Hk Hk'. by apply (ins_near _ _ _ _ _ _ _ _ _ _ Hins).
Qed.

Lemma map_blocks_ok tl fl n x cur s FR own rest :
  (1 ≤ tl ≤ 3)%nat → 0 ≤ fl < 4096 → Z.land fl (pf_full F) = Z.land perm (pf_full F) →
  Z.land fl (pf_pmask F) ≠ 0 → ((1 < tl)%nat → Z.land fl (2 ^ 7) ≠ 0) →
  let sz := 2 ^ PGDIR_BITS tl in
  let endp := cur + Z.of_nat n * sz in
  start ≤ cur → cur mod sz = 0 → endp ≤ lim →
  0 ≤ cur + delta → endp + delta ≤ 2 ^ 52 → (cur + delta) mod sz = 0 →
  range_inv x cur s FR own → 0 ≤ rest →
  ntables tl 4 cur endp + Z.of_nat x + rest ≤ Z.of_nat (length FR) →
  ∃ s' FR' own' x', map_blocks root tl fl delta n cur s = Done s' ∧ (x' ≤ x)%nat ∧
    range_inv x' endp s' FR' own' ∧ Z.of_nat x' + rest ≤ Z.of_nat (length FR') ∧
    (n ≠ O → x' = O).
Proof.
  intros Htl Hfl Hfp Hfpr Hlg sz endp. unfold endp.
  pose proof (block_size tl ltac:(lia)) as Hsz. fold sz in Hsz. clear endp.
  revert x cur s FR own. induction n as [|n IH]; intros x cur s FR own Hst Hal Hend Hpa Hpe Hpal Hinv Hr Hlen.
  - replace (cur + Z.of_nat 0 * sz) with cur in * by lia.
    exists s, FR, own, x. split; [done|]. split; [done|]. split; [done|]. split; [|done].
    pose proof (ntables_nonneg tl 4 cur cur ltac:(lia)). lia.
  - replace (cur + Z.of_nat (S n) * sz) with (cur + sz + Z.of_nat n * sz) in * by lia.
    pose proof (starts_le tl 4 cur sz ltac:(lia)) as Hs.
    pose proof (ntables_add tl 4 cur (cur + sz) (cur + sz + Z.of_nat n * sz)) as Hadd.
    pose proof (ntables_nonneg tl 4 (cur + sz) (cur + sz + Z.of_nat n * sz) ltac:(lia)) as Hnn.
    destruct (range_inv_step tl fl x cur s FR own) as (s1 & used & FR1 & own1 & EF & Hu & Es & Hinv1);
      try assumption; [lia|lia|lia|].
    subst FR. rewrite length_app in Hlen.
    destruct (IH 0%nat (cur + sz) s1 FR1 own1) as (s' & FR' & own' & x' & E' & Hx' & Hinv' & Hl' & _);
      try done; [lia|by apply aligned_add; [lia|done|apply Z.mod_same; lia]|lia| |lia|].
    { replace (cur + sz + delta) with (cur + delta + sz) by lia.
      by apply aligned_add; [lia|done|apply Z.mod_same; lia]. }
    exists s', FR', own', x'. cbn [map_blocks]. rewrite Es. cbn [mbind outcome_bind].
    split; [exact E'|]. split; [lia|]. split; [done|]. split; [done|]. lia.
Qed.
End blocks.

(** The loops [while (phys + size <= max) { install(phys); phys += size; }] are runs of
    blocks. *)
Section loop.
Context {St : Type} `{PageSource St} `{!PageSourceLaws St}.
Context (inst : Z → nat → Z → Z → St → outcome St).

Definition block_loop (fuel : nat) (size max : Z) (install : Z → St → outcome St)
    (st : Z * St) : outcome (Z * St) :=
  while_loop fuel (λ '(phys, _), u64 (phys + size) <=? max)
    (λ '(phys, s), s ← install phys s; mret (u64 (phys + size), s)) st.

Lemma block_loop_blocks root tl fl delta install n : ∀ fuel max phys s s',
  (1 ≤ tl ≤ 3)%nat →
  let sz := 2 ^ PGDIR_BITS tl in
  (∀ p s, 0 ≤ p < 2 ^ 52 → p mod sz = 0 → install p s = inst root tl p (Z.lor fl (p + delta)) s) →
  0 ≤ phys → phys mod sz = 0 → max < 2 ^ 52 →
  phys + Z.of_nat n * sz ≤ max < phys + Z.of_nat n * sz + sz → (n ≤ fuel)%nat →
  map_blocks inst root tl fl delta n phys s = Done s' →
  block_loop fuel sz max install (phys, s) = Done (phys + Z.of_nat n * sz, s').
Proof.
  intros fuel max phys s s' Htl sz Hinst. pose proof (block_size tl ltac:(lia)) as Hsz. fold sz in Hsz.
  revert fuel phys s. induction n as [|n IH]; intros fuel phys s H0 Hal Hmax Hb Hf Es; cbn [map_blocks] in Es.
  - injection Es as ->. unfold block_loop. destruct fuel; cbn [while_loop];
      rewrite u64_small, (proj2 (Z.leb_gt _ _)) by (unfold in_u64; lia); do 2 f_equal; lia.
  - apply bind_Done_inv in Es as (s1 & E1 & Es). destruct fuel as [|fuel]; [lia|].
    unfold block_loop. cbn [while_loop].
    rewrite u64_small, (proj2 (Z.leb_le _ _)) by (unfold in_u64; lia).
    rewrite Hinst, E1 by (done || lia). cbn [mbind outcome_bind mret outcome_ret].
    fold (block_loop fuel sz max install (phys + sz, s1)).
    rewrite (IH fuel (phys + sz) s1); [do 2 f_equal; lia|lia| |done|lia|lia|done].
    by apply aligned_add; [lia|done|apply Z.mod_same; lia].
Qed.
End loop.

(** A zeroed root maps nothing: the invariant before the first block. *)
Lemma range_inv_zero {St : Type} `{PageSource St} `{!PageSourceLaws St} (F : pt_format) `{!FormatOk F}
    root lim delta perm FR (s : St) :
  page_ok root → (∀ j, 0 ≤ j < 512 → rd (ps_mem s) (root + 8 * j) = 0) →
  ps_free s FR → root ∉ FR →
  range_inv F root 0 lim delta perm (λ _, None) (ps_mem s) (λ q, q = root) FR 0 0 s FR (λ q, q = root).
Proof.
  intros Hp Hz Hf Hn.
  destruct (zero_table F 4 (ps_mem s) root Hp ltac:(lia) Hz) as (Ht & Htr & Hm & Hpp).
  split; try assumption.
  - by intros q Hq ->.
  - reflexivity.
  - by left.
  - intros. apply same_page_refl.
  - intros va Hva. rewrite Htr. destruct (Z.leb_spec 0 va), (Z.ltb_spec va 0); done || lia.
  - intros. apply Hpp.
  - intros tl Htl _. rewrite Hm. destruct tl as [|[|[|[|]]]]; try lia; vm_compute; lia.
Qed.
