(* ===== verification/PtDemo.v ===== *)
(** Concrete memory states: the theorems on page tables are applied to them. *)
From Stdlib Require Import ZArith Lia Bool.
From S2P Require Import Prelude Libcflat Mem AllocPage PageTable TableRange.
#[local] Open Scope Z_scope.

(** ** Concrete states the theorems apply to *)
Definition demo_frames : list Z := [0x20000; 0x21000; 0x22000; 0x23000].
Definition demo_mem : mem :=
  list_to_map [(0x20000, 0x21000); (0x21000, 0x22000); (0x22000, 0x23000)].
Definition demo_state : pstate := PState demo_mem 0x20000 0.
(** A root table whose entry 0 points to a table with a 1G page at entry 0. *)
Definition demo_large : pstate :=
  PState (<[0x10000 := 0x11007]> (<[0x11000 := 0x87]> demo_mem)) 0x20000 0.

Lemma demo_page_ok p : p ∈ 0x10000 :: 0x11000 :: demo_frames → page_ok p.
Proof.
  intros Hp. assert (Forall page_ok (0x10000 :: 0x11000 :: demo_frames)) as Hall.
  { unfold demo_frames. repeat constructor; lia. }
  rewrite Forall_forall in Hall. auto.
Qed.

Lemma demo_free m :
  rd m 0x20000 = 0x21000 → rd m 0x21000 = 0x22000 → rd m 0x22000 = 0x23000 → rd m 0x23000 = 0 →
  free_list (PState m 0x20000 0) demo_frames.
Proof.
  intros H0 H1 H2 H3. split; [done|]. split; [cbn; by rewrite H0, H1, H2, H3|].
  split.
  - unfold demo_frames. repeat (constructor; [rewrite ?not_elem_of_cons; repeat split; try lia;
      apply not_elem_of_nil|]). constructor.
  - apply Forall_forall. intros p Hp. apply demo_page_ok. by do 2 right.
Qed.

Lemma demo_slots (m : mem) pt (e : Z) :
  bool_decide (Forall (λ j, rd m (pt + 8 * j) = if decide (j = 0) then e else 0) (seqZ 0 512)) = true →
  ∀ j, 0 ≤ j < 512 → rd m (pt + 8 * j) = if decide (j = 0) then e else 0.
Proof.
  intros Hall%bool_decide_eq_true j Hj. rewrite Forall_forall in Hall.
  apply Hall, elem_of_seqZ. lia.
Qed.

Definition demo_own (p : Z) : Prop := p = 0x10000 ∨ p = 0x11000.

Section demo_trees.
Context (F : pt_format) `{!FormatOk F}.
Hypothesis Hroot : pf_addr F 0x11007 = 0x11000.
Hypothesis Hleaf : pf_addr F 0x87 = 0.
Hypothesis Hnone : pf_present F 0 = false.

(** The level-3 table of [demo_large]: one 1G page and no tables below. *)
Lemma demo_large_sub : tree F 3 (pmem demo_large) 0x11000 (λ p, p = 0x11000).
Proof.
  pose proof (demo_slots (pmem demo_large) 0x11000 0x87 ltac:(vm_compute; done)) as H3.
  apply tree_node. exists (λ i p, False). split.
  - done.
  - intros p ->. apply demo_page_ok, list_elem_of_In. cbn. tauto.
  - intros i Hi'. rewrite H3 by done. case_decide; (split; [unfold in_u64; lia|]); [|done].
    intros _. rewrite Hleaf. split; [reflexivity|lia].
  - done.
  - done.
  - intros i Hi'. rewrite H3 by done. case_decide; [done|]. by rewrite Hnone.
Qed.

Lemma demo_large_tree : tree F 4 (pmem demo_large) 0x10000 demo_own.
Proof.
  assert (∀ p, demo_own p → page_ok p) as Hok by (intros p [->| ->]; apply demo_page_ok, list_elem_of_In; cbn; tauto).
  pose proof (demo_slots (pmem demo_large) 0x10000 0x11007 ltac:(vm_compute; done)) as H4.
  apply tree_node. exists (λ i p, i = 0 ∧ p = 0x11000). split.
  - by left.
  - done.
  - intros i Hi. rewrite H4 by done. case_decide; (split; [unfold in_u64; lia|]); [|done].
    intros _. split; [done|]. done.
  - intros i p Hi [-> ->]. split; [by right|done].
  - intros i j p _ _ [-> _] [-> _]. done.
  - intros i Hi. rewrite H4 by done. case_decide as Ei; [|by rewrite Hnone]. subst i. intros _ _.
    rewrite Hroot.
    apply (tree_own_iff F 3 _ _ (λ p, p = 0x11000)); [|apply demo_large_sub].
    intros p. split; [by intros [_ ->]|done].
Qed.

End demo_trees.

Lemma demo_large_fresh : fresh_frames demo_own demo_frames.
Proof. intros p Hp%list_elem_of_In [-> | ->]; vm_compute in Hp; intuition discriminate. Qed.

