(* ===== verification/AllocPhys.v ===== *)
(** The physical memory allocator: lib/alloc_phys.c.

    [phys] holds the file's statics; the region array is a list of 256.  What
    [printf] is called with goes to [log], newest first. *)
From Stdlib Require Import ZArith Lia Bool.
From S2P Require Import Prelude Libcflat Mem Spinlock.
#[local] Open Scope Z_scope.

Module Phys.
Definition PHYS_ALLOC_NR_REGIONS : Z := 256.
Definition DEFAULT_MINIMUM_ALIGNMENT : Z := 32.

Record phys_alloc_region := Region { r_base : Z; r_size : Z }.
#[export] Instance region_eq_dec : EqDecision phys_alloc_region.
Proof. solve_decision. Defined.

Record phys := Phys {
  regions : list phys_alloc_region;
  nr_regions : Z;
  lock : spinlock;
  base : Z;
  top : Z;
  align_min : Z;
  warned : bool;
  log : list (string * list parg)
}.
Definition set_regions (x : list phys_alloc_region) (s : phys) : phys :=
  Phys x (nr_regions s) (lock s) (base s) (top s) (align_min s) (warned s) (log s).
Definition set_nr_regions (x : Z) (s : phys) : phys :=
  Phys (regions s) x (lock s) (base s) (top s) (align_min s) (warned s) (log s).
Definition set_lock (x : spinlock) (s : phys) : phys :=
  Phys (regions s) (nr_regions s) x (base s) (top s) (align_min s) (warned s) (log s).
Definition set_base (x : Z) (s : phys) : phys :=
  Phys (regions s) (nr_regions s) (lock s) x (top s) (align_min s) (warned s) (log s).
Definition set_top (x : Z) (s : phys) : phys :=
  Phys (regions s) (nr_regions s) (lock s) (base s) x (align_min s) (warned s) (log s).
Definition set_align_min (x : Z) (s : phys) : phys :=
  Phys (regions s) (nr_regions s) (lock s) (base s) (top s) x (warned s) (log s).
Definition set_warned (x : bool) (s : phys) : phys :=
  Phys (regions s) (nr_regions s) (lock s) (base s) (top s) (align_min s) x (log s).
Definition set_log (x : list (string * list parg)) (s : phys) : phys :=
  Phys (regions s) (nr_regions s) (lock s) (base s) (top s) (align_min s) (warned s) x.

Abbreviation M := (stM phys).
Definition printf (fmt : string) (args : list parg) : M unit := modify (λ s, set_log ((fmt, args) :: log s) s).
Definition lock_phys : M unit := l ← gets lock; l ← lift (spin_lock l); modify (set_lock l).
Definition unlock_phys : M unit := l ← gets lock; modify (set_lock (spin_unlock l)).

Definition get_region (i : Z) : M phys_alloc_region := rs ← gets regions; lift (arr_get rs i).
Definition set_region (i : Z) (r : phys_alloc_region) : M unit :=
  rs ← gets regions; rs ← lift (arr_set rs i r); modify (set_regions rs).

Definition phys_alloc_show : M unit :=
  lock_phys;;
  s ← get;
  printf "phys_alloc minimum alignment: %#lx\n" [PInt (align_min s)];;
  for_up (Z.to_nat (nr_regions s)) 0 (λ i,
    r ← get_region i;
    printf "%016lx-%016lx [%s]\n" [PInt (r_base r); PInt (u64 (r_base r + r_size r - 1)); PStr "USED"]);;
  printf "%016lx-%016lx [%s]\n" [PInt (base s); PInt (u64 (top s - 1)); PStr "FREE"];;
  unlock_phys.

Definition phys_alloc_init (base_addr size : Z) : M unit :=
  lock_phys;;
  modify (set_base base_addr);;
  modify (λ s, set_top (u64 (base s + size)) s);;
  modify (set_nr_regions 0);;
  unlock_phys.

Definition phys_alloc_set_minimum_alignment (align : Z) : M unit :=
  lift (c_assert (negb (align =? 0) && (Z.land align (u64 (align - 1)) =? 0)));;
  lock_phys;;
  modify (set_align_min align);;
  unlock_phys.

(** [sizeof(long)] *)
Definition sizeof_long : Z := 8.

Definition phys_alloc_aligned_safe (size align : Z) (safe : bool) : M Z :=
  let size_orig := size in
  lock_phys;;
  s ← get;
  let top_safe := top s in
  let top_safe := if safe && (sizeof_long =? 4) then c_MIN top_safe (2 ^ 32) else top_safe in
  lift (c_assert (base s <? top_safe));;
  let addr := ALIGN (base s) align in
  let size := u64 (size + u64 (addr - base s)) in
  if u64 (top_safe - base s) <? size then
    printf "phys_alloc: requested=%#lx (align=%#lx), need=%#lx, but free=%#lx. top=%#lx, top_safe=%#lx\n"
      [PInt size_orig; PInt align; PInt size; PInt (u64 (top_safe - base s)); PInt (top s); PInt top_safe];;
    unlock_phys;;
    mret INVALID_PHYS_ADDR
  else
    modify (set_base (u64 (base s + size)));;
    (if nr_regions s <? PHYS_ALLOC_NR_REGIONS then
       set_region (nr_regions s) (Region addr size_orig);;
       modify (set_nr_regions (s32 (nr_regions s + 1)))
     else if negb (warned s) then
       printf "WARNING: phys_alloc: No free log entries, can no longer log allocations...\n" [];;
       modify (set_warned true)
     else mret tt);;
    unlock_phys;;
    mret addr.

(** The results are the values stored through [p_base] and [p_top]. *)
Definition phys_alloc_get_unused : M (Z * Z) :=
  s ← get;
  if base s =? top s then mret (base s, top s)
  else
    lock_phys;;
    set_region (nr_regions s) (Region (base s) (u64 (top s - base s)));;
    modify (set_nr_regions (s32 (nr_regions s + 1)));;
    modify (set_base (top s));;
    unlock_phys;;
    mret (base s, top s).

Definition early_memalign (alignment size : Z) : M Z :=
  lift (c_assert (negb (alignment =? 0) && (Z.land alignment (u64 (alignment - 1)) =? 0)));;
  addr ← phys_alloc_aligned_safe size alignment true;
  mret (if addr =? INVALID_PHYS_ADDR then 0 else phys_to_virt addr).

(** ** Lemmas on the single operations *)
(** Blocks in the order of their addresses, without overlap, between [lo] and [hi]. *)
Fixpoint blocks_in (lo hi : Z) (l : list phys_alloc_region) : Prop :=
  match l with
  | [] => lo ≤ hi
  | r :: l => lo ≤ r_base r ∧ 0 ≤ r_size r ∧ blocks_in (r_base r + r_size r) hi l
  end.

Lemma blocks_in_le lo hi l : blocks_in lo hi l → lo ≤ hi.
Proof. revert lo. induction l as [|r l IH]; intros lo; cbn; [done|]. intros (? & ? & ?%IH). lia. Qed.
Lemma blocks_in_snoc lo hi hi' l r :
  blocks_in lo hi l → hi ≤ r_base r → 0 ≤ r_size r → r_base r + r_size r ≤ hi' → blocks_in lo hi' (l ++ [r]).
Proof.
  revert lo. induction l as [|x l IH]; intros lo; cbn; [lia|].
  intros (? & ? & Hl) ? ? ?. split; [done|]. split; [done|]. by apply IH.
Qed.
Lemma blocks_in_bounds lo hi l i r : blocks_in lo hi l → l !! i = Some r → lo ≤ r_base r ∧ 0 ≤ r_size r ∧ r_base r + r_size r ≤ hi.
Proof.
  revert lo i. induction l as [|x l IH]; intros lo [|i]; cbn; [done|done| |].
  - intros (? & ? & ?%blocks_in_le) [= <-]. lia.
  - intros (? & ? & Hl) Hi. destruct (IH _ _ Hl Hi). lia.
Qed.
Lemma blocks_in_disjoint lo hi l i j r1 r2 :
  blocks_in lo hi l → (i < j)%nat → l !! i = Some r1 → l !! j = Some r2 → r_base r1 + r_size r1 ≤ r_base r2.
Proof.
  revert lo i j. induction l as [|x l IH]; intros lo i j; cbn; [done|]. intros (? & ? & Hl) Hij.
  destruct j as [|j]; [lia|]. destruct i as [|i]; cbn.
  - intros [= <-] Hj. by destruct (blocks_in_bounds _ _ _ _ _ Hl Hj).
  - apply (IH _ i j Hl). lia.
Qed.

(** The state after [l] has been handed out of [b, t). *)
Record phys_ok (b t : Z) (l : list phys_alloc_region) (s : phys) : Prop := {
  po_lock : lock s = 0;
  po_top : top s = t;
  po_blocks : blocks_in b (base s) l;
  po_base : base s ≤ t;
  po_len : length (regions s) = 256%nat;
  po_nr : nr_regions s = Z.min 256 (Z.of_nat (length l));
  po_log : take (Z.to_nat (nr_regions s)) (regions s) = take 256 l
}.

Lemma s32_range_small x : 0 ≤ x < 2 ^ 31 → s32 x = x.
Proof. intros Hx. unfold s32, signed. rewrite Z.mod_small by lia. by rewrite (proj2 (Z.ltb_lt _ _)) by lia. Qed.

Lemma lock_phys_ok {A} (g : unit → M A) s : lock s = 0 → (lock_phys ≫= g) s = g tt (set_lock 1 s).
Proof. intros E. unfold lock_phys. rewrite stM_bind_assoc, bind_gets, E. done. Qed.

Lemma phys_ok_frame b t l s s' :
  phys_ok b t l s → regions s' = regions s → nr_regions s' = nr_regions s → lock s' = 0 → base s' = base s →
  top s' = top s → phys_ok b t l s'.
Proof. intros [] Er En El Eb Et. split; rewrite ?Er, ?En, ?El, ?Eb, ?Et; assumption || done. Qed.

(** A block logged in the region array. *)
Lemma phys_ok_push b t l s s' r :
  phys_ok b t l s → lock s' = 0 → top s' = t → base s ≤ r_base r → 0 ≤ r_size r →
  r_base r + r_size r ≤ base s' → base s' ≤ t →
  (if nr_regions s <? 256
   then nr_regions s' = nr_regions s + 1 ∧ regions s' = <[Z.to_nat (nr_regions s) := r]> (regions s)
   else nr_regions s' = nr_regions s ∧ regions s' = regions s) →
  phys_ok b t (l ++ [r]) s'.
Proof.
  intros [Hl Ht Hb Hbt Hlen Hnr Hlog] Hl' Ht' H1 H2 H3 H4 Hr.
  destruct (Z.ltb_spec (nr_regions s) 256) as [Hlt|Hge]; destruct Hr as [En Er].
  - split; try assumption.
    + by apply (blocks_in_snoc _ (base s)).
    + by rewrite Er, length_insert.
    + rewrite En, length_app. cbn [length]. lia.
    + rewrite En, Er. replace (Z.to_nat (nr_regions s + 1)) with (S (Z.to_nat (nr_regions s))) by lia.
      rewrite (take_S_r _ _ r) by (apply list_lookup_insert_eq; lia).
      rewrite take_insert_ge by lia. rewrite Hlog. rewrite !take_ge; [done|rewrite length_app; cbn [length]; lia|lia].
  - split; try assumption.
    + by apply (blocks_in_snoc _ (base s)).
    + by rewrite Er.
    + rewrite En, length_app. cbn [length]. lia.
    + rewrite En, Er, Hlog. rewrite take_app_le by lia. done.
Qed.

Lemma bind_printf {A} f a (g : unit → M A) s : (printf f a ≫= g) s = g tt (set_log ((f, a) :: log s) s).
Proof. done. Qed.

Lemma lift_assert_inv c (s s1 : phys) u : lift (c_assert c) s = Done (u, s1) → s1 = s.
Proof. destruct c; cbn; [by intros [= _ <-]|done]. Qed.

Section ops.
Context (b t : Z) (Hbt : 0 ≤ b ∧ t < 2 ^ 64).

(** [phys_alloc_aligned_safe] for a power of two, when the sum does not overflow. *)
Lemma phys_alloc_ok k size safe l s :
  phys_ok b t l s → 0 ≤ k < 64 → 0 ≤ size → base s + 2 ^ k + size ≤ 2 ^ 64 →
  let addr := ALIGN (base s) (2 ^ k) in
  if base s =? t then phys_alloc_aligned_safe size (2 ^ k) safe s = Abort
  else if addr + size <=? t then
    addr mod 2 ^ k = 0 ∧ base s ≤ addr < base s + 2 ^ k ∧ addr ≠ INVALID_PHYS_ADDR ∧
    ∃ s', phys_alloc_aligned_safe size (2 ^ k) safe s = Done (addr, s') ∧
      phys_ok b t (l ++ [Region addr size]) s' ∧ base s' = addr + size
  else ∃ s', phys_alloc_aligned_safe size (2 ^ k) safe s = Done (INVALID_PHYS_ADDR, s') ∧ phys_ok b t l s' ∧ base s' = base s.
Proof.
  intros Hok Hk Hsz Hov addr. pose proof Hok as [Hl Ht Hb Hbase Hlen Hnr Hlog].
  pose proof (blocks_in_le _ _ _ Hb) as Hb0. pose proof (pow2_k_range k Hk) as Hp.
  destruct (ALIGN_spec k Hk (base s)) as [Ha1 Ha2]; [lia|lia|]. fold addr in Ha1, Ha2.
  assert (∀ A (g : phys → M A), (lock_phys;; s ← get; g s) s = g (set_lock 1 s) (set_lock 1 s)) as Hlock
    by (intros; by rewrite lock_phys_ok).
  unfold phys_alloc_aligned_safe. rewrite Hlock. clear Hlock. cbn [top base nr_regions warned set_lock].
  change (sizeof_long =? 4) with false. rewrite andb_false_r, Ht. cbv iota zeta.
  destruct (Z.eqb_spec (base s) t) as [E|E].
  { rewrite E, Z.ltb_irrefl. done. }
  rewrite (proj2 (Z.ltb_lt (base s) t)) by lia. cbn [c_assert]. rewrite bind_lift_Done. fold addr.
  rewrite (u64_small (addr - base s)), (u64_small (size + (addr - base s))), (u64_small (t - base s))
    by (unfold in_u64; lia).
  destruct (Z.leb_spec (addr + size) t) as [Hfit|Hfit].
  - split; [done|]. split; [done|]. split.
    { change INVALID_PHYS_ADDR with (2 ^ 64 - 1). intros Ea. destruct (decide (k = 0)) as [->|]; [lia|].
      pose proof (Z.div_mod addr (2 ^ k) ltac:(lia)) as Ed. rewrite Ha1 in Ed.
      assert (2 ^ k = 2 * 2 ^ (k - 1)) as Ek by (rewrite <- Z.pow_succ_r by lia; f_equal; lia).
      rewrite Ek, <- Z.mul_assoc in Ed at 1. set (x := 2 ^ (k - 1) * _) in Ed. lia. }
    rewrite (proj2 (Z.ltb_ge _ _)) by lia. rewrite bind_modify. unfold PHYS_ALLOC_NR_REGIONS.
    replace (base s + (size + (addr - base s))) with (addr + size) by lia. rewrite u64_small by (unfold in_u64; lia).
    destruct (Z.ltb_spec (nr_regions s) 256) as [Hlt|Hge].
    + eexists. split.
      { rewrite !stM_bind_assoc. unfold set_region. rewrite !stM_bind_assoc, bind_gets. cbn [regions set_base set_lock].
        rewrite arr_set_ok by lia. rewrite !stM_bind_assoc, bind_lift_Done, bind_modify, bind_modify.
        unfold unlock_phys. rewrite stM_bind_assoc, bind_gets, bind_modify. reflexivity. }
      split; [|done]. apply (phys_ok_push b t l s); cbn; try done; try lia. rewrite (proj2 (Z.ltb_lt _ _)) by lia.
      split; [|done]. by rewrite s32_range_small by lia.
    + destruct (warned s); cbn [negb]; (eexists; split; [reflexivity|]); (split; [|done]);
        (apply (phys_ok_push b t l s); cbn; try done; try lia; rewrite (proj2 (Z.ltb_ge _ _)) by lia; done).
  - rewrite (proj2 (Z.ltb_lt _ _)) by lia. eexists. split; [reflexivity|]. split; [|done].
    by apply (phys_ok_frame b t l s).
Qed.
End ops.

Lemma phys_alloc_init_ok b size s :
  lock s = 0 → length (regions s) = 256%nat → 0 ≤ b → 0 ≤ size → b + size < 2 ^ 64 →
  ∃ s', phys_alloc_init b size s = Done (tt, s') ∧ phys_ok b (b + size) [] s' ∧ base s' = b.
Proof.
  intros Hl Hlen Hb Hs Hlt. eexists. split; [unfold phys_alloc_init; rewrite lock_phys_ok by done; reflexivity|].
  split; [|done]. split; cbn; try done; try lia. by rewrite u64_small by (unfold in_u64; lia).
Qed.

Section show.
Context (b t : Z).

(** The state without the output. *)
Definition same_phys (s s' : phys) : Prop :=
  regions s' = regions s ∧ nr_regions s' = nr_regions s ∧ base s' = base s ∧ top s' = top s ∧
  align_min s' = align_min s ∧ warned s' = warned s.

(** [phys_alloc_show] reads the logged regions only, so it never faults. *)
Lemma phys_alloc_show_ok l s :
  phys_ok b t l s → ∃ s', phys_alloc_show s = Done (tt, s') ∧ phys_ok b t l s' ∧ base s' = base s.
Proof.
  intros Hok. pose proof Hok as [Hl Ht Hb Hbase Hlen Hnr Hlog]. unfold phys_alloc_show.
  rewrite lock_phys_ok, bind_get by done. rewrite bind_printf.
  set (s1 := set_log _ _).
  destruct (for_up_rule (λ i s', same_phys s1 s' ∧ lock s' = 1)
    (λ i, r ← get_region i;
       printf "%016lx-%016lx [%s]\n" [PInt (r_base r); PInt (u64 (r_base r + r_size r - 1)); PStr "USED"])
    (Z.to_nat (nr_regions (set_lock 1 s))) 0 s1) as (s2 & E & Hs2 & Hl2).
  - by repeat split.
  - intros i s' Hi [(Er & En & Eb & Et & Ea & Ew) El]. cbn [nr_regions set_lock] in Hi.
    unfold get_region. rewrite stM_bind_assoc, bind_gets, Er. cbn [s1 regions set_log set_lock].
    destruct (arr_get_in (regions s) i) as (r & _ & ->); [lia|]. rewrite bind_lift_Done.
    eexists. split; [reflexivity|]. by repeat split.
  - rewrite (stM_bind_Done _ _ _ _ _ E). destruct Hs2 as (Er & En & Eb & Et & _ & _).
    eexists. split; [reflexivity|]. split; [|exact Eb]. by apply (phys_ok_frame b t l s).
Qed.
End show.

(** ** Sequences of calls *)
(** One call of the interface and the blocks it hands out.  The sums of a request
    must not overflow. *)
Inductive phys_step : phys → list phys_alloc_region → phys → Prop :=
| step_alloc size k safe s addr s' :
    0 ≤ k < 64 → 0 ≤ size → base s + 2 ^ k + size ≤ 2 ^ 64 →
    phys_alloc_aligned_safe size (2 ^ k) safe s = Done (addr, s') →
    phys_step s (if addr =? INVALID_PHYS_ADDR then [] else [Region addr size]) s'
| step_memalign size k s p s' :
    0 ≤ k < 64 → 0 ≤ size → base s + 2 ^ k + size ≤ 2 ^ 64 →
    early_memalign (2 ^ k) size s = Done (p, s') →
    phys_step s (if p =? 0 then [] else [Region p size]) s'
| step_unused s lo hi s' :
    phys_alloc_get_unused s = Done ((lo, hi), s') →
    phys_step s (if lo =? hi then [] else [Region lo (hi - lo)]) s'
| step_align a s s' : phys_alloc_set_minimum_alignment a s = Done (tt, s') → phys_step s [] s'
| step_show s s' : phys_alloc_show s = Done (tt, s') → phys_step s [] s'.

(** The states after a [phys_alloc_init] and any calls, with all blocks handed out. *)
Inductive phys_reach (b size : Z) : phys → list phys_alloc_region → Prop :=
| reach_init s s' :
    lock s = 0 → length (regions s) = 256%nat → phys_alloc_init b size s = Done (tt, s') →
    phys_reach b size s' []
| reach_step s l l' s' : phys_reach b size s l → phys_step s l' s' → phys_reach b size s' (l ++ l').

Section steps.
Context (b t : Z) (Hb : 0 < b) (Ht : b ≤ t < 2 ^ 64).

Lemma phys_alloc_step k size safe l s addr s' :
  phys_ok b t l s → 0 ≤ k < 64 → 0 ≤ size → base s + 2 ^ k + size ≤ 2 ^ 64 →
  phys_alloc_aligned_safe size (2 ^ k) safe s = Done (addr, s') →
  addr ≠ 0 ∧ phys_ok b t (l ++ if addr =? INVALID_PHYS_ADDR then [] else [Region addr size]) s'.
Proof.
  intros Hok Hk Hs Hov E. pose proof (phys_alloc_ok b t ltac:(lia) k size safe l s Hok Hk Hs Hov) as Hspec.
  pose proof (blocks_in_le _ _ _ (po_blocks _ _ _ _ Hok)).
  cbv zeta in Hspec. destruct (base s =? t); [by rewrite E in Hspec|].
  destruct (_ <=? t).
  - destruct Hspec as (_ & Hr & Hne & s1 & E1 & Hok1 & _). rewrite E in E1. injection E1 as -> ->.
    rewrite (proj2 (Z.eqb_neq _ _) Hne). split; [lia|done].
  - destruct Hspec as (s1 & E1 & Hok1 & _). rewrite E in E1. injection E1 as -> ->.
    rewrite Z.eqb_refl, app_nil_r. by split.
Qed.

Lemma phys_step_ok l s l' s' : phys_ok b t l s → phys_step s l' s' → phys_ok b t (l ++ l') s'.
Proof.
  intros Hok Hstep. destruct Hstep as [size k safe s addr s' Hk Hs Hov E|size k s p s' Hk Hs Hov E|s lo hi s' E|a s s' E|s s' E].
  - by apply (phys_alloc_step k size safe l s).
  - unfold early_memalign in E. apply stM_bind_inv in E as ([] & s1 & E1 & E).
    assert (s1 = s) as -> by (by apply lift_assert_inv in E1).
    apply stM_bind_inv in E as (addr & s1 & E2 & [= <- <-]).
    destruct (phys_alloc_step k size true l s addr s1) as [Hne Hok1]; try done.
    destruct (addr =? INVALID_PHYS_ADDR); [done|]. unfold phys_to_virt. by rewrite (proj2 (Z.eqb_neq addr 0)).
  - pose proof Hok as [Hl Htop Hbl Hbase Hlen Hnr Hlog]. unfold phys_alloc_get_unused in E. rewrite bind_get in E.
    destruct (Z.eqb_spec (base s) (top s)) as [Eb|Eb].
    + injection E as <- <- <-. rewrite Eb, Z.eqb_refl, app_nil_r. done.
    + rewrite lock_phys_ok in E by done. unfold set_region in E. rewrite !stM_bind_assoc, bind_gets in E.
      cbn [regions set_lock] in E. rewrite !stM_bind_assoc in E.
      destruct (decide (nr_regions s < 256)) as [Hlt|Hge].
      2:{ unfold arr_set in E. rewrite (proj2 (Z.ltb_ge _ (Z.of_nat (length _)))), andb_false_r in E by lia. done. }
      rewrite arr_set_ok, bind_lift_Done, bind_modify, bind_modify, bind_modify in E by lia.
      unfold unlock_phys in E. rewrite stM_bind_assoc, bind_gets, bind_modify in E.
      injection E as <- <- <-. rewrite (proj2 (Z.eqb_neq _ _) Eb).
      pose proof (blocks_in_le _ _ _ Hbl).
      apply (phys_ok_push b t l s); cbn; try done; try lia. rewrite (proj2 (Z.ltb_lt _ _)) by lia.
      rewrite s32_range_small by lia. rewrite u64_small by (unfold in_u64; lia). done.
  - unfold phys_alloc_set_minimum_alignment in E. apply stM_bind_inv in E as ([] & s1 & E1 & E).
    assert (s1 = s) as -> by (by apply lift_assert_inv in E1).
    rewrite lock_phys_ok in E by apply Hok. injection E as <-. rewrite app_nil_r. by apply (phys_ok_frame b t l s).
  - destruct (phys_alloc_show_ok b t l s Hok) as (s1 & E1 & Hok1 & _). rewrite E in E1. injection E1 as ->.
    by rewrite app_nil_r.
Qed.
End steps.


(** ** The theorem at a concrete run *)
Definition demo_phys : phys := Phys (replicate 256 (Region 0 0)) 0 0 0 0 DEFAULT_MINIMUM_ALIGNMENT false [].
Definition demo_run : outcome phys :=
  '(_, s) ← phys_alloc_init 0x1008 0x10000 demo_phys;
  '(_, s) ← early_memalign 64 100 s;
  '(_, s) ← early_memalign 4096 0x20000 s;
  '(_, s) ← phys_alloc_get_unused s;
  mret s.

End Phys.
