(* ===== verification/Ept.v ===== *)
(** Extended page tables: x86/ept.c (the table code; [__setup_ept] and
    [setup_ept], which program the VMCS, are in Vmx.v).

    The code is written against the interface [PageSource] of AllocPage.v.
    [install_ept_walk_ok] is its contract, from which the properties of the
    single installs and of [setup_ept_range] follow. *)
From Stdlib Require Import ZArith Lia Bool.
From S2P Require Import Prelude Libcflat Mem AllocPage PageTable TableRange PtDemo.
#[local] Open Scope Z_scope.

(** x86/vmx.h *)
Definition EPT_RA : Z := 1.
Definition EPT_WA : Z := 2.
Definition EPT_EA : Z := 4.
Definition EPT_PRESENT : Z := Z.lor (Z.lor EPT_RA EPT_WA) EPT_EA.
Definition EPT_LARGE_PAGE : Z := Z.shiftl 1 7.
Definition PAGE_SIZE_2M : Z := 512 * PAGE_SIZE.
Definition PAGE_SIZE_1G : Z := 512 * PAGE_SIZE_2M.
Definition EPT_PAGE_LEVEL : nat := 4.
Definition EPT_PGDIR_WIDTH : Z := 9.
Definition EPT_PGDIR_MASK : Z := 511.
Definition EPT_PGDIR_ENTRIES : Z := Z.shiftl 1 EPT_PGDIR_WIDTH.
Definition EPT_LEVEL_SHIFT (level : Z) : Z := (level - 1) * EPT_PGDIR_WIDTH + 12.
Definition EPT_ADDR_MASK : Z := GENMASK_ULL 51 12.

Section code.
Context {St : Type} `{PageSource St}.

Definition split_large_ept_entry (ptep level : Z) (s : St) : outcome St :=
  let pte := st_rd ptep s in
  _ ← c_assert (negb (Z.land pte EPT_PRESENT =? 0));
  _ ← c_assert (negb (Z.land pte EPT_LARGE_PAGE =? 0));
  _ ← c_assert ((level =? 2) || (level =? 3));
  '(new_pt, s) ← ps_alloc_page s;
  _ ← c_assert (negb (new_pt =? 0));
  let s := st_zero_page new_pt s in
  let prototype := Z.land pte (not64 EPT_ADDR_MASK) in
  let prototype := if level =? 2 then Z.land prototype (not64 EPT_LARGE_PAGE) else prototype in
  let gpa := Z.land pte EPT_ADDR_MASK in
  let s := ps_with_mem
    (fill_table (Z.to_nat EPT_PGDIR_ENTRIES) new_pt prototype
      (Z.shiftl 1 (EPT_LEVEL_SHIFT (level - 1))) 0 gpa (ps_mem s)) s in
  let pte := Z.land pte (not64 EPT_LARGE_PAGE) in
  let pte := Z.land pte (not64 EPT_ADDR_MASK) in
  let pte := Z.lor pte (virt_to_phys new_pt) in
  mret (st_wr ptep pte s).

(** The [for] loop of [install_ept_entry] from [level] down and the store after
    it; [pt] and [pt_page] are the loop's other variables. *)
Fixpoint install_ept_walk (level pte_level : nat) (guest_addr pte pt_page pt : Z) (s : St)
    : outcome St :=
  let offset := Z.land (Z.shiftr guest_addr (EPT_LEVEL_SHIFT (Z.of_nat level))) EPT_PGDIR_MASK in
  match level with
  | S level' =>
    if (pte_level <? level)%nat then
      let ptep := pt + 8 * offset in
      '(pt_page, s) ←
        (if Z.land (st_rd ptep s) EPT_PRESENT =? 0 then
           '(new_pt, pt_page, s) ←
             (if pt_page =? 0
              then '(new_pt, s) ← ps_alloc_page s; mret (new_pt, pt_page, s)
              else mret (pt_page, 0, s));
           let s := st_zero_page new_pt s in
           mret (pt_page, st_wr ptep
             (Z.lor (Z.lor (Z.lor (virt_to_phys new_pt) EPT_RA) EPT_WA) EPT_EA) s)
         else if negb (Z.land (st_rd ptep s) EPT_LARGE_PAGE =? 0) then
           s ← split_large_ept_entry ptep (Z.of_nat level) s; mret (pt_page, s)
         else mret (pt_page, s));
      install_ept_walk level' pte_level guest_addr pte pt_page
        (phys_to_virt (Z.land (st_rd ptep s) EPT_ADDR_MASK)) s
    else mret (st_wr (pt + 8 * offset) pte s)
  | O => mret (st_wr (pt + 8 * offset) pte s)
  end.

Definition install_ept_entry (pml4 : Z) (pte_level : nat) (guest_addr pte pt_page : Z) (s : St)
    : outcome St :=
  _ ← c_assert (guest_addr <? Z.shiftl 1 48);
  install_ept_walk EPT_PAGE_LEVEL pte_level guest_addr pte pt_page pml4 s.

Definition install_ept (pml4 phys guest_addr perm : Z) (s : St) : outcome St :=
  install_ept_entry pml4 1 guest_addr (Z.lor (Z.land phys PAGE_MASK) perm) 0 s.

Definition install_1g_ept (pml4 phys guest_addr perm : Z) (s : St) : outcome St :=
  install_ept_entry pml4 3 guest_addr
    (Z.lor (Z.lor (Z.land phys PAGE_MASK) perm) EPT_LARGE_PAGE) 0 s.

Definition install_2m_ept (pml4 phys guest_addr perm : Z) (s : St) : outcome St :=
  install_ept_entry pml4 2 guest_addr
    (Z.lor (Z.lor (Z.land phys PAGE_MASK) perm) EPT_LARGE_PAGE) 0 s.

(** One of the three loops [while (phys + size <= max) { install; phys += size; }]. *)
Definition ept_range_loop (fuel : nat) (size max : Z) (install : Z → St → outcome St)
    (st : Z * St) : outcome (Z * St) :=
  while_loop fuel (λ '(phys, _), u64 (phys + size) <=? max)
    (λ '(phys, s), s ← install phys s; mret (u64 (phys + size), s)) st.

Definition setup_ept_range (fuel : nat) (pml4 start len : Z) (map_1g map_2m : bool) (perm : Z)
    (s : St) : outcome St :=
  let max := u64 (len + start) in
  st ← (if map_1g
        then ept_range_loop fuel PAGE_SIZE_1G max (λ p, install_1g_ept pml4 p p perm) (start, s)
        else mret (start, s));
  st ← (if map_2m
        then ept_range_loop fuel PAGE_SIZE_2M max (λ p, install_2m_ept pml4 p p perm) st
        else mret st);
  st ← ept_range_loop fuel PAGE_SIZE max (λ p, install_ept pml4 p p perm) st;
  mret (snd st).
End code.

(** ** The contract *)
Definition EPT : pt_format := PtFormat EPT_PRESENT 7 51.
#[export] Instance EPT_ok : FormatOk EPT.
Proof. by split. Qed.

Section proofs.
Context {St : Type} `{PageSource St} `{!PageSourceLaws St}.

Lemma present_bits e : (Z.land e EPT_PRESENT =? 0) = negb (pf_present EPT e).
Proof. unfold pf_present. by rewrite negb_involutive. Qed.
Lemma huge_bit e : (Z.land e EPT_LARGE_PAGE =? 0) = negb (pf_huge e).
Proof. unfold pf_huge. by rewrite negb_involutive. Qed.

(** The new table is taken, zeroed and linked. *)
Lemma split_large_ept_entry_ok pt i (level : nat) p FR (s : St) :
  ps_free s (p :: FR) → pt mod 4096 = 0 → 0 ≤ i < 512 → pt ∉ FR → pt ≠ p →
  let e := rd (ps_mem s) (pt + 8 * i) in
  pf_present EPT e = true → is_huge level e = true →
  ∃ s', split_large_ept_entry (pt + 8 * i) (Z.of_nat level) s = Done s' ∧ ps_free s' FR ∧
    ps_mem s' =
      wr (fill_table 512 p (split_proto EPT (Z.of_nat level) e)
            (2 ^ EPT_LEVEL_SHIFT (Z.of_nat level - 1)) 0 (pf_addr EPT e)
            (zero_page p (ps_mem s)))
         (pt + 8 * i) (split_entry EPT e p).
Proof.
  intros Hf Hpt Hi HptF Hne e Hp Hh. destruct (is_huge_level _ _ Hh) as [Hl Hhe].
  destruct (ps_alloc_cons _ _ _ Hf) as (s1 & Ea & Hf1 & Em).
  destruct (ps_free_frames _ _ Hf) as [[HpF _]%NoDup_cons [Hpok _]%Forall_cons].
  unfold split_large_ept_entry.
  change (st_rd (pt + 8 * i) s) with e.
  unfold pf_present in Hp. unfold pf_huge in Hhe.
  change (pf_pmask EPT) with EPT_PRESENT in Hp. change (2 ^ 7) with EPT_LARGE_PAGE in Hhe.
  rewrite Hp, Hhe. cbn [c_assert mbind outcome_bind].
  assert ((Z.of_nat level =? 2) || (Z.of_nat level =? 3) = true) as ->
    by (destruct Hl as [->| ->]; done).
  cbn [c_assert]. rewrite Ea. destruct Hpok as (Hp0 & Hpal & Hp1).
  cbn [mbind outcome_bind]. rewrite (proj2 (Z.eqb_neq p 0)) by lia.
  eexists. split; [reflexivity|]. split.
  - apply free_wr; [|done..]. apply ps_free_with_mem; [by apply free_zero|].
    intros q Hq. apply fill_table_page; [|done|by intros ->].
    destruct (ps_free_frames _ _ Hf1) as [_ Hok]. apply page_ok_aligned.
    rewrite Forall_forall in Hok. auto.
  - unfold st_wr, st_zero_page. rewrite !ps_mem_with, Em.
    rewrite Z.shiftl_1_l. reflexivity.
Qed.

Lemma install_ept_walk_ok l tl pt va pte own FR (s : St) :
  (0 < tl ≤ l)%nat → (l ≤ 4)%nat →
  tree EPT l (ps_mem s) pt own → ps_free s FR → fresh_frames own FR →
  entry_ok EPT tl pte → (pf_present EPT pte = true → is_leaf tl pte = true) →
  (missing EPT tl l (ps_mem s) pt va ≤ length FR)%nat →
  ∃ s' used FR', FR = used ++ FR' ∧ install_ept_walk l tl va pte 0 pt s = Done s' ∧
    ps_free s' FR' ∧ installed EPT tl l (ps_mem s) (ps_mem s') pt va pte own used.
Proof.
  intros Htl Hl4. revert pt own FR s. induction l as [|l IH]; intros pt own FR s Ht Hf Hfr He Hlf Hm;
    [lia|].
  pose proof (PGDIR_OFFSET_range va (S l)) as Hi.
  set (i := PGDIR_OFFSET va (S l)) in *.
  destruct (decide (tl = S l)) as [->|].
  { exists (st_wr (pt + 8 * i) pte s), [], FR. split; [done|].
    split; [cbn [install_ept_walk]; by rewrite Nat.ltb_irrefl|].
    destruct (tree_root_ok _ _ _ _ _ Ht) as [Hpt Hptok]. split.
    - apply free_wr; [done|by apply page_ok_aligned|done|]. intros Hin. by apply (Hfr pt).
    - unfold st_wr. rewrite ps_mem_with. apply installed_base; (done || lia). }
  pose proof Ht as [f Hnd]%tree_node.
  assert (0 < tl ≤ l)%nat as Htl' by lia.
  pose proof (nd_root _ _ _ _ _ _ Hnd) as Hpt. pose proof (nd_ok _ _ _ _ _ _ Hnd _ Hpt) as Hptok.
  pose proof (page_ok_aligned _ Hptok) as Hptal.
  cbn [install_ept_walk]. rewrite (proj2 (Nat.ltb_lt _ _)) by lia.
  change (Z.land (Z.shiftr va (EPT_LEVEL_SHIFT (Z.of_nat (S l)))) EPT_PGDIR_MASK) with i.
  cbv zeta. set (e := rd (ps_mem s) (pt + 8 * i)).
  change (st_rd (pt + 8 * i) s) with e.
  rewrite (present_bits e), (huge_bit e), negb_involutive.
  destruct (nd_entry _ _ _ _ _ _ Hnd i Hi) as [Heu Hee]. fold e in Heu, Hee.
  cbn [missing] in Hm. rewrite (proj2 (Nat.leb_gt _ _)) in Hm by lia. fold i in Hm. fold e in Hm.
  specialize (IH Htl' ltac:(lia)).
  destruct (pf_present EPT e) eqn:Hp.
  2:{ (* a new table *)
    cbn [negb orb Z.eqb] in Hm |- *.
    destruct FR as [|p FR]; [cbn in Hm; lia|].
    destruct (ps_alloc_cons _ _ _ Hf) as (s1 & -> & Hf1 & Em).
    cbn [mbind outcome_bind mret outcome_ret].
    destruct (new_table_ok EPT ltac:(done) tl l s s1 pt va pte own f p FR)
      as ((Ht1 & Hf2 & HFp) & (Hm1 & _) & Ha & Hfin); try done.
    fold i in Ht1, Hf2, Hm1, Ha, Hfin. set (s2 := st_wr _ _ _) in *.
    destruct (IH p (λ q, q = p) FR s2) as (s' & used & FR' & EF & Es' & Hf' & Hins); try done;
      [rewrite Hm1; cbn in Hm; lia|].
    exists s', (p :: used), FR'. split; [by rewrite EF|]. split; [|split; [done|]].
    - rewrite <- Es'. f_equal. exact Ha.
    - by apply (Hfin s' used FR').
  }
  destruct (Hee eq_refl) as [_ Htop].
  destruct (pf_huge e) eqn:Hh.
  - (* a large page *)
    assert (¬ (3 < S l)%nat) as Hl3 by (intros Hc; by specialize (Htop Hc)).
    assert (is_huge (S l) e = true) as Hhuge.
    { unfold is_huge. rewrite Hh, andb_true_r. apply orb_true_iff.
      rewrite !Nat.eqb_eq. lia. }
    unfold is_leaf in Hm. rewrite Hhuge, orb_true_r in Hm. cbn [negb orb] in Hm |- *.
    destruct FR as [|p FR]; [cbn in Hm; lia|].
    destruct (free_split _ _ _ _ Hf Hfr) as (Hpok & Hpn & HpF & HFo & HFp).
    destruct (split_large_ept_entry_ok pt i (S l) p FR s) as (s2 & -> & Hf2 & Es2);
      try assumption.
    { intros Hin. by apply (HFo pt). }
    { by intros ->. }
    cbn [mbind outcome_bind mret outcome_ret].
    destruct (installed_split EPT tl l (ps_mem s) pt va pte own f Htl' Hnd
      (zero_page p (ps_mem s)) p) as (_ & Ht1 & Hm1 & _ & Hfin); try assumption; [reflexivity|..].
    { intros q Hq Hqp. by apply same_page_zero; [apply page_ok_aligned..|]. }
    fold i in Ht1, Hm1, Hfin. fold e in Ht1, Hm1, Hfin, Es2.
    assert (EPT_LEVEL_SHIFT (Z.of_nat (S l) - 1) = PGDIR_BITS l) as Eb
      by (unfold EPT_LEVEL_SHIFT, PGDIR_BITS, EPT_PGDIR_WIDTH, PGDIR_WIDTH, PAGE_SHIFT; lia).
    rewrite Eb in Es2. rewrite <- Es2 in Ht1, Hm1, Hfin.
    destruct (IH p (λ q, q = p) FR s2) as (s' & used & FR' & -> & Es' & Hf' & Hins); try assumption;
      [rewrite Hm1; cbn in Hm; lia|].
    exists s', (p :: used), FR'. split; [done|]. split; [|split; [done|]].
    + rewrite <- Es'. f_equal. unfold st_rd. rewrite Es2, rd_wr_eq.
      by apply (split_entry_ok EPT l).
    + apply Hfin; [|done]. by apply (used_fresh s used FR' own).
  - (* a table *)
    assert (is_leaf (S l) e = false) as Hleaf.
    { unfold is_leaf, is_huge. rewrite Hh, andb_false_r, orb_false_r. apply Nat.eqb_neq. lia. }
    rewrite Hleaf in Hm. cbn [negb orb mbind outcome_bind mret outcome_ret] in Hm |- *.
    destruct (IH (pf_addr EPT e) (f i) FR s) as (s' & used & FR' & -> & Es' & Hf' & Hins);
      try assumption.
    { by apply (nd_child _ _ _ _ _ _ Hnd). }
    { intros q Hq Hfq. by apply (Hfr q Hq), (nd_sub _ _ _ _ _ _ Hnd i q). }
    exists s', used, FR'. split; [done|]. split; [exact Es'|]. split; [done|].
    apply (installed_table EPT tl l (ps_mem s) pt va pte own f); try done.
    intros q Hq. destruct (ps_free_frames _ _ Hf) as [_ Hok]. rewrite Forall_forall in Hok.
    split; [apply Hok; set_solver|]. apply Hfr. set_solver.
Qed.

(** [install_ept_entry] keeps the promise of an install routine. *)
#[export] Instance ept_install :
  TableInstall EPT (λ root tl va pte (s : St), install_ept_entry root tl va pte 0 s).
Proof.
  intros tl root va pte own FR s Htl Hva Ht Hf Hfr _ He Hp Hlf Hm.
  destruct (install_ept_walk_ok 4 tl root va pte own FR s)
    as (s' & used & FR' & EF & Es & Hf' & Hins); try done; [lia|].
  exists s', used, FR'. split; [done|]. split; [|done].
  unfold install_ept_entry. rewrite Z.shiftl_1_l, (proj2 (Z.ltb_lt _ _)) by lia. exact Es.
Qed.
End proofs.

(** ** The properties *)
Section claims.
Context {St : Type} `{PageSource St} `{!PageSourceLaws St}.

(** The addresses at which the 1G and the 2M loop of [setup_ept_range] stop. *)
Definition end_1g (len : Z) (map_1g : bool) : Z :=
  if map_1g then len / PAGE_SIZE_1G * PAGE_SIZE_1G else 0.
Definition end_2m (len : Z) (map_1g map_2m : bool) : Z :=
  let e := end_1g len map_1g in
  if map_2m then e + (len - e) / PAGE_SIZE_2M * PAGE_SIZE_2M else e.
(** The number of tables, besides the root, the identity map of [0, len) takes. *)
Definition ept_tables (len : Z) (map_1g map_2m : bool) : Z :=
  let e1 := end_1g len map_1g in
  let e2 := end_2m len map_1g map_2m in
  ntables 3 4 0 e1 + (ntables 2 4 e1 e2 + ntables 1 4 e2 (len / PAGE_SIZE * PAGE_SIZE)).

Lemma ept_tables_nonneg len map_1g map_2m : 0 ≤ len → 0 ≤ ept_tables len map_1g map_2m.
Proof.
  intros Hl. unfold ept_tables, end_2m, end_1g. cbv zeta. rewrite PAGE_SIZE_val.
  change PAGE_SIZE_1G with (2 ^ 18 * 4096). change PAGE_SIZE_2M with (2 ^ 9 * 4096).
  apply Z.add_nonneg_nonneg; [|apply Z.add_nonneg_nonneg]; apply ntables_nonneg; destruct map_1g, map_2m; Z.to_euclidean_division_equations; lia.
Qed.

Abbreviation ept_inv root perm m0 FR0 := (range_inv EPT root 0 (2 ^ 48) 0 perm (λ _, None) m0 (λ q, q = root) FR0 0).

(** The 1G or 2M loop, or nothing when the page size is not asked for. *)
Lemma ept_phase_ok (on : bool) pml4 perm m0 FR0 tl fl install fuel max phys (s : St) FR own rest :
  (1 ≤ tl ≤ 3)%nat → 0 ≤ fl < 4096 → Z.land fl 7 = Z.land perm 7 → Z.land perm 7 ≠ 0 →
  ((1 < tl)%nat → Z.land fl (2 ^ 7) ≠ 0) →
  (∀ p s, 0 ≤ p < 2 ^ 52 → p mod 4096 = 0 →
    install p s = install_ept_entry pml4 tl p (Z.lor fl p) 0 s) →
  let sz := 2 ^ PGDIR_BITS tl in
  let endp := if on then phys + (max - phys) / sz * sz else phys in
  0 ≤ rest → 0 ≤ phys → phys mod sz = 0 → phys ≤ max ≤ 2 ^ 48 →
  ept_inv pml4 perm m0 FR0 phys s FR own →
  ntables tl 4 phys endp + rest ≤ Z.of_nat (length FR) →
  (max - phys) / sz ≤ Z.of_nat fuel →
  ∃ s' FR' own',
    (if on then ept_range_loop fuel sz max install (phys, s) else mret (phys, s)) =
      Done (endp, s') ∧
    ept_inv pml4 perm m0 FR0 endp s' FR' own' ∧ rest ≤ Z.of_nat (length FR').
Proof.
  intros Htl Hfl Hfp Hperm Hlg Hinst sz endp Hrest H0 Hal Hmax Hinv Hlen Hfuel.
  pose proof (block_size tl ltac:(lia)) as Hsz. fold sz in Hsz. destruct on.
  2:{ exists s, FR, own. split; [done|]. split; [done|].
      pose proof (ntables_nonneg tl 4 phys phys ltac:(lia)). unfold endp in Hlen. lia. }
  pose proof (Z.div_mod (max - phys) sz ltac:(lia)).
  pose proof (Z.mod_pos_bound (max - phys) sz ltac:(lia)).
  pose proof (Z.div_pos (max - phys) sz ltac:(lia) ltac:(lia)).
  assert (endp = phys + Z.of_nat (Z.to_nat ((max - phys) / sz)) * sz) as Een
    by (unfold endp; rewrite Z2Nat.id; done).
  rewrite Een in *. clear endp Een.
  destruct (map_blocks_ok EPT (λ root tl va pte s, install_ept_entry root tl va pte 0 s) pml4 0 (2 ^ 48) 0
    perm (λ _, None) m0 (λ q, q = pml4) FR0 ltac:(lia) ltac:(done) tl fl
    (Z.to_nat ((max - phys) / sz)) 0 phys s FR own rest)
    as (s' & FR' & own' & x' & E & Hx & Hinv' & Hl & _); rewrite ?Z.add_0_r; try done; try lia.
  { change (pf_pmask EPT) with 7. by rewrite Hfp. }
  replace x' with 0%nat in * by lia. exists s', FR', own'. split; [|split; [exact Hinv'|lia]].
  apply (block_loop_blocks (λ root tl va pte s, install_ept_entry root tl va pte 0 s) pml4 tl fl 0);
    try done; try lia.
  intros p s0 Hp Hpa. rewrite Z.add_0_r. apply Hinst; [done|]. by apply (align_weaken tl 1); [lia|].
Qed.

(** The three install routines store [flags | frame] for an aligned frame. *)
Lemma install_routines pml4 perm p (s : St) :
  0 ≤ p < 2 ^ 52 → p mod 4096 = 0 →
  install_ept pml4 p p perm s = install_ept_entry pml4 1 p (Z.lor perm p) 0 s ∧
  install_2m_ept pml4 p p perm s =
    install_ept_entry pml4 2 p (Z.lor (Z.lor perm EPT_LARGE_PAGE) p) 0 s ∧
  install_1g_ept pml4 p p perm s =
    install_ept_entry pml4 3 p (Z.lor (Z.lor perm EPT_LARGE_PAGE) p) 0 s.
Proof.
  intros Hp Ha. unfold install_ept, install_2m_ept, install_1g_ept.
  rewrite page_mask_id by done.
  rewrite <- Z.lor_assoc, !(Z.lor_comm p). done.
Qed.

Lemma large_flags perm :
  0 ≤ perm < 128 →
  0 ≤ Z.lor perm EPT_LARGE_PAGE < 4096 ∧
  Z.land (Z.lor perm EPT_LARGE_PAGE) 7 = Z.land perm 7 ∧
  Z.land (Z.lor perm EPT_LARGE_PAGE) (2 ^ 7) ≠ 0.
Proof.
  intros Hp. change EPT_LARGE_PAGE with (2 ^ 7).
  assert (Z.land perm (2 ^ 7) = 0) as H0.
  { apply Z.bits_inj'. intros i Hi. rewrite Z.land_spec, testbit_pow2, Z.testbit_0_l by lia.
    destruct (Z.eqb_spec i 7) as [->|]; [|by rewrite andb_false_r].
    by rewrite (testbit_above 7) by (change (2 ^ 7) with 128; lia). }
  split; [|split].
  - rewrite <- Z.lxor_lor, <- Z.add_nocarry_lxor by done. lia.
  - rewrite Z.land_lor_distr_l. by rewrite Z.lor_0_r.
  - by rewrite Z.land_lor_distr_l, H0.
Qed.

Record phase_ends_spec (len e1 e2 : Z) : Prop := {
  pe_1g : 0 ≤ e1 ≤ len; pe_1g_al : e1 mod 2 ^ 30 = 0; pe_1g_n : (len - 0) / 2 ^ PGDIR_BITS 3 ≤ len / 4096;
  pe_2m : e1 ≤ e2 ≤ len; pe_2m_al : e2 mod 2 ^ 21 = 0; pe_2m_n : (len - e1) / 2 ^ PGDIR_BITS 2 ≤ len / 4096;
  pe_4k : e2 + (len - e2) / 4096 * 4096 = len / 4096 * 4096;
  pe_4k_n : (len - e2) / 2 ^ PGDIR_BITS 1 ≤ len / 4096
}.

Lemma div_small_le a b sz : 0 ≤ a ≤ b → 4096 ≤ sz → a / sz ≤ b / 4096.
Proof.
  intros Ha Hs. etransitivity; [apply (Z.div_le_mono a b sz); lia|].
  apply Z.div_le_compat_l; lia.
Qed.

Lemma div_mul_bounds a sz : 0 ≤ a → 0 < sz → 0 ≤ a / sz * sz ≤ a.
Proof.
  intros. pose proof (Z.div_mod a sz ltac:(lia)). pose proof (Z.mod_pos_bound a sz ltac:(lia)).
  pose proof (Z.div_pos a sz). nia.
Qed.

Lemma phase_ends len m1 m2 :
  0 ≤ len ≤ 2 ^ 48 → phase_ends_spec len (end_1g len m1) (end_2m len m1 m2).
Proof.
  intros Hl.
  assert (0 ≤ end_1g len m1 ≤ len ∧ end_1g len m1 mod 2 ^ 30 = 0) as [B1 A1].
  { unfold end_1g. destruct m1; [|split; [lia|done]].
    change PAGE_SIZE_1G with (2 ^ 30). split; [apply div_mul_bounds; lia|by apply Z.mod_mul]. }
  assert (end_1g len m1 mod 2 ^ 21 = 0) as A1' by (by apply (align_weaken 3 2); [lia|]).
  assert (end_1g len m1 ≤ end_2m len m1 m2 ≤ len ∧ end_2m len m1 m2 mod 2 ^ 21 = 0) as [B2 A2].
  { unfold end_2m. set (e := end_1g len m1) in *. destruct m2; [|split; [lia|done]].
    change PAGE_SIZE_2M with (2 ^ 21). pose proof (div_mul_bounds (len - e) (2 ^ 21)).
    split; [lia|]. by rewrite Z.mod_add. }
  assert (end_2m len m1 m2 mod 2 ^ 12 = 0) as A2' by (by apply (align_weaken 2 1); [lia|]).
  pose proof (block_size 3 ltac:(lia)). pose proof (block_size 2 ltac:(lia)).
  pose proof (block_size 1 ltac:(lia)).
  split; try assumption; try (apply div_small_le; lia).
  set (e := end_2m len m1 m2) in *. pose proof (Z.div_mod e (2 ^ 12) ltac:(lia)) as Ee.
  rewrite A2' in Ee. replace len with (e / 2 ^ 12 * 4096 + (len - e)) at 2 by lia.
  rewrite Z.div_add_l by lia. lia.
Qed.

Lemma setup_ept_range_ok fuel pml4 len (map_1g map_2m : bool) perm FR (s : St) :
  0 ≤ len ≤ 2 ^ 48 → 0 ≤ perm < 128 → Z.land perm 7 ≠ 0 →
  page_ok pml4 → (∀ j, 0 ≤ j < 512 → rd (ps_mem s) (pml4 + 8 * j) = 0) →
  ps_free s FR → pml4 ∉ FR → ept_tables len map_1g map_2m ≤ Z.of_nat (length FR) →
  len / 4096 ≤ Z.of_nat fuel →
  ∃ s' FR', setup_ept_range fuel pml4 0 len map_1g map_2m perm s = Done s' ∧
    FR' `suffix_of` FR ∧ ps_free s' FR' ∧
    (∀ va, 0 ≤ va < 2 ^ 48 → translate EPT 4 (ps_mem s') pml4 va =
      if va <? len / 4096 * 4096 then Some (va, Z.land perm 7) else None) ∧
    (∀ p, page_ok p → p ≠ pml4 → p ∉ FR → same_page (ps_mem s) (ps_mem s') p).
Proof.
  intros Hlen Hperm Hp7 Hpm Hz Hf Hn Hneed Hfuel.
  destruct (large_flags perm Hperm) as (Hl1 & Hl2 & Hl3).
  pose proof (range_inv_zero EPT pml4 (2 ^ 48) 0 perm FR s Hpm Hz Hf Hn) as Hinv.
  pose proof (phase_ends len map_1g map_2m Hlen) as [B1 A1 F1 B2 A2 F2 B3 F3].
  unfold ept_tables in Hneed. cbv zeta in Hneed.
  assert ((if map_1g then 0 + (len - 0) / 2 ^ PGDIR_BITS 3 * 2 ^ PGDIR_BITS 3 else 0) =
    end_1g len map_1g) as X1 by (unfold end_1g; rewrite Z.sub_0_r; by destruct map_1g).
  assert ((if map_2m then end_1g len map_1g + (len - end_1g len map_1g) / 2 ^ PGDIR_BITS 2 *
    2 ^ PGDIR_BITS 2 else end_1g len map_1g) = end_2m len map_1g map_2m) as X2 by reflexivity.
  set (e1 := end_1g len map_1g) in *. set (e2 := end_2m len map_1g map_2m) in *.
  clearbody e1 e2.
  assert (e1 mod 2 ^ PGDIR_BITS 2 = 0) as A1' by (by apply (align_weaken 3 2); [lia|]).
  assert (e2 mod 2 ^ PGDIR_BITS 1 = 0) as A2' by (by apply (align_weaken 2 1); [lia|]).
  pose proof (ntables_nonneg 2 4 e1 e2 ltac:(lia)) as N2.
  pose proof (div_mul_bounds (len - e2) 4096 ltac:(lia) ltac:(lia)) as D3.
  change (len / PAGE_SIZE * PAGE_SIZE) with (len / 4096 * 4096) in Hneed.
  pose proof (ntables_nonneg 1 4 e2 (len / 4096 * 4096) ltac:(lia)) as N3.
  unfold setup_ept_range. rewrite (u64_small (len + 0)), Z.add_0_r by (unfold in_u64; lia).
  destruct (ept_phase_ok map_1g pml4 perm (ps_mem s) FR 3 (Z.lor perm EPT_LARGE_PAGE)
    (λ p, install_1g_ept pml4 p p perm) fuel len 0 s FR (λ q, q = pml4)
    (ntables 2 4 e1 e2 + ntables 1 4 e2 (len / 4096 * 4096)))
    as (s1 & FR1 & own1 & E1 & Hinv1 & Hr1); cbv zeta; rewrite ?X1; try assumption; try lia; try done.
  { intros p s0 Hp Hp4. by apply install_routines. }
  cbv zeta in Hinv1. rewrite X1 in E1, Hinv1. change PAGE_SIZE_1G with (2 ^ PGDIR_BITS 3). rewrite E1.
  cbn [mbind outcome_bind].
  destruct (ept_phase_ok map_2m pml4 perm (ps_mem s) FR 2 (Z.lor perm EPT_LARGE_PAGE)
    (λ p, install_2m_ept pml4 p p perm) fuel len e1 s1 FR1 own1
    (ntables 1 4 e2 (len / 4096 * 4096)))
    as (s2 & FR2 & own2 & E2 & Hinv2 & Hr2); cbv zeta; rewrite ?X2; try assumption; try lia; try done.
  { intros p s0 Hp Hp4. by apply install_routines. }
  cbv zeta in Hinv2. rewrite X2 in E2, Hinv2. change PAGE_SIZE_2M with (2 ^ PGDIR_BITS 2). rewrite E2.
  cbn [mbind outcome_bind].
  destruct (ept_phase_ok true pml4 perm (ps_mem s) FR 1 perm
    (λ p, install_ept pml4 p p perm) fuel len e2 s2 FR2 own2 0)
    as (s3 & FR3 & own3 & E3 & Hinv3 & Hr3); try assumption; try lia; try done.
  { intros p s0 Hp Hp4. by apply install_routines. }
  { change (2 ^ PGDIR_BITS 1) with 4096. rewrite B3, Z.add_0_r. exact Hr2. }
  change PAGE_SIZE with (2 ^ PGDIR_BITS 1). rewrite E3. cbn [mbind outcome_bind].
  change (2 ^ PGDIR_BITS 1) with 4096 in Hinv3. rewrite B3 in Hinv3.
  destruct Hinv3 as [_ If _ Isuf _ Ifrm Itr _ _].
  exists s3, FR3. split; [done|]. split; [done|]. split; [done|]. split; [|done].
  intros va Hva. rewrite Itr by done. by rewrite (proj2 (Z.leb_le 0 va)), Z.add_0_r by lia.
Qed.

(** starting from a zeroed root, [setup_ept_range(pml4, 0, len, ...)] never
    aborts and leaves an identity map of every whole page below [len], with the
    permissions asked for, and maps nothing above; it writes only the root and
    frames taken from the allocator, and [ept_tables] free frames are enough. *)
Theorem setup_ept_range_identity fuel pml4 len (map_1g map_2m : bool) perm FR (s : St) :
  0 ≤ len ≤ 2 ^ 48 → 0 ≤ perm < 128 → Z.land perm 7 ≠ 0 →
  page_ok pml4 → (∀ j, 0 ≤ j < 512 → rd (ps_mem s) (pml4 + 8 * j) = 0) →
  ps_free s FR → pml4 ∉ FR → ept_tables len map_1g map_2m ≤ Z.of_nat (length FR) →
  len / 4096 ≤ Z.of_nat fuel →
  ∃ s' FR', setup_ept_range fuel pml4 0 len map_1g map_2m perm s = Done s' ∧
    FR' `suffix_of` FR ∧ ps_free s' FR' ∧
    (∀ va, 0 ≤ va < 2 ^ 48 → translate EPT 4 (ps_mem s') pml4 va =
      if va <? len / 4096 * 4096 then Some (va, Z.land perm 7) else None) ∧
    (∀ p, page_ok p → p ≠ pml4 → p ∉ FR → same_page (ps_mem s) (ps_mem s') p).
Proof. apply setup_ept_range_ok. Qed.

(** C7: [install_ept_entry] succeeds below 2^48 when the allocator has the tables
    that are missing on the path.  Afterwards every address of the block of
    [guest_addr] translates through the new entry, under the permissions
    collected on the path, every other address translates as before (large
    pages on the path are split, not lost), only frames of the table and the
    new ones were written, and the result is again a well-formed table. *)
Theorem install_ept_entry_correct tl pml4 guest_addr pte own FR (s : St) :
  (1 ≤ tl ≤ 3)%nat → 0 ≤ guest_addr < 2 ^ 48 →
  tree EPT 4 (ps_mem s) pml4 own → ps_free s FR → fresh_frames own FR →
  entry_ok EPT tl pte → (pf_present EPT pte = true → is_leaf tl pte = true) →
  (missing EPT tl 4 (ps_mem s) pml4 guest_addr ≤ length FR)%nat →
  ∃ s' used FR', install_ept_entry pml4 tl guest_addr pte 0 s = Done s' ∧
    FR = used ++ FR' ∧ length used = missing EPT tl 4 (ps_mem s) pml4 guest_addr ∧
    ps_free s' FR' ∧ tree EPT 4 (ps_mem s') pml4 (λ p, own p ∨ p ∈ used) ∧
    (∀ va, 0 ≤ va < 2 ^ 48 → translate EPT 4 (ps_mem s') pml4 va =
      if decide (va / 2 ^ PGDIR_BITS tl = guest_addr / 2 ^ PGDIR_BITS tl)
      then leaf_at EPT tl (path_perm EPT tl 4 (ps_mem s) pml4 guest_addr) pte va
      else translate EPT 4 (ps_mem s) pml4 va) ∧
    (∀ p, page_ok p → ¬ own p → p ∉ used → same_page (ps_mem s) (ps_mem s') p).
Proof.
  intros Htl Hga Ht Hf Hfr He Hlf Hm.
  destruct (install_ept_walk_ok 4 tl pml4 guest_addr pte own FR s)
    as (s' & used & FR' & EF & Es & Hf' & Hins); try assumption; [lia..|].
  exists s', used, FR'. split.
  { unfold install_ept_entry. rewrite Z.shiftl_1_l, (proj2 (Z.ltb_lt _ _)) by lia. exact Es. }
  split; [done|]. split; [apply (ins_used _ _ _ _ _ _ _ _ _ _ Hins)|]. split; [done|].
  split; [apply (ins_tree _ _ _ _ _ _ _ _ _ _ Hins)|]. split.
  - intros va Hva. rewrite (ins_translate _ _ _ _ _ _ _ _ _ _ Hins), path_block by lia.
    destruct (decide (va / _ = _)) as [E|E].
    + by rewrite bool_decide_true by (symmetry; exact E).
    + by rewrite bool_decide_false by congruence.
  - apply (ins_frame _ _ _ _ _ _ _ _ _ _ Hins).
Qed.

(** [split_large_ept_entry] replaces a 2M or 1G page by a table of 512 entries
    without changing the translation of any address, its permissions included;
    the entry no longer maps a large page and one frame was used. *)
Theorem split_large_ept_entry_correct l pt va p FR own (s : St) :
  (0 < l)%nat → tree EPT (S l) (ps_mem s) pt own → ps_free s (p :: FR) → fresh_frames own (p :: FR) →
  let ptep := pt + 8 * PGDIR_OFFSET va (S l) in
  pf_present EPT (rd (ps_mem s) ptep) = true → is_huge (S l) (rd (ps_mem s) ptep) = true →
  ∃ s', split_large_ept_entry ptep (Z.of_nat (S l)) s = Done s' ∧ ps_free s' FR ∧
    tree EPT (S l) (ps_mem s') pt (λ q, own q ∨ q = p) ∧
    is_leaf (S l) (rd (ps_mem s') ptep) = false ∧
    ∀ va', translate EPT (S l) (ps_mem s') pt va' = translate EPT (S l) (ps_mem s) pt va'.
Proof.
  intros Hl Ht Hf Hfr ptep Hp Hh.
  destruct (free_split _ _ _ _ Hf Hfr) as (Hpok & Hpn & HpF & HFo & HFp).
  pose proof Ht as [f Hnd]%tree_node.
  pose proof (nd_root _ _ _ _ _ _ Hnd) as Hpt. pose proof (nd_ok _ _ _ _ _ _ Hnd _ Hpt) as Hptok.
  pose proof (page_ok_aligned _ Hptok) as Hptal.
  destruct (split_large_ept_entry_ok pt (PGDIR_OFFSET va (S l)) (S l) p FR s)
    as (s' & Es & Hf' & Em); try assumption; [apply PGDIR_OFFSET_range|by intros ?%HFo|by intros ->|].
  destruct (installed_split EPT 1 l (ps_mem s) pt va 0 own f ltac:(lia) Hnd
    (zero_page p (ps_mem s)) p) as (Hlk & Ht1 & _ & Hx & _); try assumption; [reflexivity|..].
  { intros q Hq Hqp. by apply same_page_zero; [apply page_ok_aligned..|]. }
  assert (EPT_LEVEL_SHIFT (Z.of_nat (S l) - 1) = PGDIR_BITS l) as Eb
    by (unfold EPT_LEVEL_SHIFT, PGDIR_BITS, EPT_PGDIR_WIDTH, PGDIR_WIDTH, PAGE_SHIFT; lia).
  rewrite Eb in Em. rewrite <- Em in Hlk, Ht1, Hx.
  destruct (linked_same EPT l (ps_mem s) pt va own f Hnd _ p _ Hlk Ht1 Hx) as [Ht' Htr].
  exists s'. split; [exact Es|]. split; [done|]. split; [done|]. split; [|done].
  unfold ptep. rewrite (lk_slot _ _ _ _ _ _ _ _ _ Hlk). apply (lk_table _ _ _ _ _ _ _ _ _ Hlk).
Qed.

(** the failures of [split_large_ept_entry] are assertions: an entry that is
    not present, one that is not a large page, a level other than 2 and 3, and
    an exhausted allocator all abort, and nothing is stored. *)
Theorem split_large_ept_entry_aborts ptep level (s : St) :
  pf_present EPT (rd (ps_mem s) ptep) = false ∨ pf_huge (rd (ps_mem s) ptep) = false ∨
  (level ≠ 2 ∧ level ≠ 3) ∨ ps_free s [] →
  split_large_ept_entry ptep level s = Abort.
Proof.
  intros Hc. unfold split_large_ept_entry, st_rd. rewrite present_bits, huge_bit, !negb_involutive.
  destruct (pf_present EPT _); [|done]. destruct (pf_huge _); [|done].
  cbn [c_assert mbind outcome_bind].
  destruct (Z.eqb_spec level 2), (Z.eqb_spec level 3); try done; cbn [orb c_assert];
    (destruct Hc as [?|[?|[[? ?]|Hf]]]; [done..|]; by rewrite (ps_alloc_nil _ Hf)).
Qed.
End claims.

(** ** The theorems at the states of PtDemo.v *)
Lemma setup_ept_range_identity_witness :
  ∃ s', setup_ept_range 3 0x10000 0 0x3000 false false 7 demo_state = Done s' ∧
    translate EPT 4 (pmem s') 0x10000 0x2008 = Some (0x2008, 7) ∧
    translate EPT 4 (pmem s') 0x10000 0x3000 = None.
Proof.
  destruct (setup_ept_range_identity 3 0x10000 0x3000 false false 7 demo_frames demo_state)
    as (s' & FR' & E & _ & _ & Htr & _).
  - lia.
  - lia.
  - done.
  - apply demo_page_ok. by left.
  - intros j Hj. assert (Forall (λ k, rd demo_mem (0x10000 + 8 * k) = 0) (seqZ 0 512)) as Hall
      by (refine (bool_decide_unpack _ _); vm_compute; done).
    rewrite Forall_forall in Hall. apply Hall, elem_of_seqZ. lia.
  - by apply demo_free.
  - intros Hin%list_elem_of_In. vm_compute in Hin. intuition discriminate.
  - vm_compute. done.
  - vm_compute. done.
  - exists s'. split; [done|]. split; [apply (Htr 0x2008); lia|apply (Htr 0x3000); lia].
Defined.

Lemma install_ept_entry_correct_witness :
  ∃ s', install_ept_entry 0x10000 1 0x5000 0x9005 0 demo_large = Done s' ∧
    translate EPT 4 (pmem s') 0x10000 0x5123 = Some (0x9123, 5) ∧
    translate EPT 4 (pmem s') 0x10000 0x6000 = Some (0x6000, 7).
Proof.
  destruct (install_ept_entry_correct 1 0x10000 0x5000 0x9005 demo_own demo_frames demo_large)
    as (s' & used & FR' & E & _ & _ & _ & _ & Htr & _).
  - lia.
  - lia.
  - by apply demo_large_tree.
  - by apply demo_free.
  - apply demo_large_fresh.
  - split; [unfold in_u64; lia|]. intros _. split; [done|lia].
  - done.
  - vm_compute. lia.
  - exists s'. split; [exact E|]. split.
    + etransitivity; [apply (Htr 0x5123); lia|]. vm_compute. reflexivity.
    + etransitivity; [apply (Htr 0x6000); lia|]. vm_compute. reflexivity.
Defined.

Lemma split_large_ept_entry_correct_witness :
  ∃ s', split_large_ept_entry 0x11000 3 demo_large = Done s' ∧
    translate EPT 3 (pmem s') 0x11000 0x345678 = Some (0x345678, 7).
Proof.
  destruct (split_large_ept_entry_correct 2 0x11000 0 0x20000 [0x21000; 0x22000; 0x23000]
    (λ p, p = 0x11000) demo_large) as (s' & E & _ & _ & _ & Htr).
  - lia.
  - by apply demo_large_sub.
  - by apply demo_free.
  - intros p Hp%list_elem_of_In ->. vm_compute in Hp. intuition discriminate.
  - done.
  - done.
  - exists s'. split; [exact E|]. etransitivity; [apply Htr|]. vm_compute. reflexivity.
Defined.

Lemma split_large_ept_entry_aborts_witness : split_large_ept_entry 0x10000 3 demo_large = Abort.
Proof. apply split_large_ept_entry_aborts. right. by left. Defined.
