(* ===== verification/X86Vm.v ===== *)
(** Page tables of the processor: lib/x86/vm.c.

    The code is written against the interface [PageSource] of AllocPage.v, like
    the extended page tables of Ept.v, and proved against the same
    specification of a walk (PageTable.v).  [setup_mmu] also writes the control
    registers; that part is in Vmalloc.v. *)
From Stdlib Require Import ZArith Lia Bool.
From S2P Require Import Prelude Libcflat Mem AllocPage PageTable TableRange PtDemo.
#[local] Open Scope Z_scope.

(** [struct pte_search] *)
Record pte_search := PteSearch { r_level : nat; r_pte : Z }.

Section code.
Context {St : Type} `{PageSource St}.

(** The [for] loop of [install_pte] from [level] down and the store after it. *)
Fixpoint install_pte_walk (level pte_level : nat) (virt pte pt_page pt : Z) (s : St)
    : outcome (Z * St) :=
  let offset := PGDIR_OFFSET virt level in
  match level with
  | S level' =>
    if (pte_level <? level)%nat then
      let ptep := pt + 8 * offset in
      '(pt_page, s) ←
        (if Z.land (st_rd ptep s) PT_PRESENT_MASK =? 0 then
           '(new_pt, pt_page, s) ←
             (if pt_page =? 0
              then '(new_pt, s) ← ps_alloc_page s; mret (new_pt, pt_page, s)
              else mret (pt_page, 0, s));
           let s := st_zero_page new_pt s in
           mret (pt_page, st_wr ptep
             (Z.lor (Z.lor (Z.lor (virt_to_phys new_pt) PT_PRESENT_MASK) PT_WRITABLE_MASK) PT_USER_MASK) s)
         else mret (pt_page, s));
      install_pte_walk level' pte_level virt pte pt_page
        (phys_to_virt (Z.land (st_rd ptep s) PT_ADDR_MASK)) s
    else mret (pt + 8 * offset, st_wr (pt + 8 * offset) pte s)
  | O => mret (pt + 8 * offset, st_wr (pt + 8 * offset) pte s)
  end.

Definition install_pte (cr3 : Z) (pte_level : nat) (virt pte pt_page : Z) (s : St)
    : outcome (Z * St) :=
  install_pte_walk PAGE_LEVEL pte_level virt pte pt_page cr3 s.

(** The loop of [find_pte_level]; [lowest_level] stops it before level 0. *)
Fixpoint find_pte_walk (level lowest_level : nat) (virt pt : Z) (s : St) : outcome pte_search :=
  match level with
  | O => Fault
  | S level' =>
    let shift := (Z.of_nat level - 1) * PGDIR_WIDTH + 12 in
    let offset := Z.land (Z.shiftr virt shift) PGDIR_MASK in
    let r := PteSearch level (pt + 8 * offset) in
    let pte := st_rd (r_pte r) s in
    if Z.land pte PT_PRESENT_MASK =? 0 then mret r
    else if ((level =? 2) || (level =? 3))%nat && negb (Z.land pte PT_PAGE_SIZE_MASK =? 0) then mret r
    else if (level =? lowest_level)%nat then mret r
    else find_pte_walk level' lowest_level virt (phys_to_virt (Z.land pte 0xffffffffff000)) s
  end.

Definition find_pte_level (cr3 virt : Z) (lowest_level : nat) (s : St) : outcome pte_search :=
  _ ← c_assert ((1 <=? lowest_level) && (lowest_level <=? PAGE_LEVEL))%nat;
  find_pte_walk PAGE_LEVEL lowest_level virt cr3 s.

Definition found_huge_pte (search : pte_search) (s : St) : bool :=
  ((r_level search =? 2) || (r_level search =? 3))%nat &&
  negb (Z.land (st_rd (r_pte search) s) PT_PRESENT_MASK =? 0) &&
  negb (Z.land (st_rd (r_pte search) s) PT_PAGE_SIZE_MASK =? 0).

Definition found_leaf_pte (search : pte_search) (s : St) : bool :=
  (r_level search =? 1)%nat || found_huge_pte search s.

Definition get_pte (cr3 virt : Z) (s : St) : outcome Z :=
  search ← find_pte_level cr3 virt 1 s;
  mret (if found_leaf_pte search s then r_pte search else 0).

Definition get_pte_level (cr3 virt : Z) (pte_level : nat) (s : St) : outcome Z :=
  search ← find_pte_level cr3 virt pte_level s;
  mret (if (r_level search =? pte_level)%nat then r_pte search else 0).

Definition install_large_page (cr3 phys virt : Z) (s : St) : outcome (Z * St) :=
  install_pte cr3 2 virt
    (Z.lor (Z.lor (Z.lor (Z.lor phys PT_PRESENT_MASK) PT_WRITABLE_MASK) PT_USER_MASK) PT_PAGE_SIZE_MASK)
    0 s.

Definition install_page (cr3 phys virt : Z) (s : St) : outcome (Z * St) :=
  install_pte cr3 1 virt
    (Z.lor (Z.lor (Z.lor phys PT_PRESENT_MASK) PT_WRITABLE_MASK) PT_USER_MASK) 0 s.

Definition install_pages (fuel : nat) (cr3 phys len virt : Z) (s : St) : outcome St :=
  let max := u64 (len + phys) in
  _ ← c_assert (phys mod PAGE_SIZE =? 0);
  _ ← c_assert (virt mod PAGE_SIZE =? 0);
  _ ← c_assert (len mod PAGE_SIZE =? 0);
  '(_, _, s) ← while_loop fuel (λ '(phys, virt, s), u64 (phys + PAGE_SIZE) <=? max)
    (λ '(phys, virt, s),
       '(_, s) ← install_page cr3 phys virt s;
       mret (u64 (phys + PAGE_SIZE), u64 (virt + PAGE_SIZE), s))
    (phys, virt, s);
  mret s.

(** [for (curr = virt; curr < max; curr += PAGE_SIZE)] *)
Fixpoint any_present_walk (fuel : nat) (cr3 curr max : Z) (s : St) : outcome bool :=
  if curr <? max then
    match fuel with
    | O => NoFuel
    | S fuel =>
      ptep ← get_pte cr3 curr s;
      if negb (ptep =? 0) && negb (Z.land (st_rd ptep s) PT_PRESENT_MASK =? 0) then mret true
      else any_present_walk fuel cr3 (u64 (curr + PAGE_SIZE)) max s
    end
  else mret false.

Definition any_present_pages (fuel : nat) (cr3 virt len : Z) (s : St) : outcome bool :=
  any_present_walk fuel cr3 virt (u64 (virt + len)) s.

Definition setup_mmu_range (fuel : nat) (cr3 start len : Z) (s : St) : outcome St :=
  let max := u64 (len + start) in
  '(phys, s) ← while_loop fuel (λ '(phys, s), u64 (phys + LARGE_PAGE_SIZE) <=? max)
    (λ '(phys, s),
       '(_, s) ← install_large_page cr3 phys phys s;
       mret (u64 (phys + LARGE_PAGE_SIZE), s))
    (start, s);
  install_pages fuel cr3 phys (u64 (max - phys)) phys s.

(** A null pointer is not dereferenced by the processor but faults. *)
Definition virt_to_pte_phys (cr3 mem : Z) (s : St) : outcome Z :=
  ptep ← get_pte cr3 mem s;
  if ptep =? 0 then Fault
  else mret (u64 (Z.land (st_rd ptep s) PT_ADDR_MASK + Z.land mem (PAGE_SIZE - 1))).

Definition split_large_page (ptep level : Z) (s : St) : outcome St :=
  let pte := st_rd ptep s in
  _ ← c_assert (negb (Z.land pte PT_PRESENT_MASK =? 0));
  _ ← c_assert (negb (Z.land pte PT_PAGE_SIZE_MASK =? 0));
  _ ← c_assert ((level =? 2) || (level =? 3));
  '(new_pt, s) ← ps_alloc_page s;
  _ ← c_assert (negb (new_pt =? 0));
  let prototype := Z.land pte (not64 PT_ADDR_MASK) in
  let prototype := if level =? 2 then Z.land prototype (not64 PT_PAGE_SIZE_MASK) else prototype in
  let pa := Z.land pte PT_ADDR_MASK in
  let s := ps_with_mem
    (fill_table (Z.to_nat (Z.shiftl 1 PGDIR_WIDTH)) new_pt prototype
      (Z.shiftl 1 ((level - 1 - 1) * PGDIR_WIDTH + PAGE_SHIFT)) 0 pa (ps_mem s)) s in
  let pte := Z.land pte (not64 PT_PAGE_SIZE_MASK) in
  let pte := Z.land pte (not64 PT_ADDR_MASK) in
  let pte := Z.lor pte (virt_to_phys new_pt) in
  mret (st_wr ptep pte s).

(** [cr3] is [current_page_table()]. *)
Definition force_4k_page (cr3 addr : Z) (s : St) : outcome St :=
  ptep ← get_pte_level cr3 addr 3 s;
  _ ← c_assert (negb (ptep =? 0));
  let pte := st_rd ptep s in
  _ ← c_assert (negb (Z.land pte PT_PRESENT_MASK =? 0));
  s ← (if negb (Z.land pte PT_PAGE_SIZE_MASK =? 0) then split_large_page ptep 3 s else mret s);
  ptep ← get_pte_level cr3 addr 2 s;
  _ ← c_assert (negb (ptep =? 0));
  let pte := st_rd ptep s in
  _ ← c_assert (negb (Z.land pte PT_PRESENT_MASK =? 0));
  if negb (Z.land pte PT_PAGE_SIZE_MASK =? 0) then split_large_page ptep 2 s else mret s.
End code.

(** ** The contract *)
Definition X86 : pt_format := PtFormat PT_PRESENT_MASK 7 51.
#[export] Instance X86_ok : FormatOk X86.
Proof. by split. Qed.

Section proofs.
Context {St : Type} `{PageSource St} `{!PageSourceLaws St}.
Implicit Types (lv tl : nat) (m : mem) (pt va e : Z) (s : St).

Lemma present_bit e : (Z.land e PT_PRESENT_MASK =? 0) = negb (pf_present X86 e).
Proof. unfold pf_present. by rewrite negb_involutive. Qed.
Lemma size_bit e : (Z.land e PT_PAGE_SIZE_MASK =? 0) = negb (pf_huge e).
Proof. unfold pf_huge. by rewrite negb_involutive. Qed.

(** The address of the entry of level [tl] for [va], if the tables down to there exist. *)
Fixpoint reach tl lv m pt va : option Z :=
  match lv with
  | O => None
  | S l =>
    let a := pt + 8 * PGDIR_OFFSET va lv in
    if (lv =? tl)%nat then Some a
    else if pf_present X86 (rd m a) && negb (is_leaf lv (rd m a))
    then reach tl l m (pf_addr X86 (rd m a)) va else None
  end.

(** *** Installing an entry *)
Lemma install_pte_walk_ok l tl pt va pte own FR s :
  (0 < tl ≤ l)%nat → (l ≤ 4)%nat →
  tree X86 l (ps_mem s) pt own → ps_free s FR → fresh_frames own FR →
  translate X86 l (ps_mem s) pt va = None →
  entry_ok X86 tl pte → (pf_present X86 pte = true → is_leaf tl pte = true) →
  (missing X86 tl l (ps_mem s) pt va ≤ length FR)%nat →
  ∃ a s' used FR', FR = used ++ FR' ∧ install_pte_walk l tl va pte 0 pt s = Done (a, s') ∧
    ps_free s' FR' ∧ installed X86 tl l (ps_mem s) (ps_mem s') pt va pte own used ∧
    reach tl l (ps_mem s') pt va = Some a ∧ rd (ps_mem s') a = pte.
Proof.
  intros Htl Hl4. revert pt own FR s. induction l as [|l IH]; intros pt own FR s Ht Hf Hfr Hno He Hlf Hm;
    [lia|].
  pose proof (PGDIR_OFFSET_range va (S l)) as Hi.
  set (i := PGDIR_OFFSET va (S l)) in *.
  destruct (tree_root_ok _ _ _ _ _ Ht) as [Hpt Hptok].
  pose proof (page_ok_aligned _ Hptok) as Hptal.
  destruct (decide (tl = S l)) as [->|].
  { exists (pt + 8 * i), (st_wr (pt + 8 * i) pte s), [], FR. split; [done|].
    split; [cbn [install_pte_walk]; by rewrite Nat.ltb_irrefl|]. split; [|split; [|split]].
    - apply free_wr; [done|by apply page_ok_aligned|done|]. intros Hin. by apply (Hfr pt).
    - unfold st_wr. rewrite ps_mem_with. apply installed_base; (done || lia).
    - cbn [reach]. by rewrite Nat.eqb_refl.
    - unfold st_wr. by rewrite ps_mem_with, rd_wr_eq. }
  pose proof Ht as [f Hnd]%tree_node.
  assert (0 < tl ≤ l)%nat as Htl' by lia.
  cbn [install_pte_walk]. rewrite (proj2 (Nat.ltb_lt _ _)) by lia. fold i.
  cbv zeta. set (e := rd (ps_mem s) (pt + 8 * i)). change (st_rd (pt + 8 * i) s) with e.
  rewrite present_bit.
  cbn [missing] in Hm. rewrite (proj2 (Nat.leb_gt _ _)) in Hm by lia. fold i in Hm. fold e in Hm.
  cbn [translate] in Hno. fold i in Hno. fold e in Hno. unfold xlate_entry in Hno.
  specialize (IH Htl' ltac:(lia)).
  assert (∀ m', reach tl (S l) m' pt va = if pf_present X86 (rd m' (pt + 8 * i)) &&
    negb (is_leaf (S l) (rd m' (pt + 8 * i))) then reach tl l m' (pf_addr X86 (rd m' (pt + 8 * i))) va
    else None) as Hreach.
  { intros m'. cbn [reach]. fold i. by rewrite (proj2 (Nat.eqb_neq _ _)) by lia. }
  destruct (pf_present X86 e) eqn:Hp; cbn [negb] in *.
  - (* a table *)
    assert (is_leaf (S l) e = false) as Hleaf by (by destruct (is_leaf (S l) e)).
    rewrite Hleaf in Hm, Hno. cbn [negb orb mbind outcome_bind mret outcome_ret] in Hm |- *.
    destruct (translate X86 l (ps_mem s) (pf_addr X86 e) va) as [[? ?]|] eqn:Hno'; [done|].
    destruct (IH (pf_addr X86 e) (f i) FR s) as (a & s' & used & FR' & -> & Es' & Hf' & Hins & Hr & Ha);
      try assumption.
    { by apply (nd_child _ _ _ _ _ _ Hnd). }
    { intros q Hq Hfq. by apply (Hfr q Hq), (nd_sub _ _ _ _ _ _ Hnd i q). }
    destruct (ps_free_frames _ _ Hf) as [_ Hok]. rewrite Forall_forall in Hok.
    exists a, s', used, FR'. split; [done|]. split; [exact Es'|]. split; [done|]. split; [|split; [|done]].
    + apply (installed_table X86 tl l (ps_mem s) pt va pte own f); try done.
      intros q Hq. split; [apply Hok; set_solver|]. apply Hfr. set_solver.
    + assert (rd (ps_mem s') (pt + 8 * i) = e) as He'.
      { apply (ins_frame _ _ _ _ _ _ _ _ _ _ Hins pt Hptok); [|..|done].
        - intros Hfp. by apply (nd_sub _ _ _ _ _ _ Hnd i pt).
        - intros Hq. by apply (Hfr pt); [apply elem_of_app; left|]. }
      by rewrite Hreach, He', Hp, Hleaf.
  - (* a new table *)
    cbn [orb Z.eqb] in Hm |- *.
    destruct FR as [|p FR]; [cbn in Hm; lia|].
    destruct (ps_alloc_cons _ _ _ Hf) as (s1 & -> & Hf1 & Em).
    cbn [mbind outcome_bind mret outcome_ret].
    destruct (new_table_ok X86 ltac:(done) tl l s s1 pt va pte own f p FR)
      as ((Ht1 & Hf2 & HFp) & (Hm1 & Hno1) & Hap & Hfin); try done.
    fold i in Ht1, Hf2, Hm1, Hno1, Hap, Hfin.
    change (Z.lor (Z.lor (Z.lor (virt_to_phys p) PT_PRESENT_MASK) PT_WRITABLE_MASK) PT_USER_MASK)
      with (Z.lor (Z.lor (Z.lor p 1) 2) 4). set (s2 := st_wr _ _ _) in *.
    destruct (IH p (λ q, q = p) FR s2) as (a & s' & used & FR' & EF & Es' & Hf' & Hins & Hr & Ha); try done;
      [rewrite Hm1; cbn in Hm; lia|].
    exists a, s', (p :: used), FR'. split; [by rewrite EF|].
    split; [rewrite <- Es'; f_equal; exact Hap|]. split; [done|].
    split; [by apply (Hfin s' used FR')|]. split; [|done].
    assert (rd (ps_mem s') (pt + 8 * i) = st_rd (pt + 8 * i) s2) as He'.
    { apply (ins_frame _ _ _ _ _ _ _ _ _ _ Hins pt Hptok); [|..|done].
      - intros ->. by apply (Hfr p); [left|].
      - intros Hq. apply (Hfr pt); [right; rewrite EF; apply elem_of_app; by left|done]. }
    assert (st_rd (pt + 8 * i) s2 = Z.lor 7 p) as Ee.
    { unfold st_rd, s2, st_wr. rewrite ps_mem_with, rd_wr_eq, <- !Z.lor_assoc. apply Z.lor_comm. }
    destruct (ps_free_frames _ _ Hf) as [_ [(Hp0 & Hpal & Hp1) _]%Forall_cons].
    rewrite Hreach, He', Hap, Ee, flags_present by (done || lia).
    unfold is_leaf, is_huge. rewrite flags_huge by (done || lia).
    rewrite (proj2 (Nat.eqb_neq _ _)), andb_false_r by lia. exact Hr.
Qed.

#[export] Instance x86_install :
  TableInstall X86 (λ root tl va pte (s : St), '(_, s') ← install_pte root tl va pte 0 s; mret s').
Proof.
  intros tl root va pte own FR s Htl Hva Ht Hf Hfr Hno He Hp Hlf Hm.
  destruct (install_pte_walk_ok 4 tl root va pte own FR s)
    as (a & s' & used & FR' & EF & Es & Hf' & Hins & _); try done; [lia|].
  exists s', used, FR'. split; [done|]. split; [|done].
  unfold install_pte, PAGE_LEVEL. by rewrite Es.
Qed.
(** *** Searching *)
(** What a search that stops above [lowest_level] has found. *)
Definition stopped lv m pt va (r : pte_search) : Prop :=
  let e := rd m (r_pte r) in
  (pf_present X86 e = false ∧ translate X86 lv m pt va = None) ∨
  (pf_present X86 e = true ∧ is_huge (r_level r) e = true ∧
   ∃ pm, translate X86 lv m pt va = Some (pf_addr X86 e + va mod 2 ^ PGDIR_BITS (r_level r), pm)).

Lemma xlate_sub sub lv e va :
  pf_present X86 e = true → is_leaf lv e = false →
  xlate_entry X86 sub lv e va =
    ('(pa, p) ← sub (pf_addr X86 e) va; Some (pa, Z.land (pf_perm X86 e) p)).
Proof. intros Hp Hl. unfold xlate_entry. by rewrite Hp, Hl. Qed.

Lemma find_pte_walk_ok l low pt va s :
  (0 < low ≤ l)%nat → (l ≤ 4)%nat →
  ∃ r, find_pte_walk l low va pt s = Done r ∧ (low ≤ r_level r ≤ l)%nat ∧
    match reach low l (ps_mem s) pt va with
    | Some a => r = PteSearch low a ∧
        (low = 1%nat → let e := rd (ps_mem s) a in
          translate X86 l (ps_mem s) pt va = None ∧ pf_present X86 e = false ∨
          pf_present X86 e = true ∧ ∃ pm, translate X86 l (ps_mem s) pt va =
            Some (pf_addr X86 e + va mod 2 ^ PGDIR_BITS 1, pm))
    | None => (low < r_level r)%nat ∧ stopped l (ps_mem s) pt va r
    end.
Proof.
  intros Hlow Hl4. revert pt. induction l as [|l IH]; intros pt; [lia|].
  cbn [find_pte_walk reach]. change (Z.land _ PGDIR_MASK) with (PGDIR_OFFSET va (S l)).
  set (a := pt + 8 * PGDIR_OFFSET va (S l)). cbn [r_pte]. set (e := rd (ps_mem s) a).
  change (st_rd a s) with e. rewrite present_bit, size_bit, negb_involutive.
  assert (translate X86 (S l) (ps_mem s) pt va =
    xlate_entry X86 (translate X86 l (ps_mem s)) (S l) e va) as Etr by reflexivity.
  fold (is_huge (S l) e). rewrite Etr.
  destruct (pf_present X86 e) eqn:Hp; cbn [negb andb].
  2:{ assert (xlate_entry X86 (translate X86 l (ps_mem s)) (S l) e va = None) as Hx
        by (unfold xlate_entry; by rewrite Hp).
      eexists. split; [done|]. split; [cbn; lia|].
      destruct (Nat.eqb_spec (S l) low) as [<-|]; [split; [done|]; intros _; left; by rewrite Hx|].
      split; [cbn; lia|]. left. cbn [r_pte]. fold e. by rewrite Etr, Hx. }
  destruct (is_huge (S l) e) eqn:Hh.
  { assert (is_leaf (S l) e = true) as Hlf by (unfold is_leaf; by rewrite Hh, orb_true_r).
    eexists. split; [done|]. split; [cbn; lia|]. rewrite Hlf. cbn [negb].
    destruct (Nat.eqb_spec (S l) low) as [<-|Hne].
    - split; [done|]. intros E1. rewrite E1 in Hh. done.
    - split; [cbn; lia|]. right. cbn [r_pte r_level]. fold e. split; [done|]. split; [done|].
      rewrite Etr. unfold xlate_entry. rewrite Hp, Hlf. by eexists. }
  destruct (Nat.eqb_spec (S l) low) as [<-|Hne].
  { eexists. split; [done|]. split; [cbn; lia|]. split; [done|]. intros E1. right.
    unfold xlate_entry. rewrite Hp. unfold is_leaf. rewrite E1. cbn. split; [done|]. by eexists. }
  assert (is_leaf (S l) e = false) as Hlf.
  { unfold is_leaf. rewrite Hh, orb_false_r. apply Nat.eqb_neq. lia. }
  rewrite Hlf. cbn [negb]. change (Z.land e 0xffffffffff000) with (pf_addr X86 e).
  destruct (IH ltac:(lia) ltac:(lia) (pf_addr X86 e)) as (r & Er & Hr & Hm). exists r.
  split; [exact Er|]. split; [lia|]. rewrite xlate_sub by done.
  destruct (reach low l (ps_mem s) (pf_addr X86 e) va) as [b|].
  - destruct Hm as [-> Hm]. split; [done|]. intros E1. destruct (Hm E1) as [[-> ?]|(? & pm & ->)].
    + by left.
    + right. split; [done|]. by eexists.
  - destruct Hm as [? Hs]. split; [done|]. unfold stopped in *. rewrite Etr, xlate_sub by done.
    destruct Hs as [(? & ->)|(? & ? & pm & ->)]; [by left|]. right. split; [done|]. split; [done|].
    by eexists.
Qed.

Lemma get_pte_level_ok low cr3 va s :
  (1 ≤ low ≤ 4)%nat →
  get_pte_level cr3 va low s = Done (default 0 (reach low 4 (ps_mem s) cr3 va)).
Proof.
  intros Hlow. destruct (find_pte_walk_ok 4 low cr3 va s) as (r & Er & Hr & Hm); [lia..|].
  unfold get_pte_level, find_pte_level, PAGE_LEVEL.
  rewrite (proj2 (Nat.leb_le 1 low)), (proj2 (Nat.leb_le low 4)) by lia.
  cbn [andb c_assert mbind outcome_bind]. rewrite Er. cbn [mbind outcome_bind]. f_equal.
  destruct (reach low 4 (ps_mem s) cr3 va).
  - destruct Hm as [-> _]. cbn. by rewrite Nat.eqb_refl.
  - destruct Hm as [? _]. by rewrite (proj2 (Nat.eqb_neq _ _)) by lia.
Qed.

(** The entries a search looks at are in tables, none of which is at address 0. *)
Lemma find_pte_pos l low pt va own s r :
  tree X86 l (ps_mem s) pt own → find_pte_walk l low va pt s = Done r → 0 < r_pte r.
Proof.
  revert pt own. induction l as [|l IH]; intros pt own Ht; [done|].
  destruct (tree_root_ok _ _ _ _ _ Ht) as [_ (Hpt & _)].
  apply tree_node in Ht as [f Hnd]. cbn [find_pte_walk].
  change (Z.land _ PGDIR_MASK) with (PGDIR_OFFSET va (S l)).
  pose proof (PGDIR_OFFSET_range va (S l)) as Hi. set (i := PGDIR_OFFSET va (S l)) in *.
  cbn [r_pte]. set (e := rd (ps_mem s) (pt + 8 * i)). change (st_rd (pt + 8 * i) s) with e.
  rewrite present_bit, size_bit, negb_involutive. fold (is_huge (S l) e).
  destruct (pf_present X86 e) eqn:Hp; cbn [negb]; [|intros [= <-]; cbn; lia].
  destruct (is_huge (S l) e) eqn:Hh; [intros [= <-]; cbn; lia|].
  destruct (Nat.eqb_spec (S l) low); [intros [= <-]; cbn; lia|].
  destruct l as [|l]; [done|]. apply (IH _ (f i)). apply (nd_child _ _ _ _ _ _ Hnd); [done..|].
  fold e. unfold is_leaf. by rewrite Hh.
Qed.

(** [get_pte] finds the entry that translates the address. *)
Lemma get_pte_ok cr3 va own s :
  tree X86 4 (ps_mem s) cr3 own →
  ∃ a, get_pte cr3 va s = Done a ∧
    match translate X86 4 (ps_mem s) cr3 va with
    | Some (pa, _) => let e := rd (ps_mem s) a in
        0 < a ∧ pf_present X86 e = true ∧ ∃ lv, (1 ≤ lv ≤ 3)%nat ∧ is_leaf lv e = true ∧
        pa = pf_addr X86 e + va mod 2 ^ PGDIR_BITS lv ∧
        (lv = 1%nat ↔ reach 1 4 (ps_mem s) cr3 va = Some a)
    | None => a = 0 ∨ pf_present X86 (rd (ps_mem s) a) = false
    end.
Proof.
  intros Ht. destruct (find_pte_walk_ok 4 1 cr3 va s) as (r & Er & Hr & Hm); [lia..|].
  pose proof (find_pte_pos _ _ _ _ _ _ _ Ht Er) as Hpos.
  unfold get_pte, find_pte_level, PAGE_LEVEL. cbn [Nat.leb andb c_assert mbind outcome_bind].
  rewrite Er. cbn [mbind outcome_bind]. eexists. split; [done|].
  unfold found_leaf_pte, found_huge_pte.
  change (st_rd (r_pte r) s) with (rd (ps_mem s) (r_pte r)).
  rewrite present_bit, size_bit, !negb_involutive.
  destruct (reach 1 4 (ps_mem s) cr3 va) as [a|].
  - destruct Hm as [-> Hm]. cbn [r_level r_pte Nat.eqb orb].
    destruct (Hm eq_refl) as [[-> Hp]|(Hp & pm & ->)]; [by right|].
    split; [done|]. split; [done|]. exists 1%nat. split; [lia|]. split; [done|]. split; [done|]. done.
  - destruct Hm as [Hlt Hs]. rewrite (proj2 (Nat.eqb_neq _ 1)) by lia. cbn [orb].
    destruct Hs as [(Hp & ->)|(Hp & Hh & pm & ->)].
    + rewrite Hp, andb_false_r. cbn [andb]. by left.
    + destruct (is_huge_level _ _ Hh) as [Hl Hb]. rewrite Hp, Hb.
      assert (((r_level r =? 2)%nat || (r_level r =? 3)%nat) = true) as ->
        by (destruct Hl as [->| ->]; done). cbn [andb].
      split; [done|]. split; [done|]. exists (r_level r). split; [lia|].
      split; [unfold is_leaf; by rewrite Hh, orb_true_r|]. split; [done|].
      split; [intros E; lia|]. intros E. done.
Qed.
(** *** Splitting *)
Lemma split_large_page_ok pt i (level : nat) p FR s :
  ps_free s (p :: FR) → pt mod 4096 = 0 → 0 ≤ i < 512 → pt ∉ FR → pt ≠ p →
  let e := rd (ps_mem s) (pt + 8 * i) in
  pf_present X86 e = true → is_huge level e = true →
  ∃ s', split_large_page (pt + 8 * i) (Z.of_nat level) s = Done s' ∧ ps_free s' FR ∧
    ps_mem s' =
      wr (fill_table 512 p (split_proto X86 (Z.of_nat level) e)
            (2 ^ PGDIR_BITS (level - 1)) 0 (pf_addr X86 e) (ps_mem s))
         (pt + 8 * i) (split_entry X86 e p).
Proof.
  intros Hf Hpt Hi HptF Hne e Hp Hh. destruct (is_huge_level _ _ Hh) as [Hl Hhe].
  destruct (ps_alloc_cons _ _ _ Hf) as (s1 & Ea & Hf1 & Em).
  destruct (ps_free_frames _ _ Hf) as [[HpF _]%NoDup_cons [Hpok _]%Forall_cons].
  unfold split_large_page. change (st_rd (pt + 8 * i) s) with e.
  rewrite present_bit, size_bit, Hp, Hhe. cbn [negb c_assert mbind outcome_bind].
  assert ((Z.of_nat level =? 2) || (Z.of_nat level =? 3) = true) as ->
    by (destruct Hl as [->| ->]; done).
  cbn [c_assert]. rewrite Ea. destruct Hpok as (Hp0 & Hpal & Hp1).
  cbn [mbind outcome_bind]. rewrite (proj2 (Z.eqb_neq p 0)) by lia.
  eexists. split; [reflexivity|]. split.
  - apply free_wr; [|done..]. apply ps_free_with_mem; [done|].
    intros q Hq. apply fill_table_page; [|done|by intros ->].
    destruct (ps_free_frames _ _ Hf1) as [_ Hok]. apply page_ok_aligned.
    rewrite Forall_forall in Hok. auto.
  - unfold st_wr. rewrite !ps_mem_with, Em, !Z.shiftl_1_l.
    change (Z.to_nat (2 ^ PGDIR_WIDTH)) with 512%nat.
    assert ((Z.of_nat level - 1 - 1) * PGDIR_WIDTH + PAGE_SHIFT = PGDIR_BITS (level - 1)) as ->
      by (unfold PGDIR_BITS, PGDIR_WIDTH, PAGE_SHIFT; destruct Hl as [->| ->]; lia).
    unfold split_proto, split_entry, pf_addr, virt_to_phys.
    change (pf_amask X86) with PT_ADDR_MASK. change (2 ^ 7) with PT_PAGE_SIZE_MASK. reflexivity.
Qed.

(** A change inside the table behind slot [i] that keeps its translations keeps
    those of the whole. *)
Lemma subtree_same l m m' pt va own f p :
  node X86 l m pt own f →
  let i := PGDIR_OFFSET va (S l) in
  let e := rd m (pt + 8 * i) in
  pf_present X86 e = true → is_leaf (S l) e = false → page_ok p → ¬ own p →
  tree X86 l m' (pf_addr X86 e) (λ q, f i q ∨ q = p) →
  (∀ va', translate X86 l m' (pf_addr X86 e) va' = translate X86 l m (pf_addr X86 e) va') →
  (∀ q, page_ok q → ¬ f i q → q ≠ p → same_page m m' q) →
  tree X86 (S l) m' pt (λ q, own q ∨ q = p) ∧
  (∀ va', translate X86 (S l) m' pt va' = translate X86 (S l) m pt va') ∧
  (∀ q, page_ok q → ¬ own q → q ≠ p → same_page m m' q) ∧ rd m' (pt + 8 * i) = e.
Proof.
  intros Hnd i e Hp Hlf Hpok Hpn Ht Htr Hsame.
  pose proof (PGDIR_OFFSET_range va (S l) : 0 ≤ i < 512) as Hi.
  pose proof Hnd as [Hpt Hok _ Hf Hd _].
  assert (same_page m m' pt) as Hs.
  { apply Hsame; [by apply Hok| |by intros ->]. intros Hfp. by destruct (Hf i pt Hi Hfp). }
  assert (rd m' (pt + 8 * i) = e) as He by (by apply Hs).
  destruct (node_update X86 l m m' pt own (λ q, own q ∨ q = p) f (λ q, f i q ∨ q = p) i Hnd)
    as (Ht' & Htr' & _); rewrite ?He; try done.
  - by left.
  - intros q [?| ->]; auto.
  - intros q [Hq| ->].
    + destruct (Hf i q Hi Hq). split; [by left|]. split; [done|].
      intros j Hj Hne Hfq. by apply Hne, (Hd j i q).
    + split; [by right|]. split; [by intros ->|].
      intros j Hj _ Hfp. by destruct (Hf j p Hj Hfp).
  - intros j Hj Hne. by apply Hs.
  - intros j q Hj Hne Hfq. destruct (Hf j q Hj Hfq). apply Hsame; [by apply Hok| |by intros ->].
    intros Hfi. by apply Hne, (Hd j i q).
  - by apply (nd_entry _ _ _ _ _ _ Hnd).
  - split; [done|]. split; [|split; [|done]].
    + intros va'. rewrite Htr', He.
      destruct (Z.eqb_spec (PGDIR_OFFSET va' (S l)) i) as [E|]; [|done].
      cbn [translate]. rewrite E. fold e. rewrite !xlate_sub, Htr by done. done.
    + intros q Hq Hnq Hqp. apply Hsame; [done| |done]. intros Hfq. by destruct (Hf i q Hi Hfq).
Qed.

(** Splitting the large page found at level [tl]. *)
Lemma split_deep lv tl a p FR pt va own s :
  (2 ≤ tl ≤ lv)%nat → (lv ≤ 4)%nat → tree X86 lv (ps_mem s) pt own →
  ps_free s (p :: FR) → fresh_frames own (p :: FR) →
  reach tl lv (ps_mem s) pt va = Some a →
  pf_present X86 (rd (ps_mem s) a) = true → is_huge tl (rd (ps_mem s) a) = true →
  ∃ s', split_large_page a (Z.of_nat tl) s = Done s' ∧ ps_free s' FR ∧
    tree X86 lv (ps_mem s') pt (λ q, own q ∨ q = p) ∧
    (∀ va', translate X86 lv (ps_mem s') pt va' = translate X86 lv (ps_mem s) pt va') ∧
    (∀ q, page_ok q → ¬ own q → q ≠ p → same_page (ps_mem s) (ps_mem s') q) ∧
    reach (tl - 1) lv (ps_mem s') pt va ≠ None ∧
    (∀ k b, (tl ≤ k)%nat → reach k lv (ps_mem s) pt va = Some b →
            reach k lv (ps_mem s') pt va = Some b).
Proof.
  intros Htl Hl4 Ht Hf Hfr. revert pt own Ht Hfr. induction lv as [|l IH]; intros pt own Ht Hfr Hr Hp Hh; [lia|].
  pose proof (PGDIR_OFFSET_range va (S l)) as Hi.
  pose proof Ht as [f Hnd]%tree_node.
  destruct (tree_root_ok _ _ _ _ _ Ht) as [Hpt Hptok].
  pose proof (page_ok_aligned _ Hptok) as Hptal.
  destruct (free_split _ _ _ _ Hf Hfr) as (Hpok & Hpn & HpF & HFo & HFp).
  cbn [reach] in Hr |- *. set (i := PGDIR_OFFSET va (S l)) in *.
  destruct (Nat.eqb_spec (S l) tl) as [<-|Hne].
  - injection Hr as <-.
    destruct (split_large_page_ok pt i (S l) p FR s) as (s' & Es & Hf' & Em); try assumption.
    { intros Hin. by apply (HFo pt). }
    { by intros ->. }
    cbn [Nat.sub] in Em. rewrite Nat.sub_0_r in Em.
    destruct (installed_split X86 1 l (ps_mem s) pt va 0 own f ltac:(lia) Hnd (ps_mem s) p)
      as (Hlk & Ht1 & _ & Hx & _); try assumption; [reflexivity|by intros; apply same_page_refl|].
    fold i in Hlk, Ht1, Hx. rewrite <- Em in Hlk, Ht1, Hx.
    destruct (linked_same X86 l (ps_mem s) pt va own f Hnd _ p _ Hlk Ht1 Hx) as [Ht' Htr].
    exists s'. split; [exact Es|]. split; [done|]. split; [done|]. split; [done|].
    split; [|split].
    + intros q Hq Hnq Hqp. apply (lk_frame _ _ _ _ _ _ _ _ _ Hlk); [assumption|by intros ->|assumption].
    + rewrite (proj2 (Nat.eqb_neq _ _)) by lia. fold i.
      pose proof (lk_slot _ _ _ _ _ _ _ _ _ Hlk) as Hs. fold i in Hs. rewrite Hs.
      rewrite (lk_present _ _ _ _ _ _ _ _ _ Hlk), (lk_table _ _ _ _ _ _ _ _ _ Hlk). cbn [negb andb].
      replace (S l - 1)%nat with l by lia. destruct l as [|l]; [lia|]. cbn [reach].
      by rewrite Nat.eqb_refl.
    + intros k b Hk. destruct (Nat.eqb_spec (S l) k) as [|]; [done|].
      intros Hb. exfalso. destruct (_ && _); [|done].
      assert (∀ lv0 pt0, (lv0 < k)%nat → reach k lv0 (ps_mem s) pt0 va = None) as Hnone.
      { intros lv0. induction lv0 as [|lv0 IH0]; intros pt0 Hlt; [done|]. cbn [reach].
        rewrite (proj2 (Nat.eqb_neq _ _)) by lia. destruct (_ && _); [|done]. apply IH0. lia. }
      rewrite Hnone in Hb by lia. done.
  - set (e := rd (ps_mem s) (pt + 8 * i)) in *.
    destruct (pf_present X86 e && negb (is_leaf (S l) e)) eqn:Eb; [|done].
    apply andb_true_iff in Eb as [Hpe Hle%negb_true_iff].
    destruct (IH ltac:(lia) ltac:(lia) (pf_addr X86 e) (f i)) as (s' & Es & Hf' & Ht' & Htr & Hsm & Hr1 & Hrk);
      try done.
    { by apply (nd_child _ _ _ _ _ _ Hnd). }
    { intros q Hq Hfq. by apply (Hfr q Hq), (nd_sub _ _ _ _ _ _ Hnd i q). }
    destruct (subtree_same l (ps_mem s) (ps_mem s') pt va own f p Hnd) as (Hw & Hwt & Hws & He); try done.
    fold i in He. fold e in He.
    exists s'. split; [done|]. split; [done|]. split; [done|]. split; [done|]. split; [done|].
    split.
    + rewrite (proj2 (Nat.eqb_neq _ _)) by lia. fold i. rewrite He, Hpe, Hle. done.
    + intros k b Hk. destruct (Nat.eqb_spec (S l) k); [done|]. rewrite He. fold e. rewrite Hpe, Hle.
      cbn [negb andb]. by apply Hrk.
Qed.
(** One level of [force_4k_page]. *)
Definition force_level (level : nat) (cr3 addr : Z) (s : St) : outcome St :=
  ptep ← get_pte_level cr3 addr level s;
  _ ← c_assert (negb (ptep =? 0));
  let pte := st_rd ptep s in
  _ ← c_assert (negb (Z.land pte PT_PRESENT_MASK =? 0));
  if negb (Z.land pte PT_PAGE_SIZE_MASK =? 0) then split_large_page ptep (Z.of_nat level) s else mret s.

Lemma reach_next k lv m pt va a :
  (1 ≤ k)%nat → (S k ≤ lv)%nat → reach (S k) lv m pt va = Some a →
  pf_present X86 (rd m a) = true → is_leaf (S k) (rd m a) = false → reach k lv m pt va ≠ None.
Proof.
  intros Hk. revert pt. induction lv as [|l IH]; intros pt Hlv; [done|]. cbn [reach].
  destruct (Nat.eqb_spec (S l) (S k)) as [[= ->]|Hne].
  - intros [= <-] Hp Hl. rewrite (proj2 (Nat.eqb_neq _ _)), Hp, Hl by lia. cbn [negb andb].
    destruct k as [|k]; [lia|]. cbn [reach]. by rewrite Nat.eqb_refl.
  - rewrite (proj2 (Nat.eqb_neq (S l) k)) by lia. destruct (_ && _); [|done]. apply IH. lia.
Qed.

Lemma reach_present k lv m pt va a :
  (1 ≤ k)%nat → reach k lv m pt va = Some a → translate X86 lv m pt va ≠ None →
  pf_present X86 (rd m a) = true.
Proof.
  intros Hk. revert pt. induction lv as [|l IH]; intros pt; [done|]. cbn [reach translate].
  unfold xlate_entry. destruct (Nat.eqb_spec (S l) k).
  - intros [= <-]. by destruct (pf_present X86 _).
  - destruct (pf_present X86 (rd m (pt + _))) eqn:Hp; cbn [negb andb]; [|done].
    destruct (is_leaf (S l) _) eqn:Hl; cbn [negb andb]; [done|].
    intros Hr Hx. apply (IH _ Hr). intros E. by rewrite E in Hx.
Qed.

Lemma reach_mapped lv m pt va :
  (lv = 4)%nat → translate X86 lv m pt va ≠ None → ∃ a, reach 3 lv m pt va = Some a.
Proof.
  intros -> Hx. cbn [translate] in Hx. unfold xlate_entry in Hx. cbn [reach].
  destruct (pf_present X86 _) eqn:Hp; [|done].
  assert (∀ e, is_leaf 4 e = false) as Hl by done. rewrite Hl in *. by eexists.
Qed.

Lemma reach_pos k lv m pt va own a : tree X86 lv m pt own → reach k lv m pt va = Some a → 0 < a.
Proof.
  revert pt own. induction lv as [|l IH]; intros pt own Ht; [done|].
  destruct (tree_root_ok _ _ _ _ _ Ht) as [_ (Hpt & _)]. apply tree_node in Ht as [f Hnd].
  pose proof (PGDIR_OFFSET_range va (S l)) as Hi. cbn [reach].
  destruct (Nat.eqb_spec (S l) k); [intros [= <-]; lia|].
  destruct (pf_present X86 _) eqn:Hp; cbn [negb andb]; [|done].
  destruct (is_leaf (S l) _) eqn:Hl; cbn [negb andb]; [done|].
  apply (IH _ (f (PGDIR_OFFSET va (S l)))). by apply (nd_child _ _ _ _ _ _ Hnd).
Qed.

Lemma force_level_ok k a p FR cr3 va own s :
  (2 ≤ k ≤ 3)%nat → tree X86 4 (ps_mem s) cr3 own →
  ps_free s (p :: FR) → fresh_frames own (p :: FR) →
  translate X86 4 (ps_mem s) cr3 va ≠ None → reach k 4 (ps_mem s) cr3 va = Some a →
  ∃ s' own' FR', force_level k cr3 va s = Done s' ∧ tree X86 4 (ps_mem s') cr3 own' ∧
    (∀ va', translate X86 4 (ps_mem s') cr3 va' = translate X86 4 (ps_mem s) cr3 va') ∧
    reach (k - 1) 4 (ps_mem s') cr3 va ≠ None ∧
    ps_free s' FR' ∧ fresh_frames own' FR' ∧ (length FR ≤ length FR')%nat.
Proof.
  intros Hk Ht Hf Hfr Hmap Hr. pose proof (reach_pos _ _ _ _ _ _ _ Ht Hr) as Hpos.
  pose proof (reach_present k _ _ _ _ _ ltac:(lia) Hr Hmap) as Hp.
  destruct (free_split _ _ _ _ Hf Hfr) as (_ & _ & HpF & HFo & HFp).
  unfold force_level. rewrite get_pte_level_ok, Hr by lia. cbn [default from_option id mbind outcome_bind].
  rewrite (proj2 (Z.eqb_neq a 0)) by lia. cbn [negb c_assert mbind outcome_bind].
  unfold st_rd. rewrite present_bit, size_bit, Hp. cbn [negb c_assert mbind outcome_bind].
  rewrite negb_involutive. destruct (pf_huge (rd (ps_mem s) a)) eqn:Hh.
  - destruct (split_deep 4 k a p FR cr3 va own s)
      as (s' & Es & Hf' & Ht' & Htr & _ & Hr' & _); try done; [lia| |].
    { unfold is_huge. rewrite Hh, andb_true_r. apply orb_true_iff. rewrite !Nat.eqb_eq. lia. }
    exists s', (λ q, own q ∨ q = p), FR. split; [exact Es|]. split; [done|]. split; [done|].
    split; [done|]. split; [done|]. split; [|done].
    intros q Hq [Ho| ->]; [by apply (HFo q)|done].
  - exists s, own, (p :: FR). split; [done|]. split; [done|]. split; [done|].
    split; [|split; [done|split; [done|cbn; lia]]].
    destruct k as [|k]; [lia|]. rewrite Nat.sub_succ, Nat.sub_0_r.
    apply (reach_next k 4 _ _ _ a); [lia|lia|done|done|].
    unfold is_leaf, is_huge. rewrite Hh, andb_false_r, orb_false_r. apply Nat.eqb_neq. lia.
Qed.

Lemma force_4k_page_levels cr3 addr s s1 s2 :
  force_level 3 cr3 addr s = Done s1 → force_level 2 cr3 addr s1 = Done s2 →
  force_4k_page cr3 addr s = Done s2.
Proof.
  unfold force_level, force_4k_page. intros E1 E2.
  apply bind_Done_inv in E1 as (a & -> & E1). cbn [mbind outcome_bind].
  apply bind_Done_inv in E1 as ([] & -> & E1). cbn [mbind outcome_bind].
  apply bind_Done_inv in E1 as ([] & -> & E1). cbn [mbind outcome_bind].
  change (Z.of_nat 3) with 3 in E1. rewrite E1. exact E2.
Qed.

(** *** Ranges *)
Abbreviation x86_inst := (λ root tl va pte s, '(_, s') ← install_pte root tl va pte 0 s; mret s').

Definition x86_flags (tl : nat) : Z := if (tl =? 1)%nat then 7 else 0x87.

Lemma install_page_flags cr3 phys virt s :
  install_page cr3 phys virt s = install_pte cr3 1 virt (Z.lor (x86_flags 1) phys) 0 s ∧
  install_large_page cr3 phys virt s = install_pte cr3 2 virt (Z.lor (x86_flags 2) phys) 0 s.
Proof. unfold install_page, install_large_page. by rewrite <- !Z.lor_assoc, !(Z.lor_comm phys). Qed.

Lemma install_pages_loop_blocks cr3 delta n : ∀ fuel max phys virt s s',
  virt + delta = phys → 0 ≤ phys → 0 ≤ virt → max < 2 ^ 52 → virt + Z.of_nat n * 4096 < 2 ^ 64 →
  phys + Z.of_nat n * 4096 ≤ max < phys + Z.of_nat n * 4096 + 4096 → (n ≤ fuel)%nat →
  map_blocks x86_inst cr3 1 7 delta n virt s = Done s' →
  while_loop fuel (λ '(phys, virt, s), u64 (phys + PAGE_SIZE) <=? max)
    (λ '(phys, virt, s),
       '(_, s) ← install_page cr3 phys virt s;
       mret (u64 (phys + PAGE_SIZE), u64 (virt + PAGE_SIZE), s))
    (phys, virt, s) =
  Done (phys + Z.of_nat n * 4096, virt + Z.of_nat n * 4096, s').
Proof.
  rewrite PAGE_SIZE_val.
  induction n as [|n IH]; intros fuel max phys virt s s' Hd H0 H1 Hmax Hv Hb Hf Es; cbn [map_blocks] in Es.
  - injection Es as ->. destruct fuel; cbn [while_loop];
      rewrite u64_small, (proj2 (Z.leb_gt _ _)) by (unfold in_u64; lia); do 2 f_equal; f_equal; lia.
  - apply bind_Done_inv in Es as (s1 & E1 & Es). destruct fuel as [|fuel]; [lia|].
    cbn [while_loop]. rewrite u64_small, (proj2 (Z.leb_le _ _)) by (unfold in_u64; lia).
    destruct (install_page_flags cr3 phys virt s) as [-> _]. change (x86_flags 1) with 7.
    rewrite Hd in E1. apply bind_Done_inv in E1 as ([a s2] & -> & [= ->]).
    cbn [mbind outcome_bind mret outcome_ret].
    rewrite u64_small by (unfold in_u64; lia). change (2 ^ PGDIR_BITS 1) with 4096 in Es.
    rewrite (IH fuel max (phys + 4096) (virt + 4096) s1 s'); [do 3 f_equal; lia|lia..|done].
Qed.

(** [install_pages] on a range that is not mapped. *)
Lemma install_pages_ok fuel cr3 phys virt n tr0 m0 own0 FR0 x perm start lim s FR own rest :
  0 ≤ start → lim ≤ 2 ^ 48 → (∀ va, start ≤ va < lim → tr0 va = None) → Z.land perm 7 = 7 →
  start ≤ virt → virt mod 4096 = 0 → virt + Z.of_nat n * 4096 ≤ lim →
  0 ≤ phys → phys mod 4096 = 0 → phys + Z.of_nat n * 4096 + 4096 ≤ 2 ^ 52 → (n ≤ fuel)%nat →
  range_inv X86 cr3 start lim (phys - virt) perm tr0 m0 own0 FR0 x virt s FR own → 0 ≤ rest →
  ntables 1 4 virt (virt + Z.of_nat n * 4096) + Z.of_nat x + rest ≤ Z.of_nat (length FR) →
  ∃ s' FR' own' x', install_pages fuel cr3 phys (Z.of_nat n * 4096) virt s = Done s' ∧
    range_inv X86 cr3 start lim (phys - virt) perm tr0 m0 own0 FR0 x' (virt + Z.of_nat n * 4096) s' FR' own' ∧
    rest ≤ Z.of_nat (length FR').
Proof.
  intros Hst Hlim Hclear Hperm Hv Hva Hvl Hp Hpa Hpl Hf Hinv Hr Hlen.
  destruct (map_blocks_ok X86 x86_inst cr3 start lim (phys - virt) perm tr0 m0 own0 FR0
    ltac:(lia) Hclear 1 7 n x virt s FR own rest)
    as (s' & FR' & own' & x' & E & Hx & Hinv' & Hl & _);
    change (2 ^ PGDIR_BITS 1) with 4096 in *;
    rewrite ?(Z.add_comm virt (phys - virt)), ?Z.sub_add; try assumption; try lia; try done.
  exists s', FR', own', x'. split; [|split; [exact Hinv'|lia]].
  unfold install_pages.
  pose proof (install_pages_loop_blocks cr3 (phys - virt) n fuel (Z.of_nat n * 4096 + phys) phys virt s s')
    as Hloop. rewrite (u64_small (Z.of_nat n * 4096 + phys)) by (unfold in_u64; lia).
  rewrite Hloop by (lia || exact E). rewrite PAGE_SIZE_val, Hpa, Hva, Z.mod_mul by lia. done.
Qed.

(** The tables, besides the root, of the identity map of [0, len). *)
Definition mmu_tables (len : Z) : Z :=
  let e := len / LARGE_PAGE_SIZE * LARGE_PAGE_SIZE in
  ntables 2 4 0 e + ntables 1 4 e len.

Lemma large_loop_eq fuel cr3 max st :
  while_loop fuel (λ '(phys, s), u64 (phys + LARGE_PAGE_SIZE) <=? max)
    (λ '(phys, s), '(_, s) ← install_large_page cr3 phys phys s;
       mret (u64 (phys + LARGE_PAGE_SIZE), s)) st =
  block_loop fuel (2 ^ PGDIR_BITS 2) max (λ p s, '(_, s) ← install_large_page cr3 p p s; mret s) st.
Proof.
  unfold block_loop. change LARGE_PAGE_SIZE with (2 ^ PGDIR_BITS 2).
  revert st. induction fuel as [|fuel IH]; intros [p s]; cbn [while_loop]; [done|].
  destruct (_ <=? _); [|done].
  destruct (install_large_page cr3 p p s) as [[a s1]| | | |]; cbn [mbind outcome_bind mret outcome_ret];
    [apply IH|done..].
Qed.

Lemma setup_mmu_range_ok fuel cr3 len FR s :
  0 ≤ len ≤ 2 ^ 48 → len mod 4096 = 0 → page_ok cr3 →
  (∀ j, 0 ≤ j < 512 → rd (ps_mem s) (cr3 + 8 * j) = 0) →
  ps_free s FR → cr3 ∉ FR → mmu_tables len ≤ Z.of_nat (length FR) → len / 4096 ≤ Z.of_nat fuel →
  ∃ s' FR', setup_mmu_range fuel cr3 0 len s = Done s' ∧ FR' `suffix_of` FR ∧ ps_free s' FR' ∧
    (∀ va, 0 ≤ va < 2 ^ 48 → translate X86 4 (ps_mem s') cr3 va =
      if va <? len then Some (va, 7) else None) ∧
    (∀ p, page_ok p → p ≠ cr3 → p ∉ FR → same_page (ps_mem s) (ps_mem s') p) ∧
    (∃ own', tree X86 4 (ps_mem s') cr3 own' ∧ fresh_frames own' FR') ∧
    (∀ tl va, len ≤ va < 2 ^ 48 → path_perm X86 tl 4 (ps_mem s') cr3 va = 7) ∧
    Z.of_nat (length FR) - mmu_tables len ≤ Z.of_nat (length FR').
Proof.
  intros Hlen Hal Hcr Hz Hf Hn Hneed Hfuel.
  pose proof (range_inv_zero X86 cr3 (2 ^ 48) 0 7 FR s Hcr Hz Hf Hn) as Hinv.
  set (rest := Z.of_nat (length FR) - mmu_tables len).
  assert (rest = Z.of_nat (length FR) - mmu_tables len) as Hrest by done. clearbody rest.
  unfold mmu_tables in Hneed, Hrest. change LARGE_PAGE_SIZE with (2 ^ 21) in Hneed, Hrest.
  pose proof (Z.div_mod len (2 ^ 21) ltac:(lia)) as Ed.
  pose proof (Z.mod_pos_bound len (2 ^ 21) ltac:(lia)) as Hm.
  pose proof (Z.div_pos len (2 ^ 21) ltac:(lia) ltac:(lia)) as Hd.
  pose proof (Z.div_mod len 4096 ltac:(lia)) as Ed2. rewrite Hal in Ed2.
  set (n2 := Z.to_nat (len / 2 ^ 21)). set (e := len / 2 ^ 21 * 2 ^ 21) in *.
  assert (e = 0 + Z.of_nat n2 * 2 ^ 21) as Ee by (unfold n2; rewrite Z2Nat.id by lia; done).
  assert (e mod 2 ^ 12 = 0) as Hea.
  { apply (align_weaken 2 1); [lia|]. by apply Z.mod_mul. }
  change (2 ^ 12) with 4096 in Hea. pose proof (Z.div_mod e 4096 ltac:(lia)) as Ed3. rewrite Hea in Ed3.
  pose proof (ntables_nonneg 1 4 e len ltac:(lia)) as N1.
  destruct (map_blocks_ok X86 x86_inst cr3 0 (2 ^ 48) 0 7 (λ _, None) (ps_mem s) (λ q, q = cr3) FR
    ltac:(lia) ltac:(done) 2 0x87 n2 0 0 s FR (λ q, q = cr3) (ntables 1 4 e len + rest))
    as (s1 & FR1 & own1 & x1 & E1 & Hx1 & Hinv1 & Hl1 & _);
    change (2 ^ PGDIR_BITS 2) with (2 ^ 21) in *; rewrite <- ?Ee; try done; try lia.
  replace x1 with 0%nat in * by lia. rewrite <- Ee in Hinv1.
  set (n1 := Z.to_nat ((len - e) / 4096)).
  assert (len - e = Z.of_nat n1 * 4096) as En1.
  { unfold n1. replace (len - e) with ((len / 4096 - e / 4096) * 4096) by lia.
    rewrite Z.div_mul by lia. assert (e / 4096 ≤ len / 4096) by (apply Z.div_le_mono; lia). lia. }
  destruct (install_pages_ok fuel cr3 e e n1 (λ _, None) (ps_mem s) (λ q, q = cr3) FR 0 7 0 (2 ^ 48)
    s1 FR1 own1 rest) as (s2 & FR2 & own2 & x2 & E2 & Hinv2 & Hl2); rewrite ?Z.sub_diag; try done; try lia.
  { replace (e + Z.of_nat n1 * 4096) with len by lia. lia. }
  exists s2, FR2. destruct Hinv2 as [It If Ifr Isuf _ Ifrm Itr Ifull _].
  replace (e + Z.of_nat n1 * 4096) with len in Ifull by lia.
  split; [|split; [done|split; [done|split; [|split; [done|]]]]].
  - unfold setup_mmu_range. rewrite Z.add_0_r, u64_small by (unfold in_u64; lia).
    rewrite large_loop_eq.
    rewrite (block_loop_blocks x86_inst cr3 2 0x87 0 _ n2 fuel len 0 s s1).
    + change (2 ^ PGDIR_BITS 2) with (2 ^ 21). rewrite <- Ee. cbn [mbind outcome_bind].
      rewrite u64_small by (unfold in_u64; lia). by rewrite En1.
    + lia.
    + intros p s0 _ _. rewrite Z.add_0_r. by destruct (install_page_flags cr3 p p s0) as [_ ->].
    + lia.
    + done.
    + lia.
    + change (2 ^ PGDIR_BITS 2) with (2 ^ 21). lia.
    + assert (Z.of_nat n2 ≤ len / 4096); [|lia]. unfold n2. rewrite Z2Nat.id by lia.
      apply Z.div_le_compat_l; lia.
    + exact E1.
  - intros va Hva. rewrite Itr by done. rewrite Z.sub_diag, Z.add_0_r. rewrite (proj2 (Z.leb_le 0 va)) by lia.
    cbn [andb]. by replace (e + Z.of_nat n1 * 4096) with len by lia.
  - split; [by exists own2|]. split; [exact Ifull|exact Hl2].
Qed.

(** *** Physical addresses of mapped pages *)
Lemma virt_to_pte_phys_ok cr3 va own s pa pm :
  tree X86 4 (ps_mem s) cr3 own → 0 ≤ va →
  translate X86 4 (ps_mem s) cr3 va = Some (pa, pm) →
  ∃ base lv, (1 ≤ lv ≤ 3)%nat ∧ pa = base + va mod 2 ^ PGDIR_BITS lv ∧
    virt_to_pte_phys cr3 va s = Done (u64 (base + va mod 4096)) ∧
    (reach 1 4 (ps_mem s) cr3 va ≠ None → virt_to_pte_phys cr3 va s = Done (u64 pa)).
Proof.
  intros Ht Hva Htr. destruct (get_pte_ok cr3 va own s Ht) as (a & E & Ha). rewrite Htr in Ha.
  destruct Ha as (Hpos & Hp & lv & Hlv & Hlf & -> & Hreach).
  assert (virt_to_pte_phys cr3 va s = Done (u64 (pf_addr X86 (rd (ps_mem s) a) + va mod 4096))) as Ev.
  { unfold virt_to_pte_phys. rewrite E. cbn [mbind outcome_bind].
    rewrite (proj2 (Z.eqb_neq a 0)) by lia.
    change (PAGE_SIZE - 1) with (Z.ones 12). by rewrite Z.land_ones by lia. }
  exists (pf_addr X86 (rd (ps_mem s) a)), lv. split; [done|]. split; [done|]. split; [done|].
  intros Hr. destruct (reach 1 4 (ps_mem s) cr3 va) as [b|] eqn:Er; [|done].
  assert (lv = 1%nat) as ->; [|done]. apply Hreach. f_equal.
  destruct (find_pte_walk_ok 4 1 cr3 va s) as (r & Er' & _ & Hm); [lia..|]. rewrite Er in Hm.
  destruct Hm as [-> _]. unfold get_pte, find_pte_level, PAGE_LEVEL in E. cbn [Nat.leb andb c_assert mbind outcome_bind] in E.
  rewrite Er' in E. cbn in E. by injection E.
Qed.

(** No table is missing on the way to a mapped address: it is mapped by a 4K page. *)
Lemma missing_reach l m pt va :
  (0 < l)%nat → missing X86 1 l m pt va = O → translate X86 l m pt va ≠ None → reach 1 l m pt va ≠ None.
Proof.
  revert pt. induction l as [|l IH]; intros pt Hl Hm Ht; [lia|].
  cbn [reach missing translate] in *. destruct (decide (l = O)) as [->|Hne]; [done|].
  rewrite (proj2 (Nat.eqb_neq _ _)) by lia. rewrite (proj2 (Nat.leb_gt _ _)) in Hm by lia.
  unfold xlate_entry in Ht. set (e := rd m _) in *.
  destruct (pf_present X86 e); [|done]. destruct (is_leaf (S l) e); cbn [negb orb andb] in *; [lia|].
  apply IH; [lia|done|]. intros E. apply Ht. by rewrite E.
Qed.

End proofs.

(** ** Properties *)
Section claims.
Context {St : Type} `{PageSource St} `{!PageSourceLaws St}.
Implicit Types (s : St).

(** C3: [setup_mmu_range(cr3, 0, len)] from a zeroed root maps exactly the addresses
    below [len], each to itself, present, writable and for user mode, with 2M pages
    as far as they go; it writes the root and frames of the allocator only. *)
Theorem setup_mmu_range_identity fuel cr3 len FR s :
  0 ≤ len ≤ 2 ^ 48 → len mod 4096 = 0 → page_ok cr3 →
  (∀ j, 0 ≤ j < 512 → rd (ps_mem s) (cr3 + 8 * j) = 0) →
  ps_free s FR → cr3 ∉ FR → mmu_tables len ≤ Z.of_nat (length FR) → len / 4096 ≤ Z.of_nat fuel →
  ∃ s' FR', setup_mmu_range fuel cr3 0 len s = Done s' ∧ FR' `suffix_of` FR ∧ ps_free s' FR' ∧
    (∀ va, 0 ≤ va < 2 ^ 48 → translate X86 4 (ps_mem s') cr3 va =
      if va <? len then Some (va, 7) else None) ∧
    (∀ p, page_ok p → p ≠ cr3 → p ∉ FR → same_page (ps_mem s) (ps_mem s') p).
Proof.
  intros. destruct (setup_mmu_range_ok fuel cr3 len FR s) as (s' & FR' & ? & ? & ? & ? & ? & _); try done.
  by exists s', FR'.
Qed.

(** C4: [install_pte] at an address that is not mapped creates the missing tables,
    stores the entry and returns the pointer that [get_pte_level] finds; the block
    of the address translates through the entry, every other address as before. *)
Theorem install_pte_correct tl cr3 virt pte own FR s :
  (1 ≤ tl ≤ 3)%nat → 0 ≤ virt < 2 ^ 48 →
  tree X86 4 (ps_mem s) cr3 own → ps_free s FR → fresh_frames own FR →
  translate X86 4 (ps_mem s) cr3 virt = None →
  entry_ok X86 tl pte → (pf_present X86 pte = true → is_leaf tl pte = true) →
  (missing X86 tl 4 (ps_mem s) cr3 virt ≤ length FR)%nat →
  ∃ a s' used FR', install_pte cr3 tl virt pte 0 s = Done (a, s') ∧
    FR = used ++ FR' ∧ length used = missing X86 tl 4 (ps_mem s) cr3 virt ∧
    st_rd a s' = pte ∧ get_pte_level cr3 virt tl s' = Done a ∧
    ps_free s' FR' ∧ tree X86 4 (ps_mem s') cr3 (λ p, own p ∨ p ∈ used) ∧
    (∀ va, 0 ≤ va < 2 ^ 48 → translate X86 4 (ps_mem s') cr3 va =
      if decide (va / 2 ^ PGDIR_BITS tl = virt / 2 ^ PGDIR_BITS tl)
      then leaf_at X86 tl (path_perm X86 tl 4 (ps_mem s) cr3 virt) pte va
      else translate X86 4 (ps_mem s) cr3 va).
Proof.
  intros Htl Hva Ht Hf Hfr Hno He Hlf Hm.
  destruct (install_pte_walk_ok 4 tl cr3 virt pte own FR s)
    as (a & s' & used & FR' & EF & Es & Hf' & Hins & Hr & Ha); try done; [lia|].
  exists a, s', used, FR'. split; [exact Es|]. split; [done|].
  split; [apply (ins_used _ _ _ _ _ _ _ _ _ _ Hins)|]. split; [done|].
  split; [by rewrite get_pte_level_ok, Hr by lia|]. split; [done|].
  split; [apply (ins_tree _ _ _ _ _ _ _ _ _ _ Hins)|].
  intros va Hva'. rewrite (ins_translate _ _ _ _ _ _ _ _ _ _ Hins), path_block by lia.
  destruct (decide (va / _ = _)) as [E|E].
  - by rewrite bool_decide_true by (symmetry; exact E).
  - by rewrite bool_decide_false by congruence.
Qed.

(** [install_pages] maps a range that is not mapped, in an address space whose
    tables on the way give all permissions, page by page to the physical range;
    the rest of the address space keeps its translations.  Three frames more than
    the tables that begin inside the range are enough. *)
Theorem install_pages_correct fuel cr3 phys virt n own FR s :
  let len := Z.of_nat n * PAGE_SIZE in
  0 ≤ virt → virt mod 4096 = 0 → virt + len ≤ 2 ^ 48 →
  0 ≤ phys → phys mod 4096 = 0 → phys + len + 4096 ≤ 2 ^ 52 → (n ≤ fuel)%nat →
  tree X86 4 (ps_mem s) cr3 own → ps_free s FR → fresh_frames own FR →
  (∀ va, virt ≤ va < virt + len → translate X86 4 (ps_mem s) cr3 va = None ∧
     ∀ tl, path_perm X86 tl 4 (ps_mem s) cr3 va = 7) →
  ntables 1 4 virt (virt + len) + 3 ≤ Z.of_nat (length FR) →
  ∃ s' FR', install_pages fuel cr3 phys len virt s = Done s' ∧ FR' `suffix_of` FR ∧ ps_free s' FR' ∧
    ∀ va, 0 ≤ va < 2 ^ 48 → translate X86 4 (ps_mem s') cr3 va =
      if (virt <=? va) && (va <? virt + len) then Some (phys + (va - virt), 7)
      else translate X86 4 (ps_mem s) cr3 va.
Proof.
  intros len Hv Hva Hvl Hp Hpa Hpl Hf Ht Hfree Hfr Hclear Hlen. unfold len in *. rewrite PAGE_SIZE_val in *.
  destruct (install_pages_ok fuel cr3 phys virt n (translate X86 4 (ps_mem s) cr3) (ps_mem s) own FR 3 7
    virt (virt + Z.of_nat n * 4096) s FR own 0) as (s' & FR' & own' & x' & E & Hinv & _); try done; try lia.
  - intros va Hva'. by apply Hclear.
  - split; try done.
    + by left.
    + intros va Hr. destruct (Z.leb_spec virt va), (Z.ltb_spec va virt); done || lia.
    + intros tl va Hr. by apply Hclear.
    + intros tl Htl _. etransitivity; [apply missing_le|]. lia.
  - exists s', FR'. destruct Hinv as [_ If _ Isuf _ _ Itr _ _].
    split; [exact E|]. split; [done|]. split; [done|]. intros va Hr. rewrite Itr by done.
    destruct (_ && _); [|done]. do 2 f_equal. lia.
Qed.

(** C6: [get_pte] returns the entry that translates the address, whatever its level,
    and for an address that is not mapped NULL or an entry that is not present. *)
Theorem get_pte_correct cr3 va own s :
  tree X86 4 (ps_mem s) cr3 own →
  ∃ a, get_pte cr3 va s = Done a ∧
    match translate X86 4 (ps_mem s) cr3 va with
    | Some (pa, _) => let e := st_rd a s in
        a ≠ 0 ∧ pf_present X86 e = true ∧
        ∃ lv, (1 ≤ lv ≤ 3)%nat ∧ is_leaf lv e = true ∧ pa = pf_addr X86 e + va mod 2 ^ PGDIR_BITS lv
    | None => a = 0 ∨ pf_present X86 (st_rd a s) = false
    end.
Proof.
  intros Ht. destruct (get_pte_ok cr3 va own s Ht) as (a & E & Ha). exists a. split; [done|].
  destruct (translate _ _ _ _ _) as [[pa pm]|]; [|done].
  destruct Ha as (? & ? & lv & ? & ? & ? & _). split; [lia|]. split; [done|]. by exists lv.
Qed.

(** [virt_to_pte_phys] is the translation of an address that is mapped by a 4K page.
    For one mapped by a larger page it adds only the offset in 4K to the base of
    the large page. *)
Theorem virt_to_pte_phys_correct cr3 va own s pa pm :
  tree X86 4 (ps_mem s) cr3 own → 0 ≤ va →
  translate X86 4 (ps_mem s) cr3 va = Some (pa, pm) →
  ∃ base lv, (1 ≤ lv ≤ 3)%nat ∧ pa = base + va mod 2 ^ PGDIR_BITS lv ∧
    virt_to_pte_phys cr3 va s = Done (u64 (base + va mod 4096)) ∧
    (reach 1 4 (ps_mem s) cr3 va ≠ None → virt_to_pte_phys cr3 va s = Done (u64 pa)).
Proof. apply virt_to_pte_phys_ok. Qed.

(** [any_present_pages] is true exactly when one of the pages at [virt],
    [virt + PAGE_SIZE], ... below [virt + len] is mapped. *)
Theorem any_present_pages_correct fuel cr3 virt len own s :
  tree X86 4 (ps_mem s) cr3 own → 0 ≤ virt → 0 ≤ len → virt + len + PAGE_SIZE < 2 ^ 64 →
  (len + PAGE_SIZE - 1) / PAGE_SIZE ≤ Z.of_nat fuel →
  ∃ b, any_present_pages fuel cr3 virt len s = Done b ∧
    (b = true ↔ ∃ k, 0 ≤ k ∧ k * PAGE_SIZE < len ∧
       translate X86 4 (ps_mem s) cr3 (virt + k * PAGE_SIZE) ≠ None).
Proof.
  rewrite PAGE_SIZE_val. intros Ht Hv Hl Hlt Hf. unfold any_present_pages.
  rewrite u64_small by (unfold in_u64; lia). set (max := virt + len) in *.
  assert (∀ curr, virt ≤ curr → curr < max + 4096 → (max - curr + 4096 - 1) / 4096 ≤ Z.of_nat fuel →
    ∃ b, any_present_walk fuel cr3 curr max s = Done b ∧
      (b = true ↔ ∃ k, 0 ≤ k ∧ curr + k * 4096 < max ∧
        translate X86 4 (ps_mem s) cr3 (curr + k * 4096) ≠ None)) as Hwalk.
  { clear Hf. induction fuel as [|fuel IH]; intros curr Hc Hm Hf; cbn [any_present_walk].
    - destruct (Z.ltb_spec curr max).
      + assert (1 ≤ (max - curr + 4096 - 1) / 4096); [|lia]. apply Z.div_le_lower_bound; lia.
      + eexists. split; [done|]. split; [done|]. intros (k & ? & ? & _). lia.
    - destruct (Z.ltb_spec curr max).
      2:{ eexists. split; [done|]. split; [done|]. intros (k & ? & ? & _). lia. }
      destruct (get_pte_ok cr3 curr own s Ht) as (a & -> & Ha). cbn [mbind outcome_bind].
      unfold st_rd. rewrite present_bit, negb_involutive.
      destruct (translate X86 4 (ps_mem s) cr3 curr) as [[pa pm]|] eqn:Etr.
      + destruct Ha as (Hpos & -> & _). rewrite (proj2 (Z.eqb_neq a 0)) by lia. cbn [negb andb].
        eexists. split; [done|]. split; [|done]. intros _. exists 0. split; [lia|]. split; [lia|].
        replace (curr + 0 * 4096) with curr by lia. by rewrite Etr.
      + assert (negb (a =? 0) && pf_present X86 (rd (ps_mem s) a) = false) as ->
          by (destruct Ha as [-> | ->]; [done|apply andb_false_r]).
        rewrite PAGE_SIZE_val, u64_small by (unfold in_u64; lia).
        destruct (IH (curr + 4096)) as (b & Eb & Hb); [lia|lia| |].
        { replace (max - curr + 4096 - 1) with (max - (curr + 4096) + 4096 - 1 + 1 * 4096) in Hf by lia.
          rewrite Z.div_add in Hf by lia. lia. }
        exists b. split; [done|]. rewrite Hb. split; intros (k & Hk & Hkm & Hx).
        * exists (k + 1). split; [lia|]. split; [lia|].
          by replace (curr + (k + 1) * 4096) with (curr + 4096 + k * 4096) by lia.
        * destruct (decide (k = 0)) as [->|]; [by replace (curr + 0 * 4096) with curr in Hx by lia|].
          exists (k - 1). split; [lia|]. split; [lia|].
          by replace (curr + 4096 + (k - 1) * 4096) with (curr + k * 4096) by lia. }
  destruct (Hwalk virt) as (b & Eb & Hb); [lia|lia|unfold max; by replace (virt + len - virt + 4096 - 1) with (len + 4096 - 1) by lia|].
  exists b. split; [done|]. rewrite Hb. unfold max.
  split; intros (k & ? & ? & ?); exists k; (split; [done|split; [lia|done]]).
Qed.

(** C5: [force_4k_page] on a mapped address changes no translation and leaves the
    address mapped by a 4K page: its level-1 entry exists.  Two frames are enough. *)
Theorem force_4k_page_correct cr3 addr p1 p2 FR own s :
  tree X86 4 (ps_mem s) cr3 own → ps_free s (p1 :: p2 :: FR) → fresh_frames own (p1 :: p2 :: FR) →
  translate X86 4 (ps_mem s) cr3 addr ≠ None →
  ∃ s' own', force_4k_page cr3 addr s = Done s' ∧ tree X86 4 (ps_mem s') cr3 own' ∧
    (∀ va, translate X86 4 (ps_mem s') cr3 va = translate X86 4 (ps_mem s) cr3 va) ∧
    reach 1 4 (ps_mem s') cr3 addr ≠ None.
Proof.
  intros Ht Hf Hfr Hmap.
  destruct (reach_mapped 4 (ps_mem s) cr3 addr) as [a3 Ha3]; [lia|done|].
  destruct (force_level_ok 3 a3 p1 (p2 :: FR) cr3 addr own s)
    as (s1 & own1 & FR1 & E1 & Ht1 & Htr1 & Hr1 & Hf1 & Hfr1 & Hl1); try done; [lia|].
  destruct (reach 2 4 (ps_mem s1) cr3 addr) as [a2|] eqn:Ha2; [|done].
  destruct FR1 as [|q FR1]; [cbn in Hl1; lia|].
  destruct (force_level_ok 2 a2 q FR1 cr3 addr own1 s1)
    as (s2 & own2 & FR2 & E2 & Ht2 & Htr2 & Hr2 & _); try done; [lia|by rewrite Htr1|].
  exists s2, own2. split; [|split; [done|split; [|done]]].
  - by apply (force_4k_page_levels _ _ _ s1).
  - intros va. by rewrite Htr2, Htr1.
Qed.
End claims.

(** ** The theorems at the states of PtDemo.v *)
Definition demo_tree := demo_large_tree X86 eq_refl eq_refl eq_refl.
Definition demo_sub := demo_large_sub X86 eq_refl eq_refl.

Lemma setup_mmu_range_identity_witness :
  ∃ s', setup_mmu_range 3 0x10000 0 0x3000 demo_state = Done s' ∧
    translate X86 4 (pmem s') 0x10000 0x2008 = Some (0x2008, 7) ∧
    translate X86 4 (pmem s') 0x10000 0x3000 = None.
Proof.
  destruct (setup_mmu_range_identity 3 0x10000 0x3000 demo_frames demo_state)
    as (s' & FR' & E & _ & _ & Htr & _).
  - lia.
  - done.
  - apply demo_page_ok. by left.
  - intros j Hj. assert (Forall (λ k, rd demo_mem (0x10000 + 8 * k) = 0) (seqZ 0 512)) as Hall
      by (refine (bool_decide_unpack _ _); vm_compute; done).
    rewrite Forall_forall in Hall. apply Hall, elem_of_seqZ. lia.
  - by apply demo_free.
  - intros Hin%list_elem_of_In. vm_compute in Hin. intuition discriminate.
  - vm_compute. done.
  - vm_compute. done.
  - exists s'. split; [done|]. split; [apply (Htr 0x2008); lia|apply (Htr 0x3000); lia].
Defined.

Lemma install_pte_correct_witness :
  ∃ a s', install_pte 0x10000 1 0x40005000 0x9005 0 demo_large = Done (a, s') ∧
    get_pte_level 0x10000 0x40005000 1 s' = Done a ∧
    translate X86 4 (pmem s') 0x10000 0x40005123 = Some (0x9123, 5) ∧
    translate X86 4 (pmem s') 0x10000 0x6000 = Some (0x6000, 7).
Proof.
  destruct (install_pte_correct 1 0x10000 0x40005000 0x9005 demo_own demo_frames demo_large)
    as (a & s' & used & FR' & E & _ & _ & _ & Hg & _ & _ & Htr).
  - lia.
  - lia.
  - exact demo_tree.
  - by apply demo_free.
  - apply demo_large_fresh.
  - vm_compute. done.
  - split; [unfold in_u64; lia|]. intros _. split; [done|lia].
  - done.
  - vm_compute. lia.
  - exists a, s'. split; [exact E|]. split; [exact Hg|]. split.
    + etransitivity; [apply (Htr 0x40005123); lia|]. vm_compute. reflexivity.
    + etransitivity; [apply (Htr 0x6000); lia|]. vm_compute. reflexivity.
Defined.

(** The state below the root: an empty root table. *)
Lemma demo_zero_root : tree X86 4 (pmem demo_state) 0x10000 (λ q, q = 0x10000) ∧
  (∀ va, translate X86 4 (pmem demo_state) 0x10000 va = None) ∧
  (∀ tl va, path_perm X86 tl 4 (pmem demo_state) 0x10000 va = 7).
Proof.
  destruct (zero_table X86 4 (pmem demo_state) 0x10000) as (Ht & Htr & _ & Hpp).
  - apply demo_page_ok. by left.
  - lia.
  - intros j Hj. assert (Forall (λ k, rd demo_mem (0x10000 + 8 * k) = 0) (seqZ 0 512)) as Hall
      by (refine (bool_decide_unpack _ _); vm_compute; done).
    rewrite Forall_forall in Hall. apply Hall, elem_of_seqZ. lia.
  - split; [done|]. split; [exact Htr|]. intros. apply Hpp.
Qed.

Lemma install_pages_correct_witness :
  ∃ s', install_pages 2 0x10000 0x9000 0x2000 0x5000 demo_state = Done s' ∧
    translate X86 4 (pmem s') 0x10000 0x6010 = Some (0xa010, 7) ∧
    translate X86 4 (pmem s') 0x10000 0x7000 = None.
Proof.
  destruct demo_zero_root as (Ht & Hno & Hpp).
  destruct (install_pages_correct 2 0x10000 0x9000 0x5000 2 (λ q, q = 0x10000) demo_frames demo_state)
    as (s' & FR' & E & _ & _ & Htr).
  - lia.
  - done.
  - vm_compute. done.
  - lia.
  - done.
  - vm_compute. done.
  - lia.
  - exact Ht.
  - by apply demo_free.
  - intros p Hp%list_elem_of_In ->. vm_compute in Hp. intuition discriminate.
  - intros va _. split; [apply Hno|intros tl; apply Hpp].
  - vm_compute. done.
  - exists s'. split; [exact E|].
    split; [apply (Htr 0x6010); lia|etransitivity; [apply (Htr 0x7000); lia|]; apply Hno].
Defined.

Lemma get_pte_correct_witness : ∃ a, get_pte 0x10000 0x345678 demo_large = Done a ∧ a ≠ 0.
Proof.
  destruct (get_pte_correct 0x10000 0x345678 demo_own demo_large) as (a & E & Ha); [exact demo_tree|].
  assert (translate X86 4 (ps_mem demo_large) 0x10000 0x345678 = Some (0x345678, 7)) as Htr
    by (vm_compute; done).
  rewrite Htr in Ha. exists a. split; [exact E|]. apply Ha.
Defined.

(** In a 1G page the result is short of the address's bits 12 to 29. *)
Lemma virt_to_pte_phys_correct_witness :
  virt_to_pte_phys 0x10000 0x345678 demo_large = Done 0x678 ∧
  translate X86 4 (pmem demo_large) 0x10000 0x345678 = Some (0x345678, 7).
Proof.
  destruct (virt_to_pte_phys_correct 0x10000 0x345678 demo_own demo_large 0x345678 7)
    as (base & lv & Hlv & Hpa & E & _); [exact demo_tree|lia|vm_compute; done|].
  split; [|vm_compute; done]. vm_compute. done.
Defined.

Lemma any_present_pages_correct_witness :
  any_present_pages 3 0x10000 0x3ffff000 0x3000 demo_large = Done true ∧
  any_present_pages 3 0x10000 0x40000000 0x3000 demo_large = Done false.
Proof.
  destruct (any_present_pages_correct 3 0x10000 0x40000000 0x3000 demo_own demo_large)
    as (b & E & Hb); [exact demo_tree|lia|lia|vm_compute; done|vm_compute; done|].
  split; [vm_compute; done|]. rewrite E. f_equal. clear E.
  destruct b; [|done]. destruct (proj1 Hb eq_refl) as (k & Hk & Hlt & Hx). exfalso. apply Hx.
  assert (k = 0 ∨ k = 1 ∨ k = 2) as [->|[->| ->]] by (rewrite PAGE_SIZE_val in Hlt; lia); vm_compute; done.
Defined.

Lemma force_4k_page_correct_witness :
  ∃ s', force_4k_page 0x10000 0x345678 demo_large = Done s' ∧
    translate X86 4 (pmem s') 0x10000 0x345678 = Some (0x345678, 7) ∧
    reach 1 4 (pmem s') 0x10000 0x345678 ≠ None.
Proof.
  destruct (force_4k_page_correct 0x10000 0x345678 0x20000 0x21000 [0x22000; 0x23000] demo_own demo_large)
    as (s' & own' & E & _ & Htr & Hr).
  - exact demo_tree.
  - by apply demo_free.
  - apply demo_large_fresh.
  - vm_compute. done.
  - exists s'. split; [exact E|]. split; [etransitivity; [apply Htr|]; vm_compute; done|exact Hr].
Defined.
