(* ===== verification/Vmalloc.v ===== *)
(** Virtual memory: lib/vmalloc.c, [setup_mmu] of lib/x86/vm.c and [ioremap] of
    lib/x86/io.c.

    [vm] is the state they share: the statics of vmalloc.c, the page allocator
    with memory (AllocPage.v), the physical allocator (AllocPhys.v), the control
    registers, which allocator [alloc_ops] points to, and what is printed.  The
    addresses [alloc_vpages] gives out go down from 2^64; a walk looks at the low
    48 bits of an address only. *)
From Stdlib Require Import ZArith Lia Bool.
From S2P Require Import Prelude Libcflat Mem Spinlock AllocPage PageTable TableRange PtDemo X86Vm AllocPhys VmxDefs.
#[local] Open Scope Z_scope.

(** The allocators [alloc_ops] can point to. *)
Inductive allocator : Set := early_alloc | vmalloc.
#[export] Instance allocator_eq_dec : EqDecision allocator.
Proof. solve_decision. Defined.

Record vm := Vm {
  vfree_top : Z;
  page_root : Z;
  vm_lock : spinlock;
  vm_pages : pstate;
  vm_phys : Phys.phys;
  vm_cr0 : Z;
  vm_cr3 : Z;
  vm_cr4 : Z;
  vm_ops : allocator;
  vm_log : list (string * list parg)
}.
Definition set_vfree_top (x : Z) (s : vm) : vm :=
  Vm x (page_root s) (vm_lock s) (vm_pages s) (vm_phys s) (vm_cr0 s) (vm_cr3 s) (vm_cr4 s) (vm_ops s) (vm_log s).
Definition set_page_root (x : Z) (s : vm) : vm :=
  Vm (vfree_top s) x (vm_lock s) (vm_pages s) (vm_phys s) (vm_cr0 s) (vm_cr3 s) (vm_cr4 s) (vm_ops s) (vm_log s).
Definition set_vm_lock (x : spinlock) (s : vm) : vm :=
  Vm (vfree_top s) (page_root s) x (vm_pages s) (vm_phys s) (vm_cr0 s) (vm_cr3 s) (vm_cr4 s) (vm_ops s) (vm_log s).
Definition set_vm_pages (x : pstate) (s : vm) : vm :=
  Vm (vfree_top s) (page_root s) (vm_lock s) x (vm_phys s) (vm_cr0 s) (vm_cr3 s) (vm_cr4 s) (vm_ops s) (vm_log s).
Definition set_vm_phys (x : Phys.phys) (s : vm) : vm :=
  Vm (vfree_top s) (page_root s) (vm_lock s) (vm_pages s) x (vm_cr0 s) (vm_cr3 s) (vm_cr4 s) (vm_ops s) (vm_log s).
Definition set_vm_cr0 (x : Z) (s : vm) : vm :=
  Vm (vfree_top s) (page_root s) (vm_lock s) (vm_pages s) (vm_phys s) x (vm_cr3 s) (vm_cr4 s) (vm_ops s) (vm_log s).
Definition set_vm_cr3 (x : Z) (s : vm) : vm :=
  Vm (vfree_top s) (page_root s) (vm_lock s) (vm_pages s) (vm_phys s) (vm_cr0 s) x (vm_cr4 s) (vm_ops s) (vm_log s).
Definition set_vm_ops (x : allocator) (s : vm) : vm :=
  Vm (vfree_top s) (page_root s) (vm_lock s) (vm_pages s) (vm_phys s) (vm_cr0 s) (vm_cr3 s) (vm_cr4 s) x (vm_log s).
Definition set_vm_log (x : list (string * list parg)) (s : vm) : vm :=
  Vm (vfree_top s) (page_root s) (vm_lock s) (vm_pages s) (vm_phys s) (vm_cr0 s) (vm_cr3 s) (vm_cr4 s) (vm_ops s) x.

(** A walk looks at the low 48 bits of the address. *)
Definition low48 (va : Z) : Z := va mod 2 ^ 48.

Module Vm.
Abbreviation M := (stM vm).
Definition printf (fmt : string) (args : list parg) : M unit := modify (λ s, set_vm_log ((fmt, args) :: vm_log s) s).
(** Code on the page allocator and memory. *)
Definition on_pages {A} (f : pstate → outcome (A * pstate)) : M A := zoom vm_pages set_vm_pages f.
Definition on_pages_do (f : pstate → outcome pstate) : M unit := on_pages (λ p, p ← f p; mret (tt, p)).

Definition alloc_vpages (nr : Z) : M Z :=
  l ← gets vm_lock;
  l ← lift (spin_lock l);
  modify (set_vm_lock l);;
  modify (λ s, set_vfree_top (u64 (vfree_top s - u64 (PAGE_SIZE * nr))) s);;
  l ← gets vm_lock;
  modify (set_vm_lock (spin_unlock l));;
  gets vfree_top.

Definition alloc_vpage : M Z := alloc_vpages 1.
Definition init_alloc_vpage (top : Z) : M unit := modify (set_vfree_top top).

(** [(size + PAGE_SIZE - 1) & ~(PAGE_SIZE - 1)] and its number of pages, an [unsigned]. *)
Definition round_up (size : Z) : Z := Z.land (u64 (size + PAGE_SIZE - 1)) (not64 (PAGE_SIZE - 1)).
Definition page_count (size : Z) : Z := u32 (size / PAGE_SIZE).

(** [while (pages--)] of [vmap] *)
Fixpoint vmap_loop (n : nat) (root phys p : Z) (s : pstate) : outcome pstate :=
  match n with
  | O => mret s
  | S n =>
    '(_, s) ← install_page root phys p s;
    vmap_loop n root (u64 (phys + PAGE_SIZE)) (u64 (p + PAGE_SIZE)) s
  end.
Definition vmap (phys size : Z) : M Z :=
  let size := round_up size in
  let pages := page_count size in
  mem ← alloc_vpages pages;
  let phys := Z.land phys (not64 (PAGE_SIZE - 1)) in
  root ← gets page_root;
  on_pages_do (vmap_loop (Z.to_nat pages) root phys mem);;
  mret mem.

Definition ioremap (phys_addr size : Z) : M Z :=
  let base := Z.land phys_addr PAGE_MASK in
  let offset := u64 (phys_addr - base) in
  p ← vmap phys_addr size;
  mret (u64 (p + offset)).

(** A load or store at [va] reaches the physical address that the page tables say. *)
Definition access (va : Z) : M Z :=
  s ← get;
  if Z.land (vm_cr0 s) X86_CR0_PG =? 0 then mret va
  else match translate X86 4 (pmem (vm_pages s)) (vm_cr3 s) (low48 va) with
       | Some (pa, _) => mret pa
       | None => lift Fault
       end.

(** [while (pages--)] of [vm_memalign] *)
Fixpoint memalign_loop (n : nat) (root p : Z) (s : pstate) : outcome pstate :=
  match n with
  | O => mret s
  | S n =>
    '(page, s) ← alloc_page s;
    let pa := virt_to_phys page in
    '(_, s) ← install_page root pa p s;
    memalign_loop n root (u64 (p + PAGE_SIZE)) s
  end.
Definition vm_memalign (alignment size : Z) : M Z :=
  lift (c_assert (alignment <=? PAGE_SIZE));;
  let size := round_up size in
  let pages := page_count size in
  mem ← alloc_vpages pages;
  root ← gets page_root;
  on_pages_do (memalign_loop (Z.to_nat pages) root mem);;
  mret mem.

(** [while (size)] of [vm_free] *)
Fixpoint free_loop (fuel : nat) (root mem size : Z) (s : pstate) : outcome pstate :=
  if size =? 0 then mret s
  else
    match fuel with
    | O => NoFuel
    | S f =>
      pa ← virt_to_pte_phys root mem s;
      s ← free_page (phys_to_virt pa) s;
      free_loop f root (u64 (mem + PAGE_SIZE)) (u64 (size - PAGE_SIZE)) s
    end.
Definition vm_free (fuel : nat) (mem size : Z) : M unit :=
  root ← gets page_root;
  on_pages_do (free_loop fuel root mem size).

Definition X86_CR0_WP : Z := 0x10000.

Definition setup_mmu (fuel : nat) (end_of_memory : Z) : M Z :=
  cr3 ← on_pages alloc_page;
  on_pages_do (λ p, mret (st_zero_page cr3 p));;
  let end_of_memory := if end_of_memory <? Z.shiftl 1 32 then Z.shiftl 1 32 else end_of_memory in
  on_pages_do (setup_mmu_range fuel cr3 0 end_of_memory);;
  modify (set_vm_cr3 (virt_to_phys cr3));;
  modify (set_vm_cr0 (Z.lor (Z.lor X86_CR0_PG X86_CR0_PE) X86_CR0_WP));;
  printf "paging enabled\n" [];;
  cr0 ← gets vm_cr0;
  printf "cr0 = %lx\n" [PInt cr0];;
  v ← gets vm_cr3;
  printf "cr3 = %lx\n" [PInt v];;
  v ← gets vm_cr4;
  printf "cr4 = %lx\n" [PInt v];;
  mret cr3.

Definition setup_vm (fuel : nat) : M unit :=
  ops ← gets vm_ops;
  if decide (ops = vmalloc) then mret tt
  else
    '(base, top) ← zoom vm_phys set_vm_phys Phys.phys_alloc_get_unused;
    init ← gets (λ s, page_alloc_initialized (vm_pages s));
    lift (c_assert (negb (base =? top) || init));;
    '(base, top) ←
      (if init : bool then mret (base, top) : M (Z * Z)
       else
         let base := Z.land (u64 (base + PAGE_SIZE - 1)) (u64 (- PAGE_SIZE)) in
         let top := Z.land top (u64 (- PAGE_SIZE)) in
         on_pages_do (free_pages (phys_to_virt base) (u64 (top - base)));;
         mret (base, top));
    root ← setup_mmu fuel top;
    modify (set_page_root root);;
    modify (set_vm_ops vmalloc).
End Vm.

(** ** Proofs *)

(** *** The low 48 bits of an address *)
Lemma low48_range va : 0 ≤ low48 va < 2 ^ 48.
Proof. apply Z.mod_pos_bound. lia. Qed.

Lemma low48_id va : 0 ≤ va < 2 ^ 48 → low48 va = va.
Proof. intros. by apply Z.mod_small. Qed.

Lemma low48_u64 x : low48 (u64 x) = low48 x.
Proof.
  unfold low48, u64. replace (2 ^ 64) with (2 ^ 48 * 2 ^ 16) by reflexivity.
  rewrite Z.rem_mul_r, Z.mul_comm, Z.mod_add, Z.mod_mod by lia. done.
Qed.

(** Inside a range that does not wrap in the low 48 bits. *)
Lemma low48_add v k : 0 ≤ k → low48 v + k < 2 ^ 48 → low48 (v + k) = low48 v + k.
Proof.
  intros Hk Hv. unfold low48 in *. rewrite <- (Z.mod_small (v mod 2 ^ 48 + k) (2 ^ 48)).
  - by rewrite Z.add_mod_idemp_l by lia.
  - pose proof (Z.mod_pos_bound v (2 ^ 48)). lia.
Qed.

Lemma low48_page v : low48 v mod 4096 = v mod 4096.
Proof.
  unfold low48. change (2 ^ 48) with (4096 * 2 ^ 36).
  rewrite Z.rem_mul_r, Z.mul_comm, Z.mod_add, Z.mod_mod by lia. done.
Qed.

Lemma PGDIR_OFFSET_low va lv : (1 ≤ lv ≤ 4)%nat → PGDIR_OFFSET (low48 va) lv = PGDIR_OFFSET va lv.
Proof.
  intros Hl. rewrite !PGDIR_OFFSET_div by lia. unfold low48.
  assert (0 ≤ PGDIR_BITS lv ≤ 39) as Hb by (unfold PGDIR_BITS, PGDIR_WIDTH, PAGE_SHIFT; lia).
  change 512 with (2 ^ 9). rewrite <- !Z.land_ones, <- !Z.shiftr_div_pow2 by lia.
  apply Z.bits_inj'. intros i Hi. rewrite !Z.land_spec, !Z.shiftr_spec, Z.land_spec by lia.
  rewrite !Z.testbit_ones_nonneg by lia.
  destruct (Z.ltb_spec i 9); [|by rewrite !andb_false_r].
  rewrite (proj2 (Z.ltb_lt _ _)) by lia. by rewrite !andb_true_r.
Qed.

Section low.
Context {St : Type} `{PageSource St}.

Lemma install_pte_walk_low l tl va pte pp pt (s : St) :
  (0 < tl ≤ l)%nat → (l ≤ 4)%nat →
  install_pte_walk l tl (low48 va) pte pp pt s = install_pte_walk l tl va pte pp pt s.
Proof.
  revert pp pt s. induction l as [|l IH]; intros pp pt s Htl Hl; [lia|].
  cbn [install_pte_walk]. rewrite PGDIR_OFFSET_low by lia.
  destruct (Nat.ltb_spec tl (S l)); [|done].
  destruct (if _ =? 0 then _ else _) as [[? ?]| | | |]; [|done..].
  cbn [mbind outcome_bind]. apply IH; lia.
Qed.

Lemma install_page_low cr3 phys va (s : St) :
  install_page cr3 phys (low48 va) s = install_page cr3 phys va s.
Proof. apply install_pte_walk_low; unfold PAGE_LEVEL; lia. Qed.

Lemma find_pte_walk_low l low va pt (s : St) :
  (l ≤ 4)%nat → find_pte_walk l low (low48 va) pt s = find_pte_walk l low va pt s.
Proof.
  revert pt. induction l as [|l IH]; intros pt Hl; [done|].
  pose proof (PGDIR_OFFSET_low va (S l) ltac:(lia)) as E. unfold PGDIR_OFFSET, PGDIR_BITS in E.
  change PAGE_SHIFT with 12 in E.
  cbn [find_pte_walk]. rewrite E. do 3 (case_match; [done|]). apply IH. lia.
Qed.

Lemma virt_to_pte_phys_low cr3 va (s : St) :
  virt_to_pte_phys cr3 (low48 va) s = virt_to_pte_phys cr3 va s.
Proof.
  unfold virt_to_pte_phys, get_pte, find_pte_level.
  destruct (c_assert _); [|done..]. cbn [mbind outcome_bind].
  rewrite find_pte_walk_low by (unfold PAGE_LEVEL; lia).
  change (PAGE_SIZE - 1) with (Z.ones 12). by rewrite !Z.land_ones, !(low48_page va : _ mod 2 ^ 12 = _) by lia.
Qed.
End low.

Lemma low48_next p cur : low48 p = cur → cur + 4096 < 2 ^ 48 → low48 (u64 (p + PAGE_SIZE)) = cur + 4096.
Proof. intros <- Hlt. rewrite low48_u64, PAGE_SIZE_val. apply low48_add; lia. Qed.

(** *** [vmap] *)
Lemma vmap_loop_blocks root delta n : ∀ cur phys p s s',
  (n ≠ O → low48 p = cur) → cur + delta = phys → 0 ≤ phys → phys + Z.of_nat n * 4096 ≤ 2 ^ 52 →
  cur + Z.of_nat n * 4096 ≤ 2 ^ 48 →
  map_blocks (λ root tl va pte s, '(_, s') ← install_pte root tl va pte 0 s; mret s')
    root 1 7 delta n cur s = Done s' →
  Vm.vmap_loop n root phys p s = Done s'.
Proof.
  induction n as [|n IH]; intros cur phys p s s' Hp Hd H0 Hpl Hcl; cbn [map_blocks Vm.vmap_loop]; [done|].
  intros Es. apply bind_Done_inv in Es as (s1 & E1 & Es). change (2 ^ PGDIR_BITS 1) with 4096 in Es.
  rewrite Hd in E1. rewrite <- install_page_low, (Hp ltac:(done)).
  destruct (install_page_flags root phys cur s) as [-> _]. change (x86_flags 1) with 7.
  apply bind_Done_inv in E1 as ([a s2] & -> & [= ->]). cbn [mbind outcome_bind].
  apply (IH (cur + 4096)); [|rewrite PAGE_SIZE_val, u64_small by (unfold in_u64; lia); lia| | |lia|done].
  - intros Hn. apply low48_next; [by apply Hp|lia].
  - apply u64_range.
  - rewrite PAGE_SIZE_val, u64_small by (unfold in_u64; lia). lia.
Qed.

Section pages.
Context (root : Z).
Abbreviation tr s := (translate X86 4 (pmem s) root).

(** The address space with the tables [own] at [root], and the free frames. *)
Record space (s : pstate) (FR : list Z) (own : Z → Prop) : Prop := {
  sp_tree : tree X86 4 (pmem s) root own;
  sp_free : free_list s FR;
  sp_fresh : fresh_frames own FR
}.
(** Nothing is mapped in the range, and the tables on the way give all permissions. *)
Definition unmapped (s : pstate) (lo hi : Z) : Prop :=
  ∀ va, lo ≤ va < hi → tr s va = None ∧ ∀ tl, path_perm X86 tl 4 (pmem s) root va = 7.

Lemma vmap_loop_ok n cur phys p s FR own :
  space s FR own → (n ≠ O → low48 p = cur) → 0 ≤ cur → cur mod 4096 = 0 →
  cur + Z.of_nat n * 4096 ≤ 2 ^ 48 →
  0 ≤ phys → phys mod 4096 = 0 → phys + Z.of_nat n * 4096 ≤ 2 ^ 52 →
  unmapped s cur (cur + Z.of_nat n * 4096) →
  ntables 1 4 cur (cur + Z.of_nat n * 4096) + 3 ≤ Z.of_nat (length FR) →
  ∃ s' FR' own', Vm.vmap_loop n root phys p s = Done s' ∧ space s' FR' own' ∧ FR' `suffix_of` FR ∧
    Z.of_nat (length FR) - (ntables 1 4 cur (cur + Z.of_nat n * 4096) + 3) ≤ Z.of_nat (length FR') ∧
    ∀ va, 0 ≤ va < 2 ^ 48 → tr s' va =
      if (cur <=? va) && (va <? cur + Z.of_nat n * 4096) then Some (phys + (va - cur), 7) else tr s va.
Proof.
  intros [Ht Hf Hfr] Hp Hc Hca Hcl Hp0 Hpa Hpl Hun Hlen.
  destruct (map_blocks_ok X86 (λ root tl va pte s, '(_, s') ← install_pte root tl va pte 0 s; mret s')
    root cur (cur + Z.of_nat n * 4096) (phys - cur) 7 (tr s) (pmem s) own FR ltac:(lia)
    (λ va H, proj1 (Hun va H)) 1 7 n 3 cur s FR own
    (Z.of_nat (length FR) - (ntables 1 4 cur (cur + Z.of_nat n * 4096) + 3)))
    as (s' & FR' & own' & x' & E & _ & [It If Ifr Isuf _ _ Itr _ _] & Hleft & _);
    change (2 ^ PGDIR_BITS 1) with 4096 in *;
    rewrite ?(Z.add_comm cur (phys - cur)), ?Z.sub_add; try done; try lia.
  - split; try done.
    + by left.
    + intros va Hr. destruct (Z.leb_spec cur va), (Z.ltb_spec va cur); done || lia.
    + intros tl va Hr. by apply Hun.
    + intros tl Htl _. etransitivity; [apply missing_le|]. lia.
  - exists s', FR', own'. split.
    { by apply (vmap_loop_blocks root (phys - cur) n cur phys p s s'); try done; lia. }
    split; [by split|]. split; [done|]. split; [lia|]. intros va Hr. rewrite (Itr va Hr : tr s' va = _).
    destruct (_ && _); [|done]. do 2 f_equal. lia.
Qed.
End pages.

(** *** Pages of an allocation *)
Definition npages (size : Z) : Z := (size + 4095) / 4096.

Lemma land_page_mask x : in_u64 x → Z.land x (not64 (4096 - 1)) = x - x mod 4096.
Proof. apply (align_down_land 12). lia. Qed.

Lemma round_up_pages size : 0 ≤ size → size + 4095 < 2 ^ 64 → Vm.round_up size = npages size * 4096.
Proof.
  intros H0 H1. unfold Vm.round_up, npages. rewrite PAGE_SIZE_val.
  replace (size + 4096 - 1) with (size + 4095) by lia. rewrite u64_small by (unfold in_u64; lia).
  rewrite land_page_mask by (unfold in_u64; lia).
  pose proof (Z.div_mod (size + 4095) 4096 ltac:(lia)). lia.
Qed.

Lemma page_count_pages size :
  0 ≤ size → npages size < 2 ^ 32 → Vm.page_count (npages size * 4096) = npages size.
Proof.
  intros H0 Hn. unfold Vm.page_count. rewrite PAGE_SIZE_val, Z.div_mul by lia.
  apply u32_small. split; [|done]. apply Z.div_pos; lia.
Qed.

Lemma npages_range size : 0 ≤ size → npages size < 2 ^ 32 → 0 ≤ npages size ∧ size + 4095 < 2 ^ 64.
Proof.
  intros H0 Hn. unfold npages in *. split; [apply Z.div_pos; lia|].
  pose proof (Z.div_mod (size + 4095) 4096 ltac:(lia)). pose proof (Z.mod_pos_bound (size + 4095) 4096). lia.
Qed.

(** The next addresses [alloc_vpages] gives out. *)
Definition next_vpages (s : vm) (n : Z) : Z := u64 (vfree_top s - n * 4096).

Lemma alloc_vpages_ok n s :
  vm_lock s = 0 → 0 ≤ n < 2 ^ 32 →
  Vm.alloc_vpages n s = Done (next_vpages s n, set_vfree_top (next_vpages s n) s).
Proof.
  intros Hl Hn. destruct s. cbn in Hl. subst. unfold Vm.alloc_vpages, next_vpages. mrun.
  cbn [vm_lock spin_lock Z.eqb]. mrun. unfold gets. cbn.
  rewrite PAGE_SIZE_val, (u64_small (4096 * n)) by (unfold in_u64; lia). by rewrite (Z.mul_comm 4096).
Qed.

Lemma next_vpages_page s n : vfree_top s mod 4096 = 0 → next_vpages s n mod 4096 = 0.
Proof.
  intros Ht. rewrite <- low48_page. unfold next_vpages. rewrite low48_u64, low48_page.
  replace (vfree_top s - n * 4096) with (vfree_top s + (- n) * 4096) by lia. by rewrite Z.mod_add.
Qed.

(** What an allocation of [n] pages of addresses needs: the lock is free, there are
    addresses, the range is not mapped and there are frames. *)
Record vpages_pre (s : vm) (n frames : Z) (FR : list Z) (own : Z → Prop) : Prop := {
  vp_lock : vm_lock s = 0;
  vp_count : 0 ≤ n < 2 ^ 32;
  vp_top : vfree_top s mod 4096 = 0;
  vp_range : low48 (next_vpages s n) + n * 4096 ≤ 2 ^ 48;
  vp_space : space (page_root s) (vm_pages s) FR own;
  vp_unmapped : unmapped (page_root s) (vm_pages s) (low48 (next_vpages s n)) (low48 (next_vpages s n) + n * 4096);
  vp_frames : frames ≤ Z.of_nat (length FR)
}.
(** The frames for the tables of a range of consecutive addresses. *)
Definition vmap_tables (s : vm) (n : Z) : Z :=
  ntables 1 4 (low48 (next_vpages s n)) (low48 (next_vpages s n) + n * 4096) + 3.

Lemma vmap_ok phys size s FR own :
  0 ≤ size → vpages_pre s (npages size) (vmap_tables s (npages size)) FR own →
  0 ≤ phys → phys - phys mod 4096 + npages size * 4096 ≤ 2 ^ 52 →
  let n := npages size in let v := next_vpages s n in
  ∃ p' FR' own', Vm.vmap phys size s = Done (v, set_vm_pages p' (set_vfree_top v s)) ∧
    space (page_root s) p' FR' own' ∧ FR' `suffix_of` FR ∧
    Z.of_nat (length FR) - vmap_tables s n ≤ Z.of_nat (length FR') ∧
    ∀ va, 0 ≤ va < 2 ^ 48 → translate X86 4 (pmem p') (page_root s) va =
      if (low48 v <=? va) && (va <? low48 v + n * 4096)
      then Some (phys - phys mod 4096 + (va - low48 v), 7)
      else translate X86 4 (pmem (vm_pages s)) (page_root s) va.
Proof.
  intros Hs [Hl [Hn0 Hn] Ht Hr Hsp Hun Hfr] Hp Hpl n v. unfold vmap_tables in Hfr.
  fold n in Hpl, Hr, Hun, Hfr, Hn, Hn0. fold v in Hr, Hun, Hfr.
  destruct (npages_range size Hs Hn) as [_ Hs64].
  pose proof (low48_range v). pose proof (Z.mod_pos_bound phys 4096).
  pose proof (Z.mod_le phys 4096).
  destruct (vmap_loop_ok (page_root s) (Z.to_nat n) (low48 v) (phys - phys mod 4096) v (vm_pages s) FR own)
    as (p' & FR' & own' & E & Hsp' & Hsuf & Hleft & Htr); rewrite ?Z2Nat.id in * by lia; try done; try lia.
  { rewrite low48_page. by apply next_vpages_page. }
  { rewrite Zminus_mod_idemp_r, Z.sub_diag. done. }
  exists p', FR', own'. split; [|split; [done|split; [done|split; [|done]]]; unfold vmap_tables; fold v n; lia].
  unfold Vm.vmap. rewrite round_up_pages by lia. fold n. cbv zeta.
  change (npages size) with n. rewrite (page_count_pages size Hs Hn : Vm.page_count (n * 4096) = n).
  rewrite (stM_bind_Done _ _ _ _ _ (alloc_vpages_ok n s Hl ltac:(lia))). mrun.
  rewrite PAGE_SIZE_val. rewrite land_page_mask by (unfold in_u64; lia).
  unfold Vm.on_pages_do, Vm.on_pages. 
  rewrite (bind_zoom _ _ _ _ _ tt p'); [done|]. cbn [vm_pages set_vfree_top page_root]. fold v. by rewrite E.
Qed.

(** *** [vm_memalign] and [vm_free] *)
Section blocks_of_pages.
Context (root : Z).
Abbreviation tr s := (translate X86 4 (pmem s) root).
Abbreviation miss s := (missing X86 1 4 (pmem s) root).

(** One page. *)
Lemma install_page_one cur phys s FR own :
  space root s FR own → 0 ≤ cur → cur mod 4096 = 0 → cur + 4096 ≤ 2 ^ 48 →
  0 ≤ phys < 2 ^ 52 → phys mod 4096 = 0 → unmapped root s cur (cur + 4096) → (3 ≤ length FR)%nat →
  ∃ a s' used FR', install_page root phys cur s = Done (a, s') ∧ FR = used ++ FR' ∧ (length used ≤ 3)%nat ∧
    space root s' FR' (λ p, own p ∨ p ∈ used) ∧
    (∀ va, 0 ≤ va < 2 ^ 48 → cur ≤ va < cur + 4096 → tr s' va = Some (phys + (va - cur), 7) ∧ miss s' va = O) ∧
    (∀ va, 0 ≤ va < 2 ^ 48 → ¬ cur ≤ va < cur + 4096 → tr s' va = tr s va ∧ (miss s' va ≤ miss s va)%nat ∧
       ∀ tl, path_perm X86 tl 4 (pmem s') root va = path_perm X86 tl 4 (pmem s) root va).
Proof.
  intros [Ht Hf Hfr] Hc Hca Hcl Hp Hpa Hun Hlen.
  destruct (leaf_pte_ok X86 1 phys 7) as (He & Hpr & Hlf & Ha & Hpm); try done; try lia.
  destruct (Hun cur ltac:(lia)) as [Hno Hperm].
  destruct (install_pte_walk_ok 4 1 root cur (Z.lor 7 phys) own FR s)
    as (a & s' & used & FR' & EF & E & Hf' & Hins & _); try done; try lia.
  { etransitivity; [apply missing_le|lia]. }
  exists a, s', used, FR'. split.
  { destruct (install_page_flags root phys cur s) as [-> _]. exact E. }
  pose proof (ins_used _ _ _ _ _ _ _ _ _ _ Hins) as Hu.
  pose proof (missing_le X86 1 4 (pmem s) root cur).
  assert (∀ va, 0 ≤ va < 2 ^ 48 → same_path 1 4 cur va = true ↔ cur ≤ va < cur + 4096) as Hpath.
  { intros va Hva. rewrite path_block, bool_decide_eq_true by lia.
    change (PGDIR_BITS 1) with 12. change (2 ^ 12) with 4096.
    rewrite (same_block 4096 cur va ltac:(lia) Hca). lia. }
  split; [done|]. split; [rewrite Hu; cbn [ps_mem pstate_source]; lia|]. split.
  { subst FR. split; [apply Hins|done|]. intros p Hp' [Ho|Hq].
    - by apply (Hfr p); [apply elem_of_app; by right|].
    - destruct Hf as (_ & _ & (_ & Hd & _)%NoDup_app & _). by apply (Hd p). }
  split; intros va Hva Hin.
  - pose proof (proj2 (Hpath va Hva) Hin) as Hsp. split.
    + rewrite (ins_translate _ _ _ _ _ _ _ _ _ _ Hins va : tr s' va = _), Hsp.
      unfold leaf_at. rewrite Hpr, Ha, Hpm, Hperm. change (PGDIR_BITS 1) with 12. change (2 ^ 12) with 4096.
      rewrite (block_offset 4096 cur va) at 2 by (done || lia). do 2 f_equal; try done. 
      change (pf_full X86) with 7. lia.
    + enough (miss s' va ≤ 0)%nat by lia.
      apply (ins_near _ _ _ _ _ _ _ _ _ _ Hins 2 1 va); [lia|lia|].
      rewrite path_block, bool_decide_eq_true by lia. change (2 ^ PGDIR_BITS 2) with (4096 * 512).
      rewrite <- !Z.div_div by lia. f_equal. by apply (same_block 4096).
  - assert (same_path 1 4 cur va = false) as Hsp by (apply not_true_is_false; by rewrite Hpath).
    split; [|split].
    + by rewrite (ins_translate _ _ _ _ _ _ _ _ _ _ Hins va : tr s' va = _), Hsp.
    + by apply (ins_mono _ _ _ _ _ _ _ _ _ _ Hins).
    + intros tl. by apply (ins_perm _ _ _ _ _ _ _ _ _ _ Hins).
Qed.

(** The [i]-th page of the block at [cur] is the frame [pages !! i]. *)
Definition block_maps (s : pstate) (cur : Z) (pages : list Z) : Prop :=
  ∀ i page, pages !! i = Some page → ∀ o, 0 ≤ o < 4096 →
    tr s (cur + Z.of_nat i * 4096 + o) = Some (page + o, 7) ∧ miss s (cur + Z.of_nat i * 4096 + o) = O.

Lemma memalign_loop_ok n : ∀ cur p s FR own,
  space root s FR own → (n ≠ O → low48 p = cur) → 0 ≤ cur → cur mod 4096 = 0 →
  cur + Z.of_nat n * 4096 ≤ 2 ^ 48 → unmapped root s cur (cur + Z.of_nat n * 4096) →
  (4 * n ≤ length FR)%nat →
  ∃ s' pages FR' own', Vm.memalign_loop n root p s = Done s' ∧ length pages = n ∧
    space root s' FR' own' ∧ NoDup (pages ++ FR') ∧ Forall page_ok pages ∧
    (∀ q, q ∈ pages → q ∈ FR ∧ ¬ own' q) ∧ (∀ q, own' q → own q ∨ q ∈ FR) ∧ FR' `suffix_of` FR ∧
    block_maps s' cur pages ∧
    ∀ va, 0 ≤ va < 2 ^ 48 → ¬ cur ≤ va < cur + Z.of_nat n * 4096 →
      tr s' va = tr s va ∧ (miss s' va ≤ miss s va)%nat.
Proof.
  induction n as [|n IH]; intros cur p s FR own Hsp Hp Hc Hca Hcl Hun Hlen; cbn [Vm.memalign_loop].
  { exists s, [], FR, own. split; [done|]. split; [done|]. split; [done|]. split; [apply Hsp|].
    split; [done|]. split; [by intros q ?%elem_of_nil|]. split; [by left|]. split; [done|].
    split; [done|]. done. }
  destruct FR as [|page FR]; [cbn in Hlen; lia|]. destruct Hsp as [Ht Hf Hfr].
  destruct (alloc_page_cons s page FR Hf) as (s1 & E1 & Hf1 & Hm1). rewrite E1.
  assert (ps_free s (page :: FR)) as Hfs by exact Hf.
  destruct (free_split s page FR own Hfs Hfr) as (Hpok & Hpn & Hpf & Hfr1 & _).
  assert (space root s1 FR own) as Hsp1 by (split; [by rewrite Hm1|done|done]).
  cbn [mbind outcome_bind]. unfold virt_to_phys. rewrite <- install_page_low, Hp by done.
  destruct (install_page_one cur page s1 FR own) as (a & s2 & used & FR2 & E2 & -> & Hu & Hsp2 & Hin & Hout);
    try done; try lia.
  { destruct Hpok as (? & ? & ?). lia. }
  { by apply page_ok_aligned. }
  { intros va Hva. rewrite Hm1. apply Hun. lia. }
  { cbn in Hlen. lia. }
  rewrite E2. cbn [mbind outcome_bind].
  destruct (IH (cur + 4096) (u64 (p + PAGE_SIZE)) s2 FR2 _ Hsp2)
    as (s' & pages & FR' & own' & E' & Hl & Hsp' & Hnd & Hall & Hpg & Hown & Hsuf & Hbm & Hrest).
  { intros Hn. apply low48_next; [by apply Hp|lia]. }
  { lia. }
  { by apply aligned_add. }
  { lia. }
  { intros va Hva. destruct (Hout va) as (-> & _ & Hpp); [lia|lia|]. rewrite Hm1 in Hpp |- *.
    split; [apply Hun; lia|]. intros tl. rewrite Hpp. apply Hun. lia. }
  { cbn in Hlen. rewrite length_app in Hlen. lia. }
  exists s', (page :: pages), FR', own'. split; [done|]. split; [cbn; by rewrite Hl|]. split; [done|].
  assert (page ∉ pages ++ FR') as Hpn'.
  { rewrite elem_of_app. intros [Hq|Hq]; apply Hpf, elem_of_app; right.
    - by apply Hpg.
    - destruct Hsuf as [k ->]. apply elem_of_app. by right. }
  split; [by apply NoDup_cons|]. split; [by apply Forall_cons|]. split; [|split; [|split; [|split]]].
  - intros q [->|Hq]%elem_of_cons.
    + split; [by left|]. intros [[Ho|Hq]|Hq]%Hown; [done|..]; apply Hpf, elem_of_app; auto.
    + destruct (Hpg q Hq). split; [|done]. right. apply elem_of_app. by right.
  - intros q [[Ho|Hq]|Hq]%Hown; [by left|right..]; right; apply elem_of_app; auto.
  - destruct Hsuf as [k ->]. exists (page :: used ++ k). cbn. by rewrite <- app_assoc.
  - intros [|i] pg Hpg' o Ho; cbn in Hpg'.
    + injection Hpg' as <-. replace (cur + Z.of_nat 0 * 4096 + o) with (cur + o) by lia.
      destruct (Hrest (cur + o)) as [-> Hm]; [lia|lia|]. destruct (Hin (cur + o)) as [-> Hm2]; [lia|lia|].
      split; [do 2 f_equal; lia|lia].
    + replace (cur + Z.of_nat (S i) * 4096 + o) with (cur + 4096 + Z.of_nat i * 4096 + o) by lia.
      by apply Hbm.
  - intros va Hva Hn. destruct (Hrest va) as [-> Hm]; [lia|lia|].
    destruct (Hout va) as (-> & Hm2 & _); [lia|lia|]. rewrite Hm1 in *. split; [done|lia].
Qed.

Lemma free_loop_ok pages : ∀ cur p s FR own fuel,
  space root s FR own → (pages ≠ [] → low48 p = cur) → 0 ≤ cur →
  cur + Z.of_nat (length pages) * 4096 ≤ 2 ^ 48 → block_maps s cur pages →
  NoDup (pages ++ FR) → Forall page_ok pages → (∀ q, q ∈ pages → ¬ own q) →
  (length pages ≤ fuel)%nat →
  ∃ s', Vm.free_loop fuel root p (Z.of_nat (length pages) * 4096) s = Done s' ∧
    space root s' (reverse pages ++ FR) own ∧ ∀ va, tr s' va = tr s va.
Proof.
  induction pages as [|page pages IH]; intros cur p s FR own fuel Hsp Hp Hc Hcl Hbm Hnd Hall Hno Hf.
  { exists s. split; [by destruct fuel|]. split; [done|]. done. }
  destruct fuel as [|fuel]; [cbn in Hf; lia|]. destruct Hsp as [Ht Hfl Hfr].
  apply Forall_cons in Hall as [Hok Hall]. cbn in Hnd. apply NoDup_cons in Hnd as [Hpn Hnd].
  destruct (Hbm O page eq_refl 0) as [Htr Hm]; [lia|].
  replace (cur + Z.of_nat 0 * 4096 + 0) with cur in * by lia.
  destruct (virt_to_pte_phys_ok root cur own s (page + 0) 7) as (base & lv & _ & _ & _ & Ev); [exact Ht|exact Hc|exact Htr|].
  specialize (Ev (missing_reach 4 _ _ _ ltac:(lia) Hm ltac:(by rewrite Htr))).
  cbn [Vm.free_loop length].
  rewrite (proj2 (Z.eqb_neq (Z.of_nat (S (length pages)) * 4096) 0)) by lia.
  rewrite <- virt_to_pte_phys_low, Hp, Ev by done. cbn [mbind outcome_bind]. unfold phys_to_virt.
  rewrite Z.add_0_r, (u64_small page) by (destruct Hok as (? & _ & ?); unfold in_u64; lia).
  destruct (free_page_cons s page FR Hfl Hok) as (s1 & E1 & Hfl1 & Hm1).
  { intros Hin. apply Hpn, elem_of_app. by right. }
  rewrite E1. cbn [mbind outcome_bind].
  assert (∀ q, own q → same_page (pmem s) (pmem s1) q) as Hsame.
  { intros q Hq i Hi. apply Hm1. pose proof (tree_own_ok _ _ _ _ _ _ Ht Hq) as Hqok.
    pose proof (slot_ne q page i 0 (page_ok_aligned _ Hqok) (page_ok_aligned _ Hok)) as Hs.
    rewrite Z.add_0_r in Hs. apply Hs; [|done|lia]. intros ->. by apply (Hno page); [left|]. }
  destruct (walk_frame X86 4 _ _ _ _ Ht Hsame) as (Htr1 & _ & Hmi1).
  destruct (IH (cur + 4096) (u64 (p + PAGE_SIZE)) s1 (page :: FR) own fuel) as (s' & E & Hsp' & Htr').
  - split; [by apply (tree_frame X86 4 (pmem s))|done|].
    intros q [->|Hq]%elem_of_cons; [by apply Hno; left|by apply Hfr].
  - intros Hn. apply low48_next; [by apply Hp|]. destruct pages; [done|]. cbn [length] in Hcl. lia.
  - lia.
  - cbn [length] in Hcl. lia.
  - intros i pg Hpg o Ho. destruct (Hbm (S i) pg Hpg o Ho) as [H1 H2].
    replace (cur + Z.of_nat (S i) * 4096 + o) with (cur + 4096 + Z.of_nat i * 4096 + o) in * by lia.
    by rewrite Htr1, Hmi1.
  - rewrite <- Permutation_middle. by apply NoDup_cons.
  - done.
  - intros q Hq. apply Hno. by right.
  - cbn in Hf. lia.
  - exists s'. cbn [length] in Hcl. rewrite PAGE_SIZE_val in *.
    replace (u64 (Z.of_nat (S (length pages)) * 4096 - 4096)) with (Z.of_nat (length pages) * 4096)
      by (rewrite u64_small; unfold in_u64; lia).
    split; [exact E|]. split; [|intros va; by rewrite Htr', Htr1].
    by rewrite reverse_cons, <- app_assoc.
Qed.
End blocks_of_pages.

Lemma on_pages_do_ok f s p' : f (vm_pages s) = Done p' → Vm.on_pages_do f s = Done (tt, set_vm_pages p' s).
Proof. intros E. unfold Vm.on_pages_do, Vm.on_pages, zoom. by rewrite E. Qed.

Lemma vm_memalign_ok alignment size s FR own :
  0 ≤ size → alignment ≤ PAGE_SIZE → vpages_pre s (npages size) (4 * npages size) FR own →
  let n := npages size in let v := next_vpages s n in
  ∃ p' pages FR' own', Vm.vm_memalign alignment size s = Done (v, set_vm_pages p' (set_vfree_top v s)) ∧
    length pages = Z.to_nat n ∧ space (page_root s) p' FR' own' ∧ NoDup (pages ++ FR') ∧ Forall page_ok pages ∧
    (∀ q, q ∈ pages → q ∈ FR ∧ ¬ own' q) ∧ (∀ q, own' q → own q ∨ q ∈ FR) ∧ FR' `suffix_of` FR ∧
    block_maps (page_root s) p' (low48 v) pages ∧
    ∀ va, 0 ≤ va < 2 ^ 48 → ¬ low48 v ≤ va < low48 v + n * 4096 →
      translate X86 4 (pmem p') (page_root s) va = translate X86 4 (pmem (vm_pages s)) (page_root s) va.
Proof.
  intros Hs Hal [Hl [Hn0 Hn] Ht Hr Hsp Hun Hfr] n v. fold n in Hr, Hun, Hfr, Hn, Hn0. fold v in Hr, Hun.
  destruct (npages_range size Hs Hn) as [_ Hs64]. pose proof (low48_range v).
  destruct (memalign_loop_ok (page_root s) (Z.to_nat n) (low48 v) v (vm_pages s) FR own)
    as (p' & pages & FR' & own' & E & Hlen & Hsp' & Hnd & Hall & Hpg & Hown & Hsuf & Hbm & Hrest);
    rewrite ?Z2Nat.id in * by lia; try done; try lia.
  { rewrite low48_page. by apply next_vpages_page. }
  exists p', pages, FR', own'. split.
  { unfold Vm.vm_memalign. rewrite (proj2 (Z.leb_le _ _) Hal). cbn [c_assert]. rewrite bind_lift_Done.
    rewrite round_up_pages by lia. fold n. cbv zeta.
    rewrite (page_count_pages size Hs Hn : Vm.page_count (n * 4096) = n).
    rewrite (stM_bind_Done _ _ _ _ _ (alloc_vpages_ok n s Hl ltac:(lia))). mrun.
    fold v. cbn [page_root set_vfree_top].
    by rewrite (stM_bind_Done _ _ _ _ _ (on_pages_do_ok _ _ p' (E : _ (vm_pages (set_vfree_top v s)) = _))). }
  repeat (split; [done|]). intros va Hva Hn'. by apply Hrest.
Qed.

Lemma ioremap_ok phys_addr size s FR own :
  let n := npages size in let v := next_vpages s n in let off := phys_addr mod 4096 in
  0 < size → 0 ≤ phys_addr → phys_addr - off + n * 4096 ≤ 2 ^ 52 →
  vpages_pre s n (vmap_tables s n) FR own →
  ∃ p' FR' own', Vm.ioremap phys_addr size s = Done (v + off, set_vm_pages p' (set_vfree_top v s)) ∧
    space (page_root s) p' FR' own' ∧ FR' `suffix_of` FR ∧
    Z.of_nat (length FR) - vmap_tables s n ≤ Z.of_nat (length FR') ∧ low48 (v + off) = low48 v + off ∧
    (∀ o, 0 ≤ o → off + o < n * 4096 →
      translate X86 4 (pmem p') (page_root s) (low48 (v + off) + o) = Some (phys_addr + o, 7)) ∧
    (∀ va, 0 ≤ va < 2 ^ 48 → ¬ low48 v ≤ va < low48 v + n * 4096 →
      translate X86 4 (pmem p') (page_root s) va = translate X86 4 (pmem (vm_pages s)) (page_root s) va).
Proof.
  intros n v off Hs Hp Hpl Hpre. pose proof Hpre as [_ _ Htop Hr _ _ _]. fold v in Hr.
  destruct (vmap_ok phys_addr size s FR own) as (p' & FR' & own' & E & Hsp & Hsuf & Hleft & Htr); try done; [lia|].
  fold n v off in E, Htr.
  pose proof (low48_range v). pose proof (Z.mod_pos_bound phys_addr 4096 ltac:(lia)) as Ho. fold off in Ho.
  assert (1 ≤ n) as Hn by (apply Z.div_le_lower_bound; lia).
  assert (low48 (v + off) = low48 v + off) as El by (apply low48_add; lia).
  exists p', FR', own'. split.
  { unfold Vm.ioremap, PAGE_MASK. rewrite PAGE_SIZE_val, land_page_mask by (unfold in_u64; lia). fold off. cbv zeta.
    rewrite (u64_small (phys_addr - (phys_addr - off))) by (unfold in_u64; lia).
    rewrite (stM_bind_Done _ _ _ _ _ E). replace (phys_addr - (phys_addr - off)) with off by lia.
    assert (v mod 4096 = 0) as Hv by (by apply next_vpages_page).
    pose proof (u64_range (vfree_top s - n * 4096) : 0 ≤ v < 2 ^ 64) as Hvr.
    assert (v = 4096 * (v / 4096)) as Hv4 by (rewrite (Z.div_mod v 4096) at 1 by done; lia).
    change (2 ^ 64) with (4096 * 2 ^ 52) in Hvr.
    rewrite (u64_small (v + off)); [done|]. unfold in_u64. change (2 ^ 64) with (4096 * 2 ^ 52). lia. }
  split; [done|]. split; [done|]. split; [done|]. split; [done|]. split.
  - intros o Ho1 Ho2. rewrite El, Htr by lia.
    rewrite (proj2 (Z.leb_le _ _)), (proj2 (Z.ltb_lt _ _)) by lia. cbn [andb]. do 2 f_equal. lia.
  - intros va Hva Hn'. rewrite Htr by done.
    destruct (Z.leb_spec (low48 v) va), (Z.ltb_spec va (low48 v + n * 4096)); cbn [andb]; done || lia.
Qed.

(** A page of device registers at [pa] is mapped at [va]. *)
Record device_mapped (s : vm) (va pa : Z) : Prop := {
  dv_pg : Z.land (vm_cr0 s) X86_CR0_PG ≠ 0;
  dv_map o : 0 ≤ o < 4096 → translate X86 4 (pmem (vm_pages s)) (vm_cr3 s) (low48 (u64 (va + o))) = Some (pa + o, 7)
}.
Lemma access_ok s va pa o : device_mapped s va pa → 0 ≤ o < 4096 → Vm.access (u64 (va + o)) s = Done (pa + o, s).
Proof.
  intros [Hpg Hm] Ho. unfold Vm.access, mbind, stM_bind, get. by rewrite (proj2 (Z.eqb_neq _ _) Hpg), Hm.
Qed.
Lemma ioremap_device pa s FR own : let v := next_vpages s 1 in
  0 ≤ pa → pa mod 4096 = 0 → pa + 4096 ≤ 2 ^ 52 → vpages_pre s 1 (vmap_tables s 1) FR own →
  Z.land (vm_cr0 s) X86_CR0_PG ≠ 0 → vm_cr3 s = page_root s →
  ∃ p', Vm.ioremap pa PAGE_SIZE s = Done (v, set_vm_pages p' (set_vfree_top v s)) ∧
    device_mapped (set_vm_pages p' (set_vfree_top v s)) v pa.
Proof.
  intros v Hp Ha Hpl Hpre Hpg Hcr. pose proof (vp_range _ _ _ _ _ Hpre) as Hr. fold v in Hr.
  destruct (ioremap_ok pa PAGE_SIZE s FR own ltac:(done) Hp) as (p' & FR' & own' & E & _ & _ & _ & El & Htr & _);
    [change (npages PAGE_SIZE) with 1; lia|done|].
  change (npages PAGE_SIZE) with 1 in *. fold v in E, El, Htr. rewrite Ha, Z.add_0_r in *.
  exists p'. split; [exact E|]. split; [exact Hpg|]. intros o Ho. cbn. rewrite Hcr, low48_u64, low48_add by lia. apply Htr; lia.
Qed.

(** ** Properties *)
(** C13: [ioremap] returns an address through which the device registers at
    [phys_addr] are seen, writable, up to the end of the last whole page of [size]
    bytes; the rest of the address space keeps its translations.  The size is
    rounded up without the offset in the page, so the tail of a range that crosses
    one more page boundary stays as it was. *)
Theorem ioremap_correct phys_addr size s FR own :
  let n := npages size in let v := next_vpages s n in let off := phys_addr mod 4096 in
  0 < size → 0 ≤ phys_addr → phys_addr - off + n * 4096 ≤ 2 ^ 52 →
  vpages_pre s n (vmap_tables s n) FR own →
  ∃ p' FR' own', Vm.ioremap phys_addr size s = Done (v + off, set_vm_pages p' (set_vfree_top v s)) ∧
    space (page_root s) p' FR' own' ∧ FR' `suffix_of` FR ∧ low48 (v + off) = low48 v + off ∧
    (∀ o, 0 ≤ o → off + o < n * 4096 →
      translate X86 4 (pmem p') (page_root s) (low48 (v + off) + o) = Some (phys_addr + o, 7)) ∧
    (∀ va, 0 ≤ va < 2 ^ 48 → ¬ low48 v ≤ va < low48 v + n * 4096 →
      translate X86 4 (pmem p') (page_root s) va = translate X86 4 (pmem (vm_pages s)) (page_root s) va).
Proof.
  intros n v off Hs Hp Hpl Hpre.
  destruct (ioremap_ok phys_addr size s FR own Hs Hp Hpl Hpre) as (p' & FR' & own' & E & Hsp & Hsuf & _ & H).
  by exists p', FR', own'.
Qed.

(** C12: [vm_memalign] returns a page-aligned block of distinct free frames, mapped
    one after the other and writable, that neither the page tables nor the free list
    use; nothing else changes its translation.  [vm_free] of the block puts exactly
    these frames back in front of the free list.  It does not unmap them: the block
    still translates to them. *)
Theorem vm_memalign_free alignment size fuel s FR own :
  let n := npages size in let v := next_vpages s n in
  0 ≤ size → alignment ≤ PAGE_SIZE → (Z.to_nat n ≤ fuel)%nat → vpages_pre s n (4 * n) FR own →
  ∃ s1 pages FR' own', Vm.vm_memalign alignment size s = Done (v, s1) ∧ v mod 4096 = 0 ∧
    length pages = Z.to_nat n ∧ pages ⊆ FR ∧ NoDup (pages ++ FR') ∧ (∀ q, q ∈ pages → ¬ own' q) ∧
    space (page_root s) (vm_pages s1) FR' own' ∧ vfree_top s1 = v ∧
    (∀ i page, pages !! i = Some page → ∀ o, 0 ≤ o < 4096 →
       translate X86 4 (pmem (vm_pages s1)) (page_root s) (low48 v + Z.of_nat i * 4096 + o) = Some (page + o, 7)) ∧
    (∀ va, 0 ≤ va < 2 ^ 48 → ¬ low48 v ≤ va < low48 v + n * 4096 →
       translate X86 4 (pmem (vm_pages s1)) (page_root s) va =
       translate X86 4 (pmem (vm_pages s)) (page_root s) va) ∧
    ∃ s2, Vm.vm_free fuel v (n * 4096) s1 = Done (tt, s2) ∧
      space (page_root s) (vm_pages s2) (reverse pages ++ FR') own' ∧
      ∀ va, translate X86 4 (pmem (vm_pages s2)) (page_root s) va =
            translate X86 4 (pmem (vm_pages s1)) (page_root s) va.
Proof.
  intros n v Hs Hal Hf Hpre. pose proof Hpre as [_ [Hn0 _] Htop Hr _ _ _]. fold v in Hr.
  destruct (vm_memalign_ok alignment size s FR own Hs Hal Hpre)
    as (p' & pages & FR' & own' & E & Hlen & Hsp & Hnd & Hall & Hpg & _ & _ & Hbm & Hrest).
  fold n v in E, Hlen, Hbm, Hrest. pose proof (low48_range v).
  destruct (free_loop_ok (page_root s) pages (low48 v) v p' FR' own' fuel) as (p2 & E2 & Hsp2 & Htr2);
    rewrite ?Hlen, ?Z2Nat.id in * by done; try done; try lia.
  { intros q Hq. by apply Hpg. }
  exists (set_vm_pages p' (set_vfree_top v s)), pages, FR', own'. split; [done|].
  split; [by apply next_vpages_page|]. split; [done|]. split; [intros q Hq; by apply Hpg|].
  split; [done|]. split; [intros q Hq; by apply Hpg|]. split; [done|]. split; [done|].
  split; [intros i page Hi o Ho; by apply (Hbm i page)|]. split; [done|].
  exists (set_vm_pages p2 (set_vfree_top v s)). split; [|done].
  unfold Vm.vm_free. rewrite bind_gets. cbn [page_root set_vm_pages set_vfree_top].
  exact (on_pages_do_ok _ (set_vm_pages p' (set_vfree_top v s)) p2 E2).
Qed.

(** *** Turning paging on *)
Definition mmu_end (e : Z) : Z := if e <? 2 ^ 32 then 2 ^ 32 else e.

Lemma phys_get_unused_ok b t l s :
  Phys.phys_ok b t l s → 0 < b → t < 2 ^ 64 → Phys.base s < t → Phys.nr_regions s < 256 →
  ∃ s', Phys.phys_alloc_get_unused s = Done ((Phys.base s, t), s') ∧ Phys.base s' = t ∧ Phys.top s' = t ∧
    Phys.phys_ok b t (l ++ [Phys.Region (Phys.base s) (t - Phys.base s)]) s'.
Proof.
  intros Hok Hb Ht Hlt Hnr. pose proof Hok as [Hl Htop Hbl Hbase Hlen Hn Hlog].
  pose proof (Phys.blocks_in_le _ _ _ Hbl). unfold Phys.phys_alloc_get_unused. rewrite bind_get, Htop.
  rewrite (proj2 (Z.eqb_neq (Phys.base s) t)) by lia. rewrite Phys.lock_phys_ok by done.
  unfold Phys.set_region. rewrite !stM_bind_assoc, bind_gets. cbn [Phys.regions Phys.set_lock].
  rewrite !stM_bind_assoc, arr_set_ok, bind_lift_Done, !bind_modify by lia.
  unfold Phys.unlock_phys. rewrite stM_bind_assoc, bind_gets, bind_modify.
  eexists. split; [reflexivity|]. split; [done|]. split; [done|].
  apply (Phys.phys_ok_push b t l s); cbn; try done; try lia. rewrite (proj2 (Z.ltb_lt _ _)) by lia.
  rewrite Phys.s32_range_small by lia. rewrite u64_small by (unfold in_u64; lia). done.
Qed.

Lemma mmu_tables_nonneg len : 0 ≤ len → 0 ≤ mmu_tables len.
Proof.
  intros Hl. unfold mmu_tables. change LARGE_PAGE_SIZE with (2 ^ 21). pose proof (Z.div_mod len (2 ^ 21) ltac:(lia)).
  pose proof (Z.mod_pos_bound len (2 ^ 21) ltac:(lia)). pose proof (Z.div_pos len (2 ^ 21) Hl ltac:(lia)).
  apply Z.add_nonneg_nonneg; apply ntables_nonneg; lia.
Qed.

(** [setup_mmu] with a free list of enough frames. *)
Lemma setup_mmu_ok fuel e s root FR :
  free_list (vm_pages s) (root :: FR) → e mod 4096 = 0 → 0 ≤ e ≤ 2 ^ 48 →
  mmu_tables (mmu_end e) ≤ Z.of_nat (length FR) → mmu_end e / 4096 ≤ Z.of_nat fuel →
  ∃ s' FR' own, Vm.setup_mmu fuel e s = Done (root, s') ∧ FR' `suffix_of` FR ∧
    space root (vm_pages s') FR' own ∧ vm_cr3 s' = root ∧ vm_cr0 s' = 0x80010001 ∧
    vfree_top s' = vfree_top s ∧ vm_lock s' = vm_lock s ∧ vm_phys s' = vm_phys s ∧
    (∀ va, 0 ≤ va < 2 ^ 48 → translate X86 4 (pmem (vm_pages s')) root va =
      if va <? mmu_end e then Some (va, 7) else None) ∧
    (∀ tl va, mmu_end e ≤ va < 2 ^ 48 → path_perm X86 tl 4 (pmem (vm_pages s')) root va = 7) ∧
    Z.of_nat (length FR) - mmu_tables (mmu_end e) ≤ Z.of_nat (length FR').
Proof.
  intros Hfl Hal He Hneed Hfuel.
  destruct (alloc_page_cons _ _ _ Hfl) as (p1 & E1 & Hf1 & Hm1).
  assert (page_ok root ∧ root ∉ FR) as [Hok Hn].
  { destruct Hfl as (_ & _ & [? _]%NoDup_cons & [? _]%Forall_cons). done. }
  destruct (setup_mmu_range_ok fuel root (mmu_end e) FR (st_zero_page root p1))
    as (p2 & FR' & E2 & Hsuf & Hf2 & Htr & _ & (own & Ht & Hfr) & Hpp & Hlen); try done.
  - unfold mmu_end. destruct (Z.ltb_spec e (2 ^ 32)); lia.
  - unfold mmu_end. by destruct (Z.ltb_spec e (2 ^ 32)).
  - intros j Hj. unfold st_zero_page. rewrite ps_mem_with. by apply rd_zero_page_in.
  - apply (free_zero root FR p1); [exact Hf1|by apply page_ok_aligned|done].
  - set (s2 := set_vm_pages p2 s).
    exists (set_vm_log (("cr4 = %lx\n"%string, [PInt (vm_cr4 s)]) :: ("cr3 = %lx\n"%string, [PInt root]) ::
        ("cr0 = %lx\n"%string, [PInt 0x80010001]) :: ("paging enabled\n"%string, []) :: vm_log s)
      (set_vm_cr0 0x80010001 (set_vm_cr3 root s2))), FR', own.
    split.
    { unfold Vm.setup_mmu. unfold Vm.on_pages. rewrite (bind_zoom _ _ _ _ _ root p1 E1).
      rewrite (stM_bind_Done _ _ _ _ _ (on_pages_do_ok (λ p, mret (st_zero_page root p))
        (set_vm_pages p1 s) (st_zero_page root p1) eq_refl)).
      change (Z.shiftl 1 32) with (2 ^ 32). fold (mmu_end e). cbv zeta.
      rewrite (stM_bind_Done _ _ _ _ _ (on_pages_do_ok (setup_mmu_range fuel root 0 (mmu_end e))
        (set_vm_pages (st_zero_page root p1) (set_vm_pages p1 s)) p2 E2)).
      unfold Vm.printf, virt_to_phys. mrun. done. }
    split; [done|]. split; [by split|]. by repeat (split; [done|]).
Qed.

(** The pages of the range [base, top) and the frames below which the map reaches. *)
Definition unused_lo (b : Z) : Z := npages b * 4096.
Definition unused_hi (t : Z) : Z := t - t mod 4096.

Lemma setup_vm_ok fuel b t l s :
  Phys.phys_ok b t l (vm_phys s) → 0 < b → t ≤ 2 ^ 48 → Phys.nr_regions (vm_phys s) < 256 →
  freelist (vm_pages s) = 0 → plock (vm_pages s) = 0 → vm_ops s = early_alloc →
  let lo := unused_lo (Phys.base (vm_phys s)) in let hi := unused_hi t in
  let n := (hi - lo) / 4096 in
  mmu_tables (mmu_end hi) + 1 ≤ n → mmu_end hi / 4096 ≤ Z.of_nat fuel →
  ∃ s' FR own, Vm.setup_vm fuel s = Done (tt, s') ∧ page_root s' = lo ∧
    space lo (vm_pages s') FR own ∧ FR `suffix_of` frames (Z.to_nat n) lo ∧
    vm_cr3 s' = lo ∧ vm_cr0 s' = 0x80010001 ∧ vm_ops s' = vmalloc ∧ vfree_top s' = vfree_top s ∧
    (∀ va, 0 ≤ va < 2 ^ 48 → translate X86 4 (pmem (vm_pages s')) lo va =
      if va <? mmu_end hi then Some (va, 7) else None) ∧
    unmapped lo (vm_pages s') (mmu_end hi) (2 ^ 48) ∧
    Phys.phys_ok b t (l ++ [Phys.Region (Phys.base (vm_phys s)) (t - Phys.base (vm_phys s))]) (vm_phys s') ∧
    n - 1 - mmu_tables (mmu_end hi) ≤ Z.of_nat (length FR) ∧
    Vm.setup_vm fuel s' = Done (tt, s').
Proof.
  intros Hok Hb Ht Hnr Hfl Hlk Hops lo hi n Hneed Hfuel.
  pose proof (Phys.blocks_in_le _ _ _ (Phys.po_blocks _ _ _ _ Hok)) as Hbb.
  pose proof (Phys.po_base _ _ _ _ Hok) as Hbt. pose proof (Phys.po_top _ _ _ _ Hok) as Htop.
  set (b0 := Phys.base (vm_phys s)) in *.
  pose proof (Z.mod_pos_bound t 4096 ltac:(lia)) as Htm. pose proof (Z.div_mod t 4096 ltac:(lia)) as Htd.
  pose proof (Z.div_mod (b0 + 4095) 4096 ltac:(lia)) as Hbd. pose proof (Z.mod_pos_bound (b0 + 4095) 4096 ltac:(lia)) as Hbm.
  pose proof (mmu_tables_nonneg (mmu_end hi) ltac:(unfold mmu_end; destruct (Z.ltb_spec hi (2 ^ 32)); lia)) as Hmt.
  assert (hi - lo = n * 4096) as Hn.
  { unfold n, hi, lo, unused_hi, unused_lo, npages.
    replace (t - t mod 4096 - (b0 + 4095) / 4096 * 4096) with ((t / 4096 - (b0 + 4095) / 4096) * 4096) by lia.
    by rewrite Z.div_mul by lia. }
  assert (b0 ≤ lo < b0 + 4096) as Hlo by (unfold lo, unused_lo, npages; lia).
  assert (hi ≤ t) as Hhi by (unfold hi, unused_hi; lia).
  destruct (phys_get_unused_ok b t l (vm_phys s) Hok Hb ltac:(lia) ltac:(lia) Hnr)
    as (ph & Eph & _ & _ & Hph). fold b0 in Eph, Hph.
  assert (lo mod 4096 = 0) as Hloa by (by apply Z.mod_mul).
  destruct (free_pages_ok (vm_pages s) [] lo (Z.to_nat n - 1)) as (p1 & E1 & Hf1 & _).
  { split; [done|]. split; [done|]. split; [apply NoDup_nil_2|done]. }
  { split; [lia|]. split; [done|]. lia. }
  { rewrite PAGE_SIZE_val. lia. }
  { intros p _ Hp. by apply elem_of_nil in Hp. }
  replace (S (Z.to_nat n - 1)) with (Z.to_nat n) in E1, Hf1 by lia.
  rewrite Z2Nat.id, PAGE_SIZE_val, <- Hn in E1 by lia. rewrite app_nil_r in Hf1.
  destruct (Z.to_nat n) as [|m] eqn:Em; [lia|]. cbn [frames] in Hf1.
  set (s1 := set_vm_pages p1 (set_vm_phys ph s)).
  destruct (setup_mmu_ok fuel hi s1 lo (frames m (lo + PAGE_SIZE)))
    as (s2 & FR & own & E2 & Hsuf & Hsp & Hc3 & Hc0 & Hvt & _ & Hphs & Htr & Hpp & Hcount); try done.
  { unfold hi, unused_hi. rewrite Zminus_mod_idemp_r, Z.sub_diag. done. }
  { lia. }
  { rewrite frames_length. lia. }
  exists (set_vm_ops vmalloc (set_page_root lo s2)), FR, own. split; [|split; [done|]].
  - unfold Vm.setup_vm. rewrite bind_gets, Hops. rewrite decide_False by done.
    rewrite (bind_zoom _ _ _ _ _ _ ph Eph). rewrite bind_gets. cbn [vm_pages set_vm_phys].
    unfold page_alloc_initialized. rewrite Hfl. cbn [Z.eqb negb]. rewrite orb_false_r.
    rewrite (proj2 (Z.eqb_neq b0 t)) by lia. cbn [negb c_assert]. rewrite bind_lift_Done. cbv zeta.
    change (u64 (- PAGE_SIZE)) with (not64 (4096 - 1)). rewrite PAGE_SIZE_val.
    replace (b0 + 4096 - 1) with (b0 + 4095) by lia.
    rewrite (u64_small (b0 + 4095)), !land_page_mask by (unfold in_u64; lia).
    replace (b0 + 4095 - (b0 + 4095) mod 4096) with lo by (unfold lo, unused_lo, npages; lia).
    fold (unused_hi t). fold hi. rewrite (u64_small (hi - lo)) by (unfold in_u64; lia).
    rewrite stM_bind_assoc. rewrite (stM_bind_Done _ _ _ _ _ (on_pages_do_ok _ (set_vm_phys ph s) p1 E1)).
    rewrite bind_mret. cbv iota beta. fold s1. rewrite (stM_bind_Done _ _ _ _ _ E2). by mrun.
  - split; [exact Hsp|]. split.
    { etransitivity; [exact Hsuf|]. cbn [frames]. apply suffix_cons_r. reflexivity. }
    split; [exact Hc3|]. split; [exact Hc0|]. split; [done|]. split; [exact Hvt|]. split; [exact Htr|]. split.
    { intros va Hva. split; [|by intros tl; apply Hpp]. change (vm_pages (set_vm_ops vmalloc (set_page_root lo s2))) with (vm_pages s2).
      rewrite Htr by (unfold mmu_end in Hva; destruct (hi <? 2 ^ 32); lia).
      by rewrite (proj2 (Z.ltb_ge _ _)) by lia. }
    split; [cbn [vm_phys set_vm_ops set_page_root]; by rewrite Hphs|].
    split; [rewrite frames_length in Hcount; lia|done].
Qed.

(** C11: The first [setup_vm] hands everything the physical allocator has left over to
    the page allocator, in whole pages, maps the memory up to its end and at least
    4G onto itself, turns paging on with the first page as root and makes vmalloc
    the allocator; above that nothing is mapped, so vmalloc has its addresses.  Later
    calls do nothing. *)
Theorem setup_vm_correct fuel b t l s :
  Phys.phys_ok b t l (vm_phys s) → 0 < b → t ≤ 2 ^ 48 → Phys.nr_regions (vm_phys s) < 256 →
  freelist (vm_pages s) = 0 → plock (vm_pages s) = 0 → vm_ops s = early_alloc →
  let lo := unused_lo (Phys.base (vm_phys s)) in let hi := unused_hi t in
  let n := (hi - lo) / 4096 in
  mmu_tables (mmu_end hi) + 1 ≤ n → mmu_end hi / 4096 ≤ Z.of_nat fuel →
  ∃ s' FR own, Vm.setup_vm fuel s = Done (tt, s') ∧ page_root s' = lo ∧
    space lo (vm_pages s') FR own ∧ FR `suffix_of` frames (Z.to_nat n) lo ∧
    vm_cr3 s' = lo ∧ vm_cr0 s' = 0x80010001 ∧ vm_ops s' = vmalloc ∧ vfree_top s' = vfree_top s ∧
    (∀ va, 0 ≤ va < 2 ^ 48 → translate X86 4 (pmem (vm_pages s')) lo va =
      if va <? mmu_end hi then Some (va, 7) else None) ∧
    unmapped lo (vm_pages s') (mmu_end hi) (2 ^ 48) ∧
    Phys.phys_ok b t (l ++ [Phys.Region (Phys.base (vm_phys s)) (t - Phys.base (vm_phys s))]) (vm_phys s') ∧
    n - 1 - mmu_tables (mmu_end hi) ≤ Z.of_nat (length FR) ∧
    Vm.setup_vm fuel s' = Done (tt, s').
Proof. apply setup_vm_ok. Qed.

(** ** The theorems at concrete inputs *)
(** The zero root of X86Vm.v with four free frames, and no address given out yet. *)
Definition demo_vm : vm := Vm 0 0x10000 0 demo_state Phys.demo_phys 0x80010001 0x10000 0 vmalloc [].

Lemma demo_vm_pre frames : frames ≤ 4 → vpages_pre demo_vm 1 frames demo_frames (λ q, q = 0x10000).
Proof.
  intros Hf. destruct demo_zero_root as (Ht & Hn & Hpp).
  split; [done|lia|done|vm_compute; discriminate| |intros va _; split; [by rewrite <- (Hn va)|intros tl; by rewrite <- (Hpp tl va)]|cbn; lia].
  split; [exact Ht|by apply demo_free|]. intros p Hp%list_elem_of_In ->. vm_compute in Hp. intuition discriminate.
Qed.

(** The local APIC registers. *)
Lemma ioremap_correct_witness :
  ∃ s', Vm.ioremap 0xfee00010 0x20 demo_vm = Done (0xfffffffffffff010, s') ∧
    translate X86 4 (pmem (vm_pages s')) 0x10000 0xfffffffff030 = Some (0xfee00030, 7).
Proof.
  destruct (ioremap_correct 0xfee00010 0x20 demo_vm demo_frames (λ q, q = 0x10000))
    as (p' & FR' & own' & E & _ & _ & _ & Htr & _).
  - lia.
  - lia.
  - vm_compute. discriminate.
  - apply demo_vm_pre. vm_compute. discriminate.
  - eexists. split; [exact E|]. apply (Htr 0x20); vm_compute; [discriminate|reflexivity].
Defined.

Lemma vm_memalign_free_witness :
  ∃ s1 s2 page, Vm.vm_memalign 4096 100 demo_vm = Done (0xfffffffffffff000, s1) ∧
    translate X86 4 (pmem (vm_pages s1)) 0x10000 0xfffffffff020 = Some (page + 0x20, 7) ∧
    Vm.vm_free 1 0xfffffffffffff000 4096 s1 = Done (tt, s2) ∧ freelist (vm_pages s2) = page.
Proof.
  destruct (vm_memalign_free 4096 100 1 demo_vm demo_frames (λ q, q = 0x10000))
    as (s1 & pages & FR' & own' & E & _ & Hlen & _ & _ & _ & _ & _ & Htr & _ & s2 & E2 & Hsp & _).
  - lia.
  - done.
  - vm_compute. lia.
  - apply demo_vm_pre. vm_compute. discriminate.
  - assert (length pages = 1%nat) as Hl by (rewrite Hlen; vm_compute; reflexivity).
    destruct pages as [|page [|]]; [discriminate| |discriminate].
    exists s1, s2, page. split; [exact E|]. split.
    { pose proof (Htr 0%nat page eq_refl 0x20 ltac:(lia)) as Ht.
      change (low48 (next_vpages demo_vm (npages 100))) with 0xfffffffff000 in Ht. exact Ht. }
    split; [exact E2|]. by destruct Hsp as [_ (_ & [? _] & _) _].
Defined.

Lemma setup_vm_correct_witness :
  ∃ s s', Vm.setup_vm (Z.to_nat (2 ^ 20)) s = Done (tt, s') ∧ vm_ops s = early_alloc ∧ vm_ops s' = vmalloc ∧
    page_root s' = 0x100000 ∧
    translate X86 4 (pmem (vm_pages s')) 0x100000 0xfee00000 = Some (0xfee00000, 7).
Proof.
  destruct (Phys.phys_alloc_init_ok 0xff010 0x20ff0 Phys.demo_phys) as (ph & E & Hok & Hb); [done|done|lia..|].
  assert (Phys.nr_regions ph = 0) as Hnr by (rewrite (Phys.po_nr _ _ _ _ Hok); done).
  set (s := Vm 0 0 0 (PState ∅ 0 0) ph 0 0 0 early_alloc []).
  destruct (setup_vm_correct (Z.to_nat (2 ^ 20)) 0xff010 0x120000 [] s) as (s' & FR & own & E' & Hr & _ & _ & _ & _ & Hops & _ & Htr & _).
  - exact Hok.
  - lia.
  - lia.
  - cbn [vm_phys s]. lia.
  - done.
  - done.
  - done.
  - cbn [vm_phys s]. rewrite Hb. vm_compute. discriminate.
  - vm_compute. discriminate.
  - cbn [vm_phys s] in *. rewrite Hb in *. exists s, s'. split; [exact E'|]. split; [done|]. split; [done|].
    split; [exact Hr|]. apply (Htr 0xfee00000); vm_compute; split; [discriminate|reflexivity].
Defined.
