(* ===== verification/Fwcfg.v ===== *)
(** The firmware configuration device: lib/x86/fwcfg.c.

    The device itself is not part of the program: [item index pos] is the byte it
    returns at position [pos] of the item [index].  Selecting an item rewinds it
    and every read of the data port advances it (the fw_cfg interface). *)
From Stdlib Require Import ZArith Lia Bool.
From S2P Require Import Prelude Spinlock.
#[local] Open Scope Z_scope.

Definition FW_CFG_RAM_SIZE : Z := 0x03.
Definition FW_CFG_NB_CPUS : Z := 0x05.
Definition FW_CFG_MAX_CPUS : Z := 0x0f.

(** The lock of fwcfg.c and the device's selector and position. *)
Record fwcfg := Fwcfg { fw_lock : spinlock; fw_index : Z; fw_pos : Z }.

Section code.
Context (item : Z → Z → Z).

Definition fw_select (index : Z) (s : fwcfg) : fwcfg := Fwcfg (fw_lock s) index 0.
Definition fw_inb (s : fwcfg) : Z * fwcfg :=
  (u8 (item (fw_index s) (fw_pos s)), Fwcfg (fw_lock s) (fw_index s) (fw_pos s + 1)).

(** [for (i = 0; i < bytes; ++i) { in b; r |= (uint64_t)b << (i * 8); }] *)
Fixpoint fwcfg_read (n : nat) (i r : Z) (s : fwcfg) : Z * fwcfg :=
  match n with
  | O => (r, s)
  | S n => let '(b, s) := fw_inb s in fwcfg_read n (i + 1) (Z.lor r (u64 (Z.shiftl b (i * 8)))) s
  end.

Definition fwcfg_get_u (index : Z) (bytes : nat) : stM fwcfg Z := λ s,
  l ← spin_lock (fw_lock s);
  let s := Fwcfg l (fw_index s) (fw_pos s) in
  let s := fw_select index s in
  let '(r, s) := fwcfg_read bytes 0 0 s in
  Done (r, Fwcfg (spin_unlock (fw_lock s)) (fw_index s) (fw_pos s)).

Definition fwcfg_get_u8 (index : Z) : stM fwcfg Z := r ← fwcfg_get_u (u16 index) 1; mret (u8 r).
Definition fwcfg_get_u16 (index : Z) : stM fwcfg Z := r ← fwcfg_get_u (u16 index) 2; mret (u16 r).
Definition fwcfg_get_u32 (index : Z) : stM fwcfg Z := r ← fwcfg_get_u (u16 index) 4; mret (u32 r).
Definition fwcfg_get_u64 (index : Z) : stM fwcfg Z := fwcfg_get_u (u16 index) 8.
Definition fwcfg_get_nb_cpus : stM fwcfg Z := fwcfg_get_u16 FW_CFG_NB_CPUS.

(** The value of a little-endian sequence of bytes. *)
Fixpoint le_value (l : list Z) : Z :=
  match l with [] => 0 | b :: l => b + 2 ^ 8 * le_value l end.

Definition item_bytes (index pos : Z) (n : nat) : list Z :=
  (λ i, u8 (item index (pos + i))) <$> seqZ 0 (Z.of_nat n).

Lemma item_bytes_S index pos n :
  item_bytes index pos (S n) = u8 (item index pos) :: item_bytes index (pos + 1) n.
Proof.
  unfold item_bytes. rewrite seqZ_cons by lia. cbn [fmap list_fmap]. rewrite Z.add_0_r.
  f_equal. rewrite Nat2Z.inj_succ, Z.pred_succ. change (Z.succ 0) with 1.
  replace (seqZ 1 (Z.of_nat n)) with (Z.add 1 <$> seqZ 0 (Z.of_nat n)) by (rewrite fmap_add_seqZ; done).
  rewrite <- list_fmap_compose. apply list_fmap_ext. intros. cbn. do 2 f_equal. lia.
Qed.

Lemma le_value_bytes index pos n : 0 ≤ le_value (item_bytes index pos n) < 2 ^ (8 * Z.of_nat n).
Proof.
  revert pos. induction n as [|n IH]; intros pos; [done|]. rewrite item_bytes_S. cbn [le_value].
  specialize (IH (pos + 1)). pose proof (u8_range (item index pos)).
  replace (8 * Z.of_nat (S n)) with (8 + 8 * Z.of_nat n) by lia. rewrite Z.pow_add_r by lia. nia.
Qed.

Lemma fwcfg_read_value n i r s :
  0 ≤ i → i + Z.of_nat n ≤ 8 → 0 ≤ r < 2 ^ (8 * i) →
  fwcfg_read n i r s =
  (r + 2 ^ (8 * i) * le_value (item_bytes (fw_index s) (fw_pos s) n),
   Fwcfg (fw_lock s) (fw_index s) (fw_pos s + Z.of_nat n)).
Proof.
  revert i r s. induction n as [|n IH]; intros i r s Hi Hn Hr; cbn [fwcfg_read].
  - cbn. rewrite Z.add_0_r, Z.mul_0_r, Z.add_0_r. by destruct s.
  - unfold fw_inb. rewrite item_bytes_S. cbn [le_value].
    pose proof (u8_range (item (fw_index s) (fw_pos s))) as Hb.
    set (b := u8 (item (fw_index s) (fw_pos s))) in *.
    assert (2 ^ (8 * (i + 1)) = 2 ^ 8 * 2 ^ (8 * i)) as Ep
      by (rewrite <- Z.pow_add_r by lia; f_equal; lia).
    assert (2 ^ (8 * (i + 1)) ≤ 2 ^ 64) by (apply Z.pow_le_mono_r; lia).
    assert (0 < 2 ^ (8 * i)) by (apply Z.pow_pos_nonneg; lia).
    replace (i * 8) with (8 * i) by lia.
    rewrite u64_small by (rewrite Z.shiftl_mul_pow2 by lia; unfold in_u64; nia).
    rewrite lor_shift_add by lia. rewrite IH by (lia || nia). cbn [fw_index fw_pos fw_lock].
    f_equal; [|f_equal; lia]. rewrite Ep. ring.
Qed.

Lemma fwcfg_get_u_ok index n s :
  fw_lock s = 0 → (n ≤ 8)%nat →
  fwcfg_get_u index n s = Done (le_value (item_bytes index 0 n), Fwcfg 0 index (Z.of_nat n)).
Proof.
  intros Hl Hn. unfold fwcfg_get_u, spin_lock. rewrite Hl. cbn [Z.eqb mbind outcome_bind].
  cbn [fw_select fw_lock]. rewrite fwcfg_read_value by (cbn; lia). cbn [fw_index fw_pos].
  rewrite Z.mul_1_l. done.
Qed.
End code.

(** reading [n] bytes of an item returns their little-endian value, whatever was
    selected before, and releases the lock; a read by a CPU that finds the lock
    taken does not return. *)
Theorem fwcfg_get_u_little_endian item index n s :
  (n ≤ 8)%nat →
  (fw_lock s = 0 →
   fwcfg_get_u item index n s =
     Done (le_value (item_bytes item index 0 n), Fwcfg 0 index (Z.of_nat n))) ∧
  (fw_lock s ≠ 0 → fwcfg_get_u item index n s = Hang).
Proof.
  intros Hn. split; [intros Hl; by apply fwcfg_get_u_ok|]. intros Hl.
  unfold fwcfg_get_u, spin_lock. by rewrite (proj2 (Z.eqb_neq _ 0)).
Qed.

Lemma fwcfg_get_u_little_endian_witness :
  fwcfg_get_u (λ index pos, 0x10 + pos) FW_CFG_NB_CPUS 2 (Fwcfg 0 7 7) =
  Done (0x1110, Fwcfg 0 FW_CFG_NB_CPUS 2).
Proof.
  destruct (fwcfg_get_u_little_endian (λ index pos, 0x10 + pos) FW_CFG_NB_CPUS 2 (Fwcfg 0 7 7)
    ltac:(lia)) as [H _]. rewrite (H eq_refl). reflexivity.
Defined.
