(* ===== verification/VmxState.v ===== *)
(** The machine x86/vmx.c runs on, and its global variables.

    A [vstate] is the processor ([cpu]: MSRs, control registers, the general
    registers, the current VMCS), the globals of vmx.c and ept.c ([caps], [ctrls],
    [vptrs], [vrun]), the page allocator with physical memory, the firmware device
    and the text printed so far, newest first: each entry is the format of one
    [printf]/[error] call with its arguments.  The state of the processor that
    only the VMX instructions see is an abstract type [HW]; what they do with it
    is a parameter of Vmx.v. *)
From Stdlib Require Import ZArith Lia Bool.
From S2P Require Import Prelude Libcflat Mem AllocPage Fwcfg VmxDefs.
#[local] Open Scope Z_scope.

(** The general registers of the processor. *)
Inductive greg : Set :=
| RAX | RBX | RCX | RDX | RSP | RBP | RSI | RDI
| R8 | R9 | R10 | R11 | R12 | R13 | R14 | R15.
#[export] Instance greg_eq_dec : EqDecision greg.
Proof. solve_decision. Defined.

(** The members of [struct regs] in the order of their declaration. *)
Inductive rfield : Set :=
| f_rax | f_rcx | f_rdx | f_rbx | f_cr2 | f_rbp | f_rsi | f_rdi
| f_r8 | f_r9 | f_r10 | f_r11 | f_r12 | f_r13 | f_r14 | f_r15 | f_rflags.
#[export] Instance rfield_eq_dec : EqDecision rfield.
Proof. solve_decision. Defined.

(** The byte offset of a member. *)
Definition rfield_offset (f : rfield) : Z :=
  match f with
  | f_rax => 0x0 | f_rcx => 0x8 | f_rdx => 0x10 | f_rbx => 0x18 | f_cr2 => 0x20
  | f_rbp => 0x28 | f_rsi => 0x30 | f_rdi => 0x38 | f_r8 => 0x40 | f_r9 => 0x48
  | f_r10 => 0x50 | f_r11 => 0x58 | f_r12 => 0x60 | f_r13 => 0x68 | f_r14 => 0x70
  | f_r15 => 0x78 | f_rflags => 0x80
  end.

(** The capability words read by [init_vmx] ([union vmx_basic], [union vmx_ctrl_msr],
    [union vmx_ept_vpid]); a union is its [val]. *)
Record caps := Caps {
  basic : Z; ctrl_pin_rev : Z; ctrl_cpu_rev0 : Z; ctrl_cpu_rev1 : Z;
  ctrl_exit_rev : Z; ctrl_enter_rev : Z; ept_vpid : Z
}.
Definition basic_revision (val : Z) : Z := val mod 2 ^ 32.
Definition basic_ctrl (val : Z) : bool := Z.testbit val 55.
Definition ctrl_set (val : Z) : Z := val mod 2 ^ 32.
Definition ctrl_clr (val : Z) : Z := Z.shiftr val 32 mod 2 ^ 32.

Section state.
Context {HW : Type}.

Record cpu := Cpu {
  c_msr : gmap Z Z;
  c_cr0 : Z;
  c_cr3 : Z;
  c_cr4 : Z;
  c_gpr : greg → Z;
  c_vmcs : gmap Z Z;
  c_hw : HW
}.

Record ctrls := Ctrls {
  ctrl_pin : Z;
  ctrl_enter : Z;
  ctrl_exit : Z;
  ctrl_cpu0 : Z;
  ctrl_cpu1 : Z;
  vpid_cnt : Z
}.

Record vptrs := VPtrs {
  vmxon_region : Z;
  guest_stack : Z;
  guest_syscall_stack : Z;
  pml4 : Z;
  eptp : Z;
  guest_vmcs : Z
}.

Record vrun := VRun {
  g_regs : Z → Z;
  hypercall_field : Z;
  launched : bool;
  guest_finished : Z;
  in_guest : Z;
  current : option nat;
  exits : Z
}.

Record vstate := VState {
  v_cpu : cpu;
  v_caps : caps;
  v_ctrls : ctrls;
  v_ptrs : vptrs;
  v_run : vrun;
  v_pages : pstate;
  v_fw : fwcfg;
  v_log : list (string * list parg)
}.

Definition set_c_msr (x : gmap Z Z) (s : cpu) : cpu :=
  Cpu x (c_cr0 s) (c_cr3 s) (c_cr4 s) (c_gpr s) (c_vmcs s) (c_hw s).
Definition set_c_cr0 (x : Z) (s : cpu) : cpu :=
  Cpu (c_msr s) x (c_cr3 s) (c_cr4 s) (c_gpr s) (c_vmcs s) (c_hw s).
Definition set_c_cr3 (x : Z) (s : cpu) : cpu :=
  Cpu (c_msr s) (c_cr0 s) x (c_cr4 s) (c_gpr s) (c_vmcs s) (c_hw s).
Definition set_c_cr4 (x : Z) (s : cpu) : cpu :=
  Cpu (c_msr s) (c_cr0 s) (c_cr3 s) x (c_gpr s) (c_vmcs s) (c_hw s).
Definition set_c_gpr (x : greg → Z) (s : cpu) : cpu :=
  Cpu (c_msr s) (c_cr0 s) (c_cr3 s) (c_cr4 s) x (c_vmcs s) (c_hw s).
Definition set_c_vmcs (x : gmap Z Z) (s : cpu) : cpu :=
  Cpu (c_msr s) (c_cr0 s) (c_cr3 s) (c_cr4 s) (c_gpr s) x (c_hw s).
Definition set_c_hw (x : HW) (s : cpu) : cpu :=
  Cpu (c_msr s) (c_cr0 s) (c_cr3 s) (c_cr4 s) (c_gpr s) (c_vmcs s) x.
Definition set_ctrl_pin (x : Z) (s : ctrls) : ctrls :=
  Ctrls x (ctrl_enter s) (ctrl_exit s) (ctrl_cpu0 s) (ctrl_cpu1 s) (vpid_cnt s).
Definition set_ctrl_enter (x : Z) (s : ctrls) : ctrls :=
  Ctrls (ctrl_pin s) x (ctrl_exit s) (ctrl_cpu0 s) (ctrl_cpu1 s) (vpid_cnt s).
Definition set_ctrl_exit (x : Z) (s : ctrls) : ctrls :=
  Ctrls (ctrl_pin s) (ctrl_enter s) x (ctrl_cpu0 s) (ctrl_cpu1 s) (vpid_cnt s).
Definition set_ctrl_cpu0 (x : Z) (s : ctrls) : ctrls :=
  Ctrls (ctrl_pin s) (ctrl_enter s) (ctrl_exit s) x (ctrl_cpu1 s) (vpid_cnt s).
Definition set_ctrl_cpu1 (x : Z) (s : ctrls) : ctrls :=
  Ctrls (ctrl_pin s) (ctrl_enter s) (ctrl_exit s) (ctrl_cpu0 s) x (vpid_cnt s).
Definition set_vpid_cnt (x : Z) (s : ctrls) : ctrls :=
  Ctrls (ctrl_pin s) (ctrl_enter s) (ctrl_exit s) (ctrl_cpu0 s) (ctrl_cpu1 s) x.
Definition set_vmxon_region (x : Z) (s : vptrs) : vptrs :=
  VPtrs x (guest_stack s) (guest_syscall_stack s) (pml4 s) (eptp s) (guest_vmcs s).
Definition set_guest_stack (x : Z) (s : vptrs) : vptrs :=
  VPtrs (vmxon_region s) x (guest_syscall_stack s) (pml4 s) (eptp s) (guest_vmcs s).
Definition set_guest_syscall_stack (x : Z) (s : vptrs) : vptrs :=
  VPtrs (vmxon_region s) (guest_stack s) x (pml4 s) (eptp s) (guest_vmcs s).
Definition set_pml4 (x : Z) (s : vptrs) : vptrs :=
  VPtrs (vmxon_region s) (guest_stack s) (guest_syscall_stack s) x (eptp s) (guest_vmcs s).
Definition set_eptp (x : Z) (s : vptrs) : vptrs :=
  VPtrs (vmxon_region s) (guest_stack s) (guest_syscall_stack s) (pml4 s) x (guest_vmcs s).
Definition set_guest_vmcs (x : Z) (s : vptrs) : vptrs :=
  VPtrs (vmxon_region s) (guest_stack s) (guest_syscall_stack s) (pml4 s) (eptp s) x.
Definition set_g_regs (x : Z → Z) (s : vrun) : vrun :=
  VRun x (hypercall_field s) (launched s) (guest_finished s) (in_guest s) (current s) (exits s).
Definition set_hypercall_field (x : Z) (s : vrun) : vrun :=
  VRun (g_regs s) x (launched s) (guest_finished s) (in_guest s) (current s) (exits s).
Definition set_launched (x : bool) (s : vrun) : vrun :=
  VRun (g_regs s) (hypercall_field s) x (guest_finished s) (in_guest s) (current s) (exits s).
Definition set_guest_finished (x : Z) (s : vrun) : vrun :=
  VRun (g_regs s) (hypercall_field s) (launched s) x (in_guest s) (current s) (exits s).
Definition set_in_guest (x : Z) (s : vrun) : vrun :=
  VRun (g_regs s) (hypercall_field s) (launched s) (guest_finished s) x (current s) (exits s).
Definition set_current (x : option nat) (s : vrun) : vrun :=
  VRun (g_regs s) (hypercall_field s) (launched s) (guest_finished s) (in_guest s) x (exits s).
Definition set_exits (x : Z) (s : vrun) : vrun :=
  VRun (g_regs s) (hypercall_field s) (launched s) (guest_finished s) (in_guest s) (current s) x.
Definition set_v_cpu (x : cpu) (s : vstate) : vstate :=
  VState x (v_caps s) (v_ctrls s) (v_ptrs s) (v_run s) (v_pages s) (v_fw s) (v_log s).
Definition set_v_caps (x : caps) (s : vstate) : vstate :=
  VState (v_cpu s) x (v_ctrls s) (v_ptrs s) (v_run s) (v_pages s) (v_fw s) (v_log s).
Definition set_v_ctrls (x : ctrls) (s : vstate) : vstate :=
  VState (v_cpu s) (v_caps s) x (v_ptrs s) (v_run s) (v_pages s) (v_fw s) (v_log s).
Definition set_v_ptrs (x : vptrs) (s : vstate) : vstate :=
  VState (v_cpu s) (v_caps s) (v_ctrls s) x (v_run s) (v_pages s) (v_fw s) (v_log s).
Definition set_v_run (x : vrun) (s : vstate) : vstate :=
  VState (v_cpu s) (v_caps s) (v_ctrls s) (v_ptrs s) x (v_pages s) (v_fw s) (v_log s).
Definition set_v_pages (x : pstate) (s : vstate) : vstate :=
  VState (v_cpu s) (v_caps s) (v_ctrls s) (v_ptrs s) (v_run s) x (v_fw s) (v_log s).
Definition set_v_fw (x : fwcfg) (s : vstate) : vstate :=
  VState (v_cpu s) (v_caps s) (v_ctrls s) (v_ptrs s) (v_run s) (v_pages s) x (v_log s).
Definition set_v_log (x : list (string * list parg)) (s : vstate) : vstate :=
  VState (v_cpu s) (v_caps s) (v_ctrls s) (v_ptrs s) (v_run s) (v_pages s) (v_fw s) x.
End state.
Arguments cpu : clear implicits.
Arguments vstate : clear implicits.
