(* ===== verification/Vmx.v ===== *)
(** The hypervisor core: x86/vmx.c, [__setup_ept]/[setup_ept] of x86/ept.c and the
    guest of x86/vm.c.

    The processor's VMX instructions and the guest's execution are not part of
    the program: they are the fields of [hardware], a parameter of everything
    below.  VMWRITE and VMREAD act on the current VMCS as a map from field to
    value and succeed, which is all the program relies on (it ignores their
    result). *)
From Stdlib Require Import ZArith Lia Bool.
From S2P Require Import Prelude Libcflat Mem AllocPage PageTable TableRange PtDemo Ept Fwcfg VmxDefs VmxState.
#[local] Open Scope Z_scope.

Record desc_ptr := DescPtr { dt_limit : Z; dt_base : Z }.

(** What the processor, the firmware device and the linker provide.  The boolean
    of a VMX instruction is "CF or ZF is set afterwards", that is, it failed.
    [hw_enter resume s] executes VMLAUNCH or VMRESUME and whatever the guest does
    until control comes back: [Some flags] when the instruction itself failed and
    execution went on after it, [None] when it came back at [vmx_return]. *)
Record hardware (HW : Type) := {
  hw_cpuid1_c : Z;
  hw_vmxon : Z → HW → bool * HW;
  hw_vmxoff : HW → bool * HW;
  hw_vmclear : Z → HW → bool * HW;
  hw_vmptrld : Z → HW → bool * HW;
  hw_enter : bool → vstate HW → option Z * vstate HW;
  hw_fw_item : Z → Z → Z;
  sym_vmx_return : Z; sym_guest_entry : Z; sym_entry_sysenter : Z;
  gdt64_desc : desc_ptr; idt_descr : desc_ptr; tss_descr : desc_ptr
}.
Arguments hw_cpuid1_c {HW}. Arguments hw_vmxon {HW}. Arguments hw_vmxoff {HW}.
Arguments hw_vmclear {HW}. Arguments hw_vmptrld {HW}. Arguments hw_enter {HW}.
Arguments hw_fw_item {HW}. Arguments sym_vmx_return {HW}. Arguments sym_guest_entry {HW}.
Arguments sym_entry_sysenter {HW}. Arguments gdt64_desc {HW}. Arguments idt_descr {HW}.
Arguments tss_descr {HW}.

(** [struct vmentry_failure] *)
Record vmentry_failure := Failure {
  f_vmlaunch : bool; f_instr : string; f_early : bool; f_flags : Z
}.

Section code.
Context {HW : Type} (hw : hardware HW).
Abbreviation M := (stM (vstate HW)).

Definition printf (fmt : string) (args : list parg) : M unit :=
  modify (λ s, set_v_log ((fmt, args) :: v_log s) s).
Definition error (fmt : string) (args : list parg) : M unit := printf fmt args.

(** Updates of one component of the state. *)
Definition upd_cpu (f : cpu HW → cpu HW) : M unit := modify (λ s, set_v_cpu (f (v_cpu s)) s).
Definition upd_ctrls (f : ctrls → ctrls) : M unit := modify (λ s, set_v_ctrls (f (v_ctrls s)) s).
Definition upd_ptrs (f : vptrs → vptrs) : M unit := modify (λ s, set_v_ptrs (f (v_ptrs s)) s).
Definition upd_run (f : vrun → vrun) : M unit := modify (λ s, set_v_run (f (v_run s)) s).
Definition upd_mem (f : mem → mem) : M unit :=
  modify (λ s, set_v_pages (with_pmem (f (pmem (v_pages s))) (v_pages s)) s).
Definition pages {A} (m : stM pstate A) : M A := zoom v_pages set_v_pages m.

(** The processor's instructions. *)
Definition rdmsr (index : Z) : M Z := gets (λ s, default 0 (c_msr (v_cpu s) !! index)).
Definition wrmsr (index val : Z) : M unit :=
  upd_cpu (λ c, set_c_msr (<[index := val]> (c_msr c)) c).
Definition read_cr0 : M Z := gets (λ s, c_cr0 (v_cpu s)).
Definition read_cr3 : M Z := gets (λ s, c_cr3 (v_cpu s)).
Definition read_cr4 : M Z := gets (λ s, c_cr4 (v_cpu s)).
Definition write_cr0 (v : Z) : M unit := upd_cpu (set_c_cr0 v).
Definition write_cr4 (v : Z) : M unit := upd_cpu (set_c_cr4 v).

Definition vmcs_read (enc : Encoding) : M Z :=
  gets (λ s, default 0 (c_vmcs (v_cpu s) !! encoding enc)).
Definition vmcs_write (enc : Encoding) (val : Z) : M unit :=
  upd_cpu (λ c, set_c_vmcs (<[encoding enc := val]> (c_vmcs c)) c).

Definition vmx_insn (f : HW → bool * HW) : M bool := λ s,
  let '(ret, h) := f (c_hw (v_cpu s)) in Done (ret, set_v_cpu (set_c_hw h (v_cpu s)) s).
Definition vmx_on : M bool :=
  region ← gets (λ s, vmxon_region (v_ptrs s)); vmx_insn (hw_vmxon hw region).
Definition vmx_off : M bool := vmx_insn (hw_vmxoff hw).
Definition vmcs_clear (vmcs : Z) : M bool := vmx_insn (hw_vmclear hw vmcs).
Definition make_vmcs_current (vmcs : Z) : M bool := vmx_insn (hw_vmptrld hw vmcs).

Definition is_vmx_supported : M bool :=
  if Z.land (hw_cpuid1_c hw) (Z.shiftl 1 5) =? 0 then
    error "Error: vmx not supported.\n" [];; mret false
  else
    ia32_feature_control ← rdmsr MSR_IA32_FEATURE_CONTROL;
    if Z.land ia32_feature_control 0x5 =? 0x5 then
      printf "VMX enabled and locked by BIOS\n" [];; mret true
    else if negb (Z.land ia32_feature_control 0x1 =? 0) then
      printf "ERROR: VMX locked out by BIOS without enabled.\n" [];; mret false
    else
      wrmsr MSR_IA32_FEATURE_CONTROL 0x5;;
      mret true.

Definition init_vmcs_ctrl : M unit :=
  s ← get;
  vmcs_write PIN_CONTROLS (ctrl_pin (v_ctrls s));;
  vmcs_write CPU_EXEC_CTRL0 (ctrl_cpu0 (v_ctrls s));;
  (if negb (Z.land (ctrl_set (ctrl_cpu_rev0 (v_caps s))) CPU_SECONDARY =? 0) then
     upd_ctrls (λ c, set_ctrl_cpu1
       (Z.land (Z.lor (ctrl_cpu1 c) (ctrl_set (ctrl_cpu_rev1 (v_caps s))))
          (ctrl_clr (ctrl_cpu_rev1 (v_caps s)))) c);;
     cpu1 ← gets (λ s, ctrl_cpu1 (v_ctrls s));
     vmcs_write CPU_EXEC_CTRL1 cpu1
   else mret tt);;
  vmcs_write CR3_TARGET_COUNT 0;;
  upd_ctrls (λ c, set_vpid_cnt (u32 (vpid_cnt c + 1)) c);;
  cnt ← gets (λ s, vpid_cnt (v_ctrls s));
  vmcs_write VPID cnt.

(** [vmcs_write] calls in a row. *)
Fixpoint vmcs_writes (l : list (Encoding * Z)) : M unit :=
  match l with
  | [] => mret tt
  | (e, v) :: l => vmcs_write e v;; vmcs_writes l
  end.

Definition init_vmcs_host : M unit :=
  efer ← rdmsr MSR_EFER;
  vmcs_write HOST_EFER efer;;
  s ← get;
  vmcs_writes [(ENT_CONTROLS, ctrl_enter (v_ctrls s)); (EXI_CONTROLS, ctrl_exit (v_ctrls s))];;
  cr0 ← read_cr0; cr3 ← read_cr3; cr4 ← read_cr4;
  vmcs_writes
    [(HOST_CR0, cr0); (HOST_CR3, cr3); (HOST_CR4, cr4);
     (HOST_SYSENTER_EIP, sym_entry_sysenter hw); (HOST_SYSENTER_CS, KERNEL_CS);
     (HOST_SEL_CS, KERNEL_CS); (HOST_SEL_SS, KERNEL_DS); (HOST_SEL_DS, KERNEL_DS);
     (HOST_SEL_ES, KERNEL_DS); (HOST_SEL_FS, KERNEL_DS); (HOST_SEL_GS, KERNEL_DS);
     (HOST_SEL_TR, TSS_MAIN); (HOST_BASE_TR, dt_base (tss_descr hw));
     (HOST_BASE_GDTR, dt_base (gdt64_desc hw)); (HOST_BASE_IDTR, dt_base (idt_descr hw));
     (HOST_BASE_FS, 0); (HOST_BASE_GS, 0);
     (PF_ERROR_MASK, 0); (PF_ERROR_MATCH, 0);
     (VMCS_LINK_PTR, not64 0); (VMCS_LINK_PTR_HI, not64 0);
     (HOST_RIP, sym_vmx_return hw)].

Definition init_vmcs_guest : M unit :=
  cr0 ← read_cr0; cr4 ← read_cr4; cr3 ← read_cr3;
  s ← get;
  let guest_64 := negb (Z.land (ctrl_enter (v_ctrls s)) ENT_GUEST_64 =? 0) in
  let guest_cr0 := if guest_64 then Z.lor cr0 X86_CR0_PG else cr0 in
  let guest_cr4 := if guest_64 then Z.lor cr4 X86_CR4_PAE else cr4 in
  let guest_cr4 := if guest_64 then guest_cr4 else Z.land guest_cr4 (not64 X86_CR4_PCIDE) in
  let guest_cr0 := if negb (Z.land guest_cr0 X86_CR0_PG =? 0)
                   then Z.lor guest_cr0 X86_CR0_PE else guest_cr0 in
  efer ← rdmsr MSR_EFER;
  vmcs_writes
    [(GUEST_CR0, guest_cr0); (GUEST_CR3, cr3); (GUEST_CR4, guest_cr4);
     (GUEST_SYSENTER_CS, KERNEL_CS);
     (GUEST_SYSENTER_ESP, u64 (guest_syscall_stack (v_ptrs s) + PAGE_SIZE - 1));
     (GUEST_SYSENTER_EIP, sym_entry_sysenter hw); (GUEST_DR7, 0); (GUEST_EFER, efer);
     (GUEST_SEL_CS, KERNEL_CS); (GUEST_SEL_SS, KERNEL_DS); (GUEST_SEL_DS, KERNEL_DS);
     (GUEST_SEL_ES, KERNEL_DS); (GUEST_SEL_FS, KERNEL_DS); (GUEST_SEL_GS, KERNEL_DS);
     (GUEST_SEL_TR, TSS_MAIN); (GUEST_SEL_LDTR, 0);
     (GUEST_BASE_CS, 0); (GUEST_BASE_ES, 0); (GUEST_BASE_SS, 0); (GUEST_BASE_DS, 0);
     (GUEST_BASE_FS, 0); (GUEST_BASE_GS, 0); (GUEST_BASE_TR, dt_base (tss_descr hw));
     (GUEST_BASE_LDTR, 0);
     (GUEST_LIMIT_CS, 0xFFFFFFFF); (GUEST_LIMIT_DS, 0xFFFFFFFF); (GUEST_LIMIT_ES, 0xFFFFFFFF);
     (GUEST_LIMIT_SS, 0xFFFFFFFF); (GUEST_LIMIT_FS, 0xFFFFFFFF); (GUEST_LIMIT_GS, 0xFFFFFFFF);
     (GUEST_LIMIT_LDTR, 0xffff); (GUEST_LIMIT_TR, dt_limit (tss_descr hw));
     (GUEST_AR_CS, 0xa09b); (GUEST_AR_DS, 0xc093); (GUEST_AR_ES, 0xc093); (GUEST_AR_FS, 0xc093);
     (GUEST_AR_GS, 0xc093); (GUEST_AR_SS, 0xc093); (GUEST_AR_LDTR, 0x82); (GUEST_AR_TR, 0x8b);
     (GUEST_BASE_GDTR, dt_base (gdt64_desc hw)); (GUEST_BASE_IDTR, dt_base (idt_descr hw));
     (GUEST_LIMIT_GDTR, dt_limit (gdt64_desc hw)); (GUEST_LIMIT_IDTR, dt_limit (idt_descr hw));
     (GUEST_RIP, sym_guest_entry hw);
     (GUEST_RSP, u64 (guest_stack (v_ptrs s) + PAGE_SIZE - 1)); (GUEST_RFLAGS, 0x2);
     (GUEST_ACTV_STATE, ACTV_ACTIVE); (GUEST_INTR_STATE, 0)].

(** [struct vmcs_hdr]: [revision_id:31] and [shadow_vmcs:1] are the low 32 bits of
    the first word of the page. *)
Definition set_revision_id (vmcs revision : Z) (m : mem) : mem :=
  wr m vmcs (Z.lor (Z.land (rd m vmcs) (not64 (Z.ones 31))) (revision mod 2 ^ 31)).

(** The assignments to the control words in [init_vmcs]. *)
Definition settle_ctrls (k : caps) (c : ctrls) : ctrls :=
  let c := set_ctrl_pin (Z.lor (ctrl_pin c) (Z.lor (Z.lor PIN_EXTINT PIN_NMI) PIN_VIRT_NMI)) c in
  let c := set_ctrl_exit (Z.lor EXI_LOAD_EFER EXI_HOST_64) c in
  let c := set_ctrl_enter (Z.lor ENT_LOAD_EFER ENT_GUEST_64) c in
  let c := set_ctrl_cpu0 (Z.land (ctrl_cpu0 c) (u32 (not64 (Z.lor CPU_IO CPU_IO_BITMAP)))) c in
  let c := set_ctrl_cpu1 0 c in
  let c := set_ctrl_pin
    (Z.land (Z.lor (ctrl_pin c) (ctrl_set (ctrl_pin_rev k))) (ctrl_clr (ctrl_pin_rev k))) c in
  let c := set_ctrl_enter
    (Z.land (Z.lor (ctrl_enter c) (ctrl_set (ctrl_enter_rev k))) (ctrl_clr (ctrl_enter_rev k))) c in
  let c := set_ctrl_exit
    (Z.land (Z.lor (ctrl_exit c) (ctrl_set (ctrl_exit_rev k))) (ctrl_clr (ctrl_exit_rev k))) c in
  set_ctrl_cpu0
    (Z.land (Z.lor (ctrl_cpu0 c) (ctrl_set (ctrl_cpu_rev0 k))) (ctrl_clr (ctrl_cpu_rev0 k))) c.

Definition init_vmcs : M Z :=
  vmcs ← pages alloc_page;
  upd_ptrs (set_guest_vmcs vmcs);;
  upd_mem (zero_page vmcs);;
  rev ← gets (λ s, basic_revision (basic (v_caps s)));
  upd_mem (set_revision_id vmcs rev);;
  failed ← vmcs_clear vmcs;
  if (failed : bool) then printf "%s : vmcs_clear error\n" [PStr "init_vmcs"];; mret 1 else
  failed ← make_vmcs_current vmcs;
  if (failed : bool) then printf "%s : make_vmcs_current error\n" [PStr "init_vmcs"];; mret 1 else
  k ← gets v_caps;
  upd_ctrls (settle_ctrls k);;
  init_vmcs_ctrl;;
  init_vmcs_host;;
  init_vmcs_guest;;
  mret 0.

Definition init_vmx : M unit :=
  region ← pages alloc_page;
  upd_ptrs (set_vmxon_region region);;
  upd_mem (zero_page region);;
  fix_cr0_set ← rdmsr MSR_IA32_VMX_CR0_FIXED0;
  fix_cr0_clr ← rdmsr MSR_IA32_VMX_CR0_FIXED1;
  fix_cr4_set ← rdmsr MSR_IA32_VMX_CR4_FIXED0;
  fix_cr4_clr ← rdmsr MSR_IA32_VMX_CR4_FIXED1;
  b ← rdmsr MSR_IA32_VMX_BASIC;
  pin ← rdmsr (if basic_ctrl b then MSR_IA32_VMX_TRUE_PIN else MSR_IA32_VMX_PINBASED_CTLS);
  ex ← rdmsr (if basic_ctrl b then MSR_IA32_VMX_TRUE_EXIT else MSR_IA32_VMX_EXIT_CTLS);
  en ← rdmsr (if basic_ctrl b then MSR_IA32_VMX_TRUE_ENTRY else MSR_IA32_VMX_ENTRY_CTLS);
  cpu0 ← rdmsr (if basic_ctrl b then MSR_IA32_VMX_TRUE_PROC else MSR_IA32_VMX_PROCBASED_CTLS);
  cpu1 ← (if negb (Z.land (ctrl_clr cpu0) CPU_SECONDARY =? 0)
          then rdmsr MSR_IA32_VMX_PROCBASED_CTLS2 else mret 0);
  ept ← (if negb (Z.land (ctrl_clr cpu1) (Z.lor CPU_EPT CPU_VPID) =? 0)
         then rdmsr MSR_IA32_VMX_EPT_VPID_CAP else mret 0);
  modify (set_v_caps (Caps b pin cpu0 cpu1 ex en ept));;
  cr0 ← read_cr0;
  write_cr0 (Z.lor (Z.land cr0 fix_cr0_clr) fix_cr0_set);;
  cr4 ← read_cr4;
  write_cr4 (Z.lor (Z.lor (Z.land cr4 fix_cr4_clr) fix_cr4_set) X86_CR4_VMXE);;
  upd_mem (λ m, wr m region (basic_revision b));;
  stack ← pages alloc_page;
  upd_ptrs (set_guest_stack stack);;
  upd_mem (zero_page stack);;
  stack ← pages alloc_page;
  upd_ptrs (set_guest_syscall_stack stack);;
  upd_mem (zero_page stack).

(** *** Hypercalls *)
(** The guest's half up to its [vmcall], which is a VM exit. *)
Definition hypercall (hypercall_no : Z) : M unit :=
  let val := Z.lor (Z.land hypercall_no HYPERCALL_MASK) HYPERCALL_BIT in
  upd_run (set_hypercall_field val).

Definition is_hypercall : M bool :=
  r ← vmcs_read EXI_REASON;
  field ← gets (λ s, hypercall_field (v_run s));
  let reason' := Z.land r 0xff in
  let hyper_bit := Z.land field HYPERCALL_BIT in
  mret ((reason' =? reason VMX_VMCALL) && negb (hyper_bit =? 0)).

Definition handle_hypercall : M Z :=
  field ← gets (λ s, hypercall_field (v_run s));
  let hypercall_no := Z.land field HYPERCALL_MASK in
  upd_run (set_hypercall_field 0);;
  if hypercall_no =? HYPERCALL_VMEXIT then mret VMX_VMEXIT
  else if hypercall_no =? HYPERCALL_VMABORT then mret VMX_VMABORT
  else if hypercall_no =? HYPERCALL_VMSKIP then mret VMX_VMSKIP
  else printf "ERROR : Invalid hypercall number : %ld\n" [PInt hypercall_no];; mret VMX_EXIT.

(** *** Registers *)
(** The [xchg] sequence of SAVE_GPR; LOAD_GPR is the same sequence. *)
Definition SAVE_GPR : list (greg * Z) :=
  [(RAX, 0); (RBX, 0x8); (RCX, 0x10); (RDX, 0x18); (RBP, 0x28); (RSI, 0x30); (RDI, 0x38);
   (R8, 0x40); (R9, 0x48); (R10, 0x50); (R11, 0x58); (R12, 0x60); (R13, 0x68); (R14, 0x70);
   (R15, 0x78)].
Definition LOAD_GPR : list (greg * Z) := SAVE_GPR.

Definition upd_reg (r : greg) (v : Z) (g : greg → Z) : greg → Z :=
  λ r', if decide (r' = r) then v else g r'.
Definition upd_slot (off v : Z) (m : Z → Z) : Z → Z :=
  λ o, if decide (o = off) then v else m o.

Fixpoint xchg_all (l : list (greg * Z)) (st : (greg → Z) * (Z → Z)) : (greg → Z) * (Z → Z) :=
  match l with
  | [] => st
  | (r, off) :: l => let '(g, m) := st in xchg_all l (upd_reg r (m off) g, upd_slot off (g r) m)
  end.

Definition xchg_gpr (l : list (greg * Z)) : M unit :=
  s ← get;
  let '(g, m) := xchg_all l (c_gpr (v_cpu s), g_regs (v_run s)) in
  upd_cpu (set_c_gpr g);;
  upd_run (set_g_regs m).

(** A member of the C variable [regs]. *)
Definition regs_field (f : rfield) : M Z := gets (λ s, g_regs (v_run s) (rfield_offset f)).
Definition set_regs_field (f : rfield) (v : Z) : M unit :=
  upd_run (λ r, set_g_regs (upd_slot (rfield_offset f) v (g_regs r)) r).

Definition print_vmexit_info : M unit :=
  reason0 ← vmcs_read EXI_REASON;
  let reason' := Z.land reason0 0xff in
  exit_qual ← vmcs_read EXI_QUALIFICATION;
  guest_rip ← vmcs_read GUEST_RIP;
  guest_rsp ← vmcs_read GUEST_RSP;
  printf "VMEXIT info:\n" [];;
  printf "\tvmexit reason = %ld\n" [PInt reason'];;
  printf "\texit qualification = %#lx\n" [PInt exit_qual];;
  r ← vmcs_read EXI_REASON;
  printf "\tBit 31 of reason = %lx\n" [PInt (Z.land (Z.shiftr r 31) 1)];;
  printf "\tguest_rip = %#lx\n" [PInt guest_rip];;
  rax ← regs_field f_rax; rbx ← regs_field f_rbx; rcx ← regs_field f_rcx; rdx ← regs_field f_rdx;
  printf "\tRAX=%#lx    RBX=%#lx    RCX=%#lx    RDX=%#lx\n" [PInt rax; PInt rbx; PInt rcx; PInt rdx];;
  rbp ← regs_field f_rbp; rsi ← regs_field f_rsi; rdi ← regs_field f_rdi;
  printf "\tRSP=%#lx    RBP=%#lx    RSI=%#lx    RDI=%#lx\n"
    [PInt guest_rsp; PInt rbp; PInt rsi; PInt rdi];;
  r8 ← regs_field f_r8; r9 ← regs_field f_r9; r10 ← regs_field f_r10; r11 ← regs_field f_r11;
  printf "\tR8 =%#lx    R9 =%#lx    R10=%#lx    R11=%#lx\n" [PInt r8; PInt r9; PInt r10; PInt r11];;
  r12 ← regs_field f_r12; r13 ← regs_field f_r13; r14 ← regs_field f_r14; r15 ← regs_field f_r15;
  printf "\tR12=%#lx    R13=%#lx    R14=%#lx    R15=%#lx\n" [PInt r12; PInt r13; PInt r14; PInt r15].

Definition print_vmentry_failure_info (failure : vmentry_failure) : M unit :=
  if f_early failure then
    printf "Early %s failure: " [PStr (f_instr failure)];;
    let flags := Z.land (f_flags failure) VMX_ENTRY_FLAGS in
    if flags =? X86_EFLAGS_CF then printf "current-VMCS pointer is not valid.\n" []
    else if flags =? X86_EFLAGS_ZF then
      n ← vmcs_read VMX_INST_ERROR;
      printf "error number is %ld. See Intel 30.4.\n" [PInt n]
    else printf "unexpected flags %lx!\n" [PInt (f_flags failure)]
  else
    r ← vmcs_read EXI_REASON;
    qual ← vmcs_read EXI_QUALIFICATION;
    printf "Non-early %s failure (reason=%#lx, qual=%#lx): "
      [PStr (f_instr failure); PInt r; PInt qual];;
    (if Z.land r 0xff =? reason VMX_FAIL_STATE then printf "invalid guest state\n" []
     else if Z.land r 0xff =? reason VMX_FAIL_MSR then printf "MSR loading\n" []
     else if Z.land r 0xff =? reason VMX_FAIL_MCHECK then printf "machine-check event\n" []
     else printf "unexpected basic exit reason %ld\n" [PInt (Z.land r 0xff)]);;
    when (Z.land r VMX_ENTRY_FAILURE =? 0) (printf "\tVMX_ENTRY_FAILURE BIT NOT SET!\n" []);;
    when (negb (Z.land r 0x7fff0000 =? 0)) (printf "\tRESERVED BITS SET!\n" []).

(** *** Guests (x86/vm.c) *)
(** [struct asor_guest]; a null function pointer is [None].  The members that
    change ([vmcs], [exits]) are in the state. *)
Record asor_guest := Guest {
  g_name : option string;
  g_main : option (M unit);
  g_exit_handler : option (M Z);
  g_syscall_handler : option (Z → M unit);
  g_entry_failure_handler : option (vmentry_failure → M Z)
}.

Definition asor_guest_main : M unit := printf "Hello Guest\n" [].
Definition asor_guest_exit_handler : M Z := print_vmexit_info;; mret VMX_EXIT.

Definition asor_guests : list asor_guest :=
  [Guest (Some "default guest"%string) (Some asor_guest_main) (Some asor_guest_exit_handler) None None;
   Guest None None None None None].

(** Calling through a null pointer is a fault. *)
Definition call {A} (f : option A) : M A := lift (of_option f).
Definition current_guest : M (option asor_guest) :=
  c ← gets (λ s, current (v_run s));
  match c with
  | None => mret None
  | Some i => g ← lift (of_option (asor_guests !! i)); mret (Some g)
  end.

Definition guest_main : M unit :=
  g ← current_guest; g ← call g; main ← call (g_main g); main.

Definition syscall_handler (syscall_no : Z) : M unit :=
  g ← current_guest; g ← call g;
  match g_syscall_handler g with Some h => h syscall_no | None => mret tt end.

(** [guest_entry] up to the [vmcall] of its hypercall. *)
Definition guest_entry : M unit := guest_main;; hypercall 1.

(** [entry_sysenter] up to its [vmresume]. *)
Definition entry_sysenter : M unit :=
  xchg_gpr SAVE_GPR;;
  upd_cpu (λ c, set_c_gpr (upd_reg RAX (Z.land (c_gpr c RAX) 0xf) (c_gpr c)) c);;
  upd_cpu (λ c, set_c_gpr (upd_reg RDI (c_gpr c RAX) (c_gpr c)) c);;
  no ← gets (λ s, c_gpr (v_cpu s) RDI);
  syscall_handler no;;
  xchg_gpr LOAD_GPR.

(** *** The run loop *)
Definition exit_handler : M Z :=
  g ← current_guest;
  match g with
  | None => error "Error: current vm is NULL.\n" [];; mret (-1)
  | Some g =>
    upd_run (λ r, set_exits (exits r + 1) r);;
    rflags ← vmcs_read GUEST_RFLAGS;
    set_regs_field f_rflags rflags;;
    hyper ← is_hypercall;
    ret ← (if (hyper : bool) then handle_hypercall else h ← call (g_exit_handler g); h);
    rflags ← regs_field f_rflags;
    vmcs_write GUEST_RFLAGS rflags;;
    mret ret
  end.

Definition entry_failure_handler (failure : vmentry_failure) : M Z :=
  g ← current_guest;
  match g with
  | None => error "Error: current vm is NULL.\n" [];; mret (-1)
  | Some g =>
    match g_entry_failure_handler g with
    | Some h => h failure
    | None => mret VMX_EXIT
    end
  end.

Definition vmx_enter_guest : M (bool * vmentry_failure) :=
  upd_run (set_in_guest 1);;
  (* mov HOST_RSP, rdi; vmwrite rsp, rdi *)
  upd_cpu (λ c, set_c_gpr (upd_reg RDI (encoding HOST_RSP) (c_gpr c)) c);;
  rsp ← gets (λ s, c_gpr (v_cpu s) RSP);
  vmcs_write HOST_RSP rsp;;
  xchg_gpr LOAD_GPR;;
  resume ← gets (λ s, launched (v_run s));
  back ← (λ s, Done (hw_enter hw resume s));
  '(early, flags) ←
    (match back with
     | Some flags =>
       xchg_gpr SAVE_GPR;;
       upd_cpu (λ c, set_c_gpr (upd_reg RDI flags (c_gpr c)) c);;
       mret (true, flags)
     | None => xchg_gpr SAVE_GPR;; mret (false, 0)
     end);
  upd_run (set_in_guest 0);;
  l ← gets (λ s, launched (v_run s));
  let failure := Failure (negb l) (if (l : bool) then "vmresume" else "vmlaunch")%string early flags in
  r ← vmcs_read EXI_REASON;
  mret (negb early && (Z.land r VMX_ENTRY_FAILURE =? 0), failure).

Fixpoint vmx_run (fuel : nat) : M Z :=
  match fuel with
  | O => λ _, NoFuel
  | S fuel =>
    '(entered, failure) ← vmx_enter_guest;
    ret ← (if (entered : bool) then upd_run (set_launched true);; exit_handler
           else entry_failure_handler failure);
    let ret := u32 ret in
    if ret =? VMX_RESUME then vmx_run fuel
    else if ret =? VMX_VMEXIT then upd_run (set_guest_finished 1);; mret 0
    else
      (if ret =? VMX_EXIT then mret tt
       else printf "ERROR : Invalid %s_handler return val %d.\n"
              [PStr (if (entered : bool) then "exit" else "entry_failure")%string; PInt (s32 ret)]);;
      (if (entered : bool) then print_vmexit_info else print_vmentry_failure_info failure);;
      lift Abort
  end.

(** *** x86/ept.c: enabling EPT *)
Definition ept_2m_supported : M bool :=
  v ← gets (λ s, ept_vpid (v_caps s)); mret (negb (Z.land v EPT_CAP_2M_PAGE =? 0)).

Definition __setup_ept (hpa : Z) (enable_ad : bool) : M Z :=
  k ← gets v_caps;
  if (Z.land (ctrl_clr (ctrl_cpu_rev0 k)) CPU_SECONDARY =? 0) ||
     (Z.land (ctrl_clr (ctrl_cpu_rev1 k)) CPU_EPT =? 0)
  then printf "\tEPT is not supported" [];; mret 1
  else if Z.land (ept_vpid k) EPT_CAP_WB =? 0
  then printf "WB memtype for EPT walks not supported\n" [];; mret 1
  else if Z.land (ept_vpid k) EPT_CAP_PWL4 =? 0
  then printf "\tPWL4 is not supported\n" [];; mret 1
  else
    let v := EPT_MEM_TYPE_WB in
    let v := Z.lor v (Z.shiftl 3 EPTP_PG_WALK_LEN_SHIFT) in
    let v := Z.lor v hpa in
    let v := if enable_ad then Z.lor v EPTP_AD_FLAG else v in
    upd_ptrs (set_eptp v);;
    vmcs_write EPTP v;;
    c0 ← vmcs_read CPU_EXEC_CTRL0;
    vmcs_write CPU_EXEC_CTRL0 (Z.lor c0 CPU_SECONDARY);;
    c1 ← vmcs_read CPU_EXEC_CTRL1;
    vmcs_write CPU_EXEC_CTRL1 (Z.lor c1 CPU_EPT);;
    mret 0.

(** [fuel] bounds the iterations of the mapping loops. *)
Definition setup_ept (fuel : nat) (enable_ad : bool) : M Z :=
  root ← pages alloc_page;
  upd_ptrs (set_pml4 root);;
  err ← __setup_ept (virt_to_phys root) enable_ad;
  if negb (err =? 0) then mret 1 else
  upd_mem (zero_page root);;
  size ← zoom v_fw set_v_fw (fwcfg_get_u64 (hw_fw_item hw) FW_CFG_RAM_SIZE);
  let end_of_memory := if size <? Z.shiftl 1 32 then Z.shiftl 1 32 else size in
  big ← ept_2m_supported;
  pages (λ p, p ← setup_ept_range fuel root 0 end_of_memory false (negb enable_ad && big)
                    (Z.lor (Z.lor EPT_WA EPT_RA) EPT_EA) p; Done (tt, p));;
  mret 0.

Definition x86_virt_enable (fuel : nat) : M Z :=
  upd_run (set_current (Some 0%nat));;
  ok ← is_vmx_supported;
  if negb ok then error "Error: vmx not supported.\n" [];; mret 1 else
  init_vmx;;
  failed ← vmx_on;
  if (failed : bool) then error "Error: %s : vmxon failed.\n" [PStr "x86_virt_enable"];; mret 1 else
  _ ← init_vmcs;
  _ ← setup_ept fuel true;
  _ ← vmx_run fuel;
  failed ← vmx_off;
  if (failed : bool) then error "Error: %s : vmxoff failed.\n" [PStr "x86_virt_enable"];; mret 1 else
  mret 0.
End code.

(** ** Lemmas *)
Ltac mrun_unfold ::=
  unfold printf, error, upd_cpu, upd_ctrls, upd_ptrs, upd_run, upd_mem, rdmsr, wrmsr,
    read_cr0, read_cr3, read_cr4, write_cr0, write_cr4, regs_field, set_regs_field, when, call.

Section proofs.
Context {HW : Type} (hw : hardware HW).
Abbreviation M := (stM (vstate HW)).
Implicit Types s : vstate HW.

(** *** The VMCS as a map *)
Definition on_vmcs (f : gmap Z Z → gmap Z Z) (s : vstate HW) : vstate HW :=
  set_v_cpu (set_c_vmcs (f (c_vmcs (v_cpu s))) (v_cpu s)) s.
Fixpoint write_list (l : list (Encoding * Z)) (m : gmap Z Z) : gmap Z Z :=
  match l with [] => m | (e, v) :: l => write_list l (<[encoding e := v]> m) end.
Definition field (e : Encoding) (s : vstate HW) : Z := default 0 (c_vmcs (v_cpu s) !! encoding e).

(** The value the last write of [e] in [l] leaves. *)
Fixpoint last_write (e : Encoding) (l : list (Encoding * Z)) : option Z :=
  match l with
  | [] => None
  | (e', v) :: l =>
    match last_write e l with
    | Some w => Some w
    | None => if decide (e' = e) then Some v else None
    end
  end.

Lemma on_vmcs_id s : on_vmcs id s = s.
Proof. by destruct s as [[] ? ? ? ? ? ? ?]. Qed.

Lemma vmcs_writes_ok l s : vmcs_writes l s = Done (tt, on_vmcs (write_list l) s).
Proof.
  revert s. induction l as [|[e v] l IH]; intros s; cbn [vmcs_writes write_list].
  - by rewrite <- (on_vmcs_id s) at 1.
  - etransitivity; [apply IH|]. by destruct s as [[] ? ? ? ? ? ? ?].
Qed.

Lemma write_list_lookup e l m :
  write_list l m !! encoding e =
  match last_write e l with Some v => Some v | None => m !! encoding e end.
Proof.
  revert m. induction l as [|[e' v] l IH]; intros m; cbn [write_list last_write]; [done|].
  rewrite IH. destruct (last_write e l); [done|]. case_decide as E.
  - subst. by rewrite lookup_insert_eq.
  - rewrite lookup_insert_ne; [done|]. by intros ?%(inj encoding).
Qed.

Lemma field_writes e l s :
  field e (on_vmcs (write_list l) s) = default (field e s) (last_write e l).
Proof.
  unfold field, on_vmcs. cbn. rewrite write_list_lookup. by destruct (last_write e l).
Qed.

Lemma field_insert_ne e e' v s :
  e ≠ e' → field e' (on_vmcs (insert (encoding e) v) s) = field e' s.
Proof.
  intros Hne. unfold field, on_vmcs. cbn. rewrite lookup_insert_ne; [done|].
  by intros ?%(inj encoding).
Qed.

Lemma vmcs_read_ok e s : vmcs_read e s = Done (field e s, s).
Proof. done. Qed.
Lemma vmcs_write_ok e v s : vmcs_write e v s = Done (tt, on_vmcs (insert (encoding e) v) s).
Proof. done. Qed.

Lemma vmcs_write_one e v s : vmcs_write e v s = Done (tt, on_vmcs (write_list [(e, v)]) s).
Proof. done. Qed.

Lemma write_list_app l1 l2 m : write_list (l1 ++ l2) m = write_list l2 (write_list l1 m).
Proof. revert m. induction l1 as [|[e v] l1 IH]; intros m; cbn; [done|apply IH]. Qed.
Lemma on_vmcs_app l1 l2 s :
  on_vmcs (write_list l2) (on_vmcs (write_list l1) s) = on_vmcs (write_list (l1 ++ l2)) s.
Proof. unfold on_vmcs. cbn. by rewrite write_list_app. Qed.

(** *** The register exchange *)
Definition gpr_eq (st st' : (greg → Z) * (Z → Z)) : Prop :=
  (∀ r, fst st r = fst st' r) ∧ (∀ o, snd st o = snd st' o).

Lemma xchg_all_spec l g m :
  NoDup (l.*1) → NoDup (l.*2) →
  let st := xchg_all l (g, m) in
  (∀ r o, (r, o) ∈ l → fst st r = m o ∧ snd st o = g r) ∧
  (∀ r, r ∉ l.*1 → fst st r = g r) ∧ (∀ o, o ∉ l.*2 → snd st o = m o).
Proof.
  revert g m. induction l as [|[r0 o0] l IH]; intros g m H1 H2; cbn [xchg_all].
  - split; [by intros ? ? ?%not_elem_of_nil|done].
  - cbn in H1, H2. apply NoDup_cons in H1 as [Hr0 H1]. apply NoDup_cons in H2 as [Ho0 H2].
    destruct (IH (upd_reg r0 (m o0) g) (upd_slot o0 (g r0) m) H1 H2) as (Hin & Hr & Ho).
    split; [|split].
    + intros r o [[= -> ->]|Hl]%elem_of_cons.
      * rewrite Hr, Ho by done. unfold upd_reg, upd_slot. by rewrite !decide_True by done.
      * destruct (Hin r o Hl) as [-> ->]. unfold upd_reg, upd_slot.
        rewrite !decide_False; [done| |].
        -- intros ->. apply Hr0. by apply (list_elem_of_fmap_2 fst) in Hl.
        -- intros ->. apply Ho0. by apply (list_elem_of_fmap_2 snd) in Hl.
    + intros r [Hne Hl]%not_elem_of_cons. rewrite Hr by done. unfold upd_reg. by rewrite decide_False.
    + intros o [Hne Hl]%not_elem_of_cons. rewrite Ho by done. unfold upd_slot. by rewrite decide_False.
Qed.

Lemma SAVE_GPR_nodup : NoDup (SAVE_GPR.*1) ∧ NoDup (SAVE_GPR.*2).
Proof. split; (apply (bool_decide_unpack _); vm_compute; done). Qed.

Lemma xchg_gpr_ok l s :
  let st := xchg_all l (c_gpr (v_cpu s), g_regs (v_run s)) in
  xchg_gpr l s = Done (tt, set_v_run (set_g_regs (snd st) (v_run s))
    (set_v_cpu (set_c_gpr (fst st) (v_cpu s)) s)).
Proof. unfold xchg_gpr. mrun. by destruct (xchg_all _ _). Qed.

(** *** Hypercalls *)
Lemma hypercall_bits n : 0 ≤ n →
  Z.land (Z.lor (Z.land n HYPERCALL_MASK) HYPERCALL_BIT) HYPERCALL_MASK = n mod 4096 ∧
  Z.land (Z.lor (Z.land n HYPERCALL_MASK) HYPERCALL_BIT) HYPERCALL_BIT = HYPERCALL_BIT.
Proof.
  intros Hn. rewrite !Z.land_lor_distr_l, <- !Z.land_assoc.
  change (Z.land HYPERCALL_MASK HYPERCALL_MASK) with (Z.ones 12).
  change (Z.land HYPERCALL_BIT HYPERCALL_MASK) with 0.
  change (Z.land HYPERCALL_MASK HYPERCALL_BIT) with 0.
  change (Z.land HYPERCALL_BIT HYPERCALL_BIT) with HYPERCALL_BIT.
  rewrite Z.land_0_r, Z.lor_0_r. by rewrite Z.land_ones.
Qed.

(** What a hypercall number means to the run loop. *)
Definition hypercall_code (n : Z) : Z :=
  if n =? HYPERCALL_VMEXIT then VMX_VMEXIT
  else if n =? HYPERCALL_VMABORT then VMX_VMABORT
  else if n =? HYPERCALL_VMSKIP then VMX_VMSKIP else VMX_EXIT.

Lemma is_hypercall_ok s :
  is_hypercall s = Done ((Z.land (field EXI_REASON s) 0xff =? 18) &&
    negb (Z.land (hypercall_field (v_run s)) HYPERCALL_BIT =? 0), s).
Proof. done. Qed.

Lemma handle_hypercall_ok s :
  let n := Z.land (hypercall_field (v_run s)) HYPERCALL_MASK in
  ∃ log, handle_hypercall s =
    Done (hypercall_code n, set_v_log log (set_v_run (set_hypercall_field 0 (v_run s)) s)) ∧
    (log = v_log s ∨ v_log s = tl log ∧ hypercall_code n = VMX_EXIT).
Proof.
  intros n. unfold handle_hypercall, hypercall_code. mrun. fold n.
  destruct (Z.eqb_spec n HYPERCALL_VMEXIT).
  { exists (v_log s). split; [reflexivity|by left]. }
  destruct (Z.eqb_spec n HYPERCALL_VMABORT).
  { exists (v_log s). split; [reflexivity|by left]. }
  destruct (Z.eqb_spec n HYPERCALL_VMSKIP).
  { exists (v_log s). split; [reflexivity|by left]. }
  eexists. split; [reflexivity|by right].
Qed.

(** *** The exit handler of the default guest *)
Definition default_guest : asor_guest :=
  Guest (Some "default guest"%string) (Some asor_guest_main) (Some (asor_guest_exit_handler (HW := HW)))
    None None.

Lemma current_guest_ok s :
  current (v_run s) = Some 0%nat → current_guest s = Done (Some default_guest, s).
Proof. intros E. unfold current_guest. mrun. by rewrite E. Qed.

(** The state in which the hypercall or the guest's handler runs. *)
Definition exit_entered s : vstate HW :=
  set_v_run (set_g_regs (upd_slot 0x80 (field GUEST_RFLAGS s) (g_regs (v_run s)))
    (set_exits (exits (v_run s) + 1) (v_run s))) s.

Lemma exit_entered_log s : v_log (exit_entered s) = v_log s.
Proof. reflexivity. Qed.

Definition is_hyper s : bool :=
  (Z.land (field EXI_REASON s) 0xff =? 18) &&
  negb (Z.land (hypercall_field (v_run s)) HYPERCALL_BIT =? 0).

Lemma exit_handler_ok s ret s' :
  current (v_run s) = Some 0%nat →
  (if is_hyper s then handle_hypercall else asor_guest_exit_handler) (exit_entered s) = Done (ret, s') →
  exit_handler s = Done (ret, on_vmcs (insert (encoding GUEST_RFLAGS) (g_regs (v_run s') 0x80)) s').
Proof.
  intros Ec Eh. unfold exit_handler.
  rewrite (stM_bind_Done _ _ _ _ _ (current_guest_ok s Ec)). mrun.
  rewrite (stM_bind_Done _ _ _ _ _ (vmcs_read_ok _ _)). mrun.
  rewrite (stM_bind_Done _ _ _ _ _ (is_hypercall_ok _)). mrun.
  change (if _ && _ then _ else _) with
    (if is_hyper s then handle_hypercall else asor_guest_exit_handler (HW := HW)).
  rewrite (stM_bind_Done _ _ _ _ _ Eh). reflexivity.
Qed.

(** *** Entering the guest *)
(** The state VMLAUNCH or VMRESUME starts from. *)
Definition enter_state s : vstate HW :=
  let s := set_v_run (set_in_guest 1 (v_run s)) s in
  let s := set_v_cpu (set_c_gpr (upd_reg RDI (encoding HOST_RSP) (c_gpr (v_cpu s))) (v_cpu s)) s in
  let s := on_vmcs (insert (encoding HOST_RSP) (c_gpr (v_cpu s) RSP)) s in
  let st := xchg_all LOAD_GPR (c_gpr (v_cpu s), g_regs (v_run s)) in
  set_v_run (set_g_regs (snd st) (v_run s)) (set_v_cpu (set_c_gpr (fst st) (v_cpu s)) s).

(** The state after the [asm] block, given what the processor left. *)
Definition back_state (back : option Z * vstate HW) : vstate HW :=
  let s := snd back in
  let st := xchg_all SAVE_GPR (c_gpr (v_cpu s), g_regs (v_run s)) in
  let g := match fst back with Some flags => upd_reg RDI flags (fst st) | None => fst st end in
  set_v_run (set_in_guest 0 (set_g_regs (snd st) (v_run s))) (set_v_cpu (set_c_gpr g (v_cpu s)) s).

Definition entry_failure (back : option Z * vstate HW) : vmentry_failure :=
  let l := launched (v_run (snd back)) in
  Failure (negb l) (if l then "vmresume" else "vmlaunch")
    (bool_decide (is_Some (fst back))) (default 0 (fst back)).

Definition entered_ok (back : option Z * vstate HW) : bool :=
  bool_decide (fst back = None) && (Z.land (field EXI_REASON (snd back)) VMX_ENTRY_FAILURE =? 0).

Lemma vmx_enter_guest_ok s :
  let back := hw_enter hw (launched (v_run s)) (enter_state s) in
  vmx_enter_guest hw s = Done ((entered_ok back, entry_failure back), back_state back).
Proof.
  unfold vmx_enter_guest. mrun.
  rewrite (stM_bind_Done _ _ _ _ _ (vmcs_write_ok _ _ _)). mrun.
  rewrite (stM_bind_Done _ _ _ _ _ (xchg_gpr_ok _ _)). mrun.
  match goal with |- (?m ≫= ?f) ?st = _ => change st with (enter_state s) end.
  match goal with |- context [hw_enter hw (launched (v_run ?st))] =>
    change (launched (v_run st)) with (launched (v_run s)) end.
  unfold mbind at 1, stM_bind at 1. destruct (hw_enter hw _ (enter_state s)) as [[flags|] s1]; mrun;
    rewrite (stM_bind_Done _ _ _ _ _ (xchg_gpr_ok _ _)); mrun;
    rewrite (stM_bind_Done _ _ _ _ _ (vmcs_read_ok _ _)); reflexivity.
Qed.

(** What [print_vmexit_info] reads and prints, newest line first. *)
Definition vmexit_info s : list (string * list parg) :=
  let r f := PInt (g_regs (v_run s) (rfield_offset f)) in
  [("\tR12=%#lx    R13=%#lx    R14=%#lx    R15=%#lx\n"%string, [r f_r12; r f_r13; r f_r14; r f_r15]);
   ("\tR8 =%#lx    R9 =%#lx    R10=%#lx    R11=%#lx\n"%string, [r f_r8; r f_r9; r f_r10; r f_r11]);
   ("\tRSP=%#lx    RBP=%#lx    RSI=%#lx    RDI=%#lx\n"%string,
      [PInt (field GUEST_RSP s); r f_rbp; r f_rsi; r f_rdi]);
   ("\tRAX=%#lx    RBX=%#lx    RCX=%#lx    RDX=%#lx\n"%string, [r f_rax; r f_rbx; r f_rcx; r f_rdx]);
   ("\tguest_rip = %#lx\n"%string, [PInt (field GUEST_RIP s)]);
   ("\tBit 31 of reason = %lx\n"%string, [PInt (Z.land (Z.shiftr (field EXI_REASON s) 31) 1)]);
   ("\texit qualification = %#lx\n"%string, [PInt (field EXI_QUALIFICATION s)]);
   ("\tvmexit reason = %ld\n"%string, [PInt (Z.land (field EXI_REASON s) 0xff)]);
   ("VMEXIT info:\n"%string, [])].

Lemma print_vmexit_info_ok s :
  print_vmexit_info s = Done (tt, set_v_log (vmexit_info s ++ v_log s) s).
Proof. reflexivity. Qed.
Lemma asor_guest_exit_handler_ok s :
  asor_guest_exit_handler s = Done (VMX_EXIT, set_v_log (vmexit_info s ++ v_log s) s).
Proof. reflexivity. Qed.

Lemma print_vmentry_failure_info_total failure s :
  ∃ s', print_vmentry_failure_info failure s = Done (tt, s').
Proof.
  unfold print_vmentry_failure_info. destruct (f_early failure); mrun.
  - destruct (_ =? X86_EFLAGS_CF); [by eexists|]. destruct (_ =? X86_EFLAGS_ZF); by eexists.
  - rewrite (stM_bind_Done _ _ _ _ _ (vmcs_read_ok _ _)). mrun.
    rewrite (stM_bind_Done _ _ _ _ _ (vmcs_read_ok _ _)). mrun.
    repeat match goal with |- context [if ?b then _ else _] => destruct b end; by eexists.
Qed.

(** The end of the run loop when the handler did not ask to go on. *)
Lemma vmx_run_stop ret (again finish : M Z) (msg info : M unit) s :
  ret ≠ VMX_RESUME → ret ≠ VMX_VMEXIT →
  (∀ s, ∃ s', info s = Done (tt, s')) → (∀ s, ∃ s', msg s = Done (tt, s')) →
  (if ret =? VMX_RESUME then again else if ret =? VMX_VMEXIT then finish
   else (if ret =? VMX_EXIT then mret tt else msg);; info;; lift Abort) s = Abort.
Proof.
  intros H1 H2 Hi Hm. rewrite (proj2 (Z.eqb_neq _ _) H1), (proj2 (Z.eqb_neq _ _) H2). unfold mbind at 1, stM_bind at 1.
  assert (∃ s', (if ret =? VMX_EXIT then mret tt else msg) s = Done (tt, s')) as [s' ->].
  { destruct (ret =? VMX_EXIT); [by exists s|apply Hm]. }
  destruct (Hi s') as [s2 E]. by rewrite (stM_bind_Done _ _ _ _ _ E).
Qed.

(** *** The VMCS *)
Definition adjust (want rev : Z) : Z := Z.land (Z.lor want (ctrl_set rev)) (ctrl_clr rev).
(** The word [w] has every bit the processor requires and none it forbids. *)
Definition ctrl_allowed (rev w : Z) : Prop :=
  Z.land w (ctrl_set rev) = ctrl_set rev ∧ Z.land w (not32 (ctrl_clr rev)) = 0.
(** The allowed-0 settings of a capability MSR are allowed-1 settings too. *)
Definition ctrl_consistent (rev : Z) : Prop := Z.land (ctrl_set rev) (ctrl_clr rev) = ctrl_set rev.

Lemma ctrl_clr_range rev : 0 ≤ ctrl_clr rev < 2 ^ 32.
Proof. apply Z.mod_pos_bound. lia. Qed.

Lemma adjust_allowed want rev : ctrl_consistent rev → ctrl_allowed rev (adjust want rev).
Proof.
  intros Hc. unfold ctrl_allowed, adjust. pose proof (ctrl_clr_range rev) as Hr.
  set (a := ctrl_set rev) in *. set (b := ctrl_clr rev) in *.
  split; apply Z.bits_inj'; intros i Hi; rewrite ?Z.land_spec, ?Z.lor_spec, ?Z.testbit_0_l.
  - assert (Z.testbit (Z.land a b) i = Z.testbit a i) as E by (unfold a, b; by rewrite Hc).
    rewrite Z.land_spec in E. destruct (Z.testbit want i), (Z.testbit a i), (Z.testbit b i); done.
  - rewrite testbit_not32 by done. destruct (Z.testbit b i); cbn; by rewrite ?andb_false_r.
Qed.

(** A requested bit the processor allows is set. *)
Lemma adjust_requested want rev bit :
  Z.land want bit = bit → Z.land (ctrl_clr rev) bit = bit → Z.land (adjust want rev) bit = bit.
Proof.
  intros Hw Hc. unfold adjust. apply Z.bits_inj'. intros i Hi.
  assert (Z.testbit (Z.land want bit) i = Z.testbit bit i) as E1 by (by rewrite Hw).
  assert (Z.testbit (Z.land (ctrl_clr rev) bit) i = Z.testbit bit i) as E2 by (by rewrite Hc).
  rewrite !Z.land_spec in E1, E2. rewrite !Z.land_spec, Z.lor_spec.
  destruct (Z.testbit want i), (Z.testbit (ctrl_set rev) i), (Z.testbit (ctrl_clr rev) i),
    (Z.testbit bit i); done.
Qed.

(** The guest's CR0 and CR4 as computed from the host's and ENT_GUEST_64. *)
Definition guest_cr0_of (guest_64 : bool) (cr0 : Z) : Z :=
  let c := if guest_64 then Z.lor cr0 X86_CR0_PG else cr0 in
  if negb (Z.land c X86_CR0_PG =? 0) then Z.lor c X86_CR0_PE else c.
Definition guest_cr4_of (guest_64 : bool) (cr4 : Z) : Z :=
  let c := if guest_64 then Z.lor cr4 X86_CR4_PAE else cr4 in
  if guest_64 then c else Z.land c (not64 X86_CR4_PCIDE).

Lemma land_lor_same x b : Z.land (Z.lor x b) b = b.
Proof. apply Z.bits_inj'. intros i Hi. rewrite Z.land_spec, Z.lor_spec.
  by destruct (Z.testbit x i), (Z.testbit b i). Qed.

Lemma guest_cr0_pe g cr0 :
  Z.land (guest_cr0_of g cr0) X86_CR0_PG ≠ 0 → Z.land (guest_cr0_of g cr0) X86_CR0_PE ≠ 0.
Proof.
  unfold guest_cr0_of. set (c := if g then _ else _). destruct (Z.eqb_spec (Z.land c X86_CR0_PG) 0); cbn [negb].
  - done.
  - intros _. by rewrite land_lor_same.
Qed.

Lemma guest_cr0_pg cr0 : Z.land (guest_cr0_of true cr0) X86_CR0_PG ≠ 0.
Proof.
  unfold guest_cr0_of. rewrite land_lor_same. change (negb (X86_CR0_PG =? 0)) with true.
  cbv iota. rewrite <- Z.lor_assoc, (Z.lor_comm X86_CR0_PG), Z.lor_assoc. by rewrite land_lor_same.
Qed.

Lemma guest_cr4_pae cr4 : Z.land (guest_cr4_of true cr4) X86_CR4_PAE ≠ 0.
Proof. unfold guest_cr4_of. by rewrite land_lor_same. Qed.

Definition efer s : Z := default 0 (c_msr (v_cpu s) !! MSR_EFER).
Definition guest_64 s : bool := negb (Z.land (ctrl_enter (v_ctrls s)) ENT_GUEST_64 =? 0).

Lemma init_vmcs_guest_ok s :
  ∃ l, init_vmcs_guest hw s = Done (tt, on_vmcs (write_list l) s) ∧
    last_write GUEST_CR0 l = Some (guest_cr0_of (guest_64 s) (c_cr0 (v_cpu s))) ∧
    last_write GUEST_CR4 l = Some (guest_cr4_of (guest_64 s) (c_cr4 (v_cpu s))) ∧
    last_write GUEST_CR3 l = Some (c_cr3 (v_cpu s)) ∧
    last_write GUEST_EFER l = Some (efer s) ∧
    last_write GUEST_RIP l = Some (sym_guest_entry hw) ∧
    last_write GUEST_RSP l = Some (u64 (guest_stack (v_ptrs s) + PAGE_SIZE - 1)) ∧
    Forall (λ e, last_write e l = None)
      [HOST_CR3; HOST_EFER; HOST_RIP; PIN_CONTROLS; CPU_EXEC_CTRL0; CPU_EXEC_CTRL1; ENT_CONTROLS;
       EXI_CONTROLS; VPID; VMCS_LINK_PTR; EPTP].
Proof.
  eexists. split; [unfold init_vmcs_guest; mrun; apply vmcs_writes_ok|].
  do 6 (split; [reflexivity|]). repeat constructor.
Qed.

Lemma init_vmcs_host_ok s :
  ∃ l, init_vmcs_host hw s = Done (tt, on_vmcs (write_list l) s) ∧
    last_write HOST_CR3 l = Some (c_cr3 (v_cpu s)) ∧
    last_write HOST_EFER l = Some (efer s) ∧
    last_write HOST_RIP l = Some (sym_vmx_return hw) ∧
    last_write ENT_CONTROLS l = Some (ctrl_enter (v_ctrls s)) ∧
    last_write EXI_CONTROLS l = Some (ctrl_exit (v_ctrls s)) ∧
    last_write VMCS_LINK_PTR l = Some (Z.ones 64) ∧
    Forall (λ e, last_write e l = None)
      [PIN_CONTROLS; CPU_EXEC_CTRL0; CPU_EXEC_CTRL1; VPID; EPTP].
Proof.
  eexists. split.
  - unfold init_vmcs_host. mrun. rewrite (stM_bind_Done _ _ _ _ _ (vmcs_write_one _ _ _)). mrun.
    rewrite (stM_bind_Done _ _ _ _ _ (vmcs_writes_ok _ _)). mrun.
    etransitivity; [apply vmcs_writes_ok|]. rewrite !on_vmcs_app. reflexivity.
  - do 6 (split; [reflexivity|]). repeat constructor.
Qed.

Lemma init_vmcs_ctrl_ok s :
  ∃ l c, init_vmcs_ctrl s = Done (tt, on_vmcs (write_list l) (set_v_ctrls c s)) ∧
    last_write PIN_CONTROLS l = Some (ctrl_pin (v_ctrls s)) ∧
    last_write CPU_EXEC_CTRL0 l = Some (ctrl_cpu0 (v_ctrls s)) ∧
    last_write VPID l = Some (u32 (vpid_cnt (v_ctrls s) + 1)) ∧
    last_write EPTP l = None ∧
    ctrl_enter c = ctrl_enter (v_ctrls s) ∧ ctrl_exit c = ctrl_exit (v_ctrls s).
Proof.
  set (k := v_caps s). set (c := v_ctrls s).
  set (cpu1 := Z.land (Z.lor (ctrl_cpu1 c) (ctrl_set (ctrl_cpu_rev1 k))) (ctrl_clr (ctrl_cpu_rev1 k))).
  set (sec := negb (Z.land (ctrl_set (ctrl_cpu_rev0 k)) CPU_SECONDARY =? 0)).
  set (cnt := u32 (vpid_cnt c + 1)).
  exists ((PIN_CONTROLS, ctrl_pin c) :: (CPU_EXEC_CTRL0, ctrl_cpu0 c) ::
    (if sec then [(CPU_EXEC_CTRL1, cpu1)] else []) ++ [(CR3_TARGET_COUNT, 0); (VPID, cnt)]).
  exists (set_vpid_cnt cnt (if sec then set_ctrl_cpu1 cpu1 c else c)).
  split.
  - unfold init_vmcs_ctrl. mrun. fold k c. fold sec.
    rewrite (stM_bind_Done _ _ _ _ _ (vmcs_write_one _ _ _)). mrun.
    rewrite (stM_bind_Done _ _ _ _ _ (vmcs_write_one _ _ _)). mrun.
    destruct sec; mrun; repeat (rewrite (stM_bind_Done _ _ _ _ _ (vmcs_write_one _ _ _)); mrun);
      reflexivity.
  - destruct sec; repeat (split; [reflexivity|]); reflexivity.
Qed.

Lemma vmx_insn_ok f s :
  vmx_insn f s = Done (fst (f (c_hw (v_cpu s))),
    set_v_cpu (set_c_hw (snd (f (c_hw (v_cpu s)))) (v_cpu s)) s).
Proof. unfold vmx_insn. by destruct (f _). Qed.

Lemma pages_ok {A B} (m : stM pstate A) (f : A → M B) s a t :
  m (v_pages s) = Done (a, t) → (pages m ≫= f) s = f a (set_v_pages t s).
Proof. apply bind_zoom. Qed.

(** The control words [init_vmcs] settles on. *)
Lemma settle_ctrls_eq k c :
  settle_ctrls k c =
  Ctrls (adjust (Z.lor (ctrl_pin c) (Z.lor (Z.lor PIN_EXTINT PIN_NMI) PIN_VIRT_NMI)) (ctrl_pin_rev k))
    (adjust (Z.lor ENT_LOAD_EFER ENT_GUEST_64) (ctrl_enter_rev k))
    (adjust (Z.lor EXI_LOAD_EFER EXI_HOST_64) (ctrl_exit_rev k))
    (adjust (Z.land (ctrl_cpu0 c) (u32 (not64 (Z.lor CPU_IO CPU_IO_BITMAP)))) (ctrl_cpu_rev0 k))
    0 (vpid_cnt c).
Proof. reflexivity. Qed.

(** The writes [L] leave the control words [c] and the host's [cr3] and EFER, the
    guest's entry state and the exit address in the VMCS. *)
Record vmcs_writes_spec (c : ctrls) s (L : list (Encoding * Z)) : Prop := {
  vw_pin : last_write PIN_CONTROLS L = Some (ctrl_pin c);
  vw_cpu0 : last_write CPU_EXEC_CTRL0 L = Some (ctrl_cpu0 c);
  vw_enter : last_write ENT_CONTROLS L = Some (ctrl_enter c);
  vw_exit : last_write EXI_CONTROLS L = Some (ctrl_exit c);
  vw_vpid : last_write VPID L = Some (u32 (vpid_cnt c + 1));
  vw_link : last_write VMCS_LINK_PTR L = Some (Z.ones 64);
  vw_host_cr3 : last_write HOST_CR3 L = Some (c_cr3 (v_cpu s));
  vw_host_efer : last_write HOST_EFER L = Some (efer s);
  vw_host_rip : last_write HOST_RIP L = Some (sym_vmx_return hw);
  vw_cr0 : last_write GUEST_CR0 L =
    Some (guest_cr0_of (negb (Z.land (ctrl_enter c) ENT_GUEST_64 =? 0)) (c_cr0 (v_cpu s)));
  vw_cr4 : last_write GUEST_CR4 L =
    Some (guest_cr4_of (negb (Z.land (ctrl_enter c) ENT_GUEST_64 =? 0)) (c_cr4 (v_cpu s)));
  vw_cr3 : last_write GUEST_CR3 L = Some (c_cr3 (v_cpu s));
  vw_efer : last_write GUEST_EFER L = Some (efer s);
  vw_rip : last_write GUEST_RIP L = Some (sym_guest_entry hw);
  vw_rsp : last_write GUEST_RSP L = Some (u64 (guest_stack (v_ptrs s) + PAGE_SIZE - 1));
  vw_eptp : last_write EPTP L = None
}.

Lemma last_write_app e l1 l2 :
  last_write e (l1 ++ l2) =
  match last_write e l2 with Some w => Some w | None => last_write e l1 end.
Proof.
  induction l1 as [|[e' v] l1 IH]; cbn; [by destruct (last_write e l2)|].
  rewrite IH. by destruct (last_write e l2).
Qed.

(** [init_vmcs_ctrl], [init_vmcs_host] and [init_vmcs_guest] in a row. *)
Lemma init_vmcs_fields_ok s :
  ∃ L c, (init_vmcs_ctrl;; init_vmcs_host hw;; init_vmcs_guest hw;; mret 0) s =
      Done (0, on_vmcs (write_list L) (set_v_ctrls c s)) ∧
    vmcs_writes_spec (v_ctrls s) s L.
Proof.
  destruct (init_vmcs_ctrl_ok s) as (l1 & c & E1 & A1 & A2 & A3 & A4 & A5 & A6).
  destruct (init_vmcs_host_ok (on_vmcs (write_list l1) (set_v_ctrls c s)))
    as (l2 & E2 & B1 & B2 & B3 & B4 & B5 & B6 & Bn).
  destruct (init_vmcs_guest_ok (on_vmcs (write_list l2) (on_vmcs (write_list l1) (set_v_ctrls c s))))
    as (l3 & E3 & C1 & C2 & C3 & C4 & C5 & C6 & Cn).
  exists (l1 ++ l2 ++ l3), c. split.
  - rewrite (stM_bind_Done _ _ _ _ _ E1), (stM_bind_Done _ _ _ _ _ E2), (stM_bind_Done _ _ _ _ _ E3).
    by rewrite !on_vmcs_app.
  - repeat match goal with H : Forall _ (_ :: _) |- _ => apply Forall_cons in H as [? H] end.
    cbn [on_vmcs v_ctrls set_v_cpu set_v_ctrls v_cpu v_ptrs] in *.
    unfold guest_64 in C1, C2. cbn [on_vmcs v_ctrls set_v_cpu set_v_ctrls] in C1, C2.
    rewrite A5 in C1, C2, B4. rewrite A6 in B5.
    split; rewrite !last_write_app;
      repeat match goal with H : last_write ?e ?l = _ |- context [last_write ?e ?l] => rewrite H end;
      reflexivity.
Qed.

(** Everything [init_vmcs] does when the instructions succeed. *)
Definition init_vmcs_pages (s : vstate HW) (p : Z) (P' : pstate) : pstate :=
  with_pmem (set_revision_id p (basic_revision (basic (v_caps s))) (zero_page p (pmem P'))) P'.

Lemma init_vmcs_ok s p P' :
  alloc_page (v_pages s) = Done (p, P') →
  fst (hw_vmclear hw p (c_hw (v_cpu s))) = false →
  fst (hw_vmptrld hw p (snd (hw_vmclear hw p (c_hw (v_cpu s))))) = false →
  ∃ L c h2, init_vmcs hw s = Done (0, on_vmcs (write_list L) (set_v_ctrls c
      (set_v_cpu (set_c_hw h2 (v_cpu s)) (set_v_pages (init_vmcs_pages s p P')
        (set_v_ptrs (set_guest_vmcs p (v_ptrs s)) s))))) ∧
    vmcs_writes_spec (settle_ctrls (v_caps s) (v_ctrls s)) s L.
Proof.
  intros Ea Ec Ep.
  set (h1 := snd (hw_vmclear hw p (c_hw (v_cpu s)))) in *. set (h2 := snd (hw_vmptrld hw p h1)).
  set (s0 := set_v_cpu (set_c_hw h2 (v_cpu s)) (set_v_pages (init_vmcs_pages s p P')
               (set_v_ptrs (set_guest_vmcs p (v_ptrs s)) s))).
  destruct (init_vmcs_fields_ok (set_v_ctrls (settle_ctrls (v_caps s) (v_ctrls s)) s0)) as (L & c & E & HL).
  exists L, c, h2. split; [|by destruct HL; constructor].
  unfold init_vmcs. rewrite (pages_ok _ _ _ _ _ Ea). mrun. unfold vmcs_clear, make_vmcs_current.
  rewrite (stM_bind_Done _ _ _ _ _ (vmx_insn_ok _ _)).
  match goal with |- context [hw_vmclear hw p (c_hw (v_cpu ?st))] =>
    change (c_hw (v_cpu st)) with (c_hw (v_cpu s)) end.
  rewrite Ec. cbv iota. rewrite (stM_bind_Done _ _ _ _ _ (vmx_insn_ok _ _)).
  match goal with |- context [hw_vmptrld hw p (c_hw (v_cpu ?st))] =>
    change (c_hw (v_cpu st)) with h1 end.
  rewrite Ep. cbv iota. mrun.
  match goal with |- (?m ≫= ?f) ?st = _ => change st with (set_v_ctrls (settle_ctrls (v_caps s) (v_ctrls s)) s0) end.
  exact E.
Qed.

(** *** EPT *)
Definition ept_supported (k : caps) : bool :=
  negb (Z.land (ctrl_clr (ctrl_cpu_rev0 k)) CPU_SECONDARY =? 0) &&
  negb (Z.land (ctrl_clr (ctrl_cpu_rev1 k)) CPU_EPT =? 0) &&
  negb (Z.land (ept_vpid k) EPT_CAP_WB =? 0) && negb (Z.land (ept_vpid k) EPT_CAP_PWL4 =? 0).

Definition eptp_of (hpa : Z) (enable_ad : bool) : Z :=
  let v := Z.lor (Z.lor EPT_MEM_TYPE_WB (Z.shiftl 3 EPTP_PG_WALK_LEN_SHIFT)) hpa in
  if enable_ad then Z.lor v EPTP_AD_FLAG else v.

Lemma setup_ept_field_ok hpa ad s :
  ept_supported (v_caps s) = true →
  ∃ L, __setup_ept hpa ad s =
      Done (0, on_vmcs (write_list L) (set_v_ptrs (set_eptp (eptp_of hpa ad) (v_ptrs s)) s)) ∧
    last_write EPTP L = Some (eptp_of hpa ad) ∧
    last_write CPU_EXEC_CTRL0 L = Some (Z.lor (field CPU_EXEC_CTRL0 s) CPU_SECONDARY) ∧
    last_write CPU_EXEC_CTRL1 L = Some (Z.lor (field CPU_EXEC_CTRL1 s) CPU_EPT).
Proof.
  unfold ept_supported. intros [[[H1 H2]%andb_true_iff H3]%andb_true_iff H4]%andb_true_iff.
  apply negb_true_iff in H1, H2, H3, H4.
  exists [(EPTP, eptp_of hpa ad); (CPU_EXEC_CTRL0, Z.lor (field CPU_EXEC_CTRL0 s) CPU_SECONDARY);
    (CPU_EXEC_CTRL1, Z.lor (field CPU_EXEC_CTRL1 s) CPU_EPT)].
  split; [|repeat (split; [reflexivity|]); reflexivity].
  unfold __setup_ept. mrun. rewrite H1, H2, H3, H4. cbn [orb]. fold (eptp_of hpa ad). mrun.
  rewrite (stM_bind_Done _ _ _ _ _ (vmcs_write_one _ _ _)). mrun.
  rewrite (stM_bind_Done _ _ _ _ _ (vmcs_read_ok _ _)). mrun.
  rewrite (stM_bind_Done _ _ _ _ _ (vmcs_write_one _ _ _)). mrun.
  rewrite (stM_bind_Done _ _ _ _ _ (vmcs_read_ok _ _)). mrun.
  rewrite (stM_bind_Done _ _ _ _ _ (vmcs_write_one _ _ _)). mrun.
  rewrite !on_vmcs_app, !field_writes. reflexivity.
Qed.

(** The end of memory [setup_ept] maps up to. *)
Definition end_of_memory : Z :=
  let size := le_value (item_bytes (hw_fw_item hw) FW_CFG_RAM_SIZE 0 8) in
  if size <? 2 ^ 32 then 2 ^ 32 else size.

Definition map_2m (ad : bool) (k : caps) : bool :=
  negb ad && negb (Z.land (ept_vpid k) EPT_CAP_2M_PAGE =? 0).

Lemma setup_ept_ok fuel ad s root FR :
  ept_supported (v_caps s) = true → free_list (v_pages s) (root :: FR) → fw_lock (v_fw s) = 0 →
  end_of_memory ≤ 2 ^ 48 →
  ept_tables end_of_memory false (map_2m ad (v_caps s)) ≤ Z.of_nat (length FR) →
  end_of_memory / 4096 ≤ Z.of_nat fuel →
  ∃ L P' FR' f', setup_ept hw fuel ad s =
      Done (0, set_v_pages P' (set_v_fw f' (on_vmcs (write_list L)
        (set_v_ptrs (set_eptp (eptp_of root ad) (set_pml4 root (v_ptrs s))) s)))) ∧
    last_write EPTP L = Some (eptp_of root ad) ∧
    last_write CPU_EXEC_CTRL0 L = Some (Z.lor (field CPU_EXEC_CTRL0 s) CPU_SECONDARY) ∧
    last_write CPU_EXEC_CTRL1 L = Some (Z.lor (field CPU_EXEC_CTRL1 s) CPU_EPT) ∧
    FR' `suffix_of` FR ∧ free_list P' FR' ∧
    (∀ va, 0 ≤ va < 2 ^ 48 → translate EPT 4 (pmem P') root va =
      if va <? end_of_memory / 4096 * 4096 then Some (va, 7) else None) ∧
    (∀ p, page_ok p → p ≠ root → p ∉ FR → same_page (pmem (v_pages s)) (pmem P') p).
Proof.
  intros Hk Hf Hfw Hend Htab Hfuel.
  destruct (free_list_cons _ _ _ Hf) as (_ & _ & Hrok & HrF).
  destruct (alloc_page_cons _ _ _ Hf) as (P1 & Ea & Hf1 & Em).
  set (s1 := set_v_ptrs (set_pml4 root (v_ptrs s)) (set_v_pages P1 s)).
  destruct (setup_ept_field_ok root ad s1 Hk) as (L & E1 & HL1 & HL2 & HL3).
  set (P2 := with_pmem (zero_page root (pmem P1)) P1).
  assert (free_list P2 FR) as Hf2.
  { assert (ps_free (St := pstate) P1 FR) as Hf1' by exact Hf1.
    apply (free_zero root FR P1 Hf1'); [by apply page_ok_aligned|exact HrF]. }
  destruct (setup_ept_range_ok fuel root end_of_memory false (map_2m ad (v_caps s)) 7 FR P2)
    as (P' & FR' & E2 & Hsuf & Hf' & Htr & Hfr); try assumption.
  { split; [unfold end_of_memory; destruct (_ <? _) eqn:E; apply Z.ltb_ge in E || idtac; lia|exact Hend]. }
  { lia. } { done. }
  { intros j Hj. exact (rd_zero_page_in root (pmem P1) j Hj). }
  eexists L, P', FR', _. split.
  - unfold setup_ept. rewrite (pages_ok _ _ _ _ _ Ea). mrun. unfold virt_to_phys.
    match goal with |- (?m ≫= ?f) ?st = _ => change st with s1 end.
    rewrite (stM_bind_Done _ _ _ _ _ E1). cbn [Z.eqb negb]. cbv iota. set (s2 := on_vmcs _ _).
    unfold upd_mem. rewrite bind_modify. set (s3 := set_v_pages _ s2).
    change (fwcfg_get_u64 (hw_fw_item hw) FW_CFG_RAM_SIZE) with
      (fwcfg_get_u (hw_fw_item hw) FW_CFG_RAM_SIZE 8).
    rewrite (bind_zoom v_fw set_v_fw _ _ s3 _ _
      (fwcfg_get_u_ok (hw_fw_item hw) FW_CFG_RAM_SIZE 8 (v_fw s3) Hfw ltac:(lia))).
    change (Z.shiftl 1 32) with (2 ^ 32). cbv zeta. fold end_of_memory.
    unfold ept_2m_supported. mrun. set (s4 := set_v_fw _ s3).
    change (ept_vpid (v_caps s4)) with (ept_vpid (v_caps s)). fold (map_2m ad (v_caps s)).
    rewrite (pages_ok _ _ s4 tt P').
    2:{ change (v_pages s4) with P2. change (Z.lor (Z.lor EPT_WA EPT_RA) EPT_EA) with 7.
        by rewrite E2. }
    reflexivity.
  - split; [exact HL1|]. split; [exact HL2|]. split; [exact HL3|]. split; [exact Hsuf|].
    split; [exact Hf'|]. split; [exact Htr|]. intros p Hp Hpr HpF.
    apply same_page_trans with (pmem P2); [|by apply Hfr].
    rewrite <- Em. apply (same_page_zero (pmem P1) p root); [by apply page_ok_aligned..|exact Hpr].
Qed.

(** The parts of an EPT pointer. *)
Lemma eptp_fields root ad :
  page_ok root →
  Z.land (eptp_of root ad) 7 = EPT_MEM_TYPE_WB ∧
  Z.land (Z.shiftr (eptp_of root ad) 3) 7 = 3 ∧
  negb (Z.land (eptp_of root ad) EPTP_AD_FLAG =? 0) = ad ∧
  Z.land (eptp_of root ad) EPT_ADDR_MASK = root.
Proof.
  intros (H0 & Hal & H52).
  assert (eptp_of root ad = Z.lor (if ad then 94 else 30) root) as ->.
  { unfold eptp_of. destruct ad; [|reflexivity].
    rewrite <- !Z.lor_assoc, (Z.lor_comm root), !Z.lor_assoc. reflexivity. }
  assert (∀ k, 0 ≤ k < 4096 →
    Z.land (Z.lor (if ad then 94 else 30) root) k = Z.land (if ad then 94 else 30) k) as Hlow
    by (intros; by apply land_lor_low).
  split; [rewrite Hlow by lia; by destruct ad|]. split; [|split].
  - change 7 with (Z.shiftr 56 3). rewrite <- Z.shiftr_land, Hlow by lia. by destruct ad.
  - change EPTP_AD_FLAG with 64. rewrite Hlow by lia. by destruct ad.
  - apply (pf_addr_lor EPT); [destruct ad; reflexivity|lia|done].
Qed.

Lemma field_set_run e x s : field e (set_v_run x s) = field e s.
Proof. done. Qed.
Lemma field_set_log e x s : field e (set_v_log x s) = field e s.
Proof. done. Qed.
Lemma field_back_state e back : field e (back_state back) = field e (snd back).
Proof. done. Qed.
Lemma field_enter_state e s : HOST_RSP ≠ e → field e (enter_state s) = field e s.
Proof.
  intros Hne. apply (field_insert_ne HOST_RSP e _ (set_v_cpu (set_c_gpr (upd_reg RDI
    (encoding HOST_RSP) (c_gpr (v_cpu s))) (v_cpu s)) (set_v_run (set_in_guest 1 (v_run s)) s)) Hne).
Qed.

Lemma upd_run_ok f s : upd_run f s = Done (tt, set_v_run (f (v_run s)) s).
Proof. done. Qed.

Lemma is_vmx_supported_ok s :
  Z.land (hw_cpuid1_c hw) (Z.shiftl 1 5) ≠ 0 →
  Z.land (default 0 (c_msr (v_cpu s) !! MSR_IA32_FEATURE_CONTROL)) 5 = 5 →
  is_vmx_supported hw s =
    Done (true, set_v_log (("VMX enabled and locked by BIOS\n"%string, []) :: v_log s) s).
Proof.
  intros H1 H2. unfold is_vmx_supported. rewrite (proj2 (Z.eqb_neq _ _) H1).
  unfold rdmsr. rewrite bind_gets, H2. reflexivity.
Qed.

Lemma vmx_on_ok s :
  vmx_on hw s = Done (fst (hw_vmxon hw (vmxon_region (v_ptrs s)) (c_hw (v_cpu s))),
    set_v_cpu (set_c_hw (snd (hw_vmxon hw (vmxon_region (v_ptrs s)) (c_hw (v_cpu s)))) (v_cpu s)) s).
Proof. unfold vmx_on. rewrite bind_gets. apply vmx_insn_ok. Qed.

(** *** A run of the default guest *)
(** A processor on which every VMX instruction succeeds and VMLAUNCH executes
    [guest_entry] up to its VMCALL. *)
Record hw_runs_guest : Prop := {
  hr_cpuid : Z.land (hw_cpuid1_c hw) (Z.shiftl 1 5) ≠ 0;
  hr_vmxon a h : fst (hw_vmxon hw a h) = false;
  hr_vmxoff h : fst (hw_vmxoff hw h) = false;
  hr_vmclear a h : fst (hw_vmclear hw a h) = false;
  hr_vmptrld a h : fst (hw_vmptrld hw a h) = false;
  hr_launch s s1 : guest_entry s = Done (tt, s1) →
    hw_enter hw false s = (None, on_vmcs (insert (encoding EXI_REASON) (reason VMX_VMCALL)) s1)
}.

Lemma guest_entry_ok s :
  current (v_run s) = Some 0%nat →
  guest_entry s = Done (tt, set_v_run (set_hypercall_field 0x1001 (v_run s))
    (set_v_log (("Hello Guest\n"%string, []) :: v_log s) s)).
Proof.
  intros E. unfold guest_entry, guest_main. mrun.
  rewrite (stM_bind_Done _ _ _ _ _ (current_guest_ok s E)). reflexivity.
Qed.

Lemma vmx_run_hello fuel s :
  hw_runs_guest → current (v_run s) = Some 0%nat → launched (v_run s) = false →
  ∃ s', vmx_run hw (S fuel) s = Done (0, s') ∧ guest_finished (v_run s') = 1 ∧
    v_log s' = ("Hello Guest\n"%string, []) :: v_log s ∧ exits (v_run s') = exits (v_run s) + 1 ∧
    hypercall_field (v_run s') = 0 ∧ v_pages s' = v_pages s ∧ v_ptrs s' = v_ptrs s ∧
    field EPTP s' = field EPTP s ∧ c_hw (v_cpu s') = c_hw (v_cpu s).
Proof.
  intros Hhw Ec El. cbn [vmx_run]. rewrite (stM_bind_Done _ _ _ _ _ (vmx_enter_guest_ok s)), El.
  rewrite (hr_launch Hhw _ _ (guest_entry_ok (enter_state s) Ec)).
  set (sG := set_v_run _ (set_v_log _ _)). set (back := (None, _)). set (s1 := back_state back).
  assert (entered_ok back = true) as ->.
  { unfold entered_ok, back. cbn [fst snd]. rewrite bool_decide_true by done.
    unfold field. cbn. by rewrite lookup_insert_eq. }
  cbv iota. rewrite stM_bind_assoc, (stM_bind_Done _ _ _ _ _ (upd_run_ok _ _)).
  set (s2 := set_v_run (set_launched true (v_run s1)) s1).
  assert (is_hyper s2 = true) as Eh.
  { unfold is_hyper. change (hypercall_field (v_run s2)) with 0x1001.
    assert (field EXI_REASON s2 = 18) as -> by (unfold field; cbn; by rewrite lookup_insert_eq).
    reflexivity. }
  destruct (handle_hypercall_ok (exit_entered s2)) as (log & Ehh & Hlog).
  change (hypercall_field (v_run (exit_entered s2))) with 0x1001 in Ehh, Hlog.
  rewrite exit_entered_log in Hlog. change (hypercall_code _) with VMX_VMEXIT in Ehh, Hlog.
  assert (log = v_log s2) as -> by (destruct Hlog as [Hl|[_ Hl]]; [exact Hl|discriminate Hl]).
  assert (current (v_run s2) = Some 0%nat) as Ec2 by exact Ec.
  set (s3 := set_v_log _ _) in Ehh.
  assert (exit_handler s2 = Done (VMX_VMEXIT,
    on_vmcs (insert (encoding GUEST_RFLAGS) (g_regs (v_run s3) 0x80)) s3)) as E.
  { apply exit_handler_ok; [exact Ec2|]. rewrite Eh. exact Ehh. }
  rewrite (stM_bind_Done _ _ _ _ _ E). set (s4 := on_vmcs _ s3).
  exists (set_v_run (set_guest_finished 1 (v_run s4)) s4). split; [reflexivity|]. do 6 (split; [reflexivity|]). split; [|reflexivity].
  rewrite field_set_run. unfold s4. rewrite field_insert_ne by discriminate. unfold s3.
  rewrite field_set_log, field_set_run. unfold exit_entered. rewrite field_set_run. unfold s2.
  rewrite field_set_run. unfold s1. rewrite field_back_state. unfold back. cbn [snd].
  rewrite field_insert_ne by discriminate. unfold sG. rewrite field_set_run, field_set_log.
  apply field_enter_state. discriminate.
Qed.

Definition msr s (i : Z) : Z := default 0 (c_msr (v_cpu s) !! i).

Lemma bind_upd_ptrs {B} f (k : unit → M B) s :
  (upd_ptrs f ≫= k) s = k tt (set_v_ptrs (f (v_ptrs s)) s).
Proof. done. Qed.
Lemma bind_upd_cpu {B} f (k : unit → M B) s :
  (upd_cpu f ≫= k) s = k tt (set_v_cpu (f (v_cpu s)) s).
Proof. done. Qed.
Lemma bind_upd_mem {B} f (k : unit → M B) s :
  (upd_mem f ≫= k) s = k tt (set_v_pages (with_pmem (f (pmem (v_pages s))) (v_pages s)) s).
Proof. done. Qed.
Lemma rdmsr_ok {B} i (k : Z → M B) s : (rdmsr i ≫= k) s = k (msr s i) s.
Proof. done. Qed.
Lemma bind_if_rdmsr {B} (c : bool) i v (k : Z → M B) s :
  ((if c then rdmsr i else mret v) ≫= k) s = k (if c then msr s i else v) s.
Proof. by destruct c. Qed.

(** The capabilities [init_vmx] reads. *)
Definition caps_of s : caps :=
  let b := msr s MSR_IA32_VMX_BASIC in
  let t := basic_ctrl b in
  let cpu0 := msr s (if t then MSR_IA32_VMX_TRUE_PROC else MSR_IA32_VMX_PROCBASED_CTLS) in
  let cpu1 := if negb (Z.land (ctrl_clr cpu0) CPU_SECONDARY =? 0)
              then msr s MSR_IA32_VMX_PROCBASED_CTLS2 else 0 in
  Caps b (msr s (if t then MSR_IA32_VMX_TRUE_PIN else MSR_IA32_VMX_PINBASED_CTLS)) cpu0 cpu1
    (msr s (if t then MSR_IA32_VMX_TRUE_EXIT else MSR_IA32_VMX_EXIT_CTLS))
    (msr s (if t then MSR_IA32_VMX_TRUE_ENTRY else MSR_IA32_VMX_ENTRY_CTLS))
    (if negb (Z.land (ctrl_clr cpu1) (Z.lor CPU_EPT CPU_VPID) =? 0)
     then msr s MSR_IA32_VMX_EPT_VPID_CAP else 0).

(** [cr0] and [cr4] adjusted to the fixed bits of VMX operation. *)
Definition vmx_cr0 s : Z :=
  Z.lor (Z.land (c_cr0 (v_cpu s)) (msr s MSR_IA32_VMX_CR0_FIXED1)) (msr s MSR_IA32_VMX_CR0_FIXED0).
Definition vmx_cr4 s : Z :=
  Z.lor (Z.lor (Z.land (c_cr4 (v_cpu s)) (msr s MSR_IA32_VMX_CR4_FIXED1))
    (msr s MSR_IA32_VMX_CR4_FIXED0)) X86_CR4_VMXE.

Lemma free_list_zero P p FR :
  free_list P FR → page_ok p → p ∉ FR → free_list (with_pmem (zero_page p (pmem P)) P) FR.
Proof.
  intros Hf Hp Hn. assert (ps_free (St := pstate) P FR) as Hf' by exact Hf.
  apply (free_zero p FR P Hf'); [by apply page_ok_aligned|exact Hn].
Qed.
Lemma same_page_zero_wr0 m p q v :
  page_ok p → page_ok q → q ≠ p → same_page m (wr (zero_page p m) p v) q.
Proof.
  intros Hp Hq Hne. apply same_page_trans with (zero_page p m); [by apply same_page_zero; auto with asor|].
  pose proof (same_page_wr (zero_page p m) q p 0 v) as H. rewrite Z.mul_0_r, Z.add_0_r in H.
  apply H; auto with asor lia.
Qed.

Lemma free_list_wr0 P p v FR :
  free_list P FR → page_ok p → p ∉ FR → free_list (with_pmem (wr (pmem P) p v) P) FR.
Proof.
  intros Hf Hp Hn. assert (ps_free (St := pstate) P FR) as Hf' by exact Hf.
  pose proof (free_wr p 0 v FR P Hf' (page_ok_aligned _ Hp) ltac:(lia) Hn) as Hw.
  rewrite Z.mul_0_r, Z.add_0_r in Hw. exact Hw.
Qed.

Lemma init_vmx_ok s r g1 g2 FR :
  free_list (v_pages s) (r :: g1 :: g2 :: FR) →
  ∃ P', init_vmx s = Done (tt, set_v_pages P' (set_v_cpu (set_c_cr4 (vmx_cr4 s)
      (set_c_cr0 (vmx_cr0 s) (v_cpu s))) (set_v_caps (caps_of s)
      (set_v_ptrs (set_guest_syscall_stack g2 (set_guest_stack g1 (set_vmxon_region r (v_ptrs s)))) s)))) ∧
    free_list P' FR ∧ rd (pmem P') r = basic_revision (basic (caps_of s)) ∧
    (∀ q, page_ok q → q ∉ [r; g1; g2] → same_page (pmem (v_pages s)) (pmem P') q).
Proof.
  intros Hf. destruct (free_list_cons _ _ _ Hf) as (_ & _ & Hr & HrF).
  destruct (alloc_page_cons _ _ _ Hf) as (P1 & E1 & Hf1 & M1).
  set (P2 := with_pmem (zero_page r (pmem P1)) P1).
  assert (free_list P2 (g1 :: g2 :: FR)) as Hf2 by (by apply free_list_zero).
  set (P3 := with_pmem (wr (pmem P2) r (basic_revision (basic (caps_of s)))) P2).
  assert (free_list P3 (g1 :: g2 :: FR)) as Hf3 by (by apply free_list_wr0).
  destruct (free_list_cons _ _ _ Hf3) as (_ & _ & Hg1 & Hg1F).
  destruct (alloc_page_cons _ _ _ Hf3) as (P4 & E4 & Hf4 & M4).
  set (P5 := with_pmem (zero_page g1 (pmem P4)) P4).
  assert (free_list P5 (g2 :: FR)) as Hf5 by (by apply free_list_zero).
  destruct (free_list_cons _ _ _ Hf5) as (_ & _ & Hg2 & Hg2F).
  destruct (alloc_page_cons _ _ _ Hf5) as (P6 & E6 & Hf6 & M6).
  exists (with_pmem (zero_page g2 (pmem P6)) P6). split; [|split; [|split]].
  - unfold init_vmx. rewrite (pages_ok _ _ _ _ _ E1).
    rewrite bind_upd_ptrs, bind_upd_mem. set (s1 := set_v_pages _ _).
    repeat (first [rewrite rdmsr_ok|rewrite bind_if_rdmsr]; cbv beta). cbv zeta.
    change (msr s1) with (msr s). rewrite bind_modify. fold (caps_of s).
    set (s2 := set_v_caps (caps_of s) s1).
    unfold read_cr0. rewrite bind_gets. change (c_cr0 (v_cpu s2)) with (c_cr0 (v_cpu s)).
    fold (vmx_cr0 s). unfold write_cr0. rewrite bind_upd_cpu. set (s3 := set_v_cpu _ s2).
    unfold read_cr4. rewrite bind_gets. change (c_cr4 (v_cpu s3)) with (c_cr4 (v_cpu s)).
    fold (vmx_cr4 s). unfold write_cr4. rewrite bind_upd_cpu. set (s4 := set_v_cpu _ s3).
    rewrite bind_upd_mem. set (s5 := set_v_pages _ s4).
    rewrite (pages_ok _ _ s5 _ _ E4).
    rewrite bind_upd_ptrs, bind_upd_mem. set (s6 := set_v_pages _ _).
    rewrite (pages_ok _ _ s6 _ _ E6). reflexivity.
  - by apply free_list_zero.
  - assert (∀ g m, page_ok g → r ≠ g → rd (zero_page g m) r = rd m r) as Hkeep.
    { intros g m Hg Hne. pose proof (same_page_zero m r g (page_ok_aligned _ Hr)
        (page_ok_aligned _ Hg) Hne 0 ltac:(lia)) as E. by rewrite Z.mul_0_r, Z.add_0_r in E. }
    rewrite !not_elem_of_cons in HrF. destruct HrF as (N1 & N2 & _). cbn [pmem with_pmem].
    rewrite Hkeep, M6 by done. unfold P5. cbn [pmem with_pmem].
    rewrite Hkeep, M4 by done. apply rd_wr_eq.
  - intros q Hq Hn. rewrite !not_elem_of_cons in Hn. destruct Hn as (N1 & N2 & N3 & _).
    cbn [pmem with_pmem]. apply same_page_trans with (pmem P6); [|by apply same_page_zero; auto with asor].
    rewrite M6. cbn [pmem with_pmem P5]. apply same_page_trans with (pmem P4); [|by apply same_page_zero; auto with asor].
    rewrite M4. cbn [pmem with_pmem P3 P2]. rewrite M1. by apply same_page_zero_wr0.
Qed.
End proofs.

(** ** The properties *)
Section claims.
Context {HW : Type} (hw : hardware HW).
Implicit Types s : vstate HW.

(** a hypercall made in the guest arrives at the run loop: when the guest has
    executed [hypercall(n)] and exits with reason VMCALL, [exit_handler] returns
    the code that belongs to the low 12 bits of [n], counts the exit, consumes the
    request, so that the next VMCALL is not taken for a hypercall, and leaves the
    guest's flags as they were. *)
Theorem hypercall_roundtrip n s :
  0 ≤ n < 2 ^ 32 → current (v_run s) = Some 0%nat → field EXI_REASON s mod 256 = 18 →
  ∃ s', (hypercall n;; exit_handler) s = Done (hypercall_code (n mod 4096), s') ∧
    hypercall_field (v_run s') = 0 ∧ exits (v_run s') = exits (v_run s) + 1 ∧
    field GUEST_RFLAGS s' = field GUEST_RFLAGS s ∧ is_hypercall s' = Done (false, s').
Proof.
  intros Hn Ec Er. destruct (hypercall_bits n ltac:(lia)) as [B1 B2].
  set (s1 := set_v_run (set_hypercall_field
    (Z.lor (Z.land n HYPERCALL_MASK) HYPERCALL_BIT) (v_run s)) s).
  destruct (handle_hypercall_ok (exit_entered s1)) as (log & Eh & _).
  cbn [exit_entered v_run set_v_run hypercall_field set_hypercall_field set_g_regs set_exits s1] in Eh.
  rewrite B1 in Eh. eexists. split.
  - unfold hypercall. mrun. refine (exit_handler_ok s1 _ _ Ec _).
    assert (is_hyper s1 = true) as ->; [|exact Eh].
    unfold is_hyper, s1. cbn [v_run set_v_run hypercall_field set_hypercall_field]. rewrite B2.
    change (field EXI_REASON _) with (field EXI_REASON s).
    change 0xff with (Z.ones 8). rewrite Z.land_ones by lia. change (2 ^ 8) with 256. by rewrite Er.
  - split; [done|]. split; [done|]. split; [|by rewrite is_hypercall_ok, andb_false_r].
    unfold field, on_vmcs. cbn. by rewrite lookup_insert_eq.
Qed.

(** an exit that is not a hypercall goes to the guest's own handler: for the
    default guest it prints the exit information, asks the run loop to stop, counts
    the exit, and neither the pending hypercall nor the VMCS changes. *)
Theorem exit_handler_default s :
  current (v_run s) = Some 0%nat → is_hyper s = false →
  ∃ s', exit_handler s = Done (VMX_EXIT, s') ∧
    v_log s' = vmexit_info s ++ v_log s ∧
    exits (v_run s') = exits (v_run s) + 1 ∧
    hypercall_field (v_run s') = hypercall_field (v_run s) ∧
    (∀ e, field e s' = field e s).
Proof.
  intros Ec Eh. eexists. split.
  - apply exit_handler_ok; [exact Ec|]. rewrite Eh. unfold asor_guest_exit_handler.
    rewrite (stM_bind_Done _ _ _ _ _ (print_vmexit_info_ok _)). reflexivity.
  - split; [reflexivity|]. split; [done|]. split; [done|]. intros e.
    unfold field at 1, on_vmcs. cbn. destruct (decide (e = GUEST_RFLAGS)) as [->|Hne].
    + by rewrite lookup_insert_eq.
    + rewrite lookup_insert_ne; [done|]. intros E. apply Hne. by apply (inj encoding).
Qed.

(** SAVE_GPR and LOAD_GPR are the same exchange, and doing it twice restores
    every register and every member of [regs]: entering the guest and coming back
    gives the host its registers back, and [regs] holds the guest's in between. *)
Theorem xchg_gpr_involution g m :
  let st := xchg_all LOAD_GPR (g, m) in
  (∀ r off, (r, off) ∈ SAVE_GPR → fst st r = m off ∧ snd st off = g r) ∧
  gpr_eq (xchg_all SAVE_GPR st) (g, m).
Proof.
  destruct SAVE_GPR_nodup as [N1 N2]. cbv zeta. unfold LOAD_GPR.
  pose proof (xchg_all_spec SAVE_GPR g m N1 N2) as H1. cbv zeta in H1.
  destruct (xchg_all SAVE_GPR (g, m)) as [g1 m1] eqn:E1. destruct H1 as (Hin & Hr & Ho).
  pose proof (xchg_all_spec SAVE_GPR g1 m1 N1 N2) as (Hin' & Hr' & Ho').
  cbn [fst snd] in *. split; [exact Hin|]. split; cbn [fst snd].
  - intros r. destruct (decide (r ∈ SAVE_GPR.*1)) as [Hm|Hm].
    + apply list_elem_of_fmap in Hm as ([r0 o] & -> & Hm). cbn [fst snd]. destruct (Hin' _ _ Hm) as [-> _].
      by apply (Hin _ _ Hm).
    + by rewrite Hr', Hr.
  - intros o. destruct (decide (o ∈ SAVE_GPR.*2)) as [Hm|Hm].
    + apply list_elem_of_fmap in Hm as ([r o0] & -> & Hm). cbn [fst snd]. destruct (Hin' _ _ Hm) as [_ ->].
      by apply (Hin _ _ Hm).
    + by rewrite Ho', Ho.
Qed.

(** the exchange stores RBX, RCX and RDX at the offsets of [regs.rcx],
    [regs.rdx] and [regs.rbx] (the struct follows the hardware numbering, the
    macro does not), so after an exit [print_vmexit_info] shows the guest's RDX
    as RBX, its RBX as RCX and its RCX as RDX; the other registers are right. *)
Theorem print_vmexit_info_registers s :
  let g := c_gpr (v_cpu s) in
  ∃ s', (xchg_gpr SAVE_GPR;; print_vmexit_info) s = Done (tt, s') ∧
    v_log s' !! 3%nat = Some ("\tRAX=%#lx    RBX=%#lx    RCX=%#lx    RDX=%#lx\n"%string,
      [PInt (g RAX); PInt (g RDX); PInt (g RBX); PInt (g RCX)]) ∧
    v_log s' !! 0%nat = Some ("\tR12=%#lx    R13=%#lx    R14=%#lx    R15=%#lx\n"%string,
      [PInt (g R12); PInt (g R13); PInt (g R14); PInt (g R15)]).
Proof.
  intros g. eexists. split.
  - rewrite (stM_bind_Done _ _ _ _ _ (xchg_gpr_ok _ _)). apply print_vmexit_info_ok.
  - split; reflexivity.
Qed.

(** one iteration of [vmx_run] decides: with the guests of the program the loop
    never runs a second time.  It returns 0, with [guest_finished] set and the
    guest's request consumed, exactly when the guest was entered and left through
    [hypercall(HYPERCALL_VMEXIT)]; every other exit, every failed entry and the
    two other hypercalls end in [abort()].  All that is assumed of the processor
    and the guest is that they do not overwrite [current]. *)
Theorem vmx_run_decides fuel s :
  (∀ resume s, current (v_run (snd (hw_enter hw resume s))) = current (v_run s)) →
  current (v_run s) = Some 0%nat →
  let back := hw_enter hw (launched (v_run s)) (enter_state s) in
  if entered_ok back && is_hyper (back_state back) &&
     (Z.land (hypercall_field (v_run (back_state back))) HYPERCALL_MASK =? HYPERCALL_VMEXIT)
  then ∃ s', vmx_run hw (S fuel) s = Done (0, s') ∧
         guest_finished (v_run s') = 1 ∧ launched (v_run s') = true ∧
         hypercall_field (v_run s') = 0 ∧ in_guest (v_run s') = 0
  else vmx_run hw (S fuel) s = Abort.
Proof.
  intros Hcur Ec back. cbn [vmx_run].
  rewrite (stM_bind_Done _ _ _ _ _ (vmx_enter_guest_ok hw s)). fold back.
  assert (current (v_run (back_state back)) = Some 0%nat) as Ecb.
  { change (current (v_run (snd back)) = Some 0%nat). unfold back. rewrite Hcur. exact Ec. }
  set (s1 := back_state back) in *. destruct (entered_ok back) eqn:Ee; cbn [andb].
  2:{ unfold entry_failure_handler. rewrite (stM_bind_assoc _ _ _ s1).
      rewrite (stM_bind_Done _ _ _ _ _ (current_guest_ok s1 Ecb)).
      cbn [g_entry_failure_handler default_guest]. mrun.
      apply vmx_run_stop; [done|done|apply print_vmentry_failure_info_total|by eexists]. }
  cbv iota. mrun. set (s2 := set_v_run (set_launched true (v_run s1)) s1).
  assert (current (v_run s2) = Some 0%nat) as Ec2 by exact Ecb.
  change (is_hyper s1) with (is_hyper s2).
  change (hypercall_field (v_run s1)) with (hypercall_field (v_run s2)).
  destruct (is_hyper s2) eqn:Eh; cbn [andb].
  - destruct (handle_hypercall_ok (exit_entered s2)) as (log & Ehh & _).
    rewrite (stM_bind_Done _ _ _ _ _ (exit_handler_ok s2 _ _ Ec2 ltac:(rewrite Eh; exact Ehh))). mrun.
    change (hypercall_field (v_run (exit_entered s2))) with (hypercall_field (v_run s2)).
    unfold hypercall_code.
    destruct (Z.eqb_spec (Z.land (hypercall_field (v_run s2)) HYPERCALL_MASK) HYPERCALL_VMEXIT).
    + eexists. split; [reflexivity|]. done.
    + destruct (_ =? HYPERCALL_VMABORT); [|destruct (_ =? HYPERCALL_VMSKIP)];
        (apply vmx_run_stop; [done|done|eexists; apply print_vmexit_info_ok|by eexists]).
  - rewrite (stM_bind_Done _ _ _ _ _ (exit_handler_ok s2 _ _ Ec2
      ltac:(rewrite Eh; apply asor_guest_exit_handler_ok))).
    cbv zeta. apply vmx_run_stop; [done|done|eexists; apply print_vmexit_info_ok|by eexists].
Qed.


(** C9: [setup_ept] on a processor with EPT, write-back walks and 4-level tables
    programs the VMCS (the EPT pointer holds memory type WB, walk length 4, the
    root's address and the A/D bit asked for; the secondary controls and EPT are
    switched on) and leaves a table that maps every guest-physical page of memory,
    4 GiB at least, to itself with all permissions and nothing above; only the
    root and frames taken from the allocator were written. *)
Theorem setup_ept_correct fuel ad s root FR :
  ept_supported (v_caps s) = true → free_list (v_pages s) (root :: FR) → fw_lock (v_fw s) = 0 →
  end_of_memory hw ≤ 2 ^ 48 →
  ept_tables (end_of_memory hw) false (map_2m ad (v_caps s)) ≤ Z.of_nat (length FR) →
  end_of_memory hw / 4096 ≤ Z.of_nat fuel →
  ∃ s' FR', setup_ept hw fuel ad s = Done (0, s') ∧
    pml4 (v_ptrs s') = root ∧ eptp (v_ptrs s') = field EPTP s' ∧
    (Z.land (field EPTP s') 7 = EPT_MEM_TYPE_WB ∧
     Z.land (Z.shiftr (field EPTP s') 3) 7 = 3 ∧
     negb (Z.land (field EPTP s') EPTP_AD_FLAG =? 0) = ad ∧
     Z.land (field EPTP s') EPT_ADDR_MASK = root) ∧
    Z.land (field CPU_EXEC_CTRL0 s') CPU_SECONDARY = CPU_SECONDARY ∧
    Z.land (field CPU_EXEC_CTRL1 s') CPU_EPT = CPU_EPT ∧
    (∀ gpa, 0 ≤ gpa < 2 ^ 48 → translate EPT 4 (pmem (v_pages s')) root gpa =
      if gpa <? end_of_memory hw / 4096 * 4096 then Some (gpa, 7) else None) ∧
    FR' `suffix_of` FR ∧ free_list (v_pages s') FR' ∧
    (∀ p, page_ok p → p ≠ root → p ∉ FR → same_page (pmem (v_pages s)) (pmem (v_pages s')) p).
Proof.
  intros Hk Hf Hfw Hend Htab Hfuel.
  destruct (free_list_cons _ _ _ Hf) as (_ & _ & Hrok & _).
  destruct (setup_ept_ok hw fuel ad s root FR Hk Hf Hfw Hend Htab Hfuel)
    as (L & P' & FR' & f' & E & HL1 & HL2 & HL3 & Hsuf & Hf' & Htr & Hfr).
  destruct (eptp_fields root ad Hrok) as (B1 & B2 & B3 & B4).
  eexists _, FR'. split; [exact E|].
  set (s1 := set_v_ptrs _ s) in *. set (s2 := on_vmcs (write_list L) s1) in *.
  assert (∀ e, field e (set_v_pages P' (set_v_fw f' s2)) = default (field e s1) (last_write e L)) as Hfield
    by (intros e; apply field_writes).
  rewrite !Hfield, HL1, HL2, HL3. cbn [default from_option id].
  split; [reflexivity|]. split; [reflexivity|]. split; [auto|].
  split; [apply land_lor_same|]. split; [apply land_lor_same|]. auto.
Qed.

(** without EPT support [setup_ept] reports failure, prints why and leaves the
    VMCS alone: no translation is enabled. *)
Theorem setup_ept_unsupported fuel ad s root FR :
  ept_supported (v_caps s) = false → free_list (v_pages s) (root :: FR) →
  ∃ s' msg, setup_ept hw fuel ad s = Done (1, s') ∧ v_log s' = (msg, []) :: v_log s ∧
    (∀ e, field e s' = field e s) ∧ eptp (v_ptrs s') = eptp (v_ptrs s) ∧
    pmem (v_pages s') = pmem (v_pages s) ∧ free_list (v_pages s') FR.
Proof.
  intros Hk Hf. destruct (alloc_page_cons _ _ _ Hf) as (P1 & Ea & Hf1 & Em).
  set (s1 := set_v_ptrs (set_pml4 root (v_ptrs s)) (set_v_pages P1 s)).
  assert (∃ msg, __setup_ept root ad s1 = Done (1, set_v_log ((msg, []) :: v_log s) s1)) as [msg E1].
  { unfold ept_supported in Hk. unfold __setup_ept. mrun.
    change (v_caps s1) with (v_caps s). change (v_log s1) with (v_log s).
    destruct (Z.land (ctrl_clr (ctrl_cpu_rev0 (v_caps s))) CPU_SECONDARY =? 0); [by eexists|].
    destruct (Z.land (ctrl_clr (ctrl_cpu_rev1 (v_caps s))) CPU_EPT =? 0); [by eexists|].
    destruct (Z.land (ept_vpid (v_caps s)) EPT_CAP_WB =? 0); [by eexists|].
    destruct (Z.land (ept_vpid (v_caps s)) EPT_CAP_PWL4 =? 0); [by eexists|]. done. }
  exists (set_v_log ((msg, []) :: v_log s) s1), msg. split.
  - unfold setup_ept. rewrite (pages_ok _ _ _ _ _ Ea). mrun. unfold virt_to_phys.
    match goal with |- (?m ≫= ?f) ?st = _ => change st with s1 end.
    by rewrite (stM_bind_Done _ _ _ _ _ E1).
  - auto.
Qed.

Lemma x86_virt_enable_ok fuel s r g1 g2 p root FR :
  hw_runs_guest hw → Z.land (msr s MSR_IA32_FEATURE_CONTROL) 5 = 5 →
  launched (v_run s) = false → ept_supported (caps_of s) = true →
  free_list (v_pages s) (r :: g1 :: g2 :: p :: root :: FR) → fw_lock (v_fw s) = 0 →
  end_of_memory hw ≤ 2 ^ 48 →
  ept_tables (end_of_memory hw) false (map_2m true (caps_of s)) ≤ Z.of_nat (length FR) →
  end_of_memory hw / 4096 ≤ Z.of_nat (S fuel) →
  ∃ s', x86_virt_enable hw (S fuel) s = Done (0, s') ∧
    guest_finished (v_run s') = 1 ∧ exits (v_run s') = exits (v_run s) + 1 ∧
    v_log s' = ("Hello Guest\n"%string, []) :: ("VMX enabled and locked by BIOS\n"%string, []) :: v_log s ∧
    Z.land (field EPTP s') EPT_ADDR_MASK = root ∧
    (∀ gpa, 0 ≤ gpa < 2 ^ 48 → translate EPT 4 (pmem (v_pages s')) root gpa =
      if gpa <? end_of_memory hw / 4096 * 4096 then Some (gpa, 7) else None) ∧
    (∀ q, page_ok q → q ∉ r :: g1 :: g2 :: p :: root :: FR → same_page (pmem (v_pages s)) (pmem (v_pages s')) q).
Proof.
  intros Hhw Hfc Hl Hk Hf Hfw Hend Htab Hfuel.
  set (s1 := set_v_log (("VMX enabled and locked by BIOS\n"%string, []) :: v_log s)
    (set_v_run (set_current (Some 0%nat) (v_run s)) s)).
  destruct (init_vmx_ok s1 r g1 g2 (p :: root :: FR) Hf) as (P2 & E2 & Hf2 & _ & Hfr2).
  set (s2 := set_v_pages P2 _) in E2.
  set (h3 := snd (hw_vmxon hw r (c_hw (v_cpu s2)))).
  set (s3 := set_v_cpu (set_c_hw h3 (v_cpu s2)) s2).
  destruct (alloc_page_cons _ _ _ Hf2) as (P4 & E4 & Hf4 & M4).
  destruct (free_list_cons _ _ _ Hf2) as (_ & _ & Hp & HpF).
  destruct (init_vmcs_ok hw s3 p P4 E4 (hr_vmclear hw Hhw _ _) (hr_vmptrld hw Hhw _ _))
    as (L & c & h5 & E5 & _).
  set (s5 := on_vmcs _ _) in E5.
  assert (free_list (v_pages s5) (root :: FR)) as Hf5.
  { apply (free_list_wr0 (with_pmem (zero_page p (pmem P4)) P4)); [|done|done]. by apply free_list_zero. }
  destruct (setup_ept_ok hw (S fuel) true s5 root FR Hk Hf5 Hfw Hend Htab Hfuel)
    as (L6 & P6 & FR6 & f6 & E6 & HL6 & _ & _ & _ & _ & Htr & Hfr6).
  destruct (free_list_cons _ _ _ Hf5) as (_ & _ & Hroot & _).
  set (s6 := set_v_pages P6 _) in E6.
  destruct (vmx_run_hello hw fuel s6 Hhw eq_refl Hl) as
    (s7 & E7 & F1 & F2 & F3 & F4 & F5 & F6 & F7 & F8).
  set (h8 := snd (hw_vmxoff hw (c_hw (v_cpu s7)))).
  exists (set_v_cpu (set_c_hw h8 (v_cpu s7)) s7). split.
  - unfold x86_virt_enable. rewrite (stM_bind_Done _ _ _ _ _ (upd_run_ok _ _)).
    rewrite (stM_bind_Done _ _ _ _ _ (is_vmx_supported_ok hw
      (set_v_run (set_current (Some 0%nat) (v_run s)) s) (hr_cpuid hw Hhw) Hfc)).
    cbn [negb]. cbv iota. match goal with |- (_ ≫= _) ?st = _ => change st with s1 end.
    rewrite (stM_bind_Done _ _ _ _ _ E2).
    rewrite (stM_bind_Done _ _ _ _ _ (vmx_on_ok hw s2)).
    change (vmxon_region (v_ptrs s2)) with r. rewrite (hr_vmxon hw Hhw). cbv iota. fold h3. fold s3.
    rewrite (stM_bind_Done _ _ _ _ _ E5), (stM_bind_Done _ _ _ _ _ E6), (stM_bind_Done _ _ _ _ _ E7).
    unfold vmx_off. rewrite (stM_bind_Done _ _ _ _ _ (vmx_insn_ok _ _)).
    rewrite (hr_vmxoff hw Hhw). reflexivity.
  - split; [exact F1|]. split; [exact F3|]. split; [exact F2|]. split.
    + change (field EPTP (set_v_cpu (set_c_hw h8 (v_cpu s7)) s7)) with (field EPTP s7).
      rewrite F7. unfold s6.
      match goal with |- context [field EPTP (set_v_pages P6 (set_v_fw f6 ?x))] =>
        change (field EPTP (set_v_pages P6 (set_v_fw f6 x))) with (field EPTP x) end.
      rewrite field_writes, HL6. by apply (eptp_fields root true).
    + change (v_pages (set_v_cpu _ s7)) with (v_pages s7). rewrite F5. split; [exact Htr|].
      intros q Hq Hn. rewrite !not_elem_of_cons in Hn. destruct Hn as (N1 & N2 & N3 & N4 & N5 & N6).
      apply same_page_trans with (pmem P2); [apply Hfr2; [done|by rewrite !not_elem_of_cons; auto using not_elem_of_nil]|].
      apply same_page_trans with (pmem (v_pages s5)); [|by apply Hfr6].
      rewrite <- M4. by apply same_page_zero_wr0.
Qed.

End claims.

(** ** A concrete machine *)
(** Every instruction succeeds and entering the guest runs [guest_entry]. *)
Definition demo_hw : hardware unit := {|
  hw_cpuid1_c := 0x20;
  hw_vmxon := λ _ h, (false, h); hw_vmxoff := λ h, (false, h);
  hw_vmclear := λ _ h, (false, h); hw_vmptrld := λ _ h, (false, h);
  hw_enter := λ resume s,
    match guest_entry s with
    | Done (_, s1) =>
      (None, set_v_cpu (set_c_vmcs (<[encoding EXI_REASON := reason VMX_VMCALL]> (c_vmcs (v_cpu s1)))
        (v_cpu s1)) s1)
    | _ => (None, s)
    end;
  hw_fw_item := λ _ _, 0;
  sym_vmx_return := 0x401000; sym_guest_entry := 0x402000; sym_entry_sysenter := 0x403000;
  gdt64_desc := DescPtr 0x87 0x404000; idt_descr := DescPtr 0xfff 0x405000;
  tss_descr := DescPtr 0x67 0x406000
|}.

Definition demo_msrs : gmap Z Z := list_to_map
  [(MSR_IA32_FEATURE_CONTROL, 5); (MSR_IA32_VMX_PROCBASED_CTLS, 2 ^ 63);
   (MSR_IA32_VMX_PROCBASED_CTLS2, 2 ^ 33); (MSR_IA32_VMX_EPT_VPID_CAP, 0x4040)].

Definition demo_vstate (vmcs : gmap Z Z) (k : caps) (P : pstate) : vstate unit :=
  VState (Cpu demo_msrs 0x80000011 0x1000 0x20 (λ _, 0) vmcs tt) k (Ctrls 0 0 0 0 0 0)
    (VPtrs 0 0 0 0 0 0) (VRun (λ _, 0) 0 false 0 0 (Some 0%nat) 0) P (Fwcfg 0 0 0) [].

Definition demo_caps : caps := Caps 0 0 (2 ^ 63) (2 ^ 33) 0 0 0x4040.
Definition demo_exit : vstate unit :=
  demo_vstate (<[encoding EXI_REASON := 18]> ∅) demo_caps demo_state.

Lemma hypercall_roundtrip_witness :
  ∃ s', (hypercall 1;; exit_handler) demo_exit = Done (VMX_VMEXIT, s') ∧
    hypercall_field (v_run s') = 0.
Proof.
  destruct (hypercall_roundtrip 1 demo_exit) as (s' & E & Ef & _).
  - lia.
  - reflexivity.
  - reflexivity.
  - exists s'. split; [exact E|exact Ef].
Defined.

Lemma exit_handler_default_witness : ∃ s', exit_handler demo_exit = Done (VMX_EXIT, s').
Proof.
  destruct (exit_handler_default demo_exit) as (s' & E & _).
  - reflexivity.
  - reflexivity.
  - exists s'. exact E.
Defined.

Lemma demo_hw_current resume s :
  current (v_run (snd (hw_enter demo_hw resume s))) = current (v_run s).
Proof.
  cbn [hw_enter demo_hw]. destruct (current (v_run s)) as [[|i]|] eqn:E.
  - rewrite (guest_entry_ok s E). exact E.
  - assert (guest_entry s = Fault) as ->; [|exact E].
    unfold guest_entry, guest_main, current_guest. mrun. rewrite E. destruct i as [|i]; reflexivity.
  - assert (guest_entry s = Fault) as ->; [|exact E].
    unfold guest_entry, guest_main, current_guest. mrun. rewrite E. reflexivity.
Qed.

Lemma vmx_run_decides_witness : ∃ s', vmx_run demo_hw 1 demo_exit = Done (0, s').
Proof.
  pose proof (vmx_run_decides demo_hw 0 demo_exit demo_hw_current eq_refl) as H.
  cbv zeta in H.
  match type of H with if ?b then _ else _ =>
    assert (b = true) as Eb by (vm_compute; reflexivity); rewrite Eb in H end.
  destruct H as (s' & E & _). exists s'. exact E.
Defined.


(** Enough free frames for the tables of 4 GiB: built by [free_pages]. *)
Lemma demo_many_frames n :
  0x100000 + Z.of_nat (S n) * 4096 ≤ 2 ^ 52 →
  ∃ P, free_list P (frames (S n) 0x100000).
Proof.
  intros Hn. destruct (free_pages_ok (PState ∅ 0 0) [] 0x100000 n) as (P & _ & Hf & _).
  - split; [done|]. split; [done|]. split; constructor.
  - split; [lia|]. split; [done|lia].
  - exact Hn.
  - intros p _. apply not_elem_of_nil.
  - exists P. by rewrite app_nil_r in Hf.
Qed.

Lemma setup_ept_correct_witness :
  ∃ P s', setup_ept demo_hw (Z.to_nat (2 ^ 20)) true (demo_vstate ∅ demo_caps P) = Done (0, s') ∧
    translate EPT 4 (pmem (v_pages s')) 0x100000 0xfee00123 = Some (0xfee00123, 7).
Proof.
  destruct (demo_many_frames 2053) as [P HP]; [vm_compute; discriminate|].
  destruct (setup_ept_correct demo_hw (Z.to_nat (2 ^ 20)) true (demo_vstate ∅ demo_caps P)
    0x100000 (frames 2053 0x101000)) as (s' & FR' & E & _ & _ & _ & _ & _ & Htr & _).
  - reflexivity.
  - exact HP.
  - reflexivity.
  - vm_compute. discriminate.
  - rewrite frames_length. vm_compute. discriminate.
  - rewrite Z2Nat.id by lia. vm_compute. discriminate.
  - exists P, s'. split; [exact E|]. rewrite Htr by lia. reflexivity.
Defined.

Lemma setup_ept_unsupported_witness :
  ∃ s', setup_ept demo_hw 0 true (demo_vstate ∅ (Caps 0 0 0 0 0 0 0) demo_state) = Done (1, s') ∧
    eptp (v_ptrs s') = 0.
Proof.
  destruct (setup_ept_unsupported demo_hw 0 true (demo_vstate ∅ (Caps 0 0 0 0 0 0 0) demo_state)
    0x20000 [0x21000; 0x22000; 0x23000]) as (s' & msg & E & _ & _ & He & _).
  - reflexivity.
  - by apply demo_free.
  - exists s'. split; [exact E|exact He].
Defined.

Lemma demo_hw_runs : hw_runs_guest demo_hw.
Proof.
  split; try reflexivity; [discriminate|]. intros s s1 E. cbn [hw_enter demo_hw]. by rewrite E.
Qed.

