(* ===== verification/Boot.v ===== *)
(** The entry point: core/virt.c, include/virt.h and x86/asor.c, with
    [get_x86_virt_arch_ops] of x86/vmx.c.

    [Virt] is core/virt.c over any machine: the registered operations are one
    static pointer next to the state the operations run on.  [machine] is the
    hypervisor's state, the one of Vmalloc.v and the one of Vmx.v; memory, the page
    allocator, the control registers and the text printed are shared by the two
    and kept in the second. *)
From Stdlib Require Import ZArith Lia Bool.
From S2P Require Import Prelude Libcflat Mem AllocPage PageTable TableRange AllocPhys X86Vm Vmalloc Ept Fwcfg VmxDefs VmxState Vmx.
#[local] Open Scope Z_scope.

Module Virt.
(** [struct virt_arch_ops] *)
Record virt_arch_ops (S : Type) := VirtOps { enable : stM S Z }.
Arguments VirtOps {S}. Arguments enable {S}.

Section virt.
Context {S : Type} (error : string → list parg → stM S unit).

(** The static [virt_arch_ops] and the rest of the machine. *)
Record virt := Virt { ops : option (virt_arch_ops S); rest : S }.
Definition set_ops (o : option (virt_arch_ops S)) (s : virt) : virt := Virt o (rest s).
Definition set_rest (x : S) (s : virt) : virt := Virt (ops s) x.

(** A NULL argument is [None]. *)
Definition register_virt_ops (o : option (virt_arch_ops S)) : stM virt Z :=
  p ← gets ops;
  if bool_decide (is_Some p) || negb (bool_decide (is_Some o)) then mret (-1)
  else modify (set_ops o);; mret 0.

Definition free_virt_ops (o : option (virt_arch_ops S)) : stM virt unit := modify (set_ops None).
Definition get_virt_arch_ops : stM virt (option (virt_arch_ops S)) := gets ops.

Definition enable_hw_virt : stM virt Z :=
  p ← get_virt_arch_ops;
  match p with
  | None => zoom rest set_rest (error "Error: virt_arch_ops is NULL.\n" []);; mret (-1)
  | Some o => zoom rest set_rest (enable o)
  end.

(** The first registration wins until it is freed, and enabling runs the
    operation of the one registered. *)
Lemma register_ok o s : ops s = None →
  register_virt_ops (Some o) s = Done (0, set_ops (Some o) s).
Proof. intros E. unfold register_virt_ops. mrun. rewrite E. by mrun. Qed.
Lemma register_busy o o' s : ops s = Some o' → register_virt_ops o s = Done (-1, s).
Proof. intros E. unfold register_virt_ops. mrun. rewrite E. by mrun. Qed.
Lemma enable_ok o s r t : ops s = Some o → enable o (rest s) = Done (r, t) →
  enable_hw_virt s = Done (r, set_rest t s).
Proof.
  intros E Eo. unfold enable_hw_virt, get_virt_arch_ops. rewrite bind_gets, E.
  unfold zoom. by rewrite Eo.
Qed.
End virt.
Arguments virt : clear implicits.
End Virt.

Section code.
Context {HW : Type} (hw : hardware HW).

Record machine := Machine { m_vm : vm; m_vmx : vstate HW }.

(** The state Vmalloc.v works on: the shared parts come from [m_vmx]. *)
Definition get_vm (s : machine) : vm :=
  let v := m_vm s in let c := v_cpu (m_vmx s) in
  Vm (vfree_top v) (page_root v) (vm_lock v) (v_pages (m_vmx s)) (vm_phys v)
    (c_cr0 c) (c_cr3 c) (c_cr4 c) (vm_ops v) (v_log (m_vmx s)).
Definition set_vm (v : vm) (s : machine) : machine :=
  let x := m_vmx s in
  Machine v (set_v_log (vm_log v) (set_v_pages (vm_pages v)
    (set_v_cpu (set_c_cr4 (vm_cr4 v) (set_c_cr3 (vm_cr3 v) (set_c_cr0 (vm_cr0 v) (v_cpu x)))) x))).
Definition set_vmx (x : vstate HW) (s : machine) : machine := Machine (m_vm s) x.

Abbreviation vM := (stM (Virt.virt machine)).
Definition print (fmt : string) (args : list parg) : stM machine unit :=
  zoom m_vmx set_vmx (printf fmt args).
Definition on_machine {A} (f : stM machine A) : vM A := zoom Virt.rest Virt.set_rest f.

(** x86/vmx.c: [x86_virt_arch_ops].  [fuel] bounds the loops of [x86_virt_enable]. *)
Definition x86_virt_arch_ops (fuel : nat) : Virt.virt_arch_ops machine :=
  Virt.VirtOps (zoom m_vmx set_vmx (x86_virt_enable hw fuel)).
Definition get_x86_virt_arch_ops (fuel : nat) : option (Virt.virt_arch_ops machine) :=
  Some (x86_virt_arch_ops fuel).

(** [asor_entry] up to its loop, which executes HLT for ever. *)
Definition asor_init (fuel : nat) : vM unit :=
  on_machine (zoom get_vm set_vm (Vm.setup_vm fuel));;
  on_machine (print "Hello ASOR.\n" []);;
  _ ← Virt.register_virt_ops (get_x86_virt_arch_ops fuel);
  _ ← Virt.enable_hw_virt print;
  mret tt.
Definition asor_entry (fuel : nat) : vM unit := asor_init fuel;; lift Hang.
End code.
Arguments machine : clear implicits.

(** ** Proofs *)
Section proofs.
Context {HW : Type} (hw : hardware HW).
Implicit Types s : Virt.virt (machine HW).

Lemma on_machine_ok {A} (f : stM (machine HW) A) s a m :
  f (Virt.rest s) = Done (a, m) → on_machine f s = Done (a, Virt.set_rest m s).
Proof. intros E. unfold on_machine, zoom. by rewrite E. Qed.

Lemma mmu_end_ge hi : 2 ^ 32 ≤ mmu_end hi.
Proof. unfold mmu_end. destruct (Z.ltb_spec hi (2 ^ 32)); lia. Qed.

End proofs.

