(* ===== verification/Bitfield.v ===== *)
(** Bit fields of packed structures.

    A structure of [n] bits is its little-endian value; a member is a [field]: the
    position of its lowest bit and its width, in the order of the declaration.
    The hardware's descriptors (desc.h, apic.h, intel-iommu.c) are read and
    written through [getf] and [setf]. *)
From Stdlib Require Import ZArith Lia Bool.
From S2P Require Import Prelude Libcflat.
#[local] Open Scope Z_scope.

Record field := Bits { f_lo : Z; f_len : Z }.

(** [x.f], and [x.f = v]: [v] is truncated to the width of the member. *)
Definition getf (f : field) (x : Z) : Z := Z.land (Z.shiftr x (f_lo f)) (Z.ones (f_len f)).
Definition setf (f : field) (v x : Z) : Z :=
  Z.lor (Z.ldiff x (Z.shiftl (Z.ones (f_len f)) (f_lo f))) (Z.shiftl (Z.land v (Z.ones (f_len f))) (f_lo f)).

Definition field_ok (f : field) : Prop := 0 ≤ f_lo f ∧ 0 ≤ f_len f.
(** The members have no bit in common. *)
Definition apart (f g : field) : Prop := f_lo f + f_len f ≤ f_lo g ∨ f_lo g + f_len g ≤ f_lo f.

Section fields.
Implicit Types (f g : field) (v x i : Z).

Lemma getf_testbit f x i : field_ok f → 0 ≤ i →
  Z.testbit (getf f x) i = Z.testbit x (i + f_lo f) && (i <? f_len f).
Proof.
  intros [Hl Hw] Hi. unfold getf. rewrite Z.land_spec, Z.shiftr_spec, Z.testbit_ones by lia.
  by rewrite (proj2 (Z.leb_le 0 i)) by lia.
Qed.

(** Whether bit [i] belongs to [f]. *)
Definition inf f i : bool := (f_lo f <=? i) && (i <? f_lo f + f_len f).

Lemma setf_testbit f v x i : field_ok f → 0 ≤ i →
  Z.testbit (setf f v x) i = if inf f i then Z.testbit v (i - f_lo f) else Z.testbit x i.
Proof.
  intros [Hl Hw] Hi. unfold setf, inf.
  rewrite Z.lor_spec, Z.ldiff_spec, !Z.shiftl_spec, Z.land_spec by lia.
  destruct (Z.leb_spec (f_lo f) i).
  - rewrite Z.testbit_ones, (proj2 (Z.leb_le 0 (i - f_lo f))) by lia.
    replace (i <? f_lo f + f_len f) with (i - f_lo f <? f_len f)
      by (destruct (Z.ltb_spec (i - f_lo f) (f_len f)), (Z.ltb_spec i (f_lo f + f_len f)); lia).
    destruct (i - f_lo f <? f_len f); cbn; by rewrite ?andb_true_r, ?andb_false_r, ?orb_false_r.
  - rewrite !(Z.testbit_neg_r _ (i - f_lo f)) by lia. cbn. by rewrite andb_true_r, orb_false_r.
Qed.

Lemma getf_setf f v x : field_ok f → getf f (setf f v x) = v mod 2 ^ f_len f.
Proof.
  intros Hf. pose proof Hf as [Hl Hw]. rewrite <- Z.land_ones by done. apply Z.bits_inj'. intros i Hi.
  rewrite getf_testbit, setf_testbit, Z.land_spec, Z.testbit_ones by (done || lia). unfold inf.
  rewrite (proj2 (Z.leb_le 0 i)), (proj2 (Z.leb_le (f_lo f) _)) by lia. cbn.
  replace (i + f_lo f - f_lo f) with i by lia.
  destruct (Z.ltb_spec i (f_len f)); [by rewrite (proj2 (Z.ltb_lt _ _)) by lia|].
  by rewrite !andb_false_r.
Qed.

Lemma getf_setf_ne f g v x : field_ok f → field_ok g → apart f g → getf f (setf g v x) = getf f x.
Proof.
  intros Hf Hg Ha. apply Z.bits_inj'. intros i Hi. pose proof Hf as [Hl Hw].
  rewrite !getf_testbit, setf_testbit by (done || lia).
  destruct (Z.ltb_spec i (f_len f)); [|by rewrite !andb_false_r].
  destruct (inf g (i + f_lo f)) eqn:E; [|done].
  unfold inf, apart in *. apply andb_true_iff in E as [E1%Z.leb_le E2%Z.ltb_lt]. lia.
Qed.

Lemma getf_0 f : getf f 0 = 0.
Proof. unfold getf. by rewrite Z.shiftr_0_l. Qed.

Lemma getf_range f x : field_ok f → 0 ≤ getf f x < 2 ^ f_len f.
Proof. intros [Hl Hw]. unfold getf. rewrite Z.land_ones by done. apply Z.mod_pos_bound. lia. Qed.

Lemma setf_range n f v x : field_ok f → f_lo f + f_len f ≤ n → 0 ≤ x < 2 ^ n → 0 ≤ setf f v x < 2 ^ n.
Proof.
  intros Hf Hn Hx. pose proof Hf as [Hl Hw].
  assert (0 ≤ setf f v x) as H0.
  { unfold setf. apply Z.lor_nonneg. split; [apply Z.ldiff_nonneg; left; lia|].
    apply Z.shiftl_nonneg, Z.land_nonneg. right. rewrite Z.ones_equiv.
    pose proof (Z.pow_pos_nonneg 2 (f_len f)) as Hp. lia. }
  assert (setf f v x = setf f v x mod 2 ^ n) as ->; [|apply Z.mod_pos_bound; lia].
  apply Z.bits_inj'. intros i Hi. rewrite testbit_mod_pow2 by lia.
  destruct (Z.ltb_spec i n); [done|]. rewrite setf_testbit by done. cbn.
  destruct (inf f i) eqn:E; [unfold inf in E; apply andb_true_iff in E as [_ E%Z.ltb_lt]; lia|].
  by apply (testbit_above n).
Qed.
End fields.

(** Side conditions on concrete members. *)
Ltac field_side := first [exact I | split; cbn; lia | left; cbn; lia | right; cbn; lia | cbn; lia].
(** Reads the members written by a chain of [setf]. *)
Ltac bf_simpl :=
  repeat (first
    [ rewrite getf_setf by field_side
    | rewrite getf_setf_ne by field_side
    | rewrite getf_0 ]).
