(* ===== verification/Vtd.v ===== *)
(** The tables of the IOMMU: [vtd_install_pte] and the table part of [vtd_map_range]
    of lib/x86/intel-iommu.c.

    Root and context tables are pages of 256 entries of two 64-bit words, members
    of which are fields (Bitfield.v); second-level tables are page tables of three
    levels (PageTable.v).  [vtd_xlate] is what the hardware makes of them: the
    translation of an address that a device uses.  The code is written against
    [PageSource] of AllocPage.v, like the other page-table code. *)
From Stdlib Require Import ZArith Lia Bool.
From S2P Require Import Prelude Libcflat Mem AllocPage PageTable TableRange PtDemo Bitfield.
#[local] Open Scope Z_scope.

Definition VTD_PAGE_LEVEL : nat := 3.
Definition VTD_CE_AW_39BIT : Z := 0x1.
Definition VTD_PAGE_SHIFT : Z := PAGE_SHIFT.
Definition VTD_PAGE_SIZE : Z := PAGE_SIZE.
Definition VTD_CONTEXT_TT_MULTI_LEVEL : Z := 0.
Definition VTD_PTE_R : Z := Z.shiftl 1 0.
Definition VTD_PTE_W : Z := Z.shiftl 1 1.
Definition VTD_PTE_RW : Z := Z.lor VTD_PTE_R VTD_PTE_W.
Definition VTD_PTE_ADDR : Z := GENMASK_ULL 63 12.
Definition VTD_PTE_HUGE : Z := Z.shiftl 1 7.

(** [struct vtd_root_entry], first quad *)
Module Re.
Definition present := Bits 0 1.
Definition context_table_p := Bits 12 52.
End Re.
(** [struct vtd_context_entry], first quad and second quad *)
Module Ce.
Definition present := Bits 0 1.
Definition disable_fault_report := Bits 1 1.
Definition trans_type := Bits 2 2.
Definition slptptr := Bits 12 52.
Definition addr_width := Bits 0 3.
Definition domain_id := Bits 8 16.
End Ce.

Section code.
Context {St : Type} `{PageSource St}.

(** The [for] loop of [vtd_install_pte] from [level] down and the stores after it. *)
Fixpoint vtd_install_walk (level level_target : nat) (iova pa root : Z) (s : St) : outcome St :=
  let offset := PGDIR_OFFSET iova level in
  let ptep := root + 8 * offset in
  let last :=
    let s := st_wr ptep (Z.lor pa VTD_PTE_RW) s in
    mret (if (level =? 1)%nat then s else st_wr ptep (Z.lor (st_rd ptep s) VTD_PTE_HUGE) s) in
  match level with
  | S level' =>
    if (level_target <? level)%nat then
      s ← (if Z.land (st_rd ptep s) VTD_PTE_RW =? 0 then
             '(page, s) ← ps_alloc_page s;
             let s := st_zero_page page s in
             mret (st_wr ptep (Z.lor (virt_to_phys page) VTD_PTE_RW) s)
           else mret s);
      vtd_install_walk level' level_target iova pa
        (phys_to_virt (Z.land (st_rd ptep s) VTD_PTE_ADDR)) s
    else last
  | O => last
  end.
Definition vtd_install_pte (root iova pa : Z) (level_target : nat) (s : St) : outcome St :=
  vtd_install_walk VTD_PAGE_LEVEL level_target iova pa root s.

(** [memset(p, 0, 16)] and [p->f = v] on the word at [p] *)
Definition st_zero16 (p : Z) (s : St) : St := ps_with_mem (zero_words 2 p (ps_mem s)) s.
Definition st_setf (p : Z) (f : field) (v : Z) (s : St) : St := st_wr p (setf f v (st_rd p s)) s.

(** The root entry [re]: its context table, and whether that is a new one. *)
Definition root_entry (re : Z) (s : St) : outcome (Z * bool * St) :=
  if getf Re.present (st_rd re s) =? 0 then
    '(ce, s) ← ps_alloc_page s;
    let s := st_zero_page ce s in
    let s := st_zero16 re s in
    let s := st_setf re Re.context_table_p (Z.shiftr (virt_to_phys ce) VTD_PAGE_SHIFT) s in
    let s := st_setf re Re.present 1 s in
    mret (ce, true, s)
  else mret (phys_to_virt (Z.shiftl (getf Re.context_table_p (st_rd re s)) VTD_PAGE_SHIFT), false, s).

(** The context entry [ce]: its second-level table, and whether that is a new one. *)
Definition context_entry (ce sid : Z) (s : St) : outcome (Z * bool * St) :=
  if getf Ce.present (st_rd ce s) =? 0 then
    '(slptptr, s) ← ps_alloc_page s;
    let s := st_zero_page slptptr s in
    let s := st_zero16 ce s in
    let s := st_setf (ce + 8) Ce.domain_id sid s in
    let s := st_setf (ce + 8) Ce.addr_width VTD_CE_AW_39BIT s in
    let s := st_setf ce Ce.slptptr (Z.shiftr (virt_to_phys slptptr) VTD_PAGE_SHIFT) s in
    let s := st_setf ce Ce.trans_type VTD_CONTEXT_TT_MULTI_LEVEL s in
    let s := st_setf ce Ce.present 1 s in
    let s := st_setf ce Ce.disable_fault_report 1 s in
    mret (slptptr, true, s)
  else mret (phys_to_virt (Z.shiftl (getf Ce.slptptr (st_rd ce s)) VTD_PAGE_SHIFT), false, s).
End code.

(** ** What the hardware reads *)
Definition VTD : pt_format := PtFormat VTD_PTE_RW 3 63.
#[export] Instance VTD_ok : FormatOk VTD.
Proof. split; vm_compute; split; congruence. Qed.

Definition bus_of (sid : Z) : Z := Z.land (Z.shiftr sid 8) 0xff.
Definition devfn_of (sid : Z) : Z := Z.land sid 0xff.

Section hardware.
Implicit Types (m : mem) (pt i : Z).

(** The page that a present 16-byte entry points to. *)
Definition child16 m pt i : option Z :=
  let e := rd m (pt + 16 * i) in
  if getf Re.present e =? 0 then None else Some (Z.shiftl (getf Re.context_table_p e) 12).

(** The translation by a context table: the entry must ask for translation (type 0)
    with three levels (address width 1). *)
Definition context_xlate m ct devfn iova : option (Z * Z) :=
  slpt ← child16 m ct devfn;
  if (getf Ce.trans_type (rd m (ct + 16 * devfn)) =? VTD_CONTEXT_TT_MULTI_LEVEL) &&
     (getf Ce.addr_width (rd m (ct + 16 * devfn + 8)) =? VTD_CE_AW_39BIT) &&
     (0 <=? iova) && (iova <? 2 ^ 39)
  then translate VTD 3 m slpt iova else None.

(** A device's access to [iova]: the physical address and the permissions. *)
Definition vtd_xlate m root sid iova : option (Z * Z) :=
  ct ← child16 m root (bus_of sid); context_xlate m ct (devfn_of sid) iova.

(** *** The tables are well formed
    [child m p own]: [p] is a table with the frames [own]; [good] is what else an
    entry has to say. *)
Section dtable.
Context (child : mem → Z → (Z → Prop) → Prop) (good : mem → Z → Z → Prop).

Record dtable m pt (own : Z → Prop) (f : Z → Z → Prop) : Prop := {
  dt_root : own pt;
  dt_ok p : own p → page_ok p;
  dt_sub i p : 0 ≤ i < 256 → f i p → own p ∧ p ≠ pt;
  dt_disj i j p : 0 ≤ i < 256 → 0 ≤ j < 256 → f i p → f j p → i = j;
  dt_child i c : 0 ≤ i < 256 → child16 m pt i = Some c → good m pt i ∧ child m c (f i)
}.
End dtable.

(** Every address that is not mapped is reached through entries that allow all. *)
Definition rw_tables m slpt : Prop :=
  ∀ va, 0 ≤ va < 2 ^ 39 → translate VTD 3 m slpt va = None → path_perm VTD 1 3 m slpt va = 3.
Definition slpt_ok m slpt own : Prop := tree VTD 3 m slpt own ∧ rw_tables m slpt.
Definition context_good m ct devfn : Prop :=
  getf Ce.trans_type (rd m (ct + 16 * devfn)) = VTD_CONTEXT_TT_MULTI_LEVEL ∧
  getf Ce.addr_width (rd m (ct + 16 * devfn + 8)) = VTD_CE_AW_39BIT.
Definition context_ok m ct own : Prop := ∃ f, dtable slpt_ok context_good m ct own f.
Definition root_ok m root own : Prop := ∃ f, dtable context_ok (λ _ _ _, True) m root own f.
End hardware.

(** ** Proofs *)
Lemma bus_range sid : 0 ≤ bus_of sid < 256.
Proof. unfold bus_of. change 0xff with (Z.ones 8). rewrite Z.land_ones by lia. apply Z.mod_pos_bound. lia. Qed.
Lemma devfn_range sid : 0 ≤ devfn_of sid < 256.
Proof. unfold devfn_of. change 0xff with (Z.ones 8). rewrite Z.land_ones by lia. apply Z.mod_pos_bound. lia. Qed.
Lemma sid_split sid : 0 ≤ sid < 2 ^ 16 → sid = bus_of sid * 256 + devfn_of sid.
Proof.
  intros Hs. unfold bus_of, devfn_of. change 0xff with (Z.ones 8).
  rewrite !Z.land_ones, Z.shiftr_div_pow2 by lia.
  change (2 ^ 8) with 256. rewrite (Z.mod_small (sid / 256)).
  - pose proof (Z.div_mod sid 256). lia.
  - split; [apply Z.div_pos; lia|apply Z.div_lt_upper_bound; lia].
Qed.
Lemma slot16 pt i : pt + 16 * i = pt + 8 * (2 * i).
Proof. lia. Qed.
Lemma slot16_hi pt i : pt + 16 * i + 8 = pt + 8 * (2 * i + 1).
Proof. lia. Qed.

(** A page number in a 52-bit member is the page. *)
Lemma page_number p : page_ok p → Z.shiftl (Z.shiftr p 12 mod 2 ^ 52) 12 = p.
Proof.
  intros (H0 & Ha & H1). rewrite Z.shiftr_div_pow2, Z.shiftl_mul_pow2 by lia.
  pose proof (Z.div_mod p (2 ^ 12) ltac:(lia)) as E. change (2 ^ 12) with 4096 in *.
  rewrite Z.mod_small; [lia|]. split; [apply Z.div_pos; lia|]. apply Z.div_lt_upper_bound; lia.
Qed.

Section dtable_proofs.
Context (child : mem → Z → (Z → Prop) → Prop) (good : mem → Z → Z → Prop).
Context (Hframe : ∀ m m' c own, child m c own → (∀ p, own p → same_page m m' p) → child m' c own).
Context (Hgood : ∀ m m' pt i, 0 ≤ i < 256 → rd m' (pt + 16 * i) = rd m (pt + 16 * i) →
  rd m' (pt + 16 * i + 8) = rd m (pt + 16 * i + 8) → good m pt i → good m' pt i).
Implicit Types (m : mem) (pt i c : Z) (own : Z → Prop) (f : Z → Z → Prop).

Lemma child16_frame m m' pt i : rd m' (pt + 16 * i) = rd m (pt + 16 * i) → child16 m' pt i = child16 m pt i.
Proof. intros E. unfold child16. by rewrite E. Qed.
Lemma same_page16 m m' pt i : 0 ≤ i < 256 → same_page m m' pt →
  rd m' (pt + 16 * i) = rd m (pt + 16 * i) ∧ rd m' (pt + 16 * i + 8) = rd m (pt + 16 * i + 8).
Proof. intros Hi Hs. rewrite slot16_hi, slot16. split; apply Hs; lia. Qed.

Lemma dtable_frame m m' pt own f :
  dtable child good m pt own f → (∀ p, own p → same_page m m' p) → dtable child good m' pt own f.
Proof.
  intros [Hr Ho Hs Hd Hc] Hsame. split; try done. intros i c Hi Ec.
  destruct (same_page16 m m' pt i Hi (Hsame _ Hr)) as [E1 E2].
  rewrite (child16_frame m) in Ec by done. destruct (Hc i c Hi Ec). split; [by apply (Hgood m)|].
  apply (Hframe m); [done|]. intros p Hp. by apply Hsame, (Hs i p).
Qed.

(** Entry [i] gets the child [c] with the frames [g]; the other children are left alone. *)
Lemma dtable_update m m' pt own own' f (g : Z → Prop) i c :
  dtable child good m pt own f → 0 ≤ i < 256 →
  (∀ p, own p → own' p) → (∀ p, own' p → page_ok p) →
  (∀ p, g p → own' p ∧ p ≠ pt ∧ (f i p ∨ ¬ own p)) →
  (∀ j, 0 ≤ j < 256 → j ≠ i → rd m' (pt + 16 * j) = rd m (pt + 16 * j) ∧
    rd m' (pt + 16 * j + 8) = rd m (pt + 16 * j + 8)) →
  (∀ p, own p → p ≠ pt → ¬ f i p → same_page m m' p) →
  child16 m' pt i = Some c → good m' pt i → child m' c g →
  dtable child good m' pt own' (λ j, if decide (j = i) then g else f j).
Proof.
  intros [Hr Ho Hs Hd Hc] Hi Hsub Hok Hg Hrd Hsame Ec Hgd Hch. split; [auto|done| | |].
  - intros j p Hj. case_decide; [by intros (? & ? & _)%Hg|]. intros (? & ?)%Hs; auto.
  - assert (∀ j p, 0 ≤ j < 256 → j ≠ i → f j p → g p → False) as Hgf.
    { intros j p Hj Hne Hf (_ & _ & [Hfi|Hn])%Hg.
      - by apply Hne, (Hd _ _ p).
      - by apply Hn, (Hs j p). }
    intros j k p Hj Hk. repeat case_decide; subst; try done; intros H1 H2;
      [by destruct (Hgf k p)|by destruct (Hgf j p)|by apply (Hd j k p)].
  - intros j c' Hj. case_decide as E.
    + subst j. rewrite Ec. by intros [= <-].
    + destruct (Hrd j Hj E) as [E1 E2]. rewrite (child16_frame m) by done. intros Ec'.
      destruct (Hc j c' Hj Ec'). split; [by apply (Hgood m)|].
      apply (Hframe m); [done|]. intros p Hf. destruct (Hs j p Hj Hf). apply Hsame; [done..|].
      intros Hfi. by apply E, (Hd j i p).
Qed.

(** The child [c] changes within its frames and new ones. *)
Lemma dtable_zoom m m' pt own own' f i c :
  dtable child good m pt own f → 0 ≤ i < 256 → child16 m pt i = Some c →
  (∀ p, own p → own' p) → (∀ p, own' p → page_ok p) →
  (∀ p, own p → ¬ f i p → same_page m m' p) →
  child m' c (λ p, f i p ∨ own' p ∧ ¬ own p) →
  (∃ f', dtable child good m' pt own' f') ∧
  ∀ j, 0 ≤ j < 256 → rd m' (pt + 16 * j) = rd m (pt + 16 * j) ∧ rd m' (pt + 16 * j + 8) = rd m (pt + 16 * j + 8).
Proof.
  intros Hdt Hi Ec Hsub Hok Hsame Hch. pose proof Hdt as [Hr _ Hs _ Hc].
  assert (∀ j, 0 ≤ j < 256 → rd m' (pt + 16 * j) = rd m (pt + 16 * j) ∧
    rd m' (pt + 16 * j + 8) = rd m (pt + 16 * j + 8)) as Hrd.
  { intros j Hj. apply same_page16; [done|]. apply Hsame; [done|]. by intros [_ ?]%Hs. }
  split; [|done]. destruct (Hrd i Hi) as [E1 E2]. eexists.
  apply (dtable_update m m' pt own own' f (λ p, f i p ∨ own' p ∧ ¬ own p) i c); try done.
  - intros p [Hf|[Ho Hn]]; [destruct (Hs i p Hi Hf); auto|]. split; [done|]. split; [by intros ->|by right].
  - intros j Hj _. auto.
  - auto.
  - by rewrite (child16_frame m).
  - apply (Hgood m); [done..|]. by apply (Hc i c).
Qed.

(** [m'] is [m] with the page [p] zeroed and the two words of entry [i] of [pt] stored. *)
Record entry16 m m' (p pt i e e2 : Z) : Prop := {
  e16_lo : rd m' (pt + 16 * i) = e;
  e16_hi : rd m' (pt + 16 * i + 8) = e2;
  e16_rest a : a ≠ pt + 16 * i → a ≠ pt + 16 * i + 8 → rd m' a = rd (zero_page p m) a
}.
Lemma entry16_frame m m' p pt i e e2 :
  entry16 m m' p pt i e e2 → page_ok p → page_ok pt → p ≠ pt → 0 ≤ i < 256 →
  (∀ q, page_ok q → q ≠ p → q ≠ pt → same_page m m' q) ∧
  (∀ j, 0 ≤ j < 512 → rd m' (p + 8 * j) = 0) ∧
  ∀ j, 0 ≤ j < 256 → j ≠ i → rd m' (pt + 16 * j) = rd m (pt + 16 * j) ∧ rd m' (pt + 16 * j + 8) = rd m (pt + 16 * j + 8).
Proof.
  intros [_ _ Hrest] Hp Hpt Hne Hi. apply page_ok_aligned in Hp, Hpt.
  assert (∀ q k, q mod 4096 = 0 → q ≠ pt → 0 ≤ k < 512 → rd m' (q + 8 * k) = rd (zero_page p m) (q + 8 * k)) as Hq.
  { intros q k Hqa Hqn Hk. rewrite slot16_hi, slot16 in Hrest. apply Hrest; apply slot_ne; (done || lia). }
  assert (∀ k, 0 ≤ k < 512 → rd (zero_page p m) (pt + 8 * k) = rd m (pt + 8 * k)) as Hz.
  { intros k Hk. by apply same_page_zero. }
  split; [|split].
  - intros q Hqa%page_ok_aligned Hqp Hqpt k Hk. rewrite Hq by done. by apply same_page_zero.
  - intros j Hj. rewrite Hq by done. by apply rd_zero_page_in.
  - intros j Hj Hji. split; (rewrite Hrest by lia).
    + rewrite slot16. apply Hz. lia.
    + rewrite slot16_hi. apply Hz. lia.
Qed.

(** A new child in an entry that was not present. *)
Lemma dtable_new m m' pt own f i p e e2 :
  dtable child good m pt own f → 0 ≤ i < 256 → page_ok p → ¬ own p →
  entry16 m m' p pt i e e2 →
  getf Re.present e = 1 → getf Re.context_table_p e = Z.shiftr p 12 mod 2 ^ 52 →
  good m' pt i → ((∀ j, 0 ≤ j < 512 → rd m' (p + 8 * j) = 0) → child m' p (λ q, q = p)) →
  (∃ f', dtable child good m' pt (λ q, own q ∨ q = p) f') ∧ child16 m' pt i = Some p.
Proof.
  intros Hdt Hi Hp Hn He Hpr Hct Hg Hch. pose proof Hdt as [Hr Ho Hs _ _].
  assert (p ≠ pt) as Hne by (by intros ->).
  destruct (entry16_frame _ _ _ _ _ _ _ He Hp (Ho _ Hr) Hne Hi) as (Hfr & Hz & Hrd).
  assert (child16 m' pt i = Some p) as Ec.
  { unfold child16. by rewrite (e16_lo _ _ _ _ _ _ _ He), Hpr, Hct, page_number. }
  split; [|done]. eexists.
  apply (dtable_update m m' pt own (λ q, own q ∨ q = p) f (λ q, q = p) i p); try done.
  - by left.
  - intros q [?| ->]; auto.
  - intros q ->. auto.
  - intros q Hq Hqp _. apply Hfr; [auto|by intros ->|done].
  - auto.
Qed.

(** A zeroed page has no entries. *)
Lemma dtable_zero m p : page_ok p → (∀ j, 0 ≤ j < 512 → rd m (p + 8 * j) = 0) →
  dtable child good m p (λ q, q = p) (λ _ _, False) ∧ ∀ i, 0 ≤ i < 256 → child16 m p i = None.
Proof.
  intros Hp Hz. assert (∀ i, 0 ≤ i < 256 → child16 m p i = None) as Hn.
  { intros i Hi. unfold child16. rewrite slot16, Hz by lia. by rewrite getf_0. }
  split; [|done]. split; try done; [by intros q ->|]. intros i c Hi. by rewrite Hn.
Qed.
End dtable_proofs.

Lemma slpt_frame m m' c own : slpt_ok m c own → (∀ p, own p → same_page m m' p) → slpt_ok m' c own.
Proof.
  intros [Ht Hrw] Hs. destruct (walk_frame VTD 3 m m' c own Ht Hs) as (Etr & Epp & _).
  split; [by apply (tree_frame VTD 3 m)|]. intros va Hva. rewrite Etr, Epp. by apply Hrw.
Qed.
Lemma context_good_frame m m' pt i : 0 ≤ i < 256 → rd m' (pt + 16 * i) = rd m (pt + 16 * i) →
  rd m' (pt + 16 * i + 8) = rd m (pt + 16 * i + 8) → context_good m pt i → context_good m' pt i.
Proof. unfold context_good. by intros _ -> ->. Qed.
Lemma context_frame m m' c own : context_ok m c own → (∀ p, own p → same_page m m' p) → context_ok m' c own.
Proof. intros [f Hf] Hs. exists f. by apply (dtable_frame _ _ slpt_frame context_good_frame m). Qed.

Lemma context_xlate_at m m' ct own f d iova :
  dtable slpt_ok context_good m ct own f → 0 ≤ d < 256 →
  rd m' (ct + 16 * d) = rd m (ct + 16 * d) → rd m' (ct + 16 * d + 8) = rd m (ct + 16 * d + 8) →
  (∀ p, f d p → same_page m m' p) → context_xlate m' ct d iova = context_xlate m ct d iova.
Proof.
  intros [_ _ _ _ Hc] Hd E1 E2 Hs. unfold context_xlate. rewrite (child16_frame m), E1, E2 by done.
  destruct (child16 m ct d) as [c|] eqn:Ec; [|done]. cbn [mbind option_bind]. destruct (Hc d c Hd Ec) as [_ [Ht _]].
  by destruct (walk_frame VTD 3 m m' c (f d) Ht Hs) as [-> _].
Qed.
Lemma context_xlate_frame m m' ct own d iova :
  context_ok m ct own → 0 ≤ d < 256 → (∀ p, own p → same_page m m' p) →
  context_xlate m' ct d iova = context_xlate m ct d iova.
Proof.
  intros [f Hdt] Hd Hs. pose proof Hdt as [Hr _ Hsub _ _].
  destruct (same_page16 m m' ct d Hd (Hs _ Hr)) as [E1 E2].
  apply (context_xlate_at m m' ct own f); try done. intros p Hp. by apply Hs, (Hsub d p).
Qed.

(** A context table with an entry that translates. *)
Lemma context_xlate_ok m ct own d slpt iova :
  context_ok m ct own → 0 ≤ d < 256 → child16 m ct d = Some slpt → 0 ≤ iova < 2 ^ 39 →
  context_xlate m ct d iova = translate VTD 3 m slpt iova.
Proof.
  intros [f [_ _ _ _ Hc]] Hd Ec Hi. destruct (Hc d slpt Hd Ec) as [[E1 E2] _].
  unfold context_xlate. rewrite Ec. cbn [mbind option_bind]. rewrite E1, E2.
  by rewrite (proj2 (Z.leb_le _ _)), (proj2 (Z.ltb_lt _ _)) by lia.
Qed.
Lemma context_xlate_out m ct d iova : ¬ (0 ≤ iova < 2 ^ 39) → context_xlate m ct d iova = None.
Proof.
  intros Hn. unfold context_xlate. destruct (child16 m ct d); [|done]. cbn [mbind option_bind].
  destruct (Z.leb_spec 0 iova), (Z.ltb_spec iova (2 ^ 39)); try lia; by rewrite ?andb_false_r.
Qed.

(** *** The entries of the root and context tables *)
Section entries.
Context {St : Type} `{PageSource St} `{!PageSourceLaws St}.
Implicit Types (s : St) (FR used : list Z) (own : Z → Prop).

Lemma free_setf pt i p f v FR s :
  ps_free s FR → p = pt + 16 * i ∨ p = pt + 16 * i + 8 → pt mod 4096 = 0 → 0 ≤ i < 256 → pt ∉ FR →
  ps_free (st_setf p f v s) FR.
Proof.
  intros Hf Hp Ha Hi Hn. unfold st_setf. rewrite slot16_hi, slot16 in Hp.
  destruct Hp as [-> | ->]; apply free_wr; (done || lia).
Qed.
Lemma free_zero16 pt i FR s :
  ps_free s FR → pt mod 4096 = 0 → 0 ≤ i < 256 → pt ∉ FR → ps_free (st_zero16 (pt + 16 * i) s) FR.
Proof.
  intros Hf Ha Hi Hn. apply ps_free_with_mem; [done|]. intros q Hq. cbn [zero_words].
  destruct (ps_free_frames _ _ Hf) as [_ Hok]. rewrite Forall_forall in Hok.
  pose proof (page_ok_aligned _ (Hok q Hq)). assert (q ≠ pt) as Hne by (by intros ->).
  rewrite slot16_hi, slot16. apply same_page_trans with (wr (ps_mem s) (pt + 8 * (2 * i)) 0); apply same_page_wr; (done || lia).
Qed.
Lemma mem_setf p f v s : ps_mem (st_setf p f v s) = wr (ps_mem s) p (setf f v (rd (ps_mem s) p)).
Proof. unfold st_setf, st_wr, st_rd. by rewrite ps_mem_with. Qed.
Lemma mem_zero16 p s : ps_mem (st_zero16 p s) = wr (wr (ps_mem s) p 0) (p + 8) 0.
Proof. unfold st_zero16. by rewrite ps_mem_with. Qed.
Lemma mem_zero_page p s : ps_mem (st_zero_page p s) = zero_page p (ps_mem s).
Proof. unfold st_zero_page. by rewrite ps_mem_with. Qed.

(** Reads of the words stored. *)
Ltac rd_words :=
  repeat first [rewrite rd_wr_eq | rewrite rd_wr_ne by lia].

Lemma root_entry_mem ce root b s :
  let re := root + 16 * b in
  let e := setf Re.present 1 (setf Re.context_table_p (Z.shiftr ce 12) 0) in
  entry16 (ps_mem s) (ps_mem (st_setf re Re.present 1 (st_setf re Re.context_table_p (Z.shiftr ce 12)
    (st_zero16 re (st_zero_page ce s))))) ce root b e 0.
Proof.
  intros re e. rewrite !mem_setf, mem_zero16, mem_zero_page. fold re.
  split; intros; rd_words; done.
Qed.

Definition context_e (slpt : Z) : Z :=
  setf Ce.disable_fault_report 1 (setf Ce.present 1 (setf Ce.trans_type VTD_CONTEXT_TT_MULTI_LEVEL
    (setf Ce.slptptr (Z.shiftr slpt 12) 0))).
Definition context_e2 (sid : Z) : Z := setf Ce.addr_width VTD_CE_AW_39BIT (setf Ce.domain_id sid 0).

Lemma context_entry_mem slpt ct d sid s :
  let ce := ct + 16 * d in
  entry16 (ps_mem s) (ps_mem (st_setf ce Ce.disable_fault_report 1 (st_setf ce Ce.present 1
    (st_setf ce Ce.trans_type VTD_CONTEXT_TT_MULTI_LEVEL (st_setf ce Ce.slptptr (Z.shiftr slpt 12)
    (st_setf (ce + 8) Ce.addr_width VTD_CE_AW_39BIT (st_setf (ce + 8) Ce.domain_id sid
    (st_zero16 ce (st_zero_page slpt s)))))))))
    slpt ct d (context_e slpt) (context_e2 sid).
Proof.
  intros ce. rewrite !mem_setf, mem_zero16, mem_zero_page. fold ce.
  split; intros; rd_words; done.
Qed.

Lemma context_e_fields slpt :
  getf Ce.present (context_e slpt) = 1 ∧ getf Ce.slptptr (context_e slpt) = Z.shiftr slpt 12 mod 2 ^ 52 ∧
  getf Ce.trans_type (context_e slpt) = VTD_CONTEXT_TT_MULTI_LEVEL.
Proof. unfold context_e. repeat split; by bf_simpl. Qed.
Lemma context_e2_fields sid :
  getf Ce.addr_width (context_e2 sid) = VTD_CE_AW_39BIT ∧ getf Ce.domain_id (context_e2 sid) = sid mod 2 ^ 16.
Proof. unfold context_e2. split; by bf_simpl. Qed.
(** Nothing is mapped through a new table. *)
Lemma slpt_zero m p : page_ok p → (∀ j, 0 ≤ j < 512 → rd m (p + 8 * j) = 0) →
  slpt_ok m p (λ q, q = p) ∧ ∀ va, translate VTD 3 m p va = None.
Proof.
  intros Hp Hz. destruct (zero_table VTD 3 m p Hp ltac:(lia) Hz) as (Ht & Htr & _ & Hpp).
  split; [|done]. split; [done|]. intros va _ _. apply Hpp.
Qed.
Lemma context_zero m p : page_ok p → (∀ j, 0 ≤ j < 512 → rd m (p + 8 * j) = 0) →
  context_ok m p (λ q, q = p) ∧ ∀ d iova, 0 ≤ d < 256 → context_xlate m p d iova = None.
Proof.
  intros Hp Hz. destruct (dtable_zero slpt_ok context_good m p Hp Hz) as [Hd Hn].
  split; [by eexists|]. intros d iova Hi. unfold context_xlate. by rewrite Hn.
Qed.

(** The translation by the root table depends on the children, and on their frames. *)
Lemma root_xlate_frame m m' root own f b :
  dtable context_ok (λ _ _ _, True) m root own f → 0 ≤ b < 256 →
  (∀ j, 0 ≤ j < 256 → j ≠ b → child16 m' root j = child16 m root j ∧ ∀ p, f j p → same_page m m' p) →
  ∀ sid iova, bus_of sid ≠ b → vtd_xlate m' root sid iova = vtd_xlate m root sid iova.
Proof.
  intros [_ _ _ _ Hc] Hb Hj sid iova Hne. unfold vtd_xlate.
  destruct (Hj _ (bus_range sid) Hne) as [-> Hs].
  destruct (child16 m root (bus_of sid)) as [c|] eqn:Ec; [|done]. cbn [mbind option_bind].
  destruct (Hc _ c (bus_range sid) Ec) as [_ Hok].
  by apply (context_xlate_frame m m' c (f (bus_of sid))); [|apply devfn_range|].
Qed.

(** What making the entries for a device preserves. *)
Record vtd_grown m m' root own used : Prop := {
  vg_ok : root_ok m' root (λ p, own p ∨ p ∈ used);
  vg_frame p : page_ok p → ¬ own p → p ∉ used → same_page m m' p;
  vg_xlate sid iova : vtd_xlate m' root sid iova = vtd_xlate m root sid iova
}.
Lemma root_ok_iff m root (own own' : Z → Prop) :
  (∀ p, own' p ↔ own p) → root_ok m root own → root_ok m root own'.
Proof.
  intros Ho [f [Hr Hk Hs Hd Hc]]. exists f. split; [by apply Ho|intros p ?%Ho; auto| |done|done].
  intros i p Hi Hf. rewrite Ho. eauto.
Qed.
Lemma root_root_ok m root own : root_ok m root own → own root ∧ page_ok root ∧ ∀ p, own p → page_ok p.
Proof. intros [f [Hr Ho _ _ _]]. auto. Qed.

Lemma root_entry_ok root b own FR s :
  root_ok (ps_mem s) root own → ps_free s FR → fresh_frames own FR → 0 ≤ b < 256 → FR ≠ [] →
  ∃ ct new s' used FR', FR = used ++ FR' ∧ root_entry (root + 16 * b) s = Done (ct, new, s') ∧
    ps_free s' FR' ∧ (length used ≤ 1)%nat ∧ vtd_grown (ps_mem s) (ps_mem s') root own used ∧
    child16 (ps_mem s') root b = Some ct.
Proof.
  intros Hok Hf Hfr Hb Hne. destruct (root_root_ok _ _ _ Hok) as (Hr & Hrp & Hown).
  unfold root_entry. destruct (Z.eqb_spec (getf Re.present (st_rd (root + 16 * b) s)) 0) as [Ep|Ep].
  - destruct FR as [|p FR]; [done|]. destruct (ps_alloc_cons _ _ _ Hf) as (s1 & -> & Hf1 & Em).
    destruct (free_split _ _ _ _ Hf Hfr) as (Hp & Hpn & HpF & HFo & _). destruct Hok as [f Hdt].
    assert (root ∉ FR) as HrF by (intros Hin; by apply (HFo root)).
    assert (root ≠ p) as Hrn by (by intros ->).
    cbn [mbind outcome_bind mret outcome_ret]. pose proof (root_entry_mem p root b s1) as He. cbv zeta in He.
    set (s' := st_setf _ _ _ _) in *. eexists p, true, s', [p], FR. split; [done|]. split; [done|].
    rewrite Em in He.
    destruct (entry16_frame _ _ _ _ _ _ _ He Hp Hrp ltac:(done) Hb) as (Hsame & Hz & Hrd).
    destruct (context_zero _ _ Hp Hz) as [Hcz Hcx].
    destruct (dtable_new context_ok (λ _ _ _, True) context_frame ltac:(done) _ _ _ _ f b p _ _ Hdt Hb Hp Hpn He)
      as [[f' Hdt'] Ec]; try (by bf_simpl); try done.
    split; [|split; [cbn; lia|split; [split|done]]].
    + unfold s'. apply page_ok_aligned in Hrp, Hp. repeat (apply (free_setf root b); [|by auto..]).
      apply free_zero16; try done. by apply free_zero.
    + apply (root_ok_iff _ _ (λ q, own q ∨ q = p)); [|by exists f']. intros q. by rewrite list_elem_of_singleton.
    + intros q Hq Hno Hnp. apply Hsame; [done| |by intros ->]. intros ->. by apply Hnp, list_elem_of_singleton.
    + intros sid iova. destruct (decide (bus_of sid = b)) as [<-|Hne'].
      * unfold vtd_xlate. rewrite Ec. cbn [mbind option_bind]. rewrite Hcx by apply devfn_range.
        assert (child16 (ps_mem s) root (bus_of sid) = None) as ->; [|done].
        unfold child16. unfold st_rd in Ep. by rewrite Ep.
      * apply (root_xlate_frame _ _ _ _ _ _ Hdt Hb); [|done]. intros j Hj Hjb. destruct (Hrd j Hj Hjb) as [E1 E2].
        split; [by apply child16_frame|]. intros q Hq. destruct (dt_sub _ _ _ _ _ _ Hdt j q Hj Hq).
        apply Hsame; [auto|by intros ->|done].
  - assert (child16 (ps_mem s) root b = Some (Z.shiftl (getf Re.context_table_p (st_rd (root + 16 * b) s)) 12)) as Ec.
    { unfold child16. fold (st_rd (root + 16 * b) s). by rewrite (proj2 (Z.eqb_neq _ _)). }
    eexists _, false, s, [], FR. split; [done|]. split; [done|]. split; [done|]. split; [cbn; lia|].
    split; [|done]. split; [|done|done]. apply (root_ok_iff _ _ own); [|done].
    intros q. rewrite elem_of_nil. tauto.
Qed.
(** The device's context entry, and what changes below it. *)
Lemma context_zoom m m' root own own' f sid ct :
  dtable context_ok (λ _ _ _, True) m root own f → child16 m root (bus_of sid) = Some ct →
  (∀ p, own p → own' p) → (∀ p, own' p → page_ok p) →
  (∀ p, own p → ¬ f (bus_of sid) p → same_page m m' p) →
  context_ok m' ct (λ p, f (bus_of sid) p ∨ own' p ∧ ¬ own p) →
  root_ok m' root own' ∧ child16 m' root (bus_of sid) = Some ct ∧
  ∀ sid' iova, (bus_of sid' = bus_of sid → context_xlate m' ct (devfn_of sid') iova = context_xlate m ct (devfn_of sid') iova) →
    vtd_xlate m' root sid' iova = vtd_xlate m root sid' iova.
Proof.
  intros Hdt Ec Hsub Hok Hsame Hch. pose proof (bus_range sid) as Hb.
  destruct (dtable_zoom context_ok (λ _ _ _, True) context_frame ltac:(done) m m' root own own' f (bus_of sid) ct)
    as [Hr Hrd]; try done.
  split; [done|]. destruct (Hrd _ Hb) as [E1 _].
  assert (child16 m' root (bus_of sid) = Some ct) as Ec' by (by rewrite (child16_frame m)).
  split; [done|]. intros sid' iova Hx. destruct (decide (bus_of sid' = bus_of sid)) as [E|Hne].
  - unfold vtd_xlate. rewrite E, Ec, Ec'. cbn [mbind option_bind]. auto.
  - apply (root_xlate_frame _ _ _ _ _ _ Hdt Hb); [|done]. intros j Hj Hjb. destruct (Hrd j Hj) as [E2 _].
    split; [by apply child16_frame|]. intros q Hq. apply Hsame; [by apply (dt_sub _ _ _ _ _ _ Hdt j q)|].
    intros Hqb. by apply Hjb, (dt_disj _ _ _ _ _ _ Hdt j (bus_of sid) q).
Qed.

Lemma context_entry_ok root sid ct own FR s :
  root_ok (ps_mem s) root own → child16 (ps_mem s) root (bus_of sid) = Some ct →
  ps_free s FR → fresh_frames own FR → FR ≠ [] →
  ∃ slpt new s' used FR', FR = used ++ FR' ∧ context_entry (ct + 16 * devfn_of sid) sid s = Done (slpt, new, s') ∧
    ps_free s' FR' ∧ (length used ≤ 1)%nat ∧ vtd_grown (ps_mem s) (ps_mem s') root own used ∧
    child16 (ps_mem s') root (bus_of sid) = Some ct ∧ child16 (ps_mem s') ct (devfn_of sid) = Some slpt.
Proof.
  intros Hok Ec Hf Hfr Hne. destruct (root_root_ok _ _ _ Hok) as (_ & _ & Hown).
  set (d := devfn_of sid). assert (0 ≤ d < 256) as Hd by apply devfn_range.
  unfold context_entry. destruct (Z.eqb_spec (getf Ce.present (st_rd (ct + 16 * d) s)) 0) as [Ep|Ep].
  - destruct FR as [|p FR]; [done|]. destruct (ps_alloc_cons _ _ _ Hf) as (s1 & -> & Hf1 & Em).
    destruct (free_split _ _ _ _ Hf Hfr) as (Hp & Hpn & HpF & HFo & _). destruct Hok as [f Hdt].
    pose proof (bus_range sid) as Hb. destruct (dt_child _ _ _ _ _ _ Hdt _ _ Hb Ec) as [_ [f2 Hdt2]].
    set (fb := f (bus_of sid)) in *.
    assert (∀ q, fb q → own q) as Hfb by (intros q Hq; by apply (dt_sub _ _ _ _ _ _ Hdt (bus_of sid) q)).
    pose proof (dt_root _ _ _ _ _ _ Hdt2) as Hct. pose proof (dt_ok _ _ _ _ _ _ Hdt2 _ Hct) as Hctp.
    assert (ct ∉ FR) as HcF by (intros Hin; apply (HFo ct); auto).
    assert (ct ≠ p) as Hcn by (intros ->; auto).
    cbn [mbind outcome_bind mret outcome_ret]. pose proof (context_entry_mem p ct d sid s1) as He. cbv zeta in He.
    set (s' := st_setf _ Ce.disable_fault_report _ _) in *. eexists p, true, s', [p], FR. split; [done|]. split; [done|].
    rewrite Em in He. destruct (context_e_fields p) as (F1 & F2 & F3). destruct (context_e2_fields sid) as [F4 _].
    destruct (entry16_frame _ _ _ _ _ _ _ He Hp Hctp ltac:(done) Hd) as (Hsame & Hz & Hrd).
    destruct (slpt_zero _ _ Hp Hz) as [Hsz Hst].
    destruct (dtable_new slpt_ok context_good slpt_frame context_good_frame _ _ _ fb f2 d p _ _ Hdt2 Hd Hp ltac:(auto) He F1 F2)
      as [Hct' Ec2]; [|by intros _|].
    { unfold context_good. by rewrite (e16_lo _ _ _ _ _ _ _ He), (e16_hi _ _ _ _ _ _ _ He). }
    destruct (context_zoom (ps_mem s) (ps_mem s') root own (λ q, own q ∨ q = p) f sid ct Hdt Ec)
      as (Hr' & Ec' & Hx).
    + by left.
    + intros q [?| ->]; auto.
    + intros q Hq Hn. apply Hsame; [auto|by intros ->|]. intros ->. auto.
    + destruct Hct' as [f' Hdt']. exists f'. destruct Hdt' as [R1 R2 R3 R4 R5].
      split; [by left| | |done|done]; fold fb.
      * intros q [Hq|[[Hq|Hq] Hno]]; [auto|done|auto].
      * intros j q Hj Hq. destruct (R3 j q Hj Hq) as [[?| ->] ?]; split; auto.
    + split; [|split; [cbn; lia|split; [split|done]]].
      * unfold s'. apply page_ok_aligned in Hctp, Hp. repeat (apply (free_setf ct d); [|by auto..]).
        apply free_zero16; try done. by apply free_zero.
      * apply (root_ok_iff _ _ (λ q, own q ∨ q = p)); [|done]. intros q. by rewrite list_elem_of_singleton.
      * intros q Hq Hno Hnp. apply Hsame; [done| |by intros ->; auto].
        intros ->. by apply Hnp, list_elem_of_singleton.
      * intros sid' iova. apply Hx. intros _. destruct (decide (devfn_of sid' = d)) as [->|Hdn].
        -- unfold context_xlate at 2. unfold child16 at 1. fold (st_rd (ct + 16 * d) s).
           change Re.present with Ce.present. rewrite Ep. cbn [Z.eqb mbind option_bind].
           unfold context_xlate. rewrite Ec2. cbn [mbind option_bind]. rewrite Hst. by destruct (_ && _).
        -- destruct (Hrd _ (devfn_range sid') Hdn) as [E1 E2].
           apply (context_xlate_at _ _ _ _ _ _ _ Hdt2); [apply devfn_range|done|done|].
           intros q Hq. destruct (dt_sub _ _ _ _ _ _ Hdt2 _ q (devfn_range sid') Hq) as [Hq1 Hq2].
           apply Hsame; [auto|by intros ->; auto|done].
  - assert (child16 (ps_mem s) ct d = Some (Z.shiftl (getf Ce.slptptr (st_rd (ct + 16 * d) s)) 12)) as Ec2.
    { unfold child16. fold (st_rd (ct + 16 * d) s). change Re.present with Ce.present. by rewrite (proj2 (Z.eqb_neq _ _)). }
    eexists _, false, s, [], FR. split; [done|]. split; [done|]. split; [done|]. split; [cbn; lia|].
    split; [|done]. split; [|done|done]. apply (root_ok_iff _ _ own); [|done].
    intros q. rewrite elem_of_nil. tauto.
Qed.

Lemma vtd_grown_trans m1 m2 m3 root own used used' :
  vtd_grown m1 m2 root own used → vtd_grown m2 m3 root (λ p, own p ∨ p ∈ used) used' →
  vtd_grown m1 m3 root own (used ++ used').
Proof.
  intros [_ F1 X1] [R2 F2 X2]. split.
  - apply (root_ok_iff _ _ (λ p, (own p ∨ p ∈ used) ∨ p ∈ used')); [|done]. intros p. rewrite elem_of_app. tauto.
  - intros p Hp Ho Hn. rewrite elem_of_app in Hn. apply same_page_trans with m2; [apply F1; tauto|apply F2; tauto].
  - intros. by rewrite X2, X1.
Qed.

(** Both entries of a device. *)
Lemma device_entries_ok root sid own FR s :
  root_ok (ps_mem s) root own → ps_free s FR → fresh_frames own FR → (2 ≤ length FR)%nat →
  ∃ ct n1 s1 slpt n2 s2 used FR', FR = used ++ FR' ∧ (length used ≤ 2)%nat ∧
    root_entry (root + 16 * bus_of sid) s = Done (ct, n1, s1) ∧
    context_entry (ct + 16 * devfn_of sid) sid s1 = Done (slpt, n2, s2) ∧
    ps_free s2 FR' ∧ vtd_grown (ps_mem s) (ps_mem s2) root own used ∧
    child16 (ps_mem s2) root (bus_of sid) = Some ct ∧ child16 (ps_mem s2) ct (devfn_of sid) = Some slpt.
Proof.
  intros Hok Hf Hfr Hlen. destruct (root_entry_ok root (bus_of sid) own FR s) as (ct & n1 & s1 & u1 & FR1 & EF1 & E1 & Hf1 & L1 & G1 & C1);
    try done; [apply bus_range|intros ->; cbn in Hlen; lia|].
  destruct (ps_free_frames _ _ Hf) as [Hnd _]. rewrite EF1 in Hnd, Hlen. rewrite length_app in Hlen.
  destruct (context_entry_ok root sid ct (λ p, own p ∨ p ∈ u1) FR1 s1) as (slpt & n2 & s2 & u2 & FR2 & EF2 & E2 & Hf2 & L2 & G2 & C2 & C3);
    try done; [by apply (vg_ok _ _ _ _ _ G1)| |intros ->; cbn in Hlen; lia|].
  { intros p Hp [Ho|Hu]; [apply (Hfr p); [rewrite EF1; apply elem_of_app; by right|done]|].
    apply NoDup_app in Hnd as (_ & Hd & _). by apply (Hd p). }
  exists ct, n1, s1, slpt, n2, s2, (u1 ++ u2), FR2. split; [by rewrite EF1, EF2, app_assoc|].
  split; [rewrite length_app; lia|]. repeat (split; [done|]). split; [|done]. by apply vtd_grown_trans with (ps_mem s1).
Qed.
End entries.

(** *** Installing a page *)
Section install.
Context {St : Type} `{PageSource St} `{!PageSourceLaws St}.
Implicit Types (s : St) (FR used : list Z) (own : Z → Prop) (l tl : nat).

(** The entry stored at level [tl]. *)
Definition vtd_leaf tl pa : Z := if (tl =? 1)%nat then Z.lor pa VTD_PTE_RW else Z.lor (Z.lor pa VTD_PTE_RW) VTD_PTE_HUGE.

Lemma vtd_leaf_ok tl pa : (1 ≤ tl ≤ 3)%nat → 0 ≤ pa < 2 ^ 52 → pa mod 2 ^ PGDIR_BITS tl = 0 →
  entry_ok VTD tl (vtd_leaf tl pa) ∧ pf_present VTD (vtd_leaf tl pa) = true ∧ is_leaf tl (vtd_leaf tl pa) = true ∧
  pf_addr VTD (vtd_leaf tl pa) = pa ∧ pf_perm VTD (vtd_leaf tl pa) = 3.
Proof.
  intros Htl Hpa Ha.
  assert (vtd_leaf tl pa = Z.lor (if (tl =? 1)%nat then 3 else 0x83) pa) as ->.
  { unfold vtd_leaf. destruct (tl =? 1)%nat; [apply Z.lor_comm|]. rewrite <- Z.lor_assoc. apply Z.lor_comm. }
  destruct (leaf_pte_ok VTD tl pa (if (tl =? 1)%nat then 3 else 0x83)) as (? & ? & ? & ? & Hp); try done.
  - by destruct (tl =? 1)%nat.
  - by destruct (tl =? 1)%nat.
  - destruct (Nat.eqb_spec tl 1); [lia|done].
  - split; [done|]. split; [done|]. split; [done|]. split; [done|]. rewrite Hp. by destruct (tl =? 1)%nat.
Qed.

Lemma vtd_install_walk_ok l tl pt va pa own FR s :
  (0 < tl ≤ l)%nat → (l ≤ 3)%nat →
  tree VTD l (ps_mem s) pt own → ps_free s FR → fresh_frames own FR →
  translate VTD l (ps_mem s) pt va = None →
  0 ≤ pa < 2 ^ 52 → pa mod 2 ^ PGDIR_BITS tl = 0 →
  (missing VTD tl l (ps_mem s) pt va ≤ length FR)%nat →
  ∃ s' used FR', FR = used ++ FR' ∧ vtd_install_walk l tl va pa pt s = Done s' ∧
    ps_free s' FR' ∧ installed VTD tl l (ps_mem s) (ps_mem s') pt va (vtd_leaf tl pa) own used.
Proof.
  intros Htl Hl3. revert pt own FR s. induction l as [|l IH]; intros pt own FR s Ht Hf Hfr Hno Hpa Hal Hm; [lia|].
  pose proof (PGDIR_OFFSET_range va (S l)) as Hi. set (i := PGDIR_OFFSET va (S l)) in *.
  destruct (tree_root_ok _ _ _ _ _ Ht) as [Hpt Hptok]. pose proof (page_ok_aligned _ Hptok) as Hptal.
  assert (pt ∉ FR) as HpF by (intros Hin; by apply (Hfr pt)).
  destruct (decide (tl = S l)) as [->|].
  { destruct (vtd_leaf_ok (S l) pa) as (He & Hp & Hlf & _); [lia|done..|].
    cbn [vtd_install_walk]. rewrite Nat.ltb_irrefl. fold i.
    set (s1 := st_wr (pt + 8 * i) (Z.lor pa VTD_PTE_RW) s).
    exists (if (S l =? 1)%nat then s1 else st_wr (pt + 8 * i) (Z.lor (st_rd (pt + 8 * i) s1) VTD_PTE_HUGE) s1), [], FR.
    split; [done|]. split; [done|].
    assert (ps_free s1 FR) as Hf1 by (by apply free_wr). split; [destruct (S l =? 1)%nat; [done|by apply free_wr]|].
    assert (∀ m2, m2 = wr (ps_mem s) (pt + 8 * i) (vtd_leaf (S l) pa) ∨
      m2 = wr (wr (ps_mem s) (pt + 8 * i) (Z.lor pa VTD_PTE_RW)) (pt + 8 * i) (vtd_leaf (S l) pa) →
      installed VTD (S l) (S l) (ps_mem s) m2 pt va (vtd_leaf (S l) pa) own []) as Hins.
    { intros m2 Hm2. replace m2 with (wr (ps_mem s) (pt + 8 * i) (vtd_leaf (S l) pa)); [apply installed_base; (done || lia)|].
      destruct Hm2 as [-> | ->]; [done|]. unfold wr. by rewrite insert_insert_eq. }
    assert (ps_mem s1 = wr (ps_mem s) (pt + 8 * i) (Z.lor pa VTD_PTE_RW)) as E1 by apply ps_mem_with.
    clearbody s1. unfold vtd_leaf in *. destruct (S l =? 1)%nat; [rewrite E1; apply Hins; by left|].
    unfold st_wr, st_rd. rewrite ps_mem_with, E1, rd_wr_eq. apply Hins. by right. }
  pose proof Ht as [f Hnd]%tree_node. assert (0 < tl ≤ l)%nat as Htl' by lia.
  cbn [vtd_install_walk]. rewrite (proj2 (Nat.ltb_lt _ _)) by lia. fold i.
  cbv zeta. set (e := rd (ps_mem s) (pt + 8 * i)). change (st_rd (pt + 8 * i) s) with e.
  cbn [missing] in Hm. rewrite (proj2 (Nat.leb_gt _ _)) in Hm by lia. fold i in Hm. fold e in Hm.
  cbn [translate] in Hno. fold i in Hno. fold e in Hno. unfold xlate_entry in Hno.
  specialize (IH Htl' ltac:(lia)).
  assert ((Z.land e VTD_PTE_RW =? 0) = negb (pf_present VTD e)) as -> by (unfold pf_present; by rewrite negb_involutive).
  destruct (pf_present VTD e) eqn:Hp; cbn [negb] in *.
  - assert (is_leaf (S l) e = false) as Hleaf by (by destruct (is_leaf (S l) e)).
    rewrite Hleaf in Hm, Hno. cbn [negb orb mbind outcome_bind mret outcome_ret] in Hm |- *.
    destruct (translate VTD l (ps_mem s) (pf_addr VTD e) va) as [[? ?]|] eqn:Hno'; [done|].
    destruct (IH (pf_addr VTD e) (f i) FR s) as (s' & used & FR' & -> & Es' & Hf' & Hins); try assumption.
    { by apply (nd_child _ _ _ _ _ _ Hnd). }
    { intros q Hq Hfq. by apply (Hfr q Hq), (nd_sub _ _ _ _ _ _ Hnd i q). }
    destruct (ps_free_frames _ _ Hf) as [_ Hok]. rewrite Forall_forall in Hok.
    exists s', used, FR'. split; [done|]. split; [exact Es'|]. split; [done|].
    apply (installed_table VTD tl l (ps_mem s) pt va _ own f); try done.
    intros q Hq. split; [apply Hok; set_solver|]. apply Hfr. set_solver.
  - cbn [orb] in Hm. destruct FR as [|p FR]; [cbn in Hm; lia|].
    destruct (ps_alloc_cons _ _ _ Hf) as (s1 & -> & Hf1 & Em). cbn [mbind outcome_bind mret outcome_ret].
    destruct (new_table_flags VTD 3 tl l s s1 pt va (vtd_leaf tl pa) own f p FR)
      as ((Ht1 & Hf2 & HFp) & (Hm1 & Hno1) & Hap & Hfin); try done.
    fold i in Ht1, Hf2, Hm1, Hno1, Hap, Hfin. change (Z.lor (virt_to_phys p) VTD_PTE_RW) with (Z.lor p 3).
    set (s2 := st_wr _ _ _) in *.
    destruct (IH p (λ q, q = p) FR s2) as (s' & used & FR' & EF & Es' & Hf' & Hins); try done;
      [rewrite Hm1; cbn in Hm; lia|].
    exists s', (p :: used), FR'. split; [by rewrite EF|].
    split; [rewrite <- Es'; f_equal; exact Hap|]. split; [done|]. by apply (Hfin s' used FR').
Qed.
End install.

(** *** Mapping a range, page by page *)
Lemma path3 k va va' : (1 ≤ k ≤ 3)%nat → 0 ≤ va < 2 ^ 39 → 0 ≤ va' < 2 ^ 39 →
  same_path k 3 va va' = bool_decide (va / 2 ^ PGDIR_BITS k = va' / 2 ^ PGDIR_BITS k).
Proof.
  intros Hk Hva Hva'. apply eq_true_iff_eq. rewrite same_path_mod by lia.
  change (PGDIR_BITS 4) with 39. rewrite !Z.mod_small by done. by rewrite bool_decide_eq_true.
Qed.

Lemma page_missing m slpt va :
  0 ≤ va → va mod 4096 = 0 → va + 4096 < 2 ^ 39 →
  (∀ k, (1 < k ≤ 3)%nat → same_path k 3 va (va + 4096) = true →
    (missing VTD 1 3 m slpt (va + 4096) ≤ k - 1 - 1)%nat) →
  (missing VTD 1 3 m slpt (va + 4096) ≤ starts 1 3 (va + 4096))%nat.
Proof.
  intros H0 Ha Hlt Hk. pose proof (missing_le VTD 1 3 m slpt (va + 4096)) as Hle.
  pose proof (Hk 2%nat ltac:(lia)) as K2. pose proof (Hk 3%nat ltac:(lia)) as K3.
  rewrite path3, bool_decide_eq_true in K2, K3 by lia. cbn [starts Nat.leb].
  change (2 ^ PGDIR_BITS 2) with 0x200000 in *. change (2 ^ PGDIR_BITS 3) with 0x40000000 in *.
  destruct (Z.eqb_spec ((va + 4096) mod 0x40000000) 0) as [E3|E3], (Z.eqb_spec ((va + 4096) mod 0x200000) 0) as [E2|E2];
    try (lia || (assert (va / 0x200000 = (va + 4096) / 0x200000) as E by (Z.to_euclidean_division_equations; lia);
         specialize (K2 E); lia)).
  assert (va / 0x40000000 = (va + 4096) / 0x40000000) as E by (Z.to_euclidean_division_equations; lia).
  specialize (K3 E). lia.
Qed.

Section range.
Context {St : Type} `{PageSource St} `{!PageSourceLaws St}.
Implicit Types (s : St) (FR used : list Z).
(** The second-level table [slpt] with the frames [own] in memory [m0], the free
    frames [FR0], and the range [iova, lim) that goes to [pa]. *)
Context (m0 : mem) (slpt : Z) (own : Z → Prop) (FR0 : list Z) (iova pa lim : Z).

(** The part of the range below [cur] is mapped, and at most [x] tables more than the
    blocks that begin at [cur] are missing there. *)
Record vtd_range (x : nat) (cur : Z) s FR used : Prop := {
  vr_ok : slpt_ok (ps_mem s) slpt (λ p, own p ∨ p ∈ used);
  vr_free : ps_free s FR;
  vr_split : FR0 = used ++ FR;
  vr_frame p : page_ok p → ¬ own p → p ∉ used → same_page m0 (ps_mem s) p;
  vr_translate va : 0 ≤ va < 2 ^ 39 → translate VTD 3 (ps_mem s) slpt va =
    if (iova <=? va) && (va <? cur) then Some (va + (pa - iova), 3) else translate VTD 3 m0 slpt va;
  vr_near : cur < lim → (missing VTD 1 3 (ps_mem s) slpt cur ≤ starts 1 3 cur + x)%nat
}.

Context (Hiova : 0 ≤ iova ∧ lim ≤ 2 ^ 39) (Hclear : ∀ va, iova ≤ va < lim → translate VTD 3 m0 slpt va = None).
Context (Hfresh : fresh_frames own FR0) (Hnd : NoDup FR0).

Lemma vtd_range_step x cur s FR used :
  iova ≤ cur → cur mod 4096 = 0 → cur + 4096 ≤ lim →
  0 ≤ cur + (pa - iova) < 2 ^ 52 → (cur + (pa - iova)) mod 4096 = 0 →
  vtd_range x cur s FR used → (starts 1 3 cur + x ≤ length FR)%nat →
  ∃ s' FR' new, vtd_install_pte slpt cur (cur + (pa - iova)) 1 s = Done s' ∧
    (length new ≤ starts 1 3 cur + x)%nat ∧ FR = new ++ FR' ∧ vtd_range 0 (cur + 4096) s' FR' (used ++ new).
Proof.
  intros Hst Hal Hend Hpa Hpal [[Rt Rrw] Rf Rsp Rfr Rtr Rn] Hlen.
  set (phys := cur + (pa - iova)) in *.
  assert (translate VTD 3 (ps_mem s) slpt cur = None) as Hnone.
  { rewrite Rtr by lia. rewrite (proj2 (Z.ltb_ge cur cur)), andb_false_r by lia. apply Hclear. lia. }
  assert (fresh_frames (λ p, own p ∨ p ∈ used) FR) as Hfr.
  { intros p Hp [Ho|Hu].
    - apply (Hfresh p); [rewrite Rsp; apply elem_of_app; by right|done].
    - rewrite Rsp in Hnd. apply NoDup_app in Hnd as (_ & Hd & _). by apply (Hd p). }
  destruct (vtd_install_walk_ok 3 1 slpt cur phys _ FR s ltac:(lia) ltac:(lia) Rt Rf Hfr Hnone)
    as (s' & new & FR' & EF & Es & Hf' & [It Ifr Itr Ip _ In Iu]); [done|done|etransitivity; [apply Rn; lia|done]|].
  exists s', FR', new. split; [exact Es|]. split; [rewrite Iu; apply Rn; lia|]. split; [done|].
  destruct (vtd_leaf_ok 1 phys) as (_ & Hlp & _ & Hla & Hlr); [lia|done|done|].
  assert (∀ va, 0 ≤ va < 2 ^ 39 → same_path 1 3 cur va = (cur <=? va) && (va <? cur + 4096)) as Hpath.
  { intros va Hva. rewrite path3 by lia. apply eq_true_iff_eq.
    rewrite bool_decide_eq_true, andb_true_iff, Z.leb_le, Z.ltb_lt. apply (same_block 4096); [lia|done]. }
  split.
  - split; [eapply tree_own_iff; [|exact It]; intros p; rewrite elem_of_app; tauto|].
    intros va Hva Hn. rewrite Itr in Hn. destruct (same_path 1 3 cur va) eqn:E.
    { unfold leaf_at in Hn. by rewrite Hlp in Hn. }
    rewrite Ip by done. by apply Rrw.
  - done.
  - by rewrite Rsp, EF, app_assoc.
  - intros p Hp Hn1 Hn2. rewrite elem_of_app in Hn2. apply same_page_trans with (ps_mem s); [apply Rfr; tauto|].
    apply Ifr; tauto.
  - intros va Hva. rewrite Itr, Hpath, Rtr by done. unfold leaf_at. rewrite Hlp, Hla, Hlr, Rrw by (done || lia).
    destruct (Z.leb_spec cur va), (Z.ltb_spec va (cur + 4096)), (Z.leb_spec iova va),
      (Z.ltb_spec va cur); cbn [andb]; try (done || lia).
    change (2 ^ PGDIR_BITS 1) with 4096. unfold phys. do 2 f_equal.
    rewrite (block_offset 4096 cur va) at 2 by (done || lia). lia.
  - intros Hlt. rewrite Nat.add_0_r. apply page_missing; [lia|done|lia|]. intros k Hk. by apply In; lia.
Qed.
End range.

Lemma slpt_ok_iff m slpt (own own' : Z → Prop) : (∀ p, own' p ↔ own p) → slpt_ok m slpt own → slpt_ok m slpt own'.
Proof. intros Ho [Ht Hrw]. split; [|done]. by apply (tree_own_iff _ _ _ _ own). Qed.

(** The mapped range seen by the device, and by the others. *)
Lemma slpt_zoom m m' root own own' f f2 sid ct slpt :
  dtable context_ok (λ _ _ _, True) m root own f → child16 m root (bus_of sid) = Some ct →
  dtable slpt_ok context_good m ct (f (bus_of sid)) f2 → child16 m ct (devfn_of sid) = Some slpt →
  (∀ p, own p → own' p) → (∀ p, own' p → page_ok p) →
  (∀ p, own p → ¬ f2 (devfn_of sid) p → same_page m m' p) →
  slpt_ok m' slpt (λ p, f2 (devfn_of sid) p ∨ own' p ∧ ¬ own p) →
  root_ok m' root own' ∧
  (∀ iova, 0 ≤ iova < 2 ^ 39 → vtd_xlate m' root sid iova = translate VTD 3 m' slpt iova) ∧
  ∀ sid' iova, bus_of sid' = bus_of sid ∧ devfn_of sid' = devfn_of sid ∨ vtd_xlate m' root sid' iova = vtd_xlate m root sid' iova.
Proof.
  intros Hdt Ec Hdt2 Ec2 Hsub Hok Hsame Hch. pose proof (devfn_range sid) as Hd.
  set (fb := f (bus_of sid)) in *.
  assert (∀ q, fb q → own q) as Hfb by (intros q Hq; by apply (dt_sub _ _ _ _ _ _ Hdt (bus_of sid) q); [apply bus_range|]).
  destruct (dtable_zoom slpt_ok context_good slpt_frame context_good_frame m m' ct fb (λ p, fb p ∨ own' p ∧ ¬ own p)
    f2 (devfn_of sid) slpt) as [Hc' Hrd]; try done.
  - by left.
  - intros p [Hp|[Hp _]]; auto.
  - auto.
  - apply (slpt_ok_iff _ _ (λ p, f2 (devfn_of sid) p ∨ own' p ∧ ¬ own p)); [|done].
    intros p. split; [intros [?|[[?|?] ?]]; tauto|]. intros [?|[? Hn]]; [by left|right].
    split; [by right|]. intros Hp. by apply Hn, Hfb.
  - destruct (context_zoom m m' root own own' f sid ct Hdt Ec Hsub Hok) as (Hr' & Ec' & Hx); [|done|].
    { intros p Hp Hn. apply Hsame; [done|]. intros Hp2. by apply Hn, (dt_sub _ _ _ _ _ _ Hdt2 (devfn_of sid) p). }
    split; [done|]. destruct (Hrd _ Hd) as [E1 E2]. split.
    + intros iova Hi. unfold vtd_xlate. rewrite Ec'. cbn [mbind option_bind].
      apply (context_xlate_ok _ _ _ _ _ _ Hc'); [done| |done]. by rewrite (child16_frame m).
    + intros sid' iova. destruct (decide (bus_of sid' = bus_of sid ∧ devfn_of sid' = devfn_of sid)) as [?|Hne]; [by left|right].
      apply Hx. intros Eb. assert (devfn_of sid' ≠ devfn_of sid) as Hdn by (intros ?; by apply Hne).
      destruct (Hrd _ (devfn_range sid')) as [E3 E4].
      apply (context_xlate_at _ _ _ _ _ _ _ Hdt2); [apply devfn_range|done|done|].
      intros p Hp. destruct (dt_sub _ _ _ _ _ _ Hdt2 _ p (devfn_range sid') Hp). apply Hsame; [auto|].
      intros Hp2. apply Hdn. by apply (dt_disj _ _ _ _ _ _ Hdt2 _ _ p (devfn_range sid') Hd).
Qed.
