(* ===== verification/Stack.v ===== *)
(** Stack traces: lib/stack.c and lib/x86/stack.c.

    The stack is in memory: a frame at [bp] holds the caller's frame pointer and,
    above it, the return address.  [stk] is what the files change: the static
    [walking] and the text printed, newest first; memory is only read. *)
From Stdlib Require Import ZArith Lia Bool.
From S2P Require Import Prelude Libcflat Mem.
#[local] Open Scope Z_scope.

Module Stack.
Definition MAX_DEPTH : Z := 20.

Record stk := Stk { walking : bool; st_log : list (string * list parg) }.
Definition set_walking (b : bool) (s : stk) : stk := Stk b (st_log s).
Abbreviation M := (stM stk).
Definition printf (fmt : string) (args : list parg) : M unit :=
  modify (λ s, Stk (walking s) ((fmt, args) :: st_log s)).

Section code.
Context (m : mem).

(** The [for] loop of [backtrace_frame]; [return_addrs] is [&arr[off]]. *)
Fixpoint walk (n : nat) (off depth bp : Z) (arr : list Z) : outcome (Z * list Z) :=
  match n with
  | O => mret (depth, arr)
  | S n =>
    if bp =? 0 then mret (depth, arr)
    else
      let ra := rd m (u64 (bp + 8)) in
      arr ← arr_set arr (off + depth) ra;
      if ra =? 0 then mret (depth, arr) else walk n off (depth + 1) (rd m bp) arr
  end.

(** lib/x86/stack.c *)
Definition backtrace_frame (frame off max_depth : Z) (arr : list Z) : M (Z * list Z) :=
  w ← gets walking;
  if w : bool then printf "RECURSIVE STACK WALK!!!\n" [];; mret (0, arr)
  else
    modify (set_walking true);;
    '(depth, arr) ← lift (walk (Z.to_nat max_depth) off 0 frame arr);
    modify (set_walking false);;
    mret (depth, arr).
(** [frame0] is [__builtin_frame_address(0)]. *)
Definition backtrace (frame0 off max_depth : Z) (arr : list Z) : M (Z * list Z) :=
  backtrace_frame frame0 off max_depth arr.

(** lib/stack.c; [return_addrs] is [&arr[off]]. *)
Definition print_stack (arr : list Z) (off depth : Z) (top_is_return_address : bool) : M unit :=
  printf "\tSTACK:" [];;
  i ← (if (0 <? depth) && negb top_is_return_address
       then a ← lift (arr_get arr off); printf " @%lx" [PInt a];; mret 1
       else mret 0);
  for_up (Z.to_nat (depth - i)) i (λ i, a ← lift (arr_get arr (off + i)); printf " %lx" [PInt a]);;
  printf "\n" [].

(** [junk] is the array before it is written. *)
Definition dump_stack (frame0 : Z) (junk : list Z) : M unit :=
  '(depth, arr) ← backtrace frame0 0 MAX_DEPTH junk;
  print_stack arr 1 (if depth =? 0 then 0 else depth - 1) true.
Definition dump_frame_stack (instruction frame : Z) (junk : list Z) : M unit :=
  arr ← lift (arr_set junk 0 instruction);
  '(depth, arr) ← backtrace_frame frame 1 (MAX_DEPTH - 1) arr;
  print_stack arr 0 (depth + 1) false.
End code.

(** ** Proofs *)
(** The return addresses of at most [n] frames from [bp]: the walk ends at a NULL
    frame pointer or a NULL return address. *)
Inductive call_chain (m : mem) : nat → Z → list Z → Prop :=
| chain_limit bp : call_chain m 0 bp []
| chain_null n : call_chain m n 0 []
| chain_end n bp : bp ≠ 0 → rd m (u64 (bp + 8)) = 0 → call_chain m (S n) bp []
| chain_next n bp ra l :
    bp ≠ 0 → rd m (u64 (bp + 8)) = ra → ra ≠ 0 → call_chain m n (rd m bp) l →
    call_chain m (S n) bp (ra :: l).
#[local] Hint Constructors call_chain : core.

Lemma call_chain_length m n bp l : call_chain m n bp l → (length l ≤ n)%nat.
Proof. induction 1; cbn; lia. Qed.

Lemma call_chain_fun m n bp l1 l2 : call_chain m n bp l1 → call_chain m n bp l2 → l1 = l2.
Proof.
  intros Hc. revert l2. induction Hc; intros l2 Hc2; inversion Hc2; subst; try congruence. f_equal. auto.
Qed.

Lemma walk_ok m n off pre l0 post bp :
  length pre = Z.to_nat off → 0 ≤ off → (n ≤ length post)%nat →
  ∃ l post', walk m n off (Z.of_nat (length l0)) bp (pre ++ l0 ++ post) =
      Done (Z.of_nat (length (l0 ++ l)), pre ++ (l0 ++ l) ++ post') ∧ call_chain m n bp l.
Proof.
  intros Hpre Hoff. revert l0 post bp. induction n as [|n IH]; intros l0 post bp Hn; cbn [walk].
  - exists [], post. rewrite app_nil_r. auto.
  - destruct (Z.eqb_spec bp 0) as [->|Hbp]; [exists [], post; rewrite app_nil_r; auto|].
    destruct post as [|x post]; [cbn in Hn; lia|]. cbn [length] in Hn.
    rewrite arr_set_ok by (rewrite !length_app; cbn [length]; lia).
    replace (<[Z.to_nat (off + Z.of_nat (length l0)):=rd m (u64 (bp + 8))]> (pre ++ l0 ++ x :: post))
      with (pre ++ l0 ++ rd m (u64 (bp + 8)) :: post).
    2:{ replace (Z.to_nat (off + Z.of_nat (length l0))) with (length pre + (length l0 + 0))%nat by lia.
        by rewrite insert_app_r, insert_app_r. }
    cbn [mbind outcome_bind].
    destruct (Z.eqb_spec (rd m (u64 (bp + 8))) 0) as [E|E].
    + exists [], (rd m (u64 (bp + 8)) :: post). rewrite app_nil_r. auto.
    + destruct (IH (l0 ++ [rd m (u64 (bp + 8))]) post (rd m bp)) as (l & post' & E' & Hc); [lia|].
      exists (rd m (u64 (bp + 8)) :: l), post'. split; [|eauto].
      rewrite (cons_middle (rd m (u64 (bp + 8))) l0 post), !app_assoc in *.
      rewrite length_app in E'. cbn [length] in E'. rewrite Nat2Z.inj_add in E'.
      change (Z.of_nat 1) with 1 in E'. rewrite E'. by rewrite <- !app_assoc.
Qed.

Lemma bind_stack_printf {B} fmt args (f : unit → M B) s :
  (printf fmt args ≫= f) s = f tt (Stk (walking s) ((fmt, args) :: st_log s)).
Proof. done. Qed.

(** One line per frame, newest first. *)
Definition chain_log (l : list Z) : list (string * list parg) := reverse ((λ a, (" %lx"%string, [PInt a])) <$> l).

Lemma print_loop_ok arr off l s n i :
  (∀ k, (k < length l)%nat → arr !! Z.to_nat (off + i + Z.of_nat k) = l !! k) → 0 ≤ off + i → n = length l →
  for_up n i (λ i, a ← lift (arr_get arr (off + i)); printf " %lx" [PInt a]) s =
    Done (tt, Stk (walking s) (chain_log l ++ st_log s)).
Proof.
  intros Hl Hi ->. revert i s Hl Hi. induction l as [|a l IH]; intros i s Hl Hi; cbn [length for_up].
  - by destruct s.
  - rewrite stM_bind_assoc. rewrite (arr_get_ok arr (off + i) a).
    2:{ lia. } 2:{ specialize (Hl 0%nat ltac:(cbn; lia)). by rewrite Z.add_0_r in Hl. }
    rewrite bind_lift_Done, bind_stack_printf, IH.
    + unfold chain_log. cbn [fmap list_fmap]. rewrite reverse_cons, <- app_assoc. done.
    + intros k Hk. specialize (Hl (S k) ltac:(cbn; lia)). change ((a :: l) !! S k) with (l !! k) in Hl.
      rewrite <- Hl. f_equal. lia.
    + lia.
Qed.

Lemma dump_frame_stack_ok m instruction frame junk s :
  walking s = false → length junk = Z.to_nat MAX_DEPTH →
  ∃ l, call_chain m 19 frame l ∧
    dump_frame_stack m instruction frame junk s =
      Done (tt, Stk false (("\n"%string, []) :: chain_log l ++
        [(" @%lx"%string, [PInt instruction]); ("\tSTACK:"%string, [])] ++ st_log s)).
Proof.
  intros Hw Hlen. destruct junk as [|x junk]; [discriminate|]. cbn [length] in Hlen.
  change (Z.to_nat MAX_DEPTH) with 20%nat in Hlen.
  destruct (walk_ok m 19 1 [instruction] [] junk frame) as (l & post & E & Hc); [done|lia|lia|].
  exists l. split; [done|]. pose proof (call_chain_length _ _ _ _ Hc) as Hle.
  unfold dump_frame_stack, backtrace_frame. rewrite arr_set_ok by (cbn; lia). rewrite bind_lift_Done.
  change (<[Z.to_nat 0:=instruction]> (x :: junk)) with (instruction :: junk).
  rewrite stM_bind_assoc, bind_gets, Hw. rewrite stM_bind_assoc, bind_modify.
  change (Z.to_nat (MAX_DEPTH - 1)) with 19%nat. cbn [app length] in E. change (Z.of_nat 0) with 0 in E.
  rewrite E. rewrite stM_bind_assoc, bind_lift_Done. cbv iota beta. rewrite stM_bind_assoc, bind_modify, bind_mret.
  unfold print_stack. rewrite bind_stack_printf. rewrite (proj2 (Z.ltb_lt _ _)) by lia.
  cbn [andb negb]. rewrite stM_bind_assoc. rewrite (arr_get_ok _ 0 instruction) by done. rewrite bind_lift_Done.
  rewrite stM_bind_assoc, bind_stack_printf, bind_mret.
  erewrite (stM_bind_Done _ _ _ tt); [|apply (print_loop_ok (instruction :: l ++ post) 0 l); [|lia|lia]].
  - unfold printf. cbn. done.
  - intros k Hk. replace (Z.to_nat (0 + 1 + Z.of_nat k)) with (S k) by lia. cbn. by apply lookup_app_l.
Qed.

(** [dump_frame_stack] always returns, whatever the frame pointers in memory are,
    cyclic ones included: it prints the instruction and then the return addresses
    of at most 19 callers, up to the first NULL. *)
Theorem dump_frame_stack_correct m instruction frame junk s :
  walking s = false → length junk = Z.to_nat MAX_DEPTH →
  ∃ l, call_chain m 19 frame l ∧
    dump_frame_stack m instruction frame junk s =
      Done (tt, Stk false (("\n"%string, []) :: chain_log l ++
        [(" @%lx"%string, [PInt instruction]); ("\tSTACK:"%string, [])] ++ st_log s)).
Proof. apply dump_frame_stack_ok. Qed.
End Stack.
