(* ===== verification/Desc.v ===== *)
(** Exceptions and the interrupt descriptor table: lib/x86/desc.c and desc.h for
    x86_64, with lib/x86/fault_test.c and the C part of lib/x86/usermode.c.

    [desc] is what these files change: the IDT, the table of C handlers and the
    other statics, the word at %gs:4 in which [check_exception_table] leaves the
    last exception, and the stack trace's state.  A handler is one of the four
    functions of the repository that are registered as such.  Code that may raise
    exceptions is a [prog]: it ends, or raises one with the registers at that point
    and goes on from the registers the handler returns with.  The addresses of the
    assembly entry points, the exception table (a linker section), CS and the
    control registers are parameters. *)
From Stdlib Require Import ZArith Lia Bool.
From S2P Require Import Prelude Libcflat Mem Bitfield Stack.
#[local] Open Scope Z_scope.

(** ** IDT entries: [idt_entry_t], 16 bytes *)
Module Idt.
Definition offset0 := Bits 0 16.
Definition selector := Bits 16 16.
Definition ist := Bits 32 3.
Definition type := Bits 40 4.
Definition dpl := Bits 45 2.
Definition p := Bits 47 1.
Definition offset1 := Bits 48 16.
Definition offset2 := Bits 64 32.
Definition reserved := Bits 96 32.
End Idt.

Definition get_idt_addr (entry : Z) : Z :=
  let addr := Z.lor (getf Idt.offset0 entry) (Z.shiftl (getf Idt.offset1 entry) 16) in
  Z.lor addr (Z.shiftl (getf Idt.offset2 entry) 32).

(** ** Registers and state *)
(** [struct ex_regs] *)
Record ex_regs := ExRegs {
  rax : Z; rcx : Z; rdx : Z; rbx : Z; dummy : Z; rbp : Z; rsi : Z; rdi : Z;
  r8 : Z; r9 : Z; r10 : Z; r11 : Z; r12 : Z; r13 : Z; r14 : Z; r15 : Z;
  vector : Z; error_code : Z; rip : Z; cs : Z; rflags : Z
}.
Definition set_rip (x : Z) (r : ex_regs) : ex_regs :=
  ExRegs (rax r) (rcx r) (rdx r) (rbx r) (dummy r) (rbp r) (rsi r) (rdi r) (r8 r) (r9 r) (r10 r) (r11 r)
    (r12 r) (r13 r) (r14 r) (r15 r) (vector r) (error_code r) x (cs r) (rflags r).
Definition set_cs (x : Z) (r : ex_regs) : ex_regs :=
  ExRegs (rax r) (rcx r) (rdx r) (rbx r) (dummy r) (rbp r) (rsi r) (rdi r) (r8 r) (r9 r) (r10 r) (r11 r)
    (r12 r) (r13 r) (r14 r) (r15 r) (vector r) (error_code r) (rip r) x (rflags r).

(** The functions of type [handler]. *)
Inductive handler : Set :=
| check_exception_table | exception_handler
| fault_test_fault | restore_exec_to_jmpbuf_exception_handler.
#[export] Instance handler_eq_dec : EqDecision handler.
Proof. solve_decision. Defined.

(** [struct ex_record] *)
Record ex_record := ExRecord { ex_rip : Z; ex_handler : Z }.

Record desc := Desc {
  boot_idt : list Z;
  exception_handlers : list (option handler);
  idt_initialized : bool;
  gs_exception : Z;
  exception : bool;
  exception_jmpbuf : Z;
  ist1 : Z;
  d_stk : Stack.stk
}.
Definition set_boot_idt (x : list Z) (s : desc) : desc :=
  Desc x (exception_handlers s) (idt_initialized s) (gs_exception s) (exception s) (exception_jmpbuf s) (ist1 s) (d_stk s).
Definition set_handlers (x : list (option handler)) (s : desc) : desc :=
  Desc (boot_idt s) x (idt_initialized s) (gs_exception s) (exception s) (exception_jmpbuf s) (ist1 s) (d_stk s).
Definition set_idt_initialized (x : bool) (s : desc) : desc :=
  Desc (boot_idt s) (exception_handlers s) x (gs_exception s) (exception s) (exception_jmpbuf s) (ist1 s) (d_stk s).
Definition set_gs_exception (x : Z) (s : desc) : desc :=
  Desc (boot_idt s) (exception_handlers s) (idt_initialized s) x (exception s) (exception_jmpbuf s) (ist1 s) (d_stk s).
Definition set_exception (x : bool) (s : desc) : desc :=
  Desc (boot_idt s) (exception_handlers s) (idt_initialized s) (gs_exception s) x (exception_jmpbuf s) (ist1 s) (d_stk s).
Definition set_jmpbuf (x : Z) (s : desc) : desc :=
  Desc (boot_idt s) (exception_handlers s) (idt_initialized s) (gs_exception s) (exception s) x (ist1 s) (d_stk s).
Definition set_ist1 (x : Z) (s : desc) : desc :=
  Desc (boot_idt s) (exception_handlers s) (idt_initialized s) (gs_exception s) (exception s) (exception_jmpbuf s) x (d_stk s).
Definition set_stk (x : Stack.stk) (s : desc) : desc :=
  Desc (boot_idt s) (exception_handlers s) (idt_initialized s) (gs_exception s) (exception s) (exception_jmpbuf s) (ist1 s) x.

(** What the code takes from the rest of the image and from the processor. *)
Record image := Image {
  read_cs : Z;
  read_cr : Z → Z;
  fault_entry : Z → Z;                 (* &de_fault, ... by vector *)
  exception_table : list ex_record;
  sym_exception_handler_longjmp : Z;
  sym_restore_exec_to_jmpbuf : Z;
  sym_ret_to_kernel : Z;
  intr_alt_stack : Z;
  stack_mem : mem;
  frame_junk : list Z                  (* the array of dump_frame_stack before it is written *)
}.

(** Code that may raise exceptions. *)
Inductive prog (A : Type) : Type :=
| Ret (a : A)
| Raise (regs : ex_regs) (resume : ex_regs → prog A).
Arguments Ret {A}. Arguments Raise {A}.

(** How the code ends: a value, or [longjmp] to a [jmp_buf]: the one that
    [exception_jmpbuf] points to, or the global [jmpbuf]. *)
Inductive jump : Set := Jump_exception (buf : Z) | Jump_jmpbuf.

Section code.
Context (im : image).
Abbreviation M := (stM desc).
Definition printf (fmt : string) (args : list parg) : M unit := zoom d_stk set_stk (Stack.printf fmt args).

(** [e = &boot_idt[vec]] and the stores through [e]. *)
Definition upd_idt (vec : Z) (f : Z → Z) : M unit :=
  idt ← gets boot_idt; e ← lift (arr_get idt vec); idt ← lift (arr_set idt vec (f e)); modify (set_boot_idt idt).

(** The entry [set_idt_entry] stores, from [memset] on. *)
Definition gate (addr dpl : Z) : Z :=
  let e := 0 in
  let e := setf Idt.offset0 addr e in
  let e := setf Idt.selector (read_cs im) e in
  let e := setf Idt.ist 0 e in
  let e := setf Idt.type 14 e in
  let e := setf Idt.dpl dpl e in
  let e := setf Idt.p 1 e in
  let e := setf Idt.offset1 (Z.shiftr addr 16) e in
  setf Idt.offset2 (Z.shiftr addr 32) e.
Definition set_idt_entry (vec addr dpl : Z) : M unit := upd_idt vec (λ e, gate addr dpl).
Definition set_idt_dpl (vec dpl : Z) : M unit := upd_idt vec (setf Idt.dpl dpl).
Definition set_idt_sel (vec sel : Z) : M unit := upd_idt vec (setf Idt.selector sel).

Definition exception_mnemonic (v : Z) : string :=
  match v with
  | 0 => "#DE" | 1 => "#DB" | 2 => "#NMI" | 3 => "#BP" | 4 => "#OF" | 5 => "#BR" | 6 => "#UD" | 7 => "#NM"
  | 8 => "#DF" | 10 => "#TS" | 11 => "#NP" | 12 => "#SS" | 13 => "#GP" | 14 => "#PF" | 16 => "#MF"
  | 17 => "#AC" | 18 => "#MC" | 19 => "#XM" | _ => "#??"
  end.

Definition unhandled_exception (regs : ex_regs) (cpu : bool) : M unit :=
  printf "Unhandled %sexception %ld %s at ip %016lx\n"
    [PStr (if cpu then "cpu " else "")%string; PInt (vector regs);
     PStr (exception_mnemonic (s32 (vector regs))); PInt (rip regs)];;
  when (vector regs =? 14) (printf "PF at %#lx addr %#lx\n" [PInt (rip regs); PInt (read_cr im 2)]);;
  printf ("error_code=%04lx      rflags=%08lx      cs=%08lx\n" ++
          "rax=%016lx rcx=%016lx rdx=%016lx rbx=%016lx\n" ++
          "rbp=%016lx rsi=%016lx rdi=%016lx\n" ++
          " r8=%016lx  r9=%016lx r10=%016lx r11=%016lx\n" ++
          "r12=%016lx r13=%016lx r14=%016lx r15=%016lx\n" ++
          "cr0=%016lx cr2=%016lx cr3=%016lx cr4=%016lx\n" ++
          "cr8=%016lx\n")%string
    (PInt <$> [error_code regs; rflags regs; cs regs; rax regs; rcx regs; rdx regs; rbx regs;
               rbp regs; rsi regs; rdi regs; r8 regs; r9 regs; r10 regs; r11 regs;
               r12 regs; r13 regs; r14 regs; r15 regs;
               read_cr im 0; read_cr im 2; read_cr im 3; read_cr im 4; read_cr im 8]);;
  zoom d_stk set_stk (Stack.dump_frame_stack (stack_mem im) (rip regs) (rbp regs) (frame_junk im));;
  lift Abort.

(** The loop over [exception_table_start .. exception_table_end]. *)
Fixpoint find_ex (t : list ex_record) (ip : Z) : option Z :=
  match t with
  | [] => None
  | ex :: t => if ex_rip ex =? ip then Some (ex_handler ex) else find_ex t ip
  end.
Definition ex_val (regs : ex_regs) : Z :=
  u32 (Z.lor (Z.lor (vector regs) (u64 (Z.shiftl (error_code regs) 16)))
             (Z.shiftl (Z.land (Z.shiftr (rflags regs) 16) 1) 8)).

(** The handlers; a handler changes the registers it is given. *)
Definition run_handler (h : handler) (regs : ex_regs) : M ex_regs :=
  match h with
  | check_exception_table =>
    modify (set_gs_exception (ex_val regs));;
    match find_ex (exception_table im) (rip regs) with
    | Some h => mret (set_rip h regs)
    | None => unhandled_exception regs false;; mret regs
    end
  | exception_handler =>
    modify (set_exception true);;
    mret (set_cs (read_cs im) (set_rip (sym_exception_handler_longjmp im) regs))
  | fault_test_fault => mret (set_rip (sym_restore_exec_to_jmpbuf im) regs)
  | restore_exec_to_jmpbuf_exception_handler =>
    mret (set_cs 0x08 (set_rip (sym_restore_exec_to_jmpbuf im) regs))
  end.

(** [v] is a [u8].  [exception_handlers[v]] is read before [v] is compared. *)
Definition handle_exception (v : Z) (fn : option handler) : M (option handler) :=
  hs ← gets exception_handlers;
  old ← lift (arr_get hs v);
  when (v <? 32) (hs ← lift (arr_set hs v fn); modify (set_handlers hs));;
  mret old.

Definition do_handle_exception (regs : ex_regs) : M ex_regs :=
  hs ← gets exception_handlers;
  h ← (if vector regs <? 32 then lift (arr_get hs (vector regs)) else mret None);
  match h with
  | Some h => run_handler h regs
  | None => unhandled_exception regs true;; mret regs
  end.

(** [idt_handlers]: the vectors with an entry point. *)
Definition idt_handlers (i : Z) : option Z :=
  if bool_decide (i ∈ [0; 1; 2; 3; 4; 5; 6; 7; 8; 10; 11; 12; 13; 14; 16; 17; 18; 19])
  then Some (fault_entry im i) else None.

Definition setup_idt : M unit :=
  b ← gets idt_initialized;
  if b : bool then mret tt
  else
    modify (set_idt_initialized true);;
    for_up 32 0 (λ i, match idt_handlers i with Some a => set_idt_entry i a 0 | None => mret tt end);;
    _ ← handle_exception 0 (Some check_exception_table);
    _ ← handle_exception 6 (Some check_exception_table);
    _ ← handle_exception 13 (Some check_exception_table);
    mret tt.

(** The bytes at %gs:4, the half word at %gs:6 and the byte at %gs:5. *)
Definition exception_vector : M Z := gets (λ s, Z.land (gs_exception s) 0xff).
Definition exception_error_code : M Z := gets (λ s, Z.land (Z.shiftr (gs_exception s) 16) 0xffff).
Definition exception_rflags_rf : M bool :=
  gets (λ s, negb (Z.land (Z.land (Z.shiftr (gs_exception s) 8) 0xff) 1 =? 0)).

Definition set_intr_alt_stack (e addr : Z) : M unit := set_idt_entry e addr 0;; upd_idt e (setf Idt.ist 1).
Definition setup_alt_stack : M unit := modify (set_ist1 (u64 (intr_alt_stack im + 4096))).

(** Running code that raises exceptions: the processor goes through the IDT to
    [do_handle_exception] and returns to the RIP it leaves, which may be the code
    that calls [longjmp]. *)
Fixpoint run {A} (p : prog A) : M (A + jump) :=
  match p with
  | Ret a => mret (inl a)
  | Raise regs k =>
    regs ← do_handle_exception regs;
    if rip regs =? sym_exception_handler_longjmp im
    then b ← gets exception_jmpbuf; mret (inr (Jump_exception b))
    else if rip regs =? sym_restore_exec_to_jmpbuf im then mret (inr Jump_jmpbuf)
    else run (k regs)
  end.

(** [jmpbuf] is the address of the local variable.  A jump to another buffer, whose
    function is not running, is undefined. *)
Definition test_for_exception (ex : Z) (trigger_func : prog unit) (jmpbuf : Z) : M bool :=
  old ← handle_exception (u8 ex) (Some exception_handler);
  modify (set_jmpbuf jmpbuf);;
  r ← run trigger_func;
  ret ← match r with
        | inl _ => mret false
        | inr (Jump_exception b) => if b =? jmpbuf then mret true else lift Fault
        | inr Jump_jmpbuf => lift Fault
        end;
  _ ← handle_exception (u8 ex) old;
  mret ret.

(** usermode.c: the assembly calls [func] in user mode; [func] is the program
    it runs.  0x20 is [RET_TO_KERNEL_IRQ]. *)
Definition run_in_user (func : prog Z) (fault_vector : Z) : M (Z * bool) :=
  set_idt_entry 0x20 (sym_ret_to_kernel im) 3;;
  _ ← handle_exception (u8 fault_vector) (Some restore_exec_to_jmpbuf_exception_handler);
  r ← run func;
  match r with
  | inl rax => mret (rax, false)
  | inr Jump_jmpbuf => mret (0, true)
  | inr (Jump_exception _) => lift Fault
  end.

(** fault_test.c; the argument's [retval] and callback are those of
    [struct fault_test_arg]. *)
Definition fault_test (usermode : bool) (fault_vector : Z) (should_fault : bool) (func : prog Z)
    (callback : option (Z → bool)) : M (bool * option Z) :=
  '(val, raised_vector) ←
    (if usermode then run_in_user func fault_vector
     else
       _ ← handle_exception (u8 fault_vector) (Some fault_test_fault);
       r ← run func;
       match r with
       | inl val => mret (val, false)
       | inr Jump_jmpbuf => mret (0, true)
       | inr (Jump_exception _) => lift Fault
       end);
  let callback_success :=
    if raised_vector : bool then true else match callback with Some f => f val | None => true end in
  let retval := if raised_vector : bool then None else Some val in
  mret (if should_fault then raised_vector else negb raised_vector && callback_success, retval).
End code.

(** ** Proofs *)
Section proofs.
Context (im : image).
Implicit Types s : desc.

Lemma addr_split a :
  Z.lor (Z.lor (a mod 2 ^ 16) (Z.shiftl (Z.shiftr a 16 mod 2 ^ 16) 16)) (Z.shiftl (Z.shiftr a 32 mod 2 ^ 32) 32) =
  a mod 2 ^ 64.
Proof. zbits; repeat zbits_step; rewrite ?orb_false_r; try done; f_equal; lia. Qed.

Lemma gate_fields addr dpl :
  let e := gate im addr dpl in
  get_idt_addr e = addr mod 2 ^ 64 ∧ getf Idt.selector e = read_cs im mod 2 ^ 16 ∧ getf Idt.ist e = 0 ∧
  getf Idt.type e = 14 ∧ getf Idt.dpl e = dpl mod 2 ^ 2 ∧ getf Idt.p e = 1 ∧ getf Idt.reserved e = 0 ∧
  0 ≤ e < 2 ^ 128.
Proof.
  cbv zeta. unfold get_idt_addr, gate. cbv zeta. bf_simpl. cbn [f_len Idt.offset0 Idt.offset1 Idt.offset2 Idt.selector Idt.dpl].
  rewrite addr_split. split; [done|]. do 6 (split; [done|]).
  repeat (apply setf_range; [by split|by vm_compute|]). by vm_compute.
Qed.

Lemma upd_idt_ok vec f e s :
  0 ≤ vec → boot_idt s !! Z.to_nat vec = Some e →
  upd_idt vec f s = Done (tt, set_boot_idt (<[Z.to_nat vec := f e]> (boot_idt s)) s).
Proof.
  intros Hv He. pose proof (lookup_lt_Some _ _ _ He). unfold upd_idt. rewrite bind_gets.
  rewrite (arr_get_ok _ _ e), bind_lift_Done, arr_set_ok, bind_lift_Done by (done || lia). done.
Qed.

Lemma set_idt_entry_ok vec addr dpl s :
  0 ≤ vec < Z.of_nat (length (boot_idt s)) →
  set_idt_entry im vec addr dpl s =
    Done (tt, set_boot_idt (<[Z.to_nat vec := gate im addr dpl]> (boot_idt s)) s).
Proof.
  intros Hv. destruct (lookup_lt_is_Some_2 (boot_idt s) (Z.to_nat vec)) as [e He]; [lia|].
  unfold set_idt_entry. by rewrite (upd_idt_ok _ _ e) by (done || lia).
Qed.

(** *** The table of handlers *)
Lemma handle_exception_ok v fn s old :
  0 ≤ v < 32 → length (exception_handlers s) = 32%nat → exception_handlers s !! Z.to_nat v = Some old →
  handle_exception v fn s = Done (old, set_handlers (<[Z.to_nat v := fn]> (exception_handlers s)) s).
Proof.
  intros Hv Hl Ho. unfold handle_exception. rewrite bind_gets, (arr_get_ok _ _ old), bind_lift_Done by (done || lia).
  unfold when. rewrite (proj2 (Z.ltb_lt v 32)) by lia. mrun.
  rewrite arr_set_ok by lia. rewrite bind_lift_Done. by mrun.
Qed.

(** A vector that is no exception's is read behind the table. *)
Lemma handle_exception_fault v fn s :
  32 ≤ v → length (exception_handlers s) = 32%nat → handle_exception v fn s = Fault.
Proof.
  intros Hv Hl. unfold handle_exception. rewrite bind_gets. unfold arr_get.
  rewrite (proj2 (Z.leb_le 0 v)), lookup_ge_None_2 by lia. done.
Qed.

Lemma unhandled_ok regs b s :
  Stack.walking (d_stk s) = false → length (frame_junk im) = 20%nat →
  unhandled_exception im regs b s = Abort.
Proof.
  intros Hw Hl. unfold unhandled_exception, when, printf.
  erewrite stM_bind_Done; [|done].
  destruct (vector regs =? 14).
  all: erewrite stM_bind_Done; [|done]; erewrite stM_bind_Done; [|done].
  all: match goal with |- (_ ≫= _) ?t = _ =>
    destruct (Stack.dump_frame_stack_ok (stack_mem im) (rip regs) (rbp regs) (frame_junk im) (d_stk t) Hw Hl)
      as (l & _ & E) end.
  all: by erewrite bind_zoom; [|exact E].
Qed.

(** What a handler registered in [check_exception_table] sees of the last exception. *)
Lemma ex_val_fields regs :
  0 ≤ vector regs < 2 ^ 8 →
  Z.land (ex_val regs) 0xff = vector regs ∧
  Z.land (Z.shiftr (ex_val regs) 16) 0xffff = error_code regs mod 2 ^ 16 ∧
  Z.testbit (ex_val regs) 8 = Z.testbit (rflags regs) 16.
Proof.
  intros Hv. change 0xff with (Z.ones 8). change 0xffff with (Z.ones 16). unfold ex_val, u32, u64.
  assert (∀ i, 8 ≤ i → Z.testbit (vector regs) i = false) as Hb by (intros; by apply (testbit_above 8)).
  split; [|split].
  - rewrite <- (Z.mod_small (vector regs) (2 ^ 8)) at 2 by lia. change 1 with (2 ^ 0). zbits; repeat zbits_step; try done.
    all: rewrite ?andb_false_r, ?orb_false_r; done.
  - change 1 with (2 ^ 0). zbits. rewrite Hb by lia. cbn. repeat zbits_step. zbits_cmp. rewrite ?andb_false_r, ?orb_false_r. f_equal; lia.
  - repeat zbits_step. zbits_cmp. rewrite Hb by lia. cbn. by rewrite andb_true_r.
Qed.
(** *** [setup_idt] *)
Definition has_entry (i : Z) : bool :=
  bool_decide (i ∈ [0; 1; 2; 3; 4; 5; 6; 7; 8; 10; 11; 12; 13; 14; 16; 17; 18; 19]).
(** The IDT when the entries below [n] have been set. *)
Definition idt_upto (n : Z) (idt idt' : list Z) : Prop :=
  length idt' = length idt ∧
  ∀ k : nat, idt' !! k = if (Z.of_nat k <? n) && has_entry (Z.of_nat k)
                          then Some (gate im (fault_entry im (Z.of_nat k)) 0) else idt !! k.

Lemma idt_loop_ok s :
  length (boot_idt s) = 256%nat →
  ∃ idt', for_up 32 0 (λ i, match idt_handlers im i with Some a => set_idt_entry im i a 0 | None => mret tt end) s =
      Done (tt, set_boot_idt idt' s) ∧ idt_upto 32 (boot_idt s) idt'.
Proof.
  intros Hl.
  destruct (for_up_rule (λ i t, ∃ idt', t = set_boot_idt idt' s ∧ idt_upto i (boot_idt s) idt')
    (λ i, match idt_handlers im i with Some a => set_idt_entry im i a 0 | None => mret tt end) 32 0 s)
    as (t & E & idt' & -> & H).
  - exists (boot_idt s). split; [by destruct s|]. split; [done|]. intros k. by rewrite (proj2 (Z.ltb_ge _ 0)) by lia.
  - intros i t Hi (idt & -> & Hlen & Hk). unfold idt_handlers. fold (has_entry i). destruct (has_entry i) eqn:He.
    + rewrite set_idt_entry_ok by (cbn; lia). eexists. split; [done|]. eexists. split; [done|].
      cbn [boot_idt set_boot_idt]. split; [by rewrite length_insert|]. intros k.
      destruct (decide (k = Z.to_nat i)) as [->|Hne].
      * rewrite list_lookup_insert_eq by lia. rewrite Z2Nat.id, He by lia. by rewrite (proj2 (Z.ltb_lt _ _)) by lia.
      * rewrite list_lookup_insert_ne, Hk by lia.
        by replace (Z.of_nat k <? i + 1) with (Z.of_nat k <? i)
          by (destruct (Z.ltb_spec (Z.of_nat k) i), (Z.ltb_spec (Z.of_nat k) (i + 1)); lia).
    + eexists. split; [done|]. eexists. split; [done|]. split; [done|]. intros k. rewrite Hk.
      destruct (decide (Z.of_nat k = i)) as [->|Hne]; [by rewrite He, !andb_false_r|].
      by replace (Z.of_nat k <? i + 1) with (Z.of_nat k <? i)
        by (destruct (Z.ltb_spec (Z.of_nat k) i), (Z.ltb_spec (Z.of_nat k) (i + 1)); lia).
  - exists idt'. by split.
Qed.

Definition with_tables (hs : list (option handler)) : list (option handler) :=
  <[13%nat := Some check_exception_table]> (<[6%nat := Some check_exception_table]>
    (<[0%nat := Some check_exception_table]> hs)).

Lemma setup_idt_ok s :
  length (boot_idt s) = 256%nat → length (exception_handlers s) = 32%nat → idt_initialized s = false →
  ∃ idt', setup_idt im s = Done (tt, set_handlers (with_tables (exception_handlers s))
                                       (set_boot_idt idt' (set_idt_initialized true s))) ∧
    idt_upto 32 (boot_idt s) idt'.
Proof.
  intros Hl Hh Hi. destruct (idt_loop_ok (set_idt_initialized true s) Hl) as (idt' & E & H).
  exists idt'. split; [|done]. unfold setup_idt. rewrite bind_gets, Hi, bind_modify.
  rewrite (stM_bind_Done _ _ _ _ _ E).
  assert (∀ (hs : list (option handler)) v, length hs = 32%nat → (v < 32)%nat → ∃ o, hs !! v = Some o) as Hin.
  { intros hs v Hlen Hv. destruct (lookup_lt_is_Some_2 hs v) as [o ?]; [lia|by exists o]. }
  destruct (Hin (exception_handlers s) 0%nat) as [o0 E0]; [done|lia|].
  rewrite (stM_bind_Done _ _ _ _ _ (handle_exception_ok 0 _ (set_boot_idt idt' (set_idt_initialized true s)) o0 ltac:(lia) Hh E0)).
  set (h1 := <[Z.to_nat 0 := _]> _). assert (length h1 = 32%nat) as Hl1 by (unfold h1; by rewrite length_insert).
  destruct (Hin h1 6%nat) as [o6 E6]; [done|lia|].
  match goal with |- (_ ≫= _) ?t = _ => rewrite (stM_bind_Done _ _ _ _ _ (handle_exception_ok 6 _ t o6 ltac:(lia) Hl1 E6)) end.
  set (h2 := <[Z.to_nat 6 := _]> _). assert (length h2 = 32%nat) as Hl2 by (unfold h2; rewrite length_insert; exact Hl1).
  destruct (Hin h2 13%nat) as [o13 E13]; [done|lia|].
  match goal with |- (_ ≫= _) ?t = _ => rewrite (stM_bind_Done _ _ _ _ _ (handle_exception_ok 13 _ t o13 ltac:(lia) Hl2 E13)) end.
  reflexivity.
Qed.

(** *** The state's invariant *)
(** The entry is 128 bits, and a present one for the interrupt gate. *)
Definition entry_sized (e : Z) : Prop := 0 ≤ e < 2 ^ 128.
Definition entry_gate (e : Z) : Prop := getf Idt.p e = 1 ∧ getf Idt.type e = 14.

Record desc_ok s : Prop := {
  dk_idt : length (boot_idt s) = 256%nat;
  dk_entries : Forall entry_sized (boot_idt s);
  dk_gates : idt_initialized s = true →
    ∀ k e, has_entry (Z.of_nat k) = true → boot_idt s !! k = Some e → entry_gate e;
  dk_handlers : length (exception_handlers s) = 32%nat;
  dk_gs : 0 ≤ gs_exception s < 2 ^ 32;
  dk_ist1 : in_u64 (ist1 s);
  dk_walking : Stack.walking (d_stk s) = false
}.

(** The operations. *)
Inductive op : Type :=
| Op_set_idt_entry (vec addr dpl : Z) | Op_set_idt_dpl (vec dpl : Z) | Op_set_idt_sel (vec sel : Z)
| Op_set_intr_alt_stack (e addr : Z) | Op_setup_alt_stack
| Op_handle_exception (v : Z) (fn : option handler) | Op_do_handle_exception (regs : ex_regs)
| Op_setup_idt.
Definition run_op (o : op) : stM desc unit :=
  match o with
  | Op_set_idt_entry vec addr dpl => set_idt_entry im vec addr dpl
  | Op_set_idt_dpl vec dpl => set_idt_dpl vec dpl
  | Op_set_idt_sel vec sel => set_idt_sel vec sel
  | Op_set_intr_alt_stack e addr => set_intr_alt_stack im e addr
  | Op_setup_alt_stack => setup_alt_stack im
  | Op_handle_exception v fn => _ ← handle_exception v fn; mret tt
  | Op_do_handle_exception regs => _ ← do_handle_exception im regs; mret tt
  | Op_setup_idt => setup_idt im
  end.
(** Vectors of the IDT, and of exceptions. *)
Definition op_ok (o : op) : Prop :=
  match o with
  | Op_set_idt_entry vec _ _ | Op_set_idt_dpl vec _ | Op_set_idt_sel vec _ | Op_set_intr_alt_stack vec _ => 0 ≤ vec < 256
  | Op_handle_exception v _ => 0 ≤ v < 32
  | Op_do_handle_exception regs => 0 ≤ vector regs
  | Op_setup_alt_stack | Op_setup_idt => True
  end.

Lemma gate_ok addr dpl : entry_sized (gate im addr dpl) ∧ entry_gate (gate im addr dpl).
Proof. pose proof (gate_fields addr dpl) as (_ & _ & _ & Ht & _ & Hp & _ & Hr). by split. Qed.

(** Storing an entry that is no worse than the old one. *)
Lemma desc_ok_entry s vec e e' :
  desc_ok s → boot_idt s !! vec = Some e → entry_sized e' → (entry_gate e → entry_gate e') →
  desc_ok (set_boot_idt (<[vec := e']> (boot_idt s)) s).
Proof.
  intros [] He Hs Hg. split; try done; cbn [boot_idt set_boot_idt].
  - by rewrite length_insert.
  - by apply Forall_insert.
  - intros Hi k x Hk Hx. apply list_lookup_insert_Some in Hx as [(<- & <- & _)|[_ Hx]]; eauto.
Qed.

Lemma desc_ok_upd vec f s :
  desc_ok s → 0 ≤ vec < 256 → (∀ e, entry_sized e → entry_sized (f e)) → (∀ e, entry_gate e → entry_gate (f e)) →
  ∃ s', upd_idt vec f s = Done (tt, s') ∧ desc_ok s'.
Proof.
  intros Hok Hv Hs Hg. pose proof (dk_idt _ Hok) as Hl.
  destruct (lookup_lt_is_Some_2 (boot_idt s) (Z.to_nat vec)) as [e He]; [lia|].
  eexists. split; [apply (upd_idt_ok _ _ e); [lia|done]|]. eapply desc_ok_entry; eauto.
  apply Hs. by apply (Forall_lookup_1 _ _ _ _ (dk_entries _ Hok) He).
Qed.

Lemma desc_ok_set vec addr dpl s :
  desc_ok s → 0 ≤ vec < 256 → ∃ s', set_idt_entry im vec addr dpl s = Done (tt, s') ∧ desc_ok s'.
Proof. intros Hok Hv. apply desc_ok_upd; [done|done|intros; apply gate_ok..]. Qed.

Lemma desc_ok_handlers s hs : desc_ok s → length hs = 32%nat → desc_ok (set_handlers hs s).
Proof. intros [] ?. by split. Qed.

Lemma run_handler_ok h regs s :
  desc_ok s → length (frame_junk im) = 20%nat →
  run_handler im h regs s = Abort ∨ ∃ regs' s', run_handler im h regs s = Done (regs', s') ∧ desc_ok s'.
Proof.
  intros Hok Hj. destruct h; cbn [run_handler].
  - rewrite bind_modify.
    assert (desc_ok (set_gs_exception (ex_val regs) s)) as Hok'.
    { destruct Hok. split; try done. apply u32_range. }
    destruct (find_ex (exception_table im) (rip regs)); [by right; eauto|]. left.
    unfold mbind, stM_bind. rewrite unhandled_ok; [done|by apply dk_walking|done].
  - right. do 2 eexists. split; [done|]. by destruct Hok.
  - right. by do 2 eexists.
  - right. by do 2 eexists.
Qed.

Lemma do_handle_exception_cases regs s h :
  length (frame_junk im) = 20%nat → Stack.walking (d_stk s) = false → 0 ≤ vector regs →
  (if vector regs <? 32 then exception_handlers s !! Z.to_nat (vector regs) = Some h else h = None) →
  do_handle_exception im regs s = match h with Some h => run_handler im h regs s | None => Abort end.
Proof.
  intros Hj Hw Hv Hh. unfold do_handle_exception. rewrite bind_gets.
  assert ((if vector regs <? 32 then lift (arr_get (exception_handlers s) (vector regs)) else mret None) s = Done (h, s)) as E.
  { destruct (vector regs <? 32); [|by rewrite Hh]. unfold lift. by rewrite (arr_get_ok _ _ h). }
  rewrite (stM_bind_Done _ _ _ _ _ E). destruct h; [done|].
  unfold mbind, stM_bind. by rewrite unhandled_ok.
Qed.

Lemma desc_ok_handle_exception v fn s :
  desc_ok s → 0 ≤ v < 32 → ∃ old s', handle_exception v fn s = Done (old, s') ∧ desc_ok s'.
Proof.
  intros Hok Hv. pose proof (dk_handlers _ Hok) as Hl.
  destruct (lookup_lt_is_Some_2 (exception_handlers s) (Z.to_nat v)) as [old Ho]; [lia|].
  do 2 eexists. split; [by apply (handle_exception_ok v fn s old)|]. apply desc_ok_handlers; [done|]. by rewrite length_insert.
Qed.

Lemma desc_ok_setup_idt s : desc_ok s → ∃ s', setup_idt im s = Done (tt, s') ∧ desc_ok s'.
Proof.
  intros Hok. destruct (idt_initialized s) eqn:Hi.
  { exists s. unfold setup_idt. by rewrite bind_gets, Hi. }
  destruct (setup_idt_ok s) as (idt' & E & Hlen & Hk); [by destruct Hok..|done|].
  eexists. split; [exact E|]. destruct Hok as [Hl He Hg Hh Hgs His Hw]. split; try done; cbn.
  - lia.
  - apply Forall_lookup_2. intros k e Hke. rewrite Hk in Hke.
    destruct ((Z.of_nat k <? 32) && has_entry (Z.of_nat k)); [simplify_eq; apply gate_ok|].
    by apply (Forall_lookup_1 _ _ _ _ He Hke).
  - intros _ k e Hent Hke. rewrite Hk, Hent, andb_true_r in Hke.
    assert (Z.of_nat k <? 32 = true) as Hlt.
    { unfold has_entry in Hent. apply bool_decide_eq_true in Hent. apply Z.ltb_lt.
      repeat (apply elem_of_cons in Hent as [Hent|Hent]; [lia|]). by apply elem_of_nil in Hent. }
    rewrite Hlt in Hke. simplify_eq. apply gate_ok.
  - unfold with_tables. by rewrite !length_insert.
Qed.

Lemma setf_sized f v e : field_ok f → f_lo f + f_len f ≤ 128 → entry_sized e → entry_sized (setf f v e).
Proof. intros. by apply setf_range. Qed.
Lemma setf_gate f v e :
  field_ok f → apart Idt.p f → apart Idt.type f → entry_gate e → entry_gate (setf f v e).
Proof. intros ??? []. split; (rewrite getf_setf_ne; [done|by split|done|done]). Qed.

Lemma desc_ok_setf f v vec s :
  desc_ok s → 0 ≤ vec < 256 → field_ok f → f_lo f + f_len f ≤ 128 → apart Idt.p f → apart Idt.type f →
  ∃ s', upd_idt vec (setf f v) s = Done (tt, s') ∧ desc_ok s'.
Proof. intros. apply desc_ok_upd; auto using setf_sized, setf_gate. Qed.

Lemma run_op_ok o s :
  length (frame_junk im) = 20%nat → op_ok o → desc_ok s →
  run_op o s = Abort ∨ ∃ s', run_op o s = Done (tt, s') ∧ desc_ok s'.
Proof.
  intros Hj Ho Hok. destruct o; cbn [run_op op_ok] in *.
  - right. by apply desc_ok_set.
  - right. apply desc_ok_setf; field_side || done.
  - right. apply desc_ok_setf; field_side || done.
  - right. destruct (desc_ok_set e addr 0 s Hok Ho) as (s1 & E1 & Hok1).
    destruct (desc_ok_setf Idt.ist 1 e s1 Hok1 Ho) as (s2 & E2 & Hok2); [field_side..|].
    exists s2. unfold set_intr_alt_stack. by rewrite (stM_bind_Done _ _ _ _ _ E1).
  - right. eexists. split; [done|]. destruct Hok. split; try done. apply u64_range.
  - right. destruct (desc_ok_handle_exception v fn s Hok Ho) as (old & s' & E & Hok').
    exists s'. by rewrite (stM_bind_Done _ _ _ _ _ E).
  - assert (∃ h, if vector regs <? 32 then exception_handlers s !! Z.to_nat (vector regs) = Some h else h = None) as [h Hh].
    { destruct (Z.ltb_spec (vector regs) 32); [|by exists None].
      pose proof (dk_handlers _ Hok). apply lookup_lt_is_Some_2. lia. }
    pose proof (do_handle_exception_cases regs s h Hj (dk_walking _ Hok) Ho Hh) as E. destruct h as [h|].
    + destruct (run_handler_ok h regs s Hok Hj) as [Ea|(r & s' & Er & Hok')].
      * left. unfold mbind, stM_bind. by rewrite E, Ea.
      * right. exists s'. by rewrite (stM_bind_Done _ _ _ r s' (eq_trans E Er)).
    + left. unfold mbind, stM_bind. by rewrite E.
  - right. by apply desc_ok_setup_idt.
Qed.

(** *** Running code that raises exceptions *)
(** The vectors are not negative. *)
Fixpoint vectors_ok {A} (p : prog A) : Prop :=
  match p with Ret _ => True | Raise r k => 0 ≤ vector r ∧ ∀ r', vectors_ok (k r') end.

(** What [test_for_exception] promises: whether the code raises [ex] before it
    ends, where an exception of another vector continues at the fixup of the
    exception table, and [None] when there is no handler or no fixup for it. *)
Fixpoint raises {A} (ex : Z) (hs : list (option handler)) (p : prog A) : option bool :=
  match p with
  | Ret _ => Some false
  | Raise r k =>
    if vector r =? ex then Some true
    else
      match (if vector r <? 32 then mjoin (hs !! Z.to_nat (vector r)) else None), find_ex (exception_table im) (rip r) with
      | Some _, Some fixup => raises ex hs (k (set_rip fixup r))
      | _, _ => None
      end
  end.

(** Fixups are not the two functions that call [longjmp]. *)
Definition table_ok : Prop := ∀ ip h, find_ex (exception_table im) ip = Some h →
  h ≠ sym_exception_handler_longjmp im ∧ h ≠ sym_restore_exec_to_jmpbuf im.
(** Every handler but the one of [ex] is [check_exception_table]. *)
Definition only_tables (ex : Z) (hs : list (option handler)) : Prop :=
  ∀ v h, v ≠ Z.to_nat ex → hs !! v = Some (Some h) → h = check_exception_table.

Lemma run_raises {A} (ex : Z) (p : prog A) s hs :
  table_ok → length (frame_junk im) = 20%nat → 0 ≤ ex < 32 → vectors_ok p → length hs = 32%nat → only_tables ex hs →
  exception_handlers s = <[Z.to_nat ex := Some exception_handler]> hs → Stack.walking (d_stk s) = false →
  match raises ex hs p with
  | Some b => ∃ r s', run im p s = Done (r, s') ∧ exception_handlers s' = exception_handlers s ∧
      exception_jmpbuf s' = exception_jmpbuf s ∧ boot_idt s' = boot_idt s ∧
      if b then r = inr (Jump_exception (exception_jmpbuf s)) else ∃ a, r = inl a
  | None => run im p s = Abort
  end.
Proof.
  intros Ht Hj Hex Hv Hl Ho. revert s Hv. induction p as [a|r k IH]; intros s Hv Hs Hw; cbn [raises run].
  { exists (inl a), s. split_and!; try done. by exists a. }
  destruct Hv as [Hv Hk].
  destruct (Z.eqb_spec (vector r) ex) as [E|Hne].
  - rewrite (stM_bind_Done _ _ s (set_cs (read_cs im) (set_rip (sym_exception_handler_longjmp im) r)) (set_exception true s)).
    2:{ rewrite (do_handle_exception_cases r s (Some exception_handler) Hj Hw Hv); [done|].
        rewrite E, (proj2 (Z.ltb_lt ex 32)), Hs by lia. apply list_lookup_insert_eq. lia. }
    cbn [rip set_cs set_rip]. rewrite Z.eqb_refl. do 2 eexists. split; [done|]. by split_and!.
  - assert (vector r < 32 → exception_handlers s !! Z.to_nat (vector r) = hs !! Z.to_nat (vector r)) as Hsame.
    { intros. rewrite Hs. apply list_lookup_insert_ne. lia. }
    assert (∀ h, (if vector r <? 32 then exception_handlers s !! Z.to_nat (vector r) = Some h else h = None) →
      do_handle_exception im r s = match h with Some h => run_handler im h r s | None => Abort end) as Hdo
      by (intros; by apply do_handle_exception_cases).
    destruct (Z.ltb_spec (vector r) 32) as [Hlt|Hge].
    2:{ unfold mbind, stM_bind. by rewrite (Hdo None). }
    destruct (lookup_lt_is_Some_2 hs (Z.to_nat (vector r))) as [h Hh]; [lia|].
    specialize (Hdo h ltac:(by rewrite Hsame)). rewrite Hh. cbn [mjoin option_join].
    destruct h as [h|]; [|unfold mbind, stM_bind; by rewrite Hdo].
    assert (h = check_exception_table) as -> by (apply (Ho (Z.to_nat (vector r))); [lia|done]).
    cbn [run_handler] in Hdo. rewrite bind_modify in Hdo.
    destruct (find_ex (exception_table im) (rip r)) as [fix_|] eqn:Hf.
    + rewrite (stM_bind_Done _ _ _ _ _ Hdo). cbn [rip set_rip]. destruct (Ht _ _ Hf) as [N1 N2].
      rewrite (proj2 (Z.eqb_neq _ _) N1), (proj2 (Z.eqb_neq _ _) N2).
      exact (IH _ (set_gs_exception (ex_val r) s) (Hk _) Hs Hw).
    + unfold mbind, stM_bind in Hdo |- *. rewrite Hdo, unhandled_ok by done. done.
Qed.

Lemma test_for_exception_ok ex p jmpbuf s :
  table_ok → length (frame_junk im) = 20%nat → 0 ≤ ex < 32 → vectors_ok p →
  length (exception_handlers s) = 32%nat → only_tables ex (exception_handlers s) → Stack.walking (d_stk s) = false →
  match raises ex (exception_handlers s) p with
  | Some b => ∃ s', test_for_exception im ex p jmpbuf s = Done (b, s') ∧
      exception_handlers s' = exception_handlers s ∧ boot_idt s' = boot_idt s
  | None => test_for_exception im ex p jmpbuf s = Abort
  end.
Proof.
  intros Ht Hj Hex Hv Hl Ho Hw.
  destruct (lookup_lt_is_Some_2 (exception_handlers s) (Z.to_nat ex)) as [old Hold]; [lia|].
  set (hs := exception_handlers s) in *. set (hs' := <[Z.to_nat ex := Some exception_handler]> hs).
  set (s1 := set_jmpbuf jmpbuf (set_handlers hs' s)).
  pose proof (run_raises ex p s1 hs Ht Hj Hex Hv Hl Ho eq_refl Hw) as Hrun.
  assert (test_for_exception im ex p jmpbuf s =
    (r ← run im p;
     ret ← match r with
           | inl _ => mret false
           | inr (Jump_exception b) => if b =? jmpbuf then mret true else lift Fault
           | inr Jump_jmpbuf => lift Fault
           end;
     _ ← handle_exception ex old; mret ret) s1) as ->.
  { unfold test_for_exception. rewrite u8_small by lia.
    by rewrite (stM_bind_Done _ _ _ _ _ (handle_exception_ok ex _ s old Hex Hl Hold)), bind_modify. }
  destruct (raises ex hs p) as [b|]; [|unfold mbind, stM_bind; by rewrite Hrun].
  destruct Hrun as (r & s2 & E & Hh2 & Hj2 & Hi2 & Hb).
  assert (exception_handlers s2 = hs') as Hhs2 by (by rewrite Hh2).
  assert (handle_exception ex old s2 = Done (Some exception_handler, set_handlers hs s2)) as E2.
  { rewrite (handle_exception_ok ex old s2 (Some exception_handler) Hex).
    - rewrite Hhs2. unfold hs'. rewrite list_insert_insert_eq. by rewrite list_insert_id.
    - rewrite Hhs2. unfold hs'. by rewrite length_insert.
    - rewrite Hhs2. apply list_lookup_insert_eq. lia. }
  exists (set_handlers hs s2). split; [|by split].
  rewrite (stM_bind_Done _ _ _ _ _ E). destruct b.
  - rewrite Hb. cbn [exception_jmpbuf s1 set_jmpbuf]. rewrite Z.eqb_refl, bind_mret.
    by rewrite (stM_bind_Done _ _ _ _ _ E2).
  - destruct Hb as [a ->]. rewrite bind_mret. by rewrite (stM_bind_Done _ _ _ _ _ E2).
Qed.
End proofs.

(** ** The properties *)
Section claims.
Context (im : image).
Implicit Types s : desc.

(** [set_idt_entry] writes one entry of the IDT: a present interrupt gate for the
    code segment from which [get_idt_addr] reads back the address, any 64-bit one. *)
Theorem set_idt_entry_correct vec addr dpl s :
  0 ≤ vec < Z.of_nat (length (boot_idt s)) → in_u64 addr →
  ∃ e, set_idt_entry im vec addr dpl s = Done (tt, set_boot_idt (<[Z.to_nat vec := e]> (boot_idt s)) s) ∧
    get_idt_addr e = addr ∧ getf Idt.selector e = u16 (read_cs im) ∧ getf Idt.ist e = 0 ∧
    getf Idt.type e = 14 ∧ getf Idt.dpl e = dpl mod 4 ∧ getf Idt.p e = 1 ∧ getf Idt.reserved e = 0 ∧
    0 ≤ e < 2 ^ 128.
Proof.
  intros Hv Ha. exists (gate im addr dpl). split; [by apply set_idt_entry_ok|].
  destruct (gate_fields im addr dpl) as (E & H). split; [|exact H]. rewrite E. by apply Z.mod_small.
Qed.


(** The first [setup_idt] gives each of the eighteen exceptions the gate to its entry
    point, leaves every other entry of the IDT as it was, and registers
    [check_exception_table] for #DE, #UD and #GP; a second one changes nothing. *)
Theorem setup_idt_correct s :
  length (boot_idt s) = 256%nat → length (exception_handlers s) = 32%nat → idt_initialized s = false →
  ∃ s', setup_idt im s = Done (tt, s') ∧
    (∀ k : nat, (k < 256)%nat → boot_idt s' !! k =
      if has_entry (Z.of_nat k) then Some (gate im (fault_entry im (Z.of_nat k)) 0) else boot_idt s !! k) ∧
    (∀ k : nat, (k < 32)%nat → exception_handlers s' !! k =
      if bool_decide (k ∈ [0; 6; 13]%nat) then Some (Some check_exception_table) else exception_handlers s !! k) ∧
    setup_idt im s' = Done (tt, s').
Proof.
  intros Hl Hh Hi. destruct (setup_idt_ok im s Hl Hh Hi) as (idt' & E & _ & Hk).
  eexists. split; [exact E|]. split; [|split; [|done]].
  - intros k _. cbn. rewrite Hk. destruct (has_entry (Z.of_nat k)) eqn:He; [|by rewrite andb_false_r].
    rewrite andb_true_r. unfold has_entry in He. apply bool_decide_eq_true in He.
    assert (Z.of_nat k < 32); [|by rewrite (proj2 (Z.ltb_lt _ _))].
    repeat (apply elem_of_cons in He as [He|He]; [lia|]). by apply elem_of_nil in He.
  - intros k Hk'. cbn. unfold with_tables.
    destruct (decide (k = 13%nat)) as [->|]; [by rewrite list_lookup_insert_eq by (rewrite !length_insert; lia)|].
    rewrite list_lookup_insert_ne by done.
    destruct (decide (k = 6%nat)) as [->|]; [by rewrite list_lookup_insert_eq by (rewrite !length_insert; lia)|].
    rewrite list_lookup_insert_ne by done.
    destruct (decide (k = 0%nat)) as [->|]; [by rewrite list_lookup_insert_eq by lia|].
    rewrite list_lookup_insert_ne by done.
    rewrite bool_decide_eq_false_2; [done|]. intros Hin.
    repeat (apply elem_of_cons in Hin as [Hin|Hin]; [done|]). by apply elem_of_nil in Hin.
Qed.

(** C32: The dispatch.  An exception nobody has registered a handler for ends in abort.
    [check_exception_table] leaves the vector, the error code and RFLAGS.RF where
    [exception_vector] and its relatives find them and continues at the fixup of
    the first record for the faulting RIP; without a record it ends in abort. *)
Theorem do_handle_exception_correct regs s :
  length (frame_junk im) = 20%nat → length (exception_handlers s) = 32%nat →
  Stack.walking (d_stk s) = false → 0 ≤ vector regs < 256 →
  match mjoin (exception_handlers s !! Z.to_nat (vector regs)) with
  | None => do_handle_exception im regs s = Abort
  | Some check_exception_table =>
    match find_ex (exception_table im) (rip regs) with
    | None => do_handle_exception im regs s = Abort
    | Some fixup => ∃ s', do_handle_exception im regs s = Done (set_rip fixup regs, s') ∧
        exception_vector s' = Done (vector regs, s') ∧
        exception_error_code s' = Done (u16 (error_code regs), s') ∧
        exception_rflags_rf s' = Done (Z.testbit (rflags regs) 16, s')
    end
  | Some exception_handler => do_handle_exception im regs s =
      Done (set_cs (read_cs im) (set_rip (sym_exception_handler_longjmp im) regs), set_exception true s)
  | Some fault_test_fault => do_handle_exception im regs s =
      Done (set_rip (sym_restore_exec_to_jmpbuf im) regs, s)
  | Some restore_exec_to_jmpbuf_exception_handler => do_handle_exception im regs s =
      Done (set_cs 0x08 (set_rip (sym_restore_exec_to_jmpbuf im) regs), s)
  end.
Proof.
  intros Hj Hl Hw Hv. pose proof (do_handle_exception_cases im regs s) as Hc.
  destruct (Z.ltb_spec (vector regs) 32) as [Hlt|Hge].
  2:{ rewrite lookup_ge_None_2 by lia. cbn. apply (Hc None); try done. lia. }
  destruct (lookup_lt_is_Some_2 (exception_handlers s) (Z.to_nat (vector regs))) as [h Hh]; [lia|].
  specialize (Hc h Hj Hw ltac:(lia) Hh). rewrite Hh. cbn [mjoin option_join].
  destruct h as [[]|]; [|exact Hc..]. cbn [run_handler] in Hc. rewrite bind_modify in Hc.
  destruct (find_ex (exception_table im) (rip regs)) as [fixup|].
  - eexists. split; [exact Hc|]. destruct (ex_val_fields regs Hv) as (E1 & E2 & E3).
    unfold exception_vector, exception_error_code, exception_rflags_rf, gets. cbn [gs_exception set_gs_exception].
    rewrite E1, E2. split; [done|]. split; [done|]. do 2 f_equal. rewrite <- E3.
    replace (Z.land (Z.land (Z.shiftr (ex_val regs) 8) 0xff) 1) with (Z.b2z (Z.testbit (ex_val regs) 8)).
    { by destruct (Z.testbit (ex_val regs) 8). }
    rewrite <- Z.land_assoc. change (Z.land 0xff 1) with (Z.ones 1).
    rewrite Z.land_ones by done. rewrite Z.testbit_spec', Z.shiftr_div_pow2 by done. done.
  - rewrite Hc. unfold mbind, stM_bind. by rewrite unhandled_ok.
Qed.

(** C30: [test_for_exception] returns whether the code raises the exception: [raises]
    follows the code through the fixups of other exceptions, and where that finds
    an unhandled one the test ends in abort.  The handler that was registered
    before is registered again. *)
Theorem test_for_exception_correct ex p jmpbuf s :
  table_ok im → length (frame_junk im) = 20%nat → 0 ≤ ex < 32 → vectors_ok p →
  length (exception_handlers s) = 32%nat → only_tables ex (exception_handlers s) → Stack.walking (d_stk s) = false →
  match raises im ex (exception_handlers s) p with
  | Some b => ∃ s', test_for_exception im ex p jmpbuf s = Done (b, s') ∧
      exception_handlers s' = exception_handlers s ∧ boot_idt s' = boot_idt s
  | None => test_for_exception im ex p jmpbuf s = Abort
  end.
Proof. apply test_for_exception_ok. Qed.
End claims.

(** ** The theorems at concrete inputs *)
Definition demo_image : image :=
  Image 0x08 (λ _, 0) (λ v, 0x400000 + 16 * v) [ExRecord 0x1000 0x1010; ExRecord 0x2000 0x2020]
    0x500000 0x500100 0x500200 0x600000 ∅ (replicate 20 0).
Definition demo_desc : desc :=
  Desc (replicate 256 0) (replicate 32 None) false 0 false 0 0 (Stack.Stk false []).
Definition demo_regs (v err ip : Z) : ex_regs :=
  ExRegs 0 0 0 0 0 0 0 0 0 0 0 0 0 0 0 0 v err ip 0x08 0x10246.

Lemma set_idt_entry_correct_witness :
  ∃ e s', set_idt_entry demo_image 0x20 0xffffffff81234567 3 demo_desc = Done (tt, s') ∧
    get_idt_addr e = 0xffffffff81234567 ∧ boot_idt s' !! 0x20%nat = Some e.
Proof.
  destruct (set_idt_entry_correct demo_image 0x20 0xffffffff81234567 3 demo_desc) as (e & E & Ha & _).
  - cbn. lia.
  - unfold in_u64. lia.
  - exists e. eexists. split; [exact E|]. by split.
Defined.

Lemma demo_desc_ok : desc_ok demo_desc.
Proof.
  split; try done.
  apply Forall_lookup_2. intros k e H. by apply lookup_replicate in H as [-> _].
Qed.


Lemma setup_idt_correct_witness :
  ∃ s', setup_idt demo_image demo_desc = Done (tt, s') ∧
    boot_idt s' !! 14%nat = Some (gate demo_image 0x4000e0 0) ∧
    exception_handlers s' !! 13%nat = Some (Some check_exception_table).
Proof.
  destruct (setup_idt_correct demo_image demo_desc) as (s' & E & H1 & H2 & _); [done..|].
  exists s'. split; [exact E|]. split; [by rewrite H1 by lia|by rewrite H2 by lia].
Defined.

(** #GP at an address of the exception table, after [setup_idt]. *)
Definition demo_handlers : desc := set_handlers (with_tables (replicate 32 None)) demo_desc.
Lemma do_handle_exception_correct_witness :
  ∃ s', do_handle_exception demo_image (demo_regs 13 0x18 0x2000) demo_handlers =
      Done (demo_regs 13 0x18 0x2020, s') ∧ exception_error_code s' = Done (0x18, s').
Proof.
  destruct (do_handle_exception_correct demo_image (demo_regs 13 0x18 0x2000) demo_handlers)
    as (s' & E & _ & Ec & _).
  - done.
  - done.
  - done.
  - cbn. lia.
  - exists s'. by split.
Defined.

Lemma demo_table_ok : table_ok demo_image.
Proof.
  intros ip h. unfold demo_image. cbn [exception_table find_ex ex_rip ex_handler].
  destruct (0x1000 =? ip); [intros [=]; subst h; split; discriminate|].
  destruct (0x2000 =? ip); [intros [=]; subst h; split; discriminate|discriminate].
Qed.

(** A #UD that is fixed up, then a #PF. *)
Definition demo_prog : prog unit := Raise (demo_regs 6 0 0x1000) (λ _, Raise (demo_regs 14 2 0x3000) (λ _, Ret tt)).
Lemma test_for_exception_correct_witness :
  ∃ s', test_for_exception demo_image 14 demo_prog 0x7000 demo_handlers = Done (true, s') ∧
    exception_handlers s' = exception_handlers demo_handlers.
Proof.
  destruct (test_for_exception_correct demo_image 14 demo_prog 0x7000 demo_handlers) as (s' & E & H & _).
  - apply demo_table_ok.
  - done.
  - lia.
  - by split; [|intros _; split].
  - done.
  - intros v h _. cbn -[replicate]. unfold with_tables. intros [(_ & [= <-] & _)|[_ H]]%list_lookup_insert_Some; [done|].
    apply list_lookup_insert_Some in H as [(_ & [= <-] & _)|[_ H]]; [done|].
    apply list_lookup_insert_Some in H as [(_ & [= <-] & _)|[_ H]]; [done|].
    by apply lookup_replicate in H as [? _].
  - done.
  - exists s'. by split.
Defined.
