(* ===== verification/Apic.v ===== *)
(** The interrupt controllers: lib/x86/apic.c, apic.h and apic-defs.h.

    [Platform] is how the code reaches the hardware: 32-bit accesses to memory-mapped
    registers, MSRs, ports and CR8.  What the proofs rely on is in two classes:
    [LocalApic], the local APIC in its two modes, and [IoApic], the register window
    of the I/O APIC.  [apic] is the state: the hardware, the static [apic_ops] and the
    text printed. *)
From Stdlib Require Import ZArith Lia Bool.
From stdpp Require Import functions.
From S2P Require Import Prelude Libcflat Bitfield.
#[local] Open Scope Z_scope.

(** ** Constants *)
Definition APIC_EXTD : Z := 0x400.
Definition APIC_EN : Z := 0x800.
Definition APIC_ID : Z := 0x20.
Definition APIC_TASKPRI : Z := 0x80.
Definition APIC_EOI : Z := 0xB0.
Definition APIC_ISR : Z := 0x100.
Definition APIC_ICR : Z := 0x300.
Definition APIC_ICR_BUSY : Z := 0x01000.
Definition APIC_ICR2 : Z := 0x310.
Definition APIC_BASE_MSR : Z := 0x800.
Definition MSR_IA32_APICBASE : Z := 0x1b.
Definition g_apic : Z := 0xfee00000.
Definition g_ioapic : Z := 0xfec00000.

(** [ioapic_redir_entry_t] *)
Module Redir.
Definition vector := Bits 0 8.
Definition delivery_mode := Bits 8 3.
Definition dest_mode := Bits 11 1.
Definition delivery_status := Bits 12 1.
Definition polarity := Bits 13 1.
Definition remote_irr := Bits 14 1.
Definition trig_mode := Bits 15 1.
Definition mask := Bits 16 1.
Definition dest_id := Bits 56 8.
End Redir.

(** [trigger_mode_t] *)
Definition TRIGGER_EDGE : Z := 0.
Definition TRIGGER_LEVEL : Z := 1.

Definition apic_reg_index (reg : Z) : Z := Z.shiftr reg 2.
Definition x2apic_msr (reg : Z) : Z := APIC_BASE_MSR + Z.shiftr reg 4.
Definition x2apic_reg_reserved (reg : Z) : bool :=
  (0x000 <=? reg) && (reg <=? 0x010) || (0x040 <=? reg) && (reg <=? 0x070) || (reg =? 0x0c0) || (reg =? 0x0e0) ||
  (0x290 <=? reg) && (reg <=? 0x2e0) || (reg =? 0x310) || (0x3a0 <=? reg) && (reg <=? 0x3d0) || (reg =? 0x3f0).

(** ** The hardware *)
Class Platform (H : Type) := {
  mmio_read : Z → H → Z * H;
  mmio_write : Z → Z → H → H;        (* address, value *)
  rdmsr_hw : Z → H → Z * H;          (* 64 bits *)
  wrmsr_hw : Z → Z → H → H;
  out8 : Z → Z → H → H;              (* value, port *)
  read_cr8 : H → Z;
  write_cr8 : Z → H → H;
  cpuid1_ecx : H → Z
}.

Inductive ops : Set := xapic_ops | x2apic_ops.
#[export] Instance ops_eq_dec : EqDecision ops.
Proof. solve_decision. Defined.

Record apic (H : Type) := Apic { hw : H; apic_ops : ops; apic_log : list (string * list parg) }.
Arguments Apic {H}. Arguments hw {H}. Arguments apic_ops {H}. Arguments apic_log {H}.

Section code.
Context {H : Type} `{Platform H}.
Abbreviation M := (stM (apic H)).
Definition on_hw (f : H → H) : M unit := modify (λ s, Apic (f (hw s)) (apic_ops s) (apic_log s)).
Definition from_hw (f : H → Z * H) : M Z :=
  λ s, Done ((f (hw s)).1, Apic (f (hw s)).2 (apic_ops s) (apic_log s)).
Definition set_ops (o : ops) : M unit := modify (λ s, Apic (hw s) o (apic_log s)).
Definition printf (fmt : string) (args : list parg) : M unit :=
  modify (λ s, Apic (hw s) (apic_ops s) ((fmt, args) :: apic_log s)).
Definition rdmsr (i : Z) : M Z := from_hw (rdmsr_hw i).
Definition wrmsr (i v : Z) : M unit := on_hw (wrmsr_hw i (u64 v)).
Definition outb (data port : Z) : M unit := on_hw (out8 (u8 data) port).

(** *** The xAPIC *)
Definition xapic_read (reg : Z) : M Z := from_hw (mmio_read (g_apic + reg)).
Definition xapic_write (reg val : Z) : M unit := on_hw (mmio_write (g_apic + reg) (u32 val)).
(** [while (xapic_read(APIC_ICR) & APIC_ICR_BUSY);] *)
Fixpoint wait_icr (fuel : nat) : M unit :=
  match fuel with
  | O => λ _, NoFuel
  | S fuel =>
    v ← xapic_read APIC_ICR;
    if Z.land v APIC_ICR_BUSY =? 0 then mret tt else wait_icr fuel
  end.
Definition xapic_icr_write (fuel : nat) (val dest : Z) : M unit :=
  wait_icr fuel;;
  xapic_write APIC_ICR2 (u32 (Z.shiftl dest 24));;
  xapic_write APIC_ICR val.
Definition xapic_id : M Z := v ← xapic_read APIC_ID; mret (Z.shiftr v 24).

(** *** The x2APIC *)
Definition x2apic_read (reg : Z) : M Z :=
  v ← rdmsr (APIC_BASE_MSR + reg / 16); mret (u32 v).
Definition x2apic_write (reg val : Z) : M unit := wrmsr (APIC_BASE_MSR + reg / 16) (u32 val).
Definition x2apic_icr_write (val dest : Z) : M unit :=
  wrmsr (APIC_BASE_MSR + APIC_ICR / 16) (Z.lor (u32 val) (Z.shiftl (u32 dest) 32)).
Definition x2apic_id : M Z := x2apic_read APIC_ID.

(** *** Dispatch through [apic_ops] *)
Definition apic_read (reg : Z) : M Z :=
  o ← gets apic_ops; match o with xapic_ops => xapic_read reg | x2apic_ops => x2apic_read reg end.
Definition apic_write (reg val : Z) : M unit :=
  o ← gets apic_ops; match o with xapic_ops => xapic_write reg val | x2apic_ops => x2apic_write reg val end.
Definition apic_icr_write (fuel : nat) (val dest : Z) : M unit :=
  o ← gets apic_ops; match o with xapic_ops => xapic_icr_write fuel val dest | x2apic_ops => x2apic_icr_write val dest end.
Definition apic_id : M Z :=
  o ← gets apic_ops; match o with xapic_ops => xapic_id | x2apic_ops => x2apic_id end.
Definition eoi : M unit := apic_write APIC_EOI 0.
Definition apic_read_bit (reg n : Z) : M bool :=
  let reg := u32 (reg + Z.shiftl (Z.shiftr n 5) 4) in
  let n := Z.land n 31 in
  v ← apic_read reg;
  mret (negb (Z.land v (Z.shiftl 1 n) =? 0)).

Definition apic_get_tpr : M Z := gets (λ s, u8 (read_cr8 (hw s))).
Definition apic_set_tpr (tpr : Z) : M unit := on_hw (write_cr8 (u8 tpr)).

(** *** Modes *)
Definition enable_x2apic : M Z :=
  c ← gets (λ s, cpuid1_ecx (hw s));
  if negb (Z.land c (Z.shiftl 1 21) =? 0) then
    printf "enabling x2apic\n" [];;
    v ← rdmsr MSR_IA32_APICBASE;
    let a := Z.lor (u32 v) (Z.shiftl 1 10) in
    let d := Z.shiftr v 32 in
    wrmsr MSR_IA32_APICBASE (Z.lor a (Z.shiftl d 32));;
    set_ops x2apic_ops;;
    mret 1
  else mret 0.
Definition disable_apic : M unit :=
  v ← rdmsr MSR_IA32_APICBASE;
  wrmsr MSR_IA32_APICBASE (Z.land v (not64 (Z.lor APIC_EN APIC_EXTD)));;
  set_ops xapic_ops.
Definition reset_apic : M unit :=
  disable_apic;;
  v ← rdmsr MSR_IA32_APICBASE;
  wrmsr MSR_IA32_APICBASE (Z.lor v APIC_EN).
Definition enable_apic : M unit := printf "enabling apic\n" [];; xapic_write 0xf0 0x1ff.
Definition mask_pic_interrupts : M unit := outb 0xff 0x21;; outb 0xff 0xa1.

(** *** The I/O APIC *)
Definition ioapic_read_reg (reg : Z) : M Z :=
  on_hw (mmio_write g_ioapic (u32 reg));; from_hw (mmio_read (g_ioapic + 0x10)).
Definition ioapic_write_reg (reg value : Z) : M unit :=
  on_hw (mmio_write g_ioapic (u32 reg));; on_hw (mmio_write (g_ioapic + 0x10) (u32 value)).
(** An entry is a 64-bit value; [((u32 * )&e)[0]] is its low half. *)
Definition ioapic_write_redir (line e : Z) : M unit :=
  ioapic_write_reg (u32 (0x10 + line * 2 + 0)) (u32 e);;
  ioapic_write_reg (u32 (0x10 + line * 2 + 1)) (u32 (Z.shiftr e 32)).
Definition ioapic_read_redir (line : Z) : M Z :=
  lo ← ioapic_read_reg (u32 (0x10 + line * 2 + 0));
  hi ← ioapic_read_reg (u32 (0x10 + line * 2 + 1));
  mret (Z.lor lo (Z.shiftl hi 32)).
Definition ioapic_set_redir (line vec trig_mode : Z) : M unit :=
  let e := 0 in
  let e := setf Redir.vector vec e in
  let e := setf Redir.delivery_mode 0 e in
  let e := setf Redir.trig_mode trig_mode e in
  ioapic_write_redir line e.
Definition set_mask (line mask : Z) : M unit :=
  e ← ioapic_read_redir line;
  ioapic_write_redir line (setf Redir.mask mask e).
Definition set_irq_line (line val : Z) : M unit := outb val (u16 (0x2000 + line)).
End code.

(** ** What the proofs rely on *)
Inductive mode : Set := Disabled | XApic | X2Apic.
#[export] Instance mode_eq_dec : EqDecision mode.
Proof. solve_decision. Defined.

(** The mode that IA32_APIC_BASE selects. *)
Definition mode_of (base : Z) : mode :=
  if Z.testbit base 11 then (if Z.testbit base 10 then X2Apic else XApic) else Disabled.
(** The transitions the processor allows (the others are general protection faults). *)
Definition allowed (b b' : Z) : Prop :=
  match mode_of b, mode_of b' with
  | Disabled, Disabled | Disabled, XApic => ¬ Z.testbit b' 10
  | XApic, XApic | XApic, X2Apic | X2Apic, X2Apic => True
  | XApic, Disabled | X2Apic, Disabled => ¬ Z.testbit b' 10
  | _, _ => False
  end.

(** The local APIC: its registers by their offset in the memory-mapped page, what
    storing to a register does, and sending the interrupt command [val] to the APIC
    with the number [dest].  In xAPIC mode it is the page at [g_apic], with the
    number in the high byte of the id register and the destination in the high byte of ICR2;
    in x2APIC mode it is the MSRs from 0x800, with the whole number and one 64-bit
    command register. *)
Class LocalApic (H : Type) `{Platform H} := {
  la_base : H → Z;
  la_id : H → Z;
  la_reg : H → Z → Z;
  la_store : Z → Z → H → H;
  la_send : Z → Z → H → H;
  la_base_u64 h : in_u64 (la_base h);
  la_read_base h : rdmsr_hw MSR_IA32_APICBASE h = (la_base h, h);
  la_write_base h b : in_u64 b → allowed (la_base h) b →
    la_base (wrmsr_hw MSR_IA32_APICBASE b h) = b ∧ la_id (wrmsr_hw MSR_IA32_APICBASE b h) = la_id h;
  la_reg_u32 h reg : in_u32 (la_reg h reg);
  la_id_range h : 0 ≤ la_id h < 2 ^ 32 ∧ (mode_of (la_base h) = XApic → la_id h < 2 ^ 8);
  xapic_load h reg : mode_of (la_base h) = XApic → 0 ≤ reg < 0x400 → reg mod 16 = 0 →
    mmio_read (g_apic + reg) h = (if reg =? APIC_ID then Z.shiftl (la_id h) 24 else la_reg h reg, h);
  xapic_store h reg v : mode_of (la_base h) = XApic → 0 ≤ reg < 0x400 → reg mod 16 = 0 →
    reg ≠ APIC_ICR → reg ≠ APIC_ICR2 → in_u32 v → mmio_write (g_apic + reg) v h = la_store reg v h;
  xapic_send h val dest : mode_of (la_base h) = XApic → 0 ≤ dest < 2 ^ 8 → in_u32 val →
    mmio_write (g_apic + APIC_ICR) val (mmio_write (g_apic + APIC_ICR2) (dest * 2 ^ 24) h) = la_send val dest h;
  x2apic_load h reg : mode_of (la_base h) = X2Apic → 0 ≤ reg < 0x400 → reg mod 16 = 0 →
    x2apic_reg_reserved reg = false → reg ≠ APIC_ICR →
    rdmsr_hw (APIC_BASE_MSR + reg / 16) h = (if reg =? APIC_ID then la_id h else la_reg h reg, h);
  x2apic_store h reg v : mode_of (la_base h) = X2Apic → 0 ≤ reg < 0x400 → reg mod 16 = 0 →
    x2apic_reg_reserved reg = false → reg ≠ APIC_ICR → in_u32 v →
    wrmsr_hw (APIC_BASE_MSR + reg / 16) v h = la_store reg v h;
  x2apic_send h val dest : mode_of (la_base h) = X2Apic → in_u32 val → in_u32 dest →
    wrmsr_hw (APIC_BASE_MSR + APIC_ICR / 16) (val + dest * 2 ^ 32) h = la_send val dest h
}.

(** The I/O APIC: an index register and a data window.  Some bits of a redirection
    entry are the device's ([io_fixed]): a store does not change them. *)
Class IoApic (H : Type) `{Platform H} := {
  io_sel : H → Z;
  io_reg : H → Z → Z;
  io_fixed : Z → Z;
  io_reg_u32 h r : in_u32 (io_reg h r);
  io_fixed_u32 r : in_u32 (io_fixed r);
  io_fixed_mask r : Z.testbit (io_fixed r) 16 = false;
  io_select h r : 0 ≤ r < 2 ^ 8 →
    io_sel (mmio_write g_ioapic r h) = r ∧ ∀ i, io_reg (mmio_write g_ioapic r h) i = io_reg h i;
  io_load h : mmio_read (g_ioapic + 0x10) h = (io_reg h (io_sel h), h);
  io_store h v : in_u32 v → ∀ i, io_reg (mmio_write (g_ioapic + 0x10) v h) i =
    if decide (i = io_sel h)
    then Z.lor (Z.land (io_reg h i) (io_fixed i)) (Z.ldiff v (io_fixed i)) else io_reg h i
}.

(** ** Proofs *)
Section proofs.
Context {H : Type} `{LocalApic H}.
Implicit Types (s : apic H) (h : H).

(** The operations in [apic_ops] are those of the mode the APIC is in. *)
Definition matched s : Prop :=
  mode_of (la_base (hw s)) = match apic_ops s with xapic_ops => XApic | x2apic_ops => X2Apic end.
(** A register that is the same in both modes, by its offset. *)
Definition plain_reg (reg : Z) : Prop :=
  0 ≤ reg < 0x400 ∧ reg mod 16 = 0 ∧ x2apic_reg_reserved reg = false ∧ reg ≠ APIC_ICR.
Definition with_hw h s : apic H := Apic h (apic_ops s) (apic_log s).

Lemma plain_not_icr2 reg : plain_reg reg → reg ≠ APIC_ICR2.
Proof. intros (_ & _ & Hr & _) ->. discriminate. Qed.

Lemma from_hw_ok f s a : f (hw s) = (a, hw s) → from_hw f s = Done (a, s).
Proof. intros E. unfold from_hw. rewrite E. by destruct s. Qed.

Lemma xapic_read_ok reg s :
  mode_of (la_base (hw s)) = XApic → 0 ≤ reg < 0x400 → reg mod 16 = 0 →
  xapic_read reg s = Done (if reg =? APIC_ID then Z.shiftl (la_id (hw s)) 24 else la_reg (hw s) reg, s).
Proof. intros. by apply from_hw_ok, xapic_load. Qed.

Lemma x2apic_read_ok reg s :
  mode_of (la_base (hw s)) = X2Apic → plain_reg reg →
  x2apic_read reg s = Done (if reg =? APIC_ID then la_id (hw s) else la_reg (hw s) reg, s).
Proof.
  intros Hm (Hr & Ha & Hres & Hicr). unfold x2apic_read, rdmsr.
  rewrite (stM_bind_Done _ _ _ _ _ (from_hw_ok _ _ _ (x2apic_load (hw s) reg Hm Hr Ha Hres Hicr))).
  unfold mret, stM_ret. do 3 f_equal. destruct (reg =? APIC_ID).
  - rewrite u32_small; [done|]. by apply la_id_range.
  - rewrite u32_small; [done|]. apply la_reg_u32.
Qed.

Lemma apic_read_ok reg s :
  matched s → plain_reg reg → reg ≠ APIC_ID → apic_read reg s = Done (la_reg (hw s) reg, s).
Proof.
  intros Hm Hp Hid. unfold apic_read. rewrite bind_gets. unfold matched in Hm. destruct (apic_ops s).
  - destruct Hp as (? & ? & _). by rewrite xapic_read_ok, (proj2 (Z.eqb_neq _ _) Hid).
  - by rewrite x2apic_read_ok, (proj2 (Z.eqb_neq _ _) Hid).
Qed.

Lemma apic_id_ok s : matched s → apic_id s = Done (la_id (hw s), s).
Proof.
  intros Hm. unfold apic_id. rewrite bind_gets. unfold matched in Hm. destruct (apic_ops s).
  - unfold xapic_id. rewrite (stM_bind_Done _ _ _ _ _ (xapic_read_ok APIC_ID s Hm ltac:(unfold APIC_ID; lia) eq_refl)).
    by rewrite Z.shiftr_shiftl_l, Z.shiftl_0_r by lia.
  - unfold x2apic_id. rewrite x2apic_read_ok; [by rewrite Z.eqb_refl|done|].
    split; [unfold APIC_ID; lia|]. by split.
Qed.

Lemma apic_write_ok reg v s :
  matched s → plain_reg reg → apic_write reg v s = Done (tt, with_hw (la_store reg (u32 v) (hw s)) s).
Proof.
  intros Hm Hp. unfold apic_write. rewrite bind_gets. pose proof (plain_not_icr2 _ Hp).
  destruct Hp as (? & ? & ? & ?). pose proof (u32_range v). unfold matched in Hm. destruct (apic_ops s) eqn:E.
  - unfold xapic_write, on_hw, modify. rewrite xapic_store by done. unfold with_hw. by rewrite E.
  - unfold x2apic_write, wrmsr, on_hw, modify. rewrite u64_small by (unfold in_u32, in_u64 in *; lia).
    rewrite x2apic_store by done. unfold with_hw. by rewrite E.
Qed.

(** Destinations that the mode can name; the xAPIC must not be sending. *)
Definition can_send s (dest : Z) : Prop :=
  match apic_ops s with
  | xapic_ops => 0 ≤ dest < 2 ^ 8 ∧ Z.land (la_reg (hw s) APIC_ICR) APIC_ICR_BUSY = 0
  | x2apic_ops => in_u32 dest
  end.

Lemma apic_icr_write_ok fuel val dest s :
  matched s → can_send s dest →
  apic_icr_write (S fuel) val dest s = Done (tt, with_hw (la_send (u32 val) dest (hw s)) s).
Proof.
  intros Hm Hd. unfold apic_icr_write. rewrite bind_gets. pose proof (u32_range val).
  unfold matched, can_send in *. destruct (apic_ops s) eqn:E.
  - destruct Hd as [Hd Hi]. unfold xapic_icr_write. cbn [wait_icr].
    rewrite stM_bind_assoc, (stM_bind_Done _ _ _ _ _ (xapic_read_ok APIC_ICR s Hm ltac:(unfold APIC_ICR; lia) eq_refl)).
    change (APIC_ICR =? APIC_ID) with false. cbv iota. rewrite Hi. cbn [Z.eqb]. rewrite bind_mret.
    unfold xapic_write, on_hw. rewrite bind_modify. unfold modify. cbn [hw apic_ops apic_log].
    rewrite Z.shiftl_mul_pow2, !(u32_small (dest * _)) by (unfold in_u32; lia).
    rewrite xapic_send by done. unfold with_hw. by rewrite E.
  - unfold x2apic_icr_write, wrmsr, on_hw, modify. rewrite (u32_small dest) by done.
    rewrite lor_shift_add by (unfold in_u32 in *; lia). rewrite u64_small by (unfold in_u32, in_u64 in *; lia).
    rewrite x2apic_send by done. unfold with_hw. by rewrite E.
Qed.

(** *** Changing the mode *)
Lemma rdmsr_base s : rdmsr MSR_IA32_APICBASE s = Done (la_base (hw s), s).
Proof. apply from_hw_ok, la_read_base. Qed.

Lemma set_extd_bits b i : in_u64 b → 0 ≤ i →
  Z.testbit (Z.lor (Z.lor (u32 b) (Z.shiftl 1 10)) (Z.shiftl (Z.shiftr b 32) 32)) i = (Z.testbit b i || (i =? 10)).
Proof.
  intros Hb Hi. unfold u32. change 1 with (2 ^ 0). repeat zbits_step. rewrite ?(testbit_shiftl (Z.shiftr b 32) 32 i) by lia.
  destruct (Z.ltb_spec i 32).
  - rewrite (Z.testbit_neg_r _ (i - 32)) by lia. rewrite orb_false_r. cbn. f_equal. zbits_cmp; done.
  - rewrite testbit_shiftr by lia. replace (i - 32 + 32) with i by lia. cbn. zbits_cmp; by rewrite ?orb_false_r, ?orb_true_r.
Qed.

Lemma enable_x2apic_ok s :
  mode_of (la_base (hw s)) = XApic → Z.testbit (cpuid1_ecx (hw s)) 21 = true →
  ∃ h', enable_x2apic s = Done (1, Apic h' x2apic_ops (("enabling x2apic\n"%string, []) :: apic_log s)) ∧
    mode_of (la_base h') = X2Apic ∧ la_id h' = la_id (hw s).
Proof.
  intros Hm Hc. pose proof (la_base_u64 (hw s)) as Hb. set (b := la_base (hw s)) in *.
  set (b' := Z.lor (Z.lor (u32 b) (Z.shiftl 1 10)) (Z.shiftl (Z.shiftr b 32) 32)).
  assert (Z.testbit b 11 = true) as H11.
  { unfold mode_of in Hm. by destruct (Z.testbit b 11). }
  assert (mode_of b' = X2Apic) as Hm'.
  { unfold mode_of, b'. rewrite !set_extd_bits by (done || lia). rewrite H11. cbn. by rewrite orb_true_r. }
  assert (in_u64 b') as Hb'.
  { apply in_u64_bits.
    - unfold b'. apply Z.lor_nonneg. split; [apply Z.lor_nonneg; split; [apply u32_range|done]|].
      apply Z.shiftl_nonneg, Z.shiftr_nonneg, Hb.
    - intros i Hi. unfold b'. rewrite set_extd_bits by (done || lia). rewrite (testbit_above 64 b i) by done.
      by rewrite (proj2 (Z.eqb_neq i 10)) by lia. }
  destruct (la_write_base (hw s) b' Hb') as [Ebase Eid].
  { unfold allowed. fold b. by rewrite Hm, Hm'. }
  eexists. split; [|split; [by rewrite Ebase|exact Eid]].
  unfold enable_x2apic. rewrite bind_gets.
  assert (Z.land (cpuid1_ecx (hw s)) (Z.shiftl 1 21) =? 0 = false) as ->.
  { apply Z.eqb_neq. intros E. assert (Z.testbit (Z.land (cpuid1_ecx (hw s)) (Z.shiftl 1 21)) 21 = true) as Et.
    { rewrite Z.land_spec, Hc. done. } by rewrite E in Et. }
  cbn [negb]. unfold printf. rewrite bind_modify.
  rewrite (stM_bind_Done _ _ _ _ _ (rdmsr_base _)). cbn [hw]. fold b. fold b'.
  unfold wrmsr, on_hw, set_ops. rewrite !bind_modify. cbn [hw apic_ops apic_log]. by rewrite u64_small.
Qed.

Lemma reset_apic_ok s :
  ∃ h', reset_apic s = Done (tt, Apic h' xapic_ops (apic_log s)) ∧
    mode_of (la_base h') = XApic ∧ la_id h' = la_id (hw s).
Proof.
  pose proof (la_base_u64 (hw s)) as Hb. set (b := la_base (hw s)) in *.
  set (b1 := Z.land b (not64 (Z.lor APIC_EN APIC_EXTD))).
  assert (∀ i, 0 ≤ i → Z.testbit b1 i = Z.testbit b i && (i <? 64) && negb ((i =? 10) || (i =? 11))) as Hbits.
  { intros i Hi. unfold b1. change (Z.lor APIC_EN APIC_EXTD) with (Z.lor (2 ^ 10) (2 ^ 11)). repeat zbits_step.
    by rewrite andb_assoc. }
  assert (mode_of b1 = Disabled) as Hm1 by (unfold mode_of; by rewrite !Hbits, !andb_false_r by lia).
  assert (in_u64 b1) as Hb1.
  { apply in_u64_bits; [apply Z.land_nonneg; left; apply Hb|]. intros i Hi. rewrite Hbits by lia.
    by rewrite (testbit_above 64 b i) by done. }
  destruct (la_write_base (hw s) b1 Hb1) as [Ebase1 Eid1].
  { unfold allowed. fold b. rewrite Hm1. assert (Z.testbit b1 10 = false) as -> by (rewrite Hbits by lia; apply andb_false_r).
    destruct (mode_of b); cbn; tauto. }
  set (h1 := wrmsr_hw MSR_IA32_APICBASE b1 (hw s)) in *.
  set (b2 := Z.lor b1 APIC_EN).
  assert (∀ i, 0 ≤ i → Z.testbit b2 i = Z.testbit b1 i || (i =? 11)) as Hbits2.
  { intros i Hi. unfold b2. change APIC_EN with (2 ^ 11). by repeat zbits_step. }
  assert (mode_of b2 = XApic) as Hm2 by (unfold mode_of; by rewrite !Hbits2, !Hbits, !andb_false_r by lia).
  assert (in_u64 b2) as Hb2.
  { apply in_u64_bits; [apply Z.lor_nonneg; split; [apply Hb1|done]|]. intros i Hi. rewrite Hbits2 by lia.
    rewrite (testbit_above 64 b1 i) by done. by rewrite (proj2 (Z.eqb_neq i 11)) by lia. }
  destruct (la_write_base h1 b2 Hb2) as [Ebase2 Eid2].
  { rewrite Ebase1. unfold allowed. assert (Z.testbit b2 10 = false) as -> by (rewrite Hbits2, Hbits, andb_false_r by lia; done).
    rewrite Hm1, Hm2. cbn. tauto. }
  exists (wrmsr_hw MSR_IA32_APICBASE b2 h1). split; [|split; [by rewrite Ebase2|by rewrite Eid2]].
  unfold reset_apic, disable_apic. rewrite stM_bind_assoc, (stM_bind_Done _ _ _ _ _ (rdmsr_base s)). fold b.
  rewrite stM_bind_assoc. erewrite (stM_bind_Done (wrmsr _ _)); [|reflexivity].
  erewrite (stM_bind_Done (set_ops _)); [|reflexivity]. cbn [hw apic_log].
  fold b1. rewrite (u64_small b1) by done. fold h1.
  rewrite (stM_bind_Done _ _ _ _ _ (rdmsr_base _)). cbn [hw]. rewrite Ebase1. fold b2.
  unfold wrmsr, on_hw, modify. cbn [hw apic_ops apic_log]. by rewrite u64_small.
Qed.
End proofs.

(** *** The I/O APIC *)
Lemma stored_mix_u32 f old v : in_u32 old → in_u32 v → in_u32 (Z.lor (Z.land old f) (Z.ldiff v f)).
Proof.
  intros Ho Hv. set (x := Z.lor _ _). assert (x = x mod 2 ^ 32) as ->; [|apply u32_range].
  apply Z.bits_inj'. intros i Hi. rewrite testbit_mod_pow2 by lia. destruct (Z.ltb_spec i 32); [done|].
  unfold x. rewrite Z.lor_spec, Z.land_spec, Z.ldiff_spec.
  by rewrite (testbit_above 32 old i), (testbit_above 32 v i).
Qed.

Section ioapic.
Context {H : Type} `{IoApic H}.
Implicit Types (s : apic H) (h : H).

(** The redirection entry of a line. *)
Definition io_entry h (line : Z) : Z :=
  io_reg h (0x10 + line * 2) + io_reg h (0x10 + line * 2 + 1) * 2 ^ 32.
Definition entry_fixed (line : Z) : Z := io_fixed (0x10 + line * 2) + io_fixed (0x10 + line * 2 + 1) * 2 ^ 32.
(** Nothing but the index register has changed, or the registers [f] too. *)
Definition io_view s s' (f : Z → Z) : Prop :=
  (∀ i, io_reg (hw s') i = f i) ∧ apic_ops s' = apic_ops s ∧ apic_log s' = apic_log s.

Lemma ioapic_read_reg_ok r s :
  0 ≤ r < 2 ^ 8 → ∃ s', ioapic_read_reg r s = Done (io_reg (hw s) r, s') ∧ io_view s s' (io_reg (hw s)).
Proof.
  intros Hr. destruct (io_select (hw s) r Hr) as [Hs Hk]. unfold ioapic_read_reg, on_hw. rewrite bind_modify.
  rewrite (u32_small r) by (unfold in_u32; lia). unfold from_hw. cbn [hw]. rewrite io_load. cbn [fst snd].
  rewrite Hs, Hk. eexists. split; [done|]. by split.
Qed.

(** The register after a store. *)
Definition stored (r old v : Z) : Z := Z.lor (Z.land old (io_fixed r)) (Z.ldiff v (io_fixed r)).

Lemma ioapic_write_reg_ok r v s :
  0 ≤ r < 2 ^ 8 → in_u32 v →
  ∃ s', ioapic_write_reg r v s = Done (tt, s') ∧
    io_view s s' (<[r := stored r (io_reg (hw s) r) v]> (io_reg (hw s))).
Proof.
  intros Hr Hv. destruct (io_select (hw s) r Hr) as [Hs Hk]. unfold ioapic_write_reg, on_hw. rewrite bind_modify.
  rewrite (u32_small r), (u32_small v) by (unfold in_u32 in *; lia). eexists. split; [done|]. split; [|done].
  intros i. cbn [hw]. rewrite (io_store _ _ Hv), Hs, Hk. destruct (decide (i = r)) as [->|].
  - by rewrite fn_lookup_insert.
  - by rewrite fn_lookup_insert_ne.
Qed.

Lemma ioapic_read_redir_ok line s :
  0 ≤ line < 120 → ∃ s', ioapic_read_redir line s = Done (io_entry (hw s) line, s') ∧ io_view s s' (io_reg (hw s)).
Proof.
  intros Hl. unfold ioapic_read_redir. rewrite Z.add_0_r, !u32_small by (unfold in_u32; lia).
  destruct (ioapic_read_reg_ok (0x10 + line * 2) s) as (s1 & E1 & V1 & O1 & L1); [lia|].
  destruct (ioapic_read_reg_ok (0x10 + line * 2 + 1) s1) as (s2 & E2 & V2 & O2 & L2); [lia|].
  exists s2. rewrite (stM_bind_Done _ _ _ _ _ E1), (stM_bind_Done _ _ _ _ _ E2). split.
  - unfold mret, stM_ret, io_entry. do 2 f_equal. rewrite V1. apply lor_shift_add; [apply io_reg_u32|lia].
  - split; [intros i; by rewrite V2, V1|]. by rewrite O2, L2.
Qed.

(** The entry after a store. *)
Definition stored_entry (line old e : Z) : Z :=
  Z.lor (Z.land old (entry_fixed line)) (Z.ldiff e (entry_fixed line)).

Lemma join_bits a b i : in_u32 a → 0 ≤ i →
  Z.testbit (a + b * 2 ^ 32) i = if i <? 32 then Z.testbit a i else Z.testbit b (i - 32).
Proof.
  intros Ha Hi. rewrite <- lor_shift_add, Z.lor_spec by (unfold in_u32 in *; lia).
  destruct (Z.ltb_spec i 32).
  - rewrite testbit_shiftl, (Z.testbit_neg_r b) by lia. apply orb_false_r.
  - rewrite testbit_shiftl by lia. rewrite (testbit_above 32 a i) by (unfold in_u32 in *; lia). done.
Qed.

Lemma stored_u32 r old v : in_u32 old → in_u32 v → in_u32 (stored r old v).
Proof. apply stored_mix_u32. Qed.

Lemma stored_join line lo hi e :
  in_u32 lo → in_u32 hi → in_u64 e →
  stored (0x10 + line * 2) lo (u32 e) + stored (0x10 + line * 2 + 1) hi (u32 (Z.shiftr e 32)) * 2 ^ 32 =
  stored_entry line (lo + hi * 2 ^ 32) e.
Proof.
  intros Hlo Hhi He. apply Z.bits_inj'. intros i Hi.
  rewrite join_bits by first [done|apply stored_u32; [done|apply u32_range]].
  unfold stored, stored_entry, entry_fixed. repeat rewrite ?Z.lor_spec, ?Z.land_spec, ?Z.ldiff_spec.
  rewrite !join_bits by (done || apply io_fixed_u32). unfold u32.
  destruct (Z.ltb_spec i 32).
  - rewrite testbit_mod_pow2 by lia. by rewrite (proj2 (Z.ltb_lt _ _)).
  - rewrite testbit_mod_pow2 by lia. destruct (Z.ltb_spec (i - 32) 32).
    + rewrite testbit_shiftr by lia. by replace (i - 32 + 32) with i by lia.
    + by rewrite (testbit_above 64 e i) by (unfold in_u64 in *; lia).
Qed.

Lemma ioapic_write_redir_ok line e s :
  0 ≤ line < 120 → in_u64 e →
  ∃ s', ioapic_write_redir line e s = Done (tt, s') ∧ apic_ops s' = apic_ops s ∧ apic_log s' = apic_log s ∧
    io_entry (hw s') line = stored_entry line (io_entry (hw s) line) e ∧
    (∀ i, i ≠ 0x10 + line * 2 → i ≠ 0x10 + line * 2 + 1 → io_reg (hw s') i = io_reg (hw s) i).
Proof.
  intros Hl He. unfold ioapic_write_redir. rewrite Z.add_0_r, !(u32_small (0x10 + _)), !(u32_small (0x10 + _ + 1)) by (unfold in_u32; lia).
  destruct (ioapic_write_reg_ok (0x10 + line * 2) (u32 e) s) as (s1 & E1 & V1 & O1 & L1); [lia|apply u32_range|].
  destruct (ioapic_write_reg_ok (0x10 + line * 2 + 1) (u32 (Z.shiftr e 32)) s1) as (s2 & E2 & V2 & O2 & L2); [lia|apply u32_range|].
  exists s2. rewrite (stM_bind_Done _ _ _ _ _ E1). split; [exact E2|]. split; [congruence|]. split; [congruence|]. split.
  - unfold io_entry. rewrite !V2, fn_lookup_insert, fn_lookup_insert_ne, !V1, fn_lookup_insert, fn_lookup_insert_ne by lia.
    apply stored_join; [apply io_reg_u32..|done].
  - intros i Hi1 Hi2. by rewrite V2, fn_lookup_insert_ne, V1, fn_lookup_insert_ne by done.
Qed.

Lemma io_entry_u64 h line : in_u64 (io_entry h line).
Proof.
  unfold io_entry, in_u64. pose proof (io_reg_u32 h (0x10 + line * 2)). pose proof (io_reg_u32 h (0x10 + line * 2 + 1)).
  unfold in_u32 in *. lia.
Qed.

Lemma fixed_bit a b : a && b || a && negb b = a.
Proof. by destruct a, b. Qed.

(** Storing back an entry of which only the mask was changed. *)
Lemma stored_mask line old m : in_u64 old → 0 ≤ line →
  stored_entry line old (setf Redir.mask m old) = setf Redir.mask m old.
Proof.
  intros Ho Hl. apply Z.bits_inj'. intros i Hi. unfold stored_entry, entry_fixed.
  rewrite Z.lor_spec, Z.land_spec, Z.ldiff_spec, join_bits by (done || apply io_fixed_u32).
  rewrite !setf_testbit by (done || field_side). unfold inf. cbn [f_lo f_len Redir.mask].
  destruct (Z.leb_spec 16 i), (Z.ltb_spec i (16 + 1)); cbn [andb].
  - assert (i = 16) as -> by lia. cbn [Z.ltb Z.compare]. change (16 <? 32) with true. rewrite io_fixed_mask.
    by rewrite andb_false_r, andb_true_r.
  - apply fixed_bit.
  - apply fixed_bit.
  - apply fixed_bit.
Qed.
End ioapic.

(** ** The properties *)
Section claims.
Context {H : Type} `{LocalApic H}.
Implicit Types s : apic H.


(** Changing the mode.  [reset_apic] reaches xAPIC mode from any mode, through the
    disabled state as the processor demands; [enable_x2apic] goes on to x2APIC mode
    when the processor has it and says so.  After both, [apic_ops] is that of the mode
    and the APIC has kept its number. *)
Theorem apic_mode_changes s :
  (∃ h', reset_apic s = Done (tt, Apic h' xapic_ops (apic_log s)) ∧
     matched (Apic h' xapic_ops (apic_log s)) ∧ la_id h' = la_id (hw s)) ∧
  (mode_of (la_base (hw s)) = XApic →
   if Z.testbit (cpuid1_ecx (hw s)) 21
   then ∃ s', enable_x2apic s = Done (1, s') ∧ apic_ops s' = x2apic_ops ∧ matched s' ∧ la_id (hw s') = la_id (hw s)
   else enable_x2apic s = Done (0, s)).
Proof.
  split; [apply reset_apic_ok|]. intros Hm. destruct (Z.testbit (cpuid1_ecx (hw s)) 21) eqn:Hc.
  - destruct (enable_x2apic_ok s Hm Hc) as (h' & E & Hm' & Hid). by eexists.
  - unfold enable_x2apic. rewrite bind_gets.
    assert (Z.land (cpuid1_ecx (hw s)) (Z.shiftl 1 21) = 0) as ->; [|done].
    apply Z.bits_inj'. intros i Hi. change (Z.shiftl 1 21) with (2 ^ 21).
    rewrite Z.land_spec, testbit_pow2, Z.testbit_0_l by lia.
    destruct (Z.eqb_spec i 21) as [->|]; [by rewrite Hc|apply andb_false_r].
Qed.
End claims.

Section claims_io.
Context {H : Type} `{IoApic H}.
Implicit Types s : apic H.

(** C34: [set_mask] changes the mask bit of its line and nothing else in the I/O APIC, and
    an entry written with [ioapic_write_redir] reads back, except for the bits the
    device keeps. *)
Theorem ioapic_redir_correct line mask e s :
  0 ≤ line < 120 → in_u64 e →
  (∃ s', set_mask line mask s = Done (tt, s') ∧
     io_entry (hw s') line = setf Redir.mask mask (io_entry (hw s) line) ∧
     ∀ i, i ≠ 0x10 + line * 2 → i ≠ 0x10 + line * 2 + 1 → io_reg (hw s') i = io_reg (hw s) i) ∧
  (∃ s1 s2, ioapic_write_redir line e s = Done (tt, s1) ∧
     ioapic_read_redir line s1 = Done (stored_entry line (io_entry (hw s) line) e, s2)).
Proof.
  intros Hl He. split.
  - destruct (ioapic_read_redir_ok line s Hl) as (s1 & E1 & V1 & O1 & L1).
    assert (io_entry (hw s1) line = io_entry (hw s) line) as Ee by (unfold io_entry; by rewrite !V1).
    pose proof (io_entry_u64 (hw s) line) as Hu.
    assert (in_u64 (setf Redir.mask mask (io_entry (hw s) line))) as Hm by (apply setf_range; [by split|done|exact Hu]).
    destruct (ioapic_write_redir_ok line _ s1 Hl Hm) as (s2 & E2 & _ & _ & Een & Hk).
    exists s2. unfold set_mask. rewrite (stM_bind_Done _ _ _ _ _ E1). split; [exact E2|]. split.
    + rewrite Een, Ee. apply stored_mask; [exact Hu|lia].
    + intros i Hi1 Hi2. by rewrite Hk, V1.
  - destruct (ioapic_write_redir_ok line e s Hl He) as (s1 & E1 & _ & _ & Een & _).
    destruct (ioapic_read_redir_ok line s1 Hl) as (s2 & E2 & _).
    exists s1, s2. split; [exact E1|]. by rewrite <- Een.
Qed.
End claims_io.

(** ** A concrete machine *)
Record demo_apic := DemoApic {
  da_base : Z; da_regs : Z → Z; da_icr2 : Z; da_sent : list (Z * Z); da_sel : Z; da_io : Z → Z
}.
Definition da_store (reg v : Z) (h : demo_apic) : demo_apic :=
  DemoApic (da_base h) (<[reg := v]> (da_regs h)) (da_icr2 h) (da_sent h) (da_sel h) (da_io h).
Definition da_send (val dest : Z) (h : demo_apic) : demo_apic :=
  DemoApic (da_base h) (da_regs h) dest ((val, dest) :: da_sent h) (da_sel h) (da_io h).
Definition da_fixed (r : Z) : Z := if Z.even r then 0x5000 else 0.
#[export] Instance demo_platform : Platform demo_apic := {
  mmio_read := λ a h,
    (if a =? g_ioapic + 0x10 then u32 (da_io h (da_sel h))
     else if a =? g_apic + APIC_ID then Z.shiftl 3 24 else u32 (da_regs h (a - g_apic)), h);
  mmio_write := λ a v h,
    if a =? g_ioapic then DemoApic (da_base h) (da_regs h) (da_icr2 h) (da_sent h) v (da_io h)
    else if a =? g_ioapic + 0x10 then
      DemoApic (da_base h) (da_regs h) (da_icr2 h) (da_sent h) (da_sel h)
        (<[da_sel h := Z.lor (Z.land (u32 (da_io h (da_sel h))) (da_fixed (da_sel h))) (Z.ldiff v (da_fixed (da_sel h)))]> (da_io h))
    else if a =? g_apic + APIC_ICR2 then DemoApic (da_base h) (da_regs h) (v / 2 ^ 24) (da_sent h) (da_sel h) (da_io h)
    else if a =? g_apic + APIC_ICR then da_send v (da_icr2 h) h
    else da_store (a - g_apic) v h;
  rdmsr_hw := λ i h,
    (if i =? MSR_IA32_APICBASE then u64 (da_base h) else if i =? 0x802 then 3 else u32 (da_regs h ((i - 0x800) * 16)), h);
  wrmsr_hw := λ i v h,
    if i =? MSR_IA32_APICBASE then DemoApic v (da_regs h) (da_icr2 h) (da_sent h) (da_sel h) (da_io h)
    else if i =? 0x830 then da_send (v mod 2 ^ 32) (v / 2 ^ 32) h
    else da_store ((i - 0x800) * 16) v h;
  out8 := λ _ _ h, h; read_cr8 := λ _, 0; write_cr8 := λ _ h, h; cpuid1_ecx := λ _, 2 ^ 21
}.

Lemma x2apic_index reg : reg mod 16 = 0 → (APIC_BASE_MSR + reg / 16 - 0x800) * 16 = reg.
Proof. intros. unfold APIC_BASE_MSR. pose proof (Z.div_mod reg 16 ltac:(lia)). lia. Qed.

#[export, refine] Instance demo_local : LocalApic demo_apic := {
  la_base := λ h, u64 (da_base h); la_id := λ _, 3; la_reg := λ h reg, u32 (da_regs h reg);
  la_store := da_store; la_send := da_send
}.
Proof.
  - intros. apply u64_range.
  - done.
  - intros h b Hb _. cbn. by rewrite u64_small.
  - intros. apply u32_range.
  - intros. cbn. lia.
  - intros h reg _ Hr _. unfold mmio_read, demo_platform, g_apic, g_ioapic, APIC_ID.
    rewrite (proj2 (Z.eqb_neq _ (0xfec00000 + 0x10))) by lia.
    replace (0xfee00000 + reg - 0xfee00000) with reg by lia.
    by destruct (Z.eqb_spec (0xfee00000 + reg) (0xfee00000 + 0x20)), (Z.eqb_spec reg 0x20); try lia.
  - intros h reg v _ Hr _ H1 H2 _. unfold mmio_write, demo_platform, g_apic, g_ioapic, APIC_ICR, APIC_ICR2 in *.
    rewrite !(proj2 (Z.eqb_neq _ _)) by lia. by replace (0xfee00000 + reg - 0xfee00000) with reg by lia.
  - intros h val dest _ Hd _. cbn. by rewrite Z.div_mul.
  - intros h reg _ Hr Ha _ _. unfold rdmsr_hw, demo_platform. rewrite x2apic_index by done.
    unfold APIC_BASE_MSR, MSR_IA32_APICBASE, APIC_ID. pose proof (Z.div_mod reg 16 ltac:(lia)).
    rewrite (proj2 (Z.eqb_neq _ 0x1b)) by lia.
    by destruct (Z.eqb_spec (0x800 + reg / 16) 0x802), (Z.eqb_spec reg 0x20); try lia.
  - intros h reg v _ Hr Ha _ Hi _. unfold wrmsr_hw, demo_platform. rewrite x2apic_index by done.
    unfold APIC_BASE_MSR, MSR_IA32_APICBASE, APIC_ICR in *. pose proof (Z.div_mod reg 16 ltac:(lia)).
    rewrite (proj2 (Z.eqb_neq _ 0x1b)), (proj2 (Z.eqb_neq _ 0x830)) by lia. done.
  - intros h val dest _ Hv Hd. unfold in_u32 in *.
    change (da_send ((val + dest * 2 ^ 32) mod 2 ^ 32) ((val + dest * 2 ^ 32) / 2 ^ 32) h = da_send val dest h).
    by rewrite Z.mod_add, Z.mod_small, Z.div_add, Z.div_small by lia.
Defined.

#[export, refine] Instance demo_ioapic : IoApic demo_apic := {
  io_sel := da_sel; io_reg := λ h r, u32 (da_io h r); io_fixed := da_fixed
}.
Proof.
  - intros. apply u32_range.
  - intros r. unfold da_fixed. by destruct (Z.even r).
  - intros r. unfold da_fixed. by destruct (Z.even r).
  - done.
  - done.
  - intros h v Hv i. unfold mmio_write, demo_platform. change (g_ioapic + 0x10 =? g_ioapic) with false.
    rewrite Z.eqb_refl. cbv iota. cbn [da_io]. destruct (decide (i = da_sel h)) as [->|]; [|by rewrite fn_lookup_insert_ne].
    rewrite fn_lookup_insert. apply u32_small. apply (stored_mix_u32 (da_fixed (da_sel h))); [apply u32_range|done].
Defined.

Definition demo_a (base : Z) (o : ops) : apic demo_apic :=
  Apic (DemoApic base (λ _, 0) 0 [] 0 (λ _, 0)) o [].


Lemma ioapic_redir_correct_witness :
  ∃ s', set_mask 4 1 (demo_a 0xfee00800 xapic_ops) = Done (tt, s') ∧ io_entry (hw s') 4 = 0x10000.
Proof.
  destruct (ioapic_redir_correct 4 1 0x21 (demo_a 0xfee00800 xapic_ops)) as [(s' & E & He & _) _].
  - lia.
  - unfold in_u64. lia.
  - exists s'. split; [exact E|]. rewrite He. vm_compute. reflexivity.
Defined.

Lemma apic_mode_changes_witness :
  ∃ s', enable_x2apic (demo_a 0xfee00800 xapic_ops) = Done (1, s') ∧ matched s'.
Proof.
  destruct (apic_mode_changes (demo_a 0xfee00800 xapic_ops)) as [_ H].
  destruct (H eq_refl) as (s' & E & _ & Hm & _). exists s'. split; [exact E|exact Hm].
Defined.
