(* ===== verification/Smp.v ===== *)
(** Inter-processor calls: lib/x86/smp.c.

    Any number of CPUs run the code under any interleaving of their accesses to the
    file's statics.  [main c] is where CPU [c] is in [__on_cpu] (which function it
    is to call where, is its request); [irq c] where it is in [ipi], the handler of
    vector 0x20; [pending c] the request bit of that vector in its local APIC.  A
    handler interrupts the main line and runs with interrupts off.  One step is one
    access to shared memory, to the APIC, or one call of a function.  [sent c] and
    [ran c] record what was asked of the CPU and what it has called. *)
From Stdlib Require Import ZArith Lia Bool.
From stdpp Require Import functions.
From S2P Require Import Prelude.
#[local] Open Scope Z_scope.

(** A function and its argument. *)
Abbreviation msg := (Z * Z)%type.
(** The arguments of [__on_cpu]. *)
Record request := Request { r_cpu : nat; r_function : Z; r_data : Z; r_wait : bool }.
Definition r_msg (r : request) : msg := (r_function r, r_data r).

(** The calls that [on_cpu] and [on_cpu_async] make, those of the loop of [on_cpus], in its
    order, and the condition of its wait. *)
Definition on_cpu (cpu : nat) (function data : Z) : request := Request cpu function data true.
Definition on_cpu_async (cpu : nat) (function data : Z) : request := Request cpu function data false.
Definition on_cpus_calls (cpu_count : nat) (function data : Z) : list request :=
  (λ cpu, on_cpu_async cpu function data) <$> reverse (seq 0 cpu_count).
Definition on_cpus_wait (cpus_active : Z) : bool := 1 <? cpus_active.

(** [__on_cpu], by the statement to execute next. *)
Inductive mpc : Type :=
| Idle
| Lock (r : request)        (* spin_lock(&ipi_lock) *)
| Test (r : request)        (* if (cpu == smp_id()) function(data); else atomic_inc(&active_cpus) *)
| Clear (r : request)       (* ipi_done = 0 *)
| SetF (r : request)        (* ipi_function = function *)
| SetD (r : request)        (* ipi_data = data *)
| SetW (r : request)        (* ipi_wait = wait *)
| Send (r : request)        (* apic_icr_write *)
| Wait (r : request)        (* while (!ipi_done) ; *)
| Unlock (r : request).     (* spin_unlock(&ipi_lock) *)

(** [ipi], by the statement to execute next, with the locals read so far. *)
Inductive ipc : Type :=
| NoIrq
| ReadF
| ReadD (f : Z)
| ReadW (f d : Z)
| EarlyDone (f d : Z)       (* if (!wait) ipi_done = 1 *)
| EarlyEoi (f d : Z)
| Call (f d : Z) (w : bool) (* function(data) *)
| Dec (w : bool)            (* atomic_dec(&active_cpus) *)
| Done1                     (* if (wait) ipi_done = 1 *)
| Eoi.

Record smp := Smp {
  ipi_lock : Z;
  ipi_function : Z;
  ipi_data : Z;
  ipi_done : bool;
  ipi_wait : bool;
  active_cpus : Z;
  main : nat → mpc;
  irq : nat → ipc;
  pending : nat → bool;
  sent : nat → list msg;
  ran : nat → list msg
}.

(** The state after [main c] has gone on to [m], and the like. *)
Definition set_main (c : nat) (m : mpc) (s : smp) : smp :=
  Smp (ipi_lock s) (ipi_function s) (ipi_data s) (ipi_done s) (ipi_wait s) (active_cpus s)
    (<[c := m]> (main s)) (irq s) (pending s) (sent s) (ran s).
Definition set_irq (c : nat) (i : ipc) (s : smp) : smp :=
  Smp (ipi_lock s) (ipi_function s) (ipi_data s) (ipi_done s) (ipi_wait s) (active_cpus s)
    (main s) (<[c := i]> (irq s)) (pending s) (sent s) (ran s).
Definition set_lock (v : Z) (s : smp) : smp :=
  Smp v (ipi_function s) (ipi_data s) (ipi_done s) (ipi_wait s) (active_cpus s)
    (main s) (irq s) (pending s) (sent s) (ran s).
Definition set_function (f : Z) (s : smp) : smp :=
  Smp (ipi_lock s) f (ipi_data s) (ipi_done s) (ipi_wait s) (active_cpus s)
    (main s) (irq s) (pending s) (sent s) (ran s).
Definition set_data (d : Z) (s : smp) : smp :=
  Smp (ipi_lock s) (ipi_function s) d (ipi_done s) (ipi_wait s) (active_cpus s)
    (main s) (irq s) (pending s) (sent s) (ran s).
Definition set_done (b : bool) (s : smp) : smp :=
  Smp (ipi_lock s) (ipi_function s) (ipi_data s) b (ipi_wait s) (active_cpus s)
    (main s) (irq s) (pending s) (sent s) (ran s).
Definition set_wait (b : bool) (s : smp) : smp :=
  Smp (ipi_lock s) (ipi_function s) (ipi_data s) (ipi_done s) b (active_cpus s)
    (main s) (irq s) (pending s) (sent s) (ran s).
Definition set_active (v : Z) (s : smp) : smp :=
  Smp (ipi_lock s) (ipi_function s) (ipi_data s) (ipi_done s) (ipi_wait s) v
    (main s) (irq s) (pending s) (sent s) (ran s).
Definition set_pending (c : nat) (b : bool) (s : smp) : smp :=
  Smp (ipi_lock s) (ipi_function s) (ipi_data s) (ipi_done s) (ipi_wait s) (active_cpus s)
    (main s) (irq s) (<[c := b]> (pending s)) (sent s) (ran s).
Definition add_sent (c : nat) (m : msg) (s : smp) : smp :=
  Smp (ipi_lock s) (ipi_function s) (ipi_data s) (ipi_done s) (ipi_wait s) (active_cpus s)
    (main s) (irq s) (pending s) (<[c := sent s c ++ [m]]> (sent s)) (ran s).
Definition add_ran (c : nat) (m : msg) (s : smp) : smp :=
  Smp (ipi_lock s) (ipi_function s) (ipi_data s) (ipi_done s) (ipi_wait s) (active_cpus s)
    (main s) (irq s) (pending s) (sent s) (<[c := ran s c ++ [m]]> (ran s)).

(** The next step of [__on_cpu] on CPU [c]; [None] when it has nothing to do. *)
Definition on_cpu_step (c : nat) (s : smp) : option smp :=
  match main s c with
  | Idle => None
  | Lock r => Some (if ipi_lock s =? 0 then set_main c (Test r) (set_lock 1 s) else set_lock 1 s)
  | Test r =>
    Some (if (r_cpu r =? c)%nat
          then set_main c (Unlock r) (add_ran c (r_msg r) (add_sent c (r_msg r) s))
          else set_main c (Clear r) (set_active (active_cpus s + 1) s))
  | Clear r => Some (set_main c (SetF r) (set_done false s))
  | SetF r => Some (set_main c (SetD r) (set_function (r_function r) s))
  | SetD r => Some (set_main c (SetW r) (set_data (r_data r) s))
  | SetW r => Some (set_main c (Send r) (set_wait (r_wait r) s))
  | Send r => Some (set_main c (Wait r) (add_sent (r_cpu r) (r_msg r) (set_pending (r_cpu r) true s)))
  | Wait r => Some (if ipi_done s then set_main c (Unlock r) s else s)
  | Unlock r => Some (set_main c Idle (set_lock 0 s))
  end.

(** The next step of [ipi] on CPU [c]: its delivery when no handler runs there. *)
Definition ipi_step (c : nat) (s : smp) : option smp :=
  match irq s c with
  | NoIrq => if pending s c then Some (set_irq c ReadF (set_pending c false s)) else None
  | ReadF => Some (set_irq c (ReadD (ipi_function s)) s)
  | ReadD f => Some (set_irq c (ReadW f (ipi_data s)) s)
  | ReadW f d => Some (set_irq c (if ipi_wait s then Call f d true else EarlyDone f d) s)
  | EarlyDone f d => Some (set_irq c (EarlyEoi f d) (set_done true s))
  | EarlyEoi f d => Some (set_irq c (Call f d false) s)
  | Call f d w => Some (set_irq c (Dec w) (add_ran c (f, d) s))
  | Dec w => Some (set_irq c (if w then Done1 else NoIrq) (set_active (active_cpus s - 1) s))
  | Done1 => Some (set_irq c Eoi (set_done true s))
  | Eoi => Some (set_irq c NoIrq s)
  end.

(** A step of CPU [c]; an idle one may call [on_cpu] or [on_cpu_async]. *)
Inductive cpu_step (n c : nat) : smp → smp → Prop :=
| step_start r s : (r_cpu r < n)%nat → main s c = Idle → irq s c = NoIrq → cpu_step n c s (set_main c (Lock r) s)
| step_main s s' : irq s c = NoIrq → on_cpu_step c s = Some s' → cpu_step n c s s'
| step_irq s s' : ipi_step c s = Some s' → cpu_step n c s s'.
Definition smp_step (n : nat) (s s' : smp) : Prop := ∃ c, (c < n)%nat ∧ cpu_step n c s s'.

(** After [smp_init]: only the boot processor is active. *)
Definition smp_start : smp :=
  Smp 0 0 0 false false 1 (λ _, Idle) (λ _, NoIrq) (λ _, false) (λ _, []) (λ _, []).

(** ** The invariant *)
Definition holding (m : mpc) : option request :=
  match m with
  | Idle | Lock _ => None
  | Test r | Clear r | SetF r | SetD r | SetW r | Send r | Wait r | Unlock r => Some r
  end.

(** The handler has not yet let the caller go on. *)
Definition unacked (i : ipc) : bool :=
  match i with
  | ReadF | ReadD _ | ReadW _ _ | EarlyDone _ _ | Call _ _ true | Dec true | Done1 => true
  | _ => false
  end.
Definition busy (s : smp) (c : nat) : Prop := pending s c = true ∨ unacked (irq s c) = true.

(** What has been sent to [c] and not yet called: by the handler, and pending. *)
Definition handling (s : smp) (i : ipc) : list msg :=
  match i with
  | ReadF => [(ipi_function s, ipi_data s)]
  | ReadD f => [(f, ipi_data s)]
  | ReadW f d | EarlyDone f d | EarlyEoi f d | Call f d _ => [(f, d)]
  | NoIrq | Dec _ | Done1 | Eoi => []
  end.
Definition inflight (s : smp) (c : nat) : list msg :=
  handling s (irq s c) ++ if pending s c then [(ipi_function s, ipi_data s)] else [].

(** What the holder of the lock has stored. *)
Definition stored (s : smp) (m : mpc) : Prop :=
  match m with
  | SetF _ => ipi_done s = false
  | SetD r => ipi_done s = false ∧ ipi_function s = r_function r
  | SetW r => ipi_done s = false ∧ ipi_function s = r_function r ∧ ipi_data s = r_data r
  | Send r => ipi_done s = false ∧ ipi_function s = r_function r ∧ ipi_data s = r_data r ∧ ipi_wait s = r_wait r
  | Wait r => ipi_function s = r_function r ∧ ipi_data s = r_data r ∧ ipi_wait s = r_wait r
  | _ => True
  end.
(** The branch of [ipi] a handler is in is the one the caller asked for. *)
Definition branch (s : smp) (i : ipc) : Prop :=
  match i with
  | EarlyDone _ _ => ipi_wait s = false
  | Call _ _ true | Dec true | Done1 => ipi_wait s = true
  | _ => True
  end.
(** After a synchronous call nothing is in flight to its CPU. *)
Definition synced (s : smp) (m : mpc) : Prop :=
  match m with
  | Wait r => r_wait r = true → ipi_done s = true → inflight s (r_cpu r) = []
  | Unlock r => r_wait r = true → inflight s (r_cpu r) = []
  | _ => True
  end.

Record inv (s : smp) : Prop := {
  i_held c : holding (main s c) ≠ None → ipi_lock s ≠ 0;
  i_one c d : holding (main s c) ≠ None → holding (main s d) ≠ None → c = d;
  i_busy c : busy s c → ∃ a r, main s a = Wait r ∧ r_cpu r = c ∧ ipi_done s = false;
  i_excl c : pending s c = true → unacked (irq s c) = false;
  i_wait a r : main s a = Wait r → ipi_done s = false → busy s (r_cpu r);
  i_stored c : stored s (main s c);
  i_branch c : branch s (irq s c);
  i_synced c : synced s (main s c);
  i_fifo c : sent s c = ran s c ++ inflight s c
}.

Lemma upd_spec {A} (f : nat → A) a b x : <[a := x]> f b = if decide (a = b) then x else f b.
Proof. case_decide; subst; [by rewrite fn_lookup_insert|by rewrite fn_lookup_insert_ne]. Qed.

(** While the holder of the lock is not waiting, no CPU is busy. *)
Lemma holder_quiet s c :
  inv s → holding (main s c) ≠ None → (∀ r, main s c ≠ Wait r) →
  ∀ d, pending s d = false ∧ unacked (irq s d) = false.
Proof.
  intros I Hh Hw d.
  assert (¬ busy s d) as Hn.
  { intros (a & r & Ea & _ & _)%(i_busy _ I).
    assert (a = c) as -> by (apply (i_one _ I); [by rewrite Ea|done]). by apply (Hw r). }
  unfold busy in Hn. destruct (pending s d), (unacked (irq s d)); tauto.
Qed.

(** A message in flight that no longer depends on the statics. *)
Lemma inflight_quiet s s' d :
  pending s d = false → unacked (irq s d) = false → pending s' d = pending s d → irq s' d = irq s d →
  inflight s' d = inflight s d.
Proof.
  intros Hp Hu Ep Ei. unfold inflight. rewrite Ep, Ei, Hp. f_equal. by destruct (irq s d) as [| | | | | |? ? []|[]| |].
Qed.
Lemma branch_quiet s s' i : unacked i = false → branch s i → branch s' i.
Proof. by destruct i as [| | | | | |? ? []|[]| |]. Qed.
Lemma synced_inflight s s' m :
  (∀ d, inflight s d = [] → inflight s' d = []) → ipi_done s' = ipi_done s → synced s m → synced s' m.
Proof. intros Hi Hd. destruct m; cbn; rewrite ?Hd; auto. Qed.
Lemma stored_ext s s' m :
  ipi_done s' = ipi_done s → ipi_function s' = ipi_function s → ipi_data s' = ipi_data s → ipi_wait s' = ipi_wait s →
  stored s m → stored s' m.
Proof. intros Ed Ef Ea Ew. destruct m; cbn; by rewrite ?Ed, ?Ef, ?Ea, ?Ew. Qed.
Lemma other_stored s s' m : holding m = None → stored s m → stored s' m.
Proof. by destruct m. Qed.
Lemma other_synced s s' m : holding m = None → synced s m → synced s' m.
Proof. by destruct m. Qed.

(** The main line of the holder of the lock stores to the statics while nobody
    reads them. *)
Lemma inv_holder s s' c m :
  inv s → holding (main s c) ≠ None → (∀ r, main s c ≠ Wait r) →
  holding m ≠ None → (∀ r, m ≠ Wait r) → stored s' m → synced s' m →
  main s' = <[c := m]> (main s) → irq s' = irq s → pending s' = pending s → ipi_lock s' = ipi_lock s →
  (∀ d, sent s' d = ran s' d ++ inflight s d) → inv s'.
Proof.
  intros I Hc Hcw Hm Hmw Hst Hsy Em Ei Ep El Hf.
  pose proof (holder_quiet s c I Hc Hcw) as Hq.
  assert (∀ d, inflight s' d = inflight s d) as Hin.
  { intros d. destruct (Hq d). apply inflight_quiet; congruence. }
  assert (∀ d, d ≠ c → holding (main s d) = None) as Hother.
  { intros d Hd. destruct (holding (main s d)) eqn:E; [|done]. destruct Hd. apply (i_one _ I); congruence. }
  split.
  - intros d. rewrite El, Em, upd_spec. case_decide; [intros _; by apply (i_held _ I c)|apply (i_held _ I)].
  - intros d e. rewrite Em, !upd_spec. repeat case_decide; subst; try done; intros H1 H2.
    + by rewrite (Hother e) in H2 by done.
    + by rewrite (Hother d) in H1 by done.
    + by apply (i_one _ I).
  - intros d. unfold busy. rewrite Ei, Ep. destruct (Hq d) as [-> ->]. intros []; done.
  - intros d. rewrite Ei, Ep. apply (i_excl _ I).
  - intros a r. rewrite Em, upd_spec. case_decide; [intros ->; by destruct (Hmw r)|].
    intros E. by specialize (Hother a ltac:(done)); rewrite E in Hother.
  - intros d. rewrite Em, upd_spec. case_decide; [done|]. apply (other_stored s); [by apply Hother|apply (i_stored _ I)].
  - intros d. rewrite Ei. destruct (Hq d). apply (branch_quiet s); [done|apply (i_branch _ I)].
  - intros d. rewrite Em, upd_spec. case_decide; [done|]. apply (other_synced s); [by apply Hother|apply (i_synced _ I)].
  - intros d. by rewrite Hin, Hf.
Qed.

(** A step of the main line of a CPU that neither takes nor gives up the lock, and
    changes no static. *)
Lemma inv_main_only s c m :
  inv s → holding (main s c) = None → holding m = None → inv (set_main c m s).
Proof.
  intros I Hc Hm.
  assert (∀ d, holding (main (set_main c m s) d) = holding (main s d)) as Hh.
  { intros d. cbn. rewrite upd_spec. case_decide; congruence. }
  assert (∀ d r, main (set_main c m s) d = Wait r ↔ main s d = Wait r) as Hw.
  { intros d r. cbn. rewrite upd_spec. case_decide; [subst|done].
    split; intros E; [rewrite E in Hm|rewrite E in Hc]; done. }
  split.
  - intros d. rewrite Hh. apply (i_held _ I).
  - intros d e. rewrite !Hh. apply (i_one _ I).
  - intros d (a & r & E & H)%(i_busy _ I). exists a, r. by rewrite Hw.
  - apply (i_excl _ I).
  - intros a r E%Hw. by apply (i_wait _ I a).
  - intros d. cbn. rewrite upd_spec. case_decide; [by destruct m|apply (i_stored _ I)].
  - apply (i_branch _ I).
  - intros d. cbn. rewrite upd_spec. case_decide; [by destruct m|apply (i_synced _ I)].
  - apply (i_fifo _ I).
Qed.

(** A step of a handler that does not let the caller go on. *)
Lemma inv_handler s s' c i :
  inv s → main s' = main s → irq s' = <[c := i]> (irq s) → (∀ d, d ≠ c → pending s' d = pending s d) →
  ipi_lock s' = ipi_lock s → ipi_done s' = ipi_done s → ipi_function s' = ipi_function s →
  ipi_data s' = ipi_data s → ipi_wait s' = ipi_wait s →
  (busy s' c ↔ busy s c) → (pending s' c = true → unacked i = false) → branch s' i →
  sent s' = sent s → (∀ d, d ≠ c → ran s' d = ran s d) → ran s' c ++ inflight s' c = ran s c ++ inflight s c →
  (inflight s c = [] → inflight s' c = []) → inv s'.
Proof.
  intros I Em Ei Ep El Ed Ef Ea Ew Hb Hx Hbr Es Er Hf Hn.
  assert (∀ d, d ≠ c → irq s' d = irq s d) as Ei' by (intros; rewrite Ei, upd_spec; by rewrite decide_False).
  assert (∀ d, d ≠ c → inflight s' d = inflight s d) as Hin.
  { intros d Hd. unfold inflight. rewrite Ei', Ep by done. destruct (irq s d); cbn; by rewrite ?Ef, ?Ea. }
  assert (∀ d, busy s' d ↔ busy s d) as Hb'.
  { intros d. destruct (decide (d = c)) as [->|]; [done|]. unfold busy. by rewrite Ei', Ep. }
  split.
  - intros d. rewrite Em, El. apply (i_held _ I).
  - intros d e. rewrite Em. apply (i_one _ I).
  - intros d. rewrite Hb', Em, Ed. apply (i_busy _ I).
  - intros d. destruct (decide (d = c)) as [->|]; [rewrite Ei, upd_spec; by rewrite decide_True|].
    rewrite Ei', Ep by done. apply (i_excl _ I).
  - intros a r. rewrite Em, Ed, Hb'. apply (i_wait _ I).
  - intros d. rewrite Em. by apply (stored_ext s), (i_stored _ I).
  - intros d. destruct (decide (d = c)) as [->|]; [rewrite Ei, upd_spec; by rewrite decide_True|].
    rewrite Ei' by done. pose proof (i_branch _ I d) as Hd. destruct (irq s d) as [| | | | | |? ? []|[]| |]; cbn in *; congruence.
  - intros d. rewrite Em. apply (synced_inflight s); [|done|apply (i_synced _ I)].
    intros e. destruct (decide (e = c)) as [->|]; [done|by rewrite Hin].
  - intros d. rewrite Es, (i_fifo _ I). destruct (decide (d = c)) as [->|]; [done|by rewrite Er, Hin].
Qed.

(** A handler that lets the caller go on. *)
Lemma inv_ack s c i :
  inv s → unacked (irq s c) = true → unacked i = false →
  handling (set_done true s) i = handling s (irq s c) → (ipi_wait s = true → handling s (irq s c) = []) →
  inv (set_irq c i (set_done true s)).
Proof.
  intros I Hu Hi Hh Hw. destruct (i_busy _ I c ltac:(by right)) as (a & r & Ea & Er & Ed).
  set (s' := set_irq c i (set_done true s)).
  assert (pending s c = false) as Hpc.
  { destruct (pending s c) eqn:E; [|done]. by rewrite (i_excl _ I c E) in Hu. }
  assert (∀ d, ¬ busy s' d) as Hq.
  { intros d. unfold busy. cbn. rewrite upd_spec. case_decide; [subst; rewrite Hpc, Hi; by intros []|].
    intros (b & q & Eb & Eq & _)%(i_busy _ I).
    assert (b = a) as -> by (apply (i_one _ I); [by rewrite Eb|by rewrite Ea]). congruence. }
  assert (∀ d, inflight s' d = inflight s d) as Hin.
  { intros d. unfold inflight. cbn. rewrite upd_spec. case_decide; [subst; by rewrite <- Hh; destruct i|].
    by destruct (irq s d). }
  assert (∀ d, d ≠ a → holding (main s d) = None) as Hother.
  { intros d Hd. destruct (holding (main s d)) eqn:E; [|done]. destruct Hd. apply (i_one _ I); [by rewrite E|by rewrite Ea]. }
  split.
  - apply (i_held _ I).
  - apply (i_one _ I).
  - intros d Hd. by destruct (Hq d).
  - intros d Hd. destruct (Hq d). by left.
  - done.
  - intros d. change (main s' d) with (main s d). destruct (decide (d = a)) as [->|].
    + pose proof (i_stored _ I a) as H. by rewrite Ea in *.
    + apply (other_stored s); [by apply Hother|apply (i_stored _ I)].
  - intros d. assert (unacked (irq s' d) = false) as Hn.
    { destruct (unacked (irq s' d)) eqn:E; [|done]. destruct (Hq d). by right. }
    by destruct (irq s' d) as [| | | | | |? ? []|[]| |].
  - intros d. change (main s' d) with (main s d). destruct (decide (d = a)) as [->|].
    + rewrite Ea. cbn [synced]. intros Hrw _. rewrite Hin, Er.
      pose proof (i_stored _ I a) as H. rewrite Ea in H. destruct H as (_ & _ & H).
      unfold inflight. rewrite Hw, Hpc by congruence. done.
    + apply (other_synced s); [by apply Hother|apply (i_synced _ I)].
  - intros d. rewrite Hin. apply (i_fifo _ I).
Qed.

(** *** The steps of the main line *)
Lemma nobody s : inv s → ipi_lock s = 0 → ∀ d, holding (main s d) = None.
Proof.
  intros I Hl d. destruct (holding (main s d)) eqn:E; [|done]. by destruct (i_held _ I d); [rewrite E|].
Qed.
Lemma nobody_busy s d : inv s → (∀ c, holding (main s c) = None) → ¬ busy s d.
Proof. intros I Hn (a & r & E & _)%(i_busy _ I). specialize (Hn a). by rewrite E in Hn. Qed.
Lemma others_none s c d : inv s → holding (main s c) ≠ None → d ≠ c → holding (main s d) = None.
Proof.
  intros I Hc Hd. destruct (holding (main s d)) eqn:E; [|done]. destruct Hd. apply (i_one _ I); [by rewrite E|done].
Qed.

(** Taking the lock. *)
Lemma inv_lock s c r : inv s → ipi_lock s = 0 → inv (set_main c (Test r) (set_lock 1 s)).
Proof.
  intros I Hl. pose proof (nobody s I Hl) as Hn. pose proof (λ d, nobody_busy s d I Hn) as Hb.
  split; cbn.
  - done.
  - intros d e. rewrite !upd_spec. repeat case_decide; subst; try done; rewrite ?Hn; done.
  - intros d Hd. by destruct (Hb d).
  - apply (i_excl _ I).
  - intros a q. rewrite upd_spec. case_decide; [done|]. intros E. by specialize (Hn a); rewrite E in Hn.
  - intros d. rewrite upd_spec. case_decide; [done|apply (i_stored _ I)].
  - apply (i_branch _ I).
  - intros d. rewrite upd_spec. case_decide; [done|apply (i_synced _ I)].
  - apply (i_fifo _ I).
Qed.

(** Giving it up. *)
Lemma inv_unlock s c : inv s → holding (main s c) ≠ None → (∀ r, main s c ≠ Wait r) → inv (set_main c Idle (set_lock 0 s)).
Proof.
  intros I Hc Hw. pose proof (holder_quiet s c I Hc Hw) as Hq.
  assert (∀ d, holding (<[c := Idle]> (main s) d) = None) as Hn.
  { intros d. rewrite upd_spec. case_decide; [done|]. by apply (others_none s c). }
  split; cbn.
  - intros d. by rewrite Hn.
  - intros d e. by rewrite Hn.
  - intros d. destruct (Hq d) as [Hp Hu]. unfold busy. cbn. rewrite Hp, Hu. by intros [].
  - apply (i_excl _ I).
  - intros a q E. specialize (Hn a). by rewrite E in Hn.
  - intros d. rewrite upd_spec. case_decide; [done|apply (i_stored _ I)].
  - apply (i_branch _ I).
  - intros d. rewrite upd_spec. case_decide; [done|apply (i_synced _ I)].
  - apply (i_fifo _ I).
Qed.

(** The interrupt is sent. *)
Lemma inv_send s c r :
  inv s → main s c = Send r →
  inv (set_main c (Wait r) (add_sent (r_cpu r) (r_msg r) (set_pending (r_cpu r) true s))).
Proof.
  intros I Ec. assert (holding (main s c) ≠ None) as Hc by (by rewrite Ec).
  pose proof (holder_quiet s c I Hc ltac:(congruence)) as Hq.
  pose proof (i_stored _ I c) as Hst. rewrite Ec in Hst. destruct Hst as (Hd & Hf & Ha & Hw).
  set (s' := set_main _ _ _).
  assert (∀ d, inflight s' d = inflight s d ++ if decide (r_cpu r = d) then [r_msg r] else []) as Hin.
  { intros d. destruct (Hq d) as [Hp _]. unfold inflight. cbn. rewrite upd_spec, Hp, app_nil_r.
    case_decide; [unfold r_msg; rewrite Hf, Ha; by destruct (irq s d)|]. by rewrite app_nil_r; destruct (irq s d). }
  split; cbn.
  - intros d. rewrite upd_spec. case_decide; [intros _; by apply (i_held _ I c)|apply (i_held _ I)].
  - intros d e. rewrite !upd_spec. repeat case_decide; subst; try done; intros H1 H2.
    + by rewrite (others_none s d e I Hc) in H2.
    + by rewrite (others_none s e d I Hc) in H1.
    + by apply (i_one _ I).
  - intros d Hb. exists c, r. rewrite upd_spec, decide_True by done. split; [done|]. split; [|done].
    destruct (Hq d) as [Hp Hu]. unfold busy in Hb. cbn in Hb. rewrite upd_spec, Hp, Hu in Hb.
    case_decide; [done|by destruct Hb].
  - intros d _. by destruct (Hq d).
  - intros a q. rewrite upd_spec. case_decide.
    + intros [= ->] _. left. cbn. by rewrite fn_lookup_insert.
    + intros E. assert (holding (main s a) = None) as Hx by (by apply (others_none s c)). by rewrite E in Hx.
  - intros d. rewrite upd_spec. case_decide; [done|]. apply (other_stored s); [by apply (others_none s c)|apply (i_stored _ I)].
  - intros d. apply (branch_quiet s); [by destruct (Hq d)|apply (i_branch _ I)].
  - intros d. rewrite upd_spec. case_decide; [|apply (other_synced s); [by apply (others_none s c)|apply (i_synced _ I)]].
    cbn. intros _. by rewrite Hd.
  - intros d. rewrite Hin, upd_spec. rewrite app_assoc, <- (i_fifo _ I). case_decide; [by subst|by rewrite app_nil_r].
Qed.

(** The caller sees [ipi_done]. *)
Lemma inv_done s c r : inv s → main s c = Wait r → ipi_done s = true → inv (set_main c (Unlock r) s).
Proof.
  intros I Ec Hd. assert (holding (main s c) ≠ None) as Hc by (by rewrite Ec).
  assert (∀ d, ¬ busy s d) as Hb by (intros d (a & q & _ & _ & H)%(i_busy _ I); congruence).
  split; cbn.
  - intros d. rewrite upd_spec. case_decide; [intros _; by apply (i_held _ I c)|apply (i_held _ I)].
  - intros d e. rewrite !upd_spec. repeat case_decide; subst; try done; intros H1 H2.
    + by rewrite (others_none s d e I Hc) in H2.
    + by rewrite (others_none s e d I Hc) in H1.
    + by apply (i_one _ I).
  - intros d H. by destruct (Hb d).
  - apply (i_excl _ I).
  - intros a q. rewrite upd_spec. case_decide; [done|]. intros E _.
    assert (holding (main s a) = None) as Hx by (by apply (others_none s c)). by rewrite E in Hx.
  - intros d. rewrite upd_spec. case_decide; [done|]. apply (other_stored s); [by apply (others_none s c)|apply (i_stored _ I)].
  - apply (i_branch _ I).
  - intros d. rewrite upd_spec. case_decide; [|apply (other_synced s); [by apply (others_none s c)|apply (i_synced _ I)]].
    pose proof (i_synced _ I c) as Hs. rewrite Ec in Hs. cbn in *. intros. by apply Hs.
  - apply (i_fifo _ I).
Qed.

Lemma inv_on_cpu_step s s' c : inv s → irq s c = NoIrq → on_cpu_step c s = Some s' → inv s'.
Proof.
  intros I Hirq. unfold on_cpu_step. destruct (main s c) as [|r|r|r|r|r|r|r|r|r] eqn:Ec; [done|..];
    intros [= <-]; try assert (holding (main s c) ≠ None) as Hc by (by rewrite Ec);
    pose proof (i_stored _ I c) as Hst; rewrite Ec in Hst; cbn in Hst.
  - destruct (Z.eqb_spec (ipi_lock s) 0); [by apply inv_lock|].
    destruct I. by split.
  - destruct (Nat.eqb_spec (r_cpu r) c) as [Hr|Hr].
    + assert (inflight s c = []) as Hn.
      { unfold inflight. rewrite Hirq. destruct (holder_quiet s c I Hc ltac:(congruence) c) as [-> _]. done. }
      apply (inv_holder s _ c (Unlock r) I Hc); try done; [congruence|intros _; rewrite Hr; exact Hn|].
      intros d. cbn. rewrite !upd_spec. case_decide; [subst|apply (i_fifo _ I)].
      rewrite (i_fifo _ I), Hn, !app_nil_r. done.
    + apply (inv_holder s _ c (Clear r) I Hc); try done; [congruence|apply (i_fifo _ I)].
  - apply (inv_holder s _ c (SetF r) I Hc); try done; [congruence|apply (i_fifo _ I)].
  - apply (inv_holder s _ c (SetD r) I Hc); try done; [congruence|apply (i_fifo _ I)].
  - destruct Hst. apply (inv_holder s _ c (SetW r) I Hc); try done; [congruence|apply (i_fifo _ I)].
  - destruct Hst as (? & ? & ?). apply (inv_holder s _ c (Send r) I Hc); try done; [congruence|apply (i_fifo _ I)].
  - by apply inv_send.
  - destruct (ipi_done s) eqn:Hd; [by apply inv_done|done].
  - apply inv_unlock; [done|done|congruence].
Qed.

(** *** The steps of the handler *)
Lemma inv_ipi_step s s' c : inv s → ipi_step c s = Some s' → inv s'.
Proof.
  intros I. unfold ipi_step. pose proof (i_branch _ I c) as Hbr. pose proof (i_excl _ I c) as Hx.
  destruct (irq s c) as [| |f|f d|f d|f d|f d w|w| |] eqn:Ei.
  - destruct (pending s c) eqn:Ep; [|done]. intros [= <-].
    apply (inv_handler s _ c ReadF); try done; unfold busy, inflight; cbn; rewrite ?upd_spec, ?decide_True, ?Ei, ?Ep by done; try done.
    + intros d Hd. cbn. by rewrite upd_spec, decide_False by done.
    + by split; [left|right].
  - intros [= <-]. apply (inv_handler s _ c (ReadD (ipi_function s))); try done;
      unfold busy, inflight; cbn; rewrite ?upd_spec, ?decide_True, ?Ei by done; try done; destruct (pending s c); try done; by specialize (Hx eq_refl).
  - intros [= <-]. apply (inv_handler s _ c (ReadW f (ipi_data s))); try done;
      unfold busy, inflight; cbn; rewrite ?upd_spec, ?decide_True, ?Ei by done; try done; destruct (pending s c); try done; by specialize (Hx eq_refl).
  - intros [= <-]. apply (inv_handler s _ c (if ipi_wait s then Call f d true else EarlyDone f d)); try done;
      unfold busy, inflight; cbn; rewrite ?upd_spec, ?decide_True, ?Ei by done; try done; destruct (ipi_wait s) eqn:Ew, (pending s c); try done; by specialize (Hx eq_refl).
  - intros [= <-]. apply inv_ack; rewrite ?Ei; try done. cbn in Hbr. congruence.
  - intros [= <-]. apply (inv_handler s _ c (Call f d false)); try done;
      unfold busy, inflight; cbn; rewrite ?upd_spec, ?decide_True, ?Ei by done; try done.
  - intros [= <-]. apply (inv_handler s _ c (Dec w)); try done;
      unfold busy, inflight; cbn; rewrite ?upd_spec, ?decide_True, ?Ei by done; try done.
    + intros e He. cbn. by rewrite upd_spec, decide_False by done.
    + by rewrite <- app_assoc.
  - intros [= <-]. apply (inv_handler s _ c (if w then Done1 else NoIrq)); try done;
      unfold busy, inflight; cbn; rewrite ?upd_spec, ?decide_True, ?Ei by done; try done; destruct w; done.
  - intros [= <-]. apply inv_ack; by rewrite ?Ei.
  - intros [= <-]. apply (inv_handler s _ c NoIrq); try done;
      unfold busy, inflight; cbn; rewrite ?upd_spec, ?decide_True, ?Ei by done; try done.
Qed.

Lemma inv_start : inv smp_start.
Proof. split; try done; cbn. intros c [H|H]; done. Qed.

Lemma inv_step n s s' : inv s → smp_step n s s' → inv s'.
Proof.
  intros I (c & _ & Hs). destruct Hs as [r s Hrn Hc Hi|s s' Hi E|s s' E].
  - apply inv_main_only; [done|by rewrite Hc|done].
  - by apply (inv_on_cpu_step _ _ c I).
  - by apply (inv_ipi_step _ _ c I).
Qed.

Lemma inv_reachable n s : rtc (smp_step n) smp_start s → inv s.
Proof.
  intros Hr. remember smp_start as s0 eqn:E. assert (inv s0) as Hi by (subst; apply inv_start). clear E.
  induction Hr; [done|]. eauto using inv_step.
Qed.

(** *** The number of active CPUs *)
Fixpoint total (n : nat) (f : nat → Z) : Z :=
  match n with O => 0 | S n => total n f + f n end.

Lemma total_ext n f g : (∀ c, (c < n)%nat → f c = g c) → total n f = total n g.
Proof. induction n as [|n IH]; intros H; cbn; [done|]. rewrite (H n), IH by (auto || lia). done. Qed.
Lemma total_upd {A} n (F : A → Z) (f : nat → A) c x :
  (c < n)%nat → total n (λ d, F (<[c := x]> f d)) = total n (λ d, F (f d)) + F x - F (f c).
Proof.
  induction n as [|n IH]; intros Hc; [lia|]. cbn. rewrite upd_spec. case_decide as Hd.
  - subst n. rewrite (total_ext c _ (λ d, F (f d))); [lia|]. intros d Hd. rewrite upd_spec, decide_False by lia. done.
  - rewrite IH by lia. lia.
Qed.
Lemma total_nonneg n f : (∀ c, 0 ≤ f c) → 0 ≤ total n f.
Proof. intros H. induction n as [|n IH]; cbn; [done|]. specialize (H n). lia. Qed.
Lemma total_zero n f c : (∀ c, 0 ≤ f c) → total n f = 0 → (c < n)%nat → f c = 0.
Proof.
  intros H. induction n as [|n IH]; cbn; [lia|]. intros Ht Hc. pose proof (total_nonneg n f H). pose proof (H n).
  destruct (decide (c = n)) as [->|]; [lia|]. apply IH; lia.
Qed.

(** Between the increment and the decrement of [active_cpus]. *)
Definition counted_main (m : mpc) : Z :=
  match m with Clear _ | SetF _ | SetD _ | SetW _ | Send _ => 1 | _ => 0 end.
Definition counted_irq (i : ipc) : Z := match i with NoIrq | Done1 | Eoi => 0 | _ => 1 end.
Definition counted (n : nat) (s : smp) : Z :=
  total n (λ c, counted_main (main s c)) + total n (λ c, counted_irq (irq s c)) + total n (λ c, Z.b2z (pending s c)).

Definition request_of (m : mpc) : option request :=
  match m with
  | Idle => None
  | Lock r | Test r | Clear r | SetF r | SetD r | SetW r | Send r | Wait r | Unlock r => Some r
  end.
Record inv_active (n : nat) (s : smp) : Prop := {
  a_cpu c r : request_of (main s c) = Some r → (r_cpu r < n)%nat;
  a_active : active_cpus s = 1 + counted n s
}.

Lemma inv_active_step n s s' : inv s → inv_active n s → smp_step n s s' → inv_active n s'.
Proof.
  intros I [Hr Ha] (c & Hc & Hs).
  assert (∀ m, request_of m = None ∨ request_of m = request_of (main s c) →
    ∀ d r, request_of (<[c := m]> (main s) d) = Some r → (r_cpu r < n)%nat) as Hreq.
  { intros m Hm d r. rewrite upd_spec. case_decide; [|apply Hr]. intros E. apply (Hr c). destruct Hm; congruence. }
  destruct Hs as [r s Hrn Em Hi|s s' Hi E|s s' E].
  - split; cbn; [|unfold counted; cbn; rewrite (total_upd n counted_main), Em by done; cbn; unfold counted in Ha; lia].
    intros d q. rewrite upd_spec. case_decide; [by intros [= ->]|apply Hr].
  - assert (∀ m s1, request_of m = None ∨ request_of m = request_of (main s c) →
      active_cpus s1 - counted_main m = active_cpus s - counted_main (main s c) →
      main s1 = <[c := m]> (main s) → irq s1 = irq s → pending s1 = pending s → inv_active n s1) as Hmain.
    { intros m s1 Hm Hd Em Ei Ep. split; [rewrite Em; by apply Hreq|].
      unfold counted in *. rewrite Em, Ei, Ep, (total_upd n counted_main) by done. lia. }
    unfold on_cpu_step in E. destruct (main s c) as [|r|r|r|r|r|r|r|r|r] eqn:Em; [done|..]; injection E as <-.
    + destruct (ipi_lock s =? 0); [by apply (Hmain (Test r)); auto|by split].
    + destruct (r_cpu r =? c)%nat; [by apply (Hmain (Unlock r)); auto|].
      apply (Hmain (Clear r)); auto. cbn. lia.
    + by apply (Hmain (SetF r)); auto.
    + by apply (Hmain (SetD r)); auto.
    + by apply (Hmain (SetW r)); auto.
    + by apply (Hmain (Send r)); auto.
    + split; [cbn; apply Hreq; auto|].
      assert (r_cpu r < n)%nat as Hrn by (apply (Hr c); by rewrite Em).
      destruct (holder_quiet s c I ltac:(by rewrite Em) ltac:(congruence) (r_cpu r)) as [Hp _].
      unfold counted in *. cbn. rewrite (total_upd n counted_main), (total_upd n Z.b2z), Hp, Em by done. cbn. lia.
    + destruct (ipi_done s); [by apply (Hmain (Unlock r)); auto|by split].
    + by apply (Hmain Idle); auto.
  - unfold ipi_step in E. destruct (irq s c) as [| |f|f d|f d|f d|f d w|w| |] eqn:Ei; simplify_eq.
    1: destruct (pending s c) eqn:Ep; simplify_eq.
    all: split; [exact Hr|unfold counted in *; cbn; rewrite ?(total_upd n counted_irq), ?(total_upd n Z.b2z), ?Ei, ?Ep by done; cbn].
    all: repeat case_match; cbn; try lia.
Qed.

Lemma inv_active_reachable n s : rtc (smp_step n) smp_start s → inv_active n s.
Proof.
  intros Hr. remember smp_start as s0 eqn:E.
  assert (inv s0 ∧ inv_active n s0) as [Hi Ha].
  { subst. split; [apply inv_start|]. split; [done|]. unfold counted. cbn.
    assert (total n (λ _, 0) = 0) as ->; [|done]. clear. induction n; cbn; lia. }
  clear E. induction Hr as [|x y z Hs Hr IH]; [done|]. apply IH; eauto using inv_step, inv_active_step.
Qed.

(** *** A waiting caller can always go on *)
(** The handler's steps up to [ipi_done = 1]. *)
Definition left_to_ack (i : ipc) : nat :=
  match i with
  | EarlyEoi _ _ => 11 | Call _ _ false => 10 | Dec false => 9 | Eoi => 9 | NoIrq => 8
  | ReadF => 7 | ReadD _ => 6 | ReadW _ _ => 5 | Call _ _ true => 3 | Dec true => 2 | Done1 => 1 | EarlyDone _ _ => 1
  end.

Lemma ack_progress s c :
  busy s c → ∃ s', ipi_step c s = Some s' ∧ main s' = main s ∧ (∀ d, d ≠ c → irq s' d = irq s d) ∧
    (ipi_done s' = true ∨ ipi_done s' = ipi_done s ∧ busy s' c ∧ (left_to_ack (irq s' c) < left_to_ack (irq s c))%nat).
Proof.
  intros Hb. assert (∀ i d, d ≠ c → <[c := i]> (irq s) d = irq s d) as Ho
    by (intros i d Hd; by rewrite upd_spec, decide_False).
  unfold busy in *. unfold ipi_step. destruct (irq s c) as [| |f|f d|f d|f d|f d w|w| |] eqn:Ei.
  1: destruct Hb as [Hb|Hb]; [rewrite Hb|done].
  all: eexists; refine (conj eq_refl (conj eq_refl (conj _ _))); [intros; cbn; by auto|].
  all: cbn; rewrite ?upd_spec, ?decide_True by done.
  all: repeat case_match; cbn in *; subst; try (by left); (right; split; [done|]; split; [tauto|lia]).
Qed.

Definition steps_of (n : nat) (p : nat → Prop) (s s' : smp) : Prop := ∃ c, p c ∧ cpu_step n c s s'.

Lemma ack_run n c s :
  busy s c → ∃ s', rtc (steps_of n (eq c)) s s' ∧ main s' = main s ∧ (∀ d, d ≠ c → irq s' d = irq s d) ∧ ipi_done s' = true.
Proof.
  remember (left_to_ack (irq s c)) as k eqn:Ek. revert s Ek.
  induction k as [k IH] using lt_wf_ind. intros s -> Hb.
  destruct (ack_progress s c Hb) as (s1 & E & Em & Ei & [Hd|(Hd & Hb1 & Hlt)]).
  - exists s1. split; [|done]. apply rtc_once. exists c. split; [done|by apply step_irq].
  - destruct (IH _ Hlt s1 eq_refl Hb1) as (s2 & Hr & Em2 & Ei2 & Hd2).
    exists s2. split; [|split; [congruence|split; [intros; rewrite Ei2; auto|done]]].
    eapply rtc_l; [|exact Hr]. exists c. split; [done|by apply step_irq].
Qed.

(** A handler that has let its caller go on ends by itself. *)
Lemma irq_run n c s :
  unacked (irq s c) = false → ∃ s', rtc (steps_of n (eq c)) s s' ∧ main s' = main s ∧ irq s' c = NoIrq ∧ ipi_done s' = ipi_done s.
Proof.
  assert (∀ i s1, ipi_step c s1 = Some i → steps_of n (eq c) s1 i) as Hst.
  { intros i s1 E. exists c. split; [done|by apply step_irq]. }
  assert (∀ f d s1, irq s1 c = Call f d false →
    ∃ s', rtc (steps_of n (eq c)) s1 s' ∧ main s' = main s1 ∧ irq s' c = NoIrq ∧ ipi_done s' = ipi_done s1) as Hcall.
  { intros f d s1 E1. eexists. split; [|split; [|split]].
    - eapply rtc_l; [apply Hst; unfold ipi_step; by rewrite E1|].
      eapply rtc_l; [apply Hst; unfold ipi_step; cbn; by rewrite upd_spec, decide_True|]. apply rtc_refl.
    - done.
    - cbn. by rewrite !upd_spec, !decide_True.
    - done. }
  intros Hu. destruct (irq s c) as [| |f|f d|f d|f d|f d []|[]| |] eqn:Ei; try done.
  - exists s. by split.
  - destruct (Hcall f d (set_irq c (Call f d false) s)) as (s' & Hr & Em & En & Ed).
    { cbn. by rewrite upd_spec, decide_True. }
    exists s'. split; [|done]. eapply rtc_l; [apply Hst; unfold ipi_step; by rewrite Ei|exact Hr].
  - destruct (Hcall f d s Ei) as (s' & Hr). by exists s'.
  - eexists. split; [apply rtc_once, Hst; unfold ipi_step; by rewrite Ei|]. split; [done|]. cbn.
    by rewrite upd_spec, decide_True.
  - eexists. split; [apply rtc_once, Hst; unfold ipi_step; by rewrite Ei|]. split; [done|]. cbn.
    by rewrite upd_spec, decide_True.
Qed.

Lemma steps_of_mono n (p q : nat → Prop) s s' :
  (∀ c, p c → q c) → rtc (steps_of n p) s s' → rtc (steps_of n q) s s'.
Proof.
  intros Hpq. induction 1 as [|x y z (c & Hc & H) _ IH]; [done|].
  eapply rtc_l; [|exact IH]. exists c. auto.
Qed.
Lemma inv_steps n p s s' : inv s → rtc (steps_of n p) s s' → inv s'.
Proof.
  intros I Hr. induction Hr as [|x y z (c & Hc & H) _ IH]; [done|]. apply IH.
  destruct H as [r s Hrn Em Hi|s s' Hi E|s s' E]; [by apply inv_main_only; rewrite ?Em|by eapply inv_on_cpu_step|by eapply inv_ipi_step].
Qed.

(** ** The properties *)

(** C26: Refinement of a queue per CPU.  Under every interleaving, each CPU has called
    exactly the functions it was asked to call, each once, with its own argument
    and in the order of the requests, except for those still in flight to it: at
    most one in its handler and one pending.  Stores to [ipi_function], [ipi_data]
    and [ipi_wait] never reach a handler of another request, and no interrupt is
    lost. *)
Theorem smp_calls_in_order n s c :
  rtc (smp_step n) smp_start s →
  sent s c = ran s c ++ inflight s c ∧ (length (inflight s c) ≤ 2)%nat ∧
  (∀ a b, holding (main s a) ≠ None → holding (main s b) ≠ None → a = b).
Proof.
  intros Hr. pose proof (inv_reachable n s Hr) as I. split; [apply (i_fifo _ I)|]. split; [|apply (i_one _ I)].
  unfold inflight. rewrite length_app. destruct (irq s c), (pending s c); cbn; lia.
Qed.

(** C27: [on_cpu] is synchronous: when the caller gets past its wait, everything its
    target was ever asked to call has been called.  When the wait of [on_cpus] ends,
    that holds for all CPUs: each has called the function, once its calls are made. *)
Theorem smp_calls_complete n s :
  rtc (smp_step n) smp_start s →
  (∀ a r, main s a = Unlock r → r_wait r = true → ran s (r_cpu r) = sent s (r_cpu r)) ∧
  1 ≤ active_cpus s ∧ (on_cpus_wait (active_cpus s) = false → ∀ c, (c < n)%nat → ran s c = sent s c) ∧
  (∀ f d, Forall (λ r, r_msg r ∈ sent s (r_cpu r)) (on_cpus_calls n f d) → on_cpus_wait (active_cpus s) = false →
    ∀ c, (c < n)%nat → (f, d) ∈ ran s c).
Proof.
  intros Hr. pose proof (inv_reachable n s Hr) as I. destruct (inv_active_reachable n s Hr) as [_ Ha].
  assert (∀ c, inflight s c = [] → ran s c = sent s c) as Hn.
  { intros c E. by rewrite (i_fifo _ I), E, app_nil_r. }
  assert (∀ c, 0 ≤ counted_main (main s c)) as N1 by (intros c; by destruct (main s c)).
  assert (∀ c, 0 ≤ counted_irq (irq s c)) as N2 by (intros c; by destruct (irq s c)).
  assert (∀ c, 0 ≤ Z.b2z (pending s c)) as N3 by (intros c; by destruct (pending s c)).
  pose proof (total_nonneg n _ N1) as T1. pose proof (total_nonneg n _ N2) as T2. pose proof (total_nonneg n _ N3) as T3.
  unfold counted in Ha.
  assert (on_cpus_wait (active_cpus s) = false → ∀ c, (c < n)%nat → ran s c = sent s c) as Hall.
  { intros Hle%Z.ltb_ge c Hc. apply Hn.
    pose proof (total_zero n _ c N2 ltac:(lia) Hc) as Z2. pose proof (total_zero n _ c N3 ltac:(lia) Hc) as Z3.
    cbn in Z2, Z3. unfold inflight. destruct (irq s c), (pending s c); done. }
  split; [|split; [lia|split; [exact Hall|]]].
  - intros a r E Hw. apply Hn. pose proof (i_synced _ I a) as H. rewrite E in H. by apply H.
  - intros f d Hf Hle c Hc. rewrite Hall by done. rewrite Forall_forall in Hf.
    apply (Hf (on_cpu_async c f d)). unfold on_cpus_calls. apply list_elem_of_fmap. exists c. split; [done|].
    apply elem_of_reverse, elem_of_seq. lia.
Qed.

(** C28: No caller is stuck.  In every reachable state in which a CPU waits for
    [ipi_done], steps of its target and of itself alone take it past the wait. *)
Theorem smp_wait_ends n s a r :
  rtc (smp_step n) smp_start s → main s a = Wait r →
  ∃ s', rtc (steps_of n (λ c, c = a ∨ c = r_cpu r)) s s' ∧ main s' a = Unlock r ∧
    (r_wait r = true → ran s' (r_cpu r) = sent s' (r_cpu r)).
Proof.
  intros Hr Ew. pose proof (inv_reachable n s Hr) as I.
  assert (∃ s1, rtc (steps_of n (eq (r_cpu r))) s s1 ∧ main s1 = main s ∧ ipi_done s1 = true) as (s1 & R1 & M1 & D1).
  { destruct (ipi_done s) eqn:Hd; [by exists s|].
    destruct (ack_run n (r_cpu r) s (i_wait _ I a r Ew Hd)) as (s1 & ? & ? & _ & ?). by exists s1. }
  pose proof (inv_steps _ _ _ _ I R1) as I1.
  destruct (irq_run n a s1) as (s2 & R2 & M2 & E2 & D2).
  { destruct (unacked (irq s1 a)) eqn:E; [|done].
    destruct (i_busy _ I1 a ltac:(by right)) as (b & q & _ & _ & H). congruence. }
  pose proof (inv_steps _ _ _ _ I1 R2) as I2.
  assert (on_cpu_step a s2 = Some (set_main a (Unlock r) s2)) as E3.
  { unfold on_cpu_step. by rewrite M2, M1, Ew, D2, D1. }
  exists (set_main a (Unlock r) s2). split; [|split].
  - apply (steps_of_mono n _ (λ c, c = a ∨ c = r_cpu r)) in R1; [|auto].
    apply (steps_of_mono n _ (λ c, c = a ∨ c = r_cpu r)) in R2; [|auto].
    etransitivity; [exact R1|]. etransitivity; [exact R2|].
    apply rtc_once. exists a. split; [by left|by apply step_main].
  - cbn. by rewrite upd_spec, decide_True.
  - intros Hw. pose proof (inv_on_cpu_step _ _ _ I2 E2 E3) as I3.
    pose proof (i_synced _ I3 a) as H. cbn in H. rewrite upd_spec, decide_True in H by done.
    rewrite (i_fifo _ I3 (r_cpu r)), (H Hw), app_nil_r. done.
Qed.

(** ** The theorems at a concrete run *)
(** CPU 0 asks CPU 1 to call function 0x40 with argument 7 and waits. *)
Definition demo_request : request := on_cpu 1 0x40 7.
Fixpoint run_main (k c : nat) (s : smp) : smp :=
  match k with O => s | S k => match on_cpu_step c s with Some s' => run_main k c s' | None => s end end.
Fixpoint run_irq (k c : nat) (s : smp) : smp :=
  match k with O => s | S k => match ipi_step c s with Some s' => run_irq k c s' | None => s end end.
Lemma run_main_reach n k c s : (c < n)%nat → irq s c = NoIrq → rtc (smp_step n) s (run_main k c s).
Proof.
  intros Hc. revert s. induction k as [|k IH]; intros s Hi; cbn; [done|].
  destruct (on_cpu_step c s) as [s'|] eqn:E; [|done]. eapply rtc_l; [exists c; split; [done|by apply step_main]|].
  apply IH. unfold on_cpu_step in E. destruct (main s c); simplify_eq; try done; by case_match.
Qed.
Lemma run_irq_reach n k c s : (c < n)%nat → rtc (smp_step n) s (run_irq k c s).
Proof.
  intros Hc. revert s. induction k as [|k IH]; intros s; cbn; [done|].
  destruct (ipi_step c s) as [s'|] eqn:E; [|done]. eapply rtc_l; [exists c; split; [done|by apply step_irq]|]. apply IH.
Qed.

(** The interrupt has been sent; then the call is complete. *)
Definition demo_sent : smp := run_main 8 0 (set_main 0 (Lock demo_request) smp_start).
Definition demo_complete : smp := run_main 1 0 (run_irq 10 1 demo_sent).
Lemma demo_sent_reach : rtc (smp_step 2) smp_start demo_sent.
Proof.
  eapply rtc_l; [exists 0%nat; split; [lia|]; apply (step_start 2 0 demo_request); [cbn; lia|done|done]|].
  by apply run_main_reach; [lia|].
Qed.
Lemma demo_complete_reach : rtc (smp_step 2) smp_start demo_complete.
Proof.
  etransitivity; [apply demo_sent_reach|]. etransitivity; [exact (run_irq_reach 2 10 1 demo_sent ltac:(lia))|].
  apply run_main_reach; [lia|]. vm_compute. reflexivity.
Qed.

Lemma smp_calls_in_order_witness :
  rtc (smp_step 2) smp_start demo_sent ∧ sent demo_sent 1 = [(0x40, 7)] ∧ ran demo_sent 1 = [] ∧
  sent demo_sent 1 = ran demo_sent 1 ++ inflight demo_sent 1.
Proof.
  split; [exact demo_sent_reach|]. split; [vm_compute; reflexivity|]. split; [vm_compute; reflexivity|].
  apply (smp_calls_in_order 2 demo_sent 1 demo_sent_reach).
Defined.
Lemma smp_calls_complete_witness :
  main demo_complete 0%nat = Unlock demo_request ∧ ran demo_complete 1%nat = sent demo_complete 1%nat ∧
  sent demo_complete 1%nat = [(0x40, 7)].
Proof.
  split; [vm_compute; reflexivity|]. split; [|vm_compute; reflexivity].
  apply (proj1 (smp_calls_complete 2 demo_complete demo_complete_reach) 0%nat demo_request); vm_compute; reflexivity.
Defined.
Lemma smp_wait_ends_witness :
  ∃ s', rtc (steps_of 2 (λ c, c = 0%nat ∨ c = 1%nat)) demo_sent s' ∧ main s' 0%nat = Unlock demo_request.
Proof.
  destruct (smp_wait_ends 2 demo_sent 0 demo_request) as (s' & Hr & Hm & _).
  - exact demo_sent_reach.
  - vm_compute. reflexivity.
  - exists s'. split; [exact Hr|exact Hm].
Defined.
