(* ===== verification/SmpInit.v ===== *)
(** Starting the CPUs: [smp_init] of lib/x86/smp.c, on the exceptions of Desc.v and the
    firmware device of Fwcfg.v.

    Here one CPU calls the others one after the other, so [on_cpu] is its effect as
    [smp_calls_complete] of Smp.v establishes it: the function has run on its target
    when it returns.  Each CPU has its word at %gs:0, which the function called
    stores the CPU's APIC id in; the APIC id of a CPU is a parameter. *)
From Stdlib Require Import ZArith Lia Bool.
From stdpp Require Import functions.
From S2P Require Import Prelude Libcflat Spinlock Stack Desc Fwcfg.
#[local] Open Scope Z_scope.

Definition IPI_VECTOR : Z := 0x20.

Record cpus := Cpus {
  _cpu_count : Z;
  active : Z;
  gs_id : Z → Z;        (* the word at %gs:0 of each CPU *)
  c_desc : desc;
  c_fw : fwcfg
}.
Definition set_count (x : Z) (s : cpus) : cpus := Cpus x (active s) (gs_id s) (c_desc s) (c_fw s).
Definition set_active (x : Z) (s : cpus) : cpus := Cpus (_cpu_count s) x (gs_id s) (c_desc s) (c_fw s).
Definition set_gs_id (x : Z → Z) (s : cpus) : cpus := Cpus (_cpu_count s) (active s) x (c_desc s) (c_fw s).
Definition set_desc (x : desc) (s : cpus) : cpus := Cpus (_cpu_count s) (active s) (gs_id s) x (c_fw s).
Definition set_fw (x : fwcfg) (s : cpus) : cpus := Cpus (_cpu_count s) (active s) (gs_id s) (c_desc s) x.

Section code.
Context (im : image) (item : Z → Z → Z) (apic_id : Z → Z) (ipi_entry : Z).
Abbreviation M := (stM cpus).

Definition cpu_count : M Z := gets _cpu_count.
(** On CPU [self]. *)
Definition smp_id (self : Z) : M Z := gets (λ s, gs_id s self).
Definition setup_smp_id (self : Z) : M unit := modify (λ s, set_gs_id (<[self := u32 (apic_id self)]> (gs_id s)) s).

(** [on_cpu(cpu, function, data)] called on CPU [self]. *)
Definition on_cpu (self cpu : Z) (function : Z → M unit) : M unit :=
  id ← smp_id self;
  if cpu =? s32 id then function self
  else
    modify (λ s, set_active (active s + 1) s);;
    function cpu;;
    modify (λ s, set_active (active s - 1) s).

Definition smp_init (self : Z) : M unit :=
  n ← zoom c_fw set_fw (fwcfg_get_nb_cpus item);
  modify (set_count n);;
  zoom c_desc set_desc (setup_idt im);;
  zoom c_desc set_desc (set_idt_entry im IPI_VECTOR ipi_entry 0);;
  setup_smp_id self;;
  c ← cpu_count;
  for_up (Z.to_nat (c - 1)) 1 (λ i, on_cpu self i setup_smp_id);;
  modify (λ s, set_active (active s + 1) s).
End code.

(** ** Proofs *)
Lemma id_loop_ok apic_id n s :
  (∀ i, 0 ≤ i < Z.of_nat n + 1 → apic_id i = i) → Z.of_nat n + 1 ≤ 2 ^ 16 → gs_id s 0 = 0 →
  ∃ ids, for_up n 1 (λ i, on_cpu 0 i (setup_smp_id apic_id)) s = Done (tt, set_gs_id ids s) ∧
    ∀ i, 0 ≤ i < Z.of_nat n + 1 → ids i = i.
Proof.
  intros Ha Hn H0.
  destruct (for_up_rule (λ i t, ∃ ids, t = set_gs_id ids s ∧ ∀ k, 0 ≤ k < i → ids k = k)
    (λ i, on_cpu 0 i (setup_smp_id apic_id)) n 1 s) as (t & E & ids & -> & H).
  - exists (gs_id s). split; [by destruct s|]. intros k Hk. by replace k with 0 by lia.
  - intros i t Hi (ids & -> & H). exists (set_gs_id (<[i := i]> ids) s). split.
    + unfold on_cpu, smp_id. rewrite bind_gets. cbn [gs_id set_gs_id]. rewrite (H 0) by lia.
      change (s32 0) with 0. rewrite (proj2 (Z.eqb_neq i 0)) by lia.
      rewrite bind_modify. unfold setup_smp_id. rewrite bind_modify. unfold modify. cbn.
      rewrite Ha, u32_small by (unfold in_u32; lia). destruct s; cbn. by rewrite Z.add_simpl_r.
    + eexists. split; [done|]. intros k Hk. destruct (decide (k = i)) as [->|].
      * by rewrite fn_lookup_insert.
      * rewrite fn_lookup_insert_ne by done. apply H. lia.
  - exists ids. split; [exact E|]. intros i Hi. apply H. lia.
Qed.

(** After [smp_init] on the boot processor the firmware's number of CPUs is known,
    every one of them answers [smp_id] with its own number, the exceptions have
    their gates and handlers, vector 0x20 is the gate to [ipi_entry], and one CPU is
    counted as active: the state Smp.v starts in. *)
Theorem smp_init_correct im item apic_id ipi_entry s :
  let n := le_value (item_bytes item FW_CFG_NB_CPUS 0 2) in
  1 ≤ n → (∀ i, 0 ≤ i < n → apic_id i = i) → fw_lock (c_fw s) = 0 → desc_ok (c_desc s) →
  idt_initialized (c_desc s) = false → active s = 0 → in_u64 ipi_entry →
  ∃ s', smp_init im item apic_id ipi_entry 0 s = Done (tt, s') ∧ _cpu_count s' = n ∧ active s' = 1 ∧
    (∀ i, 0 ≤ i < n → smp_id i s' = Done (i, s')) ∧ desc_ok (c_desc s') ∧ idt_initialized (c_desc s') = true ∧
    (∃ e, boot_idt (c_desc s') !! 0x20%nat = Some e ∧ get_idt_addr e = ipi_entry ∧ entry_gate e) ∧
    exception_handlers (c_desc s') !! 13%nat = Some (Some check_exception_table).
Proof.
  intros n Hn Ha Hfw Hok Hi Hact He.
  pose proof (le_value_bytes item FW_CFG_NB_CPUS 0 2) as Hr. fold n in Hr.
  destruct (setup_idt_ok im (c_desc s)) as (idt' & E2 & Hlen & _); [by destruct Hok..|done|].
  destruct (desc_ok_setup_idt im (c_desc s) Hok) as (d2 & E2' & Hok2).
  assert (d2 = set_handlers (with_tables (exception_handlers (c_desc s))) (set_boot_idt idt' (set_idt_initialized true (c_desc s))))
    as Ed2 by congruence.
  set (f1 := Fwcfg 0 FW_CFG_NB_CPUS 2).
  assert (fwcfg_get_nb_cpus item (c_fw s) = Done (n, f1)) as E1.
  { unfold fwcfg_get_nb_cpus, fwcfg_get_u16. change (u16 FW_CFG_NB_CPUS) with FW_CFG_NB_CPUS.
    rewrite (stM_bind_Done _ _ _ _ _ (fwcfg_get_u_ok item FW_CFG_NB_CPUS 2 _ Hfw ltac:(lia))).
    fold n. unfold u16. by rewrite Z.mod_small by lia. }
  pose proof (set_idt_entry_ok im IPI_VECTOR ipi_entry 0 d2 ltac:(rewrite (dk_idt _ Hok2); unfold IPI_VECTOR; lia)) as E3.
  destruct (desc_ok_set im IPI_VECTOR ipi_entry 0 d2 Hok2 ltac:(unfold IPI_VECTOR; lia)) as (d3 & E3' & Hok3).
  rewrite E3 in E3'. injection E3' as Ed3.
  set (s1 := Cpus n (active s) (<[0 := 0]> (gs_id s)) d3 f1).
  destruct (id_loop_ok apic_id (Z.to_nat (n - 1)) s1) as (ids & E4 & Hids); [intros; apply Ha; lia|lia|by cbn; rewrite fn_lookup_insert|].
  exists (set_active (active s + 1) (set_gs_id ids s1)). split_and!.
  - unfold smp_init. rewrite (bind_zoom _ _ _ _ _ _ _ E1), bind_modify.
    erewrite bind_zoom; [|exact E2'].
    erewrite bind_zoom; [|exact E3]. rewrite Ed3.
    erewrite (stM_bind_Done (setup_smp_id apic_id 0)); [|reflexivity]. unfold cpu_count. rewrite bind_gets. cbn [_cpu_count set_gs_id set_desc set_count set_fw].
    rewrite (Ha 0), u32_small by (unfold in_u32; lia).
    match goal with |- (_ ≫= _) ?t = _ => change t with s1 end.
    by rewrite (stM_bind_Done _ _ _ _ _ E4).
  - done.
  - cbn. lia.
  - intros i Hin. unfold smp_id, gets. cbn. rewrite Hids by lia. done.
  - done.
  - cbn. rewrite <- Ed3, Ed2. done.
  - exists (gate im ipi_entry 0). split; [|split].
    + cbn. rewrite <- Ed3. cbn. apply list_lookup_insert_eq. rewrite (dk_idt _ Hok2). unfold IPI_VECTOR. lia.
    + destruct (gate_fields im ipi_entry 0) as [-> _]. by apply Z.mod_small.
    + apply gate_ok.
  - cbn. rewrite <- Ed3, Ed2. cbn. unfold with_tables. apply list_lookup_insert_eq. rewrite !length_insert, (dk_handlers _ Hok). lia.
Qed.

(** Four CPUs. *)
Lemma smp_init_correct_witness :
  ∃ s', smp_init demo_image (λ _ pos, if pos =? 0 then 4 else 0) (λ i, i) 0x500300 0
      (Cpus 0 0 (λ _, 0) demo_desc (Fwcfg 0 0 0)) = Done (tt, s') ∧
    _cpu_count s' = 4 ∧ smp_id 3 s' = Done (3, s').
Proof.
  destruct (smp_init_correct demo_image (λ _ pos, if pos =? 0 then 4 else 0) (λ i, i) 0x500300
    (Cpus 0 0 (λ _, 0) demo_desc (Fwcfg 0 0 0))) as (s' & E & Hn & _ & Hid & _).
  - vm_compute. discriminate.
  - done.
  - reflexivity.
  - apply demo_desc_ok.
  - reflexivity.
  - reflexivity.
  - unfold in_u64. lia.
  - exists s'. split; [exact E|]. split; [exact Hn|]. apply Hid. vm_compute. split; [discriminate|reflexivity].
Defined.
