(* ===== verification/Monitor.v ===== *)
(** The text console: driver/monitor.c.

    [mstate] holds the file's statics (the cursor), the 80x25 words of video
    memory at 0xB8000 and the port writes made so far, newest first, as pairs of
    port and value.  A character is a [char], a number from -128 to 127.  The
    second half compares the code with a terminal: a screen of 2000 cells and a
    position on it. *)
From Stdlib Require Import ZArith Lia Bool.
From S2P Require Import Prelude.
#[local] Open Scope Z_scope.

(** [enum mcolor] *)
Inductive mcolor : Set :=
| MC_BLACK | MC_DARK_BLUE | MC_DARK_GREEN | MC_DARK_CYAN | MC_DARK_RED | MC_DARK_MAGENTA
| MC_DARK_YELLOW | MC_LIGHT_GREY | MC_DARK_GREY | MC_LIGHT_BLUE | MC_LIGHT_GREEN
| MC_LIGHT_CYAN | MC_LIGHT_RED | MC_LIGHT_MAGENTA | MC_LIGHT_YELLOW | MC_WHITE.
Definition mcolor_val (c : mcolor) : Z :=
  match c with
  | MC_BLACK => 0 | MC_DARK_BLUE => 1 | MC_DARK_GREEN => 2 | MC_DARK_CYAN => 3
  | MC_DARK_RED => 4 | MC_DARK_MAGENTA => 5 | MC_DARK_YELLOW => 6 | MC_LIGHT_GREY => 7
  | MC_DARK_GREY => 8 | MC_LIGHT_BLUE => 9 | MC_LIGHT_GREEN => 10 | MC_LIGHT_CYAN => 11
  | MC_LIGHT_RED => 12 | MC_LIGHT_MAGENTA => 13 | MC_LIGHT_YELLOW => 14 | MC_WHITE => 15
  end.

Record mstate := MState {
  video_memory : list Z;
  cursor_x : Z;
  cursor_y : Z;
  outs : list (Z * Z)
}.
Abbreviation M := (stM mstate).

Definition set_video (v : list Z) (s : mstate) : mstate := MState v (cursor_x s) (cursor_y s) (outs s).
Definition set_x (x : Z) (s : mstate) : mstate := MState (video_memory s) x (cursor_y s) (outs s).
Definition set_y (y : Z) (s : mstate) : mstate := MState (video_memory s) (cursor_x s) y (outs s).

Definition video_get (i : Z) : M Z := s ← get; lift (arr_get (video_memory s) i).
Definition video_set (i v : Z) : M unit :=
  s ← get; m ← lift (arr_set (video_memory s) i v); modify (set_video m).
Definition outb (value port : Z) : M unit :=
  modify (λ s, MState (video_memory s) (cursor_x s) (cursor_y s) ((port, u8 value) :: outs s)).

Definition move_cursor : M unit :=
  s ← get;
  let cursorLocation := u16 (cursor_y s * 80 + cursor_x s) in
  outb 14 0x3D4;;
  outb (Z.shiftr cursorLocation 8) 0x3D5;;
  outb 15 0x3D4;;
  outb cursorLocation 0x3D5.

(** The word of a space in white on black. *)
Definition blank : Z :=
  let attribute_byte := u8 (Z.lor (Z.shiftl 0 4) (Z.land 15 0x0F)) in
  u16 (Z.lor 0x20 (Z.shiftl attribute_byte 8)).

Definition scroll : M unit :=
  y ← gets cursor_y;
  when (25 <=? y)
    (for_up (24 * 80) (0 * 80) (λ i, w ← video_get (i + 80); video_set i w);;
     for_up (25 * 80 - 24 * 80) (24 * 80) (λ i, video_set i blank);;
     modify (set_y 24)).

Definition monitor_put (c : Z) (bc fc : mcolor) : M unit :=
  let bcolor := u8 (mcolor_val bc) in
  let fcolor := u8 (mcolor_val fc) in
  let attribute_byte := u8 (Z.lor (Z.shiftl bcolor 4) (Z.land fcolor 0x0F)) in
  let attribute := u16 (Z.shiftl attribute_byte 8) in
  x ← gets cursor_x;
  y ← gets cursor_y;
  (if (c =? 0x08) && negb (x =? 0) then modify (set_x (u8 (x - 1)))
   else if c =? 0x09 then modify (set_x (u8 (Z.land (x + 8) (Z.lnot (8 - 1)))))
   else if c =? 13 then modify (set_x 0)
   else if c =? 10 then modify (set_x 0);; modify (set_y (u8 (y + 1)))
   else if 32 <=? c then
     video_set (y * 80 + x) (u16 (Z.lor c attribute));;
     modify (set_x (u8 (x + 1)))
   else mret tt);;
  x ← gets cursor_x;
  y ← gets cursor_y;
  when (80 <=? x) (modify (set_x 0);; modify (set_y (u8 (y + 1))));;
  scroll;;
  move_cursor.

Definition monitor_clear : M unit :=
  for_up (80 * 25) 0 (λ i, video_set i blank);;
  modify (set_x 0);;
  modify (set_y 0);;
  move_cursor.

(** [str] is the memory the pointer points to. *)
Fixpoint monitor_write_color (str : list Z) (bc fc : mcolor) : M unit :=
  match str with
  | [] => lift Fault
  | c :: str => if c =? 0 then mret tt else monitor_put c bc fc;; monitor_write_color str bc fc
  end.

Definition monitor_write (str : list Z) : M unit := monitor_write_color str MC_BLACK MC_WHITE.

Definition put_digit (tmp : Z) (bc fc : mcolor) : M unit :=
  if 0xA <=? tmp then monitor_put (tmp - 0xA + 97) bc fc else monitor_put (tmp + 48) bc fc.

(** [for (i = 28; i > 0; i -= 4)], with [i = 4 * k]. *)
Fixpoint write_hex_loop (k : nat) (n no_zeroes : Z) (bc fc : mcolor) : M unit :=
  match k with
  | O => mret tt
  | S k' =>
    let tmp := Z.land (Z.shiftr n (4 * Z.of_nat k)) 0xF in
    if (tmp =? 0) && negb (no_zeroes =? 0) then write_hex_loop k' n no_zeroes bc fc
    else put_digit tmp bc fc;; write_hex_loop k' n 0 bc fc
  end.

Definition monitor_write_hex (n : Z) (bc fc : mcolor) : M unit :=
  monitor_write_color (cstr "0x") bc fc;;
  write_hex_loop 7 n 1 bc fc;;
  put_digit (Z.land n 0xF) bc fc.

(** [while (acc > 0) { c[i] = '0' + acc % 10; acc /= 10; i++; }] *)
Definition dec_digits (fuel : nat) (st : Z * Z * list Z) : outcome (Z * Z * list Z) :=
  while_loop fuel (λ '(acc, i, c), 0 <? acc)
    (λ '(acc, i, c), c ← arr_set c i (48 + acc mod 10); mret (acc / 10, i + 1, c)) st.

(** [while (i >= 0) c2[i--] = c[j++];] *)
Definition dec_reverse (fuel : nat) (c : list Z) (st : Z * Z * list Z) : outcome (Z * Z * list Z) :=
  while_loop fuel (λ '(i, j, c2), 0 <=? i)
    (λ '(i, j, c2), d ← arr_get c j; c2 ← arr_set c2 i d; mret (i - 1, j + 1, c2)) st.

(** The arrays are not initialised: [c0] and [c20] are what they happen to hold. *)
Definition monitor_write_dec (c0 c20 : list Z) (n : Z) (bc fc : mcolor) : M unit :=
  if n =? 0 then monitor_put 48 bc fc
  else
    '(_, i, c) ← lift (dec_digits 32 (n, 0, c0));
    c ← lift (arr_set c i 0);
    c2 ← lift (arr_set c20 i 0);
    '(_, _, c2) ← lift (dec_reverse 32 c (i - 1, 0, c2));
    monitor_write_color c2 bc fc.

(** ** The terminal *)
Record term := Term { cells : list Z; pos : Z }.

(** What is in a cell: the character in the low byte, the colours above it. *)
Definition cell (c : Z) (bc fc : mcolor) : Z := c + 256 * (mcolor_val fc + 16 * mcolor_val bc).

(** Moving past the last cell drops the first line. *)
Definition term_move (p : Z) (t : list Z) : term :=
  if p <? 2000 then Term t p else Term (drop 80 t ++ replicate 80 blank) (p - 80).

Definition term_put (c : Z) (bc fc : mcolor) (t : term) : term :=
  let p := pos t in
  if c =? 8 then Term (cells t) (if p mod 80 =? 0 then p else p - 1)
  else if c =? 9 then term_move ((p / 8 + 1) * 8) (cells t)
  else if c =? 13 then Term (cells t) (p / 80 * 80)
  else if c =? 10 then term_move ((p / 80 + 1) * 80) (cells t)
  else if 32 <=? c then term_move (p + 1) (<[Z.to_nat p := cell c bc fc]> (cells t))
  else t.

Definition abs (s : mstate) : term := Term (video_memory s) (cursor_y s * 80 + cursor_x s).

(** The screen has 25 lines of 80 cells and the cursor is on it. *)
Definition on_screen (s : mstate) : Prop :=
  length (video_memory s) = 2000%nat ∧ 0 ≤ cursor_x s < 80 ∧ 0 ≤ cursor_y s < 25.

(** The hardware cursor was last sent to position [p]: registers 14 and 15 of the
    CRT controller, selected through port 0x3D4, got its two bytes. *)
Definition crtc_writes (p : Z) : list (Z * Z) :=
  [(0x3D5, p mod 256); (0x3D4, 15); (0x3D5, p / 256); (0x3D4, 14)].

Lemma blank_val : blank = cell 32 MC_BLACK MC_WHITE.
Proof. reflexivity. Qed.

(** ** The code is a terminal *)
Lemma video_get_ok s i :
  0 ≤ i < Z.of_nat (length (video_memory s)) →
  ∃ w, video_memory s !! Z.to_nat i = Some w ∧ video_get i s = Done (w, s).
Proof.
  intros Hi. destruct (arr_get_in (video_memory s) i Hi) as (w & E & Eg).
  exists w. split; [done|]. unfold video_get. mrun. unfold lift. by rewrite Eg.
Qed.
Lemma video_set_ok s i v :
  0 ≤ i < Z.of_nat (length (video_memory s)) →
  video_set i v s = Done (tt, set_video (<[Z.to_nat i := v]> (video_memory s)) s).
Proof. intros Hi. unfold video_set. mrun. rewrite arr_set_ok by done. by mrun. Qed.

(** Both loops of [scroll] and the one of [monitor_clear] rewrite a prefix, word by
    word: [f k] is what the word [k] becomes. *)
Lemma video_loop_ok (body : Z → M unit) (f : nat → Z) n lo s :
  0 ≤ lo → lo + Z.of_nat n ≤ Z.of_nat (length (video_memory s)) →
  (∀ i t, lo ≤ i < lo + Z.of_nat n → length (video_memory t) = length (video_memory s) →
     (∀ k, Z.of_nat k < lo ∨ i ≤ Z.of_nat k → video_memory t !! k = video_memory s !! k) →
     body i t = Done (tt, set_video (<[Z.to_nat i := f (Z.to_nat i)]> (video_memory t)) t)) →
  ∃ v, for_up n lo body s = Done (tt, set_video v s) ∧ length v = length (video_memory s) ∧
    ∀ k, v !! k = if decide (lo ≤ Z.of_nat k < lo + Z.of_nat n) then Some (f k) else video_memory s !! k.
Proof.
  intros Hlo Hlen Hbody.
  destruct (for_up_rule (λ i t, ∃ v, t = set_video v s ∧ length v = length (video_memory s) ∧
      ∀ k, v !! k = if decide (lo ≤ Z.of_nat k < i) then Some (f k) else video_memory s !! k)
    body n lo s) as (s' & E & v & -> & Hv & Hk).
  - exists (video_memory s). split; [by destruct s|]. split; [done|].
    intros k. by rewrite decide_False by lia.
  - intros i t Hi (v & -> & Hv & Hk).
    rewrite Hbody; [|lia|done|].
    + eexists. split; [reflexivity|]. eexists. split; [reflexivity|]. cbn [video_memory set_video].
      split; [by rewrite length_insert|]. intros k.
      destruct (decide (k = Z.to_nat i)) as [->|Hne].
      * rewrite list_lookup_insert_eq by lia. by rewrite decide_True by lia.
      * rewrite list_lookup_insert_ne by done. rewrite Hk.
        destruct (decide (lo ≤ Z.of_nat k < i)); [by rewrite decide_True by lia|].
        by rewrite decide_False by lia.
    + intros k Hk'. cbn [video_memory set_video]. rewrite Hk. by rewrite decide_False by lia.
  - exists v. split; [exact E|]. by split.
Qed.

Lemma scroll_below s : cursor_y s < 25 → scroll s = Done (tt, s).
Proof. intros H. unfold scroll. mrun. by rewrite (proj2 (Z.leb_gt _ _)). Qed.

Lemma scroll_ok s :
  length (video_memory s) = 2000%nat → 25 ≤ cursor_y s →
  scroll s = Done (tt, MState (drop 80 (video_memory s) ++ replicate 80 blank) (cursor_x s) 24 (outs s)).
Proof.
  intros Hlen Hy. unfold scroll. mrun. rewrite (proj2 (Z.leb_le _ _)) by done. cbn [when].
  destruct (video_loop_ok (λ i, w ← video_get (i + 80); video_set i w)
    (λ k, default 0 (video_memory s !! (k + 80)%nat)) (24 * 80) (0 * 80) s)
    as (v & E & Hv & Hk); [lia..| |].
  { intros i t Hi Ht Hsame.
    destruct (video_get_ok t (i + 80)) as (w & Ew & Eg); [lia|].
    rewrite (stM_bind_Done _ _ _ _ _ Eg), video_set_ok by lia.
    rewrite Hsame in Ew by lia. replace (Z.to_nat (i + 80)) with (Z.to_nat i + 80)%nat in Ew by lia.
    by rewrite Ew. }
  rewrite (stM_bind_Done _ _ _ _ _ E).
  destruct (video_loop_ok (λ i, video_set i blank) (λ _, blank) (25 * 80 - 24 * 80) (24 * 80)
    (set_video v s)) as (v' & E' & Hv' & Hk'); [lia|cbn; lia| |].
  { intros i t Hi Ht _. apply video_set_ok. rewrite Ht. cbn [video_memory set_video]. lia. }
  mrun. rewrite (stM_bind_Done _ _ _ _ _ E'). unfold modify, set_y. cbn [video_memory set_video cursor_x outs].
  do 3 f_equal. apply list_eq. intros k. rewrite Hk'. cbn [video_memory set_video]. rewrite Hk.
  destruct (decide (k < 1920)%nat).
  - rewrite lookup_app_l by (rewrite length_drop; lia).
    rewrite decide_False, decide_True, lookup_drop by lia. rewrite Nat.add_comm.
    destruct (lookup_lt_is_Some_2 (video_memory s) (80 + k)) as [w ->]; [lia|done].
  - rewrite lookup_app_r by (rewrite length_drop; lia). rewrite length_drop, Hlen.
    destruct (decide (k < 2000)%nat).
    + rewrite decide_True by lia. symmetry. apply lookup_replicate. split; [done|lia].
    + rewrite !decide_False by lia. rewrite (lookup_ge_None_2 (video_memory s)) by lia.
      symmetry. apply lookup_ge_None_2. rewrite length_replicate. lia.
Qed.

Lemma move_cursor_ok s :
  on_screen s →
  move_cursor s = Done (tt, MState (video_memory s) (cursor_x s) (cursor_y s)
    (crtc_writes (cursor_y s * 80 + cursor_x s) ++ outs s)).
Proof.
  intros (_ & Hx & Hy). unfold move_cursor, outb. mrun. unfold modify.
  cbn [video_memory cursor_x cursor_y outs].
  set (p := cursor_y s * 80 + cursor_x s).
  assert (u16 p = p) as -> by (unfold u16; apply Z.mod_small; lia).
  rewrite Z.shiftr_div_pow2 by lia. unfold crtc_writes, u8.
  rewrite (Z.mod_small (p / 2 ^ 8)).
  - reflexivity.
  - split; [apply Z.div_pos; lia|]. apply Z.div_lt_upper_bound; lia.
Qed.

(** The end of [monitor_put], from any position up to one past the screen. *)
Definition settle : M unit :=
  x ← gets cursor_x;
  y ← gets cursor_y;
  when (80 <=? x) (modify (set_x 0);; modify (set_y (u8 (y + 1))));;
  scroll;;
  move_cursor.

Lemma settle_ok v x y o :
  length v = 2000%nat → 0 ≤ x ≤ 80 → 0 ≤ y → y * 80 + x ≤ 2000 →
  ∃ s', settle (MState v x y o) = Done (tt, s') ∧ on_screen s' ∧
    abs s' = term_move (y * 80 + x) v ∧ outs s' = crtc_writes (pos (abs s')) ++ o.
Proof.
  intros Hv Hx Hy Hp. unfold settle. mrun. cbn [cursor_x cursor_y].
  set (x1 := if 80 <=? x then 0 else x). set (y1 := if 80 <=? x then y + 1 else y).
  assert (when (80 <=? x) (modify (set_x 0);; modify (set_y (u8 (y + 1)))) (MState v x y o) =
    Done (tt, MState v x1 y1 o)) as E1.
  { unfold x1, y1. destruct (Z.leb_spec 80 x); cbn [when]; [|done]. mrun. unfold modify.
    by rewrite u8_small by lia. }
  assert (0 ≤ x1 < 80 ∧ 0 ≤ y1 ≤ 25 ∧ y1 * 80 + x1 = y * 80 + x) as (Hx1 & Hy1 & E2)
    by (unfold x1, y1; destruct (Z.leb_spec 80 x); lia).
  rewrite (stM_bind_Done _ _ _ _ _ E1). rewrite <- E2. clearbody x1 y1.
  unfold term_move.
  destruct (Z.ltb_spec (y1 * 80 + x1) 2000).
  - rewrite (stM_bind_Done _ _ _ _ _ (scroll_below (MState v x1 y1 o) ltac:(cbn; lia))).
    rewrite move_cursor_ok by (split; [done|cbn; lia]).
    eexists. split; [reflexivity|]. split; [split; [done|cbn; lia]|done].
  - assert (y1 = 25) as -> by lia. assert (x1 = 0) as -> by lia.
    rewrite (stM_bind_Done _ _ _ _ _ (scroll_ok (MState v 0 25 o) Hv ltac:(cbn; lia))).
    rewrite move_cursor_ok.
    + eexists. split; [reflexivity|]. split; [|done]. split; [|cbn; lia].
      cbn [video_memory]. rewrite length_app, length_drop, length_replicate. lia.
    + split; [|cbn; lia]. cbn [video_memory]. rewrite length_app, length_drop, length_replicate. lia.
Qed.

Lemma cell_word c bc fc :
  32 ≤ c < 128 →
  u16 (Z.lor c (u16 (Z.shiftl (u8 (Z.lor (Z.shiftl (u8 (mcolor_val bc)) 4)
    (Z.land (u8 (mcolor_val fc)) 0x0F))) 8))) = cell c bc fc.
Proof.
  intros Hc. unfold cell.
  assert (u8 (Z.lor (Z.shiftl (u8 (mcolor_val bc)) 4) (Z.land (u8 (mcolor_val fc)) 0x0F)) =
    mcolor_val fc + 16 * mcolor_val bc) as -> by (destruct bc, fc; reflexivity).
  assert (0 ≤ mcolor_val fc + 16 * mcolor_val bc < 256) as Ha by (destruct bc, fc; cbn; lia).
  set (a := mcolor_val fc + 16 * mcolor_val bc) in *.
  rewrite Z.shiftl_mul_pow2 by lia.
  rewrite (u16_small (a * 2 ^ 8)) by lia.
  assert (Z.lor c (a * 2 ^ 8) = c + 256 * a) as ->.
  { rewrite <- Z.lxor_lor, <- Z.add_nocarry_lxor; [lia|..];
      (apply Z.bits_inj'; intros i Hi; rewrite Z.land_spec, Z.testbit_0_l;
       destruct (decide (i < 8));
       [rewrite Z.mul_pow2_bits_low by lia; apply andb_false_r
       |rewrite (testbit_above 8 c) by lia; done]). }
  unfold u16. rewrite Z.mod_small by lia. done.
Qed.

(** Stepping left, to the next tab stop, to the line start and to the next line in
    terms of the column and the row. *)
Lemma tab_stop x y :
  0 ≤ x < 80 → u8 (Z.land (x + 8) (Z.lnot (8 - 1))) = (x / 8 + 1) * 8 ∧
    ((y * 80 + x) / 8 + 1) * 8 = y * 80 + (x / 8 + 1) * 8.
Proof.
  intros Hx. split.
  - assert (Z.land (x + 8) (Z.lnot (8 - 1)) = (x / 8 + 1) * 8) as ->.
    { change (8 - 1) with (Z.ones 3). rewrite <- Z.ldiff_land, Z.ldiff_ones_r by lia.
      rewrite Z.shiftr_div_pow2, Z.shiftl_mul_pow2 by lia. change (2 ^ 3) with 8.
      replace (x + 8) with (x + 1 * 8) by lia. by rewrite Z.div_add by lia. }
    unfold u8. apply Z.mod_small. pose proof (Z.div_mod x 8 ltac:(lia)).
    pose proof (Z.mod_pos_bound x 8 ltac:(lia)). lia.
  - replace (y * 80 + x) with (x + y * 10 * 8) by lia. rewrite Z.div_add by lia. lia.
Qed.

Lemma line_pos x y : 0 ≤ x < 80 → (y * 80 + x) mod 80 = x ∧ (y * 80 + x) / 80 = y.
Proof.
  intros Hx. split.
  - rewrite Z.add_comm, Z.mod_add, Z.mod_small by lia. done.
  - rewrite Z.add_comm, Z.div_add, Z.div_small by lia. lia.
Qed.

Lemma monitor_put_ok c bc fc s :
  -128 ≤ c < 128 → on_screen s →
  ∃ s', monitor_put c bc fc s = Done (tt, s') ∧ on_screen s' ∧
    abs s' = term_put c bc fc (abs s) ∧ outs s' = crtc_writes (pos (abs s')) ++ outs s.
Proof.
  intros Hc (Hlen & Hx & Hy). destruct s as [v x y o]. cbn [video_memory cursor_x cursor_y] in Hlen, Hx, Hy.
  unfold monitor_put, abs, term_put. fold settle. cbn [pos cells cursor_x cursor_y video_memory outs].
  destruct (line_pos x y Hx) as [Emod Ediv]. rewrite Emod, Ediv. mrun. cbn [cursor_x cursor_y].
  destruct (Z.eqb_spec c 8) as [->|H8]; [|destruct (Z.eqb_spec c 9) as [->|H9];
    [|destruct (Z.eqb_spec c 13) as [->|H13]; [|destruct (Z.eqb_spec c 10) as [->|H10];
      [|destruct (Z.leb_spec 32 c)]]]]; cbn [andb negb Z.eqb Z.leb Z.compare Pos.eqb Pos.compare Pos.compare_cont].
  - destruct (Z.eqb_spec x 0) as [->|Hx0]; cbn [negb andb]; mrun.
    + destruct (settle_ok v 0 y o) as (s' & E & Hs & Ea & Eo); [done|lia..|].
      exists s'. split; [exact E|]. split; [done|]. split; [|done].
      rewrite (Ea : Term _ _ = _). unfold term_move. by rewrite (proj2 (Z.ltb_lt _ _)) by lia.
    + unfold set_x. cbn [video_memory cursor_y outs].
      rewrite (u8_small (x - 1)) by lia.
      destruct (settle_ok v (x - 1) y o) as (s' & E & Hs & Ea & Eo); [done|lia..|].
      exists s'. split; [exact E|]. split; [done|]. split; [|done].
      rewrite (Ea : Term _ _ = _). unfold term_move. rewrite (proj2 (Z.ltb_lt _ _)) by lia. f_equal. lia.
  - destruct (tab_stop x y Hx) as [-> ->]. mrun. unfold set_x. cbn [video_memory cursor_y outs].
    assert (0 ≤ x / 8 < 10) by (split; [apply Z.div_pos; lia|apply Z.div_lt_upper_bound; lia]).
    destruct (settle_ok v ((x / 8 + 1) * 8) y o) as (s' & E & Hs & Ea & Eo); [done|lia..|].
    by exists s'.
  - mrun. unfold set_x. cbn [video_memory cursor_y outs].
    destruct (settle_ok v 0 y o) as (s' & E & Hs & Ea & Eo); [done|lia..|].
    exists s'. split; [exact E|]. split; [done|]. split; [|done].
    rewrite (Ea : Term _ _ = _). unfold term_move. rewrite (proj2 (Z.ltb_lt _ _)) by lia. f_equal. lia.
  - mrun. unfold set_x, set_y. cbn [video_memory cursor_x cursor_y outs].
    rewrite (u8_small (y + 1)) by lia.
    destruct (settle_ok v 0 (y + 1) o) as (s' & E & Hs & Ea & Eo); [done|lia..|].
    exists s'. split; [exact E|]. split; [done|]. split; [|done].
    rewrite (Ea : Term _ _ = _). f_equal. lia.
  - rewrite cell_word by lia. mrun.
    rewrite (stM_bind_Done _ _ _ _ _ (video_set_ok (MState v x y o) (y * 80 + x) _ ltac:(cbn [video_memory]; lia))). mrun.
    unfold set_x, set_video. cbn [video_memory cursor_x cursor_y outs].
    rewrite (u8_small (x + 1)) by lia.
    destruct (settle_ok (<[Z.to_nat (y * 80 + x) := cell c bc fc]> v) (x + 1) y o)
      as (s' & E & Hs & Ea & Eo); [by rewrite length_insert|lia..|].
    exists s'. split; [exact E|]. split; [done|]. split; [|done].
    rewrite (Ea : Term _ _ = _). f_equal. lia.
  - mrun. destruct (settle_ok v x y o) as (s' & E & Hs & Ea & Eo); [done|lia..|].
    exists s'. split; [exact E|]. split; [done|]. split; [|done].
    rewrite (Ea : Term _ _ = _). unfold term_move. by rewrite (proj2 (Z.ltb_lt _ _)) by lia.
Qed.

(** ** Strings *)
Fixpoint put_all (l : list Z) (bc fc : mcolor) : M unit :=
  match l with
  | [] => mret tt
  | c :: l => monitor_put c bc fc;; put_all l bc fc
  end.

Definition term_write (l : list Z) (bc fc : mcolor) (t : term) : term :=
  foldl (λ t c, term_put c bc fc t) t l.

Lemma put_all_ok l bc fc s :
  Forall (λ c, -128 ≤ c < 128) l → on_screen s →
  ∃ s', put_all l bc fc s = Done (tt, s') ∧ on_screen s' ∧ abs s' = term_write l bc fc (abs s).
Proof.
  intros Hl. revert s. induction Hl as [|c l Hc _ IH]; intros s Hs; [by exists s|].
  destruct (monitor_put_ok c bc fc s Hc Hs) as (s1 & E & Hs1 & Ea & _).
  destruct (IH s1 Hs1) as (s' & E' & Hs' & Ea'). exists s'.
  cbn [put_all term_write foldl]. rewrite (stM_bind_Done _ _ _ _ _ E), <- Ea. done.
Qed.

Lemma put_all_app l1 l2 bc fc s :
  put_all (l1 ++ l2) bc fc s = (put_all l1 bc fc;; put_all l2 bc fc) s.
Proof.
  revert s. induction l1 as [|c l1 IH]; intros s; [done|]. cbn [put_all app].
  rewrite stM_bind_assoc. by apply stM_bind_ext.
Qed.

Lemma write_color_all l rest bc fc s :
  Forall (λ c, c ≠ 0) l → monitor_write_color (l ++ 0 :: rest) bc fc s = put_all l bc fc s.
Proof.
  intros Hl. revert s. induction Hl as [|c l Hc _ IH]; intros s; [done|].
  cbn [monitor_write_color put_all app]. rewrite (proj2 (Z.eqb_neq c 0)) by done.
  by apply stM_bind_ext.
Qed.

(** ** Numbers *)
Lemma digit_chars l b :
  b ≤ 16 → Forall (λ d, 0 ≤ d < b) l → Forall (λ c, -128 ≤ c < 128 ∧ c ≠ 0) (digit_char <$> l).
Proof.
  intros Hb Hl. apply Forall_fmap. apply (Forall_impl _ _ _ Hl). intros d Hd. cbn.
  pose proof (digit_char_range d). lia.
Qed.
Lemma put_digit_char d bc fc : put_digit d bc fc = monitor_put (digit_char d) bc fc.
Proof.
  unfold put_digit, digit_char. destruct (Z.leb_spec 0xA d), (Z.ltb_spec d 10); try lia; f_equal; lia.
Qed.

(** The digit [k] of [n] and the ones below it. *)
Lemma hex_digit n k :
  0 ≤ n → Z.land (Z.shiftr n (4 * Z.of_nat (S k))) 0xF = (n / 16 / 16 ^ Z.of_nat k) mod 16 ∧
  (n / 16) mod 16 ^ Z.of_nat (S k) =
    (n / 16 / 16 ^ Z.of_nat k) mod 16 * 16 ^ Z.of_nat k + (n / 16) mod 16 ^ Z.of_nat k.
Proof.
  intros Hn. assert (0 < 16 ^ Z.of_nat k) by (apply Z.pow_pos_nonneg; lia). split.
  - change 0xF with (Z.ones 4). rewrite Z.land_ones, Z.shiftr_div_pow2 by lia.
    rewrite Z.div_div by lia. do 2 f_equal.
    rewrite Z.pow_mul_r by lia. change (2 ^ 4) with 16.
    rewrite Nat2Z.inj_succ, Z.pow_succ_r by lia. done.
  - rewrite Nat2Z.inj_succ, Z.pow_succ_r, (Z.mul_comm 16) by lia.
    rewrite Z.rem_mul_r by lia. lia.
Qed.

Lemma write_hex_loop_ok k n nz bc fc :
  0 ≤ n →
  ∃ l, (∀ s, write_hex_loop k n nz bc fc s = put_all (digit_char <$> l) bc fc s) ∧
    Forall (λ d, 0 ≤ d < 16) l ∧ digits_value 16 l = (n / 16) mod 16 ^ Z.of_nat k ∧
    (nz = 0 → length l = k) ∧ (nz ≠ 0 → l = [] ∨ ∃ d l', l = d :: l' ∧ d ≠ 0).
Proof.
  intros Hn. revert nz. induction k as [|k IH]; intros nz.
  { exists []. split; [done|]. split; [done|]. split; [cbn; by rewrite Z.mod_1_r|].
    split; [done|]. intros _. by left. }
  destruct (hex_digit n k Hn) as [Ed Ev].
  pose proof (Z.mod_pos_bound (n / 16 / 16 ^ Z.of_nat k) 16 ltac:(lia)) as Hd.
  cbn [write_hex_loop]. rewrite Ed. set (d := (n / 16 / 16 ^ Z.of_nat k) mod 16) in *.
  destruct ((d =? 0) && negb (nz =? 0)) eqn:Eb.
  - apply andb_true_iff in Eb as [->%Z.eqb_eq Hz%negb_true_iff%Z.eqb_neq].
    destruct (IH nz) as (l & El & Hl & Hv & _ & Hh). exists l.
    split; [done|]. split; [done|]. split; [lia|]. split; [done|done].
  - destruct (IH 0) as (l & El & Hl & Hv & Hlen & _). specialize (Hlen eq_refl). exists (d :: l). split.
    { intros s. cbn [fmap list_fmap put_all]. rewrite put_digit_char. by apply stM_bind_ext. }
    split; [by apply Forall_cons|]. split; [by rewrite digits_value_cons, Hlen, Hv, Ev|].
    split; [cbn; lia|]. intros Hz. right. exists d, l. split; [done|]. intros ->.
    rewrite (proj2 (Z.eqb_neq nz 0)) in Eb by done. done.
Qed.

Lemma monitor_write_hex_all n bc fc :
  in_u32 n → ∃ l, numeral 16 n l ∧
    ∀ s, monitor_write_hex n bc fc s = put_all (chars "0x" ++ (digit_char <$> l)) bc fc s.
Proof.
  intros Hn. red in Hn. destruct (write_hex_loop_ok 7 n 1 bc fc) as (l & El & Hl & Hv & _ & Hh); [lia|].
  pose proof (Z.mod_pos_bound n 16 ltac:(lia)) as Hd.
  exists (l ++ [n mod 16]). split.
  - split; [|split].
    + rewrite digits_value_snoc, Hv. change (16 ^ Z.of_nat 7) with (2 ^ 28).
      rewrite Z.mod_small; [pose proof (Z.div_mod n 16 ltac:(lia)); lia|].
      split; [apply Z.div_pos; lia|apply Z.div_lt_upper_bound; lia].
    + apply Forall_app. split; [done|]. by apply Forall_singleton.
    + destruct (Hh ltac:(lia)) as [->|(d & l' & -> & Hd0)]; [|right; by eexists _, _].
      cbn. destruct (decide (n mod 16 = 0)) as [->|]; [by left|right; by eexists _, _].
  - intros s. unfold monitor_write_hex.
    rewrite put_all_app. change (cstr "0x") with (chars "0x" ++ 0 :: []).
    assert (∀ t, (write_hex_loop 7 n 1 bc fc;; put_digit (Z.land n 0xF) bc fc) t =
      put_all (digit_char <$> l ++ [n mod 16]) bc fc t) as Hrest.
    { intros t. rewrite fmap_app, put_all_app.
      transitivity ((put_all (digit_char <$> l) bc fc;; put_digit (Z.land n 0xF) bc fc) t).
      - unfold mbind, stM_bind. by rewrite El.
      - apply stM_bind_ext. intros _ t'. change 0xF with (Z.ones 4).
        rewrite Z.land_ones, put_digit_char by lia. change (2 ^ 4) with 16.
        cbn [fmap list_fmap put_all]. unfold mbind, stM_bind.
        by destruct (monitor_put (digit_char (n mod 16)) bc fc t') as [[[] ?]| | | |]. }
    transitivity ((put_all (chars "0x") bc fc;; write_hex_loop 7 n 1 bc fc;;
      put_digit (Z.land n 0xF) bc fc) s).
    + unfold mbind, stM_bind. by rewrite write_color_all by (repeat constructor; done).
    + by apply stM_bind_ext.
Qed.

(** *** Decimal numbers *)
Lemma insert_split {A} (c : list A) k v :
  (k < length c)%nat → <[k := v]> c = take k c ++ v :: drop (S k) c.
Proof. intros Hk. by rewrite insert_take_drop. Qed.

(** The loop leaves the digits, least significant first, from index [i] on. *)
Lemma dec_digits_ok k : ∀ fuel acc i c,
  0 ≤ acc < 10 ^ Z.of_nat k → (k ≤ fuel)%nat → (i + k ≤ length c)%nat →
  ∃ l, dec_digits fuel (acc, Z.of_nat i, c) = Done (0, Z.of_nat (i + length l),
      take i c ++ ((λ d, 48 + d) <$> l) ++ drop (i + length l) c) ∧
    (length l ≤ k)%nat ∧ Forall (λ d, 0 ≤ d < 10) l ∧ digits_value 10 (reverse l) = acc ∧
    (acc ≠ 0 → ∃ d l', reverse l = d :: l' ∧ d ≠ 0).
Proof.
  induction k as [|k IH]; intros fuel acc i c Hacc Hf Hi.
  { assert (acc = 0) as -> by (cbn in Hacc; lia). exists [].
    split; [|by repeat split; try constructor; intros; cbn; lia].
    unfold dec_digits. destruct fuel; cbn [while_loop]; cbn -[Z.of_nat];
      rewrite Nat.add_0_r, take_drop; done. }
  destruct fuel as [|fuel]; [lia|]. unfold dec_digits. cbn [while_loop].
  destruct (Z.ltb_spec 0 acc) as [Hpos|Hz].
  2:{ assert (acc = 0) as -> by lia. exists []. cbn [length fmap list_fmap app].
      rewrite Nat.add_0_r, take_drop. split; [done|].
      split; [lia|]. split; [constructor|]. by split. }
  pose proof (Z.div_mod acc 10 ltac:(lia)) as Hdm.
  pose proof (Z.mod_pos_bound acc 10 ltac:(lia)) as Hm.
  rewrite Nat2Z.inj_succ, Z.pow_succ_r in Hacc by lia.
  rewrite arr_set_ok by lia. cbn [mbind outcome_bind mret outcome_ret]. rewrite Nat2Z.id.
  destruct (IH fuel (acc / 10) (S i) (<[i:=48 + acc mod 10]> c))
    as (l & E & Hl & Hr & Hv & Hh); [lia|lia|rewrite length_insert; lia|].
  unfold dec_digits in E. replace (Z.of_nat i + 1) with (Z.of_nat (S i)) by lia. rewrite E.
  exists (acc mod 10 :: l). cbn [length fmap list_fmap].
  split; [|split; [lia|split; [by apply Forall_cons|]]].
  - do 2 f_equal; [f_equal; lia|]. rewrite (insert_split c i) by lia.
    assert (length (take i c) = i) as Hti by (rewrite length_take; lia).
    rewrite take_app, drop_app, Hti.
    replace (S i - i)%nat with 1%nat by lia. cbn [take app].
    replace (S i + length l - i)%nat with (S (length l)) by lia. cbn [drop].
    rewrite (take_ge (take i c)) by lia. rewrite (drop_ge (take i c)) by lia. cbn [app].
    rewrite <- app_assoc. cbn [app]. rewrite drop_drop.
    replace (i + S (length l))%nat with (S i + length l)%nat by lia. done.
  - rewrite reverse_cons, digits_value_snoc, Hv. split; [lia|]. intros _.
    destruct (decide (acc / 10 = 0)) as [Hz|Hnz].
    + assert (l = []) as ->.
      { destruct l as [|d l]; [done|]. exfalso. rewrite Hz in Hv.
        destruct (reverse (d :: l)) as [|d' l'] eqn:El; [by apply (f_equal length) in El; rewrite length_reverse in El|].
        destruct (decide (d' = 0)) as [->|Hd'].
        - unfold dec_digits in E. rewrite Hz in E.
          destruct fuel; cbn in E; [|]; injection E as E; lia.
        - rewrite digits_value_cons in Hv.
          assert (Forall (λ d, 0 ≤ d < 10) (d' :: l')) as [Hd'r Hl']%Forall_cons
            by (rewrite <- El; by apply Forall_reverse).
          pose proof (digits_value_range 10 l' ltac:(lia) Hl').
          pose proof (Z.pow_pos_nonneg 10 (Z.of_nat (length l'))). nia. }
      exists (acc mod 10), []. split; [done|]. lia.
    + destruct (Hh Hnz) as (d & l' & -> & Hd). by eexists _, _.
Qed.

(** The second loop reverses the first [i + 1] characters of [c] into [c2]. *)
Lemma dec_reverse_ok c m : ∀ fuel j c2,
  (j + m ≤ length c)%nat → (m ≤ length c2)%nat → (m ≤ fuel)%nat →
  ∃ c2', dec_reverse fuel c (Z.of_nat m - 1, Z.of_nat j, c2) =
      Done (-1, Z.of_nat (j + m), c2') ∧ c2' = reverse (take m (drop j c)) ++ drop m c2.
Proof.
  induction m as [|m IH]; intros fuel j c2 Hc Hc2 Hf.
  { eexists. split; [|done]. unfold dec_reverse. rewrite Nat.add_0_r.
    destruct fuel; cbn -[Z.of_nat]; rewrite drop_0; done. }
  destruct fuel as [|fuel]; [lia|]. unfold dec_reverse. cbn [while_loop].
  rewrite (proj2 (Z.leb_le _ _)) by lia.
  destruct (lookup_lt_is_Some_2 c j) as [d Ed]; [lia|].
  rewrite (arr_get_ok c _ d) by (lia || by rewrite Nat2Z.id).
  cbn [mbind outcome_bind]. rewrite arr_set_ok by lia. cbn [mbind outcome_bind mret outcome_ret].
  replace (Z.to_nat (Z.of_nat (S m) - 1)) with m by lia.
  destruct (IH fuel (S j) (<[m:=d]> c2)) as (c2' & E & Ec2); [lia|rewrite length_insert; lia|lia|].
  unfold dec_reverse in E.
  replace (Z.of_nat (S m) - 1 - 1) with (Z.of_nat m - 1) by lia.
  replace (Z.of_nat j + 1) with (Z.of_nat (S j)) by lia. rewrite E.
  exists c2'. split; [do 3 f_equal; lia|]. rewrite Ec2, (drop_S c d j) by done. cbn [take].
  rewrite reverse_cons, <- app_assoc. f_equal. rewrite insert_split by lia.
  rewrite drop_app. rewrite drop_ge by (rewrite length_take; lia).
  rewrite length_take. replace (m - m `min` length c2)%nat with 0%nat by lia. done.
Qed.

Lemma monitor_write_dec_all c0 c20 n bc fc :
  in_u32 n → length c0 = 32%nat → length c20 = 32%nat →
  ∃ l, numeral 10 n l ∧ ∀ s, monitor_write_dec c0 c20 n bc fc s = put_all (digit_char <$> l) bc fc s.
Proof.
  intros Hn Hc0 Hc20. red in Hn. unfold monitor_write_dec.
  destruct (Z.eqb_spec n 0) as [->|Hn0].
  { exists [0]. split; [split; [done|]; split; [apply Forall_singleton; lia|]; by left|]. intros s.
    cbn [put_all fmap list_fmap]. change (digit_char 0) with 48. unfold mbind, stM_bind.
    by destruct (monitor_put 48 bc fc s) as [[[] ?]| | | |]. }
  destruct (dec_digits_ok 10 32 n 0 c0) as (l & E & Hl & Hr & Hv & Hh); [lia..|].
  exists (reverse l). split; [split; [done|split; [by apply Forall_reverse|right; auto]]|]. intros s.
  change (Z.of_nat 0) with 0 in E. rewrite E. cbn [take app Nat.add] in *. set (m := length l) in *.
  rewrite (stM_bind_Done _ _ s (0, Z.of_nat m, ((λ d, 48 + d) <$> l) ++ drop m c0) s) by done.
  cbv beta iota.
  assert (length (((λ d, 48 + d) <$> l) ++ drop m c0) = 32%nat) as Hlen
    by (rewrite length_app, length_fmap, length_drop; lia).
  rewrite !arr_set_ok by lia. rewrite !bind_lift_Done, Nat2Z.id. set (c := <[m:=0]> _).
  destruct (dec_reverse_ok c m 32 0 (<[m:=0]> c20)) as (c2 & E2 & Ec2);
    [unfold c; rewrite length_insert; lia|rewrite length_insert; lia|lia|].
  change (Z.of_nat 0) with 0 in E2. rewrite E2, bind_lift_Done. cbv beta iota.
  assert (take m c = (λ d, 48 + d) <$> l) as Et.
  { unfold c. rewrite take_insert_ge by lia. rewrite take_app_le by (rewrite length_fmap; lia).
    apply take_ge. rewrite length_fmap. lia. }
  rewrite drop_0, Et in Ec2. rewrite insert_split in Ec2 by lia.
  rewrite drop_app, drop_ge in Ec2 by (rewrite length_take; lia).
  rewrite length_take in Ec2. replace (m - m `min` length c20)%nat with 0%nat in Ec2 by lia.
  cbn [drop app] in Ec2. rewrite Ec2.
  assert (reverse ((λ d, 48 + d) <$> l) = digit_char <$> reverse l) as ->.
  { rewrite fmap_reverse. f_equal. apply list_fmap_ext. intros i d Hd. unfold digit_char.
    rewrite Forall_forall in Hr. apply list_elem_of_lookup_2, Hr in Hd.
    by rewrite (proj2 (Z.ltb_lt _ _)) by lia. }
  apply write_color_all. apply (Forall_impl (λ c, -128 ≤ c < 128 ∧ c ≠ 0)); [|tauto].
  apply (digit_chars _ 10); [lia|]. by apply Forall_reverse.
Qed.

(** ** Properties *)

(** C38: [monitor_put] is a step of the terminal for every character: the cursor stays
    on the screen, only the 2000 words of the screen are accessed, and the last
    port writes put the hardware cursor where the program's cursor is. *)
Theorem monitor_put_correct c bc fc s :
  -128 ≤ c < 128 → on_screen s →
  ∃ s', monitor_put c bc fc s = Done (tt, s') ∧ on_screen s' ∧
    abs s' = term_put c bc fc (abs s) ∧ outs s' = crtc_writes (pos (abs s')) ++ outs s.
Proof. apply monitor_put_ok. Qed.

(** a string is written character by character up to its terminator, without a
    fault and with the cursor on the screen throughout; a string without a
    terminator is read past its end. *)
Theorem monitor_write_correct l rest s :
  Forall (λ c, -128 ≤ c < 128 ∧ c ≠ 0) l → on_screen s →
  (∃ s', monitor_write (l ++ 0 :: rest) s = Done (tt, s') ∧ on_screen s' ∧
    abs s' = term_write l MC_BLACK MC_WHITE (abs s)) ∧
  monitor_write l s = Fault.
Proof.
  intros Hl Hs. split.
  - unfold monitor_write. rewrite write_color_all by (apply (Forall_impl _ _ _ Hl); tauto).
    apply put_all_ok; [|done]. apply (Forall_impl _ _ _ Hl). tauto.
  - unfold monitor_write. revert s Hs. induction Hl as [|c l [Hc Hc0] _ IH]; intros s Hs; [done|].
    cbn [monitor_write_color]. rewrite (proj2 (Z.eqb_neq c 0)) by done.
    destruct (monitor_put_ok c MC_BLACK MC_WHITE s Hc Hs) as (s1 & E & Hs1 & _).
    rewrite (stM_bind_Done _ _ _ _ _ E). by apply IH.
Qed.

(** [monitor_write_hex] writes 0x and the hexadecimal numeral of its argument, in
    lower case and without leading zeros. *)
Theorem monitor_write_hex_correct n bc fc s :
  in_u32 n → on_screen s →
  ∃ l s', numeral 16 n l ∧ monitor_write_hex n bc fc s = Done (tt, s') ∧ on_screen s' ∧
    abs s' = term_write (chars "0x" ++ (digit_char <$> l)) bc fc (abs s).
Proof.
  intros Hn Hs. destruct (monitor_write_hex_all n bc fc Hn) as (l & Hl & E).
  destruct (put_all_ok (chars "0x" ++ (digit_char <$> l)) bc fc s) as (s' & E' & ? & ?); [|done|].
  - apply Forall_app. split; [repeat constructor; done|].
    apply (Forall_impl (λ c, -128 ≤ c < 128 ∧ c ≠ 0)); [|tauto].
    apply (digit_chars _ 16); [lia|]. apply Hl.
  - exists l, s'. rewrite E. done.
Qed.

(** [monitor_write_dec] writes the decimal numeral of its argument; its two buffers
    of 32 characters are large enough and what they held before does not matter. *)
Theorem monitor_write_dec_correct c0 c20 n bc fc s :
  in_u32 n → length c0 = 32%nat → length c20 = 32%nat → on_screen s →
  ∃ l s', numeral 10 n l ∧ monitor_write_dec c0 c20 n bc fc s = Done (tt, s') ∧ on_screen s' ∧
    abs s' = term_write (digit_char <$> l) bc fc (abs s).
Proof.
  intros Hn Hc0 Hc20 Hs. destruct (monitor_write_dec_all c0 c20 n bc fc Hn Hc0 Hc20) as (l & Hl & E).
  destruct (put_all_ok (digit_char <$> l) bc fc s) as (s' & E' & ? & ?); [|done|].
  - apply (Forall_impl (λ c, -128 ≤ c < 128 ∧ c ≠ 0)); [|tauto].
    apply (digit_chars _ 10); [lia|]. apply Hl.
  - exists l, s'. rewrite E. done.
Qed.

(** [monitor_clear] leaves a screen of spaces with the cursor, and the hardware
    cursor, in the first cell, wherever the cursor was. *)
Theorem monitor_clear_correct s :
  length (video_memory s) = 2000%nat →
  monitor_clear s = Done (tt, MState (replicate 2000 (cell 32 MC_BLACK MC_WHITE)) 0 0
    (crtc_writes 0 ++ outs s)).
Proof.
  intros Hlen. unfold monitor_clear.
  destruct (video_loop_ok (λ i, video_set i blank) (λ _, blank) (80 * 25) 0 s)
    as (v & E & Hv & Hk); [lia..| |].
  { intros i t Hi Ht _. apply video_set_ok. lia. }
  rewrite (stM_bind_Done _ _ _ _ _ E). mrun. unfold set_x, set_y, set_video.
  cbn [video_memory cursor_x cursor_y outs].
  rewrite move_cursor_ok by (split; [cbn [video_memory]; lia|cbn; lia]).
  cbn [video_memory cursor_x cursor_y outs]. do 3 f_equal. rewrite <- blank_val.
  apply list_eq. intros k. rewrite Hk. destruct (decide (k < 2000)%nat).
  - rewrite decide_True by lia. symmetry. apply lookup_replicate. split; [done|lia].
  - rewrite decide_False by lia. rewrite !lookup_ge_None_2; [done|rewrite length_replicate; lia|lia].
Qed.

(** *** The theorems at concrete inputs *)
Definition demo_screen (x y : Z) : mstate := MState (replicate 2000 0) x y [].
Lemma demo_on_screen : on_screen (demo_screen 79 24).
Proof. split; [apply length_replicate|]. cbn. lia. Qed.

(** The last cell of the screen: the write scrolls. *)
Lemma monitor_put_correct_witness :
  ∃ s', monitor_put 65 MC_BLACK MC_WHITE (demo_screen 79 24) = Done (tt, s') ∧
    pos (abs s') = 1920 ∧ cells (abs s') !! 1919%nat = Some 0x0F41.
Proof.
  destruct (monitor_put_correct 65 MC_BLACK MC_WHITE (demo_screen 79 24)) as (s' & E & _ & Ea & _).
  - lia.
  - apply demo_on_screen.
  - exists s'. split; [exact E|]. rewrite Ea. split; vm_compute; reflexivity.
Defined.

Lemma monitor_write_correct_witness :
  ∃ s', monitor_write (cstr "ok") (demo_screen 79 24) = Done (tt, s') ∧ pos (abs s') = 1921.
Proof.
  destruct (monitor_write_correct (chars "ok") [] (demo_screen 79 24)) as [(s' & E & _ & Ea) _].
  - apply (bool_decide_unpack _). vm_compute. exact I.
  - apply demo_on_screen.
  - exists s'. split; [exact E|]. rewrite Ea. vm_compute. reflexivity.
Defined.

Lemma monitor_write_hex_correct_witness :
  ∃ l s', numeral 16 0xbeef l ∧ monitor_write_hex 0xbeef MC_BLACK MC_WHITE (demo_screen 79 24) = Done (tt, s').
Proof.
  destruct (monitor_write_hex_correct 0xbeef MC_BLACK MC_WHITE (demo_screen 79 24)) as (l & s' & Hl & E & _).
  - unfold in_u32. lia.
  - apply demo_on_screen.
  - exists l, s'. split; [exact Hl|exact E].
Defined.

Lemma monitor_write_dec_correct_witness :
  ∃ l s', numeral 10 1234567890 l ∧
    monitor_write_dec (replicate 32 7) (replicate 32 9) 1234567890 MC_BLACK MC_WHITE (demo_screen 79 24) =
    Done (tt, s').
Proof.
  destruct (monitor_write_dec_correct (replicate 32 7) (replicate 32 9) 1234567890 MC_BLACK MC_WHITE
    (demo_screen 79 24)) as (l & s' & Hl & E & _).
  - unfold in_u32. lia.
  - reflexivity.
  - reflexivity.
  - apply demo_on_screen.
  - exists l, s'. split; [exact Hl|exact E].
Defined.

Lemma monitor_clear_correct_witness :
  ∃ s', monitor_clear (demo_screen 79 24) = Done (tt, s') ∧ pos (abs s') = 0.
Proof.
  eexists. split; [apply (monitor_clear_correct (demo_screen 79 24)); reflexivity|reflexivity].
Defined.
