(* ===== verification/Bytes.v ===== *)
(** Byte memory: the objects that code working on [char] pointers can reach.

    [bmem] maps the address of each byte of a live object to its value, 0 to 255;
    an access elsewhere is a fault.  [bytes_at m p l] says that the bytes of [l]
    are at [p], [str_at m p s] that the string [s] with its terminator is. *)
From Stdlib Require Import ZArith Lia.
From S2P Require Import Prelude.
#[local] Open Scope Z_scope.

Abbreviation bmem := (gmap Z Z).

Definition ldb (m : bmem) (p : Z) : outcome Z := of_option (m !! p).
(** A load through a [char] pointer: [char] is signed. *)
Definition ldc (m : bmem) (p : Z) : outcome Z := c ← ldb m p; mret (s8 c).
Definition stb (p v : Z) (m : bmem) : outcome bmem :=
  if decide (is_Some (m !! p)) then Done (<[p := u8 v]> m) else Fault.

(** The bytes of a word, least significant first. *)
Fixpoint le_bytes (n : nat) (v : Z) : list Z :=
  match n with O => [] | S n => v mod 256 :: le_bytes n (v / 256) end.
Fixpoint ld_le (n : nat) (m : bmem) (p : Z) : outcome Z :=
  match n with
  | O => Done 0
  | S n => b ← ldb m p; v ← ld_le n m (p + 1); mret (b + 256 * v)
  end.
(** A load of a pointer. *)
Definition ldp (m : bmem) (p : Z) : outcome Z := ld_le 8 m p.

(** The stores of the bytes of [l]; [st_bytes p (le_bytes n v)] stores a word. *)
Fixpoint st_bytes (p : Z) (l : list Z) (m : bmem) : outcome bmem :=
  match l with [] => mret m | c :: l => m ← stb p c m; st_bytes (p + 1) l m end.

Fixpoint put_bytes (p : Z) (l : list Z) (m : bmem) : bmem :=
  match l with [] => m | c :: l => put_bytes (p + 1) l (<[p := c]> m) end.

Fixpoint bytes_at (m : bmem) (p : Z) (l : list Z) : Prop :=
  match l with [] => True | c :: l => m !! p = Some c ∧ bytes_at m (p + 1) l end.

Definition is_byte (c : Z) : Prop := 0 ≤ c < 256.
Definition cstring (s : list Z) : Prop := Forall (λ c, 0 < c < 256) s.
Definition str_at (m : bmem) (p : Z) (s : list Z) : Prop := cstring s ∧ bytes_at m p (s ++ [0]).
Definition writable (m : bmem) (p : Z) (n : Z) : Prop := ∀ a, p ≤ a < p + n → is_Some (m !! a).
(** The word [v] of [n] bytes is at [p]; two ranges that do not meet; two memories that differ in [P] only. *)
Definition word_at (n : nat) (m : bmem) (p v : Z) : Prop := 0 ≤ v < 256 ^ Z.of_nat n ∧ bytes_at m p (le_bytes n v).
Definition apart (p n q k : Z) : Prop := p + n ≤ q ∨ q + k ≤ p.
Definition same_but (P : Z → Prop) (m m' : bmem) : Prop := ∀ a, ¬ P a → m' !! a = m !! a.

(** ** Lemmas *)
Lemma s8_byte_inj c d : is_byte c → is_byte d → s8 c = s8 d → c = d.
Proof.
  unfold s8, signed, is_byte. intros Hc Hd. change (2 ^ 8) with 256. change (2 ^ (8 - 1)) with 128.
  rewrite !Z.mod_small by lia. destruct (Z.ltb_spec c 128), (Z.ltb_spec d 128); lia.
Qed.
Lemma s8_small c : 0 ≤ c < 128 → s8 c = c.
Proof.
  unfold s8, signed. intros Hc. change (2 ^ 8) with 256. change (2 ^ (8 - 1)) with 128.
  rewrite Z.mod_small by lia. destruct (Z.ltb_spec c 128); lia.
Qed.
Lemma s8_eqb c d : is_byte c → is_byte d → (s8 c =? s8 d) = (c =? d).
Proof.
  intros Hc Hd. destruct (Z.eqb_spec c d) as [->|Hne]; [apply Z.eqb_refl|].
  apply Z.eqb_neq. intros E. by apply Hne, s8_byte_inj.
Qed.
Lemma s8_eqb0 c : is_byte c → (s8 c =? 0) = (c =? 0).
Proof. intros Hc. change 0 with (s8 0) at 1. by apply s8_eqb. Qed.
Lemma s8_eqb_ascii c d : is_byte c → 0 ≤ d < 128 → (s8 c =? d) = (c =? d).
Proof. intros Hc Hd. rewrite <- (s8_small d) at 1 by done. apply s8_eqb; [done|]. unfold is_byte. lia. Qed.
Lemma cstring_byte c s : cstring (c :: s) → is_byte c ∧ c ≠ 0 ∧ cstring s.
Proof. intros [Hc Hs]%Forall_cons. unfold is_byte. split; [lia|]. split; [lia|done]. Qed.

Lemma ldb_ok m p c : m !! p = Some c → ldb m p = Done c.
Proof. intros E. unfold ldb. by rewrite E. Qed.
Lemma ldc_ok m p c : m !! p = Some c → ldc m p = Done (s8 c).
Proof. intros E. unfold ldc. by rewrite (ldb_ok _ _ _ E). Qed.
Lemma stb_ok m p v : is_Some (m !! p) → stb p v m = Done (<[p := u8 v]> m).
Proof. intros Hs. unfold stb. by rewrite decide_True. Qed.

Lemma bytes_at_lookup m p l :
  bytes_at m p l ↔ ∀ a, p ≤ a < p + Z.of_nat (length l) → m !! a = l !! Z.to_nat (a - p).
Proof.
  revert p. induction l as [|c l IH]; intros p; cbn [bytes_at length].
  - split; [|done]. intros _ a Ha. lia.
  - rewrite IH. split.
    + intros [H0 Hl] a Ha. destruct (decide (a = p)) as [->|]; [by rewrite Z.sub_diag|].
      rewrite Hl by lia. replace (a - p) with (Z.succ (a - (p + 1))) by lia.
      by rewrite Z2Nat.inj_succ by lia.
    + intros Hl. split; [by rewrite Hl, Z.sub_diag by lia|]. intros a Ha. rewrite Hl by lia.
      replace (a - p) with (Z.succ (a - (p + 1))) by lia. by rewrite Z2Nat.inj_succ by lia.
Qed.

Lemma bytes_at_app m p l1 l2 :
  bytes_at m p (l1 ++ l2) ↔ bytes_at m p l1 ∧ bytes_at m (p + Z.of_nat (length l1)) l2.
Proof.
  revert p. induction l1 as [|c l1 IH]; intros p; cbn [bytes_at app length].
  - rewrite Z.add_0_r. tauto.
  - rewrite IH, Nat2Z.inj_succ. replace (p + Z.succ (Z.of_nat (length l1))) with (p + 1 + Z.of_nat (length l1)) by lia.
    tauto.
Qed.

Lemma bytes_at_frame m m' p l :
  bytes_at m p l → (∀ a, p ≤ a < p + Z.of_nat (length l) → m' !! a = m !! a) → bytes_at m' p l.
Proof. rewrite !bytes_at_lookup. intros Hl Hm a Ha. by rewrite Hm, Hl. Qed.

Lemma bytes_at_some m p l a : bytes_at m p l → p ≤ a < p + Z.of_nat (length l) → is_Some (m !! a).
Proof. rewrite bytes_at_lookup. intros Hl Ha. rewrite Hl by done. apply lookup_lt_is_Some_2. lia. Qed.

Lemma str_at_cons m p c s : str_at m p (c :: s) ↔ (0 < c < 256 ∧ m !! p = Some c) ∧ str_at m (p + 1) s.
Proof. unfold str_at, cstring. cbn [app bytes_at]. rewrite Forall_cons. tauto. Qed.
Lemma str_at_nil m p : str_at m p [] ↔ m !! p = Some 0.
Proof.
  unfold str_at, cstring. cbn [app bytes_at]. split; [tauto|]. intros E. split; [constructor|tauto].
Qed.
(** The tail of a string is a string. *)
Lemma str_at_drop m p s k : (k ≤ length s)%nat → str_at m p s → str_at m (p + Z.of_nat k) (drop k s).
Proof.
  revert p s. induction k as [|k IH]; intros p s Hk Hs; [by rewrite Z.add_0_r|].
  destruct s as [|c s]; [cbn in Hk; lia|]. apply str_at_cons in Hs as [_ Hs]. cbn [drop].
  rewrite Nat2Z.inj_succ. replace (p + Z.succ (Z.of_nat k)) with (p + 1 + Z.of_nat k) by lia.
  apply IH; [cbn in Hk; lia|done].
Qed.
Lemma str_at_bytes m p s : str_at m p s → bytes_at m p s.
Proof. intros [_ H]. by apply bytes_at_app in H as [? _]. Qed.
Lemma str_at_frame m m' p s :
  str_at m p s → (∀ a, p ≤ a ≤ p + Z.of_nat (length s) → m' !! a = m !! a) → str_at m' p s.
Proof.
  intros [Hc Hb] Hm. split; [done|]. apply (bytes_at_frame m); [done|].
  intros a Ha. apply Hm. rewrite length_app in Ha. cbn in Ha. lia.
Qed.

Lemma lookup_put_bytes p l m a :
  put_bytes p l m !! a =
  if decide (p ≤ a < p + Z.of_nat (length l)) then l !! Z.to_nat (a - p) else m !! a.
Proof.
  revert p m. induction l as [|c l IH]; intros p m; cbn [put_bytes length].
  - by rewrite decide_False by lia.
  - rewrite IH. destruct (decide (a = p)) as [->|Hne].
    + rewrite decide_False, decide_True by lia. by rewrite lookup_insert_eq, Z.sub_diag.
    + rewrite lookup_insert_ne by done. destruct (decide (p ≤ a < _)).
      * rewrite decide_True by lia. replace (a - p) with (Z.succ (a - (p + 1))) by lia.
        by rewrite Z2Nat.inj_succ by lia.
      * by rewrite decide_False by lia.
Qed.
Lemma bytes_at_put p l m : bytes_at (put_bytes p l m) p l.
Proof. apply bytes_at_lookup. intros a Ha. by rewrite lookup_put_bytes, decide_True. Qed.
Lemma put_bytes_app p l1 l2 m :
  put_bytes p (l1 ++ l2) m = put_bytes (p + Z.of_nat (length l1)) l2 (put_bytes p l1 m).
Proof.
  revert p m. induction l1 as [|c l1 IH]; intros p m; cbn [app put_bytes length].
  - by rewrite Z.add_0_r.
  - rewrite IH. f_equal. lia.
Qed.
Lemma writable_put p l m q n : writable m q n → writable (put_bytes p l m) q n.
Proof.
  intros Hw a Ha. rewrite lookup_put_bytes. case_decide; [|by apply Hw].
  apply lookup_lt_is_Some_2. lia.
Qed.
Lemma writable_weaken m p n q k : writable m p n → p ≤ q → q + k ≤ p + n → writable m q k.
Proof. intros Hw ? ? a Ha. apply Hw. lia. Qed.
Lemma str_at_put m p s : cstring s → str_at (put_bytes p (s ++ [0]) m) p s.
Proof. intros Hs. split; [done|apply bytes_at_put]. Qed.
(** Bytes and strings away from a write. *)
Lemma bytes_at_put_frame m p l q k :
  bytes_at m p l → q + Z.of_nat (length k) ≤ p ∨ p + Z.of_nat (length l) ≤ q →
  bytes_at (put_bytes q k m) p l.
Proof.
  intros Hl Hd. apply (bytes_at_frame m); [done|]. intros a Ha.
  rewrite lookup_put_bytes, decide_False; [done|lia].
Qed.
Lemma str_at_put_frame m p s q k :
  str_at m p s → q + Z.of_nat (length k) ≤ p ∨ p + Z.of_nat (length s) < q →
  str_at (put_bytes q k m) p s.
Proof.
  intros [Hc Hb] Hd. split; [done|]. apply bytes_at_put_frame; [done|]. rewrite length_app. cbn. lia.
Qed.

Lemma ld_le_bytes n m p v :
  0 ≤ v < 256 ^ Z.of_nat n → bytes_at m p (le_bytes n v) → ld_le n m p = Done v.
Proof.
  revert p v. induction n as [|n IH]; intros p v Hv Hb; cbn [ld_le le_bytes bytes_at] in *.
  - f_equal. lia.
  - destruct Hb as [Hb0 Hb]. rewrite (ldb_ok _ _ _ Hb0). cbn [mbind outcome_bind].
    rewrite Nat2Z.inj_succ, Z.pow_succ_r in Hv by lia.
    rewrite (IH (p + 1) (v / 256)); [|split|exact Hb].
    + cbn. f_equal. pose proof (Z.div_mod v 256). lia.
    + apply Z.div_pos; lia.
    + apply Z.div_lt_upper_bound; lia.
Qed.
Lemma st_bytes_ok p l m :
  Forall is_byte l → writable m p (Z.of_nat (length l)) → st_bytes p l m = Done (put_bytes p l m).
Proof.
  intros Hl. revert p m. induction Hl as [|c l Hc _ IH]; intros p m Hw; [done|]. cbn [st_bytes put_bytes length] in *.
  rewrite stb_ok, u8_small by (done || apply Hw; lia). cbn [mbind outcome_bind]. apply IH.
  apply (writable_put p [c]). apply (writable_weaken _ _ _ _ _ Hw); lia.
Qed.
Lemma le_bytes_length n v : length (le_bytes n v) = n.
Proof. revert v. induction n as [|n IH]; intros v; cbn; [done|]. by rewrite IH. Qed.
Lemma le_bytes_byte n v : Forall is_byte (le_bytes n v).
Proof. revert v. induction n as [|n IH]; intros v; cbn; constructor; [apply Z.mod_pos_bound; lia|done]. Qed.

(** Checks on a concrete memory, by evaluation. *)
Lemma region_bool (m : bmem) (P : option Z → bool) p n :
  forallb (λ i, P (m !! (p + Z.of_nat i))) (seq 0 n) = true → ∀ a, p ≤ a < p + Z.of_nat n → P (m !! a) = true.
Proof.
  rewrite forallb_forall. intros H a Ha. replace a with (p + Z.of_nat (Z.to_nat (a - p))) by lia. apply H, in_seq. lia.
Qed.
Lemma writable_bool (m : bmem) p n : forallb (λ i, bool_decide (is_Some (m !! (p + Z.of_nat i)))) (seq 0 n) = true → writable m p (Z.of_nat n).
Proof. intros H a Ha. by apply (region_bool m (λ x, bool_decide (is_Some x)) p n H a), bool_decide_eq_true in Ha. Qed.
Lemma bytes_at_bool (m : bmem) p l :
  forallb (λ i, bool_decide (m !! (p + Z.of_nat i) = l !! i)) (seq 0 (length l)) = true → bytes_at m p l.
Proof.
  rewrite forallb_forall. intros H. apply bytes_at_lookup. intros a Ha. specialize (H (Z.to_nat (a - p))).
  rewrite bool_decide_eq_true in H. rewrite <- H by (apply in_seq; lia). f_equal. lia.
Qed.

(** Words and frames *)
Lemma same_but_trans P m1 m2 m3 : same_but P m1 m2 → same_but P m2 m3 → same_but P m1 m3.
Proof. intros H1 H2 a Ha. by rewrite H2, H1. Qed.
Lemma same_but_weaken (P Q : Z → Prop) m m' : (∀ a, P a → Q a) → same_but P m m' → same_but Q m m'.
Proof. intros HPQ H a Ha. apply H. auto. Qed.
Lemma ld_word n m p v : word_at n m p v → ld_le n m p = Done v.
Proof. intros [Hv Hb]. by apply ld_le_bytes. Qed.
Lemma word_at_same P n m m' p v : word_at n m p v → same_but P m m' → (∀ a, p ≤ a < p + Z.of_nat n → ¬ P a) → word_at n m' p v.
Proof.
  intros [Hv Hb] HS HP. split; [done|]. apply (bytes_at_frame m); [done|]. intros a Ha. rewrite le_bytes_length in Ha. by apply HS, HP.
Qed.
Lemma same_but_put P p l m : (∀ a, p ≤ a < p + Z.of_nat (length l) → P a) → same_but P m (put_bytes p l m).
Proof. intros H a Ha. rewrite lookup_put_bytes. case_decide; [by destruct Ha; apply H|done]. Qed.
Lemma same_but_refl P m : same_but P m m.
Proof. by intros a _. Qed.
Lemma writable_bytes p l m q n : p ≤ q → q + n ≤ p + Z.of_nat (length l) → writable (put_bytes p l m) q n.
Proof. intros H1 H2 a Ha. rewrite lookup_put_bytes, decide_True by lia. apply lookup_lt_is_Some_2. lia. Qed.
