(* ===== verification/CString.v ===== *)
(** The string functions: lib/string.c, and [parse_keyval] of lib/util.c.

    A pointer is an address of the byte memory of Bytes.v; NULL is 0.  A loop
    whose end depends on the memory takes fuel, one turn each. *)
From Stdlib Require Import ZArith Lia Bool.
From S2P Require Import Prelude Bytes.
#[local] Open Scope Z_scope.

Fixpoint strlen_loop (fuel : nat) (m : bmem) (buf len : Z) : outcome Z :=
  match fuel with
  | O => NoFuel
  | S f => c ← ldc m buf; if c =? 0 then mret len else strlen_loop f m (buf + 1) (u64 (len + 1))
  end.
Definition strlen (fuel : nat) (m : bmem) (buf : Z) : outcome Z := strlen_loop fuel m buf 0.

(** [while ( *p) ++p;] *)
Fixpoint strcat_end (fuel : nat) (m : bmem) (p : Z) : outcome Z :=
  match fuel with
  | O => NoFuel
  | S f => c ← ldc m p; if c =? 0 then mret p else strcat_end f m (p + 1)
  end.
(** [while (( *p++ = *src++) != 0) ;] *)
Fixpoint strcat_copy (fuel : nat) (p src : Z) (m : bmem) : outcome bmem :=
  match fuel with
  | O => NoFuel
  | S f =>
    c ← ldc m src;
    m ← stb p c m;
    if c =? 0 then mret m else strcat_copy f (p + 1) (src + 1) m
  end.
Definition strcat (fuel : nat) (dest src : Z) (m : bmem) : outcome (Z * bmem) :=
  p ← strcat_end fuel m dest;
  m ← strcat_copy fuel p src m;
  mret (dest, m).
Definition strcpy (fuel : nat) (dest src : Z) (m : bmem) : outcome (Z * bmem) :=
  m ← stb dest 0 m;
  strcat fuel dest src m.

Fixpoint strncmp (fuel : nat) (m : bmem) (a b n : Z) : outcome Z :=
  if n =? 0 then mret 0
  else
    match fuel with
    | O => NoFuel
    | S f =>
      ca ← ldc m a;
      cb ← ldc m b;
      if negb (ca =? cb) || (ca =? 0) then mret (ca - cb)
      else strncmp f m (a + 1) (b + 1) (n - 1)
    end.
Definition SIZE_MAX : Z := 2 ^ 64 - 1.
Definition strcmp (fuel : nat) (m : bmem) (a b : Z) : outcome Z := strncmp fuel m a b SIZE_MAX.

Fixpoint strchr (fuel : nat) (m : bmem) (s c : Z) : outcome Z :=
  match fuel with
  | O => NoFuel
  | S f =>
    x ← ldc m s;
    if x =? s8 c then mret s
    else if x =? 0 then mret 0
    else strchr f m (s + 1) c
  end.

(** [while (n--)] of memcmp; [ret] is the last difference. *)
Fixpoint memcmp_loop (n : nat) (m : bmem) (a b ret : Z) : outcome Z :=
  match n with
  | O => mret ret
  | S n =>
    ca ← ldb m a;
    cb ← ldb m b;
    let ret := ca - cb in
    if negb (ret =? 0) then mret ret else memcmp_loop n m (a + 1) (b + 1) ret
  end.
Definition memcmp (m : bmem) (s1 s2 n : Z) : outcome Z := memcmp_loop (Z.to_nat n) m s1 s2 0.

(** [while (l1 >= l2)] of strstr *)
Fixpoint strstr_loop (fuel : nat) (m : bmem) (s1 s2 l1 l2 : Z) : outcome Z :=
  if l2 <=? l1 then
    match fuel with
    | O => NoFuel
    | S f =>
      let l1 := u64 (l1 - 1) in
      r ← memcmp m s1 s2 l2;
      if r =? 0 then mret s1 else strstr_loop f m (s1 + 1) s2 l1 l2
    end
  else mret 0.
Definition strstr (fuel : nat) (m : bmem) (s1 s2 : Z) : outcome Z :=
  l2 ← strlen fuel m s2;
  if l2 =? 0 then mret s1
  else
    l1 ← strlen fuel m s1;
    strstr_loop fuel m s1 s2 l1 l2.

Definition memset (s c n : Z) : stM bmem Z :=
  for_up (Z.to_nat n) 0 (λ i m, m ← stb (s + i) c m; mret (tt, m));;
  mret s.

Definition memcpy (dest src n : Z) : stM bmem Z :=
  for_up (Z.to_nat n) 0 (λ i m, c ← ldb m (src + i); m ← stb (dest + i) c m; mret (tt, m));;
  mret dest.

(** [while (n--) *d++ = *s++;] *)
Fixpoint move_up (n : nat) (d s : Z) (m : bmem) : outcome bmem :=
  match n with
  | O => mret m
  | S n => c ← ldb m s; m ← stb d c m; move_up n (d + 1) (s + 1) m
  end.
(** [while (n--) *--d = *--s;] *)
Fixpoint move_down (n : nat) (d s : Z) (m : bmem) : outcome bmem :=
  match n with
  | O => mret m
  | S n => c ← ldb m (s - 1); m ← stb (d - 1) c m; move_down n (d - 1) (s - 1) m
  end.
Definition memmove (dest src n : Z) (m : bmem) : outcome (Z * bmem) :=
  m ← (if dest <=? src then move_up (Z.to_nat n) dest src m
       else move_down (Z.to_nat n) (dest + n) (src + n) m);
  mret (dest, m).

Fixpoint memchr_loop (n : nat) (m : bmem) (str chr : Z) : outcome Z :=
  match n with
  | O => mret 0
  | S n => c ← ldb m str; if c =? chr then mret str else memchr_loop n m (str + 1) chr
  end.
Definition memchr (m : bmem) (s c n : Z) : outcome Z := memchr_loop (Z.to_nat n) m s (u8 c).

(** A result outside of [long] is an overflow of signed arithmetic: undefined. *)
Definition long_ok (x : Z) : outcome Z :=
  if (- 2 ^ 63 <=? x) && (x <? 2 ^ 63) then mret x else Fault.

Fixpoint atol_blanks (fuel : nat) (m : bmem) (s : Z) : outcome Z :=
  match fuel with
  | O => NoFuel
  | S f => c ← ldc m s; if (c =? 32) || (c =? 9) then atol_blanks f m (s + 1) else mret s
  end.
Fixpoint atol_digits (fuel : nat) (m : bmem) (s acc : Z) : outcome Z :=
  match fuel with
  | O => NoFuel
  | S f =>
    x ← ldc m s;
    if x =? 0 then mret acc
    else if (x <? 48) || (57 <? x) then mret acc
    else
      let c := x - 48 in
      acc ← long_ok (acc * 10);
      acc ← long_ok (acc + c);
      atol_digits f m (s + 1) acc
  end.
Definition atol (fuel : nat) (m : bmem) (ptr : Z) : outcome Z :=
  s ← atol_blanks fuel m ptr;
  c ← ldc m s;
  let neg := c =? 45 in
  let s := if neg then s + 1 else if c =? 43 then s + 1 else s in
  acc ← atol_digits fuel m s 0;
  if neg then long_ok (- acc) else mret acc.

Fixpoint getenv_loop (fuel : nat) (m : bmem) (name envp : Z) : outcome Z :=
  match fuel with
  | O => NoFuel
  | S f =>
    var ← ldp m envp;
    if var =? 0 then mret 0
    else
      delim ← strchr fuel m var 61;
      r ← (if negb (delim =? 0) then
             c ← strncmp fuel m name var (delim - var); Done (c =? 0)
           else Done false);
      if r : bool then mret (delim + 1) else getenv_loop f m name (envp + 8)
  end.
(** [environ] is the value of the global. *)
Definition getenv (fuel : nat) (m : bmem) (environ name : Z) : outcome Z :=
  getenv_loop fuel m name environ.

(** The stack array [char copy[n + 1]] is at the address [copy]; [junk] is what it
    holds before it is written. *)
Definition simple_glob (fuel : nat) (m : bmem) (copy : Z) (junk : Z → Z) (text pattern : Z) : outcome bool :=
  n ← strlen fuel m pattern;
  let m := put_bytes copy ((λ i, u8 (junk i)) <$> seqZ 0 (n + 1)) m in
  c ← ldc m pattern;
  let '(pattern, n, star_start) :=
    if c =? 42 then (pattern + 1, u64 (n - 1), true) else (pattern, n, false) in
  '(_, m) ← strcpy fuel copy pattern m;
  star ← (if 0 <? n then c ← ldc m (pattern + (n - 1)); Done (c =? 42) else Done false);
  '(n, m, star_end) ←
    (if star : bool then
       let n := u64 (n - 1) in
       m ← stb (copy + n) 0 m;
       Done (n, m, true)
     else Done (n, m, false));
  if star_start && star_end then p ← strstr fuel m text copy; mret (negb (p =? 0))
  else if star_end then p ← strstr fuel m text copy; mret (p =? text)
  else if star_start then
    text_len ← strlen fuel m text;
    if text_len <? n then mret false
    else
      let suffix := text + text_len - n in
      r ← strcmp fuel m suffix copy;
      mret (r =? 0)
  else
    r ← strcmp fuel m text copy;
    mret (r =? 0).

(** lib/util.c; [val] is what the result parameter points to. *)
Definition parse_keyval (fuel : nat) (m : bmem) (s val : Z) : outcome (Z * Z) :=
  p ← strchr fuel m s 61;
  if p =? 0 then mret (-1, val)
  else
    val ← atol fuel m (p + 1);
    mret (s32 (p - s), val).

(** ** Reference definitions on lists of characters *)
Fixpoint str_cmp (s t : list Z) : Z :=
  match s, t with
  | [], [] => 0
  | [], d :: _ => - s8 d
  | c :: _, [] => s8 c
  | c :: s, d :: t => if c =? d then str_cmp s t else s8 c - s8 d
  end.
Fixpoint index_of (c : Z) (l : list Z) : option nat :=
  match l with [] => None | x :: l => if x =? c then Some O else S <$> index_of c l end.
Fixpoint find_sub (t s : list Z) : option nat :=
  if decide (t `prefix_of` s) then Some O
  else match s with [] => None | _ :: s => S <$> find_sub t s end.
(** A found position as a pointer. *)
Definition ptr_at (p : Z) (k : option nat) : Z := match k with Some k => p + Z.of_nat k | None => 0 end.

Lemma ptr_at_succ p k : ptr_at p (S <$> k) = ptr_at (p + 1) k.
Proof. destruct k; cbn [fmap option_fmap option_map ptr_at]; lia. Qed.

Lemma s8_zero c : is_byte c → s8 c = 0 → c = 0.
Proof. intros Hc E. apply s8_byte_inj; done. Qed.
Lemma u8_s8 c : is_byte c → u8 (s8 c) = c.
Proof.
  unfold u8, s8, signed, is_byte. intros Hc. change (2 ^ 8) with 256. change (2 ^ (8 - 1)) with 128.
  rewrite (Z.mod_small c) by lia. destruct (Z.ltb_spec c 128); [by apply Z.mod_small|].
  replace (c - 256) with (c + (-1) * 256) by lia. rewrite Z.mod_add by lia. by apply Z.mod_small.
Qed.

Lemma str_cmp_0 s t : cstring s → cstring t → str_cmp s t = 0 ↔ s = t.
Proof.
  revert t. induction s as [|c s IH]; intros [|d t] Hs Ht; cbn [str_cmp]; [done|..].
  - apply cstring_byte in Ht as (Hd & Hd0 & _). split; [|done]. intros E. destruct Hd0.
    apply s8_zero; [done|lia].
  - apply cstring_byte in Hs as (Hc & Hc0 & _). split; [|done]. intros E. destruct Hc0. by apply s8_zero.
  - apply cstring_byte in Hs as (Hc & _ & Hs). apply cstring_byte in Ht as (Hd & _ & Ht).
    destruct (Z.eqb_spec c d) as [->|Hne].
    + rewrite IH by done. split; [by intros ->|by intros [= ->]].
    + split; [|by intros [= -> _]]. intros E. destruct Hne. apply s8_byte_inj; [done..|lia].
Qed.

Lemma find_sub_spec t s :
  match find_sub t s with
  | Some k => t `prefix_of` drop k s ∧ ∀ j, (j < k)%nat → ¬ t `prefix_of` drop j s
  | None => ∀ j, (j ≤ length s)%nat → ¬ t `prefix_of` drop j s
  end.
Proof.
  induction s as [|c s IH]; cbn [find_sub]; case_decide as Hp.
  - split; [done|lia].
  - intros j Hj. by replace j with 0%nat by (cbn in Hj; lia).
  - split; [done|lia].
  - destruct (find_sub t s) as [k|]; cbn [fmap option_fmap option_map].
    + destruct IH as [Hk Hj]. split; [done|]. intros [|j] Hlt; [done|]. apply Hj. lia.
    + intros [|j] Hlt; [done|]. apply IH. cbn in Hlt. lia.
Qed.

Lemma find_sub_0 t s : find_sub t s = Some 0%nat ↔ t `prefix_of` s.
Proof.
  destruct s; cbn [find_sub]; case_decide; try done.
  split; [|done]. by destruct (find_sub t s).
Qed.

Lemma find_sub_None_short t s : (length s < length t)%nat → find_sub t s = None.
Proof.
  induction s as [|c s IH]; intros Hl; cbn [find_sub]; rewrite decide_False.
  - done.
  - intros ?%prefix_length. cbn in *. lia.
  - rewrite IH; [done|]. cbn in Hl. lia.
  - intros ?%prefix_length. cbn in *. lia.
Qed.

(** ** The functions on strings and blocks *)
Section strings.
Context (m : bmem).

Lemma strlen_loop_ok fuel p s len :
  str_at m p s → (length s < fuel)%nat → 0 ≤ len → len + Z.of_nat (length s) < 2 ^ 64 →
  strlen_loop fuel m p len = Done (len + Z.of_nat (length s)).
Proof.
  revert p s len. induction fuel as [|f IH]; intros p s len Hs Hf H0 Hl; [lia|]. cbn [strlen_loop].
  destruct s as [|c s].
  - apply str_at_nil in Hs. rewrite (ldc_ok _ _ _ Hs). cbn. f_equal. lia.
  - apply str_at_cons in Hs as [[Hc E] Hs]. rewrite (ldc_ok _ _ _ E). cbn [mbind outcome_bind].
    rewrite s8_eqb0 by (unfold is_byte; lia). rewrite (proj2 (Z.eqb_neq c 0)) by lia.
    cbn [length] in *. rewrite u64_small, (IH (p + 1) s) by (done || unfold in_u64; lia). f_equal. lia.
Qed.
Lemma strlen_ok fuel p s :
  str_at m p s → (length s < fuel)%nat → Z.of_nat (length s) < 2 ^ 64 →
  strlen fuel m p = Done (Z.of_nat (length s)).
Proof. intros. unfold strlen. rewrite (strlen_loop_ok _ _ s) by (done || lia). done. Qed.

Lemma strcat_end_ok fuel p s :
  str_at m p s → (length s < fuel)%nat → strcat_end fuel m p = Done (p + Z.of_nat (length s)).
Proof.
  revert p s. induction fuel as [|f IH]; intros p s Hs Hf; [lia|]. cbn [strcat_end].
  destruct s as [|c s].
  - apply str_at_nil in Hs. rewrite (ldc_ok _ _ _ Hs). cbn. f_equal. lia.
  - apply str_at_cons in Hs as [[Hc E] Hs]. rewrite (ldc_ok _ _ _ E). cbn [mbind outcome_bind].
    rewrite s8_eqb0 by (unfold is_byte; lia). rewrite (proj2 (Z.eqb_neq c 0)) by lia.
    cbn [length] in *. rewrite (IH (p + 1) s) by (done || lia). f_equal. lia.
Qed.

Lemma strncmp_ok fuel a b s t n :
  str_at m a s → str_at m b t → (length s < fuel)%nat → 0 ≤ n →
  strncmp fuel m a b n = Done (str_cmp (take (Z.to_nat n) s) (take (Z.to_nat n) t)).
Proof.
  revert a b s t n. induction fuel as [|f IH]; intros a b s t n Hs Ht Hf Hn; [lia|]. cbn [strncmp].
  destruct (Z.eqb_spec n 0) as [->|Hn0]; [done|].
  replace (Z.to_nat n) with (S (Z.to_nat (n - 1))) by lia.
  assert (∃ c, m !! a = Some c ∧ is_byte c) as (c & Ec & Hcb).
  { destruct s; [apply str_at_nil in Hs; by exists 0|apply str_at_cons in Hs as [[? ?] _]].
    eexists. split; [done|]. unfold is_byte. lia. }
  assert (∃ c, m !! b = Some c ∧ is_byte c) as (d & Ed & Hdb).
  { destruct t; [apply str_at_nil in Ht; by exists 0|apply str_at_cons in Ht as [[? ?] _]].
    eexists. split; [done|]. unfold is_byte. lia. }
  rewrite (ldc_ok _ _ _ Ec), (ldc_ok _ _ _ Ed). cbn [mbind outcome_bind].
  rewrite s8_eqb, s8_eqb0 by done.
  destruct s as [|c' s], t as [|d' t]; rewrite ?str_at_nil, ?str_at_cons in Hs;
    rewrite ?str_at_nil, ?str_at_cons in Ht; cbn [take str_cmp].
  - by simplify_eq.
  - destruct Ht as [[Hd E] _]. simplify_eq. rewrite orb_true_r. done.
  - destruct Hs as [[Hc E] _]. simplify_eq. rewrite (proj2 (Z.eqb_neq c' 0)) by lia. cbn [negb orb].
    f_equal. change (s8 0) with 0. lia.
  - destruct Hs as [[Hc E] Hs], Ht as [[Hd E'] Ht]. simplify_eq.
    rewrite (proj2 (Z.eqb_neq c' 0)), orb_false_r by lia. destruct (Z.eqb_spec c' d'); [|done].
    cbn [negb]. apply IH; [done|done|cbn in Hf; lia|lia].
Qed.

Lemma strcmp_ok fuel a b s t :
  str_at m a s → str_at m b t → (length s < fuel)%nat →
  Z.of_nat (length s) < 2 ^ 64 → Z.of_nat (length t) < 2 ^ 64 →
  strcmp fuel m a b = Done (str_cmp s t).
Proof.
  intros Hs Ht Hf Hls Hlt. unfold strcmp.
  rewrite (strncmp_ok _ _ _ s t) by (done || unfold SIZE_MAX; lia).
  rewrite !take_ge by (unfold SIZE_MAX; lia). done.
Qed.

Lemma strchr_ok fuel p s c :
  str_at m p s → (length s < fuel)%nat → is_byte c →
  strchr fuel m p c = Done (ptr_at p (index_of c (s ++ [0]))).
Proof.
  intros Hs Hf Hc. revert p s Hs Hf. induction fuel as [|f IH]; intros p s Hs Hf; [lia|]. cbn [strchr].
  destruct s as [|x s].
  - apply str_at_nil in Hs. rewrite (ldc_ok _ _ _ Hs). cbn [mbind outcome_bind app index_of].
    rewrite s8_eqb by done. destruct (Z.eqb_spec 0 c); cbn; f_equal; lia.
  - apply str_at_cons in Hs as [[Hx E] Hs]. rewrite (ldc_ok _ _ _ E). cbn [mbind outcome_bind app index_of].
    rewrite s8_eqb, s8_eqb0 by (done || unfold is_byte; lia). rewrite (proj2 (Z.eqb_neq x 0)) by lia.
    destruct (Z.eqb_spec x c); [cbn; f_equal; lia|].
    rewrite (IH (p + 1) s); [by rewrite ptr_at_succ|done|cbn in Hf; lia].
Qed.

(** [memcmp] of two blocks of the same size. *)
Lemma memcmp_loop_ok a b l1 l2 ret :
  bytes_at m a l1 → bytes_at m b l2 → length l1 = length l2 → ret = 0 →
  ∃ r, memcmp_loop (length l1) m a b ret = Done r ∧ (r = 0 ↔ l1 = l2).
Proof.
  revert a b l2 ret. induction l1 as [|c l1 IH]; intros a b [|d l2] ret H1 H2 Hl Hr; try done;
    cbn [memcmp_loop length].
  - by exists ret.
  - destruct H1 as [E1 H1], H2 as [E2 H2]. rewrite (ldb_ok _ _ _ E1), (ldb_ok _ _ _ E2).
    cbn [mbind outcome_bind]. destruct (Z.eqb_spec (c - d) 0) as [E|E]; cbn [negb].
    + destruct (IH (a + 1) (b + 1) l2 (c - d) H1 H2) as (r & -> & Hr'); [by injection Hl|done|].
      exists r. split; [done|]. rewrite Hr'. assert (c = d) as -> by lia.
      split; [by intros ->|by intros [= ->]].
    + exists (c - d). split; [done|]. split; [done|]. intros [= ? ?]. lia.
Qed.

Lemma strstr_loop_ok fuel p q s t :
  str_at m p s → str_at m q t → t ≠ [] → (length s < fuel)%nat → Z.of_nat (length s) < 2 ^ 64 →
  strstr_loop fuel m p q (Z.of_nat (length s)) (Z.of_nat (length t)) = Done (ptr_at p (find_sub t s)).
Proof.
  intros Hs Ht Hne. revert p s Hs. induction fuel as [|f IH]; intros p s Hs Hf Hl; [lia|]. cbn [strstr_loop].
  destruct (Z.leb_spec (Z.of_nat (length t)) (Z.of_nat (length s))).
  2:{ rewrite find_sub_None_short by lia. done. }
  destruct s as [|c s]; [destruct t; [done|cbn in *; lia]|].
  unfold memcmp. rewrite Nat2Z.id.
  destruct (memcmp_loop_ok p q (take (length t) (c :: s)) t 0) as (r & E & Hr).
  { apply str_at_bytes in Hs. rewrite <- (take_drop (length t)) in Hs.
    by apply bytes_at_app in Hs as [? _]. }
  { by apply str_at_bytes. }
  { rewrite length_take. lia. }
  { done. }
  rewrite length_take, Nat.min_l in E by lia. rewrite E. cbn [mbind outcome_bind find_sub].
  assert (r = 0 ↔ t `prefix_of` c :: s) as Hr'.
  { rewrite Hr. split; [intros <-; apply prefix_take|]. intros [k ->]. by rewrite take_app_length. }
  destruct (Z.eqb_spec r 0) as [E0|E0]; case_decide as Hp; try (by exfalso; tauto).
  - cbn. f_equal. lia.
  - apply str_at_cons in Hs as [_ Hs]. cbn [length] in *. rewrite u64_small by (unfold in_u64; lia).
    replace (Z.of_nat (S (length s)) - 1) with (Z.of_nat (length s)) by lia.
    rewrite (IH (p + 1) s) by (done || lia). by rewrite ptr_at_succ.
Qed.

Lemma strstr_ok fuel p q s t :
  str_at m p s → str_at m q t → (length s < fuel)%nat → (length t < fuel)%nat →
  Z.of_nat (length s) < 2 ^ 64 → Z.of_nat (length t) < 2 ^ 64 →
  strstr fuel m p q = Done (ptr_at p (find_sub t s)).
Proof.
  intros Hs Ht Hf Hf' Hl Hl'. unfold strstr. rewrite (strlen_ok _ q t) by assumption. cbn [mbind outcome_bind].
  destruct (Z.eqb_spec (Z.of_nat (length t)) 0) as [E|E].
  - destruct t; [|cbn in E; lia]. rewrite (proj2 (find_sub_0 _ _) (prefix_nil _)). cbn. f_equal. lia.
  - rewrite (strlen_ok _ p s) by assumption. cbn [mbind outcome_bind]. apply strstr_loop_ok; try done.
    by intros ->.
Qed.

Lemma memchr_ok p l c :
  bytes_at m p l → is_byte c → memchr m p c (Z.of_nat (length l)) = Done (ptr_at p (index_of c l)).
Proof.
  intros Hl Hc. unfold memchr. rewrite Nat2Z.id, (u8_small c) by (unfold is_byte in Hc; lia).
  revert p Hl. induction l as [|x l IH]; intros p Hl; cbn [memchr_loop length index_of]; [done|].
  destruct Hl as [E Hl]. rewrite (ldb_ok _ _ _ E). cbn [mbind outcome_bind].
  destruct (Z.eqb_spec x c); [cbn; f_equal; lia|]. rewrite IH by done. by rewrite ptr_at_succ.
Qed.
End strings.

(** ** Writing *)
Lemma strcat_copy_ok fuel p src s m :
  str_at m src s → writable m p (Z.of_nat (length s) + 1) →
  p + Z.of_nat (length s) < src ∨ src + Z.of_nat (length s) < p → (length s < fuel)%nat →
  strcat_copy fuel p src m = Done (put_bytes p (s ++ [0]) m).
Proof.
  revert p src s m. induction fuel as [|f IH]; intros p src s m Hs Hw Hd Hf; [lia|]. cbn [strcat_copy].
  assert (is_Some (m !! p)) as Hp by (apply Hw; lia).
  destruct s as [|c s].
  - apply str_at_nil in Hs. rewrite (ldc_ok _ _ _ Hs). cbn [mbind outcome_bind].
    by rewrite stb_ok by done.
  - pose proof Hs as Hs'. apply str_at_cons in Hs' as [[Hc E] Hs']. rewrite (ldc_ok _ _ _ E).
    cbn [mbind outcome_bind]. rewrite stb_ok, u8_s8, s8_eqb0 by (done || unfold is_byte; lia).
    cbn [mbind outcome_bind]. rewrite (proj2 (Z.eqb_neq c 0)) by lia. cbn [length app put_bytes] in *.
    apply (IH (p + 1) (src + 1) s); [| |lia|lia].
    + apply (str_at_put_frame _ _ _ p [c]); [done|cbn; lia].
    + apply (writable_put p [c]). apply (writable_weaken _ _ _ _ _ Hw); lia.
Qed.

(** [strcpy] of a string to memory apart from it. *)
Lemma strcpy_ok fuel dest src s m :
  str_at m src s → writable m dest (Z.of_nat (length s) + 1) →
  dest + Z.of_nat (length s) < src ∨ src + Z.of_nat (length s) < dest → (length s < fuel)%nat →
  strcpy fuel dest src m = Done (dest, put_bytes dest (s ++ [0]) m).
Proof.
  intros Hs Hw Hd Hf. unfold strcpy. rewrite stb_ok by (apply Hw; lia). cbn [mbind outcome_bind].
  unfold strcat. destruct fuel as [|f]; [lia|]. cbn [strcat_end].
  rewrite (ldc_ok _ _ 0) by apply lookup_insert_eq. cbn [mbind outcome_bind].
  change (s8 0 =? 0) with true. cbv iota. cbn [mret outcome_ret mbind outcome_bind].
  rewrite (strcat_copy_ok _ _ _ s); [|..|lia].
  - cbn [mbind outcome_bind]. f_equal. f_equal. change (<[dest:=u8 0]> m) with (put_bytes dest [0] m).
    apply map_eq. intros a. rewrite !lookup_put_bytes, length_app. cbn [length].
    case_decide; [done|]. by rewrite decide_False by lia.
  - apply (str_at_put_frame _ _ _ dest [0]); [done|cbn; lia].
  - by apply (writable_put dest [0]).
  - done.
Qed.

Lemma memset_ok s c n m :
  writable m s (Z.of_nat n) →
  memset s c (Z.of_nat n) m = Done (s, put_bytes s (replicate n (u8 c)) m).
Proof.
  intros Hw. unfold memset. rewrite Nat2Z.id.
  edestruct (for_up_rule (λ i t, t = put_bytes s (replicate (Z.to_nat i) (u8 c)) m)
    (λ i m, m ← stb (s + i) c m; mret (tt, m)) n 0 m) as (m' & E & Em).
  - done.
  - intros i t Hi ->. rewrite stb_ok by (apply (writable_put _ _ _ _ _ Hw); lia).
    eexists. split; [done|]. cbn. rewrite Z2Nat.inj_add by lia.
    change (Z.to_nat 1) with 1%nat. rewrite replicate_add, put_bytes_app, length_replicate. cbn.
    by rewrite Z2Nat.id by lia.
  - rewrite (stM_bind_Done _ _ _ _ _ E), Em. by rewrite Z.add_0_l, Nat2Z.id.
Qed.

Lemma move_up_ok d s l m :
  Forall is_byte l → bytes_at m s l → writable m d (Z.of_nat (length l)) → d ≤ s →
  move_up (length l) d s m = Done (put_bytes d l m).
Proof.
  intros Hb. revert d s m. induction Hb as [|c l Hc Hl IH]; intros d s m Hs Hw Hd; cbn [move_up length put_bytes];
    [done|]. destruct Hs as [E Hs]. rewrite (ldb_ok _ _ _ E). cbn [mbind outcome_bind].
  rewrite stb_ok, u8_small by (done || apply Hw; cbn; lia). cbn [mbind outcome_bind].
  apply IH; [| |lia].
  - apply (bytes_at_put_frame _ _ _ d [c]); [done|cbn; lia].
  - apply (writable_put d [c]). cbn [length] in Hw. apply (writable_weaken _ _ _ _ _ Hw); lia.
Qed.

Lemma move_down_ok d s l m :
  Forall is_byte l → bytes_at m s l → writable m d (Z.of_nat (length l)) → s < d →
  move_down (length l) (d + Z.of_nat (length l)) (s + Z.of_nat (length l)) m = Done (put_bytes d l m).
Proof.
  revert m. induction l as [|c l IH] using rev_ind; intros m Hb Hs Hw Hd; [done|].
  apply Forall_app in Hb as [Hb Hc]. apply Forall_cons in Hc as [Hc _].
  apply bytes_at_app in Hs as [Hs [E _]]. rewrite !length_app in *. cbn [length] in *.
  rewrite Nat.add_1_r. cbn [move_down].
  replace (s + Z.of_nat (S (length l)) - 1) with (s + Z.of_nat (length l)) by lia.
  replace (d + Z.of_nat (S (length l)) - 1) with (d + Z.of_nat (length l)) by lia.
  rewrite (ldb_ok _ _ _ E). cbn [mbind outcome_bind].
  rewrite stb_ok, u8_small by (done || apply Hw; lia). cbn [mbind outcome_bind].
  rewrite IH; [|done| | |done].
  - f_equal. apply map_eq. intros a. rewrite put_bytes_app. cbn [put_bytes].
    destruct (decide (a = d + Z.of_nat (length l))) as [->|Hne].
    + rewrite lookup_insert_eq, lookup_put_bytes, decide_False by lia. apply lookup_insert_eq.
    + rewrite lookup_insert_ne by done. rewrite !lookup_put_bytes.
      case_decide; [done|]. by apply lookup_insert_ne.
  - apply (bytes_at_put_frame _ _ _ _ [c]); [done|cbn; lia].
  - apply (writable_put _ [c]). apply (writable_weaken _ _ _ _ _ Hw); lia.
Qed.

Lemma memcpy_ok dest src l m :
  Forall is_byte l → bytes_at m src l → writable m dest (Z.of_nat (length l)) →
  dest ≤ src ∨ src + Z.of_nat (length l) ≤ dest →
  memcpy dest src (Z.of_nat (length l)) m = Done (dest, put_bytes dest l m).
Proof.
  intros Hb Hs Hw Hd. unfold memcpy. rewrite Nat2Z.id.
  destruct (for_up_rule (λ i t, t = put_bytes dest (take (Z.to_nat i) l) m)
    (λ i m, c ← ldb m (src + i); m ← stb (dest + i) c m; mret (tt, m)) (length l) 0 m) as (m' & E & Em).
  - done.
  - intros i t Hi ->. destruct (lookup_lt_is_Some_2 l (Z.to_nat i)) as [c Ec]; [lia|].
    pose proof (length_take_le l (Z.to_nat i) ltac:(lia)) as Hlt.
    assert (put_bytes dest (take (Z.to_nat i) l) m !! (src + i) = Some c) as Ei.
    { rewrite lookup_put_bytes, decide_False by lia.
      rewrite (proj1 (bytes_at_lookup _ _ _) Hs) by lia. by replace (src + i - src) with i by lia. }
    rewrite (ldb_ok _ _ _ Ei). cbn [mbind outcome_bind].
    rewrite stb_ok by (apply (writable_put _ _ _ _ _ Hw); lia).
    eexists. split; [done|]. rewrite Z2Nat.inj_add by lia. change (Z.to_nat 1) with 1%nat.
    rewrite Nat.add_1_r, (take_S_r _ _ _ Ec), put_bytes_app, Hlt. cbn.
    rewrite Z2Nat.id, u8_small; [done| |lia]. rewrite Forall_lookup in Hb. by apply (Hb _ _ Ec).
  - rewrite (stM_bind_Done _ _ _ _ _ E), Em. rewrite Z.add_0_l, Nat2Z.id.
    by rewrite take_ge by lia.
Qed.

(** ** Numbers *)
Definition is_digit (c : Z) : Prop := 48 ≤ c ≤ 57.
(** What follows the digits: the end of the string or a character that is no digit. *)
Definition stops (rest : list Z) : Prop := match rest with [] => True | c :: _ => ¬ is_digit c end.

Lemma foldl_digits_ge ds acc :
  Forall (λ d, 0 ≤ d < 10) ds → 0 ≤ acc → acc ≤ foldl (λ a d, a * 10 + d) acc ds.
Proof.
  intros Hd. revert acc. induction Hd as [|d ds Hd _ IH]; intros acc H0; cbn; [lia|].
  etransitivity; [|apply IH; lia]. lia.
Qed.

Lemma long_ok_small x : 0 ≤ x < 2 ^ 63 → long_ok x = Done x.
Proof. intros Hx. unfold long_ok. by rewrite (proj2 (Z.leb_le _ _)), (proj2 (Z.ltb_lt _ _)) by lia. Qed.

(** A character of a string, as a signed [char], compared with an ASCII code. *)
Lemma s8_digit c : 0 < c < 256 → ((s8 c <? 48) || (57 <? s8 c)) = negb ((48 <=? c) && (c <=? 57)).
Proof.
  intros Hc. unfold s8, signed. change (2 ^ 8) with 256. change (2 ^ (8 - 1)) with 128.
  rewrite Z.mod_small by lia. destruct (Z.ltb_spec c 128); zbits_cmp; done.
Qed.

Lemma atol_digits_ok fuel m p ds rest acc :
  str_at m p (((λ d, 48 + d) <$> ds) ++ rest) → Forall (λ d, 0 ≤ d < 10) ds → stops rest →
  (length ds < fuel)%nat → 0 ≤ acc → foldl (λ a d, a * 10 + d) acc ds < 2 ^ 63 →
  atol_digits fuel m p acc = Done (foldl (λ a d, a * 10 + d) acc ds).
Proof.
  intros Hs Hd Hr. revert p ds acc Hs Hd. induction fuel as [|f IH]; intros p ds acc Hs Hd Hf H0 Hlt; [lia|].
  cbn [atol_digits]. destruct ds as [|d ds]; cbn [fmap list_fmap app foldl length] in *.
  - destruct rest as [|c rest].
    + apply str_at_nil in Hs. rewrite (ldc_ok _ _ _ Hs). done.
    + apply str_at_cons in Hs as [[Hc E] _]. rewrite (ldc_ok _ _ _ E). cbn [mbind outcome_bind].
      rewrite s8_eqb0, s8_digit by (done || unfold is_byte; lia). rewrite (proj2 (Z.eqb_neq c 0)) by lia.
      destruct ((48 <=? c) && (c <=? 57)) eqn:Ec; [|done]. destruct Hr.
      apply andb_true_iff in Ec as [?%Z.leb_le ?%Z.leb_le]. by split.
  - apply str_at_cons in Hs as [[Hc E] Hs]. apply Forall_cons in Hd as [Hd0 Hd].
    rewrite (ldc_ok _ _ _ E). cbn [mbind outcome_bind].
    rewrite s8_eqb0, s8_digit by (done || unfold is_byte; lia). rewrite (proj2 (Z.eqb_neq (48 + d) 0)) by lia.
    rewrite (proj2 (Z.leb_le 48 _)), (proj2 (Z.leb_le _ 57)) by lia. cbn [andb negb].
    rewrite s8_small by lia. replace (48 + d - 48) with d by lia.
    pose proof (foldl_digits_ge ds (acc * 10 + d) Hd ltac:(lia)) as Hge.
    rewrite long_ok_small by lia. cbn [mbind outcome_bind]. rewrite long_ok_small by lia.
    cbn [mbind outcome_bind]. apply IH; [done|done|lia|lia|done].
Qed.

Lemma atol_blanks_ok fuel m p bl s :
  str_at m p (bl ++ s) → Forall (λ c, c = 32 ∨ c = 9) bl → hd 0 s ≠ 32 → hd 0 s ≠ 9 → (length bl < fuel)%nat →
  atol_blanks fuel m p = Done (p + Z.of_nat (length bl)).
Proof.
  intros Hs Hbl H32 H9. revert p bl Hs Hbl. induction fuel as [|f IH]; intros p bl Hs Hbl Hf; [lia|].
  cbn [atol_blanks]. destruct bl as [|b bl]; cbn [app length] in *.
  - assert (∃ c, m !! p = Some c ∧ c = hd 0 s ∧ is_byte c) as (c & E & -> & Hc).
    { destruct s; [apply str_at_nil in Hs; by exists 0|apply str_at_cons in Hs as [[? ?] _]].
      eexists. split; [done|]. split; [done|]. unfold is_byte. lia. }
    rewrite (ldc_ok _ _ _ E). cbn [mbind outcome_bind].
    rewrite !s8_eqb_ascii by (done || lia). rewrite !(proj2 (Z.eqb_neq _ _)) by done.
    cbn. f_equal. lia.
  - apply str_at_cons in Hs as [[Hc E] Hs]. apply Forall_cons in Hbl as [Hb Hbl].
    rewrite (ldc_ok _ _ _ E). cbn [mbind outcome_bind].
    assert ((s8 b =? 32) || (s8 b =? 9) = true) as -> by (destruct Hb as [-> | ->]; done).
    rewrite (IH (p + 1) bl) by (done || lia). f_equal. lia.
Qed.

(** The sign characters. *)
Inductive sign : Set := s_none | s_plus | s_minus.
Definition sign_chars (s : sign) : list Z := match s with s_none => [] | s_plus => [43] | s_minus => [45] end.
Definition sign_val (s : sign) (x : Z) : Z := match s with s_minus => - x | _ => x end.

(** [atol] of blanks, a sign, at least one digit and anything that is no digit. *)
Lemma atol_ok fuel m p bl sg ds rest :
  str_at m p (bl ++ sign_chars sg ++ ((λ d, 48 + d) <$> ds) ++ rest) →
  Forall (λ c, c = 32 ∨ c = 9) bl → Forall (λ d, 0 ≤ d < 10) ds → ds ≠ [] → stops rest →
  (length bl < fuel)%nat → (length ds < fuel)%nat → digits_value 10 ds < 2 ^ 63 →
  atol fuel m p = Done (sign_val sg (digits_value 10 ds)).
Proof.
  intros Hs Hbl Hd Hne Hr Hf Hf' Hv. unfold atol.
  assert (∃ d ds', ds = d :: ds' ∧ 0 ≤ d < 10) as (d0 & ds' & Eds & Hd0).
  { destruct ds; [done|]. apply Forall_cons in Hd as [? _]. by eexists _, _. }
  rewrite (atol_blanks_ok _ _ _ bl _ Hs) by (done || (subst ds; destruct sg; cbn; lia)). cbn [mbind outcome_bind].
  rewrite app_assoc in Hs. set (q := p + Z.of_nat (length bl)).
  assert (str_at m q (sign_chars sg ++ ((λ d, 48 + d) <$> ds) ++ rest)) as Hq.
  { rewrite <- app_assoc in Hs. apply (str_at_drop _ _ _ (length bl)) in Hs; [|rewrite length_app; lia].
    by rewrite drop_app_length in Hs. }
  unfold digits_value in *. destruct sg; cbn [sign_chars app sign_val] in *.
  - pose proof Hq as Hq'. rewrite Eds in Hq'. apply str_at_cons in Hq' as [[Hc E] _].
    rewrite (ldc_ok _ _ _ E), s8_small by lia. cbn [mbind outcome_bind].
    rewrite (proj2 (Z.eqb_neq (48 + d0) 45)), (proj2 (Z.eqb_neq (48 + d0) 43)) by lia. cbv iota zeta.
    by rewrite (atol_digits_ok _ _ _ ds rest) by (done || lia).
  - apply str_at_cons in Hq as [[Hc E] Hq]. rewrite (ldc_ok _ _ _ E). cbn [mbind outcome_bind].
    change (s8 43 =? 45) with false. change (s8 43 =? 43) with true. cbv iota zeta.
    by rewrite (atol_digits_ok _ _ _ ds rest) by (done || lia).
  - apply str_at_cons in Hq as [[Hc E] Hq]. rewrite (ldc_ok _ _ _ E). cbn [mbind outcome_bind].
    change (s8 45 =? 45) with true. cbv iota zeta.
    rewrite (atol_digits_ok _ _ _ ds rest) by (done || lia). cbn [mbind outcome_bind].
    pose proof (foldl_digits_ge ds 0 Hd ltac:(lia)).
    unfold long_ok. by rewrite (proj2 (Z.leb_le _ _)), (proj2 (Z.ltb_lt _ _)) by lia.
Qed.

(** ** The environment *)
Fixpoint env_at (m : bmem) (envp : Z) (vars : list (Z * list Z)) : Prop :=
  match vars with
  | [] => bytes_at m envp (le_bytes 8 0)
  | (p, s) :: vars => 0 < p < 2 ^ 64 ∧ bytes_at m envp (le_bytes 8 p) ∧ str_at m p s ∧ env_at m (envp + 8) vars
  end.
(** The value of the first variable whose name, the part before the '=', is a
    prefix of [name]. *)
Fixpoint env_lookup (name : list Z) (vars : list (Z * list Z)) : Z :=
  match vars with
  | [] => 0
  | (p, s) :: vars =>
    match index_of 61 s with
    | Some k => if decide (take k s `prefix_of` name) then p + Z.of_nat k + 1 else env_lookup name vars
    | None => env_lookup name vars
    end
  end.

Lemma index_of_app c l1 l2 :
  index_of c (l1 ++ l2) =
  match index_of c l1 with Some k => Some k | None => (λ k, (length l1 + k)%nat) <$> index_of c l2 end.
Proof.
  induction l1 as [|x l1 IH]; cbn [app index_of length].
  - destruct (index_of c l2); done.
  - destruct (x =? c); [done|]. rewrite IH. destruct (index_of c l1); [done|]. by destruct (index_of c l2).
Qed.
Lemma index_of_lt c l k : index_of c l = Some k → (k < length l)%nat.
Proof.
  revert k. induction l as [|x l IH]; intros k; cbn [index_of length]; [done|].
  destruct (x =? c); [intros [= <-]; lia|]. destruct (index_of c l) as [j|]; [|done].
  intros [= <-]. specialize (IH j eq_refl). lia.
Qed.
Lemma cstring_take k s : cstring s → cstring (take k s).
Proof. apply Forall_take. Qed.

Lemma take_prefix_eq (k : nat) (s t : list Z) :
  (k ≤ length s)%nat → take k t = take k s ↔ take k s `prefix_of` t.
Proof.
  intros Hk. split.
  - intros E. rewrite <- E. apply prefix_take.
  - intros [u ->]. by rewrite take_app_le, take_take, Nat.min_id by (rewrite length_take; lia).
Qed.

Lemma getenv_loop_ok fuel m name q envp vars :
  str_at m q name → env_at m envp vars →
  (length vars < fuel)%nat → (length name + length vars < fuel)%nat →
  Forall (λ v, length v.2 + length vars < fuel)%nat vars →
  getenv_loop fuel m q envp = Done (env_lookup name vars).
Proof.
  intros Hn. revert envp vars. induction fuel as [|f IH]; intros envp vars He Hf Hfn Hfv; [lia|].
  cbn [getenv_loop]. destruct vars as [|[p s] vars].
  - unfold ldp. rewrite (ld_le_bytes 8 m envp 0) by (done || lia). done.
  - destruct He as (Hp & Hb & Hs & He). apply Forall_cons in Hfv as [Hfs Hfv]. cbn [length snd env_lookup] in *.
    unfold ldp. rewrite (ld_le_bytes 8 m envp p) by (done || lia). cbn [mbind outcome_bind].
    rewrite (proj2 (Z.eqb_neq p 0)) by lia.
    rewrite (strchr_ok m (S f) p s 61) by (done || lia). cbn [mbind outcome_bind].
    assert (getenv_loop f m q (envp + 8) = Done (env_lookup name vars)) as Hrest.
    { apply IH; [done|lia|lia|]. eapply Forall_impl; [exact Hfv|]. cbn. lia. }
    rewrite index_of_app. cbn [index_of]. change (0 =? 61) with false.
    destruct (index_of 61 s) as [k|] eqn:Ek; cbn [fmap option_fmap option_map ptr_at].
    2:{ change (0 =? 0) with true. cbn [negb mbind outcome_bind]. exact Hrest. }
    pose proof (index_of_lt _ _ _ Ek) as Hk. rewrite (proj2 (Z.eqb_neq _ _)) by lia. cbn [negb].
    rewrite (strncmp_ok m _ q p name s) by (done || lia). cbn [mbind outcome_bind].
    replace (p + Z.of_nat k - p) with (Z.of_nat k) by lia. rewrite Nat2Z.id.
    pose proof (str_cmp_0 (take k name) (take k s) (cstring_take _ _ (proj1 Hn)) (cstring_take _ _ (proj1 Hs))) as Hc.
    rewrite (take_prefix_eq k s name) in Hc by lia.
    destruct (Z.eqb_spec (str_cmp (take k name) (take k s)) 0) as [E|E]; case_decide; try (by exfalso; tauto).
    + done.
    + exact Hrest.
Qed.

(** ** Globs *)
(** The usual meaning of a pattern: a '*' stands for any text. *)
Inductive glob : list Z → list Z → Prop :=
| glob_nil : glob [] []
| glob_char c t p : c ≠ 42 → glob t p → glob (c :: t) (c :: p)
| glob_none t p : glob t p → glob t (42 :: p)
| glob_more c t p : glob t (42 :: p) → glob (c :: t) (42 :: p).

Lemma glob_star t p : glob t (42 :: p) ↔ ∃ u v, t = u ++ v ∧ glob v p.
Proof.
  split.
  - remember (42 :: p) as q eqn:Eq. induction 1 as [|c t p' Hc H _|t p' H _|c t p' H IH]; simplify_eq.
    + by exists [], t.
    + destruct IH as (u & v & -> & Hv); [done|]. by exists (c :: u), v.
  - intros (u & v & -> & Hv). induction u as [|c u IH]; cbn; [by constructor|by constructor].
Qed.

Lemma glob_literal core p t : 42 ∉ core → glob t (core ++ p) ↔ ∃ v, t = core ++ v ∧ glob v p.
Proof.
  intros Hn. revert t. induction core as [|c core IH]; intros t; cbn [app].
  - split; [by exists t|by intros (v & -> & ?)].
  - apply not_elem_of_cons in Hn as [Hc Hn]. split.
    + intros H. inversion H as [|c' t' p' _ Ht'| |]; subst; [|done..].
      apply IH in Ht' as (v & -> & Hv); [|done]. by exists v.
    + intros (v & -> & Hv). constructor; [done|]. apply IH; [done|]. by exists v.
Qed.
Lemma glob_empty t : glob t [] ↔ t = [].
Proof. split; [by inversion 1|intros ->; constructor]. Qed.
Lemma glob_any t : glob t [42].
Proof. apply glob_star. exists t, []. rewrite app_nil_r. by split; [|constructor]. Qed.

Definition opt_star (b : bool) : list Z := if b then [42] else [].
(** The four cases of [simple_glob]. *)
Definition glob_parts (b e : bool) (core t : list Z) : Prop :=
  match b, e with
  | true, true => find_sub core t ≠ None
  | false, true => core `prefix_of` t
  | true, false => core `suffix_of` t
  | false, false => t = core
  end.

Lemma find_sub_infix core t : find_sub core t ≠ None ↔ ∃ u v, t = u ++ core ++ v.
Proof.
  pose proof (find_sub_spec core t) as Hs. destruct (find_sub core t) as [k|].
  - split; [|done]. intros _. destruct Hs as [[v Hv] _]. exists (take k t), v.
    by rewrite <- Hv, take_drop.
  - split; [done|]. intros (u & v & ->). destruct (Hs (length u)).
    + rewrite length_app. lia.
    + rewrite drop_app_length. by exists v.
Qed.

Lemma glob_parts_iff b e core t : 42 ∉ core → glob_parts b e core t ↔ glob t (opt_star b ++ core ++ opt_star e).
Proof.
  intros Hn. assert (∀ v, glob v (opt_star e) ↔ if e then True else v = []) as He.
  { intros v. destruct e; cbn; [|apply glob_empty]. split; [done|intros _; apply glob_any]. }
  destruct b; cbn [opt_star app].
  - rewrite glob_star. setoid_rewrite glob_literal; [|done]. setoid_rewrite He. cbn [glob_parts].
    destruct e; cbn [glob_parts].
    + rewrite find_sub_infix. split.
      * intros (u & v & ->). exists u, (core ++ v). split; [done|]. by exists v.
      * intros (u & ? & -> & v & -> & _). by exists u, v.
    + split.
      * intros [u ->]. exists u, core. split; [done|]. exists []. by rewrite app_nil_r.
      * intros (u & ? & -> & v & -> & ->). rewrite app_nil_r. by exists u.
  - rewrite glob_literal by done. setoid_rewrite He. destruct e; cbn [glob_parts].
    + split; [intros [v ->]; by exists v|intros (v & -> & _); by exists v].
    + split; [intros ->; exists []; by rewrite app_nil_r|intros (v & -> & ->); by rewrite app_nil_r].
Qed.

Lemma last_star core e i :
  42 ∉ core → (core ++ opt_star e) !! i = Some 42 → i = length core ∧ e = true.
Proof.
  intros Hn Hi. apply lookup_app_Some in Hi as [Hi|[Hi Hl]].
  - destruct Hn. by apply list_elem_of_lookup_2 in Hi.
  - destruct e; [|done]. cbn in Hl. apply list_lookup_singleton_Some in Hl as [? _]. split; [lia|done].
Qed.

(** The tests at the end, on the text and the literal part. *)
Lemma glob_tests fuel m text copy t core b e :
  str_at m text t → str_at m copy core → 0 < text →
  (length t < fuel)%nat → (length core < fuel)%nat →
  Z.of_nat (length t) < 2 ^ 63 → Z.of_nat (length core) < 2 ^ 63 →
  ∃ r, (if b && e then p ← strstr fuel m text copy; mret (negb (p =? 0))
        else if e then p ← strstr fuel m text copy; mret (p =? text)
        else if b then
          text_len ← strlen fuel m text;
          if text_len <? Z.of_nat (length core) then mret false
          else r ← strcmp fuel m (text + text_len - Z.of_nat (length core)) copy; mret (r =? 0)
        else r ← strcmp fuel m text copy; mret (r =? 0)) = Done r ∧
    (r = true ↔ glob_parts b e core t).
Proof.
  intros Ht Hc Hpos Hf Hf' Hl Hl'.
  rewrite (strstr_ok m fuel text copy t core), (strlen_ok m fuel text t) by (done || lia).
  destruct b, e; cbn [andb mbind outcome_bind].
  - eexists. split; [done|]. cbn [glob_parts]. destruct (find_sub core t) as [k|]; cbn [ptr_at].
    + rewrite (proj2 (Z.eqb_neq _ _)) by lia. done.
    + done.
  - cbn [glob_parts]. destruct (Z.ltb_spec (Z.of_nat (length t)) (Z.of_nat (length core))).
    + eexists. split; [done|]. split; [done|]. intros ?%suffix_length. lia.
    + replace (text + Z.of_nat (length t) - Z.of_nat (length core))
        with (text + Z.of_nat (length t - length core)) by lia.
      pose proof (str_at_drop m text t (length t - length core) ltac:(lia) Ht) as Hd.
      rewrite (strcmp_ok _ _ _ _ _ _ Hd Hc) by (rewrite ?length_drop; lia). cbn [mbind outcome_bind].
      eexists. split; [done|]. rewrite Z.eqb_eq, (str_cmp_0 _ _ (proj1 Hd) (proj1 Hc)).
      split.
      * intros <-. exists (take (length t - length core) t). by rewrite take_drop.
      * intros [u ->]. rewrite length_app, Nat.add_sub. apply drop_app_length.
  - eexists. split; [done|]. cbn [glob_parts]. rewrite <- find_sub_0, Z.eqb_eq.
    destruct (find_sub core t) as [k|]; cbn [ptr_at].
    + split; [intros ?; f_equal; lia|intros [= ->]; lia].
    + split; [lia|done].
  - rewrite (strcmp_ok _ _ _ _ _ _ Ht Hc) by lia. cbn [mbind outcome_bind].
    eexists. split; [done|]. rewrite Z.eqb_eq. apply (str_cmp_0 _ _ (proj1 Ht) (proj1 Hc)).
Qed.

Lemma str_at_hd m p s : str_at m p s → m !! p = Some (hd 0 s) ∧ is_byte (hd 0 s).
Proof.
  destruct s; [intros ?%str_at_nil; by split|]. intros [[? ?] _]%str_at_cons. split; [done|].
  unfold is_byte. cbn. lia.
Qed.

(** The last character of the rest of the pattern decides [star_end]. *)
Lemma star_end_ok m p core e :
  42 ∉ core → str_at m p (core ++ opt_star e) →
  (if 0 <? Z.of_nat (length (core ++ opt_star e))
   then c ← ldc m (p + (Z.of_nat (length (core ++ opt_star e)) - 1)); Done (c =? 42) else Done false) = Done e.
Proof.
  intros Hn Hs. set (rest := core ++ opt_star e) in *.
  destruct (Z.ltb_spec 0 (Z.of_nat (length rest))) as [H0|H0].
  - destruct (lookup_lt_is_Some_2 rest (length rest - 1)) as [c Ec]; [lia|].
    assert (m !! (p + (Z.of_nat (length rest) - 1)) = Some c) as E.
    { pose proof (str_at_bytes _ _ _ Hs) as Hb. rewrite (proj1 (bytes_at_lookup _ _ _) Hb) by lia.
      replace (Z.to_nat _) with (length rest - 1)%nat by lia. done. }
    assert (is_byte c) as Hc.
    { destruct Hs as [Hcs _]. unfold cstring in Hcs. rewrite Forall_lookup in Hcs.
      pose proof (Hcs _ _ Ec). unfold is_byte. cbn in *. lia. }
    rewrite (ldc_ok _ _ _ E). cbn [mbind outcome_bind]. rewrite s8_eqb_ascii by (done || lia). f_equal.
    destruct (Z.eqb_spec c 42) as [->|Hne].
    + by destruct (last_star core e _ Hn Ec) as [_ ->].
    + destruct e; [|done]. destruct Hne. unfold rest in Ec. cbn [opt_star] in Ec.
      rewrite length_app, Nat.add_sub in Ec. rewrite lookup_app_r, Nat.sub_diag in Ec by lia.
      by injection Ec.
  - destruct e; [|done]. unfold rest in H0. rewrite length_app in H0. cbn in H0. lia.
Qed.

Lemma simple_glob_ok fuel m copy junk text pat t core b e :
  let pt := opt_star b ++ core ++ opt_star e in
  42 ∉ core → b = true ∨ core ≠ [] ∨ e = false →
  str_at m text t → str_at m pat pt → 0 < text →
  text + Z.of_nat (length t) < copy ∨ copy + Z.of_nat (length pt) < text →
  pat + Z.of_nat (length pt) < copy ∨ copy + Z.of_nat (length pt) < pat →
  (length t < fuel)%nat → (length pt < fuel)%nat →
  Z.of_nat (length t) < 2 ^ 63 → Z.of_nat (length pt) < 2 ^ 63 →
  ∃ r, simple_glob fuel m copy junk text pat = Done r ∧ (r = true ↔ glob t pt).
Proof.
  intros pt Hn Hcan Ht Hp Hpos Hd1 Hd2 Hf Hf' Hl Hl'. unfold simple_glob.
  rewrite (strlen_ok m fuel pat pt) by (done || lia). cbn [mbind outcome_bind].
  set (J := (λ i, u8 (junk i)) <$> seqZ 0 (Z.of_nat (length pt) + 1)).
  assert (Z.of_nat (length J) = Z.of_nat (length pt) + 1) as HJ.
  { unfold J. rewrite length_fmap, length_seqZ. lia. }
  set (m1 := put_bytes copy J m).
  assert (str_at m1 pat pt) as Hp1 by (apply str_at_put_frame; [done|lia]).
  assert (str_at m1 text t) as Ht1 by (apply str_at_put_frame; [done|lia]).
  assert (writable m1 copy (Z.of_nat (length pt) + 1)) as Hw.
  { intros a Ha. unfold m1. rewrite lookup_put_bytes, decide_True by lia. apply lookup_lt_is_Some_2. lia. }
  set (rest := core ++ opt_star e) in *.
  assert (length pt = (length (opt_star b) + length rest)%nat) as Hlen by (unfold pt; apply length_app).
  assert (str_at m1 (pat + Z.of_nat (length (opt_star b))) rest) as Hr1.
  { pose proof (str_at_drop m1 pat pt (length (opt_star b)) ltac:(lia) Hp1) as Hd.
    unfold pt in Hd. by rewrite drop_app_length in Hd. }
  destruct (str_at_hd _ _ _ Hp1) as [E0 Hb0]. rewrite (ldc_ok _ _ _ E0). cbn [mbind outcome_bind].
  rewrite s8_eqb_ascii by (done || lia).
  assert ((if hd 0 pt =? 42 then (pat + 1, u64 (Z.of_nat (length pt) - 1), true)
           else (pat, Z.of_nat (length pt), false)) =
          (pat + Z.of_nat (length (opt_star b)), Z.of_nat (length rest), b)) as ->.
  { destruct b; cbn [opt_star length app hd] in *.
    - unfold pt. cbn [opt_star app hd length]. change (42 =? 42) with true. cbv iota.
      rewrite u64_small by (unfold in_u64; lia). f_equal. f_equal. lia.
    - assert (hd 0 pt ≠ 42) as Hne.
      { unfold pt, rest. cbn. destruct core as [|c core]; [destruct e; [|done]; by destruct Hcan as [|[|]]|].
        apply not_elem_of_cons in Hn as [? _]. cbn. congruence. }
      rewrite (proj2 (Z.eqb_neq _ _) Hne). f_equal. f_equal; lia. }
  rewrite (strcpy_ok fuel copy _ rest m1 Hr1); [|apply (writable_weaken _ _ _ _ _ Hw); lia|lia|lia].
  cbn [mbind outcome_bind]. set (m2 := put_bytes copy (rest ++ [0]) m1).
  assert (length (rest ++ [0]) = S (length rest)) as Hl0 by (rewrite length_app; cbn; lia).
  assert (str_at m2 (pat + Z.of_nat (length (opt_star b))) rest) as Hr2 by (apply str_at_put_frame; [done|lia]).
  assert (str_at m2 text t) as Ht2 by (apply str_at_put_frame; [done|lia]).
  pose proof (star_end_ok m2 _ core e Hn Hr2) as Estar. fold rest in Estar. rewrite Estar. clear Estar.
  cbn [mbind outcome_bind].
  assert (str_at m2 copy rest) as Hc2 by (apply str_at_put, Hr1).
  assert (∃ m3, (if e then let n := u64 (Z.of_nat (length rest) - 1) in
                   m ← stb (copy + n) 0 m2; Done (n, m, true)
                 else Done (Z.of_nat (length rest), m2, false)) =
                Done (Z.of_nat (length core), m3, e) ∧ str_at m3 copy core ∧ str_at m3 text t) as (m3 & E3 & Hc3 & Ht3).
  { destruct e; cbn [opt_star] in *.
    - assert (length rest = S (length core)) as Hlr by (unfold rest; rewrite length_app; cbn; lia).
      rewrite u64_small, Hlr by (unfold in_u64; lia). cbv zeta.
      replace (Z.of_nat (S (length core)) - 1) with (Z.of_nat (length core)) by lia.
      rewrite stb_ok by (apply (writable_put _ _ _ _ _ Hw); lia). cbn [mbind outcome_bind].
      eexists. split; [done|]. change (<[?a:=u8 0]> ?m) with (put_bytes a [0] m).
      split.
      + split; [by apply (Forall_app _ core [42]), Hc2|]. apply bytes_at_app. split; [|apply bytes_at_put].
        apply (bytes_at_put_frame _ _ _ _ [0]); [|cbn; lia].
        apply (bytes_at_app _ _ core [42]). by apply str_at_bytes.
      + apply (str_at_put_frame _ _ _ _ [0]); [done|cbn; lia].
    - exists m2. unfold rest in *. rewrite app_nil_r in *. done. }
  cbv zeta in E3. rewrite E3. cbn [mbind outcome_bind].
  assert (length core ≤ length rest)%nat by (unfold rest; rewrite length_app; lia).
  destruct (glob_tests fuel m3 text copy t core b e Ht3 Hc3 Hpos) as (r & Er & Hr); try lia.
  exists r. split; [exact Er|]. rewrite Hr. apply glob_parts_iff, Hn.
Qed.

(** ** Properties *)
(** [memmove] copies a block to any place, overlapping the source or not: the
    destination holds what the source held before, and nothing else changes. *)
Theorem memmove_correct dest src l m :
  Forall is_byte l → bytes_at m src l → writable m dest (Z.of_nat (length l)) →
  ∃ m', memmove dest src (Z.of_nat (length l)) m = Done (dest, m') ∧ bytes_at m' dest l ∧
    ∀ a, a < dest ∨ dest + Z.of_nat (length l) ≤ a → m' !! a = m !! a.
Proof.
  intros Hb Hs Hw. exists (put_bytes dest l m). split; [|split; [apply bytes_at_put|]].
  - unfold memmove. rewrite Nat2Z.id. destruct (Z.leb_spec dest src).
    + by rewrite move_up_ok.
    + by rewrite move_down_ok.
  - intros a Ha. rewrite lookup_put_bytes, decide_False; [done|lia].
Qed.

(** For a pattern with stars at its ends only, [simple_glob] decides the glob
    relation, whatever the stack array holds at first, if the array is apart from
    both strings. *)
Theorem simple_glob_correct fuel m copy junk text pat t core b e :
  let pt := opt_star b ++ core ++ opt_star e in
  42 ∉ core → str_at m text t → str_at m pat pt → 0 < text →
  text + Z.of_nat (length t) < copy ∨ copy + Z.of_nat (length pt) < text →
  pat + Z.of_nat (length pt) < copy ∨ copy + Z.of_nat (length pt) < pat →
  (length t < fuel)%nat → (length pt < fuel)%nat →
  Z.of_nat (length t) < 2 ^ 63 → Z.of_nat (length pt) < 2 ^ 63 →
  ∃ r, simple_glob fuel m copy junk text pat = Done r ∧ (r = true ↔ glob t pt).
Proof.
  intros pt Hn. destruct (decide (b = true ∨ core ≠ [] ∨ e = false)) as [Hcan|Hcan].
  - by apply simple_glob_ok.
  - destruct b; [by destruct Hcan; left|]. destruct e; [|by destruct Hcan; right; right].
    destruct core; [|by destruct Hcan; right; left]. intros. apply (simple_glob_ok _ _ _ _ _ _ _ [] true false);
      try assumption. by left.
Qed.

(** [getenv] returns the value of the first variable whose name is a prefix of
    the given one, or NULL: a variable matches when its name is shorter. *)
Theorem getenv_correct fuel m name q environ vars :
  str_at m q name → env_at m environ vars →
  (length name + length vars < fuel)%nat →
  Forall (λ v, length v.2 + length vars < fuel)%nat vars →
  getenv fuel m environ q = Done (env_lookup name vars).
Proof. intros. apply getenv_loop_ok; try assumption. lia. Qed.

(** [parse_keyval] returns the length of the key and the number after the '=',
    and -1 when there is no '='. *)
Theorem parse_keyval_correct fuel m s key val bl sg ds rest :
  Forall (λ c, c = 32 ∨ c = 9) bl → Forall (λ d, 0 ≤ d < 10) ds → ds ≠ [] → stops rest →
  digits_value 10 ds < 2 ^ 63 → index_of 61 key = None → 0 < s → Z.of_nat (length key) < 2 ^ 31 →
  let num := bl ++ sign_chars sg ++ ((λ d, 48 + d) <$> ds) ++ rest in
  (length (key ++ 61%Z :: num) < fuel)%nat →
  (str_at m s (key ++ 61 :: num) →
   parse_keyval fuel m s val = Done (Z.of_nat (length key), sign_val sg (digits_value 10 ds))) ∧
  (str_at m s key → parse_keyval fuel m s val = Done (-1, val)).
Proof.
  intros Hbl Hd Hne Hr Hv Hk Hpos Hlk num Hf. rewrite length_app in Hf. cbn [length] in Hf.
  assert (length num = length bl + (length (sign_chars sg) + (length ds + length rest)))%nat as Hln
    by (unfold num; rewrite !length_app, length_fmap; done).
  unfold parse_keyval. split; intros Hs.
  - rewrite (strchr_ok m fuel s (key ++ 61 :: num) 61 Hs); [|rewrite length_app; cbn; lia|done].
    cbn [mbind outcome_bind]. rewrite <- app_assoc, index_of_app, Hk. cbn [app index_of].
    change (61 =? 61) with true. cbn [fmap option_fmap option_map ptr_at]. rewrite Nat.add_0_r.
    rewrite (proj2 (Z.eqb_neq _ _)) by lia.
    rewrite (atol_ok fuel m _ bl sg ds rest); try assumption; try lia.
    + cbn [mbind outcome_bind mret outcome_ret]. f_equal. f_equal.
      replace (s + Z.of_nat (length key) - s) with (Z.of_nat (length key)) by lia.
      unfold s32, signed. rewrite Z.mod_small by lia. by rewrite (proj2 (Z.ltb_lt _ _)) by lia.
    + apply (str_at_drop _ _ _ (S (length key))) in Hs; [|rewrite length_app; cbn; lia].
      replace (s + Z.of_nat (length key) + 1) with (s + Z.of_nat (S (length key))) by lia.
      assert (drop (S (length key)) (key ++ 61 :: num) = num) as Ed; [|by rewrite Ed in Hs].
      by rewrite <- Nat.add_1_r, <- drop_drop, drop_app_length.
  - rewrite (strchr_ok m fuel s key 61 Hs); [|lia|done]. cbn [mbind outcome_bind].
    rewrite index_of_app, Hk. done.
Qed.

(** ** The theorems at a concrete memory *)
Lemma str_at_bool m p s :
  bool_decide (Forall (λ c, 0 < c < 256) s) &&
  forallb (λ i, bool_decide (m !! (p + Z.of_nat i) = (s ++ [0]) !! i)) (seq 0 (S (length s))) = true →
  str_at m p s.
Proof.
  intros [Hc%bool_decide_eq_true Hb]%andb_true_iff. split; [done|]. apply bytes_at_lookup. intros a Ha.
  rewrite forallb_forall in Hb. specialize (Hb (Z.to_nat (a - p))).
  rewrite length_app in Ha. cbn in Ha.
  assert (In (Z.to_nat (a - p)) (seq 0 (S (length s)))) as Hin by (apply in_seq; lia).
  apply Hb, bool_decide_eq_true in Hin. rewrite <- Hin. f_equal. lia.
Qed.

Definition demo_bytes : bmem :=
  put_bytes 0x100 (cstr "x86/vmx") (put_bytes 0x200 (cstr "*vm*") (put_bytes 0x280 (cstr "mem=-12 ")
    (put_bytes 0x300 (cstr "FOO=1") (put_bytes 0x340 (cstr "FOOBAR")
      (put_bytes 0x380 (le_bytes 8 0x300 ++ le_bytes 8 0) ∅))))).

(** The two blocks overlap. *)
Lemma memmove_correct_witness :
  ∃ m', memmove 0x102 0x100 5 demo_bytes = Done (0x102, m') ∧ bytes_at m' 0x100 (chars "x8x86/v" ++ [0]).
Proof.
  destruct (memmove_correct 0x102 0x100 (chars "x86/v") demo_bytes) as (m' & E & Hb & Hf).
  - refine (bool_decide_unpack _ _). vm_compute. done.
  - vm_compute. repeat split.
  - intros a Ha. change (Z.of_nat (length (chars "x86/v"))) with 5 in Ha. assert (a = 258 ∨ a = 259 ∨ a = 260 ∨ a = 261 ∨ a = 262) as H by lia.
    destruct H as [->|[->|[->|[->| ->]]]]; vm_compute; by eexists.
  - exists m'. split; [exact E|]. apply (bytes_at_app m' 0x100 (chars "x8") (chars "x86/v" ++ [0])).
    split.
    + cbn. rewrite !Hf by lia. vm_compute. done.
    + apply bytes_at_app. split; [exact Hb|]. cbn. rewrite Hf by (vm_compute; right; discriminate). by vm_compute.
Defined.

Lemma simple_glob_correct_witness :
  simple_glob 20 demo_bytes 0x400 (λ _, 7) 0x100 0x200 = Done true ∧ glob (chars "x86/vmx") (chars "*vm*").
Proof.
  destruct (simple_glob_correct 20 demo_bytes 0x400 (λ _, 7) 0x100 0x200 (chars "x86/vmx") (chars "vm") true true)
    as (r & E & Hr).
  - intros Hin%list_elem_of_In. vm_compute in Hin. intuition discriminate.
  - apply str_at_bool. vm_compute. done.
  - apply str_at_bool. vm_compute. done.
  - done.
  - left. vm_compute. done.
  - left. vm_compute. done.
  - vm_compute. lia.
  - vm_compute. lia.
  - done.
  - done.
  - assert (simple_glob 20 demo_bytes 0x400 (λ _, 7) 0x100 0x200 = Done true) as Et by (vm_compute; done).
    rewrite Et in E. injection E as <-. split; [done|]. by apply Hr.
Defined.

(** The variable FOO answers for the name FOOBAR. *)
Lemma getenv_correct_witness : getenv 20 demo_bytes 0x380 0x340 = Done (0x300 + 4).
Proof.
  rewrite (getenv_correct 20 demo_bytes (chars "FOOBAR") 0x340 0x380 [(0x300, chars "FOO=1")]).
  - vm_compute. done.
  - apply str_at_bool. vm_compute. done.
  - split; [done|]. split; [vm_compute; repeat split|]. split; [apply str_at_bool; vm_compute; done|].
    vm_compute. repeat split.
  - vm_compute. lia.
  - constructor; [vm_compute; lia|constructor].
Defined.

Lemma parse_keyval_correct_witness : parse_keyval 20 demo_bytes 0x280 7 = Done (3, -12).
Proof.
  apply (parse_keyval_correct 20 demo_bytes 0x280 (chars "mem") 7 [] s_minus [1; 2] [32]).
  - constructor.
  - refine (bool_decide_unpack _ _). vm_compute. done.
  - done.
  - cbn. unfold is_digit. lia.
  - done.
  - done.
  - done.
  - done.
  - vm_compute. lia.
  - apply str_at_bool. vm_compute. done.
Defined.
