(* ===== verification/Alloc.v ===== *)
(** malloc and free: lib/alloc.c.

    The code calls the current allocator through [alloc_ops], a record of
    operations on the allocator's own state [A]; the bytes of the blocks are in
    the memory of Bytes.v.  A block is returned with two words in front of it,
    the distance to the beginning of the allocator's block and that block's
    size.  What the proofs need of an allocator is a hypothesis on its results;
    [early_block] shows that the allocator of AllocPhys.v meets it. *)
From Stdlib Require Import ZArith Lia Bool.
From S2P Require Import Prelude Libcflat Mem Bytes CString AllocPhys Vmalloc.
#[local] Open Scope Z_scope.

(** [struct alloc_ops] *)
Record alloc_ops (A : Type) := AllocOps {
  op_memalign : Z → Z → stM A Z;
  op_free : option (Z → Z → stM A unit);
  op_align_min : A → Z
}.
Arguments op_memalign {A} _ _ _ _.
Arguments op_free {A} _.
Arguments op_align_min {A} _ _.

(** [early_alloc_ops] of lib/alloc_phys.c *)
Definition early_alloc_ops : alloc_ops Phys.phys := AllocOps _ Phys.early_memalign None Phys.align_min.
(** [vmalloc_ops] of lib/vmalloc.c *)
Definition vmalloc_ops (fuel : nat) : alloc_ops vm :=
  AllocOps _ Vm.vm_memalign (Some (Vm.vm_free fuel)) (λ _, PAGE_SIZE).

Section code.
Context {A : Type} (ops : alloc_ops A).
Abbreviation M := (stM (A * bmem)).

Definition sizeof_uintptr : Z := 8.
Definition METADATA_EXTRA : Z := 2 * sizeof_uintptr.
Definition OFS_SLACK : Z := u64 (- (2 * sizeof_uintptr)).
Definition OFS_SIZE : Z := u64 (- sizeof_uintptr).

Definition ld64 (p : Z) : M Z := λ '(a, m), v ← ldp m p; mret (v, (a, m)).
Definition st64 (p v : Z) : M unit := λ '(a, m), m ← st_bytes p (le_bytes 8 v) m; mret (tt, (a, m)).
(** A call of the allocator. *)
Definition call {B} (f : stM A B) : M B := zoom fst (λ a s, (a, s.2)) f.

Definition block_begin (mem : Z) : M Z := slack ← ld64 (u64 (mem + OFS_SLACK)); mret (u64 (mem - slack)).
Definition block_size (mem : Z) : M Z := ld64 (u64 (mem + OFS_SIZE)).

Definition free (ptr : Z) : M unit :=
  match op_free ops with
  | None => mret tt
  | Some op =>
    base ← block_begin ptr;
    sz ← block_size ptr;
    call (op base sz)
  end.

Definition memalign (alignment size : Z) : M Z :=
  s ← get;
  let align_min := op_align_min ops s.1 in
  let '(alignment, size) :=
    if alignment <=? sizeof_uintptr then (sizeof_uintptr, size) else (alignment, u64 (size + u64 (alignment - 1))) in
  let blkalign := c_MAX alignment align_min in
  let size := ALIGN (u64 (size + METADATA_EXTRA)) align_min in
  p ← call (op_memalign ops blkalign size);
  let mem := u64 (p + METADATA_EXTRA) in
  let mem := ALIGN mem alignment in
  st64 (u64 (mem + OFS_SLACK)) (u64 (mem - p));;
  st64 (u64 (mem + OFS_SIZE)) size;;
  mret mem.

Definition malloc (size : Z) : M Z := memalign Phys.sizeof_long size.

Definition calloc (nmemb size : Z) : M Z :=
  ptr ← malloc (u64 (nmemb * size));
  when (negb (ptr =? 0)) (λ '(a, m), '(_, m) ← memset ptr 0 (u64 (nmemb * size)) m; mret (tt, (a, m)));;
  mret ptr.
End code.

Section proofs.
Context {A : Type} (ops : alloc_ops A).

Lemma st64_ok p v (a : A) m :
  writable m p 8 → st64 p v (a, m) = Done (tt, (a, put_bytes p (le_bytes 8 v) m)).
Proof. intros Hw. unfold st64. by rewrite st_bytes_ok by (apply le_bytes_byte || by rewrite le_bytes_length). Qed.
Lemma ld64_ok p v (a : A) m :
  in_u64 v → bytes_at m p (le_bytes 8 v) → ld64 p (a, m) = Done (v, (a, m)).
Proof. intros Hv Hb. unfold ld64, ldp. by rewrite (ld_le_bytes 8 m p v). Qed.

(** The block a request asks of the allocator, and the address it gives back. *)
Definition req_align (alignment : Z) : Z := if alignment <=? 8 then 8 else alignment.
Definition req_size (alignment size min : Z) : Z :=
  ALIGN (size + (if alignment <=? 8 then 0 else alignment - 1) + 16) min.
Definition user_addr (alignment p : Z) : Z := ALIGN (p + 16) (req_align alignment).

(** The two words in front of the address [mem] describe the block [p], [size]. *)
Definition header_at (m : bmem) (mem p size : Z) : Prop :=
  bytes_at m (mem - 16) (le_bytes 8 (mem - p)) ∧ bytes_at m (mem - 8) (le_bytes 8 size).

Lemma ofs_words mem : 16 ≤ mem < 2 ^ 64 → u64 (mem + OFS_SLACK) = mem - 16 ∧ u64 (mem + OFS_SIZE) = mem - 8.
Proof.
  intros Hm. unfold OFS_SLACK, OFS_SIZE, sizeof_uintptr.
  change (u64 (- (2 * 8))) with (2 ^ 64 - 16). change (u64 (- (8))) with (2 ^ 64 - 8). unfold u64.
  replace (mem + (2 ^ 64 - 16)) with (mem - 16 + 1 * 2 ^ 64) by lia.
  replace (mem + (2 ^ 64 - 8)) with (mem - 8 + 1 * 2 ^ 64) by lia.
  rewrite !Z.mod_add by lia. rewrite !Z.mod_small by lia. done.
Qed.

(** Where the requested bytes lie in the block [p]. *)
Lemma request_fits k j size p :
  let alignment := 2 ^ k in let extra := if alignment <=? 8 then 0 else alignment - 1 in
  let sz := ALIGN (size + extra + 16) (2 ^ j) in let mem := user_addr alignment p in
  0 ≤ k < 62 → 0 ≤ j < 62 → 0 ≤ size < 2 ^ 62 → 0 ≤ p → p mod 8 = 0 → p + sz < 2 ^ 64 →
  (1 ≤ alignment ≤ 2 ^ 61 ∧ 0 ≤ extra < 2 ^ 61) ∧
  mem mod alignment = 0 ∧ p + 16 ≤ mem ∧ mem + size ≤ p + sz.
Proof.
  intros alignment extra sz mem Hk Hj Hsz Hp Hp8 Hfit.
  assert (1 ≤ alignment ≤ 2 ^ 61) as Hal by (split; [apply (pow2_k_range k); lia|apply Z.pow_le_mono_r; lia]).
  assert (1 ≤ 2 ^ j ≤ 2 ^ 61) as Hmn by (split; [apply (pow2_k_range j); lia|apply Z.pow_le_mono_r; lia]).
  assert (0 ≤ extra < 2 ^ 61) as Hex by (unfold extra; destruct (Z.leb_spec alignment 8); lia).
  split; [done|]. destruct (ALIGN_spec j ltac:(lia) (size + extra + 16)) as [_ Hs2]; [lia|lia|]. fold sz in Hs2.
  unfold mem, user_addr, req_align, extra in *. destruct (Z.leb_spec alignment 8) as [H8|H8].
  - assert ((p + 16) mod 2 ^ 3 = 0) as Hpa by (apply (aligned_add 8); [lia|done|done]).
    rewrite (ALIGN_id 3); [|lia|lia| |done].
    2:{ change (2 ^ 3) with 8 in *. pose proof (Z.div_mod (p + 16) 8 ltac:(lia)) as Ed. rewrite Hpa in Ed. lia. }
    split; [|lia]. apply (aligned_of_testbit k); [lia|]. intros i Hi. apply (testbit_aligned 3); [done|].
    assert (k ≤ 3); [|lia]. apply (Z.pow_le_mono_r_iff 2); unfold alignment in H8; lia.
  - destruct (ALIGN_spec k ltac:(lia) (p + 16)) as [Ha1 Ha2]; [lia|fold alignment; lia|]. fold alignment in Ha1, Ha2.
    split; [done|]. lia.
Qed.

(** [memalign] for a block [p] of the allocator: the header is stored in the block. *)
Lemma memalign_ok k j size p a a' m :
  let alignment := 2 ^ k in let min := 2 ^ j in
  let sz := req_size alignment size min in let mem := user_addr alignment p in
  0 ≤ k < 62 → 0 ≤ j < 62 → 0 ≤ size < 2 ^ 62 → op_align_min ops a = min →
  op_memalign ops (c_MAX (req_align alignment) min) sz a = Done (p, a') →
  0 ≤ p → p mod 8 = 0 → p + sz < 2 ^ 64 → writable m p sz →
  memalign ops alignment size (a, m) =
    Done (mem, (a', put_bytes (mem - 8) (le_bytes 8 sz) (put_bytes (mem - 16) (le_bytes 8 (mem - p)) m))).
Proof.
  intros alignment min sz mem Hk Hj Hsz Hmin Hop Hp Hp8 Hfit Hw.
  destruct (request_fits k j size p Hk Hj Hsz Hp Hp8 Hfit) as ([Hal Hex] & Hm1 & Hm2 & Hm3).
  fold alignment in Hal, Hex, Hm1, Hm2, Hm3. fold mem in Hm1, Hm2, Hm3. fold min in Hm3. fold (req_size alignment size min) in Hm3.
  fold sz in Hm3. set (extra := if alignment <=? 8 then 0 else alignment - 1) in *.
  unfold memalign. rewrite bind_get. cbn [fst]. rewrite Hmin. unfold sizeof_uintptr, METADATA_EXTRA.
  assert ((if alignment <=? 8 then (8, size) else (alignment, u64 (size + u64 (alignment - 1)))) =
    (req_align alignment, size + extra)) as ->.
  { unfold req_align, extra. destruct (Z.leb_spec alignment 8); [by rewrite Z.add_0_r|].
    by rewrite !u64_small by (unfold in_u64; rewrite ?u64_small by (unfold in_u64; lia); lia). }
  change (2 * sizeof_uintptr) with 16. rewrite u64_small by (unfold in_u64; lia).
  change (ALIGN (size + extra + 16) min) with sz.
  unfold call at 1. rewrite (bind_zoom _ _ _ _ _ p a') by exact Hop. cbn [snd].
  rewrite (u64_small (p + 16)) by (unfold in_u64; lia). fold (user_addr alignment p). fold mem.
  destruct (ofs_words mem) as [-> ->]; [lia|]. rewrite u64_small by (unfold in_u64; lia).
  rewrite (stM_bind_Done _ _ _ _ _ (st64_ok (mem - 16) (mem - p) a' m ltac:(apply (writable_weaken _ _ _ _ _ Hw); lia))).
  rewrite (stM_bind_Done _ _ _ _ _ (st64_ok (mem - 8) sz a' _ ltac:(apply writable_put, (writable_weaken _ _ _ _ _ Hw); lia))).
  done.
Qed.

(** [free] gives the allocator its block back, if the header is intact. *)
Lemma free_ok op mem p size a m :
  op_free ops = Some op → 16 ≤ mem < 2 ^ 64 → 0 ≤ p ≤ mem → in_u64 size → header_at m mem p size →
  free ops mem (a, m) = call (op p size) (a, m).
Proof.
  intros Ho Hm Hp Hs [H1 H2]. unfold free. rewrite Ho. unfold block_begin, block_size.
  destruct (ofs_words mem Hm) as [-> ->]. rewrite stM_bind_assoc.
  rewrite (stM_bind_Done _ _ _ _ _ (ld64_ok (mem - 16) (mem - p) a m ltac:(unfold in_u64; lia) H1)), bind_mret.
  rewrite (stM_bind_Done _ _ _ _ _ (ld64_ok (mem - 8) size a m Hs H2)).
  replace (mem - (mem - p)) with p by lia. by rewrite u64_small by (unfold in_u64; lia).
Qed.
End proofs.

(** The early allocator has a block for a power of two that fits below [top]. *)
Lemma early_block b t k sz l s :
  0 < b → t < 2 ^ 64 → Phys.phys_ok b t l s → 3 ≤ k < 64 → 0 ≤ sz → Phys.base s + 2 ^ k + sz ≤ t →
  ∃ s', op_memalign early_alloc_ops (2 ^ k) sz s = Done (ALIGN (Phys.base s) (2 ^ k), s') ∧
    Phys.phys_ok b t (l ++ [Phys.Region (ALIGN (Phys.base s) (2 ^ k)) sz]) s' ∧
    ALIGN (Phys.base s) (2 ^ k) mod 8 = 0 ∧ Phys.base s ≤ ALIGN (Phys.base s) (2 ^ k) < Phys.base s + 2 ^ k.
Proof.
  intros Hb Ht Hok Hk Hsz Hfit. pose proof (Phys.blocks_in_le _ _ _ (Phys.po_blocks _ _ _ _ Hok)) as Hb0.
  pose proof (pow2_k_range k ltac:(lia)) as Hp.
  pose proof (Phys.phys_alloc_ok b t ltac:(lia) k sz true l s Hok ltac:(lia) Hsz ltac:(lia)) as H. cbv zeta in H.
  set (addr := ALIGN (Phys.base s) (2 ^ k)) in *. rewrite (proj2 (Z.eqb_neq _ _)) in H by lia.
  destruct (ALIGN_spec k ltac:(lia) (Phys.base s)) as [_ Hr]; [lia|lia|]. fold addr in Hr.
  rewrite (proj2 (Z.leb_le _ _)) in H by lia. destruct H as (Ha & _ & Hne & s' & E & Hok' & _).
  exists s'. split; [|split; [done|split; [|done]]].
  - cbn [op_memalign early_alloc_ops]. unfold Phys.early_memalign.
    pose proof (is_power_of_2_pow k ltac:(lia)) as Hpw. unfold is_power_of_2 in Hpw. rewrite Hpw.
    cbn [c_assert]. rewrite bind_lift_Done, (stM_bind_Done _ _ _ _ _ E). by rewrite (proj2 (Z.eqb_neq _ _) Hne).
  - apply (aligned_of_testbit 3); [lia|]. intros i Hi. apply (testbit_aligned k); [done|lia].
Qed.

(** ** Properties *)
(** C19: [memalign] with any allocator that grants the block it asks for, aligned to a
    word: the address is aligned, the requested bytes lie in the block, and as long
    as the two words in front of the address are intact [free] gives exactly this
    block back; an allocator without [free] is not called. *)
Theorem memalign_free_roundtrip {A} (ops : alloc_ops A) k j size p a a' m :
  let alignment := 2 ^ k in let sz := req_size alignment size (2 ^ j) in
  0 ≤ k < 62 → 0 ≤ j < 62 → 0 ≤ size < 2 ^ 62 → op_align_min ops a = 2 ^ j →
  op_memalign ops (c_MAX (req_align alignment) (2 ^ j)) sz a = Done (p, a') →
  0 ≤ p → p mod 8 = 0 → p + sz < 2 ^ 64 → writable m p sz →
  ∃ mem m', memalign ops alignment size (a, m) = Done (mem, (a', m')) ∧
    mem mod alignment = 0 ∧ p + 16 ≤ mem ∧ mem + size ≤ p + sz ∧
    (∀ x, x < p ∨ p + sz ≤ x → m' !! x = m !! x) ∧
    ∀ b m2, (∀ x, mem - 16 ≤ x < mem → m2 !! x = m' !! x) →
      free ops mem (b, m2) = match op_free ops with
                             | Some op => call (op p sz) (b, m2)
                             | None => Done (tt, (b, m2))
                             end.
Proof.
  intros alignment sz Hk Hj Hsz Hmin Hop Hp Hp8 Hfit Hw.
  destruct (request_fits k j size p Hk Hj Hsz Hp Hp8 Hfit) as ([_ _] & Hm1 & Hm2 & Hm3).
  pose proof (memalign_ok ops k j size p a a' m Hk Hj Hsz Hmin Hop Hp Hp8 Hfit Hw) as E. cbv zeta in E.
  fold alignment in Hm1, Hm2, Hm3, E. fold (req_size alignment size (2 ^ j)) in Hm3. fold sz in Hm3, E.
  set (mem := user_addr alignment p) in *. eexists mem, _. split; [exact E|].
  split; [done|]. split; [done|]. split; [done|]. split.
  - intros x Hx. rewrite !lookup_put_bytes, !decide_False; [done| |]; rewrite !le_bytes_length; lia.
  - intros b m2 Hm. destruct (op_free ops) as [op|] eqn:Eo; [|unfold free; by rewrite Eo].
    apply free_ok; [done|lia|lia|unfold in_u64; lia|].
    set (m1 := put_bytes (mem - 16) (le_bytes 8 (mem - p)) m) in *.
    split.
    + apply (bytes_at_frame (put_bytes (mem - 8) (le_bytes 8 sz) m1)).
      * apply bytes_at_put_frame; [apply bytes_at_put|rewrite !le_bytes_length; lia].
      * intros x Hx. rewrite le_bytes_length in Hx. apply Hm. lia.
    + apply (bytes_at_frame (put_bytes (mem - 8) (le_bytes 8 sz) m1)); [apply bytes_at_put|].
      intros x Hx. rewrite le_bytes_length in Hx. apply Hm. lia.
Qed.

(** ** The theorem at a concrete allocator *)
(** Gives one block at 0x1000 and records what it gets back. *)
Definition demo_ops : alloc_ops (list (Z * Z)) :=
  AllocOps _ (λ al sz, mret 0x1000) (Some (λ p sz, modify (cons (p, sz)))) (λ _, 32).

Lemma memalign_free_roundtrip_witness :
  ∃ mem m', memalign demo_ops 64 100 ([], put_bytes 0x1000 (replicate 192 0) ∅) = Done (mem, ([], m')) ∧
    mem mod 64 = 0 ∧ free demo_ops mem ([], m') = Done (tt, ([(0x1000, 192)], m')).
Proof.
  destruct (memalign_free_roundtrip demo_ops 6 5 100 0x1000 [] [] (put_bytes 0x1000 (replicate 192 0) ∅))
    as (mem & m' & E & Ha & _ & _ & _ & Hf).
  - lia.
  - lia.
  - lia.
  - done.
  - done.
  - lia.
  - done.
  - vm_compute. done.
  - intros x Hx. rewrite lookup_put_bytes, decide_True by (rewrite length_replicate; exact Hx).
    apply lookup_lt_is_Some_2. rewrite length_replicate. change (req_size (2 ^ 6) 100 (2 ^ 5)) with 192 in Hx. lia.
  - exists mem, m'. split; [exact E|]. split; [exact Ha|]. rewrite (Hf [] m'); [reflexivity|done].
Defined.
