(* ===== verification/Argv.v ===== *)
(** Arguments and environment: lib/argv.c, with the objects in the byte memory of
    Bytes.v.

    [argvs] holds the file's statics; [__argv] and [__environ] are the addresses of
    the two arrays and [progname] is [auxinfo.progname], which the build sets.  What
    [printf] is called with goes to [argv_log], newest first.  The first half is the
    code; the second describes what it makes of a command line ([words]) and of a
    file of variables ([env_var], [env_bad]). *)
From Stdlib Require Import ZArith Lia Bool Ascii.
From S2P Require Import Prelude Libcflat Bytes CString.
#[local] Open Scope Z_scope.

Definition isblank (c : Z) : bool := (c =? 32) || (c =? 9).
Definition isalpha (c : Z) : bool :=
  ((65 <=? c) && (c <=? 90)) || ((97 <=? c) && (c <=? 122)) || (c =? 95).
Definition isalnum (c : Z) : bool := isalpha c || ((48 <=? c) && (c <=? 57)).

Record argvs := Argvs {
  a_mem : bmem; __argc : Z; __args : Z; copy_ptr : Z; argv_log : list (string * list parg)
}.
Definition set_mem (m : bmem) (s : argvs) : argvs := Argvs m (__argc s) (__args s) (copy_ptr s) (argv_log s).
Definition set_argc (n : Z) (s : argvs) : argvs := Argvs (a_mem s) n (__args s) (copy_ptr s) (argv_log s).
Definition set_args (p : Z) (s : argvs) : argvs := Argvs (a_mem s) (__argc s) p (copy_ptr s) (argv_log s).
Definition set_copy_ptr (p : Z) (s : argvs) : argvs := Argvs (a_mem s) (__argc s) (__args s) p (argv_log s).
Definition set_argv_log (l : list (string * list parg)) (s : argvs) : argvs :=
  Argvs (a_mem s) (__argc s) (__args s) (copy_ptr s) l.

(** The string at [p], as [printf] reads it. *)
Fixpoint ld_str (fuel : nat) (m : bmem) (p : Z) : outcome (list Z) :=
  match fuel with
  | O => NoFuel
  | S f => c ← ldb m p; if c =? 0 then mret [] else l ← ld_str f m (p + 1); mret (c :: l)
  end.
Definition text_of (l : list Z) : string := String.string_of_list_ascii ((λ c, ascii_of_nat (Z.to_nat c)) <$> l).

Fixpoint skip_blanks (fuel : nat) (m : bmem) (p : Z) : outcome Z :=
  match fuel with
  | O => NoFuel
  | S f => c ← ldc m p; if isblank c then skip_blanks f m (p + 1) else mret p
  end.
Fixpoint env_eol (fuel : nat) (m : bmem) (env : Z) : outcome Z :=
  match fuel with
  | O => NoFuel
  | S f => c ← ldc m env; if (c =? 0) || (c =? 10) then mret env else env_eol f m (env + 1)
  end.
(** [while ( *p && *p != '=' && *p != '\n')] of [env_next] *)
Fixpoint name_end (fuel : nat) (m : bmem) (p : Z) (invalid : bool) : outcome (Z * bool) :=
  match fuel with
  | O => NoFuel
  | S f =>
    c ← ldc m p;
    if (c =? 0) || (c =? 61) || (c =? 10) then mret (p, invalid)
    else name_end f m (p + 1) (if isalnum c then invalid else true)
  end.
(** [while (env < eof && *env && !(newline && *env == '\n'))] of [setup_env] *)
Fixpoint value_end (fuel : nat) (newline : bool) (eof : Z) (m : bmem) (env : Z) : outcome Z :=
  match fuel with
  | O => NoFuel
  | S f =>
    if env <? eof then
      c ← ldc m env;
      if (c =? 0) || (newline && (c =? 10)) then mret env else value_end f newline eof m (env + 1)
    else mret env
  end.

Section code.
Context (__argv __environ progname : Z).
Abbreviation M := (stM argvs).

Definition on_mem {A} (f : bmem → outcome A) : M A := s ← get; lift (f (a_mem s)).
Definition store (f : bmem → outcome bmem) : M unit := s ← get; m ← lift (f (a_mem s)); modify (set_mem m).
Definition printf (fmt : string) (args : list parg) : M unit := modify (λ s, set_argv_log ((fmt, args) :: argv_log s) s).
(** [*p = v] for a pointer [v], and [*copy_ptr++ = c]. *)
Definition put_ptr (p v : Z) : M unit := store (st_bytes p (le_bytes 8 v)).
Definition put_copy (c : Z) : M unit :=
  p ← gets copy_ptr;
  modify (set_copy_ptr (p + 1));;
  store (stb p c).

(** [while ( *args != '\0' && !isblank( *args))] *)
Fixpoint copy_word (fuel : nat) (args : Z) : M Z :=
  match fuel with
  | O => λ _, NoFuel
  | S f =>
    c ← on_mem (λ m, ldc m args);
    if (c =? 0) || isblank c then mret args else put_copy c;; copy_word f (args + 1)
  end.
Fixpoint args_loop (fuel : nat) (args argv : Z) : M Z :=
  match fuel with
  | O => λ _, NoFuel
  | S f =>
    args ← on_mem (λ m, skip_blanks (S f) m args);
    c ← on_mem (λ m, ldc m args);
    if c =? 0 then mret argv
    else
      p ← gets copy_ptr;
      put_ptr argv p;;
      args ← copy_word (S f) args;
      put_copy 0;;
      args_loop f args (argv + 8)
  end.
Definition __setup_args (fuel : nat) : M unit :=
  args ← gets __args;
  n ← gets __argc;
  argv ← args_loop fuel args (__argv + 8 * n);
  modify (set_argc (s32 ((argv - __argv) / 8))).
Definition setup_args (fuel : nat) (args : Z) : M unit :=
  if args =? 0 then mret tt else modify (set_args args);; __setup_args fuel.
Definition setup_args_progname (fuel : nat) (args : Z) : M unit :=
  p ← gets copy_ptr;
  put_ptr __argv p;;
  a ← on_mem (λ m, ldp m __argv);
  store (λ m, '(_, m) ← strcpy fuel a progname m; mret m);;
  n ← on_mem (λ m, strlen fuel m progname);
  modify (λ s, set_copy_ptr (copy_ptr s + (n + 1)) s);;
  modify (λ s, set_argc (s32 (__argc s + 1)) s);;
  setup_args fuel args.

Definition env_invalid_eol (fuel : nat) (env : Z) : M Z :=
  eol ← on_mem (λ m, env_eol fuel m env);
  eol_old ← on_mem (λ m, ldc m eol);
  store (stb eol 0);;
  text ← on_mem (λ m, ld_str fuel m env);
  printf "Invalid environment variable: %s\n" [PStr (text_of text)];;
  store (stb eol eol_old);;
  mret eol.

Fixpoint env_next (fuel : nat) (env : Z) : M Z :=
  match fuel with
  | O => λ _, NoFuel
  | S f =>
    (* [return *env ? env_next(env + 1) : env] *)
    let onward env := c ← on_mem (λ m, ldc m env); if c =? 0 then mret env else env_next f (env + 1) in
    c ← on_mem (λ m, ldc m env);
    if c =? 0 then mret env
    else if isalpha c then
      '(p, invalid) ← on_mem (λ m, name_end f m (env + 1) false);
      d ← on_mem (λ m, ldc m p);
      let invalid := if negb (d =? 61) then true else invalid in
      if invalid : bool then env ← env_invalid_eol f env; onward env
      else mret env
    else
      p ← on_mem (λ m, skip_blanks f m env);
      d ← on_mem (λ m, ldc m p);
      if d =? 10 then env_next f (p + 1)
      else
        env ← (if d =? 35 then on_mem (λ m, env_eol f m env) else env_invalid_eol f env);
        onward env
  end.

(** [while (env < eof)] of [setup_env]; [i] counts the variables. *)
Fixpoint env_loop (fuel : nat) (newline : bool) (eof env i : Z) : M unit :=
  match fuel with
  | O => λ _, NoFuel
  | S f =>
    if env <? eof then
      env ← (if newline then env_next f env else mret env);
      c ← on_mem (λ m, ldc m env);
      if (c =? 0) || (eof <=? env) then mret tt
      else
        put_ptr (__environ + 8 * i) env;;
        env ← on_mem (λ m, value_end f newline eof m env);
        store (stb env 0);;
        env_loop f newline eof (env + 1) (s32 (i + 1))
    else mret tt
  end.
Definition setup_env (fuel : nat) (env size : Z) : M unit :=
  let eof := env + size in
  p ← on_mem (λ m, strcat_end fuel m env);
  let newline := p =? eof in
  env_loop fuel newline eof env 0.
End code.

(** ** What the code makes of texts *)
(** The words of a command line. *)
Fixpoint words_from (cur l : list Z) : list (list Z) :=
  let flush := match cur with [] => [] | _ => [cur] end in
  match l with
  | [] => flush
  | c :: l => if isblank c then flush ++ words_from [] l else words_from (cur ++ [c]) l
  end.
Definition words (l : list Z) : list (list Z) := words_from [] l.

(** The lines of a text; the last one is what follows the last newline. *)
Fixpoint lines (l : list Z) : list (list Z) :=
  match l with
  | [] => [[]]
  | c :: l => if c =? 10 then [] :: lines l else match lines l with x :: xs => (c :: x) :: xs | [] => [[c]] end
  end.
(** A line [NAME=value]. *)
Definition env_var (l : list Z) : bool :=
  match l with
  | [] => false
  | c :: r => isalpha c && match index_of 61 r with Some k => forallb isalnum (take k r) | None => false end
  end.
Fixpoint drop_blanks (l : list Z) : list Z :=
  match l with [] => [] | c :: r => if isblank c then drop_blanks r else l end.
(** A comment or an empty line; blanks after the last newline are not one. *)
Definition env_skip (last : bool) (l : list Z) : bool :=
  match drop_blanks l with [] => negb last || bool_decide (l = []) | c :: _ => c =? 35 end.
Definition is_nil {A} (l : list A) : bool := match l with [] => true | _ => false end.
(** The variables with their addresses, and the invalid lines. *)
Fixpoint vars_from (p : Z) (ls : list (list Z)) : list (Z * list Z) :=
  match ls with
  | [] => []
  | l :: ls => (if env_var l then [(p, l)] else []) ++ vars_from (p + Z.of_nat (length l) + 1) ls
  end.
Definition env_bad (last : bool) (l : list Z) : bool := negb (env_var l) && negb (env_skip last l).
Fixpoint bad_lines (ls : list (list Z)) : list (list Z) :=
  match ls with
  | [] => []
  | l :: ls => (if env_bad (is_nil ls) l then [l] else []) ++ bad_lines ls
  end.

(** ** Characters *)
Lemma isblank_s8 c : is_byte c → isblank (s8 c) = isblank c.
Proof. intros Hc. unfold isblank. by rewrite !s8_eqb_ascii by (done || lia). Qed.
Lemma s8_range c lo hi : is_byte c → 0 < lo → hi < 128 → ((lo <=? s8 c) && (s8 c <=? hi)) = ((lo <=? c) && (c <=? hi)).
Proof.
  unfold is_byte, s8, signed. intros Hc Hlo Hhi. change (2 ^ 8) with 256. change (2 ^ (8 - 1)) with 128.
  rewrite Z.mod_small by lia. destruct (Z.ltb_spec c 128); [done|].
  destruct (Z.leb_spec lo (c - 256)), (Z.leb_spec c hi); cbn; try lia; by rewrite andb_false_r.
Qed.
Lemma isalpha_s8 c : is_byte c → isalpha (s8 c) = isalpha c.
Proof. intros Hc. unfold isalpha. by rewrite !s8_range, s8_eqb_ascii by (done || lia). Qed.
Lemma isalnum_s8 c : is_byte c → isalnum (s8 c) = isalnum c.
Proof. intros Hc. unfold isalnum. by rewrite isalpha_s8, s8_range by (done || lia). Qed.
Lemma alpha_not_blank c : isalpha c = true → isblank c = false ∧ c ≠ 0 ∧ c ≠ 10 ∧ c ≠ 35 ∧ c ≠ 61.
Proof.
  unfold isalpha, isblank. intros Hc. split_and!; [|intros ->; done..].
  apply orb_false_iff. split; apply Z.eqb_neq; intros ->; done.
Qed.

(** ** Scans *)
Definition line_ok (l : list Z) : Prop := Forall (λ c, 0 < c < 256 ∧ c ≠ 10) l.
Lemma line_byte c l : line_ok (c :: l) → is_byte c ∧ c ≠ 0 ∧ c ≠ 10 ∧ line_ok l.
Proof. intros [[Hc Hn] Hl]%Forall_cons. unfold is_byte. by split_and!; try lia. Qed.

Section scans.
Context (m : bmem).
(** A character of the text is loaded. *)
Lemma ld_byte p c l : bytes_at m p (c :: l) → ldc m p = Done (s8 c).
Proof. intros [E _]. by apply ldc_ok. Qed.
Lemma ld_after p l c r : bytes_at m p (l ++ c :: r) → ldc m (p + Z.of_nat (length l)) = Done (s8 c).
Proof. intros H. apply bytes_at_app in H as [_ H]. by eapply ld_byte. Qed.

Lemma env_eol_ok fuel p l t :
  bytes_at m p (l ++ [t]) → line_ok l → t = 0 ∨ t = 10 → (length l < fuel)%nat →
  env_eol fuel m p = Done (p + Z.of_nat (length l)).
Proof.
  revert p l. induction fuel as [|f IH]; intros p l Hb Hl Ht Hf; [lia|]. cbn [env_eol].
  destruct l as [|c l]; cbn [app length] in *.
  - rewrite (ld_byte _ _ _ Hb). cbn [mbind outcome_bind]. rewrite Z.add_0_r. by destruct Ht as [-> | ->].
  - rewrite (ld_byte _ _ _ Hb). apply line_byte in Hl as (Hc & H0 & H10 & Hl). cbn [mbind outcome_bind].
    rewrite s8_eqb0, s8_eqb_ascii, !(proj2 (Z.eqb_neq _ _)) by (done || lia). cbn [orb].
    rewrite IH with (l := l) by (apply Hb || done || lia). f_equal. lia.
Qed.
Lemma skip_blanks_ok fuel p bl c r :
  bytes_at m p (bl ++ c :: r) → Forall (λ c, isblank c = true) bl → is_byte c → isblank c = false → (length bl < fuel)%nat →
  skip_blanks fuel m p = Done (p + Z.of_nat (length bl)).
Proof.
  revert p bl. induction fuel as [|f IH]; intros p bl Hb Hl Hc Ht Hf; [lia|]. cbn [skip_blanks].
  destruct bl as [|b bl]; cbn [app length] in *; rewrite (ld_byte _ _ _ Hb); cbn [mbind outcome_bind].
  - rewrite isblank_s8, Ht, Z.add_0_r by done. done.
  - apply Forall_cons in Hl as [Hl0 Hl]. assert (is_byte b) as Hbb.
    { unfold isblank in Hl0. unfold is_byte. apply orb_true_iff in Hl0 as [?%Z.eqb_eq|?%Z.eqb_eq]; lia. }
    rewrite isblank_s8, Hl0 by done. rewrite IH with (bl := bl) by (apply Hb || done || lia). f_equal. lia.
Qed.
Lemma name_end_ok fuel p n c r b :
  bytes_at m p (n ++ c :: r) → line_ok n → 61 ∉ n → c = 0 ∨ c = 61 ∨ c = 10 → (length n < fuel)%nat →
  name_end fuel m p b = Done (p + Z.of_nat (length n), b || negb (forallb isalnum n)).
Proof.
  revert p n b. induction fuel as [|f IH]; intros p n b Hb Hl Hn Hc Hf; [lia|]. cbn [name_end].
  destruct n as [|x n]; cbn [app length forallb] in *; rewrite (ld_byte _ _ _ Hb); cbn [mbind outcome_bind].
  - rewrite Z.add_0_r, orb_false_r. by destruct Hc as [->|[->| ->]].
  - apply line_byte in Hl as (Hx & H0 & H10 & Hl). apply not_elem_of_cons in Hn as [Hx61 Hn].
    rewrite s8_eqb0, !s8_eqb_ascii, !(proj2 (Z.eqb_neq _ _)) by (done || lia). cbn [orb].
    rewrite isalnum_s8, IH with (n := n) by (apply Hb || done || lia). f_equal. f_equal; [lia|].
    by destruct (isalnum x), b.
Qed.
Lemma value_end_ok fuel eof p l t :
  bytes_at m p (l ++ [t]) → line_ok l → t = 0 ∨ t = 10 → (length l < fuel)%nat → p + Z.of_nat (length l) ≤ eof →
  value_end fuel true eof m p = Done (p + Z.of_nat (length l)).
Proof.
  revert p l. induction fuel as [|f IH]; intros p l Hb Hl Ht Hf He; [lia|]. cbn [value_end].
  destruct l as [|c l]; cbn [app length] in *.
  - rewrite Z.add_0_r in *. destruct (Z.ltb_spec p eof); [|done]. rewrite (ld_byte _ _ _ Hb). cbn [mbind outcome_bind].
    by destruct Ht as [-> | ->].
  - rewrite (proj2 (Z.ltb_lt _ _)), (ld_byte _ _ _ Hb) by lia. apply line_byte in Hl as (Hc & H0 & H10 & Hl). cbn [mbind outcome_bind].
    rewrite s8_eqb0, s8_eqb_ascii, !(proj2 (Z.eqb_neq _ _)) by (done || lia). cbn [orb andb].
    rewrite IH with (l := l) by (apply Hb || done || lia). f_equal. lia.
Qed.
Lemma ld_str_ok fuel p s : str_at m p s → (length s < fuel)%nat → ld_str fuel m p = Done s.
Proof.
  revert p s. induction fuel as [|f IH]; intros p s Hs Hf; [lia|]. cbn [ld_str]. destruct s as [|c s].
  - apply str_at_nil in Hs. by rewrite (ldb_ok _ _ _ Hs).
  - apply str_at_cons in Hs as [[Hc E] Hs]. rewrite (ldb_ok _ _ _ E). cbn [mbind outcome_bind].
    rewrite (proj2 (Z.eqb_neq c 0)) by lia. cbn in Hf. by rewrite (IH _ s) by (done || lia).
Qed.
End scans.

(** ** The lines of a text in memory *)
Definition term {A} (ls : list A) : Z := if is_nil ls then 0 else 10.
Fixpoint lines_at (m : bmem) (p : Z) (ls : list (list Z)) : Prop :=
  match ls with
  | [] => True
  | l :: ls => (line_ok l ∧ bytes_at m p (l ++ [term ls])) ∧ lines_at m (p + Z.of_nat (length l) + 1) ls
  end.
Fixpoint text_len (ls : list (list Z)) : Z :=
  match ls with [] => 0 | l :: ls => Z.of_nat (length l) + 1 + text_len ls end.
Lemma text_len_nonneg ls : 0 ≤ text_len ls.
Proof. induction ls; cbn; lia. Qed.

Lemma lines_cons l : ∃ x xs, lines l = x :: xs.
Proof. destruct l as [|c l]; cbn; [by eexists _, _|]. destruct (c =? 10), (lines l); by eexists _, _. Qed.
Lemma lines_at_text m p l : str_at m p l → lines_at m p (lines l).
Proof.
  revert p. induction l as [|c l IH]; intros p Hs.
  - apply str_at_nil in Hs. cbn. split; [|done]. split; [constructor|done].
  - apply str_at_cons in Hs as [[Hc E] Hs]. specialize (IH _ Hs). cbn [lines].
    destruct (lines_cons l) as (x & xs & El). rewrite El in *.
    destruct (Z.eqb_spec c 10) as [->|H10].
    + split; [split; [constructor|done]|]. cbn [length]. by rewrite Z.add_0_r.
    + destruct IH as [[Hl Hb] Hr]. split; [split; [by constructor|done]|]. cbn [length].
      replace (p + Z.of_nat (S (length x)) + 1) with (p + 1 + Z.of_nat (length x) + 1) by lia. done.
Qed.
Lemma text_len_lines l : text_len (lines l) = Z.of_nat (length l) + 1.
Proof.
  induction l as [|c l IH]; [done|]. cbn [lines]. destruct (c =? 10); cbn [text_len length].
  - lia.
  - destruct (lines_cons l) as (x & xs & El). rewrite El in *. cbn [text_len length] in *. lia.
Qed.
Lemma lines_at_frame m m' p ls :
  lines_at m p ls → (∀ a, p ≤ a < p + text_len ls → m' !! a = m !! a) → lines_at m' p ls.
Proof.
  revert p. induction ls as [|l ls IH]; intros p H Hm; [done|]. cbn [lines_at text_len] in *.
  pose proof (text_len_nonneg ls). destruct H as [[Hl Hb] H]. split; [split; [done|]|].
  - apply (bytes_at_frame m); [done|]. intros a. rewrite length_app. cbn [length]. intros Ha. apply Hm. lia.
  - apply IH; [done|]. intros a Ha. apply Hm. lia.
Qed.
Lemma vars_from_bound p ls : Forall (λ v, p ≤ v.1) (vars_from p ls).
Proof.
  revert p. induction ls as [|l ls IH]; intros p; cbn [vars_from]; [constructor|].
  apply Forall_app. split; [destruct (env_var l); by repeat constructor|].
  eapply Forall_impl; [apply IH|]. cbn. lia.
Qed.

(** ** The environment *)
Definition bad_entry (l : list Z) : string * list parg := ("Invalid environment variable: %s\n"%string, [PStr (text_of l)]).
(** The first variable from a line on, with the lines from it on, and the invalid lines before it. *)
Fixpoint next_var (p : Z) (ls : list (list Z)) : Z * list (list Z) :=
  match ls with
  | [] => (p, [])
  | l :: ls' =>
    if env_var l then (p, ls)
    else if is_nil ls' then (p + Z.of_nat (length l), []) else next_var (p + Z.of_nat (length l) + 1) ls'
  end.
Fixpoint bad_before (ls : list (list Z)) : list (list Z) :=
  match ls with
  | [] => []
  | l :: ls => if env_var l then [] else (if env_bad (is_nil ls) l then [l] else []) ++ bad_before ls
  end.
Definition add_bad (bs : list (list Z)) (s : argvs) : argvs := set_argv_log (reverse (bad_entry <$> bs) ++ argv_log s) s.

Lemma add_bad_app b1 b2 s : add_bad b2 (add_bad b1 s) = add_bad (b1 ++ b2) s.
Proof. unfold add_bad. cbn. by rewrite fmap_app, reverse_app, app_assoc. Qed.
Lemma add_bad_nil s : add_bad [] s = s.
Proof. by destruct s. Qed.
Lemma lines_at_bytes m p l ls : lines_at m p (l :: ls) → line_ok l ∧ bytes_at m p (l ++ [term ls]) ∧ lines_at m (p + Z.of_nat (length l) + 1) ls.
Proof. intros [[? ?] ?]. done. Qed.
Lemma term_cases {A} (ls : list A) : term ls = 0 ∨ term ls = 10.
Proof. unfold term. destruct (is_nil ls); auto. Qed.

Lemma bind_args_mem {A B} (f : bmem → outcome A) (g : A → stM argvs B) s a :
  f (a_mem s) = Done a → (on_mem f ≫= g) s = g a s.
Proof. intros E. unfold on_mem. apply stM_bind_Done. unfold mbind at 1, stM_bind, get, lift. by rewrite E. Qed.
Lemma bind_store {B} (f : bmem → outcome bmem) (g : unit → stM argvs B) s m :
  f (a_mem s) = Done m → (store f ≫= g) s = g tt (set_mem m s).
Proof.
  intros E. apply stM_bind_Done. unfold store. rewrite bind_get.
  erewrite (stM_bind_Done (lift _)); [|unfold lift; rewrite E; reflexivity]. done.
Qed.

Lemma env_invalid_eol_ok fuel p l t s :
  bytes_at (a_mem s) p (l ++ [t]) → line_ok l → t = 0 ∨ t = 10 → (length l < fuel)%nat →
  env_invalid_eol fuel p s = Done (p + Z.of_nat (length l), add_bad [l] s).
Proof.
  intros Hb Hl Ht Hf. set (eol := p + Z.of_nat (length l)). unfold env_invalid_eol.
  erewrite bind_args_mem by (by eapply env_eol_ok). fold eol.
  pose proof (proj1 (bytes_at_app _ _ _ _) Hb) as [Hbl [Et _]]. fold eol in Et.
  erewrite bind_args_mem by (by apply ldc_ok).
  erewrite bind_store by (apply stb_ok; eauto). change (u8 0) with 0.
  erewrite bind_args_mem; [|apply (ld_str_ok _ _ _ l); [|done]].
  2:{ cbn [a_mem set_mem]. split; [eapply Forall_impl; [exact Hl|cbn; tauto]|]. apply bytes_at_app. split.
      - apply (bytes_at_frame (a_mem s)); [done|]. intros a Ha. apply lookup_insert_ne. lia.
      - split; [apply lookup_insert_eq|done]. }
  unfold printf. mrun. erewrite bind_store by (apply stb_ok; cbn; rewrite lookup_insert_eq; eauto).
  rewrite u8_s8 by (unfold is_byte; destruct Ht; lia). unfold mret, stM_ret. do 2 f_equal.
  destruct s as [m c a q lg]. unfold add_bad, set_mem, set_argv_log. cbn in *. f_equal.
  rewrite insert_insert_eq. by apply insert_id.
Qed.

(** The decision of [env_next] on a line that starts with a letter. *)
Lemma name_ok m fuel p c r t :
  bytes_at m p ((c :: r) ++ [t]) → line_ok (c :: r) → t = 0 ∨ t = 10 → isalpha c = true → (length r < fuel)%nat →
  ∃ q inv d, name_end fuel m (p + 1) false = Done (q, inv) ∧ ldc m q = Done d ∧
    (if negb (d =? 61) then true else inv) = negb (env_var (c :: r)).
Proof.
  intros Hb Hl Ht Ha Hf. apply line_byte in Hl as (_ & _ & _ & Hl). destruct Hb as [_ Hb]. unfold env_var. rewrite Ha. cbn [andb].
  destruct (index_of 61 r) as [k|] eqn:Ek.
  - pose proof (index_of_lt _ _ _ Ek) as Hk.
    assert (r = take k r ++ 61 :: drop (S k) r ∧ 61 ∉ take k r) as [Er Hn].
    { clear -Ek. revert k Ek. induction r as [|x r IH]; intros k; cbn [index_of]; [done|].
      destruct (Z.eqb_spec x 61) as [->|Hx]; [intros [= <-]; split; [done|apply not_elem_of_nil]|].
      destruct (index_of 61 r) as [j|]; [|done]. intros [= <-]. destruct (IH j eq_refl) as [E Hn].
      split; [cbn; by f_equal|]. cbn. by apply not_elem_of_cons. }
    rewrite Er, <- app_assoc in Hb. cbn [app] in Hb.
    assert (line_ok (take k r)) as Hlt by (by apply Forall_take).
    eexists _, _, _. split; [eapply name_end_ok; [exact Hb|done|done|by auto|rewrite length_take; lia]|].
    split; [by eapply ld_after|]. done.
  - assert (61 ∉ r) as Hn.
    { clear -Ek. induction r as [|x r IH]; cbn [index_of] in *; [apply not_elem_of_nil|].
      destruct (Z.eqb_spec x 61); [done|]. destruct (index_of 61 r); [done|]. apply not_elem_of_cons. auto. }
    eexists _, _, _. split; [eapply name_end_ok; [exact Hb|done|done|tauto|done]|].
    split; [by eapply ld_after|]. by destruct Ht as [-> | ->].
Qed.

Lemma drop_blanks_spec l : ∃ bl, l = bl ++ drop_blanks l ∧ Forall (λ c, isblank c = true) bl ∧
  match drop_blanks l with c :: _ => isblank c = false | [] => True end.
Proof.
  induction l as [|c l (bl & E & Hb & Hc)]; [exists []; by repeat constructor|]. cbn [drop_blanks].
  destruct (isblank c) eqn:Ec.
  - exists (c :: bl). split; [cbn; by f_equal|]. split; [by constructor|done].
  - exists []. split; [done|]. split; [constructor|done].
Qed.

Lemma env_next_ok ls : ∀ fuel p s,
  lines_at (a_mem s) p ls → ls ≠ [] → text_len ls < Z.of_nat fuel →
  env_next fuel p s = Done ((next_var p ls).1, add_bad (bad_before ls) s).
Proof.
  induction ls as [|l ls IH]; intros [|f] p s Hls Hne Hf; try done; cbn [text_len] in Hf;
    pose proof (text_len_nonneg ls) as Hnn; [lia|].
  apply lines_at_bytes in Hls as (Hl & Hb & Hls). cbn [env_next next_var bad_before].
  set (eol := p + Z.of_nat (length l)) in *.
  set (onward := λ env, c ← on_mem (λ m, ldc m env); if c =? 0 then mret env else env_next f (env + 1)).
  (* to the next line *)
  assert (∀ bs, bs = (if env_bad (is_nil ls) l then [l] else []) →
    onward eol (add_bad bs s) = Done ((if is_nil ls then (eol, []) else next_var (eol + 1) ls).1,
      add_bad ((if env_bad (is_nil ls) l then [l] else []) ++ bad_before ls) s)) as Hon.
  { intros bs Hbs. unfold onward. erewrite bind_args_mem by (by eapply ld_after). rewrite <- Hbs. unfold term.
    destruct ls as [|l2 ls]; cbn [is_nil]; [by rewrite app_nil_r|]. change (s8 10 =? 0) with false. cbv iota.
    rewrite (IH f) by (done || lia). by rewrite add_bad_app. }
  assert (ldc (a_mem s) p = Done (s8 (hd (term ls) l)) ∧ is_byte (hd (term ls) l)) as [Ec Hcb].
  { destruct l as [|c l]; cbn [hd]; (split; [by eapply ld_byte|]).
    - unfold is_byte. destruct (term_cases ls) as [-> | ->]; lia.
    - by destruct (line_byte _ _ Hl). }
  rewrite (bind_args_mem _ _ _ _ Ec), s8_eqb0, isalpha_s8 by done.
  destruct l as [|c r].
  - (* an empty line *)
    change (env_var []) with false. cbv iota. cbn [hd length] in *. subst eol. change (Z.of_nat 0) with 0 in *. rewrite Z.add_0_r in *. unfold term in *. destruct ls as [|l2 ls]; cbn [is_nil] in *.
    { change (0 =? 0) with true. cbv iota. by rewrite add_bad_nil. }
    change (isalpha 10) with false. change (10 =? 0) with false. cbv iota.
    erewrite bind_args_mem by (by apply (skip_blanks_ok _ _ _ [] 10 []); [|constructor|..|cbn; lia]).
    cbn [length]. rewrite Z.add_0_r, (bind_args_mem _ _ _ _ Ec). change (s8 10 =? 10) with true. cbv iota.
    rewrite (IH f) by (done || lia). done.
  - cbn [hd length] in *. destruct (line_byte _ _ Hl) as (_ & Hc0 & Hc10 & Hr).
    rewrite (proj2 (Z.eqb_neq c 0)) by done.
    pose proof (term_cases ls) as Ht. destruct (isalpha c) eqn:Ha.
    + destruct (name_ok (a_mem s) f p c r (term ls) Hb Hl Ht Ha ltac:(lia)) as (q & inv & d & E1 & E2 & E3).
      rewrite (bind_args_mem _ _ _ _ E1), (bind_args_mem _ _ _ _ E2), E3.
      destruct (env_var (c :: r)) eqn:Ev; cbn [negb]; [by rewrite add_bad_nil|].
      rewrite (stM_bind_Done _ _ _ _ _ (env_invalid_eol_ok f p (c :: r) _ s Hb Hl Ht ltac:(cbn; lia))). fold eol.
      apply Hon. unfold env_bad, env_skip. rewrite Ev. cbn [drop_blanks].
      destruct (alpha_not_blank c Ha) as (-> & _ & _ & H35 & _). by rewrite (proj2 (Z.eqb_neq c 35)).
    + assert (env_var (c :: r) = false) as Ev by (unfold env_var; by rewrite Ha).
      rewrite Ev. destruct (drop_blanks_spec (c :: r)) as (bl & El & Hbl & Hd).
      destruct (drop_blanks (c :: r)) as [|c' r'] eqn:Ed.
      * rewrite app_nil_r in El. subst bl.
        assert (isblank (term ls) = false ∧ is_byte (term ls)) as [Htb Htby] by (unfold is_byte; destruct Ht as [-> | ->]; split; (done || lia)).
        erewrite bind_args_mem by (apply (skip_blanks_ok _ _ _ (c :: r) (term ls) []); [done..|cbn; lia]). fold eol.
        erewrite bind_args_mem by (by eapply ld_after). destruct ls as [|l2 ls].
        -- change (s8 (term []) =? 10) with false. change (s8 (term []) =? 35) with false. cbv iota.
           rewrite (stM_bind_Done _ _ _ _ _ (env_invalid_eol_ok f p (c :: r) _ s Hb Hl Ht ltac:(cbn; lia))). fold eol.
           apply Hon. unfold env_bad, env_skip. by rewrite Ev, Ed.
        -- change (s8 (term (l2 :: ls)) =? 10) with true. cbv iota. cbn [is_nil].
           rewrite (IH f) by (done || lia). f_equal. f_equal. f_equal.
           unfold env_bad, env_skip. by rewrite Ev, Ed.
      * assert (is_byte c' ∧ c' ≠ 10) as [Hcb' Hc10'].
        { rewrite El in Hl. apply Forall_app in Hl as [_ Hl]. by destruct (line_byte _ _ Hl) as (? & ? & ? & _). }
        pose proof Hb as Hb'. rewrite El, <- app_assoc in Hb'. cbn [app] in Hb'.
        assert (length bl ≤ length r)%nat as Hbl'.
        { apply (f_equal length) in El. rewrite length_app in El. cbn in El. lia. }
        erewrite bind_args_mem by (apply (skip_blanks_ok _ _ _ bl c' (r' ++ [term ls])); [done..|lia]).
        erewrite bind_args_mem by (by eapply ld_after). rewrite !s8_eqb_ascii by (done || lia).
        rewrite (proj2 (Z.eqb_neq c' 10)) by done. destruct (c' =? 35) eqn:E35.
        -- erewrite bind_args_mem by (apply (env_eol_ok _ _ _ (c :: r) (term ls)); [done..|cbn; lia]). fold eol.
           rewrite <- (add_bad_nil s) at 1. apply Hon. unfold env_bad, env_skip. by rewrite Ev, Ed, E35.
        -- rewrite (stM_bind_Done _ _ _ _ _ (env_invalid_eol_ok f p (c :: r) _ s Hb Hl Ht ltac:(cbn; lia))). fold eol.
           apply Hon. unfold env_bad, env_skip. by rewrite Ev, Ed, E35.
Qed.

(** The search for the next variable goes on in the text. *)
Lemma next_var_spec ls : ∀ p m, ls ≠ [] → lines_at m p ls →
  let '(q, r) := next_var p ls in
  lines_at m q r ∧ vars_from p ls = vars_from q r ∧ bad_lines ls = bad_before ls ++ bad_lines r ∧
  p ≤ q ∧ (length r ≤ length ls)%nat ∧
  match r with
  | [] => q = p + text_len ls - 1 ∧ m !! q = Some 0
  | l :: _ => env_var l = true ∧ q + text_len r = p + text_len ls
  end.
Proof.
  induction ls as [|l ls IH]; intros p m Hne Hls; [done|].
  pose proof Hls as (Hl & Hb & Hls')%lines_at_bytes. cbn [next_var vars_from bad_lines bad_before text_len].
  pose proof (text_len_nonneg ls). destruct (env_var l) eqn:Ev.
  - unfold env_bad. rewrite Ev. cbn [negb andb app text_len vars_from bad_lines]. rewrite Ev.
    cbn [negb andb app]. unfold env_bad. rewrite Ev. by split_and!; try lia.
  - destruct ls as [|l2 ls]; cbn [is_nil].
    + cbn [vars_from app lines_at text_len bad_lines length]. rewrite !app_nil_r. split_and!; try done; try lia.
      by apply bytes_at_app in Hb as [_ [E _]].
    + specialize (IH (p + Z.of_nat (length l) + 1) m ltac:(done) Hls').
      destruct (next_var _ (l2 :: ls)) as [q r]. destruct IH as (H1 & H2 & H3 & H4 & H5 & H6).
      rewrite <- app_assoc, <- H3, <- H2. cbn [app length] in *. split_and!; try done; try lia.
      destruct r; [destruct H6 as [-> ?]; split; [lia|done]|]. destruct H6. split; [done|lia].
Qed.

Section env.
Context (__environ : Z).

(** The rest of the array is null. *)
Definition null_from (m : bmem) (i n : Z) : Prop := ∀ a, __environ + 8 * i ≤ a < __environ + 8 * (i + n) → m !! a = Some 0.
Lemma null_bytes m i n : 0 < n → null_from m i n → bytes_at m (__environ + 8 * i) (le_bytes 8 0).
Proof.
  intros Hn H. change (le_bytes 8 0) with (replicate 8 0). apply bytes_at_lookup. rewrite length_replicate.
  intros a Ha. rewrite H by lia. by rewrite lookup_replicate_2 by lia.
Qed.
Lemma env_at_frame m m' e vars :
  env_at m e vars → (∀ a, e ≤ a < e + 8 * (Z.of_nat (length vars) + 1) → m' !! a = m !! a) →
  (∀ p s, (p, s) ∈ vars → ∀ a, p ≤ a ≤ p + Z.of_nat (length s) → m' !! a = m !! a) → env_at m' e vars.
Proof.
  revert e. induction vars as [|[p s] vars IH]; intros e He Hm Hs; cbn [env_at length] in *.
  - apply (bytes_at_frame m); [done|]. rewrite le_bytes_length. intros a Ha. apply Hm. lia.
  - destruct He as (Hp & Hb & Hst & He). split; [done|]. split; [|split].
    + apply (bytes_at_frame m); [done|]. rewrite le_bytes_length. intros a Ha. apply Hm. lia.
    + apply (str_at_frame m); [done|]. apply Hs. apply list_elem_of_here.
    + apply IH; [done|..].
      * intros a Ha. apply Hm. lia.
      * intros p' s' Hin. apply Hs. by apply list_elem_of_further.
Qed.

(** The loop over the variables of the lines [ls]. *)
Lemma env_loop_ok : ∀ fuel ls p i s,
  let n := Z.of_nat (length (vars_from p ls)) in let eof := p + text_len ls - 1 in
  lines_at (a_mem s) p ls → text_len ls + 1 < Z.of_nat fuel → 0 < p → eof < 2 ^ 64 → 0 ≤ i → i + n < 200 →
  null_from (a_mem s) i (n + 1) → eof < __environ ∨ __environ + 8 * (i + n + 1) ≤ p →
  ∃ s', env_loop __environ fuel true eof p i s = Done (tt, s') ∧
    env_at (a_mem s') (__environ + 8 * i) (vars_from p ls) ∧
    s' = set_mem (a_mem s') (add_bad (bad_lines ls) s) ∧
    ∀ a, a < p ∨ eof < a → a < __environ + 8 * i ∨ __environ + 8 * (i + n) ≤ a → a_mem s' !! a = a_mem s !! a.
Proof.
  induction fuel as [|f IH]; intros ls p i s n eof Hls Hf Hp He Hi Hn Hnull Hd; pose proof (text_len_nonneg ls) as Hnn; [lia|].
  cbn [env_loop]. destruct (Z.ltb_spec p eof) as [Hlt|Hge].
  2:{ (* no text is left *)
    assert (vars_from p ls = [] ∧ bad_lines ls = []) as [Ev Ebd].
    { destruct ls as [|l ls]; [done|]. cbn [text_len] in *. pose proof (text_len_nonneg ls).
      assert (length l = 0%nat ∧ ls = []) as [->%nil_length_inv ->]; [|done].
      destruct ls as [|l2 ls]; [|cbn [text_len] in *; pose proof (text_len_nonneg ls); unfold eof in *; lia].
      cbn [text_len] in *. unfold eof in *. split; [lia|done]. }
    exists s. rewrite Ev, Ebd, add_bad_nil. split; [done|]. split; [|split; [by destruct s|done]].
    unfold n in *. rewrite Ev in *. apply (null_bytes _ _ 1); [lia|exact Hnull]. }
  assert (ls ≠ []) as Hne by (intros ->; unfold eof in *; cbn [text_len] in *; lia).
  pose proof (next_var_spec ls p (a_mem s) Hne Hls) as Hnv.
  rewrite (stM_bind_Done _ _ _ _ _ (env_next_ok ls f p s Hls Hne ltac:(lia))).
  destruct (next_var p ls) as [q r]. destruct Hnv as (Hqr & Ev & Ebd & Hpq & _ & Hr). cbn [fst].
  set (s1 := add_bad (bad_before ls) s). destruct r as [|l r].
  { (* no variable is left *)
    destruct Hr as [Eq E0]. erewrite bind_args_mem by (apply ldc_ok; exact E0). change (s8 0 =? 0) with true. cbv iota. cbn [orb].
    exists s1. unfold n in *. rewrite Ev, Ebd, app_nil_r in *. cbn [vars_from length env_at] in *.
    split; [done|]. split; [|split; [by destruct s|done]]. apply (null_bytes _ _ 1); [lia|exact Hnull]. }
  destruct Hr as [Hvar Hlen]. cbn [text_len] in Hlen. pose proof (text_len_nonneg r) as Hnr.
  apply lines_at_bytes in Hqr as (Hl & Hb & Hr). unfold env_var in Hvar.
  destruct l as [|c l]; [done|]. destruct (alpha_not_blank c) as (_ & Hc0 & _); [by apply andb_true_iff in Hvar as [? _]|].
  fold (env_var (c :: l)) in Hvar. destruct (line_byte _ _ Hl) as (Hcb & _).
  erewrite bind_args_mem by (by eapply ld_byte). rewrite s8_eqb0, (proj2 (Z.eqb_neq c 0)), (proj2 (Z.leb_gt _ _)) by (done || (unfold eof; cbn [length] in *; lia)).
  cbn [orb]. unfold put_ptr.
  assert (n = 1 + Z.of_nat (length (vars_from (q + Z.of_nat (length (c :: l)) + 1) r))) as En.
  { unfold n. rewrite Ev. cbn [vars_from]. rewrite Hvar, length_app. cbn [length]. lia. }
  set (n' := Z.of_nat (length (vars_from _ r))) in *. set (q' := q + Z.of_nat (length (c :: l))) in *.
  assert (0 ≤ n') by (unfold n'; lia).
  erewrite bind_store.
  2:{ apply st_bytes_ok; [apply le_bytes_byte|]. rewrite le_bytes_length. intros a Ha. exists 0. apply Hnull. lia. }
  set (m2 := put_bytes _ _ _). set (s2 := set_mem m2 s1).
  assert (∀ a, a < __environ + 8 * i ∨ __environ + 8 * i + 8 ≤ a → m2 !! a = a_mem s !! a) as Em2.
  { intros a Ha. unfold m2. rewrite lookup_put_bytes, le_bytes_length, decide_False by lia. done. }
  assert (∀ a, q ≤ a ≤ eof → m2 !! a = a_mem s !! a) as Em2'.
  { intros a Ha. apply Em2. unfold eof in *. lia. }
  assert (q' ≤ eof) as Hq' by (unfold q', eof; lia).
  assert (bytes_at m2 q ((c :: l) ++ [term r])) as Hb2.
  { apply (bytes_at_frame (a_mem s)); [done|]. intros a Ha. rewrite length_app in Ha. cbn [length] in *. apply Em2'. unfold q' in *. cbn [length] in *. lia. }
  erewrite bind_args_mem by (apply (value_end_ok _ _ _ _ _ _ Hb2 Hl (term_cases r)); [cbn [length] in *; lia|done]). fold q'.
  assert (is_Some (m2 !! q')) as Hsome.
  { apply bytes_at_app in Hb2 as [_ [E _]]. eauto. }
  erewrite bind_store by (by apply stb_ok). change (u8 0) with 0. cbn [a_mem set_mem s2].
  set (m3 := <[q' := 0]> m2). set (s3 := set_mem m3 _).
  assert (∀ a, a ≠ q' → m3 !! a = m2 !! a) as Em3 by (intros a Ha; by apply lookup_insert_ne).
  rewrite s32_small by lia.
  assert (∀ a, q' < a ≤ eof → m3 !! a = a_mem s !! a) as Em3'.
  { intros a Ha. rewrite Em3, Em2' by (unfold q' in *; lia). done. }
  assert (q' + 1 + text_len r - 1 = eof) as Eeof by (unfold eof, q'; lia).
  destruct (IH r (q' + 1) (i + 1) s3) as (s' & E & Henv & Es & Hfr).
  { cbn [a_mem set_mem s3]. apply (lines_at_frame (a_mem s)); [exact Hr|]. intros a Ha. apply Em3'. lia. }
  { unfold q' in *. cbn [length] in *. lia. }
  { unfold q'. lia. }
  { lia. }
  { lia. }
  { fold n'. lia. }
  { fold n'. intros a Ha. cbn [a_mem set_mem s3]. rewrite Em3, Em2 by (unfold q' in *; lia). apply Hnull. lia. }
  { fold n'. lia. }
  rewrite Eeof in *. fold n' in Hfr. cbn [a_mem set_mem s3] in Hfr. exists s'. split; [exact E|]. split; [|split].
  - rewrite Ev. cbn [vars_from]. rewrite Hvar. cbn [app env_at]. fold q'.
    replace (__environ + 8 * (i + 1)) with (__environ + 8 * i + 8) in Henv by lia.
    split; [unfold q' in *; cbn [length] in *; lia|]. split; [|split; [|exact Henv]].
    + apply (bytes_at_frame m2); [apply bytes_at_put|]. rewrite le_bytes_length. intros a Ha.
      rewrite Hfr, Em3 by (unfold q' in *; lia). done.
    + split; [eapply Forall_impl; [exact Hl|cbn; tauto]|]. apply bytes_at_app. fold q'. split.
      * apply (bytes_at_frame m2); [by apply bytes_at_app in Hb2 as [? _]|]. intros a Ha. fold q' in Ha.
        rewrite Hfr, Em3 by (unfold q' in *; lia). done.
      * split; [|done]. rewrite Hfr by (unfold q' in *; lia). apply lookup_insert_eq.
  - rewrite Es, Ebd. cbn [bad_lines]. unfold env_bad. rewrite Hvar. cbn [negb andb app].
    cbn [a_mem set_mem]. unfold s3, s2, s1. rewrite <- add_bad_app. done.
  - intros a Ha Ha'. rewrite Hfr, Em3, Em2 by (unfold q' in *; lia). done.
Qed.
End env.

(** ** The command line *)
(** The words copied one after the other, and where each is. *)
Definition packed (ws : list (list Z)) : list Z := concat ((λ w, w ++ [0]) <$> ws).
Fixpoint word_ptrs (p : Z) (ws : list (list Z)) : list Z :=
  match ws with [] => [] | w :: ws => p :: word_ptrs (p + Z.of_nat (length w) + 1) ws end.
Definition ptr_array (ps : list Z) : list Z := concat (le_bytes 8 <$> ps).

Lemma ptr_array_length ps : Z.of_nat (length (ptr_array ps)) = 8 * Z.of_nat (length ps).
Proof. induction ps as [|p ps IH]; [done|]. unfold ptr_array in *. cbn [fmap list_fmap concat]. rewrite length_app, le_bytes_length. cbn [length]. lia. Qed.
Lemma word_ptrs_length p ws : length (word_ptrs p ws) = length ws.
Proof. revert p. induction ws as [|w ws IH]; intros p; cbn; [done|by rewrite IH]. Qed.

Definition plain_word (w : list Z) : Prop := w ≠ [] ∧ Forall (λ c, 0 < c < 256 ∧ isblank c = false) w.
Lemma words_from_word cur w l :
  Forall (λ c, 0 < c < 256 ∧ isblank c = false) w → words_from cur (w ++ l) = words_from (cur ++ w) l.
Proof.
  revert cur. induction w as [|c w IH]; intros cur Hw; cbn [app words_from]; [by rewrite app_nil_r|].
  apply Forall_cons in Hw as [[_ Hc] Hw]. rewrite Hc, IH by done. by rewrite <- app_assoc.
Qed.
Lemma words_blanks bl l : Forall (λ c, isblank c = true) bl → words (bl ++ l) = words l.
Proof. induction 1 as [|c bl Hc _ IH]; [done|]. unfold words in *. cbn [app words_from]. by rewrite Hc. Qed.
Lemma words_word w l :
  plain_word w → match l with c :: _ => isblank c = true | [] => True end → words (w ++ l) = w :: words l.
Proof.
  intros [Hne Hw] Hl. unfold words. rewrite words_from_word by done. cbn [app].
  destruct w as [|x w]; [done|]. destruct l as [|c l]; cbn [words_from]; [done|]. by rewrite Hl.
Qed.
(** A text is blanks, a word and the rest, or blanks only. *)
Lemma words_split l : cstring l → ∃ bl w r, l = bl ++ w ++ r ∧ Forall (λ c, isblank c = true) bl ∧
  Forall (λ c, 0 < c < 256 ∧ isblank c = false) w ∧ match r with c :: _ => isblank c = true | [] => True end ∧ (w = [] → r = []).
Proof.
  intros Hl. destruct (drop_blanks_spec l) as (bl & E & Hbl & Hd).
  assert (∀ t, cstring t → ∃ w r, t = w ++ r ∧ Forall (λ c, 0 < c < 256 ∧ isblank c = false) w ∧
    match r with c :: _ => isblank c = true | [] => True end) as Hspan.
  { clear. induction t as [|c t IH]; intros Ht; [by exists [], []; repeat constructor|].
    destruct (isblank c) eqn:Ec; [by exists [], (c :: t); repeat constructor|].
    apply Forall_cons in Ht as [Hc Ht]. destruct (IH Ht) as (w & r & -> & Hw & Hr).
    exists (c :: w), r. split; [done|]. split; [by constructor|done]. }
  rewrite E in Hl. apply Forall_app in Hl as [_ Hl]. destruct (Hspan _ Hl) as (w & r & Er & Hw & Hr).
  exists bl, w, r. split; [by rewrite <- Er|]. split; [done|]. split; [done|]. split; [done|]. intros ->.
  cbn in Er. rewrite Er in Hd. destruct r as [|c r]; [done|]. congruence.
Qed.

Lemma put_copy_ok {B} c (g : unit → stM argvs B) s :
  is_Some (a_mem s !! copy_ptr s) → is_byte c →
  (put_copy (s8 c) ≫= g) s = g tt (set_copy_ptr (copy_ptr s + 1) (set_mem (<[copy_ptr s := c]> (a_mem s)) s)).
Proof.
  intros Hs Hc. unfold put_copy. mrun. erewrite bind_store by (by apply stb_ok). by rewrite u8_s8.
Qed.
Lemma copy_word_ok fuel w : ∀ args t s,
  bytes_at (a_mem s) args (w ++ [t]) → Forall (λ c, 0 < c < 256 ∧ isblank c = false) w → is_byte t → t = 0 ∨ isblank t = true →
  writable (a_mem s) (copy_ptr s) (Z.of_nat (length w)) →
  args + Z.of_nat (length w) < copy_ptr s ∨ copy_ptr s + Z.of_nat (length w) ≤ args → (length w < fuel)%nat →
  copy_word fuel args s = Done (args + Z.of_nat (length w),
    set_copy_ptr (copy_ptr s + Z.of_nat (length w)) (set_mem (put_bytes (copy_ptr s) w (a_mem s)) s)).
Proof.
  revert w. induction fuel as [|f IH]; intros w args t s Hb Hw Ht Htb Hwr Hd Hf; [lia|]. cbn [copy_word].
  destruct w as [|c w]; cbn [app length] in *.
  - erewrite bind_args_mem by (by eapply ld_byte). rewrite s8_eqb0, isblank_s8 by done.
    assert ((t =? 0) || isblank t = true) as -> by (destruct Htb as [->|E]; [done|by rewrite E, orb_true_r]).
    cbn [put_bytes]. rewrite !Z.add_0_r. by destruct s.
  - apply Forall_cons in Hw as [[Hc Hcb] Hw]. erewrite bind_args_mem by (by eapply ld_byte).
    rewrite s8_eqb0, isblank_s8, Hcb, (proj2 (Z.eqb_neq c 0)) by (unfold is_byte; lia). cbn [orb].
    rewrite put_copy_ok by (unfold is_byte; (lia || (apply Hwr; lia))).
    rewrite (IH w (args + 1) t) by (cbn [a_mem set_mem set_copy_ptr copy_ptr]; first
      [ done | lia
      | apply (bytes_at_put_frame _ _ _ (copy_ptr s) [c]); [apply Hb|rewrite length_app; cbn [length] in *; lia]
      | apply (writable_put _ [c]); apply (writable_weaken _ _ _ _ _ Hwr); lia ]).
    f_equal. f_equal; [lia|]. unfold set_copy_ptr, set_mem. cbn [a_mem __argc __args copy_ptr argv_log]. f_equal. lia.
Qed.
Lemma packed_cons w ws : packed (w :: ws) = w ++ 0 :: packed ws.
Proof. unfold packed. cbn. by rewrite <- app_assoc. Qed.

Lemma args_loop_ok fuel : ∀ text args argv s,
  let ws := words text in let k := Z.of_nat (length (packed ws)) in let n := 8 * Z.of_nat (length ws) in
  str_at (a_mem s) args text → (length text < fuel)%nat →
  writable (a_mem s) (copy_ptr s) k → writable (a_mem s) argv n →
  apart args (Z.of_nat (length text) + 1) (copy_ptr s) k → apart args (Z.of_nat (length text) + 1) argv n → apart argv n (copy_ptr s) k →
  ∃ s', args_loop fuel args argv s = Done (argv + n, s') ∧
    bytes_at (a_mem s') (copy_ptr s) (packed ws) ∧ bytes_at (a_mem s') argv (ptr_array (word_ptrs (copy_ptr s) ws)) ∧
    s' = set_copy_ptr (copy_ptr s + k) (set_mem (a_mem s') s) ∧
    ∀ a, a < copy_ptr s ∨ copy_ptr s + k ≤ a → a < argv ∨ argv + n ≤ a → a_mem s' !! a = a_mem s !! a.
Proof.
  induction fuel as [|f IH]; intros text args argv s ws k n Hs Hf Hwc Hwa D1 D2 D3; [lia|]. cbn [args_loop].
  destruct (words_split text (proj1 Hs)) as (bl & w & r & Et & Hbl & Hw & Hr & Hnil).
  assert (str_at (a_mem s) (args + Z.of_nat (length bl)) (w ++ r)) as Hs1.
  { rewrite Et in Hs. apply (str_at_drop _ _ _ (length bl)) in Hs; [|rewrite length_app; lia]. by rewrite drop_app_length in Hs. }
  assert (length text = length bl + (length w + length r))%nat as Elen by (by rewrite Et, !length_app).
  set (args1 := args + Z.of_nat (length bl)) in *.
  assert (∃ c l, w ++ r ++ [0] = c :: l ∧ is_byte c ∧ isblank c = false ∧ (c =? 0) = is_nil w) as (c & l & Ec & Hcb & Hcbl & Hc0).
  { destruct w as [|c w]; [rewrite (Hnil eq_refl); by eexists _, _|]. apply Forall_cons in Hw as [[Hc Hcb] _].
    exists c, (w ++ r ++ [0]). unfold is_byte. split; [done|]. split; [lia|]. split; [done|]. apply Z.eqb_neq. lia. }
  assert (bytes_at (a_mem s) args (bl ++ c :: l)) as Hbc.
  { rewrite <- Ec, app_assoc, app_assoc. rewrite <- (app_assoc bl), <- Et. apply Hs. }
  erewrite bind_args_mem by (eapply skip_blanks_ok; [exact Hbc|done..|lia]). fold args1.
  assert (ldc (a_mem s) args1 = Done (s8 c)) as Eld by (unfold args1; by eapply ld_after).
  rewrite (bind_args_mem _ _ _ _ Eld), s8_eqb0, Hc0 by done.
  destruct w as [|x w]; cbn [is_nil].
  { assert (ws = []) as Ews.
    { unfold ws. rewrite Et, (Hnil eq_refl). cbn [app]. rewrite words_blanks by done. done. }
    exists s. unfold n, k. rewrite Ews. cbn [length packed fmap list_fmap concat]. rewrite !Z.mul_0_r, !Z.add_0_r.
    split; [done|]. split; [done|]. split; [done|]. split; [by destruct s|done]. }
  set (w' := x :: w) in *. assert (plain_word w') as Hpw by (by split).
  assert (ws = w' :: words r) as Ews by (unfold ws; rewrite Et, words_blanks, words_word by done; done).
  set (k' := Z.of_nat (length (packed (words r)))). set (n' := 8 * Z.of_nat (length (words r))).
  assert (k = Z.of_nat (length w') + 1 + k') as Ek by (unfold k, k'; rewrite Ews, packed_cons, length_app; cbn [length]; lia).
  assert (n = 8 + n') as En by (unfold n, n'; rewrite Ews; cbn [length]; lia).
  assert (0 ≤ k' ∧ 0 ≤ n') as [Hk' Hn'] by (unfold k', n'; lia). clearbody k n.
  unfold apart in *. mrun. unfold put_ptr.
  erewrite bind_store by (apply st_bytes_ok; [apply le_bytes_byte|rewrite le_bytes_length; apply (writable_weaken _ _ _ _ _ Hwa); lia]).
  set (m1 := put_bytes argv _ _). set (s1 := set_mem m1 s).
  assert (∀ a, a < argv ∨ argv + 8 ≤ a → m1 !! a = a_mem s !! a) as Em1.
  { intros a Ha. unfold m1. by rewrite lookup_put_bytes, le_bytes_length, decide_False by lia. }
  assert (∃ t r', r ++ [0] = t :: r' ∧ is_byte t ∧ (t = 0 ∨ isblank t = true)) as (t & r' & Etr & Htb & Ht).
  { destruct r as [|t r]; [exists 0, []; split; [done|]; split; [unfold is_byte; lia|by left]|]. exists t, (r ++ [0]). split; [done|]. split; [|by right].
    destruct Hs1 as [Hs1 _]. apply Forall_app in Hs1 as [_ [Ht _]%Forall_cons]. unfold is_byte. lia. }
  assert (bytes_at (a_mem s) args1 (w' ++ [t])) as Hbw.
  { destruct Hs1 as [_ Hs1]. rewrite <- app_assoc, Etr in Hs1. change (t :: r') with ([t] ++ r') in Hs1.
    rewrite app_assoc in Hs1. by apply bytes_at_app in Hs1 as [? _]. }
  rewrite (stM_bind_Done _ _ _ _ _ (copy_word_ok (S f) w' args1 t s1
    ltac:(cbn [a_mem s1 set_mem]; apply (bytes_at_frame (a_mem s)); [exact Hbw|]; intros a Ha; rewrite length_app in Ha; cbn [length] in Ha; apply Em1; unfold args1 in *; lia)
    Hw Htb Ht
    ltac:(cbn [a_mem s1 set_mem copy_ptr]; apply writable_put, (writable_weaken _ _ _ _ _ Hwc); lia)
    ltac:(cbn [s1 set_mem copy_ptr]; unfold args1; lia) ltac:(lia))).
  change (copy_ptr s1) with (copy_ptr s). change (a_mem s1) with m1. set (m2 := put_bytes (copy_ptr s) w' m1).
  set (s2 := set_copy_ptr _ _). change 0 with (s8 0) at 1.
  rewrite put_copy_ok; [|cbn [a_mem s2 set_copy_ptr set_mem copy_ptr]; apply (writable_put _ _ _ (copy_ptr s) k); [by apply (writable_put argv)|lia]|done].
  cbn [a_mem s2 set_copy_ptr set_mem copy_ptr]. set (cp := copy_ptr s + Z.of_nat (length w') + 1).
  replace (copy_ptr s + Z.of_nat (length w') + 1) with cp by done. set (m3 := <[_ := 0]> m2). set (s3 := set_copy_ptr cp _).
  assert (m3 = put_bytes (copy_ptr s) (w' ++ [0]) m1) as Em3 by (by rewrite put_bytes_app).
  assert (∀ a, a < copy_ptr s ∨ cp ≤ a → m3 !! a = m1 !! a) as Em3'.
  { intros a Ha. rewrite Em3, lookup_put_bytes, length_app, decide_False; [done|]. cbn [length]. unfold cp in *. lia. }
  set (args2 := args1 + Z.of_nat (length w')).
  assert (str_at (a_mem s) args2 r) as Hs2.
  { apply (str_at_drop _ _ _ (length w')) in Hs1; [|rewrite length_app; lia]. by rewrite drop_app_length in Hs1. }
  pose proof (IH r args2 (argv + 8) s3) as IH'. cbv zeta in IH'. fold k' n' in IH'. cbn [a_mem s3 set_copy_ptr set_mem copy_ptr] in IH'.
  destruct IH' as (s' & E & Hb1 & Hb2 & Es & Hfr).
  - apply (str_at_frame (a_mem s)); [done|]. intros a Ha. rewrite Em3', Em1 by (unfold args2, args1, cp in *; lia). done.
  - subst w'. cbn [length] in *. lia.
  - rewrite Em3. apply writable_put, writable_put. apply (writable_weaken _ _ _ _ _ Hwc); unfold cp; lia.
  - rewrite Em3. apply writable_put, writable_put. apply (writable_weaken _ _ _ _ _ Hwa); lia.
  - unfold apart, args2, args1, cp in *. lia.
  - unfold apart, args2, args1 in *. lia.
  - unfold apart, cp in *. lia.
  - exists s'. split; [rewrite E; do 2 f_equal; lia|]. rewrite Ews, packed_cons. cbn [word_ptrs]. fold cp.
    unfold ptr_array in *. cbn [fmap list_fmap concat]. split; [|split; [|split]].
    + change (w' ++ 0 :: packed (words r)) with (w' ++ [0] ++ packed (words r)). rewrite app_assoc. apply bytes_at_app. split.
      * apply (bytes_at_frame m3); [rewrite Em3; apply bytes_at_put|]. rewrite length_app. cbn [length]. intros a Ha. apply Hfr; unfold cp; lia.
      * rewrite length_app. cbn [length]. replace (copy_ptr s + Z.of_nat (length w' + 1)) with cp by (unfold cp; lia). done.
    + apply bytes_at_app. rewrite le_bytes_length. split; [|exact Hb2].
      apply (bytes_at_frame m1); [apply bytes_at_put|]. rewrite le_bytes_length. intros a Ha. rewrite Hfr, Em3' by (unfold cp in *; lia). done.
    + etransitivity; [exact Es|]. unfold set_copy_ptr, set_mem. cbn [a_mem __argc __args copy_ptr argv_log s3 s2 s1]. f_equal. unfold cp. lia.
    + intros a Ha Ha'. rewrite Hfr, Em3', Em1 by (unfold cp in *; lia). done.
Qed.

Lemma cstring_words text : cstring text → Forall cstring (words text).
Proof.
  assert (∀ l cur, cstring cur → cstring l → Forall cstring (words_from cur l)) as H.
  { induction l as [|c l IH]; intros cur Hc Hl; cbn [words_from].
    - destruct cur; [constructor|constructor; [done|constructor]].
    - apply Forall_cons in Hl as [Hc0 Hl]. destruct (isblank c).
      + apply Forall_app. split; [destruct cur; [constructor|constructor; [done|constructor]]|]. apply IH; [constructor|done].
      + apply IH; [|done]. apply Forall_app. split; [done|]. apply Forall_singleton. lia. }
  intros Ht. apply H; [constructor|done].
Qed.
(** Each word through its pointer. *)
Lemma arg_lookup m : ∀ ws cp argv k w,
  bytes_at m cp (packed ws) → bytes_at m argv (ptr_array (word_ptrs cp ws)) → Forall cstring ws →
  0 ≤ cp → cp + Z.of_nat (length (packed ws)) ≤ 2 ^ 64 → ws !! k = Some w →
  ∃ q, ldp m (argv + 8 * Z.of_nat k) = Done q ∧ str_at m q w.
Proof.
  induction ws as [|x ws IH]; intros cp argv k w Hb Ha Hc H0 Hl Hk; [done|].
  apply Forall_cons in Hc as [Hx Hc]. unfold ptr_array in *. rewrite packed_cons in *. cbn [word_ptrs fmap list_fmap concat] in Ha.
  change (x ++ 0 :: packed ws) with (x ++ [0] ++ packed ws) in *. rewrite app_assoc in *.
  apply bytes_at_app in Hb as [Hb1 Hb2], Ha as [Ha1 Ha2]. rewrite le_bytes_length, !length_app in *. cbn [length] in *.
  destruct k as [|k].
  - injection Hk as <-. exists cp. split; [|by split]. rewrite Z.add_0_r. apply ld_le_bytes; [|done]. change (256 ^ Z.of_nat 8) with (2 ^ 64). lia.
  - destruct (IH (cp + Z.of_nat (length x) + 1) (argv + 8) k w) as (q & E & Hs); [|done|done|lia|lia|done|].
    + by replace (cp + Z.of_nat (length x) + 1) with (cp + Z.of_nat (length x + 1)) by lia.
    + exists q. split; [|done]. by replace (argv + 8 * Z.of_nat (S k)) with (argv + 8 + 8 * Z.of_nat k) by lia.
Qed.
Lemma vars_len p ls : Forall (λ v, Z.of_nat (length v.2) < text_len ls) (vars_from p ls).
Proof.
  revert p. induction ls as [|l ls IH]; intros p; cbn [vars_from text_len]; [constructor|]. pose proof (text_len_nonneg ls).
  apply Forall_app. split; [destruct (env_var l); repeat constructor; cbn; lia|]. eapply Forall_impl; [apply IH|]. cbn. lia.
Qed.

(** ** The properties *)
(** [__setup_args] splits the command line at blanks: entry [__argc + k] of [__argv]
    points to a copy of its [k]-th word, [__argc] counts them all, and only the array
    and the copies are written. *)
Theorem setup_args_correct __argv fuel text s :
  let ws := words text in let k := Z.of_nat (length (packed ws)) in
  let argv := __argv + 8 * __argc s in let n := 8 * Z.of_nat (length ws) in
  str_at (a_mem s) (__args s) text → (length text < fuel)%nat →
  writable (a_mem s) (copy_ptr s) k → writable (a_mem s) argv n → 0 ≤ copy_ptr s → copy_ptr s + k ≤ 2 ^ 64 →
  apart (__args s) (Z.of_nat (length text) + 1) (copy_ptr s) k →
  apart (__args s) (Z.of_nat (length text) + 1) argv n → apart argv n (copy_ptr s) k →
  0 ≤ __argc s → __argc s + Z.of_nat (length ws) < 2 ^ 31 →
  ∃ s', __setup_args __argv fuel s = Done (tt, s') ∧ __argc s' = __argc s + Z.of_nat (length ws) ∧
    (∀ i w, ws !! i = Some w →
      ∃ q, ldp (a_mem s') (__argv + 8 * (__argc s + Z.of_nat i)) = Done q ∧ str_at (a_mem s') q w) ∧
    copy_ptr s' = copy_ptr s + k ∧ argv_log s' = argv_log s ∧
    ∀ a, a < copy_ptr s ∨ copy_ptr s + k ≤ a → a < argv ∨ argv + n ≤ a → a_mem s' !! a = a_mem s !! a.
Proof.
  intros ws k argv n Hs Hf Hwc Hwa H0 Hl D1 D2 D3 Hc Hlt.
  destruct (args_loop_ok fuel text (__args s) argv s Hs Hf Hwc Hwa D1 D2 D3) as (s1 & E & Hb1 & Hb2 & Es & Hfr).
  exists (set_argc (__argc s + Z.of_nat (length ws)) s1). split.
  - unfold __setup_args. mrun. fold argv. rewrite (stM_bind_Done _ _ _ _ _ E). unfold modify. do 2 f_equal.
    fold ws. replace (argv + 8 * Z.of_nat (length ws) - __argv) with ((__argc s + Z.of_nat (length ws)) * 8) by (unfold argv; lia).
    rewrite Z.div_mul, s32_small by lia. done.
  - split; [done|]. split; [|split; [by rewrite Es|split; [by rewrite Es|exact Hfr]]]. intros i w Hi.
    destruct (arg_lookup (a_mem s1) ws (copy_ptr s) argv i w) as (q & Eq & Hq); try done.
    { apply cstring_words, Hs. }
    exists q. split; [|done]. rewrite <- Eq. cbn [a_mem set_argc]. f_equal. unfold argv. lia.
Qed.

(** [setup_env] of a file of variables points the entries of [__environ], in order, to
    the lines [NAME=value], ended by a null character each; it skips comments and empty
    lines and reports every other line. [getenv] then finds the value of each; memory is
    changed only in the file and the array. *)
Lemma setup_env_ok __environ fuel env text s :
  let vars := vars_from env (lines text) in let n := Z.of_nat (length vars) in
  str_at (a_mem s) env text → (length text + 2 < fuel)%nat → 0 < env → env + Z.of_nat (length text) < 2 ^ 64 →
  n < 200 → (∀ a, __environ ≤ a < __environ + 8 * (n + 1) → a_mem s !! a = Some 0) →
  apart env (Z.of_nat (length text) + 1) __environ (8 * (n + 1)) →
  ∃ s', setup_env __environ fuel env (Z.of_nat (length text)) s = Done (tt, s') ∧
    env_at (a_mem s') __environ vars ∧
    argv_log s' = reverse (bad_entry <$> bad_lines (lines text)) ++ argv_log s ∧
    (∀ a, a < env ∨ env + Z.of_nat (length text) < a → a < __environ ∨ __environ + 8 * n ≤ a → a_mem s' !! a = a_mem s !! a) ∧
    ∀ fuel' name q, str_at (a_mem s') q name → (length name + length text + length vars < fuel')%nat →
      getenv fuel' (a_mem s') __environ q = Done (env_lookup name vars).
Proof.
  intros vars n Hs Hf H0 Hl Hn Hnull Hd. unfold apart in Hd. pose proof (text_len_lines text) as Etl.
  pose proof (env_loop_ok __environ fuel (lines text) env 0 s) as Hloop. cbv zeta in Hloop. fold vars n in Hloop. rewrite Etl in Hloop.
  replace (env + (Z.of_nat (length text) + 1) - 1) with (env + Z.of_nat (length text)) in Hloop by lia.
  rewrite !Z.mul_0_r, !Z.add_0_r, !Z.add_0_l in Hloop.
  destruct Hloop as (s' & E & He & Es & Hfr); try done; try lia.
  { by apply lines_at_text. }
  { intros a Ha. apply Hnull. lia. }
  exists s'. split.
  { unfold setup_env. erewrite bind_args_mem by (apply (strcat_end_ok _ _ _ _ Hs); lia). by rewrite Z.eqb_refl. }
  split; [done|]. split; [by rewrite Es|]. split; [done|]. intros fuel' name q Hq Hf'. unfold getenv.
  apply getenv_loop_ok; [done|done|lia|lia|]. eapply Forall_impl; [apply vars_len|]. cbn. intros v. rewrite Etl. lia.
Qed.

(** ** A concrete memory *)
Definition demo_text : list Z := chars "# options" ++ [10] ++ chars "MEM=64" ++ [10; 10] ++ chars "9=1" ++ [10] ++ chars "CPU=x" ++ [10].
Definition demo_args : argvs :=
  Argvs (put_bytes 0x1000 (demo_text ++ [0]) (put_bytes 0x2000 (cstr " a  bc ") (put_bytes 0x3000 (replicate 80 0)
    (put_bytes 0x4000 (replicate 80 0) (put_bytes 0x5000 (replicate 20 7) (put_bytes 0x6000 (cstr "CPU") ∅))))))
    1 0x2000 0x5000 [].

Lemma setup_args_correct_witness :
  ∃ s', __setup_args 0x4000 10 demo_args = Done (tt, s') ∧ __argc s' = 3 ∧
    ∃ q, ldp (a_mem s') 0x4010 = Done q ∧ str_at (a_mem s') q (chars "bc").
Proof.
  destruct (setup_args_correct 0x4000 10 (chars " a  bc ") demo_args) as (s' & E & Ec & Ha & _).
  - apply str_at_bool. by vm_compute.
  - by vm_compute; lia.
  - apply (writable_bool _ _ 5). by vm_compute.
  - apply (writable_bool _ _ 16). by vm_compute.
  - done.
  - by vm_compute.
  - left. by vm_compute.
  - left. by vm_compute.
  - left. by vm_compute.
  - done.
  - by vm_compute.
  - exists s'. split; [exact E|]. split; [exact Ec|]. exact (Ha 1%nat (chars "bc") eq_refl).
Defined.
