(* ===== verification/Isr.v ===== *)
(** Interrupt service routines: lib/x86/isr.c for x86_64.

    [handle_irq] writes a piece of machine code and points a gate of the IDT (Desc.v)
    at it; [isr] is that state, with the allocator of Alloc.v and the byte memory the
    code is written to.  [exec] is the part of the processor that runs the code.  The
    assembly routine [isr_entry_point], which calls the function whose address it finds
    on the stack, is an address. *)
From Stdlib Require Import ZArith Lia Bool.
From S2P Require Import Prelude Libcflat Bitfield Bytes Alloc.
From S2P Require Desc VmxDefs.
#[local] Open Scope Z_scope.

Import VmxDefs(KERNEL_CS, KERNEL_DS).

Record isr (A : Type) := Isr { is_desc : Desc.desc; is_heap : A * bmem }.
Arguments Isr {A}. Arguments is_desc {A}. Arguments is_heap {A}.

Section code.
Context {A : Type} (ops : alloc_ops A) (im : Desc.image) (isr_entry_point : Z).
Abbreviation M := (stM (isr A)).
Definition on_desc {B} (f : stM Desc.desc B) : M B := zoom is_desc (λ d s, Isr d (is_heap s)) f.
Definition on_heap {B} (f : stM (A * bmem) B) : M B := zoom is_heap (λ h s, Isr (is_desc s) h) f.
(** [*thunk++ = b], and [*(u32 * )thunk = v; thunk += 4] *)
Definition put (n : nat) (thunk v : Z) : M Z :=
  on_heap (λ '(a, m), m ← st_bytes thunk (le_bytes n v) m; mret (tt, (a, m)));; mret (u64 (thunk + Z.of_nat n)).
Definition put8 := put 1.
Definition put32 := put 4.

Definition handle_irq (vec func : Z) : M unit :=
  thunk ← on_heap (malloc ops 50);
  on_desc (Desc.set_idt_entry im vec thunk 0);;
  thunk ← put8 thunk 0x48; thunk ← put8 thunk 0x83; thunk ← put8 thunk 0xec; thunk ← put8 thunk 0x08;
  thunk ← put8 thunk 0xc7; thunk ← put8 thunk 0x04; thunk ← put8 thunk 0x24;
  thunk ← put32 thunk (u32 func);
  thunk ← put8 thunk 0xc7; thunk ← put8 thunk 0x44; thunk ← put8 thunk 0x24; thunk ← put8 thunk 0x04;
  thunk ← put32 thunk (u32 (Z.shiftr func 32));
  thunk ← put8 thunk 0xe9;
  _ ← put32 thunk (u32 (u64 (isr_entry_point - u64 (thunk + 4))));
  mret tt.

(** The words [handle_external_interrupt] pushes, last one first, the stack pointer
    then, and the address it calls. *)
Definition handle_external_interrupt (vector rsp flags : Z) : M (Z * Z * list Z) :=
  idt ← on_desc (gets Desc.boot_idt);
  e ← lift (arr_get idt vector);
  let entry := Z.lor (getf Desc.Idt.offset0 e) (Z.shiftl (getf Desc.Idt.offset1 e) 16) in
  let entry := Z.lor entry (Z.shiftl (getf Desc.Idt.offset2 e) 32) in
  let sp := rsp in
  let rsp := Z.land rsp 0xfffffffffffffff0 in
  mret (entry, rsp - 32, [KERNEL_CS; Z.lor flags 0x200; sp; KERNEL_DS]).
End code.

(** ** The processor *)
(** A store of a register or immediate to the stack. *)
Definition push_at (p n v : Z) (m : bmem) : option bmem :=
  match st_bytes p (le_bytes (Z.to_nat n) v) m with Done m => Some m | _ => None end.
Definition fetch (n : nat) (m : bmem) (p : Z) : option Z := match ld_le n m p with Done v => Some v | _ => None end.
(** One of the instructions [sub $ib, %rsp], [movl $id, (%rsp)], [movl $id, ib(%rsp)], [jmp rel32]. *)
Definition exec1 (m : bmem) (rip rsp : Z) : option (bmem * Z * Z) :=
  o ← fetch 1 m rip;
  if o =? 0x48 then
    w ← fetch 2 m (rip + 1);
    if w =? 0xec83 then i ← fetch 1 m (rip + 3); Some (m, rip + 4, rsp - s8 i) else None
  else if o =? 0xc7 then
    w ← fetch 2 m (rip + 1);
    if w =? 0x2404 then i ← fetch 4 m (rip + 3); m ← push_at rsp 4 i m; Some (m, rip + 7, rsp)
    else if w =? 0x2444 then
      d ← fetch 1 m (rip + 3); i ← fetch 4 m (rip + 4); m ← push_at (rsp + s8 d) 4 i m; Some (m, rip + 8, rsp)
    else None
  else if o =? 0xe9 then r ← fetch 4 m (rip + 1); Some (m, u64 (rip + 5 + s32 r), rsp)
  else None.
Fixpoint exec (n : nat) (m : bmem) (rip rsp : Z) : option (bmem * Z * Z) :=
  match n with O => Some (m, rip, rsp) | S n => '(m, rip, rsp) ← exec1 m rip rsp; exec n m rip rsp end.

(** ** Lemmas *)
(** The code of the thunk at [p]. *)
Definition thunk_code (p func entry : Z) : list Z :=
  [0x48; 0x83; 0xec; 0x08] ++ [0xc7; 0x04; 0x24] ++ le_bytes 4 (u32 func) ++
  [0xc7; 0x44; 0x24; 0x04] ++ le_bytes 4 (u32 (Z.shiftr func 32)) ++ [0xe9] ++ le_bytes 4 (u32 (u64 (entry - u64 (p + 24)))).
Lemma thunk_code_length p func entry : length (thunk_code p func entry) = 24%nat.
Proof. done. Qed.

Section proofs.
Context {A : Type} (ops : alloc_ops A) (im : Desc.image) (isr_entry_point : Z).
Implicit Types s : isr A.

Lemma put_ok {B} n p v (g : Z → stM (isr A) B) d a m l base :
  p = base + Z.of_nat (length l) → 0 ≤ base → writable m p (Z.of_nat n) → p + Z.of_nat n < 2 ^ 64 →
  (put n p v ≫= g) (Isr d (a, put_bytes base l m)) = g (p + Z.of_nat n) (Isr d (a, put_bytes base (l ++ le_bytes n v) m)).
Proof.
  intros -> H0 Hw Hl. unfold put. rewrite stM_bind_assoc. erewrite stM_bind_Done.
  2:{ unfold on_heap, zoom. cbn [is_heap]. rewrite st_bytes_ok; [reflexivity|apply le_bytes_byte|]. rewrite le_bytes_length. by apply writable_put. }
  rewrite bind_mret, u64_small by (unfold in_u64; lia). cbn [is_desc]. by rewrite put_bytes_app.
Qed.

Lemma handle_irq_ok vec func thunk d a m a' m' :
  malloc ops 50 (a, m) = Done (thunk, (a', m')) → writable m' thunk 50 → 0 ≤ thunk → thunk + 50 < 2 ^ 64 →
  0 ≤ vec < Z.of_nat (length (Desc.boot_idt d)) →
  handle_irq ops im isr_entry_point vec func (Isr d (a, m)) =
    Done (tt, Isr (Desc.set_boot_idt (<[Z.to_nat vec := Desc.gate im thunk 0]> (Desc.boot_idt d)) d)
      (a', put_bytes thunk (thunk_code thunk func isr_entry_point) m')).
Proof.
  intros E Hw H0 Hl Hv. unfold handle_irq. erewrite stM_bind_Done by (unfold on_heap, zoom; cbn [is_heap]; rewrite E; reflexivity).
  erewrite stM_bind_Done by (unfold on_desc, zoom; cbn [is_desc]; rewrite Desc.set_idt_entry_ok by done; reflexivity).
  cbn [is_heap is_desc]. change m' with (put_bytes thunk [] m') at 1. unfold put8, put32.
  do 15 (erewrite (put_ok _ _ _ _ _ _ m' _ thunk); [|cbn [length app le_bytes]; lia|done|apply (writable_weaken _ _ _ _ _ Hw); lia|lia]).
  unfold mret, stM_ret. do 3 f_equal. f_equal. unfold thunk_code. cbn [le_bytes app].
  repeat (f_equal; try lia).
Qed.
End proofs.

(** ** Running the thunk *)
Lemma fetch_at n k m p c v :
  bytes_at m p c → take n (drop k c) = le_bytes n v → 0 ≤ v < 256 ^ Z.of_nat n → fetch n m (p + Z.of_nat k) = Some v.
Proof.
  intros Hc E Hv. unfold fetch. rewrite (ld_le_bytes n m _ v); [done..|]. rewrite <- E.
  assert (k ≤ length c ∨ n = 0)%nat as [Hk| ->]; [|..].
  { destruct (decide (k ≤ length c)%nat); [by left|right]. rewrite drop_ge, take_nil in E by lia. apply (f_equal length) in E.
    rewrite le_bytes_length in E. done. }
  - rewrite <- (take_drop k c) in Hc. apply bytes_at_app in Hc as [_ Hc]. rewrite length_take_le in Hc by done.
    rewrite <- (take_drop n (drop k c)) in Hc. by apply bytes_at_app in Hc as [? _].
  - done.
Qed.
Lemma le_bytes_add n k v : le_bytes (n + k) v = le_bytes n v ++ le_bytes k (v / 256 ^ Z.of_nat n).
Proof.
  revert v. induction n as [|n IH]; intros v; cbn [Nat.add le_bytes app]; [by rewrite Z.div_1_r|].
  rewrite IH. do 2 f_equal. rewrite Z.div_div by lia. by rewrite Nat2Z.inj_succ, Z.pow_succ_r by lia.
Qed.
Lemma le_bytes_mod n v : le_bytes n (v mod 256 ^ Z.of_nat n) = le_bytes n v.
Proof.
  revert v. induction n as [|n IH]; intros v; [done|]. cbn [le_bytes]. rewrite Nat2Z.inj_succ, Z.pow_succ_r by lia.
  pose proof (Z.pow_pos_nonneg 256 (Z.of_nat n)). rewrite Z.rem_mul_r by lia. f_equal.
  - rewrite Z.mul_comm, Z.mod_add, Z.mod_mod by lia. done.
  - rewrite <- (IH (v / 256)). f_equal. rewrite (Z.mul_comm 256), Z.div_add, Z.div_small by (try apply Z.mod_pos_bound; lia). done.
Qed.
Lemma push_at_ok p n v m : writable m p (Z.of_nat n) → push_at p (Z.of_nat n) v m = Some (put_bytes p (le_bytes n v) m).
Proof. intros Hw. unfold push_at. rewrite Nat2Z.id, st_bytes_ok; [done|apply le_bytes_byte|by rewrite le_bytes_length]. Qed.

(** One lemma per instruction: what the fetched bytes do. *)
Lemma exec1_sub m p rsp i :
  fetch 1 m p = Some 0x48 → fetch 2 m (p + 1) = Some 0xec83 → fetch 1 m (p + 3) = Some i → exec1 m p rsp = Some (m, p + 4, rsp - s8 i).
Proof. intros E1 E2 E3. unfold exec1. by rewrite E1; cbn [mbind option_bind]; rewrite E2; cbn [mbind option_bind]; rewrite E3. Qed.
Lemma exec1_mov m p rsp i m' :
  fetch 1 m p = Some 0xc7 → fetch 2 m (p + 1) = Some 0x2404 → fetch 4 m (p + 3) = Some i → push_at rsp 4 i m = Some m' →
  exec1 m p rsp = Some (m', p + 7, rsp).
Proof. intros E1 E2 E3 E4. unfold exec1. by rewrite E1; cbn [mbind option_bind]; rewrite E2; cbn [mbind option_bind]; rewrite E3; cbn; rewrite E4. Qed.
Lemma exec1_movd m p rsp b i m' :
  fetch 1 m p = Some 0xc7 → fetch 2 m (p + 1) = Some 0x2444 → fetch 1 m (p + 3) = Some b → fetch 4 m (p + 4) = Some i →
  push_at (rsp + s8 b) 4 i m = Some m' → exec1 m p rsp = Some (m', p + 8, rsp).
Proof.
  intros E1 E2 E3 E4 E5. unfold exec1. by rewrite E1; cbn [mbind option_bind]; rewrite E2; cbn [mbind option_bind]; rewrite E3; cbn;
    rewrite E4; cbn; rewrite E5.
Qed.
Lemma exec1_jmp m p rsp r :
  fetch 1 m p = Some 0xe9 → fetch 4 m (p + 1) = Some r → exec1 m p rsp = Some (m, u64 (p + 5 + s32 r), rsp).
Proof. intros E1 E2. unfold exec1. by rewrite E1; cbn [mbind option_bind]; rewrite E2. Qed.
Lemma exec_S n m p rsp m' p' rsp' : exec1 m p rsp = Some (m', p', rsp') → exec (S n) m p rsp = exec n m' p' rsp'.
Proof. intros E. cbn [exec]. by rewrite E. Qed.

(** The truncated displacement of the jump is the distance, when it fits. *)
Lemma s32_near x : - 2 ^ 31 ≤ s64 x < 2 ^ 31 → s32 (u32 (u64 x)) = s64 x.
Proof.
  intros Hx.
  assert (s64 x = s32 (s64 x)) as E by (symmetry; apply s32_small; lia).
  rewrite E. unfold s32, s64, u32, u64, signed in *. 
  assert (∀ q, (x - q * 2 ^ 64) mod 2 ^ 32 = x mod 2 ^ 32) as H.
  { intros q. replace (x - q * 2 ^ 64) with (x + - q * 2 ^ 32 * 2 ^ 32) by lia. by rewrite Z.mod_add by lia. }
  pose proof (Z.div_mod x (2 ^ 64) ltac:(lia)) as D.
  assert (x mod 2 ^ 64 = x - x / 2 ^ 64 * 2 ^ 64) as D1 by lia.
  assert (x mod 2 ^ 64 - 2 ^ 64 = x - (x / 2 ^ 64 + 1) * 2 ^ 64) as D2 by lia.
  rewrite Z.mod_mod by lia. rewrite D2, D1, !H. destruct (x - x / 2 ^ 64 * 2 ^ 64 <? 2 ^ (64 - 1)); by rewrite ?D1, ?H.
Qed.
Lemma u64_jump p entry : in_u64 entry → u64 (p + s64 (entry - p)) = entry.
Proof.
  intros He. rewrite <- (u64_small entry He) at 2. set (x := entry - p).
  assert (∃ q, s64 x = x + q * 2 ^ 64) as [q ->].
  { unfold s64, signed. pose proof (Z.div_mod x (2 ^ 64) ltac:(lia)).
    destruct (_ <? _); [exists (- (x / 2 ^ 64))|exists (- (x / 2 ^ 64) - 1)]; lia. }
  unfold u64, x. replace (p + (entry - p + q * 2 ^ 64)) with (entry + q * 2 ^ 64) by lia. by rewrite Z.mod_add by lia.
Qed.

(** The thunk pushes [func] and goes to [entry]; the stack and the code are apart, and
    [entry] is within 2G of the code. *)
Lemma thunk_runs p func entry rsp m :
  bytes_at m p (thunk_code p func entry) → writable m (rsp - 8) 8 → rsp ≤ p ∨ p + 24 ≤ rsp - 8 →
  0 ≤ p → p + 24 < 2 ^ 64 → in_u64 func → in_u64 entry → - 2 ^ 31 ≤ s64 (entry - (p + 24)) < 2 ^ 31 →
  exec 4 m p rsp = Some (put_bytes (rsp - 8) (le_bytes 8 func) m, entry, rsp - 8).
Proof.
  intros Hc Hw Hd H0 Hl Hf He Hnear.
  assert (∀ l q, rsp - 8 ≤ q → q + Z.of_nat (length l) ≤ rsp → bytes_at (put_bytes q l m) p (thunk_code p func entry)) as Hkeep.
  { intros l q Hq1 Hq2. apply bytes_at_put_frame; [done|]. rewrite thunk_code_length. lia. }
  set (c := thunk_code p func entry) in *.
  pose proof (λ n k m, fetch_at n k m p c) as F.
  assert (fetch 1 m p = Some 0x48) as E0 by (rewrite <- (Z.add_0_r p); by apply (F 1%nat 0%nat)).
  rewrite (exec_S _ _ _ _ _ _ _ (exec1_sub m p rsp 8 E0 (F 2%nat 1%nat m 0xec83 Hc eq_refl ltac:(lia)) (F 1%nat 3%nat m 8 Hc eq_refl ltac:(lia)))).
  change (s8 8) with 8. set (m1 := put_bytes (rsp - 8) (le_bytes 4 (u32 func)) m).
  assert (bytes_at m1 p c) as Hc1 by (apply Hkeep; rewrite ?le_bytes_length; lia).
  assert (push_at (rsp - 8) 4 (u32 func) m = Some m1) as P1 by (apply (push_at_ok _ 4), (writable_weaken _ _ _ _ _ Hw); lia).
  rewrite (exec_S _ _ (p + 4) _ _ _ _ (exec1_mov m (p + Z.of_nat 4) (rsp - 8) (u32 func) m1 (F 1%nat 4%nat m 0xc7 Hc eq_refl ltac:(lia))
    ltac:(rewrite <- Z.add_assoc; exact (F 2%nat 5%nat m 0x2404 Hc eq_refl ltac:(lia)))
    ltac:(rewrite <- Z.add_assoc; exact (F 4%nat 7%nat m (u32 func) Hc eq_refl (u32_range _))) P1)).
  set (m2 := put_bytes (rsp - 8) (le_bytes 8 func) m).
  assert (bytes_at m2 p c) as Hc2 by (apply Hkeep; rewrite ?le_bytes_length; lia).
  assert (push_at (rsp - 8 + s8 4) 4 (u32 (Z.shiftr func 32)) m1 = Some m2) as P2.
  { change (s8 4) with (Z.of_nat 4). rewrite (push_at_ok _ 4) by (apply writable_put, (writable_weaken _ _ _ _ _ Hw); lia).
    unfold m1, m2, u32. rewrite (le_bytes_add 4 4), put_bytes_app, le_bytes_length, (le_bytes_mod 4), (le_bytes_mod 4), Z.shiftr_div_pow2 by lia. done. }
  replace (p + Z.of_nat 4 + 7) with (p + Z.of_nat 11) by lia.
  rewrite (exec_S _ _ _ _ _ _ _ (exec1_movd m1 (p + Z.of_nat 11) (rsp - 8) 4 _ m2 (F 1%nat 11%nat m1 0xc7 Hc1 eq_refl ltac:(lia))
    ltac:(rewrite <- Z.add_assoc; exact (F 2%nat 12%nat m1 0x2444 Hc1 eq_refl ltac:(lia)))
    ltac:(rewrite <- Z.add_assoc; exact (F 1%nat 14%nat m1 4 Hc1 eq_refl ltac:(lia)))
    ltac:(rewrite <- Z.add_assoc; exact (F 4%nat 15%nat m1 (u32 (Z.shiftr func 32)) Hc1 eq_refl (u32_range _))) P2)).
  replace (p + Z.of_nat 11 + 8) with (p + Z.of_nat 19) by lia.
  rewrite (exec_S _ _ _ _ _ _ _ (exec1_jmp m2 (p + Z.of_nat 19) (rsp - 8) _ (F 1%nat 19%nat m2 0xe9 Hc2 eq_refl ltac:(lia))
    ltac:(rewrite <- Z.add_assoc; exact (F 4%nat 20%nat m2 (u32 (u64 (entry - u64 (p + 24)))) Hc2 eq_refl (u32_range _))))).
  cbn [exec]. rewrite (u64_small (p + 24)), s32_near by (done || unfold in_u64; lia).
  replace (p + Z.of_nat 19 + 5) with (p + 24) by lia. by rewrite u64_jump.
Qed.

Lemma handle_external_interrupt_ok {A} vec rsp flags (s : isr A) e :
  0 ≤ vec → Desc.boot_idt (is_desc s) !! Z.to_nat vec = Some e →
  handle_external_interrupt vec rsp flags s =
    Done (Desc.get_idt_addr e, Z.land rsp 0xfffffffffffffff0 - 32, [KERNEL_CS; Z.lor flags 0x200; rsp; KERNEL_DS], s).
Proof.
  intros Hv E. destruct s as [d h]. unfold handle_external_interrupt.
  rewrite (stM_bind_Done _ _ _ (Desc.boot_idt d) (Isr d h)) by done.
  rewrite (arr_get_ok _ _ e) by done. by rewrite bind_lift_Done.
Qed.

(** ** The property *)
(** C31: After [handle_irq] the gate of the vector leads to [func].  The address in the gate
    is that of the code in the new block; run from there, the processor pushes [func]
    and goes on at [isr_entry_point], where the function to call is expected on top of
    the stack.  [handle_external_interrupt] calls the same address with the frame an
    interrupt would have pushed: CS, the flags with interrupts on, the stack pointer
    and SS, on a stack aligned to 16 bytes. *)
Theorem handle_irq_correct {A} (ops : alloc_ops A) im isr_entry_point vec func thunk d a m a' m' rsp flags :
  malloc ops 50 (a, m) = Done (thunk, (a', m')) → writable m' thunk 50 → 0 ≤ thunk → thunk + 50 < 2 ^ 64 →
  0 ≤ vec < Z.of_nat (length (Desc.boot_idt d)) → in_u64 func → in_u64 isr_entry_point →
  - 2 ^ 31 ≤ s64 (isr_entry_point - (thunk + 24)) < 2 ^ 31 →
  writable m' (rsp - 8) 8 → rsp ≤ thunk ∨ thunk + 24 ≤ rsp - 8 →
  ∃ m1 d1, handle_irq ops im isr_entry_point vec func (Isr d (a, m)) = Done (tt, Isr d1 (a', m1)) ∧
    (∃ e, Desc.boot_idt d1 !! Z.to_nat vec = Some e ∧ Desc.get_idt_addr e = thunk ∧ getf Desc.Idt.p e = 1) ∧
    exec 4 m1 thunk rsp = Some (put_bytes (rsp - 8) (le_bytes 8 func) m1, isr_entry_point, rsp - 8) ∧
    ∃ top frame, handle_external_interrupt (A := A) vec rsp flags (Isr d1 (a', m1)) = Done (thunk, top, frame, Isr d1 (a', m1)) ∧
      frame = [KERNEL_CS; Z.lor flags 0x200; rsp; KERNEL_DS] ∧ top = Z.land rsp 0xfffffffffffffff0 - 8 * Z.of_nat (length frame).
Proof.
  intros E Hw H0 Hl Hv Hf He Hnear Hst Hd.
  set (d1 := Desc.set_boot_idt (<[Z.to_nat vec := Desc.gate im thunk 0]> (Desc.boot_idt d)) d).
  set (m1 := put_bytes thunk (thunk_code thunk func isr_entry_point) m').
  destruct (Desc.gate_fields im thunk 0) as (Ea & _ & _ & _ & _ & Ep & _). rewrite Z.mod_small in Ea by lia.
  assert (Desc.boot_idt d1 !! Z.to_nat vec = Some (Desc.gate im thunk 0)) as Eg.
  { cbn. apply list_lookup_insert_eq. lia. }
  exists m1, d1. split; [by apply handle_irq_ok|]. split; [by eexists|]. split.
  - apply thunk_runs; try done; try lia; [apply bytes_at_put|by apply writable_put].
  - eexists _, _. split; [|done]. rewrite (handle_external_interrupt_ok _ _ _ _ (Desc.gate im thunk 0)) by (done || lia). by rewrite Ea.
Qed.

(** ** The theorem at a concrete heap: code at 0x1010, a stack that ends at 0x8010, the
    entry 2G away at most. *)
Definition demo_heap : list (Z * Z) * bmem := ([], put_bytes 0x1000 (replicate 128 0) (put_bytes 0x8000 (replicate 16 0) ∅)).
Definition demo_thunk : Z * (list (Z * Z) * bmem) :=
  match malloc demo_ops 50 demo_heap with Done r => r | _ => (0, demo_heap) end.
Lemma demo_thunk_at : demo_thunk.1 = 0x1010 ∧ demo_thunk.2.1 = [].
Proof. split; by vm_compute. Qed.
Lemma demo_malloc : malloc demo_ops 50 demo_heap = Done (demo_thunk.1, (demo_thunk.2.1, demo_thunk.2.2)).
Proof. by vm_compute. Qed.
Lemma handle_irq_correct_witness :
  ∃ m1 d1, handle_irq demo_ops Desc.demo_image 0x400000 0x20 0x401234 (Isr Desc.demo_desc demo_heap) = Done (tt, Isr d1 ([], m1)) ∧
    exec 4 m1 0x1010 0x8010 = Some (put_bytes 0x8008 (le_bytes 8 0x401234) m1, 0x400000, 0x8008).
Proof.
  destruct (handle_irq_correct demo_ops Desc.demo_image 0x400000 0x20 0x401234 demo_thunk.1 Desc.demo_desc [] demo_heap.2
    demo_thunk.2.1 demo_thunk.2.2 0x8010 2) as (m1 & d1 & E & _ & Ex & _).
  - apply demo_malloc.
  - apply (writable_bool _ _ 50). by vm_compute.
  - by vm_compute.
  - by vm_compute.
  - done.
  - done.
  - done.
  - by vm_compute.
  - apply (writable_bool _ _ 8). by vm_compute.
  - right. by vm_compute.
  - exists m1, d1. destruct demo_thunk_at as [E1 E2]. rewrite E1 in Ex. rewrite E2 in E. split; [exact E|exact Ex].
Defined.
