(* ===== verification/Setup.v ===== *)
(** Machine setup: lib/x86/setup.c, the code between the assembly entry and
    [asor_entry].

    [setup] is what it works on: byte memory with the statics of argv.c (Argv.v),
    the physical allocator (AllocPhys.v) and the file's own statics.  [edata] is the
    end of the image, a symbol of the linker; [env] and [__environ] are the addresses
    of the arrays of that name.  The boot loader's structures are in byte memory. *)
From Stdlib Require Import ZArith Lia Bool.
From S2P Require Import Prelude Libcflat Spinlock AllocPhys Bytes CString Argv.
#[local] Open Scope Z_scope.

(** [struct mbi_bootinfo] and [struct mbi_module]: the offsets of the members used *)
Definition mbi_mem_upper : Z := 8.
Definition mbi_mods_count : Z := 20.
Definition mbi_mods_addr : Z := 24.
Definition mod_start : Z := 0.
Definition mod_end : Z := 4.
Definition ENV_SIZE : Z := 16384.

Record setup := Setup { su_args : argvs; su_phys : Phys.phys; initrd : Z; initrd_size : Z }.
Definition set_su_args (a : argvs) (s : setup) : setup := Setup a (su_phys s) (initrd s) (initrd_size s).
Definition set_su_phys (p : Phys.phys) (s : setup) : setup := Setup (su_args s) p (initrd s) (initrd_size s).
Definition set_initrd (x : Z) (s : setup) : setup := Setup (su_args s) (su_phys s) x (initrd_size s).
Definition set_initrd_size (x : Z) (s : setup) : setup := Setup (su_args s) (su_phys s) (initrd s) x.

Section code.
Context (edata env __environ : Z).
Abbreviation M := (stM setup).
Definition on_args {A} (m : stM argvs A) : M A := zoom su_args set_su_args m.
Definition ld32 (p : Z) : M Z := on_args (on_mem (λ m, ld_le 4 m p)).

Definition setup_multiboot (bootinfo : Z) : M unit :=
  mem_upper ← ld32 (bootinfo + mbi_mem_upper);
  let end_of_memory := u64 (mem_upper * 1024) in
  zoom su_phys set_su_phys (Phys.phys_alloc_init edata (u64 (end_of_memory - edata)));;
  mods_count ← ld32 (bootinfo + mbi_mods_count);
  if negb (mods_count =? 1) then mret tt
  else
    mods ← ld32 (bootinfo + mbi_mods_addr);
    start ← ld32 (mods + mod_start);
    modify (set_initrd start);;
    last ← ld32 (mods + mod_end);
    start ← ld32 (mods + mod_start);
    modify (set_initrd_size (u32 (last - start))).

Definition setup_libcflat (fuel : nat) : M unit :=
  p ← gets initrd;
  if p =? 0 then mret tt
  else
    n ← gets initrd_size;
    let size := c_MIN n ENV_SIZE in
    on_args (store (λ m, '(_, m) ← memcpy env p size m; mret m));;
    on_args (setup_env __environ fuel env size).
End code.

(** ** Lemmas *)
Lemma bind_on_args {A B} (m : stM argvs A) (g : A → stM setup B) s a t :
  m (su_args s) = Done (a, t) → (on_args m ≫= g) s = g a (set_su_args t s).
Proof. intros E. apply bind_zoom. exact E. Qed.
Lemma bind_setup_ld {B} p v (g : Z → stM setup B) s :
  in_u32 v → bytes_at (a_mem (su_args s)) p (le_bytes 4 v) → (ld32 p ≫= g) s = g v s.
Proof.
  intros Hv Hb. unfold ld32. erewrite bind_on_args.
  2:{ unfold on_mem. rewrite bind_get. unfold lift. by rewrite (ld_le_bytes 4 _ p v). }
  by destruct s.
Qed.

(** The boot loader's information: the kilobytes of upper memory and the modules. *)
Record boot_info (m : bmem) (bootinfo mem_upper mods_count mods start last : Z) : Prop := {
  bi_range : Forall in_u32 [mem_upper; mods_count; mods; start; last];
  bi_upper : bytes_at m (bootinfo + mbi_mem_upper) (le_bytes 4 mem_upper);
  bi_count : bytes_at m (bootinfo + mbi_mods_count) (le_bytes 4 mods_count);
  bi_mods : bytes_at m (bootinfo + mbi_mods_addr) (le_bytes 4 mods);
  bi_module : mods_count = 1 → bytes_at m (mods + mod_start) (le_bytes 4 start) ∧ bytes_at m (mods + mod_end) (le_bytes 4 last)
}.

(** All memory from the end of the image on goes to the physical allocator. *)
Definition phys_all (edata mem_upper : Z) (p : Phys.phys) : Phys.phys :=
  Phys.set_lock 0 (Phys.set_nr_regions 0 (Phys.set_top (u64 (edata + u64 (u64 (mem_upper * 1024) - edata))) (Phys.set_base edata (Phys.set_lock 1 p)))).
Lemma setup_multiboot_ok edata bootinfo mem_upper mods_count mods start last s :
  boot_info (a_mem (su_args s)) bootinfo mem_upper mods_count mods start last → Phys.lock (su_phys s) = 0 →
  setup_multiboot edata bootinfo s = Done (tt,
    let s := set_su_phys (phys_all edata mem_upper (su_phys s)) s in
    if mods_count =? 1 then set_initrd_size (u32 (last - start)) (set_initrd start s) else s).
Proof.
  intros [Hr Hu Hc Hm Hmod] Hl. rewrite !Forall_cons in Hr. destruct Hr as (R1 & R2 & R3 & R4 & R5 & _).
  unfold setup_multiboot. rewrite (bind_setup_ld _ mem_upper) by done.
  assert (Phys.phys_alloc_init edata (u64 (u64 (mem_upper * 1024) - edata)) (su_phys s) = Done (tt, phys_all edata mem_upper (su_phys s))) as E.
  { unfold Phys.phys_alloc_init, Phys.lock_phys, Phys.unlock_phys. mrun. rewrite Hl. reflexivity. }
  rewrite (bind_zoom _ _ _ _ _ _ _ E). rewrite (bind_setup_ld _ mods_count) by done.
  destruct (Z.eqb_spec mods_count 1) as [E1|]; cbn [negb]; [|done]. destruct (Hmod E1) as [Hs He].
  rewrite (bind_setup_ld _ mods), (bind_setup_ld _ start) by done. mrun. by rewrite (bind_setup_ld _ last), (bind_setup_ld _ start) by done.
Qed.
Lemma phys_all_bounds edata mem_upper p :
  0 ≤ edata ≤ mem_upper * 1024 → in_u32 mem_upper →
  Phys.base (phys_all edata mem_upper p) = edata ∧ Phys.top (phys_all edata mem_upper p) = mem_upper * 1024 ∧
  Phys.nr_regions (phys_all edata mem_upper p) = 0.
Proof.
  unfold in_u32. intros He Hm. cbn. split; [done|]. split; [|done]. rewrite (u64_small (mem_upper * 1024)), (u64_small (_ - _)), u64_small by (unfold in_u64; lia). lia.
Qed.

(** ** The properties *)
(** C14: From the boot loader to [getenv].  [setup_multiboot] gives the memory from the end of
    the image to the end of the upper memory to the physical allocator and finds the
    module, if there is just one; [setup_libcflat] copies it, a file of variables, to
    [env] and sets the environment up from it: [getenv] finds the value of every
    variable, invalid lines are reported, and memory outside of the two arrays is as
    the boot loader left it.  Without a module the environment stays empty. *)
Theorem setup_correct edata env __environ bootinfo mem_upper mods_count mods start text fuel s :
  let last := start + Z.of_nat (length text) in let vars := vars_from env (lines text) in let n := Z.of_nat (length vars) in
  boot_info (a_mem (su_args s)) bootinfo mem_upper mods_count mods start last →
  Phys.lock (su_phys s) = 0 → initrd s = 0 → 0 ≤ edata ≤ mem_upper * 1024 →
  str_at (a_mem (su_args s)) start text ∨ mods_count ≠ 1 → 0 < start → Z.of_nat (length text) < ENV_SIZE →
  0 < env → env + ENV_SIZE ≤ 2 ^ 64 → n < 200 → (length text + 2 < fuel)%nat →
  (∀ a, env ≤ a < env + ENV_SIZE → a_mem (su_args s) !! a = Some 0) →
  (∀ a, __environ ≤ a < __environ + 8 * (n + 1) → a_mem (su_args s) !! a = Some 0) →
  apart env ENV_SIZE __environ (8 * (n + 1)) → apart start (Z.of_nat (length text) + 1) env ENV_SIZE →
  ∃ s', (setup_multiboot edata bootinfo;; setup_libcflat env __environ fuel) s = Done (tt, s') ∧
    (Phys.base (su_phys s') = edata ∧ Phys.top (su_phys s') = mem_upper * 1024 ∧ Phys.nr_regions (su_phys s') = 0) ∧
    if mods_count =? 1 then
      env_at (a_mem (su_args s')) __environ vars ∧
      argv_log (su_args s') = reverse (bad_entry <$> bad_lines (lines text)) ++ argv_log (su_args s) ∧
      (∀ a, a < env ∨ env + ENV_SIZE ≤ a → a < __environ ∨ __environ + 8 * n ≤ a →
        a_mem (su_args s') !! a = a_mem (su_args s) !! a) ∧
      ∀ fuel' name q, str_at (a_mem (su_args s')) q name → (length name + length text + length vars < fuel')%nat →
        getenv fuel' (a_mem (su_args s')) __environ q = Done (env_lookup name vars)
    else su_args s' = su_args s.
Proof.
  intros last vars n Hb Hl Hi He Ht Hs0 Hlen H0 He64 Hn Hf Hz Hnull D1 D2. unfold ENV_SIZE, apart in *.
  pose proof (Forall_inv (bi_range _ _ _ _ _ _ _ Hb)) as Hu.
  pose proof (bi_range _ _ _ _ _ _ _ Hb) as Hr. rewrite !Forall_cons in Hr. destruct Hr as (_ & _ & _ & Hs32 & Hl32 & _).
  pose proof (phys_all_bounds edata mem_upper (su_phys s) He Hu) as Hp.
  rewrite (stM_bind_Done _ _ _ _ _ (setup_multiboot_ok edata bootinfo mem_upper mods_count mods start last s Hb Hl)).
  cbv zeta. unfold setup_libcflat. destruct (Z.eqb_spec mods_count 1) as [->|]; mrun; cbn [initrd set_initrd_size set_initrd initrd_size].
  2:{ exists (set_su_phys (phys_all edata mem_upper (su_phys s)) s). cbn [initrd set_su_phys]. rewrite Hi.
      change (0 =? 0) with true. cbv iota. by split. }
  destruct Ht as [Ht|]; [|done]. rewrite (proj2 (Z.eqb_neq start 0)) by lia. mrun.
  cbn [initrd_size set_initrd_size set_initrd set_su_phys].
  assert (u32 (last - start) = Z.of_nat (length text)) as -> by (unfold last, in_u32 in *; rewrite u32_small by (unfold in_u32; lia); lia).
  assert (c_MIN (Z.of_nat (length text)) ENV_SIZE = Z.of_nat (length text)) as -> by (unfold c_MIN, ENV_SIZE; by rewrite (proj2 (Z.ltb_lt _ _))).
  set (m1 := put_bytes env text (a_mem (su_args s))).
  assert (∀ a, a < env ∨ env + Z.of_nat (length text) ≤ a → m1 !! a = a_mem (su_args s) !! a) as Hm1.
  { intros a Ha. unfold m1. by rewrite lookup_put_bytes, decide_False by lia. }
  unfold store. erewrite bind_on_args.
  2:{ rewrite bind_get. erewrite (stM_bind_Done (lift _)).
      2:{ unfold lift. cbn [su_args set_su_phys set_initrd set_initrd_size]. rewrite memcpy_ok; [reflexivity| | | |lia].
          - eapply Forall_impl; [apply Ht|]. unfold is_byte. cbn. lia.
          - by apply str_at_bytes.
          - intros a Ha. exists 0. apply Hz. lia. }
      reflexivity. }
  fold m1. set (s1 := set_su_args _ _). destruct (setup_env_ok __environ fuel env text (su_args s1)) as (s' & E & Henv & Elog & Hfr & Hget); try done; try lia.
  { cbn [su_args s1 set_su_args a_mem set_mem]. split; [apply Ht|]. apply bytes_at_app. split; [apply bytes_at_put|].
    split; [|done]. rewrite Hm1 by lia. apply Hz. lia. }
  { cbn [su_args s1 set_su_args a_mem set_mem]. intros a Ha. fold vars n in Ha. rewrite Hm1 by lia. by apply Hnull. }
  { unfold apart. fold vars n. lia. }
  exists (set_su_args s' s1). split; [unfold on_args, zoom; by rewrite E|]. split; [exact Hp|].
  cbn [su_args set_su_args]. split; [exact Henv|]. split; [exact Elog|]. split; [|exact Hget].
  intros a Ha Ha'. fold vars n in Hfr. rewrite Hfr by lia. apply Hm1. lia.
Qed.

(** ** A concrete boot: one module of the text of Argv.v, 32M of upper memory *)
Definition demo_boot : bmem :=
  put_bytes 0x9008 (le_bytes 4 0x8000) (put_bytes 0x9014 (le_bytes 4 1 ++ le_bytes 4 0x9100) (put_bytes 0x9100 (le_bytes 4 0x1000 ++ le_bytes 4 0x101c)
    (put_bytes 0x1000 (demo_text ++ [0]) (put_bytes 0x3000 (replicate 80 0) (put_bytes 0x200000 (replicate 16384 0) ∅))))).
Definition demo_setup : setup := Setup (Argvs demo_boot 0 0 0 []) Phys.demo_phys 0 0.

Lemma setup_correct_witness :
  ∃ s', (setup_multiboot 0x100000 0x9000;; setup_libcflat 0x200000 0x3000 40) demo_setup = Done (tt, s') ∧
    Phys.top (su_phys s') = 0x2000000 ∧ env_at (a_mem (su_args s')) 0x3000 (vars_from 0x200000 (lines demo_text)) ∧
    argv_log (su_args s') = [bad_entry (chars "9=1")].
Proof.
  destruct (setup_correct 0x100000 0x200000 0x3000 0x9000 0x8000 1 0x9100 0x1000 demo_text 40 demo_setup)
    as (s' & E & (_ & Et & _) & Henv & Elog & _).
  - split.
    + repeat (apply Forall_cons; split; [by unfold in_u32|]). constructor.
    + by apply bytes_at_bool; vm_compute.
    + by apply bytes_at_bool; vm_compute.
    + by apply bytes_at_bool; vm_compute.
    + intros _. split; by apply bytes_at_bool; vm_compute.
  - done.
  - done.
  - by vm_compute.
  - left. apply str_at_bool. by vm_compute.
  - done.
  - by vm_compute.
  - done.
  - by vm_compute.
  - by vm_compute.
  - vm_compute. lia.
  - intros a Ha. change ENV_SIZE with 16384 in Ha.
    pose proof (region_bool demo_boot (λ x, match x with Some 0 => true | _ => false end) 0x200000 (Z.to_nat 16384)) as H.
    specialize (H ltac:(by vm_compute) a). rewrite Z2Nat.id in H by done. specialize (H Ha). cbn [demo_setup su_args a_mem]. by destruct (demo_boot !! a) as [[]|].
  - intros a Ha. assert (8 * (Z.of_nat (length (vars_from 0x200000 (lines demo_text))) + 1) = 24) as E24 by by vm_compute.
    rewrite E24 in Ha. pose proof (region_bool demo_boot (λ x, match x with Some 0 => true | _ => false end) 0x3000 24) as H.
    specialize (H ltac:(by vm_compute) a ltac:(lia)). cbn [demo_setup su_args a_mem]. by destruct (demo_boot !! a) as [[]|].
  - right. by vm_compute.
  - left. by vm_compute.
  - exists s'. split; [exact E|]. split; [exact Et|]. split; [exact Henv|exact Elog].
Defined.
