(* ===== verification/Printf.v ===== *)
(** Formatted output: lib/printf.c.

    Strings and buffers are in the byte memory of Bytes.v.  A variable argument
    list is the list of its words; [va_arg] takes the next one at its type.  The
    array [buf] of [print_int] and [print_unsigned] is at the address [frame] and
    holds [junk] before it is written. *)
From Stdlib Require Import ZArith Lia Bool.
From S2P Require Import Prelude Libcflat Bytes CString.
#[local] Open Scope Z_scope.

Record pstream := PStream { buffer : Z; remain : Z; added : Z }.
Record strprops := StrProps { pad : Z; npad : Z; alternate : bool }.
Definition set_npad (n : Z) (p : strprops) : strprops := StrProps (pad p) n (alternate p).
Definition set_pad (c : Z) (p : strprops) : strprops := StrProps c (npad p) (alternate p).
Definition set_alternate (b : bool) (p : strprops) : strprops := StrProps (pad p) (npad p) b.

Section code.
Context (frame : Z) (junk : Z → Z).
Abbreviation M := (stM bmem).
Implicit Types (p : pstream) (props : strprops).

Definition rdc (a : Z) : M Z := λ m, c ← ldc m a; mret (c, m).
Definition wrb (a v : Z) : M unit := λ m, m ← stb a v m; mret (tt, m).
Definition c_strlen (fuel : nat) (s : Z) : M Z := λ m, n ← strlen fuel m s; mret (n, m).
Definition c_atol (fuel : nat) (s : Z) : M Z := λ m, n ← atol fuel m s; mret (n, m).

Definition addchar p (c : Z) : M pstream :=
  p ← (if negb (remain p =? 0) then
         wrb (buffer p) c;;
         mret (PStream (buffer p + 1) (s32 (remain p - 1)) (added p))
       else mret p);
  mret (PStream (buffer p) (remain p) (s32 (added p + 1))).

(** [n] turns of a padding loop *)
Fixpoint addpad (n : nat) p (c : Z) : M pstream :=
  match n with O => mret p | S n => p ← addchar p c; addpad n p c end.
(** [while ( *s) addchar(p, *s++);] *)
Fixpoint addstr (fuel : nat) p (s : Z) : M pstream :=
  match fuel with
  | O => lift NoFuel
  | S f => c ← rdc s; if c =? 0 then mret p else p ← addchar p c; addstr f p (s + 1)
  end.

Definition print_str (fuel : nat) p (s : Z) props : M pstream :=
  let n := npad props in
  '(p, n) ←
    (if 0 <? n then
       len ← c_strlen fuel s;
       let n := s32 (n - len) in
       p ← addpad (Z.to_nat n) p (pad props);
       mret (p, Z.min n 0)
     else mret (p, n));
  p ← addstr fuel p s;
  if n <? 0 then
    len ← c_strlen fuel s;
    let n := s32 (n + len) in
    addpad (Z.to_nat (- n)) p 32
  else mret p.

Definition digits : list Z := chars "0123456789abcdef".

(** [while (n) { *p++ = digits[n % base]; n /= base; }] *)
Fixpoint put_digits (fuel : nat) (p n base : Z) : M Z :=
  if n =? 0 then mret p
  else
    match fuel with
    | O => lift NoFuel
    | S f => d ← lift (arr_get digits (Z.rem n base)); wrb p d;; put_digits f (p + 1) (Z.quot n base) base
    end.

(** The loop that turns the characters between [buf] and [p] around. *)
Definition reverse_buf (buf p : Z) : M unit :=
  for_up (Z.to_nat (Z.quot (p - buf) 2)) 0 (λ i,
    tmp ← rdc (buf + i);
    c ← rdc (p + (-1 - i));
    wrb (buf + i) c;;
    wrb (p + (-1 - i)) tmp).

(** Entering a function with an array of [n] bytes at [frame]. *)
Definition enter (n : Z) : M unit := modify (put_bytes frame ((λ i, u8 (junk i)) <$> seqZ 0 n)).

Definition print_int (fuel : nat) ps (n base : Z) props : M pstream :=
  let buf := frame in
  enter 26;;
  '(n, s) ← (if n <? 0 then n ← lift (long_ok (- n)); mret (n, 1) else mret (n, 0));
  p ← put_digits fuel buf n base;
  p ← (if negb (s =? 0) then wrb p 45;; mret (p + 1) else mret p);
  p ← (if p =? buf then wrb p 48;; mret (p + 1) else mret p);
  reverse_buf buf p;;
  wrb p 0;;
  print_str fuel ps buf props.

Definition print_unsigned (fuel : nat) ps (n base : Z) props : M pstream :=
  let buf := frame in
  enter 27;;
  p ← put_digits fuel buf n base;
  '(ps, p, props) ←
    (if p =? buf then wrb p 48;; mret (ps, p + 1, props)
     else if alternate props && (base =? 16) then
       if pad props =? 48 then
         ps ← addchar ps 48;
         ps ← addchar ps 120;
         mret (ps, p, if 0 <? npad props then set_npad (c_MAX (npad props - 2) 0) props else props)
       else
         wrb p 120;;
         wrb (p + 1) 48;;
         mret (ps, p + 2, props)
     else mret (ps, p, props));
  reverse_buf buf p;;
  wrb p 0;;
  print_str fuel ps buf props.

(** [while ( *f >= '0' && *f <= '9') ++f, ++len;] *)
Fixpoint num_len (fuel : nat) (f len : Z) : M Z :=
  match fuel with
  | O => lift NoFuel
  | S fu => c ← rdc f; if (48 <=? c) && (c <=? 57) then num_len fu (f + 1) (s32 (len + 1)) else mret len
  end.
(** The number and the format behind it. *)
Definition fmtnum (fuel : nat) (fmt : Z) : M (Z * Z) :=
  c ← rdc fmt;
  len ← (if c =? 45 then num_len fuel (fmt + 1) 1 else num_len fuel fmt 0);
  num ← c_atol fuel fmt;
  mret (s32 num, fmt + len).

(** [va_arg] at a type: [conv] reads the argument's word. *)
Definition va_arg (conv : Z → Z) (va : list Z) : M (Z * list Z) :=
  match va with [] => lift Fault | x :: va => mret (conv x, va) end.

(** The [switch] behind [morefmt]. *)
Fixpoint morefmt (fuel : nat) (fmt : Z) ps (va : list Z) (nlong : Z) props : M (Z * pstream * list Z) :=
  match fuel with
  | O => lift NoFuel
  | S fu =>
    f ← rdc fmt;
    let fmt := fmt + 1 in
    if f =? 37 then ps ← addchar ps 37; mret (fmt, ps, va)
    else if f =? 99 then
      '(x, va) ← va_arg s32 va;
      ps ← addchar ps x;
      mret (fmt, ps, va)
    else if f =? 0 then mret (fmt - 1, ps, va)
    else if f =? 35 then morefmt fu fmt ps va nlong (set_alternate true props)
    else if f =? 48 then
      let props := set_pad 48 props in
      '(n, fmt) ← fmtnum fuel (fmt + 1 - 1);
      morefmt fu fmt ps va nlong (set_npad n props)
    else if ((49 <=? f) && (f <=? 57)) || (f =? 45) then
      '(n, fmt) ← fmtnum fuel (fmt - 1);
      morefmt fu fmt ps va nlong (set_npad n props)
    else if f =? 108 then morefmt fu fmt ps va (nlong + 1) props
    else if (f =? 116) || (f =? 122) then morefmt fu fmt ps va 1 props
    else if f =? 100 then
      '(x, va) ← va_arg (if nlong =? 0 then s32 else s64) va;
      ps ← print_int fuel ps x 10 props;
      mret (fmt, ps, va)
    else if f =? 117 then
      '(x, va) ← va_arg (if nlong =? 0 then u32 else u64) va;
      ps ← print_unsigned fuel ps x 10 props;
      mret (fmt, ps, va)
    else if f =? 120 then
      '(x, va) ← va_arg (if nlong =? 0 then u32 else u64) va;
      ps ← print_unsigned fuel ps x 16 props;
      mret (fmt, ps, va)
    else if f =? 112 then
      let props := set_alternate true props in
      '(x, va) ← va_arg u64 va;
      ps ← print_unsigned fuel ps x 16 props;
      mret (fmt, ps, va)
    else if f =? 115 then
      '(x, va) ← va_arg u64 va;
      ps ← print_str fuel ps x props;
      mret (fmt, ps, va)
    else ps ← addchar ps f; mret (fmt, ps, va)
  end.

(** [while ( *fmt)]; [inner] is the fuel of one directive. *)
Fixpoint vsnprintf_loop (fuel inner : nat) (fmt : Z) ps (va : list Z) : M pstream :=
  match fuel with
  | O => lift NoFuel
  | S fu =>
    f ← rdc fmt;
    if f =? 0 then mret ps
    else
      let fmt := fmt + 1 in
      let props := StrProps 32 0 false in
      if negb (f =? 37) then ps ← addchar ps f; vsnprintf_loop fu inner fmt ps va
      else '(fmt, ps, va) ← morefmt inner fmt ps va 0 props; vsnprintf_loop fu inner fmt ps va
  end.

Definition vsnprintf (fuel : nat) (buf size fmt : Z) (va : list Z) : M Z :=
  let s := PStream buf (s32 (size - 1)) 0 in
  s ← vsnprintf_loop fuel fuel fmt s va;
  wrb (buffer s) 0;;
  mret (added s).

Definition snprintf (fuel : nat) (buf size fmt : Z) (va : list Z) : M Z :=
  r ← vsnprintf fuel buf size fmt va;
  mret r.

Definition BINSTR_SZ : Z := 8 * 8 + 8 * 2.

(** The loop of [binstr]; it ends at [i = 64]. *)
Fixpoint binstr_loop (fuel : nat) (x i c : Z) : M Z :=
  match fuel with
  | O => lift NoFuel
  | S f =>
    wrb c (if negb (Z.land x (u64 (Z.shiftl 1 (64 - i - 1))) =? 0) then 49 else 48);;
    let c := c + 1 in
    let i := i + 1 in
    if i =? 64 then wrb c 0;; mret c
    else if Z.rem i 4 =? 0 then wrb c 39;; binstr_loop f x i (c + 1)
    else binstr_loop f x i c
  end.
Definition binstr (x out : Z) : M unit :=
  c ← binstr_loop 64 x 0 out;
  lift (c_assert (c + 1 - out =? BINSTR_SZ)).
End code.

(** ** What a directive prints *)
(** The digits of a number, least significant first, at most [k]. *)
Fixpoint lsd_digits (k : nat) (b n : Z) : list Z :=
  match k with O => [] | S k => if n =? 0 then [] else n mod b :: lsd_digits k b (n / b) end.
(** The numeral of a number; empty for 0. *)
Definition num_chars (b n : Z) : list Z := digit_char <$> rev (lsd_digits 20 b n).

Definition pad_text (props : strprops) (s : list Z) : list Z :=
  let len := Z.of_nat (length s) in
  if 0 <? npad props then replicate (Z.to_nat (npad props - len)) (u8 (pad props)) ++ s
  else s ++ replicate (Z.to_nat (- npad props - len)) 32.
Definition int_text (props : strprops) (n : Z) : list Z :=
  pad_text props (if n =? 0 then [48] else (if n <? 0 then [45] else []) ++ num_chars 10 (Z.abs n)).
Definition uint_text (b : Z) (props : strprops) (n : Z) : list Z :=
  if n =? 0 then pad_text props [48]
  else if alternate props && (b =? 16) then
    if pad props =? 48
    then [48; 120] ++ pad_text (if 0 <? npad props then set_npad (c_MAX (npad props - 2) 0) props else props)
           (num_chars b n)
    else pad_text props ([48; 120] ++ num_chars b n)
  else pad_text props (num_chars b n).

Lemma lsd_digits_length k b n : (length (lsd_digits k b n) ≤ k)%nat.
Proof. revert n. induction k as [|k IH]; intros n; cbn; [lia|]. destruct (n =? 0); cbn; [lia|]. specialize (IH (n / b)). lia. Qed.
Lemma lsd_digits_range k b n : 0 < b → Forall (λ d, 0 ≤ d < b) (lsd_digits k b n).
Proof.
  intros Hb. revert n. induction k as [|k IH]; intros n; cbn; [constructor|].
  destruct (n =? 0); constructor; [|done]. by apply Z.mod_pos_bound.
Qed.

(** [num_chars] is the numeral of a positive number. *)
Lemma rev_lsd_numeral b n :
  1 < b → 0 < n < b ^ 20 → numeral b n (rev (lsd_digits 20 b n)).
Proof.
  intros Hb Hn. assert (∀ k n, 0 ≤ n < b ^ Z.of_nat k →
    digits_value b (rev (lsd_digits k b n)) = n ∧ (0 < n → ∃ d l, rev (lsd_digits k b n) = d :: l ∧ d ≠ 0)) as Hv.
  { clear n Hn. induction k as [|k IH]; intros n Hn; cbn [lsd_digits].
    - replace n with 0 by (cbn in Hn; lia). by split.
    - destruct (Z.eqb_spec n 0) as [->|Hne]; [by split|]. cbn [rev].
      rewrite Nat2Z.inj_succ, Z.pow_succ_r in Hn by lia.
      pose proof (Z.div_mod n b ltac:(lia)) as Ed. pose proof (Z.mod_pos_bound n b ltac:(lia)).
      assert (0 ≤ n / b < b ^ Z.of_nat k) as Hq.
      { split; [apply Z.div_pos; lia|apply Z.div_lt_upper_bound; lia]. }
      destruct (IH _ Hq) as [Ev Hl]. rewrite digits_value_snoc, Ev. split; [lia|]. intros _.
      destruct (decide (n / b = 0)) as [E0|E0].
      + rewrite E0 in *. destruct k; cbn [lsd_digits rev app]; eexists _, []; (split; [done|lia]).
      + destruct (Hl ltac:(lia)) as (d & l & -> & Hd). by exists d, (l ++ [n mod b]). }
  destruct (Hv 20%nat n) as [Ev Hl]; [change (Z.of_nat 20) with 20; lia|].
  split; [done|]. split; [|right; apply Hl; lia].
  apply Forall_rev. apply lsd_digits_range. lia.
Qed.

Lemma digit_char_ok d : 0 ≤ d < 16 → arr_get digits d = Done (digit_char d).
Proof.
  intros Hd. assert (d ∈ seqZ 0 16) as Hin by (apply elem_of_seqZ; lia).
  assert (Forall (λ d, arr_get digits d = Done (digit_char d)) (seqZ 0 16)) as Hall
    by (refine (bool_decide_unpack _ _); vm_compute; done).
  rewrite Forall_forall in Hall. by apply Hall.
Qed.

(** The accesses to memory. *)
Lemma bind_rdc {A} m a c (g : Z → stM bmem A) : m !! a = Some c → (rdc a ≫= g) m = g (s8 c) m.
Proof. intros E. unfold rdc, mbind at 1, stM_bind. by rewrite (ldc_ok _ _ _ E). Qed.
Lemma wrb_ok m a v : is_Some (m !! a) → wrb a v m = Done (tt, <[a := u8 v]> m).
Proof. intros E. unfold wrb. by rewrite stb_ok. Qed.
Lemma bind_wrb {A} m a v (g : unit → stM bmem A) :
  is_Some (m !! a) → (wrb a v ≫= g) m = g tt (<[a := u8 v]> m).
Proof. intros E. by rewrite (stM_bind_Done _ _ _ _ _ (wrb_ok _ _ _ E)). Qed.
Lemma bind_strlen {A} fuel m s str (g : Z → stM bmem A) :
  str_at m s str → (length str < fuel)%nat → Z.of_nat (length str) < 2 ^ 64 →
  (c_strlen fuel s ≫= g) m = g (Z.of_nat (length str)) m.
Proof. intros. unfold c_strlen, mbind at 1, stM_bind. by rewrite (strlen_ok m fuel s str). Qed.

(** ** Streams *)
Section streams.
Context (base cap : Z) (Hcap : 0 ≤ cap < 2 ^ 31).

(** The stream has taken [out]; [cap] characters of it at most are in the buffer. *)
Record at_stream (out : list Z) (p : pstream) (m : bmem) : Prop := {
  as_buffer : buffer p = base + Z.min (Z.of_nat (length out)) cap;
  as_remain : remain p = cap - Z.min (Z.of_nat (length out)) cap;
  as_added : added p = Z.of_nat (length out);
  as_bytes : bytes_at m base (take (Z.to_nat cap) out);
  as_writable : writable m base cap
}.

Definition in_buf (a : Z) : Prop := base ≤ a < base + cap.

(** [f] sends [l] to the stream and changes only memory in [P]. *)
Definition emits (P : Z → Prop) (f : stM bmem pstream) (out l : list Z) (m : bmem) : Prop :=
  ∃ p' m', f m = Done (p', m') ∧ at_stream (out ++ l) p' m' ∧ same_but P m m'.

(** Sequencing *)
Lemma emits_nil P p out m : at_stream out p m → emits P (mret p) out [] m.
Proof. intros Ha. exists p, m. rewrite app_nil_r. by split. Qed.
Lemma emits_bind P f g out l1 l2 m :
  emits P f out l1 m →
  (∀ p' m', at_stream (out ++ l1) p' m' → same_but P m m' → emits P (g p') (out ++ l1) l2 m') →
  emits P (f ≫= g) out (l1 ++ l2) m.
Proof.
  intros (p1 & m1 & E1 & A1 & S1) Hg. destruct (Hg p1 m1 A1 S1) as (p2 & m2 & E2 & A2 & S2).
  exists p2, m2. split; [by rewrite (stM_bind_Done _ _ _ _ _ E1)|].
  rewrite <- app_assoc in A2. split; [done|]. by apply (same_but_trans _ _ m1).
Qed.
Lemma emits_weaken (P Q : Z → Prop) f out l m : (∀ a, P a → Q a) → emits P f out l m → emits Q f out l m.
Proof. intros HPQ (p & m' & E & A & S). exists p, m'. split; [done|]. split; [done|]. by apply (same_but_weaken P). Qed.

Lemma addchar_ok p c out m :
  at_stream out p m → Z.of_nat (length out) + 1 < 2 ^ 31 → emits in_buf (addchar p c) out [u8 c] m.
Proof.
  intros [Hb Hr Ha Hm Hw] Hl. unfold addchar. destruct (Z.eqb_spec (remain p) 0) as [E|E]; cbn [negb].
  - eexists _, m. split; [done|]. split; [|done]. split; cbn [buffer remain added].
    + rewrite length_app. cbn [length]. lia.
    + rewrite length_app. cbn [length]. lia.
    + rewrite length_app, Ha, s32_small by lia. cbn [length]. lia.
    + rewrite take_app_le by lia. done.
    + done.
  - assert (Z.of_nat (length out) < cap) as Hlt by lia. rewrite Z.min_l in Hb, Hr by lia.
    eexists _, (<[buffer p := u8 c]> m). split.
    { rewrite stM_bind_assoc, bind_wrb by (apply Hw; lia). done. }
    split.
    + split; cbn [buffer remain added].
      * rewrite length_app. cbn [length]. lia.
      * rewrite length_app, s32_small by lia. cbn [length]. lia.
      * rewrite length_app, Ha, s32_small by lia. cbn [length]. lia.
      * rewrite take_ge in Hm by lia. rewrite take_ge by (rewrite length_app; cbn; lia).
        apply bytes_at_app. change (<[buffer p := u8 c]> m) with (put_bytes (buffer p) [u8 c] m). split.
        -- apply (bytes_at_put_frame _ _ _ _ [u8 c]); [done|cbn; lia].
        -- rewrite <- Hb. apply bytes_at_put.
      * apply (writable_put _ [u8 c]). done.
    + intros a Hna. apply lookup_insert_ne. intros <-. apply Hna. unfold in_buf. lia.
Qed.

Lemma addpad_ok n p c out m :
  at_stream out p m → Z.of_nat (length out) + Z.of_nat n < 2 ^ 31 →
  emits in_buf (addpad n p c) out (replicate n (u8 c)) m.
Proof.
  revert p out m. induction n as [|n IH]; intros p out m Ha Hl; cbn [addpad replicate].
  - by apply emits_nil.
  - change (u8 c :: replicate n (u8 c)) with ([u8 c] ++ replicate n (u8 c)).
    apply emits_bind; [apply addchar_ok; [done|lia]|].
    intros p' m' Ha' _. apply IH; [done|]. rewrite length_app. cbn [length]. lia.
Qed.

(** A string that the writes do not touch. *)
Definition str_in (P : Z → Prop) (m : bmem) (s : Z) (str : list Z) : Prop :=
  str_at m s str ∧ ∀ a, s ≤ a ≤ s + Z.of_nat (length str) → ¬ P a.
Lemma str_in_same P m m' s str : str_in P m s str → same_but P m m' → str_in P m' s str.
Proof. intros [Hs Hp] H. split; [|done]. apply (str_at_frame m); [done|]. intros a Ha. by apply H, Hp. Qed.
Lemma str_in_weaken (P Q : Z → Prop) m s str : (∀ a, Q a → P a) → str_in P m s str → str_in Q m s str.
Proof. intros HPQ [Hs Hp]. split; [done|]. intros a Ha Hq. apply (Hp a Ha). auto. Qed.
Lemma str_in_cons P m s c str :
  str_in P m s (c :: str) → (0 < c < 256 ∧ m !! s = Some c) ∧ str_in P m (s + 1) str.
Proof.
  intros [Hs Hp]. apply str_at_cons in Hs as [Hc Hs]. split; [done|]. split; [done|].
  intros a Ha. apply Hp. cbn [length]. lia.
Qed.

Lemma addstr_ok fuel p s str out m :
  at_stream out p m → str_in in_buf m s str → (length str < fuel)%nat →
  Z.of_nat (length out) + Z.of_nat (length str) < 2 ^ 31 →
  emits in_buf (addstr fuel p s) out str m.
Proof.
  revert p s str out m. induction fuel as [|f IH]; intros p s str out m Ha Hs Hf Hl; [lia|]. cbn [addstr].
  destruct str as [|c str].
  - destruct Hs as [Hs _]. apply str_at_nil in Hs. unfold emits.
    rewrite (bind_rdc _ _ _ _ Hs). by apply emits_nil.
  - apply str_in_cons in Hs as [[Hc E] Hs].
    unfold emits. rewrite (bind_rdc _ _ _ _ E), s8_eqb0 by (unfold is_byte; lia). rewrite (proj2 (Z.eqb_neq c 0)) by lia.
    assert (c :: str = [u8 (s8 c)] ++ str) as -> by (rewrite u8_s8; [done|unfold is_byte; lia]).
    cbn [length] in *. apply emits_bind; [apply addchar_ok; [done|lia]|].
    intros p' m' Ha' Hm'. apply IH; [done|by apply (str_in_same in_buf m)|lia|].
    rewrite length_app. cbn [length]. lia.
Qed.

Lemma print_str_ok fuel p s props str out m :
  at_stream out p m → str_in in_buf m s str → (length str < fuel)%nat →
  - 2 ^ 31 ≤ npad props < 2 ^ 31 → Z.of_nat (length str) < 2 ^ 31 →
  Z.of_nat (length out) + Z.of_nat (length (pad_text props str)) < 2 ^ 31 →
  emits in_buf (print_str fuel p s props) out (pad_text props str) m.
Proof.
  intros Ha Hs Hf Hn Hls Hl. unfold print_str, pad_text in *. set (len := Z.of_nat (length str)) in *.
  assert (∀ m' A (g : Z → stM bmem A), str_in in_buf m' s str → (c_strlen fuel s ≫= g) m' = g len m') as Hlen.
  { intros m' A g [Hs' _]. apply bind_strlen; [done|done|lia]. }
  destruct (Z.ltb_spec 0 (npad props)) as [Hpos|Hneg].
  - unfold emits. rewrite stM_bind_assoc, Hlen by done. rewrite s32_small by lia.
    rewrite length_app, length_replicate in Hl. rewrite stM_bind_assoc.
    apply emits_bind; [apply addpad_ok; [done|lia]|]. intros p1 m1 A1 S1. unfold emits. rewrite bind_mret.
    rewrite <- (app_nil_r str).
    assert (str_in in_buf m1 s str) as Hs1 by (by apply (str_in_same in_buf m)).
    apply emits_bind.
    + apply addstr_ok; [done|done|done|]. rewrite length_app, length_replicate. lia.
    + intros p2 m2 A2 S2. destruct (Z.ltb_spec (Z.min (npad props - len) 0) 0); [|by apply emits_nil].
      unfold emits. rewrite Hlen by (by apply (str_in_same in_buf m1)). rewrite s32_small by lia.
      replace (Z.to_nat _) with 0%nat by lia. by apply emits_nil.
  - unfold emits. rewrite bind_mret. rewrite length_app, length_replicate in Hl.
    apply emits_bind; [apply addstr_ok; [done|done|done|lia]|]. intros p1 m1 A1 S1.
    destruct (Z.ltb_spec (npad props) 0).
    + unfold emits. rewrite Hlen by (by apply (str_in_same in_buf m)). rewrite s32_small by lia.
      replace (- (npad props + len)) with (- npad props - len) by lia.
      apply (addpad_ok _ _ 32); [done|]. rewrite length_app. lia.
    + replace (Z.to_nat _) with 0%nat by lia. by apply emits_nil.
Qed.
End streams.

(** ** Numbers: the array on the stack *)
Lemma rev_reverse (l : list Z) : rev l = reverse l.
Proof. unfold reverse. apply rev_alt. Qed.

Section numbers.
Context (base cap frame : Z) (junk : Z → Z).
Hypothesis Hcap : 0 ≤ cap < 2 ^ 31.
Hypothesis Hframe : frame + 27 ≤ base ∨ base + cap ≤ frame.

Definition in_frame (a : Z) : Prop := frame ≤ a < frame + 27.
Definition in_zone (a : Z) : Prop := in_buf base cap a ∨ in_frame a.

Lemma at_stream_frame out p m m' : at_stream base cap out p m → same_but in_frame m m' → at_stream base cap out p m'.
Proof.
  intros [Hb Hr Ha Hm Hw] HS. split; try assumption.
  - apply (bytes_at_frame m); [done|]. intros a Hin. apply HS. unfold in_frame.
    rewrite length_take in Hin. lia.
  - intros a Hin. rewrite HS; [by apply Hw|]. unfold in_frame. lia.
Qed.

Lemma put_digits_ok k fuel p n b m :
  1 < b ≤ 16 → 0 ≤ n < b ^ Z.of_nat k → (k ≤ fuel)%nat → writable m p (Z.of_nat (length (lsd_digits k b n))) →
  put_digits fuel p n b m =
  Done (p + Z.of_nat (length (lsd_digits k b n)), put_bytes p (digit_char <$> lsd_digits k b n) m).
Proof.
  intros Hb. revert fuel p n m. induction k as [|k IH]; intros fuel p n m Hn Hf Hw; cbn [lsd_digits] in *.
  - replace n with 0 in * by (cbn in Hn; lia). destruct fuel; cbn; by rewrite Z.add_0_r.
  - destruct (Z.eqb_spec n 0) as [->|Hne]; [destruct fuel; cbn; by rewrite Z.add_0_r|].
    destruct fuel as [|fuel]; [lia|]. cbn [put_digits]. rewrite (proj2 (Z.eqb_neq n 0)) by done.
    rewrite Nat2Z.inj_succ, Z.pow_succ_r in Hn by lia. pose proof (Z.mod_pos_bound n b ltac:(lia)).
    rewrite Z.rem_mod_nonneg, Z.quot_div_nonneg by lia. rewrite digit_char_ok by lia.
    rewrite bind_lift_Done. cbn [length fmap list_fmap put_bytes] in *.
    rewrite bind_wrb by (apply Hw; lia).
    pose proof (digit_char_range (n mod b) ltac:(lia)). rewrite u8_small by lia.
    rewrite IH; [f_equal; f_equal; lia| |lia|].
    + split; [apply Z.div_pos; lia|apply Z.div_lt_upper_bound; lia].
    + apply (writable_put p [_]). apply (writable_weaken _ _ _ _ _ Hw); lia.
Qed.

Lemma reverse_buf_ok buf l m :
  Forall is_byte l → bytes_at m buf l →
  reverse_buf buf (buf + Z.of_nat (length l)) m = Done (tt, put_bytes buf (rev l) m).
Proof.
  intros Hl Hm. unfold reverse_buf. replace (buf + Z.of_nat (length l) - buf) with (Z.of_nat (length l)) by lia.
  rewrite Z.quot_div_nonneg by lia. set (n := Z.of_nat (length l)) in *.
  pose proof (Z.div_mod n 2 ltac:(lia)) as Ed. pose proof (Z.mod_pos_bound n 2 ltac:(lia)) as Em.
  assert (∀ j, 0 ≤ j < n → ∃ c, l !! Z.to_nat j = Some c ∧ is_byte c) as Hget.
  { intros j Hj. destruct (lookup_lt_is_Some_2 l (Z.to_nat j)) as [c Ec]; [lia|]. exists c. split; [done|].
    rewrite Forall_lookup in Hl. by apply (Hl (Z.to_nat j)). }
  destruct (for_up_rule (λ i t, ∀ a, t !! a =
      if decide (buf ≤ a < buf + n ∧ (a - buf < i ∨ n - i ≤ a - buf)) then l !! Z.to_nat (n - 1 - (a - buf)) else m !! a)
    (λ i, tmp ← rdc (buf + i); c ← rdc (buf + n + (-1 - i)); wrb (buf + i) c;; wrb (buf + n + (-1 - i)) tmp)
    (Z.to_nat (n / 2)) 0 m) as (m' & E & Em').
  - intros a. rewrite decide_False; [done|]. lia.
  - intros i t Hi Ht. rewrite Z.add_0_l, Z2Nat.id in Hi by lia.
    destruct (Hget i) as (x & Ex & Hx); [lia|]. destruct (Hget (n - 1 - i)) as (y & Ey & Hy); [lia|].
    pose proof (proj1 (bytes_at_lookup _ _ _) Hm) as Hlk. fold n in Hlk.
    assert (t !! (buf + i) = Some x) as E1.
    { rewrite Ht, decide_False by lia. rewrite Hlk by lia. by replace (buf + i - buf) with i by lia. }
    assert (t !! (buf + n + (-1 - i)) = Some y) as E2.
    { rewrite Ht, decide_False by lia. rewrite Hlk by lia.
      by replace (buf + n + (-1 - i) - buf) with (n - 1 - i) by lia. }
    eexists. split.
    { rewrite (bind_rdc _ _ _ _ E1), (bind_rdc _ _ _ _ E2), bind_wrb by by rewrite E1. apply wrb_ok.
      destruct (decide (buf + i = buf + n + (-1 - i))) as [<-|]; [rewrite lookup_insert_eq|rewrite lookup_insert_ne, E2 by done];
        by eexists. }
    intros a. rewrite !u8_s8 by done.
    destruct (decide (a = buf + n + (-1 - i))) as [->|Hn1].
    + rewrite lookup_insert_eq, decide_True by lia.
      by replace (n - 1 - (buf + n + (-1 - i) - buf)) with i by lia.
    + rewrite lookup_insert_ne by done. destruct (decide (a = buf + i)) as [->|Hn2].
      * rewrite lookup_insert_eq, decide_True by lia. by replace (buf + i - buf) with i by lia.
      * rewrite lookup_insert_ne, Ht by done. repeat case_decide; lia || done.
  - rewrite E. f_equal. f_equal. apply map_eq. intros a. rewrite Em', lookup_put_bytes, length_rev.
    fold n. rewrite Z.add_0_l, Z2Nat.id by lia. case_decide as H1.
    + rewrite decide_True by lia. rewrite rev_reverse, reverse_lookup by lia. f_equal. lia.
    + destruct (decide (buf ≤ a < buf + n)) as [H2|H2]; [|done].
      rewrite rev_reverse, reverse_lookup by lia.
      rewrite (proj1 (bytes_at_lookup _ _ _) Hm) by (fold n; lia). f_equal. lia.
Qed.

(** The array filled with the characters [l], last first. *)
Lemma finish_buf_ok l m (A : Type) (g : unit → stM bmem A) :
  Forall is_byte l → Z.of_nat (length l) < 27 →
  writable m frame (Z.of_nat (length l) + 1) → bytes_at m frame l →
  (reverse_buf frame (frame + Z.of_nat (length l));; wrb (frame + Z.of_nat (length l)) 0 ≫= g) m =
  g tt (put_bytes frame (rev l ++ [0]) m).
Proof.
  intros Hl Hn Hw Hb. rewrite (stM_bind_Done _ _ _ _ _ (reverse_buf_ok frame l m Hl Hb)).
  rewrite bind_wrb by (apply (writable_put _ _ _ _ _ Hw); lia). f_equal. rewrite put_bytes_app, length_rev. done.
Qed.

Lemma rev_lsd_chars b n : rev (digit_char <$> lsd_digits 20 b n) = num_chars b n.
Proof. unfold num_chars. symmetry. apply (map_rev digit_char). Qed.
Lemma lsd_chars_ok k b n : 1 < b ≤ 16 → Forall (λ c, 0 < c < 128) (digit_char <$> lsd_digits k b n).
Proof.
  intros Hb. apply Forall_fmap. eapply Forall_impl; [apply lsd_digits_range; lia|].
  intros d Hd. cbn in Hd |- *. pose proof (digit_char_range d). lia.
Qed.
Lemma lsd_digits_zero k b n : (0 < k)%nat → lsd_digits k b n = [] ↔ n = 0.
Proof. destruct k; [lia|]. intros _. cbn. by destruct (Z.eqb_spec n 0). Qed.

(** The end of both functions: the array holds the characters [l], last first. *)
Lemma print_buf_ok fuel ps props l out m :
  at_stream base cap out ps m → writable m frame 26 → bytes_at m frame l →
  Forall (λ c, 0 < c < 128) l → (length l < 26)%nat → (26 ≤ fuel)%nat →
  - 2 ^ 31 ≤ npad props < 2 ^ 31 →
  Z.of_nat (length out) + Z.of_nat (length (pad_text props (rev l))) < 2 ^ 31 →
  emits base cap in_zone
    (reverse_buf frame (frame + Z.of_nat (length l));; wrb (frame + Z.of_nat (length l)) 0;;
     print_str fuel ps frame props) out (pad_text props (rev l)) m.
Proof.
  intros Ha Hw Hb Hl Hn Hf Hp Hlen.
  assert (Forall is_byte l) as Hlb by (eapply Forall_impl; [exact Hl|]; unfold is_byte; cbn; lia).
  set (m' := put_bytes frame (rev l ++ [0]) m).
  assert (same_but in_frame m m') as HS.
  { intros a Hna. unfold m'. rewrite lookup_put_bytes, decide_False; [done|].
    rewrite length_app, length_rev. cbn. unfold in_frame in Hna. lia. }
  assert (str_in (in_buf base cap) m' frame (rev l)) as Hs.
  { split.
    - apply str_at_put, Forall_rev. eapply Forall_impl; [exact Hl|]. cbn. lia.
    - intros a Hin. rewrite length_rev in Hin. unfold in_buf. lia. }
  destruct (print_str_ok base cap Hcap fuel ps frame props (rev l) out m') as (p' & m2 & E & A & S);
    try done; [by apply (at_stream_frame _ _ m)|rewrite length_rev; lia|rewrite length_rev; lia|].
  exists p', m2. split; [|split; [done|]].
  - rewrite finish_buf_ok; [exact E|done|lia| |done]. apply (writable_weaken _ _ _ _ _ Hw); lia.
  - apply (same_but_trans _ _ m'); eapply same_but_weaken; [|exact HS| |exact S]; unfold in_zone; tauto.
Qed.

(** Entering with an array of [n] bytes and filling in the digits. *)
Lemma enter_digits_ok {A} fuel n b len out ps m (g : Z → stM bmem A) :
  1 < b ≤ 16 → 0 ≤ n < b ^ 20 → (20 ≤ fuel)%nat → 26 ≤ len ≤ 27 → at_stream base cap out ps m →
  let l := digit_char <$> lsd_digits 20 b n in
  let m2 := put_bytes frame l (put_bytes frame ((λ i, u8 (junk i)) <$> seqZ 0 len) m) in
  (enter frame junk len;; put_digits fuel frame n b ≫= g) m = g (frame + Z.of_nat (length l)) m2 ∧
  (length l ≤ 20)%nat ∧ writable m2 frame len ∧ bytes_at m2 frame l ∧ at_stream base cap out ps m2 ∧
  same_but in_frame m m2.
Proof.
  intros Hb Hn Hf Hlen Ha l m2. set (m1 := put_bytes frame ((λ i, u8 (junk i)) <$> seqZ 0 len) m) in *.
  assert (length l ≤ 20)%nat as Hl by (unfold l; rewrite length_fmap; apply lsd_digits_length).
  assert (writable m1 frame len) as Hw.
  { intros a Hin. unfold m1. rewrite lookup_put_bytes, decide_True by (rewrite length_fmap, length_seqZ; lia).
    apply lookup_lt_is_Some_2. rewrite length_fmap, length_seqZ. lia. }
  assert (same_but in_frame m m2) as HS.
  { intros a Hna. unfold in_frame in Hna. unfold m2, m1.
    rewrite !lookup_put_bytes, !decide_False; [done| |]; rewrite ?length_fmap, ?length_seqZ; lia. }
  split; [|split; [done|split; [by apply writable_put|split; [apply bytes_at_put|split; [by apply (at_stream_frame _ _ m)|done]]]]].
  unfold enter. rewrite bind_modify. fold m1.
  unfold l in Hl |- *. rewrite length_fmap in Hl |- *.
  rewrite (stM_bind_Done _ _ _ _ _ (put_digits_ok 20 fuel frame n b m1 Hb Hn Hf ltac:(apply (writable_weaken _ _ _ _ _ Hw); lia))).
  done.
Qed.

(** More characters [k] put behind the digits, and the end of the function. *)
Lemma print_pushed_ok fuel ps props (l k : list Z) out m :
  at_stream base cap out ps m → writable m frame 26 → bytes_at m frame l →
  Forall (λ c, 0 < c < 128) (l ++ k) → (length l + length k < 26)%nat → (26 ≤ fuel)%nat →
  - 2 ^ 31 ≤ npad props < 2 ^ 31 →
  Z.of_nat (length out) + Z.of_nat (length (pad_text props (rev (l ++ k)))) < 2 ^ 31 →
  let p := frame + Z.of_nat (length l) + Z.of_nat (length k) in
  ∃ p1 m1, (reverse_buf frame p;; wrb p 0;; print_str fuel ps frame props)
      (put_bytes (frame + Z.of_nat (length l)) k m) = Done (p1, m1) ∧
    at_stream base cap (out ++ pad_text props (rev (l ++ k))) p1 m1 ∧ same_but in_zone m m1.
Proof.
  intros Ha Hw Hb Hc Hl Hf Hp Hlen p. set (m' := put_bytes (frame + Z.of_nat (length l)) k m).
  assert (same_but in_frame m m') as HS.
  { intros a Hna. unfold m'. rewrite lookup_put_bytes, decide_False; [done|]. unfold in_frame in Hna. lia. }
  assert (bytes_at m' frame (l ++ k)) as Hb'.
  { apply bytes_at_app. split; [|apply bytes_at_put]. apply bytes_at_put_frame; [done|lia]. }
  replace p with (frame + Z.of_nat (length (l ++ k))) by (rewrite length_app; unfold p; lia).
  destruct (print_buf_ok fuel ps props (l ++ k) out m') as (p1 & m1 & E & A & S); try done.
  - by apply (at_stream_frame _ _ m).
  - by apply writable_put.
  - rewrite length_app. lia.
  - exists p1, m1. split; [exact E|]. split; [done|]. apply (same_but_trans _ _ m'); [|done].
    eapply same_but_weaken; [|exact HS]. unfold in_zone. tauto.
Qed.

(** The same with nothing put behind them. *)
Lemma print_plain_ok fuel ps props (l : list Z) out m :
  at_stream base cap out ps m → writable m frame 26 → bytes_at m frame l →
  Forall (λ c, 0 < c < 128) l → (length l < 26)%nat → (26 ≤ fuel)%nat →
  - 2 ^ 31 ≤ npad props < 2 ^ 31 →
  Z.of_nat (length out) + Z.of_nat (length (pad_text props (rev l))) < 2 ^ 31 →
  ∃ p1 m1, (reverse_buf frame (frame + Z.of_nat (length l));; wrb (frame + Z.of_nat (length l)) 0;;
      print_str fuel ps frame props) m = Done (p1, m1) ∧
    at_stream base cap (out ++ pad_text props (rev l)) p1 m1 ∧ same_but in_zone m m1.
Proof.
  intros. pose proof (print_pushed_ok fuel ps props l [] out m) as Hpp. rewrite app_nil_r in Hpp.
  cbn [length put_bytes] in Hpp. rewrite Z.add_0_r in Hpp. apply Hpp; try done. lia.
Qed.

Lemma emits_from f out l m m' :
  same_but in_frame m m' → (∃ p1 m1, f m = Done (p1, m1) ∧ at_stream base cap (out ++ l) p1 m1 ∧ same_but in_zone m' m1) →
  emits base cap in_zone f out l m.
Proof.
  intros HS (p1 & m1 & E & A & S1). exists p1, m1. split; [done|]. split; [done|].
  apply (same_but_trans _ _ m'); [|done]. eapply same_but_weaken; [|exact HS]. unfold in_zone. tauto.
Qed.

Lemma print_int_ok fuel ps n props out m :
  at_stream base cap out ps m → - 2 ^ 63 < n < 2 ^ 63 → (26 ≤ fuel)%nat → - 2 ^ 31 ≤ npad props < 2 ^ 31 →
  Z.of_nat (length out) + Z.of_nat (length (int_text props n)) < 2 ^ 31 →
  emits base cap in_zone (print_int frame junk fuel ps n 10 props) out (int_text props n) m.
Proof.
  intros Ha Hn Hf Hp Hlen.
  destruct (enter_digits_ok fuel (Z.abs n) 10 26 out ps m
    (λ p, p ← (if negb ((if n <? 0 then 1 else 0) =? 0) then wrb p 45;; mret (p + 1) else mret p);
       p ← (if p =? frame then wrb p 48;; mret (p + 1) else mret p);
       reverse_buf frame p;; wrb p 0;; print_str fuel ps frame props))
    as (E & Hl & Hw & Hb & Ha2 & HS); try done; try lia.
  set (l := digit_char <$> lsd_digits 20 10 (Z.abs n)) in *.
  set (m2 := put_bytes frame l _) in *.
  assert (Forall (λ c, 0 < c < 128) l) as Hlc by (apply lsd_chars_ok; lia).
  assert (l = [] ↔ n = 0) as Hz.
  { rewrite <- Z.abs_0_iff, <- (lsd_digits_zero 20 10) by lia. unfold l. split; [apply fmap_nil_inv|by intros ->]. }
  apply (emits_from _ _ _ _ m2 HS).
  assert (print_int frame junk fuel ps n 10 props m =
    (p ← (if negb ((if n <? 0 then 1 else 0) =? 0) then wrb (frame + Z.of_nat (length l)) 45;;
            mret (frame + Z.of_nat (length l) + 1) else mret (frame + Z.of_nat (length l)));
     p ← (if p =? frame then wrb p 48;; mret (p + 1) else mret p);
     reverse_buf frame p;; wrb p 0;; print_str fuel ps frame props) m2) as ->.
  { rewrite <- E. unfold print_int, enter. rewrite !bind_modify. destruct (Z.ltb_spec n 0).
    - rewrite long_ok_small by lia. rewrite stM_bind_assoc, bind_lift_Done, bind_mret. by rewrite Z.abs_neq by lia.
    - rewrite bind_mret. by rewrite Z.abs_eq by lia. }
  unfold int_text in *. destruct (Z.ltb_spec n 0) as [Hneg|Hneg].
  - change (1 =? 0) with false. cbn [negb].
    rewrite stM_bind_assoc, bind_wrb by (apply Hw; lia). rewrite bind_mret.
    rewrite (proj2 (Z.eqb_neq _ frame)), bind_mret by lia. rewrite (proj2 (Z.eqb_neq n 0)) in Hlen |- * by lia.
    assert ([45] ++ num_chars 10 (Z.abs n) = rev (l ++ [45])) as Ert
      by (rewrite rev_app_distr, <- rev_lsd_chars; done).
    rewrite Ert in Hlen |- *. apply (print_pushed_ok fuel ps props l [45]); try done; [|cbn [length]; lia].
    apply Forall_app. split; [done|]. repeat constructor; lia.
  - change (0 =? 0) with true. cbn [negb]. rewrite bind_mret.
    destruct (Z.eqb_spec n 0) as [->|Hne].
    + rewrite (proj2 Hz eq_refl) in *. cbn [length] in *. rewrite Z.add_0_r, Z.eqb_refl.
      rewrite stM_bind_assoc, bind_wrb by (apply Hw; lia). rewrite bind_mret.
      pose proof (print_pushed_ok fuel ps props [] [48] out m2) as Hpp. cbn [length app] in Hpp.
      rewrite !Z.add_0_r in Hpp. apply Hpp; try done; [|cbn [length]; lia]. repeat constructor; lia.
    + assert (l ≠ []) as Hne' by tauto. assert (0 < Z.of_nat (length l)) by (destruct l; [done|cbn; lia]).
      rewrite (proj2 (Z.eqb_neq _ frame)), bind_mret by lia. cbn [app] in *.
      rewrite <- rev_lsd_chars in Hlen |- *. fold l in Hlen |- *.
      apply print_plain_ok; try done. lia.
Qed.
Lemma bytes_at_buf m m' l : bytes_at m frame l → (length l ≤ 27)%nat → same_but (in_buf base cap) m m' → bytes_at m' frame l.
Proof.
  intros Hb Hl HS. apply (bytes_at_frame m); [done|]. intros a Ha. apply HS. unfold in_buf. lia.
Qed.
Lemma writable_buf m m' n : writable m frame n → n ≤ 27 → same_but (in_buf base cap) m m' → writable m' frame n.
Proof. intros Hw Hn HS a Ha. rewrite HS; [by apply Hw|]. unfold in_buf. lia. Qed.
Lemma in_buf_zone m m' : same_but (in_buf base cap) m m' → same_but in_zone m m'.
Proof. apply same_but_weaken. unfold in_zone. tauto. Qed.

(** The prefix of a zero-padded hexadecimal number goes to the stream at once. *)
Lemma hex_prefix_ok {A B} ps out m (h : pstream → A) (g : A → stM bmem B) :
  at_stream base cap out ps m → Z.of_nat (length out) + 2 < 2 ^ 31 →
  ∃ p' m', ((ps ← addchar ps 48; ps ← addchar ps 120; mret (h ps)) ≫= g) m = g (h p') m' ∧
    at_stream base cap (out ++ [48; 120]) p' m' ∧ same_but (in_buf base cap) m m'.
Proof.
  intros Ha Hl. destruct (addchar_ok base cap Hcap ps 48 out m Ha ltac:(lia)) as (p1 & m1 & E1 & A1 & S1).
  destruct (addchar_ok base cap Hcap p1 120 _ m1 A1 ltac:(rewrite length_app; cbn [length]; lia))
    as (p2 & m2 & E2 & A2 & S2).
  exists p2, m2. split.
  { by rewrite stM_bind_assoc, (stM_bind_Done _ _ _ _ _ E1), stM_bind_assoc, (stM_bind_Done _ _ _ _ _ E2). }
  rewrite <- app_assoc in A2. split; [done|]. by apply (same_but_trans _ _ m1).
Qed.

Lemma print_unsigned_ok fuel ps n b props out m :
  at_stream base cap out ps m → 0 ≤ n < 2 ^ 64 → b = 10 ∨ b = 16 → (26 ≤ fuel)%nat →
  - 2 ^ 31 ≤ npad props < 2 ^ 31 →
  Z.of_nat (length out) + Z.of_nat (length (uint_text b props n)) < 2 ^ 31 →
  emits base cap in_zone (print_unsigned frame junk fuel ps n b props) out (uint_text b props n) m.
Proof.
  intros Ha Hn Hb Hf Hp Hlen.
  assert (0 ≤ n < b ^ 20) as Hn' by (destruct Hb as [-> | ->]; lia).
  destruct (enter_digits_ok fuel n b 27 out ps m
    (λ p, '(ps, p, props) ←
        (if p =? frame then wrb p 48;; mret (ps, p + 1, props)
         else if alternate props && (b =? 16) then
           if pad props =? 48 then
             ps ← addchar ps 48;
             ps ← addchar ps 120;
             mret (ps, p, if 0 <? npad props then set_npad (c_MAX (npad props - 2) 0) props else props)
           else wrb p 120;; wrb (p + 1) 48;; mret (ps, p + 2, props)
         else mret (ps, p, props));
       reverse_buf frame p;; wrb p 0;; print_str fuel ps frame props))
    as (E & Hl & Hw & Hbt & Ha2 & HS); try done; try lia.
  set (l := digit_char <$> lsd_digits 20 b n) in *. set (m2 := put_bytes frame l _) in *.
  assert (Forall (λ c, 0 < c < 128) l) as Hlc by (apply lsd_chars_ok; lia).
  assert (l = [] ↔ n = 0) as Hz.
  { rewrite <- (lsd_digits_zero 20 b) by lia. unfold l. split; [apply fmap_nil_inv|by intros ->]. }
  assert (writable m2 frame 26) as Hw' by (apply (writable_weaken _ _ _ _ _ Hw); lia).
  apply (emits_from _ _ _ _ m2 HS). unfold print_unsigned, enter in *. rewrite E. clear E.
  unfold uint_text in *. destruct (Z.eqb_spec n 0) as [->|Hne].
  { rewrite (proj2 Hz eq_refl) in *. cbn [length]. rewrite Z.add_0_r, Z.eqb_refl.
    rewrite stM_bind_assoc, bind_wrb by (apply Hw; lia). rewrite bind_mret.
    pose proof (print_pushed_ok fuel ps props [] [48] out m2) as Hpp. cbn [length app] in Hpp.
    rewrite !Z.add_0_r in Hpp. apply Hpp; try done; [|cbn [length]; lia]. repeat constructor; lia. }
  assert (l ≠ []) as Hne' by tauto. assert (0 < Z.of_nat (length l)) by (destruct l; [done|cbn [length]; lia]).
  rewrite (proj2 (Z.eqb_neq _ frame)) by lia. rewrite <- rev_lsd_chars in Hlen |- *. fold l in Hlen |- *.
  destruct (alternate props && (b =? 16)); [destruct (pad props =? 48)|].
  - rewrite length_app in Hlen. cbn [length] in Hlen.
    set (props' := if 0 <? npad props then _ else props) in *.
    destruct (hex_prefix_ok ps out m2 (λ ps, (ps, frame + Z.of_nat (length l), props'))
      (λ '(ps, p, props), reverse_buf frame p;; wrb p 0;; print_str fuel ps frame props))
      as (p3 & m3 & E3 & A3 & S3); [done|lia|].
    destruct (print_plain_ok fuel p3 props' l (out ++ [48; 120]) m3) as (p4 & m4 & E4 & A4 & S4); try done; [| |lia| | |].
    + by apply (writable_buf m2).
    + by apply (bytes_at_buf m2); [|lia|].
    + unfold props', c_MAX. destruct (Z.ltb_spec 0 (npad props)); [|done]. cbn [npad set_npad].
      destruct (0 <? npad props - 2) eqn:E0; lia.
    + rewrite length_app. cbn [length]. lia.
    + exists p4, m4. rewrite <- app_assoc in A4. split; [|split; [exact A4|]].
      * etransitivity; [exact E3|]. exact E4.
      * eapply same_but_trans; [|exact S4]. by apply in_buf_zone.
  - rewrite stM_bind_assoc, bind_wrb by (apply Hw; lia).
    rewrite stM_bind_assoc, bind_wrb by (apply (writable_put (frame + Z.of_nat (length l)) [u8 120] _ _ _ Hw); lia).
    rewrite bind_mret.
    assert ([48; 120] ++ rev l = rev (l ++ [120; 48])) as Ert by by rewrite rev_app_distr.
    rewrite Ert in Hlen |- *. pose proof (print_pushed_ok fuel ps props l [120; 48] out m2) as Hpp2.
    cbn [length put_bytes] in Hpp2. apply Hpp2; try done; [|lia].
    apply Forall_app. split; [done|]. repeat constructor; lia.
  - rewrite bind_mret. apply print_plain_ok; try done. lia.
Qed.
End numbers.

(** ** Formats *)
Inductive conv : Set := conv_d | conv_u | conv_x | conv_p | conv_s | conv_c.
Definition conv_char (c : conv) : Z :=
  match c with conv_d => 100 | conv_u => 117 | conv_x => 120 | conv_p => 112 | conv_s => 115 | conv_c => 99 end.
(** A directive: '#', '0', '-', the digits of the width, 'l's, the conversion. *)
Record directive := Directive {
  d_alt : bool; d_zero : bool; d_left : bool; d_width : list Z; d_long : nat; d_conv : conv
}.
(** What a format is made of; a directive comes with its argument word and, for
    '%s', the string that the word points to. *)
Inductive item := Lit (c : Z) | Percent | Dir (d : directive) (w : Z) (str : list Z).

Definition opt_char (b : bool) (c : Z) : list Z := if b then [c] else [].
Definition width_chars (d : directive) : list Z := opt_char (d_left d) 45 ++ ((λ x, 48 + x) <$> d_width d).
Definition dir_chars (d : directive) : list Z :=
  opt_char (d_alt d) 35 ++ opt_char (d_zero d) 48 ++ width_chars d ++ replicate (d_long d) 108 ++ [conv_char (d_conv d)].
Definition item_chars (i : item) : list Z :=
  match i with Lit c => [c] | Percent => [37; 37] | Dir d _ _ => 37 :: dir_chars d end.
Definition item_words (i : item) : list Z := match i with Dir _ w _ => [w] | _ => [] end.

Definition dir_props (d : directive) : strprops :=
  let v := digits_value 10 (d_width d) in
  StrProps (if d_zero d then 48 else 32) (if d_left d then - v else v) (d_alt d).
Definition dir_text (d : directive) (w : Z) (str : list Z) : list Z :=
  let props := dir_props d in
  let short := (d_long d =? 0)%nat in
  match d_conv d with
  | conv_d => int_text props (if short then s32 w else s64 w)
  | conv_u => uint_text 10 props (if short then u32 w else u64 w)
  | conv_x => uint_text 16 props (if short then u32 w else u64 w)
  | conv_p => uint_text 16 (set_alternate true props) (u64 w)
  | conv_s => pad_text props str
  | conv_c => [u8 (s32 w)]
  end.
Definition item_text (i : item) : list Z :=
  match i with Lit c => [c] | Percent => [37] | Dir d w str => dir_text d w str end.

(** A width has digits if '0' or '-' announces it, and does not begin with 0 otherwise. *)
Definition dir_ok (d : directive) : Prop :=
  Forall (λ x, 0 ≤ x < 10) (d_width d) ∧ digits_value 10 (d_width d) < 2 ^ 31 ∧
  (if d_zero d || d_left d then d_width d ≠ [] else hd 1 (d_width d) ≠ 0).

Section formats.
Context (base cap frame : Z) (junk : Z → Z).
Hypothesis Hcap : 0 ≤ cap < 2 ^ 31.
Hypothesis Hframe : frame + 27 ≤ base ∨ base + cap ≤ frame.
Abbreviation zone := (in_zone base cap frame).

Lemma num_len_ok fuel m f ds rest len :
  str_at m f (((λ x, 48 + x) <$> ds) ++ rest) → Forall (λ x, 0 ≤ x < 10) ds → stops rest →
  (length ds < fuel)%nat → 0 ≤ len → len + Z.of_nat (length ds) < 2 ^ 31 →
  num_len fuel f len m = Done (len + Z.of_nat (length ds), m).
Proof.
  intros Hs Hd Hr. revert f ds len Hs Hd. induction fuel as [|fu IH]; intros f ds len Hs Hd Hf H0 Hl; [lia|].
  cbn [num_len]. destruct ds as [|d ds]; cbn [fmap list_fmap app length] in *.
  - destruct (str_at_hd _ _ _ Hs) as [E Hb]. rewrite (bind_rdc _ _ _ _ E), Z.add_0_r.
    destruct rest as [|c rest]; [done|]. apply str_at_cons in Hs as [[Hc _] _]. cbn [hd] in *.
    pose proof (s8_digit c Hc) as Hsd. destruct ((48 <=? s8 c) && (s8 c <=? 57)) eqn:Ed; [|done].
    exfalso. apply Hr. apply andb_true_iff in Ed as [Ea%Z.leb_le Eb%Z.leb_le].
    rewrite (proj2 (Z.ltb_ge _ _) Ea), (proj2 (Z.ltb_ge _ _) Eb) in Hsd. cbn in Hsd. symmetry in Hsd.
    apply negb_false_iff, andb_true_iff in Hsd as [?%Z.leb_le ?%Z.leb_le]. by split.
  - apply str_at_cons in Hs as [[Hc E] Hs]. apply Forall_cons in Hd as [Hd0 Hd].
    rewrite (bind_rdc _ _ _ _ E), s8_small by lia.
    rewrite (proj2 (Z.leb_le 48 _)), (proj2 (Z.leb_le _ 57)) by lia. cbn [andb].
    rewrite s32_small, (IH (f + 1) ds) by (done || lia). f_equal. f_equal. lia.
Qed.

Lemma digits_value_nonneg ds : Forall (λ x, 0 ≤ x < 10) ds → 0 ≤ digits_value 10 ds.
Proof. intros Hd. by apply (digits_value_range 10 ds). Qed.

Lemma fmtnum_ok fuel m fmt left ds rest :
  str_at m fmt (opt_char left 45 ++ ((λ x, 48 + x) <$> ds) ++ rest) → Forall (λ x, 0 ≤ x < 10) ds → ds ≠ [] →
  stops rest → digits_value 10 ds < 2 ^ 31 → (length ds < fuel)%nat → Z.of_nat (length ds) + 1 < 2 ^ 31 →
  fmtnum fuel fmt m =
  Done ((if left then - digits_value 10 ds else digits_value 10 ds,
         fmt + Z.of_nat (length (opt_char left 45 ++ ((λ x, 48 + x) <$> ds)))), m).
Proof.
  intros Hs Hd Hne Hr Hv Hf Hl. pose proof (digits_value_nonneg ds Hd) as Hv0.
  assert (atol fuel m fmt = Done (if left then - digits_value 10 ds else digits_value 10 ds)) as Ea.
  { replace (if left then _ else _) with (sign_val (if left then s_minus else s_none) (digits_value 10 ds)) by by destruct left.
    apply (atol_ok fuel m fmt []  _ ds rest); try done; [by destruct left|cbn [length]; lia|lia]. }
  unfold fmtnum. destruct (str_at_hd _ _ _ Hs) as [E Hb]. rewrite (bind_rdc _ _ _ _ E).
  assert (hd 0 (opt_char left 45 ++ ((λ x, 48 + x) <$> ds) ++ rest) = 45 ↔ left = true) as Hhd.
  { destruct left; [done|]. destruct ds as [|d ds]; [done|]. apply Forall_cons in Hd as [? _]. cbn. lia. }
  rewrite s8_eqb_ascii by (done || lia).
  assert ((if hd 0 (opt_char left 45 ++ ((λ x, 48 + x) <$> ds) ++ rest) =? 45
           then num_len fuel (fmt + 1) 1 else num_len fuel fmt 0) m =
          Done (Z.of_nat (length (opt_char left 45 ++ ((λ x, 48 + x) <$> ds))), m)) as En.
  { rewrite length_app, length_fmap. destruct (Z.eqb_spec (hd 0 (opt_char left 45 ++ ((λ x, 48 + x) <$> ds) ++ rest)) 45) as [E45|E45].
    - rewrite (proj1 Hhd E45) in *. cbn [opt_char app length] in *. apply str_at_cons in Hs as [_ Hs].
      rewrite (num_len_ok _ _ _ ds rest) by (done || lia). f_equal. f_equal. lia.
    - destruct left; [by destruct E45|]. cbn [opt_char app length] in *.
      by rewrite (num_len_ok _ _ _ ds rest) by (done || lia). }
  rewrite (stM_bind_Done _ _ _ _ _ En). unfold c_atol, mbind at 1, stM_bind. rewrite Ea.
  cbn [mbind outcome_bind mret outcome_ret]. rewrite s32_small by (destruct left; lia). done.
Qed.

Section flags.
Context (fu : nat) (fmt : Z) (ps : pstream) (va : list Z) (nl : Z) (props : strprops) (m : bmem).
Abbreviation more := (morefmt frame junk).

Lemma more_alt : m !! fmt = Some 35 →
  more (S fu) fmt ps va nl props m = more fu (fmt + 1) ps va nl (set_alternate true props) m.
Proof. intros E. cbn [morefmt]. by rewrite (bind_rdc _ _ _ _ E). Qed.
Lemma more_long : m !! fmt = Some 108 →
  more (S fu) fmt ps va nl props m = more fu (fmt + 1) ps va (nl + 1) props m.
Proof. intros E. cbn [morefmt]. by rewrite (bind_rdc _ _ _ _ E). Qed.

Lemma more_zero left ds rest :
  str_at m fmt (48 :: opt_char left 45 ++ ((λ x, 48 + x) <$> ds) ++ rest) → Forall (λ x, 0 ≤ x < 10) ds → ds ≠ [] →
  stops rest → digits_value 10 ds < 2 ^ 31 → (length ds < S fu)%nat → Z.of_nat (length ds) + 1 < 2 ^ 31 →
  more (S fu) fmt ps va nl props m =
  more fu (fmt + 1 + Z.of_nat (length (opt_char left 45 ++ ((λ x, 48 + x) <$> ds)))) ps va nl
    (set_npad (if left then - digits_value 10 ds else digits_value 10 ds) (set_pad 48 props)) m.
Proof.
  intros Hs. apply str_at_cons in Hs as [[_ E] Hs]. intros. cbn [morefmt]. rewrite (bind_rdc _ _ _ _ E).
  change (s8 48) with 48. replace (fmt + 1 + 1 - 1) with (fmt + 1) by lia.
  cbn [Z.eqb Pos.eqb]. by rewrite (stM_bind_Done _ _ _ _ _ (fmtnum_ok (S fu) m (fmt + 1) left ds rest Hs ltac:(done) ltac:(done) ltac:(done) ltac:(done) ltac:(done) ltac:(done))).
Qed.

Lemma more_width left ds rest :
  str_at m fmt (opt_char left 45 ++ ((λ x, 48 + x) <$> ds) ++ rest) → Forall (λ x, 0 ≤ x < 10) ds → ds ≠ [] →
  left = true ∨ hd 1 ds ≠ 0 →
  stops rest → digits_value 10 ds < 2 ^ 31 → (length ds < S fu)%nat → Z.of_nat (length ds) + 1 < 2 ^ 31 →
  more (S fu) fmt ps va nl props m =
  more fu (fmt + Z.of_nat (length (opt_char left 45 ++ ((λ x, 48 + x) <$> ds)))) ps va nl
    (set_npad (if left then - digits_value 10 ds else digits_value 10 ds) props) m.
Proof.
  intros Hs Hd Hne Hh Hr Hv Hf Hl. destruct (str_at_hd _ _ _ Hs) as [E _]. cbn [morefmt]. rewrite (bind_rdc _ _ _ _ E).
  pose proof (stM_bind_Done _ (λ '(n, fmt), more fu fmt ps va nl (set_npad n props)) _ _ _
    (fmtnum_ok (S fu) m fmt left ds rest Hs Hd Hne Hr Hv Hf Hl)) as En.
  replace (fmt + 1 - 1) with fmt by lia.
  assert (∃ c, hd 0 (opt_char left 45 ++ ((λ x, 48 + x) <$> ds) ++ rest) = c ∧ (c = 45 ∨ 49 ≤ c ≤ 57)) as (c & -> & Hc).
  { destruct left; [by exists 45; split; [|left]|]. destruct Hh as [|Hh]; [done|]. destruct ds as [|d ds]; [done|].
    apply Forall_cons in Hd as [? _]. eexists. split; [done|]. cbn in Hh |- *. right. lia. }
  assert (c = 45 ∨ c = 49 ∨ c = 50 ∨ c = 51 ∨ c = 52 ∨ c = 53 ∨ c = 54 ∨ c = 55 ∨ c = 56 ∨ c = 57) as Hc' by lia.
  destruct Hc' as [->|[->|[->|[->|[->|[->|[->|[->|[->| ->]]]]]]]]]; exact En.
Qed.
End flags.

Lemma more_longs n fu fmt ps va nl props m rest :
  str_at m fmt (replicate n 108 ++ rest) →
  morefmt frame junk (n + fu) fmt ps va nl props m =
  morefmt frame junk fu (fmt + Z.of_nat n) ps va (nl + Z.of_nat n) props m.
Proof.
  revert fmt nl. induction n as [|n IH]; intros fmt nl Hs; [by rewrite !Z.add_0_r|].
  cbn [replicate app Nat.add] in *. apply str_at_cons in Hs as [[_ E] Hs]. rewrite more_long by done.
  rewrite IH by done. f_equal; lia.
Qed.

(** The argument of a directive is usable: no [long] without an absolute value, and
    a string that the output does not touch. *)
Definition arg_ok (m : bmem) (d : directive) (w : Z) (str : list Z) : Prop :=
  match d_conv d with
  | conv_d => d_long d ≠ 0%nat → s64 w ≠ - 2 ^ 63
  | conv_s => str_in zone m (u64 w) str ∧ Z.of_nat (length str) < 2 ^ 31
  | _ => True
  end.

Lemma signed_range w x : 0 < w → - 2 ^ (w - 1) ≤ signed w x < 2 ^ (w - 1).
Proof.
  intros Hw. unfold signed. assert (2 ^ w = 2 * 2 ^ (w - 1)) as E.
  { rewrite <- (Z.pow_succ_r 2 (w - 1)) by lia. f_equal. lia. }
  pose proof (Z.mod_pos_bound x (2 ^ w) ltac:(apply Z.pow_pos_nonneg; lia)).
  destruct (Z.ltb_spec (x mod 2 ^ w) (2 ^ (w - 1))); lia.
Qed.

(** One conversion. *)
Lemma more_conv fu fmt ps d w str va out m :
  at_stream base cap out ps m → m !! fmt = Some (conv_char (d_conv d)) → arg_ok m d w str → dir_ok d →
  (26 + length str < S fu)%nat →
  Z.of_nat (length out) + Z.of_nat (length (dir_text d w str)) < 2 ^ 31 →
  ∃ ps' m', morefmt frame junk (S fu) fmt ps (w :: va) (Z.of_nat (d_long d)) (dir_props d) m =
      Done ((fmt + 1, ps', va), m') ∧
    at_stream base cap (out ++ dir_text d w str) ps' m' ∧ same_but zone m m'.
Proof.
  intros Ha E Harg (Hd & Hv & _) Hf Hl.
  pose proof (digits_value_nonneg _ Hd) as Hv0.
  assert (- 2 ^ 31 ≤ npad (dir_props d) < 2 ^ 31) as Hp by (cbn [dir_props npad]; destruct (d_left d); lia).
  assert ((Z.of_nat (d_long d) =? 0) = (d_long d =? 0)%nat) as Enl.
  { destruct (Nat.eqb_spec (d_long d) 0), (Z.eqb_spec (Z.of_nat (d_long d)) 0); lia || done. }
  cbn [morefmt]. rewrite (bind_rdc _ _ _ _ E). unfold dir_text, arg_ok in *. rewrite Enl.
  pose proof (u64_range w) as R64. pose proof (u32_range w) as R32. unfold in_u64, in_u32 in *.
  assert (∀ P f l, (∀ a, P a → zone a) → emits base cap P f out l m →
    ∃ ps' m', (ps ← f; mret (fmt + 1, ps, va)) m = Done ((fmt + 1, ps', va), m') ∧
      at_stream base cap (out ++ l) ps' m' ∧ same_but zone m m') as Hem.
  { intros P f l HP (p & m' & Ef & A & S). exists p, m'. rewrite (stM_bind_Done _ _ _ _ _ Ef).
    split; [done|]. split; [done|]. by apply (same_but_weaken P). }
  assert (∀ a, in_buf base cap a → zone a) as Hbz by (unfold in_zone; tauto).
  destruct (d_conv d).
  - destruct (Nat.eqb_spec (d_long d) 0) as [El|El].
    + apply (Hem zone (print_int frame junk (S fu) ps (s32 w) 10 (dir_props d))); [done|].
      pose proof (signed_range 32 w ltac:(lia)). apply print_int_ok; try done; [unfold s32; lia|lia].
    + apply (Hem zone (print_int frame junk (S fu) ps (s64 w) 10 (dir_props d))); [done|].
      pose proof (signed_range 64 w ltac:(lia)). specialize (Harg El).
      apply print_int_ok; try done; [unfold s64 in *; lia|lia].
  - destruct (Nat.eqb_spec (d_long d) 0).
    + apply (Hem zone (print_unsigned frame junk (S fu) ps (u32 w) 10 (dir_props d))); [done|].
      apply print_unsigned_ok; try done; [lia|by left|lia].
    + apply (Hem zone (print_unsigned frame junk (S fu) ps (u64 w) 10 (dir_props d))); [done|].
      apply print_unsigned_ok; try done; [by left|lia].
  - destruct (Nat.eqb_spec (d_long d) 0).
    + apply (Hem zone (print_unsigned frame junk (S fu) ps (u32 w) 16 (dir_props d))); [done|].
      apply print_unsigned_ok; try done; [lia|by right|lia].
    + apply (Hem zone (print_unsigned frame junk (S fu) ps (u64 w) 16 (dir_props d))); [done|].
      apply print_unsigned_ok; try done; [by right|lia].
  - apply (Hem zone (print_unsigned frame junk (S fu) ps (u64 w) 16 (set_alternate true (dir_props d)))); [done|].
    apply print_unsigned_ok; try done; [by right|lia].
  - destruct Harg as [Hs Hls]. apply (Hem (in_buf base cap) (print_str (S fu) ps (u64 w) (dir_props d))); [done|].
    apply print_str_ok; try done; [|lia]. by apply (str_in_weaken zone).
  - apply (Hem (in_buf base cap) (addchar ps (s32 w))); [done|]. apply addchar_ok; [done|done|]. cbn in Hl. lia.
Qed.

(** A directive up to its conversion: the flags are read into the properties. *)
Lemma more_flags d fu fmt ps va m rest :
  str_at m fmt (dir_chars d ++ rest) → dir_ok d → (length (d_width d) < fu)%nat →
  Z.of_nat (length (d_width d)) + 1 < 2 ^ 31 →
  ∃ fu', (fu ≤ fu')%nat ∧
    morefmt frame junk (fu + length (dir_chars d)) fmt ps va 0 (StrProps 32 0 false) m =
    morefmt frame junk (S fu') (fmt + Z.of_nat (length (dir_chars d)) - 1) ps va (Z.of_nat (d_long d)) (dir_props d) m.
Proof.
  destruct d as [alt zero left ds nl c]. unfold dir_chars, dir_ok, dir_props, width_chars.
  cbn [d_alt d_zero d_left d_width d_long d_conv]. intros Hs (Hd & Hv & Hw) Hf Hl.
  set (tail := replicate nl 108 ++ [conv_char c] ++ rest).
  assert (stops tail) as Hst.
  { unfold tail. destruct nl; [destruct c|]; cbn; unfold is_digit; lia. }
  set (wd := opt_char left 45 ++ ((λ x, 48 + x) <$> ds)) in *.
  rewrite <- !app_assoc in Hs. fold tail in Hs.
  rewrite !length_app, length_replicate. cbn [length].
  (* the alternate flag *)
  assert (∃ fu1, fu1 = (fu + (length (opt_char zero 48) + (length wd + (nl + 1))))%nat ∧
    morefmt frame junk (fu + (length (opt_char alt 35) + (length (opt_char zero 48) + (length wd + (nl + 1))))) fmt ps va 0
      (StrProps 32 0 false) m =
    morefmt frame junk fu1 (fmt + Z.of_nat (length (opt_char alt 35))) ps va 0 (StrProps 32 0 alt) m ∧
    str_at m (fmt + Z.of_nat (length (opt_char alt 35))) (opt_char zero 48 ++ wd ++ tail)) as (fu1 & -> & -> & Hs1).
  { eexists. split; [done|]. destruct alt; cbn [opt_char length app] in *.
    - apply str_at_cons in Hs as [[_ E] Hs]. rewrite Nat.add_succ_r, more_alt by done. by split.
    - by rewrite Z.add_0_r. }
  (* zero padding and the width *)
  assert (∃ fu2, (fu + nl + 1 ≤ fu2)%nat ∧
    morefmt frame junk (fu + (length (opt_char zero 48) + (length wd + (nl + 1)))) (fmt + Z.of_nat (length (opt_char alt 35))) ps va 0
      (StrProps 32 0 alt) m =
    morefmt frame junk fu2 (fmt + Z.of_nat (length (opt_char alt 35)) + Z.of_nat (length (opt_char zero 48)) + Z.of_nat (length wd)) ps va 0
      (StrProps (if zero then 48 else 32) (if left then - digits_value 10 ds else digits_value 10 ds) alt) m) as (fu2 & Hfu2 & ->).
  { destruct zero; cbn [opt_char length app orb] in *.
    - unfold wd in Hs1. rewrite <- app_assoc in Hs1.
      exists (fu + (length wd + (nl + 1)))%nat. split; [lia|]. rewrite Nat.add_succ_r.
      rewrite (more_zero _ _ _ _ _ _ _ left ds tail) by (done || lia). reflexivity.
    - destruct (decide (wd = [])) as [Ewd|Ewd].
      + rewrite Ewd. cbn [length]. rewrite !Z.add_0_r. exists (fu + (nl + 1))%nat. split; [lia|].
        unfold wd in Ewd. destruct left; [done|]. apply app_eq_nil in Ewd as [_ ->%fmap_nil_inv]. done.
      + exists (fu + (length wd + (nl + 1)) - 1)%nat.
        assert (0 < length wd)%nat by (destruct wd; [done|cbn; lia]). split; [lia|].
        replace (fu + (0 + (length wd + (nl + 1))))%nat with (S (fu + (length wd + (nl + 1)) - 1)) by lia.
        unfold wd in Hs1. rewrite <- app_assoc in Hs1.
        rewrite (more_width _ _ _ _ _ _ _ left ds tail); try done; try lia.
        * by rewrite Z.add_0_r.
        * destruct left; [done|]. unfold wd in Ewd. intros ->. by apply Ewd.
        * destruct left; [by left|by right]. }
  (* the length modifiers *)
  exists (fu2 - nl - 1)%nat. split; [lia|].
  replace fu2 with (nl + (S (fu2 - nl - 1)))%nat at 1 by lia.
  rewrite (more_longs nl _ _ _ _ _ _ _ ([conv_char c] ++ rest)).
  - f_equal; lia.
  - fold tail. rewrite app_assoc in Hs1.
    pose proof (str_at_drop m _ ((opt_char zero 48 ++ wd) ++ tail) (length (opt_char zero 48 ++ wd))
      ltac:(rewrite (length_app _ tail); lia) Hs1) as Hd1.
    rewrite drop_app_length, length_app, Nat2Z.inj_add, Z.add_assoc in Hd1. exact Hd1.
Qed.

Definition item_ok (m : bmem) (i : item) : Prop :=
  match i with
  | Lit c => 0 < c < 256 ∧ c ≠ 37
  | Percent => True
  | Dir d w str => dir_ok d ∧ arg_ok m d w str
  end.
Definition fmt_chars (l : list item) : list Z := l ≫= item_chars.
Definition fmt_words (l : list item) : list Z := l ≫= item_words.
Definition fmt_text (l : list item) : list Z := l ≫= item_text.
Definition item_str (i : item) : list Z := match i with Dir _ _ str => str | _ => [] end.

Lemma item_ok_same m m' i : item_ok m i → same_but zone m m' → item_ok m' i.
Proof.
  destruct i as [| |d w str]; [done|done|]. intros [Hd Ha] HS. split; [done|]. unfold arg_ok in *.
  destruct (d_conv d); try done. destruct Ha as [Hs Hl]. split; [|done]. by apply (str_in_same zone m).
Qed.

(** One directive. *)
Lemma directive_ok d w str inner fmt ps va out rest m :
  at_stream base cap out ps m → str_at m fmt (dir_chars d ++ rest) → dir_ok d → arg_ok m d w str →
  (length (dir_chars d) + length (d_width d) + 27 + length str < inner)%nat → Z.of_nat inner < 2 ^ 31 →
  Z.of_nat (length out) + Z.of_nat (length (dir_text d w str)) < 2 ^ 31 →
  ∃ ps' m', morefmt frame junk inner fmt ps (w :: va) 0 (StrProps 32 0 false) m =
      Done ((fmt + Z.of_nat (length (dir_chars d)), ps', va), m') ∧
    at_stream base cap (out ++ dir_text d w str) ps' m' ∧ same_but zone m m'.
Proof.
  intros Ha Hs Hd Harg Hf Hf31 Hl.
  destruct (more_flags d (inner - length (dir_chars d)) fmt ps (w :: va) m rest Hs Hd) as (fu' & Hfu & E); [lia|lia|].
  rewrite Nat.sub_add in E by lia. rewrite E.
  set (q := fmt + Z.of_nat (length (dir_chars d)) - 1).
  replace (fmt + Z.of_nat (length (dir_chars d))) with (q + 1) by (unfold q; lia).
  apply more_conv; try done; [|lia]. unfold q.
  assert (dir_chars d = (opt_char (d_alt d) 35 ++ opt_char (d_zero d) 48 ++ width_chars d ++ replicate (d_long d) 108)
    ++ [conv_char (d_conv d)]) as Ec by (unfold dir_chars; by rewrite <- !app_assoc).
  rewrite Ec in Hs |- *. rewrite <- app_assoc in Hs. apply str_at_bytes, bytes_at_app in Hs as [_ [Hc _]].
  rewrite length_app. cbn [length app] in *.
  match goal with |- m !! ?a = _ => match type of Hc with m !! ?b = _ => replace a with b by lia end end. exact Hc.
Qed.

Lemma vsnprintf_loop_ok inner items : ∀ fuel fmt ps va out m,
  at_stream base cap out ps m → str_in zone m fmt (fmt_chars items) → Forall (item_ok m) items →
  (length (fmt_chars items) < fuel)%nat → Z.of_nat inner < 2 ^ 31 →
  Forall (λ i, 2 * length (item_chars i) + 27 + length (item_str i) < inner)%nat items →
  Z.of_nat (length out) + Z.of_nat (length (fmt_text items)) < 2 ^ 31 →
  ∃ ps' m', vsnprintf_loop frame junk fuel inner fmt ps (fmt_words items ++ va) m = Done (ps', m') ∧
    at_stream base cap (out ++ fmt_text items) ps' m' ∧ same_but zone m m'.
Proof.
  induction items as [|i items IH]; intros fuel fmt ps va out m Ha Hs Hok Hf Hin31 Hin Hl.
  - destruct Hs as [Hs _]. apply str_at_nil in Hs. destruct fuel as [|fuel]; [cbn in Hf; lia|]. cbn [vsnprintf_loop].
    rewrite (bind_rdc _ _ _ _ Hs). exists ps, m. rewrite app_nil_r. by split.
  - apply Forall_cons in Hok as [Hi Hok]. apply Forall_cons in Hin as [Hii Hin].
    unfold fmt_chars, fmt_text, fmt_words in *. rewrite !bind_cons in *. rewrite length_app in *.
    fold (fmt_chars items) (fmt_text items) (fmt_words items) in *.
    destruct fuel as [|fuel]; [lia|]. cbn [vsnprintf_loop].
    assert (∀ ps1 m1 n, n = length (item_chars i) → at_stream base cap (out ++ item_text i) ps1 m1 → same_but zone m m1 →
      ∃ ps' m', vsnprintf_loop frame junk fuel inner (fmt + Z.of_nat n) ps1 (fmt_words items ++ va) m1 = Done (ps', m') ∧
        at_stream base cap (out ++ item_text i ++ fmt_text items) ps' m' ∧ same_but zone m m') as Hrest.
    { intros ps1 m1 n -> A1 S1. destruct (IH fuel (fmt + Z.of_nat (length (item_chars i))) ps1 va (out ++ item_text i) m1)
        as (ps' & m' & E' & A' & S'); try done.
      - apply (str_in_same zone m); [|done]. destruct Hs as [Hs Hz]. split.
        + apply (str_at_drop _ _ _ (length (item_chars i))) in Hs; [|rewrite length_app; lia].
          by rewrite drop_app_length in Hs.
        + intros a Haa. apply Hz. rewrite length_app. lia.
      - eapply Forall_impl; [exact Hok|]. intros j Hj. by apply (item_ok_same m).
      - assert (0 < length (item_chars i))%nat by (destruct i; cbn; lia). lia.
      - rewrite length_app. lia.
      - exists ps', m'. rewrite <- app_assoc in A'. split; [done|]. split; [done|]. by apply (same_but_trans _ _ m1). }
    destruct Hs as [Hs Hz]. destruct i as [c| |d w str]; cbn [item_chars item_text item_words app length] in *.
    + apply str_at_cons in Hs as [[Hc E] Hs]. rewrite (bind_rdc _ _ _ _ E).
      rewrite s8_eqb0, s8_eqb_ascii by (unfold is_byte; lia). destruct Hi as [_ Hc37].
      rewrite (proj2 (Z.eqb_neq c 0)), (proj2 (Z.eqb_neq c 37)) by lia. cbn [negb].
      destruct (addchar_ok base cap Hcap ps (s8 c) out m Ha ltac:(lia)) as (p1 & m1 & E1 & A1 & S1).
      rewrite (stM_bind_Done _ _ _ _ _ E1). rewrite u8_s8 in A1 by (unfold is_byte; lia).
      apply (Hrest p1 m1 1%nat); [done|done|]. by apply in_buf_zone.
    + apply str_at_cons in Hs as [[_ E] Hs]. apply str_at_cons in Hs as [[_ E2] Hs]. rewrite (bind_rdc _ _ _ _ E).
      change (s8 37 =? 0) with false. change (s8 37 =? 37) with true. cbn [negb].
      destruct (addchar_ok base cap Hcap ps 37 out m Ha ltac:(lia)) as (p1 & m1 & E1 & A1 & S1).
      assert (morefmt frame junk inner (fmt + 1) ps (fmt_words items ++ va) 0 (StrProps 32 0 false) m =
        Done ((fmt + 2, p1, fmt_words items ++ va), m1)) as Em.
      { destruct inner as [|inner]; [lia|]. cbn [morefmt]. rewrite (bind_rdc _ _ _ _ E2).
        change (s8 37 =? 37) with true. cbv iota. rewrite (stM_bind_Done _ _ _ _ _ E1).
        by replace (fmt + 1 + 1) with (fmt + 2) by lia. }
      rewrite (stM_bind_Done _ _ _ _ _ Em). apply (Hrest p1 m1 2%nat); [done|done|]. by apply in_buf_zone.
    + apply str_at_cons in Hs as [[_ E] Hs]. rewrite (bind_rdc _ _ _ _ E).
      change (s8 37 =? 0) with false. change (s8 37 =? 37) with true. cbn [negb].
      destruct Hi as [Hd Harg]. cbn [item_str] in Hii.
      assert (length (d_width d) ≤ length (dir_chars d))%nat as Hlw.
      { unfold dir_chars, width_chars. rewrite !length_app, length_fmap. lia. }
      destruct (directive_ok d w str inner (fmt + 1) ps (fmt_words items ++ va) out _ m Ha Hs Hd Harg)
        as (p1 & m1 & E1 & A1 & S1); [lia|lia|lia|].
      rewrite (stM_bind_Done _ _ _ _ _ E1).
      destruct (Hrest p1 m1 _ eq_refl A1 S1) as (ps' & m' & E' & A' & S'). exists ps', m'. split; [|by split].
      rewrite <- E'. f_equal. lia.
Qed.
End formats.

(** ** Properties *)
(** Any format of characters, %% and directives. *)
Lemma vsnprintf_ok frame junk fuel buf size fmt items m :
  1 ≤ size < 2 ^ 31 → frame + 27 ≤ buf ∨ buf + size ≤ frame →
  writable m buf size → Z.of_nat fuel < 2 ^ 31 →
  str_in (in_zone buf size frame) m fmt (fmt_chars items) →
  Forall (item_ok buf size frame m) items →
  (length (fmt_chars items) < fuel)%nat →
  Forall (λ i, 2 * length (item_chars i) + 27 + length (item_str i) < fuel)%nat items →
  Z.of_nat (length (fmt_text items)) < 2 ^ 31 →
  ∃ m', vsnprintf frame junk fuel buf size fmt (fmt_words items) m = Done (Z.of_nat (length (fmt_text items)), m') ∧
    bytes_at m' buf (take (Z.to_nat (size - 1)) (fmt_text items) ++ [0]) ∧
    same_but (in_zone buf size frame) m m' ∧ writable m' buf size.
Proof.
  intros Hsz Hfr Hw Hf31 Hs Hok Hf Hfi Hl. set (cap := size - 1).
  assert (∀ a, in_zone buf cap frame a → in_zone buf size frame a) as Hz.
  { intros a [Ha|Ha]; [left; unfold in_buf, cap in *; lia|by right]. }
  destruct (vsnprintf_loop_ok buf cap frame junk ltac:(unfold cap; lia) ltac:(unfold cap; lia) fuel items fuel fmt
    (PStream buf cap 0) [] [] m) as (ps & m1 & E1 & A1 & S1); try done.
  - split; cbn [buffer remain added length]; [lia|lia|done|by rewrite take_nil|].
    apply (writable_weaken _ _ _ _ _ Hw); unfold cap; lia.
  - by apply (str_in_weaken (in_zone buf size frame)).
  - eapply Forall_impl; [exact Hok|]. intros [| |d w str]; [done|done|]. intros [Hd Ha]. split; [done|].
    unfold arg_ok in *. destruct (d_conv d); try done. destruct Ha as [Ha ?]. split; [|done].
    by apply (str_in_weaken (in_zone buf size frame)).
  - rewrite app_nil_r in E1. cbn [app] in A1. destruct A1 as [Ab Ar Aa Am Aw].
    assert (is_Some (m1 !! buffer ps)) as Hsome.
    { rewrite Ab. destruct (decide (Z.of_nat (length (fmt_text items)) < cap)); [apply Aw; lia|].
      rewrite S1; [apply Hw; unfold cap; lia|]. unfold in_zone, in_buf, in_frame, cap in *. lia. }
    exists (put_bytes (buffer ps) [0] m1). split.
    + unfold vsnprintf. rewrite s32_small by lia. fold cap. rewrite (stM_bind_Done _ _ _ _ _ E1), bind_wrb by done.
      by rewrite Aa.
    + assert (buf + Z.of_nat (length (take (Z.to_nat cap) (fmt_text items))) = buffer ps) as Elen
        by (rewrite length_take, Ab; unfold cap; lia).
      split; [|split].
      * apply bytes_at_app. split; [apply bytes_at_put_frame; [done|lia]|]. rewrite Elen. apply bytes_at_put.
      * apply (same_but_trans _ _ m1); [by apply (same_but_weaken (in_zone buf cap frame))|].
        intros a Ha. rewrite lookup_put_bytes, decide_False; [done|]. cbn [length].
        unfold in_zone, in_buf, in_frame, cap in *. lia.
      * apply (writable_put _ [0]). intros a Ha. destruct (decide (a < buf + cap)); [apply Aw; lia|].
        rewrite S1; [by apply Hw|]. unfold in_zone, in_buf, in_frame, cap in *. lia.
Qed.

(** C39: [vsnprintf] prints a format, made of characters, '%%' and directives with
    '#', '0', '-', a width and 'l's: the buffer receives the text as far as it fits
    and a terminator, the result is the length of the whole text, and outside of
    the buffer and the stack array no byte changes. *)
Theorem vsnprintf_correct frame junk fuel buf size fmt items m :
  1 ≤ size < 2 ^ 31 → frame + 27 ≤ buf ∨ buf + size ≤ frame →
  writable m buf size → Z.of_nat fuel < 2 ^ 31 →
  str_in (in_zone buf size frame) m fmt (fmt_chars items) →
  Forall (item_ok buf size frame m) items →
  (length (fmt_chars items) < fuel)%nat →
  Forall (λ i, 2 * length (item_chars i) + 27 + length (item_str i) < fuel)%nat items →
  Z.of_nat (length (fmt_text items)) < 2 ^ 31 →
  ∃ m', vsnprintf frame junk fuel buf size fmt (fmt_words items) m = Done (Z.of_nat (length (fmt_text items)), m') ∧
    bytes_at m' buf (take (Z.to_nat (size - 1)) (fmt_text items) ++ [0]) ∧
    same_but (in_zone buf size frame) m m'.
Proof.
  intros. destruct (vsnprintf_ok frame junk fuel buf size fmt items m) as (m' & ? & ? & ? & _); try done. by exists m'.
Qed.

(** Character [k] of the binary text: the bits, most significant first, in groups
    of four with a quote between the groups, and the terminator. *)
Definition bin_char (x k : Z) : Z :=
  if k =? 79 then 0
  else if k mod 5 =? 4 then 39
  else if Z.testbit x (63 - (k - k / 5)) then 49 else 48.

Lemma binstr_step x i : 0 ≤ i < 64 → (Z.land x (u64 (Z.shiftl 1 (64 - i - 1))) =? 0) = negb (Z.testbit x (63 - i)).
Proof.
  intros Hi. rewrite Z.shiftl_1_l. replace (64 - i - 1) with (63 - i) by lia.
  assert (2 ^ (63 - i) ≤ 2 ^ 63) by (apply Z.pow_le_mono_r; lia).
  assert (0 < 2 ^ (63 - i)) by (apply Z.pow_pos_nonneg; lia). rewrite u64_small by (unfold in_u64; lia).
  rewrite <- (Z.mul_1_r (2 ^ (63 - i))), Z.mul_comm, <- Z.shiftl_mul_pow2 by lia.
  destruct (Z.testbit x (63 - i)) eqn:Ht; cbn [negb].
  - apply Z.eqb_neq. intros E. assert (Z.testbit (Z.land x (Z.shiftl 1 (63 - i))) (63 - i) = true) as Hb.
    { rewrite Z.land_spec, Ht, Z.shiftl_spec, Z.sub_diag by lia. done. }
    by rewrite E, Z.testbit_0_l in Hb.
  - apply Z.eqb_eq, Z.bits_inj'. intros j Hj. rewrite Z.land_spec, Z.testbit_0_l, Z.shiftl_spec, testbit_1 by lia.
    destruct (Z.eqb_spec (j - (63 - i)) 0); [|apply andb_false_r]. replace j with (63 - i) by lia. by rewrite Ht.
Qed.

Lemma binstr_loop_ok x out n : ∀ i m,
  0 ≤ i → i + Z.of_nat (S n) = 64 → writable m out 80 →
  ∃ m', binstr_loop (S n) x i (out + i + i / 4) m = Done (out + 79, m') ∧
    ∀ a, m' !! a = if decide (out + i + i / 4 ≤ a < out + 80) then Some (bin_char x (a - out)) else m !! a.
Proof.
  induction n as [|n IH]; intros i m Hi Hn Hw.
  - assert (i = 63) as -> by lia. change (out + 63 + 63 / 4) with (out + 63 + 15). cbn [binstr_loop].
    rewrite bind_wrb by (apply Hw; lia). rewrite binstr_step, negb_involutive by lia.
    change (63 + 1 =? 64) with true. cbv iota.
    rewrite bind_wrb by (apply (writable_put _ [_] _ _ _ Hw); lia).
    replace (out + 63 + 15 + 1) with (out + 79) by lia.
    eexists. split; [done|]. intros a. destruct (decide (a = out + 79)) as [->|].
    { rewrite lookup_insert_eq, decide_True by lia.
      by replace (out + 79 - out) with 79 by lia. }
    rewrite lookup_insert_ne by lia. destruct (decide (a = out + 63 + 15)) as [->|].
    { rewrite lookup_insert_eq, decide_True by lia. replace (out + 63 + 15 - out) with 78 by lia.
      change (bin_char x 78) with (if Z.testbit x 0 then 49 else 48). change (63 - 63) with 0.
      by destruct (Z.testbit x 0). }
    rewrite lookup_insert_ne, decide_False by lia. done.
  - set (n1 := S n) in *. cbn [binstr_loop]. unfold n1 in *.
    assert (i < 63) as Hlt by lia.
    assert (0 ≤ out + i + i / 4 - out < 79 ∧ (i + i / 4) mod 5 = i mod 4 ∧ (i + i / 4) / 5 = i / 4) as (Hk & Hm & Hq)
      by (Z.to_euclidean_division_equations; lia).
    rewrite bind_wrb by (apply Hw; lia). rewrite binstr_step, negb_involutive by lia.
    set (bit := if Z.testbit x (63 - i) then 49 else 48).
    assert (bin_char x (i + i / 4) = bit ∧ u8 bit = bit) as [Ebit Eu].
    { unfold bin_char, bit. rewrite (proj2 (Z.eqb_neq _ 79)) by lia. rewrite Hm, Hq.
      rewrite (proj2 (Z.eqb_neq _ 4)) by (Z.to_euclidean_division_equations; lia).
      replace (i + i / 4 - i / 4) with i by lia. by destruct (Z.testbit x (63 - i)). }
    rewrite Eu. rewrite (proj2 (Z.eqb_neq (i + 1) 64)) by lia. rewrite Z.rem_mod_nonneg by lia.
    set (m1 := <[out + i + i / 4 := bit]> m).
    assert (writable m1 out 80) as Hw1 by apply (writable_put _ [bit] _ _ _ Hw).
    destruct (Z.eqb_spec ((i + 1) mod 4) 0) as [E|E].
    + assert (out + i + i / 4 + 1 + 1 = out + (i + 1) + (i + 1) / 4) as Ec by (Z.to_euclidean_division_equations; lia).
      rewrite bind_wrb by (apply Hw1; lia). rewrite Ec.
      destruct (IH (i + 1) (<[out + i + i / 4 + 1 := u8 39]> m1)) as (m' & Em & Hm'); [lia|lia|by apply (writable_put _ [_])|].
      exists m'. split; [exact Em|]. intros a. rewrite Hm'.
      destruct (decide (out + (i + 1) + (i + 1) / 4 ≤ a < out + 80)); [by rewrite decide_True by lia|].
      destruct (decide (a = out + i + i / 4 + 1)) as [->|].
      { rewrite lookup_insert_eq, decide_True by lia. f_equal. unfold bin_char.
        rewrite (proj2 (Z.eqb_neq _ 79)) by (Z.to_euclidean_division_equations; lia). rewrite (proj2 (Z.eqb_eq _ 4)); [done|].
        Z.to_euclidean_division_equations; lia. }
      rewrite lookup_insert_ne by lia. unfold m1. destruct (decide (a = out + i + i / 4)) as [->|].
      { rewrite lookup_insert_eq, decide_True by lia. by replace (out + i + i / 4 - out) with (i + i / 4) by lia; rewrite Ebit. }
      rewrite lookup_insert_ne, decide_False by lia. done.
    + assert (out + i + i / 4 + 1 = out + (i + 1) + (i + 1) / 4) as Ec by (Z.to_euclidean_division_equations; lia).
      rewrite Ec. destruct (IH (i + 1) m1) as (m' & Em & Hm'); [lia|lia|done|].
      exists m'. split; [exact Em|]. intros a. rewrite Hm'.
      destruct (decide (out + (i + 1) + (i + 1) / 4 ≤ a < out + 80)); [by rewrite decide_True by lia|].
      unfold m1. destruct (decide (a = out + i + i / 4)) as [->|].
      { rewrite lookup_insert_eq, decide_True by lia. by replace (out + i + i / 4 - out) with (i + i / 4) by lia; rewrite Ebit. }
      rewrite lookup_insert_ne, decide_False by lia. done.
Qed.

(** [binstr] fills its array of [BINSTR_SZ] characters exactly; its assertion holds. *)
Lemma binstr_ok x out m :
  writable m out BINSTR_SZ →
  ∃ m', binstr x out m = Done (tt, m') ∧ bytes_at m' out (bin_char x <$> seqZ 0 80) ∧
    ∀ a, a < out ∨ out + BINSTR_SZ ≤ a → m' !! a = m !! a.
Proof.
  intros Hw. destruct (binstr_loop_ok x out 63 0 m) as (m' & E & Hm'); [lia|lia|done|].
  rewrite Z.add_0_r in E, Hm'. change (0 / 4) with 0 in *. rewrite Z.add_0_r in E, Hm'.
  exists m'. split; [|split].
  - unfold binstr. rewrite (stM_bind_Done _ _ _ _ _ E). unfold BINSTR_SZ. rewrite (proj2 (Z.eqb_eq _ _)) by lia. done.
  - apply bytes_at_lookup. intros a Ha. rewrite length_fmap, length_seqZ in Ha.
    rewrite Hm', decide_True by lia. rewrite list_lookup_fmap, lookup_seqZ_lt by lia. cbn. f_equal. f_equal. lia.
  - intros a Ha. rewrite Hm', decide_False; [done|]. unfold BINSTR_SZ in Ha. lia.
Qed.

(** ** The theorem at a concrete memory *)
Definition demo_items : list item :=
  [Dir (Directive true true false [6] 0 conv_x) 0x2a []; Lit 124; Dir (Directive false false true [4] 1 conv_d) (2 ^ 64 - 7) [];
   Percent; Dir (Directive false false false [] 0 conv_s) 0x300 (chars "vmx")].
Definition demo_out : bmem :=
  put_bytes 0x100 (cstr "%#06x|%-4ld%%%s") (put_bytes 0x300 (cstr "vmx") (put_bytes 0x400 (replicate 16 170) ∅)).

Lemma demo_str (s : Z) (str : list Z) :
  bool_decide (Forall (λ c, 0 < c < 256) str) &&
  forallb (λ i, bool_decide (demo_out !! (s + Z.of_nat i) = (str ++ [0]) !! i)) (seq 0 (S (length str))) = true →
  s + Z.of_nat (length str) < 0x400 → str_in (in_zone 0x400 16 0x500) demo_out s str.
Proof.
  intros Hb Hs. split; [by apply str_at_bool|]. intros a Ha. unfold in_zone, in_buf, in_frame. lia.
Qed.

(** The text "0x002a|-7  %vmx" fills a buffer of 16 bytes exactly. *)
Lemma vsnprintf_correct_witness :
  ∃ m', vsnprintf 0x500 (λ _, 9) 60 0x400 16 0x100 [0x2a; 2 ^ 64 - 7; 0x300] demo_out = Done (15, m') ∧
    bytes_at m' 0x400 (cstr "0x002a|-7  %vmx").
Proof.
  destruct (vsnprintf_correct 0x500 (λ _, 9) 60 0x400 16 0x100 demo_items demo_out) as (m' & E & Hb & _).
  - lia.
  - right. lia.
  - intros a Ha. assert (a ∈ seqZ 0x400 16) as Hin by (apply elem_of_seqZ; lia).
    assert (Forall (λ a, is_Some (demo_out !! a)) (seqZ 0x400 16)) as Hall
      by (refine (bool_decide_unpack _ _); vm_compute; done).
    rewrite Forall_forall in Hall. by apply Hall.
  - done.
  - apply demo_str; vm_compute; done.
  - assert (∀ d, d_width d = [6] ∨ d_width d = [4] ∨ (d_width d = [] ∧ d_zero d || d_left d = false) → dir_ok d) as Hd.
    { intros d Hw. unfold dir_ok. destruct Hw as [-> | [-> | [-> ->]]]; (split; [repeat constructor; lia|]);
        (split; [done|]); [destruct (_ || _)| destruct (_ || _)|]; done. }
    unfold demo_items. repeat apply Forall_cons_2; [..|constructor].
    + split; [apply Hd; by left|done].
    + by split.
    + split; [apply Hd; right; by left|done].
    + done.
    + split; [apply Hd; right; by right|]. split; [apply demo_str; vm_compute; done|done].
  - vm_compute. lia.
  - repeat constructor; vm_compute; lia.
  - vm_compute. done.
  - exists m'. split; [exact E|exact Hb].
Defined.
