(* ===== verification/Acpi.v ===== *)
(** ACPI tables: lib/x86/acpi.c and acpi.h.

    The tables are in byte memory.  [find_acpi_table_addr] calls itself once, with the
    signature of the FADT, so its body is a function of its own here, [find_table].
    What it prints is the state, newest first. *)
From Stdlib Require Import ZArith Lia Bool.
From S2P Require Import Prelude Libcflat Bytes.
#[local] Open Scope Z_scope.

Definition ACPI_SIGNATURE (c1 c2 c3 c4 : Z) : Z := Z.lor (Z.lor (Z.lor c1 (Z.shiftl c2 8)) (Z.shiftl c3 16)) (Z.shiftl c4 24).
Definition RSDP_SIGNATURE : Z := ACPI_SIGNATURE 82 83 68 80.
Definition RSDT_SIGNATURE : Z := ACPI_SIGNATURE 82 83 68 84.
Definition FACP_SIGNATURE : Z := ACPI_SIGNATURE 70 65 67 80.
Definition FACS_SIGNATURE : Z := ACPI_SIGNATURE 70 65 67 83.
(** The offsets of the members used: [struct rsdp_descriptor], [ACPI_TABLE_HEADER_DEF],
    [struct rsdt_descriptor_rev1] and [struct fadt_descriptor_rev1] *)
Definition rsdp_rsdt_physical_address : Z := 16.
Definition acpi_length : Z := 4.
Definition table_offset_entry : Z := 36.
Definition fadt_firmware_ctrl : Z := 36.

Abbreviation M := (stM (list (string * list parg))).
Section code.
Context (m : bmem).
Definition ld (n : nat) (p : Z) : M Z := lift (ld_le n m p).
(** [for(addr = 0xf0000; addr < 0x100000; addr += 16)]: the address at the end *)
Fixpoint rsdp_scan (n : nat) (addr : Z) : M Z :=
  if addr <? 0x100000 then
    match n with
    | O => λ _, NoFuel
    | S n => s ← ld 8 addr; if s =? 0x2052545020445352 then mret addr else rsdp_scan n (addr + 16)
    end
  else mret addr.
(** The loop over the entries of the RSDT *)
Fixpoint entry_scan (n : nat) (sig rsdt stop i : Z) : M Z :=
  if rsdt + table_offset_entry + 4 * i <? stop then
    match n with
    | O => λ _, NoFuel
    | S n =>
      t ← ld 4 (rsdt + table_offset_entry + 4 * i);
      found ← (if t =? 0 then mret false else s ← ld 4 t; mret (s =? sig));
      if found : bool then mret t else entry_scan n sig rsdt stop (i + 1)
    end
  else mret 0.
Definition find_table (fuel : nat) (sig : Z) : M Z :=
  addr ← rsdp_scan fuel 0xf0000;
  if addr =? 0x100000 then
    modify (λ l, ("Can't find RSDP\n"%string, []) :: l);;
    mret 0
  else if sig =? RSDP_SIGNATURE then mret addr
  else
    rsdt ← ld 4 (addr + rsdp_rsdt_physical_address);
    bad ← (if rsdt =? 0 then mret true else s ← ld 4 rsdt; mret (negb (s =? RSDT_SIGNATURE)));
    if bad : bool then mret 0
    else if sig =? RSDT_SIGNATURE then mret rsdt
    else
      len ← ld 4 (rsdt + acpi_length);
      entry_scan fuel sig rsdt (rsdt + len) 0.
Definition find_acpi_table_addr (fuel : nat) (sig : Z) : M Z :=
  if sig =? FACS_SIGNATURE then
    fadt ← find_table fuel FACP_SIGNATURE;
    if fadt =? 0 then mret 0 else ld 4 (fadt + fadt_firmware_ctrl)
  else find_table fuel sig.
End code.

(** ** The tables in memory *)
Lemma bind_ld {B} n m p v (g : Z → M B) l : word_at n m p v → (ld m n p ≫= g) l = g v l.
Proof. intros [Hv Hb]. apply stM_bind_Done. unfold ld, lift. by rewrite (ld_le_bytes n m p v). Qed.

(** Number [k] of the paragraphs of the BIOS area is the first with the signature. *)
Definition rsdp_is (m : bmem) (k : Z) : Prop :=
  (∀ j, 0 ≤ j < k → ∃ v, word_at 8 m (0xf0000 + 16 * j) v ∧ v ≠ 0x2052545020445352) ∧
  0 ≤ k < 4096 ∧ word_at 8 m (0xf0000 + 16 * k) 0x2052545020445352.
Definition no_rsdp (m : bmem) : Prop :=
  ∀ j, 0 ≤ j < 4096 → ∃ v, word_at 8 m (0xf0000 + 16 * j) v ∧ v ≠ 0x2052545020445352.
(** The entries of the RSDT, tables with their signatures; an entry may be null. *)
Definition entry_at (m : bmem) (p : Z) (e : Z * Z) : Prop := word_at 4 m p e.1 ∧ (e.1 ≠ 0 → word_at 4 m e.1 e.2).
Fixpoint entries_at (m : bmem) (p : Z) (es : list (Z * Z)) : Prop :=
  match es with [] => True | e :: es => entry_at m p e ∧ entries_at m (p + 4) es end.
Definition rsdt_is (m : bmem) (rsdt : Z) (es : list (Z * Z)) : Prop :=
  rsdt ≠ 0 ∧ word_at 4 m rsdt RSDT_SIGNATURE ∧
  (∃ pad, 0 ≤ pad < 4 ∧ word_at 4 m (rsdt + acpi_length) (table_offset_entry + 4 * Z.of_nat (length es) - pad)) ∧
  entries_at m (rsdt + table_offset_entry) es.
(** The first table with the signature. *)
Fixpoint first_table (sig : Z) (es : list (Z * Z)) : Z :=
  match es with [] => 0 | (t, s) :: es => if negb (t =? 0) && (s =? sig) then t else first_table sig es end.

Lemma rsdp_scan_ok m k l : rsdp_is m k → ∀ n j, j = Z.of_nat n → j ≤ k → ∀ fuel, (4096 - n < fuel)%nat →
  rsdp_scan m fuel (0xf0000 + 16 * j) l = Done (0xf0000 + 16 * k, l).
Proof.
  intros (Hn & Hk & Hs) n j -> Hj fuel. remember (Z.to_nat (k - Z.of_nat n)) as d eqn:Ed. revert n Hj Ed fuel.
  induction d as [|d IH]; intros n Hj Ed [|fuel] Hf; try lia; cbn [rsdp_scan]; rewrite (proj2 (Z.ltb_lt _ _)) by lia.
  - assert (k = Z.of_nat n) as -> by lia. by rewrite (bind_ld _ _ _ _ _ _ Hs), Z.eqb_refl.
  - destruct (Hn (Z.of_nat n)) as (v & Hv & Hne); [lia|]. rewrite (bind_ld _ _ _ _ _ _ Hv), (proj2 (Z.eqb_neq _ _)) by done.
    replace (0xf0000 + 16 * Z.of_nat n + 16) with (0xf0000 + 16 * Z.of_nat (S n)) by lia. apply IH; lia.
Qed.
Lemma rsdp_scan_none m l : no_rsdp m → ∀ d n fuel, (n + d = 4096)%nat → (d < fuel)%nat →
  rsdp_scan m fuel (0xf0000 + 16 * Z.of_nat n) l = Done (0x100000, l).
Proof.
  intros Hn. induction d as [|d IH]; intros n [|fuel] Hd Hf; try lia; cbn [rsdp_scan].
  - by replace n with 4096%nat by lia.
  - rewrite (proj2 (Z.ltb_lt _ _)) by lia. destruct (Hn (Z.of_nat n)) as (v & Hv & Hne); [lia|].
    rewrite (bind_ld _ _ _ _ _ _ Hv), (proj2 (Z.eqb_neq _ _)) by done.
    replace (0xf0000 + 16 * Z.of_nat n + 16) with (0xf0000 + 16 * Z.of_nat (S n)) by lia. apply IH; lia.
Qed.
Lemma entry_scan_ok m sig rsdt pad es l : 0 ≤ pad < 4 → ∀ i fuel,
  entries_at m (rsdt + table_offset_entry + 4 * i) es → (length es < fuel)%nat →
  entry_scan m fuel sig rsdt (rsdt + (table_offset_entry + 4 * (i + Z.of_nat (length es)) - pad)) i l = Done (first_table sig es, l).
Proof.
  intros Hp. induction es as [|[t s] es IH]; intros i [|fuel] He Hf; try (cbn in Hf; lia); cbn [entry_scan length first_table] in *.
  - by rewrite (proj2 (Z.ltb_ge _ _)) by lia.
  - rewrite (proj2 (Z.ltb_lt _ _)) by lia. destruct He as [[Ht Hs] He]. cbn [fst snd] in *.
    rewrite (bind_ld _ _ _ _ _ _ Ht). replace (i + Z.of_nat (S (length es))) with (i + 1 + Z.of_nat (length es)) by lia.
    assert (entry_scan m fuel sig rsdt (rsdt + (table_offset_entry + 4 * (i + 1 + Z.of_nat (length es)) - pad)) (i + 1) l =
      Done (first_table sig es, l)) as Hrest.
    { apply IH; [|lia]. by replace (rsdt + table_offset_entry + 4 * (i + 1)) with (rsdt + table_offset_entry + 4 * i + 4) by lia. }
    destruct (Z.eqb_spec t 0) as [->|Hne]; cbn [negb andb]; mrun; [exact Hrest|].
    rewrite (bind_ld _ _ _ _ _ _ (Hs Hne)). mrun. by destruct (s =? sig).
Qed.

(** ** The property *)
(** [find_acpi_table_addr] finds the tables of a machine: the RSDP is the first
    paragraph of the BIOS area with its signature, the RSDT the table it points to, the
    FACS is found through the FADT, and any other table is the first entry of the RSDT
    with the signature asked for, null entries left out; NULL if there is none.
    Without an RSDP it says so and returns NULL. *)
Theorem find_acpi_table_correct m fuel sig k rsdt es facs l :
  (4096 + length es < fuel)%nat →
  (rsdp_is m k → word_at 4 m (0xf0000 + 16 * k + rsdp_rsdt_physical_address) rsdt → rsdt_is m rsdt es →
   (let fadt := first_table FACP_SIGNATURE es in fadt ≠ 0 → word_at 4 m (fadt + fadt_firmware_ctrl) facs) →
   find_acpi_table_addr m fuel sig l = Done (
     if sig =? RSDP_SIGNATURE then 0xf0000 + 16 * k
     else if sig =? RSDT_SIGNATURE then rsdt
     else if sig =? FACS_SIGNATURE then (if first_table FACP_SIGNATURE es =? 0 then 0 else facs)
     else first_table sig es, l)) ∧
  (no_rsdp m → find_acpi_table_addr m fuel sig l = Done (0, ("Can't find RSDP\n"%string, []) :: l)).
Proof.
  intros Hf. split.
  - intros Hk Hr (Hr0 & Hrs & (pad & Hpad & Hlen) & Hes) Hfadt.
    assert (∀ sg, find_table m fuel sg l = Done (if sg =? RSDP_SIGNATURE then 0xf0000 + 16 * k else if sg =? RSDT_SIGNATURE then rsdt
      else first_table sg es, l)) as Hfind.
    { intros sg. unfold find_table. rewrite (stM_bind_Done _ _ _ _ _ (rsdp_scan_ok m k l Hk 0%nat 0 eq_refl ltac:(destruct Hk; lia) fuel ltac:(lia))).
      rewrite (proj2 (Z.eqb_neq (0xf0000 + 16 * k) 0x100000)) by (destruct Hk; lia). destruct (sg =? RSDP_SIGNATURE); [done|].
      rewrite (bind_ld _ _ _ _ _ _ Hr), (proj2 (Z.eqb_neq rsdt 0)) by done. rewrite !stM_bind_assoc.
      rewrite (bind_ld _ _ _ _ _ _ Hrs), Z.eqb_refl. cbn [negb]. mrun. destruct (sg =? RSDT_SIGNATURE); [done|].
      rewrite (bind_ld _ _ _ _ _ _ Hlen). apply (entry_scan_ok m sg rsdt pad es l Hpad 0 fuel); [|lia].
      by rewrite Z.mul_0_r, Z.add_0_r. }
    unfold find_acpi_table_addr. destruct (Z.eqb_spec sig FACS_SIGNATURE) as [->|].
    + rewrite (stM_bind_Done _ _ _ _ _ (Hfind FACP_SIGNATURE)). change (FACP_SIGNATURE =? RSDP_SIGNATURE) with false.
      change (FACP_SIGNATURE =? RSDT_SIGNATURE) with false. change (FACS_SIGNATURE =? RSDP_SIGNATURE) with false.
      change (FACS_SIGNATURE =? RSDT_SIGNATURE) with false. cbv iota. destruct (Z.eqb_spec (first_table FACP_SIGNATURE es) 0) as [|Hne]; [done|].
      destruct (Hfadt Hne) as [Hv Hb]. unfold ld, lift. by rewrite (ld_le_bytes 4 m _ facs).
    + rewrite Hfind. done.
  - intros Hn.
    assert (∀ sg, find_table m fuel sg l = Done (0, ("Can't find RSDP\n"%string, []) :: l)) as Hfind.
    { intros sg. unfold find_table. rewrite (stM_bind_Done _ _ _ _ _ (rsdp_scan_none m l Hn 4096 0 fuel ltac:(lia) ltac:(lia))). done. }
    unfold find_acpi_table_addr. destruct (sig =? FACS_SIGNATURE); [|done]. by rewrite (stM_bind_Done _ _ _ _ _ (Hfind FACP_SIGNATURE)).
Qed.

(** ** Concrete tables: the RSDP in the second paragraph, an RSDT with a null entry and the FADT *)
Definition demo_acpi : bmem :=
  put_bytes 0xf0000 (le_bytes 8 5) (put_bytes 0xf0010 (le_bytes 8 0x2052545020445352) (put_bytes 0xf0020 (le_bytes 4 0x5000)
    (put_bytes 0x5000 (le_bytes 4 RSDT_SIGNATURE ++ le_bytes 4 44) (put_bytes 0x5024 (le_bytes 4 0 ++ le_bytes 4 0x6000)
      (put_bytes 0x6000 (le_bytes 4 FACP_SIGNATURE) (put_bytes 0x6024 (le_bytes 4 0x7000) ∅)))))).
Lemma find_acpi_table_correct_witness :
  find_acpi_table_addr demo_acpi 5000 FACS_SIGNATURE [] = Done (0x7000, []) ∧
  find_acpi_table_addr demo_acpi 5000 FACP_SIGNATURE [] = Done (0x6000, []).
Proof.
  assert (∀ n p v, bool_decide (0 ≤ v < 256 ^ Z.of_nat n) && forallb (λ i, bool_decide (demo_acpi !! (p + Z.of_nat i) = le_bytes n v !! i)) (seq 0 n) = true →
    word_at n demo_acpi p v) as W.
  { intros n p v [Hv%bool_decide_eq_true Hb]%andb_true_iff. split; [done|]. apply bytes_at_lookup. rewrite le_bytes_length. intros a Ha.
    rewrite forallb_forall in Hb. specialize (Hb (Z.to_nat (a - p))). rewrite bool_decide_eq_true in Hb.
    rewrite <- Hb by (apply in_seq; lia). f_equal. lia. }
  assert (rsdp_is demo_acpi 1) as Hk.
  { split; [|split; [lia|apply W; by vm_compute]]. intros j Hj. replace j with 0 by lia. exists 5. split; [apply W; by vm_compute|done]. }
  assert (rsdt_is demo_acpi 0x5000 [(0, 0); (0x6000, FACP_SIGNATURE)]) as Hr.
  { split; [done|]. split; [apply W; by vm_compute|]. split; [exists 0; split; [lia|apply W; by vm_compute]|].
    split; [split; [apply W; by vm_compute|done]|]. split; [split; [apply W; by vm_compute|intros _; apply W; by vm_compute]|done]. }
  split.
  - destruct (find_acpi_table_correct demo_acpi 5000 FACS_SIGNATURE 1 0x5000 [(0, 0); (0x6000, FACP_SIGNATURE)] 0x7000 []) as [H _]; [cbn; lia|].
    rewrite H; [by vm_compute|exact Hk|apply W; by vm_compute|exact Hr|]. intros fadt _. apply W. by vm_compute.
  - destruct (find_acpi_table_correct demo_acpi 5000 FACP_SIGNATURE 1 0x5000 [(0, 0); (0x6000, FACP_SIGNATURE)] 0x7000 []) as [H _]; [cbn; lia|].
    rewrite H; [by vm_compute|exact Hk|apply W; by vm_compute|exact Hr|]. intros fadt _. apply W. by vm_compute.
Defined.
