(* ===== verification/Report.v ===== *)
(** Test reports: lib/report.c.

    [report] holds the file's counters and lock with the byte memory that the strings
    and the array [prefixes] are in; [delim], [pct_s] are the addresses of the
    literals ": " and "%s", [frame] that of the stack array of vsnprintf.  The text
    shown is recorded in [rp_log], newest first, as the calls of [printf], [puts] and
    [vprintf] with the strings that they print. *)
From Stdlib Require Import ZArith Lia Bool.
From S2P Require Import Prelude Libcflat Spinlock Bytes CString Printf Argv.
#[local] Open Scope Z_scope.

Record report_state := Report {
  rp_mem : bmem; tests : Z; failures : Z; xfailures : Z; skipped : Z; rp_lock : spinlock;
  rp_log : list (string * list parg)
}.
Definition set_rp_mem (m : bmem) (s : report_state) : report_state :=
  Report m (tests s) (failures s) (xfailures s) (skipped s) (rp_lock s) (rp_log s).
Definition set_tests (x : Z) (s : report_state) : report_state :=
  Report (rp_mem s) x (failures s) (xfailures s) (skipped s) (rp_lock s) (rp_log s).
Definition set_failures (x : Z) (s : report_state) : report_state :=
  Report (rp_mem s) (tests s) x (xfailures s) (skipped s) (rp_lock s) (rp_log s).
Definition set_xfailures (x : Z) (s : report_state) : report_state :=
  Report (rp_mem s) (tests s) (failures s) x (skipped s) (rp_lock s) (rp_log s).
Definition set_skipped (x : Z) (s : report_state) : report_state :=
  Report (rp_mem s) (tests s) (failures s) (xfailures s) x (rp_lock s) (rp_log s).
Definition set_rp_lock (l : spinlock) (s : report_state) : report_state :=
  Report (rp_mem s) (tests s) (failures s) (xfailures s) (skipped s) l (rp_log s).
Definition set_rp_log (l : list (string * list parg)) (s : report_state) : report_state :=
  Report (rp_mem s) (tests s) (failures s) (xfailures s) (skipped s) (rp_lock s) l.

Section code.
Context (prefixes delim pct_s frame : Z) (junk : Z → Z) (fuel : nat).
Abbreviation M := (stM report_state).

Definition sizeof_prefixes : Z := 256.
Definition rp_do {A} (f : bmem → outcome A) : M A := s ← get; lift (f (rp_mem s)).
Definition rp_st {A} (f : stM bmem A) : M A := zoom rp_mem set_rp_mem f.
Definition lock_report : M unit := l ← gets rp_lock; l ← lift (spin_lock l); modify (set_rp_lock l).
Definition unlock_report : M unit := l ← gets rp_lock; modify (set_rp_lock (spin_unlock l)).
Definition printf (fmt : string) (args : list parg) : M unit := modify (λ s, set_rp_log ((fmt, args) :: rp_log s) s).
(** [puts] of a literal and of the string at [p], and [vprintf] with the format at [p]. *)
Definition puts_lit (t : string) : M unit := printf t [].
Definition puts (p : Z) : M unit := l ← rp_do (λ m, ld_str fuel m p); printf "%s" [PStr (text_of l)].
Definition vprintf (p : Z) (va : list Z) : M unit := l ← rp_do (λ m, ld_str fuel m p); printf (text_of l) (PInt <$> va).

Definition report_pass : M unit :=
  lock_report;;
  modify (λ s, set_tests (u32 (tests s + 1)) s);;
  unlock_report.

Definition report_prefix_pushf (prefix_fmt : Z) (va : list Z) : M unit :=
  lock_report;;
  n ← rp_do (λ m, strlen fuel m prefixes);
  let len := u32 n in
  lift (c_assert (len <? sizeof_prefixes));;
  let start := s32 len in
  k ← rp_st (vsnprintf frame junk fuel (prefixes + len) (s32 (sizeof_prefixes - len)) prefix_fmt va);
  let len := u32 (len + k) in
  lift (c_assert (len <? sizeof_prefixes));;
  p ← rp_do (λ m, strstr fuel m (prefixes + start) delim);
  lift (c_assert (p =? 0));;
  k ← rp_st (snprintf frame junk fuel (prefixes + len) (s32 (sizeof_prefixes - len)) delim []);
  let len := u32 (len + k) in
  lift (c_assert (len <? sizeof_prefixes));;
  unlock_report.
Definition report_prefix_push (prefix : Z) : M unit := report_prefix_pushf pct_s [prefix].

(** [for (p = ..., q = ...; *q; p = q, q = ...) ;] *)
Fixpoint pop_loop (n : nat) (m : bmem) (p q : Z) : outcome Z :=
  match n with
  | O => NoFuel
  | S n => c ← ldc m q; if c =? 0 then mret p else d ← strstr fuel m q delim; pop_loop n m q (d + 2)
  end.
Definition report_prefix_pop : M unit :=
  lock_report;;
  c ← rp_do (λ m, ldc m prefixes);
  if c =? 0 then unlock_report
  else
    d ← rp_do (λ m, strstr fuel m prefixes delim);
    p ← rp_do (λ m, pop_loop fuel m prefixes (d + 2));
    rp_st (λ m, m ← stb p 0 m; mret (tt, m));;
    unlock_report.

Definition va_report (msg_fmt : Z) (pass xfail skip : bool) (va : list Z) : M unit :=
  let prefix := if skip then "SKIP"%string
                else if xfail then (if pass then "XPASS" else "XFAIL")%string else (if pass then "PASS" else "FAIL")%string in
  lock_report;;
  modify (λ s, set_tests (u32 (tests s + 1)) s);;
  printf "%s: " [PStr prefix];;
  puts prefixes;;
  vprintf msg_fmt va;;
  puts_lit "\n";;
  (if skip then modify (λ s, set_skipped (u32 (skipped s + 1)) s)
   else if xfail && negb pass then modify (λ s, set_xfailures (u32 (xfailures s + 1)) s)
   else if xfail || negb pass then modify (λ s, set_failures (u32 (failures s + 1)) s)
   else mret tt);;
  unlock_report.
Definition report (msg_fmt : Z) (pass : bool) (va : list Z) : M unit := va_report msg_fmt pass false false va.
Definition report_xfail (msg_fmt : Z) (xfail pass : bool) (va : list Z) : M unit := va_report msg_fmt pass xfail false va.
Definition report_skip (msg_fmt : Z) (va : list Z) : M unit := va_report msg_fmt false false true va.
Definition report_info (msg_fmt : Z) (va : list Z) : M unit :=
  lock_report;;
  puts_lit "INFO: ";;
  puts prefixes;;
  vprintf msg_fmt va;;
  puts_lit "\n";;
  unlock_report.

Definition report_summary : M Z :=
  lock_report;;
  s ← get;
  printf "SUMMARY: %d tests" [PInt (tests s)];;
  when (negb (failures s =? 0)) (printf ", %d unexpected failures" [PInt (failures s)]);;
  when (negb (xfailures s =? 0)) (printf ", %d expected failures" [PInt (xfailures s)]);;
  when (negb (skipped s =? 0)) (printf ", %d skipped" [PInt (skipped s)]);;
  printf "\n" [];;
  if tests s =? skipped s then unlock_report;; mret (Z.shiftr 77 1)
  else
    let ret := if 0 <? failures s then 1 else 0 in
    unlock_report;;
    mret ret.

Definition report_abort (msg_fmt : Z) (va : list Z) : M unit :=
  lock_report;;
  puts_lit "ABORT: ";;
  puts prefixes;;
  vprintf msg_fmt va;;
  puts_lit "\n";;
  unlock_report;;
  _ ← report_summary;
  lift Abort.
End code.

(** ** The prefixes as a stack *)
Definition DELIM : list Z := [58; 32].
Definition prefix_text (ps : list (list Z)) : list Z := ps ≫= λ p, p ++ DELIM.
(** A prefix that does not contain the delimiter. *)
Definition good (p : list Z) : Prop := cstring p ∧ find_sub DELIM p = None.
#[export] Instance good_dec p : Decision (good p).
Proof. unfold good, cstring. solve_decision. Defined.

Lemma prefix_text_app ps qs : prefix_text (ps ++ qs) = prefix_text ps ++ prefix_text qs.
Proof. unfold prefix_text. by rewrite bind_app. Qed.
Lemma prefix_text_one p : prefix_text [p] = p ++ DELIM.
Proof. unfold prefix_text. cbn. by rewrite app_nil_r. Qed.
Lemma good_tail c p : good (c :: p) → good p.
Proof.
  intros [[_ Hc]%Forall_cons Hf]. split; [done|]. cbn [find_sub] in Hf. case_decide; [done|]. by destruct (find_sub DELIM p).
Qed.
(** The delimiter is found behind a prefix, not before. *)
Lemma find_delim p rest : good p → find_sub DELIM (p ++ DELIM ++ rest) = Some (length p).
Proof.
  induction p as [|c p IH]; intros Hg.
  - apply find_sub_0. by exists rest.
  - change ((c :: p) ++ DELIM ++ rest) with (c :: (p ++ DELIM ++ rest)). cbn [find_sub].
    rewrite IH by (by eapply good_tail). rewrite decide_False; [done|]. intros [k Hk].
    destruct Hg as [_ Hg]. cbn [find_sub] in Hg. case_decide as Hp; [done|]. apply Hp.
    injection Hk as -> Hk. destruct p as [|d p]; [done|]. injection Hk as -> _. by exists p.
Qed.
Lemma find_sub_bounded t s k : find_sub t s = Some k → (k ≤ length s)%nat.
Proof.
  revert k. induction s as [|c s IH]; intros k; cbn [find_sub]; case_decide; try done; [intros [= <-]; lia..|].
  destruct (find_sub t s) as [j|]; [|done]. intros [= <-]. cbn. specialize (IH j eq_refl). lia.
Qed.

(** "%s" and a string. *)
Definition pct_s_item (w : Z) (str : list Z) : item := Dir (Directive false false false [] 0 conv_s) w str.
Lemma pct_s_text w str : fmt_text [pct_s_item w str] = str ∧ fmt_chars [pct_s_item w str] = [37; 115] ∧ fmt_words [pct_s_item w str] = [w].
Proof.
  split; [|done]. unfold fmt_text. cbn. rewrite app_nil_r. unfold dir_text, dir_props, pad_text. cbn.
  assert (Z.to_nat (- 0 - Z.of_nat (length str)) = 0%nat) as E by lia. cbn in E. rewrite E. apply app_nil_r.
Qed.

Section proofs.
Context (prefixes delim pct_s frame : Z) (junk : Z → Z) (fuel : nat).
Context (Hfr : frame + 27 ≤ prefixes ∨ prefixes + 256 ≤ frame) (Hpos : 0 < prefixes) (Hdel : 0 < delim) (Hf31 : Z.of_nat fuel < 2 ^ 31).
Abbreviation zone := (in_zone prefixes 256 frame).
Implicit Types s : report_state.

(** The array holds the prefixes [ps]. *)
Record prefixes_are (m : bmem) (ps : list (list Z)) : Prop := {
  pf_text : str_at m prefixes (prefix_text ps);
  pf_good : Forall good ps;
  pf_len : Z.of_nat (length (prefix_text ps)) < 256;
  pf_wr : writable m prefixes 256;
  pf_delim : str_in zone m delim DELIM;
  pf_pct : str_in zone m pct_s [37; 115]
}.

Lemma bind_rp_do {A B} (f : bmem → outcome A) (g : A → stM report_state B) s a :
  f (rp_mem s) = Done a → (rp_do f ≫= g) s = g a s.
Proof. intros E. unfold rp_do. apply stM_bind_Done. unfold mbind at 1, stM_bind, get, lift. by rewrite E. Qed.
Lemma bind_rp_st {A B} (f : stM bmem A) (g : A → stM report_state B) s a m :
  f (rp_mem s) = Done (a, m) → (rp_st f ≫= g) s = g a (set_rp_mem m s).
Proof. intros E. by apply bind_zoom. Qed.
Lemma bind_lock {B} (g : unit → stM report_state B) s : rp_lock s = 0 → (lock_report ≫= g) s = g tt (set_rp_lock 1 s).
Proof. intros E. unfold lock_report. mrun. rewrite E. mrun. done. Qed.
Lemma bind_unlock {B} (g : unit → stM report_state B) s : (unlock_report ≫= g) s = g tt (set_rp_lock 0 s).
Proof. done. Qed.

Lemma bind_assert {B} (b : bool) (g : unit → stM report_state B) s :
  (lift (c_assert b) ≫= g) s = if b then g tt s else Abort.
Proof. by destruct b. Qed.

(** Formatting behind the first [len] characters of the array. *)
Lemma format_at len fmt items m :
  0 ≤ len < 256 → writable m prefixes 256 → str_in zone m fmt (fmt_chars items) →
  Forall (item_ok prefixes 256 frame m) items → (length (fmt_chars items) < fuel)%nat →
  Forall (λ i, 2 * length (item_chars i) + 27 + length (item_str i) < fuel)%nat items →
  Z.of_nat (length (fmt_text items)) < 2 ^ 31 →
  ∃ m', vsnprintf frame junk fuel (prefixes + len) (s32 (256 - len)) fmt (fmt_words items) m = Done (Z.of_nat (length (fmt_text items)), m') ∧
    bytes_at m' (prefixes + len) (take (Z.to_nat (255 - len)) (fmt_text items) ++ [0]) ∧
    writable m' prefixes 256 ∧ same_but (in_zone (prefixes + len) (256 - len) frame) m m' ∧ same_but zone m m'.
Proof.
  intros Hl Hw Hs Hok Hf Hfi Ht.
  assert (∀ a, in_zone (prefixes + len) (256 - len) frame a → zone a) as Hsub
    by (unfold in_zone, in_buf; intros a [?|?]; [left; lia|by right]).
  rewrite s32_small by lia. destruct (vsnprintf_ok frame junk fuel (prefixes + len) (256 - len) fmt items m) as (m' & E & Hb & HS & Hw'); try done; try lia.
  - apply (writable_weaken _ _ _ _ _ Hw); lia.
  - by apply (str_in_weaken zone).
  - eapply Forall_impl; [exact Hok|]. intros [| |d w str] Hi; [done|done|]. destruct Hi as [Hd Ha]. split; [done|].
    unfold arg_ok in *. destruct (d_conv d); try done. destruct Ha as [Ha ?]. split; [|done]. by apply (str_in_weaken zone).
  - exists m'. split; [exact E|]. split; [by replace (255 - len) with (256 - len - 1) by lia|]. split.
    { intros a Ha. destruct (decide (prefixes + len ≤ a)); [apply Hw'; lia|]. rewrite HS; [by apply Hw|].
      unfold in_zone, in_buf, in_frame. lia. }
    split; [done|]. by apply (same_but_weaken _ zone) in HS.
Qed.

Lemma pct_item_ok m q str :
  str_in zone m (u64 q) str → Z.of_nat (length str) < 2 ^ 31 → Forall (item_ok prefixes 256 frame m) [pct_s_item q str].
Proof. intros Hs Hl. apply Forall_singleton. split; [|by split]. split; [constructor|]. split; done. Qed.
Lemma delim_items_ok m : Forall (item_ok prefixes 256 frame m) [Lit 58; Lit 32].
Proof. repeat constructor; lia. Qed.

(** A string behind another one. *)
Lemma str_at_join (m m' : bmem) p (l t : list Z) :
  str_at m p l → bytes_at m' (p + Z.of_nat (length l)) (t ++ [0]) → cstring t →
  (∀ a, p ≤ a < p + Z.of_nat (length l) → m' !! a = m !! a) → str_at m' p (l ++ t).
Proof.
  intros [Hs Hb] Ht Hc Hm. split; [by apply Forall_app|]. rewrite <- app_assoc. apply bytes_at_app. split; [|done].
  apply bytes_at_app in Hb as [Hb _]. by apply (bytes_at_frame m).
Qed.

(** Pushing a prefix appends it, or ends in [abort]: when it contains the delimiter or the array is full. *)
Lemma push_ok q str ps s :
  prefixes_are (rp_mem s) ps → rp_lock s = 0 → str_in zone (rp_mem s) (u64 q) str →
  Z.of_nat (length str) < 2 ^ 31 - 256 → (300 + length str < fuel)%nat →
  if bool_decide (good str) && (Z.of_nat (length (prefix_text (ps ++ [str]))) <? 256) then
    ∃ m', report_prefix_push prefixes delim pct_s frame junk fuel q s = Done (tt, set_rp_mem m' s) ∧
      prefixes_are m' (ps ++ [str]) ∧ same_but zone (rp_mem s) m'
  else report_prefix_push prefixes delim pct_s frame junk fuel q s = Abort.
Proof.
  intros [Ht Hg Hl Hw Hd Hp] Hlk Hq Hls Hf. rewrite prefix_text_app, prefix_text_one, !length_app. set (T := prefix_text ps) in *.
  set (L := Z.of_nat (length T)) in *. assert (0 ≤ L) by (unfold L; lia). change (length DELIM) with 2%nat.
  remember (report_prefix_push prefixes delim pct_s frame junk fuel q s) as r eqn:Er.
  unfold report_prefix_push, report_prefix_pushf in Er. rewrite bind_lock in Er by done.
  erewrite bind_rp_do in Er by (apply (strlen_ok _ _ _ T); [exact Ht|unfold L in *; lia|unfold L in *; lia]). fold L in Er.
  unfold sizeof_prefixes in Er. cbv zeta in Er. rewrite (u32_small L), bind_assert, (proj2 (Z.ltb_lt L 256)), (s32_small L) in Er by (unfold in_u32; lia). destruct (pct_s_text q str) as (Et & Ec & Ew). destruct Hq as [Hq Hqz].
  destruct (format_at L pct_s [pct_s_item q str] (rp_mem s)) as (m1 & E1 & Hb1 & Hw1 & HS1 & HZ1); rewrite ?Et, ?Ec; try done; try lia; try (cbn; lia).
  { by apply pct_item_ok; [split|lia]. }
  { apply Forall_singleton. cbn. lia. }
  rewrite Et, Ew in *. erewrite bind_rp_st in Er by exact E1. rewrite bind_assert, (u32_small (L + _)) in Er by (unfold in_u32; lia).
  set (L1 := L + Z.of_nat (length str)) in *. replace (Z.of_nat (length T + (length str + 2))) with (L1 + 2) by (unfold L1, L; lia).
  destruct (Z.ltb_spec L1 256) as [H1|H1].
  2:{ rewrite (proj2 (Z.ltb_ge _ _)), andb_false_r by lia. done. }
  rewrite take_ge in Hb1 by (unfold L1, L in *; lia).
  assert (str_at m1 (prefixes + L) str) as Hs1 by (split; [apply Hq|done]).
  assert (str_in zone m1 delim DELIM) as Hd1 by (by apply (str_in_same zone (rp_mem s))).
  erewrite bind_rp_do in Er; [|apply (strstr_ok _ _ _ _ str DELIM); [exact Hs1|apply Hd1|lia|cbn; lia|lia|cbn; lia]].
  rewrite bind_assert in Er. destruct (find_sub DELIM str) as [k|] eqn:Ek.
  { rewrite bool_decide_eq_false_2 by (intros [_ Hn]; congruence).
    cbn [ptr_at andb] in *. by rewrite (proj2 (Z.eqb_neq _ 0)) in Er by lia. }
  assert (good str) as Hgs by (split; [apply Hq|done]).
  rewrite bool_decide_eq_true_2 by done.
  cbn [ptr_at andb] in *. change (0 =? 0) with true in Er. cbv iota in Er. unfold snprintf in Er.
  assert (str_at m1 prefixes (T ++ str)) as HT1.
  { apply (str_at_join (rp_mem s)); [done..|apply Hq|]. intros a Ha. apply HS1. unfold in_zone, in_buf, in_frame, L in *. lia. }
  destruct (format_at L1 delim [Lit 58; Lit 32] m1) as (m2 & E2 & Hb2 & Hw2 & HS2 & HZ2); try done; try (unfold L1 in *; cbn; lia).
  { apply delim_items_ok. }
  { repeat constructor; cbn; lia. }
  change (fmt_words [Lit 58; Lit 32]) with (@nil Z) in E2. change (fmt_text [Lit 58; Lit 32]) with DELIM in *. change (Z.of_nat (length DELIM)) with 2 in E2.
  erewrite bind_rp_st in Er by (rewrite (stM_bind_Done _ _ _ _ _ E2); reflexivity).
  fold L1 in Er. rewrite bind_assert, (u32_small (L1 + 2)) in Er by (unfold in_u32, L1 in *; lia). destruct (Z.ltb_spec (L1 + 2) 256) as [H2|H2]; [|done].
  rewrite take_ge in Hb2 by (cbn; lia).
  exists m2. split; [|split].
  - rewrite Er. unfold unlock_report. mrun. unfold modify. do 2 f_equal. destruct s. cbn in *. by subst.
  - split.
    + rewrite prefix_text_app, prefix_text_one, app_assoc. fold T. apply (str_at_join m1); [done| | |].
      * rewrite length_app. replace (prefixes + Z.of_nat (length T + length str)) with (prefixes + L1) by (unfold L1, L; lia). done.
      * repeat constructor; lia.
      * intros a Ha. apply HS2. rewrite length_app in Ha. unfold in_zone, in_buf, in_frame, L1, L in *. lia.
    + apply Forall_app. split; [done|]. by apply Forall_singleton.
    + rewrite prefix_text_app, prefix_text_one, !length_app. fold T. change (length DELIM) with 2%nat. unfold L1, L in *. lia.
    + done.
    + by apply (str_in_same zone m1).
    + apply (str_in_same zone m1); [|done]. by apply (str_in_same zone (rp_mem s)).
  - by apply (same_but_trans _ _ m1).
Qed.

Lemma prefix_text_cons p ps : prefix_text (p :: ps) = p ++ DELIM ++ prefix_text ps.
Proof. unfold prefix_text. cbn. by rewrite <- app_assoc. Qed.
Lemma pop_loop_ok m ps : ∀ n p x,
  str_at m p (prefix_text (x :: ps)) → Forall good (x :: ps) → str_at m delim DELIM →
  Z.of_nat (length (prefix_text (x :: ps))) < 256 → (256 < fuel)%nat → (length ps < n)%nat →
  ∃ init l, x :: ps = init ++ [l] ∧
    pop_loop delim fuel n m p (p + Z.of_nat (length x) + 2) = Done (p + Z.of_nat (length (prefix_text init))).
Proof.
  induction ps as [|y ps IH]; intros [|n] p x Hs Hg Hd Hl Hf Hn; try (cbn in Hn; lia); cbn [pop_loop].
  - exists [], x. split; [done|]. rewrite prefix_text_one in Hs. destruct Hs as [_ Hs]. rewrite <- app_assoc in Hs.
    apply bytes_at_app in Hs as [_ (_ & _ & E & _)].
    replace (p + Z.of_nat (length x) + 2) with (p + Z.of_nat (length x) + 1 + 1) by lia. rewrite (ldc_ok _ _ _ E).
    cbn [mbind outcome_bind prefix_text]. change (s8 0 =? 0) with true. cbv iota. cbn. f_equal. lia.
  - rewrite prefix_text_cons in Hs, Hl. rewrite app_assoc in Hs, Hl. rewrite length_app in Hl.
    apply (str_at_drop _ _ _ (length (x ++ DELIM))) in Hs; [|rewrite (length_app (x ++ DELIM)); lia]. rewrite drop_app_length in Hs.
    rewrite length_app in Hs, Hl. change (length DELIM) with 2%nat in *.
    replace (p + Z.of_nat (length x + 2)) with (p + Z.of_nat (length x) + 2) in Hs by lia. set (q := p + Z.of_nat (length x) + 2) in *.
    apply Forall_cons in Hg as [_ Hg]. pose proof Hs as Hs'. rewrite prefix_text_cons in Hs'.
    assert (∃ c t, y ++ DELIM ++ prefix_text ps = c :: t) as (c & t & Ec) by (destruct y; by eexists _, _).
    rewrite Ec in Hs'. apply str_at_cons in Hs' as [[Hc E] _]. rewrite (ldc_ok _ _ _ E). cbn [mbind outcome_bind].
    rewrite s8_eqb0, (proj2 (Z.eqb_neq c 0)) by (unfold is_byte; lia).
    rewrite (strstr_ok m fuel q delim (prefix_text (y :: ps)) DELIM) by (done || lia || (cbn; lia)).
    cbn [mbind outcome_bind]. rewrite prefix_text_cons, find_delim by (by apply Forall_cons in Hg as [? _]). cbn [ptr_at].
    destruct (IH n q y Hs Hg Hd ltac:(lia) Hf ltac:(cbn in Hn; lia)) as (init & l & Ei & E').
    exists (x :: init), l. split; [by rewrite Ei|]. rewrite E'. rewrite prefix_text_cons, app_assoc, !length_app.
    change (length DELIM) with 2%nat. f_equal. unfold q. lia.
Qed.

(** Popping undoes the last push; there is nothing to undo in an empty array. *)
Lemma pop_ok ps l s :
  prefixes_are (rp_mem s) (ps ++ [l]) → rp_lock s = 0 → (256 < fuel)%nat →
  ∃ m', report_prefix_pop prefixes delim fuel s = Done (tt, set_rp_mem m' s) ∧ prefixes_are m' ps ∧ same_but zone (rp_mem s) m'.
Proof.
  intros [Ht Hg Hl Hw Hd Hp] Hlk Hf.
  assert (∃ x r, ps ++ [l] = x :: r) as (x & r & Ex) by (destruct ps; by eexists _, _).
  rewrite Ex in Ht, Hg. pose proof Ht as Hl'. rewrite prefix_text_cons in Ht. pose proof Ht as Ht'.
  assert (∃ c t, x ++ DELIM ++ prefix_text r = c :: t) as (c & t & Ec) by (destruct x; by eexists _, _).
  rewrite Ec in Ht'. apply str_at_cons in Ht' as [[Hc E] _].
  unfold report_prefix_pop. rewrite bind_lock by done. erewrite bind_rp_do by (by apply ldc_ok).
  rewrite s8_eqb0, (proj2 (Z.eqb_neq c 0)) by (unfold is_byte; lia).
  rewrite Ex in Hl. erewrite bind_rp_do; [|apply (strstr_ok _ _ _ _ (prefix_text (x :: r)) DELIM); [done|apply Hd|lia|cbn; lia|lia|cbn; lia]].
  rewrite prefix_text_cons, find_delim by (by apply Forall_cons in Hg as [? _]). cbn [ptr_at].
  destruct (pop_loop_ok (rp_mem s) r fuel prefixes x Hl' Hg (proj1 Hd) Hl Hf) as (init & l' & Ei & E').
  { rewrite prefix_text_cons in Hl. assert (length r ≤ length (prefix_text r))%nat; [|rewrite !length_app in Hl; lia].
    clear. induction r; [done|]. rewrite prefix_text_cons, !length_app. cbn [length DELIM]. lia. }
  erewrite bind_rp_do by exact E'. rewrite <- Ex in Ei. apply app_inj_tail in Ei as [-> ->].
  rewrite <- Ex, prefix_text_app, length_app in Hl. rewrite <- Ex in Hg. apply Forall_app in Hg as [Hg _].
  rewrite <- Ex in Hl'. rewrite prefix_text_app in Hl'. set (p := prefixes + Z.of_nat (length (prefix_text init))) in *.
  assert (is_Some (rp_mem s !! p)) as Hsp by (apply Hw; unfold p; lia).
  assert (zone p) as Hzp by (left; unfold in_buf, p; lia).
  erewrite bind_rp_st by (by cbn [rp_mem set_rp_lock]; rewrite stb_ok). change (u8 0) with 0. cbn [rp_mem set_rp_lock].
  set (m' := <[p := 0]> (rp_mem s)). assert (same_but zone (rp_mem s) m') as HS.
  { intros a Ha. apply lookup_insert_ne. by intros <-. }
  exists m'. split; [|split; [|done]].
  - unfold unlock_report. mrun. unfold modify. do 2 f_equal. destruct s. cbn in *. by subst.
  - split.
    + destruct Hl' as [Hc1 Hb1]. apply Forall_app in Hc1 as [Hc1 _]. split; [done|]. rewrite <- app_assoc in Hb1.
      apply bytes_at_app in Hb1 as [Hb1 _]. apply bytes_at_app. fold p. split; [|split; [apply lookup_insert_eq|done]].
      apply (bytes_at_frame (rp_mem s)); [done|]. intros a Ha. apply lookup_insert_ne. unfold p. lia.
    + done.
    + lia.
    + by apply (writable_put _ [0]).
    + by apply (str_in_same zone (rp_mem s)).
    + by apply (str_in_same zone (rp_mem s)).
Qed.
Lemma pop_nil_ok s :
  prefixes_are (rp_mem s) [] → rp_lock s = 0 → report_prefix_pop prefixes delim fuel s = Done (tt, s).
Proof.
  intros [Ht _ _ _ _ _] Hlk. apply str_at_nil in Ht. unfold report_prefix_pop. rewrite bind_lock by done.
  erewrite bind_rp_do by (by apply ldc_ok). change (s8 0 =? 0) with true. cbv iota.
  unfold unlock_report. mrun. unfold modify. do 2 f_equal. destruct s. cbn in *. by subst.
Qed.
End proofs.

(** ** The verdicts *)
Inductive call := CPass | CReport (msg : Z) (pass : bool) (va : list Z) | CXfail (msg : Z) (xfail pass : bool) (va : list Z) | CSkip (msg : Z) (va : list Z).
Inductive verdict := VPass | VFail | VXfail | VSkip.
#[export] Instance verdict_eq_dec : EqDecision verdict.
Proof. solve_decision. Defined.
Definition verdict_of (c : call) : verdict :=
  match c with
  | CPass => VPass
  | CReport _ pass _ => if pass then VPass else VFail
  | CXfail _ xfail pass _ => if xfail then (if pass then VFail else VXfail) else (if pass then VPass else VFail)
  | CSkip _ _ => VSkip
  end.
Definition count (v : verdict) (l : list call) : Z := Z.of_nat (length (filter (λ c, verdict_of c = v) l)).
Definition call_msg (c : call) : option Z :=
  match c with CPass => None | CReport msg _ _ | CXfail msg _ _ _ | CSkip msg _ => Some msg end.

Section calls.
Context (prefixes : Z) (fuel : nat).
Definition run_call (c : call) : stM report_state unit :=
  match c with
  | CPass => report_pass
  | CReport msg pass va => report prefixes fuel msg pass va
  | CXfail msg xfail pass va => report_xfail prefixes fuel msg xfail pass va
  | CSkip msg va => report_skip prefixes fuel msg va
  end.
Fixpoint run_calls (l : list call) : stM report_state unit :=
  match l with [] => mret tt | c :: l => run_call c;; run_calls l end.

Definition readable (m : bmem) (p : Z) : Prop := ∃ str, str_at m p str ∧ (length str < fuel)%nat.
Lemma bind_puts {B} p (g : unit → stM report_state B) s :
  readable (rp_mem s) p → ∃ t, (puts fuel p ≫= g) s = g tt (set_rp_log (t :: rp_log s) s).
Proof.
  intros (str & Hs & Hf). eexists. apply stM_bind_Done. unfold puts. erewrite bind_rp_do by (by apply ld_str_ok). done.
Qed.
Lemma bind_vprintf {B} p va (g : unit → stM report_state B) s :
  readable (rp_mem s) p → ∃ t, (vprintf fuel p va ≫= g) s = g tt (set_rp_log (t :: rp_log s) s).
Proof.
  intros (str & Hs & Hf). eexists. apply stM_bind_Done. unfold vprintf. erewrite bind_rp_do by (by apply ld_str_ok). done.
Qed.

(** The counters after the calls [l]. *)
Record counted (l : list call) s : Prop := {
  ct_tests : tests s = Z.of_nat (length l);
  ct_failures : failures s = count VFail l;
  ct_xfailures : xfailures s = count VXfail l;
  ct_skipped : skipped s = count VSkip l;
  ct_lock : rp_lock s = 0
}.
Lemma count_snoc v l c : count v (l ++ [c]) = count v l + if decide (verdict_of c = v) then 1 else 0.
Proof. unfold count. rewrite filter_app, length_app, filter_cons, filter_nil. destruct (decide _); cbn; lia. Qed.
Lemma count_le v l : 0 ≤ count v l ≤ Z.of_nat (length l).
Proof. unfold count. pose proof (length_filter (λ c, verdict_of c = v) l). lia. Qed.

Lemma va_report_ok msg pass xfail skip va s :
  rp_lock s = 0 → readable (rp_mem s) prefixes → readable (rp_mem s) msg →
  ∃ s', va_report prefixes fuel msg pass xfail skip va s = Done (tt, s') ∧ rp_mem s' = rp_mem s ∧ rp_lock s' = 0 ∧
    tests s' = u32 (tests s + 1) ∧
    failures s' = (if negb skip && eqb xfail pass then u32 (failures s + 1) else failures s) ∧
    xfailures s' = (if negb skip && (xfail && negb pass) then u32 (xfailures s + 1) else xfailures s) ∧
    skipped s' = (if skip then u32 (skipped s + 1) else skipped s).
Proof.
  intros Hl Hp Hm. unfold va_report. rewrite bind_lock by done. cbv zeta. unfold printf, puts_lit. mrun.
  match goal with |- context [(puts _ _ ≫= ?g) ?s] => destruct (bind_puts prefixes g s Hp) as (t1 & ->) end.
  match goal with |- context [(vprintf _ _ _ ≫= ?g) ?s] => destruct (bind_vprintf msg va g s Hm) as (t2 & ->) end.
  unfold printf. mrun. destruct skip, xfail, pass; cbn [negb andb orb eqb]; mrun; (eexists; split; [reflexivity|]); cbn; by split_and!.
Qed.

Lemma run_call_ok l c s :
  counted l s → Z.of_nat (length l) + 1 < 2 ^ 32 → readable (rp_mem s) prefixes →
  match call_msg c with Some p => readable (rp_mem s) p | None => True end →
  ∃ s', run_call c s = Done (tt, s') ∧ counted (l ++ [c]) s' ∧ rp_mem s' = rp_mem s.
Proof.
  intros [Ht Hf Hx Hs Hl] Hlen Hp Hm.
  pose proof (count_le VFail l). pose proof (count_le VXfail l). pose proof (count_le VSkip l).
  assert (∀ x, 0 ≤ x ≤ Z.of_nat (length l) → u32 (x + 1) = x + 1) as Hu by (intros; apply u32_small; unfold in_u32; lia).
  destruct c as [|msg pass va|msg xfail pass va|msg va]; cbn [run_call call_msg] in *.
  1:{ unfold report_pass. rewrite bind_lock by done. unfold unlock_report. mrun. eexists. split; [reflexivity|]. split; [|done].
      split; cbn; rewrite ?length_app, ?count_snoc; cbn [length verdict_of]; repeat case_decide; try done; rewrite ?Ht, ?Hu by lia; lia. }
  all: unfold report, report_xfail, report_skip.
  all: match goal with |- context [va_report _ _ ?msg ?p ?x ?k ?va ?s] =>
    destruct (va_report_ok msg p x k va s Hl Hp Hm) as (s' & E & Em & El & E1 & E2 & E3 & E4) end.
  all: exists s'; split; [exact E|]; split; [|done]; split; rewrite ?length_app, ?count_snoc; cbn [length verdict_of]; [rewrite E1, Ht, Hu; lia| | | |done].
  all: rewrite ?E2, ?E3, ?E4, ?Hf, ?Hx, ?Hs; repeat match goal with b : bool |- _ => destruct b end; cbn [negb andb eqb]; rewrite ?Hu by done;
    repeat case_decide; (lia || congruence).
Qed.

Lemma run_calls_ok l : ∀ done_ s,
  counted done_ s → Z.of_nat (length done_ + length l) < 2 ^ 32 → readable (rp_mem s) prefixes →
  Forall (λ c, match call_msg c with Some p => readable (rp_mem s) p | None => True end) l →
  ∃ s', run_calls l s = Done (tt, s') ∧ counted (done_ ++ l) s' ∧ rp_mem s' = rp_mem s.
Proof.
  induction l as [|c l IH]; intros d s Hc Hl Hp Hm; cbn [run_calls].
  - exists s. rewrite app_nil_r. by split.
  - cbn [length] in Hl. apply Forall_cons in Hm as [Hm0 Hm].
    destruct (run_call_ok d c s Hc ltac:(lia) Hp Hm0) as (s1 & E1 & Hc1 & Em1). rewrite (stM_bind_Done _ _ _ _ _ E1).
    destruct (IH (d ++ [c]) s1 Hc1) as (s2 & E2 & Hc2 & Em2); [rewrite length_app; cbn; lia|by rewrite Em1..|].
    exists s2. split; [done|]. rewrite <- app_assoc in Hc2. split; [done|]. by rewrite Em2.
Qed.

(** The exit status: 77 / 2 when all tests were skipped, else whether one failed. *)
Definition status (l : list call) : Z :=
  if forallb (λ c, bool_decide (verdict_of c = VSkip)) l then 38
  else if existsb (λ c, bool_decide (verdict_of c = VFail)) l then 1 else 0.
Lemma count_all v l : (count v l =? Z.of_nat (length l)) = forallb (λ c, bool_decide (verdict_of c = v)) l.
Proof.
  induction l as [|c l IH]; [done|]. cbn [forallb length]. rewrite <- IH. unfold count. rewrite filter_cons.
  pose proof (count_le v l). unfold count in *. destruct (decide (verdict_of c = v)) as [E|E].
  - rewrite bool_decide_eq_true_2 by done. cbn [length andb]. zbits_cmp; (done || lia).
  - rewrite bool_decide_eq_false_2 by done. apply Z.eqb_neq. lia.
Qed.
Lemma count_some v l : (0 <? count v l) = existsb (λ c, bool_decide (verdict_of c = v)) l.
Proof.
  induction l as [|c l IH]; [done|]. cbn [existsb]. rewrite <- IH. unfold count. rewrite filter_cons.
  destruct (decide (verdict_of c = v)) as [E|E].
  - rewrite bool_decide_eq_true_2 by done. cbn [length orb]. apply Z.ltb_lt. lia.
  - by rewrite bool_decide_eq_false_2.
Qed.
Lemma summary_ok l s : counted l s → ∃ s', report_summary s = Done (status l, s') ∧ rp_lock s' = 0.
Proof.
  intros [Ht Hf Hx Hs Hl]. unfold report_summary. rewrite bind_lock by done. unfold printf. mrun. cbn [tests set_rp_lock failures xfailures skipped].
  assert ((tests s =? skipped s) = forallb (λ c, bool_decide (verdict_of c = VSkip)) l) as E
    by (rewrite Ht, Hs, Z.eqb_sym; apply count_all).
  rewrite E, Hf, count_some. unfold status, when.
  destruct (negb _), (negb _), (negb _), (forallb (λ c, bool_decide (verdict_of c = VSkip)) l), (existsb (λ c, bool_decide (verdict_of c = VFail)) l); unfold unlock_report; mrun; eexists; (split; [reflexivity|done]).
Qed.
End calls.

(** ** The properties *)
(** C36: The prefixes are a stack in an array of 256 characters.  [report_prefix_push] of a
    prefix that does not contain ": " and fits appends it with its delimiter and
    [report_prefix_pop] takes just that away again; any other push ends in abort
    before another report is made; a pop of the empty stack does nothing. *)
Theorem report_prefix_roundtrip prefixes delim pct_s frame junk fuel q str ps s :
  frame + 27 ≤ prefixes ∨ prefixes + 256 ≤ frame → 0 < prefixes → (600 + length str < fuel)%nat → Z.of_nat fuel < 2 ^ 31 - 256 →
  prefixes_are prefixes delim pct_s frame (rp_mem s) ps → rp_lock s = 0 →
  str_in (in_zone prefixes 256 frame) (rp_mem s) (u64 q) str →
  (if bool_decide (good str) && (Z.of_nat (length (prefix_text (ps ++ [str]))) <? 256) then
     ∃ s1 s2, report_prefix_push prefixes delim pct_s frame junk fuel q s = Done (tt, s1) ∧
       prefixes_are prefixes delim pct_s frame (rp_mem s1) (ps ++ [str]) ∧
       report_prefix_pop prefixes delim fuel s1 = Done (tt, s2) ∧
       prefixes_are prefixes delim pct_s frame (rp_mem s2) ps ∧
       same_but (in_zone prefixes 256 frame) (rp_mem s) (rp_mem s2) ∧ s2 = set_rp_mem (rp_mem s2) s
   else report_prefix_push prefixes delim pct_s frame junk fuel q s = Abort) ∧
  (ps = [] → report_prefix_pop prefixes delim fuel s = Done (tt, s)).
Proof.
  intros Hfr Hpos Hf Hf31 Hps Hl Hq. split.
  - pose proof (push_ok prefixes delim pct_s frame junk fuel Hfr Hpos ltac:(lia) q str ps s Hps Hl Hq ltac:(lia) ltac:(lia)) as Hpush.
    destruct (_ && _); [|done]. destruct Hpush as (m1 & E1 & P1 & S1).
    destruct (pop_ok prefixes delim pct_s frame fuel ps str (set_rp_mem m1 s) P1 Hl ltac:(lia)) as (m2 & E2 & P2 & S2).
    exists (set_rp_mem m1 s), (set_rp_mem m2 s). split; [done|]. split; [done|]. split; [exact E2|]. split; [done|]. split; [|done].
    by apply (same_but_trans _ _ m1).
  - intros ->. by eapply pop_nil_ok.
Qed.

(** C37: The verdict of a run.  After any sequence of reports the counters are the numbers
    of tests, of unexpected failures (an unexpected pass is one), of expected failures
    and of skipped tests, and [report_summary] returns the exit status: 38 when every
    test was skipped, 1 when one failed unexpectedly, otherwise 0. *)
Theorem report_summary_correct prefixes fuel l s :
  counted [] s → Z.of_nat (length l) < 2 ^ 32 → readable fuel (rp_mem s) prefixes →
  Forall (λ c, match call_msg c with Some p => readable fuel (rp_mem s) p | None => True end) l →
  ∃ s' s'', run_calls prefixes fuel l s = Done (tt, s') ∧ counted l s' ∧ report_summary s' = Done (status l, s'').
Proof.
  intros Hc Hl Hp Hm. destruct (run_calls_ok prefixes fuel l [] s Hc Hl Hp Hm) as (s' & E & Hc' & _).
  destruct (summary_ok l s' Hc') as (s'' & E' & _). by exists s', s''.
Qed.

(** ** A concrete run: the array at 0x1000 holds one prefix *)
Definition demo_report : report_state :=
  Report (put_bytes 0x1000 (cstr "vmx: " ++ replicate 250 0) (put_bytes 0x2000 (cstr ": ") (put_bytes 0x2010 (cstr "%s")
    (put_bytes 0x2020 (cstr "ept") (put_bytes 0x2030 (cstr "maps %d") (put_bytes 0x3000 (replicate 27 0) ∅)))))) 0 0 0 0 0 [].

Lemma report_prefix_roundtrip_witness :
  ∃ s1 s2, report_prefix_push 0x1000 0x2000 0x2010 0x3000 (λ _, 7) 700 0x2020 demo_report = Done (tt, s1) ∧
    str_at (rp_mem s1) 0x1000 (chars "vmx: ept: ") ∧
    report_prefix_pop 0x1000 0x2000 700 s1 = Done (tt, s2) ∧ str_at (rp_mem s2) 0x1000 (chars "vmx: ").
Proof.
  destruct (report_prefix_roundtrip 0x1000 0x2000 0x2010 0x3000 (λ _, 7) 700 0x2020 (chars "ept") [chars "vmx"] demo_report) as [H _].
  - right. lia.
  - lia.
  - cbn. lia.
  - lia.
  - split; [apply str_at_bool; by vm_compute|by apply Forall_singleton, (bool_decide_unpack _); vm_compute|by vm_compute| | |].
    + apply (writable_bool _ _ 256). by vm_compute.
    + split; [apply str_at_bool; by vm_compute|]. intros a Ha. cbn in Ha. unfold in_zone, in_buf, in_frame. lia.
    + split; [apply str_at_bool; by vm_compute|]. intros a Ha. cbn in Ha. unfold in_zone, in_buf, in_frame. lia.
  - done.
  - split; [apply str_at_bool; by vm_compute|]. intros a Ha. change (u64 0x2020) with 0x2020 in Ha. cbn in Ha. unfold in_zone, in_buf, in_frame. lia.
  - assert (bool_decide (good (chars "ept")) && (Z.of_nat (length (prefix_text ([chars "vmx"] ++ [chars "ept"]))) <? 256) = true) as Eb by by vm_compute.
    rewrite Eb in H. destruct H as (s1 & s2 & E1 & P1 & E2 & P2 & _). exists s1, s2.
    split; [exact E1|]. split; [exact (pf_text _ _ _ _ _ _ P1)|]. split; [exact E2|exact (pf_text _ _ _ _ _ _ P2)].
Defined.

Lemma report_summary_correct_witness :
  ∃ s' s'', run_calls 0x1000 20 [CPass; CReport 0x2030 true [1]; CXfail 0x2030 true false [2]; CXfail 0x2030 true true [3]; CSkip 0x2020 []] demo_report = Done (tt, s') ∧
    failures s' = 1 ∧ xfailures s' = 1 ∧ report_summary s' = Done (1, s'').
Proof.
  destruct (report_summary_correct 0x1000 20 [CPass; CReport 0x2030 true [1]; CXfail 0x2030 true false [2]; CXfail 0x2030 true true [3]; CSkip 0x2020 []] demo_report)
    as (s' & s'' & E & [_ Ef Ex _ _] & E2).
  - by split.
  - done.
  - exists (chars "vmx: "). split; [apply str_at_bool; by vm_compute|cbn; lia].
  - assert (readable 20 (rp_mem demo_report) 0x2030) as H1 by (exists (chars "maps %d"); split; [apply str_at_bool; by vm_compute|cbn; lia]).
    assert (readable 20 (rp_mem demo_report) 0x2020) as H2 by (exists (chars "ept"); split; [apply str_at_bool; by vm_compute|cbn; lia]).
    repeat (apply Forall_cons; split; [done|]). constructor.
  - exists s', s''. split; [exact E|]. split; [exact Ef|]. split; [exact Ex|exact E2].
Defined.
