(* ===== verification/Console.v ===== *)
(** The consoles: lib/x86/io.c (the serial port) and the functions of
    lib/printf.c that print.

    [con] is what they change: byte memory, the text console of Monitor.v, the
    port writes to the serial port, newest first, and the statics of io.c.  What
    the UART answers is a parameter: [dev t port] is the byte that the [t]-th
    port read gives.  [frame] and [buf] are the addresses of the stack arrays of
    vsnprintf and of its callers. *)
From Stdlib Require Import ZArith Lia Bool.
From S2P Require Import Prelude Libcflat Spinlock Bytes CString Printf Monitor.
#[local] Open Scope Z_scope.

Record con := Con {
  con_mem : bmem;
  con_screen : mstate;
  con_ports : list (Z * Z);
  con_reads : nat;
  serial_inited : Z;
  con_lock : spinlock
}.
Definition set_mem (m : bmem) (s : con) : con :=
  Con m (con_screen s) (con_ports s) (con_reads s) (serial_inited s) (con_lock s).
Definition set_screen (x : mstate) (s : con) : con :=
  Con (con_mem s) x (con_ports s) (con_reads s) (serial_inited s) (con_lock s).
Definition set_inited (i : Z) (s : con) : con :=
  Con (con_mem s) (con_screen s) (con_ports s) (con_reads s) i (con_lock s).
Definition set_lock (l : spinlock) (s : con) : con :=
  Con (con_mem s) (con_screen s) (con_ports s) (con_reads s) (serial_inited s) l.

Section code.
Context (dev : nat → Z → Z) (fuel : nat) (frame buf : Z) (junk : Z → Z).
Abbreviation M := (stM con).

Definition on_mem {A} (f : stM bmem A) : M A := zoom con_mem set_mem f.
Definition on_screen_do (f : stM mstate unit) : M unit := zoom con_screen set_screen f.

Definition inb (port : Z) : M Z :=
  λ s, Done (u8 (dev (con_reads s) port),
             Con (con_mem s) (con_screen s) (con_ports s) (S (con_reads s)) (serial_inited s) (con_lock s)).
Definition outb (value port : Z) : M unit :=
  modify (λ s, Con (con_mem s) (con_screen s) ((port, u8 value) :: con_ports s) (con_reads s) (serial_inited s) (con_lock s)).

Definition serial_iobase : Z := 0x3f8.

(** [do lsr = inb(serial_iobase + 0x05); while (!(lsr & 0x20));] *)
Fixpoint wait_lsr (n : nat) : M unit :=
  match n with
  | O => lift NoFuel
  | S n => lsr ← inb (serial_iobase + 5); if Z.land lsr 0x20 =? 0 then wait_lsr n else mret tt
  end.
Definition serial_outb (ch : Z) : M unit := wait_lsr fuel;; outb ch (serial_iobase + 0).
Definition serial_put (ch : Z) : M unit := when (ch =? 10) (serial_outb 13);; serial_outb ch.

Definition serial_init : M unit :=
  lcr ← inb (serial_iobase + 3);
  outb (Z.lor lcr 0x80) (serial_iobase + 3);;
  outb 0x01 (serial_iobase + 0);;
  outb 0x00 (serial_iobase + 1);;
  lcr ← inb (serial_iobase + 3);
  outb (Z.land lcr (Z.lnot 0x80)) (serial_iobase + 3);;
  outb 0x00 (serial_iobase + 1);;
  outb 0x03 (serial_iobase + 3);;
  outb 0x00 (serial_iobase + 2);;
  outb 0x03 (serial_iobase + 4).

Definition print_serial (s : Z) : M unit :=
  len ← on_mem (c_strlen fuel s);
  inited ← gets serial_inited;
  when (inited =? 0) (serial_init;; modify (set_inited 1));;
  for_up (Z.to_nat len) 0 (λ i, c ← on_mem (rdc (s + i)); serial_put c).

Definition puts (s : Z) : M unit :=
  l ← gets con_lock;
  l ← lift (spin_lock l);
  modify (set_lock l);;
  print_serial s;;
  l ← gets con_lock;
  modify (set_lock (spin_unlock l)).

Definition BUFSZ : Z := 2000.

(** The characters of the array [buf], for code that takes a [char] pointer. *)
Definition array_chars (m : bmem) (p n : Z) : list Z := omap (λ i, s8 <$> m !! (p + i)) (seqZ 0 n).

(** The array [buf] of the printing functions. *)
Definition enter_buf : M unit := on_mem (modify (put_bytes buf ((λ i, u8 (junk i)) <$> seqZ 0 BUFSZ))).

Definition vprintf (fmt : Z) (va : list Z) : M Z :=
  enter_buf;;
  r ← on_mem (vsnprintf frame junk fuel buf BUFSZ fmt va);
  puts buf;;
  mret r.

Definition printf (fmt : Z) (va : list Z) : M Z :=
  enter_buf;;
  r ← on_mem (vsnprintf frame junk fuel buf BUFSZ fmt va);
  m ← gets con_mem;
  on_screen_do (monitor_write (array_chars m buf BUFSZ));;
  puts buf;;
  mret r.

Definition warning (fmt : Z) (va : list Z) : M Z :=
  enter_buf;;
  r ← on_mem (vsnprintf frame junk fuel buf BUFSZ fmt va);
  m ← gets con_mem;
  on_screen_do (monitor_write_color (array_chars m buf BUFSZ) MC_BLACK MC_LIGHT_YELLOW);;
  puts buf;;
  mret r.

Definition error (fmt : Z) (va : list Z) : M Z :=
  enter_buf;;
  r ← on_mem (vsnprintf frame junk fuel buf BUFSZ fmt va);
  m ← gets con_mem;
  on_screen_do (monitor_write_color (array_chars m buf BUFSZ) MC_BLACK MC_DARK_RED);;
  puts buf;;
  mret r.

(** [print_binstr]; the array [out] is at [out], and [fmt] is where "%s" is. *)
Definition print_binstr (out fmt x : Z) : M unit :=
  on_mem (modify (put_bytes out ((λ i, u8 (junk i)) <$> seqZ 0 BINSTR_SZ)));;
  on_mem (binstr x out);;
  _ ← printf fmt [out];
  mret tt.
End code.

(** ** What the consoles receive *)
(** A string on the serial line: carriage return before each line feed. *)
Definition serial_text (l : list Z) : list Z := l ≫= λ c, if c =? 10 then [13; 10] else [c].
Definition sent (l : list Z) : list (Z * Z) := rev ((λ b, (0x3f8, b)) <$> serial_text l).
(** The set-up of the UART, last write first; [a] and [b] are the two values of its line control register. *)
Definition init_ports (a b : Z) : list (Z * Z) :=
  [(0x3fc, u8 3); (0x3fa, u8 0); (0x3fb, u8 3); (0x3f9, u8 0); (0x3fb, u8 (Z.land b (Z.lnot 0x80)));
   (0x3f9, u8 0); (0x3f8, u8 1); (0x3fb, u8 (Z.lor a 0x80))].

Lemma bind_on_mem {A B} (f : stM bmem A) (g : A → stM con B) s a m :
  f (con_mem s) = Done (a, m) → (on_mem f ≫= g) s = g a (set_mem m s).
Proof. intros E. unfold on_mem. by rewrite (bind_zoom _ _ _ _ _ _ _ E). Qed.
Lemma set_mem_same s : set_mem (con_mem s) s = s.
Proof. by destruct s. Qed.

Lemma bind_inb {B} dev port (g : Z → stM con B) s :
  (inb dev port ≫= g) s = g (u8 (dev (con_reads s) port))
    (Con (con_mem s) (con_screen s) (con_ports s) (S (con_reads s)) (serial_inited s) (con_lock s)).
Proof. done. Qed.
Lemma bind_outb {B} v port (g : unit → stM con B) s :
  (outb v port ≫= g) s = g tt
    (Con (con_mem s) (con_screen s) ((port, u8 v) :: con_ports s) (con_reads s) (serial_inited s) (con_lock s)).
Proof. done. Qed.

Lemma outb_eq v port s :
  outb v port s = Done (tt,
    Con (con_mem s) (con_screen s) ((port, u8 v) :: con_ports s) (con_reads s) (serial_inited s) (con_lock s)).
Proof. done. Qed.
#[local] Opaque inb outb u8.

Section proofs.
Context (dev : nat → Z → Z) (fuel : nat) (frame buf : Z) (junk : Z → Z).
(** The UART becomes ready to send within [fuel] reads of its status register. *)
Hypothesis Hready : ∀ t, ∃ k, (k < fuel)%nat ∧ Z.land (u8 (dev (t + k)%nat 0x3fd)) 0x20 ≠ 0.

Lemma wait_lsr_ok n s :
  (∃ k, (k < n)%nat ∧ Z.land (u8 (dev (con_reads s + k)%nat 0x3fd)) 0x20 ≠ 0) →
  ∃ r, wait_lsr dev n s =
    Done (tt, Con (con_mem s) (con_screen s) (con_ports s) r (serial_inited s) (con_lock s)).
Proof.
  revert s. induction n as [|n IH]; intros s (k & Hk & Hr); [lia|]. cbn [wait_lsr].
  unfold inb at 1, mbind at 1, stM_bind. change (serial_iobase + 5) with 0x3fd.
  destruct (Z.eqb_spec (Z.land (u8 (dev (con_reads s) 1021)) 32) 0) as [E|E]; [|by eexists].
  apply (IH (Con (con_mem s) (con_screen s) (con_ports s) (S (con_reads s)) (serial_inited s) (con_lock s))).
  destruct k as [|k]; [by rewrite Nat.add_0_r in Hr|]. exists k. cbn [con_reads].
  split; [lia|]. by replace (S (con_reads s) + k)%nat with (con_reads s + S k)%nat by lia.
Qed.

Lemma serial_outb_ok ch s :
  ∃ r, serial_outb dev fuel ch s =
    Done (tt, Con (con_mem s) (con_screen s) ((0x3f8, u8 ch) :: con_ports s) r (serial_inited s) (con_lock s)).
Proof.
  destruct (wait_lsr_ok fuel s (Hready _)) as [r E]. exists r. unfold serial_outb.
  by rewrite (stM_bind_Done _ _ _ _ _ E).
Qed.

Lemma serial_put_ok c s : is_byte c →
  ∃ r, serial_put dev fuel (s8 c) s =
    Done (tt, Con (con_mem s) (con_screen s) (sent [c] ++ con_ports s) r (serial_inited s) (con_lock s)).
Proof.
  intros Hc. unfold serial_put, when. rewrite s8_eqb_ascii by (done || lia). unfold sent, serial_text.
  rewrite bind_cons, app_nil_r. destruct (Z.eqb_spec c 10) as [->|Hne].
  - destruct (serial_outb_ok 13 s) as [r1 E1]. rewrite (stM_bind_Done _ _ _ _ _ E1).
    destruct (serial_outb_ok (s8 10) (Con (con_mem s) (con_screen s) ((0x3f8, u8 13) :: con_ports s) r1 (serial_inited s) (con_lock s)))
      as [r2 E2]. exists r2. exact E2.
  - rewrite bind_mret. destruct (serial_outb_ok (s8 c) s) as [r E]. exists r. rewrite E, u8_s8 by done. done.
Qed.

Lemma sent_app l1 l2 : sent (l1 ++ l2) = sent l2 ++ sent l1.
Proof. unfold sent, serial_text. by rewrite bind_app, fmap_app, rev_app_distr. Qed.

Lemma serial_init_ok s :
  ∃ a b r, serial_init dev s =
    Done (tt, Con (con_mem s) (con_screen s) (init_ports a b ++ con_ports s) r (serial_inited s) (con_lock s)).
Proof.
  unfold serial_init.
  repeat ((rewrite bind_inb || rewrite bind_outb || rewrite outb_eq);
    cbn [con_mem con_screen con_ports con_reads serial_inited con_lock]).
  by exists (u8 (dev (con_reads s) 0x3fb)), (u8 (dev (S (con_reads s)) 0x3fb)), (S (S (con_reads s))).
Qed.

(** What [puts] leaves behind. *)
Definition printed (str : list Z) (s s' : con) : Prop :=
  con_mem s' = con_mem s ∧ con_screen s' = con_screen s ∧ con_lock s' = 0 ∧ serial_inited s' ≠ 0 ∧
  ∃ init, con_ports s' = sent str ++ init ++ con_ports s ∧
    if serial_inited s =? 0 then ∃ a b, init = init_ports a b else init = [].

(** The loop of [print_serial]. *)
Lemma serial_loop_ok p str s :
  str_at (con_mem s) p str →
  ∃ r, for_up (length str) 0 (λ i, c ← on_mem (rdc (p + i)); serial_put dev fuel c) s =
    Done (tt, Con (con_mem s) (con_screen s) (sent str ++ con_ports s) r (serial_inited s) (con_lock s)).
Proof.
  intros Hs. destruct (for_up_rule (λ i t, ∃ r, t =
      Con (con_mem s) (con_screen s) (sent (take (Z.to_nat i) str) ++ con_ports s) r (serial_inited s) (con_lock s))
    (λ i, c ← on_mem (rdc (p + i)); serial_put dev fuel c) (length str) 0 s) as (s' & E & r & ->).
  - exists (con_reads s). by destruct s.
  - intros i t Hi [r ->]. destruct (lookup_lt_is_Some_2 str (Z.to_nat i)) as [c Ec]; [lia|].
    assert (con_mem s !! (p + i) = Some c) as Em.
    { pose proof (str_at_bytes _ _ _ Hs) as Hb. rewrite (proj1 (bytes_at_lookup _ _ _) Hb) by lia.
      by replace (p + i - p) with i by lia. }
    assert (is_byte c) as Hc.
    { destruct Hs as [Hcs _]. unfold cstring in Hcs. rewrite Forall_lookup in Hcs. pose proof (Hcs _ _ Ec).
      unfold is_byte. cbn in *. lia. }
    set (t := Con _ _ _ _ _ _). destruct (serial_put_ok c t Hc) as [r' E'].
    eexists. split.
    + rewrite (bind_on_mem _ _ t (s8 c) (con_mem s)); [exact E'|].
      unfold rdc. cbn [con_mem t]. by rewrite (ldc_ok _ _ _ Em).
    + exists r'. f_equal. cbn [con_ports t]. rewrite Z2Nat.inj_add by lia. change (Z.to_nat 1) with 1%nat.
      rewrite Nat.add_1_r, (take_S_r _ _ _ Ec), sent_app. by rewrite <- app_assoc.
  - exists r. rewrite E. rewrite Z.add_0_l, Nat2Z.id, take_ge by lia. done.
Qed.

Lemma puts_ok p str s :
  str_at (con_mem s) p str → (length str < fuel)%nat → Z.of_nat (length str) < 2 ^ 64 → con_lock s = 0 →
  ∃ s', puts dev fuel p s = Done (tt, s') ∧ printed str s s'.
Proof.
  intros Hs Hf Hl Hlk. unfold puts. rewrite bind_gets, Hlk. change (spin_lock 0) with (Done 1 : outcome Z).
  rewrite bind_lift_Done, bind_modify. set (s0 := set_lock 1 s). unfold print_serial. rewrite stM_bind_assoc.
  rewrite (bind_on_mem _ _ s0 (Z.of_nat (length str)) (con_mem s0)).
  2:{ unfold c_strlen. by rewrite (strlen_ok (con_mem s0) fuel p str). }
  rewrite set_mem_same, stM_bind_assoc, bind_gets, Nat2Z.id. cbn [s0 set_lock serial_inited].
  unfold when. destruct (Z.eqb_spec (serial_inited s) 0) as [Ei|Ei].
  - rewrite stM_bind_assoc. rewrite !stM_bind_assoc.
    destruct (serial_init_ok (Con (con_mem s) (con_screen s) (con_ports s) (con_reads s) (serial_inited s) 1)) as (a & b & r & E1).
    rewrite (stM_bind_Done _ _ _ _ _ E1), bind_modify.
    cbn [set_inited con_mem con_screen con_ports con_reads con_lock].
    destruct (serial_loop_ok p str (Con (con_mem s) (con_screen s) (init_ports a b ++ con_ports s) r 1 1) Hs) as [r2 E2].
    rewrite (stM_bind_Done _ _ _ _ _ E2). eexists. split; [done|]. split; [done|]. split; [done|]. split; [done|].
    split; [done|]. exists (init_ports a b). split; [done|]. rewrite Ei. by exists a, b.
  - rewrite stM_bind_assoc, bind_mret.
    destruct (serial_loop_ok p str (Con (con_mem s) (con_screen s) (con_ports s) (con_reads s) (serial_inited s) 1) Hs) as [r2 E2].
    rewrite (stM_bind_Done _ _ _ _ _ E2). eexists. split; [done|]. split; [done|]. split; [done|]. split; [done|].
    split; [done|]. exists []. split; [done|]. by rewrite (proj2 (Z.eqb_neq _ 0)).
Qed.

(** The part of a text that fits into the array. *)
Definition shown (items : list item) : list Z := take 1999 (fmt_text items).

(** The array as a list of characters: the text, its terminator and the rest. *)
Lemma array_chars_ok m str :
  str_at m buf str → (length str ≤ 1999)%nat →
  ∃ rest, array_chars m buf BUFSZ = (s8 <$> str) ++ 0 :: rest.
Proof.
  intros [_ Hs] Hl. set (n := Z.of_nat (length str) + 1).
  exists (omap (λ i, s8 <$> m !! (buf + i)) (seqZ n (2000 - n))). unfold array_chars, BUFSZ.
  replace 2000 with (n + (2000 - n)) at 1 by lia. rewrite seqZ_app by (unfold n; lia). rewrite omap_app.
  assert (∀ l p k, bytes_at m (p + k) l → omap (λ i, s8 <$> m !! (p + i)) (seqZ k (Z.of_nat (length l))) = s8 <$> l) as Hom.
  { induction l as [|c l IH]; intros p k Hb; [by rewrite seqZ_nil by (cbn; lia)|].
    destruct Hb as [E Hb]. cbn [length]. rewrite seqZ_cons by lia. cbn [omap list_omap]. rewrite E. cbn [fmap option_fmap option_map list_fmap].
    f_equal. rewrite Nat2Z.inj_succ, Z.pred_succ. apply IH. by rewrite <- Z.add_assoc in Hb. }
  replace (buf) with (buf + 0) in Hs by lia. apply Hom in Hs. rewrite length_app in Hs. cbn [length] in Hs.
  replace (Z.of_nat (length str + 1)) with n in Hs by (unfold n; lia). rewrite Hs, fmap_app.
  rewrite <- app_assoc. by rewrite Z.add_0_l.
Qed.

(** The state after a text has been printed on the screen in given colours and on
    the serial line. *)
Definition both_printed (str : list Z) (bc fc : mcolor) (s s' : con) : Prop :=
  same_but (in_zone buf BUFSZ frame) (con_mem s) (con_mem s') ∧
  on_screen (con_screen s') ∧ abs (con_screen s') = term_write (s8 <$> str) bc fc (abs (con_screen s)) ∧
  con_lock s' = 0 ∧ ∃ init, con_ports s' = sent str ++ init ++ con_ports s ∧
    if serial_inited s =? 0 then ∃ a b, init = init_ports a b else init = [].

(** Formatting into the array of a printing function. *)
Lemma format_ok {B} fmt items s (g : Z → stM con B) :
  frame + 27 ≤ buf ∨ buf + BUFSZ ≤ frame → Z.of_nat fuel < 2 ^ 31 →
  str_in (in_zone buf BUFSZ frame) (con_mem s) fmt (fmt_chars items) →
  Forall (item_ok buf BUFSZ frame (con_mem s)) items → (length (fmt_chars items) < fuel)%nat →
  Forall (λ i, 2 * length (item_chars i) + 27 + length (item_str i) < fuel)%nat items →
  Z.of_nat (length (fmt_text items)) < 2 ^ 31 → cstring (fmt_text items) →
  ∃ m', (enter_buf buf junk;; r ← on_mem (vsnprintf frame junk fuel buf BUFSZ fmt (fmt_words items)); g r) s =
      g (Z.of_nat (length (fmt_text items))) (set_mem m' s) ∧
    str_at m' buf (shown items) ∧ same_but (in_zone buf BUFSZ frame) (con_mem s) m'.
Proof.
  intros Hfr Hf31 Hs Hok Hf Hfi Hl Hc. set (J := (λ i, u8 (junk i)) <$> seqZ 0 BUFSZ).
  assert (length J = 2000%nat) as HJ by (unfold J; by rewrite length_fmap, length_seqZ).
  set (m1 := put_bytes buf J (con_mem s)).
  assert (same_but (in_zone buf BUFSZ frame) (con_mem s) m1) as S1.
  { intros a Ha. unfold m1. rewrite lookup_put_bytes, decide_False; [done|]. rewrite HJ.
    unfold in_zone, in_buf, BUFSZ in Ha. lia. }
  destruct (vsnprintf_ok frame junk fuel buf BUFSZ fmt items m1) as (m' & E & Hb & S2 & _); try done.
  - intros a Ha. unfold m1. rewrite lookup_put_bytes, decide_True by (rewrite HJ; unfold BUFSZ in Ha; lia).
    apply lookup_lt_is_Some_2. rewrite HJ. unfold BUFSZ in Ha. lia.
  - by apply (str_in_same _ (con_mem s)).
  - eapply Forall_impl; [exact Hok|]. intros i Hi. by apply (item_ok_same _ _ _ (con_mem s)).
  - exists m'. split; [|split].
    + unfold enter_buf. rewrite (bind_on_mem _ _ s tt m1); [|done].
      by rewrite (bind_on_mem _ _ (set_mem m1 s) _ _ E).
    + split; [by apply Forall_take|exact Hb].
    + by apply (same_but_trans _ _ m1).
Qed.

(** Screen and serial line: the end of [printf], [warning] and [error]. *)
Lemma show_ok str bc fc (r : Z) m' s :
  str_at m' buf str → (length str ≤ 1999)%nat → (length str < fuel)%nat → on_screen (con_screen s) → con_lock s = 0 →
  same_but (in_zone buf BUFSZ frame) (con_mem s) m' →
  ∃ s', (m ← gets con_mem; on_screen_do (monitor_write_color (array_chars m buf BUFSZ) bc fc);;
         puts dev fuel buf;; mret r : stM con Z) (set_mem m' s) = Done (r, s') ∧ both_printed str bc fc s s'.
Proof.
  intros Hs Hl Hf Hscr Hlk HS. rewrite bind_gets. cbn [con_mem set_mem].
  destruct (array_chars_ok m' str Hs Hl) as [rest Er]. rewrite Er.
  assert (Forall (λ c, 0 < c < 256) str) as Hc by apply Hs.
  assert (∀ c, 0 < c < 256 → -128 ≤ s8 c < 128 ∧ s8 c ≠ 0) as Hs8.
  { intros c Hcr. split; [apply (signed_range 8 c); lia|]. intros E. apply s8_zero in E; [lia|unfold is_byte; lia]. }
  destruct (put_all_ok (s8 <$> str) bc fc (con_screen s)) as (x & E & Hon & Hab); [|done|].
  { apply Forall_fmap. eapply Forall_impl; [exact Hc|]. intros c Hcr. by apply Hs8. }
  unfold on_screen_do. rewrite (bind_zoom _ _ _ _ _ tt x).
  2:{ cbn [con_screen set_mem]. rewrite write_color_all; [exact E|].
      apply Forall_fmap. eapply Forall_impl; [exact Hc|]. intros c Hcr. by apply Hs8. }
  set (s1 := set_screen x (set_mem m' s)).
  destruct (puts_ok buf str s1) as (s' & E' & Hm & Hsc & Hl0 & _ & Hp); [done|done|lia|done|].
  exists s'. rewrite (stM_bind_Done _ _ _ _ _ E'). split; [done|]. unfold both_printed. rewrite Hm, Hsc.
  split; [done|]. split; [done|]. split; [exact Hab|]. by split.
Qed.
End proofs.

(** ** Properties *)
(** C40: [printf] prints its text, up to 1999 characters, both on the screen, in white
    on black, and on the serial line, with a carriage return before each line feed
    and after the set-up of the UART if it is the first output; it returns the
    length of the whole text.  [warning] and [error] differ in the colour only. *)
Theorem printf_correct dev fuel frame buf junk fmt items s :
  (∀ t, ∃ k, (k < fuel)%nat ∧ Z.land (u8 (dev (t + k)%nat 0x3fd)) 0x20 ≠ 0) →
  frame + 27 ≤ buf ∨ buf + BUFSZ ≤ frame → Z.of_nat fuel < 2 ^ 31 → (2000 ≤ fuel)%nat →
  str_in (in_zone buf BUFSZ frame) (con_mem s) fmt (fmt_chars items) →
  Forall (item_ok buf BUFSZ frame (con_mem s)) items → (length (fmt_chars items) < fuel)%nat →
  Forall (λ i, 2 * length (item_chars i) + 27 + length (item_str i) < fuel)%nat items →
  Z.of_nat (length (fmt_text items)) < 2 ^ 31 → cstring (fmt_text items) →
  on_screen (con_screen s) → con_lock s = 0 →
  let r := Z.of_nat (length (fmt_text items)) in
  (∃ s', printf dev fuel frame buf junk fmt (fmt_words items) s = Done (r, s') ∧
     both_printed frame buf (shown items) MC_BLACK MC_WHITE s s') ∧
  (∃ s', warning dev fuel frame buf junk fmt (fmt_words items) s = Done (r, s') ∧
     both_printed frame buf (shown items) MC_BLACK MC_LIGHT_YELLOW s s') ∧
  (∃ s', error dev fuel frame buf junk fmt (fmt_words items) s = Done (r, s') ∧
     both_printed frame buf (shown items) MC_BLACK MC_DARK_RED s s').
Proof.
  intros Hr Hfr Hf31 Hf2 Hs Hok Hf Hfi Hl Hc Hscr Hlk r.
  assert (length (shown items) ≤ 1999)%nat as Hsh by (unfold shown; rewrite length_take; lia).
  assert (∀ bc fc, ∃ s', (enter_buf buf junk;; r ← on_mem (vsnprintf frame junk fuel buf BUFSZ fmt (fmt_words items));
      m ← gets con_mem; on_screen_do (monitor_write_color (array_chars m buf BUFSZ) bc fc);;
      puts dev fuel buf;; mret r : stM con Z) s = Done (r, s') ∧ both_printed frame buf (shown items) bc fc s s') as Hall.
  { intros bc fc.
    destruct (format_ok fuel frame buf junk fmt items s (λ r, m ← gets con_mem;
      on_screen_do (monitor_write_color (array_chars m buf BUFSZ) bc fc);; puts dev fuel buf;; mret r : stM con Z))
      as (m' & E & Hm & HS); [assumption..|].
    destruct (show_ok dev fuel frame buf Hr (shown items) bc fc r m' s) as (s' & E' & Hb); [done|done|lia|done..|].
    exists s'. split; [|exact Hb]. etransitivity; [exact E|exact E']. }
  split; [apply Hall|]. split; apply Hall.
Qed.

(** ** The theorem at a concrete state *)
Definition demo_con : con :=
  Con (put_bytes 0x100 (cstr "vmx=%d" ++ [0]) ∅) (demo_screen 79 24) [] 0 1 0.
Definition demo_format : list item :=
  [Lit 118; Lit 109; Lit 120; Lit 61; Dir (Directive false false false [] 0 conv_d) 5 []].

Lemma printf_correct_witness :
  ∃ s', printf (λ _ _, 0x20) 2000 0x3000 0x1000 (λ _, 0) 0x100 [5] demo_con = Done (5, s') ∧
    con_ports s' = (λ b, (0x3f8, b)) <$> [53; 61; 120; 109; 118] ∧ on_screen (con_screen s').
Proof.
  destruct (printf_correct (λ _ _, 0x20) 2000 0x3000 0x1000 (λ _, 0) 0x100 demo_format demo_con)
    as [(s' & E & _ & Hon & _ & _ & init & Hp & Hi) _].
  - intros t. exists 0%nat. split; [lia|vm_compute; discriminate].
  - right. vm_compute. discriminate.
  - lia.
  - lia.
  - split; [apply str_at_bool; vm_compute; done|]. intros a Ha.
    change (Z.of_nat (length (fmt_chars demo_format))) with 6 in Ha. unfold in_zone, in_buf, in_frame, BUFSZ. lia.
  - unfold demo_format. repeat apply Forall_cons_2; [split; [lia|done]..| |constructor].
    split; [|done]. split; [constructor|]. split; [done|done].
  - change (length (fmt_chars demo_format)) with 6%nat. lia.
  - unfold demo_format. repeat apply Forall_cons_2; [| | | | |constructor]; cbn; lia.
  - vm_compute. done.
  - refine (bool_decide_unpack _ _). vm_compute. done.
  - apply demo_on_screen.
  - done.
  - exists s'. split; [exact E|]. split; [|exact Hon]. cbn in Hi. subst init. rewrite Hp. vm_compute. done.
Defined.
