(* ===== verification/Pci.v ===== *)
(** PCI: lib/pci.c, lib/pci.h and the configuration accesses of lib/x86/asm/pci.h.

    The I/O ports are a parameter, [Ports]: a hardware state with the port
    instructions.  The code works on that state and a log of what it prints.
    [Conf1] is what the proofs rely on: PCI configuration mechanism #1, with a
    configuration space of 32-bit registers of which some bits can be written. *)
From Stdlib Require Import ZArith Lia Bool.
From S2P Require Import Prelude Libcflat.
#[local] Open Scope Z_scope.

(** *** lib/linux/pci_regs.h *)
Definition PCI_VENDOR_ID : Z := 0x00.
Definition PCI_DEVICE_ID : Z := 0x02.
Definition PCI_COMMAND : Z := 0x04.
Definition PCI_COMMAND_MASTER : Z := 0x4.
Definition PCI_CLASS_PROG : Z := 0x09.
Definition PCI_CLASS_DEVICE : Z := 0x0a.
Definition PCI_HEADER_TYPE : Z := 0x0e.
Definition PCI_HEADER_TYPE_NORMAL : Z := 0.
Definition PCI_BASE_ADDRESS_0 : Z := 0x10.
Definition PCI_BASE_ADDRESS_SPACE_IO : Z := 0x01.
Definition PCI_BASE_ADDRESS_MEM_TYPE_MASK : Z := 0x06.
Definition PCI_BASE_ADDRESS_MEM_TYPE_32 : Z := 0x00.
Definition PCI_BASE_ADDRESS_MEM_TYPE_1M : Z := 0x02.
Definition PCI_BASE_ADDRESS_MEM_TYPE_64 : Z := 0x04.
Definition PCI_BASE_ADDRESS_MEM_PREFETCH : Z := 0x08.
Definition PCI_BASE_ADDRESS_MEM_MASK : Z := not64 0x0f.
Definition PCI_BASE_ADDRESS_IO_MASK : Z := not64 0x03.
Definition PCI_CAPABILITY_LIST : Z := 0x34.
Definition PCI_INTERRUPT_LINE : Z := 0x3c.
Definition PCI_CAP_ID_MSI : Z := 0x05.
Definition PCI_CAP_ID_EA : Z := 0x14.
Definition PCI_CAP_ID_MAX : Z := PCI_CAP_ID_EA.
Definition PCI_MSI_FLAGS : Z := 2.
Definition PCI_MSI_FLAGS_ENABLE : Z := 0x0001.
Definition PCI_MSI_FLAGS_64BIT : Z := 0x0080.
Definition PCI_MSI_ADDRESS_LO : Z := 4.
Definition PCI_MSI_ADDRESS_HI : Z := 8.
Definition PCI_MSI_DATA_32 : Z := 8.
Definition PCI_MSI_DATA_64 : Z := 12.
(** *** lib/pci.h *)
Definition PCIDEVADDR_INVALID : Z := 0xffff.
Definition PCI_BAR_NUM : Z := 6.
Definition PCI_DEVFN_MAX : Z := 256.
Definition PCI_BDF_GET_DEVFN (x : Z) : Z := Z.land x 0xff.
Definition PCI_BDF_GET_BUS (x : Z) : Z := Z.land (Z.shiftr x 8) 0xff.
Definition PCI_HEADER_TYPE_MASK : Z := 0x7f.

Record pci_dev := PciDev { bdf : Z; msi_offset : Z; resource : list Z }.
Definition set_msi_offset (x : Z) (d : pci_dev) : pci_dev := PciDev (bdf d) x (resource d).
Definition set_resource (x : list Z) (d : pci_dev) : pci_dev := PciDev (bdf d) (msi_offset d) x.

(** ** The ports *)
Class Ports (H : Type) := {
  outb : Z → Z → H → H;
  outw : Z → Z → H → H;
  outl : Z → Z → H → H;
  inb : Z → H → Z * H;
  inw : Z → H → Z * H;
  inl : Z → H → Z * H
}.

Record bus (H : Type) := Bus { hw : H; bus_log : list (string * list parg) }.
Arguments Bus {H} _ _.
Arguments hw {H} _.
Arguments bus_log {H} _.

Section code.
Context {H : Type} `{Ports H}.
Abbreviation M := (stM (bus H)).

Definition out_port (f : H → H) : M unit := modify (λ s, Bus (f (hw s)) (bus_log s)).
Definition in_port (f : H → Z * H) : M Z := λ s, Done ((f (hw s)).1, Bus (f (hw s)).2 (bus_log s)).
Definition printf (fmt : string) (args : list parg) : M unit := modify (λ s, Bus (hw s) ((fmt, args) :: bus_log s)).

(** *** lib/x86/asm/pci.h *)
Definition PCI_CONF1_ADDRESS (dev reg : Z) : Z := u32 (Z.lor (Z.lor (Z.shiftl 0x1 31) (Z.shiftl dev 8)) reg).

Definition pci_config_readb (dev reg : Z) : M Z :=
  out_port (outl (PCI_CONF1_ADDRESS dev (u8 reg)) 0xCF8);; in_port (inb 0xCFC).
Definition pci_config_readw (dev reg : Z) : M Z :=
  out_port (outl (PCI_CONF1_ADDRESS dev (u8 reg)) 0xCF8);; in_port (inw 0xCFC).
Definition pci_config_readl (dev reg : Z) : M Z :=
  out_port (outl (PCI_CONF1_ADDRESS dev (u8 reg)) 0xCF8);; in_port (inl 0xCFC).
Definition pci_config_writeb (dev reg val : Z) : M unit :=
  out_port (outl (PCI_CONF1_ADDRESS dev (u8 reg)) 0xCF8);; out_port (outb val 0xCFC).
Definition pci_config_writew (dev reg val : Z) : M unit :=
  out_port (outl (PCI_CONF1_ADDRESS dev (u8 reg)) 0xCF8);; out_port (outw val 0xCFC).
Definition pci_config_writel (dev reg val : Z) : M unit :=
  out_port (outl (PCI_CONF1_ADDRESS dev (u8 reg)) 0xCF8);; out_port (outl val 0xCFC).
Definition pci_translate_addr (dev addr : Z) : Z := addr.

(** *** Capabilities *)
(** The [while] loop of [pci_cap_walk]; [count] is the number of capabilities seen. *)
Fixpoint cap_walk_loop (fuel : nat) (handler : pci_dev → Z → Z → M pci_dev) (dev : pci_dev)
    (cap_offset count : Z) : M pci_dev :=
  if cap_offset =? 0 then mret dev
  else
    match fuel with
    | O => λ _, NoFuel
    | S fuel =>
      cap_id ← pci_config_readb (bdf dev) cap_offset;
      lift (c_assert (cap_id <? PCI_CAP_ID_MAX + 1));;
      dev ← handler dev cap_offset cap_id;
      cap_offset ← pci_config_readb (bdf dev) (cap_offset + 1);
      lift (c_assert (count + 1 <=? 255));;
      cap_walk_loop fuel handler dev cap_offset (count + 1)
    end.
Definition pci_cap_walk (fuel : nat) (dev : pci_dev) (handler : pci_dev → Z → Z → M pci_dev) : M pci_dev :=
  cap_offset ← pci_config_readb (bdf dev) PCI_CAPABILITY_LIST;
  cap_walk_loop fuel handler dev cap_offset 0.

Definition pci_msi_set_enable (dev : pci_dev) (enabled : bool) : M unit :=
  let offset := msi_offset dev in
  msi_control ← pci_config_readw (bdf dev) (offset + PCI_MSI_FLAGS);
  let msi_control :=
    if enabled then Z.lor msi_control PCI_MSI_FLAGS_ENABLE else Z.land msi_control (not32 PCI_MSI_FLAGS_ENABLE) in
  pci_config_writew (bdf dev) (offset + PCI_MSI_FLAGS) (u16 msi_control).

Definition pci_setup_msi (dev : pci_dev) (msi_addr msi_data : Z) : M bool :=
  if msi_offset dev =? 0 then
    printf "MSI: dev %#x does not support MSI.\n" [PInt (bdf dev)];;
    mret false
  else
    let addr := bdf dev in
    let offset := msi_offset dev in
    msi_control ← pci_config_readw addr (offset + PCI_MSI_FLAGS);
    pci_config_writel addr (offset + PCI_MSI_ADDRESS_LO) (Z.land msi_addr 0xffffffff);;
    (if negb (Z.land msi_control PCI_MSI_FLAGS_64BIT =? 0) then
       pci_config_writel addr (offset + PCI_MSI_ADDRESS_HI) (u32 (Z.shiftr msi_addr 32));;
       pci_config_writel addr (offset + PCI_MSI_DATA_64) msi_data
     else pci_config_writel addr (offset + PCI_MSI_DATA_32) msi_data);;
    pci_msi_set_enable dev true;;
    mret true.

Definition pci_cmd_set_clr (dev : pci_dev) (set clr : Z) : M unit :=
  val ← pci_config_readw (bdf dev) PCI_COMMAND;
  lift (c_assert (Z.land set clr =? 0));;
  let val := Z.lor val set in
  let val := Z.land val (not32 clr) in
  pci_config_writew (bdf dev) PCI_COMMAND (u16 val).

(** [&&] reads the second register only when the first test holds. *)
Definition pci_dev_exists (dev : Z) : M bool :=
  v ← pci_config_readw dev PCI_VENDOR_ID;
  if negb (v =? 0xffff) then d ← pci_config_readw dev PCI_DEVICE_ID; mret (negb (d =? 0xffff)) else mret false.

Fixpoint find_dev_loop (n : nat) (dev vendor_id device_id : Z) : M Z :=
  match n with
  | O => mret PCIDEVADDR_INVALID
  | S n =>
    v ← pci_config_readw dev PCI_VENDOR_ID;
    found ← (if v =? vendor_id then d ← pci_config_readw dev PCI_DEVICE_ID; mret (d =? device_id) else mret false);
    if found : bool then mret dev else find_dev_loop n (dev + 1) vendor_id device_id
  end.
Definition pci_find_dev (vendor_id device_id : Z) : M Z :=
  find_dev_loop (Z.to_nat PCI_DEVFN_MAX) 0 vendor_id device_id.

(** *** Base address registers *)
Definition pci_bar_mask (bar : Z) : Z :=
  u32 (if negb (Z.land bar PCI_BASE_ADDRESS_SPACE_IO =? 0) then PCI_BASE_ADDRESS_IO_MASK else PCI_BASE_ADDRESS_MEM_MASK).

Definition ASSERT_BAR_NUM (bar_num : Z) : outcome unit := c_assert ((0 <=? bar_num) && (bar_num <? PCI_BAR_NUM)).

Definition pci_bar_get (dev : pci_dev) (bar_num : Z) : M Z :=
  lift (ASSERT_BAR_NUM bar_num);;
  pci_config_readl (bdf dev) (PCI_BASE_ADDRESS_0 + bar_num * 4).

Definition pci_bar_is64 (dev : pci_dev) (bar_num : Z) : M bool :=
  bar ← pci_bar_get dev bar_num;
  mret (if negb (Z.land bar PCI_BASE_ADDRESS_SPACE_IO =? 0) then false
        else Z.land bar PCI_BASE_ADDRESS_MEM_TYPE_MASK =? PCI_BASE_ADDRESS_MEM_TYPE_64).

Definition __pci_bar_get_addr (dev : pci_dev) (bar_num : Z) : M Z :=
  bar ← pci_bar_get dev bar_num;
  let mask := pci_bar_mask bar in
  let addr := Z.land bar mask in
  is64 ← pci_bar_is64 dev bar_num;
  addr ← (if is64 : bool
          then hi ← pci_bar_get dev (bar_num + 1); mret (Z.lor addr (Z.shiftl hi 32)) else mret addr);
  let phys_addr := pci_translate_addr (bdf dev) addr in
  lift (c_assert (negb (phys_addr =? INVALID_PHYS_ADDR)));;
  mret phys_addr.

Definition pci_bar_get_addr (dev : pci_dev) (bar_num : Z) : M Z :=
  lift (ASSERT_BAR_NUM bar_num);;
  lift (arr_get (resource dev) bar_num).

Definition pci_bar_set_addr (dev : pci_dev) (bar_num addr : Z) : M pci_dev :=
  let off := PCI_BASE_ADDRESS_0 + bar_num * 4 in
  lift (c_assert (negb (addr =? INVALID_PHYS_ADDR)));;
  r ← lift (arr_get (resource dev) bar_num);
  lift (c_assert (negb (r =? INVALID_PHYS_ADDR)));;
  lift (ASSERT_BAR_NUM bar_num);;
  is64 ← pci_bar_is64 dev bar_num;
  lift (if is64 : bool then ASSERT_BAR_NUM (bar_num + 1) else c_assert (Z.shiftr addr 32 =? 0));;
  pci_config_writel (bdf dev) off (u32 addr);;
  res ← lift (arr_set (resource dev) bar_num addr);
  let dev := set_resource res dev in
  is64 ← pci_bar_is64 dev bar_num;
  if is64 : bool then
    pci_config_writel (bdf dev) (off + 4) (u32 (Z.shiftr addr 32));;
    r ← lift (arr_get (resource dev) bar_num);
    res ← lift (arr_set (resource dev) (bar_num + 1) r);
    mret (set_resource res dev)
  else mret dev.

Definition pci_bar_size_helper (dev : pci_dev) (bar_num : Z) : M Z :=
  let off := PCI_BASE_ADDRESS_0 + bar_num * 4 in
  let bdf := bdf dev in
  bar ← pci_config_readl bdf off;
  pci_config_writel bdf off (not32 0);;
  val ← pci_config_readl bdf off;
  pci_config_writel bdf off bar;;
  mret val.

Definition pci_bar_size (dev : pci_dev) (bar_num : Z) : M Z :=
  size ← pci_bar_size_helper dev bar_num;
  if size =? 0 then mret 0
  else
    bar ← pci_bar_get dev bar_num;
    let size := Z.land size (pci_bar_mask bar) in
    is64 ← pci_bar_is64 dev bar_num;
    if is64 : bool then
      size64 ← pci_bar_size_helper dev (bar_num + 1);
      let size64 := Z.lor (u64 (Z.shiftl size64 32)) size in
      mret (u64 (not64 size64 + 1))
    else mret (u32 (not32 size + 1)).

Definition pci_bar_is_memory (dev : pci_dev) (bar_num : Z) : M bool :=
  bar ← pci_bar_get dev bar_num;
  mret (Z.land bar PCI_BASE_ADDRESS_SPACE_IO =? 0).

Definition pci_bar_is_valid (dev : pci_dev) (bar_num : Z) : M bool :=
  r ← lift (arr_get (resource dev) bar_num);
  mret (negb (r =? INVALID_PHYS_ADDR)).

(** *** Setting up a device *)
(** The [for] loop of [pci_dev_init]. *)
Fixpoint dev_init_loop (fuel : nat) (i : Z) (dev : pci_dev) : M pci_dev :=
  if i <? PCI_BAR_NUM then
    match fuel with
    | O => λ _, NoFuel
    | S fuel =>
      size ← pci_bar_size dev i;
      if negb (size =? 0) then
        addr ← __pci_bar_get_addr dev i;
        res ← lift (arr_set (resource dev) i addr);
        let dev := set_resource res dev in
        is64 ← pci_bar_is64 dev i;
        if is64 : bool then
          lift (c_assert (i + 1 <? PCI_BAR_NUM));;
          r ← lift (arr_get (resource dev) i);
          res ← lift (arr_set (resource dev) (i + 1) r);
          dev_init_loop fuel (i + 2) (set_resource res dev)
        else dev_init_loop fuel (i + 1) dev
      else
        res ← lift (arr_set (resource dev) i INVALID_PHYS_ADDR);
        dev_init_loop fuel (i + 1) (set_resource res dev)
    end
  else mret dev.
Definition pci_dev_init (bdf : Z) : M pci_dev :=
  dev_init_loop (Z.to_nat PCI_BAR_NUM) 0 (PciDev bdf 0 (replicate (Z.to_nat PCI_BAR_NUM) 0)).

Definition pci_intx_line (dev : pci_dev) : M Z := pci_config_readb (bdf dev) PCI_INTERRUPT_LINE.

Definition pci_cap_setup (dev : pci_dev) (cap_offset cap_id : Z) : M pci_dev :=
  mret (if cap_id =? PCI_CAP_ID_MSI then set_msi_offset (u16 cap_offset) dev else dev).

Definition pci_enable_defaults (fuel : nat) (dev : pci_dev) : M pci_dev :=
  pci_cmd_set_clr dev PCI_COMMAND_MASTER 0;;
  pci_cap_walk fuel dev pci_cap_setup.

(** *** What is printed *)
Definition pci_bar_print (dev : pci_dev) (bar_num : Z) : M unit :=
  valid ← pci_bar_is_valid dev bar_num;
  if negb valid then mret tt
  else
    bar ← pci_bar_get dev bar_num;
    size ← pci_bar_size dev bar_num;
    start ← pci_bar_get_addr dev bar_num;
    let endp := u64 (start + size - 1) in
    is64 ← pci_bar_is64 dev bar_num;
    (if is64 : bool
     then printf "BAR#%d,%d [%lx-%lx " [PInt bar_num; PInt (bar_num + 1); PInt start; PInt endp]
     else printf "BAR#%d [%02x-%02x " [PInt bar_num; PInt (u32 start); PInt (u32 endp)]);;
    (if negb (Z.land bar PCI_BASE_ADDRESS_SPACE_IO =? 0) then printf "PIO" []
     else
       printf "MEM" [];;
       let type := Z.land bar PCI_BASE_ADDRESS_MEM_TYPE_MASK in
       if type =? PCI_BASE_ADDRESS_MEM_TYPE_32 then printf "32" []
       else if type =? PCI_BASE_ADDRESS_MEM_TYPE_1M then printf "1M" []
       else if type =? PCI_BASE_ADDRESS_MEM_TYPE_64 then printf "64" []
       else lift Abort);;
    (if negb (Z.land bar PCI_BASE_ADDRESS_MEM_PREFETCH =? 0) then printf "/p" [] else mret tt);;
    printf "]" [].

Definition pci_dev_print_id (dev : pci_dev) : M unit :=
  let bdf := bdf dev in
  v ← pci_config_readw bdf PCI_VENDOR_ID;
  d ← pci_config_readw bdf PCI_DEVICE_ID;
  printf "00.%02x.%1x %04x:%04x" [PInt (bdf / 8); PInt (bdf mod 8); PInt v; PInt d].

Definition pci_cap_print (dev : pci_dev) (cap_offset cap_id : Z) : M pci_dev :=
  (if cap_id =? PCI_CAP_ID_MSI then
     control ← pci_config_readw (bdf dev) (cap_offset + PCI_MSI_FLAGS);
     printf "\tMSI,%s-bit capability "
       [PStr (if negb (Z.land control PCI_MSI_FLAGS_64BIT =? 0) then "64" else "32")]
   else printf "\tcapability %#04x " [PInt cap_id]);;
  printf "at offset %#04x\n" [PInt cap_offset];;
  mret dev.

(** The [for] loop of [pci_dev_print]. *)
Fixpoint print_bars_loop (fuel : nat) (i : Z) (dev : pci_dev) : M unit :=
  if i <? PCI_BAR_NUM then
    match fuel with
    | O => λ _, NoFuel
    | S fuel =>
      valid ← pci_bar_is_valid dev i;
      (if valid : bool then printf "\t" [];; pci_bar_print dev i;; printf "\n" [] else mret tt);;
      is64 ← pci_bar_is64 dev i;
      print_bars_loop fuel (if is64 : bool then i + 2 else i + 1) dev
    end
  else mret tt.
Definition pci_dev_print (fuel : nat) (dev : pci_dev) : M unit :=
  let bdf := bdf dev in
  header ← pci_config_readb bdf PCI_HEADER_TYPE;
  progif ← pci_config_readb bdf PCI_CLASS_PROG;
  subclass ← pci_config_readb bdf PCI_CLASS_DEVICE;
  class ← pci_config_readb bdf (PCI_CLASS_DEVICE + 1);
  pci_dev_print_id dev;;
  printf " type %02x progif %02x class %02x subclass %02x\n" [PInt header; PInt progif; PInt class; PInt subclass];;
  dev ← pci_cap_walk fuel dev pci_cap_print;
  if negb (Z.land header PCI_HEADER_TYPE_MASK =? PCI_HEADER_TYPE_NORMAL) then mret tt
  else print_bars_loop (Z.to_nat PCI_BAR_NUM) 0 dev.

Fixpoint pci_print_loop (n : nat) (fuel : nat) (devfn : Z) : M unit :=
  match n with
  | O => mret tt
  | S n =>
    e ← pci_dev_exists devfn;
    (if e : bool then dev ← pci_dev_init devfn; pci_dev_print fuel dev else mret tt);;
    pci_print_loop n fuel (devfn + 1)
  end.
Definition pci_print (fuel : nat) : M unit := pci_print_loop (Z.to_nat PCI_DEVFN_MAX) fuel 0.
End code.

(** ** Configuration space *)
(** [old] with the bits of [w] replaced by those of [v]. *)
Definition mix (old v w : Z) : Z := Z.lor (Z.land old (not32 w)) (Z.land v w).
(** The [w] bits at byte [reg] of a configuration space of 32-bit registers. *)
Definition field (c : Z → Z) (reg w : Z) : Z := c (reg / 4) / 2 ^ (8 * (reg mod 4)) mod 2 ^ w.

(** Configuration mechanism #1: an access to 0xCFC reaches the register whose address
    was last written to 0xCF8, whose two low bits select the byte as the host
    bridges of QEMU do.  Reads change nothing; a write changes the bits of the
    register that can be written.  Nothing is said about writes to the status
    register and the others that the code does not make. *)
Class Conf1 (H : Type) `{Ports H} := {
  cfg : H → Z → Z → Z;
  rw_bits : Z → Z → Z;
  cfg_u32 h d i : in_u32 (cfg h d i);
  rw_u32 d i : in_u32 (rw_bits d i);
  conf_readb h d reg : 0 ≤ d < 2 ^ 16 → 0 ≤ reg < 256 →
    let r := inb 0xCFC (outl (PCI_CONF1_ADDRESS d reg) 0xCF8 h) in
    r.1 = field (cfg h d) reg 8 ∧ ∀ d' i, cfg r.2 d' i = cfg h d' i;
  conf_readw h d reg : 0 ≤ d < 2 ^ 16 → 0 ≤ reg < 256 → reg mod 2 = 0 →
    let r := inw 0xCFC (outl (PCI_CONF1_ADDRESS d reg) 0xCF8 h) in
    r.1 = field (cfg h d) reg 16 ∧ ∀ d' i, cfg r.2 d' i = cfg h d' i;
  conf_readl h d reg : 0 ≤ d < 2 ^ 16 → 0 ≤ reg < 256 → reg mod 4 = 0 →
    let r := inl 0xCFC (outl (PCI_CONF1_ADDRESS d reg) 0xCF8 h) in
    r.1 = cfg h d (reg / 4) ∧ ∀ d' i, cfg r.2 d' i = cfg h d' i;
  conf_writew h d reg v : 0 ≤ d < 2 ^ 16 → reg = PCI_COMMAND ∨ 0x40 ≤ reg < 256 → reg mod 2 = 0 → 0 ≤ v < 2 ^ 16 →
    ∀ d' i, cfg (outw v 0xCFC (outl (PCI_CONF1_ADDRESS d reg) 0xCF8 h)) d' i =
      if decide (d' = d ∧ i = reg / 4)
      then mix (cfg h d i) (v * 2 ^ (8 * (reg mod 4))) (Z.land (rw_bits d i) (0xffff * 2 ^ (8 * (reg mod 4))))
      else cfg h d' i;
  conf_writel h d reg v : 0 ≤ d < 2 ^ 16 → 0x10 ≤ reg < 0x28 ∨ 0x40 ≤ reg < 256 → reg mod 4 = 0 → in_u32 v →
    ∀ d' i, cfg (outl v 0xCFC (outl (PCI_CONF1_ADDRESS d reg) 0xCF8 h)) d' i =
      if decide (d' = d ∧ i = reg / 4) then mix (cfg h d i) v (rw_bits d i) else cfg h d' i
}.

Section proofs.
Context {H : Type} `{Conf1 H}.
Abbreviation M := (stM (bus H)).
Implicit Types (s : bus H).

(** *** Code that changes nothing in the configuration space *)
Definition same_cfg s s' : Prop := (∀ d i, cfg (hw s') d i = cfg (hw s) d i) ∧ bus_log s' = bus_log s.
#[global] Instance same_cfg_preorder : PreOrder same_cfg.
Proof.
  split; [done|]. intros s1 s2 s3 [C1 E1] [C2 E2]. split; [intros; by rewrite C2, C1|by rewrite E2, E1].
Qed.

(** [m] returns [a] from [s] and leaves the configuration space as it is. *)
Definition reads {A} (m : M A) s (a : A) : Prop := ∃ s', m s = Done (a, s') ∧ same_cfg s s'.

Lemma reads_ret {A} (a : A) s : reads (mret a) s a.
Proof. by exists s. Qed.
Lemma reads_bind {A B} (m : M A) (f : A → M B) s a b :
  reads m s a → (∀ s', same_cfg s s' → reads (f a) s' b) → reads (m ≫= f) s b.
Proof.
  intros (s1 & E & Hs) Hf. destruct (Hf s1 Hs) as (s2 & E2 & Hs2). exists s2.
  split; [by rewrite (stM_bind_Done _ _ _ _ _ E)|by etransitivity].
Qed.
Lemma reads_lift {A B} (a : A) (f : A → M B) s b : reads (f a) s b → reads (lift (Done a) ≫= f) s b.
Proof. done. Qed.
Lemma reads_assert {B} c (f : unit → M B) s b : c = true → reads (f tt) s b → reads (lift (c_assert c) ≫= f) s b.
Proof. by intros ->. Qed.

Lemma readb_ok dev reg s :
  0 ≤ dev < 2 ^ 16 → 0 ≤ reg < 256 → reads (pci_config_readb dev reg) s (field (cfg (hw s) dev) reg 8).
Proof.
  intros Hd Hr. unfold pci_config_readb. rewrite u8_small by lia.
  destruct (conf_readb (hw s) dev reg Hd Hr) as [E Ec]. eexists. split.
  { unfold out_port, in_port. rewrite bind_modify. cbn [hw bus_log]. rewrite E. reflexivity. }
  split; [exact Ec|done].
Qed.
Lemma readw_ok dev reg s :
  0 ≤ dev < 2 ^ 16 → 0 ≤ reg < 256 → reg mod 2 = 0 → reads (pci_config_readw dev reg) s (field (cfg (hw s) dev) reg 16).
Proof.
  intros Hd Hr Ha. unfold pci_config_readw. rewrite u8_small by lia.
  destruct (conf_readw (hw s) dev reg Hd Hr Ha) as [E Ec]. eexists. split.
  { unfold out_port, in_port. rewrite bind_modify. cbn [hw bus_log]. rewrite E. reflexivity. }
  split; [exact Ec|done].
Qed.
Lemma readl_ok dev reg s :
  0 ≤ dev < 2 ^ 16 → 0 ≤ reg < 256 → reg mod 4 = 0 → reads (pci_config_readl dev reg) s (cfg (hw s) dev (reg / 4)).
Proof.
  intros Hd Hr Ha. unfold pci_config_readl. rewrite u8_small by lia.
  destruct (conf_readl (hw s) dev reg Hd Hr Ha) as [E Ec]. eexists. split.
  { unfold out_port, in_port. rewrite bind_modify. cbn [hw bus_log]. rewrite E. reflexivity. }
  split; [exact Ec|done].
Qed.
Lemma writel_ok dev reg v s :
  0 ≤ dev < 2 ^ 16 → 0x10 ≤ reg < 0x28 ∨ 0x40 ≤ reg < 256 → reg mod 4 = 0 → in_u32 v →
  ∃ s', pci_config_writel dev reg v s = Done (tt, s') ∧ bus_log s' = bus_log s ∧
    ∀ d' i, cfg (hw s') d' i = if decide (d' = dev ∧ i = reg / 4) then mix (cfg (hw s) dev i) v (rw_bits dev i) else cfg (hw s) d' i.
Proof.
  intros Hd Hr Ha Hv. unfold pci_config_writel. rewrite u8_small by lia.
  eexists. split; [reflexivity|]. split; [done|]. cbn [hw]. by apply conf_writel.
Qed.
Lemma writew_ok dev reg v s :
  0 ≤ dev < 2 ^ 16 → reg = PCI_COMMAND ∨ 0x40 ≤ reg < 256 → reg mod 2 = 0 → 0 ≤ v < 2 ^ 16 →
  ∃ s', pci_config_writew dev reg v s = Done (tt, s') ∧ bus_log s' = bus_log s ∧
    ∀ d' i, cfg (hw s') d' i = if decide (d' = dev ∧ i = reg / 4)
      then mix (cfg (hw s) dev i) (v * 2 ^ (8 * (reg mod 4))) (Z.land (rw_bits dev i) (0xffff * 2 ^ (8 * (reg mod 4))))
      else cfg (hw s) d' i.
Proof.
  intros Hd Hr Ha Hv. unfold pci_config_writew.
  rewrite u8_small by (destruct Hr as [->|?]; [unfold PCI_COMMAND|]; lia).
  eexists. split; [reflexivity|]. split; [done|]. cbn [hw]. by apply conf_writew.
Qed.

Lemma not32_u32 x : in_u32 (not32 x).
Proof.
  unfold in_u32. assert (not32 x = not32 x mod 2 ^ 32) as ->; [|apply Z.mod_pos_bound; lia].
  zbits.
Qed.

(** *** The size of a BAR *)
(** Writing all ones shows the bits that can be written; writing the old value back
    restores the register. *)
Lemma size_helper_ok d i s :
  0 ≤ bdf d < 2 ^ 16 → 0 ≤ i < 6 →
  let c := cfg (hw s) (bdf d) (4 + i) in
  reads (pci_bar_size_helper d i) s (mix c (not32 0) (rw_bits (bdf d) (4 + i))).
Proof.
  intros Hd Hi c. unfold pci_bar_size_helper, PCI_BASE_ADDRESS_0.
  assert ((0x10 + i * 4) / 4 = 4 + i) as Ei by (change 0x10 with (4 * 4); rewrite <- Z.mul_add_distr_r; by apply Z.div_mul).
  assert ((0x10 + i * 4) mod 4 = 0) as Em by (change 0x10 with (4 * 4); rewrite <- Z.mul_add_distr_r; by apply Z.mod_mul).
  destruct (readl_ok (bdf d) (0x10 + i * 4) s Hd ltac:(lia) Em) as (s1 & E1 & Hs1). rewrite Ei in E1. fold c in E1.
  destruct (writel_ok (bdf d) (0x10 + i * 4) (not32 0) s1 Hd ltac:(lia) Em (not32_u32 0)) as (s2 & E2 & L2 & C2).
  destruct (readl_ok (bdf d) (0x10 + i * 4) s2 Hd ltac:(lia) Em) as (s3 & E3 & Hs3).
  destruct (writel_ok (bdf d) (0x10 + i * 4) c s3 Hd ltac:(lia) Em (cfg_u32 _ _ _)) as (s4 & E4 & L4 & C4).
  rewrite Ei in *. exists s4. split.
  - rewrite (stM_bind_Done _ _ _ _ _ E1), (stM_bind_Done _ _ _ _ _ E2), (stM_bind_Done _ _ _ _ _ E3),
      (stM_bind_Done _ _ _ _ _ E4). rewrite C2, decide_True by done. by rewrite (proj1 Hs1).
  - split; [|by rewrite L4, (proj2 Hs3), L2, (proj2 Hs1)]. intros d' j.
    rewrite C4. destruct (decide _) as [[-> ->]|Hn].
    + rewrite (proj1 Hs3), C2, decide_True by done. rewrite (proj1 Hs1). fold c.
      pose proof (cfg_u32 (hw s) (bdf d) (4 + i)) as Hc. fold c in Hc.
      set (w := rw_bits _ _). apply Z.bits_inj'. intros b Hb. unfold mix. repeat zbits_step.
      destruct (Z.ltb_spec b 32); [|by rewrite (testbit_above 32 c), !andb_false_r].
      cbn [andb]. by destruct (Z.testbit c b), (Z.testbit w b).
    + by rewrite (proj1 Hs3), C2, decide_False, (proj1 Hs1) by done.
Qed.
End proofs.

(** *** The bits of a BAR *)
Section bits.
Context (k j fl base : Z) (Hj : 0 ≤ j ≤ k) (Hfl : 0 ≤ fl < 2 ^ j) (Hal : base mod 2 ^ k = 0).

Lemma fl_bit i : j ≤ i → Z.testbit fl i = false.
Proof. intros. by apply (testbit_above j). Qed.
Lemma base_bit i : 0 ≤ i < k → Z.testbit base i = false.
Proof. intros. by apply (testbit_aligned k). Qed.

(** What a 32-bit register of a block of [2 ^ k] bytes reads after all ones. *)
Lemma mix_ones : k ≤ 32 → 0 ≤ base < 2 ^ 32 →
  mix (Z.lor base fl) (not32 0) (not32 (Z.ones k)) = Z.lor (not32 (Z.ones k)) fl.
Proof.
  intros Hk Hb. unfold mix. apply Z.bits_inj'. intros i Hi. repeat zbits_step.
  destruct (Z.ltb_spec i k), (Z.ltb_spec i 32); zbits_cmp; cbn [andb orb negb];
    rewrite ?(base_bit i), ?(fl_bit i), ?(testbit_above 32 base i) by lia; cbn;
    rewrite ?andb_true_r, ?andb_false_r, ?orb_false_r; done.
Qed.
Lemma mask_ones : Z.land (Z.lor (not32 (Z.ones k)) fl) (not32 (Z.ones j)) = not32 (Z.ones k).
Proof.
  apply Z.bits_inj'. intros i Hi. repeat zbits_step.
  destruct (Z.ltb_spec i j); zbits_cmp; cbn [andb orb negb]; rewrite ?(fl_bit i) by lia; done || lia || idtac.
Qed.
Lemma mask_base : 0 ≤ base < 2 ^ 32 → Z.land (Z.lor base fl) (not32 (Z.ones j)) = base.
Proof.
  intros Hb. apply Z.bits_inj'. intros i Hi. repeat zbits_step.
  destruct (Z.ltb_spec i j), (Z.ltb_spec i 32); zbits_cmp; cbn [andb orb negb];
    rewrite ?(base_bit i), ?(fl_bit i), ?(testbit_above 32 base i) by lia; cbn;
    rewrite ?andb_true_r, ?andb_false_r, ?orb_false_r; done.
Qed.
Lemma low_flags x : 0 ≤ x < 2 ^ k → Z.land (Z.lor base fl) x = Z.land fl x.
Proof.
  intros Hx. apply Z.bits_inj'. intros i Hi. repeat zbits_step.
  destruct (Z.ltb_spec i k); [by rewrite base_bit by lia|]. by rewrite (testbit_above k x i), !andb_false_r by lia.
Qed.
End bits.

Lemma not32_ones k : 0 ≤ k ≤ 32 → not32 (not32 (Z.ones k)) = Z.ones k.
Proof. intros Hk. zbits; lia. Qed.
Lemma not64_ones k : 0 ≤ k ≤ 64 → not64 (not64 (Z.ones k)) = Z.ones k.
Proof. intros Hk. zbits; lia. Qed.
Lemma size32 k : 0 ≤ k < 32 → u32 (not32 (not32 (Z.ones k)) + 1) = 2 ^ k.
Proof.
  intros Hk. rewrite not32_ones, Z.ones_equiv by lia.
  pose proof (Z.pow_lt_mono_r 2 k 32). pose proof (Z.pow_pos_nonneg 2 k). rewrite u32_small by (unfold in_u32; lia). lia.
Qed.
Lemma size64 k : 0 ≤ k < 64 → u64 (not64 (not64 (Z.ones k)) + 1) = 2 ^ k.
Proof.
  intros Hk. rewrite not64_ones, Z.ones_equiv by lia.
  pose proof (Z.pow_lt_mono_r 2 k 64). pose proof (Z.pow_pos_nonneg 2 k). rewrite u64_small by (unfold in_u64; lia). lia.
Qed.

(** *** The BARs of a device *)
(** An unimplemented register, a range of ports, of memory, and of memory with a
    64-bit address, of [2 ^ k] bytes at [base]; [fl] are the type bits. *)
Inductive bar : Set :=
| NoBar
| IoBar (k base : Z)
| MemBar (fl k base : Z)
| MemBar64 (fl k base : Z).
#[export] Instance bar_eq_dec : EqDecision bar.
Proof. solve_decision. Defined.
Definition bar_ok (b : bar) : Prop :=
  match b with
  | NoBar => True
  | IoBar k base => 2 ≤ k < 32 ∧ 0 ≤ base < 2 ^ 32 ∧ base mod 2 ^ k = 0
  | MemBar fl k base => fl ∈ [0; 2; 8; 10] ∧ 4 ≤ k < 32 ∧ 0 ≤ base < 2 ^ 32 ∧ base mod 2 ^ k = 0
  | MemBar64 fl k base => fl ∈ [4; 12] ∧ 4 ≤ k < 64 ∧ 0 ≤ base < 2 ^ 64 ∧ base mod 2 ^ k = 0
  end.
(** Its registers: the contents and the bits that can be written. *)
Definition bar_regs (b : bar) : list (Z * Z) :=
  match b with
  | NoBar => [(0, 0)]
  | IoBar k base => [(Z.lor base 1, not32 (Z.ones k))]
  | MemBar fl k base => [(Z.lor base fl, not32 (Z.ones k))]
  | MemBar64 fl k base =>
    [(Z.lor (base mod 2 ^ 32) fl, not64 (Z.ones k) mod 2 ^ 32); (Z.shiftr base 32, Z.shiftr (not64 (Z.ones k)) 32)]
  end.
Definition bar_len (b : bar) : Z := match b with MemBar64 _ _ _ => 2 | _ => 1 end.
Definition bar_64 (b : bar) : bool := match b with MemBar64 _ _ _ => true | _ => false end.
Definition bar_bytes (b : bar) : Z :=
  match b with NoBar => 0 | IoBar k _ | MemBar _ k _ | MemBar64 _ k _ => 2 ^ k end.
Definition bar_base (b : bar) : Z :=
  match b with NoBar => INVALID_PHYS_ADDR | IoBar _ base | MemBar _ _ base | MemBar64 _ _ base => base end.

Lemma elem_fl {P : Z → Prop} fl l : fl ∈ l → Forall P l → P fl.
Proof. intros Hf Hall. rewrite Forall_forall in Hall. auto. Qed.

(** The first register of a 32-bit BAR: the flags [fl] below bit [j]. *)
Lemma reg_bits j k fl base :
  j = 2 ∧ fl = 1 ∨ j = 4 ∧ fl ∈ [0; 2; 8; 10; 4; 12] → j ≤ k ≤ 32 → 0 ≤ base < 2 ^ 32 → base mod 2 ^ k = 0 →
  let r := Z.lor base fl in
  Z.land r PCI_BASE_ADDRESS_SPACE_IO = Z.land fl 1 ∧ (j = 4 → Z.land r PCI_BASE_ADDRESS_MEM_TYPE_MASK = Z.land fl 6) ∧
  pci_bar_mask r = not32 (Z.ones j) ∧ mix r (not32 0) (not32 (Z.ones k)) = Z.lor (not32 (Z.ones k)) fl ∧
  Z.land (Z.lor (not32 (Z.ones k)) fl) (not32 (Z.ones j)) = not32 (Z.ones k) ∧ Z.land r (not32 (Z.ones j)) = base ∧
  (k < 32 → Z.lor (not32 (Z.ones k)) fl ≠ 0).
Proof.
  intros Hj Hk Hb Ha r.
  assert (0 ≤ j ≤ k ∧ 0 ≤ fl < 2 ^ j ∧ 1 < 2 ^ k ∧ (j = 4 → 6 < 2 ^ k) ∧ (Z.land fl 1 =? 0) = (j =? 4) ∧ (j = 2 ∨ j = 4))
    as (Hjk & Hfl & H1 & H6 & Hio & Hj24).
  { assert (2 ^ 2 ≤ 2 ^ k) by (apply Z.pow_le_mono_r; lia).
    assert (j = 4 → 2 ^ 4 ≤ 2 ^ k) by (intros; apply Z.pow_le_mono_r; lia).
    destruct Hj as [[-> ->]|[-> Hfl]].
    - repeat (split; [done || lia|]). by left.
    - assert (0 ≤ fl < 2 ^ 4 ∧ (Z.land fl 1 =? 0) = true) as [? ->].
      { clear r. revert fl Hfl. apply Forall_forall. repeat constructor; done || lia. }
      repeat (split; [done || lia|]). by right. }
  assert (Z.land r PCI_BASE_ADDRESS_SPACE_IO = Z.land fl 1) as E1 by (apply (low_flags k j); [done|unfold PCI_BASE_ADDRESS_SPACE_IO; lia]).
  split; [done|]. split.
  { intros ->. apply (low_flags k 4); [done|]. unfold PCI_BASE_ADDRESS_MEM_TYPE_MASK. lia. }
  split.
  { unfold pci_bar_mask, PCI_BASE_ADDRESS_IO_MASK, PCI_BASE_ADDRESS_MEM_MASK. rewrite E1, Hio. by destruct Hj24 as [->| ->]. }
  split; [by apply (mix_ones k j fl base); try lia|]. split; [by apply (mask_ones k j fl)|].
  split; [by apply (mask_base k j fl base)|].
  intros Hlt E. assert (Z.testbit (Z.lor (not32 (Z.ones k)) fl) 31 = false) as Hb' by (by rewrite E).
  revert Hb'. repeat zbits_step. zbits_cmp; done.
Qed.

Section bar_proofs.
Context {H : Type} `{Conf1 H}.
Abbreviation M := (stM (bus H)).
Implicit Types (s : bus H).

(** The registers of [bs] are those from BAR number [i] on. *)
Definition regs_at s (dev i : Z) (rs : list (Z * Z)) : Prop :=
  ∀ n x, rs !! n = Some x →
    cfg (hw s) dev (4 + i + Z.of_nat n) = x.1 ∧ rw_bits (H := H) dev (4 + i + Z.of_nat n) = x.2.

Lemma regs_at_same s s' dev i rs : same_cfg s s' → regs_at s dev i rs → regs_at s' dev i rs.
Proof. intros [Hs _] Hr n x Hx. rewrite Hs. by apply Hr. Qed.

Lemma bar_get_ok d i s : 0 ≤ bdf d < 2 ^ 16 → 0 ≤ i < 6 → reads (pci_bar_get d i) s (cfg (hw s) (bdf d) (4 + i)).
Proof.
  intros Hd Hi. unfold pci_bar_get, ASSERT_BAR_NUM, PCI_BAR_NUM, PCI_BASE_ADDRESS_0.
  apply reads_assert; [rewrite andb_true_iff, Z.leb_le, Z.ltb_lt; lia|].
  assert (0x10 + i * 4 = (4 + i) * 4) as E by lia. rewrite E.
  replace (4 + i) with ((4 + i) * 4 / 4) at 2 by (by apply Z.div_mul).
  apply readl_ok; [done|lia|by apply Z.mod_mul].
Qed.

(** What the first register of a BAR says. *)
Lemma bar_bits b r w rs :
  bar_ok b → bar_regs b = (r, w) :: rs →
  (if negb (Z.land r PCI_BASE_ADDRESS_SPACE_IO =? 0) then false
   else Z.land r PCI_BASE_ADDRESS_MEM_TYPE_MASK =? PCI_BASE_ADDRESS_MEM_TYPE_64) = bar_64 b ∧
  match b with
  | NoBar => mix r (not32 0) w = 0
  | IoBar k base | MemBar _ k base =>
    mix r (not32 0) w ≠ 0 ∧ Z.land (mix r (not32 0) w) (pci_bar_mask r) = not32 (Z.ones k) ∧ Z.land r (pci_bar_mask r) = base
  | MemBar64 _ k base =>
    mix r (not32 0) w ≠ 0 ∧ Z.land (mix r (not32 0) w) (pci_bar_mask r) = not64 (Z.ones k) mod 2 ^ 32 ∧
    Z.land r (pci_bar_mask r) = base mod 2 ^ 32
  end.
Proof.
  intros Hok Hr. destruct b as [|k base|fl k base|fl k base]; cbn [bar_ok bar_regs] in *;
    injection Hr as <- <- <-; cbn [bar_64].
  - done.
  - destruct Hok as (Hk & Hb & Ha).
    destruct (reg_bits 2 k 1 base) as (E1 & E2 & Em & Ex & Eb & Ek & En); [by left|lia|done|done|].
    rewrite E1, Em, Ex, Eb, Ek. split; [done|]. split; [apply En; lia|done].
  - destruct Hok as (Hfl & Hk & Hb & Ha).
    destruct (reg_bits 4 k fl base) as (E1 & E2 & Em & Ex & Eb & Ek & En); [right; set_solver|lia|done|done|].
    rewrite E1, E2, Em, Ex, Eb, Ek by done. split; [|split; [apply En; lia|done]].
    clear E1 E2 Em Ex Eb Ek En. revert fl Hfl. apply Forall_forall. repeat constructor.
  - destruct Hok as (Hfl & Hk & Hb & Ha). pose proof (Z.mod_pos_bound base (2 ^ 32) ltac:(lia)).
    assert (base mod 2 ^ 32 mod 2 ^ Z.min k 32 = 0) as Ha'.
    { apply aligned_of_testbit; [lia|]. intros i Hi. rewrite testbit_mod_pow2 by lia.
      rewrite (testbit_aligned k base i) by (done || lia). apply andb_false_r. }
    assert (not64 (Z.ones k) mod 2 ^ 32 = not32 (Z.ones (Z.min k 32))) as E64 by (zbits; lia).
    destruct (reg_bits 4 (Z.min k 32) fl (base mod 2 ^ 32)) as (E1 & E2 & Em & Ex & Eb & Ek & En);
      [right; set_solver|lia|done|done|].
    rewrite E64, E1, E2, Em, Ex, Eb, Ek by done. split; [|split; [|done]].
    + clear E1 E2 Em Ex Eb Ek En. revert fl Hfl. apply Forall_forall. repeat constructor.
    + intros E0. assert (Z.land fl 4 = 0) as E4.
      { apply Z.lor_eq_0_iff in E0 as [_ ->]. done. }
      apply (elem_fl (P := λ f, Z.land f 4 ≠ 0) fl [4; 12] Hfl); [repeat constructor; done|done].
Qed.

(** *** 64-bit BARs *)
Lemma hi_ones k base :
  0 ≤ k < 64 → 0 ≤ base < 2 ^ 64 → base mod 2 ^ k = 0 →
  mix (Z.shiftr base 32) (not32 0) (Z.shiftr (not64 (Z.ones k)) 32) = Z.shiftr (not64 (Z.ones k)) 32.
Proof.
  intros Hk Hb Ha. unfold mix. apply Z.bits_inj'. intros j Hj. repeat zbits_step.
  destruct (Z.ltb_spec (j + 32) k); zbits_cmp; cbn [andb orb negb];
    rewrite ?(testbit_aligned k base (j + 32)), ?(testbit_above 64 base (j + 32)) by (done || lia);
    rewrite ?andb_true_r, ?andb_false_r, ?orb_false_r; done.
Qed.
Lemma join64 k : 0 ≤ k → Z.lor (u64 (Z.shiftl (Z.shiftr (not64 (Z.ones k)) 32) 32)) (not64 (Z.ones k) mod 2 ^ 32) = not64 (Z.ones k).
Proof.
  intros Hk. unfold u64. apply Z.bits_inj'. intros j Hj. repeat zbits_step.
  destruct (Z.ltb_spec j 32).
  - rewrite (Z.testbit_neg_r _ (j - 32)) by lia. zbits_cmp; done.
  - replace (j - 32 + 32) with j by lia. repeat zbits_step.
    zbits_cmp; cbn; by rewrite ?orb_false_r, ?andb_false_r.
Qed.
Lemma join_base base : Z.lor (base mod 2 ^ 32) (Z.shiftl (Z.shiftr base 32) 32) = base.
Proof.
  apply Z.bits_inj'. intros j Hj. repeat zbits_step. destruct (Z.ltb_spec j 32).
  - cbn [andb]. rewrite (Z.testbit_neg_r (Z.shiftr base 32)) by lia. apply orb_false_r.
  - cbn [andb orb]. repeat zbits_step. f_equal. lia.
Qed.
Lemma bar_base_valid b : bar_ok b → b ≠ NoBar → bar_base b ≠ INVALID_PHYS_ADDR.
Proof.
  intros Hb Hn E. change INVALID_PHYS_ADDR with (2 ^ 64 - 1) in E.
  assert (∀ k, 1 ≤ k → (2 ^ 64 - 1) mod 2 ^ k ≠ 0 ∨ 64 ≤ k) as Hodd.
  { intros k Hk. destruct (decide (64 ≤ k)); [by right|left]. intros E0.
    pose proof (testbit_aligned k (2 ^ 64 - 1) 0 E0 ltac:(lia)). done. }
  destruct b as [|k base|fl k base|fl k base]; cbn [bar_base bar_ok] in *; [done|..]; subst base.
  - lia.
  - lia.
  - destruct Hb as (_ & Hk & _ & Ha). destruct (Hodd k); [lia|done|lia].
Qed.

Lemma bar_page fl k base : bar_ok (MemBar fl k base) → 12 ≤ k → base mod 4096 = 0 ∧ 0 ≤ base ∧ base + 4096 ≤ 2 ^ 52.
Proof.
  intros (_ & Hk32 & Hb & Hmod) Hk. split; [|lia].
  apply Z.mod_divide; [done|]. apply Z.mod_divide in Hmod; [|lia]. etransitivity; [|exact Hmod].
  exists (2 ^ (k - 12)). change 4096 with (2 ^ 12). rewrite <- Z.pow_add_r by lia. f_equal. lia.
Qed.
Lemma bar_len_pos b : 1 ≤ bar_len b.
Proof. by destruct b. Qed.
Lemma bar_regs_first b : ∃ r w rs, bar_regs b = (r, w) :: rs.
Proof. destruct b; by repeat eexists. Qed.

Section at_bar.
Context (d : pci_dev) (i : Z) (b : bar) (Hd : 0 ≤ bdf d < 2 ^ 16) (Hi : 0 ≤ i ∧ i + bar_len b ≤ 6) (Hb : bar_ok b).

Lemma regs_first s r w rs :
  regs_at s (bdf d) i ((r, w) :: rs) → cfg (hw s) (bdf d) (4 + i) = r ∧ rw_bits (H := H) (bdf d) (4 + i) = w.
Proof. intros Hr. specialize (Hr O _ eq_refl). by rewrite Z.add_0_r in Hr. Qed.


Lemma is64_first s r w rs :
  bar_regs b = (r, w) :: rs → cfg (hw s) (bdf d) (4 + i) = r → reads (pci_bar_is64 d i) s (bar_64 b).
Proof.
  intros E Er. pose proof (bar_len_pos b). destruct (bar_bits b r w rs Hb E) as [<- _]. rewrite <- Er.
  unfold pci_bar_is64. eapply reads_bind; [apply bar_get_ok; [done|lia]|]. intros s' _. apply reads_ret.
Qed.
Lemma is64_ok s : regs_at s (bdf d) i (bar_regs b) → reads (pci_bar_is64 d i) s (bar_64 b).
Proof.
  intros Hr. destruct (bar_regs_first b) as (r & w & rs & E). apply (is64_first s r w rs E).
  rewrite E in Hr. by apply regs_first in Hr as [-> _].
Qed.

Lemma pci_bar_size_ok s : regs_at s (bdf d) i (bar_regs b) → reads (pci_bar_size d i) s (bar_bytes b).
Proof.
  intros Hr. destruct (bar_regs_first b) as (r & w & rs & E). pose proof (bar_len_pos b).
  destruct (bar_bits b r w rs Hb E) as [_ Hbits]. pose proof Hr as Hr0. rewrite E in Hr0.
  apply regs_first in Hr0 as [Er Ew].
  unfold pci_bar_size. eapply reads_bind; [apply size_helper_ok; [done|lia]|]. intros s1 Hs1.
  cbv zeta. rewrite Er, Ew.
  assert (∀ s', same_cfg s s' → reads (pci_bar_is64 d i) s' (bar_64 b)) as H64.
  { intros s' Hs. apply is64_ok. by apply (regs_at_same s). }
  assert (∀ s', same_cfg s s' → cfg (hw s') (bdf d) (4 + i) = r) as Hc by (by intros s' [-> _]).
  assert (∀ n f, mix r (not32 0) w ≠ 0 → (∀ s', same_cfg s s' → reads (f r (bar_64 b)) s' n) →
    reads (if mix r (not32 0) w =? 0 then mret 0 else bar ← pci_bar_get d i; is64 ← pci_bar_is64 d i; f bar is64) s1 n) as Hrun.
  { intros n f Hn Hf. rewrite (proj2 (Z.eqb_neq _ _) Hn).
    eapply reads_bind; [apply bar_get_ok; [done|lia]|]. intros s2 Hs2. rewrite Hc by done.
    eapply reads_bind; [apply H64; by etransitivity|]. intros s3 Hs3. apply Hf. by do 2 (etransitivity; [done|]). }
  destruct b as [|k base|fl k base|fl k base]; cbn [bar_bytes bar_64 bar_ok] in *.
  - rewrite Hbits. apply reads_ret.
  - destruct Hbits as (Hn & Em & _). apply Hrun; [done|]. intros s2 _. rewrite Em, size32 by lia. apply reads_ret.
  - destruct Hbits as (Hn & Em & _). apply Hrun; [done|]. intros s2 _. rewrite Em, size32 by lia. apply reads_ret.
  - destruct Hbits as (Hn & Em & _). apply Hrun; [done|]. intros s2 Hs2. rewrite Em.
    destruct (Hr 1%nat _ eq_refl) as [E1 W1]. cbn [fst snd] in E1, W1.
    replace (4 + i + Z.of_nat 1) with (4 + (i + 1)) in * by lia.
    eapply reads_bind; [apply size_helper_ok; cbn [bar_len] in Hi; [done|lia]|]. intros s3 _.
    cbv zeta. rewrite (proj1 Hs2), E1, W1, hi_ones by (destruct Hb as (_ & ? & ? & ?); done || lia).
    rewrite join64, size64 by lia. apply reads_ret.
Qed.

Lemma get_addr_ok s : b ≠ NoBar → regs_at s (bdf d) i (bar_regs b) → reads (__pci_bar_get_addr d i) s (bar_base b).
Proof.
  intros Hnb Hr. destruct (bar_regs_first b) as (r & w & rs & E). pose proof (bar_len_pos b).
  destruct (bar_bits b r w rs Hb E) as [_ Hbits]. pose proof Hr as Hr0. rewrite E in Hr0.
  apply regs_first in Hr0 as [Er Ew].
  unfold __pci_bar_get_addr. eapply reads_bind; [apply bar_get_ok; [done|lia]|]. intros s1 Hs1. rewrite Er. cbv zeta.
  eapply reads_bind; [apply is64_ok; by apply (regs_at_same s)|]. intros s2 Hs2. unfold pci_translate_addr.
  eapply (reads_bind _ _ _ (bar_base b)).
  - destruct b as [|k base|fl k base|fl k base]; cbn [bar_base bar_64 bar_ok bar_len] in *; [done|..].
    + destruct Hbits as (_ & _ & ->). apply reads_ret.
    + destruct Hbits as (_ & _ & ->). apply reads_ret.
    + destruct Hbits as (_ & _ & ->). destruct (Hr 1%nat _ eq_refl) as [E1 _]. cbn [fst] in E1.
      replace (4 + i + Z.of_nat 1) with (4 + (i + 1)) in E1 by lia.
      eapply reads_bind; [apply bar_get_ok; [done|lia]|]. intros s3 _.
      rewrite (proj1 Hs2), (proj1 Hs1), E1, join_base. apply reads_ret.
  - intros s3 _. apply reads_assert; [|apply reads_ret]. by rewrite (proj2 (Z.eqb_neq _ _) (bar_base_valid b Hb Hnb)).
Qed.
End at_bar.

(** *** All BARs of a device *)
Lemma regs_at_app s dev i l1 l2 :
  regs_at s dev i (l1 ++ l2) → regs_at s dev i l1 ∧ regs_at s dev (i + Z.of_nat (length l1)) l2.
Proof.
  intros Hr. split.
  - intros n x Hx. apply Hr. by apply lookup_app_l_Some.
  - intros n x Hx. specialize (Hr (length l1 + n)%nat x).
    replace (4 + (i + Z.of_nat (length l1)) + Z.of_nat n) with (4 + i + Z.of_nat (length l1 + n)) by lia.
    apply Hr. rewrite lookup_app_r by lia. by replace (length l1 + n - length l1)%nat with n by lia.
Qed.

Lemma bar_regs_length b : Z.of_nat (length (bar_regs b)) = bar_len b.
Proof. by destruct b. Qed.

Definition bars_len (bs : list bar) : Z := foldr (λ b n, bar_len b + n) 0 bs.
(** The resources of a device: an unimplemented BAR is invalid, a 64-bit one fills two slots. *)
Definition bar_resources (bs : list bar) : list Z :=
  flat_map (λ b, match b with MemBar64 _ _ base => [base; base] | b => [bar_base b] end) bs.

Lemma bars_len_nonneg bs : 0 ≤ bars_len bs.
Proof. induction bs as [|b bs IH]; cbn; [done|]. pose proof (bar_len_pos b). fold (bars_len bs). lia. Qed.

(** Writing the next slots of the resource array. *)
Lemma set_next (pre post : list Z) x (y : Z) i :
  Z.of_nat (length pre) = i → arr_set (pre ++ x :: post) i y = Done ((pre ++ [y]) ++ post).
Proof.
  intros <-. rewrite arr_set_ok by (rewrite length_app; cbn [length]; lia).
  rewrite Nat2Z.id, insert_app_r_alt, Nat.sub_diag by lia. by rewrite <- app_assoc.
Qed.
Lemma replicate_next i : 0 ≤ i < 6 → replicate (Z.to_nat (6 - i)) 0 = 0 :: replicate (Z.to_nat (6 - (i + 1))) 0.
Proof. intros Hi. by replace (Z.to_nat (6 - i)) with (S (Z.to_nat (6 - (i + 1)))) by lia. Qed.

Lemma bar_bytes_pos b : bar_ok b → b ≠ NoBar → bar_bytes b ≠ 0.
Proof. destruct b; cbn [bar_ok bar_bytes]; intros Hok Hn; [done|..]; apply Z.pow_nonzero; destruct_and?; lia. Qed.

Lemma dev_init_loop_ok bs : ∀ i pre dev s fuel,
  0 ≤ dev < 2 ^ 16 → Forall bar_ok bs → 0 ≤ i → i + bars_len bs = 6 → Z.of_nat (length pre) = i → (length bs ≤ fuel)%nat →
  regs_at s dev i (flat_map bar_regs bs) →
  reads (dev_init_loop fuel i (PciDev dev 0 (pre ++ replicate (Z.to_nat (6 - i)) 0))) s
    (PciDev dev 0 (pre ++ bar_resources bs)).
Proof.
  induction bs as [|b bs IH]; intros i pre dev s fuel Hd Hok Hi Hlen Hpre Hf Hr; cbn [bars_len foldr] in Hlen;
    unfold PCI_BAR_NUM.
  { assert (i = 6) as -> by lia. destruct fuel; cbn [dev_init_loop]; apply reads_ret. }
  fold (bars_len bs) in Hlen. pose proof (bar_len_pos b) as Hb1. pose proof (bars_len_nonneg bs).
  apply Forall_cons in Hok as [Hb Hok]. cbn [flat_map] in Hr. apply regs_at_app in Hr as [Hrb Hr].
  rewrite bar_regs_length in Hr. destruct fuel as [|fuel]; [cbn in Hf; lia|]. cbn in Hf.
  cbn [dev_init_loop]. unfold PCI_BAR_NUM. rewrite (proj2 (Z.ltb_lt i 6)) by lia.
  rewrite (replicate_next i) by lia. set (dv := PciDev dev 0 _).
  assert (∀ s', same_cfg s s' → regs_at s' dev i (bar_regs b)) as Hrb' by (intros s' Hs; by apply (regs_at_same s)).
  assert (∀ s', same_cfg s s' → regs_at s' dev (i + bar_len b) (flat_map bar_regs bs)) as Hr'
    by (intros s' Hs; by apply (regs_at_same s)).
  assert (i + bar_len b ≤ 6) as Hle by lia.
  eapply reads_bind; [apply (pci_bar_size_ok dv i b); [exact Hd|lia|done|by apply Hrb']|]. intros s1 Hs1.
  destruct (decide (b = NoBar)) as [->|Hnb].
  { cbn [bar_bytes Z.eqb negb resource dv]. rewrite set_next by done. apply reads_lift.
    cbn [bar_resources flat_map bar_base]. fold (bar_resources bs). rewrite (app_assoc pre [INVALID_PHYS_ADDR] (bar_resources bs)).
    apply IH; try done; [lia|cbn [bar_len] in Hlen; lia|rewrite length_app; cbn; lia|lia|by apply Hr']. }
  rewrite (proj2 (Z.eqb_neq (bar_bytes b) 0)) by (by apply bar_bytes_pos). cbn [negb].
  eapply reads_bind; [apply (get_addr_ok dv i b); [exact Hd|lia|done|done|by apply Hrb']|]. intros s2 Hs2.
  cbn [resource dv]. rewrite set_next by done. apply reads_lift. cbv zeta.
  eapply reads_bind.
  { apply (is64_ok (set_resource _ dv) i b); [exact Hd|lia|done|]. apply Hrb'. by etransitivity. }
  intros s3 Hs3. assert (same_cfg s s3) as Hs by (by do 2 (etransitivity; [done|])).
  destruct b as [|k base|fl k base|fl k base]; [done|..]; cbn [bar_64 bar_len bar_base] in *;
    cbn [bar_resources flat_map bar_base app]; fold (bar_resources bs).
  1,2: rewrite (cons_middle base pre (bar_resources bs)), (app_assoc pre [base] (bar_resources bs)); apply IH; try done;
    [lia|lia|rewrite length_app; cbn; lia|lia|by apply Hr'].
  apply reads_assert; [unfold PCI_BAR_NUM; apply Z.ltb_lt; lia|]. cbn [resource set_resource].
  rewrite (arr_get_ok _ i base).
  2: lia.
  2:{ rewrite lookup_app_l by (rewrite length_app; cbn; lia). rewrite lookup_app_r by lia.
      by replace (Z.to_nat i - length pre)%nat with O by lia. }
  apply reads_lift. rewrite (replicate_next (i + 1)) by lia.
  rewrite (set_next (pre ++ [base])) by (rewrite length_app; cbn; lia). apply reads_lift.
  replace (i + 1 + 1) with (i + 2) by lia.
  replace (pre ++ base :: base :: bar_resources bs) with (((pre ++ [base]) ++ [base]) ++ bar_resources bs)
    by (by rewrite <- !app_assoc).
  apply IH; try done; [lia|lia|rewrite !length_app; cbn; lia|lia|by apply Hr'].
Qed.

(** *** Moving a BAR *)
Definition set_base (b : bar) (addr : Z) : bar :=
  match b with
  | NoBar => NoBar
  | IoBar k _ => IoBar k addr
  | MemBar fl k _ => MemBar fl k addr
  | MemBar64 fl k _ => MemBar64 fl k addr
  end.

(** Writing an aligned address changes the address bits only. *)
Lemma mix_addr j k fl base addr :
  0 ≤ j ≤ k → k ≤ 32 → 0 ≤ fl < 2 ^ j → 0 ≤ base < 2 ^ 32 → base mod 2 ^ k = 0 → 0 ≤ addr < 2 ^ 32 → addr mod 2 ^ k = 0 →
  mix (Z.lor base fl) addr (not32 (Z.ones k)) = Z.lor addr fl.
Proof.
  intros Hj Hk Hfl Hb Hba Ha Haa. unfold mix. apply Z.bits_inj'. intros i Hi. repeat zbits_step.
  destruct (Z.ltb_spec i k), (Z.ltb_spec i 32); zbits_cmp; cbn [andb orb negb];
    rewrite ?(testbit_aligned k base i), ?(testbit_aligned k addr i), ?(testbit_above j fl i),
      ?(testbit_above 32 base i), ?(testbit_above 32 addr i) by (done || lia);
    cbn; rewrite ?andb_true_r, ?andb_false_r, ?orb_false_r; done.
Qed.
Lemma mix_addr_hi k base addr :
  0 ≤ k ≤ 64 → 0 ≤ base < 2 ^ 64 → base mod 2 ^ k = 0 → 0 ≤ addr < 2 ^ 64 → addr mod 2 ^ k = 0 →
  mix (Z.shiftr base 32) (u32 (Z.shiftr addr 32)) (Z.shiftr (not64 (Z.ones k)) 32) = Z.shiftr addr 32.
Proof.
  intros Hk Hb Hba Ha Haa. unfold mix, u32. apply Z.bits_inj'. intros i Hi. repeat zbits_step.
  destruct (Z.ltb_spec (i + 32) k), (Z.ltb_spec i 32); zbits_cmp; cbn [andb orb negb];
    rewrite ?(testbit_aligned k base (i + 32)), ?(testbit_aligned k addr (i + 32)),
      ?(testbit_above 64 base (i + 32)), ?(testbit_above 64 addr (i + 32)) by (done || lia);
    cbn; rewrite ?andb_true_r, ?andb_false_r, ?orb_false_r; done.
Qed.

(** The registers of the moved BAR, and the write that leads there. *)
Lemma set_base_regs b addr r w rs :
  bar_ok b → b ≠ NoBar → bar_ok (set_base b addr) → bar_regs b = (r, w) :: rs →
  ∃ r' rs', bar_regs (set_base b addr) = (r', w) :: rs' ∧ mix r (u32 addr) w = r' ∧
    match rs, rs' with
    | (h, wh) :: _, (h', wh') :: _ => wh' = wh ∧ mix h (u32 (Z.shiftr addr 32)) wh = h'
    | [], [] => Z.shiftr addr 32 = 0
    | _, _ => False
    end.
Proof.
  intros Hok Hn Hok' Hr. destruct b as [|k base|fl k base|fl k base]; [done|..]; cbn [bar_ok bar_regs set_base] in *;
    injection Hr as <- <- <-; (eexists _, _; split; [reflexivity|]).
  - destruct Hok as (Hk & Hb & Ha), Hok' as (_ & Hb' & Ha'). rewrite (u32_small addr) by done.
    split; [apply (mix_addr 2); try done; lia|]. rewrite Z.shiftr_div_pow2 by lia. by apply Z.div_small.
  - destruct Hok as (Hfl & Hk & Hb & Ha), Hok' as (_ & _ & Hb' & Ha'). rewrite (u32_small addr) by done.
    split; [|rewrite Z.shiftr_div_pow2 by lia; by apply Z.div_small].
    apply (mix_addr 4); try done; try lia. apply (elem_fl (P := λ f, 0 ≤ f < 2 ^ 4) fl _ Hfl).
    repeat (apply Forall_cons; split; [lia|]). by apply Forall_nil.
  - destruct Hok as (Hfl & Hk & Hb & Ha), Hok' as (_ & _ & Hb' & Ha').
    split; [|split; [done|apply mix_addr_hi; done || lia]].
    assert (∀ x, x mod 2 ^ k = 0 → x mod 2 ^ 32 mod 2 ^ Z.min k 32 = 0) as Hal.
    { intros x Hx. apply aligned_of_testbit; [lia|]. intros i Hi. rewrite testbit_mod_pow2 by lia.
      rewrite (testbit_aligned k x i) by (done || lia). apply andb_false_r. }
    assert (not64 (Z.ones k) mod 2 ^ 32 = not32 (Z.ones (Z.min k 32))) as -> by (zbits; lia).
    apply (mix_addr 4); try (by apply Hal); try lia; try (apply Z.mod_pos_bound; lia).
    apply (elem_fl (P := λ f, 0 ≤ f < 2 ^ 4) fl _ Hfl).
    repeat (apply Forall_cons; split; [lia|]). by apply Forall_nil.
Qed.

Lemma bar_64_set_base b addr : bar_64 (set_base b addr) = bar_64 b ∧ bar_len (set_base b addr) = bar_len b.
Proof. by destruct b. Qed.

(** A write of one BAR register. *)
Lemma write_bar_ok dev i v s :
  0 ≤ dev < 2 ^ 16 → 0 ≤ i < 6 → in_u32 v →
  ∃ s', pci_config_writel dev (PCI_BASE_ADDRESS_0 + i * 4) v s = Done (tt, s') ∧ bus_log s' = bus_log s ∧
    ∀ d' j, cfg (hw s') d' j = if decide (d' = dev ∧ j = 4 + i)
      then mix (cfg (hw s) dev (4 + i)) v (rw_bits (H := H) dev (4 + i)) else cfg (hw s) d' j.
Proof.
  intros Hd Hi Hv. unfold PCI_BASE_ADDRESS_0. replace (0x10 + i * 4) with ((4 + i) * 4) by lia.
  destruct (writel_ok dev ((4 + i) * 4) v s) as (s' & E & L & C); [done|lia|by apply Z.mod_mul|done|].
  rewrite Z.div_mul in C by lia. exists s'. split; [done|]. split; [done|]. intros d' j. rewrite C.
  by destruct (decide _) as [[_ ->]|].
Qed.

(** Changing one of the BAR registers. *)
Lemma set_addr_ok d i b addr s r0 :
  0 ≤ bdf d < 2 ^ 16 → 0 ≤ i → i + bar_len b ≤ 6 → bar_ok b → b ≠ NoBar → bar_ok (set_base b addr) →
  regs_at s (bdf d) i (bar_regs b) → length (resource d) = 6%nat →
  resource d !! Z.to_nat i = Some r0 → r0 ≠ INVALID_PHYS_ADDR →
  ∃ s', pci_bar_set_addr d i addr s =
      Done (set_resource ((if bar_64 b then <[Z.to_nat (i + 1) := addr]> else id) (<[Z.to_nat i := addr]> (resource d))) d, s') ∧
    bus_log s' = bus_log s ∧ regs_at s' (bdf d) i (bar_regs (set_base b addr)) ∧
    ∀ d' j, ¬ (d' = bdf d ∧ 4 + i ≤ j < 4 + i + bar_len b) → cfg (hw s') d' j = cfg (hw s) d' j.
Proof.
  intros Hd Hi Hle Hok Hn Hok' Hr Hlen Hres Hr0. pose proof (bar_len_pos b).
  destruct (bar_regs_first b) as (r & w & rs & E).
  destruct (set_base_regs b addr r w rs Hok Hn Hok' E) as (r' & rs' & E' & Hmix & Hrest).
  destruct (bar_64_set_base b addr) as [E64 El].
  pose proof Hr as Hr1. rewrite E in Hr1. apply regs_first in Hr1 as [Ec Ew].
  pose proof (bar_base_valid (set_base b addr) Hok') as Hav.
  assert (bar_base (set_base b addr) = addr) as Eb by (by destruct b). rewrite Eb in Hav.
  assert (set_base b addr ≠ NoBar) as Hn' by (by destruct b).
  destruct (is64_ok d i b Hd ltac:(lia) Hok s Hr) as (s1 & E1 & Hs1).
  destruct (write_bar_ok (bdf d) i (u32 addr) s1 Hd ltac:(lia) (u32_range _)) as (s2 & E2 & L2 & C2).
  assert (∀ d' j, cfg (hw s1) d' j = cfg (hw s) d' j) as C1 by apply Hs1. rewrite !C1, Ec, Ew in C2.
  set (d2 := set_resource (<[Z.to_nat i := addr]> (resource d)) d).
  assert (reads (pci_bar_is64 d2 i) s2 (bar_64 b)) as (s3 & E3 & Hs3).
  { rewrite <- E64. apply (is64_first d2 i (set_base b addr) Hd) with r' w rs'; [lia|done|done|].
    rewrite C2, decide_True by done. exact Hmix. }
  unfold pci_bar_set_addr. rewrite (proj2 (Z.eqb_neq addr _)) by auto. cbn [negb c_assert]. rewrite bind_lift_Done.
  rewrite (arr_get_ok _ i r0) by (done || lia). rewrite bind_lift_Done, (proj2 (Z.eqb_neq r0 _)) by done.
  cbn [negb c_assert]. rewrite bind_lift_Done. unfold ASSERT_BAR_NUM, PCI_BAR_NUM.
  rewrite (proj2 (Z.leb_le 0 i)), (proj2 (Z.ltb_lt i 6)) by lia. cbn [andb c_assert]. rewrite bind_lift_Done.
  rewrite (stM_bind_Done _ _ _ _ _ E1).
  assert ((if bar_64 b then c_assert ((0 <=? i + 1) && (i + 1 <? 6)) else c_assert (Z.shiftr addr 32 =? 0)) = Done tt) as ->.
  { destruct b as [|k base|fl k base|fl k base]; [done|..]; cbn [bar_64 bar_len bar_regs] in *;
      injection E as <- <- <-; injection E' as <- <-; try by rewrite Hrest.
    rewrite (proj2 (Z.leb_le _ _)), (proj2 (Z.ltb_lt _ _)) by lia. done. }
  rewrite bind_lift_Done, (stM_bind_Done _ _ _ _ _ E2), arr_set_ok, bind_lift_Done by lia. cbv zeta. fold d2.
  rewrite (stM_bind_Done _ _ _ _ _ E3).
  assert (∀ d' j, cfg (hw s3) d' j = if decide (d' = bdf d ∧ j = 4 + i) then r' else cfg (hw s) d' j) as C3.
  { intros d' j. rewrite (proj1 Hs3), C2. destruct (decide _); [exact Hmix|apply C1]. }
  assert (bus_log s3 = bus_log s) as L3 by (rewrite (proj2 Hs3), L2; apply Hs1).
  destruct (bar_64 b) eqn:E6.
  - assert (bar_len b = 2) as Hlb by (by destruct b).
    destruct rs as [|[h wh] rs1]; [by destruct b|]. destruct rs' as [|[h' wh'] rs1']; [by destruct b|].
    destruct Hrest as [-> Hmh]. pose proof (Hr 1%nat (h, wh)) as Hr2. rewrite E in Hr2.
    destruct (Hr2 eq_refl) as [Eh Ewh]. cbn [fst snd] in Eh, Ewh.
    replace (4 + i + Z.of_nat 1) with (4 + (i + 1)) in Eh, Ewh by lia.
    destruct (write_bar_ok (bdf d) (i + 1) (u32 (Z.shiftr addr 32)) s3 Hd ltac:(lia) (u32_range _)) as (s4 & E4 & L4 & C4).
    rewrite C3, decide_False, Eh, Ewh, Hmh in C4 by lia.
    exists s4. split.
    { replace (PCI_BASE_ADDRESS_0 + i * 4 + 4) with (PCI_BASE_ADDRESS_0 + (i + 1) * 4) by lia.
      rewrite (stM_bind_Done _ _ _ _ _ E4). cbn [resource set_resource d2].
      rewrite (arr_get_ok _ i addr), bind_lift_Done by (lia || (apply list_lookup_insert_eq; lia)).
      rewrite arr_set_ok, bind_lift_Done by (rewrite length_insert; lia). done. }
    split; [by rewrite L4|]. split.
    + intros n x Hx. rewrite E' in Hx. destruct n as [|[|n]]; cbn in Hx.
      * injection Hx as <-. rewrite Z.add_0_r, C4, decide_False, C3, decide_True by lia. done.
      * injection Hx as <-. replace (4 + i + Z.of_nat 1) with (4 + (i + 1)) by lia.
        rewrite C4, decide_True by done. done.
      * exfalso. destruct b; try done. cbn [set_base bar_regs] in E'. by injection E' as _ _ _ _ <-.
    + intros d' j Hj. rewrite C4, decide_False by lia. rewrite C3, decide_False by lia. done.
  - assert (bar_len b = 1) as Hlb by (by destruct b).
    exists s3. split; [done|]. split; [done|]. split.
    + intros n x Hx. rewrite E' in Hx. assert (rs' = []) as -> by (destruct b; try done; cbn [set_base bar_regs] in E'; by injection E').
      destruct n as [|n]; cbn in Hx; [|done]. injection Hx as <-.
      rewrite Z.add_0_r, C3, decide_True by done. done.
    + intros d' j Hj. by rewrite C3, decide_False by lia.
Qed.

(** *** Capabilities *)
(** The list of capabilities from [off] on, with their identifiers. *)
Fixpoint caps_at (c : Z → Z) (off : Z) (l : list (Z * Z)) : Prop :=
  match l with
  | [] => off = 0
  | (o, id) :: l => o = off ∧ 0 < off < 255 ∧ id = field c off 8 ∧ id ≤ PCI_CAP_ID_MAX ∧ caps_at c (field c (off + 1) 8) l
  end.

(** A handler that only computes. *)
Definition handler_reads (h : pci_dev → Z → Z → M pci_dev) (f : pci_dev → Z → Z → pci_dev) (dev : Z) : Prop :=
  ∀ d o id s, bdf d = dev → reads (h d o id) s (f d o id) ∧ bdf (f d o id) = dev.

Lemma field_same (c c' : Z → Z) r w : (∀ i, c i = c' i) → field c r w = field c' r w.
Proof. intros E. unfold field. by rewrite E. Qed.
Lemma caps_at_same c c' off l : (∀ i, c i = c' i) → caps_at c off l → caps_at c' off l.
Proof.
  intros E. revert off. induction l as [|[o id] l IH]; intros off; cbn [caps_at]; [done|].
  rewrite !(field_same c c' _ 8 E). intros (-> & ? & -> & ? & Hl). split_and!; auto; lia.
Qed.

Lemma cap_walk_ok h f dev l : ∀ off count d fuel s,
  0 ≤ dev < 2 ^ 16 → bdf d = dev → handler_reads h f dev → caps_at (cfg (hw s) dev) off l →
  0 ≤ count → count + Z.of_nat (length l) ≤ 255 → (length l ≤ fuel)%nat →
  reads (cap_walk_loop fuel h d off count) s (foldl (λ d '(o, id), f d o id) d l).
Proof.
  induction l as [|[o id] l IH]; intros off count d fuel s Hd Hbd Hh Hl Hc Hlen Hf; cbn [caps_at] in Hl.
  { subst off. destruct fuel; apply reads_ret. }
  destruct Hl as (-> & Hoff & Hid & Hmax & Hl). destruct fuel as [|fuel]; [cbn in Hf; lia|]. cbn [length] in *.
  cbn [cap_walk_loop foldl]. rewrite (proj2 (Z.eqb_neq off 0)), Hbd by lia.
  eapply reads_bind; [apply readb_ok; [done|lia]|]. intros s1 Hs1. rewrite <- Hid.
  apply reads_assert; [apply Z.ltb_lt; lia|].
  destruct (Hh d off id s1 Hbd) as [Hr Hb']. eapply reads_bind; [exact Hr|]. intros s2 Hs2. rewrite Hb'.
  eapply reads_bind; [apply readb_ok; [done|lia]|]. intros s3 Hs3.
  assert (∀ i, cfg (hw s) dev i = cfg (hw s2) dev i) as E2 by (intros; by rewrite (proj1 Hs2), (proj1 Hs1)).
  rewrite <- (field_same _ _ (off + 1) 8 E2).
  apply reads_assert; [apply Z.leb_le; lia|]. apply IH; try done; try lia.
  apply (caps_at_same (cfg (hw s) dev)); [|done]. intros i. by rewrite E2, (proj1 Hs3).
Qed.

(** The walk stops after 255 capabilities, whatever the device answers. *)
Lemma cap_walk_stops h fuel : ∀ d off count s,
  (∀ d o id s, h d o id s ≠ NoFuel) → count ≤ 255 < Z.of_nat fuel + count → cap_walk_loop fuel h d off count s ≠ NoFuel.
Proof.
  induction fuel as [|fuel IH]; intros d off count s Hh Hf; [lia|]. cbn [cap_walk_loop].
  destruct (off =? 0); [done|]. unfold pci_config_readb, out_port, in_port. rewrite !stM_bind_assoc, bind_modify.
  cbn [mbind stM_bind]. unfold mbind, stM_bind. cbv beta iota.
  destruct (_ <? _); cbn [c_assert lift mbind outcome_bind]; [|done].
  unfold lift. cbn [mbind outcome_bind].
  match goal with |- context [h ?d ?o ?id ?s] => pose proof (Hh d o id s); destruct (h d o id s) as [[d' s']| | | |]; try done end.
  cbn [modify]. unfold modify. destruct (Z.leb_spec (count + 1) 255); cbn; [|done]. apply IH; [done|lia].
Qed.
End bar_proofs.

(** *** Finding a device and enabling it *)
Section devices.
Context {H : Type} `{Conf1 H}.
Implicit Types (s : bus H).

(** The first device of bus 0 with these identifiers. *)
Definition has_ids (c : Z → Z) (v d : Z) : Prop := field c PCI_VENDOR_ID 16 = v ∧ field c PCI_DEVICE_ID 16 = d.
#[global] Instance has_ids_dec c v d : Decision (has_ids c v d).
Proof. unfold has_ids. apply _. Defined.
Definition first_dev (c : Z → Z → Z) (v d : Z) (devs : list Z) : Z :=
  default PCIDEVADDR_INVALID (snd <$> list_find (λ x, has_ids (c x) v d) devs).

Lemma first_dev_cons c v d x l : first_dev c v d (x :: l) = if decide (has_ids (c x) v d) then x else first_dev c v d l.
Proof. unfold first_dev. cbn [list_find]. destruct (decide _); [done|]. by destruct (list_find _ l) as [[]|]. Qed.
Lemma first_dev_same c c' v d l : (∀ x i, c' x i = c x i) → first_dev c' v d l = first_dev c v d l.
Proof.
  intros E. induction l as [|x l IH]; [done|]. rewrite !first_dev_cons, IH.
  apply decide_ext. unfold has_ids. by rewrite !(field_same (c' x) (c x)).
Qed.
Lemma first_dev_range c v d n : ∀ k r, first_dev c v d (seqZ k n) = r → r ≠ PCIDEVADDR_INVALID → 0 ≤ k → k ≤ r < k + n.
Proof.
  intros k r E Hr Hk. unfold first_dev in E. destruct (list_find _ _) as [[i x]|] eqn:F; cbn in E; [|done].
  apply list_find_Some in F as (F & _). subst x. apply lookup_seqZ in F. lia.
Qed.

Lemma find_dev_loop_ok v d n : ∀ dev s, 0 ≤ dev → dev + Z.of_nat n ≤ 2 ^ 16 →
  reads (find_dev_loop n dev v d) s (first_dev (cfg (hw s)) v d (seqZ dev (Z.of_nat n))).
Proof.
  induction n as [|n IH]; intros dev s Hd Hn; cbn [find_dev_loop]; [apply reads_ret|].
  rewrite seqZ_cons, first_dev_cons by lia. replace (Z.pred (Z.of_nat (S n))) with (Z.of_nat n) by lia.
  eapply reads_bind; [apply readw_ok; done || lia|]. intros s1 Hs1.
  eapply (reads_bind _ _ _ (bool_decide (has_ids (cfg (hw s) dev) v d))).
  - unfold has_ids. destruct (Z.eqb_spec (field (cfg (hw s) dev) PCI_VENDOR_ID 16) v).
    + eapply reads_bind; [apply readw_ok; done || lia|]. intros s2 Hs2.
      rewrite (field_same (cfg (hw s1) dev) (cfg (hw s) dev)) by (intros; by rewrite (proj1 Hs1)).
      destruct (Z.eqb_spec (field (cfg (hw s) dev) PCI_DEVICE_ID 16) d);
        [rewrite bool_decide_eq_true_2 by done|rewrite bool_decide_eq_false_2 by tauto]; apply reads_ret.
    + rewrite bool_decide_eq_false_2 by tauto. apply reads_ret.
  - intros s2 Hs2. rewrite (bool_decide_decide (has_ids _ _ _)). destruct (decide _); [apply reads_ret|].
    assert (∀ x i, cfg (hw s2) x i = cfg (hw s) x i) as E by (intros; by rewrite (proj1 Hs2), (proj1 Hs1)).
    rewrite <- (first_dev_same _ _ v d _ E). replace (Z.succ dev) with (dev + 1) by lia. apply IH; lia.
Qed.

(** [pci_find_dev] returns the first such device, and reads only. *)
Lemma pci_find_dev_ok v d s : reads (pci_find_dev v d) s (first_dev (cfg (hw s)) v d (seqZ 0 PCI_DEVFN_MAX)).
Proof. apply (find_dev_loop_ok v d 256 0 s); lia. Qed.

Lemma mix_command old k mask : in_u32 old → 0 ≤ k < 16 → Z.land mask 0xffff = mask → Z.testbit mask k = true →
  mix old (Z.lor (Z.land old 0xffff) (2 ^ k)) mask = Z.lor old (2 ^ k).
Proof.
  intros Ho Hk Hm Hb. unfold mix, not32. change 0xffff with (Z.ones 16) in *. change 0xffffffff with (Z.ones 32).
  apply Z.bits_inj'. intros i Hi. pose proof (f_equal (λ x, Z.testbit x i) Hm) as Em. cbv beta in Em.
  rewrite Z.land_spec, testbit_ones in Em by lia.
  repeat zbits_step. rewrite (proj2 (Z.leb_le 0 i) Hi) in *. cbn [andb] in *.
  destruct (Z.ltb_spec i 32); [|rewrite (testbit_above 32 old) by done]; cbn [andb orb];
    destruct (Z.ltb_spec i 16), (Z.eqb_spec i k) as [->|]; rewrite ?Hb, ?andb_true_r, ?andb_false_r, ?orb_true_r, ?orb_false_r in *;
    try lia; try (rewrite <- Em); try (destruct (Z.testbit mask i)); destruct (Z.testbit old i); done.
Qed.

Lemma caps_at_write c c' off l : (∀ i, i ≠ 1 → c' i = c i) → 0x40 ≤ off ∨ l = [] → Forall (λ x, 0x40 ≤ x.1) l →
  caps_at c off l → caps_at c' off l.
Proof.
  intros E. revert off. induction l as [|[o id] l IH]; intros off Ho Hl; cbn [caps_at]; [done|].
  apply Forall_cons in Hl as [Ho1 Hl]. cbn in Ho1. intros (-> & Hr & -> & Hi & Hc).
  assert (∀ r w, 8 ≤ r → field c' r w = field c r w) as Ef.
  { intros r w Hr'. unfold field. rewrite E; [done|]. intros E1.
    pose proof (Z.div_le_lower_bound r 4 2 ltac:(lia) ltac:(lia)). lia. }
  rewrite !Ef by lia. split_and!; try done; try lia. apply IH; try done.
  destruct l as [|[o1 id1] l]; [by right|left]. cbn [caps_at] in Hc. apply Forall_cons in Hl as [Hx _]. destruct Hc as (-> & _). exact Hx.
Qed.
Lemma set_master_ok d s : 0 ≤ bdf d < 2 ^ 16 → Z.testbit (rw_bits (bdf d) 1) 2 = true →
  ∃ s', pci_cmd_set_clr d PCI_COMMAND_MASTER 0 s = Done (tt, s') ∧ bus_log s' = bus_log s ∧
    ∀ x i, cfg (hw s') x i = if decide (x = bdf d ∧ i = 1) then Z.lor (cfg (hw s) x i) PCI_COMMAND_MASTER else cfg (hw s) x i.
Proof.
  intros Hd Hrw. set (dev := bdf d) in *. unfold pci_cmd_set_clr. fold dev.
  destruct (readw_ok dev PCI_COMMAND s Hd ltac:(done) ltac:(done)) as (s1 & E1 & C1 & L1).
  rewrite (stM_bind_Done _ _ _ _ _ E1).
  change (lift (c_assert (Z.land PCI_COMMAND_MASTER 0 =? 0))) with (lift (S := bus H) (Done tt)). rewrite bind_lift_Done.
  cbv zeta. set (v := u16 _).
  assert (v = Z.lor (Z.land (cfg (hw s) dev 1) 0xffff) (2 ^ 2)) as Ev.
  { unfold v, field. change (PCI_COMMAND / 4) with 1. change (2 ^ (8 * (PCI_COMMAND mod 4))) with 1. rewrite Z.div_1_r.
    change 0xffff with (Z.ones 16). rewrite Z.land_ones by lia. unfold u16, PCI_COMMAND_MASTER. change 4 with (2 ^ 2). zbits. }
  destruct (writew_ok dev PCI_COMMAND v s1 Hd ltac:(by left) ltac:(done)) as (s2 & E2 & L2 & C2); [apply Z.mod_pos_bound; lia|].
  change (PCI_COMMAND / 4) with 1 in C2. change (2 ^ (8 * (PCI_COMMAND mod 4))) with 1 in C2. rewrite !Z.mul_1_r in C2.
  exists s2. split; [exact E2|]. split; [by rewrite L2|]. intros x i. rewrite C2, !C1.
  destruct (decide _) as [[-> ->]|]; [|done]. rewrite Ev. change PCI_COMMAND_MASTER with (2 ^ 2).
  apply mix_command; [apply cfg_u32|lia|rewrite <- Z.land_assoc; done|by rewrite Z.land_spec, Hrw].
Qed.

(** [pci_enable_defaults] makes the device a bus master and notes its MSI capability;
    what else the configuration space holds stays. *)
Definition found_msi (d : pci_dev) (l : list (Z * Z)) : pci_dev :=
  foldl (λ d '(o, id), if id =? PCI_CAP_ID_MSI then set_msi_offset (u16 o) d else d) d l.
Lemma pci_enable_defaults_ok d l s fuel : let dev := bdf d in
  0 ≤ dev < 2 ^ 16 → (length l ≤ 255)%nat → (length l ≤ fuel)%nat → Forall (λ x, 0x40 ≤ x.1) l →
  caps_at (cfg (hw s) dev) (field (cfg (hw s) dev) PCI_CAPABILITY_LIST 8) l → Z.testbit (rw_bits dev 1) 2 = true →
  ∃ s', pci_enable_defaults fuel d s = Done (found_msi d l, s') ∧ bus_log s' = bus_log s ∧
    ∀ x i, cfg (hw s') x i = if decide (x = dev ∧ i = 1) then Z.lor (cfg (hw s) x i) PCI_COMMAND_MASTER else cfg (hw s) x i.
Proof.
  intros dev Hd Hlen Hf Hall Hl Hrw. destruct (set_master_ok d s Hd Hrw) as (s2 & E2 & L2 & C2). fold dev in C2.
  unfold pci_enable_defaults. rewrite (stM_bind_Done _ _ _ _ _ E2). unfold pci_cap_walk. fold dev.
  destruct (readb_ok dev PCI_CAPABILITY_LIST s2 Hd ltac:(done)) as (s3 & E3 & C3 & L3).
  rewrite (stM_bind_Done _ _ _ _ _ E3).
  assert (∀ i, i ≠ 1 → cfg (hw s2) dev i = cfg (hw s) dev i) as C by (intros i Hi; by rewrite C2, decide_False by tauto).
  assert (field (cfg (hw s2) dev) PCI_CAPABILITY_LIST 8 = field (cfg (hw s) dev) PCI_CAPABILITY_LIST 8) as Ef
    by (unfold field; by rewrite C).
  rewrite Ef. apply (caps_at_write _ (cfg (hw s3) dev)) in Hl; [|intros i Hi; by rewrite C3, C| |done].
  2:{ destruct l as [|[o id] l]; [by right|left]. cbn [caps_at] in Hl. apply Forall_cons in Hall as [Hx _]. by destruct Hl as (<- & _). }
  destruct (cap_walk_ok pci_cap_setup (λ d o id, if id =? PCI_CAP_ID_MSI then set_msi_offset (u16 o) d else d) dev l
    (field (cfg (hw s) dev) PCI_CAPABILITY_LIST 8) 0 d fuel s3) as (s4 & E4 & C4 & L4); try done; [|lia|].
  { intros d0 o id s0 Hb0. unfold pci_cap_setup. split; [apply reads_ret|]. by destruct (_ =? _). }
  exists s4. split; [exact E4|]. split; [by rewrite L4, L3|]. intros x i. by rewrite C4, C3, C2.
Qed.
End devices.

(** ** Properties *)
Section claims.
Context {H : Type} `{Conf1 H}.
Implicit Types (s : bus H).

Lemma pci_dev_init_ok dev bs s :
  0 ≤ dev < 2 ^ 16 → Forall bar_ok bs → bars_len bs = 6 → regs_at s dev 0 (flat_map bar_regs bs) →
  reads (pci_dev_init dev) s (PciDev dev 0 (bar_resources bs)).
Proof.
  intros Hd Hok Hlen Hr. apply (dev_init_loop_ok bs 0 [] dev s); try done.
  enough (Z.of_nat (length bs) ≤ bars_len bs) by (change (Z.to_nat PCI_BAR_NUM) with 6%nat; lia).
  clear Hok Hlen Hr. induction bs as [|b bs IH]; cbn; [done|]. fold (bars_len bs). pose proof (bar_len_pos b). lia.
Qed.

(** C20: [pci_dev_init] finds the resources of a device whatever its BARs are: the base
    of each range of ports, 32-bit or 64-bit memory, the latter in two slots, and
    the invalid address for an unimplemented register; [pci_bar_size] is the size of
    each of them.  Both leave the configuration space as they found it. *)
Theorem pci_dev_init_correct dev bs s :
  0 ≤ dev < 2 ^ 16 → Forall bar_ok bs → bars_len bs = 6 → regs_at s dev 0 (flat_map bar_regs bs) →
  (∃ s', pci_dev_init dev s = Done (PciDev dev 0 (bar_resources bs), s') ∧ same_cfg s s') ∧
  ∀ pre b post d, bs = pre ++ b :: post → bdf d = dev →
    ∃ s', pci_bar_size d (bars_len pre) s = Done (bar_bytes b, s') ∧ same_cfg s s'.
Proof.
  intros Hd Hok Hlen Hr. split.
  - by apply pci_dev_init_ok.
  - intros pre b post d -> Hbd. rewrite flat_map_app in Hr. apply regs_at_app in Hr as [_ Hr].
    assert (∀ l, Z.of_nat (length (flat_map bar_regs l)) = bars_len l) as Hl.
    { induction l as [|x l IH]; cbn; [done|]. fold (bars_len l). rewrite length_app, Nat2Z.inj_add, bar_regs_length, IH. done. }
    assert (∀ l1 l2, bars_len (l1 ++ l2) = bars_len l1 + bars_len l2) as Ha.
    { induction l1 as [|x l1 IH]; intros l2; cbn; [done|]. fold (bars_len (l1 ++ l2)) (bars_len l1). rewrite IH. lia. }
    rewrite Hl, Z.add_0_l in Hr. cbn [flat_map] in Hr. apply regs_at_app in Hr as [Hr _].
    apply Forall_app in Hok as [_ [Hb _]%Forall_cons].
    rewrite Ha in Hlen. cbn in Hlen. fold (bars_len post) in Hlen. pose proof (bars_len_nonneg post). pose proof (bars_len_nonneg pre).
    apply pci_bar_size_ok; subst dev; done || lia.
Qed.

(** C22: [pci_bar_set_addr] moves an implemented BAR to any address aligned to its size:
    the registers of that BAR and its slots of the resource array hold the new
    address, the flags, the size and every other register are as before. *)
Theorem pci_bar_set_addr_correct d i b addr s r0 :
  0 ≤ bdf d < 2 ^ 16 → 0 ≤ i → i + bar_len b ≤ 6 → bar_ok b → b ≠ NoBar → bar_ok (set_base b addr) →
  regs_at s (bdf d) i (bar_regs b) → length (resource d) = 6%nat →
  resource d !! Z.to_nat i = Some r0 → r0 ≠ INVALID_PHYS_ADDR →
  ∃ s' d', pci_bar_set_addr d i addr s = Done (d', s') ∧ bdf d' = bdf d ∧
    resource d' = (if bar_64 b then <[Z.to_nat (i + 1) := addr]> else id) (<[Z.to_nat i := addr]> (resource d)) ∧
    (∀ x j, ¬ (x = bdf d ∧ 4 + i ≤ j < 4 + i + bar_len b) → cfg (hw s') x j = cfg (hw s) x j) ∧
    (∃ s2, __pci_bar_get_addr d' i s' = Done (addr, s2)) ∧ ∃ s2, pci_bar_size d' i s' = Done (bar_bytes b, s2).
Proof.
  intros Hd Hi Hle Hok Hn Hok' Hr Hlen Hres Hr0.
  destruct (set_addr_ok d i b addr s r0) as (s' & E & _ & Hr' & Hf); try done.
  destruct (bar_64_set_base b addr) as [_ El].
  eexists s', _. split; [exact E|]. split; [done|]. split; [done|]. split; [done|].
  assert (bar_base (set_base b addr) = addr ∧ bar_bytes (set_base b addr) = bar_bytes b ∧ set_base b addr ≠ NoBar)
    as (Eb & Es & Hn') by (by destruct b).
  set (d' := set_resource _ d). split.
  - destruct (get_addr_ok d' i (set_base b addr) Hd ltac:(lia) Hok' s' Hn' Hr') as (s2 & E2 & _). rewrite Eb in E2. by exists s2.
  - destruct (pci_bar_size_ok d' i (set_base b addr) Hd ltac:(lia) Hok' s' Hr') as (s2 & E2 & _). rewrite Es in E2. by exists s2.
Qed.

(** C21: [pci_cap_walk] always comes to an end, whatever the device answers and the
    handler does: 256 rounds are enough.  On a list of at most 255 capabilities with
    known identifiers it calls the handler on each of them, in order; with
    [pci_cap_setup] the device gets the offset of its last MSI capability. *)
Theorem pci_cap_walk_correct dev d l s :
  0 ≤ dev < 2 ^ 16 → bdf d = dev → (length l ≤ 255)%nat →
  caps_at (cfg (hw s) dev) (field (cfg (hw s) dev) PCI_CAPABILITY_LIST 8) l →
  (∀ h, (∀ d o id s, h d o id s ≠ NoFuel) → ∀ d' s', pci_cap_walk (H := H) 256 d' h s' ≠ NoFuel) ∧
  (∀ h f, handler_reads h f dev → ∃ s', pci_cap_walk 256 d h s = Done (foldl (λ d '(o, id), f d o id) d l, s') ∧ same_cfg s s') ∧
  ∃ s', pci_cap_walk 256 d pci_cap_setup s =
    Done (foldl (λ d '(o, id), if id =? PCI_CAP_ID_MSI then set_msi_offset o d else d) d l, s').
Proof.
  intros Hd Hbd Hlen Hl.
  assert (∀ h f, handler_reads h f dev → reads (pci_cap_walk 256 d h) s (foldl (λ d '(o, id), f d o id) d l)) as Hrun.
  { intros h f Hh. unfold pci_cap_walk. rewrite Hbd. eapply reads_bind; [apply readb_ok; [done|by vm_compute]|].
    intros s1 Hs1. apply (cap_walk_ok h f dev); try done; try lia.
    apply (caps_at_same (cfg (hw s) dev)); [|done]. intros i. by rewrite (proj1 Hs1). }
  split; [|split].
  - intros h Hh d' s'. unfold pci_cap_walk, pci_config_readb, out_port, in_port. rewrite !stM_bind_assoc, bind_modify.
    unfold mbind, stM_bind. apply cap_walk_stops; [done|lia].
  - exact Hrun.
  - destruct (Hrun pci_cap_setup (λ d o id, if id =? PCI_CAP_ID_MSI then set_msi_offset (u16 o) d else d)) as (s' & E & _).
    { intros d0 o id s0 Hb0. unfold pci_cap_setup. split; [apply reads_ret|]. by destruct (_ =? _). }
    exists s'. rewrite E. do 2 f_equal. clear E Hrun Hbd.
    revert Hl. generalize (field (cfg (hw s) dev) PCI_CAPABILITY_LIST 8). clear Hlen.
    revert d. induction l as [|[o id] l IH]; intros d off Hl; [done|]. cbn [caps_at foldl] in *.
    destruct Hl as (-> & Ho & _ & _ & Hl). rewrite u16_small by lia. by apply (IH _ _ Hl).
Qed.
End claims.

(** *** MSI *)
Section msi.
Context {H : Type} `{Conf1 H}.
Implicit Types s : bus H.

(** The message the capability at [off] makes the device send: address and data. *)
Definition msi_message (c : Z → Z) (off : Z) : Z * Z :=
  let lo := Z.land (c (off / 4 + 1)) 0xfffffffc in
  if Z.testbit (c (off / 4)) 23 then (lo + c (off / 4 + 2) * 2 ^ 32, field c (off + 12) 16)
  else (lo, field c (off + 8) 16).
Definition msi_enabled (c : Z → Z) (off : Z) : bool := Z.testbit (c (off / 4)) 16.

(** The registers of the capability can be written, as far as it defines them. *)
Record msi_cap (dev off : Z) : Prop := {
  mc_dev : 0 ≤ dev < 2 ^ 16;
  mc_off : 0x40 ≤ off ≤ 0xf0;
  mc_align : off mod 4 = 0;
  mc_flags : Z.testbit (rw_bits dev (off / 4)) 16 = true;
  mc_addr : Z.land (rw_bits dev (off / 4 + 1)) 0xfffffffc = 0xfffffffc;
  mc_data j : j = 2 ∨ j = 3 → Z.land (rw_bits dev (off / 4 + j)) 0xffff = 0xffff;
  mc_addr_hi : rw_bits dev (off / 4 + 2) = 0xffffffff
}.

Lemma mix_land old v w mask : in_u32 mask → Z.land w mask = mask → Z.land (mix old v w) mask = Z.land v mask.
Proof.
  intros Hm Hw. apply Z.bits_inj'. intros i Hi. apply (f_equal (λ x, Z.testbit x i)) in Hw.
  rewrite Z.land_spec in Hw. unfold mix. repeat zbits_step.
  destruct (Z.testbit mask i) eqn:E; [|by rewrite !andb_false_r]. rewrite !andb_true_r in *. rewrite Hw.
  destruct (Z.ltb_spec i 32); [|by rewrite (testbit_above 32 mask) in E]. cbn. by rewrite andb_false_r, orb_false_l, andb_true_r.
Qed.
Lemma mix_all old v : in_u32 v → mix old v 0xffffffff = v.
Proof.
  intros Hv. unfold mix. apply Z.bits_inj'. intros i Hi. change 0xffffffff with (Z.ones 32). repeat zbits_step.
  destruct (Z.ltb_spec i 32); zbits_cmp; cbn; [by rewrite andb_false_r, andb_true_r|].
  by rewrite (testbit_above 32 v), !andb_false_r.
Qed.

Lemma field16 c off k : off mod 4 = 0 → field c (off + 4 * k) 16 = Z.land (c (off / 4 + k)) 0xffff.
Proof.
  intros Ha. unfold field. rewrite (Z.mul_comm 4), Z.mod_add, Z.div_add, Ha by lia.
  change (2 ^ (8 * 0)) with 1. rewrite Z.div_1_r. change 0xffff with (Z.ones 16). by rewrite Z.land_ones.
Qed.

Lemma pci_setup_msi_ok d addr data s :
  msi_cap (bdf d) (msi_offset d) → in_u64 addr → addr mod 4 = 0 → in_u32 data →
  (Z.testbit (cfg (hw s) (bdf d) (msi_offset d / 4)) 23 = false → addr < 2 ^ 32) →
  ∃ s', pci_setup_msi d addr data s = Done (true, s') ∧ bus_log s' = bus_log s ∧
    msi_message (cfg (hw s') (bdf d)) (msi_offset d) = (addr, data mod 2 ^ 16) ∧
    msi_enabled (cfg (hw s') (bdf d)) (msi_offset d) = true ∧
    ∀ d', d' ≠ bdf d → ∀ i, cfg (hw s') d' i = cfg (hw s) d' i.
Proof.
  intros [Hd Ho Ha Hfl Had Hda Hhi] Hu Ha4 Hdu H32. set (off := msi_offset d) in *. set (b := bdf d) in *.
  assert (∀ k, (off + 4 * k) / 4 = off / 4 + k) as Ed by (intros k; rewrite (Z.mul_comm 4), Z.div_add; lia).
  pose proof (Ed 1 : (off + 4) / 4 = off / 4 + 1) as D1. pose proof (Ed 2 : (off + 8) / 4 = off / 4 + 2) as D2.
  pose proof (Ed 3 : (off + 12) / 4 = off / 4 + 3) as D3.
  assert (∀ k, (off + 4 * k) mod 4 = 0) as Em by (intros k; rewrite (Z.mul_comm 4), Z.mod_add; lia).
  assert ((off + 2) mod 4 = 2 ∧ (off + 2) mod 2 = 0 ∧ (off + 2) / 4 = off / 4) as (F1 & F2 & F3)
    by (Z.to_euclidean_division_equations; lia).
  set (is64 := Z.testbit (cfg (hw s) b (off / 4)) 23) in *.
  assert (∀ s, field (cfg (hw s) b) (off + 2) 16 = cfg (hw s) b (off / 4) / 2 ^ 16) as Efl.
  { intros s'. unfold field. rewrite F1, F3. apply Z.mod_small. pose proof (cfg_u32 (hw s') b (off / 4)) as [? ?].
    split; [apply Z.div_pos; lia|apply Z.div_lt_upper_bound; lia]. }
  assert (∀ x, Z.land x 0xffff = x mod 2 ^ 16) as Eff by (intros; change 0xffff with (Z.ones 16); by apply Z.land_ones).
  unfold pci_setup_msi. fold off. rewrite (proj2 (Z.eqb_neq off 0)) by lia. fold b.
  destruct (readw_ok b (off + 2) s Hd ltac:(lia) F2) as (s1 & E1 & C1 & L1). rewrite Efl in E1.
  rewrite (stM_bind_Done _ _ _ _ _ E1).
  assert (negb (Z.land (cfg (hw s) b (off / 4) / 2 ^ 16) PCI_MSI_FLAGS_64BIT =? 0) = is64) as ->.
  { unfold PCI_MSI_FLAGS_64BIT. change 0x80 with (2 ^ 7). rewrite land_pow2_zero, negb_involutive by lia.
    unfold is64. by rewrite <- Z.shiftr_div_pow2, Z.shiftr_spec by lia. }
  change (Z.land addr 0xffffffff) with (Z.land addr (Z.ones 32)). rewrite Z.land_ones by lia. fold (u32 addr).
  destruct (writel_ok b (off + 4) (u32 addr) s1 Hd ltac:(lia) (Em 1) (u32_range _)) as (s2 & E2 & L2 & C2).
  rewrite D1 in C2.   unfold PCI_MSI_ADDRESS_LO. rewrite (stM_bind_Done _ _ _ _ _ E2).
  match goal with |- context [(?m ≫= ?f) s2] => set (X := m); set (K := f) end.
  assert (∃ s3, X s2 = Done (tt, s3) ∧ bus_log s3 = bus_log s2 ∧
    (∀ d' i, d' ≠ b ∨ i = off / 4 ∨ i = off / 4 + 1 → cfg (hw s3) d' i = cfg (hw s2) d' i) ∧
    (if is64 then cfg (hw s3) b (off / 4 + 2) = u32 (Z.shiftr addr 32) ∧ Z.land (cfg (hw s3) b (off / 4 + 3)) 0xffff = Z.land data 0xffff
     else Z.land (cfg (hw s3) b (off / 4 + 2)) 0xffff = Z.land data 0xffff)) as (s3 & E3 & L3 & C3 & Da).
  { unfold X, PCI_MSI_ADDRESS_HI, PCI_MSI_DATA_64, PCI_MSI_DATA_32. destruct is64.
    - destruct (writel_ok b (off + 8) (u32 (Z.shiftr addr 32)) s2 Hd ltac:(lia) (Em 2) (u32_range _)) as (s3 & E3 & L3 & C3).
      destruct (writel_ok b (off + 12) data s3 Hd ltac:(lia) (Em 3) Hdu) as (s4 & E4 & L4 & C4).
      rewrite D2 in C3. rewrite D3 in C4. exists s4. rewrite (stM_bind_Done _ _ _ _ _ E3).
      split; [done|]. split; [by rewrite L4|]. split; [|split].
      + intros d' i Hi. rewrite C4, decide_False, C3, decide_False by lia. done.
      + rewrite C4, decide_False, C3, decide_True by lia. rewrite Hhi. by apply mix_all, u32_range.
      + rewrite C4, decide_True by done. apply mix_land; [done|]. apply Hda. by right.
    - destruct (writel_ok b (off + 8) data s2 Hd ltac:(lia) (Em 2) Hdu) as (s3 & E3 & L3 & C3).
      rewrite D2 in C3. exists s3. split; [done|]. split; [done|]. split.
      + intros d' i Hi. rewrite C3, decide_False by lia. done.
      + rewrite C3, decide_True by done. apply mix_land; [done|]. apply Hda. by left. }
  rewrite (stM_bind_Done _ _ _ _ _ E3). unfold K, pci_msi_set_enable. fold off b.
  destruct (readw_ok b (off + 2) s3 Hd ltac:(lia) F2) as (s4 & E4 & C4 & L4). rewrite Efl in E4.
  set (fl := u16 (Z.lor (cfg (hw s3) b (off / 4) / 2 ^ 16) PCI_MSI_FLAGS_ENABLE)).
  destruct (writew_ok b (off + 2) fl s4 Hd ltac:(lia) F2 (u16_range _)) as (s5 & E5 & L5 & C5).
  rewrite F1, F3 in C5. exists s5. split.
  { rewrite stM_bind_assoc. unfold PCI_MSI_FLAGS. rewrite (stM_bind_Done _ _ _ _ _ E4).
    cbv zeta. fold fl. by rewrite (stM_bind_Done _ _ _ _ _ E5). }
  split; [by rewrite L5, L4, L3, L2, L1|].
  assert (∀ i, i ≠ off / 4 → cfg (hw s5) b i = cfg (hw s3) b i) as Ck.
  { intros i Hi. rewrite C5, decide_False by lia. apply C4. }
  assert (cfg (hw s3) b (off / 4) = cfg (hw s) b (off / 4)) as E0.
  { rewrite C3, C2, decide_False by lia. apply C1. }
  assert (∀ k, k = 16 ∨ k = 23 → Z.testbit (cfg (hw s5) b (off / 4)) k =
    if decide (k = 16) then true else Z.testbit (cfg (hw s) b (off / 4)) k) as Hb.
  { intros k Hk. rewrite C5, decide_True, C4, E0 by done. change 0xffff with (Z.ones 16). unfold fl, mix, u16.
    rewrite E0. set (c := cfg (hw s) b (off / 4)). rewrite <- (Z.shiftr_div_pow2 c 16), <- !(Z.shiftl_mul_pow2 _ (8 * 2)) by lia.
    unfold PCI_MSI_FLAGS_ENABLE. assert (0 ≤ k) as Hk0 by lia. repeat zbits_step.
    destruct Hk as [-> | ->]; cbn [Z.sub Z.add Z.mul Z.opp Z.pos_sub Pos.pred_double Pos.mul].
    - rewrite Hfl, (decide_True (P := 16 = 16)) by done. change (16 - 8 * 2) with 0. cbn -[Z.testbit]. by rewrite ?orb_true_r, ?andb_true_r, ?orb_true_r.
    - rewrite (decide_False (P := 23 = 16)) by done.
      change (23 - 8 * 2) with 7. change (7 + 16) with 23. destruct (Z.testbit c 23), (Z.testbit (rw_bits b (off / 4)) 23); reflexivity. }
  split; [|split].
  - unfold msi_message. rewrite Hb, decide_False by (done || by right). fold is64.
    rewrite !Ck by lia.
    assert (Z.land (cfg (hw s3) b (off / 4 + 1)) 0xfffffffc = u32 addr) as ->.
    { rewrite C3, C2, decide_True by lia. rewrite mix_land by done. change 0xfffffffc with (not32 (Z.ones 2)). apply Z.bits_inj'. intros i Hi.
      unfold u32. repeat zbits_step. destruct (Z.ltb_spec i 2); [|destruct (Z.ltb_spec i 32); zbits_cmp; cbn; by rewrite ?andb_true_r].
      rewrite (testbit_aligned 2 addr) by (done || lia). by rewrite !andb_false_r. }
    change (off + 12) with (off + 4 * 3). change (off + 8) with (off + 4 * 2). rewrite !field16, !Ck by (done || lia).
    destruct is64.
    + destruct Da as [-> ->]. rewrite Eff. f_equal. unfold u32. rewrite Z.shiftr_div_pow2 by lia.
      pose proof (Z.div_mod addr (2 ^ 32) ltac:(lia)). unfold in_u64 in Hu.
      rewrite (Z.mod_small (addr / 2 ^ 32)); [lia|]. split; [apply Z.div_pos; lia|apply Z.div_lt_upper_bound; lia].
    + rewrite Da, Eff. f_equal. apply u32_small. split; [apply Hu|by apply H32].
  - unfold msi_enabled. by rewrite Hb, decide_True by (done || by left).
  - intros d' Hd' i. rewrite C5, decide_False, (C4 d' i), C3, C2, decide_False by (tauto || lia). apply C1.
Qed.
End msi.

(** ** The theorems on a concrete host bridge *)
(** The register last selected and the configuration space. *)
Record demo_bridge := DemoBridge { latch : Z; space : gmap (Z * Z) Z }.
(** The device 1.0 has a 4K range of memory at BAR 0, a 1M range with a 64-bit address
    at BAR 1 and 32 ports at BAR 3; its capabilities can be written. *)
Definition demo_bars : list bar := [MemBar 0 12 0xfe000000; MemBar64 12 20 0x380000000000; IoBar 5 0xc000; NoBar; NoBar].
Definition demo_rw (dev i : Z) : Z :=
  if i =? 1 then 0xffff
  else if (4 <=? i) && (i <? 10) then (if dev =? 8 then default 0 (((flat_map bar_regs demo_bars) !! Z.to_nat (i - 4)) ≫= λ x, Some x.2) else 0)
  else 0xffffffff.
Definition demo_cfg (h : demo_bridge) (dev i : Z) : Z := u32 (default 0 (space h !! (dev, i))).
Definition latch_dev (h : demo_bridge) : Z := Z.land (Z.shiftr (latch h) 8) 0xffff.
Definition latch_reg (h : demo_bridge) : Z := Z.land (latch h) 0xff.
Definition demo_write (w v : Z) (h : demo_bridge) : demo_bridge :=
  let d := latch_dev h in let r := latch_reg h in let i := r / 4 in let sh := 2 ^ (8 * (r mod 4)) in
  DemoBridge (latch h) (<[(d, i) := mix (demo_cfg h d i) (v * sh) (Z.land (demo_rw d i) (w * sh))]> (space h)).
Definition demo_read (w : Z) (h : demo_bridge) : Z * demo_bridge := (field (demo_cfg h (latch_dev h)) (latch_reg h) w, h).
#[export] Instance demo_ports : Ports demo_bridge := {
  outb v p h := if p =? 0xCFC then demo_write 0xff v h else h;
  outw v p h := if p =? 0xCFC then demo_write 0xffff v h else h;
  outl v p h := if p =? 0xCF8 then DemoBridge v (space h) else if p =? 0xCFC then demo_write 0xffffffff v h else h;
  inb p h := demo_read 8 h;
  inw p h := demo_read 16 h;
  inl p h := demo_read 32 h
}.

Lemma demo_latch d r : 0 ≤ d < 2 ^ 16 → 0 ≤ r < 256 →
  Z.land (Z.shiftr (PCI_CONF1_ADDRESS d r) 8) 0xffff = d ∧ Z.land (PCI_CONF1_ADDRESS d r) 0xff = r.
Proof.
  intros Hd Hr. unfold PCI_CONF1_ADDRESS, u32. change 0xffff with (Z.ones 16). change 0xff with (Z.ones 8).
  split; apply Z.bits_inj'; intros i Hi; repeat zbits_step; zbits_cmp; cbn [andb orb];
    rewrite ?(testbit_above 8 r (i + 8)), ?(testbit_above 16 d i), ?(testbit_above 8 r i), ?(Z.testbit_neg_r d (i - 8)) by lia;
    rewrite ?orb_false_r, ?andb_true_r, ?andb_false_r; try done; try (f_equal; lia).
Qed.

Lemma demo_rw_u32 d i : in_u32 (demo_rw d i).
Proof.
  unfold demo_rw. destruct (i =? 1); [done|]. destruct ((4 <=? i) && (i <? 10)); [|done]. destruct (d =? 8); [|done].
  assert (Forall (λ x, in_u32 x.2) (flat_map bar_regs demo_bars)) as Hall by (by repeat constructor).
  destruct (_ !! _) as [x|] eqn:E; [|done]. cbn. rewrite Forall_forall in Hall. apply Hall. by eapply list_elem_of_lookup_2.
Qed.

Lemma mix_u32 old v w : in_u32 old → in_u32 v → in_u32 (mix old v w).
Proof.
  intros Ho Hv. assert (mix old v w = mix old v w mod 2 ^ 32) as ->; [|by apply Z.mod_pos_bound].
  unfold mix. apply Z.bits_inj'. intros i Hi. rewrite testbit_mod_pow2 by lia.
  destruct (Z.ltb_spec i 32); [done|]. repeat zbits_step. by rewrite (testbit_above 32 old), (testbit_above 32 v).
Qed.

Lemma demo_write_ok w h d r v :
  0 ≤ d < 2 ^ 16 → 0 ≤ r < 256 → in_u32 (v * 2 ^ (8 * (r mod 4))) →
  ∀ d' i, demo_cfg (demo_write w v (DemoBridge (PCI_CONF1_ADDRESS d r) (space h))) d' i =
    if decide (d' = d ∧ i = r / 4)
    then mix (demo_cfg h d i) (v * 2 ^ (8 * (r mod 4))) (Z.land (demo_rw d i) (w * 2 ^ (8 * (r mod 4)))) else demo_cfg h d' i.
Proof.
  intros Hd Hr Hv d' i. destruct (demo_latch d r Hd Hr) as [E1 E2]. unfold demo_write, latch_dev, latch_reg.
  cbn [latch]. rewrite E1, E2. unfold demo_cfg at 1. cbn [space]. destruct (decide _) as [[-> ->]|Hn].
  - rewrite lookup_insert_eq. cbn [default id]. unfold demo_cfg. cbn [space]. apply u32_small.
    apply mix_u32; [apply u32_range|done].
  - rewrite lookup_insert_ne by (intros [= ]; lia). done.
Qed.

#[export, refine] Instance demo_conf1 : Conf1 demo_bridge := { cfg := demo_cfg; rw_bits := demo_rw }.
Proof.
  - intros. apply u32_range.
  - apply demo_rw_u32.
  - intros h d r Hd Hr. destruct (demo_latch d r Hd Hr) as [E1 E2]. cbn. unfold demo_read, latch_dev, latch_reg. cbn [latch].
    by rewrite E1, E2.
  - intros h d r Hd Hr _. destruct (demo_latch d r Hd Hr) as [E1 E2]. cbn. unfold demo_read, latch_dev, latch_reg. cbn [latch].
    by rewrite E1, E2.
  - intros h d r Hd Hr Ha. destruct (demo_latch d r Hd Hr) as [E1 E2]. cbn [inl outl demo_ports Z.eqb Pos.eqb].
    unfold demo_read, latch_dev, latch_reg. cbn [latch]. rewrite E1, E2. split; [|done]. cbn [fst]. unfold field.
    rewrite Ha. change (2 ^ (8 * 0)) with 1. rewrite Z.div_1_r. apply u32_small, u32_range.
  - intros h d r v Hd Hr Ha Hv d' i. assert (0 ≤ r < 256) as Hr' by (destruct Hr as [-> |]; [done|lia]).
    assert (in_u32 (v * 2 ^ (8 * (r mod 4)))).
    { pose proof (Z.mod_pos_bound r 4 ltac:(lia)). assert (r mod 4 = 0 ∨ r mod 4 = 2) as [-> | ->].
      { pose proof (Z.div_mod r 4 ltac:(lia)). pose proof (Z.div_mod r 2 ltac:(lia)). lia. }
      all: unfold in_u32; lia. }
    exact (demo_write_ok 0xffff h d r v Hd Hr' H d' i).
  - intros h d r v Hd Hr Ha Hv d' i. assert (0 ≤ r < 256) as Hr' by lia.
    pose proof (demo_write_ok 0xffffffff h d r v Hd Hr') as E. rewrite Ha in E. change (2 ^ (8 * 0)) with 1 in E.
    rewrite Z.mul_1_r in E. change (0xffffffff * 1) with (Z.ones 32) in E.
    etransitivity; [exact (E Hv d' i)|]. destruct (decide _); [|done]. f_equal.
    rewrite Z.land_ones by lia. apply u32_small, demo_rw_u32.
Defined.

Definition demo_space : gmap (Z * Z) Z := list_to_map
  [((8, 0), 0x00051b36); ((8, 4), 0xfe000000); ((8, 5), 0x0000000c); ((8, 6), 0x3800); ((8, 7), 0xc001);
   ((8, 13), 0x40); ((8, 16), 0x00805005); ((8, 20), 0x00000011)].
Definition demo_bus : bus demo_bridge := Bus (DemoBridge 0 demo_space) [].

Lemma demo_regs : regs_at demo_bus 8 0 (flat_map bar_regs demo_bars).
Proof. intros n x Hx. do 6 (destruct n as [|n]; [injection Hx as <-; by vm_compute|]). done. Qed.
Lemma demo_bars_ok : Forall bar_ok demo_bars.
Proof.
  repeat (apply Forall_cons; split; [cbn [bar_ok]; split_and?; try lia; try done; rewrite ?elem_of_cons; tauto|]).
  by apply Forall_nil.
Qed.

Lemma pci_dev_init_correct_witness :
  ∃ s', pci_dev_init 8 demo_bus =
    Done (PciDev 8 0 [0xfe000000; 0x380000000000; 0x380000000000; 0xc000; INVALID_PHYS_ADDR; INVALID_PHYS_ADDR], s').
Proof.
  destruct (pci_dev_init_correct 8 demo_bars demo_bus) as [(s' & E & _) _].
  - lia.
  - apply demo_bars_ok.
  - done.
  - apply demo_regs.
  - exists s'. exact E.
Defined.

Lemma pci_bar_set_addr_correct_witness :
  ∃ s' d', pci_bar_set_addr (PciDev 8 0 [0; 1; 1; 0; 0; 0]) 1 0x123400000000 demo_bus = Done (d', s') ∧
    resource d' = [0; 0x123400000000; 0x123400000000; 0; 0; 0].
Proof.
  destruct (pci_bar_set_addr_correct (PciDev 8 0 [0; 1; 1; 0; 0; 0]) 1 (MemBar64 12 20 0x380000000000) 0x123400000000 demo_bus 1)
    as (s' & d' & E & _ & Er & _).
  - cbn. lia.
  - lia.
  - cbn. lia.
  - pose proof demo_bars_ok as Hok. by apply Forall_cons in Hok as [_ [? _]%Forall_cons].
  - done.
  - cbn [bar_ok set_base]. split_and?; try lia; try done. rewrite ?elem_of_cons; tauto.
  - intros n x Hx. do 2 (destruct n as [|n]; [injection Hx as <-; by vm_compute|]). done.
  - done.
  - done.
  - done.
  - exists s', d'. split; [exact E|exact Er].
Defined.

(** An MSI capability and MSI-X behind it. *)
Lemma pci_cap_walk_correct_witness :
  ∃ s', pci_cap_walk 256 (PciDev 8 0 []) pci_cap_setup demo_bus = Done (PciDev 8 0x40 [], s').
Proof.
  destruct (pci_cap_walk_correct 8 (PciDev 8 0 []) [(0x40, 5); (0x50, 0x11)] demo_bus) as (_ & _ & s' & E).
  - lia.
  - done.
  - cbn. lia.
  - vm_compute. split_and!; done.
  - exists s'. exact E.
Defined.
