(* ===== verification/Iommu.v ===== *)
(** The IOMMU: lib/x86/intel-iommu.c and intel-iommu.h, on the tables of Vtd.v.

    [iommu] is the state the driver works on: memory with the page allocator and
    the page tables of the processor (Vmalloc.v), the hardware with the statics of
    apic.c and pci.c, and the driver's own statics.  The registers are reached
    through the address that [ioremap] gave, that is through the page tables of
    the processor.  [Dmar] is what the proofs rely on: the register file of the
    remapping hardware.  [remap] is what the hardware makes of an interrupt
    request and the remapping table in memory. *)
From Stdlib Require Import ZArith Lia Bool.
From S2P Require Import Prelude Libcflat Mem Spinlock AllocPage PageTable TableRange PtDemo X86Vm AllocPhys Vmalloc VmxDefs Bitfield Vtd.
From S2P Require Apic Pci.
#[local] Open Scope Z_scope.

(** *** intel-iommu.h *)
Definition Q35_HOST_BRIDGE_IOMMU_ADDR : Z := 0xfed90000.
Definition DMAR_VER_REG : Z := 0x0.
Definition DMAR_CAP_REG : Z := 0x8.
Definition DMAR_ECAP_REG : Z := 0x10.
Definition DMAR_GCMD_REG : Z := 0x18.
Definition DMAR_GSTS_REG : Z := 0x1c.
Definition DMAR_RTADDR_REG : Z := 0x20.
Definition DMAR_IRTA_REG : Z := 0xb8.
Definition VTD_GCMD_IR_TABLE : Z := 0x1000000.
Definition VTD_GCMD_IR : Z := 0x2000000.
Definition VTD_GCMD_QI : Z := 0x4000000.
Definition VTD_GCMD_WBF : Z := 0x8000000.
Definition VTD_GCMD_SFL : Z := 0x20000000.
Definition VTD_GCMD_ROOT : Z := 0x40000000.
Definition VTD_GCMD_DMAR : Z := 0x80000000.
Definition VTD_GCMD_ONE_SHOT_BITS : Z :=
  Z.lor (Z.lor (Z.lor VTD_GCMD_IR_TABLE VTD_GCMD_WBF) VTD_GCMD_SFL) VTD_GCMD_ROOT.
Definition VTD_RTA_MASK : Z := PAGE_MASK.
Definition VTD_IRTA_MASK : Z := PAGE_MASK.

(** [struct vtd_irte]: the first quad, and the second *)
Module Irte.
Definition present := Bits 0 1.
Definition fault_disable := Bits 1 1.
Definition dest_mode := Bits 2 1.
Definition redir_hint := Bits 3 1.
Definition trigger_mode := Bits 4 1.
Definition delivery_mode := Bits 5 3.
Definition irte_mode := Bits 15 1.
Definition vector := Bits 16 8.
Definition dest_id := Bits 32 32.
Definition source_id := Bits 0 16.
Definition sid_q := Bits 16 2.
Definition sid_vtype := Bits 18 2.
End Irte.
(** [struct vtd_msi_addr], [struct vtd_msi_data], [struct vtd_ioapic_entry] *)
Module MsiAddr.
Definition handle_15 := Bits 2 1.
Definition shv := Bits 3 1.
Definition interrupt_format := Bits 4 1.
Definition handle_0_14 := Bits 5 15.
Definition head := Bits 20 12.
End MsiAddr.
Module MsiData.
Definition subhandle := Bits 16 16.
End MsiData.
Module IoapicEntry.
Definition vector := Bits 0 8.
Definition index_15 := Bits 11 1.
Definition trigger_mode := Bits 15 1.
Definition interrupt_format := Bits 48 1.
Definition index_0_14 := Bits 49 15.
End IoapicEntry.

(** 64-bit accesses to memory-mapped registers; [Apic.Platform] has the 32-bit ones. *)
Class Mmio64 (H : Type) := { mmio_readq : Z → H → Z * H; mmio_writeq : Z → Z → H → H }.

Record iommu (H : Type) := Iommu {
  i_vm : vm; i_hw : H; i_apic_ops : Apic.ops; vtd_reg_base : Z; index_ctr : Z
}.
Arguments Iommu {H}. Arguments i_vm {H}. Arguments i_hw {H}. Arguments i_apic_ops {H}.
Arguments vtd_reg_base {H}. Arguments index_ctr {H}.

Section code.
Context {H : Type} `{Apic.Platform H} `{Mmio64 H} `{Pci.Ports H}.
Abbreviation M := (stM (iommu H)).
Definition set_vm (v : vm) (s : iommu H) : iommu H := Iommu v (i_hw s) (i_apic_ops s) (vtd_reg_base s) (index_ctr s).
Definition set_hw (h : H) (s : iommu H) : iommu H := Iommu (i_vm s) h (i_apic_ops s) (vtd_reg_base s) (index_ctr s).
Definition set_reg_base (b : Z) (s : iommu H) : iommu H := Iommu (i_vm s) (i_hw s) (i_apic_ops s) b (index_ctr s).
Definition set_index_ctr (c : Z) (s : iommu H) : iommu H := Iommu (i_vm s) (i_hw s) (i_apic_ops s) (vtd_reg_base s) c.
Definition on_vm {A} (m : stM vm A) : M A := zoom i_vm set_vm m.
Definition on_pages {A} (f : pstate → outcome (A * pstate)) : M A := on_vm (Vm.on_pages f).
Definition on_pages_do (f : pstate → outcome pstate) : M unit := on_vm (Vm.on_pages_do f).
Definition printf (fmt : string) (args : list parg) : M unit := on_vm (Vm.printf fmt args).

(** Code of pci.c and apic.c on the same hardware and text. *)
Definition on_bus {A} (m : stM (Pci.bus H) A) : M A :=
  zoom (λ s, Pci.Bus (i_hw s) (vm_log (i_vm s)))
    (λ b s, set_vm (set_vm_log (Pci.bus_log b) (i_vm s)) (set_hw (Pci.hw b) s)) m.
Definition on_apic {A} (m : stM (Apic.apic H) A) : M A :=
  zoom (λ s, Apic.Apic (i_hw s) (i_apic_ops s) (vm_log (i_vm s)))
    (λ a s, Iommu (set_vm_log (Apic.apic_log a) (i_vm s)) (Apic.hw a) (Apic.apic_ops a) (vtd_reg_base s) (index_ctr s)) m.

Definition access (va : Z) : M Z := on_vm (Vm.access va).
Definition vtd_reg (reg : Z) : M Z :=
  b ← gets vtd_reg_base;
  lift (c_assert (negb (b =? 0)));;
  access (u64 (b + reg)).
Definition on_hw (f : H → H) : M unit := modify (λ s, set_hw (f (i_hw s)) s).
Definition from_hw (f : H → Z * H) : M Z := λ s, Done ((f (i_hw s)).1, set_hw (f (i_hw s)).2 s).
Definition vtd_writel (reg value : Z) : M unit := a ← vtd_reg reg; on_hw (Apic.mmio_write a (u32 value)).
Definition vtd_writeq (reg value : Z) : M unit := a ← vtd_reg reg; on_hw (mmio_writeq a (u64 value)).
Definition vtd_readl (reg : Z) : M Z := a ← vtd_reg reg; from_hw (Apic.mmio_read a).
Definition vtd_readq (reg : Z) : M Z := a ← vtd_reg reg; from_hw (mmio_readq a).

Definition vtd_root_table : M Z := v ← vtd_readq DMAR_RTADDR_REG; mret (Z.land v VTD_RTA_MASK).
Definition vtd_ir_table : M Z := v ← vtd_readq DMAR_IRTA_REG; mret (Z.land v VTD_IRTA_MASK).

(** [while (!(vtd_readl(DMAR_GSTS_REG) & cmd)) cpu_relax();] *)
Fixpoint gcmd_wait (fuel : nat) (cmd : Z) : M unit :=
  match fuel with
  | O => λ _, NoFuel
  | S fuel =>
    v ← vtd_readl DMAR_GSTS_REG;
    if Z.land v cmd =? 0 then gcmd_wait fuel cmd else mret tt
  end.
Definition vtd_gcmd_or (fuel : nat) (cmd : Z) : M unit :=
  lift (c_assert (is_power_of_2 cmd));;
  status ← vtd_readl DMAR_GSTS_REG;
  vtd_writel DMAR_GCMD_REG (Z.lor status cmd);;
  if negb (Z.land cmd VTD_GCMD_ONE_SHOT_BITS =? 0) then mret tt else gcmd_wait fuel cmd.

Definition vtd_dump_init_info : M unit :=
  version ← vtd_readl DMAR_VER_REG;
  lift (c_assert (1 <=? Z.land (Z.shiftr version 3) 0xf));;
  printf "VT-d version:   %#x\n" [PInt version];;
  cap ← vtd_readq DMAR_CAP_REG;
  printf "     cap:       %#018lx\n" [PInt cap];;
  ecap ← vtd_readq DMAR_ECAP_REG;
  printf "     ecap:      %#018lx\n" [PInt ecap].

Definition vtd_setup_root_table (fuel : nat) : M unit :=
  root ← on_pages alloc_page;
  on_pages_do (λ p, mret (st_zero_page root p));;
  vtd_writeq DMAR_RTADDR_REG (virt_to_phys root);;
  vtd_gcmd_or fuel VTD_GCMD_ROOT;;
  t ← vtd_root_table;
  printf "DMAR table address: %#018lx\n" [PInt t].

Definition vtd_setup_ir_table (fuel : nat) : M unit :=
  root ← on_pages alloc_page;
  on_pages_do (λ p, mret (st_zero_page root p));;
  vtd_writeq DMAR_IRTA_REG (Z.lor (virt_to_phys root) 0xf);;
  vtd_gcmd_or fuel VTD_GCMD_IR_TABLE;;
  t ← vtd_ir_table;
  printf "IR table address: %#018lx\n" [PInt t].

(** [while (size)] of [vtd_map_range] *)
Fixpoint map_range_loop (fuel : nat) (sid slptptr iova pa size : Z) : M unit :=
  if size =? 0 then mret tt
  else
    match fuel with
    | O => λ _, NoFuel
    | S fuel =>
      printf "map 4K page IOVA %#lx to %#lx (sid=%#06x)\n" [PInt iova; PInt pa; PInt sid];;
      on_pages_do (vtd_install_pte slptptr iova pa 1);;
      map_range_loop fuel sid slptptr (u64 (iova + VTD_PAGE_SIZE)) (u64 (pa + VTD_PAGE_SIZE)) (u64 (size - VTD_PAGE_SIZE))
    end.
Definition vtd_map_range (fuel : nat) (sid iova pa size : Z) : M unit :=
  t ← vtd_root_table;
  let re := phys_to_virt t in
  lift (c_assert (IS_ALIGNED iova (2 ^ 12)));;
  lift (c_assert (IS_ALIGNED pa (2 ^ 12)));;
  lift (c_assert (IS_ALIGNED size (2 ^ 12)));;
  let bus_n := Pci.PCI_BDF_GET_BUS sid in
  let devfn := Pci.PCI_BDF_GET_DEVFN sid in
  let re := re + 16 * bus_n in
  '(ce, new) ← on_pages (root_entry re);
  when new (printf "allocated vt-d root entry for PCI bus %d\n" [PInt bus_n]);;
  let ce := ce + 16 * devfn in
  '(slptptr, new) ← on_pages (context_entry ce sid);
  when new (printf "allocated vt-d context entry for devfn %#x\n" [PInt devfn]);;
  map_range_loop fuel sid slptptr iova pa size.

Definition vtd_intr_index_alloc : M Z :=
  c ← gets index_ctr;
  lift (c_assert (c <? 65535));;
  modify (λ s, set_index_ctr (s32 (index_ctr s + 1)) s);;
  ctr ← gets index_ctr;
  printf "INTR: alloc IRTE index %d\n" [PInt ctr];;
  mret (u16 ctr).

Definition vtd_setup_irte (dev : Pci.pci_dev) (irte vector dest_id trigger : Z) : M unit :=
  on_pages_do (λ p, mret (
    let p := st_zero16 irte p in
    let p := st_setf irte Irte.fault_disable 1 p in
    let p := st_setf irte Irte.dest_mode 0 p in
    let p := st_setf irte Irte.trigger_mode trigger p in
    let p := st_setf irte Irte.delivery_mode 0 p in
    let p := st_setf irte Irte.irte_mode 0 p in
    let p := st_setf irte Irte.vector vector p in
    let p := st_setf irte Irte.dest_id dest_id p in
    let p := st_setf (irte + 8) Irte.source_id (Pci.bdf dev) p in
    let p := st_setf (irte + 8) Irte.sid_q 0 p in
    let p := st_setf (irte + 8) Irte.sid_vtype 1 p in
    st_setf irte Irte.present 1 p)).

Definition msi_addr_of (index : Z) : Z :=
  let a := 0 in
  let a := setf MsiAddr.handle_15 (Z.land (Z.shiftr index 15) 1) a in
  let a := setf MsiAddr.shv 0 a in
  let a := setf MsiAddr.interrupt_format 1 a in
  let a := setf MsiAddr.handle_0_14 (Z.land index 0x7fff) a in
  setf MsiAddr.head 0xfee a.
Definition vtd_setup_msi (dev : Pci.pci_dev) (vector dest_id : Z) : M bool :=
  t ← vtd_ir_table;
  let irte := phys_to_virt t in
  index ← vtd_intr_index_alloc;
  vtd_setup_irte dev (irte + 16 * index) vector dest_id Apic.TRIGGER_EDGE;;
  let msi_addr := msi_addr_of index in
  let msi_data := setf MsiData.subhandle 0 0 in
  printf "%s: msi_addr=%#lx, msi_data=%#x\n" [PStr "vtd_setup_msi"; PInt msi_addr; PInt msi_data];;
  on_bus (Pci.pci_setup_msi dev msi_addr msi_data).

Definition ioapic_entry_of (vector trigger index : Z) : Z :=
  let e := 0 in
  let e := setf IoapicEntry.vector vector e in
  let e := setf IoapicEntry.trigger_mode trigger e in
  let e := setf IoapicEntry.index_15 (Z.land (Z.shiftr index 15) 1) e in
  let e := setf IoapicEntry.interrupt_format 1 e in
  setf IoapicEntry.index_0_14 (Z.land index 0x7fff) e.
Definition vtd_setup_ioapic_irq (dev : Pci.pci_dev) (vector dest_id trigger : Z) : M unit :=
  t ← vtd_ir_table;
  let irte := phys_to_virt t in
  index ← vtd_intr_index_alloc;
  vtd_setup_irte dev (irte + 16 * index) vector dest_id trigger;;
  line ← on_bus (Pci.pci_intx_line dev);
  on_apic (Apic.ioapic_write_redir line (ioapic_entry_of vector trigger index)).

Definition vtd_init (fuel : nat) : M unit :=
  base ← on_vm (Vm.ioremap Q35_HOST_BRIDGE_IOMMU_ADDR PAGE_SIZE);
  modify (set_reg_base base);;
  vtd_dump_init_info;;
  vtd_gcmd_or fuel VTD_GCMD_QI;;
  vtd_setup_root_table fuel;;
  vtd_setup_ir_table fuel;;
  vtd_gcmd_or fuel VTD_GCMD_DMAR;;
  vtd_gcmd_or fuel VTD_GCMD_IR.
End code.

(** ** What the proofs rely on *)
(** The registers of the remapping hardware.  [d_root] and [d_irt] are the tables in use;
    a command shows in the status after [d_busy] more reads of it. *)
Record dmar := DmarRegs {
  d_ver : Z; d_cap : Z; d_ecap : Z; d_gsts : Z; d_gcmd : Z; d_rta : Z; d_irta : Z; d_root : Z; d_irt : Z; d_busy : nat
}.
Definition set_rta (v : Z) (d : dmar) : dmar :=
  DmarRegs (d_ver d) (d_cap d) (d_ecap d) (d_gsts d) (d_gcmd d) v (d_irta d) (d_root d) (d_irt d) (d_busy d).
Definition set_irta (v : Z) (d : dmar) : dmar :=
  DmarRegs (d_ver d) (d_cap d) (d_ecap d) (d_gsts d) (d_gcmd d) (d_rta d) v (d_root d) (d_irt d) (d_busy d).
(** A read of the status. *)
Definition d_tick (d : dmar) : dmar :=
  match d_busy d with
  | O => d
  | S n => DmarRegs (d_ver d) (d_cap d) (d_ecap d) (if (n =? 0)%nat then d_gcmd d else d_gsts d) (d_gcmd d)
             (d_rta d) (d_irta d) (d_root d) (d_irt d) n
  end.
(** A command that keeps the bits of the status: the set-table bits take the tables over,
    one-shot bits show at once, the others after [delay] reads. *)
Definition d_command (delay : nat) (v : Z) (d : dmar) : dmar :=
  let now := (Z.ldiff (Z.ldiff v (d_gsts d)) VTD_GCMD_ONE_SHOT_BITS =? 0) || (delay =? 0)%nat in
  DmarRegs (d_ver d) (d_cap d) (d_ecap d) (if now then v else d_gsts d) v (d_rta d) (d_irta d)
    (if Z.testbit v 30 then d_rta d else d_root d) (if Z.testbit v 24 then d_irta d else d_irt d)
    (if now then O else delay).

Class Dmar (H : Type) `{Apic.Platform H} `{Mmio64 H} := {
  dm : H → dmar;
  dm_delay : nat;
  dm_u32 h : in_u32 (d_gsts (dm h));
  dm_ver h : Apic.mmio_read (Q35_HOST_BRIDGE_IOMMU_ADDR + DMAR_VER_REG) h = (d_ver (dm h), h);
  dm_status h : let r := Apic.mmio_read (Q35_HOST_BRIDGE_IOMMU_ADDR + DMAR_GSTS_REG) h in
    r.1 = d_gsts (dm h) ∧ dm r.2 = d_tick (dm h);
  dm_gcmd h v : in_u32 v → d_busy (dm h) = O → Z.land v (d_gsts (dm h)) = d_gsts (dm h) →
    dm (Apic.mmio_write (Q35_HOST_BRIDGE_IOMMU_ADDR + DMAR_GCMD_REG) v h) = d_command dm_delay v (dm h);
  dm_cap h : mmio_readq (Q35_HOST_BRIDGE_IOMMU_ADDR + DMAR_CAP_REG) h = (d_cap (dm h), h);
  dm_ecap h : mmio_readq (Q35_HOST_BRIDGE_IOMMU_ADDR + DMAR_ECAP_REG) h = (d_ecap (dm h), h);
  dm_rta h : mmio_readq (Q35_HOST_BRIDGE_IOMMU_ADDR + DMAR_RTADDR_REG) h = (d_rta (dm h), h);
  dm_irta h : mmio_readq (Q35_HOST_BRIDGE_IOMMU_ADDR + DMAR_IRTA_REG) h = (d_irta (dm h), h);
  dm_set_rta h v : in_u64 v → dm (mmio_writeq (Q35_HOST_BRIDGE_IOMMU_ADDR + DMAR_RTADDR_REG) v h) = set_rta v (dm h);
  dm_set_irta h v : in_u64 v → dm (mmio_writeq (Q35_HOST_BRIDGE_IOMMU_ADDR + DMAR_IRTA_REG) v h) = set_irta v (dm h)
}.

(** *** Interrupt requests
    The entry of the table [irt] (its base with the size in the low bits) for a request
    of the device [sid]: vector, destination and trigger mode. *)
Definition remap (m : mem) (irt sid index : Z) : option (Z * Z * Z) :=
  let p := Z.land irt PAGE_MASK + 16 * index in
  let e := rd m p in let e2 := rd m (p + 8) in
  if (0 <=? index) && (index <? 2 ^ (Z.land irt 0xf + 1)) && (getf Irte.present e =? 1) &&
     (getf Irte.irte_mode e =? 0) && (getf Irte.sid_vtype e2 =? 1) && (getf Irte.sid_q e2 =? 0) &&
     (getf Irte.source_id e2 =? sid)
  then Some (getf Irte.vector e, getf Irte.dest_id e, getf Irte.trigger_mode e) else None.
(** The index in a message in remappable format, and in an entry of the I/O APIC. *)
Definition msi_index (addr data : Z) : option Z :=
  if (getf MsiAddr.head addr =? 0xfee) && (getf MsiAddr.interrupt_format addr =? 1) then
    Some (getf MsiAddr.handle_0_14 addr + getf MsiAddr.handle_15 addr * 2 ^ 15 +
          (if getf MsiAddr.shv addr =? 1 then Z.land data 0xffff else 0))
  else None.
Definition ioapic_index (e : Z) : option Z :=
  if getf IoapicEntry.interrupt_format e =? 1
  then Some (getf IoapicEntry.index_0_14 e + getf IoapicEntry.index_15 e * 2 ^ 15) else None.

(** ** Proofs *)
Section proofs.
Context {H : Type} `{Apic.Platform H} `{Mmio64 H} `{Pci.Ports H} `{!Dmar H}.
Abbreviation M := (stM (iommu H)).
Implicit Types s : iommu H.
Abbreviation B := Q35_HOST_BRIDGE_IOMMU_ADDR.

Definition pages s : pstate := vm_pages (i_vm s).
Definition dm_of s : dmar := dm (i_hw s).

(** The registers are mapped at [vtd_reg_base]. *)
Record regs_mapped s : Prop := {
  rm_pg : Z.land (vm_cr0 (i_vm s)) X86_CR0_PG ≠ 0;
  rm_base : vtd_reg_base s ≠ 0;
  rm_map o : 0 ≤ o < 4096 → translate X86 4 (pmem (pages s)) (vm_cr3 (i_vm s)) (low48 (u64 (vtd_reg_base s + o))) = Some (B + o, 7)
}.

Lemma vtd_reg_ok reg s : regs_mapped s → 0 ≤ reg < 4096 → vtd_reg reg s = Done (B + reg, s).
Proof.
  intros [Hpg Hb Hm] Hr. unfold vtd_reg. mrun. rewrite (proj2 (Z.eqb_neq _ _) Hb). cbn [negb]. unfold c_assert. mrun.
  unfold access, on_vm, zoom. rewrite (access_ok _ _ B) by done. by destruct s.
Qed.

Lemma vtd_readq_ok reg v s : regs_mapped s → 0 ≤ reg < 4096 → mmio_readq (B + reg) (i_hw s) = (v, i_hw s) →
  vtd_readq reg s = Done (v, s).
Proof.
  intros Hs Hr E. unfold vtd_readq. rewrite (stM_bind_Done _ _ _ _ _ (vtd_reg_ok reg s Hs Hr)).
  unfold from_hw. rewrite E. by destruct s.
Qed.
Lemma vtd_writeq_ok reg v s : regs_mapped s → 0 ≤ reg < 4096 →
  vtd_writeq reg v s = Done (tt, set_hw (mmio_writeq (B + reg) (u64 v) (i_hw s)) s).
Proof. intros Hs Hr. unfold vtd_writeq. by rewrite (stM_bind_Done _ _ _ _ _ (vtd_reg_ok reg s Hs Hr)). Qed.

(** What an access to the registers leaves alone: all but the hardware. *)
Lemma regs_mapped_hw h s : regs_mapped s → regs_mapped (set_hw h s).
Proof. by intros []. Qed.

(** Code that only accesses the registers and prints. *)
Record same_but_hw s s' : Prop := {
  sb_vm : set_vm_log [] (i_vm s') = set_vm_log [] (i_vm s);
  sb_base : vtd_reg_base s' = vtd_reg_base s;
  sb_ctr : index_ctr s' = index_ctr s
}.
#[global] Instance same_but_hw_preorder : PreOrder same_but_hw.
Proof. split; [done|]. intros s1 s2 s3 [A1 B1 C1] [A2 B2 C2]. split; congruence. Qed.
Lemma same_but_hw_vm s s' : same_but_hw s s' →
  pages s' = pages s ∧ vm_cr0 (i_vm s') = vm_cr0 (i_vm s) ∧ vm_cr3 (i_vm s') = vm_cr3 (i_vm s) ∧
  page_root (i_vm s') = page_root (i_vm s).
Proof.
  intros [E _ _]. unfold pages.
  split_and!; [by apply (f_equal vm_pages) in E|by apply (f_equal vm_cr0) in E|by apply (f_equal vm_cr3) in E|by apply (f_equal page_root) in E].
Qed.
Lemma regs_mapped_same s s' : same_but_hw s s' → regs_mapped s → regs_mapped s'.
Proof.
  intros Hs [Hpg Hb Hm]. destruct (same_but_hw_vm _ _ Hs) as (Ep & E0 & E3 & _). destruct Hs as [_ Eb _].
  split; [by rewrite E0|by rewrite Eb|]. intros o Ho. rewrite Ep, E3, Eb. by apply Hm.
Qed.
Lemma printf_ok fmt args s : ∃ s', printf fmt args s = Done (tt, s') ∧ same_but_hw s s' ∧ dm_of s' = dm_of s.
Proof. eexists. split; [reflexivity|]. by repeat split. Qed.

Lemma read_status_ok s : regs_mapped s →
  ∃ s', vtd_readl DMAR_GSTS_REG s = Done (d_gsts (dm_of s), s') ∧ same_but_hw s s' ∧ dm_of s' = d_tick (dm_of s).
Proof.
  intros Hs. unfold vtd_readl. erewrite (stM_bind_Done (vtd_reg _)); [|apply vtd_reg_ok; [done|unfold DMAR_GSTS_REG; lia]].
  destruct (dm_status (i_hw s)) as [E1 E2]. eexists. unfold from_hw. rewrite E1. split; [reflexivity|]. by repeat split.
Qed.

Lemma gcmd_wait_ok k cmd : ∀ n s,
  0 ≤ k < 32 → cmd = 2 ^ k → regs_mapped s → d_busy (dm_of s) = n →
  (n = O → Z.testbit (d_gsts (dm_of s)) k = true) → (n ≠ O → Z.testbit (d_gsts (dm_of s)) k = false ∧ Z.testbit (d_gcmd (dm_of s)) k = true) →
  ∀ fuel, (n < fuel)%nat → ∃ s', gcmd_wait fuel cmd s = Done (tt, s') ∧ same_but_hw s s' ∧ d_busy (dm_of s') = O ∧
    dm_of s' = if (n =? 0)%nat then dm_of s else
      DmarRegs (d_ver (dm_of s)) (d_cap (dm_of s)) (d_ecap (dm_of s)) (d_gcmd (dm_of s)) (d_gcmd (dm_of s))
        (d_rta (dm_of s)) (d_irta (dm_of s)) (d_root (dm_of s)) (d_irt (dm_of s)) 0.
Proof.
  induction n as [|n IH]; intros s Hk -> Hs Hb Hz Hg1 [|fuel] Hf; try lia; cbn [gcmd_wait];
    destruct (read_status_ok s Hs) as (s1 & E1 & Hs1 & Ed1); rewrite (stM_bind_Done _ _ _ _ _ E1), land_pow2_zero by lia.
  - rewrite (Hz eq_refl). cbn [negb]. unfold d_tick in Ed1. rewrite Hb in Ed1.
    exists s1. split; [done|]. split; [done|]. by rewrite Ed1.
  - destruct (Hg1 ltac:(done)) as [-> Hg]. cbn [negb]. unfold d_tick in Ed1. rewrite Hb in Ed1.
    destruct (IH s1) with (fuel := fuel) as (s2 & E2 & Hs2 & Hb2 & Ed2); try done; try lia.
    + by apply (regs_mapped_same s).
    + by rewrite Ed1.
    + intros ->. by rewrite Ed1.
    + intros Hn. rewrite Ed1. cbn. rewrite (proj2 (Nat.eqb_neq _ _) Hn). by apply Hg1.
    + exists s2. split; [done|]. split; [by etransitivity|]. split; [done|]. rewrite Ed2, Ed1. cbn.
      by destruct n.
Qed.

Lemma ldiff_pow2 g k : 0 ≤ k → Z.ldiff (2 ^ k) g = if Z.testbit g k then 0 else 2 ^ k.
Proof.
  intros Hk. destruct (Z.testbit g k) eqn:E; apply Z.bits_inj'; intros i Hi;
    rewrite Z.ldiff_spec, ?Z.bits_0, testbit_pow2 by done; destruct (Z.eqb_spec i k) as [->|]; by rewrite ?E.
Qed.
Lemma ldiff_lor_l g c : Z.ldiff (Z.lor g c) g = Z.ldiff c g.
Proof.
  apply Z.bits_inj'. intros i Hi. rewrite !Z.ldiff_spec, Z.lor_spec. by destruct (Z.testbit g i), (Z.testbit c i).
Qed.
Lemma lor_pow2_u32 g k : in_u32 g → 0 ≤ k < 32 → in_u32 (Z.lor g (2 ^ k)).
Proof.
  intros Hg Hk. assert (Z.lor g (2 ^ k) = Z.lor g (2 ^ k) mod 2 ^ 32) as ->; [|by apply Z.mod_pos_bound].
  apply Z.bits_inj'. intros i Hi. rewrite testbit_mod_pow2, Z.lor_spec, testbit_pow2 by lia.
  destruct (Z.ltb_spec i 32); [done|]. rewrite (testbit_above 32 g) by done. destruct (Z.eqb_spec i k); [lia|done].
Qed.

(** The registers after the command for bit [k] is done. *)
Definition dm_after (k : Z) (d : dmar) : dmar :=
  let v := Z.lor (d_gsts d) (2 ^ k) in
  DmarRegs (d_ver d) (d_cap d) (d_ecap d) v v (d_rta d) (d_irta d)
    (if Z.testbit v 30 then d_rta d else d_root d) (if Z.testbit v 24 then d_irta d else d_irt d) 0.

Lemma vtd_gcmd_or_ok fuel k s :
  regs_mapped s → k ∈ [24; 25; 26; 30; 31] → d_busy (dm_of s) = O → (dm_delay < fuel)%nat →
  ∃ s', vtd_gcmd_or fuel (2 ^ k) s = Done (tt, s') ∧ same_but_hw s s' ∧ dm_of s' = dm_after k (dm_of s).
Proof.
  intros Hs Hk Hb Hf. assert (0 ≤ k < 32) as Hkr by (rewrite !elem_of_cons in Hk; destruct Hk as [?|[?|[?|[?|[?|Hn]]]]]; [lia..|by apply elem_of_nil in Hn]).
  unfold vtd_gcmd_or. assert (is_power_of_2 (2 ^ k) = true) as -> by (apply is_power_of_2_pow; lia).
  unfold c_assert. mrun. destruct (read_status_ok s Hs) as (s1 & E1 & Hs1 & Ed1).
  rewrite (stM_bind_Done _ _ _ _ _ E1). unfold d_tick in Ed1. rewrite Hb in Ed1.
  set (g := d_gsts (dm_of s)) in *. pose proof (regs_mapped_same _ _ Hs1 Hs) as Hm1.
  assert (in_u32 g) as Hg by apply dm_u32.
  unfold vtd_writel. rewrite stM_bind_assoc.
  erewrite (stM_bind_Done (vtd_reg _)); [|apply vtd_reg_ok; [done|unfold DMAR_GCMD_REG; lia]].
  unfold on_hw. rewrite bind_modify, (u32_small (Z.lor g (2 ^ k))) by (by apply lor_pow2_u32).
  set (s2 := set_hw _ s1). assert (same_but_hw s s2) as Hs2 by (etransitivity; [exact Hs1|]; by repeat split).
  assert (dm_of s2 = d_command dm_delay (Z.lor g (2 ^ k)) (dm_of s)) as Ed2.
  { unfold dm_of, s2. cbn [i_hw set_hw]. fold (dm_of s1). rewrite dm_gcmd; [fold (dm_of s1); by rewrite Ed1|by apply lor_pow2_u32| |].
    - fold (dm_of s1). by rewrite Ed1.
    - fold (dm_of s1). rewrite Ed1. fold g. apply Z.bits_inj'. intros i Hi. rewrite Z.land_spec, Z.lor_spec. by destruct (Z.testbit g i), (Z.testbit (2 ^ k) i). }
  pose proof (regs_mapped_same _ _ Hs2 Hs) as Hm2. unfold d_command in Ed2. fold g in Ed2. rewrite ldiff_lor_l, ldiff_pow2 in Ed2 by lia.
  assert (Z.testbit (Z.lor g (2 ^ k)) k = true) as Hbit
    by (rewrite Z.lor_spec, testbit_pow2, Z.eqb_refl by lia; apply orb_true_r).
  unfold dm_after. fold g. destruct (negb (Z.land (2 ^ k) VTD_GCMD_ONE_SHOT_BITS =? 0)) eqn:Eo.
  - exists s2. split; [done|]. split; [done|]. rewrite Ed2.
    assert (Z.ldiff (if Z.testbit g k then 0 else 2 ^ k) VTD_GCMD_ONE_SHOT_BITS = 0) as ->; [|done].
    destruct (Z.testbit g k); [done|].
    rewrite !elem_of_cons in Hk. destruct Hk as [->|[->|[->|[->|[->|Hn]]]]]; try done. by apply elem_of_nil in Hn.
  - assert (Z.ldiff (2 ^ k) VTD_GCMD_ONE_SHOT_BITS = 2 ^ k) as Eone.
    { rewrite !elem_of_cons in Hk. destruct Hk as [->|[->|[->|[->|[->|Hn]]]]]; try done. by apply elem_of_nil in Hn. }
    assert ((Z.ldiff (if Z.testbit g k then 0 else 2 ^ k) VTD_GCMD_ONE_SHOT_BITS =? 0) = Z.testbit g k) as E.
    { destruct (Z.testbit g k); [done|]. rewrite Eone. apply Z.eqb_neq. pose proof (Z.pow_pos_nonneg 2 k). lia. }
    rewrite E in Ed2. destruct (gcmd_wait_ok k (2 ^ k) (d_busy (dm_of s2)) s2) with (fuel := fuel) as (s3 & E3 & Hs3 & Hb3 & Ed3); try done.
    + rewrite Ed2. cbn [d_busy d_gsts]. intros Hn. destruct (Z.testbit g k || (dm_delay =? 0)%nat) eqn:En; [done|].
      apply orb_false_iff in En as [_ En%Nat.eqb_neq]. by rewrite Hn in En.
    + rewrite Ed2. cbn [d_busy d_gsts d_gcmd]. destruct (Z.testbit g k) eqn:Eg; cbn [orb]; [done|].
      destruct (dm_delay =? 0)%nat; done.
    + rewrite Ed2. cbn [d_busy]. destruct (_ || _); lia.
    + exists s3. split; [done|]. split; [by etransitivity|]. rewrite Ed3, Ed2. cbn.
      destruct (Z.testbit g k || (dm_delay =? 0)%nat) eqn:En; [done|].
      apply orb_false_iff in En as [_ ->]. done.
Qed.

(** *** The tables *)
Definition page_zero (m : mem) (p : Z) : Prop := ∀ j, 0 ≤ j < 512 → rd m (p + 8 * j) = 0.

(** The registers are reachable, and the free frames are not frames of the page tables. *)
Record ready s (FR : list Z) (own : Z → Prop) : Prop := {
  ry_regs : regs_mapped s;
  ry_space : space (vm_cr3 (i_vm s)) (pages s) FR own
}.
(** What the driver does not change. *)
Record kept s s' : Prop := {
  kp_cr0 : vm_cr0 (i_vm s') = vm_cr0 (i_vm s);
  kp_cr3 : vm_cr3 (i_vm s') = vm_cr3 (i_vm s);
  kp_base : vtd_reg_base s' = vtd_reg_base s;
  kp_ctr : index_ctr s' = index_ctr s
}.
#[global] Instance kept_preorder : PreOrder kept.
Proof. split; [done|]. intros s1 s2 s3 [A1 B1 C1 D1] [A2 B2 C2 D2]. split; congruence. Qed.
Lemma kept_same s s' : same_but_hw s s' → kept s s'.
Proof. intros Hs. destruct (same_but_hw_vm _ _ Hs) as (_ & ? & ? & _). by destruct Hs as [_ ? ?]. Qed.

Lemma ready_same s s' FR own : same_but_hw s s' → ready s FR own → ready s' FR own.
Proof.
  intros Hs [Hr Hsp]. split; [by apply (regs_mapped_same s)|].
  destruct (same_but_hw_vm _ _ Hs) as (-> & _ & -> & _). done.
Qed.

(** Memory outside the tables of the processor changes, and the list of free pages. *)
Lemma ready_pages s s' FR FR' own :
  ready s FR own → kept s s' → free_list (pages s') FR' → FR' `suffix_of` FR →
  (∀ q, own q → same_page (pmem (pages s)) (pmem (pages s')) q) → ready s' FR' own.
Proof.
  intros [[Hpg Hb Hm] [Ht Hf Hfr]] [E0 E3 Eb _] Hf' [k ->] Hsame.
  destruct (walk_frame X86 4 _ (pmem (pages s')) _ _ Ht Hsame) as (Etr & _ & _).
  split; split; rewrite ?E0, ?E3, ?Eb; try done.
  - intros o Ho. rewrite Etr. by apply Hm.
  - by apply (tree_frame X86 4 (pmem (pages s))).
  - intros q Hq. apply Hfr, elem_of_app. by right.
Qed.

Lemma new_page_ok s p FR own : ready s (p :: FR) own →
  ∃ s1 s2, on_pages alloc_page s = Done (p, s1) ∧
    on_pages_do (λ q, mret (st_zero_page p q)) s1 = Done (tt, s2) ∧
    ready s2 FR own ∧ kept s s2 ∧ dm_of s2 = dm_of s ∧ page_zero (pmem (pages s2)) p ∧
    (page_ok p ∧ ¬ own p ∧ p ∉ FR) ∧ ∀ q, page_ok q → q ≠ p → same_page (pmem (pages s)) (pmem (pages s2)) q.
Proof.
  intros Hr. pose proof Hr as [Hrg [Ht Hf Hfr]].
  assert (ps_free (St := pstate) (pages s) (p :: FR)) as Hfs by exact Hf.
  destruct (free_split (pages s) p FR own Hfs Hfr) as (Hp & Hpn & HpF & HFo & _).
  destruct (alloc_page_cons _ _ _ Hf) as (q1 & E1 & Hf1 & Em).
  set (s1 := set_vm (set_vm_pages q1 (i_vm s)) s). set (s2 := set_vm (set_vm_pages (st_zero_page p q1) (i_vm s1)) s1).
  exists s1, s2.
  assert (∀ q, page_ok q → q ≠ p → same_page (pmem (pages s)) (pmem (pages s2)) q) as Hsame.
  { intros q Hq%page_ok_aligned Hne. change (pmem (pages s2)) with (zero_page p (pmem q1)). rewrite Em.
    apply same_page_zero; try done. by apply page_ok_aligned. }
  split. { unfold on_pages, on_vm, Vm.on_pages, zoom. fold (pages s). by rewrite E1. }
  split; [done|]. split; [|split; [done|split; [done|split; [|done]]]].
  - apply (ready_pages s s2 (p :: FR)); [done|done| |by exists [p]|].
    + change (pages s2) with (st_zero_page p q1). assert (ps_free (St := pstate) q1 FR) as Hf1' by exact Hf1.
      exact (free_zero p FR q1 Hf1' (page_ok_aligned _ Hp) HpF).
    + intros q Hq. apply Hsame; [by apply (tree_own_ok X86 3 _ _ _ q Ht)|by intros ->].
  - intros j Hj. change (pmem (pages s2)) with (zero_page p (pmem q1)). by apply rd_zero_page_in.
Qed.

Lemma in_u64_page_or p : page_ok p → in_u64 (Z.lor p 0xf).
Proof. intros Hp. apply in_u64_lor; [by apply page_in_u64|by split]. Qed.
Lemma land_page p x : page_ok p → 0 ≤ x < 4096 → Z.land (Z.lor p x) PAGE_MASK = p.
Proof.
  intros Hp Hx. pose proof (page_in_u64 _ Hp). destruct Hp as (Hp0 & Ha & Hlt).
  assert (Z.lor p x = p + x) as ->.
  { pose proof (Z.div_mod p (2 ^ 12) ltac:(lia)) as E. change (p mod 2 ^ 12) with (p mod 4096) in E. rewrite Ha in E.
    rewrite Z.lor_comm. replace p with (Z.shiftl (p / 2 ^ 12) 12) at 1 by (rewrite Z.shiftl_mul_pow2 by lia; lia).
    rewrite lor_shift_add by lia. lia. }
  unfold PAGE_MASK. rewrite PAGE_SIZE_val, land_page_mask by (unfold in_u64; lia).
  rewrite <- Zplus_mod_idemp_l, Ha, Z.mod_small by lia. lia.
Qed.

(** The address of a table is stored and the command given. *)
Lemma set_table_ok fuel k reg v set s :
  regs_mapped s → k ∈ [24; 25; 26; 30; 31] → d_busy (dm_of s) = O → (dm_delay < fuel)%nat →
  0 ≤ reg < 4096 → in_u64 v → (∀ h, dm (mmio_writeq (B + reg) v h) = set v (dm h)) →
  (∀ d, d_busy (set v d) = d_busy d) →
  ∃ s', (vtd_writeq reg v;; vtd_gcmd_or fuel (2 ^ k)) s = Done (tt, s') ∧ same_but_hw s s' ∧
    dm_of s' = dm_after k (set v (dm_of s)).
Proof.
  intros Hr Hk Hb Hf Hreg Hv Hset Hbusy.
  rewrite (stM_bind_Done _ _ _ _ _ (vtd_writeq_ok reg v s Hr Hreg)), u64_small by done.
  set (s3 := set_hw _ s). assert (same_but_hw s s3) as Hs3 by (by repeat split).
  assert (dm_of s3 = set v (dm_of s)) as D3 by apply Hset.
  destruct (vtd_gcmd_or_ok fuel k s3) as (s4 & E4 & Hs4 & D4); try done.
  { by apply (regs_mapped_same s). }
  { by rewrite D3, Hbusy. }
  exists s4. split; [done|]. split; [by etransitivity|]. by rewrite D4, D3.
Qed.

(** What setting a table up with the page [p] achieves. *)
Record table_set s s' p FR own d : Prop := {
  ts_ready : ready s' FR own;
  ts_kept : kept s s';
  ts_dm : dm_of s' = d;
  ts_zero : page_zero (pmem (pages s')) p;
  ts_page : page_ok p ∧ ¬ own p ∧ p ∉ FR;
  ts_frame q : page_ok q → q ≠ p → same_page (pmem (pages s)) (pmem (pages s')) q
}.
Lemma table_set_same s s1 s2 p FR own d :
  ready s1 FR own → kept s s1 → page_zero (pmem (pages s1)) p → page_ok p ∧ ¬ own p ∧ p ∉ FR →
  (∀ q, page_ok q → q ≠ p → same_page (pmem (pages s)) (pmem (pages s1)) q) →
  same_but_hw s1 s2 → dm_of s2 = d → table_set s s2 p FR own d.
Proof.
  intros Hr Hk Hz Hp Hf Hs Hd. destruct (same_but_hw_vm _ _ Hs) as (Ep & _).
  split; rewrite ?Ep; try done; [by apply (ready_same s1)|]. etransitivity; [exact Hk|by apply kept_same].
Qed.

Lemma setup_root_ok fuel s p FR own :
  ready s (p :: FR) own → d_busy (dm_of s) = O → (dm_delay < fuel)%nat →
  ∃ s', vtd_setup_root_table fuel s = Done (tt, s') ∧ table_set s s' p FR own (dm_after 30 (set_rta p (dm_of s))).
Proof.
  intros Hr Hb Hf. destruct (new_page_ok s p FR own Hr) as (s1 & s2 & E1 & E2 & Hr2 & K2 & D2 & Z2 & Hp & F2).
  destruct (set_table_ok fuel 30 DMAR_RTADDR_REG p set_rta s2) as (s3 & E3 & Hs3 & D3); try done.
  { apply Hr2. }
  { rewrite !elem_of_cons. tauto. }
  { by rewrite D2. }
  { by apply page_in_u64, Hp. }
  { intros h. by apply dm_set_rta, page_in_u64, Hp. }
  pose proof (regs_mapped_same _ _ Hs3 (ry_regs _ _ _ Hr2)) as Hm3.
  destruct (printf_ok "DMAR table address: %#018lx\n" [PInt (Z.land (d_rta (dm_of s3)) VTD_RTA_MASK)] s3) as (s4 & E4 & Hs4 & D4).
  exists s4. split.
  - unfold vtd_setup_root_table. rewrite (stM_bind_Done _ _ _ _ _ E1), (stM_bind_Done _ _ _ _ _ E2).
    rewrite <- stM_bind_assoc, (stM_bind_Done _ _ _ _ _ E3). unfold vtd_root_table. rewrite stM_bind_assoc.
    by rewrite (stM_bind_Done _ _ _ _ _ (vtd_readq_ok DMAR_RTADDR_REG _ s3 Hm3 ltac:(unfold DMAR_RTADDR_REG; lia) (dm_rta _))).
  - apply (table_set_same s s2); try done; [by etransitivity|]. by rewrite D4, D3, D2.
Qed.

Lemma setup_ir_ok fuel s p FR own :
  ready s (p :: FR) own → d_busy (dm_of s) = O → (dm_delay < fuel)%nat →
  ∃ s', vtd_setup_ir_table fuel s = Done (tt, s') ∧ table_set s s' p FR own (dm_after 24 (set_irta (Z.lor p 0xf) (dm_of s))).
Proof.
  intros Hr Hb Hf. destruct (new_page_ok s p FR own Hr) as (s1 & s2 & E1 & E2 & Hr2 & K2 & D2 & Z2 & Hp & F2).
  destruct (set_table_ok fuel 24 DMAR_IRTA_REG (Z.lor p 0xf) set_irta s2) as (s3 & E3 & Hs3 & D3); try done.
  { apply Hr2. }
  { rewrite !elem_of_cons. tauto. }
  { by rewrite D2. }
  { by apply in_u64_page_or, Hp. }
  { intros h. by apply dm_set_irta, in_u64_page_or, Hp. }
  pose proof (regs_mapped_same _ _ Hs3 (ry_regs _ _ _ Hr2)) as Hm3.
  destruct (printf_ok "IR table address: %#018lx\n" [PInt (Z.land (d_irta (dm_of s3)) VTD_IRTA_MASK)] s3) as (s4 & E4 & Hs4 & D4).
  exists s4. split.
  - unfold vtd_setup_ir_table. rewrite (stM_bind_Done _ _ _ _ _ E1), (stM_bind_Done _ _ _ _ _ E2).
    rewrite <- stM_bind_assoc, (stM_bind_Done _ _ _ _ _ E3). unfold vtd_ir_table. rewrite stM_bind_assoc.
    by rewrite (stM_bind_Done _ _ _ _ _ (vtd_readq_ok DMAR_IRTA_REG _ s3 Hm3 ltac:(unfold DMAR_IRTA_REG; lia) (dm_irta _))).
  - apply (table_set_same s s2); try done; [by etransitivity|]. by rewrite D4, D3, D2.
Qed.

Lemma dump_info_ok s :
  regs_mapped s → 1 ≤ Z.land (Z.shiftr (d_ver (dm_of s)) 3) 0xf →
  ∃ s', vtd_dump_init_info s = Done (tt, s') ∧ same_but_hw s s' ∧ dm_of s' = dm_of s.
Proof.
  intros Hs Hv. unfold vtd_dump_init_info. unfold vtd_readl at 1. rewrite stM_bind_assoc.
  erewrite (stM_bind_Done (vtd_reg _)); [|apply vtd_reg_ok; [done|unfold DMAR_VER_REG; lia]].
  assert (from_hw (Apic.mmio_read (B + DMAR_VER_REG)) s = Done (d_ver (dm_of s), s)) as E0.
  { unfold from_hw. rewrite dm_ver. by destruct s. }
  rewrite (stM_bind_Done _ _ _ _ _ E0), (proj2 (Z.leb_le _ _)) by done. unfold c_assert. mrun.
  destruct (printf_ok "VT-d version:   %#x\n" [PInt (d_ver (dm_of s))] s) as (s1 & E1 & Hs1 & D1).
  rewrite (stM_bind_Done _ _ _ _ _ E1). pose proof (regs_mapped_same _ _ Hs1 Hs) as Hm1.
  rewrite (stM_bind_Done _ _ _ _ _ (vtd_readq_ok DMAR_CAP_REG _ s1 Hm1 ltac:(unfold DMAR_CAP_REG; lia) (dm_cap _))).
  destruct (printf_ok "     cap:       %#018lx\n" [PInt (d_cap (dm_of s1))] s1) as (s2 & E2 & Hs2 & D2).
  rewrite (stM_bind_Done _ _ _ _ _ E2). pose proof (regs_mapped_same _ _ Hs2 Hm1) as Hm2.
  rewrite (stM_bind_Done _ _ _ _ _ (vtd_readq_ok DMAR_ECAP_REG _ s2 Hm2 ltac:(unfold DMAR_ECAP_REG; lia) (dm_ecap _))).
  destruct (printf_ok "     ecap:      %#018lx\n" [PInt (d_ecap (dm_of s2))] s2) as (s3 & E3 & Hs3 & D3).
  exists s3. split; [exact E3|]. split; [by repeat (etransitivity; [eassumption|])|]. by rewrite D3, D2, D1.
Qed.

(** A zeroed root table lets no device through, a zeroed remapping table no interrupt. *)
Lemma root_zero m p : page_ok p → page_zero m p →
  root_ok m p (λ q, q = p) ∧ ∀ sid iova, vtd_xlate m p sid iova = None.
Proof.
  intros Hp Hz. destruct (dtable_zero context_ok (λ _ _ _, True) m p Hp Hz) as [Hd Hn].
  split; [by eexists|]. intros sid iova. unfold vtd_xlate. by rewrite Hn by apply bus_range.
Qed.
Lemma remap_zero m p x sid index : page_ok p → page_zero m p → 0 ≤ x < 4096 → 0 ≤ index < 256 →
  remap m (Z.lor p x) sid index = None.
Proof.
  intros Hp Hz Hx Hi. unfold remap. rewrite land_page, slot16_hi, slot16, !Hz, getf_0 by (done || lia).
  change (0 =? 1) with false. by rewrite !andb_false_r.
Qed.

Lemma regs_after_ioremap v s :
  Z.land (vm_cr0 (i_vm s)) X86_CR0_PG ≠ 0 → v ≠ 0 → vtd_reg_base s = v → low48 v + 4096 ≤ 2 ^ 48 →
  (∀ o, 0 ≤ o < 4096 → translate X86 4 (pmem (pages s)) (vm_cr3 (i_vm s)) (low48 v + o) = Some (B + o, 7)) →
  regs_mapped s.
Proof.
  intros Hpg Hv Hb Hl Htr. split; [done|by rewrite Hb|]. intros o Ho. rewrite Hb, low48_u64, low48_add by lia. by apply Htr.
Qed.

(** After [vtd_init] the registers are mapped, and the steps before gave the states. *)
Lemma vtd_init_ok fuel s FR own :
  let v := next_vpages (i_vm s) 1 in
  vpages_pre (i_vm s) 1 (vmap_tables (i_vm s) 1 + 2) FR own → v ≠ 0 →
  Z.land (vm_cr0 (i_vm s)) X86_CR0_PG ≠ 0 → vm_cr3 (i_vm s) = page_root (i_vm s) →
  d_busy (dm_of s) = O → (dm_delay < fuel)%nat → 1 ≤ Z.land (Z.shiftr (d_ver (dm_of s)) 3) 0xf →
  ∃ s' root irt FR' own', vtd_init fuel s = Done (tt, s') ∧ ready s' FR' own' ∧
    (vtd_reg_base s' = v ∧ index_ctr s' = index_ctr s) ∧
    (root ≠ irt ∧ (page_ok root ∧ ¬ own' root ∧ root ∉ FR') ∧ page_ok irt ∧ ¬ own' irt ∧ irt ∉ FR') ∧
    Z.of_nat (length FR) ≤ Z.of_nat (length FR') + vmap_tables (i_vm s) 1 + 2 ∧
    dm_of s' = dm_after 25 (dm_after 31 (dm_after 24 (set_irta (Z.lor irt 0xf) (dm_after 30 (set_rta root (dm_after 26 (dm_of s))))))) ∧
    page_zero (pmem (pages s')) root ∧ page_zero (pmem (pages s')) irt.
Proof.
  intros v Hpre Hv Hpg Hcr Hb Hf Hver. pose proof Hpre as [Hl Hn Ht Hr Hsp Hun Hfr]. fold v in Hr.
  assert (vpages_pre (i_vm s) (npages PAGE_SIZE) (vmap_tables (i_vm s) (npages PAGE_SIZE)) FR own) as Hpre'.
  { change (npages PAGE_SIZE) with 1. split; try done. lia. }
  destruct (ioremap_ok B PAGE_SIZE (i_vm s) FR own ltac:(done) ltac:(done) ltac:(vm_compute; discriminate) Hpre')
    as (p' & FR1 & own1 & E1 & Hsp1 & _ & Hleft & _ & Htr & _).
  change (npages PAGE_SIZE) with 1 in *. fold v in E1, Htr. change (B mod 4096) with 0 in *. rewrite Z.add_0_r in *.
  destruct FR1 as [|root FR1]; [cbn in Hleft; lia|]. destruct FR1 as [|irt FR']; [cbn in Hleft; lia|].
  set (s1 := set_reg_base v (set_vm (set_vm_pages p' (set_vfree_top v (i_vm s))) s)).
  assert (ready s1 (root :: irt :: FR') own1) as Hr1.
  { split; [|cbn; by rewrite Hcr]. apply (regs_after_ioremap v); [done|done|done|lia|]. intros o Ho. cbn. rewrite Hcr. apply Htr; lia. }
  destruct (dump_info_ok s1) as (s2 & E2 & Hs2 & D2); [apply Hr1|done|].
  pose proof (ready_same _ _ _ _ Hs2 Hr1) as Hr2.
  destruct (vtd_gcmd_or_ok fuel 26 s2) as (s3 & E3 & Hs3 & D3); [apply Hr2|rewrite !elem_of_cons; tauto|by rewrite D2|done|].
  pose proof (ready_same _ _ _ _ Hs3 Hr2) as Hr3.
  destruct (setup_root_ok fuel s3 root (irt :: FR') own1 Hr3) as (s4 & E4 & T4); [by rewrite D3|done|].
  destruct (setup_ir_ok fuel s4 irt FR' own1 (ts_ready _ _ _ _ _ _ T4)) as (s5 & E5 & T5); [by rewrite (ts_dm _ _ _ _ _ _ T4)|done|].
  pose proof (ts_ready _ _ _ _ _ _ T5) as Hr5.
  destruct (vtd_gcmd_or_ok fuel 31 s5) as (s6 & E6 & Hs6 & D6);
    [apply Hr5|rewrite !elem_of_cons; tauto|by rewrite (ts_dm _ _ _ _ _ _ T5)|done|].
  pose proof (ready_same _ _ _ _ Hs6 Hr5) as Hr6.
  destruct (vtd_gcmd_or_ok fuel 25 s6) as (s7 & E7 & Hs7 & D7); [apply Hr6|rewrite !elem_of_cons; tauto|by rewrite D6|done|].
  pose proof (ready_same _ _ _ _ Hs7 Hr6) as Hr7.
  destruct (ts_page _ _ _ _ _ _ T4) as (P1 & P2 & P3%not_elem_of_cons). destruct (ts_page _ _ _ _ _ _ T5) as (Q1 & Q2 & Q3).
  destruct (same_but_hw_vm _ _ Hs6) as (Ep6 & _). destruct (same_but_hw_vm _ _ Hs7) as (Ep7 & _).
  assert (kept s1 s7) as [_ _ Kb Kc].
  { transitivity s2; [by apply kept_same|]. transitivity s3; [by apply kept_same|].
    transitivity s4; [apply (ts_kept _ _ _ _ _ _ T4)|]. transitivity s5; [apply (ts_kept _ _ _ _ _ _ T5)|].
    transitivity s6; by apply kept_same. }
  exists s7, root, irt, FR', own1. split; [|split; [done|split; [done|split; [|split; [|split; [|split]]]]]].
  - unfold vtd_init. change VTD_GCMD_QI with (2 ^ 26). change VTD_GCMD_DMAR with (2 ^ 31). change VTD_GCMD_IR with (2 ^ 25).
    assert (on_vm (Vm.ioremap B PAGE_SIZE) s = Done (v, set_vm (set_vm_pages p' (set_vfree_top v (i_vm s))) s)) as E0.
    { unfold on_vm, zoom. by rewrite E1. }
    rewrite (stM_bind_Done _ _ _ _ _ E0), bind_modify. fold s1.
    rewrite (stM_bind_Done _ _ _ _ _ E2), (stM_bind_Done _ _ _ _ _ E3), (stM_bind_Done _ _ _ _ _ E4),
      (stM_bind_Done _ _ _ _ _ E5), (stM_bind_Done _ _ _ _ _ E6). exact E7.
  - split; [tauto|]. split; [|done]. tauto.
  - cbn [length] in Hleft. lia.
  - rewrite D7, D6, (ts_dm _ _ _ _ _ _ T5), (ts_dm _ _ _ _ _ _ T4), D3, D2. done.
  - rewrite Ep7, Ep6. intros j Hj. rewrite (ts_frame _ _ _ _ _ _ T5 root P1 ltac:(tauto) j Hj). by apply (ts_zero _ _ _ _ _ _ T4).
  - rewrite Ep7, Ep6. apply (ts_zero _ _ _ _ _ _ T5).
Qed.

(** *** Mapping for a device *)
Lemma on_pages_Done {A} (f : pstate → outcome (A * pstate)) s a p :
  f (pages s) = Done (a, p) → on_pages f s = Done (a, set_vm (set_vm_pages p (i_vm s)) s).
Proof. intros E. unfold on_pages, on_vm, Vm.on_pages, zoom. fold (pages s). by rewrite E. Qed.
Lemma on_pages_do_Done (f : pstate → outcome pstate) s p :
  f (pages s) = Done p → on_pages_do f s = Done (tt, set_vm (set_vm_pages p (i_vm s)) s).
Proof. intros E. unfold on_pages_do, Vm.on_pages_do. apply on_pages_Done. by rewrite E. Qed.
(** Printing where the code does. *)
Lemma when_printf_ok b fmt args s : ∃ s', when b (printf fmt args) s = Done (tt, s') ∧ same_but_hw s s' ∧ dm_of s' = dm_of s.
Proof. destruct b; [apply printf_ok|]. exists s. by split. Qed.

Section range.
Context (m0 : mem) (slpt : Z) (own : Z → Prop) (FR0 : list Z) (iova pa lim : Z).
Context (Hiova : 0 ≤ iova ∧ lim ≤ 2 ^ 39) (Hclear : ∀ va, iova ≤ va < lim → translate VTD 3 m0 slpt va = None).
Context (Hfresh : fresh_frames own FR0) (Hnd : NoDup FR0).
Context (Hal : iova mod 4096 = 0) (Hpa : 0 ≤ pa) (Hpal : pa mod 4096 = 0) (Hlim : pa + (lim - iova) ≤ 2 ^ 52).
Abbreviation range_at x cur s FR used := (vtd_range m0 slpt own FR0 iova pa lim x cur (pages s) FR used).

Lemma map_range_loop_ok sid n : ∀ x cur s FR used fuel,
  lim = cur + Z.of_nat n * 4096 → iova ≤ cur → cur mod 4096 = 0 → (n < fuel)%nat →
  range_at x cur s FR used → ntables 1 3 cur lim + Z.of_nat x ≤ Z.of_nat (length FR) →
  ∃ s' FR' used' x', map_range_loop fuel sid slpt cur (cur + (pa - iova)) (Z.of_nat n * 4096) s = Done (tt, s') ∧
    range_at x' lim s' FR' used' ∧ kept s s' ∧ dm_of s' = dm_of s.
Proof.
  induction n as [|n IH]; intros x cur s FR used [|fuel] El Hc Ha Hf Hr Hlen; try lia; cbn [map_range_loop].
  - exists s, FR, used, x. split; [done|]. assert (cur = lim) as -> by lia. split; [done|]. by split.
  - rewrite (proj2 (Z.eqb_neq _ _)) by lia.
    match goal with |- context [printf ?a ?b] => destruct (printf_ok a b s) as (s1 & E1 & Hs1 & D1) end.
    rewrite (stM_bind_Done _ _ _ _ _ E1). destruct (same_but_hw_vm _ _ Hs1) as (Ep1 & _). rewrite <- Ep1 in Hr.
    pose proof (starts_le 1 3 cur 4096 ltac:(lia)) as Hst. pose proof (ntables_add 1 3 cur (cur + 4096) lim) as Hadd.
    pose proof (ntables_nonneg 1 3 (cur + 4096) lim ltac:(lia)) as Hnn.
    destruct (vtd_range_step m0 slpt own FR0 iova pa lim Hiova Hclear Hfresh Hnd x cur (pages s1) FR used)
      as (p2 & FR2 & new & E2 & Hl2 & EF & Hr2); try done; [lia|lia| |lia|].
    { replace (cur + (pa - iova)) with ((cur - iova) + pa) by lia.
      apply aligned_add; [done| |done]. rewrite Zminus_mod, Ha, Hal. done. }
    rewrite (stM_bind_Done _ _ _ _ _ (on_pages_do_Done _ s1 p2 E2)). set (s2 := set_vm _ s1).
    destruct (IH 0%nat (cur + 4096) s2 FR2 (used ++ new) fuel) as (s3 & FR3 & used3 & x3 & E3 & Hr3 & K3 & D3); try done;
      [lia|lia|by apply aligned_add|lia| |].
    { rewrite EF, length_app in Hlen. lia. }
    exists s3, FR3, used3, x3. split.
    { rewrite <- E3. unfold VTD_PAGE_SIZE. rewrite PAGE_SIZE_val.
      rewrite !u64_small by (unfold in_u64; lia). f_equal; lia. }
    split; [done|]. split; [|by rewrite D3, <- D1]. transitivity s1; [by apply kept_same|]. by transitivity s2.
Qed.
End range.

(** The driver's tables: [root] is programmed, [own] are its frames, which neither the
    page tables of the processor nor the free list use. *)
Record vtd_running s root FR ownx own : Prop := {
  vn_ready : ready s FR ownx;
  vn_root : Z.land (d_rta (dm_of s)) VTD_RTA_MASK = root;
  vn_ok : root_ok (pmem (pages s)) root own;
  vn_fresh : fresh_frames own FR;
  vn_apart p : own p → ¬ ownx p
}.

(** The loop, seen from the root table. *)
Lemma map_device_ok sid root own FR ct slpt iova pa n fuel s :
  root_ok (pmem (pages s)) root own → child16 (pmem (pages s)) root (bus_of sid) = Some ct →
  child16 (pmem (pages s)) ct (devfn_of sid) = Some slpt → free_list (pages s) FR → fresh_frames own FR →
  let lim := iova + Z.of_nat n * 4096 in
  0 ≤ iova → lim ≤ 2 ^ 39 → iova mod 4096 = 0 → 0 ≤ pa → pa mod 4096 = 0 → pa + Z.of_nat n * 4096 ≤ 2 ^ 52 →
  (∀ va, iova ≤ va < lim → vtd_xlate (pmem (pages s)) root sid va = None) →
  ntables 1 3 iova lim + 2 ≤ Z.of_nat (length FR) → (n < fuel)%nat →
  ∃ s' FR' used, map_range_loop fuel sid slpt iova pa (Z.of_nat n * 4096) s = Done (tt, s') ∧
    FR = used ++ FR' ∧ free_list (pages s') FR' ∧ kept s s' ∧ dm_of s' = dm_of s ∧
    root_ok (pmem (pages s')) root (λ p, own p ∨ p ∈ used) ∧
    (∀ p, page_ok p → ¬ own p → p ∉ used → same_page (pmem (pages s)) (pmem (pages s')) p) ∧
    (∀ va, 0 ≤ va < 2 ^ 39 → vtd_xlate (pmem (pages s')) root sid va =
      if (iova <=? va) && (va <? lim) then Some (va + (pa - iova), 3) else vtd_xlate (pmem (pages s)) root sid va) ∧
    ∀ sid' va, (bus_of sid' = bus_of sid ∧ devfn_of sid' = devfn_of sid) ∨
      vtd_xlate (pmem (pages s')) root sid' va = vtd_xlate (pmem (pages s)) root sid' va.
Proof.
  intros Hok Ec Ec2 Hf Hfr lim Hi Hl Ha Hp Hpa Hpl Hclear Hlen Hfuel. set (m := pmem (pages s)) in *.
  pose proof (bus_range sid) as Hb. pose proof (devfn_range sid) as Hd.
  destruct (root_root_ok _ _ _ Hok) as (_ & _ & Hown). destruct Hok as [f Hdt].
  destruct (dt_child _ _ _ _ _ _ Hdt _ _ Hb Ec) as [_ Hctx]. pose proof Hctx as [f2 Hdt2].
  destruct (dt_child _ _ _ _ _ _ Hdt2 _ _ Hd Ec2) as [_ Hsl].
  assert (∀ p, f2 (devfn_of sid) p → own p) as Hg.
  { intros p Hp2. apply (dt_sub _ _ _ _ _ _ Hdt (bus_of sid) p Hb). by apply (dt_sub _ _ _ _ _ _ Hdt2 _ p Hd). }
  assert (∀ va, 0 ≤ va < 2 ^ 39 → vtd_xlate m root sid va = translate VTD 3 m slpt va) as Hx.
  { intros va Hva. unfold vtd_xlate. rewrite Ec. cbn [mbind option_bind]. by apply (context_xlate_ok _ _ _ _ _ _ Hctx). }
  destruct Hf as (Hf1 & Hf2 & Hnd & Hpok). rewrite Forall_forall in Hpok.
  destruct (map_range_loop_ok m slpt (f2 (devfn_of sid)) FR iova pa lim) with (sid := sid) (n := n) (x := 2%nat)
    (cur := iova) (s := s) (FR := FR) (used := @nil Z) (fuel := fuel) as (s' & FR' & used & x' & E & [Rok Rf Rsp Rfr Rtr _] & K & D);
    try done; try (unfold lim; lia).
  - intros va Hva. rewrite <- Hx by lia. by apply Hclear.
  - intros p Hp1 Hp2. by apply (Hfr p Hp1), Hg.
  - split; try done.
    + apply (slpt_ok_iff _ _ (f2 (devfn_of sid))); [|done]. intros p. rewrite elem_of_nil. tauto.
    + split; [done|]. split; [done|]. split; [done|]. by apply Forall_forall.
    + intros va Hva. destruct (Z.leb_spec iova va), (Z.ltb_spec va iova); (done || lia).
    + intros _. etransitivity; [apply missing_le|]. lia.
  - assert (∀ p, p ∈ used → page_ok p ∧ ¬ own p) as Hu.
    { intros p Hp1. rewrite Rsp in Hpok, Hfr. split; [apply Hpok|apply Hfr]; apply elem_of_app; by left. }
    destruct (slpt_zoom m (pmem (pages s')) root own (λ p, own p ∨ p ∈ used) f f2 sid ct slpt Hdt Ec Hdt2 Ec2)
      as (Hr' & Hx1 & Hx2).
    + by left.
    + intros p [?|?%Hu]; [auto|tauto].
    + intros p Hp1 Hp2. apply Rfr; [auto|done|]. by intros [_ ?]%Hu.
    + apply (slpt_ok_iff _ _ (λ p, f2 (devfn_of sid) p ∨ p ∈ used)); [|done]. intros p. pose proof (Hu p). pose proof (Hg p). tauto.
    + exists s', FR', used. replace (iova + (pa - iova)) with pa in E by lia. repeat (split; [done|]). split.
      { intros p Hp1 Hp2 Hp3. apply Rfr; [done|by intros ?%Hg|done]. }
      split; [|done]. intros va Hva. rewrite Hx1, Rtr, Hx by done. done.
Qed.

Lemma is_aligned_page x : 0 ≤ x < 2 ^ 64 → x mod 4096 = 0 → IS_ALIGNED x (2 ^ 12) = true.
Proof. intros Hx Ha. apply (IS_ALIGNED_spec 12); [lia|done|done]. Qed.

Lemma vtd_map_range_ok fuel sid iova pa n root FR ownx own s :
  vtd_running s root FR ownx own → 0 ≤ sid < 2 ^ 16 →
  let size := Z.of_nat n * 4096 in
  0 ≤ iova → iova + size ≤ 2 ^ 39 → iova mod 4096 = 0 → 0 ≤ pa → pa mod 4096 = 0 → pa + size ≤ 2 ^ 52 →
  (∀ va, iova ≤ va < iova + size → vtd_xlate (pmem (pages s)) root sid va = None) →
  ntables 1 3 iova (iova + size) + 4 ≤ Z.of_nat (length FR) → (n < fuel)%nat →
  ∃ s' FR' used, vtd_map_range fuel sid iova pa size s = Done (tt, s') ∧ FR = used ++ FR' ∧
    vtd_running s' root FR' ownx (λ p, own p ∨ p ∈ used) ∧ kept s s' ∧ dm_of s' = dm_of s ∧
    (∀ p, page_ok p → ¬ own p → p ∉ used → same_page (pmem (pages s)) (pmem (pages s')) p) ∧
    (∀ va, 0 ≤ va < 2 ^ 39 → vtd_xlate (pmem (pages s')) root sid va =
      if (iova <=? va) && (va <? iova + size) then Some (va + (pa - iova), 3) else vtd_xlate (pmem (pages s)) root sid va) ∧
    ∀ sid' va, 0 ≤ sid' < 2 ^ 16 → sid' ≠ sid →
      vtd_xlate (pmem (pages s')) root sid' va = vtd_xlate (pmem (pages s)) root sid' va.
Proof.
  intros [Hrd Hroot Hok Hfr Hap] Hsid size Hi Hl Ha Hp Hpa Hpl Hclear Hlen Hfuel.
  pose proof Hrd as [Hrg [Ht Hf Hfx]].
  assert (0 ≤ ntables 1 3 iova (iova + size)) as Hnn by (apply ntables_nonneg; lia).
  assert (ps_free (pages s) FR) as Hfs by exact Hf.
  assert (root_ok (ps_mem (pages s)) root own) as Hoks by exact Hok.
  destruct (device_entries_ok root sid own FR (pages s) Hoks Hfs Hfr ltac:(lia))
    as (ct & n1 & p1 & slpt & n2 & p2 & u1 & FR1 & EF1 & Hl1 & E1 & E2 & Hf2 & [G1 G2 G3] & C1 & C2).
  set (s1 := set_vm (set_vm_pages p1 (i_vm s)) s).
  destruct (when_printf_ok n1 "allocated vt-d root entry for PCI bus %d\n" [PInt (bus_of sid)] s1) as (s2 & E3 & Hs2 & D2).
  destruct (same_but_hw_vm _ _ Hs2) as (Ep2 & _).
  set (s3 := set_vm (set_vm_pages p2 (i_vm s2)) s2).
  destruct (when_printf_ok n2 "allocated vt-d context entry for devfn %#x\n" [PInt (devfn_of sid)] s3) as (s4 & E4 & Hs4 & D4).
  destruct (same_but_hw_vm _ _ Hs4) as (Ep4 & _).
  assert (pages s4 = p2) as Ep by (by rewrite Ep4).
  assert (kept s s4) as K4.
  { transitivity s1; [done|]. transitivity s2; [by apply kept_same|]. transitivity s3; [done|by apply kept_same]. }
  destruct (ps_free_frames _ _ Hfs) as [Hnd Hpok]. rewrite Forall_forall in Hpok.
  assert (∀ p, p ∈ u1 → p ∈ FR ∧ p ∉ FR1) as Hu1.
  { intros p Hp1. rewrite EF1 in *. split; [apply elem_of_app; by left|]. apply NoDup_app in Hnd as (_ & Hd & _). by apply Hd. }
  destruct (map_device_ok sid root (λ p, own p ∨ p ∈ u1) FR1 ct slpt iova pa n fuel s4)
    as (s5 & FR5 & u5 & E5 & EF5 & Hf5 & K5 & D5 & R5 & F5 & X5 & O5); rewrite ?Ep; try done.
  { intros p Hp1 [Ho|Hu]; [|by destruct (Hu1 p Hu)]. apply (Hfr p); [rewrite EF1; apply elem_of_app; by right|done]. }
  { intros va Hva. rewrite G3. by apply Hclear. }
  { fold size. rewrite EF1, length_app in Hlen. lia. }
  rewrite Ep in *. fold size in X5, E5.
  assert (FR = (u1 ++ u5) ++ FR5) as EF by (by rewrite EF1, EF5, app_assoc).
  assert (∀ p, page_ok p → ¬ own p → p ∉ u1 ++ u5 → same_page (pmem (pages s)) (pmem (pages s5)) p) as F.
  { intros p Hp1 Hp2 Hp3. rewrite elem_of_app in Hp3. apply same_page_trans with (pmem p2); [apply G2; tauto|apply F5; tauto]. }
  assert (dm_of s5 = dm_of s) as Dm by (rewrite D5, D4; change (dm_of s3) with (dm_of s2); by rewrite D2).
  exists s5, FR5, (u1 ++ u5). split; [|split; [done|split; [|split; [by transitivity s4|split; [|split; [exact F|split]]]]]].
  - unfold vtd_map_range, vtd_root_table. rewrite stM_bind_assoc.
    rewrite (stM_bind_Done _ _ _ _ _ (vtd_readq_ok DMAR_RTADDR_REG _ s Hrg ltac:(unfold DMAR_RTADDR_REG; lia) (dm_rta _))).
    rewrite bind_mret. fold (dm_of s). rewrite Hroot.
    rewrite !is_aligned_page by (unfold size; (lia || (rewrite Z.mod_mul; lia) || done)). unfold c_assert. mrun.
    change (Pci.PCI_BDF_GET_BUS sid) with (bus_of sid). change (Pci.PCI_BDF_GET_DEVFN sid) with (devfn_of sid).
    change (phys_to_virt root) with root.
    rewrite (stM_bind_Done _ _ _ _ _ (on_pages_Done _ s (ct, n1) p1 E1)). fold s1.
    rewrite (stM_bind_Done _ _ _ _ _ E3).
    rewrite (stM_bind_Done _ _ _ _ _ (on_pages_Done _ s2 (slpt, n2) p2 ltac:(rewrite Ep2; exact E2))). fold s3.
    rewrite (stM_bind_Done _ _ _ _ _ E4). exact E5.
  - split; [|by rewrite Dm| | |].
    + apply (ready_pages s s5 FR); [done|by transitivity s4|done|by exists (u1 ++ u5)|].
      intros q Hq. apply F; [by apply (tree_own_ok X86 3 _ _ _ q Ht)|by intros ?%Hap|].
      intros Hu. apply (Hfx q); [rewrite EF; apply elem_of_app; by left|done].
    + apply (root_ok_iff _ _ (λ p, (own p ∨ p ∈ u1) ∨ p ∈ u5)); [|done]. intros p. rewrite elem_of_app. tauto.
    + intros p Hp1 [Ho|Hu]; [apply (Hfr p); [rewrite EF; apply elem_of_app; by right|done]|].
      rewrite EF in Hnd. apply NoDup_app in Hnd as (_ & Hd & _). by apply (Hd p).
    + intros p [Ho|Hu]; [by apply Hap|]. apply Hfx. rewrite EF. apply elem_of_app. by left.
  - done.
  - intros va Hva. rewrite X5, G3 by done. done.
  - intros sid' va Hs' Hne. destruct (O5 sid' va) as [[Eb Ed]| ->]; [|by rewrite G3].
    destruct Hne. rewrite (sid_split sid), (sid_split sid'), Eb, Ed by done. done.
Qed.
End proofs.

(** *** Interrupt remapping *)
Definition irte_e (vector dest_id trigger : Z) : Z :=
  setf Irte.present 1 (setf Irte.dest_id dest_id (setf Irte.vector vector (setf Irte.irte_mode 0
    (setf Irte.delivery_mode 0 (setf Irte.trigger_mode trigger (setf Irte.dest_mode 0 (setf Irte.fault_disable 1 0))))))).
Definition irte_e2 (sid : Z) : Z := setf Irte.sid_vtype 1 (setf Irte.sid_q 0 (setf Irte.source_id sid 0)).

Lemma irte_fields vector dest_id trigger sid :
  (getf Irte.present (irte_e vector dest_id trigger) = 1 ∧ getf Irte.irte_mode (irte_e vector dest_id trigger) = 0 ∧
   getf Irte.vector (irte_e vector dest_id trigger) = vector mod 2 ^ 8 ∧
   getf Irte.dest_id (irte_e vector dest_id trigger) = dest_id mod 2 ^ 32 ∧
   getf Irte.trigger_mode (irte_e vector dest_id trigger) = trigger mod 2) ∧
  getf Irte.sid_vtype (irte_e2 sid) = 1 ∧ getf Irte.sid_q (irte_e2 sid) = 0 ∧ getf Irte.source_id (irte_e2 sid) = sid mod 2 ^ 16.
Proof. unfold irte_e, irte_e2. split; [|split; [|split]]; [split; [|split; [|split; [|split]]]|..]; by bf_simpl. Qed.

Section interrupts.
Context {H : Type} `{Apic.Platform H} `{Mmio64 H} `{Pci.Ports H} `{!Dmar H}.
Implicit Types s : iommu H.

(** The entry at [p] and nothing else. *)
Lemma setup_irte_ok dev p vector dest_id trigger s :
  ∃ s', vtd_setup_irte dev p vector dest_id trigger s = Done (tt, s') ∧ kept s s' ∧ i_hw s' = i_hw s ∧
    i_apic_ops s' = i_apic_ops s ∧
    (∀ pt i FR, p = pt + 16 * i → pt mod 4096 = 0 → 0 ≤ i < 256 → pt ∉ FR → free_list (pages s) FR → free_list (pages s') FR) ∧
    rd (pmem (pages s')) p = irte_e vector dest_id trigger ∧ rd (pmem (pages s')) (p + 8) = irte_e2 (Pci.bdf dev) ∧
    ∀ a, a ≠ p → a ≠ p + 8 → rd (pmem (pages s')) a = rd (pmem (pages s)) a.
Proof.
  unfold vtd_setup_irte. eexists. split; [by apply on_pages_do_Done|]. do 3 (split; [done|]).
  match goal with |- context [pages (set_vm (set_vm_pages ?q _) _)] => set (q' := q) end.
  change (pages (set_vm (set_vm_pages q' (i_vm s)) s)) with q'. split.
  - intros pt i FR -> Ha Hi Hn Hf. unfold q'. change (ps_free (St := pstate) (pages s) FR) in Hf.
    match goal with |- free_list ?q FR => change (ps_free (St := pstate) q FR) end.
    apply (free_zero16 pt i) in Hf; [|done..]. repeat (apply (free_setf pt i); [|by auto..]). exact Hf.
  - change (pmem q') with (ps_mem q'). change (pmem (pages s)) with (ps_mem (pages s)). unfold q'.
    rewrite !mem_setf, mem_zero16.
    split; [|split]; [..|intros a Ha1 Ha2]; repeat first [rewrite rd_wr_eq | rewrite rd_wr_ne by lia]; done.
Qed.

Lemma index_alloc_ok s : 0 ≤ index_ctr s < 65535 →
  ∃ s', vtd_intr_index_alloc s = Done (index_ctr s + 1, s') ∧ pages s' = pages s ∧ i_hw s' = i_hw s ∧
    i_apic_ops s' = i_apic_ops s ∧ vtd_reg_base s' = vtd_reg_base s ∧ index_ctr s' = index_ctr s + 1 ∧
    vm_cr0 (i_vm s') = vm_cr0 (i_vm s) ∧ vm_cr3 (i_vm s') = vm_cr3 (i_vm s).
Proof.
  intros Hc. unfold vtd_intr_index_alloc. mrun. rewrite (proj2 (Z.ltb_lt _ _)) by lia. unfold c_assert. mrun.
  cbn [index_ctr set_index_ctr]. assert (s32 (index_ctr s + 1) = index_ctr s + 1) as -> by (unfold s32, signed; rewrite Z.mod_small, (proj2 (Z.ltb_lt _ _)) by lia; done).
  eexists. split.
  { erewrite (stM_bind_Done (printf _ _)); [|reflexivity]. unfold mret, stM_ret. rewrite u16_small by lia. reflexivity. }
  by repeat split.
Qed.

(** What a valid entry of the table makes of a request. *)
Lemma remap_entry m p x vector dest_id trigger sid index :
  page_ok p → 0 ≤ x < 16 → 0 ≤ index < 2 ^ (x + 1) → 0 ≤ sid < 2 ^ 16 →
  rd m (p + 16 * index) = irte_e vector dest_id trigger → rd m (p + 16 * index + 8) = irte_e2 sid →
  remap m (Z.lor p x) sid index = Some (vector mod 2 ^ 8, dest_id mod 2 ^ 32, trigger mod 2).
Proof.
  intros Hp Hx Hi Hs E1 E2. unfold remap. rewrite land_page, E1, E2 by (done || lia).
  destruct (irte_fields vector dest_id trigger sid) as ((-> & -> & -> & -> & ->) & -> & -> & ->).
  assert (Z.land (Z.lor p x) 0xf = x) as ->.
  { pose proof (page_ok_aligned _ Hp) as Ha. change 0xf with (Z.ones 4). apply Z.bits_inj'. intros i Hi'.
    repeat zbits_step. destruct (Z.ltb_spec i 4); zbits_cmp; cbn.
    - rewrite (testbit_aligned 12 p) by (done || lia). by rewrite andb_true_r.
    - by rewrite (testbit_above 4 x i), andb_false_r by lia. }
  rewrite (proj2 (Z.leb_le 0 index)), (proj2 (Z.ltb_lt index _)), (Z.mod_small sid), (Z.eqb_refl sid) by lia. done.
Qed.
Lemma remap_other m m' irt sid index index' :
  (∀ a, a ≠ Z.land irt PAGE_MASK + 16 * index → a ≠ Z.land irt PAGE_MASK + 16 * index + 8 → rd m' a = rd m a) →
  index' ≠ index → remap m' irt sid index' = remap m irt sid index'.
Proof. intros E Hne. unfold remap. by rewrite !E by lia. Qed.

(** The entry of the next index. *)
Record irte_done s s' irt sid vector dest_id trigger FR own : Prop := {
  id_ready : ready s' FR own;
  id_index : index_ctr s' = index_ctr s + 1;
  id_remap : remap (pmem (pages s')) irt sid (index_ctr s + 1) = Some (vector mod 2 ^ 8, dest_id mod 2 ^ 32, trigger mod 2);
  id_other i sid' : i ≠ index_ctr s + 1 → remap (pmem (pages s')) irt sid' i = remap (pmem (pages s)) irt sid' i
}.

Lemma next_irte_ok dev vector dest_id trigger p FR own s :
  ready s FR own → d_irta (dm_of s) = Z.lor p 0xf → page_ok p → ¬ own p → p ∉ FR →
  0 ≤ index_ctr s < 255 → 0 ≤ Pci.bdf dev < 2 ^ 16 →
  ∃ s1 s2, vtd_ir_table s = Done (p, s) ∧ vtd_intr_index_alloc s = Done (index_ctr s + 1, s1) ∧
    vtd_setup_irte dev (p + 16 * (index_ctr s + 1)) vector dest_id trigger s1 = Done (tt, s2) ∧
    i_hw s2 = i_hw s ∧ irte_done s s2 (Z.lor p 0xf) (Pci.bdf dev) vector dest_id trigger FR own.
Proof.
  intros Hr Ed Hp Hpn HpF Hc Hb. pose proof Hr as [Hrg [Ht Hf Hfr]].
  destruct (index_alloc_ok s) as (s1 & E1 & P1 & H1' & O1 & B1 & C1 & Z1 & R1); [lia|].
  destruct (setup_irte_ok dev (p + 16 * (index_ctr s + 1)) vector dest_id trigger s1)
    as (s2 & E2 & K2 & H2' & O2 & Hf2 & W1 & W2 & W3). rewrite P1 in *.
  exists s1, s2. split; [|split; [done|split; [done|split; [by rewrite H2'|]]]].
  { unfold vtd_ir_table.
    rewrite (stM_bind_Done _ _ _ _ _ (vtd_readq_ok DMAR_IRTA_REG _ s Hrg ltac:(unfold DMAR_IRTA_REG; lia) (dm_irta _))).
    fold (dm_of s). rewrite Ed. unfold VTD_IRTA_MASK. by rewrite land_page by (done || lia). }
  assert (kept s (set_index_ctr (index_ctr s) s2)) as K.
  { destruct K2 as [K0 K3 Kb _]. split; cbn [i_vm set_index_ctr vtd_reg_base index_ctr]; congruence. }
  pose proof (page_ok_aligned _ Hp) as Hpa.
  assert (Z.land (Z.lor p 0xf) PAGE_MASK = p) as Ep by (by apply land_page).
  split.
  - assert (ready (set_index_ctr (index_ctr s) s2) FR own) as [[G1 G2 G3] G4]; [|by split; [split|]].
    apply (ready_pages s _ FR); [done|done| |done|].
    + by apply (Hf2 p (index_ctr s + 1)); [|..|lia| |].
    + intros q Hq j Hj. pose proof (tree_own_ok X86 3 _ _ _ q Ht Hq) as Hqa%page_ok_aligned.
      assert (q ≠ p) as Hne by (by intros ->). rewrite slot16_hi, slot16 in W3. apply W3; apply slot_ne; (done || lia).
  - by rewrite (kp_ctr _ _ K2).
  - apply remap_entry; (done || lia).
  - intros i sid' Hi. apply remap_other with (index_ctr s + 1); [|done]. by rewrite Ep.
Qed.

Lemma handle_split index : 0 ≤ index < 2 ^ 16 →
  Z.land index 0x7fff mod 2 ^ 15 + Z.land (Z.shiftr index 15) 1 mod 2 ^ 1 * 2 ^ 15 = index.
Proof.
  intros Hi. change 0x7fff with (Z.ones 15). change 1 with (Z.ones 1) at 1.
  rewrite !Z.land_ones, Z.shiftr_div_pow2 by lia. rewrite !Z.mod_mod by lia.
  pose proof (Z.div_mod index (2 ^ 15) ltac:(lia)).
  rewrite (Z.mod_small (index / 2 ^ 15)); [lia|]. split; [apply Z.div_pos; lia|apply Z.div_lt_upper_bound; lia].
Qed.

Lemma msi_addr_ok index : 0 ≤ index < 2 ^ 16 →
  msi_index (msi_addr_of index) 0 = Some index ∧ in_u32 (msi_addr_of index) ∧ msi_addr_of index mod 4 = 0.
Proof.
  intros Hi. unfold msi_index, msi_addr_of. cbv zeta. split; [|split].
  - bf_simpl. cbn [f_len MsiAddr.handle_0_14 MsiAddr.handle_15]. rewrite handle_split by done. cbn. by rewrite Z.add_0_r.
  - unfold in_u32. do 5 (apply setf_range; [field_side|cbn; lia|]). done.
  - assert (getf (Bits 0 2) (setf MsiAddr.head 0xfee (setf MsiAddr.handle_0_14 (Z.land index 0x7fff)
      (setf MsiAddr.interrupt_format 1 (setf MsiAddr.shv 0 (setf MsiAddr.handle_15 (Z.land (Z.shiftr index 15) 1) 0))))) = 0)
      as E by (by bf_simpl).
    unfold getf in E. cbn [f_lo f_len] in E. by rewrite Z.shiftr_0_r, Z.land_ones in E by lia.
Qed.

Lemma ioapic_entry_ok vector trigger index : 0 ≤ index < 2 ^ 16 →
  let e := ioapic_entry_of vector trigger index in
  ioapic_index e = Some index ∧ getf IoapicEntry.vector e = vector mod 2 ^ 8 ∧
  getf IoapicEntry.trigger_mode e = trigger mod 2 ∧ getf Apic.Redir.mask e = 0 ∧ in_u64 e.
Proof.
  intros Hi e. unfold ioapic_index, e, ioapic_entry_of. cbv zeta. split; [|split; [by bf_simpl|split; [by bf_simpl|split; [by bf_simpl|]]]].
  - bf_simpl. cbn [f_len IoapicEntry.index_0_14 IoapicEntry.index_15]. by rewrite handle_split.
  - unfold in_u64. do 5 (apply setf_range; [field_side|cbn; lia|]). done.
Qed.

(** Members whose bits the I/O APIC does not keep for itself read back. *)
Lemma getf_stored `{!Apic.IoApic H} f line old e : field_ok f → getf f (Apic.entry_fixed line) = 0 →
  getf f (Apic.stored_entry line old e) = getf f e.
Proof.
  intros Hf E. apply Z.bits_inj'. intros i Hi. pose proof (f_equal (λ x, Z.testbit x i) E) as Eb. cbn beta in Eb.
  rewrite getf_testbit, Z.bits_0 in Eb by done. rewrite !getf_testbit by done. unfold Apic.stored_entry.
  rewrite Z.lor_spec, Z.land_spec, Z.ldiff_spec. destruct (i <? f_len f); [|by rewrite !andb_false_r].
  rewrite andb_true_r in Eb. rewrite Eb. cbn. by rewrite andb_false_r, !andb_true_r.
Qed.
Lemma irte_done_same s s' s'' irt sid vector dest_id trigger FR own :
  irte_done s s' irt sid vector dest_id trigger FR own → same_but_hw s' s'' →
  irte_done s s'' irt sid vector dest_id trigger FR own.
Proof.
  intros [Hr Hi Hm Ho] Hs. destruct (same_but_hw_vm _ _ Hs) as (Ep & _).
  split; rewrite ?Ep; [by apply (ready_same s')| |done|done]. by destruct Hs as [_ _ ->].
Qed.

End interrupts.

(** The registers after a series of commands, member by member. *)
Lemma after_bit k d i : 0 ≤ k → 0 ≤ i → Z.testbit (d_gsts (dm_after k d)) i = Z.testbit (d_gsts d) i || (i =? k).
Proof. intros Hk Hi. unfold dm_after. cbn [d_gsts]. by rewrite Z.lor_spec, testbit_pow2. Qed.
Lemma after_root k d : 0 ≤ k → Z.testbit (d_gsts d) 30 || (30 =? k) = true → d_root (dm_after k d) = d_rta d.
Proof. intros Hk E. unfold dm_after. cbn [d_root]. by rewrite Z.lor_spec, testbit_pow2, E. Qed.
Lemma after_irt k d : 0 ≤ k → Z.testbit (d_gsts d) 24 || (24 =? k) = true → d_irt (dm_after k d) = d_irta d.
Proof. intros Hk E. unfold dm_after. cbn [d_irt]. by rewrite Z.lor_spec, testbit_pow2, E. Qed.
Lemma after_kept k d : d_rta (dm_after k d) = d_rta d ∧ d_irta (dm_after k d) = d_irta d ∧ d_busy (dm_after k d) = O.
Proof. done. Qed.

Lemma init_registers root irt d :
  let d' := dm_after 25 (dm_after 31 (dm_after 24 (set_irta irt (dm_after 30 (set_rta root (dm_after 26 d)))))) in
  d_rta d' = root ∧ d_root d' = root ∧ d_irt d' = irt ∧ d_irta d' = irt ∧ d_busy d' = O ∧
  ∀ k, k ∈ [24; 25; 26; 30; 31] → Z.testbit (d_gsts d') k = true.
Proof.
  intros d'. set (d1 := set_rta root (dm_after 26 d)) in *. set (d2 := set_irta irt (dm_after 30 d1)) in *.
  assert (∀ i, Z.testbit (d_gsts d1) i = Z.testbit (d_gsts (dm_after 26 d)) i) as G1 by done.
  assert (∀ i, Z.testbit (d_gsts d2) i = Z.testbit (d_gsts (dm_after 30 d1)) i) as G2 by done.
  assert (∀ i, 0 ≤ i → Z.testbit (d_gsts d') i = Z.testbit (d_gsts d) i || (i =? 26) || (i =? 30) || (i =? 24) || (i =? 31) || (i =? 25)) as G.
  { intros i Hi. unfold d'. by rewrite !after_bit, G2, after_bit, G1, after_bit by lia. }
  split; [done|]. split; [|split; [|split; [done|split; [done|]]]].
  - unfold d'. rewrite after_root; [done|lia|]. rewrite !after_bit, G2, after_bit by lia. by rewrite !orb_true_r.
  - unfold d'. rewrite after_irt; [done|lia|]. rewrite !after_bit by lia. by rewrite orb_true_r.
  - intros k Hk. rewrite !elem_of_cons in Hk.
    destruct Hk as [->|[->|[->|[->|[->|Hn]]]]]; try (by apply elem_of_nil in Hn); rewrite G by lia;
      cbn [Z.eqb Pos.eqb]; by rewrite ?orb_true_r.
Qed.
(** ** The properties *)
Section claims.
Context {H : Type} `{Apic.Platform H} `{Mmio64 H} `{Pci.Ports H} `{!Dmar H}.
Implicit Types s : iommu H.


(** C16: [vtd_map_range] gives the device [sid] the range from [iova] on, page by page, as
    the physical range from [pa] on: exactly these addresses are added to what the
    hardware translates for it, readable and writable; no other device's
    translations change.  It creates the entries and tables it misses from free
    pages and writes only these and its own tables; the registers stay reachable. *)
Theorem vtd_map_range_correct fuel sid iova pa n root FR ownx own s :
  let size := Z.of_nat n * 4096 in
  vtd_running s root FR ownx own → 0 ≤ sid < 2 ^ 16 →
  0 ≤ iova → iova + size ≤ 2 ^ 39 → iova mod 4096 = 0 → 0 ≤ pa → pa mod 4096 = 0 → pa + size ≤ 2 ^ 52 →
  (∀ va, iova ≤ va < iova + size → vtd_xlate (pmem (pages s)) root sid va = None) →
  ntables 1 3 iova (iova + size) + 4 ≤ Z.of_nat (length FR) → (n < fuel)%nat →
  ∃ s' FR' used, vtd_map_range fuel sid iova pa size s = Done (tt, s') ∧ FR = used ++ FR' ∧
    vtd_running s' root FR' ownx (λ p, own p ∨ p ∈ used) ∧ dm_of s' = dm_of s ∧
    (∀ p, page_ok p → ¬ own p → p ∉ used → same_page (pmem (pages s)) (pmem (pages s')) p) ∧
    (∀ va, 0 ≤ va < 2 ^ 39 → vtd_xlate (pmem (pages s')) root sid va =
      if (iova <=? va) && (va <? iova + size) then Some (va + (pa - iova), 3)
      else vtd_xlate (pmem (pages s)) root sid va) ∧
    ∀ sid' va, 0 ≤ sid' < 2 ^ 16 → sid' ≠ sid →
      vtd_xlate (pmem (pages s')) root sid' va = vtd_xlate (pmem (pages s)) root sid' va.
Proof.
  intros size Hrun Hs Hi Hl Ha Hp Hpa Hpl Hc Hlen Hf.
  destruct (vtd_map_range_ok fuel sid iova pa n root FR ownx own s) as (s' & FR' & used & E & EF & Hr & _ & Hrest); try done.
  by exists s', FR', used.
Qed.

End claims.

(** ** A concrete machine *)
#[local] Existing Instances Apic.demo_platform Apic.demo_ioapic Pci.demo_ports Pci.demo_conf1.
(** The remapping hardware next to the host bridge of Pci.v and the APICs of Apic.v; its
    commands take two reads of the status. *)
Record demo_hw := DemoHw { dh_dmar : dmar; dh_bridge : Pci.demo_bridge; dh_apic : Apic.demo_apic }.
Definition d_norm (d : dmar) : dmar :=
  DmarRegs (d_ver d) (d_cap d) (d_ecap d) (u32 (d_gsts d)) (u32 (d_gcmd d)) (d_rta d) (d_irta d) (d_root d) (d_irt d) (d_busy d).
Definition set_dmar (d : dmar) (h : demo_hw) : demo_hw := DemoHw d (dh_bridge h) (dh_apic h).
Definition set_bridge (b : Pci.demo_bridge) (h : demo_hw) : demo_hw := DemoHw (dh_dmar h) b (dh_apic h).
Definition set_apic (a : Apic.demo_apic) (h : demo_hw) : demo_hw := DemoHw (dh_dmar h) (dh_bridge h) a.
Definition to_apic (f : Apic.demo_apic → Apic.demo_apic) (h : demo_hw) : demo_hw := set_apic (f (dh_apic h)) h.
Definition from_apic (f : Apic.demo_apic → Z * Apic.demo_apic) (h : demo_hw) : Z * demo_hw :=
  ((f (dh_apic h)).1, set_apic (f (dh_apic h)).2 h).
Definition to_bridge (f : Pci.demo_bridge → Pci.demo_bridge) (h : demo_hw) : demo_hw := set_bridge (f (dh_bridge h)) h.
Definition from_bridge (f : Pci.demo_bridge → Z * Pci.demo_bridge) (h : demo_hw) : Z * demo_hw :=
  ((f (dh_bridge h)).1, set_bridge (f (dh_bridge h)).2 h).

#[export] Instance demo_platform : Apic.Platform demo_hw := {
  Apic.mmio_read a h :=
    if a =? 0xfed90000 then (d_ver (dh_dmar h), h)
    else if a =? 0xfed9001c then (u32 (d_gsts (dh_dmar h)), set_dmar (d_tick (d_norm (dh_dmar h))) h)
    else from_apic (Apic.mmio_read a) h;
  Apic.mmio_write a v h :=
    if a =? 0xfed90018 then set_dmar (d_command 2 v (d_norm (dh_dmar h))) h else to_apic (Apic.mmio_write a v) h;
  Apic.rdmsr_hw i := from_apic (Apic.rdmsr_hw i);
  Apic.wrmsr_hw i v := to_apic (Apic.wrmsr_hw i v);
  Apic.out8 v p := to_apic (Apic.out8 v p);
  Apic.read_cr8 h := Apic.read_cr8 (dh_apic h);
  Apic.write_cr8 v := to_apic (Apic.write_cr8 v);
  Apic.cpuid1_ecx h := Apic.cpuid1_ecx (dh_apic h)
}.
#[export] Instance demo_mmio64 : Mmio64 demo_hw := {
  mmio_readq a h := (if a =? 0xfed90008 then d_cap (dh_dmar h) else if a =? 0xfed90010 then d_ecap (dh_dmar h)
    else if a =? 0xfed90020 then d_rta (dh_dmar h) else d_irta (dh_dmar h), h);
  mmio_writeq a v h := set_dmar (if a =? 0xfed90020 then set_rta v (dh_dmar h) else set_irta v (dh_dmar h)) h
}.
#[export] Instance demo_ports : Pci.Ports demo_hw := {
  Pci.outb v p := to_bridge (Pci.outb v p); Pci.outw v p := to_bridge (Pci.outw v p); Pci.outl v p := to_bridge (Pci.outl v p);
  Pci.inb p := from_bridge (Pci.inb p); Pci.inw p := from_bridge (Pci.inw p); Pci.inl p := from_bridge (Pci.inl p)
}.
Lemma u32_u32 x : u32 (u32 x) = u32 x.
Proof. apply u32_small, u32_range. Qed.
#[export, refine] Instance demo_dmar : Dmar demo_hw := { dm h := d_norm (dh_dmar h); dm_delay := 2 }.
Proof.
  - intros h. apply u32_range.
  - done.
  - intros [[ver cap ecap gsts gcmd rta irta root irt busy] b a]. split; [done|].
    change (Q35_HOST_BRIDGE_IOMMU_ADDR + DMAR_GSTS_REG) with 0xfed9001c.
    destruct busy as [|[|n]]; unfold d_norm, d_tick; cbn -[u32]; by rewrite ?u32_u32.
  - intros [d b a] v Hv _ _. change (Q35_HOST_BRIDGE_IOMMU_ADDR + DMAR_GCMD_REG) with 0xfed90018.
    cbn -[u32 d_command]. unfold d_norm at 1, d_command. cbn -[u32].
    destruct (_ || _); cbn -[u32]; by rewrite ?u32_u32, ?(u32_small v).
  - done.
  - done.
  - done.
  - done.
  - done.
  - done.
Defined.
#[export, refine] Instance demo_conf1 : Pci.Conf1 demo_hw := {
  Pci.cfg h := Pci.cfg (dh_bridge h); Pci.rw_bits := Pci.rw_bits (H := Pci.demo_bridge)
}.
Proof.
  - intros h. apply (Pci.cfg_u32 (dh_bridge h)).
  - apply (Pci.rw_u32 (H := Pci.demo_bridge)).
  - intros h. exact (Pci.conf_readb (dh_bridge h)).
  - intros h. exact (Pci.conf_readw (dh_bridge h)).
  - intros h. exact (Pci.conf_readl (dh_bridge h)).
  - intros h. exact (Pci.conf_writew (dh_bridge h)).
  - intros h. exact (Pci.conf_writel (dh_bridge h)).
Defined.
#[export, refine] Instance demo_ioapic : Apic.IoApic demo_hw := {
  Apic.io_sel h := Apic.io_sel (dh_apic h); Apic.io_reg h := Apic.io_reg (dh_apic h);
  Apic.io_fixed := Apic.io_fixed (H := Apic.demo_apic)
}.
Proof.
  - intros h. apply (Apic.io_reg_u32 (dh_apic h)).
  - apply (Apic.io_fixed_u32 (H := Apic.demo_apic)).
  - apply (Apic.io_fixed_mask (H := Apic.demo_apic)).
  - intros h r Hr. exact (Apic.io_select (dh_apic h) r Hr).
  - intros h. cbn. by destruct h.
  - intros h v Hv. exact (Apic.io_store (dh_apic h) v Hv).
Defined.

(** Sixteen free pages; the root of the page tables is an empty page before them. *)
Definition demo_list : list Z := frames 16 0x20000.
Definition demo_pages : pstate := PState (list_to_map (zip demo_list (tail demo_list))) 0x20000 0.
Definition demo_bridge0 : Pci.demo_bridge := Pci.DemoBridge 0 Pci.demo_space.
Definition demo_apic0 : Apic.demo_apic := Apic.DemoApic 0xfee00800 (λ _, 0) 0 [] 0 (λ _, 0).
Definition demo_start : iommu demo_hw :=
  Iommu (Vm 0 0x10000 0 demo_pages Phys.demo_phys 0x80010001 0x10000 0 vmalloc [])
    (DemoHw (DmarRegs 0x10 0 0 0 0 0 0 0 0 0) demo_bridge0 demo_apic0) Apic.xapic_ops 0 0.

Lemma demo_list_free : free_list demo_pages demo_list.
Proof.
  split; [done|]. split; [by vm_compute; repeat split|]. split.
  - refine (bool_decide_unpack _ _). by vm_compute.
  - unfold demo_list. cbn [frames]. repeat constructor; vm_compute; try discriminate; done.
Qed.
Lemma demo_start_pre : vpages_pre (i_vm demo_start) 1 (vmap_tables (i_vm demo_start) 1 + 2) demo_list (λ q, q = 0x10000).
Proof.
  destruct (zero_table X86 4 (pmem demo_pages) 0x10000) as (Ht & Htr & _ & Hpp).
  - repeat split; vm_compute; congruence.
  - lia.
  - intros j Hj. assert (Forall (λ k, rd (pmem demo_pages) (0x10000 + 8 * k) = 0) (seqZ 0 512)) as Hall
      by (refine (bool_decide_unpack _ _); vm_compute; done).
    rewrite Forall_forall in Hall. apply Hall, elem_of_seqZ. lia.
  - split; [done|lia|done|by vm_compute| | |by vm_compute].
    + split; [exact Ht|apply demo_list_free|]. intros p Hp%list_elem_of_In ->. vm_compute in Hp. intuition discriminate.
    + intros va _. split; [exact (Htr va)|intros tl; apply (Hpp tl va)].
Qed.


(** The machine after [vtd_init]. *)
Lemma demo_running : ∃ s' root irt FR' own',
  vtd_running s' root FR' own' (λ q, q = root) ∧ 11 ≤ Z.of_nat (length FR') ∧
  (∀ sid iova, vtd_xlate (pmem (pages s')) root sid iova = None) ∧
  page_ok irt ∧ ¬ own' irt ∧ irt ∉ FR' ∧ index_ctr s' = 0 ∧ d_irta (dm_of s') = Z.lor irt 0xf.
Proof.
  destruct (vtd_init_ok 3 demo_start demo_list (λ q, q = 0x10000) demo_start_pre)
    as (s' & root & irt & FR' & own' & E & Hr & (_ & Hc) & (Hne & (Hp & Hpn & HpF) & Hi & Hin & HiF) & Hl & Ed & Hz & Hzi);
    [by vm_compute|by vm_compute|done|done|cbn; lia|by vm_compute|].
  clear E.
  destruct (root_zero _ _ Hp Hz) as [Hok Hx]. exists s', root, irt, FR', own'.
  assert (d_irta (dm_of s') = Z.lor irt 0xf) as Hda by (by rewrite Ed).
  split; [|split; [|exact (conj Hx (conj Hi (conj Hin (conj HiF (conj Hc Hda)))))]].
  - split; [exact Hr| |exact Hok|by intros p Hp1 ->|by intros p ->]. pose proof (land_page root 0 Hp) as E0.
    rewrite Z.lor_0_r in E0. rewrite Ed. by apply E0.
  - change (Z.of_nat (length demo_list)) with 16 in Hl.
    assert (vmap_tables (i_vm demo_start) 1 = 3) as E3 by by vm_compute. rewrite E3 in Hl. lia.
Qed.

Lemma vtd_map_range_correct_witness :
  ∃ s s' root FR FR' own used, vtd_running s root FR own (λ q, q = root) ∧
    vtd_map_range 3 0x100 0x1000 0x40000000 8192 s = Done (tt, s') ∧ FR = used ++ FR' ∧
    vtd_xlate (pmem (pages s')) root 0x100 0x2008 = Some (0x40001008, 3) ∧
    vtd_xlate (pmem (pages s')) root 0x100 0x3000 = None ∧ vtd_xlate (pmem (pages s')) root 0x101 0x1000 = None.
Proof.
  destruct demo_running as (s & root & irt & FR & own & Hrun & Hl & Hx & _).
  destruct (vtd_map_range_correct 3 0x100 0x1000 0x40000000 2 root FR own (λ q, q = root) s)
    as (s' & FR' & used & E & EF & _ & _ & _ & Htr & Hoth); try lia; try reflexivity.
  { exact Hrun. }
  { intros va _. apply Hx. }
  { assert (ntables 1 3 0x1000 (0x1000 + Z.of_nat 2 * 4096) ≤ 7) by (vm_compute; discriminate). lia. }
  exists s, s', root, FR, FR', own, used. split; [done|]. split; [exact E|]. split; [done|].
  split; [rewrite Htr by lia; by vm_compute|]. split; [rewrite Htr, Hx by lia; by vm_compute|].
  by rewrite Hoth, Hx by lia.
Defined.

(** The interrupts of the device 1.0 of Pci.v, with the tables in place. *)
Definition demo_dev : Pci.pci_dev := Pci.PciDev 8 0x40 [].
Lemma demo_msi_cap : Pci.msi_cap (H := demo_hw) 8 0x40.
Proof. split; try done; try lia; try (intros j [-> | ->]; done). Qed.
