(* ===== verification/Edu.v ===== *)
(** The edu device of QEMU: lib/pci-edu.c and pci-edu.h.

    [edu] is memory with the processor's page tables (Vmalloc.v), the hardware, the
    static of the file and the caller's [struct pci_edu_dev].  The registers are
    reached through the address that [ioremap] gave.  [EduDev] is what the proofs rely
    on: the device as QEMU's specification of it describes it, with the transfers it has
    made. *)
From Stdlib Require Import ZArith Lia Bool.
From S2P Require Import Prelude Libcflat Mem AllocPage PageTable PtDemo X86Vm Vmalloc VmxDefs Pci.
From S2P Require Apic Iommu.
#[local] Open Scope Z_scope.

(** *** pci-edu.h *)
Definition PCI_VENDOR_ID_QEMU : Z := 0x1234.
Definition PCI_DEVICE_ID_EDU : Z := 0x11e8.
Definition EDU_BAR : Z := 0.
Definition EDU_REG_ALIVE : Z := 0x4.
Definition EDU_REG_DMA_SRC : Z := 0x80.
Definition EDU_REG_DMA_DST : Z := 0x88.
Definition EDU_REG_DMA_COUNT : Z := 0x90.
Definition EDU_REG_DMA_CMD : Z := 0x98.
Definition EDU_CMD_DMA_START : Z := 0x01.
Definition EDU_CMD_DMA_FROM : Z := 0x02.
Definition EDU_CMD_DMA_TO : Z := 0x00.
Definition EDU_DMA_START : Z := 0x40000.
Definition EDU_DMA_SIZE_MAX : Z := 4096.

Record edu (H : Type) := Edu { e_vm : vm; e_hw : H; live_count : Z; e_pci : pci_dev; reg_base : Z }.
Arguments Edu {H}. Arguments e_vm {H}. Arguments e_hw {H}. Arguments live_count {H}. Arguments e_pci {H}.
Arguments reg_base {H}.

Section code.
Context {H : Type} `{Apic.Platform H} `{Iommu.Mmio64 H} `{Ports H}.
Abbreviation M := (stM (edu H)).
Definition set_vm (v : vm) (s : edu H) : edu H := Edu v (e_hw s) (live_count s) (e_pci s) (reg_base s).
Definition set_hw (h : H) (s : edu H) : edu H := Edu (e_vm s) h (live_count s) (e_pci s) (reg_base s).
Definition set_live_count (c : Z) (s : edu H) : edu H := Edu (e_vm s) (e_hw s) c (e_pci s) (reg_base s).
Definition set_pci (d : pci_dev) (s : edu H) : edu H := Edu (e_vm s) (e_hw s) (live_count s) d (reg_base s).
Definition set_reg_base (b : Z) (s : edu H) : edu H := Edu (e_vm s) (e_hw s) (live_count s) (e_pci s) b.
Definition on_vm {A} (m : stM vm A) : M A := zoom e_vm set_vm m.
Definition on_bus {A} (m : stM (bus H) A) : M A :=
  zoom (λ s, Bus (e_hw s) (vm_log (e_vm s))) (λ b s, set_vm (set_vm_log (bus_log b) (e_vm s)) (set_hw (hw b) s)) m.

Definition edu_reg (r : Z) : M Z := b ← gets reg_base; on_vm (Vm.access (u64 (b + r))).
Definition from_hw (f : H → Z * H) : M Z := λ s, Done ((f (e_hw s)).1, set_hw (f (e_hw s)).2 s).
Definition on_hw (f : H → H) : M unit := modify (λ s, set_hw (f (e_hw s)) s).
Definition edu_reg_readl (r : Z) : M Z := a ← edu_reg r; from_hw (Apic.mmio_read a).
Definition edu_reg_writel (r val : Z) : M unit := a ← edu_reg r; on_hw (Apic.mmio_write a (u32 val)).
Definition edu_reg_writeq (r val : Z) : M unit := a ← edu_reg r; on_hw (Iommu.mmio_writeq a (u64 val)).

(** [live_count] is a static of the function. *)
Definition edu_check_alive : M bool :=
  c ← gets live_count;
  modify (set_live_count (u32 (c + 1)));;
  edu_reg_writel EDU_REG_ALIVE c;;
  value ← edu_reg_readl EDU_REG_ALIVE;
  c ← gets live_count;
  mret (u32 (c - 1) =? not32 value).

Definition edu_init (fuel : nat) : M bool :=
  dev_addr ← on_bus (pci_find_dev PCI_VENDOR_ID_QEMU PCI_DEVICE_ID_EDU);
  if dev_addr =? PCIDEVADDR_INVALID then mret false
  else
    d ← on_bus (pci_dev_init dev_addr);
    modify (set_pci d);;
    d ← on_bus (pci_enable_defaults fuel d);
    modify (set_pci d);;
    r ← lift (arr_get (resource d) EDU_BAR);
    base ← on_vm (Vm.ioremap r PAGE_SIZE);
    modify (set_reg_base base);;
    alive ← edu_check_alive;
    lift (c_assert alive);;
    mret true.

(** [while (edu_reg_readl(dev, EDU_REG_DMA_CMD) & EDU_CMD_DMA_START) cpu_relax();] *)
Fixpoint dma_wait (fuel : nat) : M unit :=
  match fuel with
  | O => λ _, NoFuel
  | S fuel =>
    v ← edu_reg_readl EDU_REG_DMA_CMD;
    if negb (Z.land v EDU_CMD_DMA_START =? 0) then dma_wait fuel else mret tt
  end.
Definition edu_dma (fuel : nat) (iova size dev_offset : Z) (from_device : bool) : M unit :=
  let cmd := EDU_CMD_DMA_START in
  lift (c_assert (size <=? EDU_DMA_SIZE_MAX));;
  lift (c_assert (dev_offset <? EDU_DMA_SIZE_MAX));;
  on_vm (Vm.printf "edu device DMA start %s addr %#lx size %lu off %#x\n"
    [PStr (if from_device then "FROM" else "TO"); PInt iova; PInt size; PInt dev_offset]);;
  let '(from, to, cmd) :=
    if from_device then (u32 (dev_offset + EDU_DMA_START), iova, Z.lor cmd EDU_CMD_DMA_FROM)
    else (iova, u32 (EDU_DMA_START + dev_offset), Z.lor cmd EDU_CMD_DMA_TO) in
  edu_reg_writeq EDU_REG_DMA_SRC from;;
  edu_reg_writeq EDU_REG_DMA_DST to;;
  edu_reg_writeq EDU_REG_DMA_COUNT size;;
  edu_reg_writel EDU_REG_DMA_CMD cmd;;
  dma_wait fuel.
End code.

(** ** What the proofs rely on *)
(** The registers, the number of reads of the command register until the transfer in
    progress is made, and the transfers made, newest first: source, destination, number
    of bytes, and whether it was from the device. *)
Record device := Device {
  ed_alive : Z; ed_src : Z; ed_dst : Z; ed_count : Z; ed_cmd : Z; ed_busy : nat; ed_done : list (Z * Z * Z * bool)
}.
Definition set_alive (v : Z) (d : device) : device :=
  Device v (ed_src d) (ed_dst d) (ed_count d) (ed_cmd d) (ed_busy d) (ed_done d).
Definition set_src (v : Z) (d : device) : device :=
  Device (ed_alive d) v (ed_dst d) (ed_count d) (ed_cmd d) (ed_busy d) (ed_done d).
Definition set_dst (v : Z) (d : device) : device :=
  Device (ed_alive d) (ed_src d) v (ed_count d) (ed_cmd d) (ed_busy d) (ed_done d).
Definition set_count (v : Z) (d : device) : device :=
  Device (ed_alive d) (ed_src d) (ed_dst d) v (ed_cmd d) (ed_busy d) (ed_done d).
Definition set_cmd (v : Z) (n : nat) (d : device) : device :=
  Device (ed_alive d) (ed_src d) (ed_dst d) (ed_count d) v n (ed_done d).
(** The transfer is made: the start bit goes. *)
Definition finish (d : device) : device :=
  Device (ed_alive d) (ed_src d) (ed_dst d) (ed_count d) (Z.ldiff (ed_cmd d) EDU_CMD_DMA_START) 0
    ((ed_src d, ed_dst d, ed_count d, Z.testbit (ed_cmd d) 1) :: ed_done d).
Definition tick (d : device) : device :=
  match ed_busy d with O => d | S O => finish d | S n => set_cmd (ed_cmd d) n d end.
Definition start (delay : nat) (v : Z) (d : device) : device :=
  if (delay =? 0)%nat then finish (set_cmd v 0 d) else set_cmd v delay d.
Definition status (d : device) : Z :=
  if (ed_busy d =? 0)%nat then Z.ldiff (ed_cmd d) EDU_CMD_DMA_START else Z.lor (ed_cmd d) EDU_CMD_DMA_START.
(** The end of a transfer in the device is inside its buffer; the device does not answer
    for others. *)
Definition in_buffer (v : Z) (d : device) : Prop :=
  let a := if Z.testbit v 1 then ed_src d else ed_dst d in
  EDU_DMA_START ≤ a ∧ a + ed_count d ≤ EDU_DMA_START + EDU_DMA_SIZE_MAX.

Class EduDev (H : Type) `{Apic.Platform H} `{Iommu.Mmio64 H} `{Conf1 H} := {
  ed : H → device;
  ed_base : Z;
  ed_delay : nat;
  ed_alive_write h v : in_u32 v → ed (Apic.mmio_write (ed_base + EDU_REG_ALIVE) v h) = set_alive (not32 v) (ed h);
  ed_alive_read h : let r := Apic.mmio_read (ed_base + EDU_REG_ALIVE) h in r.1 = ed_alive (ed h) ∧ ed r.2 = ed h;
  ed_src_write h v : ed_busy (ed h) = O → in_u64 v →
    ed (Iommu.mmio_writeq (ed_base + EDU_REG_DMA_SRC) v h) = set_src v (ed h);
  ed_dst_write h v : ed_busy (ed h) = O → in_u64 v →
    ed (Iommu.mmio_writeq (ed_base + EDU_REG_DMA_DST) v h) = set_dst v (ed h);
  ed_count_write h v : ed_busy (ed h) = O → in_u64 v →
    ed (Iommu.mmio_writeq (ed_base + EDU_REG_DMA_COUNT) v h) = set_count v (ed h);
  ed_cmd_write h v : ed_busy (ed h) = O → in_u32 v → Z.testbit v 0 = true → in_buffer v (ed h) →
    ed (Apic.mmio_write (ed_base + EDU_REG_DMA_CMD) v h) = start ed_delay v (ed h);
  ed_cmd_read h : let r := Apic.mmio_read (ed_base + EDU_REG_DMA_CMD) h in r.1 = status (ed h) ∧ ed r.2 = tick (ed h);
  (** The registers are not reached through ports, nor the configuration space through them. *)
  ed_outl v p h : ed (outl v p h) = ed h;
  ed_outw v p h : ed (outw v p h) = ed h;
  ed_inb p h : ed (inb p h).2 = ed h;
  ed_inw p h : ed (inw p h).2 = ed h;
  ed_inl p h : ed (inl p h).2 = ed h;
  ed_cfg_write a v h d i : ed_base ≤ a < ed_base + 4096 → cfg (Apic.mmio_write a v h) d i = cfg h d i;
  ed_cfg_read a h d i : ed_base ≤ a < ed_base + 4096 → cfg (Apic.mmio_read a h).2 d i = cfg h d i
}.

(** ** Proofs *)
Section proofs.
Context {H : Type} `{EduDev H}.
Implicit Types s : edu H.
Definition dev_of s : device := ed (e_hw s).

(** *** Code on the configuration space leaves the device alone *)
Definition keeps {A} (m : stM (bus H) A) : Prop := ∀ (s : bus H) a (s' : bus H), m s = Done (a, s') → ed (hw s') = ed (hw s).
Lemma keeps_ret {A} (a : A) : keeps (mret a).
Proof. intros s b s' [= -> ->]. done. Qed.
Lemma keeps_lift {A} (m : outcome A) : keeps (lift m).
Proof. intros s a s' E. unfold lift in E. destruct m; cbn in E; by simplify_eq. Qed.
Lemma keeps_fuel {A} : keeps (λ _, @NoFuel (A * bus H)).
Proof. by intros s a s' E. Qed.
Lemma keeps_bind {A B} (m : stM (bus H) A) (f : A → stM (bus H) B) : keeps m → (∀ a, keeps (f a)) → keeps (m ≫= f).
Proof.
  intros Hm Hf s b s' E. unfold mbind, stM_bind in E. destruct (m s) as [[a s1]| | | |] eqn:E1; try done.
  rewrite (Hf _ _ _ _ E). by apply (Hm _ _ _ E1).
Qed.
Lemma keeps_readb d r : keeps (pci_config_readb d r).
Proof. intros s a s' [= <- <-]. cbn. by rewrite ed_inb, ed_outl. Qed.
Lemma keeps_readw d r : keeps (pci_config_readw d r).
Proof. intros s a s' [= <- <-]. cbn. by rewrite ed_inw, ed_outl. Qed.
Lemma keeps_readl d r : keeps (pci_config_readl d r).
Proof. intros s a s' [= <- <-]. cbn. by rewrite ed_inl, ed_outl. Qed.
Lemma keeps_writew d r v : keeps (pci_config_writew d r v).
Proof. intros s a s' [= <- <-]. cbn. by rewrite ed_outw, ed_outl. Qed.
Lemma keeps_writel d r v : keeps (pci_config_writel d r v).
Proof. intros s a s' [= <- <-]. cbn. by rewrite !ed_outl. Qed.
Create HintDb edu_keeps.
#[local] Hint Resolve keeps_ret keeps_lift keeps_fuel keeps_readb keeps_readw keeps_readl keeps_writew keeps_writel : edu_keeps.
Ltac keeps := repeat (cbv zeta; first
  [ solve [auto with edu_keeps] | apply keeps_bind; [|intros ?]
  | match goal with |- keeps (if ?b then _ else _) => destruct b end ]).

Lemma keeps_find_dev n v d : ∀ dev, keeps (find_dev_loop n dev v d).
Proof. induction n; intros dev; cbn [find_dev_loop]; keeps. Qed.
Lemma keeps_get d i : keeps (pci_bar_get d i).
Proof. unfold pci_bar_get. keeps. Qed.
#[local] Hint Resolve keeps_get : edu_keeps.
Lemma keeps_is64 d i : keeps (pci_bar_is64 d i).
Proof. unfold pci_bar_is64. keeps. Qed.
Lemma keeps_size_helper d i : keeps (pci_bar_size_helper d i).
Proof. unfold pci_bar_size_helper. keeps. Qed.
#[local] Hint Resolve keeps_is64 keeps_size_helper : edu_keeps.
Lemma keeps_size d i : keeps (pci_bar_size d i).
Proof. unfold pci_bar_size. keeps. Qed.
Lemma keeps_get_addr d i : keeps (__pci_bar_get_addr d i).
Proof. unfold __pci_bar_get_addr. keeps. Qed.
#[local] Hint Resolve keeps_size keeps_get_addr : edu_keeps.
Lemma keeps_dev_init fuel : ∀ i d, keeps (dev_init_loop fuel i d).
Proof. induction fuel; intros i d; cbn [dev_init_loop]; keeps. Qed.
Lemma keeps_cap_walk fuel : ∀ d off c, keeps (cap_walk_loop fuel pci_cap_setup d off c).
Proof. induction fuel; intros d off c; cbn [cap_walk_loop]; unfold pci_cap_setup; keeps. Qed.
#[local] Hint Resolve keeps_cap_walk : edu_keeps.
Lemma keeps_enable_defaults fuel d : keeps (pci_enable_defaults fuel d).
Proof. unfold pci_enable_defaults, pci_cmd_set_clr, pci_cap_walk. keeps. Qed.

(** *** The registers *)
Definition mapped s : Prop := device_mapped (e_vm s) (reg_base s) ed_base.

Lemma edu_reg_ok r s : mapped s → 0 ≤ r < 4096 → edu_reg r s = Done (ed_base + r, s).
Proof.
  intros Hm Hr. unfold edu_reg. rewrite bind_gets. unfold on_vm, zoom. rewrite (access_ok _ _ _ _ Hm Hr). by destruct s.
Qed.
Lemma mapped_hw h s : mapped s → mapped (set_hw h s).
Proof. done. Qed.
Lemma edu_readl_ok r s : mapped s → 0 ≤ r < 4096 →
  edu_reg_readl r s = Done ((Apic.mmio_read (ed_base + r) (e_hw s)).1, set_hw (Apic.mmio_read (ed_base + r) (e_hw s)).2 s).
Proof. intros Hm Hr. unfold edu_reg_readl. by rewrite (stM_bind_Done _ _ _ _ _ (edu_reg_ok r s Hm Hr)). Qed.
Lemma edu_writel_ok r v s : mapped s → 0 ≤ r < 4096 →
  edu_reg_writel r v s = Done (tt, set_hw (Apic.mmio_write (ed_base + r) (u32 v) (e_hw s)) s).
Proof. intros Hm Hr. unfold edu_reg_writel. by rewrite (stM_bind_Done _ _ _ _ _ (edu_reg_ok r s Hm Hr)). Qed.
Lemma edu_writeq_ok r v s : mapped s → 0 ≤ r < 4096 →
  edu_reg_writeq r v s = Done (tt, set_hw (Iommu.mmio_writeq (ed_base + r) (u64 v) (e_hw s)) s).
Proof. intros Hm Hr. unfold edu_reg_writeq. by rewrite (stM_bind_Done _ _ _ _ _ (edu_reg_ok r s Hm Hr)). Qed.

(** The device answers the check, whatever the counter is. *)
Lemma check_alive_ok s : mapped s → in_u32 (live_count s) →
  ∃ h, edu_check_alive s = Done (true, set_hw h (set_live_count (u32 (live_count s + 1)) s)) ∧
    ed h = set_alive (not32 (live_count s)) (dev_of s) ∧ ∀ d i, cfg h d i = cfg (e_hw s) d i.
Proof.
  intros Hm Hc. unfold edu_check_alive. rewrite bind_gets, bind_modify. set (c := live_count s) in *.
  rewrite (stM_bind_Done _ _ _ _ _ (edu_writel_ok EDU_REG_ALIVE c (set_live_count (u32 (c + 1)) s) Hm ltac:(done))).
  match goal with |- context [set_hw ?h _] => set (h1 := h) end.
  rewrite (stM_bind_Done _ _ _ _ _ (edu_readl_ok EDU_REG_ALIVE (set_hw h1 (set_live_count (u32 (c + 1)) s)) Hm ltac:(done))).
  rewrite bind_gets. cbn [e_hw set_hw live_count set_live_count].
  assert (ed h1 = set_alive (not32 c) (dev_of s)) as E1.
  { unfold h1. rewrite (u32_small c Hc). by apply ed_alive_write. }
  destruct (ed_alive_read h1) as [E2 E3]. rewrite E2, E1. cbn [ed_alive set_alive].
  replace (u32 (u32 (c + 1) - 1)) with c.
  2:{ unfold u32 in *. rewrite Zminus_mod_idemp_l. replace (c + 1 - 1) with c by lia. symmetry. by apply Z.mod_small. }
  assert (not32 (not32 c) = c) as ->.
  { unfold not32. zbits; [by destruct (Z.testbit c i)|by rewrite (testbit_above 32 c)]. }
  rewrite Z.eqb_refl. eexists. split; [reflexivity|]. rewrite E3. split; [done|].
  intros d i. rewrite ed_cfg_read by (unfold EDU_REG_ALIVE; lia). apply ed_cfg_write. unfold EDU_REG_ALIVE. lia.
Qed.

(** *** Transfers *)
Lemma dma_wait_ok n : ∀ s fuel, mapped s → ed_busy (dev_of s) = n → (n < fuel)%nat →
  ∃ h, dma_wait fuel s = Done (tt, set_hw h s) ∧ ed h = if (n =? 0)%nat then dev_of s else finish (dev_of s).
Proof.
  induction n as [|n IH]; intros s [|fuel] Hm Hb Hf; try lia; cbn [dma_wait];
    rewrite (stM_bind_Done _ _ _ _ _ (edu_readl_ok EDU_REG_DMA_CMD s Hm ltac:(done)));
    destruct (ed_cmd_read (e_hw s)) as [E1 E2]; rewrite E1; fold (dev_of s) in *;
    unfold status; unfold tick in E2; rewrite Hb in *;
    change EDU_CMD_DMA_START with (2 ^ 0); rewrite land_pow2_zero by lia.
  - cbn [Nat.eqb]. rewrite Z.ldiff_spec. change (Z.testbit (2 ^ 0) 0) with true. rewrite andb_false_r. cbn [negb].
    eexists. split; [reflexivity|exact E2].
  - cbn [Nat.eqb]. rewrite Z.lor_spec. change (Z.testbit (2 ^ 0) 0) with true. rewrite orb_true_r. cbn [negb].
    set (h1 := (Apic.mmio_read _ _).2) in *.
    destruct (IH (set_hw h1 s) fuel Hm) as (h2 & Ew & Ed); [|lia|].
    + unfold dev_of. cbn [e_hw set_hw]. rewrite E2. by destruct n.
    + exists h2. split; [exact Ew|]. rewrite Ed. unfold dev_of at 1 2. cbn [e_hw set_hw]. rewrite E2. by destruct n.
Qed.

(** The registers of a transfer. *)
Definition xfer (iova size dev_offset : Z) (from_device : bool) : Z * Z * Z * bool :=
  if from_device then (EDU_DMA_START + dev_offset, iova, size, true) else (iova, EDU_DMA_START + dev_offset, size, false).

Lemma start_transfer d0 src dst n v : ed_busy d0 = O →
  let d := start ed_delay v (set_count n (set_dst dst (set_src src d0))) in
  ∃ d', d' = (if (ed_busy d =? 0)%nat then d else finish d) ∧ (ed_busy d ≤ ed_delay)%nat ∧ ed_busy d' = O ∧
    ed_done d' = (src, dst, n, Z.testbit v 1) :: ed_done d0.
Proof.
  intros Hb. cbv zeta. eexists. split; [reflexivity|]. unfold start.
  destruct (Nat.eqb_spec ed_delay 0) as [->|Hn]; [done|]. cbn. by rewrite (proj2 (Nat.eqb_neq _ _) Hn).
Qed.

Lemma dma_start_ok src dst size cmd (k : stM (edu H) unit) s :
  mapped s → ed_busy (dev_of s) = O → in_u64 src → in_u64 dst → in_u64 size → in_u32 cmd → Z.testbit cmd 0 = true →
  in_buffer cmd (set_count size (set_dst dst (set_src src (dev_of s)))) →
  ∃ h, (edu_reg_writeq EDU_REG_DMA_SRC src;; edu_reg_writeq EDU_REG_DMA_DST dst;; edu_reg_writeq EDU_REG_DMA_COUNT size;;
      edu_reg_writel EDU_REG_DMA_CMD cmd;; k) s = k (set_hw h s) ∧
    ed h = start ed_delay cmd (set_count size (set_dst dst (set_src src (dev_of s)))).
Proof.
  intros Hm Hb Hsrc Hdst Hsz Hcmd Hbit Hin.
  rewrite (stM_bind_Done _ _ _ _ _ (edu_writeq_ok EDU_REG_DMA_SRC src s Hm ltac:(done))), (u64_small src) by done.
  set (h2 := Iommu.mmio_writeq _ _ _). assert (ed h2 = set_src src (dev_of s)) as E2 by (by apply ed_src_write).
  rewrite (stM_bind_Done _ _ _ _ _ (edu_writeq_ok EDU_REG_DMA_DST dst (set_hw h2 s) Hm ltac:(done))), (u64_small dst) by done.
  set (h3 := Iommu.mmio_writeq (_ + EDU_REG_DMA_DST) _ _).
  assert (ed h3 = set_dst dst (ed h2)) as E3 by (apply ed_dst_write; [cbn; by rewrite E2|done]).
  rewrite (stM_bind_Done _ _ _ _ _ (edu_writeq_ok EDU_REG_DMA_COUNT size (set_hw h3 (set_hw h2 s)) Hm ltac:(done))),
    (u64_small size) by done.
  set (h4 := Iommu.mmio_writeq (_ + EDU_REG_DMA_COUNT) _ _).
  assert (ed h4 = set_count size (ed h3)) as E4 by (apply ed_count_write; [cbn; by rewrite E3, E2|done]).
  rewrite (stM_bind_Done _ _ _ _ _ (edu_writel_ok EDU_REG_DMA_CMD cmd (set_hw h4 (set_hw h3 (set_hw h2 s))) Hm ltac:(done))),
    (u32_small cmd) by done.
  rewrite E3, E2 in E4. eexists. split; [reflexivity|]. rewrite <- E4.
  apply ed_cmd_write; [cbn; by rewrite E4|done|done|]. cbn. by rewrite E4.
Qed.

(** [edu_dma] makes exactly the transfer it is asked for and returns when the device has
    made it, so that the next may follow; transfers that are too long or start outside
    the buffer end in an assertion.  A transfer from inside the buffer beyond its end
    passes the assertions: it is the caller's to avoid. *)
Theorem edu_dma_correct fuel iova size off from_device s :
  mapped s → ed_busy (dev_of s) = O → in_u64 iova → 0 ≤ size → 0 ≤ off → (ed_delay < fuel)%nat →
  (off + size ≤ EDU_DMA_SIZE_MAX → off < EDU_DMA_SIZE_MAX →
   ∃ s', edu_dma fuel iova size off from_device s = Done (tt, s') ∧ mapped s' ∧ ed_busy (dev_of s') = O ∧
     ed_done (dev_of s') = xfer iova size off from_device :: ed_done (dev_of s) ∧
     e_pci s' = e_pci s ∧ live_count s' = live_count s) ∧
  (EDU_DMA_SIZE_MAX < size ∨ EDU_DMA_SIZE_MAX ≤ off → edu_dma fuel iova size off from_device s = Abort).
Proof.
  intros Hm Hb Hi Hs Ho Hf. unfold EDU_DMA_SIZE_MAX. split.
  2:{ intros Hbad. unfold edu_dma, EDU_DMA_SIZE_MAX. destruct (Z.leb_spec size 4096); [|done].
      destruct (Z.ltb_spec off 4096); [lia|done]. }
  intros Hsz Ho'. unfold edu_dma, EDU_DMA_SIZE_MAX. rewrite (proj2 (Z.leb_le _ _)), (proj2 (Z.ltb_lt _ _)) by lia.
  cbn [c_assert]. rewrite !bind_lift_Done. cbv zeta.
  match goal with |- context [(on_vm (Vm.printf ?fmt ?args) ≫= ?f) s] =>
    set (s1 := set_vm (set_vm_log ((fmt, args) :: vm_log (e_vm s)) (e_vm s)) s);
    change ((on_vm (Vm.printf fmt args) ≫= f) s) with (f tt s1) end.
  cbv beta. assert (mapped s1) as Hm1 by (by destruct Hm).
  set (src := (xfer iova size off from_device).1.1.1). set (dst := (xfer iova size off from_device).1.1.2).
  set (cmd := if from_device then 3 else 1).
  match goal with |- context [if from_device then (?a, ?b, ?c) else ?d] =>
    assert ((if from_device then (a, b, c) else d) = (src, dst, cmd)) as -> end.
  { unfold src, dst, cmd, xfer, EDU_DMA_START in *.
    destruct from_device; cbn [fst snd]; rewrite u32_small by (unfold in_u32; lia); [rewrite Z.add_comm|]; done. }
  destruct (dma_start_ok src dst size cmd (dma_wait fuel) s1) as (h5 & E & E5); try done.
  1,2: unfold src, dst, xfer, EDU_DMA_START, in_u64 in *; destruct from_device; cbn [fst snd]; lia.
  1: unfold in_u64; lia.
  1,2: unfold cmd; by destruct from_device.
  1: unfold in_buffer, cmd, src, dst, xfer, EDU_DMA_SIZE_MAX; destruct from_device; cbn; lia.
  change (dev_of s1) with (dev_of s) in E5. rewrite E.
  destruct (start_transfer (dev_of s) src dst size cmd Hb) as (d' & Ed' & Hle & Hb' & Hdone). cbv zeta in *.
  rewrite <- E5 in Ed', Hle.
  destruct (dma_wait_ok _ (set_hw h5 s1) fuel Hm1 eq_refl) as (h6 & Ew & E6); [unfold dev_of; cbn; lia|].
  eexists. split; [exact Ew|]. split; [exact Hm1|]. unfold dev_of in *. cbn [e_hw set_hw] in *. rewrite E6, <- Ed'.
  split; [done|]. split; [|done]. rewrite Hdone. unfold src, dst, cmd, xfer. by destruct from_device.
Qed.

(** *** Setting the device up *)
Lemma on_bus_ok {A} (m : stM (bus H) A) a b s : keeps m → m (Bus (e_hw s) (vm_log (e_vm s))) = Done (a, b) →
  bus_log b = vm_log (e_vm s) → on_bus m s = Done (a, set_hw (hw b) s) ∧ ed (hw b) = dev_of s.
Proof.
  intros Hk E L. unfold on_bus, zoom. rewrite E. cbn [mbind outcome_bind]. rewrite L.
  split; [by destruct s as [[] ? ? ? ?]|]. apply (Hk _ _ _ E).
Qed.
Lemma on_bus_reads {A} (m : stM (bus H) A) a s : keeps m → reads m (Bus (e_hw s) (vm_log (e_vm s))) a →
  ∃ h, on_bus m s = Done (a, set_hw h s) ∧ (∀ d i, cfg h d i = cfg (e_hw s) d i) ∧ ed h = dev_of s.
Proof.
  intros Hk (b & E & C & L). exists (hw b). destruct (on_bus_ok m a b s Hk E L) as [E' D]. by split_and!.
Qed.

(** The first device with the identifiers of edu is [dev], with these base address
    registers, the first of which holds the address of the device's registers, and
    these capabilities. *)
Record edu_at (c : Z → Z → Z) (s : bus H) (dev : Z) (bs : list bar) (l : list (Z * Z)) : Prop := {
  ea_first : first_dev c PCI_VENDOR_ID_QEMU PCI_DEVICE_ID_EDU (seqZ 0 PCI_DEVFN_MAX) = dev;
  ea_found : dev ≠ PCIDEVADDR_INVALID;
  ea_bars : Forall bar_ok bs ∧ bars_len bs = 6 ∧ regs_at s dev 0 (flat_map bar_regs bs);
  ea_bar : ∃ fl k bs', bs = MemBar fl k ed_base :: bs' ∧ 12 ≤ k;
  ea_caps : caps_at (c dev) (field (c dev) PCI_CAPABILITY_LIST 8) l ∧ Forall (λ x, 0x40 ≤ x.1) l ∧ (length l ≤ 255)%nat;
  ea_master : Z.testbit (rw_bits dev 1) 2 = true
}.

Lemma found_msi_resource l : ∀ d, resource (found_msi d l) = resource d.
Proof.
  induction l as [|[o id] l IH]; intros d; [done|]. unfold found_msi in *. cbn [foldl]. rewrite IH. by destruct (_ =? _).
Qed.

(** Finding the resources and the capabilities of the device at [dev]. *)
Lemma edu_device_ok fuel c s dev bs l :
  edu_at c (Bus (e_hw s) (vm_log (e_vm s))) dev bs l → (∀ d i, cfg (e_hw s) d i = c d i) → (length l ≤ fuel)%nat →
  let d := PciDev dev 0 (bar_resources bs) in
  ∃ h2 h3, on_bus (pci_dev_init dev) s = Done (d, set_hw h2 s) ∧
    on_bus (pci_enable_defaults fuel d) (set_pci d (set_hw h2 s)) = Done (found_msi d l, set_hw h3 (set_pci d s)) ∧
    ed h3 = dev_of s ∧
    ∀ x i, cfg h3 x i = if decide (x = dev ∧ i = 1) then Z.lor (c x i) PCI_COMMAND_MASTER else c x i.
Proof.
  intros [Hfirst Hfound (Hok & Hlen & Hregs) _ (Hcaps & Hall & Hl) Hmaster] C1 Hf d.
  assert (0 ≤ dev < 2 ^ 16) as Hdev.
  { pose proof (first_dev_range c _ _ _ _ _ Hfirst Hfound ltac:(done)). unfold PCI_DEVFN_MAX in *. lia. }
  destruct (on_bus_reads _ _ s (keeps_dev_init _ _ _) (pci_dev_init_ok dev bs _ Hdev Hok Hlen Hregs)) as (h2 & E2 & C2 & D2).
  assert (∀ x i, cfg h2 x i = c x i) as C02 by (intros; by rewrite C2, C1).
  destruct (pci_enable_defaults_ok d l (Bus h2 (vm_log (e_vm s))) fuel) as (b3 & E3 & L3 & C3);
    [exact Hdev|done|done|done| |exact Hmaster|].
  { cbn [hw bdf d]. rewrite (field_same (cfg h2 dev) (c dev)) by done. by apply (caps_at_same (c dev)). }
  destruct (on_bus_ok _ _ _ (set_pci d (set_hw h2 s)) (keeps_enable_defaults fuel d) E3 L3) as [E3' D3].
  exists h2, (hw b3). split; [exact E2|]. split; [exact E3'|].
  split; [rewrite D3; exact D2|]. intros x i. rewrite C3. cbn [hw]. by rewrite C02.
Qed.

(** [edu_init] fails without a trace if there is no such device.  Otherwise it finds the
    device, makes it a bus master, maps its registers and has its answer to the check;
    of the configuration space only the master bit changes, and the device is ready for
    a transfer if it was before. *)
Theorem edu_init_correct fuel s :
  let c := cfg (e_hw s) in let v := next_vpages (e_vm s) 1 in
  (first_dev c PCI_VENDOR_ID_QEMU PCI_DEVICE_ID_EDU (seqZ 0 PCI_DEVFN_MAX) = PCIDEVADDR_INVALID →
   ∃ h, edu_init fuel s = Done (false, set_hw h s) ∧ (∀ d i, cfg h d i = c d i) ∧ ed h = dev_of s) ∧
  ∀ dev bs l FR own, edu_at c (Bus (e_hw s) (vm_log (e_vm s))) dev bs l → (length l ≤ fuel)%nat →
    vpages_pre (e_vm s) 1 (vmap_tables (e_vm s) 1) FR own → in_u32 (live_count s) →
    Z.land (vm_cr0 (e_vm s)) X86_CR0_PG ≠ 0 → vm_cr3 (e_vm s) = page_root (e_vm s) →
    ∃ s', edu_init fuel s = Done (true, s') ∧ e_pci s' = found_msi (PciDev dev 0 (bar_resources bs)) l ∧
      reg_base s' = v ∧ mapped s' ∧ live_count s' = u32 (live_count s + 1) ∧
      dev_of s' = set_alive (not32 (live_count s)) (dev_of s) ∧
      ∀ x i, cfg (e_hw s') x i = if decide (x = dev ∧ i = 1) then Z.lor (c x i) PCI_COMMAND_MASTER else c x i.
Proof.
  intros c v. unfold edu_init.
  destruct (on_bus_reads _ _ s (keeps_find_dev _ _ _ 0) (pci_find_dev_ok PCI_VENDOR_ID_QEMU PCI_DEVICE_ID_EDU _))
    as (h1 & E1 & C1 & D1).
  cbn [hw] in E1. fold c in E1, C1.
  change (find_dev_loop _ 0 _ _) with (pci_find_dev (H := H) PCI_VENDOR_ID_QEMU PCI_DEVICE_ID_EDU) in E1.
  split; [intros Hn; rewrite Hn in E1; exists h1; split; [by rewrite (stM_bind_Done _ _ _ _ _ E1)|by split]|].
  intros dev bs l FR own Hea Hf Hpre Hc Hpg Hcr.
  pose proof Hea as [Hfirst Hfound (Hok & Hlen & Hregs) (fl & k & bs' & Ebs & Hk) Hcaps Hmaster].
  rewrite Hfirst in E1. rewrite (stM_bind_Done _ _ _ _ _ E1), (proj2 (Z.eqb_neq _ _) Hfound). set (s1 := set_hw h1 s) in *.
  destruct (edu_device_ok fuel c s1 dev bs l) as (h2 & h3 & E2 & E3 & D3 & C3); [|exact C1|done|].
  { split; try done; [|by exists fl, k, bs'].
    split; [done|]. split; [done|]. refine (regs_at_same _ _ _ _ _ _ Hregs). by split. }
  set (d := PciDev dev 0 (bar_resources bs)) in *.
  rewrite (stM_bind_Done _ _ _ _ _ E2), bind_modify, (stM_bind_Done _ _ _ _ _ E3), bind_modify.
  set (s3 := set_pci (found_msi d l) (set_hw h3 s1)).
  assert (arr_get (resource (found_msi d l)) EDU_BAR = Done ed_base) as Er 
    by (rewrite found_msi_resource; unfold d; cbn [resource]; by rewrite Ebs).
  rewrite Er, bind_lift_Done.
  rewrite Ebs in Hok. apply Forall_cons in Hok as [Hb _]. destruct (bar_page _ _ _ Hb Hk) as (Ha & Hb1 & Hb2).
  destruct (ioremap_device ed_base (e_vm s3) FR own Hb1 Ha Hb2 Hpre Hpg Hcr) as (p' & E4 & M4).
  set (s4 := set_reg_base v (set_vm (set_vm_pages p' (set_vfree_top v (e_vm s))) s3)).
  assert (on_vm (Vm.ioremap ed_base PAGE_SIZE) s3 = Done (v, set_vm (set_vm_pages p' (set_vfree_top v (e_vm s))) s3)) as E4'
    by (unfold on_vm, zoom; by rewrite E4).
  change (set_pci (found_msi d l) (set_hw h3 (set_pci d s1))) with s3.
  rewrite (stM_bind_Done _ _ _ _ _ E4'), bind_modify. fold s4.
  destruct (check_alive_ok s4) as (h5 & E5 & D5 & C5); [exact M4|exact Hc|].
  rewrite (stM_bind_Done _ _ _ _ _ E5). eexists. split; [reflexivity|].
  split; [done|]. split; [done|]. split; [exact M4|]. split; [done|]. split.
  - unfold dev_of. cbn [e_hw set_hw]. rewrite D5. change (dev_of s4) with (ed h3). rewrite D3.
    change (dev_of s1) with (ed h1). by rewrite D1.
  - intros x i. cbn [e_hw set_hw]. rewrite C5. apply C3.
Qed.
End proofs.

(** ** A concrete machine *)
#[local] Existing Instances Pci.demo_ports Pci.demo_conf1.
(** The device in place of the one at 1.0 of Pci.v; a transfer takes two reads. *)
Record demo_hw := DemoHw { dh_dev : device; dh_bridge : demo_bridge }.
Definition to_dev (f : device → device) (h : demo_hw) : demo_hw := DemoHw (f (dh_dev h)) (dh_bridge h).
Definition to_bridge (f : demo_bridge → demo_bridge) (h : demo_hw) : demo_hw := DemoHw (dh_dev h) (f (dh_bridge h)).
Definition from_bridge (f : demo_bridge → Z * demo_bridge) (h : demo_hw) : Z * demo_hw :=
  ((f (dh_bridge h)).1, DemoHw (dh_dev h) (f (dh_bridge h)).2).
#[local] Instance demo_platform : Apic.Platform demo_hw := {
  Apic.mmio_read a h := if a =? 0xfe000004 then (ed_alive (dh_dev h), h)
    else if a =? 0xfe000098 then (status (dh_dev h), to_dev tick h) else (0, h);
  Apic.mmio_write a v h := if a =? 0xfe000004 then to_dev (set_alive (not32 v)) h
    else if a =? 0xfe000098 then to_dev (start 2 v) h else h;
  Apic.rdmsr_hw _ h := (0, h); Apic.wrmsr_hw _ _ h := h; Apic.out8 _ _ h := h;
  Apic.read_cr8 _ := 0; Apic.write_cr8 _ h := h; Apic.cpuid1_ecx _ := 0
}.
#[local] Instance demo_mmio64 : Iommu.Mmio64 demo_hw := {
  Iommu.mmio_readq _ h := (0, h);
  Iommu.mmio_writeq a v := to_dev (if a =? 0xfe000080 then set_src v else if a =? 0xfe000088 then set_dst v else set_count v)
}.
#[local] Instance demo_hw_ports : Ports demo_hw := {
  outb v p := to_bridge (outb v p); outw v p := to_bridge (outw v p); outl v p := to_bridge (outl v p);
  inb p := from_bridge (inb p); inw p := from_bridge (inw p); inl p := from_bridge (inl p)
}.
#[local, refine] Instance demo_hw_conf1 : Conf1 demo_hw := {
  cfg h := cfg (dh_bridge h); rw_bits := rw_bits (H := demo_bridge)
}.
Proof.
  - intros h. apply (cfg_u32 (dh_bridge h)).
  - apply (rw_u32 (H := demo_bridge)).
  - intros h. exact (conf_readb (dh_bridge h)).
  - intros h. exact (conf_readw (dh_bridge h)).
  - intros h. exact (conf_readl (dh_bridge h)).
  - intros h. exact (conf_writew (dh_bridge h)).
  - intros h. exact (conf_writel (dh_bridge h)).
Defined.
#[local, refine] Instance demo_edu : EduDev demo_hw := { ed := dh_dev; ed_base := 0xfe000000; ed_delay := 2 }.
Proof.
  all: try done.
  - intros a v h d i _. cbn. by repeat destruct (_ =? _).
  - intros a h d i _. cbn. by repeat destruct (_ =? _).
Defined.

Definition demo_hw0 : demo_hw := DemoHw (Device 0 0 0 0 0 0 []) (DemoBridge 0 (<[(8, 0) := 0x11e81234]> demo_space)).
Definition demo_edu0 : edu demo_hw := Edu demo_vm demo_hw0 1 (PciDev 0 0 []) 0.

(** The device is found and mapped, and a transfer to it is made. *)
Example edu_run :
  ∃ s1 s2, edu_init 2 demo_edu0 = Done (true, s1) ∧
    e_pci s1 = PciDev 8 0x40 [0xfe000000; 0x380000000000; 0x380000000000; 0xc000; INVALID_PHYS_ADDR; INVALID_PHYS_ADDR] ∧
    edu_dma 3 0x5000 64 0x10 false s1 = Done (tt, s2) ∧ ed_done (dev_of s2) = [(0x5000, 0x40010, 64, false)].
Proof.
  destruct (edu_init_correct 2 demo_edu0) as [_ Hi].
  destruct (Hi 8 demo_bars [(0x40, 5); (0x50, 0x11)] demo_frames (λ q, q = 0x10000))
    as (s1 & E1 & Ep & _ & Hm & _ & Hd & _).
  - split.
    + by vm_compute.
    + done.
    + split; [exact demo_bars_ok|]. split; [done|]. intros n x Hx.
      do 6 (destruct n as [|n]; [injection Hx as <-; by vm_compute|]). done.
    + eexists _, _, _. split; [reflexivity|lia].
    + split; [by vm_compute|]. split; [|cbn; lia]. repeat constructor; cbn; lia.
    + by vm_compute.
  - cbn. lia.
  - apply demo_vm_pre. vm_compute. discriminate.
  - done.
  - by vm_compute.
  - done.
  - destruct (edu_dma_correct 3 0x5000 64 0x10 false s1) as [Hx _].
    + exact Hm.
    + rewrite Hd. reflexivity.
    + unfold in_u64. lia.
    + lia.
    + lia.
    + cbn. lia.
    + destruct Hx as (s2 & E2 & _ & _ & Hdone & _); [unfold EDU_DMA_SIZE_MAX; lia|unfold EDU_DMA_SIZE_MAX; lia|].
      exists s1, s2. split; [exact E1|]. split; [rewrite Ep; reflexivity|]. split; [exact E2|].
      rewrite Hdone, Hd. reflexivity.
Qed.
