(* ===== verification/Testdev.v ===== *)
(** The pci-testdev device of QEMU: lib/pci-testdev.c.

    [tdev] is memory with the processor's page tables (Vmalloc.v), whose text is the text
    printed, and the hardware.  A test runs through [pci_testdev_ops], once for the
    device's range of memory and once for its range of ports.  [serves] is what the
    proofs rely on: the header behind such a range, as QEMU documents it. *)
From Stdlib Require Import ZArith Lia Bool.
From S2P Require Import Prelude Libcflat Mem AllocPage PageTable PtDemo X86Vm Vmalloc VmxDefs Pci.
#[local] Open Scope Z_scope.

(** *** pci.h *)
Definition PCI_VENDOR_ID_REDHAT : Z := 0x1b36.
Definition PCI_DEVICE_ID_REDHAT_TEST : Z := 0x0005.
(** The offsets of the members of [struct pci_test_dev_hdr]. *)
Module Hdr.
Definition test : Z := 0.
Definition width : Z := 1.
Definition offset : Z := 4.
Definition data : Z := 8.
Definition count : Z := 12.
Definition name : Z := 16.
End Hdr.

(** Accesses of one, two or four bytes to memory-mapped registers. *)
Class Mmio (H : Type) := { read_mem : Z → Z → H → Z * H; write_mem : Z → Z → Z → H → H }.

Record tdev (H : Type) := Tdev { t_vm : vm; t_hw : H }.
Arguments Tdev {H}. Arguments t_vm {H}. Arguments t_hw {H}.
Definition set_vm {H} (v : vm) (s : tdev H) : tdev H := Tdev v (t_hw s).
Definition set_hw {H} (h : H) (s : tdev H) : tdev H := Tdev (t_vm s) h.

Record pci_testdev_ops (H : Type) := TestdevOps {
  io_readb : Z → stM (tdev H) Z; io_readw : Z → stM (tdev H) Z; io_readl : Z → stM (tdev H) Z;
  io_writeb : Z → Z → stM (tdev H) unit; io_writew : Z → Z → stM (tdev H) unit; io_writel : Z → Z → stM (tdev H) unit
}.
Arguments TestdevOps {H}. Arguments io_readb {H}. Arguments io_readw {H}. Arguments io_readl {H}.
Arguments io_writeb {H}. Arguments io_writew {H}. Arguments io_writel {H}.

Section code.
Context {H : Type} `{Ports H} `{Mmio H}.
Abbreviation M := (stM (tdev H)).
Definition on_vm {A} (m : stM vm A) : M A := zoom t_vm set_vm m.
Definition on_bus {A} (m : stM (bus H) A) : M A :=
  zoom (λ s, Bus (t_hw s) (vm_log (t_vm s))) (λ b s, Tdev (set_vm_log (bus_log b) (t_vm s)) (hw b)) m.
Definition printf (fmt : string) (args : list parg) : M unit := on_vm (Vm.printf fmt args).
Definition from_hw (f : H → Z * H) : M Z := λ s, Done ((f (t_hw s)).1, set_hw (f (t_hw s)).2 s).
Definition on_hw (f : H → H) : M unit := modify (λ s, set_hw (f (t_hw s)) s).

Definition pio_readb (addr : Z) : M Z := from_hw (inb (u16 addr)).
Definition pio_readw (addr : Z) : M Z := from_hw (inw (u16 addr)).
Definition pio_readl (addr : Z) : M Z := from_hw (inl (u16 addr)).
Definition pio_writeb (value addr : Z) : M unit := on_hw (outb (u8 value) (u16 addr)).
Definition pio_writew (value addr : Z) : M unit := on_hw (outw (u16 value) (u16 addr)).
Definition pio_writel (value addr : Z) : M unit := on_hw (outl (u32 value) (u16 addr)).
Definition pci_testdev_io_ops : pci_testdev_ops H := TestdevOps pio_readb pio_readw pio_readl pio_writeb pio_writew pio_writel.

Definition mmio_readb (addr : Z) : M Z := a ← on_vm (Vm.access (u64 addr)); from_hw (read_mem 1 a).
Definition mmio_readw (addr : Z) : M Z := a ← on_vm (Vm.access (u64 addr)); from_hw (read_mem 2 a).
Definition mmio_readl (addr : Z) : M Z := a ← on_vm (Vm.access (u64 addr)); from_hw (read_mem 4 a).
Definition mmio_writeb (value addr : Z) : M unit := a ← on_vm (Vm.access (u64 addr)); on_hw (write_mem 1 (u8 value) a).
Definition mmio_writew (value addr : Z) : M unit := a ← on_vm (Vm.access (u64 addr)); on_hw (write_mem 2 (u16 value) a).
Definition mmio_writel (value addr : Z) : M unit := a ← on_vm (Vm.access (u64 addr)); on_hw (write_mem 4 (u32 value) a).
Definition pci_testdev_mem_ops : pci_testdev_ops H :=
  TestdevOps mmio_readb mmio_readw mmio_readl mmio_writeb mmio_writew mmio_writel.

(** The [for] loop of [pci_testdev_one]. *)
Fixpoint write_loop (n : nat) (width sig addr : Z) (ops : pci_testdev_ops H) : M unit :=
  match n with
  | O => mret tt
  | S n =>
    (if width =? 1 then io_writeb ops sig addr else if width =? 2 then io_writew ops sig addr
     else if width =? 4 then io_writel ops sig addr else mret tt);;
    write_loop n width sig addr ops
  end.
Definition nr_writes : Z := 16.
Definition pci_testdev_one (test test_nr : Z) (ops : pci_testdev_ops H) : M bool :=
  io_writeb ops test_nr (test + Hdr.test);;
  count ← io_readl ops (test + Hdr.count);
  if negb (count =? 0) then mret false
  else
    width ← io_readb ops (test + Hdr.width);
    if negb (width =? 1) && negb (width =? 2) && negb (width =? 4) then mret false
    else
      sig ← io_readl ops (test + Hdr.data);
      off ← io_readl ops (test + Hdr.offset);
      write_loop (Z.to_nat nr_writes) width sig (test + off) ops;;
      count ← io_readl ops (test + Hdr.count);
      mret (if count =? 0 then true else s32 count =? nr_writes).

(** [io] is whether the operations are those of the ports. *)
Fixpoint print_loop (fuel : nat) (i test : Z) (ops : pci_testdev_ops H) : M unit :=
  match fuel with
  | O => λ _, NoFuel
  | S fuel =>
    c ← io_readb ops (test + Hdr.name + i);
    if c =? 0 then mret tt else printf "%c" [PInt c];; print_loop fuel (i + 1) test ops
  end.
Definition pci_testdev_print (fuel : nat) (test : Z) (io : bool) (ops : pci_testdev_ops H) : M unit :=
  printf "pci-testdev %3s: " [PStr (if io then "io" else "mem")];;
  print_loop fuel 0 test ops;;
  printf "\n" [].

Fixpoint all_loop (n fuel : nat) (i test : Z) (io : bool) (ops : pci_testdev_ops H) : M Z :=
  match n with
  | O => λ _, NoFuel
  | S n =>
    ok ← pci_testdev_one test i ops;
    if negb ok then mret i else pci_testdev_print fuel test io ops;; all_loop n fuel (i + 1) test io ops
  end.
Definition pci_testdev_all (n fuel : nat) (test : Z) (io : bool) (ops : pci_testdev_ops H) : M Z :=
  all_loop n fuel 0 test io ops.

Definition pci_testdev (n fuel : nat) : M Z :=
  dev ← on_bus (pci_find_dev PCI_VENDOR_ID_REDHAT PCI_DEVICE_ID_REDHAT_TEST);
  if dev =? PCIDEVADDR_INVALID then
    printf "'pci-testdev' device is not found, check QEMU '-device pci-testdev' parameter\n" [];;
    mret (-1)
  else
    d ← on_bus (pci_dev_init dev);
    v0 ← on_bus (pci_bar_is_valid d 0);
    ret ← (if v0 : bool then on_bus (pci_bar_is_valid d 1) else mret false);
    lift (c_assert ret);;
    addr ← on_bus (pci_bar_get_addr d 0);
    mem ← on_vm (Vm.ioremap addr PAGE_SIZE);
    io ← on_bus (pci_bar_get_addr d 1);
    nr1 ← pci_testdev_all n fuel mem false pci_testdev_mem_ops;
    nr2 ← pci_testdev_all n fuel io true pci_testdev_io_ops;
    mret (nr1 + nr2).
End code.

(** ** What the proofs rely on *)
(** A test: the width, place and value of its writes, its name, and what one write adds
    to the count: nothing where writes are not counted, and 1 unless some get lost. *)
Record test := Test { te_width : Z; te_offset : Z; te_data : Z; te_name : list Z; te_step : Z }.
(** The test selected and its count. *)
Record header := Header { hd_test : option test; hd_count : Z }.
Definition hd_width (d : header) : Z := match hd_test d with Some t => te_width t | None => 0 end.
Definition trunc (width v : Z) : Z := v mod 2 ^ (8 * width).
Definition test_ok (t : test) : Prop :=
  te_width t ∈ [1; 2; 4] ∧ 0 ≤ te_offset t < 4096 ∧ in_u32 (te_data t) ∧ 0 ≤ te_step t < 2 ^ 16 ∧
  Forall (λ c, 0 < c < 256) (te_name t) ∧ Z.of_nat (length (te_name t)) < 4080.

(** The header at [base] of the address space of [rd] and [wr] serves the tests [ts]. *)
Record serves {H : Type} (rd : Z → Z → H → Z * H) (wr : Z → Z → Z → H → H) (base : Z) (ts : list test) := {
  sv : H → header;
  sv_select h n : 0 ≤ n < 256 → sv (wr 1 n (base + Hdr.test) h) = Header (ts !! Z.to_nat n) 0;
  sv_count h : let r := rd 4 (base + Hdr.count) h in r.1 = hd_count (sv h) ∧ sv r.2 = sv h;
  sv_width h : let r := rd 1 (base + Hdr.width) h in r.1 = hd_width (sv h) ∧ sv r.2 = sv h;
  sv_data h t : hd_test (sv h) = Some t → let r := rd 4 (base + Hdr.data) h in r.1 = te_data t ∧ sv r.2 = sv h;
  sv_offset h t : hd_test (sv h) = Some t → let r := rd 4 (base + Hdr.offset) h in r.1 = te_offset t ∧ sv r.2 = sv h;
  sv_name h t (i : nat) : hd_test (sv h) = Some t → (i ≤ length (te_name t))%nat →
    let r := rd 1 (base + (Hdr.name + Z.of_nat i)) h in r.1 = (te_name t ++ [0]) !!! i ∧ sv r.2 = sv h;
  sv_write h t : hd_test (sv h) = Some t → t ∈ ts →
    sv (wr (te_width t) (trunc (te_width t) (te_data t)) (base + te_offset t) h) =
      Header (Some t) (u32 (hd_count (sv h) + te_step t))
}.
Arguments sv {H rd wr base ts}.

(** ** Proofs *)
(** The operations [o] on the header at [base] are the accesses of [rd] and [wr] at
    [pbase], from the states of [I]. *)
Record ops_at {H : Type} (o : pci_testdev_ops H) rd wr (base pbase : Z) (I : tdev H → Prop) : Prop := {
  oa_readb s off : I s → 0 ≤ off < 4096 →
    io_readb o (base + off) s = Done ((rd 1 (pbase + off) (t_hw s)).1, set_hw (rd 1 (pbase + off) (t_hw s)).2 s);
  oa_readl s off : I s → 0 ≤ off < 4096 →
    io_readl o (base + off) s = Done ((rd 4 (pbase + off) (t_hw s)).1, set_hw (rd 4 (pbase + off) (t_hw s)).2 s);
  oa_writeb s v off : I s → 0 ≤ off < 4096 →
    io_writeb o v (base + off) s = Done (tt, set_hw (wr 1 (trunc 1 v) (pbase + off) (t_hw s)) s);
  oa_writew s v off : I s → 0 ≤ off < 4096 →
    io_writew o v (base + off) s = Done (tt, set_hw (wr 2 (trunc 2 v) (pbase + off) (t_hw s)) s);
  oa_writel s v off : I s → 0 ≤ off < 4096 →
    io_writel o v (base + off) s = Done (tt, set_hw (wr 4 (trunc 4 v) (pbase + off) (t_hw s)) s);
  oa_keep s l h : I s → I (Tdev (set_vm_log l (t_vm s)) h);
  oa_hw s h : I s → I (set_hw h s)
}.

Section ops.
Context {H : Type} `{Ports H} `{Mmio H}.
Definition port_rd (w a : Z) : H → Z * H := if w =? 1 then inb (u16 a) else if w =? 2 then inw (u16 a) else inl (u16 a).
Definition port_wr (w v a : Z) : H → H := if w =? 1 then outb v (u16 a) else if w =? 2 then outw v (u16 a) else outl v (u16 a).

Lemma io_ops_ok port : ops_at pci_testdev_io_ops port_rd port_wr port port (λ _, True).
Proof. by split. Qed.

Definition mem_mapped (va pa : Z) (s : tdev H) : Prop := device_mapped (t_vm s) va pa.
Lemma mem_access_ok va pa off s : mem_mapped va pa s → 0 ≤ off < 4096 →
  on_vm (Vm.access (u64 (va + off))) s = Done (pa + off, s).
Proof. intros Hm Ho. unfold on_vm, zoom. rewrite (access_ok _ _ _ _ Hm Ho). by destruct s. Qed.
Lemma mem_ops_ok va pa : ops_at pci_testdev_mem_ops read_mem write_mem va pa (mem_mapped va pa).
Proof.
  split; try (by intros ??? []); try done; intros s; intros; cbn [io_readb io_readl io_writeb io_writew io_writel pci_testdev_mem_ops];
    unfold mmio_readb, mmio_readl, mmio_writeb, mmio_writew, mmio_writel;
    by erewrite stM_bind_Done by (by apply mem_access_ok).
Qed.
End ops.

(** A test passes if the writes are not counted, or all are. *)
Definition good (t : test) : bool := (te_step t =? 0) || (te_step t =? 1).
(** How many tests pass before the first that does not. *)
Fixpoint passed (ts : list test) : nat := match ts with t :: ts => if good t then S (passed ts) else O | [] => O end.
(** What is printed for a test, newest first. *)
Definition line (io : bool) (t : test) : list (string * list parg) :=
  ("\n", []) :: reverse (map (λ c, ("%c", [PInt c])) (te_name t)) ++ [("pci-testdev %3s: ", [PStr (if io then "io" else "mem")])].
Fixpoint lines (io : bool) (ts : list test) (l : list (string * list parg)) : list (string * list parg) :=
  match ts with t :: ts => if good t then lines io ts (line io t ++ l) else l | [] => l end.

Section proofs.
Context {H : Type} `{Ports H} `{Mmio H}.
Context (o : pci_testdev_ops H) (rd : Z → Z → H → Z * H) (wr : Z → Z → Z → H → H) (base pbase : Z) (I : tdev H → Prop).
Context (Ho : ops_at o rd wr base pbase I) (ts : list test) (Sv : serves rd wr pbase ts) (Hts : Forall test_ok ts).
Implicit Types s : tdev H.
Abbreviation hd s := (sv Sv (t_hw s)).

Lemma oa_write s t : I s → test_ok t →
  (if te_width t =? 1 then io_writeb o (te_data t) (base + te_offset t) else if te_width t =? 2
   then io_writew o (te_data t) (base + te_offset t) else if te_width t =? 4 then io_writel o (te_data t) (base + te_offset t)
   else mret tt) s = Done (tt, set_hw (wr (te_width t) (trunc (te_width t) (te_data t)) (pbase + te_offset t) (t_hw s)) s).
Proof.
  intros Hs (Hw & Hoff & _). rewrite !elem_of_cons in Hw. destruct Hw as [-> | [-> | [-> | []%not_elem_of_nil]]]; cbn [Z.eqb Pos.eqb].
  - by apply (oa_writeb _ _ _ _ _ _ Ho).
  - by apply (oa_writew _ _ _ _ _ _ Ho).
  - by apply (oa_writel _ _ _ _ _ _ Ho).
Qed.

Lemma write_loop_ok t n : ∀ s, I s → test_ok t → t ∈ ts → hd_test (hd s) = Some t → in_u32 (hd_count (hd s)) →
  ∃ h, write_loop n (te_width t) (te_data t) (base + te_offset t) o s = Done (tt, set_hw h s) ∧
    sv Sv h = Header (Some t) (u32 (hd_count (hd s) + Z.of_nat n * te_step t)).
Proof.
  induction n as [|n IH]; intros s Hs Ht Hin Hd Hc; cbn [write_loop].
  - exists (t_hw s). split; [by destruct s|]. destruct (hd s) as [t' c]; cbn in *. subst t'.
    by rewrite Z.mul_0_l, Z.add_0_r, u32_small.
  - rewrite (stM_bind_Done _ _ _ _ _ (oa_write s t Hs Ht)). set (s1 := set_hw _ s).
    pose proof (sv_write _ _ _ _ Sv (t_hw s) t Hd Hin) as E1.
    destruct (IH s1) as (h & E & Eh); [by apply (oa_hw _ _ _ _ _ _ Ho)|done|done|by cbn; rewrite E1|cbn; rewrite E1; apply u32_range|].
    exists h. split; [exact E|]. rewrite Eh. cbn [t_hw s1 set_hw]. rewrite E1. cbn [hd_count].
    f_equal. unfold u32. rewrite Zplus_mod_idemp_l. f_equal. lia.
Qed.

Lemma hdr_readl s off v : I s → 0 ≤ off < 4096 → (let r := rd 4 (pbase + off) (t_hw s) in r.1 = v ∧ sv Sv r.2 = hd s) →
  ∃ h, io_readl o (base + off) s = Done (v, set_hw h s) ∧ sv Sv h = hd s.
Proof. intros Hs Hoff [<- E]. eexists. split; [by apply (oa_readl _ _ _ _ _ _ Ho)|done]. Qed.
Lemma hdr_readb s off v : I s → 0 ≤ off < 4096 → (let r := rd 1 (pbase + off) (t_hw s) in r.1 = v ∧ sv Sv r.2 = hd s) →
  ∃ h, io_readb o (base + off) s = Done (v, set_hw h s) ∧ sv Sv h = hd s.
Proof. intros Hs Hoff [<- E]. eexists. split; [by apply (oa_readb _ _ _ _ _ _ Ho)|done]. Qed.

Lemma good_count t : test_ok t → (if 16 * te_step t =? 0 then true else s32 (16 * te_step t) =? nr_writes) = good t.
Proof.
  intros (_ & _ & _ & Hst & _). unfold good, nr_writes. rewrite s32_small by lia.
  destruct (Z.eqb_spec (te_step t) 0) as [->|]; [done|]. rewrite (proj2 (Z.eqb_neq _ _)) by lia. cbn [orb].
  destruct (Z.eqb_spec (te_step t) 1) as [->|]; [done|]. apply Z.eqb_neq. lia.
Qed.
Lemma test_width t : test_ok t → negb (te_width t =? 1) && negb (te_width t =? 2) && negb (te_width t =? 4) = false.
Proof. intros [Hw _]. rewrite !elem_of_cons in Hw. by destruct Hw as [-> | [-> | [-> | []%not_elem_of_nil]]]. Qed.

(** One test: it passes or not, and if it does it is still the one selected. *)
Lemma testdev_one_ok n s : I s → 0 ≤ n < 256 →
  ∃ h, pci_testdev_one base n o s = Done (match ts !! Z.to_nat n with Some t => good t | None => false end, set_hw h s) ∧
    hd_test (sv Sv h) = ts !! Z.to_nat n.
Proof.
  intros Hs Hn. assert (∀ h, I (set_hw h s)) as HI by (intros; by apply (oa_hw _ _ _ _ _ _ Ho)).
  unfold pci_testdev_one. rewrite (stM_bind_Done _ _ _ _ _ (oa_writeb _ _ _ _ _ _ Ho s n Hdr.test Hs ltac:(done))).
  assert (trunc 1 n = n) as -> by (apply Z.mod_small; lia). set (h1 := wr _ _ _ _).
  assert (sv Sv h1 = Header (ts !! Z.to_nat n) 0) as E1 by (by apply sv_select).
  destruct (hdr_readl (set_hw h1 s) Hdr.count 0) as (h2 & R2 & E2); [by apply HI|done| |].
  { pose proof (sv_count _ _ _ _ Sv h1) as Hr. rewrite E1 in Hr. cbn [t_hw set_hw]. rewrite E1. exact Hr. }
  rewrite (stM_bind_Done _ _ _ _ _ R2). cbn [Z.eqb negb].
  destruct (hdr_readb (set_hw h2 s) Hdr.width (hd_width (sv Sv h2))) as (h3 & R3 & E3);
    [by apply HI|done|exact (sv_width _ _ _ _ Sv h2)|].
  rewrite (stM_bind_Done _ _ _ _ _ R3), E2. cbn [t_hw set_hw] in *. rewrite E1 in *. unfold hd_width. cbn [hd_test].
  rewrite E2 in E3. destruct (ts !! Z.to_nat n) as [t|] eqn:Elu; [|exists h3; by rewrite E3].
  assert (test_ok t) as Ht by (by apply (Forall_lookup_1 _ _ _ _ Hts Elu)). rewrite (test_width t Ht).
  destruct (hdr_readl (set_hw h3 s) Hdr.data (te_data t)) as (h4 & R4 & E4);
    [by apply HI|done|apply (sv_data _ _ _ _ Sv); cbn; by rewrite E3|].
  rewrite (stM_bind_Done _ _ _ _ _ R4). cbn [t_hw set_hw] in E4. rewrite E3 in E4.
  destruct (hdr_readl (set_hw h4 s) Hdr.offset (te_offset t)) as (h5 & R5 & E5);
    [by apply HI|done|apply (sv_offset _ _ _ _ Sv); cbn; by rewrite E4|].
  rewrite (stM_bind_Done _ _ _ _ _ R5). cbn [t_hw set_hw] in E5. rewrite E4 in E5.
  destruct (write_loop_ok t 16 (set_hw h5 s) (HI _) Ht (list_elem_of_lookup_2 _ _ _ Elu)) as (h6 & R6 & E6);
    [cbn; by rewrite E5|cbn; by rewrite E5|].
  change (Z.to_nat nr_writes) with 16%nat. rewrite (stM_bind_Done _ _ _ _ _ R6). cbn [t_hw set_hw] in E6. rewrite E5 in E6.
  destruct (hdr_readl (set_hw h6 s) Hdr.count (16 * te_step t)) as (h7 & R7 & E7); [by apply HI|done| |].
  { pose proof (sv_count _ _ _ _ Sv h6) as Hr. cbn [t_hw set_hw]. cbv zeta in *. rewrite E6 in *. cbn [hd_count] in Hr.
    destruct Ht as (_ & _ & _ & Hst & _). rewrite Z.add_0_l, u32_small in * by (unfold in_u32; lia). done. }
  rewrite (stM_bind_Done _ _ _ _ _ R7), (good_count t Ht). exists h7. split; [done|]. cbn [t_hw set_hw] in E7. by rewrite E7, E6.
Qed.

(** *** Printing and the loop over the tests *)
Definition printed (l : list (string * list parg)) (h : H) s : tdev H := Tdev (set_vm_log l (t_vm s)) h.
Definition chars (n : list Z) : list (string * list parg) := map (λ c, ("%c"%string, [PInt c])) n.

Lemma testdev_print_loop_ok t n : ∀ pre s fuel,
  I s → test_ok t → hd_test (hd s) = Some t → te_name t = pre ++ n → (length n < fuel)%nat →
  ∃ h, print_loop fuel (Z.of_nat (length pre)) base o s = Done (tt, printed (reverse (chars n) ++ vm_log (t_vm s)) h s) ∧
    sv Sv h = hd s.
Proof.
  induction n as [|c n IH]; intros pre s [|fuel] Hs Ht Hd En Hf; cbn [length] in Hf; try lia; cbn [print_loop];
    assert (Z.of_nat (length (te_name t)) < 4080) as Hlen by (apply Ht);
    (destruct (hdr_readb s (Hdr.name + Z.of_nat (length pre)) ((te_name t ++ [0]) !!! length pre)) as (h1 & R1 & E1);
      [done|rewrite En, length_app in Hlen; unfold Hdr.name; lia
      |apply (sv_name _ _ _ _ Sv); [done|rewrite En, length_app; lia]|]);
    rewrite Z.add_assoc in R1; rewrite (stM_bind_Done _ _ _ _ _ R1), En, <- app_assoc; cbn [app];
    rewrite (list_lookup_total_middle pre) by done.
  - exists h1. split; [|done]. cbn. unfold printed. by destruct s as [[] ?].
  - cbn [app]. assert (0 < c < 256) as Hc.
    { destruct Ht as (_ & _ & _ & _ & Hn & _). rewrite En in Hn. apply Forall_app in Hn as [_ [? _]%Forall_cons]. done. }
    rewrite (proj2 (Z.eqb_neq _ _)) by lia.
    set (s2 := printed (("%c"%string, [PInt c]) :: vm_log (t_vm s)) h1 s).
    destruct (IH (pre ++ [c]) s2 fuel) as (h & E & Eh); [by apply (oa_keep _ _ _ _ _ _ Ho)|done|cbn; by rewrite E1|
      by rewrite En, <- app_assoc|lia|].
    exists h. split; [|rewrite Eh; exact E1].
    etransitivity; [|etransitivity; [exact E|]].
    + rewrite length_app, Nat2Z.inj_add. reflexivity.
    + unfold s2, printed, chars. cbn [map vm_log set_vm_log t_vm]. rewrite reverse_cons, <- app_assoc. done.
Qed.

Lemma print_ok io t s fuel : I s → test_ok t → hd_test (hd s) = Some t → (length (te_name t) < fuel)%nat →
  ∃ h, pci_testdev_print fuel base io o s = Done (tt, printed (line io t ++ vm_log (t_vm s)) h s).
Proof.
  intros Hs Ht Hd Hf.
  set (s1 := printed (("pci-testdev %3s: "%string, [PStr (if io then "io"%string else "mem"%string)]) :: vm_log (t_vm s)) (t_hw s) s).
  destruct (testdev_print_loop_ok t (te_name t) [] s1 fuel) as (h & E & _); [by apply (oa_keep _ _ _ _ _ _ Ho)|done|done|done|done|].
  exists h. unfold pci_testdev_print.
  match goal with |- (printf ?a ?b ≫= ?f) s = _ => change ((printf a b ≫= f) s) with (f tt s1) end. cbv beta.
  rewrite (stM_bind_Done _ _ _ _ _ E). unfold line, s1, printed. cbn [app]. rewrite <- app_assoc. reflexivity.
Qed.

(** All the tests before the first that fails are run and reported. *)
Lemma all_loop_ok io fuel : ∀ suf pre n s, I s → ts = pre ++ suf → (length ts < 256)%nat → (length suf < n)%nat →
  Forall (λ t, (length (te_name t) < fuel)%nat) ts →
  ∃ h, all_loop n fuel (Z.of_nat (length pre)) base io o s =
    Done (Z.of_nat (length pre + passed suf), printed (lines io suf (vm_log (t_vm s))) h s).
Proof.
  induction suf as [|t suf IH]; intros pre [|n] s Hs Ets Hlen Hn Hf; cbn [length] in Hn; try lia; cbn [all_loop];
    (destruct (testdev_one_ok (Z.of_nat (length pre)) s) as (h1 & R1 & E1); [done|rewrite Ets, length_app in Hlen; lia|]);
    rewrite (stM_bind_Done _ _ _ _ _ R1), Nat2Z.id; rewrite Nat2Z.id in E1.
  - rewrite lookup_ge_None_2 by (rewrite Ets, app_nil_r; lia). exists h1. cbn. rewrite Nat.add_0_r. unfold printed. by destruct s as [[] ?].
  - assert (ts !! length pre = Some t) as El by (rewrite Ets; by apply list_lookup_middle). rewrite El in E1. rewrite El.
    cbn [passed lines]. destruct (good t) eqn:Hg; cbn [negb].
    2:{ exists h1. rewrite Nat.add_0_r. unfold printed. by destruct s as [[] ?]. }
    assert (test_ok t ∧ (length (te_name t) < fuel)%nat) as [Ht Hft].
    { split; [exact (Forall_lookup_1 _ _ _ _ Hts El)|exact (Forall_lookup_1 _ _ _ _ Hf El)]. }
    destruct (print_ok io t (set_hw h1 s) fuel) as (h2 & R2); [by apply (oa_hw _ _ _ _ _ _ Ho)|done|done|done|].
    rewrite (stM_bind_Done _ _ _ _ _ R2). set (s2 := printed _ _ _).
    destruct (IH (pre ++ [t]) n s2) as (h3 & R3);
      [by apply (oa_keep _ _ _ _ _ _ Ho), (oa_hw _ _ _ _ _ _ Ho)|by rewrite Ets, <- app_assoc|done|lia|done|].
    exists h3. rewrite length_app, Nat2Z.inj_add in R3. cbn [length] in R3. etransitivity; [exact R3|]. unfold printed, s2. cbn.
    do 2 f_equal. lia.
Qed.
End proofs.

(** ** Properties *)
(** Through any operations on a range that serves the tests, [pci_testdev_all] runs and
    reports them in order up to the first that fails; it returns how many passed.  The
    loop has no other bound, and the number of the test is a byte: that there are fewer
    than 256 is what makes it end. *)
Theorem pci_testdev_all_correct {H : Type} o rd wr base pbase I ts (Sv : serves rd wr pbase ts) io n fuel (s : tdev H) :
  ops_at o rd wr base pbase I → Forall test_ok ts → I s → (length ts < 256)%nat → (length ts < n)%nat →
  Forall (λ t, (length (te_name t) < fuel)%nat) ts →
  ∃ h, pci_testdev_all n fuel base io o s = Done (Z.of_nat (passed ts), Tdev (set_vm_log (lines io ts (vm_log (t_vm s))) (t_vm s)) h).
Proof. intros Ho Hts Hs Hl Hn Hf. by apply (all_loop_ok o rd wr base pbase I Ho ts Sv Hts io fuel ts [] n s). Qed.

Section whole.
Context {H : Type} `{Conf1 H} `{Mmio H}.
Implicit Types s : tdev H.

Lemma testdev_bus_reads {A} (m : stM (bus H) A) a s : reads m (Bus (t_hw s) (vm_log (t_vm s))) a →
  ∃ h, on_bus m s = Done (a, set_hw h s) ∧ ∀ d i, cfg h d i = cfg (t_hw s) d i.
Proof.
  intros (b & E & C & L). exists (hw b). unfold on_bus, zoom. rewrite E. cbn [mbind outcome_bind]. cbn in L. rewrite L.
  split; [by destruct s as [[] ?]|done].
Qed.
Lemma on_bus_valid d i r s : 0 ≤ i → resource d !! Z.to_nat i = Some r → r ≠ INVALID_PHYS_ADDR →
  on_bus (pci_bar_is_valid d i) s = Done (true, s).
Proof.
  intros Hi Hr Hv. unfold pci_bar_is_valid, on_bus, zoom. rewrite (arr_get_ok _ _ _ Hi Hr), bind_lift_Done.
  rewrite (proj2 (Z.eqb_neq _ _) Hv). by destruct s as [[] ?].
Qed.
Lemma on_bus_addr d i r s : 0 ≤ i < 6 → resource d !! Z.to_nat i = Some r → on_bus (pci_bar_get_addr d i) s = Done (r, s).
Proof.
  intros Hi Hr. unfold pci_bar_get_addr, ASSERT_BAR_NUM, PCI_BAR_NUM, on_bus, zoom.
  rewrite (proj2 (Z.leb_le _ _)), (proj2 (Z.ltb_lt _ _)) by lia. cbn [andb c_assert]. rewrite bind_lift_Done.
  rewrite (arr_get_ok (resource d) i r) by (done || lia). by destruct s as [[] ?].
Qed.

(** The first device with the identifiers of pci-testdev is [dev]; its first two base
    address registers are a range of memory at [pa] and one of ports at [port]. *)
Record testdev_at (c : Z → Z → Z) (b : bus H) (dev pa port : Z) : Prop := {
  ta_first : first_dev c PCI_VENDOR_ID_REDHAT PCI_DEVICE_ID_REDHAT_TEST (seqZ 0 PCI_DEVFN_MAX) = dev;
  ta_found : dev ≠ PCIDEVADDR_INVALID;
  ta_bars : ∃ fl k k' bs, let l := MemBar fl k pa :: IoBar k' port :: bs in
    12 ≤ k ∧ Forall bar_ok l ∧ bars_len l = 6 ∧ regs_at b dev 0 (flat_map bar_regs l)
}.

(** [pci_testdev] returns -1 if there is no such device, and otherwise the number of
    tests that passed through memory plus those that passed through ports. *)
Theorem pci_testdev_correct n fuel s :
  let c := cfg (t_hw s) in
  (first_dev c PCI_VENDOR_ID_REDHAT PCI_DEVICE_ID_REDHAT_TEST (seqZ 0 PCI_DEVFN_MAX) = PCIDEVADDR_INVALID →
   ∃ s', pci_testdev n fuel s = Done (-1, s')) ∧
  ∀ dev pa port ts1 ts2 (S1 : serves read_mem write_mem pa ts1) (S2 : serves port_rd port_wr port ts2) FR own,
    testdev_at c (Bus (t_hw s) (vm_log (t_vm s))) dev pa port →
    Forall (λ t, test_ok t ∧ (length (te_name t) < fuel)%nat) (ts1 ++ ts2) → (length ts1 < 256)%nat → (length ts2 < 256)%nat →
    (length ts1 < n)%nat → (length ts2 < n)%nat →
    vpages_pre (t_vm s) 1 (vmap_tables (t_vm s) 1) FR own →
    Z.land (vm_cr0 (t_vm s)) X86_CR0_PG ≠ 0 → vm_cr3 (t_vm s) = page_root (t_vm s) →
    ∃ s', pci_testdev n fuel s = Done (Z.of_nat (passed ts1) + Z.of_nat (passed ts2), s') ∧
      vm_log (t_vm s') = lines true ts2 (lines false ts1 (vm_log (t_vm s))).
Proof.
  intros c. unfold pci_testdev.
  destruct (testdev_bus_reads _ _ s (pci_find_dev_ok PCI_VENDOR_ID_REDHAT PCI_DEVICE_ID_REDHAT_TEST _)) as (h1 & E1 & C1).
  cbn [hw] in E1. fold c in E1, C1.
  split; [intros Hn; rewrite Hn in E1; rewrite (stM_bind_Done _ _ _ _ _ E1); eexists; reflexivity|].
  intros dev pa port ts1 ts2 S1 S2 FR own [Hfirst Hfound (fl & k & k' & bs & Hk & Hok & Hlen & Hregs)]
    Hall L1 L2 N1 N2 Hpre Hpg Hcr.
  pose proof (first_dev_range c _ _ _ _ _ Hfirst Hfound ltac:(done)) as Hdev. unfold PCI_DEVFN_MAX in Hdev.
  rewrite Hfirst in E1. rewrite (stM_bind_Done _ _ _ _ _ E1), (proj2 (Z.eqb_neq _ _) Hfound). set (s1 := set_hw h1 s) in *.
  set (l := MemBar fl k pa :: IoBar k' port :: bs) in *.
  destruct (testdev_bus_reads (pci_dev_init dev) (PciDev dev 0 (bar_resources l)) s1) as (h2 & E2 & _).
  { apply pci_dev_init_ok; try done; [lia|]. refine (regs_at_same _ _ _ _ _ _ Hregs). by split. }
  rewrite (stM_bind_Done _ _ _ _ _ E2). set (d := PciDev _ _ _). set (s2 := set_hw h2 s1).
  pose proof Hok as [Hb1 [Hb2 _]%Forall_cons]%Forall_cons.
  rewrite (stM_bind_Done _ _ _ _ _ (on_bus_valid d 0 pa s2 ltac:(done) eq_refl (bar_base_valid _ Hb1 ltac:(done)))).
  rewrite (stM_bind_Done _ _ _ _ _ (on_bus_valid d 1 port s2 ltac:(done) eq_refl (bar_base_valid _ Hb2 ltac:(done)))).
  cbn [c_assert]. rewrite bind_lift_Done, (stM_bind_Done _ _ _ _ _ (on_bus_addr d 0 pa s2 ltac:(done) eq_refl)).
  destruct (bar_page _ _ _ Hb1 Hk) as (Ha & Hp1 & Hp2).
  destruct (ioremap_device pa (t_vm s) FR own Hp1 Ha Hp2 Hpre Hpg Hcr) as (p' & E4 & M4). set (v := next_vpages _ _) in *.
  set (s4 := set_vm (set_vm_pages p' (set_vfree_top v (t_vm s))) s2).
  assert (on_vm (Vm.ioremap pa PAGE_SIZE) s2 = Done (v, s4)) as E4' by (unfold on_vm, zoom; cbn [t_vm set_hw s2 s1]; by rewrite E4).
  rewrite (stM_bind_Done _ _ _ _ _ E4'), (stM_bind_Done _ _ _ _ _ (on_bus_addr d 1 port s4 ltac:(done) eq_refl)).
  apply Forall_and in Hall as [[T1 T2]%Forall_app [F1 F2]%Forall_app].
  destruct (all_loop_ok _ _ _ _ _ _ (mem_ops_ok v pa) ts1 S1 T1 false fuel ts1 [] n s4) as (h5 & E5); try done.
  rewrite (stM_bind_Done _ _ _ _ _ (E5 : pci_testdev_all n fuel v false pci_testdev_mem_ops s4 = _)).
  destruct (all_loop_ok _ _ _ _ _ _ (io_ops_ok port) ts2 S2 T2 true fuel ts2 [] n
    (printed (lines false ts1 (vm_log (t_vm s4))) h5 s4)) as (h6 & E6); try done.
  rewrite (stM_bind_Done _ _ _ _ _ (E6 : pci_testdev_all n fuel port true pci_testdev_io_ops _ = _)).
  eexists. split; [reflexivity|]. done.
Qed.
End whole.

(** ** A concrete device *)
(** Three tests: writes that are not counted, writes that are, and one that counts
    every write twice. *)
Definition demo_tests : list test :=
  [Test 1 0x40 0xfa [0x61; 0x62] 0; Test 4 0x44 0xdeadbeef [0x63] 1; Test 2 0x48 1 [0x64] 2].
#[local] Instance demo_mmio : Mmio header := {
  read_mem w a h :=
    let off := a - 0xfe000000 in
    (if off =? 12 then hd_count h else if off =? 1 then hd_width h
     else match hd_test h with
          | Some t => if off =? 8 then te_data t else if off =? 4 then te_offset t else (te_name t ++ [0]) !!! Z.to_nat (off - 16)
          | None => 0
          end, h);
  write_mem w v a h :=
    if a =? 0xfe000000 then Header (demo_tests !! Z.to_nat v) 0
    else match hd_test h with Some t => Header (Some t) (u32 (hd_count h + te_step t)) | None => h end
}.
Definition demo_serves : serves read_mem write_mem 0xfe000000 demo_tests.
Proof.
  refine {| sv := (λ h : header, h) |}; try (intros h; done).
  - intros h t E. cbn. by rewrite E.
  - intros h t E. cbn. by rewrite E.
  - intros h t i E Hi. unfold read_mem, demo_mmio, Hdr.name. rewrite E. cbn [fst snd].
    rewrite !(proj2 (Z.eqb_neq _ _)) by lia. split; [|done]. do 2 f_equal. lia.
  - intros h t E Hin. unfold write_mem, demo_mmio. rewrite E.
    destruct (Z.eqb_spec (0xfe000000 + te_offset t) 0xfe000000) as [Eo|]; [|done].
    unfold demo_tests in Hin. rewrite !elem_of_cons in Hin. destruct Hin as [-> | [-> | [-> | []%not_elem_of_nil]]]; cbn in Eo; lia.
Qed.
Definition demo_mapped : vm := match Vm.ioremap 0xfe000000 PAGE_SIZE demo_vm with Done (_, s) => s | _ => demo_vm end.

Example testdev_run :
  ∃ s', pci_testdev_all 4 4 0xfffffffffffff000 false pci_testdev_mem_ops (Tdev demo_mapped (Header None 0)) = Done (2, s').
Proof.
  destruct (ioremap_device 0xfe000000 demo_vm demo_frames (λ q, q = 0x10000)) as (p' & E & M);
    [lia|done|lia|apply demo_vm_pre; vm_compute; discriminate|by vm_compute|done|].
  assert (device_mapped demo_mapped 0xfffffffffffff000 0xfe000000) as M' by (unfold demo_mapped; by rewrite E).
  destruct (pci_testdev_all_correct pci_testdev_mem_ops read_mem write_mem 0xfffffffffffff000 0xfe000000
    (mem_mapped 0xfffffffffffff000 0xfe000000) demo_tests demo_serves false 4 4
    (Tdev demo_mapped (Header None 0)) (mem_ops_ok _ 0xfe000000)) as (h & Eh).
  - repeat (apply Forall_cons; split; [split; [rewrite !elem_of_cons; cbn; tauto|]|]); try by apply Forall_nil.
    all: cbn; split_and!; try lia; repeat constructor; lia.
  - exact M'.
  - cbn. lia.
  - cbn. lia.
  - repeat constructor.
  - eexists. exact Eh.
Qed.
