(* ===== verification/Virtio.v ===== *)
(** Virtqueues: lib/virtio.c and the structures of virtio.h.

    [vring_virtqueue] is the driver's structure.  The three parts of the ring that it
    shares with the device are behind the pointers [desc], [avail] and [used]; their
    contents are [rings], arrays of [num] elements, which [vring_init] lays out in
    the pages so that they do not overlap ([vring_init_ok]).  [notify] is a function of
    the transport.  The second half puts the device beside the driver, as the
    specification of virtio describes it, and an abstract queue above both. *)
From Stdlib Require Import ZArith Lia Bool.
From S2P Require Import Prelude Libcflat Mem.
#[local] Open Scope Z_scope.

Definition VRING_DESC_F_NEXT : Z := 1.
Definition VRING_DESC_F_WRITE : Z := 2.

Record vring_desc := Vdesc { d_addr : Z; d_len : Z; d_flags : Z; d_next : Z }.
Record vring_used_elem := Uelem { u_id : Z; u_len : Z }.
Definition sizeof_vring_desc : Z := 16.
Definition sizeof_vring_used_elem : Z := 8.
Record vring := Vring { num : Z; desc : Z; avail : Z; used : Z }.
(** What the pointers of a [vring] point to. *)
Record rings := Rings {
  r_desc : list vring_desc; avail_idx : Z; avail_ring : list Z; used_idx : Z; used_ring : list vring_used_elem
}.
(** [struct virtqueue]; the pointers are addresses *)
Record virtqueue := Vq { callback : Z; name : Z; vdev : Z; index : Z; num_free : Z }.
Record vring_virtqueue := Vvq {
  vq : virtqueue; vr : vring; free_head : Z; num_added : Z; last_used_idx : Z; notify : Z; data : list Z;
  ring : rings
}.

Definition set_next (x : Z) (d : vring_desc) := Vdesc (d_addr d) (d_len d) (d_flags d) x.
Definition set_flags (x : Z) (d : vring_desc) := Vdesc (d_addr d) (d_len d) x (d_next d).
Definition set_addr (x : Z) (d : vring_desc) := Vdesc x (d_len d) (d_flags d) (d_next d).
Definition set_len (x : Z) (d : vring_desc) := Vdesc (d_addr d) x (d_flags d) (d_next d).
Definition set_vq (q : virtqueue) (s : vring_virtqueue) :=
  Vvq q (vr s) (free_head s) (num_added s) (last_used_idx s) (notify s) (data s) (ring s).
Definition set_num_free (x : Z) (s : vring_virtqueue) :=
  set_vq (Vq (callback (vq s)) (name (vq s)) (vdev (vq s)) (index (vq s)) x) s.
Definition set_vr (r : vring) (s : vring_virtqueue) :=
  Vvq (vq s) r (free_head s) (num_added s) (last_used_idx s) (notify s) (data s) (ring s).
Definition set_free_head (x : Z) (s : vring_virtqueue) :=
  Vvq (vq s) (vr s) x (num_added s) (last_used_idx s) (notify s) (data s) (ring s).
Definition set_num_added (x : Z) (s : vring_virtqueue) :=
  Vvq (vq s) (vr s) (free_head s) x (last_used_idx s) (notify s) (data s) (ring s).
Definition set_last_used_idx (x : Z) (s : vring_virtqueue) :=
  Vvq (vq s) (vr s) (free_head s) (num_added s) x (notify s) (data s) (ring s).
Definition set_notify (x : Z) (s : vring_virtqueue) :=
  Vvq (vq s) (vr s) (free_head s) (num_added s) (last_used_idx s) x (data s) (ring s).
Definition set_data (d : list Z) (s : vring_virtqueue) :=
  Vvq (vq s) (vr s) (free_head s) (num_added s) (last_used_idx s) (notify s) d (ring s).
Definition set_ring (r : rings) (s : vring_virtqueue) :=
  Vvq (vq s) (vr s) (free_head s) (num_added s) (last_used_idx s) (notify s) (data s) r.
Definition set_r_desc (d : list vring_desc) (r : rings) := Rings d (avail_idx r) (avail_ring r) (used_idx r) (used_ring r).
Definition set_avail_idx (x : Z) (r : rings) := Rings (r_desc r) x (avail_ring r) (used_idx r) (used_ring r).
Definition set_avail_ring (l : list Z) (r : rings) := Rings (r_desc r) (avail_idx r) l (used_idx r) (used_ring r).
Definition set_used_idx (x : Z) (r : rings) := Rings (r_desc r) (avail_idx r) (avail_ring r) x (used_ring r).
Definition set_used_ring (l : list vring_used_elem) (r : rings) := Rings (r_desc r) (avail_idx r) (avail_ring r) (used_idx r) l.

Definition vring_init (num p align : Z) : vring :=
  let avail := u64 (p + num * sizeof_vring_desc) in
  Vring num p avail (Z.land (u64 (u64 (avail + 4 + 2 * num) + 2 + align - 1)) (not64 (align - 1))).

Section code.
Abbreviation M := (stM vring_virtqueue).
Definition ld_desc (i : Z) : M vring_desc := s ← get; lift (arr_get (r_desc (ring s)) i).
(** [vq->vring.desc[i].field = x] *)
Definition st_desc (i : Z) (f : vring_desc → vring_desc) : M unit :=
  d ← ld_desc i; s ← get;
  l ← lift (arr_set (r_desc (ring s)) i (f d));
  modify (set_ring (set_r_desc l (ring s))).
Definition ld_data (i : Z) : M Z := s ← get; lift (arr_get (data s) i).
Definition st_data (i x : Z) : M unit := s ← get; l ← lift (arr_set (data s) i x); modify (set_data l).

(** [for (i = 0; i < num-1; i++)]; the result is [i] at the end. *)
Fixpoint init_loop (fuel : nat) (num i : Z) : M Z :=
  if i <? u32 (num - 1) then
    match fuel with
    | O => λ _, NoFuel
    | S f => st_desc i (set_next (u16 (i + 1)));; st_data i 0;; init_loop f num (u32 (i + 1))
    end
  else mret i.
Definition vring_init_virtqueue (fuel : nat) (index num vring_align vdev pages notify callback name : Z) : M unit :=
  modify (set_vr (vring_init num pages vring_align));;
  modify (set_vq (Vq callback name vdev index num));;
  modify (set_notify notify);;
  modify (set_last_used_idx 0);;
  modify (set_num_added 0);;
  modify (set_free_head 0);;
  i ← init_loop fuel num 0;
  st_data i 0.

Definition virtqueue_add_outbuf (buf len : Z) : M Z :=
  lift (c_assert (negb (buf =? 0)));;
  lift (c_assert (negb (len =? 0)));;
  n ← gets (λ s, num_free (vq s));
  if n =? 0 then mret (-1)
  else
    modify (set_num_free (u32 (n - 1)));;
    h ← gets free_head;
    let head := s32 h in
    st_desc head (set_flags 0);;
    st_desc head (set_addr (virt_to_phys buf));;
    st_desc head (set_len len);;
    d ← ld_desc head;
    modify (set_free_head (d_next d));;
    st_data head buf;;
    s ← get;
    let avail := Z.land (avail_idx (ring s)) (u32 (num (vr s) - 1)) in
    l ← lift (arr_set (avail_ring (ring s)) avail (u16 head));
    modify (λ s, set_ring (set_avail_ring l (ring s)) s);;
    modify (λ s, set_ring (set_avail_idx (u16 (avail_idx (ring s) + 1)) (ring s)) s);;
    modify (λ s, set_num_added (u32 (num_added s + 1)) s);;
    mret 0.

(** [notify] of the transport, called with the queue. *)
Definition virtqueue_kick (notify : M bool) : M bool := notify.

(** [while (vq->vring.desc[i].flags & VRING_DESC_F_NEXT)]; the result is [i] at the end. *)
Fixpoint detach_loop (fuel : nat) (i : Z) : M Z :=
  match fuel with
  | O => λ _, NoFuel
  | S f =>
    d ← ld_desc i;
    if Z.land (d_flags d) VRING_DESC_F_NEXT =? 0 then mret i
    else modify (λ s, set_num_free (u32 (num_free (vq s) + 1)) s);; detach_loop f (d_next d)
  end.
Definition detach_buf (fuel : nat) (head : Z) : M unit :=
  st_data head 0;;
  i ← detach_loop fuel head;
  h ← gets free_head;
  st_desc i (set_next (u16 h));;
  modify (set_free_head head);;
  modify (λ s, set_num_free (u32 (num_free (vq s) + 1)) s).

(** The buffer and its [*len]. *)
Definition virtqueue_get_buf (fuel : nat) : M (Z * Z) :=
  s ← get;
  let last_used := u16 (Z.land (last_used_idx s) (u32 (num (vr s) - 1))) in
  e ← lift (arr_get (used_ring (ring s)) last_used);
  let i := u_id e in
  let len := u_len e in
  ret ← ld_data i;
  detach_buf fuel i;;
  modify (λ s, set_last_used_idx (u16 (last_used_idx s + 1)) s);;
  mret (ret, len).
End code.

(** ** The device, and the queue above both *)
(** The device keeps the index of the next entry of the available ring it takes and
    the heads it has taken and not used yet. *)
Record device := Device { dv_seen : Z; dv_pending : list Z }.
Record sys := Sys { drv : vring_virtqueue; dev : device }.
Definition on_drv {A} (m : stM vring_virtqueue A) : stM sys A := zoom drv (λ d s, Sys d (dev s)) m.
Definition ring_slot (d : vring_virtqueue) (idx : Z) : Z := idx mod num (vr d).

(** The driver's calls and the device's steps: [Fetch] takes the next available buffer,
    [Use k w] hands the [k]-th of those it has back with [w] bytes written. *)
Inductive op := Add (buf len : Z) | Get | Fetch | Use (k : nat) (w : Z).
Inductive reply := RAdd (r : Z) | RGet (buf len : Z) | RFetch (o : option (Z * Z)) | RUse (b : bool).

Definition device_fetch : stM sys reply :=
  s ← get;
  let d := drv s in
  if dv_seen (dev s) =? avail_idx (ring d) then mret (RFetch None)
  else
    h ← lift (arr_get (avail_ring (ring d)) (ring_slot d (dv_seen (dev s))));
    e ← lift (arr_get (r_desc (ring d)) h);
    modify (λ s, Sys (drv s) (Device (u16 (dv_seen (dev s) + 1)) (dv_pending (dev s) ++ [h])));;
    mret (RFetch (Some (d_addr e, d_len e))).
Definition device_use (k : nat) (w : Z) : stM sys reply :=
  s ← get;
  let d := drv s in
  match dv_pending (dev s) !! k with
  | None => mret (RUse false)
  | Some h =>
    l ← lift (arr_set (used_ring (ring d)) (ring_slot d (used_idx (ring d))) (Uelem h w));
    modify (λ s, Sys (set_ring (set_used_idx (u16 (used_idx (ring d) + 1)) (set_used_ring l (ring d))) (drv s))
      (Device (dv_seen (dev s)) (delete k (dv_pending (dev s)))));;
    mret (RUse true)
  end.
Definition run_op (fuel : nat) (o : op) : stM sys reply :=
  match o with
  | Add b l => r ← on_drv (virtqueue_add_outbuf b l); mret (RAdd r)
  | Get => '(b, l) ← on_drv (virtqueue_get_buf fuel); mret (RGet b l)
  | Fetch => device_fetch
  | Use k w => device_use k w
  end.
Fixpoint run_ops (fuel : nat) (l : list op) : stM sys (list reply) :=
  match l with
  | [] => mret []
  | o :: l => r ← run_op fuel o; rs ← run_ops fuel l; mret (r :: rs)
  end.

(** The abstract queue of [n] buffers: those the device has not seen yet, those it has,
    and those it has handed back, with the number of bytes. *)
Record aq := Aq { waiting : list (Z * Z); pending : list (Z * Z); finished : list (Z * Z * Z) }.
Definition in_flight (a : aq) : Z := Z.of_nat (length (waiting a) + length (pending a) + length (finished a)).
Definition spec_op (n : Z) (o : op) (a : aq) : option (reply * aq) :=
  match o with
  | Add b l =>
    if in_flight a =? n then Some (RAdd (-1), a) else Some (RAdd 0, Aq (waiting a ++ [(b, l)]) (pending a) (finished a))
  | Get =>
    match finished a with
    | [] => None
    | (b, _, w) :: f => Some (RGet b w, Aq (waiting a) (pending a) f)
    end
  | Fetch =>
    match waiting a with
    | [] => Some (RFetch None, a)
    | x :: q => Some (RFetch (Some x), Aq q (pending a ++ [x]) (finished a))
    end
  | Use k w =>
    match pending a !! k with
    | None => Some (RUse false, a)
    | Some x => Some (RUse true, Aq (waiting a) (delete k (pending a)) (finished a ++ [(x, w)]))
    end
  end.
Fixpoint spec_ops (n : Z) (l : list op) (a : aq) : option (list reply * aq) :=
  match l with
  | [] => Some ([], a)
  | o :: l => '(r, a) ← spec_op n o a; '(rs, a) ← spec_ops n l a; Some (r :: rs, a)
  end.
(** What callers pass: a buffer that is not NULL, of a length that is not 0. *)
Definition op_ok (o : op) : Prop :=
  match o with Add b l => b ≠ 0 ∧ l ≠ 0 | _ => True end.

(** ** Lemmas *)
(** [l] is in the ring from index [start] on. *)
Definition seg {A} (n : Z) (ring : list A) (start : Z) (l : list A) : Prop :=
  ∀ i x, l !! i = Some x → ring !! Z.to_nat ((start + Z.of_nat i) mod n) = Some x.
(** The free descriptors, linked through [next]. *)
Fixpoint chain (d : list vring_desc) (p : Z) (fl : list Z) : Prop :=
  match fl with
  | [] => True
  | h :: fl => p = h ∧ ∃ e, d !! Z.to_nat h = Some e ∧ chain d (d_next e) fl
  end.
(** Descriptor [h] holds the buffer [b]. *)
Definition holds (d : vring_virtqueue) (h : Z) (b : Z * Z) : Prop :=
  data d !! Z.to_nat h = Some b.1 ∧ ∃ nx, r_desc (ring d) !! Z.to_nat h = Some (Vdesc b.1 b.2 0 nx).

Lemma seg_cons {A} n (ring : list A) start x l :
  seg n ring start (x :: l) → ring !! Z.to_nat (start mod n) = Some x ∧ seg n ring (start + 1) l.
Proof.
  intros H. split; [rewrite <- (H 0%nat x eq_refl); do 3 f_equal; lia|].
  intros i y E. rewrite <- (H (S i) y E). do 3 f_equal. lia.
Qed.
Lemma seg_snoc {A} n (ring : list A) start x l :
  0 < n → length ring = Z.to_nat n → Z.of_nat (length l) < n → seg n ring start l →
  seg n (<[Z.to_nat ((start + Z.of_nat (length l)) mod n) := x]> ring) start (l ++ [x]).
Proof.
  intros Hn Hr Hl H i y E. pose proof (Z.mod_pos_bound (start + Z.of_nat (length l)) n Hn).
  apply lookup_app_Some in E as [E|[Hi E]].
  - pose proof (lookup_lt_Some _ _ _ E) as Hi. rewrite list_lookup_insert_ne; [by apply H|]. intros Eq.
    pose proof (Z.mod_pos_bound (start + Z.of_nat i) n Hn).
    apply Z2Nat.inj in Eq; [|lia..].
    pose proof (Z.div_mod (start + Z.of_nat (length l)) n ltac:(lia)) as D1. pose proof (Z.div_mod (start + Z.of_nat i) n ltac:(lia)) as D2.
    rewrite Eq in D1. set (q1 := (start + Z.of_nat (length l)) / n) in *. set (q2 := (start + Z.of_nat i) / n) in *.
    assert (Z.of_nat (length l) - Z.of_nat i = n * (q1 - q2)) by lia. assert (0 < q1 - q2 < 1) by nia. lia.
  - apply list_lookup_singleton_Some in E as [Ei <-]. replace i with (length l) by lia.
    apply list_lookup_insert_eq. lia.
Qed.
Lemma chain_frame d h e p fl : h ∉ fl → 0 ≤ h → Forall (λ x, 0 ≤ x) fl → chain d p fl → chain (<[Z.to_nat h := e]> d) p fl.
Proof.
  revert p. induction fl as [|x fl IH]; intros p Hn H0 Hp; [done|]. apply not_elem_of_cons in Hn as [Hx Hn].
  apply Forall_cons in Hp as [Hx0 Hp]. cbn [chain]. intros [-> (e' & E & Hc)]. split; [done|]. exists e'.
  split; [|by apply IH]. rewrite list_lookup_insert_ne; [done|]. lia.
Qed.

(** [vring_init]: the descriptors, the available ring with its two extra words and the
    used ring follow each other; the used ring is aligned. *)
Lemma vring_init_ok num p j :
  0 ≤ num → 0 ≤ p → 0 ≤ j → p + 18 * num + 6 + 2 ^ j < 2 ^ 64 →
  let r := vring_init num p (2 ^ j) in
  desc r = p ∧ avail r = p + sizeof_vring_desc * num ∧ avail r + 6 + 2 * num ≤ used r < avail r + 6 + 2 * num + 2 ^ j ∧ used r mod 2 ^ j = 0.
Proof.
  intros Hn Hp Hj Hl r. unfold r, vring_init, sizeof_vring_desc. cbv zeta. cbn [desc avail used].
  pose proof (Z.pow_pos_nonneg 2 j ltac:(lia) Hj) as Hpow.
  assert (j < 64) as Hj64.
  { destruct (Z.lt_ge_cases j 64) as [|Hge]; [done|]. pose proof (Z.pow_le_mono_r 2 64 j ltac:(lia) Hge). lia. }
  rewrite (u64_small (p + num * 16)) by (unfold in_u64; lia).
  rewrite (u64_small (p + num * 16 + 4 + 2 * num)) by (unfold in_u64; lia).
  set (x := p + num * 16 + 4 + 2 * num + 2).
  destruct (ALIGN_spec j ltac:(lia) x ltac:(lia) ltac:(lia)) as [Ha Hb].
  assert (ALIGN x (2 ^ j) = Z.land (u64 (x + 2 ^ j - 1)) (not64 (2 ^ j - 1))) as E.
  { unfold ALIGN, ALIGN_MASK. rewrite (u64_small (2 ^ j - 1)) by (unfold in_u64; lia). by rewrite Z.add_sub_assoc. }
  rewrite <- E. unfold x in *. split; [done|]. split; [lia|]. split; [lia|done].
Qed.

(** ** The code on a state *)
Lemma bind_ld_desc {B} i d (g : vring_desc → stM vring_virtqueue B) s :
  0 ≤ i → r_desc (ring s) !! Z.to_nat i = Some d → (ld_desc i ≫= g) s = g d s.
Proof. intros Hi E. unfold ld_desc. rewrite stM_bind_assoc, bind_get, (arr_get_ok _ _ d) by done. done. Qed.
Lemma bind_st_desc {B} i f d (g : unit → stM vring_virtqueue B) s :
  0 ≤ i → r_desc (ring s) !! Z.to_nat i = Some d →
  (st_desc i f ≫= g) s = g tt (set_ring (set_r_desc (<[Z.to_nat i := f d]> (r_desc (ring s))) (ring s)) s).
Proof.
  intros Hi E. unfold st_desc. rewrite stM_bind_assoc, (bind_ld_desc _ d) by done. rewrite stM_bind_assoc, bind_get.
  pose proof (lookup_lt_Some _ _ _ E). rewrite arr_set_ok by lia. by rewrite stM_bind_assoc, bind_lift_Done, bind_modify.
Qed.
Lemma bind_ld_data {B} i x (g : Z → stM vring_virtqueue B) s :
  0 ≤ i → data s !! Z.to_nat i = Some x → (ld_data i ≫= g) s = g x s.
Proof. intros Hi E. unfold ld_data. by rewrite stM_bind_assoc, bind_get, (arr_get_ok _ _ x), bind_lift_Done by done. Qed.
Lemma bind_st_data {B} i x (g : unit → stM vring_virtqueue B) s :
  0 ≤ i < Z.of_nat (length (data s)) → (st_data i x ≫= g) s = g tt (set_data (<[Z.to_nat i := x]> (data s)) s).
Proof. intros Hi. unfold st_data. by rewrite stM_bind_assoc, bind_get, arr_set_ok, stM_bind_assoc, bind_lift_Done, bind_modify by done. Qed.

(** The states the two calls leave, for a head that is in the arrays. *)
Definition added (h b l : Z) (e : vring_desc) (s : vring_virtqueue) : vring_virtqueue :=
  let r := ring s in
  Vvq (Vq (callback (vq s)) (name (vq s)) (vdev (vq s)) (index (vq s)) (num_free (vq s) - 1)) (vr s) (d_next e)
    (u32 (num_added s + 1)) (last_used_idx s) (notify s) (<[Z.to_nat h := b]> (data s))
    (Rings (<[Z.to_nat h := Vdesc b l 0 (d_next e)]> (r_desc r)) (u16 (avail_idx r + 1))
      (<[Z.to_nat (ring_slot s (avail_idx r)) := h]> (avail_ring r)) (used_idx r) (used_ring r)).
Definition detached (h : Z) (e : vring_desc) (s : vring_virtqueue) : vring_virtqueue :=
  let r := ring s in
  Vvq (Vq (callback (vq s)) (name (vq s)) (vdev (vq s)) (index (vq s)) (num_free (vq s) + 1)) (vr s) h
    (num_added s) (u16 (last_used_idx s + 1)) (notify s) (<[Z.to_nat h := 0]> (data s))
    (Rings (<[Z.to_nat h := set_next (u16 (free_head s)) e]> (r_desc r)) (avail_idx r) (avail_ring r) (used_idx r) (used_ring r)).

Section calls.
Context (k : Z) (Hk : 0 ≤ k ≤ 15).
Abbreviation n := (2 ^ k).

Lemma n_range : 1 ≤ n ≤ 32768.
Proof. split; [pose proof (Z.pow_pos_nonneg 2 k); lia|]. change 32768 with (2 ^ 15). apply Z.pow_le_mono_r; lia. Qed.
Lemma land_slot x : Z.land x (u32 (n - 1)) = x mod n.
Proof.
  pose proof n_range. rewrite u32_small by (unfold in_u32; lia). replace (n - 1) with (Z.ones k) by (rewrite Z.ones_equiv; lia).
  apply Z.land_ones. lia.
Qed.
Lemma u16_slot x : u16 x mod n = x mod n.
Proof.
  pose proof n_range. unfold u16. replace (2 ^ 16) with (n * 2 ^ (16 - k)) by (rewrite <- Z.pow_add_r by lia; f_equal; lia).
  rewrite Z.rem_mul_r by (try apply Z.pow_nonzero; try apply Z.pow_pos_nonneg; lia). rewrite Z.mul_comm, Z.mod_add, Z.mod_mod by lia. done.
Qed.
Lemma seg_u16 {A} (ring : list A) start l : seg n ring (u16 start) l ↔ seg n ring start l.
Proof.
  pose proof n_range. unfold seg.
  assert (∀ i, (u16 start + i) mod n = (start + i) mod n) as E.
  { intros i. rewrite Z.add_mod, u16_slot, <- Z.add_mod by lia. done. }
  split; intros H0 i x Ei; [rewrite <- E|rewrite E]; by apply H0.
Qed.

Lemma add_run b l h e s :
  b ≠ 0 → l ≠ 0 → 0 < num_free (vq s) < 2 ^ 32 → free_head s = h → 0 ≤ h < 32768 → num (vr s) = n →
  r_desc (ring s) !! Z.to_nat h = Some e → h < Z.of_nat (length (data s)) → length (avail_ring (ring s)) = Z.to_nat n →
  virtqueue_add_outbuf b l s = Done (0, added h b l e s).
Proof.
  intros Hb Hl Hf Hh Hr Hnum E Hd Ha. unfold virtqueue_add_outbuf.
  rewrite (proj2 (Z.eqb_neq b 0)), (proj2 (Z.eqb_neq l 0)) by done. cbn [negb c_assert]. rewrite !bind_lift_Done, bind_gets.
  rewrite (proj2 (Z.eqb_neq _ 0)) by lia. rewrite bind_modify, bind_gets. cbn [free_head set_num_free set_vq].
  rewrite Hh, s32_small by lia. cbv zeta. pose proof (lookup_lt_Some _ _ _ E) as Hlt.
  erewrite bind_st_desc; [|lia|exact E]. cbn [ring set_ring r_desc set_r_desc set_num_free set_vq].
  erewrite bind_st_desc; [|lia|by apply list_lookup_insert_eq]. cbn [ring set_ring r_desc set_r_desc].
  erewrite bind_st_desc; [|lia|apply list_lookup_insert_eq; rewrite length_insert; lia]. cbn [ring set_ring r_desc set_r_desc].
  erewrite bind_ld_desc; [|lia|cbn [ring set_ring r_desc set_r_desc]; apply list_lookup_insert_eq; rewrite !length_insert; lia].
  rewrite bind_modify, bind_st_data by (cbn [data set_free_head set_ring set_num_free set_vq]; lia). rewrite bind_get.
  cbn [ring set_data set_free_head set_ring avail_idx set_r_desc vr avail_ring set_num_free set_vq]. rewrite Hnum, land_slot.
  pose proof n_range. pose proof (Z.mod_pos_bound (avail_idx (ring s)) n).
  rewrite arr_set_ok by lia. rewrite bind_lift_Done, !bind_modify. rewrite !list_insert_insert_eq, (u16_small h) by lia. cbn.
  rewrite (u32_small (num_free (vq s) - 1)) by (unfold in_u32; lia). unfold added, ring_slot. by rewrite Hnum.
Qed.

Lemma get_run fuel h w e x s :
  num (vr s) = n → used_ring (ring s) !! Z.to_nat (last_used_idx s mod n) = Some (Uelem h w) → 0 ≤ h →
  r_desc (ring s) !! Z.to_nat h = Some e → d_flags e = 0 → data s !! Z.to_nat h = Some x → 0 ≤ num_free (vq s) < 2 ^ 32 - 1 →
  virtqueue_get_buf (S fuel) s = Done ((x, w), detached h e s).
Proof.
  intros Hnum Hu Hh E Hfl Hx Hf. unfold virtqueue_get_buf. rewrite bind_get, Hnum, land_slot. pose proof n_range.
  pose proof (Z.mod_pos_bound (last_used_idx s) n). rewrite (u16_small (_ mod _)) by lia. cbv zeta.
  rewrite (arr_get_ok _ _ (Uelem h w)), bind_lift_Done by (done || lia). cbn [u_id u_len].
  rewrite (bind_ld_data _ x) by done. unfold detach_buf. rewrite stM_bind_assoc. pose proof (lookup_lt_Some _ _ _ Hx). pose proof (lookup_lt_Some _ _ _ E).
  rewrite bind_st_data by lia. rewrite stM_bind_assoc. cbn [detach_loop]. erewrite stM_bind_Done.
  2:{ rewrite (bind_ld_desc _ e) by done. rewrite Hfl. reflexivity. }
  rewrite stM_bind_assoc, bind_gets, stM_bind_assoc. cbn [free_head set_data].
  erewrite bind_st_desc; [|done|exact E]. rewrite stM_bind_assoc, !bind_modify. cbn. unfold detached. rewrite (u32_small (num_free (vq s) + 1)) by (unfold in_u32; lia). done.
Qed.
End calls.

(** ** The simulation *)
(** [hw], [hp] and [hu] are the descriptors of the buffers in the three queues, [fl] the
    free list. *)
Record simulates (n : Z) (s : sys) (a : aq) (hw hp hu fl : list Z) : Prop := {
  sm_num : num (vr (drv s)) = n;
  sm_desc : length (r_desc (ring (drv s))) = Z.to_nat n;
  sm_data : n ≤ Z.of_nat (length (data (drv s)));
  sm_avail : length (avail_ring (ring (drv s))) = Z.to_nat n;
  sm_used : length (used_ring (ring (drv s))) = Z.to_nat n;
  sm_heads : hw ++ hp ++ hu ++ fl ≡ₚ seqZ 0 n;
  sm_chain : chain (r_desc (ring (drv s))) (free_head (drv s)) fl;
  sm_free : num_free (vq (drv s)) = Z.of_nat (length fl);
  sm_wseg : seg n (avail_ring (ring (drv s))) (dv_seen (dev s)) hw;
  sm_aidx : avail_idx (ring (drv s)) = u16 (dv_seen (dev s) + Z.of_nat (length hw));
  sm_seen : 0 ≤ dv_seen (dev s) < 2 ^ 16;
  sm_pend : dv_pending (dev s) = hp;
  sm_useg : seg n (used_ring (ring (drv s))) (last_used_idx (drv s)) (zip_with Uelem hu (snd <$> finished a));
  sm_uidx : used_idx (ring (drv s)) = u16 (last_used_idx (drv s) + Z.of_nat (length hu));
  sm_last : 0 ≤ last_used_idx (drv s) < 2 ^ 16;
  sm_w : Forall2 (holds (drv s)) hw (waiting a);
  sm_p : Forall2 (holds (drv s)) hp (pending a);
  sm_u : Forall2 (holds (drv s)) hu (fst <$> finished a)
}.

Section simulation.
Context (k : Z) (Hk : 0 ≤ k ≤ 15).
Abbreviation n := (2 ^ k).

Lemma heads_facts hw hp hu fl :
  hw ++ hp ++ hu ++ fl ≡ₚ seqZ 0 n →
  NoDup (hw ++ hp ++ hu ++ fl) ∧ Forall (λ h, 0 ≤ h < n) (hw ++ hp ++ hu ++ fl) ∧
  Z.of_nat (length hw + length hp + length hu + length fl) = n.
Proof.
  intros E. pose proof (n_range k Hk). split; [rewrite E; apply NoDup_seqZ|]. split.
  - apply Forall_forall. intros h. rewrite E, elem_of_seqZ. lia.
  - apply Permutation_length in E. rewrite !length_app, length_seqZ in E. lia.
Qed.
Lemma in_flight_length a hw hp hu d :
  Forall2 (holds d) hw (waiting a) → Forall2 (holds d) hp (pending a) → Forall2 (holds d) hu (fst <$> finished a) →
  in_flight a = Z.of_nat (length hw + length hp + length hu).
Proof. intros H1%Forall2_length H2%Forall2_length H3%Forall2_length. rewrite length_fmap in H3. unfold in_flight. lia. Qed.
(** What the driver does to one descriptor leaves the others. *)
Lemma holds_frame d d' h x e h' b :
  h' ≠ h → 0 ≤ h → 0 ≤ h' → data d' = <[Z.to_nat h := x]> (data d) → r_desc (ring d') = <[Z.to_nat h := e]> (r_desc (ring d)) →
  holds d h' b → holds d' h' b.
Proof.
  intros Hne H0 H0' Ed Er [Hd [nx Hr]]. split.
  - rewrite Ed, list_lookup_insert_ne by lia. done.
  - exists nx. rewrite Er, list_lookup_insert_ne by lia. done.
Qed.
Lemma all_holds_frame d d' h x e hs bs :
  h ∉ hs → 0 ≤ h → Forall (λ h, 0 ≤ h < n) hs → data d' = <[Z.to_nat h := x]> (data d) →
  r_desc (ring d') = <[Z.to_nat h := e]> (r_desc (ring d)) → Forall2 (holds d) hs bs → Forall2 (holds d') hs bs.
Proof.
  intros Hn H0 Hf Ed Er H. induction H as [|h' b hs bs Hb _ IH]; [done|].
  apply not_elem_of_cons in Hn as [Hne Hn]. apply Forall_cons in Hf as [Hh Hf]. constructor; [|by apply IH].
  by apply (holds_frame d d' h x e); [done|lia|lia|..].
Qed.

Definition simulation s a : Prop := ∃ hw hp hu fl, simulates n s a hw hp hu fl.

Lemma sim_add fuel b l s a :
  simulation s a → b ≠ 0 → l ≠ 0 →
  ∃ r a' s', spec_op n (Add b l) a = Some (r, a') ∧ run_op fuel (Add b l) s = Done (r, s') ∧ simulation s' a'.
Proof.
  intros (hw & hp & hu & fl & []) Hb Hl. destruct s as [d [seen pend]]. cbn [drv dev dv_seen dv_pending] in *. pose proof (n_range k Hk).
  destruct (heads_facts _ _ _ _ sm_heads0) as (Hnd & Hr & Hlen). unfold spec_op. rewrite (in_flight_length a hw hp hu d) by done.
  destruct (Z.eqb_spec (Z.of_nat (length hw + length hp + length hu)) n) as [Hfull|Hroom].
  - exists (RAdd (-1)), a, (Sys d (Device seen pend)). split; [done|]. split; [|by exists hw, hp, hu, fl].
    cbn [run_op]. erewrite (stM_bind_Done (on_drv _)); [reflexivity|]. unfold on_drv, zoom. cbn [drv].
    unfold virtqueue_add_outbuf. rewrite (proj2 (Z.eqb_neq b 0)), (proj2 (Z.eqb_neq l 0)) by done. cbn [negb c_assert].
    rewrite !bind_lift_Done, bind_gets, sm_free0. replace (length fl) with 0%nat by lia. done.
  - destruct fl as [|h fl]; [cbn in Hlen; lia|]. cbn [chain] in sm_chain0. destruct sm_chain0 as (Eh & e & Ee & Hc).
    rewrite !Forall_app, Forall_cons in Hr. destruct Hr as (Hrw & Hrp & Hru & Hh & Hrf).
    rewrite !NoDup_app, NoDup_cons in Hnd. destruct Hnd as (_ & Dw & _ & Dp & _ & Du & Hhf & _).
    assert (h ∉ hw) as Nw by (intros Hin; apply (Dw h Hin), elem_of_app; right; apply elem_of_app; right; left).
    assert (h ∉ hp) as Np by (intros Hin; apply (Dp h Hin), elem_of_app; right; left).
    assert (h ∉ hu) as Nu by (intros Hin; apply (Du h Hin); left).
    eexists _, _, _. split; [reflexivity|]. split.
    { cbn [run_op]. erewrite (stM_bind_Done (on_drv _)); [reflexivity|]. unfold on_drv, zoom. cbn [drv].
      rewrite (add_run k Hk b l h e); [reflexivity|..]; (done || lia). }
    exists (hw ++ [h]), hp, hu, fl. pose proof (lookup_lt_Some _ _ _ Ee).
    assert (data (added h b l e d) = <[Z.to_nat h := b]> (data d)) as Ed by done.
    assert (r_desc (ring (added h b l e d)) = <[Z.to_nat h := Vdesc b l 0 (d_next e)]> (r_desc (ring d))) as Er by done.
    split; cbn [drv dev dv_seen dv_pending waiting pending finished]; try done.
    + by rewrite Er, length_insert.
    + by rewrite Ed, length_insert.
    + cbn. by rewrite length_insert.
    + rewrite <- sm_heads0, <- app_assoc. apply Permutation_app_head. cbn [app]. rewrite !app_assoc. apply Permutation_middle.
    + rewrite Er. apply chain_frame; [done|lia|apply (Forall_impl _ _ _ Hrf); intros; lia|done].
    + cbn in *. lia.
    + cbn [ring added avail_ring]. unfold ring_slot. rewrite sm_num0, sm_aidx0, u16_slot by done. apply seg_snoc; [lia|done|lia|done].
    + cbn. rewrite sm_aidx0, length_app. cbn [length]. unfold u16. rewrite Z.add_mod_idemp_l by lia. f_equal. lia.
    + apply Forall2_app; [apply (all_holds_frame d _ h b (Vdesc b l 0 (d_next e))); (done || lia)|].
      constructor; [|done]. split; [rewrite Ed; apply list_lookup_insert_eq; lia|]. exists (d_next e). rewrite Er. apply list_lookup_insert_eq. lia.
    + apply (all_holds_frame d _ h b (Vdesc b l 0 (d_next e))); (done || lia).
    + apply (all_holds_frame d _ h b (Vdesc b l 0 (d_next e))); (done || lia).
Qed.

Lemma sim_get fuel r a s a' :
  simulation s a → spec_op n Get a = Some (r, a') →
  ∃ s', run_op (S fuel) Get s = Done (r, s') ∧ simulation s' a'.
Proof.
  intros (hw & hp & hu & fl & []) Es. destruct s as [d [seen pend]]. cbn [drv dev dv_seen dv_pending] in *. pose proof (n_range k Hk).
  destruct (heads_facts _ _ _ _ sm_heads0) as (Hnd & Hr & Hlen).
  destruct a as [ws ps fs]. cbn [spec_op finished waiting pending] in *. destruct fs as [|[[b l] w] fs]; [done|]. simplify_eq.
  cbn [fmap list_fmap] in *. inversion sm_u0 as [|h x hu' y Hh Hu' E1 E2]; subst. cbn [zip_with fst snd fmap list_fmap] in *.
  apply seg_cons in sm_useg0 as [Eu Hus]. destruct Hh as [Hd [nx Er]]. cbn [fst snd] in *.
  rewrite !Forall_app, Forall_cons in Hr. destruct Hr as (Hrw & Hrp & [Hh Hru] & Hrf).
  rewrite !NoDup_app in Hnd. destruct Hnd as (_ & Dw & _ & Dp & Hnu & Du & _). apply NoDup_cons in Hnu as [Nu _].
  assert (h ∉ hw) as Nw by (intros Hin; apply (Dw h Hin), elem_of_app; right; apply elem_of_app; left; left).
  assert (h ∉ hp) as Np by (intros Hin; apply (Dp h Hin), elem_of_app; left; left).
  assert (h ∉ fl) as Nf by (intros Hin; apply (Du h); [left|done]).
  pose proof (lookup_lt_Some _ _ _ Er) as Hlt. pose proof (lookup_lt_Some _ _ _ Hd).
  eexists. split.
  { cbn [run_op]. erewrite (stM_bind_Done (on_drv _) _ _ (b, w)); [reflexivity|]. unfold on_drv, zoom. cbn [drv].
    rewrite (get_run k Hk fuel h w (Vdesc b l 0 nx) b); [reflexivity|..]; (done || lia). }
  set (e := Vdesc b l 0 nx). exists hw, hp, hu', (h :: fl).
  assert (data (detached h e d) = <[Z.to_nat h := 0]> (data d)) as Ed by done.
  assert (r_desc (ring (detached h e d)) = <[Z.to_nat h := set_next (u16 (free_head d)) e]> (r_desc (ring d))) as Er' by done.
  split; cbn [drv dev dv_seen dv_pending waiting pending finished]; try done.
  - by rewrite Er', length_insert.
  - by rewrite Ed, length_insert.
  - rewrite <- sm_heads0. do 2 apply Permutation_app_head. symmetry. apply Permutation_middle.
  - cbn [chain]. split; [done|]. exists (set_next (u16 (free_head d)) e). split; [rewrite Er'; by apply list_lookup_insert_eq|].
    rewrite Er'. cbn [d_next set_next]. destruct fl as [|h' fl]; [done|].
    assert (u16 (free_head d) = free_head d) as ->.
    { destruct sm_chain0 as [<- _]. apply Forall_cons in Hrf as [? _]. apply u16_small. lia. }
    apply chain_frame; [done|lia|apply (Forall_impl _ _ _ Hrf); intros; lia|done].
  - cbn in *. lia.
  - cbn [ring detached used_ring last_used_idx]. by apply seg_u16.
  - cbn [ring detached used_idx last_used_idx]. rewrite sm_uidx0. cbn [length]. unfold u16. rewrite Z.add_mod_idemp_l by lia. f_equal. lia.
  - apply u16_range.
  - apply (all_holds_frame d _ h 0 (set_next (u16 (free_head d)) e)); (done || lia).
  - apply (all_holds_frame d _ h 0 (set_next (u16 (free_head d)) e)); (done || lia).
  - apply (all_holds_frame d _ h 0 (set_next (u16 (free_head d)) e)); (done || lia).
Qed.

Lemma u16_ne x m : 0 ≤ x < 2 ^ 16 → 0 < m < 2 ^ 16 → u16 (x + m) ≠ x.
Proof.
  intros Hx Hm E. unfold u16 in E. destruct (Z.lt_ge_cases (x + m) (2 ^ 16)).
  - rewrite Z.mod_small in E by lia. lia.
  - replace (x + m) with (x + m - 2 ^ 16 + 1 * 2 ^ 16) in E by lia. rewrite Z.mod_add, Z.mod_small in E by lia. lia.
Qed.
Lemma sim_fetch fuel s a :
  simulation s a → ∃ r a' s', spec_op n Fetch a = Some (r, a') ∧ run_op fuel Fetch s = Done (r, s') ∧ simulation s' a'.
Proof.
  intros (hw & hp & hu & fl & []). destruct s as [d [seen pend]]. cbn [drv dev dv_seen dv_pending] in *. pose proof (n_range k Hk).
  destruct (heads_facts _ _ _ _ sm_heads0) as (Hnd & Hr & Hlen). destruct a as [ws ps fs]. cbn [spec_op waiting pending finished run_op] in *.
  unfold device_fetch. destruct sm_w0 as [|h [b l] hw ws Hh Hw].
  - exists (RFetch None), (Aq [] ps fs), (Sys d (Device seen pend)). split; [done|]. split.
    + rewrite bind_get. cbn [drv dev dv_seen]. rewrite sm_aidx0. cbn [length]. rewrite Z.add_0_r, u16_small, Z.eqb_refl by done. done.
    + by exists [], hp, hu, fl.
  - destruct Hh as [Hd [nx Er]]. cbn [fst snd] in *. apply seg_cons in sm_wseg0 as [Ea Hws]. apply Forall_cons in Hr as [Hh _].
    eexists _, _, _. split; [reflexivity|]. split.
    + rewrite bind_get. cbn [drv dev dv_seen]. rewrite (proj2 (Z.eqb_neq _ _)).
      2:{ rewrite sm_aidx0. apply not_eq_sym, u16_ne; [done|]. cbn [length] in *. lia. }
      unfold ring_slot. rewrite sm_num0, (arr_get_ok _ _ h), bind_lift_Done, (arr_get_ok _ h (Vdesc b l 0 nx)), bind_lift_Done
        by (done || lia || (apply Z.mod_pos_bound; lia)).
      rewrite bind_modify. reflexivity.
    + exists hw, (hp ++ [h]), hu, fl. cbn [dev dv_seen dv_pending].
      split; cbn [drv dev dv_seen dv_pending waiting pending finished]; try done.
      * rewrite <- sm_heads0, <- !app_assoc. cbn [app]. rewrite app_assoc, <- Permutation_middle, <- app_assoc. done.
      * by apply seg_u16.
      * rewrite sm_aidx0. cbn [length]. unfold u16. rewrite Z.add_mod_idemp_l by lia. f_equal. lia.
      * apply u16_range.
      * by rewrite sm_pend0.
      * apply Forall2_app; [done|]. constructor; [|done]. split; [done|by exists nx].
Qed.
Lemma sim_use fuel i w s a :
  simulation s a → ∃ r a' s', spec_op n (Use i w) a = Some (r, a') ∧ run_op fuel (Use i w) s = Done (r, s') ∧ simulation s' a'.
Proof.
  intros (hw & hp & hu & fl & []). destruct s as [d [seen pend]]. cbn [drv dev dv_seen dv_pending] in *. pose proof (n_range k Hk).
  destruct (heads_facts _ _ _ _ sm_heads0) as (Hnd & Hr & Hlen). destruct a as [ws ps fs]. cbn [spec_op waiting pending finished run_op] in *.
  unfold device_use. subst pend. destruct (hp !! i) as [h|] eqn:Eh.
  - destruct (Forall2_lookup_l _ _ _ _ _ sm_p0 Eh) as (x & Ex & Hx). rewrite Ex. eexists _, _, _. split; [reflexivity|]. split.
    + rewrite bind_get. cbn [drv dev dv_pending]. rewrite Eh. unfold ring_slot. rewrite sm_num0.
      pose proof (Z.mod_pos_bound (used_idx (ring d)) n). rewrite arr_set_ok by lia. by rewrite bind_lift_Done, bind_modify.
    + exists hw, (delete i hp), (hu ++ [h]), fl. pose proof (Forall2_length _ _ _ sm_u0) as Hlu. rewrite length_fmap in Hlu.
      split; cbn [drv dev dv_seen dv_pending waiting pending finished]; try done.
      * cbn. by rewrite length_insert.
      * rewrite <- sm_heads0. apply Permutation_app_head. trans ((h :: delete i hp) ++ hu ++ fl).
        { rewrite <- (app_assoc hu). cbn [app]. rewrite !(app_assoc (delete i hp)). symmetry. apply Permutation_middle. }
        apply Permutation_app_tail. symmetry. by apply delete_Permutation.
      * rewrite fmap_app. rewrite (zip_with_app Uelem hu [h]) by (rewrite length_fmap; lia). cbn [fmap list_fmap fst snd zip_with].
        cbn [ring set_ring used_ring set_used_idx set_used_ring last_used_idx]. rewrite sm_uidx0, u16_slot by done.
        replace (length hu) with (length (zip_with Uelem hu (snd <$> fs))) by (rewrite length_zip_with, length_fmap; lia).
        apply seg_snoc; [lia|done| |done]. rewrite length_zip_with, length_fmap.
        pose proof (lookup_lt_Some _ _ _ Eh). lia.
      * cbn. rewrite sm_uidx0, length_app. cbn [length]. unfold u16. rewrite Z.add_mod_idemp_l by lia. f_equal. lia.
      * by apply Forall2_delete.
      * rewrite fmap_app. apply Forall2_app; [done|]. by constructor.
  - assert (ps !! i = None) as Ep by (apply lookup_ge_None; apply lookup_ge_None in Eh; rewrite <- (Forall2_length _ _ _ sm_p0); done).
    rewrite Ep. exists (RUse false), (Aq ws ps fs), (Sys d (Device seen hp)). split; [done|]. split; [|by exists hw, hp, hu, fl].
    rewrite bind_get. cbn [drv dev dv_pending]. by rewrite Eh.
Qed.

(** Any run of the abstract queue is a run of the driver and the device. *)
Lemma sim_ops fuel l s a rs a' :
  simulation s a → Forall op_ok l → spec_ops n l a = Some (rs, a') →
  ∃ s', run_ops (S fuel) l s = Done (rs, s') ∧ simulation s' a'.
Proof.
  revert s a rs a'. induction l as [|o l IH]; intros s a rs a' Hs Hok E; cbn [spec_ops run_ops] in *; [simplify_eq; by exists s|].
  apply Forall_cons in Hok as [Ho Hok].
  apply bind_Some in E as ([r a1] & E1 & E). apply bind_Some in E as ([rs1 a2] & E2 & E). simplify_eq.
  assert (∃ s1, run_op (S fuel) o s = Done (r, s1) ∧ simulation s1 a1) as (s1 & R1 & Hs1).
  { destruct o as [b n'| | |i w].
    - destruct Ho. destruct (sim_add (S fuel) b n' s a) as (r' & a'' & s1 & E' & R & S1); [done..|]. rewrite E' in E1. simplify_eq. by exists s1.
    - by apply (sim_get _ r a s a1).
    - destruct (sim_fetch (S fuel) s a) as (r' & a'' & s1 & E' & R & S1); [done..|]. rewrite E' in E1. simplify_eq. by exists s1.
    - destruct (sim_use (S fuel) i w s a) as (r' & a'' & s1 & E' & R & S1); [done..|]. rewrite E' in E1. simplify_eq. by exists s1. }
  rewrite (stM_bind_Done _ _ _ _ _ R1). destruct (IH _ _ _ _ Hs1 Hok E2) as (s2 & R2 & Hs2).
  rewrite (stM_bind_Done _ _ _ _ _ R2). by exists s2.
Qed.

(** ** Initialisation *)
Lemma chain_seq d p m :
  (∀ j, p ≤ j < p + Z.of_nat m → ∃ e, d !! Z.to_nat j = Some e ∧ (j < p + Z.of_nat m - 1 → d_next e = j + 1)) →
  chain d p (seqZ p (Z.of_nat m)).
Proof.
  revert p. induction m as [|m IH]; intros p H; [done|]. rewrite seqZ_cons by lia. cbn [chain]. split; [done|].
  destruct (H p ltac:(lia)) as (e & E & Hn). exists e. split; [done|]. replace (Z.pred (Z.of_nat (S m))) with (Z.of_nat m) by lia.
  destruct m as [|m]; [done|]. rewrite Hn by lia. apply (IH (p + 1)). intros j Hj.
  destruct (H j ltac:(lia)) as (e' & E' & Hn'). exists e'. split; [done|]. intros. apply Hn'. lia.
Qed.
(** The loop changes the descriptors and the data only. *)
Lemma init_loop_ok fuel i d :
  0 ≤ i ≤ n - 1 → (Z.to_nat (n - 1 - i) ≤ fuel)%nat → length (r_desc (ring d)) = Z.to_nat n → n ≤ Z.of_nat (length (data d)) →
  ∃ ds dt, init_loop fuel n i d = Done (n - 1, set_data dt (set_ring (set_r_desc ds (ring d)) d)) ∧
    length ds = Z.to_nat n ∧ length dt = length (data d) ∧
    (∀ j, 0 ≤ j < i → ds !! Z.to_nat j = r_desc (ring d) !! Z.to_nat j) ∧
    (∀ j, i ≤ j < n - 1 → ∃ e, ds !! Z.to_nat j = Some e ∧ d_next e = j + 1).
Proof.
  pose proof (n_range k Hk) as Hn. revert i d. induction fuel as [|fuel IH]; intros i d Hi Hf Hl Hd.
  - exists (r_desc (ring d)), (data d). unfold init_loop. rewrite u32_small, (proj2 (Z.ltb_ge _ _)) by (unfold in_u32; lia).
    split; [replace (n - 1) with i by lia; by destruct d as [? ? ? ? ? ? ? []]|]. split; [done|]. split; [done|]. split; [done|]. lia.
  - cbn [init_loop]. rewrite (u32_small (n - 1)) by (unfold in_u32; lia). destruct (Z.ltb_spec i (n - 1)).
    + destruct (lookup_lt_is_Some_2 (r_desc (ring d)) (Z.to_nat i)) as [e Ee]; [lia|].
      rewrite (bind_st_desc _ _ e), bind_st_data by (done || (cbn [data set_ring]; lia)). rewrite u32_small, u16_small by (unfold in_u32; lia).
      cbn [data set_ring].
      edestruct (IH (i + 1)) as (ds & dt & R & L1 & L2 & Hlow & Hhigh); [lia|lia| | |exists ds, dt; split; [rewrite R; reflexivity|]].
      * cbn [ring set_data set_ring r_desc set_r_desc]. by rewrite length_insert.
      * cbn [data set_data]. rewrite length_insert. lia.
      * cbn [ring set_data set_ring r_desc set_r_desc data] in *. rewrite length_insert in L2. split; [done|]. split; [done|]. split.
        -- intros j Hj. rewrite Hlow by lia. apply list_lookup_insert_ne. lia.
        -- intros j Hj. destruct (decide (j = i)) as [->|]; [|apply Hhigh; lia]. exists (set_next (i + 1) e). split; [|done].
           rewrite Hlow by lia. apply list_lookup_insert_eq. lia.
    + exists (r_desc (ring d)), (data d). split; [replace (n - 1) with i by lia; by destruct d as [? ? ? ? ? ? ? []]|].
      split; [done|]. split; [done|]. split; [done|]. lia.
Qed.

(** A queue as it is before [vring_init_virtqueue]: the arrays are there and the
    indices in the shared memory are 0. *)
Record blank (d : vring_virtqueue) : Prop := {
  bl_desc : length (r_desc (ring d)) = Z.to_nat n;
  bl_data : n ≤ Z.of_nat (length (data d));
  bl_avail : length (avail_ring (ring d)) = Z.to_nat n;
  bl_used : length (used_ring (ring d)) = Z.to_nat n;
  bl_aidx : avail_idx (ring d) = 0;
  bl_uidx : used_idx (ring d) = 0
}.
Lemma init_ok fuel index align vdev pages notify callback name d :
  blank d → (Z.to_nat n ≤ fuel)%nat →
  ∃ d', vring_init_virtqueue fuel index n align vdev pages notify callback name d = Done (tt, d') ∧
    vr d' = vring_init n pages align ∧ simulation (Sys d' (Device 0 [])) (Aq [] [] []).
Proof.
  intros [] Hf. pose proof (n_range k Hk) as Hn. unfold vring_init_virtqueue. rewrite !bind_modify.
  edestruct (init_loop_ok fuel 0) as (ds & dt & R & L1 & L2 & _ & Hnext); [lia|lia| |
    |rewrite (stM_bind_Done _ _ _ _ _ R)]; [done|done|].
  cbn [data set_free_head set_num_added set_last_used_idx set_notify set_vq set_vr] in L2.
  pose proof (bind_st_data (n - 1) 0 (λ _, mret tt)) as B. unfold st_data. rewrite bind_get, arr_set_ok by (cbn [data set_data]; lia).
  rewrite bind_lift_Done. eexists. split; [reflexivity|]. split; [done|].
  exists [], [], [], (seqZ 0 n). split; cbn [drv dev dv_seen dv_pending waiting pending finished fmap list_fmap length zip_with]; try done.
  - cbn [data set_data]. rewrite length_insert. lia.
  - cbn. rewrite <- (Z2Nat.id n) by lia. apply chain_seq. intros j Hj.
    destruct (decide (j < n - 1)) as [Hlt|]; [destruct (Hnext j ltac:(lia)) as (e & E & En); by exists e|].
    destruct (lookup_lt_is_Some_2 ds (Z.to_nat j)) as [e E]; [lia|]. exists e. split; [done|]. lia.
  - cbn. rewrite length_seqZ. lia.
Qed.
End simulation.

(** What a run has done: the buffers the driver accepted, those the device has seen and
    those the driver got back. *)
Fixpoint accepted (l : list op) (rs : list reply) : list (Z * Z) :=
  match l, rs with
  | Add b n :: l, RAdd r :: rs => (if r =? 0 then [(b, n)] else []) ++ accepted l rs
  | _ :: l, _ :: rs => accepted l rs
  | _, _ => []
  end.
Definition fetched (rs : list reply) : list (Z * Z) := omap (λ r, match r with RFetch o => o | _ => None end) rs.
Definition returned (rs : list reply) : list Z := omap (λ r, match r with RGet b _ => Some b | _ => None end) rs.
Definition all_in (a : aq) : list Z := fst <$> (waiting a ++ pending a ++ (fst <$> finished a)).
Lemma fetched_cons r rs : fetched (r :: rs) = match r with RFetch (Some x) => x :: fetched rs | _ => fetched rs end.
Proof. by destruct r as [| |[]|]. Qed.
Lemma returned_cons r rs : returned (r :: rs) = match r with RGet b _ => b :: returned rs | _ => returned rs end.
Proof. by destruct r. Qed.
Lemma spec_conserves n l a rs a' :
  spec_ops n l a = Some (rs, a') →
  waiting a ++ accepted l rs = fetched rs ++ waiting a' ∧
  all_in a ++ (fst <$> accepted l rs) ≡ₚ returned rs ++ all_in a'.
Proof.
  revert a rs. induction l as [|o l IH]; intros a rs E; cbn [spec_ops] in E; [simplify_eq; cbn; by rewrite !app_nil_r|].
  apply bind_Some in E as ([r a1] & E1 & E). apply bind_Some in E as ([rs1 a2] & E2 & E). simplify_eq.
  destruct (IH _ _ E2) as [IHf IHp]. clear IH E2. rewrite fetched_cons, returned_cons. unfold all_in in *. rewrite !fmap_app in *.
  destruct a as [ws ps fs]. destruct o as [b m| | |i w]; cbn [spec_op waiting pending finished] in *.
  - destruct (_ =? n); simplify_eq; cbn [accepted Z.eqb app] in *; [done|]. cbn [waiting pending finished] in *.
    split; [by rewrite <- IHf, <- app_assoc|]. rewrite <- IHp, !fmap_app. cbn [fmap list_fmap fst]. solve_Permutation.
  - destruct fs as [|[[b m] w] fs]; [done|]. simplify_eq. cbn [accepted waiting pending finished] in *. split; [done|].
    cbn [app]. rewrite <- IHp. cbn [fmap list_fmap fst]. solve_Permutation.
  - destruct ws as [|x ws]; simplify_eq; cbn [accepted waiting pending finished] in *; [done|]. cbn [app]. split; [by rewrite <- IHf|].
    rewrite <- IHp, !fmap_app. cbn [fmap list_fmap]. solve_Permutation.
  - destruct (ps !! i) as [x|] eqn:Ex; simplify_eq; cbn [accepted waiting pending finished] in *; [|done]. split; [done|].
    rewrite <- IHp, !fmap_app. cbn [fmap list_fmap fst]. rewrite (delete_Permutation _ _ _ Ex) at 1. cbn [fmap list_fmap]. solve_Permutation.
Qed.


(** ** A queue of four: five buffers, the third handed back first *)
Definition demo_vq : vring_virtqueue :=
  Vvq (Vq 0 0 0 0 0) (Vring 0 0 0 0) 0 0 0 0 (replicate 4 7) (Rings (replicate 4 (Vdesc 1 1 1 1)) 0 (replicate 4 9) 0 (replicate 4 (Uelem 9 9))).
Definition demo_run : list op :=
  [Add 0x1000 8; Add 0x2000 8; Add 0x3000 8; Add 0x4000 8; Add 0x5000 8; Fetch; Fetch; Fetch; Use 2 5; Get; Add 0x5000 8; Use 0 6; Get; Fetch].
