(* ===== verification/Elf.v ===== *)
(** The ELF loader: lib/elf.c, with -DX64.

    The file, the stack and the loaded program are in byte memory.  The layout of the
    ELF structures and the constants are those of <linux/elf.h>, <sys/mman.h> and
    <linux/auxvec.h>; the functions of the host system that the file calls are the
    record [os].  [elf] is the memory with the log of the calls that change mappings,
    newest first.  [jump_start] does not return: [elf_run] ends with the registers that
    it sets ([start]). *)
From Stdlib Require Import ZArith Lia Bool.
From S2P Require Import Prelude Libcflat Bytes CString Argv.
#[local] Open Scope Z_scope.

(** The offsets of the members, and the sizes, of the structures of <linux/elf.h> *)
Definition e_type : Z := 16.
Definition e_entry : Z := 24.
Definition e_phoff : Z := 32.
Definition e_shoff : Z := 40.
Definition e_phnum : Z := 56.
Definition e_shnum : Z := 60.
Definition e_shstrndx : Z := 62.
Definition sizeof_Phdr : Z := 56.
Definition p_type : Z := 0.
Definition p_flags : Z := 4.
Definition p_offset : Z := 8.
Definition p_vaddr : Z := 16.
Definition p_filesz : Z := 32.
Definition p_memsz : Z := 40.
Definition sizeof_Shdr : Z := 64.
Definition sh_name : Z := 0.
Definition sh_type : Z := 4.
Definition sh_addr : Z := 16.
Definition sh_offset : Z := 24.
Definition sh_size : Z := 32.
Definition sh_link : Z := 40.
Definition sizeof_Sym : Z := 24.
Definition st_name : Z := 0.
Definition st_value : Z := 8.
Definition PT_LOAD : Z := 1.
Definition PT_INTERP : Z := 3.
Definition PT_GNU_STACK : Z := 0x6474e551.
Definition SHT_SYMTAB : Z := 2.
Definition ET_DYN : Z := 3.
Definition PF_X : Z := 1.
Definition PF_W : Z := 2.
Definition PF_R : Z := 4.
Definition PROT_READ : Z := 1.
Definition PROT_WRITE : Z := 2.
Definition PROT_EXEC : Z := 4.
Definition MAP_PRIVATE : Z := 2.
Definition MAP_FIXED : Z := 0x10.
Definition MAP_ANON : Z := 0x20.
Definition AT_NULL : Z := 0.
Definition AT_PHDR : Z := 3.
Definition AT_PHENT : Z := 4.
Definition AT_PHNUM : Z := 5.
Definition AT_PAGESZ : Z := 6.
Definition AT_BASE : Z := 7.
Definition AT_FLAGS : Z := 8.
Definition AT_ENTRY : Z := 9.
Definition AT_UID : Z := 11.
Definition AT_EUID : Z := 12.
Definition AT_GID : Z := 13.
Definition AT_EGID : Z := 14.
Definition AT_RANDOM : Z := 25.

(** lib/elf.h *)
Definition STACK_SIZE : Z := 8 * 1024 * 1024.
Definition STACK_STORAGE_SIZE : Z := 0x5000.
Definition STACK_STRING_SIZE : Z := 0x5000.
Definition ROUND_UP (v s : Z) : Z := Z.land (u64 (v + s - 1)) (u64 (- s)).
Definition ROUND_DOWN (v s : Z) : Z := Z.land v (u64 (- s)).

(** The host: [mmap addr len prot flags] of anonymous memory, [munmap], files by
    descriptor, the ids, and a call of a function of the loaded program. *)
Record os := Os {
  os_mmap : Z → Z → Z → Z → bmem → outcome (Z * bmem); os_munmap : Z → Z → bmem → outcome bmem;
  os_open : list Z → Z; os_size : Z → Z; os_read : Z → Z → list Z;
  getuid : Z; geteuid : Z; getgid : Z; getegid : Z;
  os_call : Z → Z → Z → Z → bmem → outcome bmem
}.
Inductive os_event := Mmap (addr len prot flags : Z) | Munmap (addr len : Z) | Mprotect (addr len prot : Z) | Flush (a1 a2 : Z)
  | Call (f argc argv env : Z).
Record elf := Elf { e_mem : bmem; e_log : list os_event }.
(** The registers at the start of the program *)
Record start := Start { st_rsp : Z; st_rdx : Z; st_rip : Z }.

Section code.
Context (o : os) (fuel : nat).
Abbreviation M := (stM elf).
Definition e_get {A} (f : bmem → outcome A) : M A := s ← get; lift (f (e_mem s)).
Definition e_put (f : bmem → outcome bmem) : M unit := s ← get; m ← lift (f (e_mem s)); modify (λ s, Elf m (e_log s)).
Definition e_say (e : os_event) : M unit := modify (λ s, Elf (e_mem s) (e :: e_log s)).
Definition ld16 (p : Z) : M Z := e_get (λ m, ld_le 2 m p).
Definition ld32 (p : Z) : M Z := e_get (λ m, ld_le 4 m p).
Definition ld64 (p : Z) : M Z := e_get (λ m, ld_le 8 m p).
Definition mmap (addr len prot flags : Z) : M Z :=
  s ← get; '(p, m) ← lift (os_mmap o addr len prot flags (e_mem s));
  modify (λ s, Elf m (Mmap addr len prot flags :: e_log s));; mret p.
Definition munmap (addr len : Z) : M unit := e_put (os_munmap o addr len);; e_say (Munmap addr len).
Definition mprotect (addr len prot : Z) : M unit := e_say (Mprotect addr len prot).
Definition cacheflush (a1 a2 : Z) : M unit := e_say (Flush a1 (u64 (a1 + a2))).
Definition e_memcpy (dest src n : Z) : M unit := e_put (λ m, '(_, m) ← memcpy dest src n m; mret m).
Definition e_memset (dest c n : Z) : M unit := e_put (λ m, '(_, m) ← memset dest c n m; mret m).

Definition jump_start (init exit_func entry : Z) : M start := mret (Start init exit_func entry).

Definition _get_rand (buf size : Z) : M unit := e_put (st_bytes buf (os_read o (os_open o (chars "/dev/urandom")) size)).

Fixpoint interp_loop (n : nat) (buf hdr phdr x : Z) : M Z :=
  match n with
  | O => λ _, NoFuel
  | S n =>
    phnum ← ld16 (hdr + e_phnum);
    if x <? phnum then
      t ← ld32 (phdr + sizeof_Phdr * x + p_type);
      if t =? PT_INTERP then off ← ld64 (phdr + sizeof_Phdr * x + p_offset); mret (u64 (buf + off))
      else interp_loop n buf hdr phdr (x + 1)
    else mret 0
  end.
Definition _get_interp (buf : Z) : M Z :=
  let hdr := buf in
  phoff ← ld64 (hdr + e_phoff);
  interp_loop fuel buf hdr (u64 (buf + phoff)) 0.

Fixpoint section_loop (n : nat) (name ehdr shdr sh_strtab_p x : Z) : M Z :=
  match n with
  | O => λ _, NoFuel
  | S n =>
    shnum ← ld16 (ehdr + e_shnum);
    if x <? shnum then
      nm ← ld32 (shdr + sizeof_Shdr * x + sh_name);
      r ← e_get (λ m, strcmp fuel m name (u64 (sh_strtab_p + nm)));
      if r =? 0 then mret (shdr + sizeof_Shdr * x) else section_loop n name ehdr shdr sh_strtab_p (x + 1)
    else mret 0
  end.
Definition _get_section (name elf_start : Z) : M Z :=
  let ehdr := elf_start in
  shoff ← ld64 (ehdr + e_shoff);
  let shdr := u64 (elf_start + shoff) in
  ndx ← ld16 (ehdr + e_shstrndx);
  let sh_strtab := shdr + sizeof_Shdr * ndx in
  off ← ld64 (sh_strtab + sh_offset);
  section_loop fuel name ehdr shdr (u64 (elf_start + off)) 0.

(** The loop over the symbols of section [sh]; [None] at its end. *)
Fixpoint sym_loop (n : nat) (sym_name sh strings syms y : Z) : M (option Z) :=
  match n with
  | O => λ _, NoFuel
  | S n =>
    size ← ld64 (sh + sh_size);
    if y <? size / sizeof_Sym then
      nm ← ld32 (syms + sizeof_Sym * y + st_name);
      r ← e_get (λ m, strcmp fuel m sym_name (u64 (strings + nm)));
      if r =? 0 then v ← ld64 (syms + sizeof_Sym * y + st_value); mret (Some v)
      else sym_loop n sym_name sh strings syms (y + 1)
    else mret None
  end.
Fixpoint symtab_loop (n : nat) (elf_start sym_name hdr shdr x : Z) : M Z :=
  match n with
  | O => λ _, NoFuel
  | S n =>
    shnum ← ld16 (hdr + e_shnum);
    if x <? shnum then
      let sh := shdr + sizeof_Shdr * x in
      t ← ld32 (sh + sh_type);
      r ← (if t =? SHT_SYMTAB then
             link ← ld32 (sh + sh_link);
             stroff ← ld64 (shdr + sizeof_Shdr * link + sh_offset);
             off ← ld64 (sh + sh_offset);
             sym_loop fuel sym_name sh (u64 (elf_start + stroff)) (u64 (elf_start + off)) 0
           else mret None);
      match r with Some v => mret v | None => symtab_loop n elf_start sym_name hdr shdr (x + 1) end
    else mret 0
  end.
Definition elf_sym (elf_start sym_name : Z) : M Z :=
  let hdr := elf_start in
  shoff ← ld64 (hdr + e_shoff);
  symtab_loop fuel elf_start sym_name hdr (u64 (elf_start + shoff)) 0.

(** [base_addr] and [entry] are what the two pointers point to, [None] for NULL. *)
Definition prot_of (prot flags : Z) : Z :=
  let prot := if Z.land flags PF_R =? 0 then prot else PROT_READ in
  let prot := if Z.land flags PF_W =? 0 then prot else Z.lor prot PROT_WRITE in
  if Z.land flags PF_X =? 0 then prot else Z.lor prot PROT_EXEC.
(** The body of the loop for a segment that is loaded: the protection and the base
    address after it. *)
Definition load_segment (elf_start base ph elf_prot : Z) (base_addr : option Z) : M (Z * option Z) :=
  vaddr ← ld64 (ph + p_vaddr);
  let map_start := ROUND_DOWN vaddr 4096 in
  let round_down_size := s32 (vaddr - map_start) in
  memsz ← ld64 (ph + p_memsz);
  let map_size := s32 (ROUND_UP (u64 (memsz + round_down_size)) 4096) in
  _ ← mmap (u64 (base + map_start)) (u64 map_size) (Z.lor PROT_READ PROT_WRITE) (Z.lor (Z.lor MAP_PRIVATE MAP_ANON) MAP_FIXED);
  vaddr ← ld64 (ph + p_vaddr);
  off ← ld64 (ph + p_offset);
  filesz ← ld64 (ph + p_filesz);
  e_memcpy (u64 (base + vaddr)) (u64 (elf_start + off)) filesz;;
  memsz ← ld64 (ph + p_memsz);
  filesz ← ld64 (ph + p_filesz);
  (if filesz <? memsz then
     vaddr ← ld64 (ph + p_vaddr);
     e_memset (u64 (base + vaddr + filesz)) 0 (memsz - filesz)
   else mret tt);;
  flags ← ld32 (ph + p_flags);
  let elf_prot := prot_of elf_prot flags in
  mprotect (u64 (base + map_start)) (u64 map_size) elf_prot;;
  cacheflush (u64 (base + map_start)) (u64 (map_start + map_size));;
  mret (elf_prot,
    match base_addr with
    | Some b => if (b =? 2 ^ 64 - 1) || (u64 (base + map_start) <? b) then Some (u64 (base + map_start)) else Some b
    | None => None
    end).
Fixpoint load_loop (n : nat) (elf_start hdr phdr stack stack_size base x elf_prot stack_prot : Z) (base_addr : option Z) : M (option Z) :=
  match n with
  | O => λ _, NoFuel
  | S n =>
    phnum ← ld16 (hdr + e_phnum);
    if x <? phnum then
      let ph := phdr + sizeof_Phdr * x in
      t ← ld32 (ph + p_type);
      stack_prot ←
        (if negb (stack =? 0) && (t =? PT_GNU_STACK) then
           flags ← ld32 (ph + p_flags);
           let stack_prot := prot_of stack_prot flags in
           mprotect stack stack_size stack_prot;;
           mret stack_prot
         else mret stack_prot);
      if negb (t =? PT_LOAD) then load_loop n elf_start hdr phdr stack stack_size base (x + 1) elf_prot stack_prot base_addr
      else
        filesz ← ld64 (ph + p_filesz);
        if filesz =? 0 then load_loop n elf_start hdr phdr stack stack_size base (x + 1) elf_prot stack_prot base_addr
        else
          '(elf_prot, base_addr) ← load_segment elf_start base ph elf_prot base_addr;
          load_loop n elf_start hdr phdr stack stack_size base (x + 1) elf_prot stack_prot base_addr
    else mret base_addr
  end.
(** What the pointers point to in the end. *)
Definition elf_load (elf_start stack stack_size : Z) (base_addr entry : option Z) : M (option Z * option Z) :=
  let hdr := elf_start in
  phoff ← ld64 (hdr + e_phoff);
  let phdr := u64 (elf_start + phoff) in
  t ← ld16 (hdr + e_type);
  base ← (if t =? ET_DYN then
            base ← mmap 0 (100 * 4096) (Z.lor PROT_READ PROT_WRITE) (Z.lor MAP_PRIVATE MAP_ANON);
            munmap base (100 * 4096);;
            mret base
          else mret 0);
  e ← ld64 (hdr + e_entry);
  let base_addr := (λ _, 2 ^ 64 - 1) <$> base_addr in
  let entry := (λ _, u64 (base + e)) <$> entry in
  base_addr ← load_loop fuel elf_start hdr phdr stack stack_size base 0 0 0 base_addr;
  mret (base_addr, entry).

(** [while (v[n]) n++] *)
Fixpoint count_loop (n : nat) (v i : Z) : M Z :=
  match n with
  | O => λ _, NoFuel
  | S n => p ← ld64 (v + 8 * i); if p =? 0 then mret i else count_loop n v (s32 (i + 1))
  end.
Definition st64 (p v : Z) : M unit := e_put (st_bytes p (le_bytes 8 v)).
(** The loops that copy the strings of [argv] and of [env]: [slots] is [s_argv] or
    [s_env]; the result is [str_ptr] and [stack_ptr] at the end. *)
Fixpoint copy_loop (n : nat) (v count slots string_storage x str_ptr stack_ptr : Z) : M (Z * Z) :=
  if x <? count then
    match n with
    | O => λ _, NoFuel
    | S n =>
      p ← ld64 (v + 8 * x);
      len ← e_get (λ m, strlen fuel m p);
      let str_len := s32 (len + 1) in
      p ← ld64 (v + 8 * x);
      e_memcpy (string_storage + str_ptr) p (u64 str_len);;
      st64 (slots + 8 * x) (string_storage + str_ptr);;
      copy_loop n v count slots string_storage (x + 1) (s32 (str_ptr + str_len)) (s32 (stack_ptr + 1))
    end
  else mret (str_ptr, stack_ptr).

Definition load_interp (interp_name stack : Z) : M (Z * Z) :=
  name ← e_get (λ m, ld_str fuel m interp_name);
  let f := os_open o name in
  let size := s32 (os_size o f) in
  elf_ld ← mmap 0 (ROUND_UP (u64 size) 4096) (Z.lor PROT_READ PROT_WRITE) (Z.lor MAP_PRIVATE MAP_ANON);
  e_put (st_bytes elf_ld (os_read o f size));;
  '(interp_base, interp_entry) ← elf_load elf_ld stack STACK_SIZE (Some 0) (Some 0);
  munmap elf_ld (ROUND_UP (u64 size) 4096);;
  mret (default 0 interp_base, default 0 interp_entry).

Definition call_function (f argc argv env : Z) : M unit :=
  e_put (os_call o f argc argv env);; e_say (Call f argc argv env).
Fixpoint init_loop (n : nat) (init_array base argc argv env x : Z) : M unit :=
  match n with
  | O => λ _, NoFuel
  | S n =>
    size ← ld64 (init_array + sh_size);
    if x <? size / 8 then
      a ← ld64 (init_array + sh_addr);
      f ← ld64 (u64 (base + a + x * 8));
      call_function (u64 (base + f)) argc argv env;;
      init_loop n init_array base argc argv env (x + 1)
    else mret tt
  end.
Definition run_constructors (buf hdr elf_base dot_init dot_init_array argc argv env : Z) : M unit :=
  init ← _get_section dot_init buf;
  init_array ← _get_section dot_init_array buf;
  t ← ld16 (hdr + e_type);
  let base := if t =? ET_DYN then elf_base else 0 in
  (if init =? 0 then mret tt
   else a ← ld64 (init + sh_addr); call_function (u64 (base + a)) argc argv env);;
  (if init_array =? 0 then mret tt else init_loop fuel init_array base argc argv env 0).

(** [at[cnt].id = id; at[cnt++].value = value] *)
Definition put_aux (at_ cnt id value : Z) : M Z :=
  st64 (at_ + 16 * cnt) id;; st64 (at_ + 16 * cnt + 8) value;; mret (cnt + 1).

(** [rand_bytes] is the address of the array on the stack, [dot_init] and
    [dot_init_array] those of the two literals. *)
Definition elf_run (rand_bytes dot_init dot_init_array _exit_func buf argv env : Z) : M start :=
  let hdr := buf in
  _get_rand rand_bytes 16;;
  argc ← count_loop fuel argv 0;
  envc ← count_loop fuel env 0;
  stack ← mmap 0 STACK_SIZE (Z.lor (Z.lor PROT_READ PROT_WRITE) PROT_EXEC) (Z.lor MAP_PRIVATE MAP_ANON);
  '(elf_base, elf_entry) ← elf_load buf stack STACK_SIZE (Some 0) (Some 0);
  let elf_base := default 0 elf_base in
  let elf_entry := default 0 elf_entry in
  interp_name ← _get_interp buf;
  '(interp_base, interp_entry) ← (if interp_name =? 0 then mret (0, 0) else load_interp interp_name stack);
  e_memset stack 0 STACK_STORAGE_SIZE;;
  let stack_storage := stack + STACK_SIZE - STACK_STORAGE_SIZE - STACK_STRING_SIZE in
  let string_storage := stack + STACK_SIZE - STACK_STRING_SIZE in
  st64 stack_storage argc;;
  '(str_ptr, stack_ptr) ← copy_loop fuel argv argc (stack_storage + 8) string_storage 0 0 1;
  st64 (stack_storage + 8 * stack_ptr) 0;;
  let stack_ptr := s32 (stack_ptr + 1) in
  '(str_ptr, stack_ptr) ← copy_loop fuel env envc (stack_storage + 8 * stack_ptr) string_storage 0 str_ptr stack_ptr;
  st64 (stack_storage + 8 * stack_ptr) 0;;
  let stack_ptr := s32 (stack_ptr + 1) in
  run_constructors buf hdr elf_base dot_init dot_init_array argc argv env;;
  let at_ := stack_storage + 8 * stack_ptr in
  phoff ← ld64 (hdr + e_phoff);
  cnt ← put_aux at_ 0 AT_PHDR (u64 (elf_base + phoff));
  cnt ← put_aux at_ cnt AT_PHENT sizeof_Phdr;
  phnum ← ld16 (hdr + e_phnum);
  cnt ← put_aux at_ cnt AT_PHNUM phnum;
  cnt ← put_aux at_ cnt AT_PAGESZ 4096;
  cnt ← put_aux at_ cnt AT_BASE interp_base;
  cnt ← put_aux at_ cnt AT_FLAGS 0;
  cnt ← put_aux at_ cnt AT_ENTRY elf_entry;
  cnt ← put_aux at_ cnt AT_UID (getuid o);
  cnt ← put_aux at_ cnt AT_EUID (geteuid o);
  cnt ← put_aux at_ cnt AT_GID (getgid o);
  cnt ← put_aux at_ cnt AT_EGID (getegid o);
  cnt ← put_aux at_ cnt AT_RANDOM rand_bytes;
  _ ← put_aux at_ cnt AT_NULL 0;
  if interp_entry =? 0 then jump_start stack_storage _exit_func elf_entry
  else jump_start stack_storage _exit_func interp_entry.
End code.

(** ** A file in memory *)
(** Section headers and symbols. *)
Record section_ := Sec { s_name : list Z; s_type : Z; s_addr : Z; s_off : Z; s_size : Z; s_link : Z }.
Definition section_at (m : bmem) (strtab p : Z) (s : section_) : Prop :=
  (∃ nm, word_at 4 m (p + sh_name) nm ∧ 0 ≤ strtab + nm < 2 ^ 64 ∧ str_at m (strtab + nm) (s_name s)) ∧
  word_at 4 m (p + sh_type) (s_type s) ∧ word_at 8 m (p + sh_addr) (s_addr s) ∧ word_at 8 m (p + sh_offset) (s_off s) ∧
  word_at 8 m (p + sh_size) (s_size s) ∧ word_at 4 m (p + sh_link) (s_link s).
Fixpoint rows_at {A} (at_ : Z → A → Prop) (size p : Z) (l : list A) : Prop :=
  match l with [] => True | x :: l => at_ p x ∧ rows_at at_ size (p + size) l end.
(** A symbol, its name in the string table at [strings] *)
Definition symbol_at (m : bmem) (strings p : Z) (y : list Z * Z) : Prop :=
  (∃ nm, word_at 4 m (p + st_name) nm ∧ 0 ≤ strings + nm < 2 ^ 64 ∧ str_at m (strings + nm) y.1) ∧ word_at 8 m (p + st_value) y.2.
(** The symbols [ys] are those of the section [s] of the file: none if it is not a
    symbol table. *)
Definition symbols_of (m : bmem) (file : Z) (secs : list section_) (s : section_) (ys : list (list Z * Z)) : Prop :=
  if s_type s =? SHT_SYMTAB then
    ∃ str, secs !! Z.to_nat (s_link s) = Some str ∧ file + s_off str < 2 ^ 64 ∧ file + s_off s < 2 ^ 64 ∧
      s_size s / sizeof_Sym = Z.of_nat (length ys) ∧ rows_at (symbol_at m (file + s_off str)) sizeof_Sym (file + s_off s) ys
  else ys = [].
Record elf_file (m : bmem) (file shoff : Z) (secs : list section_) (str : section_) (tabs : list (list (list Z * Z))) : Prop := {
  ef_file : 0 ≤ file;
  ef_off : word_at 8 m (file + e_shoff) shoff;
  ef_fits : file + shoff < 2 ^ 64;
  ef_num : word_at 2 m (file + e_shnum) (Z.of_nat (length secs));
  ef_strtab : ∃ ndx, word_at 2 m (file + e_shstrndx) ndx ∧ secs !! Z.to_nat ndx = Some str;
  ef_strfits : file + s_off str < 2 ^ 64;
  ef_secs : rows_at (section_at m (file + s_off str)) sizeof_Shdr (file + shoff) secs;
  ef_tabs : Forall2 (symbols_of m file secs) secs tabs
}.
(** The first section with a name, and the value of the first symbol with a name. *)
Fixpoint find_section (name : list Z) (secs : list section_) : option nat :=
  match secs with [] => None | s :: secs => if decide (s_name s = name) then Some O else S <$> find_section name secs end.
Fixpoint find_symbol (name : list Z) (ys : list (list Z * Z)) : option Z :=
  match ys with [] => None | y :: ys => if decide (y.1 = name) then Some y.2 else find_symbol name ys end.

Lemma rows_at_lookup {A} (at_ : Z → A → Prop) size p l i x : rows_at at_ size p l → l !! i = Some x → at_ (p + size * Z.of_nat i) x.
Proof.
  revert p i. induction l as [|y l IH]; intros p i Hr E; [done|]. destruct Hr as [Hy Hr]. destruct i as [|i]; cbn in E.
  - simplify_eq. by rewrite Z.mul_0_r, Z.add_0_r.
  - replace (p + size * Z.of_nat (S i)) with (p + size + size * Z.of_nat i) by lia. by apply IH.
Qed.
Lemma find_symbol_app name l1 l2 :
  find_symbol name (l1 ++ l2) = match find_symbol name l1 with Some v => Some v | None => find_symbol name l2 end.
Proof. induction l1 as [|y l1 IH]; [done|]. cbn [app find_symbol]. by case_decide. Qed.

Section lookup.
Context (o : os) (fuel : nat) (m : bmem).
Implicit Types l : list os_event.
Abbreviation M := (stM elf).

Lemma bind_e_get {A B} (f : bmem → outcome A) (g : A → M B) s a : f (e_mem s) = Done a → (e_get f ≫= g) s = g a s.
Proof. intros E. apply stM_bind_Done. unfold e_get. rewrite bind_get. unfold lift. by rewrite E. Qed.
Lemma bind_ld16 {B} p v (g : Z → M B) s : word_at 2 (e_mem s) p v → (ld16 p ≫= g) s = g v s.
Proof. intros H. by apply bind_e_get, ld_word. Qed.
Lemma bind_ld32 {B} p v (g : Z → M B) s : word_at 4 (e_mem s) p v → (ld32 p ≫= g) s = g v s.
Proof. intros H. by apply bind_e_get, ld_word. Qed.
Lemma bind_ld64 {B} p v (g : Z → M B) s : word_at 8 (e_mem s) p v → (ld64 p ≫= g) s = g v s.
Proof. intros H. by apply bind_e_get, ld_word. Qed.
Lemma bind_strcmp {B} a b s1 s2 (g : Z → M B) s :
  str_at (e_mem s) a s1 → str_at (e_mem s) b s2 → (length s1 < fuel)%nat → Z.of_nat (length s1) < 2 ^ 64 → Z.of_nat (length s2) < 2 ^ 64 →
  ∃ r, (r =? 0) = bool_decide (s2 = s1) ∧ (e_get (λ m, strcmp fuel m a b) ≫= g) s = g r s.
Proof.
  intros H1 H2 Hf L1 L2. exists (str_cmp s1 s2). split.
  - pose proof (str_cmp_0 s1 s2 (proj1 H1) (proj1 H2)). case_bool_decide as D; [apply Z.eqb_eq|apply Z.eqb_neq]; [|intros E]; naive_solver.
  - by apply bind_e_get, strcmp_ok.
Qed.

(** Strings shorter than the fuel *)
Definition short (s : list Z) : Prop := (length s < fuel)%nat ∧ Z.of_nat (length s) < 2 ^ 64.

Lemma section_loop_ok name nm ehdr strtab secs l : str_at m name nm → short nm → Forall (λ s, short (s_name s)) secs → 0 ≤ strtab →
  ∀ rest pre n shdr, secs = pre ++ rest → word_at 2 m (ehdr + e_shnum) (Z.of_nat (length secs)) → (length rest < n)%nat →
  rows_at (section_at m strtab) sizeof_Shdr (shdr + sizeof_Shdr * Z.of_nat (length pre)) rest →
  section_loop fuel n name ehdr shdr strtab (Z.of_nat (length pre)) (Elf m l) =
    Done (match find_section nm rest with Some i => shdr + sizeof_Shdr * Z.of_nat (length pre + i) | None => 0 end, Elf m l).
Proof.
  intros Hn [Hnf Hnl] Hs Hst. induction rest as [|s rest IH]; intros pre n shdr Es Hnum Hf Hr; (destruct n as [|n]; [lia|]);
    cbn [section_loop]; rewrite (bind_ld16 _ _ _ (Elf m l) Hnum), Es, length_app.
  - cbn [length]. rewrite Nat.add_0_r, Z.ltb_irrefl. done.
  - rewrite (proj2 (Z.ltb_lt _ _)) by (cbn [length]; lia). cbn [rows_at] in Hr. destruct Hr as [((off & Hoff & Hrange & Hname) & _) Hr].
    assert (short (s_name s)) as [Hsf Hsl] by (rewrite Es, Forall_app, Forall_cons in Hs; tauto).
    rewrite (bind_ld32 _ _ _ (Elf m l) Hoff), u64_small by done.
    destruct (bind_strcmp name (strtab + off) nm (s_name s) (λ r, if r =? 0 then mret (shdr + sizeof_Shdr * Z.of_nat (length pre))
      else section_loop fuel n name ehdr shdr strtab (Z.of_nat (length pre) + 1)) (Elf m l)) as (r & Er & E); [done..|].
    rewrite E, Er. cbn [find_section]. case_bool_decide as D.
    + rewrite decide_True by done. cbn. by rewrite Nat.add_0_r.
    + rewrite decide_False by done.
      replace (Z.of_nat (length pre) + 1) with (Z.of_nat (length (pre ++ [s]))) by (rewrite length_app; cbn; lia).
      rewrite IH.
      * destruct (find_section nm rest) as [i|]; cbn; [|done]. do 3 f_equal. rewrite length_app. cbn. lia.
      * by rewrite <- app_assoc.
      * done.
      * cbn in Hf. lia.
      * rewrite length_app. cbn [length]. replace (shdr + sizeof_Shdr * Z.of_nat (length pre + 1)) with (shdr + sizeof_Shdr * Z.of_nat (length pre) + sizeof_Shdr) by lia. done.
Qed.

Lemma sym_loop_ok name nm sh strings syms ys l : str_at m name nm → short nm → Forall (λ y, short y.1) ys →
  ∀ rest pre n size, ys = pre ++ rest → word_at 8 m (sh + sh_size) size → size / sizeof_Sym = Z.of_nat (length ys) → (length rest < n)%nat →
  rows_at (symbol_at m strings) sizeof_Sym (syms + sizeof_Sym * Z.of_nat (length pre)) rest →
  sym_loop fuel n name sh strings syms (Z.of_nat (length pre)) (Elf m l) = Done (find_symbol nm rest, Elf m l).
Proof.
  intros Hn [Hnf Hnl] Hs. induction rest as [|y rest IH]; intros pre n size Es Hsize Hnum Hf Hr; (destruct n as [|n]; [lia|]);
    cbn [sym_loop]; rewrite (bind_ld64 _ _ _ (Elf m l) Hsize), Hnum, Es, length_app.
  - cbn [length]. by rewrite Nat.add_0_r, Z.ltb_irrefl.
  - rewrite (proj2 (Z.ltb_lt _ _)) by (cbn [length]; lia). cbn [rows_at] in Hr. destruct Hr as [((off & Hoff & Hrange & Hname) & Hval) Hr].
    assert (short y.1) as [Hsf Hsl] by (rewrite Es, Forall_app, Forall_cons in Hs; tauto).
    rewrite (bind_ld32 _ _ _ (Elf m l) Hoff), u64_small by done.
    destruct (bind_strcmp name (strings + off) nm y.1 (λ r, if r =? 0 then v ← ld64 (syms + sizeof_Sym * Z.of_nat (length pre) + st_value); mret (Some v)
      else sym_loop fuel n name sh strings syms (Z.of_nat (length pre) + 1)) (Elf m l)) as (r & Er & E); [done..|].
    rewrite E, Er. cbn [find_symbol]. case_bool_decide as D.
    + rewrite decide_True by done. by rewrite (bind_ld64 _ _ _ (Elf m l) Hval).
    + rewrite decide_False by done.
      replace (Z.of_nat (length pre) + 1) with (Z.of_nat (length (pre ++ [y]))) by (rewrite length_app; cbn; lia).
      apply (IH _ _ size); [by rewrite <- app_assoc|done|by rewrite Hnum|cbn in Hf; lia|].
      rewrite length_app. cbn [length]. replace (syms + sizeof_Sym * Z.of_nat (length pre + 1)) with (syms + sizeof_Sym * Z.of_nat (length pre) + sizeof_Sym) by lia. done.
Qed.

(** A table of symbols with short names, fewer than the fuel *)
Definition small (ys : list (list Z * Z)) : Prop := Forall (λ y, short y.1) ys ∧ (length ys < fuel)%nat.
Lemma symtab_loop_ok file name nm shoff str secs tabs l : elf_file m file shoff secs str tabs → str_at m name nm → short nm →
  ∀ rest ts pre n, secs = pre ++ rest → Forall2 (symbols_of m file secs) rest ts → Forall small ts → (length rest < n)%nat →
  symtab_loop fuel n file name file (file + shoff) (Z.of_nat (length pre)) (Elf m l) = Done (default 0 (find_symbol nm (concat ts)), Elf m l).
Proof.
  intros [] Hn Hshort rest ts pre n Es Hts. revert pre n Es. induction Hts as [|s ys rest ts Hys _ IH]; intros pre n Es Hsm Hf;
    (destruct n as [|n]; [lia|]); cbn [symtab_loop]; rewrite (bind_ld16 _ _ _ (Elf m l) ef_num0), Es, length_app.
  - cbn [length]. by rewrite Nat.add_0_r, Z.ltb_irrefl.
  - rewrite (proj2 (Z.ltb_lt _ _)) by (cbn [length]; lia). cbv zeta. apply Forall_cons in Hsm as [[Hsy Hly] Hsm].
    assert (secs !! length pre = Some s) as Ei by (rewrite Es; by apply list_lookup_middle).
    destruct (rows_at_lookup _ _ _ _ _ _ ef_secs0 Ei) as (_ & Ht & _ & Ho & Hsz & Hl). rewrite (bind_ld32 _ _ _ (Elf m l) Ht).
    assert (symtab_loop fuel n file name file (file + shoff) (Z.of_nat (length pre) + 1) (Elf m l) =
      Done (default 0 (find_symbol nm (concat ts)), Elf m l)) as Hrest.
    { replace (Z.of_nat (length pre) + 1) with (Z.of_nat (length (pre ++ [s]))) by (rewrite length_app; cbn; lia).
      apply IH; [by rewrite <- app_assoc|done|cbn in Hf; lia]. }
    unfold symbols_of in Hys. cbn [concat]. rewrite find_symbol_app. destruct (s_type s =? SHT_SYMTAB); [|subst ys; exact Hrest].
    destruct Hys as (st & Est & Hst & Hoff & Hcount & Hrows). rewrite !stM_bind_assoc, (bind_ld32 _ _ _ (Elf m l) Hl), stM_bind_assoc.
    destruct (rows_at_lookup _ _ _ _ _ _ ef_secs0 Est) as (_ & _ & _ & Ho' & _). destruct Hl as [[Hl0 _] _].
    rewrite Z2Nat.id in Ho' by done. rewrite (bind_ld64 _ _ _ (Elf m l) Ho'), stM_bind_assoc, (bind_ld64 _ _ _ (Elf m l) Ho).
    rewrite !u64_small by (destruct Ho as [[? _] _], Ho' as [[? _] _]; unfold in_u64; lia).
    erewrite stM_bind_Done by (apply (sym_loop_ok name nm _ _ _ ys l Hn Hshort Hsy ys [] fuel (s_size s)); [done|done|done|done|];
      cbn [length]; by rewrite Z.mul_0_r, Z.add_0_r).
    by destruct (find_symbol nm ys) as [v|].
Qed.
End lookup.

Lemma get_section_ok fuel m file shoff secs str tabs name nm l :
  elf_file m file shoff secs str tabs → str_at m name nm → short fuel nm → Forall (λ s, short fuel (s_name s)) secs → (length secs < fuel)%nat →
  _get_section fuel name file (Elf m l) =
    Done (match find_section nm secs with Some i => file + shoff + sizeof_Shdr * Z.of_nat i | None => 0 end, Elf m l).
Proof.
  intros [] Hn Hs Hsec Hf. unfold _get_section. rewrite (bind_ld64 _ _ _ (Elf m l) ef_off0).
  rewrite u64_small by (destruct ef_off0 as [[? _] _]; unfold in_u64; lia). destruct ef_strtab0 as (ndx & Hndx & Estr).
  rewrite (bind_ld16 _ _ _ (Elf m l) Hndx). destruct (rows_at_lookup _ _ _ _ _ _ ef_secs0 Estr) as (_ & _ & _ & Ho & _).
  destruct Hndx as [[Hx _] _]. rewrite Z2Nat.id in Ho by done. rewrite (bind_ld64 _ _ _ (Elf m l) Ho).
  destruct Ho as [[Ho _] _]. rewrite u64_small by (unfold in_u64; lia).
  rewrite (section_loop_ok fuel m name nm file (file + s_off str) secs l Hn Hs Hsec ltac:(lia) secs [] fuel); [done|done|done|done|].
  cbn [length]. by rewrite Z.mul_0_r, Z.add_0_r.
Qed.

(** ** Properties of the lookups *)
(** [elf_sym] returns the value of the first symbol with the name asked for, in the
    order of the symbol tables of the file and of their entries, and NULL if there is
    none; [_get_section] returns the header of the first section with the name.  They
    change nothing. *)
Theorem elf_sym_correct fuel file shoff secs str tabs name nm s :
  elf_file (e_mem s) file shoff secs str tabs → str_at (e_mem s) name nm →
  short fuel nm → Forall (λ s, short fuel (s_name s)) secs → Forall (small fuel) tabs → (length secs < fuel)%nat →
  elf_sym fuel file name s = Done (default 0 (find_symbol nm (concat tabs)), s) ∧
  _get_section fuel name file s =
    Done (match find_section nm secs with Some i => file + shoff + sizeof_Shdr * Z.of_nat i | None => 0 end, s).
Proof.
  intros He Hn Hs Hsec Hsm Hf. destruct s as [m l]. cbn [e_mem] in *. pose proof He as [].
  assert (u64 (file + shoff) = file + shoff) as Eu by (destruct ef_off0 as [[? _] _]; apply u64_small; unfold in_u64; lia). split.
  - unfold elf_sym. rewrite (bind_ld64 _ _ _ (Elf m l) ef_off0), Eu.
    by apply (symtab_loop_ok fuel m file name nm shoff str secs tabs l He Hn Hs secs tabs [] fuel).
  - by apply (get_section_ok fuel m file shoff secs str tabs).
Qed.

(** ** A file: code at 0x400100, data and .bss at 0x402000, the symbols main and _end *)
Definition demo_phdr (t f off v fs ms : Z) : list Z :=
  le_bytes 4 t ++ le_bytes 4 f ++ le_bytes 8 off ++ le_bytes 8 v ++ le_bytes 8 v ++ le_bytes 8 fs ++ le_bytes 8 ms ++ le_bytes 8 4096.
Definition demo_shdr (nm t off sz link : Z) : list Z :=
  le_bytes 4 nm ++ le_bytes 4 t ++ le_bytes 8 0 ++ le_bytes 8 0 ++ le_bytes 8 off ++ le_bytes 8 sz ++ le_bytes 4 link ++ le_bytes 4 0 ++
  le_bytes 8 1 ++ le_bytes 8 0.
Definition demo_sym (nm v : Z) : list Z := le_bytes 4 nm ++ le_bytes 4 0 ++ le_bytes 8 v ++ le_bytes 8 4.
Definition demo_file : list Z :=
  [0x7f; 69; 76; 70; 2; 1; 1; 0; 0; 0; 0; 0; 0; 0; 0; 0] ++ le_bytes 2 2 ++ le_bytes 2 62 ++ le_bytes 4 1 ++ le_bytes 8 0x400100 ++
  le_bytes 8 64 ++ le_bytes 8 232 ++ le_bytes 4 0 ++ le_bytes 2 64 ++ le_bytes 2 56 ++ le_bytes 2 3 ++ le_bytes 2 64 ++ le_bytes 2 3 ++ le_bytes 2 2 ++
  demo_phdr PT_LOAD 5 512 0x400100 8 8 ++ demo_phdr PT_LOAD 6 520 0x402000 4 16 ++ demo_phdr PT_GNU_STACK 6 0 0 0 0 ++
  demo_shdr 0 0 0 0 0 ++ demo_shdr 1 SHT_SYMTAB 424 48 2 ++ demo_shdr 9 3 472 27 0 ++
  demo_sym 17 0x400100 ++ demo_sym 22 0x402010 ++
  [0] ++ cstr ".symtab" ++ cstr ".strtab" ++ cstr "main" ++ cstr "_end" ++ replicate 13 0 ++ [1; 2; 3; 4; 5; 6; 7; 8] ++ [9; 10; 11; 12].
Definition demo_mem : bmem := put_bytes 0x10000 demo_file (put_bytes 0x20000 (cstr "_end") ∅).
Definition demo_strtab : section_ := Sec (chars ".strtab") 3 0 472 27 0.
Definition demo_sections : list section_ := [Sec [] 0 0 0 0 0; Sec (chars ".symtab") SHT_SYMTAB 0 424 48 2; demo_strtab].
Definition demo_tabs : list (list (list Z * Z)) := [[]; [(chars "main", 0x400100); (chars "_end", 0x402010)]; []].
(** What is in a memory that has the bytes of the file, by evaluation on the file. *)
Lemma bytes_sub m b l p k : bytes_at m b l → (b <=? p) && bool_decide (take (length k) (drop (Z.to_nat (p - b)) l) = k) = true → bytes_at m p k.
Proof.
  rewrite andb_true_iff, bool_decide_eq_true. intros Hb [Hp%Z.leb_le E]. apply bytes_at_lookup. intros a Ha.
  rewrite <- E, lookup_take_lt, lookup_drop by lia. rewrite (proj1 (bytes_at_lookup m b l) Hb).
  - f_equal. lia.
  - apply (f_equal length) in E. rewrite length_take, length_drop in E. lia.
Qed.
Lemma word_sub n m b l p v : bytes_at m b l →
  bool_decide (0 ≤ v < 256 ^ Z.of_nat n) && ((b <=? p) && bool_decide (take (length (le_bytes n v)) (drop (Z.to_nat (p - b)) l) = le_bytes n v)) = true →
  word_at n m p v.
Proof. rewrite andb_true_iff, bool_decide_eq_true. intros Hb [Hv E]. split; [done|]. by apply (bytes_sub m b l). Qed.
Lemma str_sub m b l p s : bytes_at m b l →
  forallb (λ c, (0 <? c) && (c <? 256)) s && ((b <=? p) && bool_decide (take (length (s ++ [0])) (drop (Z.to_nat (p - b)) l) = s ++ [0])) = true → str_at m p s.
Proof.
  rewrite andb_true_iff. intros Hb [Hc E]. split; [|by apply (bytes_sub m b l)]. apply List.Forall_forall. intros c Hin.
  apply (proj1 (forallb_forall _ _) Hc), andb_true_iff in Hin. lia.
Qed.
Section demo.
Context (m : bmem) (Hm : bytes_at m 0x10000 demo_file).
Lemma demo_elf_file : elf_file m 0x10000 232 demo_sections demo_strtab demo_tabs.
Proof.
  assert (∀ strtab nm p s, word_at 4 m (p + sh_name) nm → 0 ≤ strtab + nm < 2 ^ 64 → str_at m (strtab + nm) (s_name s) →
    word_at 4 m (p + sh_type) (s_type s) → word_at 8 m (p + sh_addr) (s_addr s) → word_at 8 m (p + sh_offset) (s_off s) →
    word_at 8 m (p + sh_size) (s_size s) → word_at 4 m (p + sh_link) (s_link s) → section_at m strtab p s) as Hs
    by (intros; split; [by exists nm|done]).
  split; try (by apply (word_sub _ _ _ _ _ _ Hm); vm_compute); try done.
  - exists 2. split; [by apply (word_sub _ _ _ _ _ _ Hm); vm_compute|done].
  - cbn [rows_at demo_sections]. split; [|split; [|split; [|done]]];
      [apply (Hs _ 0)|apply (Hs _ 1)|apply (Hs _ 9)]; try (by apply (word_sub _ _ _ _ _ _ Hm); vm_compute); try (by apply (str_sub _ _ _ _ _ Hm); vm_compute); done.
  - constructor; [done|constructor; [|constructor; [done|constructor]]].
    exists demo_strtab. split; [done|]. split; [done|]. split; [done|]. split; [done|].
    split; [|split; [|done]]; (split; [|by apply (word_sub _ _ _ _ _ _ Hm); vm_compute]); [exists 17|exists 22];
      (split; [by apply (word_sub _ _ _ _ _ _ Hm); vm_compute|split; [done|by apply (str_sub _ _ _ _ _ Hm); vm_compute]]).
Qed.
End demo.
Lemma demo_mem_file : bytes_at demo_mem 0x10000 demo_file.
Proof. by apply bytes_at_bool; vm_compute. Qed.
Lemma elf_sym_correct_witness :
  elf_sym 100 0x10000 0x20000 (Elf demo_mem []) = Done (0x402010, Elf demo_mem []) ∧ _get_section 100 0x20000 0x10000 (Elf demo_mem []) = Done (0, Elf demo_mem []).
Proof.
  apply (elf_sym_correct 100 0x10000 232 demo_sections demo_strtab demo_tabs 0x20000 (chars "_end") (Elf demo_mem [])).
  - apply demo_elf_file, demo_mem_file.
  - apply str_at_bool. by vm_compute.
  - split; vm_compute; [lia|done].
  - repeat constructor.
  - repeat constructor.
  - vm_compute. lia.
Defined.
