(* ===== verification/ElfLoad.v ===== *)
(** Loading and starting an ELF program: the theorems about [elf_load] and [elf_run] of
    Elf.v.

    The first part is about segments and what loading leaves in memory, the second
    about the stack that [elf_run] builds, the third about whole runs.  The host's
    [mmap] at a fixed address is the class [FixedMmap]. *)
From Stdlib Require Import ZArith Lia Bool.
From S2P Require Import Prelude Libcflat Bytes CString Argv Elf.
#[local] Open Scope Z_scope.

(** ** Segments *)
Record segment := Seg { g_type : Z; g_flags : Z; g_off : Z; g_vaddr : Z; g_filesz : Z; g_memsz : Z }.
Definition segment_at (m : bmem) (p : Z) (g : segment) : Prop :=
  word_at 4 m (p + p_type) (g_type g) ∧ word_at 4 m (p + p_flags) (g_flags g) ∧ word_at 8 m (p + p_offset) (g_off g) ∧
  word_at 8 m (p + p_vaddr) (g_vaddr g) ∧ word_at 8 m (p + p_filesz) (g_filesz g) ∧ word_at 8 m (p + p_memsz) (g_memsz g).
Definition loads (g : segment) : bool := (g_type g =? PT_LOAD) && negb (g_filesz g =? 0).
(** The pages of a segment, and what is in them: the bytes [l] of the file, zeros around. *)
Definition map_start (g : segment) : Z := g_vaddr g - g_vaddr g mod 4096.
Definition map_size (g : segment) : Z := (g_vaddr g mod 4096 + g_memsz g + 4095) / 4096 * 4096.
Definition image (g : segment) (l : list Z) : list Z :=
  replicate (Z.to_nat (g_vaddr g mod 4096)) 0 ++ l ++ replicate (Z.to_nat (map_size g - g_vaddr g mod 4096 - g_filesz g)) 0.
Definition in_pages (base : Z) (g : segment) (a : Z) : Prop := base + map_start g ≤ a < base + map_start g + map_size g.
(** The protection that the flags ask for *)
Definition prot_flags (flags : Z) : Z :=
  (if Z.testbit flags 2 then PROT_READ else 0) + (if Z.testbit flags 1 then PROT_WRITE else 0) + (if Z.testbit flags 0 then PROT_EXEC else 0).
Lemma prot_of_readable prot flags : Z.testbit flags 2 = true → prot_of prot flags = prot_flags flags.
Proof.
  intros H2. unfold prot_of, prot_flags, PF_R, PF_W, PF_X. cbv zeta.
  assert (∀ i, 0 ≤ i → (Z.land flags (2 ^ i) =? 0) = negb (Z.testbit flags i)) as T.
  { intros i Hi. destruct (Z.testbit flags i) eqn:E.
    - apply Z.eqb_neq. intros H0. assert (Z.testbit (Z.land flags (2 ^ i)) i = false) as F by (rewrite H0; apply Z.bits_0).
      rewrite Z.land_spec, E, Z.pow2_bits_true in F by done. done.
    - apply Z.eqb_eq, Z.bits_inj'. intros j Hj. rewrite Z.land_spec, Z.bits_0. destruct (decide (i = j)) as [<-|]; [by rewrite E|].
      rewrite Z.pow2_bits_false by lia. by rewrite andb_false_r. }
  rewrite (T 2 ltac:(lia) : (Z.land flags 4 =? 0) = _), (T 1 ltac:(lia) : (Z.land flags 2 =? 0) = _), (T 0 ltac:(lia) : (Z.land flags 1 =? 0) = _), H2. cbn [negb].
  destruct (Z.testbit flags 1), (Z.testbit flags 0); done.
Qed.

(** What loading asks of a segment: it is not larger than 2G, fits behind [base], is
    readable, and its bytes [l] are in the file of [flen] bytes. *)
Record loadable (m : bmem) (file flen base : Z) (g : segment) (l : list Z) : Prop := {
  lo_size : g_filesz g ≤ g_memsz g < 2 ^ 31 - 8192;
  lo_fits : base + g_vaddr g + g_memsz g + 8192 < 2 ^ 64;
  lo_read : Z.testbit (g_flags g) 2 = true;
  lo_bytes : bytes_at m (file + g_off g) l;
  lo_byte : Forall is_byte l;
  lo_len : Z.of_nat (length l) = g_filesz g;
  lo_in : g_off g + g_filesz g ≤ flen;
  lo_apart : apart file flen (base + map_start g) (map_size g)
}.

Lemma put_bytes_over p l1 l2 l2' l3 m :
  length l2 = length l2' →
  put_bytes (p + Z.of_nat (length l1)) l2' (put_bytes p (l1 ++ l2 ++ l3) m) = put_bytes p (l1 ++ l2' ++ l3) m.
Proof.
  intros Hl. apply map_eq. intros a. rewrite !lookup_put_bytes, !length_app, <- Hl.
  destruct (decide (p ≤ a < p + Z.of_nat (length l1 + (length l2 + length l3)))) as [Hin|Hout]; [|rewrite decide_False by lia; done].
  destruct (decide (p + Z.of_nat (length l1) ≤ a < p + Z.of_nat (length l1) + Z.of_nat (length l2))) as [H2|H2].
  - rewrite (lookup_app_r l1), lookup_app_l by lia. f_equal. lia.
  - destruct (decide (a < p + Z.of_nat (length l1))); [rewrite !(lookup_app_l l1) by lia; done|].
    rewrite !(lookup_app_r l1), !lookup_app_r by lia. f_equal. lia.
Qed.
Lemma map_facts g : 0 ≤ g_vaddr g → 0 ≤ g_filesz g ≤ g_memsz g →
  0 ≤ g_vaddr g mod 4096 < 4096 ∧ g_vaddr g mod 4096 + g_memsz g ≤ map_size g < g_vaddr g mod 4096 + g_memsz g + 4096 ∧ map_size g mod 4096 = 0.
Proof.
  intros Hv Hs. pose proof (Z.mod_pos_bound (g_vaddr g) 4096 ltac:(lia)). unfold map_size. split; [done|].
  set (x := g_vaddr g mod 4096 + g_memsz g + 4095) in *. pose proof (Z.div_mod x 4096 ltac:(lia)). pose proof (Z.mod_pos_bound x 4096 ltac:(lia)).
  split; [lia|]. by apply Z.mod_mul.
Qed.
Lemma image_length g l : 0 ≤ g_vaddr g → 0 ≤ g_filesz g ≤ g_memsz g → Z.of_nat (length l) = g_filesz g → Z.of_nat (length (image g l)) = map_size g.
Proof. intros Hv Hs Hl. destruct (map_facts g Hv Hs) as (H1 & H2 & _). unfold image. rewrite !length_app, !length_replicate. lia. Qed.
Lemma round_down v : in_u64 v → ROUND_DOWN v 4096 = v - v mod 4096.
Proof. intros Hv. unfold ROUND_DOWN. change (u64 (- 4096)) with (not64 (u64 (2 ^ 12 - 1))). by apply (align_down_land 12). Qed.
Lemma round_up v : 0 ≤ v → v + 4096 ≤ 2 ^ 64 → ROUND_UP v 4096 = (v + 4095) / 4096 * 4096.
Proof.
  intros H0 H1. unfold ROUND_UP. change (u64 (- 4096)) with (not64 (u64 (2 ^ 12 - 1))). rewrite (align_down_land 12) by (try apply u64_range; lia).
  rewrite u64_small by (unfold in_u64; lia). replace (v + 4096 - 1) with (v + 4095) by lia. change (2 ^ 12) with 4096.
  pose proof (Z.div_mod (v + 4095) 4096). lia.
Qed.

(** [mmap] with MAP_FIXED gives zeroed memory at the address asked for. *)
Class FixedMmap (o : os) : Prop :=
  mmap_fixed addr len m : addr mod 4096 = 0 → len mod 4096 = 0 → 0 < len → 0 ≤ addr → addr + len < 2 ^ 64 →
    os_mmap o addr len (Z.lor PROT_READ PROT_WRITE) (Z.lor (Z.lor MAP_PRIVATE MAP_ANON) MAP_FIXED) m =
      Done (addr, put_bytes addr (replicate (Z.to_nat len) 0) m).

(** The events of one segment, newest first, and the lowest address after it. *)
Definition segment_events (base : Z) (g : segment) : list os_event :=
  let a := base + map_start g in
  [Flush a (u64 (a + (map_start g + map_size g))); Mprotect a (map_size g) (prot_flags (g_flags g));
   Mmap a (map_size g) (Z.lor PROT_READ PROT_WRITE) (Z.lor (Z.lor MAP_PRIVATE MAP_ANON) MAP_FIXED)].
Definition load_mem (base : Z) (m : bmem) (x : segment * list Z) : bmem :=
  if loads x.1 then put_bytes (base + map_start x.1) (image x.1 x.2) m else m.

Section load.
Context (o : os) `{FixedMmap o} (fuel : nat) (file flen base : Z).
Context (Hbase : 0 ≤ base) (Hpage : base mod 4096 = 0) (Hfile : 0 ≤ file) (Hflen : file + flen < 2 ^ 64).
Abbreviation M := (stM elf).

(** The file is as it was. *)
Definition same_file (m m' : bmem) : Prop := ∀ a, file ≤ a < file + flen → m' !! a = m !! a.
Lemma word_file n m m' p v : word_at n m p v → same_file m m' → file ≤ p → p + Z.of_nat n ≤ file + flen → word_at n m' p v.
Proof.
  intros [Hv Hb] Hs H1 H2. split; [done|]. apply (bytes_at_frame m); [done|]. intros a Ha. rewrite le_bytes_length in Ha. apply Hs. lia.
Qed.
Lemma same_file_put m m' p l : same_file m m' → apart file flen p (Z.of_nat (length l)) → same_file m (put_bytes p l m').
Proof. intros Hs Ha a Hin. rewrite lookup_put_bytes, decide_False; [by apply Hs|]. unfold apart in Ha. lia. Qed.
Lemma segment_file m m' p g : segment_at m p g → same_file m m' → file ≤ p → p + sizeof_Phdr ≤ file + flen → segment_at m' p g.
Proof.
  unfold segment_at, sizeof_Phdr, p_type, p_flags, p_offset, p_vaddr, p_filesz, p_memsz. intros Hg Hs Hp1 Hp2. destruct_and! Hg.
  split_and!; (eapply (word_file _ m); [eassumption..|lia|lia]).
Qed.

Lemma bind_e_put {B} f (g : unit → M B) m m' l : f m = Done m' → (e_put f ≫= g) (Elf m l) = g tt (Elf m' l).
Proof.
  intros E. apply stM_bind_Done. unfold e_put. rewrite bind_get. cbn [e_mem].
  erewrite (stM_bind_Done (lift _)); [|unfold lift; rewrite E; reflexivity]. done.
Qed.
Lemma bind_e_say {B} e (g : unit → M B) m l : (e_say e ≫= g) (Elf m l) = g tt (Elf m (e :: l)).
Proof. done. Qed.
Lemma bind_mmap {B} a len prot flags (g : Z → M B) m m' p l :
  os_mmap o a len prot flags m = Done (p, m') → (mmap o a len prot flags ≫= g) (Elf m l) = g p (Elf m' (Mmap a len prot flags :: l)).
Proof.
  intros E. apply stM_bind_Done. unfold mmap. rewrite bind_get. cbn [e_mem].
  erewrite (stM_bind_Done (lift _)); [|unfold lift; rewrite E; reflexivity]. done.
Qed.
Lemma bind_memcpy {B} dest src bs (g : unit → M B) m l :
  Forall is_byte bs → bytes_at m src bs → writable m dest (Z.of_nat (length bs)) → dest ≤ src ∨ src + Z.of_nat (length bs) ≤ dest →
  (e_memcpy dest src (Z.of_nat (length bs)) ≫= g) (Elf m l) = g tt (Elf (put_bytes dest bs m) l).
Proof. intros. apply bind_e_put. by rewrite (memcpy_ok _ _ bs) by done. Qed.
Lemma bind_memset0 {B} dest n (g : unit → M B) m l :
  writable m dest n → 0 ≤ n → (e_memset dest 0 n ≫= g) (Elf m l) = g tt (Elf (put_bytes dest (replicate (Z.to_nat n) 0) m) l).
Proof.
  intros Hw Hn. apply bind_e_put. rewrite <- (Z2Nat.id n) at 1 by done. rewrite memset_ok by (by rewrite Z2Nat.id). done.
Qed.

Lemma segment_fits m ph g l : segment_at m ph g → loadable m file flen base g l →
  in_u64 (g_vaddr g) ∧ 0 ≤ map_start g ∧ base + map_start g + map_size g < 2 ^ 64 ∧ 0 ≤ g_off g ∧ 0 ≤ g_filesz g ∧ map_size g < 2 ^ 31.
Proof.
  intros (_ & _ & [[Ho _] _] & [Hv _] & [[Hf _] _] & _) []. change (256 ^ Z.of_nat 8) with (2 ^ 64) in Hv.
  destruct (map_facts g) as (H1 & H2 & _); [lia..|]. unfold in_u64, map_start in *. pose proof (Z.mod_le (g_vaddr g) 4096). lia.
Qed.
Lemma load_segment_ok ph prot b m g l log :
  segment_at m ph g → file ≤ ph → ph + sizeof_Phdr ≤ file + flen → loadable m file flen base g l → 0 < g_filesz g →
  load_segment o file base ph prot (Some b) (Elf m log) =
    Done ((prot_flags (g_flags g), Some (if (b =? 2 ^ 64 - 1) || (base + map_start g <? b) then base + map_start g else b)),
      Elf (put_bytes (base + map_start g) (image g l) m) (segment_events base g ++ log)).
Proof.
  intros Hg Hp1 Hp2 Hl Hpos. destruct (segment_fits _ _ _ _ Hg Hl) as (Hv & Hst & Hend & Ho & _ & H31).
  assert (segment_at m ph g) as (_ & _ & _ & Wv & _ & Wm) by done. destruct Hl.
  destruct (map_facts g) as (Hmod & Hsize & Hsz); [unfold in_u64 in Hv; lia..|].
  unfold load_segment. rewrite (bind_ld64 _ _ _ (Elf m log) Wv), round_down by done. fold (map_start g). cbv zeta.
  assert (g_vaddr g - map_start g = g_vaddr g mod 4096) as Ed by (unfold map_start; lia). rewrite Ed, s32_small by lia.
  rewrite (bind_ld64 _ _ _ (Elf m log) Wm), (u64_small (_ + _ mod _)), round_up by (unfold in_u64; lia).
  replace (g_memsz g + g_vaddr g mod 4096) with (g_vaddr g mod 4096 + g_memsz g) by lia. fold (map_size g).
  rewrite s32_small, (u64_small (base + map_start g)), (u64_small (map_size g)), (u64_small (map_start g + map_size g)) by (unfold in_u64; lia).
  assert ((base + map_start g) mod 4096 = 0) as Hal.
  { unfold map_start. rewrite Z.add_mod, Hpage, Z.add_0_l, Z.mod_mod by lia. rewrite Zminus_mod, Z.mod_mod, Z.sub_diag by lia. done. }
  erewrite bind_mmap by (apply mmap_fixed; (done || lia)). set (m1 := put_bytes (base + map_start g) _ m).
  assert (same_file m m1) as S1 by (apply same_file_put; [done|]; rewrite length_replicate, Z2Nat.id by lia; done).
  destruct (segment_file _ _ _ _ Hg S1 Hp1 Hp2) as (_ & _ & Wo1 & Wv1 & Wf1 & Wm1).
  rewrite (bind_ld64 _ _ _ (Elf m1 _) Wv1), (bind_ld64 _ _ _ (Elf m1 _) Wo1), (bind_ld64 _ _ _ (Elf m1 _) Wf1).
  unfold in_u64 in Hv. rewrite (u64_small (base + g_vaddr g)), (u64_small (file + g_off g)) by (unfold in_u64; lia).
  rewrite <- lo_len0. rewrite bind_memcpy; [|done| | |].
  2:{ apply (bytes_at_frame m); [done|]. intros a Ha. apply S1. lia. }
  2:{ apply writable_bytes; rewrite ?length_replicate; lia. }
  2:{ unfold apart in lo_apart0. lia. }
  set (m2 := put_bytes (base + g_vaddr g) l m1).
  assert (Z.of_nat (length (image g l)) = map_size g) as Li by (apply image_length; lia).
  assert (m2 = put_bytes (base + map_start g) (image g l) m) as E2.
  { unfold m2, m1, image. set (a := Z.to_nat (g_vaddr g mod 4096)). set (c := Z.to_nat (map_size g - g_vaddr g mod 4096 - g_filesz g)).
    replace (Z.to_nat (map_size g)) with (a + (length l + c))%nat by lia. rewrite !replicate_add.
    rewrite <- (put_bytes_over _ (replicate a 0) (replicate (length l) 0) l) by (by rewrite length_replicate).
    f_equal. rewrite length_replicate. unfold map_start. lia. }
  assert (same_file m m2) as S2 by (rewrite E2; apply same_file_put; [done|]; rewrite Li; done).
  destruct (segment_file _ _ _ _ Hg S2 Hp1 Hp2) as (_ & Wfl & _ & Wv2 & Wf2 & Wm2).
  rewrite (bind_ld64 _ _ _ (Elf m2 _) Wm2), (bind_ld64 _ _ _ (Elf m2 _) Wf2).
  assert (∀ B (k : unit → M B) lg, ((if g_filesz g <? g_memsz g then v ← ld64 (ph + p_vaddr); e_memset (u64 (base + v + g_filesz g)) 0 (g_memsz g - g_filesz g)
    else mret tt) ≫= k) (Elf m2 lg) = k tt (Elf m2 lg)) as Hz.
  { intros B k lg. destruct (Z.ltb_spec (g_filesz g) (g_memsz g)) as [Hlt|]; [|done].
    rewrite stM_bind_assoc, (bind_ld64 _ _ _ (Elf m2 _) Wv2), u64_small by (unfold in_u64; lia).
    rewrite bind_memset0; [|rewrite E2; apply writable_bytes; unfold map_start in *; lia|lia].
    do 2 f_equal. rewrite E2. unfold image. set (a := Z.to_nat (g_vaddr g mod 4096)).
    set (d := Z.to_nat (g_memsz g - g_filesz g)). set (e := Z.to_nat (map_size g - g_vaddr g mod 4096 - g_memsz g)).
    replace (Z.to_nat (map_size g - g_vaddr g mod 4096 - g_filesz g)) with (d + e)%nat by lia. rewrite replicate_add, (app_assoc (replicate a 0)).
    rewrite <- (put_bytes_over _ (replicate a 0 ++ l) (replicate d 0) (replicate d 0) (replicate e 0) m eq_refl) at 2.
    f_equal. rewrite length_app, length_replicate. unfold map_start. lia. }
  rewrite Hz, (bind_ld32 _ _ _ (Elf m2 _) Wfl), prot_of_readable by done. unfold mprotect, cacheflush. rewrite !bind_e_say.
  rewrite E2. unfold segment_events. cbn [app]. unfold mret, stM_ret. by destruct (_ || _).
Qed.

(** The loop: all segments of a table. *)
Definition seg_ok (m : bmem) (x : segment * list Z) : Prop :=
  (g_type x.1 = PT_GNU_STACK → Z.testbit (g_flags x.1) 2 = true) ∧ (loads x.1 = true → loadable m file flen base x.1 x.2).
Definition lowest (b : Z) (x : segment * list Z) : Z :=
  if loads x.1 then (if (b =? 2 ^ 64 - 1) || (base + map_start x.1 <? b) then base + map_start x.1 else b) else b.
Definition events (stack stack_size : Z) (xs : list (segment * list Z)) : list os_event := xs ≫= λ x,
  (if negb (stack =? 0) && (g_type x.1 =? PT_GNU_STACK) then [Mprotect stack stack_size (prot_flags (g_flags x.1))] else []) ++
  (if loads x.1 then reverse (segment_events base x.1) else []).

Lemma loadable_same m m' g l : loadable m file flen base g l → same_file m m' → 0 ≤ g_off g → loadable m' file flen base g l.
Proof.
  intros [] Hs H0. split; try done. apply (bytes_at_frame m); [done|]. intros a Ha. apply Hs. lia.
Qed.
Lemma load_loop_ok stack stack_size phdr xs : ∀ rest pre n prot sprot b m log,
  xs = pre ++ rest → word_at 2 m (file + e_phnum) (Z.of_nat (length xs)) → (length rest < n)%nat →
  64 ≤ flen → file ≤ phdr → phdr + sizeof_Phdr * Z.of_nat (length xs) ≤ file + flen →
  rows_at (λ p x, segment_at m p x.1) sizeof_Phdr (phdr + sizeof_Phdr * Z.of_nat (length pre)) rest → Forall (seg_ok m) rest →
  load_loop o n file file phdr stack stack_size base (Z.of_nat (length pre)) prot sprot (Some b) (Elf m log) =
    Done (Some (foldl lowest b rest), Elf (foldl (load_mem base) m rest) (reverse (events stack stack_size rest) ++ log)).
Proof.
  induction rest as [|[g l] rest IH]; intros pre n prot sprot b m log Exs Hnum Hf H64 Hp1 Hp2 Hr Hok; (destruct n as [|n]; [lia|]);
    cbn [load_loop]; rewrite (bind_ld16 _ _ _ (Elf m log) Hnum), Exs, length_app.
  - cbn [length]. by rewrite Nat.add_0_r, Z.ltb_irrefl.
  - rewrite (proj2 (Z.ltb_lt _ _)) by (cbn [length]; lia). cbn [rows_at] in Hr. destruct Hr as [Hg Hr]. cbn [fst] in Hg.
    apply Forall_cons in Hok as [[Hns Hok1] Hok]. cbn [fst snd] in *. cbv zeta.
    assert (segment_at m (phdr + sizeof_Phdr * Z.of_nat (length pre)) g) as (Wt & Wfl & _ & _ & Wf & _) by done.
    rewrite (bind_ld32 _ _ _ (Elf m log) Wt).
    set (ev := if negb (stack =? 0) && (g_type g =? PT_GNU_STACK) then [Mprotect stack stack_size (prot_flags (g_flags g))] else []).
    assert (∃ sprot', ∀ B (k : Z → M B), ((if negb (stack =? 0) && (g_type g =? PT_GNU_STACK) then
        flags ← ld32 (phdr + sizeof_Phdr * Z.of_nat (length pre) + p_flags); mprotect stack stack_size (prot_of sprot flags);; mret (prot_of sprot flags)
      else mret sprot) ≫= k) (Elf m log) = k sprot' (Elf m (ev ++ log))) as (sprot' & Hst).
    { unfold ev. destruct (negb (stack =? 0) && (g_type g =? PT_GNU_STACK)) eqn:Ec; [|by exists sprot].
      apply andb_true_iff in Ec as [_ Ec%Z.eqb_eq]. exists (prot_flags (g_flags g)). intros B k.
      rewrite stM_bind_assoc, (bind_ld32 _ _ _ (Elf m log) Wfl), prot_of_readable by auto. unfold mprotect. by rewrite stM_bind_assoc, bind_e_say. }
    assert (Z.of_nat (length pre) + 1 = Z.of_nat (length (pre ++ [(g, l)]))) as Enext by (rewrite length_app; cbn; lia).
    assert (∀ prot' sprot' b' m' lg, same_file m m' → load_loop o n file file phdr stack stack_size base (Z.of_nat (length pre) + 1) prot' sprot' (Some b') (Elf m' lg) =
      Done (Some (foldl lowest b' rest), Elf (foldl (load_mem base) m' rest) (reverse (events stack stack_size rest) ++ lg))) as Hrest.
    { intros prot' sp b' m' lg Hs. rewrite Enext. unfold sizeof_Phdr in *. rewrite Exs, length_app in Hp2. cbn [length] in Hp2.
      apply IH; [by rewrite <- app_assoc|apply (word_file _ m); [done|done|unfold e_phnum; lia|unfold e_phnum; lia]|cbn in Hf; lia|done|done| | |].
      - by rewrite Exs, length_app.
      - rewrite <- Enext. replace (phdr + 56 * (Z.of_nat (length pre) + 1)) with (phdr + 56 * Z.of_nat (length pre) + 56) by lia.
        clear - Hr Hs Hp1 Hp2. assert (file ≤ phdr + 56 * Z.of_nat (length pre) + 56) as Hlo by lia.
        assert (phdr + 56 * Z.of_nat (length pre) + 56 + 56 * Z.of_nat (length rest) ≤ file + flen) as Hhi by lia.
        revert Hr Hlo Hhi. generalize (phdr + 56 * Z.of_nat (length pre) + 56). clear - Hs.
        induction rest as [|x rest IH]; intros q Hr Hlo Hhi; [done|]. destruct Hr as [Hx Hr]. cbn [length] in Hhi.
        split; [apply (segment_file m); [done|done|lia|unfold sizeof_Phdr; lia]|apply IH; [done|lia|lia]].
      - clear - Hok Hs Hr. revert Hr. generalize (phdr + 56 * Z.of_nat (length pre) + 56). induction Hok as [|x rest [H1 H2] _ IH]; intros q Hr; constructor.
        + split; [done|]. intros Hl. apply (loadable_same m); [auto|done|]. destruct Hr as [(_ & _ & [[H0 _] _] & _) _]. done.
        + by apply (IH (q + 56)), Hr. }
    rewrite Hst. cbn [foldl]. unfold load_mem at 2, lowest at 2, events. cbn [mbind list_bind fst snd]. fold ev. fold (events stack stack_size rest).
    destruct Wf as [[Hf0 Hf1] Wf2]. assert (word_at 8 m (phdr + sizeof_Phdr * Z.of_nat (length pre) + p_filesz) (g_filesz g)) as Wf by done.
    unfold loads in *. destruct (g_type g =? PT_LOAD); cbn [negb andb] in *.
    + rewrite (bind_ld64 _ _ _ (Elf m _) Wf). destruct (Z.eqb_spec (g_filesz g) 0) as [E0|Hne]; cbn [negb] in *.
      * rewrite Hrest by done. rewrite app_nil_r. f_equal. f_equal. f_equal. rewrite reverse_app. unfold ev.
        destruct (_ && _); by rewrite <- app_assoc.
      * rewrite (stM_bind_Done _ _ _ _ _ (load_segment_ok _ prot b m g l (ev ++ log) Hg ltac:(unfold sizeof_Phdr in *; lia)
          ltac:(unfold sizeof_Phdr in *; rewrite Exs, length_app in Hp2; cbn [length] in Hp2; lia) (Hok1 eq_refl) ltac:(lia))).
        rewrite Hrest.
        -- f_equal. f_equal. f_equal. rewrite !reverse_app, reverse_involutive, <- !app_assoc. f_equal. f_equal. unfold ev. by destruct (_ && _).
        -- destruct (Hok1 eq_refl). destruct (map_facts g) as (_ & _ & _); [destruct Hg as (_ & _ & _ & [[? _] _] & _); lia|lia|].
           apply same_file_put; [done|]. rewrite image_length; [done|destruct Hg as (_ & _ & _ & [[? _] _] & _); lia|lia|done].
    + rewrite Hrest by done. rewrite app_nil_r. f_equal. f_equal. f_equal. rewrite reverse_app. unfold ev.
      destruct (_ && _); by rewrite <- app_assoc.
Qed.
End load.

(** ** What loading leaves in memory *)
Definition pages_apart (base : Z) (x y : segment * list Z) : Prop :=
  loads x.1 = true → loads y.1 = true → apart (base + map_start x.1) (map_size x.1) (base + map_start y.1) (map_size y.1).
Definition image_fits (x : segment * list Z) : Prop := loads x.1 = true → Z.of_nat (length (image x.1 x.2)) = map_size x.1.
Lemma load_mem_frame base xs m p l : Forall image_fits xs →
  Forall (λ x, loads x.1 = true → apart p (Z.of_nat (length l)) (base + map_start x.1) (map_size x.1)) xs →
  bytes_at m p l → bytes_at (foldl (load_mem base) m xs) p l.
Proof.
  intros Hf. revert m. induction Hf as [|x xs Hx _ IH]; intros m Ha Hb; [done|]. apply Forall_cons in Ha as [Hax Ha]. cbn [foldl].
  apply IH; [done|]. unfold load_mem. destruct (loads x.1) eqn:El; [|done]. apply (bytes_at_frame m); [done|]. intros a Hin.
  rewrite lookup_put_bytes, decide_False; [done|]. specialize (Hx El). specialize (Hax eq_refl). unfold apart in Hax. lia.
Qed.
Lemma load_mem_bytes base xs m : Forall image_fits xs → ForallOrdPairs (pages_apart base) xs →
  ∀ x, x ∈ xs → loads x.1 = true → bytes_at (foldl (load_mem base) m xs) (base + map_start x.1) (image x.1 x.2).
Proof.
  intros Hf Hp. revert m Hf. induction Hp as [|y ys Hy _ IH]; intros m Hf x Hx El; [by apply elem_of_nil in Hx|].
  apply Forall_cons in Hf as [Hfy Hf]. cbn [foldl]. apply elem_of_cons in Hx as [->|Hx]; [|by apply IH].
  apply load_mem_frame; [done| |].
  - apply Forall_forall. intros z Hz Ez. rewrite (Hfy El). by apply (proj1 (Forall_forall _ _) Hy z Hz).
  - unfold load_mem. rewrite El. apply bytes_at_put.
Qed.
Definition loaded_pages (base : Z) (xs : list (segment * list Z)) (a : Z) : Prop :=
  ∃ x, x ∈ xs ∧ loads x.1 = true ∧ in_pages base x.1 a.
Lemma load_mem_same base xs m : Forall image_fits xs → same_but (loaded_pages base xs) m (foldl (load_mem base) m xs).
Proof.
  intros Hf. revert m. induction Hf as [|x xs Hx _ IH]; intros m; [apply same_but_refl|]. cbn [foldl].
  apply (same_but_trans _ _ (load_mem base m x)).
  - unfold load_mem. destruct (loads x.1) eqn:El; [|apply same_but_refl]. apply same_but_put. intros a Ha. exists x.
    split; [left|]. split; [done|]. unfold in_pages. rewrite <- (Hx El). lia.
  - eapply same_but_weaken, IH. intros a (y & Hy & Hr). exists y. split; [by right|done].
Qed.
Lemma lowest_min base xs b : b ≤ 2 ^ 64 - 1 → Forall (λ x, loads x.1 = true → base + map_start x.1 < 2 ^ 64 - 1) xs →
  foldl (lowest base) b xs = foldl Z.min b ((λ x, base + map_start x.1) <$> filter (λ x, loads x.1 = true) xs).
Proof.
  intros Hb H. revert b Hb. induction H as [|x xs Hx _ IH]; intros b Hb; [done|]. cbn [foldl]. rewrite filter_cons. unfold lowest at 2.
  case_decide as El; [rewrite El|destruct (loads x.1); [done|by apply IH]]. specialize (Hx El). cbn [fmap list_fmap foldl].
  assert ((if (b =? 2 ^ 64 - 1) || (base + map_start x.1 <? b) then base + map_start x.1 else b) = Z.min b (base + map_start x.1)) as ->.
  { destruct (Z.eqb_spec b (2 ^ 64 - 1)), (Z.ltb_spec (base + map_start x.1) b); cbn [orb]; lia. }
  apply IH. lia.
Qed.

(** A file that can be loaded at [base]. *)
Record program (o : os) (m : bmem) (file flen base ty entry : Z) (xs : list (segment * list Z)) : Prop := {
  pg_file : 0 ≤ file;
  pg_flen : 64 ≤ flen;
  pg_end : file + flen < 2 ^ 64;
  pg_base : 0 ≤ base ∧ base mod 4096 = 0;
  pg_type : word_at 2 m (file + e_type) ty;
  pg_entry : word_at 8 m (file + e_entry) entry;
  pg_efits : base + entry < 2 ^ 64;
  pg_num : word_at 2 m (file + e_phnum) (Z.of_nat (length xs));
  pg_phdrs : ∃ phoff, word_at 8 m (file + e_phoff) phoff ∧ phoff + sizeof_Phdr * Z.of_nat (length xs) ≤ flen ∧
    rows_at (λ p x, segment_at m p x.1) sizeof_Phdr (file + phoff) xs;
  pg_ok : Forall (seg_ok file flen base m) xs;
  pg_apart : ForallOrdPairs (pages_apart base) xs;
  pg_choice : if ty =? ET_DYN then
      ∃ m1, os_mmap o 0 (100 * 4096) (Z.lor PROT_READ PROT_WRITE) (Z.lor MAP_PRIVATE MAP_ANON) m = Done (base, m1) ∧
        os_munmap o base (100 * 4096) m1 = Done m
    else base = 0
}.
Lemma elf_load_ok o `{FixedMmap o} fuel file flen stack stack_size base ty entry xs b0 e0 m log :
  program o m file flen base ty entry xs → (length xs < fuel)%nat →
  ∃ log0, elf_load o fuel file stack stack_size (Some b0) (Some e0) (Elf m log) =
    Done ((Some (foldl (lowest base) (2 ^ 64 - 1) xs), Some (base + entry)),
      Elf (foldl (load_mem base) m xs) (reverse (events base stack stack_size xs) ++ log0 ++ log)).
Proof.
  intros [] Hf. destruct pg_phdrs0 as (phoff & Hoff & Hin & Hrows). destruct pg_base0 as [Hb0 Hb].
  assert (0 ≤ phoff ∧ 0 ≤ entry) as [Hph He] by (destruct Hoff as [[? _] _], pg_entry0 as [[? _] _]; done).
  unfold elf_load. rewrite (bind_ld64 _ _ _ (Elf m log) Hoff), (bind_ld16 _ _ _ (Elf m log) pg_type0).
  rewrite u64_small by (unfold in_u64, sizeof_Phdr in *; lia).
  assert (∃ log0, ∀ B (k : Z → stM elf B), ((if ty =? ET_DYN then
      b ← mmap o 0 (100 * 4096) (Z.lor PROT_READ PROT_WRITE) (Z.lor MAP_PRIVATE MAP_ANON); munmap o b (100 * 4096);; mret b
    else mret 0) ≫= k) (Elf m log) = k base (Elf m (log0 ++ log))) as (log0 & Hbase).
  { destruct (ty =? ET_DYN).
    - destruct pg_choice0 as (m1 & E1 & E2). exists [Munmap base (100 * 4096); Mmap 0 (100 * 4096) (Z.lor PROT_READ PROT_WRITE) (Z.lor MAP_PRIVATE MAP_ANON)].
      intros B k. rewrite stM_bind_assoc. erewrite bind_mmap by exact E1. unfold munmap. rewrite !stM_bind_assoc.
      erewrite bind_e_put by exact E2. rewrite bind_e_say. done.
    - exists []. by subst base. }
  exists log0. rewrite Hbase, (bind_ld64 _ _ _ (Elf m _) pg_entry0), u64_small by (unfold in_u64; lia). cbn [fmap option_fmap option_map].
  erewrite stM_bind_Done by (apply (load_loop_ok o file flen base Hb0 Hb pg_file0 pg_end0 stack stack_size (file + phoff) xs xs [] fuel 0 0 (2 ^ 64 - 1) m (log0 ++ log));
    [done|done|done|done|lia|lia|by cbn [length]; rewrite Z.mul_0_r, Z.add_0_r|done]).
  done.
Qed.
Lemma program_fits o m file flen base ty entry xs : program o m file flen base ty entry xs →
  Forall image_fits xs ∧ Forall (λ x, loads x.1 = true → 0 ≤ map_start x.1 ∧ 0 ≤ map_size x.1 ∧ base + map_start x.1 + map_size x.1 < 2 ^ 64 - 1 ∧
    0 ≤ g_vaddr x.1 ∧ 0 ≤ g_filesz x.1 ≤ g_memsz x.1 ∧ Z.of_nat (length x.2) = g_filesz x.1) xs.
Proof.
  intros []. destruct pg_phdrs0 as (phoff & _ & _ & Hrows). rewrite !Forall_forall.
  assert (∀ x, x ∈ xs → ∃ p, segment_at m p x.1) as Hseg.
  { intros x (i & Hi)%list_elem_of_lookup. eexists. by apply (rows_at_lookup _ _ _ _ _ _ Hrows Hi). }
  split; intros x Hx El; destruct (Hseg x Hx) as (p & _ & _ & _ & [[Hv _] _] & [[Hfs _] _] & _);
    destruct (proj1 (Forall_forall _ _) pg_ok0 x Hx) as [_ Hl]; destruct (Hl El).
  - apply image_length; [done|lia|done].
  - destruct (map_facts x.1) as (? & ? & _); [lia..|]. unfold map_start. pose proof (Z.mod_le (g_vaddr x.1) 4096). lia.
Qed.


(** ** The initial stack *)
(** Pointers and strings of an [argv] that are not in [P]. *)
Fixpoint env_out (P : Z → Prop) (v : Z) (vars : list (Z * list Z)) : Prop :=
  (∀ a, v ≤ a < v + 8 → ¬ P a) ∧
  match vars with [] => True | (p, s) :: vars => (∀ a, p ≤ a ≤ p + Z.of_nat (length s) → ¬ P a) ∧ env_out P (v + 8) vars end.
Lemma env_at_same P m m' v vars : env_at m v vars → env_out P v vars → same_but P m m' → env_at m' v vars.
Proof.
  intros He Ho Hs. revert v He Ho. induction vars as [|[p s] vars IH]; intros v He Ho; cbn [env_at env_out] in *.
  - apply (bytes_at_frame m); [done|]. intros a Ha. rewrite le_bytes_length in Ha. apply Hs, Ho. lia.
  - destruct He as (Hp & Hb & Hstr & He), Ho as (Ho1 & Ho2 & Ho). split; [done|]. split; [|split; [|by apply IH]].
    + apply (bytes_at_frame m); [done|]. intros a Ha. rewrite le_bytes_length in Ha. apply Hs, Ho1. lia.
    + apply (str_at_frame m); [done|]. intros a Ha. by apply Hs, Ho2.
Qed.
Lemma env_out_weaken (P Q : Z → Prop) v vars : (∀ a, Q a → P a) → env_out P v vars → env_out Q v vars.
Proof.
  intros HPQ. revert v. induction vars as [|[p s] vars IH]; intros v; cbn [env_out]; [intros [H _]; split; [|done]; intros a Ha Hq; by apply (H a Ha), HPQ|].
  intros (H1 & H2 & H3). split; [intros a Ha Hq; by apply (H1 a Ha), HPQ|]. split; [intros a Ha Hq; by apply (H2 a Ha), HPQ|by apply IH].
Qed.
Lemma ptr_array_app l1 l2 : ptr_array (l1 ++ l2) = ptr_array l1 ++ ptr_array l2.
Proof. unfold ptr_array. by rewrite fmap_app, concat_app. Qed.
Lemma ptr_array_1 v : ptr_array [v] = le_bytes 8 v.
Proof. unfold ptr_array. cbn [fmap list_fmap concat]. by rewrite app_nil_r. Qed.
Lemma packed_app l1 l2 : packed (l1 ++ l2) = packed l1 ++ packed l2.
Proof. unfold packed. by rewrite fmap_app, concat_app. Qed.

Section stack.
Context (fuel : nat) (stack : Z).
Abbreviation M := (stM elf).
Abbreviation sp := (stack + STACK_SIZE - STACK_STORAGE_SIZE - STACK_STRING_SIZE).
Abbreviation strs := (stack + STACK_SIZE - STACK_STRING_SIZE).
Definition in_stack (a : Z) : Prop := stack ≤ a < stack + STACK_SIZE.

(** The words [ws] at the stack pointer and the bytes [bs] in the string area, with the
    rest of memory as in [m0]. *)
Record stack_is (m0 m : bmem) (ws bs : list Z) : Prop := {
  sk_words : bytes_at m sp (ptr_array ws);
  sk_bytes : bytes_at m strs bs;
  sk_wlen : 8 * Z.of_nat (length ws) ≤ STACK_STORAGE_SIZE;
  sk_blen : Z.of_nat (length bs) ≤ STACK_STRING_SIZE;
  sk_same : same_but in_stack m0 m;
  sk_writable : writable m stack STACK_SIZE
}.
Lemma push_word {B} m0 m ws bs v l p (g : unit → M B) :
  stack_is m0 m ws bs → 8 * (Z.of_nat (length ws) + 1) ≤ STACK_STORAGE_SIZE → p = sp + 8 * Z.of_nat (length ws) →
  ∃ m', (st64 p v ≫= g) (Elf m l) = g tt (Elf m' l) ∧ stack_is m0 m' (ws ++ [v]) bs.
Proof.
  intros [] Hroom ->. unfold STACK_SIZE, STACK_STORAGE_SIZE, STACK_STRING_SIZE in *. eexists. split.
  - apply bind_e_put. apply st_bytes_ok; [apply le_bytes_byte|]. rewrite le_bytes_length. apply (writable_weaken _ _ _ _ _ sk_writable0); lia.
  - pose proof (ptr_array_length ws) as Lw. split; unfold STACK_SIZE, STACK_STORAGE_SIZE, STACK_STRING_SIZE.
    + rewrite ptr_array_app, ptr_array_1. apply bytes_at_app. rewrite Lw. split; [|apply bytes_at_put].
      apply bytes_at_put_frame; [done|]. rewrite le_bytes_length. lia.
    + apply bytes_at_put_frame; [done|]. rewrite le_bytes_length. lia.
    + rewrite length_app. cbn [length]. lia.
    + done.
    + apply (same_but_trans _ _ m); [done|]. apply same_but_put. intros a Ha. rewrite le_bytes_length in Ha. unfold in_stack, STACK_SIZE. lia.
    + by apply writable_put.
Qed.
Lemma push_string {B} m0 m ws bs src s l p n (g : unit → M B) :
  stack_is m0 m ws bs → Z.of_nat (length bs + length s) + 1 ≤ STACK_STRING_SIZE → p = strs + Z.of_nat (length bs) → n = Z.of_nat (length s) + 1 →
  str_at m src s → (∀ a, src ≤ a ≤ src + Z.of_nat (length s) → ¬ in_stack a) →
  ∃ m', (e_memcpy p src n ≫= g) (Elf m l) = g tt (Elf m' l) ∧ stack_is m0 m' ws (bs ++ s ++ [0]).
Proof.
  intros [] Hroom -> -> [Hc Hb] Hout. unfold in_stack, STACK_SIZE, STACK_STORAGE_SIZE, STACK_STRING_SIZE in *. eexists. split.
  - replace (Z.of_nat (length s) + 1) with (Z.of_nat (length (s ++ [0]))) by (rewrite length_app; cbn; lia). apply bind_memcpy.
    + apply Forall_app. split; [|by repeat constructor]. apply (Forall_impl _ _ _ Hc). unfold is_byte. lia.
    + done.
    + rewrite length_app. cbn [length]. apply (writable_weaken _ _ _ _ _ sk_writable0); lia.
    + rewrite length_app. cbn [length]. destruct (Z.le_gt_cases (stack + 8 * 1024 * 1024 - 0x5000 + Z.of_nat (length bs)) src); [by left|right].
      destruct (Z.le_gt_cases (src + Z.of_nat (length s + 1)) (stack + 8 * 1024 * 1024 - 0x5000 + Z.of_nat (length bs))); [done|].
      exfalso. apply (Hout (stack + 8 * 1024 * 1024 - 0x5000 + Z.of_nat (length bs))); lia.
  - pose proof (ptr_array_length ws) as Lw. split; unfold STACK_SIZE, STACK_STORAGE_SIZE, STACK_STRING_SIZE.
    + apply bytes_at_put_frame; [done|]. rewrite length_app. cbn [length]. lia.
    + rewrite (app_assoc bs), <- app_assoc. apply bytes_at_app. split; [|apply bytes_at_put]. apply bytes_at_put_frame; [done|]. lia.
    + done.
    + rewrite !length_app. cbn [length]. lia.
    + apply (same_but_trans _ _ m); [done|]. apply same_but_put. intros a Ha. rewrite length_app in Ha. cbn [length] in Ha. unfold in_stack, STACK_SIZE. lia.
    + by apply writable_put.
Qed.

Lemma count_loop_ok v vars m l : ∀ n i, env_at m (v + 8 * i) vars → (length vars < n)%nat → 0 ≤ i → i + Z.of_nat (length vars) < 2 ^ 31 →
  count_loop n v i (Elf m l) = Done (i + Z.of_nat (length vars), Elf m l).
Proof.
  induction vars as [|[p s] vars IH]; intros n i He Hn H0 Hi; (destruct n as [|n]; [lia|]); cbn [count_loop env_at length] in *.
  - rewrite (bind_ld64 _ 0 _ (Elf m l)) by (by split). by rewrite Z.add_0_r.
  - destruct He as (Hp & Hb & _ & He). rewrite (bind_ld64 _ p _ (Elf m l)) by (split; [change (256 ^ Z.of_nat 8) with (2 ^ 64); lia|done]).
    rewrite (proj2 (Z.eqb_neq p 0)), s32_small by lia. rewrite IH; [replace (i + 1 + Z.of_nat (length vars)) with (i + Z.of_nat (S (length vars))) by lia; done| |lia|lia|lia].
    by replace (v + 8 * (i + 1)) with (v + 8 * i + 8) by lia.
Qed.
Lemma packed_1 w ws : packed (w :: ws) = (w ++ [0]) ++ packed ws.
Proof. done. Qed.
Lemma copy_loop_ok m0 v slots count l vars : ∀ n x m ws bs k,
  env_at m0 (v + 8 * x) vars → env_out in_stack (v + 8 * x) vars → stack_is m0 m ws bs →
  Forall (λ y : Z * list Z, (length y.2 < fuel)%nat) vars →
  8 * Z.of_nat (length ws + length vars) ≤ STACK_STORAGE_SIZE → Z.of_nat (length bs + length (packed (snd <$> vars))) ≤ STACK_STRING_SIZE →
  slots + 8 * x = sp + 8 * Z.of_nat (length ws) → count = x + Z.of_nat (length vars) → (length vars ≤ n)%nat → 0 ≤ k → k + Z.of_nat (length vars) < 2 ^ 31 →
  ∃ m', copy_loop fuel n v count slots strs x (Z.of_nat (length bs)) k (Elf m l) =
      Done ((Z.of_nat (length (bs ++ packed (snd <$> vars))), k + Z.of_nat (length vars)), Elf m' l) ∧
    stack_is m0 m' (ws ++ word_ptrs (strs + Z.of_nat (length bs)) (snd <$> vars)) (bs ++ packed (snd <$> vars)).
Proof.
  induction vars as [|[p s] vars IH]; intros n x m ws bs k He Ho Hk Hfuel Hroom Hsroom Hslot Hc Hn H0 H31;
    cbn [env_at env_out length fmap list_fmap snd word_ptrs] in *.
  - destruct n; cbn [copy_loop]; rewrite (proj2 (Z.ltb_ge _ _)) by lia; exists m; cbn [packed concat]; rewrite !app_nil_r; (split; [|done]);
      by rewrite Z.add_0_r.
  - destruct n as [|n]; [lia|]. cbn [copy_loop]. rewrite (proj2 (Z.ltb_lt _ _)) by lia.
    destruct He as (Hp & Hb & Hstr & He), Ho as (Ho1 & Ho2 & Ho). apply Forall_cons in Hfuel as [Hfs Hfuel]. cbn [snd] in Hfs.
    rewrite packed_1, !length_app in Hsroom. cbn [length] in Hsroom.
    assert (∀ m', same_but in_stack m0 m' → word_at 8 m' (v + 8 * x) p ∧ str_at m' p s) as Hkeep.
    { intros m' Hs. split; [|apply (str_at_frame m0); [done|]; intros a Ha; by apply Hs, Ho2]. split; [change (256 ^ Z.of_nat 8) with (2 ^ 64); lia|].
      apply (bytes_at_frame m0); [done|]. intros a Ha. rewrite le_bytes_length in Ha. by apply Hs, Ho1. }
    destruct (Hkeep m (sk_same _ _ _ _ Hk)) as [Hw Hs]. pose proof (sk_blen _ _ _ _ Hk) as Hbl. unfold STACK_STRING_SIZE in Hbl, Hsroom.
    rewrite (bind_ld64 _ p _ (Elf m l)), (bind_e_get _ _ (Elf m l) (Z.of_nat (length s))) by (done || (apply strlen_ok; done || lia)).
    rewrite (bind_ld64 _ p _ (Elf m l)) by done. cbv zeta.
    rewrite (s32_small (Z.of_nat (length s) + 1)), (u64_small (Z.of_nat (length s) + 1)) by (unfold in_u64; lia).
    destruct (push_string m0 m ws bs p s l (strs + Z.of_nat (length bs)) (Z.of_nat (length s) + 1)
      (λ _, st64 (slots + 8 * x) (strs + Z.of_nat (length bs));; copy_loop fuel n v count slots strs (x + 1) (s32 (Z.of_nat (length bs) + (Z.of_nat (length s) + 1))) (s32 (k + 1))) Hk)
      as (m1 & E1 & K1); [unfold STACK_STRING_SIZE; lia|done|done|done|done|]. rewrite E1.
    destruct (push_word m0 m1 ws (bs ++ s ++ [0]) (strs + Z.of_nat (length bs)) l (slots + 8 * x)
      (λ _, copy_loop fuel n v count slots strs (x + 1) (s32 (Z.of_nat (length bs) + (Z.of_nat (length s) + 1))) (s32 (k + 1))) K1)
      as (m2 & E2 & K2); [lia|done|]. rewrite E2, !s32_small by lia.
    replace (Z.of_nat (length bs) + (Z.of_nat (length s) + 1)) with (Z.of_nat (length (bs ++ s ++ [0]))) by (rewrite !length_app; cbn [length]; lia).
    destruct (IH n (x + 1) m2 (ws ++ [strs + Z.of_nat (length bs)]) (bs ++ s ++ [0]) (k + 1)) as (m3 & E3 & K3).
    + by replace (v + 8 * (x + 1)) with (v + 8 * x + 8) by lia.
    + by replace (v + 8 * (x + 1)) with (v + 8 * x + 8) by lia.
    + done.
    + done.
    + rewrite length_app. cbn [length]. lia.
    + unfold STACK_STRING_SIZE. rewrite !length_app. cbn [length]. lia.
    + rewrite length_app. cbn [length]. lia.
    + lia.
    + lia.
    + lia.
    + lia.
    + exists m3. rewrite E3, packed_1. rewrite <- app_assoc in K3 |- *.
      replace (strs + Z.of_nat (length (bs ++ s ++ [0]))) with (strs + Z.of_nat (length bs) + Z.of_nat (length s) + 1) in K3 by (rewrite !length_app; cbn [length]; lia).
      rewrite <- app_assoc in K3. split; [|exact K3]. by replace (k + 1 + Z.of_nat (length vars)) with (k + Z.of_nat (S (length vars))) by lia.
Qed.
Lemma put_aux_ok {B} m0 m ws bs at_ cnt id v l (g : Z → M B) :
  stack_is m0 m ws bs → 8 * (Z.of_nat (length ws) + 2) ≤ STACK_STORAGE_SIZE → at_ + 16 * cnt = sp + 8 * Z.of_nat (length ws) →
  ∃ m', (put_aux at_ cnt id v ≫= g) (Elf m l) = g (cnt + 1) (Elf m' l) ∧ stack_is m0 m' (ws ++ [id; v]) bs.
Proof.
  intros Hk Hroom Hat. unfold put_aux. rewrite stM_bind_assoc.
  destruct (push_word m0 m ws bs id l (at_ + 16 * cnt) (λ _, (st64 (at_ + 16 * cnt + 8) v;; mret (cnt + 1)) ≫= g) Hk) as (m1 & E1 & K1);
    [lia|done|]. rewrite E1, stM_bind_assoc.
  destruct (push_word m0 m1 (ws ++ [id]) bs v l (at_ + 16 * cnt + 8) (λ _, mret (cnt + 1) ≫= g) K1) as (m2 & E2 & K2).
  - rewrite length_app. cbn [length]. lia.
  - rewrite length_app. cbn [length]. lia.
  - exists m2. rewrite E2. split; [done|]. by rewrite <- app_assoc in K2.
Qed.
End stack.

(** No interpreter. *)
Lemma interp_loop_none buf phdr xs m l : word_at 2 m (buf + e_phnum) (Z.of_nat (length xs)) → ∀ rest pre n, xs = pre ++ rest → (length rest < n)%nat →
  rows_at (λ p x, segment_at m p x.1) sizeof_Phdr (phdr + sizeof_Phdr * Z.of_nat (length pre)) rest → Forall (λ x : segment * list Z, g_type x.1 ≠ PT_INTERP) rest →
  interp_loop n buf buf phdr (Z.of_nat (length pre)) (Elf m l) = Done (0, Elf m l).
Proof.
  intros Hnum. induction rest as [|x rest IH]; intros pre n Exs Hn Hr Hi; (destruct n as [|n]; [lia|]); cbn [interp_loop];
    rewrite (bind_ld16 _ _ _ (Elf m l) Hnum), Exs, length_app.
  - cbn [length]. by rewrite Nat.add_0_r, Z.ltb_irrefl.
  - rewrite (proj2 (Z.ltb_lt _ _)) by (cbn [length]; lia). destruct Hr as [(Wt & _) Hr]. apply Forall_cons in Hi as [Hx Hi].
    rewrite (bind_ld32 _ _ _ (Elf m l) Wt), (proj2 (Z.eqb_neq _ _)) by done.
    replace (Z.of_nat (length pre) + 1) with (Z.of_nat (length (pre ++ [x]))) by (rewrite length_app; cbn; lia).
    apply IH; [by rewrite <- app_assoc|cbn in Hn; lia| |done]. rewrite length_app. cbn [length].
    replace (phdr + sizeof_Phdr * Z.of_nat (length pre + 1)) with (phdr + sizeof_Phdr * Z.of_nat (length pre) + sizeof_Phdr) by lia. done.
Qed.
Lemma get_interp_none o fuel buf flen base ty entry xs m l : program o m buf flen base ty entry xs → (length xs < fuel)%nat →
  Forall (λ x : segment * list Z, g_type x.1 ≠ PT_INTERP) xs → _get_interp fuel buf (Elf m l) = Done (0, Elf m l).
Proof.
  intros [] Hf Hi. destruct pg_phdrs0 as (phoff & Hoff & Hin & Hr). unfold _get_interp. rewrite (bind_ld64 _ _ _ (Elf m l) Hoff).
  rewrite u64_small by (destruct Hoff as [[? _] _]; unfold in_u64, sizeof_Phdr in *; lia).
  apply (interp_loop_none buf (buf + phoff) xs m l pg_num0 xs [] fuel); [done|done| |done]. cbn [length]. by rewrite Z.mul_0_r, Z.add_0_r.
Qed.

(** The auxiliary vector for a program without an interpreter. *)
Definition aux_words (o : os) (elf_base phoff phnum elf_entry rand_bytes : Z) : list Z :=
  [AT_PHDR; u64 (elf_base + phoff); AT_PHENT; sizeof_Phdr; AT_PHNUM; phnum; AT_PAGESZ; 4096; AT_BASE; 0; AT_FLAGS; 0; AT_ENTRY; elf_entry;
   AT_UID; getuid o; AT_EUID; geteuid o; AT_GID; getgid o; AT_EGID; getegid o; AT_RANDOM; rand_bytes; AT_NULL; 0].
(** What the loader may write. *)
Definition written (rand_bytes stack base : Z) (xs : list (segment * list Z)) (a : Z) : Prop :=
  rand_bytes ≤ a < rand_bytes + 16 ∨ in_stack stack a ∨ loaded_pages base xs a.
(** The file and the names of the sections in memory: a program without constructors. *)
Record runnable (o : os) (fuel : nat) (m : bmem) (buf flen base ty entry phoff : Z) (xs : list (segment * list Z)) (dot_init dot_init_array : Z) : Prop := {
  rn_program : program o m buf flen base ty entry xs;
  rn_phoff : word_at 8 m (buf + e_phoff) phoff;
  rn_file : ∃ shoff secs str tabs, elf_file m buf shoff secs str tabs ∧ Forall (λ s, short fuel (s_name s)) secs ∧ (length secs < fuel)%nat ∧
    find_section (chars ".init") secs = None ∧ find_section (chars ".init_array") secs = None;
  rn_init : str_at m dot_init (chars ".init");
  rn_array : str_at m dot_init_array (chars ".init_array")
}.
Lemma get_section_none fuel m buf shoff secs str tabs name nm l :
  elf_file m buf shoff secs str tabs → str_at m name nm → short fuel nm → Forall (λ s, short fuel (s_name s)) secs → (length secs < fuel)%nat →
  find_section nm secs = None → _get_section fuel name buf (Elf m l) = Done (0, Elf m l).
Proof. intros He Hn Hs Hsec Hf Hnone. rewrite (get_section_ok fuel m buf shoff secs str tabs name nm l He Hn Hs Hsec Hf). by rewrite Hnone. Qed.
Lemma run_constructors_none o fuel m buf flen base ty entry phoff xs dot_init dot_init_array elf_base argc argv env l :
  runnable o fuel m buf flen base ty entry phoff xs dot_init dot_init_array → (20 < fuel)%nat →
  run_constructors o fuel buf buf elf_base dot_init dot_init_array argc argv env (Elf m l) = Done (tt, Elf m l).
Proof.
  intros [] Hf. destruct rn_file0 as (shoff & secs & str & tabs & He & Hs & Hl & H1 & H2). unfold run_constructors.
  rewrite (stM_bind_Done _ _ _ _ _ (get_section_none fuel m buf shoff secs str tabs dot_init (chars ".init") l He rn_init0
    ltac:(split; [cbn; lia|done]) Hs Hl H1)).
  rewrite (stM_bind_Done _ _ _ _ _ (get_section_none fuel m buf shoff secs str tabs dot_init_array (chars ".init_array") l He rn_array0
    ltac:(split; [cbn; lia|done]) Hs Hl H2)).
  by rewrite (bind_ld16 _ _ _ (Elf m l) (pg_type _ _ _ _ _ _ _ _ rn_program0)).
Qed.

Ltac push_aux K := 
  match type of K with stack_is ?stack ?m0 ?m ?ws ?bs =>
  match goal with |- context [(put_aux ?at_ ?cnt ?id ?v ≫= ?g) (Elf m ?l)] =>
    let m' := fresh "m" in let E := fresh "E" in let K' := fresh "K" in
    destruct (put_aux_ok stack m0 m ws bs at_ cnt id v l g K) as (m' & E & K'); 
    [unfold STACK_STORAGE_SIZE in *; rewrite ?length_app in *; cbn [length] in *; lia
    |unfold STACK_SIZE, STACK_STORAGE_SIZE, STACK_STRING_SIZE in *; rewrite ?length_app in *; cbn [length] in *; lia
    |rewrite E; clear E K; rename K' into K; cbv beta]
  end end.
(** The second half of [elf_run]: from the strings on. *)
Lemma push_aux_all o m0 m ws bs stack at_ elf_base entry rand_bytes buf phoff phnum exit_func l :
  stack_is stack m0 m ws bs →
  (∀ m', same_but (in_stack stack) m0 m' → word_at 8 m' (buf + e_phoff) phoff ∧ word_at 2 m' (buf + e_phnum) phnum) →
  8 * (Z.of_nat (length ws) + 26) ≤ STACK_STORAGE_SIZE → at_ = stack + STACK_SIZE - STACK_STORAGE_SIZE - STACK_STRING_SIZE + 8 * Z.of_nat (length ws) →
  ∃ m', (phoff ← ld64 (buf + e_phoff);
    cnt ← put_aux at_ 0 AT_PHDR (u64 (elf_base + phoff));
    cnt ← put_aux at_ cnt AT_PHENT sizeof_Phdr;
    phnum ← ld16 (buf + e_phnum);
    cnt ← put_aux at_ cnt AT_PHNUM phnum;
    cnt ← put_aux at_ cnt AT_PAGESZ 4096;
    cnt ← put_aux at_ cnt AT_BASE 0;
    cnt ← put_aux at_ cnt AT_FLAGS 0;
    cnt ← put_aux at_ cnt AT_ENTRY entry;
    cnt ← put_aux at_ cnt AT_UID (getuid o);
    cnt ← put_aux at_ cnt AT_EUID (geteuid o);
    cnt ← put_aux at_ cnt AT_GID (getgid o);
    cnt ← put_aux at_ cnt AT_EGID (getegid o);
    cnt ← put_aux at_ cnt AT_RANDOM rand_bytes;
    _ ← put_aux at_ cnt AT_NULL 0;
    jump_start (stack + STACK_SIZE - STACK_STORAGE_SIZE - STACK_STRING_SIZE) exit_func entry) (Elf m l) =
      Done (Start (stack + STACK_SIZE - STACK_STORAGE_SIZE - STACK_STRING_SIZE) exit_func entry, Elf m' l) ∧
    stack_is stack m0 m' (ws ++ aux_words o elf_base phoff phnum entry rand_bytes) bs.
Proof.
  intros K Hkeep Hroom ->. destruct (Hkeep m (sk_same _ _ _ _ _ K)) as [Wo _]. rewrite (bind_ld64 _ _ _ (Elf m l) Wo).
  push_aux K. push_aux K.
  match type of K with stack_is _ _ ?m1 _ _ => destruct (Hkeep m1 (sk_same _ _ _ _ _ K)) as [_ Wn]; rewrite (bind_ld16 _ _ _ (Elf m1 l) Wn) end.
  do 11 push_aux K. eexists. split; [reflexivity|]. unfold aux_words. rewrite <- !app_assoc in K. exact K.
Qed.

Lemma stM_ret_r {S A} (f : stM S A) s : (f ≫= mret) s = f s.
Proof. unfold mbind, stM_bind. by destruct (f s) as [[a t]| | | |]. Qed.
Lemma push_run stack m0 m ws bs v l p :
  stack_is stack m0 m ws bs → 8 * (Z.of_nat (length ws) + 1) ≤ STACK_STORAGE_SIZE →
  p = stack + STACK_SIZE - STACK_STORAGE_SIZE - STACK_STRING_SIZE + 8 * Z.of_nat (length ws) →
  ∃ m', st64 p v (Elf m l) = Done (tt, Elf m' l) ∧ stack_is stack m0 m' (ws ++ [v]) bs.
Proof.
  intros H1 H2 H3. destruct (push_word stack m0 m ws bs v l p mret H1 H2 H3) as (m' & E & K). exists m'. by rewrite stM_ret_r in E.
Qed.

(** What [elf_run] needs: arguments and environment that nothing is written over, a
    stack from the host apart from the program's pages, and room for the strings and
    the words. *)
Record start_ok (o : os) (fuel : nat) (m m2 : bmem) (rand_bytes stack base : Z) (xs : list (segment * list Z)) (argv env : Z)
    (args envs : list (Z * list Z)) : Prop := {
  so_rand : writable m rand_bytes 16 ∧ length (os_read o (os_open o (chars "/dev/urandom")) 16) = 16%nat ∧
    Forall is_byte (os_read o (os_open o (chars "/dev/urandom")) 16);
  so_rand_out : ∀ a, rand_bytes ≤ a < rand_bytes + 16 → ¬ in_stack stack a ∧ ¬ loaded_pages base xs a;
  so_args : env_at m argv args ∧ env_out (written rand_bytes stack base xs) argv args;
  so_envs : env_at m env envs ∧ env_out (written rand_bytes stack base xs) env envs;
  so_short : Forall (λ y : Z * list Z, (length y.2 < fuel)%nat) (args ++ envs);
  so_words : 8 * Z.of_nat (length args + length envs + 29) ≤ STACK_STORAGE_SIZE;
  so_chars : Z.of_nat (length (packed (snd <$> args)) + length (packed (snd <$> envs))) ≤ STACK_STRING_SIZE;
  so_mmap : os_mmap o 0 STACK_SIZE (Z.lor (Z.lor PROT_READ PROT_WRITE) PROT_EXEC) (Z.lor MAP_PRIVATE MAP_ANON)
    (put_bytes rand_bytes (os_read o (os_open o (chars "/dev/urandom")) 16) m) = Done (stack, m2);
  so_mem : same_but (in_stack stack) (put_bytes rand_bytes (os_read o (os_open o (chars "/dev/urandom")) 16) m) m2;
  so_writable : writable m2 stack STACK_SIZE;
  so_pages : ∀ a, in_stack stack a → ¬ loaded_pages base xs a;
  so_fuel : (length args + length envs + length xs + 20 < fuel)%nat
}.

(** C24: [elf_run] starts a program.  A statically linked file without constructors is
    loaded, and control goes to its entry with the stack pointer at what the ABI asks
    for: the number of arguments, the pointers to the arguments and a null, those to the
    environment and a null, and the auxiliary vector; the strings are packed at the end
    of the stack and AT_RANDOM points to sixteen random bytes.  Everything else is as it
    was, in particular the segments. *)
Theorem elf_run_correct o `{FixedMmap o} fuel m log rand_bytes dot_init dot_init_array exit_func buf flen base ty entry phoff xs argv env args envs stack m2 :
  start_ok o fuel m m2 rand_bytes stack base xs argv env args envs →
  (∀ m', same_but (written rand_bytes stack base xs) m m' → runnable o fuel m' buf flen base ty entry phoff xs dot_init dot_init_array) →
  Forall (λ x, g_type x.1 ≠ PT_INTERP) xs →
  let sp := stack + STACK_SIZE - STACK_STORAGE_SIZE - STACK_STRING_SIZE in
  let strs := stack + STACK_SIZE - STACK_STRING_SIZE in
  let chars_ := packed (snd <$> args) ++ packed (snd <$> envs) in
  let low := foldl Z.min (2 ^ 64 - 1) ((λ x, base + map_start x.1) <$> filter (λ x, loads x.1 = true) xs) in
  let words := [Z.of_nat (length args)] ++ word_ptrs strs (snd <$> args) ++ [0] ++
    word_ptrs (strs + Z.of_nat (length (packed (snd <$> args)))) (snd <$> envs) ++ [0] ++
    aux_words o low phoff (Z.of_nat (length xs)) (base + entry) rand_bytes in
  ∃ m' log', elf_run o fuel rand_bytes dot_init dot_init_array exit_func buf argv env (Elf m log) =
      Done (Start sp exit_func (base + entry), Elf m' log') ∧
    bytes_at m' sp (ptr_array words) ∧ bytes_at m' strs chars_ ∧
    bytes_at m' rand_bytes (os_read o (os_open o (chars "/dev/urandom")) 16) ∧
    (∀ g l, (g, l) ∈ xs → loads g = true → bytes_at m' (base + map_start g) (image g l)) ∧
    same_but (written rand_bytes stack base xs) m m'.
Proof.
  intros [] Hrun Hint sp strs chars_ low words. destruct so_rand0 as (Hrw & Hrl & Hrb). destruct so_args0 as [Ha Hao], so_envs0 as [He Heo].
  apply Forall_app in so_short0 as [Hsa Hse]. set (Wr := written rand_bytes stack base xs) in *.
  set (rb := os_read o (os_open o (chars "/dev/urandom")) 16) in *. set (m1 := put_bytes rand_bytes rb m) in *.
  assert (same_but Wr m m1) as S1 by (apply same_but_put; intros a Hin; rewrite Hrl in Hin; left; lia).
  assert (∀ a, in_stack stack a → Wr a) as HstW by (intros a Hin; right; by left).
  assert (same_but Wr m m2) as S2 by (apply (same_but_trans _ _ m1); [done|]; by apply (same_but_weaken _ _ _ _ HstW)).
  pose proof (program_fits _ _ _ _ _ _ _ _ (rn_program _ _ _ _ _ _ _ _ _ _ _ _ (Hrun m2 S2))) as [Hfit Hbounds].
  set (m3 := foldl (load_mem base) m2 xs).
  assert (same_but (loaded_pages base xs) m2 m3) as S23 by by apply load_mem_same.
  assert (same_but Wr m m3) as S3 by (apply (same_but_trans _ _ m2); [done|]; apply (same_but_weaken _ _ _ _ (λ a Hin, or_intror (or_intror Hin)) S23)).
  unfold elf_run, _get_rand.
  erewrite bind_e_put by (apply st_bytes_ok; [exact Hrb|fold rb; by rewrite Hrl]). fold rb. fold m1.
  assert (Z.of_nat (length args + length envs) < 2 ^ 31 - 100) as Hcount by (unfold STACK_STORAGE_SIZE in *; lia).
  rewrite (stM_bind_Done _ _ _ _ _ (count_loop_ok argv args m1 log fuel 0 ltac:(rewrite Z.mul_0_r, Z.add_0_r; by apply (env_at_same Wr m)) ltac:(lia) ltac:(lia) ltac:(lia))).
  rewrite (stM_bind_Done _ _ _ _ _ (count_loop_ok env envs m1 log fuel 0 ltac:(rewrite Z.mul_0_r, Z.add_0_r; by apply (env_at_same Wr m)) ltac:(lia) ltac:(lia) ltac:(lia))).
  erewrite bind_mmap by exact so_mmap0.
  destruct (elf_load_ok o fuel buf flen stack STACK_SIZE base ty entry xs 0 0 m2
    (Mmap 0 STACK_SIZE (Z.lor (Z.lor PROT_READ PROT_WRITE) PROT_EXEC) (Z.lor MAP_PRIVATE MAP_ANON) :: log)
    (rn_program _ _ _ _ _ _ _ _ _ _ _ _ (Hrun m2 S2)) ltac:(lia)) as (log0 & Eload).
  rewrite lowest_min in Eload; [|lia|apply (Forall_impl _ _ _ Hbounds); intros x Hx El; destruct (Hx El); lia]. fold low m3 in Eload.
  rewrite (stM_bind_Done _ _ _ _ _ Eload). cbn [default from_option]. set (log3 := reverse _ ++ _).
  rewrite (stM_bind_Done _ _ _ _ _ (get_interp_none o fuel buf flen base ty entry xs m3 log3 (rn_program _ _ _ _ _ _ _ _ _ _ _ _ (Hrun m3 S3)) ltac:(lia) Hint)).
  rewrite Z.eqb_refl, bind_mret.
  assert (writable m3 stack STACK_SIZE) as Hw3 by (intros a Hin; rewrite S23 by (by apply so_pages0); by apply so_writable0).
  rewrite bind_memset0 by (try apply (writable_weaken _ _ _ _ _ Hw3); unfold STACK_SIZE, STACK_STORAGE_SIZE; lia).
  set (m4 := put_bytes stack (replicate (Z.to_nat STACK_STORAGE_SIZE) 0) m3).
  assert (stack_is stack m3 m4 [] []) as K.
  { split; [done|done|by vm_compute|by vm_compute| |by apply writable_put]. apply same_but_put. intros a Hin. rewrite length_replicate in Hin.
    unfold in_stack, STACK_SIZE, STACK_STORAGE_SIZE in *. lia. }
  assert (∀ m', same_but (in_stack stack) m3 m' → same_but Wr m m') as S3m
    by (intros m' Hm'; apply (same_but_trans _ _ m3); [done|]; by apply (same_but_weaken _ _ _ _ HstW)).
  fold sp strs. unfold STACK_STORAGE_SIZE in so_words0.
  destruct (push_run stack m3 m4 [] [] (0 + Z.of_nat (length args)) log3 sp K) as (m5 & E5 & K5); [by vm_compute|cbn [length]; unfold sp; lia|].
  rewrite (stM_bind_Done _ _ _ _ _ E5). clear E5 K. cbn [app] in K5.
  destruct (copy_loop_ok fuel stack m3 argv (sp + 8) (0 + Z.of_nat (length args)) log3 args fuel 0 m5 [0 + Z.of_nat (length args)] [] 1) as (m6 & E6 & K6);
    [rewrite Z.mul_0_r, Z.add_0_r; by apply (env_at_same Wr m)|rewrite Z.mul_0_r, Z.add_0_r; by apply (env_out_weaken Wr)|exact K5|done
    |cbn [length]; unfold STACK_STORAGE_SIZE; lia|cbn [length]; lia|cbn [length]; unfold sp; lia|lia|lia|lia|lia|].
  rewrite (stM_bind_Done _ _ _ _ _ E6). clear E6 K5. cbn [app length] in K6 |- *. rewrite Z.add_0_r in K6. fold strs in K6.
  set (pa := packed (snd <$> args)) in *. set (wa := Z.of_nat (length args) :: word_ptrs strs (snd <$> args)) in *.
  assert (length wa = S (length args)) as Lwa by (unfold wa; cbn [length]; by rewrite word_ptrs_length, length_fmap).
  change (0 + Z.of_nat (length args) :: word_ptrs strs (snd <$> args)) with wa in K6.
  destruct (push_run stack m3 m6 wa pa 0 log3 (sp + 8 * (1 + Z.of_nat (length args))) K6) as (m7 & E7 & K7);
    [rewrite Lwa; unfold STACK_STORAGE_SIZE; lia|rewrite Lwa; unfold sp; lia|].
  rewrite (stM_bind_Done _ _ _ _ _ E7). clear E7 K6. rewrite s32_small by lia.
  destruct (copy_loop_ok fuel stack m3 env (sp + 8 * (1 + Z.of_nat (length args) + 1)) (0 + Z.of_nat (length envs)) log3 envs fuel 0 m7 (wa ++ [0]) pa
    (1 + Z.of_nat (length args) + 1)) as (m8 & E8 & K8);
    [rewrite Z.mul_0_r, Z.add_0_r; by apply (env_at_same Wr m)|rewrite Z.mul_0_r, Z.add_0_r; by apply (env_out_weaken Wr)|exact K7|done
    |rewrite length_app, Lwa; cbn [length]; unfold STACK_STORAGE_SIZE; lia|lia|rewrite length_app, Lwa; cbn [length]; unfold sp; lia|lia|lia|lia|lia|].
  rewrite (stM_bind_Done _ _ _ _ _ E8). clear E8 K7. fold strs in K8.
  set (we := word_ptrs (strs + Z.of_nat (length pa)) (snd <$> envs)) in *.
  assert (length we = length envs) as Lwe by (unfold we; by rewrite word_ptrs_length, length_fmap).
  destruct (push_run stack m3 m8 ((wa ++ [0]) ++ we) (pa ++ packed (snd <$> envs)) 0 log3 (sp + 8 * (1 + Z.of_nat (length args) + 1 + Z.of_nat (length envs))) K8) as (m9 & E9 & K9);
    [rewrite !length_app, Lwa, Lwe; cbn [length]; unfold STACK_STORAGE_SIZE; lia|rewrite !length_app, Lwa, Lwe; cbn [length]; unfold sp; lia|].
  rewrite (stM_bind_Done _ _ _ _ _ E9). clear E9 K8. rewrite s32_small by lia.
  assert (∀ m', same_but (in_stack stack) m3 m' → runnable o fuel m' buf flen base ty entry phoff xs dot_init dot_init_array) as Hrun3 by (intros m' Hm'; by apply Hrun, S3m).
  rewrite (stM_bind_Done _ _ _ _ _ (run_constructors_none o fuel m9 buf flen base ty entry phoff xs dot_init dot_init_array low _ argv env log3
    (Hrun3 m9 (sk_same _ _ _ _ _ K9)) ltac:(lia))).
  destruct (push_aux_all o m3 m9 (((wa ++ [0]) ++ we) ++ [0]) (pa ++ packed (snd <$> envs)) stack
    (sp + 8 * (1 + Z.of_nat (length args) + 1 + Z.of_nat (length envs) + 1)) low (base + entry) rand_bytes buf phoff (Z.of_nat (length xs)) exit_func log3 K9) as (m10 & E10 & K10).
  { intros m' Hm'. destruct (Hrun3 m' Hm') as [Hpg Hph _ _ _]. split; [done|apply (pg_num _ _ _ _ _ _ _ _ Hpg)]. }
  { rewrite !length_app, Lwa, Lwe. cbn [length]. unfold STACK_STORAGE_SIZE. lia. }
  { rewrite !length_app, Lwa, Lwe. cbn [length]. unfold sp. lia. }
  exists m10, log3. split; [exact E10|]. destruct K10. split; [|split; [done|split; [|split; [|by apply S3m]]]].
  - replace words with ((((wa ++ [0]) ++ we) ++ [0]) ++ aux_words o low phoff (Z.of_nat (length xs)) (base + entry) rand_bytes); [done|].
    unfold words, wa. cbn [app]. by rewrite <- !app_assoc.
  - apply (bytes_at_frame m1); [apply bytes_at_put|]. intros a Hin. rewrite Hrl in Hin. destruct (so_rand_out0 a ltac:(lia)) as [H1 H2].
    by rewrite sk_same0, S23, so_mem0 by done.
  - intros g l Hin El. apply (bytes_at_frame m3); [by apply (load_mem_bytes base xs m2 Hfit (pg_apart _ _ _ _ _ _ _ _ (rn_program _ _ _ _ _ _ _ _ _ _ _ _ (Hrun m2 S2))) (g, l))|].
    intros a Ha'. apply sk_same0. intros Hst. apply (so_pages0 a Hst). exists (g, l). split; [done|]. split; [done|].
    unfold in_pages. pose proof (proj1 (Forall_forall _ _) Hfit (g, l) Hin El). cbn [fst snd] in *. lia.
Qed.

(** ** The file of Elf.v on a host *)
Definition demo_segments : list (segment * list Z) :=
  [(Seg PT_LOAD 5 512 0x400100 8 8, [1; 2; 3; 4; 5; 6; 7; 8]); (Seg PT_LOAD 6 520 0x402000 4 16, [9; 10; 11; 12]); (Seg PT_GNU_STACK 6 0 0 0 0, [])].
(** A host that has its own pages at 0x7f0000000000. *)
Definition demo_os : os :=
  Os (λ addr len prot flags m, let p := if Z.land flags MAP_FIXED =? 0 then 0x7f0000000000 else addr in Done (p, put_bytes p (replicate (Z.to_nat len) 0) m))
    (λ addr len m, Done m) (λ name, 3) (λ fd, 16) (λ fd n, replicate (Z.to_nat n) 7) 1000 1000 100 100 (λ f argc argv env m, Done m).
Instance demo_os_fixed : FixedMmap demo_os.
Proof. intros addr len m _ _ _ _ _. reflexivity. Qed.

Section demo.
Context (m : bmem) (Hm : bytes_at m 0x10000 demo_file).
Lemma demo_program : program demo_os m 0x10000 532 0 2 0x400100 demo_segments.
Proof.
  split; try (by apply (word_sub _ _ _ _ _ _ Hm); vm_compute); try done.
  - exists 64. split; [by apply (word_sub _ _ _ _ _ _ Hm); vm_compute|]. split; [done|].
    refine (conj _ (conj _ (conj _ I))); unfold segment_at; split_and!; by apply (word_sub _ _ _ _ _ _ Hm); vm_compute.
  - assert (∀ g l, (g_type g = PT_GNU_STACK → Z.testbit (g_flags g) 2 = true) →
      (loads g = true → loadable m 0x10000 532 0 g l) → seg_ok 0x10000 532 0 m (g, l)) as Hs by (intros; by split).
    constructor; [|constructor; [|constructor; [|constructor]]]; apply Hs; try done; intros _; split; try done;
      try (by apply (bytes_sub _ _ _ _ _ Hm); vm_compute); try (by vm_compute); by repeat constructor.
  - repeat constructor; unfold pages_apart, apart; vm_compute; intros; try done; lia.
Qed.
End demo.


(** A command line of one word, one variable, and the arrays and literals. *)
Definition demo_start : bmem :=
  put_bytes 0x30000 (ptr_array [0x30100; 0]) (put_bytes 0x30100 (cstr "prog") (put_bytes 0x30200 (ptr_array [0x30300; 0]) (put_bytes 0x30300 (cstr "A=1")
    (put_bytes 0x30400 (replicate 16 0) (put_bytes 0x30500 (cstr ".init") (put_bytes 0x30510 (cstr ".init_array") demo_mem)))))).
Definition demo_stack : Z := 0x7f0000000000.
Definition demo_rand : list Z := os_read demo_os (os_open demo_os (chars "/dev/urandom")) 16.
Definition demo_started : bmem := put_bytes demo_stack (replicate (Z.to_nat STACK_SIZE) 0) (put_bytes 0x30400 demo_rand demo_start).
Definition demo_args : list (Z * list Z) := [(0x30100, chars "prog")].
Definition demo_envs : list (Z * list Z) := [(0x30300, chars "A=1")].
Lemma demo_pages a : loaded_pages 0 demo_segments a → 0x400000 ≤ a < 0x403000.
Proof.
  intros (x & Hx & El & Hp). unfold in_pages in Hp. unfold demo_segments in Hx.
  rewrite !elem_of_cons, elem_of_nil in Hx. destruct Hx as [->|[->|[->|[]]]]; vm_compute in El; try done; cbn [fst] in Hp;
    change (map_start (Seg PT_LOAD 5 512 0x400100 8 8)) with 0x400000 in Hp; change (map_size (Seg PT_LOAD 5 512 0x400100 8 8)) with 0x1000 in Hp;
    change (map_start (Seg PT_LOAD 6 520 0x402000 4 16)) with 0x402000 in Hp; change (map_size (Seg PT_LOAD 6 520 0x402000 4 16)) with 0x1000 in Hp; lia.
Qed.
Lemma demo_written a : written 0x30400 demo_stack 0 demo_segments a → 0x30400 ≤ a < 0x30410 ∨ 0x400000 ≤ a.
Proof. unfold written, in_stack, demo_stack. intros [?|[?|?%demo_pages]]; lia. Qed.
Lemma demo_runnable m' : same_but (written 0x30400 demo_stack 0 demo_segments) demo_start m' →
  runnable demo_os 100 m' 0x10000 532 0 2 0x400100 64 demo_segments 0x30500 0x30510.
Proof.
  intros Hs. assert (∀ p l, p + Z.of_nat (length l) ≤ 0x30400 ∨ 0x30410 ≤ p ∧ p + Z.of_nat (length l) ≤ 0x400000 → bytes_at demo_start p l → bytes_at m' p l) as F.
  { intros p l Hp Hb. apply (bytes_at_frame demo_start); [done|]. intros a Ha. apply Hs. intros Hw%demo_written. lia. }
  assert (bytes_at m' 0x10000 demo_file) as Hf by (apply F; [vm_compute; left; done|by apply bytes_at_bool; vm_compute]).
  split.
  - by apply demo_program.
  - by apply (word_sub _ _ _ _ _ _ Hf); vm_compute.
  - exists 232, demo_sections, demo_strtab, demo_tabs. split; [by apply demo_elf_file|]. split; [repeat constructor|]. split; [vm_compute; lia|]. split; by vm_compute.
  - split; [repeat constructor|]. apply F; [vm_compute; right; split; done|by apply bytes_at_bool; vm_compute].
  - split; [repeat constructor|]. apply F; [vm_compute; right; split; done|by apply bytes_at_bool; vm_compute].
Qed.
Lemma demo_mmap len m : os_mmap demo_os 0 len (Z.lor (Z.lor PROT_READ PROT_WRITE) PROT_EXEC) (Z.lor MAP_PRIVATE MAP_ANON) m =
  Done (demo_stack, put_bytes demo_stack (replicate (Z.to_nat len) 0) m).
Proof. reflexivity. Qed.
Lemma demo_start_ok : start_ok demo_os 100 demo_start demo_started 0x30400 demo_stack 0 demo_segments 0x30000 0x30200 demo_args demo_envs.
Proof.
  assert (length (replicate (Z.to_nat STACK_SIZE) 0) = Z.to_nat STACK_SIZE) as L by apply length_replicate.
  assert (Z.of_nat (Z.to_nat STACK_SIZE) = STACK_SIZE) as LZ by (by apply Z2Nat.id).
  split.
  - split; [apply (writable_bool _ _ 16); by vm_compute|]. split; [done|]. by repeat constructor.
  - intros a Ha. unfold in_stack, demo_stack. split; [lia|]. intros Hp%demo_pages. lia.
  - split.
    + split_and!; [done|done|by apply bytes_at_bool; vm_compute|by apply str_at_bool; vm_compute|by apply bytes_at_bool; vm_compute].
    + split; [intros a Ha Hw%demo_written; lia|]. split; [intros a Ha Hw%demo_written; change (length (chars "prog")) with 4%nat in Ha; lia|].
      split; [intros a Ha Hw%demo_written; lia|exact I].
  - split.
    + split_and!; [done|done|by apply bytes_at_bool; vm_compute|by apply str_at_bool; vm_compute|by apply bytes_at_bool; vm_compute].
    + split; [intros a Ha Hw%demo_written; lia|]. split; [intros a Ha Hw%demo_written; change (length (chars "A=1")) with 3%nat in Ha; lia|].
      split; [intros a Ha Hw%demo_written; lia|exact I].
  - by repeat constructor.
  - by vm_compute.
  - by vm_compute.
  - apply demo_mmap.
  - apply same_but_put. intros a Ha. rewrite L, LZ in Ha. done.
  - apply writable_bytes; [lia|]. rewrite L, LZ. lia.
  - intros a Ha Hp%demo_pages. unfold in_stack, demo_stack in Ha. lia.
  - vm_compute. lia.
Qed.
Lemma elf_run_correct_witness :
  ∃ m' log', elf_run demo_os 100 0x30400 0x30500 0x30510 0x5555 0x10000 0x30000 0x30200 (Elf demo_start []) =
      Done (Start (demo_stack + STACK_SIZE - 0xa000) 0x5555 0x400100, Elf m' log') ∧
    bytes_at m' (demo_stack + STACK_SIZE - 0x5000) (cstr "prog" ++ cstr "A=1") ∧
    bytes_at m' (demo_stack + STACK_SIZE - 0xa000) (ptr_array ([1; demo_stack + STACK_SIZE - 0x5000; 0; demo_stack + STACK_SIZE - 0x5000 + 5; 0] ++
      aux_words demo_os 0x400000 64 3 0x400100 0x30400)).
Proof.
  destruct (elf_run_correct demo_os 100 demo_start [] 0x30400 0x30500 0x30510 0x5555 0x10000 532 0 2 0x400100 64 demo_segments 0x30000 0x30200
    demo_args demo_envs demo_stack demo_started demo_start_ok demo_runnable ltac:(repeat constructor; done)) as (m' & log' & E & Hw & Hc & _).
  exists m', log'. split; [exact E|]. split; [exact Hc|exact Hw].
Defined.
